(* ===== verification/_CoqProject ===== *)
-Q . S2P
Prelude.v
FrameCodec.v
HashTable.v
ErrorCode.v
Os.v
Transport.v
Address.v
FrameSend.v
EventPair.v
Server.v
ServerTable.v
ServerProps.v
ServerTheorems.v
ServerPubSub.v
ClientPending.v
Client.v
ClientProps.v
ClientTheorems.v
ClientClaims.v
ClientDefects.v
Rpc.v
RpcProps.v
RpcClaims.v
ClientLive.v
CliAuto.v
CliAutoProps.v
CliAutoClaims.v
Protocol.v
ProtocolClaims.v
Node.v
NodeProps.v
NodeClaims.v
Global.v
EndToEnd.v
Service.v
ServiceClaims.v
Json.v
SsnService.v
SsnServiceClaims.v
SsnClient.v
SsnClientClaims.v
SsnClientLife.v
JsonCall.v
IntrusiveList.v
Locks.v
LockOrder.v
LockPrograms.v
LockClaims.v
Races.v
PubSubEndToEnd.v
Typed.v
Platform.v
