(* ===== verification/Prelude.v ===== *)
(** * SSN IPC framework: verification library (root file)

    ** The program

    [src/src] is a C library for message passing between processes.  A frame
    (15-byte header, URL, payload) travels over a transport (Unix, TCP or UDP
    socket).  A server accepts connections, answers RPC requests with the
    methods registered for a URL, keeps the subscriptions of each connection and
    publishes to them.  A client connects, performs a HELLO handshake, sends
    requests numbered with 16-bit sequence numbers, matches the replies to them
    and fails those that run out of time.  Two timer threads, started by the global
    initialisation, count down handshake, idle and request times in 50 ms steps and
    wake the event loops through an eventfd.  A reconnecting client runs a client
    in a thread of its own, pings and connects again.  A node owns a server and a
    client and offers both under one handle.  Below them, protocol contexts
    (publisher, subscriber, sender, receiver, requester, replier) speak the same
    frames over a transport directly.

    [src/src/framework] is a C++ layer on top of the nodes: a life cycle for
    services with hooks of the application, a pool of threads, a runner that turns
    SIGINT and SIGTERM into a clean stop, a service that answers requests for JSON
    methods, and a client that calls them and polls its node in a thread of its own.

    ** Files and what they model

    - [Prelude]: machine integers, byte strings, generic lemmas, tactics and the
      hint database shared by the rest.
    - [FrameCodec] ([ssn_frame.h], [ssn_frame.c]): header and accessors,
      [ssn_packet_input], and the stream parser [ssn_stream_feed] on its buffer
      with head and tail offsets.  The reference is the deframer on a plain byte
      list.
    - [HashTable] ([util/ssn_hash_table.c]): buckets as lists of nodes, both key
      kinds, growing; allocation results are arguments; a read of an unwritten
      field is the result [None].
    - [ErrorCode] ([ssn_error.h], [ssn_error.c]).
    - [Os]: the system calls as a class [OsOps] over an abstract world, the
      documented facts used about them as a class [OsLaws] (descriptors opened
      and closed, bytes accepted for sending), and an instance, a small simulated
      kernel, used by the examples.
    - [Transport] ([transports/ssn_transport_unix.c], [_tcp.c], [_udp.c],
      [_factory.c]): the adapters and the dispatch over the operation table.
    - [Address] ([transports/ssn_transport.c]): parsing and printing addresses.
    - [FrameSend] ([ssn_send_message] of [ssn_frame.c]).
    - [EventPair] ([vsi/ipc_event.c], Linux branch).
    - [Server] ([ssn_server.c]): every function of the file as an operation on a
      server record and the world.  [ServerTable] relates the hash chains to a
      finite map, [ServerProps] holds the invariant and its preservation,
      [ServerTheorems] reachable states, safety and timers, [ServerPubSub]
      subscriptions, publishing and method dispatch.
    - [ClientPending], [Client] ([ssn_client.c]): the table of pending requests
      and the client's operations.  [ClientProps] holds the invariant and its
      preservation, [ClientTheorems] the handshake, connecting and reachable
      states, [ClientClaims] which callbacks are made for which requests,
      [ClientDefects] behaviour the code does not intend.
    - [Rpc] ([protocol/rpc/ssn_rpc.c]): the requester with its pending pool and the
      replier with its method table, the latter over the interface [StrMap] of
      string maps that [HashTable] implements.  [RpcProps] holds the invariant,
      [RpcClaims] reachable requesters and the theorems.
    - [ClientLive]: clients under callbacks that do not close them; ping.
    - [CliAuto] ([ssn_cliauto.c]): the reconnecting client, its thread as steps
      between acquisitions of the mutex.  [CliAutoProps] holds the step relation of
      thread, application, timer and kernel with its invariant, [CliAutoClaims]
      the theorems.
    - [Protocol] ([protocol/pubsub/ssn_pubsub.c], [protocol/msg/ssn_msg.c],
      [protocol/ssn_protocol.c]): the other contexts and the dispatch over all six
      roles, the subscriber's table over [StrMap] again.  [ProtocolClaims] holds the
      theorems.
    - [Node] ([node/ssn_node.c], [node/ssn_node_comm.c]): nodes over the operations
      of [Server] and [Client].  [NodeProps] holds the invariant, [NodeClaims]
      reachable nodes and the theorems.
    - [Global] ([ssn_global.c], the mutex, thread and platform primitives of [vsi/]
      it uses, the timer threads of [ssn_client.c] and [ssn_server.c], and what their
      create and close functions do to the global lists and locks): initialisation with
      its rollback, cleanup, and their interleavings with the timer threads and the
      application.
    - [EndToEnd]: an RPC call composed from client, wire and server;
      [PubSubEndToEnd]: a subscription and a publication likewise.
    - [Service] ([framework/ServiceBase.cpp], [ServiceTask.cpp],
      [ServiceManager.cpp] and the template [Run] of their headers): the life cycle
      over a record of virtual members, the pool as steps of its owner and its
      threads, the runner over a process with a signal mask, handlers and signals
      that arrive.  [ServiceClaims] holds the theorems.
    - [Json]: the operations of the third-party JSON class that are called, as a
      class [Json], what is relied on as a class [JsonLaws], and an instance.
    - [SsnService] ([framework/SsnService.cpp], [version/ssn_version.c]): the JSON
      service over the node.  [SsnServiceClaims] holds the theorems.
    - [SsnClient] ([framework/SsnClient.cpp]): the JSON client over the node.
      [SsnClientClaims] holds the step relation of application, polling thread,
      timer and world with its invariant and the theorems, [SsnClientLife] the same
      members once more without their data, cut wherever another thread can get in
      between, with any number of application threads; [JsonCall] a JSON call
      composed from client and service, [Typed] the templates [Call] and
      [RegisterMethod] of the headers around it, over the interface [Dto] of the
      conversions of the application's types.
    - [IntrusiveList] ([ssn_list.h]): the list macros on pointers, and that they
      implement the lists the other files keep as values.
    - [Locks] (spin locks of [vsi/ipc_mutex.c], [util/ssn_mutex.c]): the locks, and
      [ssn_client_prepare_seqno] of [ssn_client.c] access by access, run by any number
      of threads.
    - [LockOrder]: a language of lock skeletons, its threads, and an executable check
      that implies that they do not deadlock.  [LockPrograms] has the skeleton of every
      function of [ssn_server.c], [ssn_client.c], [ssn_global.c], [ssn_cliauto.c],
      [node/] and [framework/] that takes a mutex, waits, starts or joins a thread or
      sends or receives, or calls back; its name is that of the function with [_locks].  [LockClaims] puts
      them together to programs and holds the theorems.
    - [Races]: functions cut where they use shared data outside the mutex.
    - [Platform] ([util/ssn_log.c], the rest of [vsi/] on Linux): logging, mutexes,
      sleeping, socket wrappers.

    ** Modelling decisions

    - Fixed-width integers are [Z] with the wraps [u8] ... [i32] written out.
    - State is passed explicitly: an operation takes the component's record and
      the world and returns both.  [None] as an outer result is undefined
      behaviour of the C code (freed or NULL memory is followed, [FD_SET] past
      its array, uninitialised memory is read) or lack of fuel; failures the code
      reports are values.
    - Application callbacks are a parameter [user]: which API calls the callback
      makes for an event in a state.  Callbacks of the client nest; two levels
      are proved to be enough, since a disconnected client makes none.
    - What the application may do is stated where it is assumed: it passes valid memory
      ([call_ok], [ccall_ok], [op_ok]), and it registers no directory method at a server
      once the newest one was removed ([add_safe]), since that registration follows a
      dangling tail pointer and is itself undefined.  Removing a method at any time is
      allowed.
    - Pointers into tables are ids (peer id, node number, slot index); a handler
      that keeps a pointer over a callback looks the id up again and is undefined
      if it is gone.
    - A protocol context is its stored type, role and destroy function next to the
      object it was allocated as; a poll or a destruction looks at the stored fields and
      is undefined when the object is another one.
    - A timer thread's pass over one object is a step of its own.  In [Server],
      [Client], [Node] and the contexts every operation is one step.  Their locks are
      the subject of [LockOrder], where a function is its lock skeleton: a test that
      is not about mutexes is a choice, so every path of the code is one of the
      skeleton, and sending, receiving or connecting is an action [Io] that a peer may
      delay.  Accesses inside an operation are steps of their own only in [Locks]
      and [Races].
    - Where the code's own threads are the subject ([CliAuto], [Global]) a step of a
      thread is the code between two acquisitions of the mutex, two readings of the
      exit flag or up to a join, and the theorems hold for all interleavings.
    - C++ exceptions are the result [Throw]; members that may throw form a small
      state and exception monad.  Virtual members are a record of such functions.
    - Signals and stop requests of other threads arrive between the steps of [Run]
      as an argument says, any number at any point; each of the six system calls that
      install and restore mask and handlers succeeds or fails as an argument says.
    - The callbacks of the JSON client, which call nothing of the node, are worked
      off right after the operation of the node in which they were made.
    - A pointer to an object its own callbacks destroyed is [None]; following it is
      undefined.  The value of an uninitialised local is an argument.
    - Fuel: the stream parser, the write loops, id search, ping and [pselect]
      retries take fuel.  The parser, the write loops and the id search are given
      enough by the operations themselves, and this is proved; the number of
      signals that interrupt [pselect] and the rounds of the [run] loops and of the
      waiting in [Run] are arguments, since the code has no bound; for [Run] a signal
      is proved to end it.

    ** What the theorems show

    - Framing: the parser delivers what the reference deframer finds, packets
      arrive once and in order for every cut of the stream, malformed input is
      rejected, and sender and parser compose to end-to-end delivery.
    - Descriptors: connecting, accepting, creating and destroying transports leak
      and double-close nothing on any path.
    - Server: a poll from any reachable state is defined and keeps the invariant;
      ids are unique, the limit holds; connections expire exactly when their time
      is over; publications reach exactly the matching subscribers; dispatch is
      that of a reference registry, after every sequence of registrations and removals
      that is defined, and it is said exactly which are.
    - Client: a poll from any reachable state is defined; the request table is
      consistent; a reply finds the request with its number and calls its callback if it
      is of the request's kind; timeouts, disconnecting and reconnecting call back the
      requests they end once each, if the callbacks call nothing.
    - RPC contexts: numbers in flight are unique and a free one is always found,
      replies and expiry end exactly their own requests, the registry is a finite
      map.
    - Publish/subscribe and message contexts: subscriptions are a finite map and
      the frames sent are those of its changes; a sent message reaches the
      receiver's callback; contexts store the role asked for, and polling and destroying
      them through the stored fields reaches their own objects.
    - Reconnecting client: no interleaving of thread and application follows freed
      memory, and the handle is a live client exactly from a start to the join of the
      thread; a stop ends the thread and gives its memory back; a dead connection
      is noticed, and a connection attempt that succeeds restores service.
    - Nodes: every operation on a reachable node, destroying included, is defined, start and stop balance
      the descriptors, the client has one peer, the listening address is bounded.
    - Global: timer threads use only live mutexes and find consistent objects, and a
      cleanup ends, for every interleaving; creating and closing clients and servers is
      defined exactly while the library has its locks.
    - End to end: a call made on a client is sent, answered by the server's method
      and handed to the callback of that call; a JSON call returns what the method of
      the service answered, or its error object, a typed one the method's value; a
      subscription is noted by the server, and a publication under it makes exactly the
      subscription's callback.
    - Locks: no interleaving of the library's threads with any number of application
      threads deadlocks, unlocks what it does not hold or touches guarded data without
      the mutex, if callbacks call only servers and clients; who waits for a peer may
      hold the lock of its server or client, but no lock of the lists.
    - Logging: exactly the messages at the level or above are written, a line each; the
      calls of a thread keep their order under every schedule.
    - Services: hooks are called in the order of the life cycle and paired; waiting for
      the pool ends; [Run] gives back mask and handlers on every path but for what a
      failing call leaves, no signal ends the process once it has installed all of them,
      and a signal ends the waiting.
    - JSON service: initialisation leaves all or nothing behind; a request is answered
      once with the result or the error its case has, or loses its connection when the
      answer is too long, or is lost when the answer has no text.
    - JSON client: no interleaving of application threads and polling thread uses a
      destroyed node or overwrites a thread; a disconnect ends.
    - Calls without a callback: threads that number them at the same time get the numbers
      that calls one after the other would give.
    - Tables and codes: the hash table implements a finite map, the list macros
      implement lists, addresses and error codes are read back as written.
    - Defects, theorems that state behaviour contradicting the intent of the code:
      [ClientDefects] (dropped calls, a callback made twice, stale bytes after a
      reconnect), [ServerPubSub] (a dangling list tail, closed peers that stay),
      [Address] (truncated paths), [HashTable] (an uninitialised key), [RpcClaims]
      (unterminated method names), [CliAutoClaims] (a stop that is overwritten, a
      lost connection reported twice; the handle is NULL before a start and after a stop,
      which its header denies), [ProtocolClaims] (packets that arrive
      together, a failed repeated subscription), [NodeClaims] (refused publications
      reported as sent, long peer addresses, a leaked client, a truncated listening
      path), [Global] (a failing initialisation that never returns, a NULL lock after
      one that failed), [ServiceClaims]
      (threads that outlive a second activation), [SsnServiceClaims] (an exception
      through the C layer), [SsnClientClaims] (a failed subscription that drops an
      earlier one), [JsonCall] (an answer taken for that of another call),
      [IntrusiveList] (a stale tail), [Locks] (a spin lock that may be missing),
      [LockClaims] (a node stopped with pending requests and a message handler that
      subscribes during a disconnect never return), [Races] (a reply given to another
      call, an overwritten handshake answer, a poll of a stopped server, a call that
      follows the NULL transport of a connection lost meanwhile), [Platform]
      (log lines that mix).

    ** Not modelled

    The branches for other systems are not part of the Linux build; [ipc_thread_exit]
    is the last statement of the functions that call it.  Log messages are left out of
    the other components, as no result depends on them.  Of the accesses inside one
    operation of a server, client or node only those of [Locks] and [Races] are steps
    of their own, so that the theorems on operations hold where the application calls one
    after the other.  The skeletons have neither the release of an object after its last
    reference nor the flags that tell a thread to end: a join may wait for ever there,
    and [Global], [CliAuto], [Service] and [SsnClientClaims] prove which do not.  The
    [FD_SET] of a descriptor from [FD_SETSIZE] on is undefined in the polls but not in the
    [select] calls of connecting and accepting.  Two threads that initialise or clean up at the same time, and threads that
    use one [SsnService] while it shuts down are not modelled.  Destroying the node of a
    JSON client makes callbacks nobody waits for; they are left out.  The JSON library,
    and how it converts the application's types, is third-party code and an interface
    here.  Tests and examples are programs that use the library and not part of it. *)
From stdpp Require Export base list numbers functions gmap.
From Stdlib Require Export ZArith Lia.

#[global] Open Scope Z_scope.

(** ** Machine integers *)

(** Unsigned and signed C integers are [Z] values; every arithmetic result the
    source stores into a fixed-width object goes through one of these wraps. *)
Definition u8 (x : Z) : Z := x mod 2 ^ 8.
Definition u16 (x : Z) : Z := x mod 2 ^ 16.
Definition u32 (x : Z) : Z := x mod 2 ^ 32.
Definition u64 (x : Z) : Z := x mod 2 ^ 64.
Definition i32 (x : Z) : Z := (x + 2 ^ 31) mod 2 ^ 32 - 2 ^ 31.

(** ** Byte strings and memory *)

Abbreviation bytes := (list Z).

Definition is_byte (b : Z) : Prop := 0 <= b < 256.

Definition zlen {A} (l : list A) : Z := Z.of_nat (length l).
Definition ztake {A} (n : Z) (l : list A) : list A := take (Z.to_nat n) l.
Definition zdrop {A} (n : Z) (l : list A) : list A := drop (Z.to_nat n) l.

(** [slice l off n]: the [n] cells starting at offset [off]. *)
Definition slice {A} (l : list A) (off n : Z) : list A := ztake n (zdrop off l).

(** [memcpy_at dst off src]: the array prefix [dst] after [src] was copied to
    offset [off]; cells past the copied range keep their contents. *)
Definition memcpy_at {A} (dst : list A) (off : Z) (src : list A) : list A :=
  ztake off dst ++ src ++ zdrop (off + zlen src) dst.

(** [memcmp] of the first [n] bytes, as equality. *)
Definition memcmp_eq (a b : bytes) (n : Z) : bool :=
  bool_decide (ztake n a = ztake n b).

(** ** Lemmas and automation *)

Create HintDb ssn discriminated.

Lemma u32_id x : 0 <= x < 2 ^ 32 -> u32 x = x.
Proof. apply Z.mod_small. Qed.
Lemma u16_id x : 0 <= x < 2 ^ 16 -> u16 x = x.
Proof. apply Z.mod_small. Qed.
Lemma u64_id x : 0 <= x < 2 ^ 64 -> u64 x = x.
Proof. apply Z.mod_small. Qed.
Lemma u32_range x : 0 <= u32 x < 2 ^ 32.
Proof. apply Z.mod_pos_bound; lia. Qed.
Lemma u16_range x : 0 <= u16 x < 2 ^ 16.
Proof. apply Z.mod_pos_bound; lia. Qed.
Lemma i32_range x : - 2 ^ 31 <= i32 x < 2 ^ 31.
Proof. unfold i32. pose proof (Z.mod_pos_bound (x + 2 ^ 31) (2 ^ 32)). lia. Qed.
Lemma i32_id x : - 2 ^ 31 <= x < 2 ^ 31 -> i32 x = x.
Proof. intros H. unfold i32. rewrite Z.mod_small; lia. Qed.

Section zlists.
Context {A : Type}.
Implicit Types l k dst src : list A.

Lemma zlen_nonneg l : 0 <= zlen l.
Proof. unfold zlen. lia. Qed.
Lemma zlen_nil : zlen (@nil A) = 0.
Proof. reflexivity. Qed.
Lemma zlen_cons x l : zlen (x :: l) = 1 + zlen l.
Proof. unfold zlen. cbn [length]. lia. Qed.
Lemma zlen_app l k : zlen (l ++ k) = zlen l + zlen k.
Proof. unfold zlen. rewrite length_app. lia. Qed.
Lemma zlen_0_nil l : zlen l = 0 -> l = [].
Proof. destruct l; [done|]. rewrite zlen_cons. pose proof (zlen_nonneg l). lia. Qed.
Lemma zlen_ztake n l : 0 <= n <= zlen l -> zlen (ztake n l) = n.
Proof. unfold zlen, ztake. rewrite length_take. lia. Qed.
Lemma zlen_zdrop n l : 0 <= n <= zlen l -> zlen (zdrop n l) = zlen l - n.
Proof. unfold zlen, zdrop. rewrite length_drop. lia. Qed.
Lemma zlen_slice l off n :
  0 <= off -> 0 <= n -> off + n <= zlen l -> zlen (slice l off n) = n.
Proof. intros. unfold slice. rewrite zlen_ztake; [done|]. rewrite zlen_zdrop; lia. Qed.

Lemma ztake_0 l : ztake 0 l = [].
Proof. reflexivity. Qed.
Lemma zdrop_0 l : zdrop 0 l = l.
Proof. reflexivity. Qed.
Lemma ztake_ge n l : zlen l <= n -> ztake n l = l.
Proof. intros. unfold ztake, zlen in *. apply take_ge. lia. Qed.
Lemma zdrop_ge n l : zlen l <= n -> zdrop n l = [].
Proof. intros. unfold zdrop, zlen in *. apply drop_ge. lia. Qed.
Lemma ztake_zdrop n l : ztake n l ++ zdrop n l = l.
Proof. apply take_drop. Qed.
Lemma zdrop_zdrop n m l : 0 <= n -> 0 <= m -> zdrop m (zdrop n l) = zdrop (n + m) l.
Proof. intros. unfold zdrop. rewrite drop_drop. f_equal. lia. Qed.
Lemma ztake_ztake n m l : 0 <= n <= m -> ztake n (ztake m l) = ztake n l.
Proof. intros. unfold ztake. rewrite take_take. f_equal. lia. Qed.
Lemma ztake_app_le n l k : n <= zlen l -> ztake n (l ++ k) = ztake n l.
Proof. intros. unfold ztake, zlen in *. apply take_app_le. lia. Qed.
Lemma ztake_app_exact l k : ztake (zlen l) (l ++ k) = l.
Proof. unfold ztake, zlen. rewrite Nat2Z.id. apply take_app_length. Qed.
Lemma zdrop_app_exact l k : zdrop (zlen l) (l ++ k) = k.
Proof. unfold zdrop, zlen. rewrite Nat2Z.id. apply drop_app_length. Qed.
Lemma zdrop_app_le n l k : n <= zlen l -> zdrop n (l ++ k) = zdrop n l ++ k.
Proof. intros. unfold zdrop, zlen in *. apply drop_app_le. lia. Qed.
Lemma ztake_app_ge n l k :
  zlen l <= n -> ztake n (l ++ k) = l ++ ztake (n - zlen l) k.
Proof.
  intros. unfold ztake, zlen in *. rewrite take_app_ge by lia.
  do 2 f_equal. lia.
Qed.
Lemma zdrop_app_ge n l k : zlen l <= n -> zdrop n (l ++ k) = zdrop (n - zlen l) k.
Proof. intros. unfold zdrop, zlen in *. rewrite drop_app_ge by lia. f_equal. lia. Qed.
Lemma zdrop_ztake n m l :
  0 <= n <= m -> zdrop n (ztake m l) = ztake (m - n) (zdrop n l).
Proof.
  intros. unfold ztake, zdrop.
  rewrite take_drop_commute. do 2 f_equal. lia.
Qed.

Lemma slice_app_l l k off n :
  0 <= off -> 0 <= n -> off + n <= zlen l -> slice (l ++ k) off n = slice l off n.
Proof.
  intros. unfold slice. rewrite zdrop_app_le by lia.
  apply ztake_app_le. rewrite zlen_zdrop; lia.
Qed.
Lemma slice_app_mid l k (m : list A) : slice (l ++ k ++ m) (zlen l) (zlen k) = k.
Proof. unfold slice. by rewrite zdrop_app_exact, ztake_app_exact. Qed.
Lemma slice_all l : slice l 0 (zlen l) = l.
Proof. unfold slice. rewrite zdrop_0. by apply ztake_ge. Qed.
Lemma slice_split l off n m :
  0 <= off -> 0 <= n <= m -> slice l off m = slice l off n ++ slice l (off + n) (m - n).
Proof.
  intros. unfold slice. rewrite <- (zdrop_zdrop off n) by lia.
  rewrite <- zdrop_ztake by lia. rewrite <- (ztake_ztake n m) by lia.
  symmetry. apply ztake_zdrop.
Qed.
Lemma slice_take l off n m :
  0 <= n <= m -> ztake n (slice l off m) = slice l off n.
Proof. intros. unfold slice. by rewrite ztake_ztake. Qed.
Lemma slice_drop l off n m :
  0 <= off -> 0 <= n <= m -> zdrop n (slice l off m) = slice l (off + n) (m - n).
Proof. intros. unfold slice. rewrite zdrop_ztake, zdrop_zdrop by lia. done. Qed.

Lemma zlen_memcpy_at dst off src :
  0 <= off <= zlen dst -> zlen (memcpy_at dst off src) = Z.max (zlen dst) (off + zlen src).
Proof.
  intros. unfold memcpy_at. rewrite !zlen_app, zlen_ztake by lia.
  destruct (decide (off + zlen src <= zlen dst)).
  - pose proof (zlen_nonneg src). rewrite zlen_zdrop; lia.
  - rewrite zdrop_ge by lia. rewrite zlen_nil. lia.
Qed.
(** The bytes below the copied range and the copied bytes themselves. *)
Lemma ztake_memcpy_at dst off src :
  0 <= off <= zlen dst ->
  ztake (off + zlen src) (memcpy_at dst off src) = ztake off dst ++ src.
Proof.
  intros. unfold memcpy_at. rewrite app_assoc.
  replace (off + zlen src) with (zlen (ztake off dst ++ src)) at 1.
  - apply ztake_app_exact.
  - rewrite zlen_app, zlen_ztake; lia.
Qed.
End zlists.

Create Rewrite HintDb zlist.
#[export] Hint Rewrite @zlen_nil @zlen_cons @zlen_app @ztake_0 @zdrop_0 : zlist.
#[export] Hint Resolve zlen_nonneg : ssn.

Lemma filter_all {A} (P : A -> Prop) `{!forall x, Decision (P x)} (l : list A) :
  (forall x, x ∈ l -> P x) -> filter P l = l.
Proof.
  induction l as [|x l IH]; intros HP; [done|]. rewrite filter_cons_True by (apply HP; left).
  f_equal. apply IH. intros y Hy. apply HP. by right.
Qed.

Lemma Forall_filter_sub {A} (P Q : A -> Prop) `{!forall x, Decision (P x)} (l : list A) :
  Forall Q l -> Forall Q (filter P l).
Proof. rewrite !Forall_forall. intros HQ x Hx. apply HQ. by apply list_elem_of_filter in Hx as [_ ?]. Qed.

Lemma filter_ext_elem {A} (P Q : A -> Prop) `{!forall x, Decision (P x), !forall x, Decision (Q x)}
    (l : list A) : (forall x, x ∈ l -> (P x <-> Q x)) -> filter P l = filter Q l.
Proof.
  induction l as [|x l IH]; intros Hpq; [done|]. rewrite !filter_cons.
  rewrite IH by (intros; apply Hpq; by right). specialize (Hpq x ltac:(left)).
  destruct (decide (P x)), (decide (Q x)); tauto.
Qed.

Lemma filter_map_comm {A B} (f : A -> B) (P : B -> Prop) `{!forall x, Decision (P x)} (l : list A) :
  filter P (map f l) = map f (filter (fun x => P (f x)) l).
Proof.
  induction l as [|x l IH]; [done|]. cbn [map]. rewrite !filter_cons, IH. by destruct (decide (P (f x))).
Qed.

(** Two filters that differ on one element of the list. *)
Lemma filter_flip {A} (P Q : A -> Prop) `{!forall x, Decision (P x), !forall x, Decision (Q x)}
    (l : list A) (x : A) :
  NoDup l -> x ∈ l -> Q x -> ~ P x -> (forall y, y ∈ l -> y <> x -> (P y <-> Q y)) ->
  filter Q l ≡ₚ x :: filter P l.
Proof.
  intros Hnd Hin HQ HP Heq. induction Hnd as [|y l Hy Hnd IH]; [by apply elem_of_nil in Hin|].
  rewrite !filter_cons. apply elem_of_cons in Hin as [->|Hin].
  - destruct (decide (Q y)), (decide (P y)); try done. apply Permutation_skip, reflexive_eq, filter_ext_elem.
    intros z Hz. symmetry. apply Heq; [by right|]. by intros ->.
  - assert (y <> x) as Hne by (by intros ->).
    pose proof (Heq y ltac:(left) Hne) as Hyy.
    assert (filter Q l ≡ₚ x :: filter P l) as IH' by (apply IH; [done|]; intros; apply Heq; [by right|done]).
    destruct (decide (Q y)), (decide (P y)); try tauto. rewrite IH'. apply perm_swap.
Qed.

(** Filters of a list after an update of one position. *)
Section filter_insert.
Context {A : Type} (P : A -> Prop) `{!forall x, Decision (P x)}.

Lemma filter_insert_same (l : list A) i x y :
  l !! i = Some x -> ~ P x -> ~ P y -> filter P (<[i := y]> l) = filter P l.
Proof.
  revert i. induction l as [|z l IH]; intros [|i] Hi Hx Hy; try done; cbn in Hi; simplify_eq.
  - change (<[0%nat := y]> (x :: l)) with (y :: l). by rewrite !filter_cons_False.
  - change (<[S i := y]> (z :: l)) with (z :: <[i := y]> l). by rewrite !filter_cons, (IH i Hi Hx Hy).
Qed.
Lemma filter_insert_new (l : list A) i x y :
  l !! i = Some x -> ~ P x -> P y -> filter P (<[i := y]> l) ≡ₚ y :: filter P l.
Proof.
  revert i. induction l as [|z l IH]; intros [|i] Hi Hx Hy; try done; cbn in Hi; simplify_eq.
  - change (<[0%nat := y]> (x :: l)) with (y :: l). by rewrite filter_cons_True, filter_cons_False.
  - change (<[S i := y]> (z :: l)) with (z :: <[i := y]> l). rewrite !filter_cons.
    destruct (decide (P z)); rewrite (IH i Hi Hx Hy); [apply perm_swap|done].
Qed.
Lemma filter_insert_gone (l : list A) i x y :
  l !! i = Some x -> P x -> ~ P y -> filter P l ≡ₚ x :: filter P (<[i := y]> l).
Proof.
  intros Hi Hx Hy. pose proof (lookup_lt_Some _ _ _ Hi) as Hlt.
  rewrite <- (filter_insert_new (<[i := y]> l) i y x); [|by apply list_lookup_insert_eq|done|done].
  by rewrite list_insert_insert_eq, list_insert_id.
Qed.
End filter_insert.

Lemma existsb_ext_elem {A} (f g : A -> bool) (l : list A) :
  (forall x, x ∈ l -> f x = g x) -> existsb f l = existsb g l.
Proof.
  induction l as [|x l IH]; intros Hfg; [done|]. cbn. rewrite (Hfg x) by left.
  f_equal. apply IH. intros y Hy. apply Hfg. by right.
Qed.

Lemma elem_of_concat {A} (x : A) (ls : list (list A)) :
  x ∈ concat ls <-> exists l, x ∈ l /\ l ∈ ls.
Proof.
  induction ls as [|l ls IH]; cbn.
  - split; [by intros ?%elem_of_nil|]. by intros (? & _ & ?%elem_of_nil).
  - rewrite elem_of_app, IH. split.
    + intros [?|(l' & ? & ?)]; [exists l|exists l']; split; rewrite ?elem_of_cons; auto.
    + intros (l' & Hx & [->|?]%elem_of_cons); eauto.
Qed.

(** Case analysis on every boolean comparison in the goal. *)
Ltac bool_cases :=
  repeat (case_match || case_bool_decide);
  repeat match goal with
  | H : (_ <? _) = true |- _ => apply Z.ltb_lt in H
  | H : (_ <? _) = false |- _ => apply Z.ltb_ge in H
  | H : (_ <=? _) = true |- _ => apply Z.leb_le in H
  | H : (_ <=? _) = false |- _ => apply Z.leb_gt in H
  | H : (_ =? _) = true |- _ => apply Z.eqb_eq in H
  | H : (_ =? _) = false |- _ => apply Z.eqb_neq in H
  end.
