(* ===== verification/FrameCodec.v ===== *)
(** * Frame codec and stream reassembly ([src/src/ssn_frame.h], [src/src/ssn_frame.c])

    The packed 15-byte header, its accessors, single-packet validation and the
    sticky-packet stream parser [ssn_stream_feed].  Multi-byte header fields
    are kept as the raw values a little-endian host reads from memory; the
    accessors swap them exactly where the source calls [ntohs]/[ntohl].

    The stream parser is proved to refine [deframe], a reference deframer on
    the whole byte stream: what is delivered does not depend on how the bytes
    were cut into [recv] chunks, on the [head] offset or on when the buffer is
    compacted. *)
From S2P Require Import Prelude.

(** ** Constants *)

Definition SSN_HEADER_SIZE : Z := 15.
Definition SSN_MAX_PACKET_SIZE : Z := 131072.
Definition SSN_MAX_PAYLOAD_SIZE : Z := SSN_MAX_PACKET_SIZE - SSN_HEADER_SIZE.
Definition SSN_MAGIC_BYTE : Z := 9.
Definition SSN_PROTOCOL_VERSION : Z := 2.

Definition SSN_MSG_TYPE_SERVICE_INFO : Z := 0.
Definition SSN_MSG_TYPE_RPC_REQUEST : Z := 1.
Definition SSN_MSG_TYPE_SUBSCRIBE : Z := 2.
Definition SSN_MSG_TYPE_UNSUBSCRIBE : Z := 3.
Definition SSN_MSG_TYPE_PUBLISH : Z := 4.
Definition SSN_MSG_TYPE_MESSAGE : Z := 5.
Definition SSN_MSG_TYPE_PING_ECHO : Z := 255.

(** ** Data *)

(** Fields hold the raw in-memory values (network byte order as read by a
    little-endian host). *)
Record ssn_header_t := mk_header {
  h_magic : Z;
  h_version : Z;
  h_msg_type : Z;
  h_status : Z;
  h_url_len : Z;
  h_seqno : Z;
  h_data_len : Z;
}.

(** The pointer is [None] for NULL and otherwise the readable bytes at it. *)
Record ssn_url_ref_t := mk_url_ref { url : option bytes; url_len : Z }.
Record ssn_data_ref_t := mk_data_ref { data : option bytes; length_ : Z }.

(** [buffer] is the initialised prefix of the 128 KiB array; [cur_len] bytes
    of it are valid. *)
Record ssn_stream_ctx_t := mk_stream {
  cur_len : Z;
  head : Z;
  total_len : Z;
  buffer : bytes;
}.

(** ** Byte order and the memory image of the header *)

Definition ssn_htons (x : Z) : Z := (x mod 256) * 256 + (x / 256) mod 256.
Definition ssn_ntohs (x : Z) : Z := (x mod 256) * 256 + (x / 256) mod 256.
Definition ssn_htonl (x : Z) : Z :=
  (x mod 256) * 16777216 + ((x / 256) mod 256) * 65536
  + ((x / 65536) mod 256) * 256 + (x / 16777216) mod 256.
Definition ssn_ntohl (x : Z) : Z :=
  (x mod 256) * 16777216 + ((x / 256) mod 256) * 65536
  + ((x / 65536) mod 256) * 256 + (x / 16777216) mod 256.

(** Little-endian loads and stores of a host. *)
Definition load16 (b : bytes) (i : nat) : Z := nth i b 0 + 256 * nth (S i) b 0.
Definition load32 (b : bytes) (i : nat) : Z :=
  load16 b i + 65536 * load16 b (S (S i)).
Definition store16 (x : Z) : bytes := [x mod 256; (x / 256) mod 256].
Definition store32 (x : Z) : bytes := store16 x ++ store16 (x / 65536).

(** [memcpy(&header, buf, sizeof(header))] and its inverse. *)
Definition header_of_bytes (b : bytes) : ssn_header_t := {|
  h_magic := nth 0 b 0; h_version := nth 1 b 0; h_msg_type := nth 2 b 0;
  h_status := load32 b 3; h_url_len := load16 b 7;
  h_seqno := load16 b 9; h_data_len := load32 b 11 |}.
Definition bytes_of_header (h : ssn_header_t) : bytes :=
  [h_magic h; h_version h; h_msg_type h] ++ store32 (h_status h)
  ++ store16 (h_url_len h) ++ store16 (h_seqno h) ++ store32 (h_data_len h).

(** ** Header accessors *)

Definition ssn_get_seqno (h : ssn_header_t) : Z := ssn_ntohs (h_seqno h).
Definition ssn_get_msg_type (h : ssn_header_t) : Z := h_msg_type h.
Definition ssn_get_status (h : ssn_header_t) : Z := ssn_ntohl (h_status h).
Definition ssn_get_url_length (h : ssn_header_t) : Z := ssn_ntohs (h_url_len h).
Definition ssn_get_data_length (h : ssn_header_t) : Z := ssn_ntohl (h_data_len h).

Definition ssn_set_status (h : ssn_header_t) (status : Z) : ssn_header_t :=
  mk_header (h_magic h) (h_version h) (h_msg_type h) (ssn_htonl status)
    (h_url_len h) (h_seqno h) (h_data_len h).
Definition ssn_set_seqno (h : ssn_header_t) (seqno : Z) : ssn_header_t :=
  mk_header (h_magic h) (h_version h) (h_msg_type h) (h_status h)
    (h_url_len h) (ssn_htons seqno) (h_data_len h).
Definition ssn_set_url_length (h : ssn_header_t) (n : Z) : ssn_header_t :=
  mk_header (h_magic h) (h_version h) (h_msg_type h) (h_status h)
    (ssn_htons n) (h_seqno h) (h_data_len h).
Definition ssn_set_data_length (h : ssn_header_t) (n : Z) : ssn_header_t :=
  mk_header (h_magic h) (h_version h) (h_msg_type h) (h_status h)
    (h_url_len h) (h_seqno h) (ssn_htonl n).

(** [outb] non-NULL; [type], [status] and [seqno] are of their C widths. *)
Definition ssn_create_header (type status seqno : Z) : ssn_header_t :=
  let h := mk_header SSN_MAGIC_BYTE SSN_PROTOCOL_VERSION type 0 0 0 0 in
  let h := ssn_set_status h status in
  let h := ssn_set_seqno h seqno in
  h.

(** ** Packet validation and field extraction *)

Definition validate_and_get_total_length (buf : bytes) (buf_size : Z) : option Z :=
  if buf_size <? SSN_HEADER_SIZE then None
  else
    let header := header_of_bytes buf in
    if negb (h_magic header =? SSN_MAGIC_BYTE)
       || negb (h_version header =? SSN_PROTOCOL_VERSION) then None
    else
      let url_len := ssn_ntohs (h_url_len header) in
      let data_len := ssn_ntohl (h_data_len header) in
      if u64 (url_len + data_len) >? SSN_MAX_PAYLOAD_SIZE then None
      else Some (SSN_HEADER_SIZE + url_len + data_len).

(** The header pointer is passed as the bytes from the header on. *)
Definition ssn_get_url (pkt : bytes) : option ssn_url_ref_t :=
  let h := header_of_bytes pkt in
  if negb (h_magic h =? SSN_MAGIC_BYTE)
     || negb (h_version h =? SSN_PROTOCOL_VERSION) then None
  else
    let n := ssn_get_url_length h in
    Some (mk_url_ref (if n >? 0 then Some (slice pkt SSN_HEADER_SIZE n) else None) n).

Definition ssn_get_data (pkt : bytes) : option ssn_data_ref_t :=
  let h := header_of_bytes pkt in
  if negb (h_magic h =? SSN_MAGIC_BYTE)
     || negb (h_version h =? SSN_PROTOCOL_VERSION) then None
  else
    let n := ssn_get_data_length h in
    Some (mk_data_ref
      (if n =? 0 then None
       else Some (slice pkt (SSN_HEADER_SIZE + ssn_get_url_length h) n)) n).

(** Some packet (its bytes) on success, [None] for NULL. *)
Definition ssn_packet_input (buf : bytes) (buf_len : Z) : option bytes :=
  if buf_len =? 0 then None
  else match validate_and_get_total_length buf buf_len with
       | None => None
       | Some total_len => if total_len >? buf_len then None else Some buf
       end.

(** ** Stream reassembly *)

Definition ssn_stream_init (recv : ssn_stream_ctx_t) : ssn_stream_ctx_t :=
  mk_stream 0 0 0 (buffer recv).

Definition set_head (recv : ssn_stream_ctx_t) (h : Z) : ssn_stream_ctx_t :=
  mk_stream (cur_len recv) h (total_len recv) (buffer recv).

Inductive feed_verdict := FeedMore | FeedError | FeedStop.

Section feed.
(** The packet handler: gets the packet's bytes and the state its [arg]
    points to, and returns whether to continue. *)
Context {St : Type} (callback : bytes -> St -> bool * St).

(** The inner [while (1)] loop: extract complete packets from [head]. *)
Fixpoint feed_extract (fuel : nat) (recv : ssn_stream_ctx_t) (st : St)
  : option (feed_verdict * ssn_stream_ctx_t * St) :=
  match fuel with
  | O => None
  | S fuel =>
    let available := u32 (cur_len recv - head recv) in
    if available <? SSN_HEADER_SIZE then Some (FeedMore, recv, st)
    else
      match validate_and_get_total_length (zdrop (head recv) (buffer recv)) available with
      | None => Some (FeedError, ssn_stream_init recv, st)
      | Some total_length =>
        if available <? total_length then Some (FeedMore, recv, st)
        else
          let '(continue, st) := callback (slice (buffer recv) (head recv) total_length) st in
          if continue
          then feed_extract fuel (set_head recv (u32 (head recv + u32 total_length))) st
          else Some (FeedStop, ssn_stream_init recv, st)
      end
  end.

(** Make room when the buffer is full: move the unread bytes to the front. *)
Definition feed_compact (recv : ssn_stream_ctx_t) : ssn_stream_ctx_t :=
  if head recv >? 0 then
    let remain := u32 (cur_len recv - head recv) in
    mk_stream remain 0 (total_len recv)
      (if remain >? 0
       then memcpy_at (buffer recv) 0 (slice (buffer recv) (head recv) remain)
       else buffer recv)
  else recv.

(** The outer [while (consumed_bytes < buf_len)] loop. *)
Fixpoint feed_loop (fuel : nat) (recv : ssn_stream_ctx_t) (buf : bytes)
    (consumed_bytes : Z) (st : St) : option (bool * ssn_stream_ctx_t * St) :=
  match fuel with
  | O => None
  | S fuel =>
    if consumed_bytes <? zlen buf then
      let recv :=
        if u32 (SSN_MAX_PACKET_SIZE - cur_len recv) =? 0 then feed_compact recv else recv in
      let space_left := u32 (SSN_MAX_PACKET_SIZE - cur_len recv) in
      if space_left =? 0 then Some (false, ssn_stream_init recv, st)
      else
        let bytes_to_copy :=
          if zlen buf - consumed_bytes <? space_left
          then zlen buf - consumed_bytes else space_left in
        let recv := mk_stream (u32 (cur_len recv + bytes_to_copy)) (head recv) (total_len recv)
          (memcpy_at (buffer recv) (cur_len recv) (slice buf consumed_bytes bytes_to_copy)) in
        match feed_extract (S (length (buffer recv))) recv st with
        | None => None
        | Some (FeedMore, recv, st) =>
            feed_loop fuel recv buf (consumed_bytes + bytes_to_copy) st
        | Some (FeedError, recv, st) => Some (false, recv, st)
        | Some (FeedStop, recv, st) => Some (true, recv, st)
        end
    else Some (true, recv, st)
  end.

(** [None] only if the loops ran out of fuel, which [stream_feed_spec]
    excludes. *)
Definition ssn_stream_feed (recv : ssn_stream_ctx_t) (buf : bytes) (st : St)
  : option (bool * ssn_stream_ctx_t * St) :=
  if zlen buf =? 0 then Some (true, recv, st)
  else feed_loop (S (length buf)) recv buf 0 st.
End feed.

(** ** Reference deframer

    [deframe] works on the complete byte stream: it repeatedly validates the
    header at the front, delivers the packet and drops it. *)

Inductive deframe_result (St : Type) :=
  | DfMore (rest : bytes) (st : St)   (** all packets delivered, [rest] incomplete *)
  | DfError (st : St)                 (** malformed header *)
  | DfStop (st : St).                 (** the handler asked to stop *)
Arguments DfMore {St}.
Arguments DfError {St}.
Arguments DfStop {St}.

Section deframe.
Context {St : Type} (callback : bytes -> St -> bool * St).

Fixpoint deframe_fuel (fuel : nat) (b : bytes) (st : St) : deframe_result St :=
  match fuel with
  | O => DfMore b st
  | S fuel =>
    if zlen b <? SSN_HEADER_SIZE then DfMore b st
    else match validate_and_get_total_length b (zlen b) with
         | None => DfError st
         | Some total =>
           if zlen b <? total then DfMore b st
           else let '(continue, st) := callback (ztake total b) st in
                if continue then deframe_fuel fuel (zdrop total b) st else DfStop st
         end
  end.

Definition deframe (b : bytes) (st : St) : deframe_result St :=
  deframe_fuel (S (length b)) b st.
End deframe.

(** Unread bytes of a stream context. *)
Definition pending (recv : ssn_stream_ctx_t) : bytes :=
  slice (buffer recv) (head recv) (cur_len recv - head recv).

(** No complete packet and no complete malformed header at the front. *)
Definition stuck (b : bytes) : Prop :=
  zlen b < SSN_HEADER_SIZE \/
  exists total, validate_and_get_total_length b (zlen b) = Some total /\ zlen b < total.

(** The representation invariant: offsets are ordered, the valid region is
    initialised and the initialised region is inside the C array. *)
Definition stream_ok (recv : ssn_stream_ctx_t) : Prop :=
  0 <= head recv <= cur_len recv /\ cur_len recv <= zlen (buffer recv)
  /\ zlen (buffer recv) <= SSN_MAX_PACKET_SIZE.

Definition stream_inv (recv : ssn_stream_ctx_t) : Prop :=
  stream_ok recv /\ stuck (pending recv).

(** What a call of [ssn_stream_feed] must return for a reference result. *)
Definition feed_matches {St} (r : deframe_result St) (out : bool * ssn_stream_ctx_t * St) : Prop :=
  let '(ok, recv, st) := out in
  stream_inv recv /\
  match r with
  | DfMore rest st' => ok = true /\ st = st' /\ pending recv = rest
  | DfError st' => ok = false /\ st = st' /\ pending recv = []
  | DfStop st' => ok = true /\ st = st' /\ pending recv = []
  end.

(** Feeding a list of [recv] chunks one after the other. *)
Fixpoint feed_chunks {St} (callback : bytes -> St -> bool * St) (recv : ssn_stream_ctx_t)
    (chunks : list bytes) (st : St) : option (bool * ssn_stream_ctx_t * St) :=
  match chunks with
  | [] => Some (true, recv, st)
  | c :: chunks =>
    match ssn_stream_feed callback recv c st with
    | Some (true, recv, st) => feed_chunks callback recv chunks st
    | r => r
    end
  end.

(** A handler that records every packet and keeps going. *)
Definition collect (pkt : bytes) (acc : list bytes) : bool * list bytes := (true, acc ++ [pkt]).

(** The memory image of a packet. *)
Definition frame (type status seqno : Z) (u d : bytes) : bytes :=
  bytes_of_header (ssn_set_data_length
    (ssn_set_url_length (ssn_create_header type status seqno) (zlen u)) (zlen d)) ++ u ++ d.

Definition fits (u d : bytes) : Prop :=
  zlen u <= 65535 /\ zlen u + zlen d <= SSN_MAX_PAYLOAD_SIZE.

(** ** Header lemmas *)

Lemma ntohs_range x : 0 <= ssn_ntohs x < 65536.
Proof.
  unfold ssn_ntohs. pose proof (Z.mod_pos_bound x 256 eq_refl).
  pose proof (Z.mod_pos_bound (x / 256) 256 eq_refl). lia.
Qed.

Lemma ntohl_range x : 0 <= ssn_ntohl x < 2 ^ 32.
Proof.
  unfold ssn_ntohl.
  pose proof (Z.mod_pos_bound x 256 eq_refl).
  pose proof (Z.mod_pos_bound (x / 256) 256 eq_refl).
  pose proof (Z.mod_pos_bound (x / 65536) 256 eq_refl).
  pose proof (Z.mod_pos_bound (x / 16777216) 256 eq_refl). lia.
Qed.

Lemma ntohs_htons x : 0 <= x < 65536 -> ssn_ntohs (ssn_htons x) = x.
Proof.
  intros H. unfold ssn_ntohs, ssn_htons.
  Z.to_euclidean_division_equations. lia.
Qed.

Lemma bytes32_split x :
  0 <= x < 2 ^ 32 ->
  exists a b c d, 0 <= a < 256 /\ 0 <= b < 256 /\ 0 <= c < 256 /\ 0 <= d < 256 /\
    x = a + 256 * (b + 256 * (c + 256 * d)).
Proof.
  intros H.
  exists (x mod 256), ((x / 256) mod 256), ((x / 65536) mod 256), ((x / 16777216) mod 256).
  repeat split; try (apply Z.mod_pos_bound; lia).
  Z.to_euclidean_division_equations. lia.
Qed.

Lemma bytes32_digits a b c d :
  0 <= a < 256 -> 0 <= b < 256 -> 0 <= c < 256 -> 0 <= d < 256 ->
  let x := a + 256 * (b + 256 * (c + 256 * d)) in
  x mod 256 = a /\ (x / 256) mod 256 = b /\ (x / 65536) mod 256 = c /\
  (x / 16777216) mod 256 = d.
Proof.
  intros Ha Hb Hc Hd x. subst x.
  repeat split; Z.to_euclidean_division_equations; lia.
Qed.

Lemma ntohl_htonl x : 0 <= x < 2 ^ 32 -> ssn_ntohl (ssn_htonl x) = x.
Proof.
  intros (a & b & c & d & Ha & Hb & Hc & Hd & ->)%bytes32_split.
  destruct (bytes32_digits a b c d Ha Hb Hc Hd) as (E1 & E2 & E3 & E4).
  assert (ssn_htonl (a + 256 * (b + 256 * (c + 256 * d)))
          = d + 256 * (c + 256 * (b + 256 * a))) as ->.
  { unfold ssn_htonl. rewrite E1, E2, E3, E4. lia. }
  destruct (bytes32_digits d c b a Hd Hc Hb Ha) as (F1 & F2 & F3 & F4).
  unfold ssn_ntohl. rewrite F1, F2, F3, F4. lia.
Qed.

Lemma htons_range x : 0 <= ssn_htons x < 65536.
Proof. exact (ntohs_range x). Qed.
Lemma htonl_range x : 0 <= ssn_htonl x < 2 ^ 32.
Proof. exact (ntohl_range x). Qed.

(** A header whose fields have their C widths. *)
Definition header_ok (h : ssn_header_t) : Prop :=
  is_byte (h_magic h) /\ is_byte (h_version h) /\ is_byte (h_msg_type h) /\
  0 <= h_status h < 2 ^ 32 /\ 0 <= h_url_len h < 65536 /\
  0 <= h_seqno h < 65536 /\ 0 <= h_data_len h < 2 ^ 32.

Lemma load_store16 x : 0 <= x < 65536 -> x mod 256 + 256 * ((x / 256) mod 256) = x.
Proof. intros. Z.to_euclidean_division_equations. lia. Qed.

Lemma load_store32 x :
  0 <= x < 2 ^ 32 ->
  x mod 256 + 256 * ((x / 256) mod 256)
  + 65536 * ((x / 65536) mod 256 + 256 * ((x / 65536 / 256) mod 256)) = x.
Proof. intros. Z.to_euclidean_division_equations. lia. Qed.

Lemma header_of_bytes_of_header h rest :
  header_ok h -> header_of_bytes (bytes_of_header h ++ rest) = h.
Proof.
  intros (Hm & Hv & Ht & Hs & Hu & Hq & Hd). destruct h as [m v t s u q d]; cbn in *.
  unfold header_of_bytes, load32, load16. cbn -[Z.mul Z.add Z.div Z.modulo].
  rewrite (load_store32 s), (load_store32 d), (load_store16 u), (load_store16 q) by done. done.
Qed.

Lemma zlen_bytes_of_header h : zlen (bytes_of_header h) = SSN_HEADER_SIZE.
Proof. reflexivity. Qed.

Lemma nth_take_lt {A} (d : A) (l : list A) i n :
  (i < n)%nat -> nth i (take n l) d = nth i l d.
Proof.
  intros H. revert i n H. induction l as [|x l IH]; intros i n H.
  - by rewrite take_nil.
  - destruct n as [|n]; [lia|]. destruct i as [|i]; [done|]. cbn. apply IH. lia.
Qed.

(** Only the first 15 bytes matter to header reads and to validation. *)
Lemma header_of_bytes_take b : header_of_bytes (ztake SSN_HEADER_SIZE b) = header_of_bytes b.
Proof.
  change (ztake SSN_HEADER_SIZE b) with (take 15 b).
  unfold header_of_bytes, load32, load16.
  rewrite !nth_take_lt by lia. done.
Qed.

Lemma header_of_bytes_ext a b :
  ztake SSN_HEADER_SIZE a = ztake SSN_HEADER_SIZE b -> header_of_bytes a = header_of_bytes b.
Proof. intros H. rewrite <- (header_of_bytes_take a), H. apply header_of_bytes_take. Qed.

Lemma validate_ext a b n m :
  ztake SSN_HEADER_SIZE a = ztake SSN_HEADER_SIZE b ->
  SSN_HEADER_SIZE <= n -> SSN_HEADER_SIZE <= m ->
  validate_and_get_total_length a n = validate_and_get_total_length b m.
Proof.
  intros Hab Hn Hm. unfold validate_and_get_total_length.
  rewrite (header_of_bytes_ext a b Hab).
  destruct (Z.ltb_spec n SSN_HEADER_SIZE), (Z.ltb_spec m SSN_HEADER_SIZE); by try lia.
Qed.

Lemma validate_short b n :
  n < SSN_HEADER_SIZE -> validate_and_get_total_length b n = None.
Proof. intros. unfold validate_and_get_total_length. by destruct (Z.ltb_spec n SSN_HEADER_SIZE); [|lia]. Qed.

Lemma validate_bounds b n total :
  validate_and_get_total_length b n = Some total ->
  SSN_HEADER_SIZE <= total <= SSN_MAX_PACKET_SIZE.
Proof.
  unfold validate_and_get_total_length.
  generalize (header_of_bytes b) as h; intros h.
  pose proof (ntohs_range (h_url_len h)) as Hu. pose proof (ntohl_range (h_data_len h)) as Hd.
  destruct (n <? _); [done|]. destruct (_ || _); [done|].
  rewrite u64_id by lia.
  destruct (Z.gtb_spec (ssn_ntohs (h_url_len h) + ssn_ntohl (h_data_len h)) SSN_MAX_PAYLOAD_SIZE)
    as [|Hle]; [done|].
  intros ?; simplify_eq. unfold SSN_MAX_PAYLOAD_SIZE, SSN_MAX_PACKET_SIZE, SSN_HEADER_SIZE in *. lia.
Qed.

Lemma frame_header_ok type status seqno n m :
  is_byte type ->
  header_ok (ssn_set_data_length (ssn_set_url_length (ssn_create_header type status seqno) n) m).
Proof.
  intros. unfold header_ok, is_byte; cbn.
  pose proof (htonl_range status). pose proof (htons_range n).
  pose proof (htons_range seqno). pose proof (htonl_range m).
  unfold is_byte, SSN_MAGIC_BYTE, SSN_PROTOCOL_VERSION in *. lia.
Qed.

Lemma zlen_frame type status seqno u d :
  zlen (frame type status seqno u d) = SSN_HEADER_SIZE + zlen u + zlen d.
Proof. unfold frame. rewrite !zlen_app, zlen_bytes_of_header. lia. Qed.

Lemma validate_frame type status seqno u d rest n :
  is_byte type -> fits u d -> SSN_HEADER_SIZE <= n ->
  validate_and_get_total_length (frame type status seqno u d ++ rest) n
  = Some (zlen (frame type status seqno u d)).
Proof.
  intros Ht [Hu Hd] Hn. rewrite zlen_frame. unfold validate_and_get_total_length, frame.
  rewrite <- app_assoc, header_of_bytes_of_header by (by apply frame_header_ok).
  pose proof (zlen_nonneg u). pose proof (zlen_nonneg d).
  unfold SSN_MAX_PAYLOAD_SIZE, SSN_MAX_PACKET_SIZE, SSN_HEADER_SIZE in *.
  destruct (Z.ltb_spec n 15); [lia|]. cbn [h_magic h_version h_url_len h_data_len ssn_set_data_length
    ssn_set_url_length ssn_create_header ssn_set_seqno ssn_set_status].
  rewrite ntohs_htons, ntohl_htonl, u64_id by lia.
  cbn. destruct (Z.gtb_spec (zlen u + zlen d) (131072 - 15)); [lia|done].
Qed.

(** ** The reference deframer *)

Section deframe_lemmas.
Context {St : Type} (callback : bytes -> St -> bool * St).

Lemma deframe_fuel_enough n b st :
  (length b < n)%nat -> deframe_fuel callback n b st = deframe callback b st.
Proof.
  unfold deframe. remember (S (length b)) as m eqn:Hm. intros Hn.
  assert (length b < m)%nat as Hlt by lia. clear Hm.
  revert m b st Hn Hlt. induction n as [|n IH]; intros m b st Hn Hm; [lia|].
  destruct m as [|m]; [lia|]. cbn [deframe_fuel].
  destruct (zlen b <? SSN_HEADER_SIZE); [done|].
  destruct (validate_and_get_total_length b (zlen b)) as [total|] eqn:Hv; [|done].
  apply validate_bounds in Hv. unfold SSN_HEADER_SIZE in Hv.
  destruct (Z.ltb_spec (zlen b) total); [done|].
  destruct (callback (ztake total b) st) as [[] st']; [|done].
  assert (length (zdrop total b) < length b)%nat.
  { unfold zdrop, zlen in *. rewrite length_drop. lia. }
  apply IH; lia.
Qed.

Lemma deframe_unfold b st :
  deframe callback b st =
  if zlen b <? SSN_HEADER_SIZE then DfMore b st
  else match validate_and_get_total_length b (zlen b) with
       | None => DfError st
       | Some total =>
         if zlen b <? total then DfMore b st
         else let '(continue, st) := callback (ztake total b) st in
              if continue then deframe callback (zdrop total b) st else DfStop st
       end.
Proof.
  unfold deframe at 1. cbn [deframe_fuel].
  destruct (zlen b <? SSN_HEADER_SIZE); [done|].
  destruct (validate_and_get_total_length b (zlen b)) as [total|] eqn:Hv; [|done].
  apply validate_bounds in Hv. unfold SSN_HEADER_SIZE in Hv.
  destruct (Z.ltb_spec (zlen b) total); [done|].
  destruct (callback (ztake total b) st) as [[] st']; [|done].
  apply deframe_fuel_enough. unfold zdrop, zlen in *. rewrite length_drop. lia.
Qed.

Lemma deframe_stuck b st : stuck b -> deframe callback b st = DfMore b st.
Proof.
  intros Hs. rewrite deframe_unfold.
  destruct (Z.ltb_spec (zlen b) SSN_HEADER_SIZE); [done|].
  destruct Hs as [?|(total & -> & ?)]; [lia|].
  destruct (Z.ltb_spec (zlen b) total); [done|lia].
Qed.

(** Induction over the packets of a stream: every delivered packet shortens it. *)
Lemma stream_ind (P : bytes -> Prop) :
  (forall b, (forall total, validate_and_get_total_length b (zlen b) = Some total ->
      total <= zlen b -> P (zdrop total b)) -> P b) ->
  forall b, P b.
Proof.
  intros Hstep b. remember (length b) as n eqn:Hn. revert b Hn.
  induction (lt_wf n) as [n _ IH]. intros b ->. apply Hstep.
  intros total Hv Hle. apply (IH (length (zdrop total b))); [|done].
  apply validate_bounds in Hv. unfold SSN_HEADER_SIZE, zdrop, zlen in *.
  rewrite length_drop. lia.
Qed.

Lemma deframe_app b c st :
  deframe callback (b ++ c) st =
  match deframe callback b st with
  | DfMore rest st => deframe callback (rest ++ c) st
  | DfError st => DfError st
  | DfStop st => DfStop st
  end.
Proof.
  revert st. induction b as [b IH] using stream_ind. intros st.
  rewrite (deframe_unfold b st).
  destruct (Z.ltb_spec (zlen b) SSN_HEADER_SIZE) as [|H15]; [done|].
  pose proof (zlen_nonneg c).
  assert (validate_and_get_total_length (b ++ c) (zlen (b ++ c))
          = validate_and_get_total_length b (zlen b)) as Hval.
  { rewrite zlen_app. apply validate_ext; [apply ztake_app_le|..]; lia. }
  destruct (validate_and_get_total_length b (zlen b)) as [total|] eqn:Hv.
  - destruct (Z.ltb_spec (zlen b) total) as [|Ht]; [done|].
    rewrite deframe_unfold, Hval, zlen_app, ztake_app_le, zdrop_app_le by lia.
    destruct (Z.ltb_spec (zlen b + zlen c) SSN_HEADER_SIZE); [lia|].
    destruct (Z.ltb_spec (zlen b + zlen c) total); [lia|].
    destruct (callback (ztake total b) st) as [[] st']; [|done].
    by apply IH.
  - rewrite deframe_unfold, Hval, zlen_app.
    destruct (Z.ltb_spec (zlen b + zlen c) SSN_HEADER_SIZE); [lia|done].
Qed.

Lemma deframe_more b st rest st' :
  deframe callback b st = DfMore rest st' -> stuck rest /\ exists p, b = p ++ rest.
Proof.
  revert st. induction b as [b IH] using stream_ind. intros st.
  rewrite deframe_unfold.
  destruct (Z.ltb_spec (zlen b) SSN_HEADER_SIZE).
  { intros [= -> ->]. split; [by left|by exists []]. }
  destruct (validate_and_get_total_length b (zlen b)) as [total|] eqn:Hv; [|done].
  destruct (Z.ltb_spec (zlen b) total).
  { intros [= -> ->]. split; [right; eauto|by exists []]. }
  destruct (callback (ztake total b) st) as [[] st1]; [|done].
  intros [Hs [p Hp]]%IH; [|done|lia]. split; [done|].
  exists (ztake total b ++ p). rewrite <- app_assoc, <- Hp. symmetry. apply ztake_zdrop.
Qed.
End deframe_lemmas.

(** ** The stream parser refines the deframer *)

Lemma stuck_nil : stuck [].
Proof. left. reflexivity. Qed.

Lemma pending_init recv : pending (ssn_stream_init recv) = [].
Proof. reflexivity. Qed.

Lemma stream_inv_init recv : stream_ok recv -> stream_inv (ssn_stream_init recv).
Proof.
  intros (? & ? & ?). split; [|apply stuck_nil].
  unfold stream_ok; cbn. pose proof (zlen_nonneg (buffer recv)). lia.
Qed.

Lemma zlen_pending recv : stream_ok recv -> zlen (pending recv) = cur_len recv - head recv.
Proof. intros (? & ? & ?). unfold pending. rewrite zlen_slice; lia. Qed.

Lemma stream_ok_set_head recv h :
  stream_ok recv -> 0 <= h <= cur_len recv -> stream_ok (set_head recv h).
Proof. intros (? & ? & ?) ?. unfold stream_ok; cbn. lia. Qed.

Lemma pending_set_head recv n :
  stream_ok recv -> 0 <= n <= cur_len recv - head recv ->
  pending (set_head recv (head recv + n)) = zdrop n (pending recv).
Proof.
  intros (? & ? & ?) ?. unfold pending; cbn. rewrite slice_drop by lia. f_equal. lia.
Qed.

Section feed_lemmas.
Context {St : Type} (callback : bytes -> St -> bool * St).

Definition extract_result (recv : ssn_stream_ctx_t) (r : deframe_result St)
  : feed_verdict * ssn_stream_ctx_t * St :=
  match r with
  | DfMore rest st => (FeedMore, set_head recv (cur_len recv - zlen rest), st)
  | DfError st => (FeedError, ssn_stream_init recv, st)
  | DfStop st => (FeedStop, ssn_stream_init recv, st)
  end.

Lemma set_head_same recv :
  stream_ok recv -> set_head recv (cur_len recv - zlen (pending recv)) = recv.
Proof.
  intros Hok. rewrite zlen_pending by done. destruct recv; unfold set_head; cbn. f_equal. lia.
Qed.

Lemma feed_extract_spec fuel recv st :
  stream_ok recv -> zlen (pending recv) < Z.of_nat fuel ->
  feed_extract callback fuel recv st
  = Some (extract_result recv (deframe callback (pending recv) st)).
Proof.
  revert recv st. induction fuel as [|fuel IH]; intros recv st Hok Hf.
  { pose proof (zlen_nonneg (pending recv)). lia. }
  pose proof (zlen_pending recv Hok) as Hlen. pose proof Hok as (Hh & Hc & Hb).
  unfold SSN_MAX_PACKET_SIZE in Hb.
  cbn [feed_extract]. rewrite u32_id, <- Hlen by lia. rewrite deframe_unfold.
  destruct (Z.ltb_spec (zlen (pending recv)) SSN_HEADER_SIZE).
  { cbn. by rewrite set_head_same. }
  unfold SSN_HEADER_SIZE in *.
  assert (validate_and_get_total_length (zdrop (head recv) (buffer recv)) (zlen (pending recv))
          = validate_and_get_total_length (pending recv) (zlen (pending recv))) as ->.
  { apply validate_ext; [|done|done]. unfold pending. symmetry. apply slice_take.
    unfold SSN_HEADER_SIZE. lia. }
  destruct (validate_and_get_total_length (pending recv) (zlen (pending recv)))
    as [total|] eqn:Hv; [|done].
  apply validate_bounds in Hv. unfold SSN_HEADER_SIZE, SSN_MAX_PACKET_SIZE in Hv.
  destruct (Z.ltb_spec (zlen (pending recv)) total).
  { cbn. by rewrite set_head_same. }
  assert (ztake total (pending recv) = slice (buffer recv) (head recv) total) as ->.
  { apply slice_take. lia. }
  destruct (callback (slice (buffer recv) (head recv) total) st) as [[] st']; [|done].
  rewrite (u32_id total), u32_id by lia.
  assert (stream_ok (set_head recv (head recv + total))) as Hok'.
  { apply stream_ok_set_head; [done|lia]. }
  rewrite <- pending_set_head by (done || lia).
  rewrite IH; [by destruct (deframe _ _ _)|done|].
  rewrite pending_set_head, zlen_zdrop by (done || lia). lia.
Qed.
End feed_lemmas.

Lemma slice_as_zdrop {A} (l : list A) off n :
  0 <= off -> 0 <= n -> slice l off n = zdrop off (ztake (off + n) l).
Proof. intros. unfold slice. rewrite zdrop_ztake by lia. f_equal. lia. Qed.

Lemma feed_compact_ok recv :
  stream_ok recv ->
  stream_ok (feed_compact recv) /\ pending (feed_compact recv) = pending recv /\
  cur_len (feed_compact recv) = (if head recv >? 0 then cur_len recv - head recv else cur_len recv).
Proof.
  intros Hok. pose proof Hok as (Hh & Hc & Hb). pose proof (zlen_pending recv Hok) as Hlen.
  unfold SSN_MAX_PACKET_SIZE in Hb. unfold feed_compact.
  destruct (Z.gtb_spec (head recv) 0); [|done].
  rewrite u32_id by lia. fold (pending recv).
  destruct (Z.gtb_spec (cur_len recv - head recv) 0) as [Hpos|Hz].
  - assert (zlen (memcpy_at (buffer recv) 0 (pending recv)) = zlen (buffer recv)) as Hz.
    { rewrite zlen_memcpy_at; lia. }
    split; [unfold stream_ok, SSN_MAX_PACKET_SIZE; cbn; lia|]. split; [|done].
    unfold pending at 1; cbn. rewrite slice_as_zdrop, zdrop_0 by lia.
    replace (0 + (cur_len recv - head recv - 0)) with (0 + zlen (pending recv)) by lia.
    rewrite ztake_memcpy_at by lia. done.
  - split; [unfold stream_ok, SSN_MAX_PACKET_SIZE; cbn; lia|]. split; [|done].
    rewrite (zlen_0_nil (pending recv)) by lia. unfold pending; cbn.
    replace (cur_len recv - head recv - 0) with 0 by lia. done.
Qed.

(** A drained context always has room after compaction: the defensive
    "buffer full without a complete packet" branch is never taken. *)
Lemma stream_room recv :
  stream_inv recv -> cur_len recv = SSN_MAX_PACKET_SIZE ->
  cur_len (feed_compact recv) < SSN_MAX_PACKET_SIZE.
Proof.
  intros [Hok Hst] Hfull. destruct (feed_compact_ok recv Hok) as (_ & _ & ->).
  pose proof (zlen_pending recv Hok) as Hlen. destruct Hok as (Hh & _ & _).
  destruct (Z.gtb_spec (head recv) 0); [lia|].
  destruct Hst as [Hst|(total & Hv%validate_bounds & Hlt)];
    unfold SSN_HEADER_SIZE, SSN_MAX_PACKET_SIZE in *; lia.
Qed.

Lemma stream_append recv tl chunk :
  stream_ok recv -> cur_len recv + zlen chunk <= SSN_MAX_PACKET_SIZE ->
  let recv' := mk_stream (cur_len recv + zlen chunk) (head recv) tl
                 (memcpy_at (buffer recv) (cur_len recv) chunk) in
  stream_ok recv' /\ pending recv' = pending recv ++ chunk.
Proof.
  intros (Hh & Hc & Hb) Hfit recv'. subst recv'. pose proof (zlen_nonneg chunk).
  split.
  - unfold stream_ok; cbn. rewrite zlen_memcpy_at by lia. lia.
  - unfold pending; cbn. rewrite !slice_as_zdrop by lia.
    replace (head recv + (cur_len recv + zlen chunk - head recv))
      with (cur_len recv + zlen chunk) by lia.
    rewrite ztake_memcpy_at by lia. rewrite zdrop_app_le by (rewrite zlen_ztake; lia).
    do 3 f_equal. lia.
Qed.

Lemma set_head_rest recv p rest :
  stream_ok recv -> pending recv = p ++ rest -> stuck rest ->
  let recv' := set_head recv (cur_len recv - zlen rest) in
  stream_inv recv' /\ pending recv' = rest.
Proof.
  intros Hok Hp Hst recv'. pose proof (zlen_pending recv Hok) as Hl.
  rewrite Hp, zlen_app in Hl. pose proof (zlen_nonneg p). pose proof (zlen_nonneg rest).
  assert (pending recv' = rest) as Hrest.
  { subst recv'. replace (cur_len recv - zlen rest) with (head recv + zlen p) by lia.
    rewrite pending_set_head, Hp; [apply zdrop_app_exact|done|lia]. }
  split; [|done]. split; [|by rewrite Hrest].
  pose proof Hok as (? & ? & ?). apply stream_ok_set_head; [done|lia].
Qed.

Section feed_refinement.
Context {St : Type} (callback : bytes -> St -> bool * St).

Lemma feed_room recv :
  stream_inv recv ->
  let recv' := if u32 (SSN_MAX_PACKET_SIZE - cur_len recv) =? 0
               then feed_compact recv else recv in
  stream_ok recv' /\ pending recv' = pending recv /\
  0 < SSN_MAX_PACKET_SIZE - cur_len recv' /\
  u32 (SSN_MAX_PACKET_SIZE - cur_len recv') = SSN_MAX_PACKET_SIZE - cur_len recv'.
Proof.
  intros Hinv. pose proof Hinv as [Hok _]. pose proof Hok as (Hh & Hc & Hb).
  rewrite u32_id by (unfold SSN_MAX_PACKET_SIZE in *; lia).
  destruct (Z.eqb_spec (SSN_MAX_PACKET_SIZE - cur_len recv) 0) as [Hz|Hz].
  - destruct (feed_compact_ok recv Hok) as (Hok' & Hp & _).
    pose proof (stream_room recv Hinv ltac:(lia)) as Hlt.
    split; [done|]. split; [done|]. destruct Hok' as (? & ? & ?).
    rewrite u32_id; unfold SSN_MAX_PACKET_SIZE in *; lia.
  - split; [done|]. split; [done|].
    rewrite u32_id; unfold SSN_MAX_PACKET_SIZE in *; lia.
Qed.

Lemma feed_loop_spec fuel recv buf consumed st :
  stream_inv recv -> 0 <= consumed <= zlen buf -> zlen buf - consumed < Z.of_nat fuel ->
  exists out, feed_loop callback fuel recv buf consumed st = Some out /\
    feed_matches (deframe callback (pending recv ++ zdrop consumed buf) st) out.
Proof.
  revert recv consumed st. induction fuel as [|fuel IH]; intros recv consumed st Hinv Hc Hf; [lia|].
  cbn [feed_loop]. destruct (Z.ltb_spec consumed (zlen buf)) as [Hlt|Hge].
  2:{ eexists; split; [done|]. rewrite zdrop_ge, app_nil_r, deframe_stuck by (lia || apply Hinv).
      by repeat split; try apply Hinv. }
  destruct (feed_room recv Hinv) as (Hok & <- & Hsp & Heq).
  set (recv1 := if _ =? 0 then _ else recv) in *.
  destruct (Z.eqb_spec (u32 (SSN_MAX_PACKET_SIZE - cur_len recv1)) 0) as [Hz|_]; [lia|].
  rewrite Heq in *.
  set (n := if _ <? _ then _ else SSN_MAX_PACKET_SIZE - cur_len recv1).
  assert (0 < n <= zlen buf - consumed /\ n <= SSN_MAX_PACKET_SIZE - cur_len recv1) as Hn.
  { subst n. destruct (Z.ltb_spec (zlen buf - consumed) (SSN_MAX_PACKET_SIZE - cur_len recv1)); lia. }
  assert (zlen (slice buf consumed n) = n) as Hslice by (rewrite zlen_slice; lia).
  destruct (stream_append recv1 (total_len recv1) (slice buf consumed n) Hok ltac:(lia))
    as [Hok2 Hp2].
  rewrite Hslice in Hok2, Hp2. pose proof Hok as (? & ? & ?).
  rewrite (u32_id (cur_len recv1 + n)) by (unfold SSN_MAX_PACKET_SIZE in *; lia).
  set (recv2 := mk_stream _ _ _ _) in *.
  rewrite feed_extract_spec; [|done|].
  2:{ rewrite zlen_pending by done. destruct Hok2 as (? & ? & ?). unfold zlen in *. lia. }
  rewrite Hp2.
  assert (pending recv1 ++ zdrop consumed buf
          = (pending recv1 ++ slice buf consumed n) ++ zdrop (consumed + n) buf) as ->.
  { rewrite <- app_assoc. f_equal. unfold slice. rewrite <- (zdrop_zdrop consumed n) by lia.
    symmetry. apply ztake_zdrop. }
  rewrite (deframe_app callback (pending recv1 ++ slice buf consumed n)).
  destruct (deframe callback (pending recv1 ++ slice buf consumed n) st) as [rest st'|st'|st'] eqn:Hd;
    cbn [extract_result].
  2:{ exists (false, ssn_stream_init recv2, st'). split; [reflexivity|].
      split; [by apply stream_inv_init|]. by rewrite pending_init. }
  2:{ exists (true, ssn_stream_init recv2, st'). split; [reflexivity|].
      split; [by apply stream_inv_init|]. by rewrite pending_init. }
  pose proof (deframe_more _ _ _ _ _ Hd) as [Hstuck [p Hp]].
  destruct (set_head_rest recv2 p rest Hok2) as [Hinv3 Hrest]; [congruence|done|].
  destruct (IH (set_head recv2 (cur_len recv2 - zlen rest)) (consumed + n) st' Hinv3)
    as (out & Hrun & Hm); [lia|lia|].
  exists out. split; [done|]. by rewrite Hrest in Hm.
Qed.

Lemma stream_feed_spec recv buf st :
  stream_inv recv ->
  exists out, ssn_stream_feed callback recv buf st = Some out /\
    feed_matches (deframe callback (pending recv ++ buf) st) out.
Proof.
  intros Hinv. unfold ssn_stream_feed. destruct (Z.eqb_spec (zlen buf) 0) as [Hz|Hz].
  - rewrite (zlen_0_nil buf Hz), app_nil_r, deframe_stuck by apply Hinv.
    eexists; split; [done|]. by repeat split; try apply Hinv.
  - destruct (feed_loop_spec (S (length buf)) recv buf 0 st Hinv) as (out & Hr & Hm);
      [pose proof (zlen_nonneg buf); lia|unfold zlen; lia|eauto].
Qed.
End feed_refinement.

Section chunks.
Context {St : Type} (callback : bytes -> St -> bool * St).

Lemma feed_chunks_spec chunks recv st :
  stream_inv recv ->
  (forall st', deframe callback (pending recv ++ concat chunks) st <> DfStop st') ->
  exists out, feed_chunks callback recv chunks st = Some out /\
    feed_matches (deframe callback (pending recv ++ concat chunks) st) out.
Proof.
  revert recv st. induction chunks as [|c chunks IH]; intros recv st Hinv; cbn [feed_chunks concat].
  - intros _. eexists; split; [done|].
    rewrite app_nil_r, deframe_stuck by apply Hinv. by repeat split; try apply Hinv.
  - rewrite app_assoc, deframe_app. intros Hns.
    destruct (stream_feed_spec callback recv c st Hinv) as ([[ok recv'] st'] & -> & Hinv' & Hm).
    destruct (deframe callback (pending recv ++ c) st) as [rest st1|st1|st1];
      destruct Hm as (-> & -> & Hp).
    + rewrite <- Hp in *. by apply IH.
    + eexists; split; [done|]. by repeat split; try apply Hinv'.
    + by destruct (Hns st1).
Qed.
End chunks.

(** A complete packet with an accepted header. *)
Definition whole_packet (pkt : bytes) : Prop :=
  validate_and_get_total_length pkt (zlen pkt) = Some (zlen pkt).

Lemma whole_packet_fields pkt :
  whole_packet pkt -> is_Some (ssn_get_url pkt) /\ is_Some (ssn_get_data pkt).
Proof.
  unfold whole_packet, validate_and_get_total_length, ssn_get_url, ssn_get_data.
  destruct (_ <? _); [done|]. destruct (_ || _); [done|]. eauto.
Qed.
Lemma packet_input_fields buf len pkt :
  ssn_packet_input buf len = Some pkt -> pkt = buf /\ is_Some (ssn_get_url pkt) /\ is_Some (ssn_get_data pkt).
Proof.
  unfold ssn_packet_input, validate_and_get_total_length, ssn_get_url, ssn_get_data. destruct (_ =? 0); [done|].
  destruct (_ <? _); [done|]. destruct (_ || _) eqn:E; [done|]. cbv zeta. destruct (_ >? _); [done|].
  destruct (_ >? _); [done|]. intros ?; simplify_eq. rewrite E. eauto.
Qed.

(** Invariants of the handler's state carry over to a whole feed: the handler
    only ever sees complete packets with accepted headers. *)
Section feed_invariant.
Context {St : Type} (callback : bytes -> St -> bool * St) (P : St -> Prop).
Hypothesis callback_P : forall pkt st, whole_packet pkt -> P st -> P (callback pkt st).2.

Lemma deframe_invariant b st :
  P st ->
  match deframe callback b st with DfMore _ st' | DfError st' | DfStop st' => P st' end.
Proof.
  revert st. induction b as [b IH] using stream_ind. intros st HP. rewrite deframe_unfold.
  destruct (Z.ltb_spec (zlen b) SSN_HEADER_SIZE); [done|].
  destruct (validate_and_get_total_length b (zlen b)) as [total|] eqn:Hv; [|done].
  destruct (Z.ltb_spec (zlen b) total); [done|].
  pose proof (validate_bounds _ _ _ Hv) as Hb.
  assert (zlen (ztake total b) = total) as Hz.
  { apply zlen_ztake. unfold SSN_HEADER_SIZE in *. lia. }
  assert (whole_packet (ztake total b)) as Hw.
  { unfold whole_packet. rewrite Hz, <- Hv. apply validate_ext; [|lia|lia].
    apply ztake_ztake. unfold SSN_HEADER_SIZE in *. lia. }
  pose proof (callback_P (ztake total b) st Hw HP) as HP'.
  destruct (callback (ztake total b) st) as [[] st']; [|done]. by apply IH.
Qed.

Lemma feed_invariant recv buf st :
  stream_inv recv -> P st ->
  exists ok recv' st', ssn_stream_feed callback recv buf st = Some (ok, recv', st') /\
    stream_inv recv' /\ P st'.
Proof.
  intros Hinv HP. destruct (stream_feed_spec callback recv buf st Hinv) as ([[ok recv'] st'] & -> & Hi & Hm).
  exists ok, recv', st'. split; [done|]. split; [done|].
  pose proof (deframe_invariant (pending recv ++ buf) st HP) as Hd.
  by destruct (deframe callback (pending recv ++ buf) st); destruct Hm as (_ & -> & _).
Qed.
End feed_invariant.

(** A frame built by the sender from fields of their C widths. *)
Record packet := mk_packet {
  p_type : Z; p_status : Z; p_seqno : Z; p_url : bytes; p_data : bytes }.
Definition packet_ok (p : packet) : Prop :=
  is_byte (p_type p) /\ 0 <= p_status p < 2 ^ 32 /\ 0 <= p_seqno p < 2 ^ 16 /\
  fits (p_url p) (p_data p).
Definition wire (p : packet) : bytes :=
  frame (p_type p) (p_status p) (p_seqno p) (p_url p) (p_data p).

Lemma zlen_wire p : packet_ok p -> SSN_HEADER_SIZE <= zlen (wire p).
Proof.
  intros _. unfold wire. rewrite zlen_frame.
  pose proof (zlen_nonneg (p_url p)). pose proof (zlen_nonneg (p_data p)). lia.
Qed.

Lemma validate_wire p rest n :
  packet_ok p -> SSN_HEADER_SIZE <= n ->
  validate_and_get_total_length (wire p ++ rest) n = Some (zlen (wire p)).
Proof. intros (? & _ & _ & ?) ?. by apply validate_frame. Qed.

Lemma deframe_wires ps rest acc :
  Forall packet_ok ps ->
  deframe collect (concat (map wire ps) ++ rest) acc
  = deframe collect rest (acc ++ map wire ps).
Proof.
  intros Hps. revert acc. induction Hps as [|p ps Hp _ IH]; intros acc; cbn [map concat].
  { by rewrite app_nil_r. }
  pose proof (zlen_wire p Hp) as Hlen.
  pose proof (zlen_nonneg (concat (map wire ps) ++ rest)).
  rewrite <- app_assoc, deframe_unfold, zlen_app, validate_wire by (done || lia).
  destruct (Z.ltb_spec (zlen (wire p) + zlen (concat (map wire ps) ++ rest)) SSN_HEADER_SIZE); [lia|].
  destruct (Z.ltb_spec (zlen (wire p) + zlen (concat (map wire ps) ++ rest)) (zlen (wire p))); [lia|].
  rewrite ztake_app_exact, zdrop_app_exact. cbn [collect]. rewrite IH.
  by rewrite <- app_assoc.
Qed.

Definition frame_header (p : packet) : ssn_header_t :=
  ssn_set_data_length (ssn_set_url_length
    (ssn_create_header (p_type p) (p_status p) (p_seqno p)) (zlen (p_url p))) (zlen (p_data p)).

(** A complete header that the protocol does not allow. *)
Definition bad_header (b : bytes) : Prop :=
  SSN_HEADER_SIZE <= zlen b /\
  let h := header_of_bytes b in
  h_magic h <> SSN_MAGIC_BYTE \/ h_version h <> SSN_PROTOCOL_VERSION \/
  SSN_MAX_PAYLOAD_SIZE < ssn_get_url_length h + ssn_get_data_length h.

Lemma validate_bad_header b :
  bad_header b -> validate_and_get_total_length b (zlen b) = None.
Proof.
  intros [Hlen Hbad]. unfold validate_and_get_total_length.
  destruct (Z.ltb_spec (zlen b) SSN_HEADER_SIZE); [done|].
  unfold ssn_get_url_length, ssn_get_data_length in Hbad.
  pose proof (ntohs_range (h_url_len (header_of_bytes b))).
  pose proof (ntohl_range (h_data_len (header_of_bytes b))).
  destruct (Z.eqb_spec (h_magic (header_of_bytes b)) SSN_MAGIC_BYTE); [|done].
  destruct (Z.eqb_spec (h_version (header_of_bytes b)) SSN_PROTOCOL_VERSION); [|done].
  cbn [negb orb]. rewrite u64_id by lia.
  destruct (Z.gtb_spec (ssn_ntohs (h_url_len (header_of_bytes b))
    + ssn_ntohl (h_data_len (header_of_bytes b))) SSN_MAX_PAYLOAD_SIZE); [done|].
  destruct Hbad as [?|[?|?]]; [done..|lia].
Qed.

Lemma stream_inv_start recv :
  zlen (buffer recv) <= SSN_MAX_PACKET_SIZE -> stream_inv (ssn_stream_init recv).
Proof.
  intros. split; [|apply stuck_nil]. unfold stream_ok; cbn.
  pose proof (zlen_nonneg (buffer recv)). lia.
Qed.

(** ** Properties *)

(** C1.  Refinement: from a context satisfying the representation invariant,
    [ssn_stream_feed] returns (both loops terminate), delivers to the handler
    exactly the packets the reference deframer finds in the unread bytes
    followed by the new chunk, answers true/false as the deframer does, keeps
    the unread tail (or empties the buffer on error and on stop) and
    re-establishes the invariant: every copy stays inside the 128 KiB buffer. *)
Theorem stream_feed_refines {St} (callback : bytes -> St -> bool * St)
    (recv : ssn_stream_ctx_t) (buf : bytes) (st : St) :
  stream_inv recv ->
  exists out, ssn_stream_feed callback recv buf st = Some out /\
    feed_matches (deframe callback (pending recv ++ buf) st) out.
Proof. apply stream_feed_spec. Qed.

(** C2.  Chunking independence: however the bytes of a sequence of well-formed
    packets are cut into [recv] chunks, feeding the chunks to a fresh context
    delivers exactly these packets, in order, and leaves nothing pending. *)
Theorem chunked_packets_delivered (recv : ssn_stream_ctx_t) (ps : list packet)
    (chunks : list bytes) (acc : list bytes) :
  zlen (buffer recv) <= SSN_MAX_PACKET_SIZE -> Forall packet_ok ps ->
  concat chunks = concat (map wire ps) ->
  exists recv', feed_chunks collect (ssn_stream_init recv) chunks acc
                = Some (true, recv', acc ++ map wire ps) /\
    stream_inv recv' /\ pending recv' = [].
Proof.
  intros Hb Hps Hc. pose proof (stream_inv_start recv Hb) as Hinv.
  pose proof (deframe_wires ps [] acc Hps) as Hd.
  rewrite app_nil_r, (deframe_stuck _ []) in Hd by apply stuck_nil.
  destruct (feed_chunks_spec collect chunks (ssn_stream_init recv) acc Hinv)
    as ([[ok recv'] st'] & -> & Hm); rewrite pending_init, app_nil_l, Hc, Hd in *; [done|].
  destruct Hm as (? & -> & -> & ?). eauto.
Qed.

(** C3.  Malformed input: well-formed packets followed by a complete header
    with a wrong magic byte, a wrong version or an oversized payload, in any
    chunking.  The packets before it are delivered, the feed that sees the bad
    header returns false, and the buffer is emptied. *)
Theorem malformed_stream_rejected (recv : ssn_stream_ctx_t) (ps : list packet)
    (bad : bytes) (chunks : list bytes) (acc : list bytes) :
  zlen (buffer recv) <= SSN_MAX_PACKET_SIZE -> Forall packet_ok ps -> bad_header bad ->
  concat chunks = concat (map wire ps) ++ bad ->
  exists recv', feed_chunks collect (ssn_stream_init recv) chunks acc
                = Some (false, recv', acc ++ map wire ps) /\
    stream_inv recv' /\ pending recv' = [].
Proof.
  intros Hb Hps Hbad Hc. pose proof (stream_inv_start recv Hb) as Hinv.
  pose proof (deframe_wires ps bad acc Hps) as Hd.
  rewrite (deframe_unfold _ bad), (validate_bad_header bad Hbad) in Hd.
  destruct Hbad as [Hlen _]. destruct (Z.ltb_spec (zlen bad) SSN_HEADER_SIZE); [lia|].
  destruct (feed_chunks_spec collect chunks (ssn_stream_init recv) acc Hinv)
    as ([[ok recv'] st'] & -> & Hm); rewrite pending_init, app_nil_l, Hc, Hd in *; [done|].
  destruct Hm as (? & -> & -> & ?). eauto.
Qed.

(** The accessors read the fields of a packet back. *)
Lemma packet_fields (p : packet) :
  packet_ok p ->
  let h := header_of_bytes (wire p) in
  ssn_get_msg_type h = p_type p /\ ssn_get_status h = p_status p /\
  ssn_get_seqno h = p_seqno p /\
  ssn_get_url (wire p)
    = Some (mk_url_ref (if zlen (p_url p) =? 0 then None else Some (p_url p)) (zlen (p_url p))) /\
  ssn_get_data (wire p)
    = Some (mk_data_ref (if zlen (p_data p) =? 0 then None else Some (p_data p)) (zlen (p_data p))).
Proof.
  intros Hp. cbv zeta.
  destruct Hp as (Ht & Hs & Hq & Hu & Hd).
  unfold ssn_get_url, ssn_get_data, wire, frame.
  rewrite header_of_bytes_of_header by (by apply frame_header_ok).
  pose proof (zlen_nonneg (p_url p)). pose proof (zlen_nonneg (p_data p)).
  unfold SSN_MAX_PAYLOAD_SIZE, SSN_MAX_PACKET_SIZE, SSN_HEADER_SIZE in Hd.
  cbn -[slice bytes_of_header ssn_htonl ssn_htons ssn_ntohs ssn_ntohl Z.eqb Z.gtb zlen].
  unfold ssn_get_status, ssn_get_seqno, ssn_get_url_length, ssn_get_data_length; cbn [h_status h_seqno h_url_len h_data_len ssn_set_data_length ssn_set_url_length].
  cbn [h_status h_seqno ssn_create_header ssn_set_status ssn_set_seqno].
  rewrite !ntohl_htonl, !ntohs_htons by lia.
  pose proof (slice_app_mid (bytes_of_header (frame_header p)) (p_url p) (p_data p)) as Eu.
  pose proof (slice_app_mid (bytes_of_header (frame_header p) ++ p_url p) (p_data p) []) as Ed.
  rewrite zlen_app, app_nil_r, <- app_assoc in Ed. rewrite zlen_bytes_of_header in Eu, Ed.
  unfold frame_header in Eu, Ed. rewrite Eu, Ed.
  do 3 (split; [done|]). split; [|done].
  destruct (Z.gtb_spec (zlen (p_url p)) 0), (Z.eqb_spec (zlen (p_url p)) 0); done || lia.
Qed.

(** C4.  Packet round trip: a packet assembled with [ssn_create_header] and the
    length setters is accepted by [ssn_packet_input], rejected when cut short,
    and the accessors read back type, status, sequence number, URL and data. *)
Theorem packet_roundtrip (p : packet) :
  packet_ok p ->
  ssn_packet_input (wire p) (zlen (wire p)) = Some (wire p) /\
  (forall n, 0 <= n < zlen (wire p) -> ssn_packet_input (ztake n (wire p)) n = None) /\
  let h := header_of_bytes (wire p) in
  ssn_get_msg_type h = p_type p /\ ssn_get_status h = p_status p /\
  ssn_get_seqno h = p_seqno p /\
  ssn_get_url (wire p)
    = Some (mk_url_ref (if zlen (p_url p) =? 0 then None else Some (p_url p)) (zlen (p_url p))) /\
  ssn_get_data (wire p)
    = Some (mk_data_ref (if zlen (p_data p) =? 0 then None else Some (p_data p)) (zlen (p_data p))).
Proof.
  intros Hp. pose proof (zlen_wire p Hp) as Hlen.
  split; [|split].
  - unfold ssn_packet_input. destruct (Z.eqb_spec (zlen (wire p)) 0).
    { unfold SSN_HEADER_SIZE in *; lia. }
    rewrite <- (app_nil_r (wire p)) at 1. rewrite validate_wire by done.
    by rewrite Z.gtb_ltb, Z.ltb_irrefl.
  - intros n Hn. unfold ssn_packet_input. destruct (Z.eqb_spec n 0); [done|].
    destruct (decide (n < SSN_HEADER_SIZE)); [by rewrite validate_short|].
    rewrite (validate_ext _ (wire p ++ []) _ n), validate_wire by
      (done || lia || (rewrite app_nil_r; apply ztake_ztake; unfold SSN_HEADER_SIZE in *; lia)).
    destruct (Z.gtb_spec (zlen (wire p)) n); [done|lia].
  - by apply packet_fields.
Qed.

(** ** Witnesses *)

Definition demo_recv : ssn_stream_ctx_t := mk_stream 0 0 0 [].
Definition demo_packets : list packet :=
  [mk_packet SSN_MSG_TYPE_RPC_REQUEST 0 258 [47; 97] [1; 2; 3];
   mk_packet SSN_MSG_TYPE_PUBLISH 7 0 [47] []].
Definition demo_bad : bytes := 8 :: repeat 0 14.

Lemma demo_packets_ok : Forall packet_ok demo_packets.
Proof.
  repeat first [apply Forall_nil_2 | apply Forall_cons_2]; unfold packet_ok, is_byte, fits; vm_compute;
    repeat split; discriminate || reflexivity.
Qed.

Lemma stream_feed_refines_witness :
  exists out, ssn_stream_feed collect (mk_stream 20 4 0 (repeat 9 4 ++ ztake 16 (wire (mk_packet 1 0 5 [47; 97] [7]))))
                (zdrop 16 (wire (mk_packet 1 0 5 [47; 97] [7]))) [] = Some out /\
    feed_matches (deframe collect (wire (mk_packet 1 0 5 [47; 97] [7])) []) out.
Proof.
  apply (stream_feed_refines collect
    (mk_stream 20 4 0 (repeat 9 4 ++ ztake 16 (wire (mk_packet 1 0 5 [47; 97] [7]))))
    (zdrop 16 (wire (mk_packet 1 0 5 [47; 97] [7]))) []).
  split.
  - repeat split; vm_compute; discriminate.
  - right. exists 18. split; [vm_compute; reflexivity|vm_compute; reflexivity].
Defined.

Lemma chunked_packets_delivered_witness :
  exists recv', feed_chunks collect (ssn_stream_init demo_recv)
      [ztake 3 (concat (map wire demo_packets)); slice (concat (map wire demo_packets)) 3 20;
       zdrop 23 (concat (map wire demo_packets))] []
      = Some (true, recv', map wire demo_packets) /\ stream_inv recv' /\ pending recv' = [].
Proof.
  apply (chunked_packets_delivered demo_recv demo_packets
    [ztake 3 (concat (map wire demo_packets)); slice (concat (map wire demo_packets)) 3 20;
     zdrop 23 (concat (map wire demo_packets))] []).
  - vm_compute. discriminate.
  - exact demo_packets_ok.
  - vm_compute. reflexivity.
Defined.

Lemma malformed_stream_rejected_witness :
  exists recv', feed_chunks collect (ssn_stream_init demo_recv)
      [concat (map wire demo_packets) ++ ztake 1 demo_bad; zdrop 1 demo_bad] []
      = Some (false, recv', map wire demo_packets) /\ stream_inv recv' /\ pending recv' = [].
Proof.
  apply (malformed_stream_rejected demo_recv demo_packets demo_bad
    [concat (map wire demo_packets) ++ ztake 1 demo_bad; zdrop 1 demo_bad] []).
  - vm_compute. discriminate.
  - exact demo_packets_ok.
  - split; [vm_compute; discriminate|]. left. vm_compute. discriminate.
  - vm_compute. reflexivity.
Defined.

Lemma packet_roundtrip_witness :
  ssn_packet_input (wire (mk_packet 1 0 258 [47; 97] [1; 2; 3])) 20
  = Some (wire (mk_packet 1 0 258 [47; 97] [1; 2; 3])).
Proof.
  refine (proj1 (packet_roundtrip (mk_packet 1 0 258 [47; 97] [1; 2; 3]) _)).
  repeat split; vm_compute; discriminate || reflexivity.
Defined.
