(* ===== verification/HashTable.v ===== *)
(** * Hash table ([src/src/util/ssn_hash_table.c])

    Chained hash table with integer keys and with string keys.  A bucket is
    the list of its nodes from the head of the chain on.  [malloc], [calloc]
    and [strdup] succeed or fail as a boolean argument says.  A node's
    [str_key] field records whether it was written: [ssn_hash_table_set] does
    not initialise it, and an operation that reads an uninitialised pointer has
    the result [None].

    Tables filled through the string API are proved to refine a finite map
    from strings, whatever the hash function does. *)
From S2P Require Import Prelude.

(** ** Data *)

(** The pointer field [str_key] of a node. *)
Inductive str_ptr := StrUninit | StrNull | StrDup (s : bytes).

(** A pointer value is [None] when it is NULL. *)
Record hash_node_t (V : Type) := mk_node {
  key : Z;
  str_key : str_ptr;
  value : option V;
}.
Arguments mk_node {V}.
Arguments key {V}.
Arguments str_key {V}.
Arguments value {V}.

Record ssn_hash_table (V : Type) := mk_table {
  buckets : list (list (hash_node_t V));
  capacity : Z;
  size_ : Z;
}.
Arguments mk_table {V}.
Arguments buckets {V}.
Arguments capacity {V}.
Arguments size_ {V}.

(** ** Hash functions *)

Fixpoint default_capacity_loop (fuel : nat) (c capacity : Z) : option Z :=
  match fuel with
  | O => None
  | S fuel => if c <? capacity then default_capacity_loop fuel (u64 (c * 2)) capacity else Some c
  end.

(** 16 doubled at most 60 times reaches 2^64; a 64-bit capacity above 2^63
    makes the C loop spin on zero, which is the [None] result. *)
Definition default_capacity (capacity : Z) : option Z := default_capacity_loop 61 16 capacity.

Definition hash_uint32 (key : Z) : Z :=
  let key := u32 (Z.lxor (Z.shiftr key 16) key * 73244475) in
  let key := u32 (Z.lxor (Z.shiftr key 16) key * 73244475) in
  Z.lxor (Z.shiftr key 16) key.

(** [char] is signed: a byte above 127 is added as a negative number. *)
Definition schar (b : Z) : Z := if b <? 128 then b else b - 256.

Fixpoint hash_string_loop (hash : Z) (s : bytes) : Z :=
  match s with
  | [] => hash
  | c :: s => hash_string_loop (u32 (u32 (u32 (Z.shiftl hash 5) + hash) + schar c)) s
  end.
Definition ssn_hash_string (str : bytes) : Z := hash_string_loop 5381 str.

Definition str_hash_index (key : bytes) (capacity : Z) : nat :=
  Z.to_nat (ssn_hash_string key mod capacity).
Definition int_hash_index (key : Z) (capacity : Z) : nat :=
  Z.to_nat (hash_uint32 (u32 key) mod capacity).

(** ** Chain walks *)

Section ops.
Context {V : Type}.
Local Abbreviation node := (hash_node_t V).
Local Abbreviation table := (ssn_hash_table V).

(** [while (node) { if (test(node)) break; prev = node; node = node->next; }]:
    the nodes passed, the node found and its successors; the outer [None] is
    the read of an uninitialised field. *)
Fixpoint chain_find (test : node -> option bool) (l : list node)
  : option (option (list node * node * list node)) :=
  match l with
  | [] => Some None
  | n :: l =>
    match test n with
    | None => None
    | Some true => Some (Some ([], n, l))
    | Some false =>
      match chain_find test l with
      | Some (Some (p, m, s)) => Some (Some (n :: p, m, s))
      | r => r
      end
    end
  end.

(** [node->str_key && strcmp(node->str_key, key) == 0] *)
Definition str_test (k : bytes) (n : node) : option bool :=
  match str_key n with
  | StrUninit => None
  | StrNull => Some false
  | StrDup s => Some (bool_decide (s = k))
  end.
(** [node->key == int_key] *)
Definition int_test (k : Z) (n : node) : option bool := Some (key n =? k).

Definition bucket (t : table) (i : nat) : list node := nth i (buckets t) [].
Definition set_bucket (t : table) (i : nat) (l : list node) (sz : Z) : table :=
  mk_table (<[i := l]> (buckets t)) (capacity t) sz.
Definition set_value (n : node) (v : option V) : node := mk_node (key n) (str_key n) v.

(** ** Operations *)

Definition ssn_hash_table_create (malloc_ok calloc_ok : bool) (capacity : Z)
  : option (option table) :=
  if negb malloc_ok then Some None
  else match default_capacity capacity with
       | None => None
       | Some c =>
         if negb calloc_ok then Some None
         else Some (Some (mk_table (replicate (Z.to_nat c) []) c 0))
       end.

(** The strings freed, in order; [None] if an uninitialised pointer is read. *)
Fixpoint destroy_chain (l : list node) : option (list bytes) :=
  match l with
  | [] => Some []
  | n :: l =>
    match str_key n, destroy_chain l with
    | StrUninit, _ | _, None => None
    | StrNull, Some r => Some r
    | StrDup s, Some r => Some (s :: r)
    end
  end.
Fixpoint destroy_buckets (bs : list (list node)) : option (list bytes) :=
  match bs with
  | [] => Some []
  | b :: bs =>
    match destroy_chain b, destroy_buckets bs with
    | Some r, Some r' => Some (r ++ r')
    | _, _ => None
    end
  end.
Definition ssn_hash_table_destroy (t : table) : option (list bytes) :=
  destroy_buckets (buckets t).

(** One node moved to the new bucket array. *)
Definition rehash_node (new_capacity : Z) (nb : list (list node)) (n : node)
  : option (list (list node)) :=
  match str_key n with
  | StrUninit => None
  | StrNull =>
      let i := int_hash_index (key n) new_capacity in
      Some (<[i := n :: nth i nb []]> nb)
  | StrDup s =>
      let i := str_hash_index s new_capacity in
      Some (<[i := n :: nth i nb []]> nb)
  end.
Fixpoint rehash_nodes (new_capacity : Z) (l : list node) (nb : list (list node))
  : option (list (list node)) :=
  match l with
  | [] => Some nb
  | n :: l =>
    match rehash_node new_capacity nb n with
    | None => None
    | Some nb => rehash_nodes new_capacity l nb
    end
  end.

(** [size / capacity > 0.75], exact below 2^24 entries (the capacity is a power
    of two, so the float quotient is exact). *)
Definition overloaded (t : table) : bool := size_ t * 4 >? capacity t * 3.

Definition rehash (t : table) : option table :=
  let new_capacity := u64 (capacity t * 2) in
  match rehash_nodes new_capacity (concat (buckets t)) (replicate (Z.to_nat new_capacity) []) with
  | None => None
  | Some nb => Some (mk_table nb new_capacity (size_ t))
  end.

(** [key] is the pointer argument as an integer; 0 is NULL. *)
Definition ssn_hash_table_set (calloc_ok malloc_ok : bool) (t : table) (k : Z) (v : option V)
  : option (bool * table) :=
  if k =? 0 then Some (false, t)
  else if overloaded t && negb calloc_ok then Some (false, t)
  else
    match (if overloaded t then rehash t else Some t) with
    | None => None
    | Some t =>
      let index := int_hash_index k (capacity t) in
      match chain_find (int_test k) (bucket t index) with
      | None => None
      | Some (Some (p, n, s)) =>
          Some (true, set_bucket t index (p ++ set_value n v :: s) (size_ t))
      | Some None =>
          if negb malloc_ok then Some (false, t)
          else Some (true, set_bucket t index (mk_node k StrUninit v :: bucket t index) (size_ t + 1))
      end
    end.

Definition ssn_hash_table_get (t : table) (k : Z) : option (option V) :=
  if k =? 0 then Some None
  else match chain_find (int_test k) (bucket t (int_hash_index k (capacity t))) with
       | None => None
       | Some (Some (_, n, _)) => Some (value n)
       | Some None => Some None
       end.

Definition ssn_hash_table_remove (t : table) (k : Z) : option (bool * table) :=
  if k =? 0 then Some (false, t)
  else
    let index := int_hash_index k (capacity t) in
    match chain_find (int_test k) (bucket t index) with
    | None => None
    | Some None => Some (false, t)
    | Some (Some (p, _, s)) => Some (true, set_bucket t index (p ++ s) (size_ t - 1))
    end.

Definition ssn_hash_table_set_str (malloc_ok strdup_ok : bool) (t : table) (k : bytes) (v : option V)
  : option (bool * table) :=
  let index := str_hash_index k (capacity t) in
  match chain_find (str_test k) (bucket t index) with
  | None => None
  | Some (Some (p, n, s)) =>
      Some (true, set_bucket t index (p ++ set_value n v :: s) (size_ t))
  | Some None =>
      if negb malloc_ok then Some (false, t)
      else if negb strdup_ok then Some (false, t)
      else Some (true, set_bucket t index (mk_node 0 (StrDup k) v :: bucket t index) (size_ t + 1))
  end.

Definition ssn_hash_table_get_str (t : table) (k : bytes) : option (option V) :=
  match chain_find (str_test k) (bucket t (str_hash_index k (capacity t))) with
  | None => None
  | Some (Some (_, n, _)) => Some (value n)
  | Some None => Some None
  end.

Definition ssn_hash_table_remove_str (t : table) (k : bytes) : option (bool * table) :=
  let index := str_hash_index k (capacity t) in
  match chain_find (str_test k) (bucket t index) with
  | None => None
  | Some None => Some (false, t)
  | Some (Some (p, _, s)) => Some (true, set_bucket t index (p ++ s) (size_ t - 1))
  end.

Definition ssn_hash_table_contains_str (t : table) (k : bytes) : option bool :=
  match ssn_hash_table_get_str t k with
  | None => None
  | Some v => Some (bool_decide (is_Some v))
  end.

Definition ssn_hash_table_size (t : table) : Z := size_ t.
End ops.

(** ** Capacity *)

Lemma default_capacity_loop_spec fuel j capacity :
  0 <= j <= 63 -> capacity <= 2 ^ 63 -> 63 - j < Z.of_nat fuel ->
  exists i, j <= i <= 63 /\ capacity <= 2 ^ i /\
    default_capacity_loop fuel (2 ^ j) capacity = Some (2 ^ i).
Proof.
  revert j. induction fuel as [|fuel IH]; intros j Hj Hc Hf; [lia|].
  cbn [default_capacity_loop]. destruct (Z.ltb_spec (2 ^ j) capacity) as [Hlt|Hge].
  - assert (j < 63) as Hj63.
    { apply Z.nle_gt. intros ?. assert (j = 63) as -> by lia. lia. }
    assert (2 ^ j * 2 = 2 ^ (j + 1)) as E by (rewrite Z.pow_add_r; lia).
    assert (2 ^ (j + 1) <= 2 ^ 63) by (apply Z.pow_le_mono_r; lia).
    rewrite E, u64_id by lia. destruct (IH (j + 1)) as (i & ? & ? & ?); [lia..|].
    exists i. split; [lia|done].
  - exists j. split; [lia|done].
Qed.

(** ** Chains as association lists *)

(** The lemmas below are shared by the string and the integer API: [nkey] is a
    node's key, [nok] says that reading it is defined, [idx] is the bucket. *)
Section chains.
Context {V : Type} {K : Type} `{Countable K}.
Context (nkey : hash_node_t V -> K) (nok : hash_node_t V -> Prop) (idx : K -> Z -> nat).
Context (test : K -> hash_node_t V -> option bool).
Context (test_ok : forall k n, nok n -> test k n = Some (bool_decide (nkey n = k))).
Context (nkey_set_value : forall n v, nkey (set_value n v) = nkey n).
Context (nok_set_value : forall n v, nok n -> nok (set_value n v)).
Implicit Types (l p s : list (hash_node_t V)) (t : ssn_hash_table V) (m : gmap K (option V)).

Definition pairs l : list (K * option V) := map (fun n => (nkey n, value n)) l.

Lemma pairs_fst l : (pairs l).*1 = map nkey l.
Proof. unfold pairs. induction l; cbn; congruence. Qed.

Lemma chain_find_spec k l :
  Forall nok l ->
  (exists p n s, chain_find (test k) l = Some (Some (p, n, s)) /\ l = p ++ n :: s /\
     nkey n = k /\ k ∉ map nkey p) \/
  (chain_find (test k) l = Some None /\ k ∉ map nkey l).
Proof.
  induction 1 as [|n l Hn Hl IH]; [right; split; [done|]; apply not_elem_of_nil|].
  cbn [chain_find]. rewrite test_ok by done. case_bool_decide as Hk.
  - left. exists [], n, l. split; [done|]. split; [done|]. split; [done|]. apply not_elem_of_nil.
  - destruct IH as [(p & n' & s & -> & -> & Hkey & Hp)|[-> Hnot]].
    + left. exists (n :: p), n', s. split; [done|]. split; [done|]. split; [done|].
      cbn. apply not_elem_of_cons. split; [congruence|done].
    + right. split; [done|]. cbn. apply not_elem_of_cons. split; [congruence|done].
Qed.

Lemma lookup_pairs_split k p n s :
  k ∉ map nkey p -> nkey n = k ->
  (list_to_map (pairs (p ++ n :: s)) : gmap K (option V))
  = <[k := value n]> (list_to_map (pairs (p ++ s))).
Proof.
  intros Hp <-. unfold pairs. rewrite !map_app, !list_to_map_app. cbn [map list_to_map].
  symmetry. apply insert_union_r. apply not_elem_of_list_to_map_1.
  fold (pairs p). by rewrite pairs_fst.
Qed.

Lemma lookup_pairs_none k l :
  k ∉ map nkey l -> (list_to_map (pairs l) : gmap K (option V)) !! k = None.
Proof. intros. apply not_elem_of_list_to_map_1. by rewrite pairs_fst. Qed.

(** The representation invariant, and the finite map a table stands for. *)
Definition table_ok t : Prop :=
  0 < capacity t /\ length (buckets t) = Z.to_nat (capacity t) /\
  (forall i, Forall (fun n => nok n /\ idx (nkey n) (capacity t) = i) (bucket t i)) /\
  (forall i, NoDup (map nkey (bucket t i))).

Definition table_repr t m : Prop :=
  table_ok t /\
  (forall k, m !! k = (list_to_map (pairs (bucket t (idx k (capacity t)))) : gmap K (option V)) !! k) /\
  size_ t = Z.of_nat (size m).

Context (idx_lt : forall k c, 0 < c -> (idx k c < Z.to_nat c)%nat).

Lemma bucket_set t i l sz j :
  (i < length (buckets t))%nat ->
  bucket (set_bucket t i l sz) j = if decide (i = j) then l else bucket t j.
Proof.
  intros Hi. unfold bucket, set_bucket; cbn [buckets]. rewrite !nth_lookup.
  destruct (decide (i = j)) as [->|Hne].
  - by rewrite list_lookup_insert_eq.
  - by rewrite list_lookup_insert_ne.
Qed.

Lemma bucket_nok t i : table_ok t -> Forall nok (bucket t i).
Proof. intros (_ & _ & Hok & _). eapply Forall_impl; [apply Hok|]. by intros n [? _]. Qed.

Lemma table_ok_set t k l sz :
  table_ok t ->
  Forall (fun n => nok n /\ idx (nkey n) (capacity t) = idx k (capacity t)) l ->
  NoDup (map nkey l) ->
  table_ok (set_bucket t (idx k (capacity t)) l sz).
Proof.
  intros (Hc & Hlen & Hok & Hnd) Hl Hndl.
  assert (idx k (capacity t) < length (buckets t))%nat as Hi by (rewrite Hlen; auto).
  split; [done|]. split; [cbn; by rewrite length_insert|].
  split; intros j; rewrite bucket_set by done; destruct (decide _) as [<-|]; auto.
Qed.

(** Replacing the bucket of [k] changes the map at [k] only, as far as the new
    bucket agrees with the old one elsewhere. *)
Lemma repr_update t m k l m' sz :
  table_repr t m ->
  Forall (fun n => nok n /\ idx (nkey n) (capacity t) = idx k (capacity t)) l ->
  NoDup (map nkey l) ->
  (forall k', k' <> k -> m' !! k' = m !! k') ->
  m' !! k = (list_to_map (pairs l) : gmap K (option V)) !! k ->
  (forall k', k' <> k -> (list_to_map (pairs l) : gmap K (option V)) !! k'
     = (list_to_map (pairs (bucket t (idx k (capacity t)))) : gmap K (option V)) !! k') ->
  sz = Z.of_nat (size m') ->
  table_repr (set_bucket t (idx k (capacity t)) l sz) m'.
Proof.
  intros (Hok & Hm & Hsz) Hl Hnd Hne Hk Hother ->.
  split; [by apply table_ok_set|]. split; [|done].
  destruct Hok as (Hc & Hlen & _).
  assert (idx k (capacity t) < length (buckets t))%nat as Hi by (rewrite Hlen; auto).
  intros k'. change (capacity (set_bucket t _ l _)) with (capacity t).
  rewrite bucket_set by done. destruct (decide (k' = k)) as [->|Hkk].
  - by destruct (decide _).
  - rewrite Hne, Hm by done. destruct (decide _) as [<-|]; [|done]. by rewrite Hother.
Qed.

Lemma repr_lookup t m k :
  table_repr t m ->
  match chain_find (test k) (bucket t (idx k (capacity t))) with
  | Some (Some (p, n, s)) =>
      bucket t (idx k (capacity t)) = p ++ n :: s /\ nkey n = k /\ (k ∉ map nkey p) /\
      (k ∉ map nkey s) /\ m !! k = Some (value n)
  | Some None => (k ∉ map nkey (bucket t (idx k (capacity t)))) /\ m !! k = None
  | None => False
  end.
Proof.
  intros (Hok & Hm & _). pose proof Hok as (_ & _ & _ & Hnd).
  destruct (chain_find_spec k _ (bucket_nok t (idx k (capacity t)) Hok))
    as [(p & n & s & -> & Hb & Hn & Hp)|[-> Hnot]].
  - rewrite Hm, Hb, (lookup_pairs_split k), lookup_insert_eq by done.
    specialize (Hnd (idx k (capacity t))). rewrite Hb, map_app in Hnd. cbn in Hnd.
    apply NoDup_app in Hnd as (_ & _ & [Hs _]%NoDup_cons). by rewrite Hn in Hs.
  - split; [done|]. rewrite Hm. by apply lookup_pairs_none.
Qed.

Lemma repr_bucket_forall t m k :
  table_repr t m ->
  Forall (fun n => nok n /\ idx (nkey n) (capacity t) = idx k (capacity t))
    (bucket t (idx k (capacity t))) /\
  NoDup (map nkey (bucket t (idx k (capacity t)))).
Proof. intros ((_ & _ & Hok & Hnd) & _). auto. Qed.

Lemma repr_replace t m k v p n s :
  table_repr t m -> bucket t (idx k (capacity t)) = p ++ n :: s -> nkey n = k ->
  k ∉ map nkey p -> m !! k = Some (value n) ->
  table_repr (set_bucket t (idx k (capacity t)) (p ++ set_value n v :: s) (size_ t)) (<[k := v]> m).
Proof.
  intros Hr Hb Hn Hp Hl. destruct (repr_bucket_forall t m k Hr) as [Hf Hnd]. rewrite Hb in Hf, Hnd.
  apply (repr_update t m k _ (<[k := v]> m) _ Hr).
  - apply Forall_app in Hf as [Hfp [[??] Hfs]%Forall_cons]. apply Forall_app. split; [done|].
    constructor; [|done]. rewrite nkey_set_value. auto.
  - rewrite map_app in *; cbn in *. by rewrite nkey_set_value.
  - intros. by rewrite lookup_insert_ne.
  - rewrite (lookup_pairs_split k), !lookup_insert_eq; [done|done|]. by rewrite nkey_set_value.
  - intros k' Hk'. rewrite Hb, !(lookup_pairs_split k) by (by rewrite ?nkey_set_value).
    by rewrite !lookup_insert_ne.
  - rewrite map_size_insert_Some; [by destruct Hr as (_ & _ & ?)|eauto].
Qed.

Lemma repr_insert t m n k v :
  table_repr t m -> k ∉ map nkey (bucket t (idx k (capacity t))) -> m !! k = None ->
  nok n -> nkey n = k -> value n = v ->
  table_repr (set_bucket t (idx k (capacity t)) (n :: bucket t (idx k (capacity t))) (size_ t + 1))
    (<[k := v]> m).
Proof.
  intros Hr Hnot Hl Hn Hk Hv. destruct (repr_bucket_forall t m k Hr) as [Hf Hnd].
  apply (repr_update t m k _ (<[k := v]> m) _ Hr).
  - constructor; [|done]. by rewrite Hk.
  - cbn. rewrite Hk. by constructor.
  - intros. by rewrite lookup_insert_ne.
  - cbn. by rewrite Hk, Hv, !lookup_insert_eq.
  - intros k' Hk'. cbn. rewrite Hk. by rewrite lookup_insert_ne.
  - rewrite map_size_insert_None by done. destruct Hr as (_ & _ & ->). lia.
Qed.

Lemma repr_delete t m k p n s :
  table_repr t m -> bucket t (idx k (capacity t)) = p ++ n :: s -> nkey n = k ->
  k ∉ map nkey p -> k ∉ map nkey s -> m !! k = Some (value n) ->
  table_repr (set_bucket t (idx k (capacity t)) (p ++ s) (size_ t - 1)) (delete k m).
Proof.
  intros Hr Hb Hn Hp Hs Hl. destruct (repr_bucket_forall t m k Hr) as [Hf Hnd]. rewrite Hb in Hf, Hnd.
  apply (repr_update t m k _ (delete k m) _ Hr).
  - apply Forall_app in Hf as [Hfp [_ Hfs]%Forall_cons]. by apply Forall_app.
  - rewrite map_app in *. cbn in Hnd. apply NoDup_app in Hnd as (? & Hd & [_ ?]%NoDup_cons).
    apply NoDup_app. split; [done|]. split; [|done]. intros x Hx Hx'. apply (Hd x Hx). by right.
  - intros. by rewrite lookup_delete_ne.
  - rewrite lookup_delete_eq, lookup_pairs_none; [done|]. rewrite map_app. by intros [?|?]%elem_of_app.
  - intros k' Hk'. rewrite Hb, (lookup_pairs_split k) by done. by rewrite lookup_insert_ne.
  - destruct Hr as (_ & _ & ->).
    rewrite map_size_delete_Some by eauto.
    assert (size m <> 0%nat).
    { intros E%map_size_empty_inv. subst m. by rewrite lookup_empty in Hl. }
    lia.
Qed.
End chains.

(** ** The two key kinds *)

Section instances.
Context {V : Type}.

Definition skey (n : hash_node_t V) : bytes :=
  match str_key n with StrDup s => s | _ => [] end.
Definition sok (n : hash_node_t V) : Prop := str_key n = StrDup (skey n).
(** A node [ssn_hash_table_set] made: its [str_key] was never written. *)
Definition iok (n : hash_node_t V) : Prop := str_key n = StrUninit /\ key n <> 0.

(** Tables used through the string API, through the integer API. *)
Definition str_table (t : ssn_hash_table V) (m : gmap bytes (option V)) : Prop :=
  table_repr skey sok str_hash_index t m.
Definition int_table (t : ssn_hash_table V) (m : gmap Z (option V)) : Prop :=
  table_repr key iok int_hash_index t m.

Lemma str_test_ok k (n : hash_node_t V) :
  sok n -> str_test k n = Some (bool_decide (skey n = k)).
Proof. unfold sok, str_test, skey. destruct (str_key n); by try done. Qed.

Lemma int_test_ok k (n : hash_node_t V) :
  iok n -> int_test k n = Some (bool_decide (key n = k)).
Proof. intros _. unfold int_test. f_equal. by destruct (Z.eqb_spec (key n) k), (decide (key n = k)); try case_bool_decide. Qed.

Lemma mod_index_lt h c : 0 < c -> (Z.to_nat (h mod c) < Z.to_nat c)%nat.
Proof. intros Hc. pose proof (Z.mod_pos_bound h c Hc). lia. Qed.

Lemma destroy_chain_str (l : list (hash_node_t V)) :
  Forall sok l -> destroy_chain l = Some (map skey l).
Proof.
  induction 1 as [|n l Hn _ IH]; [done|]. cbn. unfold sok in Hn. rewrite IH, Hn. done.
Qed.

Lemma destroy_buckets_str (bs : list (list (hash_node_t V))) :
  Forall (Forall sok) bs -> destroy_buckets bs = Some (map skey (concat bs)).
Proof.
  induction 1 as [|b bs Hb _ IH]; [done|]. cbn.
  by rewrite (destroy_chain_str b Hb), IH, map_app.
Qed.

Lemma destroy_chain_uninit (l : list (hash_node_t V)) n :
  n ∈ l -> str_key n = StrUninit -> destroy_chain l = None.
Proof.
  intros Hin Hn. induction l as [|n' l IH]; [by apply elem_of_nil in Hin|]. cbn.
  apply elem_of_cons in Hin as [<-|Hin]; [by rewrite Hn|].
  rewrite IH by done. by destruct (str_key n').
Qed.

Lemma destroy_buckets_uninit (bs : list (list (hash_node_t V))) n :
  n ∈ concat bs -> str_key n = StrUninit -> destroy_buckets bs = None.
Proof.
  intros Hin Hn. induction bs as [|b bs IH]; cbn in *; [by apply elem_of_nil in Hin|].
  apply elem_of_app in Hin as [Hin|Hin].
  - by rewrite (destroy_chain_uninit b n).
  - rewrite IH by done. by destruct (destroy_chain b).
Qed.

Lemma rehash_nodes_uninit c (l : list (hash_node_t V)) n nb :
  n ∈ l -> str_key n = StrUninit -> rehash_nodes c l nb = None.
Proof.
  intros Hin Hn. revert nb. induction l as [|n' l IH]; intros nb; [by apply elem_of_nil in Hin|]. cbn.
  apply elem_of_cons in Hin as [<-|Hin]; [unfold rehash_node; by rewrite Hn|].
  destruct (rehash_node c nb n'); [by apply IH|done].
Qed.

Lemma buckets_forall nkey nok idx (t : ssn_hash_table V) :
  table_ok (K := bytes) nkey nok idx t -> Forall (Forall nok) (buckets t).
Proof.
  intros Hok. apply Forall_lookup. intros i b Hb.
  pose proof (bucket_nok _ _ _ t i Hok) as H. unfold bucket in H. by rewrite nth_lookup, Hb in H.
Qed.

(** A key of the map is held by a node of some bucket. *)
Lemma repr_node (t : ssn_hash_table V) (m : gmap Z (option V)) k v :
  int_table t m -> m !! k = Some v ->
  exists n, n ∈ concat (buckets t) /\ str_key n = StrUninit.
Proof.
  intros Hr Hk. pose proof Hr as (Hok & Hm & _). rewrite Hm in Hk.
  apply elem_of_list_to_map_2 in Hk. unfold pairs in Hk.
  apply list_elem_of_fmap in Hk as (n & [= -> ->] & Hn).
  exists n. split.
  - unfold bucket in Hn. rewrite nth_lookup in Hn.
    destruct (buckets t !! _) as [b|] eqn:Hb; [|by apply elem_of_nil in Hn].
    apply elem_of_concat. exists b. split; [done|]. by eapply list_elem_of_lookup_2.
  - pose proof (bucket_nok _ _ _ t (int_hash_index (key n) (capacity t)) Hok) as Hf.
    rewrite Forall_forall in Hf. by destruct (Hf n Hn).
Qed.

Lemma table_ok_empty {K} `{Countable K} nkey nok (idx : K -> Z -> nat) c :
  0 < c -> table_repr nkey nok idx (mk_table (V := V) (replicate (Z.to_nat c) []) c 0) ∅.
Proof.
  intros Hc.
  assert (forall i, nth i (replicate (Z.to_nat c) (@nil (hash_node_t V))) [] = []) as Hnil.
  { intros i. rewrite nth_lookup. destruct (replicate _ _ !! i) as [b|] eqn:Hb; [|done].
    by apply lookup_replicate in Hb as [-> _]. }
  split; [|split; [|done]].
  - split; [done|]. split; [apply length_replicate|].
    split; intros i; unfold bucket; cbn; rewrite Hnil; constructor.
  - intros k. unfold bucket; cbn. by rewrite Hnil.
Qed.
End instances.

(** Creation: any capacity up to 2^63 gives an empty table with a power-of-two
    number of buckets that is at least the requested one. *)
Lemma create_spec {V K} `{Countable K} nkey nok (idx : K -> Z -> nat) (capacity : Z) :
  capacity <= 2 ^ 63 ->
  exists t : ssn_hash_table V, ssn_hash_table_create true true capacity = Some (Some t) /\
    table_repr nkey nok idx t ∅ /\ capacity <= HashTable.capacity t /\
    exists i, 4 <= i <= 63 /\ HashTable.capacity t = 2 ^ i.
Proof.
  intros Hc. unfold ssn_hash_table_create, default_capacity.
  destruct (default_capacity_loop_spec 61 4 capacity) as (i & Hi & Hle & Hd); [lia..|].
  change 16 with (2 ^ 4). rewrite Hd. cbn [negb]. eexists; split; [done|].
  split; [apply table_ok_empty; lia|]. cbn. eauto.
Qed.

(** The string API, all operations. *)
Lemma str_table_spec {V} (t : ssn_hash_table V) (m : gmap bytes (option V)) (k : bytes) :
  str_table t m ->
  ssn_hash_table_get_str t k = Some (default None (m !! k)) /\
  ssn_hash_table_contains_str t k = Some (bool_decide (is_Some (default None (m !! k)))) /\
  (forall v malloc_ok strdup_ok,
     if bool_decide (m !! k = None) && negb (malloc_ok && strdup_ok)
     then ssn_hash_table_set_str malloc_ok strdup_ok t k v = Some (false, t)
     else exists t', ssn_hash_table_set_str malloc_ok strdup_ok t k v = Some (true, t') /\
            str_table t' (<[k := v]> m)) /\
  (if bool_decide (m !! k = None)
   then ssn_hash_table_remove_str t k = Some (false, t)
   else exists t', ssn_hash_table_remove_str t k = Some (true, t') /\ str_table t' (delete k m)) /\
  ssn_hash_table_size t = Z.of_nat (size m) /\
  is_Some (ssn_hash_table_destroy t).
Proof.
  intros Hr. pose proof (repr_lookup skey sok str_hash_index str_test str_test_ok t m k Hr) as Hl.
  unfold ssn_hash_table_contains_str, ssn_hash_table_get_str, ssn_hash_table_set_str,
    ssn_hash_table_remove_str.
  split_and!.
  - destruct (chain_find _ _) as [[[[p n] s]|]|]; [|by destruct Hl as [_ ->]|done].
    by destruct Hl as (_ & _ & _ & _ & ->).
  - destruct (chain_find _ _) as [[[[p n] s]|]|]; [|by destruct Hl as [_ ->]|done].
    by destruct Hl as (_ & _ & _ & _ & ->).
  - intros v mo so. destruct (chain_find _ _) as [[[[p n] s]|]|]; [| |done].
    + destruct Hl as (Hb & Hn & Hp & Hs & Hm). rewrite Hm. cbn. eexists; split; [done|].
      eapply repr_replace; eauto using mod_index_lt.
    + destruct Hl as (Hnot & Hm). rewrite Hm. destruct mo, so; cbn; [|done..].
      eexists; split; [done|]. eapply repr_insert; eauto using mod_index_lt. done.
  - destruct (chain_find _ _) as [[[[p n] s]|]|]; [| |done].
    + destruct Hl as (Hb & Hn & Hp & Hs & Hm). rewrite Hm. cbn. eexists; split; [done|].
      eapply repr_delete; eauto using mod_index_lt.
    + destruct Hl as (Hnot & Hm). by rewrite Hm.
  - by destruct Hr as (_ & _ & ?).
  - unfold ssn_hash_table_destroy. rewrite destroy_buckets_str; [by eexists|].
    destruct Hr as [Hok _]. by eapply buckets_forall.
Qed.

(** ** Interface: string-keyed maps

    What the string API promises to the components that use it: an
    implementation type, its representation relation, and the three operations
    with their allocation results. *)
Class StrMap (V T : Type) := {
  sm_repr : T -> gmap bytes (option V) -> Prop;
  sm_get : T -> bytes -> option (option V);
  sm_set : bool -> bool -> T -> bytes -> option V -> option (bool * T);
  sm_remove : T -> bytes -> option (bool * T);
  sm_size : T -> Z;
}.
Class StrMapLaws (V T : Type) `{StrMap V T} := {
  sm_get_ok t m k : sm_repr t m -> sm_get t k = Some (default None (m !! k));
  sm_set_ok t m k v malloc_ok strdup_ok : sm_repr t m ->
    if bool_decide (m !! k = None) && negb (malloc_ok && strdup_ok)
    then sm_set malloc_ok strdup_ok t k v = Some (false, t)
    else exists t', sm_set malloc_ok strdup_ok t k v = Some (true, t') /\ sm_repr t' (<[k := v]> m);
  sm_remove_ok t m k : sm_repr t m ->
    if bool_decide (m !! k = None) then sm_remove t k = Some (false, t)
    else exists t', sm_remove t k = Some (true, t') /\ sm_repr t' (delete k m);
  sm_size_ok t m : sm_repr t m -> sm_size t = Z.of_nat (size m);
}.

#[global] Instance hash_table_strmap V : StrMap V (ssn_hash_table V) := {|
  sm_repr := str_table;
  sm_get := ssn_hash_table_get_str;
  sm_set := ssn_hash_table_set_str;
  sm_remove := ssn_hash_table_remove_str;
  sm_size := ssn_hash_table_size;
|}.
#[global] Instance hash_table_strmap_laws V : StrMapLaws V (ssn_hash_table V).
Proof.
  split.
  - intros t m k Hr. apply (str_table_spec t m k Hr).
  - intros t m k v mo so Hr. apply (str_table_spec t m k Hr).
  - intros t m k Hr. apply (str_table_spec t m k Hr).
  - intros t m Hr. apply (str_table_spec t m [] Hr).
Qed.

(** ** Properties *)

(** C38.  A table used through the string API implements a finite map from
    string contents: [get_str] reads it, a successful [set_str] inserts or
    replaces, a failed allocation leaves the table as it was (and replacing
    needs none), [remove_str] deletes and reports whether the key was there,
    [size] counts the keys, and destroying it frees every key copy without
    touching uninitialised memory.  Holds for every hash collision pattern. *)
Theorem str_table_refines_map {V} (t : ssn_hash_table V) (m : gmap bytes (option V)) (k : bytes) :
  str_table t m ->
  ssn_hash_table_get_str t k = Some (default None (m !! k)) /\
  ssn_hash_table_contains_str t k = Some (bool_decide (is_Some (default None (m !! k)))) /\
  (forall v malloc_ok strdup_ok,
     if bool_decide (m !! k = None) && negb (malloc_ok && strdup_ok)
     then ssn_hash_table_set_str malloc_ok strdup_ok t k v = Some (false, t)
     else exists t', ssn_hash_table_set_str malloc_ok strdup_ok t k v = Some (true, t') /\
            str_table t' (<[k := v]> m)) /\
  (if bool_decide (m !! k = None)
   then ssn_hash_table_remove_str t k = Some (false, t)
   else exists t', ssn_hash_table_remove_str t k = Some (true, t') /\ str_table t' (delete k m)) /\
  ssn_hash_table_size t = Z.of_nat (size m) /\
  is_Some (ssn_hash_table_destroy t).
Proof. apply str_table_spec. Qed.

(** A table used through the integer API implements a finite map from
    non-null keys as long as it is not over its load factor; the null key is
    refused by every operation. *)
Theorem int_table_refines_map {V} (t : ssn_hash_table V) (m : gmap Z (option V)) (k : Z) :
  int_table t m -> k <> 0 -> overloaded t = false ->
  ssn_hash_table_get t k = Some (default None (m !! k)) /\
  (forall v calloc_ok malloc_ok,
     if bool_decide (m !! k = None) && negb malloc_ok
     then ssn_hash_table_set calloc_ok malloc_ok t k v = Some (false, t)
     else exists t', ssn_hash_table_set calloc_ok malloc_ok t k v = Some (true, t') /\
            int_table t' (<[k := v]> m)) /\
  (if bool_decide (m !! k = None)
   then ssn_hash_table_remove t k = Some (false, t)
   else exists t', ssn_hash_table_remove t k = Some (true, t') /\ int_table t' (delete k m)) /\
  (forall v b1 b2, ssn_hash_table_set b1 b2 t 0 v = Some (false, t) /\
     ssn_hash_table_get t 0 = Some None /\ ssn_hash_table_remove t 0 = Some (false, t)).
Proof.
  intros Hr Hk Hload. pose proof (repr_lookup key iok int_hash_index int_test int_test_ok t m k Hr) as Hl.
  unfold ssn_hash_table_get, ssn_hash_table_set, ssn_hash_table_remove. rewrite Hload. cbn.
  destruct (Z.eqb_spec k 0); [done|].
  split_and!.
  - destruct (chain_find _ _) as [[[[p n'] s]|]|]; [|by destruct Hl as [_ ->]|done].
    by destruct Hl as (_ & _ & _ & _ & ->).
  - intros v _ mo. destruct (chain_find _ _) as [[[[p n'] s]|]|]; [| |done].
    + destruct Hl as (Hb & Hn & Hp & Hs & Hm). rewrite Hm. cbn. eexists; split; [done|].
      eapply repr_replace; eauto using mod_index_lt.
    + destruct Hl as (Hnot & Hm). rewrite Hm. destruct mo; cbn; [|done].
      eexists; split; [done|]. eapply repr_insert; eauto using mod_index_lt; done.
  - destruct (chain_find _ _) as [[[[p n'] s]|]|]; [| |done].
    + destruct Hl as (Hb & Hn & Hp & Hs & Hm). rewrite Hm. cbn. eexists; split; [done|].
      eapply repr_delete; eauto using mod_index_lt.
    + destruct Hl as (Hnot & Hm). by rewrite Hm.
  - done.
Qed.

(** [ssn_hash_table_set] leaves [str_key] of a new node unwritten, so a
    non-empty integer-keyed table cannot be destroyed, nor grown past its load
    factor, without reading an uninitialised pointer. *)
Theorem int_table_uninitialised_read {V} (t : ssn_hash_table V) (m : gmap Z (option V))
    (k0 : Z) (v0 : option V) :
  int_table t m -> m !! k0 = Some v0 ->
  ssn_hash_table_destroy t = None /\
  (overloaded t = true -> forall k v malloc_ok, k <> 0 ->
     ssn_hash_table_set true malloc_ok t k v = None).
Proof.
  intros Hr Hk0. destruct (repr_node t m k0 v0 Hr Hk0) as (n & Hin & Hn). split.
  - by eapply destroy_buckets_uninit.
  - intros Hload k v mo Hk. unfold ssn_hash_table_set, rehash.
    destruct (Z.eqb_spec k 0); [done|]. rewrite Hload. cbn.
    by rewrite (rehash_nodes_uninit _ _ n).
Qed.

(** ** Witnesses *)

Definition demo_table : ssn_hash_table Z := mk_table (replicate 16 []) 16 0.

Lemma str_table_refines_map_witness :
  exists t', ssn_hash_table_set_str true true demo_table [47; 97] (Some 1) = Some (true, t') /\
    ssn_hash_table_get_str t' [47; 97] = Some (Some 1) /\
    ssn_hash_table_destroy t' = Some [[47; 97]].
Proof.
  destruct (str_table_refines_map demo_table ∅ [47; 97]) as (_ & _ & Hset & _).
  - apply (table_ok_empty skey sok str_hash_index 16). reflexivity.
  - destruct (Hset (Some 1) true true) as (t' & Ht & _). exists t'.
    vm_compute in Ht. injection Ht as <-. split; [|split]; vm_compute; reflexivity.
Defined.

Lemma int_table_refines_map_witness :
  exists t', ssn_hash_table_set true true demo_table 5 (Some 1) = Some (true, t') /\
    int_table t' {[5 := Some 1]}.
Proof.
  destruct (int_table_refines_map demo_table ∅ 5) as (_ & Hset & _).
  - apply (table_ok_empty key iok int_hash_index 16). reflexivity.
  - discriminate.
  - reflexivity.
  - exact (Hset (Some 1) true true).
Defined.

Lemma demo_int_table :
  int_table (set_bucket demo_table (int_hash_index 5 16) [mk_node 5 StrUninit (Some 1)] 1)
    {[5 := Some 1]}.
Proof.
  apply (repr_insert key iok int_hash_index (fun k c Hc => mod_index_lt _ c Hc) demo_table ∅
           (mk_node 5 StrUninit (Some 1)) 5 (Some 1)); try done.
  - by apply (table_ok_empty key iok int_hash_index 16).
  - vm_compute. by intros ?%elem_of_nil.
Qed.

Lemma int_table_uninitialised_read_witness :
  exists t', ssn_hash_table_set true true demo_table 5 (Some 1) = Some (true, t') /\
    ssn_hash_table_destroy t' = None.
Proof.
  exists (set_bucket demo_table (int_hash_index 5 16) [mk_node 5 StrUninit (Some 1)] 1).
  split; [vm_compute; reflexivity|].
  exact (proj1 (int_table_uninitialised_read _ {[5 := Some 1]} 5 (Some 1) demo_int_table
                  (lookup_singleton_eq 5 (Some 1)))).
Defined.
