(* ===== verification/ErrorCode.v ===== *)
(** * Error codes ([src/src/ssn_error.h], [src/src/ssn_error.c])

    A 32-bit code packs category, subcategory and detail; the message table is
    searched linearly up to its NULL terminator.  Pure data: later components
    use the codes as the status values of replies. *)
From Stdlib Require Import String.
From S2P Require Import Prelude.

Definition SSN_ECODE_MAKE (category subcategory code : Z) : Z :=
  u32 (Z.lor (Z.lor (Z.shiftl category 24) (Z.shiftl subcategory 16)) code).
Definition SSN_ECODE_VERSION : Z := 1.
Definition SSN_ECODE_MAKE_WITH_VERSION (category subcategory code : Z) : Z :=
  u32 (Z.lor (Z.lor (Z.lor (Z.shiftl SSN_ECODE_VERSION 28) (Z.shiftl category 24))
                    (Z.shiftl subcategory 16)) code).

Definition SSN_ECODE_CATEGORY_COMMON : Z := 0.
Definition SSN_ECODE_CATEGORY_NETWORK : Z := 1.
Definition SSN_ECODE_CATEGORY_SERVICE : Z := 2.
Definition SSN_ECODE_CATEGORY_RESOURCE : Z := 3.
Definition SSN_ECODE_CATEGORY_SECURITY : Z := 4.
Definition SSN_ECODE_CATEGORY_SERIALIZE : Z := 5.

Definition SSN_ECODE_SUCCESS := SSN_ECODE_MAKE SSN_ECODE_CATEGORY_COMMON 0 0.
Definition SSN_ECODE_INVALID_ARGS := SSN_ECODE_MAKE SSN_ECODE_CATEGORY_COMMON 0 1.
Definition SSN_ECODE_NOT_FOUND := SSN_ECODE_MAKE SSN_ECODE_CATEGORY_COMMON 0 2.
Definition SSN_ECODE_TIMEOUT := SSN_ECODE_MAKE SSN_ECODE_CATEGORY_COMMON 0 3.
Definition SSN_ECODE_INTERNAL := SSN_ECODE_MAKE SSN_ECODE_CATEGORY_COMMON 0 4.
Definition SSN_ECODE_NET_CONNECT := SSN_ECODE_MAKE SSN_ECODE_CATEGORY_NETWORK 0 1.
Definition SSN_ECODE_NET_DISCONNECT := SSN_ECODE_MAKE SSN_ECODE_CATEGORY_NETWORK 0 2.
Definition SSN_ECODE_NET_READ := SSN_ECODE_MAKE SSN_ECODE_CATEGORY_NETWORK 0 3.
Definition SSN_ECODE_NET_WRITE := SSN_ECODE_MAKE SSN_ECODE_CATEGORY_NETWORK 0 4.
Definition SSN_ECODE_SERVICE_NOT_FOUND := SSN_ECODE_MAKE SSN_ECODE_CATEGORY_SERVICE 0 1.
Definition SSN_ECODE_SERVICE_BUSY := SSN_ECODE_MAKE SSN_ECODE_CATEGORY_SERVICE 0 2.
Definition SSN_ECODE_SERVICE_ERROR := SSN_ECODE_MAKE SSN_ECODE_CATEGORY_SERVICE 0 3.
Definition SSN_ECODE_OUT_OF_MEMORY := SSN_ECODE_MAKE SSN_ECODE_CATEGORY_RESOURCE 0 1.
Definition SSN_ECODE_RESOURCE_LIMIT := SSN_ECODE_MAKE SSN_ECODE_CATEGORY_RESOURCE 0 2.
Definition SSN_ECODE_AUTH_FAILED := SSN_ECODE_MAKE SSN_ECODE_CATEGORY_SECURITY 0 1.
Definition SSN_ECODE_ACCESS_DENIED := SSN_ECODE_MAKE SSN_ECODE_CATEGORY_SECURITY 0 2.
Definition SSN_ECODE_SERIALIZE_FAILED := SSN_ECODE_MAKE SSN_ECODE_CATEGORY_SERIALIZE 0 1.
Definition SSN_ECODE_DESERIALIZE_FAILED := SSN_ECODE_MAKE SSN_ECODE_CATEGORY_SERIALIZE 0 2.

(** The table; the last row is the end marker. *)
Definition error_messages : list (Z * option string) :=
  [(SSN_ECODE_SUCCESS, Some "Success"%string);
   (SSN_ECODE_INVALID_ARGS, Some "Invalid arguments"%string);
   (SSN_ECODE_NOT_FOUND, Some "Not found"%string);
   (SSN_ECODE_TIMEOUT, Some "Timeout"%string);
   (SSN_ECODE_INTERNAL, Some "Internal error"%string);
   (SSN_ECODE_NET_CONNECT, Some "Network connection failed"%string);
   (SSN_ECODE_NET_DISCONNECT, Some "Network disconnected"%string);
   (SSN_ECODE_NET_READ, Some "Network read failed"%string);
   (SSN_ECODE_NET_WRITE, Some "Network write failed"%string);
   (SSN_ECODE_SERVICE_NOT_FOUND, Some "Service not found"%string);
   (SSN_ECODE_SERVICE_BUSY, Some "Service busy"%string);
   (SSN_ECODE_SERVICE_ERROR, Some "Service error"%string);
   (SSN_ECODE_OUT_OF_MEMORY, Some "Out of memory"%string);
   (SSN_ECODE_RESOURCE_LIMIT, Some "Resource limit exceeded"%string);
   (SSN_ECODE_AUTH_FAILED, Some "Authentication failed"%string);
   (SSN_ECODE_ACCESS_DENIED, Some "Access denied"%string);
   (SSN_ECODE_SERIALIZE_FAILED, Some "Serialization failed"%string);
   (SSN_ECODE_DESERIALIZE_FAILED, Some "Deserialization failed"%string);
   (0, None)].

(** The loop over the table from a row on; reading past the end marker does not
    happen because the loop stops there. *)
Fixpoint message_loop (rows : list (Z * option string)) (error : Z) : string :=
  match rows with
  | (e, Some m) :: rows => if e =? error then m else message_loop rows error
  | _ => "Unknown error"%string
  end.
Definition ssn_ecode_message (error : Z) : string := message_loop error_messages error.

Definition ssn_ecode_category (error : Z) : Z := u8 (Z.land (Z.shiftr error 24) 255).
Definition ssn_ecode_subcategory (error : Z) : Z := u8 (Z.land (Z.shiftr error 16) 255).
Definition ssn_ecode_code (error : Z) : Z := u16 (Z.land error 65535).

(** ** Lemmas *)

Lemma lor_disjoint_add a b n : 0 <= n -> 0 <= b < 2 ^ n -> Z.lor (Z.shiftl a n) b = a * 2 ^ n + b.
Proof.
  intros Hn Hb.
  assert (Z.land (Z.shiftl a n) b = 0) as Hz.
  { apply Z.bits_inj'. intros i Hi. rewrite Z.land_spec, Z.bits_0.
    destruct (decide (i < n)).
    - by rewrite Z.shiftl_spec_low.
    - rewrite <- (Z.mod_small b (2 ^ n)), Z.mod_pow2_bits_high, andb_false_r by lia. done. }
  pose proof (Z.add_lor_land (Z.shiftl a n) b) as E. rewrite Z.shiftl_mul_pow2 in * by done. lia.
Qed.

(** The packed code as a sum; [lia] then splits it into its fields. *)
Lemma ecode_make_sum c s d :
  0 <= c < 256 -> 0 <= s < 256 -> 0 <= d < 65536 ->
  SSN_ECODE_MAKE c s d = c * 16777216 + s * 65536 + d.
Proof.
  intros Hc Hs Hd. unfold SSN_ECODE_MAKE.
  rewrite <- Z.lor_assoc, (lor_disjoint_add s d 16), (lor_disjoint_add c) by lia.
  rewrite u32_id by lia. lia.
Qed.

Lemma land_ones_mod a n : 0 <= n -> Z.land a (2 ^ n - 1) = a mod 2 ^ n.
Proof. intros. by rewrite <- Z.land_ones, Z.ones_equiv. Qed.

(** ** Properties *)

(** A packed error code gives back its category, subcategory and detail. *)
Theorem ecode_fields_roundtrip (category subcategory code : Z) :
  0 <= category < 256 -> 0 <= subcategory < 256 -> 0 <= code < 65536 ->
  ssn_ecode_category (SSN_ECODE_MAKE category subcategory code) = category /\
  ssn_ecode_subcategory (SSN_ECODE_MAKE category subcategory code) = subcategory /\
  ssn_ecode_code (SSN_ECODE_MAKE category subcategory code) = code.
Proof.
  intros Hc Hs Hd. rewrite ecode_make_sum by done.
  unfold ssn_ecode_category, ssn_ecode_subcategory, ssn_ecode_code, u8, u16.
  change 255 with (2 ^ 8 - 1). change 65535 with (2 ^ 16 - 1).
  rewrite !land_ones_mod, !Z.shiftr_div_pow2, !Z.mod_mod by lia.
  split_and!; Z.to_euclidean_division_equations; lia.
Qed.

Lemma ecode_fields_roundtrip_witness : ssn_ecode_category SSN_ECODE_NET_WRITE = 1.
Proof. exact (proj1 (ecode_fields_roundtrip 1 0 4 ltac:(lia) ltac:(lia) ltac:(lia))). Defined.
