(* ===== verification/Os.v ===== *)
(** * The kernel and C library interface

    The system calls the transports, the frame sender and the servers make, as
    operations on an abstract world [W].  None of this code is in the
    repository: [OsOps] only names the calls, [OsLaws] states the documented
    facts the development relies on (descriptor ownership and what a stream
    socket accepted), and [SimOs] is a small concrete kernel that satisfies
    them, used by the witnesses. *)
From S2P Require Import Prelude.

(** Constants of the platform headers (Linux). *)
Definition EINTR : Z := 4.
Definition EAGAIN : Z := 11.
Definition EWOULDBLOCK : Z := 11.
Definition EINPROGRESS : Z := 115.
Definition ENOENT : Z := 2.
Definition AF_UNIX : Z := 1.
Definition AF_INET : Z := 2.
Definition AF_INET6 : Z := 10.
Definition SOCK_STREAM : Z := 1.
Definition SOCK_DGRAM : Z := 2.
Definition POLLOUT : Z := 4.
Definition POLLERR : Z := 8.
Definition POLLHUP : Z := 16.

(** Socket options the code sets, with their integer value where there is one. *)
Inductive sockopt :=
  | SO_REUSEADDR | SO_KEEPALIVE | TCP_NODELAY
  | SO_SNDBUF (n : Z) | SO_RCVBUF (n : Z) | SO_RCVTIMEO (ms : Z)
  | TCP_KEEPIDLE (n : Z) | TCP_KEEPINTVL (n : Z) | TCP_KEEPCNT (n : Z).

(** What [stat] says about a path. *)
Inductive stat_result := StatFail | StatSock | StatOther.

Class OsOps (W : Type) := {
  os_errno : W -> Z;
  os_calloc : W -> bool * W;                           (** false: NULL *)
  os_time : W -> Z * W;
  os_socket : Z -> Z -> W -> Z * W;                    (** family, type *)
  os_close : Z -> W -> W;
  os_shutdown : Z -> W -> W;
  os_setsockopt : Z -> sockopt -> W -> Z * W;
  os_set_nonblock : Z -> W -> W;                       (** the F_GETFL/F_SETFL pair *)
  os_connect : Z -> bytes -> W -> Z * W;
  os_bind : Z -> bytes -> W -> Z * W;
  os_listen : Z -> Z -> W -> Z * W;
  os_accept : Z -> W -> Z * bytes * W;                 (** fd or -1, peer address *)
  os_select_read : Z -> Z -> W -> Z * W;               (** one fd, timeout in ms *)
  os_select_write : Z -> Z -> W -> Z * W;
  os_so_error : Z -> W -> Z * Z * W;                   (** getsockopt result, SO_ERROR *)
  os_send : Z -> bytes -> W -> Z * W;
  os_sendto : Z -> bytes -> bytes -> W -> Z * W;
  os_recv : Z -> Z -> W -> Z * bytes * W;              (** result, bytes stored *)
  os_recvfrom : Z -> Z -> W -> Z * bytes * W;
  os_poll_out : Z -> Z -> W -> Z * Z * W;              (** result, revents *)
  os_stat : bytes -> W -> stat_result * W;
  os_unlink : bytes -> W -> W;
  os_eventfd : W -> Z * W;
  os_pselect : list Z -> option Z -> W -> Z * list Z * W;   (** result, ready descriptors *)
  os_inet_pton : Z -> bytes -> option bytes;           (** family, text: network address *)
  os_gethostbyname : bytes -> W -> option bytes * W;
}.

(** A call that neither opens nor closes a descriptor and sends nothing. *)
Definition os_quiet {W} (open : W -> gset Z) (tx : W -> Z -> bytes) (w w' : W) : Prop :=
  open w' = open w /\ forall fd, tx w' fd = tx w fd.

(** [os_open] is the set of open descriptors; [os_tx w fd] the bytes the kernel
    has accepted for sending on [fd] so far. *)
Class OsLaws (W : Type) `{OsOps W} := {
  os_open : W -> gset Z;
  os_tx : W -> Z -> bytes;
  os_calloc_quiet w : os_quiet os_open os_tx w (os_calloc w).2;
  os_time_quiet w : os_quiet os_open os_tx w (os_time w).2;
  os_setsockopt_quiet fd o w : os_quiet os_open os_tx w (os_setsockopt fd o w).2;
  os_set_nonblock_quiet fd w : os_quiet os_open os_tx w (os_set_nonblock fd w);
  os_shutdown_quiet fd w : os_quiet os_open os_tx w (os_shutdown fd w);
  os_connect_quiet fd a w : os_quiet os_open os_tx w (os_connect fd a w).2;
  os_bind_quiet fd a w : os_quiet os_open os_tx w (os_bind fd a w).2;
  os_listen_quiet fd n w : os_quiet os_open os_tx w (os_listen fd n w).2;
  os_select_read_quiet fd n w : os_quiet os_open os_tx w (os_select_read fd n w).2;
  os_select_write_quiet fd n w : os_quiet os_open os_tx w (os_select_write fd n w).2;
  os_so_error_quiet fd w : os_quiet os_open os_tx w (os_so_error fd w).2;
  os_recv_quiet fd n w : os_quiet os_open os_tx w (os_recv fd n w).2;
  os_recvfrom_quiet fd n w : os_quiet os_open os_tx w (os_recvfrom fd n w).2;
  os_poll_out_quiet fd n w : os_quiet os_open os_tx w (os_poll_out fd n w).2;
  os_stat_quiet p w : os_quiet os_open os_tx w (os_stat p w).2;
  os_unlink_quiet p w : os_quiet os_open os_tx w (os_unlink p w);
  os_pselect_quiet fds ms w : os_quiet os_open os_tx w (os_pselect fds ms w).2;
  os_gethostbyname_quiet n w : os_quiet os_open os_tx w (os_gethostbyname n w).2;
  os_eventfd_open w :
    let '(fd, w') := os_eventfd w in
    (forall x, os_tx w' x = os_tx w x) /\
    (fd < 0 /\ os_open w' = os_open w \/
     0 <= fd /\ (fd ∉ os_open w) /\ os_open w' = {[fd]} ∪ os_open w);
  os_socket_open f t w :
    let '(fd, w') := os_socket f t w in
    (forall x, os_tx w' x = os_tx w x) /\
    (fd < 0 /\ os_open w' = os_open w \/
     0 <= fd /\ (fd ∉ os_open w) /\ os_open w' = {[fd]} ∪ os_open w);
  os_accept_open l w :
    let '(fd, _, w') := os_accept l w in
    (forall x, os_tx w' x = os_tx w x) /\
    (fd < 0 /\ os_open w' = os_open w \/
     0 <= fd /\ (fd ∉ os_open w) /\ os_open w' = {[fd]} ∪ os_open w);
  os_close_open fd w :
    os_open (os_close fd w) = os_open w ∖ {[fd]} /\
    forall x, os_tx (os_close fd w) x = os_tx w x;
  os_send_tx fd d w :
    let '(r, w') := os_send fd d w in
    os_open w' = os_open w /\ r <= zlen d /\
    os_tx w' fd = os_tx w fd ++ ztake r d /\ forall x, x <> fd -> os_tx w' x = os_tx w x;
  os_sendto_tx fd d a w :
    let '(r, w') := os_sendto fd d a w in
    os_open w' = os_open w /\ r <= zlen d /\
    os_tx w' fd = os_tx w fd ++ ztake r d /\ forall x, x <> fd -> os_tx w' x = os_tx w x;
  os_recv_size fd n w : 0 <= n ->
    let '(r, b, _) := os_recv fd n w in (r < 0 \/ r = zlen b) /\ r <= n;
  os_recvfrom_size fd n w : 0 <= n ->
    let '(r, b, _) := os_recvfrom fd n w in (r < 0 \/ r = zlen b) /\ r <= n;
}.

(** ** A concrete kernel for witnesses *)

(** [send_script] says how many bytes each coming [send] takes ([<= 0]: EAGAIN);
    after it, every [send] takes everything.  [inbox] holds what the coming
    [recv]s return; after it the peer has closed. *)
Record sim_world := mk_sim {
  sim_errno : Z;
  sim_next_fd : Z;
  sim_open : gset Z;
  sim_tx : Z -> bytes;
  send_script : list Z;
  inbox : list bytes;
}.

Definition sim_init (script : list Z) (inb : list bytes) : sim_world :=
  mk_sim 0 3 ∅ (fun _ => []) script inb.

Definition sim_new_fd (w : sim_world) : Z * sim_world :=
  let fd := Z.max 3 (sim_next_fd w) in
  if bool_decide (fd ∈ sim_open w) then (-1, w)
  else (fd, mk_sim (sim_errno w) (fd + 1) ({[fd]} ∪ sim_open w) (sim_tx w) (send_script w) (inbox w)).

Definition sim_transmit (fd : Z) (d : bytes) (w : sim_world) : Z * sim_world :=
  let put n script :=
    (n, mk_sim (sim_errno w) (sim_next_fd w) (sim_open w)
          (<[fd := sim_tx w fd ++ ztake n d]> (sim_tx w)) script (inbox w)) in
  match send_script w with
  | [] => put (zlen d) []
  | n :: script =>
    if n <=? 0
    then (-1, mk_sim EAGAIN (sim_next_fd w) (sim_open w) (sim_tx w) script (inbox w))
    else put (Z.min n (zlen d)) script
  end.

Definition sim_receive (size : Z) (w : sim_world) : Z * bytes * sim_world :=
  match inbox w with
  | [] => (0, [], w)
  | b :: rest =>
    if zlen b <=? size
    then (zlen b, b, mk_sim (sim_errno w) (sim_next_fd w) (sim_open w) (sim_tx w) (send_script w) rest)
    else (-1, [], w)
  end.

#[global] Instance SimOs : OsOps sim_world := {|
  os_errno := sim_errno;
  os_calloc w := (true, w);
  os_time w := (0, w);
  os_socket _ _ w := sim_new_fd w;
  os_close fd w := mk_sim (sim_errno w) (sim_next_fd w) (sim_open w ∖ {[fd]}) (sim_tx w)
                     (send_script w) (inbox w);
  os_shutdown _ w := w;
  os_setsockopt _ _ w := (0, w);
  os_set_nonblock _ w := w;
  os_connect _ _ w := (0, w);
  os_bind _ _ w := (0, w);
  os_listen _ _ w := (0, w);
  os_accept _ w := (fst (sim_new_fd w), [], snd (sim_new_fd w));
  os_select_read _ _ w := (1, w);
  os_select_write _ _ w := (1, w);
  os_so_error _ w := (0, 0, w);
  os_send := sim_transmit;
  os_sendto fd d _ w := sim_transmit fd d w;
  os_recv _ size w := sim_receive size w;
  os_recvfrom _ size w := sim_receive size w;
  os_poll_out _ _ w := (1, POLLOUT, w);
  os_stat _ w := (StatFail, w);
  os_unlink _ w := w;
  os_eventfd := sim_new_fd;
  os_pselect fds _ w := (zlen fds, fds, w);
  os_inet_pton fam _ := Some (repeat 127 (if fam =? AF_INET then 4 else 16));
  os_gethostbyname _ w := (None, w);
|}.

Lemma sim_new_fd_open w :
  let '(fd, w') := sim_new_fd w in
  (forall x, sim_tx w' x = sim_tx w x) /\
  (fd < 0 /\ sim_open w' = sim_open w \/
   0 <= fd /\ (fd ∉ sim_open w) /\ sim_open w' = {[fd]} ∪ sim_open w).
Proof.
  unfold sim_new_fd. case_bool_decide; cbn; split; try done; [by left|right].
  split; [lia|done].
Qed.

Lemma sim_transmit_tx fd d w :
  let '(r, w') := sim_transmit fd d w in
  sim_open w' = sim_open w /\ r <= zlen d /\
  sim_tx w' fd = sim_tx w fd ++ ztake r d /\ forall x, x <> fd -> sim_tx w' x = sim_tx w x.
Proof.
  unfold sim_transmit. pose proof (zlen_nonneg d). destruct (send_script w) as [|n s].
  - cbn. split_and!; [done|lia| |].
    + by rewrite fn_lookup_insert.
    + intros. by rewrite fn_lookup_insert_ne.
  - destruct (Z.leb_spec n 0); cbn.
    + split_and!; [done|lia| |done]. by rewrite app_nil_r.
    + split_and!; [done|lia| |].
      * by rewrite fn_lookup_insert.
      * intros. by rewrite fn_lookup_insert_ne.
Qed.

Lemma sim_receive_size size w :
  0 <= size ->
  let '(r, b, w') := sim_receive size w in
  ((r < 0 \/ r = zlen b) /\ r <= size) /\ os_quiet sim_open sim_tx w w'.
Proof.
  intros Hs. unfold sim_receive. destruct (inbox w) as [|b rest].
  - by repeat split; try lia; right.
  - destruct (Z.leb_spec (zlen b) size); repeat split; try lia; auto; left; lia.
Qed.

Lemma sim_receive_quiet size w : os_quiet sim_open sim_tx w (sim_receive size w).2.
Proof.
  unfold sim_receive. destruct (inbox w) as [|b rest]; [done|]. by destruct (zlen b <=? size).
Qed.

#[global] Instance SimLaws : OsLaws sim_world.
Proof.
  refine {| os_open := sim_open; os_tx := sim_tx |}; try by intros.
  - intros; apply sim_receive_quiet.
  - intros; apply sim_receive_quiet.
  - intros; apply sim_new_fd_open.
  - intros; apply sim_new_fd_open.
  - intros l w. pose proof (sim_new_fd_open w) as H. cbn. by destruct (sim_new_fd w).
  - intros; apply sim_transmit_tx.
  - intros; apply sim_transmit_tx.
  - intros fd n w Hn. pose proof (sim_receive_size n w Hn) as H. cbn.
    destruct (sim_receive n w) as [[r b] w']. apply H.
  - intros fd n w Hn. pose proof (sim_receive_size n w Hn) as H. cbn.
    destruct (sim_receive n w) as [[r b] w']. apply H.
Defined.
