(* ===== verification/Transport.v ===== *)
(** * Transports ([src/src/transports/])

    The Unix, TCP and UDP adapters, the factory and the dispatch functions, as
    operations on a transport value and the world of [Os].  The [ops] table a
    transport carries is the constructor of its [kind]; [impl] holds the union
    of the fields of the three [impl_data] structs (a field a kind does not
    have keeps its zero).  Address unions are their raw bytes.  The printable
    [address_str] is not modelled, nor is logging.  [os_select_read] and
    [os_select_write] stand for [FD_SET] and [select] on one descriptor: that a
    descriptor of 1024 or more is written past the end of the [fd_set] there, which
    no adapter tests for, is not in the model. *)
From S2P Require Import Prelude HashTable Os.

(** ** Data *)

Inductive ssn_transport_type_t :=
  | SSN_TRANSPORT_UNIX | SSN_TRANSPORT_TCP | SSN_TRANSPORT_TCP6 | SSN_TRANSPORT_UDP
  | SSN_TRANSPORT_UDP6 | SSN_TRANSPORT_TLS | SSN_TRANSPORT_DTLS.

#[global] Instance transport_type_eq_dec : EqDecision ssn_transport_type_t.
Proof. solve_decision. Defined.

Definition type_code (ty : ssn_transport_type_t) : Z :=
  match ty with
  | SSN_TRANSPORT_UNIX => 0 | SSN_TRANSPORT_TCP => 1 | SSN_TRANSPORT_TCP6 => 2
  | SSN_TRANSPORT_UDP => 3 | SSN_TRANSPORT_UDP6 => 4 | SSN_TRANSPORT_TLS => 5
  | SSN_TRANSPORT_DTLS => 6
  end.

(** [addr_raw]: the bytes of the address union. *)
Record ssn_address_t := mk_address { addr_type : ssn_transport_type_t; addr_raw : bytes }.
Definition inet_addr (a : ssn_address_t) : bytes := ztake 16 (addr_raw a).
Definition inet6_addr (a : ssn_address_t) : bytes := ztake 28 (addr_raw a).
Definition unix_addr (a : ssn_address_t) : bytes := ztake 110 (addr_raw a).

(** A C string: the bytes before the first NUL. *)
Fixpoint cstr (b : bytes) : bytes :=
  match b with
  | [] => []
  | c :: b => if c =? 0 then [] else c :: cstr b
  end.
(** [sun_path] copied with [strncpy(.., 107)] and terminated. *)
Definition sun_path (ua : bytes) : bytes := ztake 107 (cstr (zdrop 2 ua)).

Record ssn_transport_config_t := mk_config {
  cfg_type : ssn_transport_type_t;
  cfg_non_blocking : bool;
  send_timeout_ms : Z;
  recv_timeout_ms : Z;
  connect_timeout_ms : Z;
  enable_keepalive : bool;
  keepalive_idle_sec : Z;
  keepalive_interval_sec : Z;
  keepalive_count : Z;
  enable_nagle : bool;
  send_buffer_size : Z;
  recv_buffer_size : Z;
  reuse_address : bool;
}.
(** [calloc]ed configuration. *)
Definition zero_config : ssn_transport_config_t :=
  mk_config SSN_TRANSPORT_UNIX false 0 0 0 false 0 0 0 false 0 0 false.
Definition cfg_set_non_blocking (c : ssn_transport_config_t) (b : bool) : ssn_transport_config_t :=
  mk_config (cfg_type c) b (send_timeout_ms c) (recv_timeout_ms c) (connect_timeout_ms c)
    (enable_keepalive c) (keepalive_idle_sec c) (keepalive_interval_sec c) (keepalive_count c)
    (enable_nagle c) (send_buffer_size c) (recv_buffer_size c) (reuse_address c).

(** The counters; the latency and loss fields are never written after
    creation. *)
Record ssn_transport_stats_t := mk_stats {
  bytes_sent : Z; bytes_received : Z; packets_sent : Z; packets_received : Z;
  send_errors : Z; recv_errors : Z; connection_count : Z; failed_connections : Z;
}.
Definition zero_stats : ssn_transport_stats_t := mk_stats 0 0 0 0 0 0 0 0.
Definition stats_sent (s : ssn_transport_stats_t) (n : Z) : ssn_transport_stats_t :=
  mk_stats (u64 (bytes_sent s + n)) (bytes_received s) (u32 (packets_sent s + 1)) (packets_received s)
    (send_errors s) (recv_errors s) (connection_count s) (failed_connections s).
Definition stats_received (s : ssn_transport_stats_t) (n : Z) : ssn_transport_stats_t :=
  mk_stats (bytes_sent s) (u64 (bytes_received s + n)) (packets_sent s) (u32 (packets_received s + 1))
    (send_errors s) (recv_errors s) (connection_count s) (failed_connections s).
Definition stats_send_error (s : ssn_transport_stats_t) : ssn_transport_stats_t :=
  mk_stats (bytes_sent s) (bytes_received s) (packets_sent s) (packets_received s)
    (u32 (send_errors s + 1)) (recv_errors s) (connection_count s) (failed_connections s).
Definition stats_recv_error (s : ssn_transport_stats_t) : ssn_transport_stats_t :=
  mk_stats (bytes_sent s) (bytes_received s) (packets_sent s) (packets_received s)
    (send_errors s) (u32 (recv_errors s + 1)) (connection_count s) (failed_connections s).
Definition stats_connected (s : ssn_transport_stats_t) : ssn_transport_stats_t :=
  mk_stats (bytes_sent s) (bytes_received s) (packets_sent s) (packets_received s)
    (send_errors s) (recv_errors s) (u32 (connection_count s + 1)) (failed_connections s).

Record transport_impl := mk_impl {
  sock_fd : Z;
  impl_addr : bytes;        (** [addr]: sockaddr_un or sockaddr_in *)
  impl_addr6 : bytes;       (** [addr6] *)
  is_server : bool;
  non_blocking : bool;
  ipv6_enabled : bool;
  socket_path : bytes;
  last_activity : Z;
}.
Definition set_fd (i : transport_impl) (fd : Z) : transport_impl :=
  mk_impl fd (impl_addr i) (impl_addr6 i) (is_server i) (non_blocking i) (ipv6_enabled i)
    (socket_path i) (last_activity i).
Definition set_addr (i : transport_impl) (a : bytes) : transport_impl :=
  mk_impl (sock_fd i) a (impl_addr6 i) (is_server i) (non_blocking i) (ipv6_enabled i)
    (socket_path i) (last_activity i).
Definition set_addr6 (i : transport_impl) (a : bytes) : transport_impl :=
  mk_impl (sock_fd i) (impl_addr i) a (is_server i) (non_blocking i) (ipv6_enabled i)
    (socket_path i) (last_activity i).
Definition set_is_server (i : transport_impl) (b : bool) : transport_impl :=
  mk_impl (sock_fd i) (impl_addr i) (impl_addr6 i) b (non_blocking i) (ipv6_enabled i)
    (socket_path i) (last_activity i).
Definition set_ipv6 (i : transport_impl) (b : bool) : transport_impl :=
  mk_impl (sock_fd i) (impl_addr i) (impl_addr6 i) (is_server i) (non_blocking i) b
    (socket_path i) (last_activity i).
Definition set_path (i : transport_impl) (p : bytes) : transport_impl :=
  mk_impl (sock_fd i) (impl_addr i) (impl_addr6 i) (is_server i) (non_blocking i) (ipv6_enabled i)
    p (last_activity i).
Definition set_last (i : transport_impl) (n : Z) : transport_impl :=
  mk_impl (sock_fd i) (impl_addr i) (impl_addr6 i) (is_server i) (non_blocking i) (ipv6_enabled i)
    (socket_path i) n.

(** Which static [ops] table the transport points to. *)
Inductive ops_table := unix_transport_ops | tcp_transport_ops | udp_transport_ops.

Record ssn_transport_t := mk_transport {
  type_ : ssn_transport_type_t;
  ops : ops_table;
  impl : transport_impl;
  config : ssn_transport_config_t;
  stats : ssn_transport_stats_t;
  valid : bool;
}.
Definition set_impl (t : ssn_transport_t) (i : transport_impl) : ssn_transport_t :=
  mk_transport (type_ t) (ops t) i (config t) (stats t) (valid t).
Definition set_stats (t : ssn_transport_t) (s : ssn_transport_stats_t) : ssn_transport_t :=
  mk_transport (type_ t) (ops t) (impl t) (config t) s (valid t).

(** Result of [accept]: the UDP adapter hands back the listening transport
    itself when the caller wants no address. *)
Inductive accept_result :=
  | AcceptNone
  | AcceptNew (t : ssn_transport_t) (a : ssn_address_t)
  | AcceptSelf.

Section adapters.
Context {W : Type} `{OsOps W}.
Implicit Types (t : ssn_transport_t) (w : W).

(** ** Code shared by the adapters *)

(** [if (impl->sock_fd >= 0) { close(impl->sock_fd); impl->sock_fd = -1; }] *)
Definition close_fd t w : ssn_transport_t * W :=
  if sock_fd (impl t) >=? 0
  then (set_impl t (set_fd (impl t) (-1)), os_close (sock_fd (impl t)) w)
  else (t, w).

(** Failed connection attempt: the fresh socket is closed unconditionally. *)
Definition abort_connect t w : bool * ssn_transport_t * W :=
  (false, set_impl t (set_fd (impl t) (-1)), os_close (sock_fd (impl t)) w).

Definition setsockopt_if (b : bool) (fd : Z) (o : sockopt) w : W :=
  if b then (os_setsockopt fd o w).2 else w.

(** [impl->last_activity = time(NULL)] *)
Definition touch t w : ssn_transport_t * W :=
  let '(now, w) := os_time w in (set_impl t (set_last (impl t) now), w).

Definition usable t : bool := valid t && (sock_fd (impl t) >=? 0).

(** The stream [send] of the Unix and TCP adapters. *)
Definition stream_send t (d : bytes) w : Z * ssn_transport_t * W :=
  if negb (usable t) then (-1, t, w)
  else
    let '(sent, w) := os_send (sock_fd (impl t)) d w in
    if sent <? 0 then
      if (os_errno w =? EAGAIN) || (os_errno w =? EWOULDBLOCK) then (-1, t, w)
      else (-1, set_stats t (stats_send_error (stats t)), w)
    else
      let '(t, w) := touch (set_stats t (stats_sent (stats t) sent)) w in
      (i32 sent, t, w).

(** What the three [recv]s do once the call returned. *)
Definition finish_recv t (received : Z) (b : bytes) w : Z * bytes * ssn_transport_t * W :=
  if received <? 0 then
    if negb (os_errno w =? EAGAIN) && negb (os_errno w =? EWOULDBLOCK)
    then (-1, [], set_stats t (stats_recv_error (stats t)), w)
    else (-1, [], t, w)
  else if received >? 0 then
    let '(t, w) := touch (set_stats t (stats_received (stats t) received)) w in
    (i32 received, b, t, w)
  else (i32 received, b, t, w).

(** The stream [recv] of the Unix and TCP adapters. *)
Definition stream_recv t (size timeout_ms : Z) w : Z * bytes * ssn_transport_t * W :=
  if negb (usable t) then (-1, [], t, w)
  else
    let w := setsockopt_if (timeout_ms >? 0) (sock_fd (impl t)) (SO_RCVTIMEO timeout_ms) w in
    let '(received, b, w) := os_recv (sock_fd (impl t)) size w in
    finish_recv t received b w.

(** A freshly allocated transport of one of the three kinds. *)
Definition new_transport (ty : ssn_transport_type_t) (o : ops_table) (fd : Z)
    (cfg : option ssn_transport_config_t) (ipv6 : bool) (now : Z) : ssn_transport_t :=
  mk_transport ty o
    (mk_impl fd [] [] false (match cfg with Some c => cfg_non_blocking c | None => false end)
       ipv6 [] now)
    (default zero_config cfg) zero_stats true.

(** ** Unix adapter *)

Definition unix_transport_bind t (a : ssn_address_t) : bool * ssn_transport_t :=
  (true, set_impl t (set_path (set_addr (impl t) (unix_addr a)) (sun_path (unix_addr a)))).

Definition unix_transport_connect t (a : ssn_address_t) (timeout_ms : Z) w
  : bool * ssn_transport_t * W :=
  let '(t, w) := close_fd t w in
  let '(fd, w) := os_socket AF_UNIX SOCK_STREAM w in
  let t := set_impl t (set_fd (impl t) fd) in
  if fd <? 0 then (false, t, w)
  else
    let w := if non_blocking (impl t) then os_set_nonblock fd w else w in
    let t := set_impl t (set_addr (impl t) (unix_addr a)) in
    let finish t w :=
      let '(t, w) := touch (set_impl t (set_is_server (impl t) false)) w in
      (true, set_impl t (set_path (impl t) (sun_path (unix_addr a))), w) in
    let '(r, w) := os_connect fd (impl_addr (impl t)) w in
    if r <? 0 then
      if negb (os_errno w =? EINPROGRESS) then abort_connect t w
      else if timeout_ms >? 0 then
        let '(ret, w) := os_select_write fd timeout_ms w in
        if ret <=? 0 then abort_connect t w else finish t w
      else finish t w
    else finish t w.

Definition unix_transport_disconnect t w : bool * ssn_transport_t * W :=
  if sock_fd (impl t) >=? 0
  then let '(t, w) := close_fd t (os_shutdown (sock_fd (impl t)) w) in (true, t, w)
  else (true, t, w).

Definition unix_transport_is_connected t : bool := sock_fd (impl t) >=? 0.
Definition unix_transport_send t (d : bytes) w := stream_send t d w.
Definition unix_transport_recv t (size timeout_ms : Z) w := stream_recv t size timeout_ms w.

Definition unix_transport_listen t (backlog : Z) w : bool * ssn_transport_t * W :=
  let '(st, w) := os_stat (socket_path (impl t)) w in
  match st with
  | StatOther => (false, t, w)
  | _ =>
    let w := match st with StatSock => os_unlink (socket_path (impl t)) w | _ => w end in
    let '(r, w) := os_bind (sock_fd (impl t)) (impl_addr (impl t)) w in
    if r <? 0 then (false, t, w)
    else
      let '(r, w) := os_listen (sock_fd (impl t)) backlog w in
      if r <? 0 then (false, t, w)
      else (true, set_impl t (set_is_server (impl t) true), w)
  end.

Definition unix_transport_destroy t w : W :=
  let '(t, w) := close_fd t w in
  if is_server (impl t) && negb (bool_decide (socket_path (impl t) = []))
  then os_unlink (socket_path (impl t)) w else w.

Definition unix_transport_create (cfg : option ssn_transport_config_t) w
  : option ssn_transport_t * W :=
  let '(ok, w) := os_calloc w in
  if negb ok then (None, w)
  else
    let '(ok, w) := os_calloc w in
    if negb ok then (None, w)
    else
      let '(fd, w) := os_socket AF_UNIX SOCK_STREAM w in
      if fd <? 0 then (None, w)
      else
        let '(_, w) := os_setsockopt fd SO_REUSEADDR w in
        let '(now, w) := os_time w in
        (Some (new_transport SSN_TRANSPORT_UNIX unix_transport_ops fd cfg false now), w).

(** ** TCP adapter *)

Definition tcp_transport_bind t (a : ssn_address_t) : bool * ssn_transport_t :=
  if decide (addr_type a = SSN_TRANSPORT_TCP6)
  then (true, set_impl t (set_addr6 (set_ipv6 (impl t) true) (inet6_addr a)))
  else (true, set_impl t (set_addr (set_ipv6 (impl t) false) (inet_addr a))).

Definition tcp_transport_connect t (a : ssn_address_t) (timeout_ms : Z) w
  : bool * ssn_transport_t * W :=
  let v6 := bool_decide (addr_type a = SSN_TRANSPORT_TCP6) in
  let t := set_impl t (set_ipv6 (impl t) v6) in
  let '(t, w) := close_fd t w in
  let '(fd, w) := os_socket (if v6 then AF_INET6 else AF_INET) SOCK_STREAM w in
  let t := set_impl t (set_fd (impl t) fd) in
  if fd <? 0 then (false, t, w)
  else
    let w := setsockopt_if true fd SO_REUSEADDR w in
    let w := setsockopt_if (negb (enable_nagle (config t))) fd TCP_NODELAY w in
    let w := setsockopt_if (send_buffer_size (config t) >? 0) fd
               (SO_SNDBUF (send_buffer_size (config t))) w in
    let w := setsockopt_if (recv_buffer_size (config t) >? 0) fd
               (SO_RCVBUF (recv_buffer_size (config t))) w in
    let w := if non_blocking (impl t) then os_set_nonblock fd w else w in
    let t := if ipv6_enabled (impl t)
             then set_impl t (set_addr6 (impl t) (inet6_addr a))
             else set_impl t (set_addr (impl t) (inet_addr a)) in
    let dest := if ipv6_enabled (impl t) then impl_addr6 (impl t) else impl_addr (impl t) in
    let finish t w :=
      let '(t, w) := touch (set_impl t (set_is_server (impl t) false)) w in
      (true, set_stats t (stats_connected (stats t)), w) in
    let confirm t w :=
      let '(r, so_error, w) := os_so_error fd w in
      if (r <? 0) || negb (so_error =? 0) then abort_connect t w else finish t w in
    let '(r, w) := os_connect fd dest w in
    if r <? 0 then
      if negb (os_errno w =? EINPROGRESS) then abort_connect t w
      else if timeout_ms >? 0 then
        let '(ret, w) := os_select_write fd timeout_ms w in
        if ret <=? 0 then abort_connect t w else confirm t w
      else confirm t w
    else finish t w.

Definition tcp_transport_disconnect t w : bool * ssn_transport_t * W :=
  if sock_fd (impl t) >=? 0
  then let '(t, w) := close_fd t (os_shutdown (sock_fd (impl t)) w) in (true, t, w)
  else (true, t, w).

Definition tcp_transport_is_connected t : bool := sock_fd (impl t) >=? 0.
Definition tcp_transport_send t (d : bytes) w := stream_send t d w.
Definition tcp_transport_recv t (size timeout_ms : Z) w := stream_recv t size timeout_ms w.

Definition tcp_transport_listen t (backlog : Z) w : bool * ssn_transport_t * W :=
  let dest := if ipv6_enabled (impl t) then impl_addr6 (impl t) else impl_addr (impl t) in
  let '(r, w) := os_bind (sock_fd (impl t)) dest w in
  if r <? 0 then (false, t, w)
  else
    let '(r, w) := os_listen (sock_fd (impl t)) backlog w in
    if r <? 0 then (false, t, w)
    else (true, set_impl t (set_is_server (impl t) true), w).

Definition tcp_transport_enable_keepalive t w : bool * W :=
  if sock_fd (impl t) <? 0 then (false, w)
  else
    let fd := sock_fd (impl t) in
    let '(r, w) := os_setsockopt fd SO_KEEPALIVE w in
    if r <? 0 then (false, w)
    else
      let w := setsockopt_if true fd (TCP_KEEPIDLE (keepalive_idle_sec (config t))) w in
      let w := setsockopt_if true fd (TCP_KEEPINTVL (keepalive_interval_sec (config t))) w in
      let w := setsockopt_if true fd (TCP_KEEPCNT (keepalive_count (config t))) w in
      (true, w).

Definition tcp_transport_destroy t w : W := (close_fd t w).2.

Definition tcp_transport_create (cfg : option ssn_transport_config_t) (ipv6 : bool) w
  : option ssn_transport_t * W :=
  let '(ok, w) := os_calloc w in
  if negb ok then (None, w)
  else
    let '(ok, w) := os_calloc w in
    if negb ok then (None, w)
    else
      let '(fd, w) := os_socket (if ipv6 then AF_INET6 else AF_INET) SOCK_STREAM w in
      if fd <? 0 then (None, w)
      else
        let '(_, w) := os_setsockopt fd SO_REUSEADDR w in
        let '(now, w) := os_time w in
        let t := new_transport (if ipv6 then SSN_TRANSPORT_TCP6 else SSN_TRANSPORT_TCP)
                   tcp_transport_ops fd cfg ipv6 now in
        let w := match cfg with
                 | Some c => if enable_keepalive c then (tcp_transport_enable_keepalive t w).2 else w
                 | None => w
                 end in
        (Some t, w).

(** ** UDP adapter *)

Definition UDP_MAX_PACKET_SIZE : Z := 65507.

Definition udp_transport_bind t (a : ssn_address_t) : bool * ssn_transport_t :=
  if decide (addr_type a = SSN_TRANSPORT_UDP6)
  then (true, set_impl t (set_addr6 (set_ipv6 (impl t) true) (inet6_addr a)))
  else (true, set_impl t (set_addr (set_ipv6 (impl t) false) (inet_addr a))).

Definition udp_transport_connect t (a : ssn_address_t) (timeout_ms : Z) w
  : bool * ssn_transport_t * W :=
  let v6 := bool_decide (addr_type a = SSN_TRANSPORT_UDP6) in
  let t := set_impl t (set_ipv6 (impl t) v6) in
  let '(t, w) := close_fd t w in
  let '(fd, w) := os_socket (if v6 then AF_INET6 else AF_INET) SOCK_DGRAM w in
  let t := set_impl t (set_fd (impl t) fd) in
  if fd <? 0 then (false, t, w)
  else
    let w := setsockopt_if true fd SO_REUSEADDR w in
    let w := setsockopt_if (send_buffer_size (config t) >? 0) fd
               (SO_SNDBUF (send_buffer_size (config t))) w in
    let w := setsockopt_if (recv_buffer_size (config t) >? 0) fd
               (SO_RCVBUF (recv_buffer_size (config t))) w in
    let w := if non_blocking (impl t) then os_set_nonblock fd w else w in
    let t := if ipv6_enabled (impl t)
             then set_impl t (set_addr6 (impl t) (inet6_addr a))
             else set_impl t (set_addr (impl t) (inet_addr a)) in
    let '(t, w) := touch (set_impl t (set_is_server (impl t) false)) w in
    (true, set_stats t (stats_connected (stats t)), w).

Definition udp_transport_disconnect t w : bool * ssn_transport_t * W :=
  let '(t, w) := close_fd t w in (true, t, w).

Definition udp_transport_is_connected t : bool := sock_fd (impl t) >=? 0.

Definition udp_transport_send t (d : bytes) w : Z * ssn_transport_t * W :=
  if negb (usable t) then (-1, t, w)
  else if zlen d >? UDP_MAX_PACKET_SIZE then (-1, t, w)
  else
    let dest := if ipv6_enabled (impl t) then impl_addr6 (impl t) else impl_addr (impl t) in
    let '(sent, w) := os_sendto (sock_fd (impl t)) d dest w in
    if sent <? 0 then
      if (os_errno w =? EAGAIN) || (os_errno w =? EWOULDBLOCK) then (-1, t, w)
      else (-1, set_stats t (stats_send_error (stats t)), w)
    else
      let '(t, w) := touch (set_stats t (stats_sent (stats t) sent)) w in
      (i32 sent, t, w).

Definition udp_transport_recv t (size timeout_ms : Z) w : Z * bytes * ssn_transport_t * W :=
  if negb (usable t) then (-1, [], t, w)
  else
    let w := setsockopt_if (timeout_ms >? 0) (sock_fd (impl t)) (SO_RCVTIMEO timeout_ms) w in
    let '(received, b, w) := os_recvfrom (sock_fd (impl t)) size w in
    finish_recv t received b w.

Definition udp_transport_listen t (backlog : Z) w : bool * ssn_transport_t * W :=
  let dest := if ipv6_enabled (impl t) then impl_addr6 (impl t) else impl_addr (impl t) in
  let '(r, w) := os_bind (sock_fd (impl t)) dest w in
  if r <? 0 then (false, t, w)
  else (true, set_impl t (set_is_server (impl t) true), w).

Definition udp_transport_accept t (want_addr : bool) (timeout_ms : Z) w : accept_result * W :=
  if negb (usable t) then (AcceptNone, w)
  else if want_addr then (AcceptNone, w)
  else (AcceptSelf, w).

Definition udp_transport_destroy t w : W := (close_fd t w).2.

Definition udp_transport_create (cfg : option ssn_transport_config_t) (ipv6 : bool) w
  : option ssn_transport_t * W :=
  let '(ok, w) := os_calloc w in
  if negb ok then (None, w)
  else
    let '(ok, w) := os_calloc w in
    if negb ok then (None, w)
    else
      let '(fd, w) := os_socket (if ipv6 then AF_INET6 else AF_INET) SOCK_DGRAM w in
      if fd <? 0 then (None, w)
      else
        let '(_, w) := os_setsockopt fd SO_REUSEADDR w in
        let '(now, w) := os_time w in
        (Some (new_transport (if ipv6 then SSN_TRANSPORT_UDP6 else SSN_TRANSPORT_UDP)
                 udp_transport_ops fd cfg ipv6 now), w).

(** ** Factory *)

Inductive transport_creator :=
  | factory_create_unix | factory_create_tcp | factory_create_tcp6
  | factory_create_udp | factory_create_udp6.

Definition run_creator (c : transport_creator) (cfg : option ssn_transport_config_t) w
  : option ssn_transport_t * W :=
  match c with
  | factory_create_unix => unix_transport_create cfg w
  | factory_create_tcp => tcp_transport_create cfg false w
  | factory_create_tcp6 => tcp_transport_create cfg true w
  | factory_create_udp => udp_transport_create cfg false w
  | factory_create_udp6 => udp_transport_create cfg true w
  end.

(** The global [g_factory]; its lock is not modelled. *)
Definition factory := ssn_hash_table transport_creator.

(** One registration; a failed [ssn_hash_table_set] is ignored.  [None] is an
    undefined read inside the table. *)
Definition factory_register (g : option factory) (ty : ssn_transport_type_t)
    (c : transport_creator) (alloc_ok : bool) : option factory :=
  match g with
  | None => None
  | Some g =>
    match ssn_hash_table_set alloc_ok alloc_ok g (type_code ty + 1) (Some c) with
    | None => None
    | Some (_, g) => Some g
    end
  end.

(** [allocs]: whether the factory, the mutex, the table, its bucket array and
    the five nodes can be allocated.  The outer option is undefined behaviour,
    the inner one the returned [false]. *)
Definition ssn_transport_factory_init (allocs : nat -> bool) (g_factory : option factory)
  : option (option factory) :=
  match g_factory with
  | Some g => Some (Some g)
  | None =>
    if negb (allocs 0%nat) then Some None
    else if negb (allocs 1%nat) then Some None
    else match ssn_hash_table_create (allocs 2%nat) (allocs 3%nat) 16 with
         | None => None
         | Some None => Some None
         | Some (Some g) =>
           let g := factory_register (Some g) SSN_TRANSPORT_UNIX factory_create_unix (allocs 4%nat) in
           let g := factory_register g SSN_TRANSPORT_TCP factory_create_tcp (allocs 5%nat) in
           let g := factory_register g SSN_TRANSPORT_TCP6 factory_create_tcp6 (allocs 6%nat) in
           let g := factory_register g SSN_TRANSPORT_UDP factory_create_udp (allocs 7%nat) in
           let g := factory_register g SSN_TRANSPORT_UDP6 factory_create_udp6 (allocs 8%nat) in
           match g with None => None | Some g => Some (Some g) end
         end
  end.

(** The lookup of an initialised factory. *)
Definition factory_creator (g : factory) (ty : ssn_transport_type_t) : option transport_creator :=
  match ssn_hash_table_get g (type_code ty + 1) with
  | Some c => c
  | None => None
  end.

Definition ssn_transport_factory_create (g : factory) (ty : ssn_transport_type_t)
    (cfg : option ssn_transport_config_t) w : option ssn_transport_t * W :=
  match factory_creator g ty with
  | None => (None, w)
  | Some c => run_creator c cfg w
  end.

Definition ssn_transport_create (g : factory) (ty : ssn_transport_type_t)
    (cfg : option ssn_transport_config_t) w : option ssn_transport_t * W :=
  ssn_transport_factory_create g ty cfg w.

(** ** Accept (Unix, TCP) *)

(** The new transport takes over the accepted descriptor; the socket its
    constructor made is closed first. *)
Definition adopt_fd t (fd : Z) w : ssn_transport_t * W :=
  let '(t, w) := close_fd t w in
  (set_impl t (set_is_server (set_fd (impl t) fd) false), w).

Definition unix_transport_accept (g : factory) t (want_addr : bool) (timeout_ms : Z) w
  : accept_result * W :=
  if negb (usable t) then (AcceptNone, w)
  else
    let '(ready, w) :=
      if timeout_ms >? 0 then os_select_read (sock_fd (impl t)) timeout_ms w else (1, w) in
    if ready <=? 0 then (AcceptNone, w)
    else
      let '(fd, peer, w) := os_accept (sock_fd (impl t)) w in
      if fd <? 0 then (AcceptNone, w)
      else
        let cfg := cfg_set_non_blocking (config t) (non_blocking (impl t)) in
        let '(ct, w) := ssn_transport_create g SSN_TRANSPORT_UNIX (Some cfg) w in
        match ct with
        | None => (AcceptNone, os_close fd w)
        | Some ct =>
          let '(ct, w) := adopt_fd ct fd w in
          let ct := set_impl ct (set_addr (impl ct) (ztake 110 peer)) in
          let '(ct, w) := touch ct w in
          (AcceptNew ct (mk_address SSN_TRANSPORT_UNIX (ztake 110 peer)), w)
        end.

Definition tcp_transport_accept (g : factory) t (want_addr : bool) (timeout_ms : Z) w
  : accept_result * W :=
  if negb (usable t) then (AcceptNone, w)
  else
    let '(ready, w) :=
      if timeout_ms >? 0 then os_select_read (sock_fd (impl t)) timeout_ms w else (1, w) in
    if ready <=? 0 then (AcceptNone, w)
    else
      let '(fd, peer, w) := os_accept (sock_fd (impl t)) w in
      if fd <? 0 then (AcceptNone, w)
      else
        let cfg := cfg_set_non_blocking (config t) (non_blocking (impl t)) in
        let ty := if ipv6_enabled (impl t) then SSN_TRANSPORT_TCP6 else SSN_TRANSPORT_TCP in
        let '(ct, w) := ssn_transport_create g ty (Some cfg) w in
        match ct with
        | None => (AcceptNone, os_close fd w)
        | Some ct =>
          let '(ct, w) := adopt_fd ct fd w in
          let ct := set_impl ct (set_ipv6 (impl ct) (ipv6_enabled (impl t))) in
          let '(ct, w) := touch ct w in
          let family := nth 0 peer 0 + 256 * nth 1 peer 0 in
          (AcceptNew ct (if family =? AF_INET6
                         then mk_address SSN_TRANSPORT_TCP6 (ztake 28 peer)
                         else mk_address SSN_TRANSPORT_TCP (ztake 16 peer)), w)
        end.

(** ** Dispatch through the [ops] table *)

Definition ssn_transport_destroy t w : W :=
  match ops t with
  | unix_transport_ops => unix_transport_destroy t w
  | tcp_transport_ops => tcp_transport_destroy t w
  | udp_transport_ops => udp_transport_destroy t w
  end.
Definition ssn_transport_bind t (a : ssn_address_t) : bool * ssn_transport_t :=
  match ops t with
  | unix_transport_ops => unix_transport_bind t a
  | tcp_transport_ops => tcp_transport_bind t a
  | udp_transport_ops => udp_transport_bind t a
  end.
Definition ssn_transport_connect t (a : ssn_address_t) (timeout_ms : Z) w
  : bool * ssn_transport_t * W :=
  match ops t with
  | unix_transport_ops => unix_transport_connect t a timeout_ms w
  | tcp_transport_ops => tcp_transport_connect t a timeout_ms w
  | udp_transport_ops => udp_transport_connect t a timeout_ms w
  end.
Definition ssn_transport_disconnect t w : bool * ssn_transport_t * W :=
  match ops t with
  | unix_transport_ops => unix_transport_disconnect t w
  | tcp_transport_ops => tcp_transport_disconnect t w
  | udp_transport_ops => udp_transport_disconnect t w
  end.
Definition ssn_transport_is_connected t : bool :=
  match ops t with
  | unix_transport_ops => unix_transport_is_connected t
  | tcp_transport_ops => tcp_transport_is_connected t
  | udp_transport_ops => udp_transport_is_connected t
  end.
Definition ssn_transport_send t (d : bytes) w : Z * ssn_transport_t * W :=
  match ops t with
  | unix_transport_ops => unix_transport_send t d w
  | tcp_transport_ops => tcp_transport_send t d w
  | udp_transport_ops => udp_transport_send t d w
  end.
Definition ssn_transport_recv t (size timeout_ms : Z) w : Z * bytes * ssn_transport_t * W :=
  match ops t with
  | unix_transport_ops => unix_transport_recv t size timeout_ms w
  | tcp_transport_ops => tcp_transport_recv t size timeout_ms w
  | udp_transport_ops => udp_transport_recv t size timeout_ms w
  end.
Definition ssn_transport_listen t (backlog : Z) w : bool * ssn_transport_t * W :=
  match ops t with
  | unix_transport_ops => unix_transport_listen t backlog w
  | tcp_transport_ops => tcp_transport_listen t backlog w
  | udp_transport_ops => udp_transport_listen t backlog w
  end.
Definition ssn_transport_accept (g : factory) t (want_addr : bool) (timeout_ms : Z) w
  : accept_result * W :=
  match ops t with
  | unix_transport_ops => unix_transport_accept g t want_addr timeout_ms w
  | tcp_transport_ops => tcp_transport_accept g t want_addr timeout_ms w
  | udp_transport_ops => udp_transport_accept t want_addr timeout_ms w
  end.

(** The three adapters' [get_option]: only option 0, the descriptor. *)
Definition unix_transport_get_option t (option_ : Z) : option Z :=
  if option_ =? 0 then Some (sock_fd (impl t)) else None.
Definition tcp_transport_get_option t (option_ : Z) : option Z :=
  if option_ =? 0 then Some (sock_fd (impl t)) else None.
Definition udp_transport_get_option t (option_ : Z) : option Z :=
  if option_ =? 0 then Some (sock_fd (impl t)) else None.
Definition ssn_transport_get_option t (option_ : Z) : option Z :=
  match ops t with
  | unix_transport_ops => unix_transport_get_option t option_
  | tcp_transport_ops => tcp_transport_get_option t option_
  | udp_transport_ops => udp_transport_get_option t option_
  end.
Definition ssn_transport_get_stats t : ssn_transport_stats_t := stats t.

Definition ssn_transport_get_fd t : Z :=
  if negb (valid t) then -1 else default (-1) (ssn_transport_get_option t 0).
End adapters.

(** ** Descriptor ownership *)

(** The descriptor a transport owns. *)
Definition owned (t : ssn_transport_t) : gset Z :=
  if sock_fd (impl t) >=? 0 then {[sock_fd (impl t)]} else ∅.

(** Replaces one kernel call in the goal by its result, keeping what the laws
    say about it. *)
Ltac os_call :=
  let go law := let Ho := fresh "Ho" in let Ht := fresh "Ht" in
                pose proof law as [Ho Ht]; cbn [snd] in Ho, Ht in
  match goal with
  | |- context [os_calloc ?w] =>
      go (os_calloc_quiet w); destruct (os_calloc w) as [? ?] eqn:?; cbn [snd] in *
  | |- context [os_time ?w] =>
      go (os_time_quiet w); destruct (os_time w) as [? ?] eqn:?; cbn [snd] in *
  | |- context [os_setsockopt ?fd ?o ?w] =>
      go (os_setsockopt_quiet fd o w); destruct (os_setsockopt fd o w) as [? ?] eqn:?; cbn [snd] in *
  | |- context [os_connect ?fd ?a ?w] =>
      go (os_connect_quiet fd a w); destruct (os_connect fd a w) as [? ?] eqn:?; cbn [snd] in *
  | |- context [os_bind ?fd ?a ?w] =>
      go (os_bind_quiet fd a w); destruct (os_bind fd a w) as [? ?] eqn:?; cbn [snd] in *
  | |- context [os_listen ?fd ?a ?w] =>
      go (os_listen_quiet fd a w); destruct (os_listen fd a w) as [? ?] eqn:?; cbn [snd] in *
  | |- context [os_select_read ?fd ?a ?w] =>
      go (os_select_read_quiet fd a w); destruct (os_select_read fd a w) as [? ?] eqn:?; cbn [snd] in *
  | |- context [os_select_write ?fd ?a ?w] =>
      go (os_select_write_quiet fd a w); destruct (os_select_write fd a w) as [? ?] eqn:?; cbn [snd] in *
  | |- context [os_stat ?p ?w] =>
      go (os_stat_quiet p w); destruct (os_stat p w) as [? ?] eqn:?; cbn [snd] in *
  | |- context [os_so_error ?fd ?w] =>
      go (os_so_error_quiet fd w); destruct (os_so_error fd w) as [[? ?] ?] eqn:?; cbn [snd] in *
  | |- context [os_recv ?fd ?n ?w] =>
      go (os_recv_quiet fd n w); destruct (os_recv fd n w) as [[? ?] ?] eqn:?; cbn [snd] in *
  | |- context [os_recvfrom ?fd ?n ?w] =>
      go (os_recvfrom_quiet fd n w); destruct (os_recvfrom fd n w) as [[? ?] ?] eqn:?; cbn [snd] in *
  | |- context [os_poll_out ?fd ?n ?w] =>
      go (os_poll_out_quiet fd n w); destruct (os_poll_out fd n w) as [[? ?] ?] eqn:?; cbn [snd] in *
  end.

Section ownership.
Context {W : Type} `{OsLaws W}.
Implicit Types (t : ssn_transport_t) (w : W).

Lemma close_fd_spec t w :
  let '(t', w') := close_fd t w in
  os_open w' = os_open w ∖ owned t /\ (forall x, os_tx w' x = os_tx w x) /\
  sock_fd (impl t') < 0 /\ valid t' = valid t /\ ops t' = ops t /\ config t' = config t /\
  non_blocking (impl t') = non_blocking (impl t) /\ is_server (impl t') = is_server (impl t) /\
  socket_path (impl t') = socket_path (impl t).
Proof.
  unfold close_fd, owned. destruct (Z.geb_spec (sock_fd (impl t)) 0) as [Hge|Hlt]; cbn.
  - destruct (os_close_open (sock_fd (impl t)) w) as [-> Htx]. split_and!; done || lia.
  - split_and!; try done. set_solver.
Qed.

Lemma setsockopt_if_quiet b fd o w : os_quiet os_open os_tx w (setsockopt_if b fd o w).
Proof. destruct b; [apply os_setsockopt_quiet|done]. Qed.

Lemma nonblock_if_quiet (b : bool) fd w :
  os_quiet os_open os_tx w (if b then os_set_nonblock fd w else w).
Proof. destruct b; [apply os_set_nonblock_quiet|done]. Qed.

Lemma os_quiet_trans w1 w2 w3 :
  os_quiet os_open os_tx w1 w2 -> os_quiet os_open os_tx w2 w3 -> os_quiet os_open os_tx w1 w3.
Proof. intros [? Ht1] [? Ht2]. split; [congruence|]. intros fd. by rewrite Ht2, Ht1. Qed.

(** A new socket of a transport that owns nothing else. *)
Definition fresh_fd (fd : Z) w w' : Prop :=
  (forall x, os_tx w' x = os_tx w x) /\
  (fd < 0 /\ os_open w' = os_open w \/
   0 <= fd /\ (fd ∉ os_open w) /\ os_open w' = {[fd]} ∪ os_open w).

Lemma fresh_fd_quiet fd w1 w2 w3 w4 :
  os_quiet os_open os_tx w1 w2 -> fresh_fd fd w2 w3 -> os_quiet os_open os_tx w3 w4 ->
  fresh_fd fd w1 w4.
Proof.
  intros [Ho1 Ht1] [Ht2 Hf] [Ho3 Ht3]. split.
  - intros x. by rewrite Ht3, Ht2, Ht1.
  - rewrite Ho3, <- Ho1. done.
Qed.

(** What a connection attempt leaves behind, relative to the descriptors other
    than the transport's own. *)
Definition conn_post (base : gset Z) (tx : Z -> bytes) (r : bool * ssn_transport_t * W) : Prop :=
  let '(ok, t', w') := r in
  (forall x, os_tx w' x = tx x) /\
  if ok
  then 0 <= sock_fd (impl t') /\ (sock_fd (impl t') ∉ base) /\
       os_open w' = {[sock_fd (impl t')]} ∪ base
  else sock_fd (impl t') < 0 /\ os_open w' = base.

(** The state between [socket] and the outcome: the new descriptor is held. *)
Definition holding (base : gset Z) (tx : Z -> bytes) (fd : Z) w : Prop :=
  0 <= fd /\ (fd ∉ base) /\ os_open w = {[fd]} ∪ base /\ forall x, os_tx w x = tx x.

Lemma holding_quiet base tx fd w w' :
  holding base tx fd w -> os_quiet os_open os_tx w w' -> holding base tx fd w'.
Proof.
  intros (? & ? & Ho & Ht) [Ho' Ht']. split_and!; [done..|congruence|].
  intros x. by rewrite Ht', Ht.
Qed.

Lemma abort_connect_post base tx t w :
  holding base tx (sock_fd (impl t)) w -> conn_post base tx (abort_connect t w).
Proof.
  intros (? & ? & Ho & Ht). unfold abort_connect, conn_post.
  destruct (os_close_open (sock_fd (impl t)) w) as [Ho' Ht'].
  split; [intros x; by rewrite Ht', Ht|]. cbn. rewrite Ho', Ho. split; [lia|set_solver].
Qed.

Lemma holding_post base tx t w :
  holding base tx (sock_fd (impl t)) w -> conn_post base tx (true, t, w).
Proof. intros (? & ? & ? & ?). done. Qed.

Lemma socket_holding f ty t w :
  let '(t1, w1) := close_fd t w in
  let '(fd, w2) := os_socket f ty w1 in
  (fd < 0 -> forall t', sock_fd (impl t') = fd ->
     conn_post (os_open w ∖ owned t) (os_tx w) (false, t', w2)) /\
  (0 <= fd -> holding (os_open w ∖ owned t) (os_tx w) fd w2).
Proof.
  pose proof (close_fd_spec t w) as Hc. destruct (close_fd t w) as [t1 w1].
  destruct Hc as (Ho & Ht & _). pose proof (os_socket_open f ty w1) as Hs.
  destruct (os_socket f ty w1) as [fd w2]. destruct Hs as [Ht2 Hs]. rewrite Ho in Hs.
  split; intros Hfd; destruct Hs as [[? Hs]|(? & ? & Hs)]; try lia.
  - intros t' Hfd'. split; [intros x; by rewrite Ht2, Ht|]. split; [lia|done].
  - split_and!; [done..|]. intros x. by rewrite Ht2, Ht.
Qed.
End ownership.

(** Advances a [holding] hypothesis over the kernel calls of the goal, in the
    order in which the code makes them. *)
Ltac hold_on Hh x :=
  lazymatch x with
  | match ?y with _ => _ end => hold_on Hh y
  | os_connect ?fd ?a ?w =>
      apply (fun h => holding_quiet _ _ _ _ _ h (os_connect_quiet fd a w)) in Hh;
      destruct (os_connect fd a w) as [? ?]; cbn [snd] in Hh
  | os_select_write ?fd ?a ?w =>
      apply (fun h => holding_quiet _ _ _ _ _ h (os_select_write_quiet fd a w)) in Hh;
      destruct (os_select_write fd a w) as [? ?]; cbn [snd] in Hh
  | os_so_error ?fd ?w =>
      apply (fun h => holding_quiet _ _ _ _ _ h (os_so_error_quiet fd w)) in Hh;
      destruct (os_so_error fd w) as [[? ?] ?]; cbn [snd] in Hh
  | os_time ?w =>
      apply (fun h => holding_quiet _ _ _ _ _ h (os_time_quiet w)) in Hh;
      destruct (os_time w) as [? ?]; cbn [snd] in Hh
  | _ => destruct x eqn:?
  end.
Ltac hold_step Hh :=
  match goal with
  | |- context [setsockopt_if ?b ?fd ?o ?w] =>
      apply (fun h => holding_quiet _ _ _ w _ h (setsockopt_if_quiet b fd o w)) in Hh;
      generalize dependent (setsockopt_if b fd o w); intros ? Hh
  | |- context [if ?b then os_set_nonblock ?fd ?w else ?w] =>
      apply (fun h => holding_quiet _ _ _ w _ h (nonblock_if_quiet b fd w)) in Hh;
      generalize dependent (if b then os_set_nonblock fd w else w); intros ? Hh
  | |- conn_post _ _ (match ?x with _ => _ end) => hold_on Hh x
  end.
Ltac hold_done Hh :=
  (apply abort_connect_post || apply holding_post);
  first [exact Hh | destruct (ipv6_enabled _); exact Hh].

Section connect.
Context {W : Type} `{OsLaws W}.
Implicit Types (t : ssn_transport_t) (w : W).

Lemma unix_connect_post t a ms w :
  conn_post (os_open w ∖ owned t) (os_tx w) (unix_transport_connect t a ms w).
Proof.
  unfold unix_transport_connect. pose proof (socket_holding AF_UNIX SOCK_STREAM t w) as Hs.
  destruct (close_fd t w) as [t1 w1]. destruct (os_socket _ _ w1) as [fd w2].
  destruct Hs as [Hfail Hh]. destruct (Z.ltb_spec fd 0) as [Hlt|Hge]; [by apply Hfail|].
  specialize (Hh Hge). clear Hfail. unfold touch. cbv zeta.
  repeat hold_step Hh; hold_done Hh.
Qed.

Lemma tcp_connect_post t a ms w :
  conn_post (os_open w ∖ owned t) (os_tx w) (tcp_transport_connect t a ms w).
Proof.
  unfold tcp_transport_connect.
  set (v6 := bool_decide _). change (owned t) with (owned (set_impl t (set_ipv6 (impl t) v6))).
  pose proof (socket_holding (if v6 then AF_INET6 else AF_INET) SOCK_STREAM
    (set_impl t (set_ipv6 (impl t) v6)) w) as Hs.
  destruct (close_fd _ w) as [t1 w1]. destruct (os_socket _ _ w1) as [fd w2].
  destruct Hs as [Hfail Hh]. destruct (Z.ltb_spec fd 0) as [Hlt|Hge]; [by apply Hfail|].
  specialize (Hh Hge). clear Hfail. unfold touch. cbv zeta.
  repeat hold_step Hh; hold_done Hh.
Qed.

Lemma udp_connect_post t a ms w :
  conn_post (os_open w ∖ owned t) (os_tx w) (udp_transport_connect t a ms w).
Proof.
  unfold udp_transport_connect.
  set (v6 := bool_decide _). change (owned t) with (owned (set_impl t (set_ipv6 (impl t) v6))).
  pose proof (socket_holding (if v6 then AF_INET6 else AF_INET) SOCK_DGRAM
    (set_impl t (set_ipv6 (impl t) v6)) w) as Hs.
  destruct (close_fd _ w) as [t1 w1]. destruct (os_socket _ _ w1) as [fd w2].
  destruct Hs as [Hfail Hh]. destruct (Z.ltb_spec fd 0) as [Hlt|Hge]; [by apply Hfail|].
  specialize (Hh Hge). clear Hfail. unfold touch. cbv zeta.
  repeat hold_step Hh; hold_done Hh.
Qed.
End connect.

Section lifecycle.
Context {W : Type} `{OsLaws W}.
Implicit Types (t : ssn_transport_t) (w : W).

(** Creation: a fresh descriptor owned by the result, or nothing. *)
Definition create_post w (r : option ssn_transport_t * W) : Prop :=
  match r with
  | (Some t, w') => holding (os_open w) (os_tx w) (sock_fd (impl t)) w' /\ valid t = true
  | (None, w') => os_quiet os_open os_tx w w'
  end.

Lemma socket_fresh f ty w0 w :
  os_quiet os_open os_tx w0 w ->
  let '(fd, w') := os_socket f ty w in
  (fd < 0 -> os_quiet os_open os_tx w0 w') /\
  (0 <= fd -> holding (os_open w0) (os_tx w0) fd w').
Proof.
  intros [Ho Ht]. pose proof (os_socket_open f ty w) as Hs.
  destruct (os_socket f ty w) as [fd w']. destruct Hs as [Ht' Hs]. rewrite Ho in Hs.
  split; intros Hfd; destruct Hs as [[? Hs]|(? & ? & Hs)]; try lia.
  - split; [done|]. intros x. by rewrite Ht', Ht.
  - split_and!; [done..|]. intros x. by rewrite Ht', Ht.
Qed.

(** The two allocations every constructor starts with. *)
Lemma alloc2_quiet w :
  let '(ok1, w1) := os_calloc w in
  os_quiet os_open os_tx w w1 /\
  let '(ok2, w2) := os_calloc w1 in os_quiet os_open os_tx w w2.
Proof.
  pose proof (os_calloc_quiet w) as H1. destruct (os_calloc w) as [ok1 w1].
  pose proof (os_calloc_quiet w1) as H2. destruct (os_calloc w1) as [ok2 w2].
  split; [done|]. by eapply os_quiet_trans.
Qed.

Lemma keepalive_quiet t w : os_quiet os_open os_tx w (tcp_transport_enable_keepalive t w).2.
Proof.
  unfold tcp_transport_enable_keepalive. destruct (_ <? 0); [done|].
  pose proof (os_setsockopt_quiet (sock_fd (impl t)) SO_KEEPALIVE w) as H1.
  destruct (os_setsockopt _ _ w) as [r w1]. destruct (r <? 0); [done|]. cbn.
  repeat (eapply os_quiet_trans; [|apply os_setsockopt_quiet]). done.
Qed.

Lemma holding_setup base tx fd w cfg t :
  holding base tx fd w ->
  let '(_, w1) := os_setsockopt fd SO_REUSEADDR w in
  let '(_, w2) := os_time w1 in
  holding base tx fd w2 /\
  holding base tx fd (match cfg : option ssn_transport_config_t with
    | Some c => if enable_keepalive c then (tcp_transport_enable_keepalive t w2).2 else w2
    | None => w2 end).
Proof.
  intros Hh. pose proof (holding_quiet _ _ _ _ _ Hh (os_setsockopt_quiet fd SO_REUSEADDR w)) as H1.
  destruct (os_setsockopt fd SO_REUSEADDR w) as [r w1].
  pose proof (holding_quiet _ _ _ _ _ H1 (os_time_quiet w1)) as H2.
  cbn in H2. destruct (os_time w1) as [now w2]. split; [done|].
  destruct cfg as [c|]; [|done]. destruct (enable_keepalive c); [|done].
  eapply holding_quiet; [done|apply keepalive_quiet].
Qed.

(** The common prefix of the three constructors, up to the new socket. *)
Ltac create_tac f ty w :=
  pose proof (alloc2_quiet w) as Ha;
  destruct (os_calloc w) as [ok1 w1]; destruct Ha as [Ha1 Ha2];
  destruct ok1; cbn [negb]; [|exact Ha1];
  destruct (os_calloc w1) as [ok2 w2]; destruct ok2; cbn [negb]; [|exact Ha2];
  pose proof (socket_fresh f ty w w2 Ha2) as Hs;
  destruct (os_socket f ty w2) as [fd w3]; destruct Hs as [Hf Hh];
  destruct (Z.ltb_spec fd 0) as [Hlt|Hge]; [by apply Hf|specialize (Hh Hge)].

Lemma unix_create_post cfg w : create_post w (unix_transport_create cfg w).
Proof.
  unfold unix_transport_create. create_tac AF_UNIX SOCK_STREAM w.
  pose proof (holding_setup _ _ _ _ cfg
    (new_transport SSN_TRANSPORT_UNIX unix_transport_ops fd cfg false 0) Hh) as Hq.
  destruct (os_setsockopt fd SO_REUSEADDR w3) as [r w4]. destruct (os_time w4) as [now w5].
  split; [apply Hq|done].
Qed.

Lemma udp_create_post cfg v6 w : create_post w (udp_transport_create cfg v6 w).
Proof.
  unfold udp_transport_create. create_tac (if v6 then AF_INET6 else AF_INET) SOCK_DGRAM w.
  pose proof (holding_setup _ _ _ _ cfg
    (new_transport SSN_TRANSPORT_UNIX unix_transport_ops fd cfg false 0) Hh) as Hq.
  destruct (os_setsockopt fd SO_REUSEADDR w3) as [r w4]. destruct (os_time w4) as [now w5].
  split; [apply Hq|done].
Qed.

Lemma tcp_create_post cfg v6 w : create_post w (tcp_transport_create cfg v6 w).
Proof.
  unfold tcp_transport_create. create_tac (if v6 then AF_INET6 else AF_INET) SOCK_STREAM w.
  pose proof (fun t => holding_setup _ _ _ _ cfg t Hh) as Hq.
  destruct (os_setsockopt fd SO_REUSEADDR w3) as [r w4]. destruct (os_time w4) as [now w5].
  split; [apply Hq|done].
Qed.

Lemma create_post_ok g ty cfg w : create_post w (ssn_transport_create g ty cfg w).
Proof.
  unfold ssn_transport_create, ssn_transport_factory_create.
  destruct (factory_creator g ty) as [[]|]; cbn [run_creator];
    eauto using unix_create_post, tcp_create_post, udp_create_post.
  done.
Qed.

Lemma connect_spec t a ms w :
  conn_post (os_open w ∖ owned t) (os_tx w) (ssn_transport_connect t a ms w).
Proof.
  unfold ssn_transport_connect.
  destruct (ops t); eauto using unix_connect_post, tcp_connect_post, udp_connect_post.
Qed.

Lemma disconnect_spec t w :
  let '(ok, t', w') := ssn_transport_disconnect t w in
  ok = true /\ sock_fd (impl t') < 0 /\ os_open w' = os_open w ∖ owned t /\
  (forall x, os_tx w' x = os_tx w x).
Proof.
  assert (forall w0, os_quiet os_open os_tx w w0 ->
    let '(t', w') := close_fd t w0 in
    sock_fd (impl t') < 0 /\ os_open w' = os_open w ∖ owned t /\
    (forall x, os_tx w' x = os_tx w x)) as Hclose.
  { intros w0 [Ho Ht]. pose proof (close_fd_spec t w0) as Hc.
    destruct (close_fd t w0) as [t' w']. destruct Hc as (Ho' & Ht' & Hneg & _).
    split_and!; [done|congruence|]. intros x. by rewrite Ht', Ht. }
  assert ((sock_fd (impl t) <? 0) = true -> os_open w = os_open w ∖ owned t) as Hnone.
  { intros ?%Z.ltb_lt. unfold owned. destruct (Z.geb_spec (sock_fd (impl t)) 0); [lia|set_solver]. }
  unfold ssn_transport_disconnect. destruct (ops t);
    unfold unix_transport_disconnect, tcp_transport_disconnect, udp_transport_disconnect.
  1,2: destruct (Z.geb_spec (sock_fd (impl t)) 0) as [Hge|Hlt];
    [specialize (Hclose (os_shutdown (sock_fd (impl t)) w) (os_shutdown_quiet _ _));
       destruct (close_fd t _) as [t' w']; by split
    |split_and!; [done|lia|apply Hnone; apply Z.ltb_lt; lia|done]].
  specialize (Hclose w (conj eq_refl (fun _ => eq_refl))). destruct (close_fd t w) as [t' w'].
  by split.
Qed.

Lemma destroy_spec t w :
  os_open (ssn_transport_destroy t w) = os_open w ∖ owned t /\
  (forall x, os_tx (ssn_transport_destroy t w) x = os_tx w x).
Proof.
  unfold ssn_transport_destroy. destruct (ops t);
    unfold unix_transport_destroy, tcp_transport_destroy, udp_transport_destroy;
    pose proof (close_fd_spec t w) as Hc; destruct (close_fd t w) as [t' w'];
    destruct Hc as (Ho & Ht & _); cbn [snd]; [|done..].
  destruct (_ && _); [|done].
  destruct (os_unlink_quiet (socket_path (impl t')) w') as [Ho' Ht'].
  split; [congruence|]. intros x. by rewrite Ht', Ht.
Qed.

(** Accepting: the descriptor of the new connection is the only change, and a
    failed accept closes whatever was opened on the way. *)
Definition accept_post w (r : accept_result * W) : Prop :=
  match r with
  | (AcceptNew t _, w') => holding (os_open w) (os_tx w) (sock_fd (impl t)) w' /\ valid t = true
  | (_, w') => os_quiet os_open os_tx w w'
  end.

Lemma adopt_fd_holding base tx t fd w1 w2 :
  holding base tx fd w1 -> create_post w1 (Some t, w2) ->
  holding base tx fd (adopt_fd t fd w2).2.
Proof.
  intros (Hfd & Hn & Ho & Ht) [(Hfd2 & Hn2 & Ho2 & Ht2) _]. unfold adopt_fd.
  pose proof (close_fd_spec t w2) as Hc. destruct (close_fd t w2) as [t' w'].
  destruct Hc as (Ho' & Ht' & _). cbn. split_and!; [done..| |].
  - rewrite Ho', Ho2, Ho. unfold owned. destruct (Z.geb_spec (sock_fd (impl t)) 0); [|lia].
    set_solver.
  - intros x. by rewrite Ht', Ht2, Ht.
Qed.

(** The part of [accept] after the descriptor was obtained. *)
Lemma adopt_or_close g ty cfg fd base tx w1 :
  holding base tx fd w1 ->
  let '(ct, w2) := ssn_transport_create g ty cfg w1 in
  match ct with
  | None => os_open (os_close fd w2) = base /\ forall x, os_tx (os_close fd w2) x = tx x
  | Some ct =>
    valid ct = true /\
    let '(ct', w3) := adopt_fd ct fd w2 in
    sock_fd (impl ct') = fd /\ valid ct' = true /\
    let '(now, w4) := os_time w3 in holding base tx fd w4
  end.
Proof.
  intros Hh. pose proof (create_post_ok g ty cfg w1) as Hc.
  destruct (ssn_transport_create g ty cfg w1) as [[ct|] w2].
  - split; [apply Hc|]. destruct (adopt_fd ct fd w2) as [ct' w3] eqn:Had.
    assert (holding base tx fd w3) as H3.
    { pose proof (adopt_fd_holding base tx ct fd w1 w2 Hh Hc) as H3. by rewrite Had in H3. }
    unfold adopt_fd in Had. pose proof (close_fd_spec ct w2) as Hs.
    destruct (close_fd ct w2) as [t' w']. destruct Hs as (_ & _ & _ & Hv & _). simplify_eq.
    split; [done|]. split; [cbn; rewrite Hv; apply Hc|].
    pose proof (holding_quiet _ _ _ _ _ H3 (os_time_quiet w3)) as H4. by destruct (os_time w3).
  - destruct Hh as (? & Hn & Ho & Ht). destruct Hc as [Hq1 Hq2].
    destruct (os_close_open fd w2) as [Hc1 Hc2]. split; [rewrite Hc1, Hq1, Ho; set_solver|].
    intros x. by rewrite Hc2, Hq2, Ht.
Qed.

Lemma accept_ready_quiet (b : bool) fd ms w :
  os_quiet os_open os_tx w (if b then os_select_read fd ms w else (1, w)).2.
Proof. destruct b; [apply os_select_read_quiet|done]. Qed.

Lemma accept_spec g t want ms w : accept_post w (ssn_transport_accept g t want ms w).
Proof.
  unfold ssn_transport_accept. destruct (ops t).
  1,2: unfold unix_transport_accept, tcp_transport_accept; destruct (usable t); [|done]; cbn [negb];
    pose proof (accept_ready_quiet (ms >? 0) (sock_fd (impl t)) ms w) as Hq;
    destruct (if ms >? 0 then _ else _) as [ready w1]; cbn [snd] in Hq;
    destruct (ready <=? 0); [done|];
    pose proof (os_accept_open (sock_fd (impl t)) w1) as Ha;
    destruct (os_accept (sock_fd (impl t)) w1) as [[fd peer] w2];
    destruct Hq as [Hqo Hqt]; destruct Ha as [Htx Ha]; rewrite Hqo in Ha;
    destruct (Z.ltb_spec fd 0) as [Hlt|Hge];
    [destruct Ha as [[_ Ho]|(? & _)]; [|lia]; split; [done|]; intros x; by rewrite Htx, Hqt|];
    destruct Ha as [[? _]|(_ & Hn & Ho)]; [lia|];
    match goal with |- context [ssn_transport_create ?g ?ty ?cfg ?w'] =>
      pose proof (adopt_or_close g ty cfg fd (os_open w) (os_tx w) w') as Hx;
      destruct (ssn_transport_create g ty cfg w') as [[ct|] w3]
    end;
    (assert (holding (os_open w) (os_tx w) fd w2) as Hh
       by (split_and!; try done; intros x; by rewrite Htx, Hqt));
    specialize (Hx Hh); [|exact Hx];
    destruct Hx as [_ Hx]; destruct (adopt_fd ct fd w3) as [ct' w4];
    destruct Hx as (Hfd & Hv & Hx); unfold touch; destruct (os_time w4) as [now w5];
    split; [by cbn; rewrite Hfd|done].
  unfold udp_transport_accept. by destruct (usable t), want.
Qed.

(** What [ssn_transport_send] promises its callers. *)
Definition send_post t (d : bytes) w (r : Z * ssn_transport_t * W) : Prop :=
  let '(n, t', w') := r in
  sock_fd (impl t') = sock_fd (impl t) /\ valid t' = valid t /\ ops t' = ops t /\
  config t' = config t /\ os_open w' = os_open w /\ n <= zlen d /\
  os_tx w' (sock_fd (impl t)) = os_tx w (sock_fd (impl t)) ++ ztake n d /\
  (forall x, x <> sock_fd (impl t) -> os_tx w' x = os_tx w x).

Lemma send_post_fail t t' d w :
  sock_fd (impl t') = sock_fd (impl t) -> valid t' = valid t -> ops t' = ops t ->
  config t' = config t -> send_post t d w (-1, t', w).
Proof.
  intros. pose proof (zlen_nonneg d). split_and!; try done; [lia|].
  change (ztake (-1) d) with (@nil Z). by rewrite app_nil_r.
Qed.

(** Both [send] and [sendto] end this way. *)
Lemma send_finish t d w sent w1 :
  zlen d < 2 ^ 31 ->
  os_open w1 = os_open w -> sent <= zlen d ->
  os_tx w1 (sock_fd (impl t)) = os_tx w (sock_fd (impl t)) ++ ztake sent d ->
  (forall x, x <> sock_fd (impl t) -> os_tx w1 x = os_tx w x) ->
  send_post t d w
    (if sent <? 0 then
       if (os_errno w1 =? EAGAIN) || (os_errno w1 =? EWOULDBLOCK) then (-1, t, w1)
       else (-1, set_stats t (stats_send_error (stats t)), w1)
     else
       let '(t, w) := touch (set_stats t (stats_sent (stats t) sent)) w1 in
       (i32 sent, t, w)).
Proof.
  intros Hd Ho Hle Htx Hother. pose proof (zlen_nonneg d).
  destruct (Z.ltb_spec sent 0) as [Hneg|Hpos].
  - assert (ztake sent d = ztake (-1) d) as E.
    { unfold ztake. f_equal. lia. }
    rewrite E in Htx. destruct (_ || _); split_and!; done || lia.
  - unfold touch. pose proof (os_time_quiet w1) as [Ho2 Ht2]. destruct (os_time w1) as [now w2].
    cbn [snd] in *. rewrite i32_id by lia. split_and!; try done.
    + congruence.
    + by rewrite Ht2.
    + intros x Hx. rewrite Ht2. by apply Hother.
Qed.

Lemma send_spec t d w : zlen d < 2 ^ 31 -> send_post t d w (ssn_transport_send t d w).
Proof.
  intros Hd. unfold ssn_transport_send, unix_transport_send, tcp_transport_send, udp_transport_send,
    stream_send.
  destruct (ops t); (destruct (usable t); [|by apply send_post_fail]); cbn [negb].
  1,2: pose proof (os_send_tx (sock_fd (impl t)) d w) as Hs; destruct (os_send _ d w) as [sent w1];
    destruct Hs as (? & ? & ? & ?); by apply send_finish.
  destruct (zlen d >? UDP_MAX_PACKET_SIZE); [by apply send_post_fail|].
  match goal with |- context [os_sendto ?fd d ?a w] =>
    pose proof (os_sendto_tx fd d a w) as Hs; destruct (os_sendto fd d a w) as [sent w1] end.
  destruct Hs as (? & ? & ? & ?). by apply send_finish.
Qed.
End lifecycle.

(** ** What the operations leave alone *)

Section frames.
Context {W : Type} `{OsOps W}.
Implicit Types (t : ssn_transport_t) (w : W).

Lemma close_fd_config t w : config (close_fd t w).1 = config t.
Proof. unfold close_fd. by destruct (_ >=? 0). Qed.

Lemma disconnect_config t w : config (ssn_transport_disconnect t w).1.2 = config t.
Proof.
  pose proof (close_fd_config t) as Hc. unfold ssn_transport_disconnect, unix_transport_disconnect,
    tcp_transport_disconnect, udp_transport_disconnect.
  destruct (ops t); try (destruct (_ >=? 0); [|done]);
    match goal with |- context [close_fd t ?w'] => specialize (Hc w'); by destruct (close_fd t w') end.
Qed.

Lemma finish_recv_config t n b w : config (finish_recv t n b w).1.2 = config t.
Proof.
  unfold finish_recv, touch. destruct (n <? 0); [by destruct (_ && _)|].
  destruct (n >? 0); [|done]. by destruct (os_time w).
Qed.

Lemma recv_config t size ms w : config (ssn_transport_recv t size ms w).1.2 = config t.
Proof.
  unfold ssn_transport_recv, unix_transport_recv, tcp_transport_recv, udp_transport_recv, stream_recv.
  destruct (ops t); (destruct (usable t); [|done]); cbn [negb].
  1,2: destruct (os_recv _ _ _) as [[n b] w']; apply finish_recv_config.
  destruct (os_recvfrom _ _ _) as [[n b] w']; apply finish_recv_config.
Qed.

Lemma create_config g ty cfg w t w' :
  ssn_transport_create g ty cfg w = (Some t, w') -> config t = default zero_config cfg.
Proof.
  unfold ssn_transport_create, ssn_transport_factory_create.
  destruct (factory_creator g ty) as [c|]; [|done].
  destruct c; cbn [run_creator]; unfold unix_transport_create, tcp_transport_create, udp_transport_create;
    destruct (os_calloc w) as [[] w1]; cbn [negb]; try done;
    destruct (os_calloc w1) as [[] w2]; cbn [negb]; try done;
    destruct (os_socket _ _ w2) as [fd w3]; destruct (fd <? 0); try done;
    destruct (os_setsockopt _ _ w3) as [r w4]; destruct (os_time w4) as [now w5]; by intros [= <- _].
Qed.

Lemma accept_config g t want ms w ct a w' :
  ssn_transport_accept g t want ms w = (AcceptNew ct a, w') ->
  config ct = cfg_set_non_blocking (config t) (non_blocking (impl t)).
Proof.
  assert (forall ct fd w, config (adopt_fd ct fd w).1 = config ct) as Had.
  { intros ct0 fd w0. unfold adopt_fd. pose proof (close_fd_config ct0 w0). by destruct (close_fd ct0 w0). }
  unfold ssn_transport_accept, unix_transport_accept, tcp_transport_accept, udp_transport_accept, touch.
  destruct (ops t); (destruct (usable t); [|done]); cbn [negb]; [| |by destruct want].
  1,2: destruct (if ms >? 0 then _ else _) as [ready w1]; destruct (ready <=? 0); [done|];
    destruct (os_accept _ w1) as [[fd peer] w2]; destruct (fd <? 0); [done|];
    match goal with |- context [ssn_transport_create ?g ?ty ?cfg ?w3] =>
      destruct (ssn_transport_create g ty cfg w3) as [[ct0|] w4] eqn:Ec end; [|done];
    apply create_config in Ec; specialize (Had ct0 fd w4);
    destruct (adopt_fd ct0 fd w4) as [ct1 w5]; destruct (os_time w5) as [now w6];
    intros [= <- _ _]; cbn in *; congruence.
Qed.
End frames.

Section recv_laws.
Context {W : Type} `{OsLaws W}.

Lemma recv_size (t : ssn_transport_t) size ms (w : W) :
  0 <= size < 2 ^ 31 ->
  let '(n, b, t', w') := ssn_transport_recv t size ms w in
  n <= size /\ (0 < n -> zlen b = n).
Proof.
  intros Hs.
  assert (forall n b w0, (n < 0 \/ n = zlen b) /\ n <= size ->
    let '(n', b', t', w') := finish_recv t n b w0 in n' <= size /\ (0 < n' -> zlen b' = n')) as Hfin.
  { intros n b w0 [Hn Hle]. unfold finish_recv, touch. destruct (Z.ltb_spec n 0).
    - destruct (_ && _); split; lia.
    - rewrite i32_id by lia. destruct (n >? 0); [destruct (os_time w0)|]; split; lia. }
  unfold ssn_transport_recv, unix_transport_recv, tcp_transport_recv, udp_transport_recv, stream_recv.
  destruct (ops t); (destruct (usable t); [|split; lia]); cbn [negb].
  1,2: match goal with |- context [os_recv ?fd ?sz ?w0] =>
      pose proof (os_recv_size fd sz w0 ltac:(lia)) as Hr; destruct (os_recv fd sz w0) as [[n b] w'] end;
    by apply Hfin.
  match goal with |- context [os_recvfrom ?fd size ?w0] =>
    pose proof (os_recvfrom_size fd size w0 ltac:(lia)) as Hr; destruct (os_recvfrom fd size w0) as [[n b] w'] end.
  by apply Hfin.
Qed.
End recv_laws.

(** ** Properties *)

(** The creator the factory should hand out, and the allocation its
    registration depends on. *)
Definition expected_creator (ty : ssn_transport_type_t) : option (transport_creator * nat) :=
  match ty with
  | SSN_TRANSPORT_UNIX => Some (factory_create_unix, 4%nat)
  | SSN_TRANSPORT_TCP => Some (factory_create_tcp, 5%nat)
  | SSN_TRANSPORT_TCP6 => Some (factory_create_tcp6, 6%nat)
  | SSN_TRANSPORT_UDP => Some (factory_create_udp, 7%nat)
  | SSN_TRANSPORT_UDP6 => Some (factory_create_udp6, 8%nat)
  | SSN_TRANSPORT_TLS | SSN_TRANSPORT_DTLS => None
  end.

(** The factory's initialisation never reads uninitialised memory; it
    fails exactly when one of its first four allocations fails; and an
    initialised factory maps each transport type to its own constructor
    (provided that registration's node could be allocated) and knows no TLS or
    DTLS. *)
Theorem factory_dispatch (allocs : nat -> bool) (ty : ssn_transport_type_t) :
  match ssn_transport_factory_init allocs None with
  | None => False
  | Some None => allocs 0%nat && allocs 1%nat && allocs 2%nat && allocs 3%nat = false
  | Some (Some g) =>
      allocs 0%nat && allocs 1%nat && allocs 2%nat && allocs 3%nat = true /\
      factory_creator g ty =
        match expected_creator ty with
        | Some (c, i) => if allocs i then Some c else None
        | None => None
        end /\
      ssn_transport_factory_init allocs (Some g) = Some (Some g)
  end.
Proof.
  unfold ssn_transport_factory_init.
  destruct (allocs 0%nat); [|done]. destruct (allocs 1%nat); [|done].
  destruct (allocs 2%nat); [|done]. destruct (allocs 3%nat); [|done].
  destruct (allocs 4%nat) eqn:E4, (allocs 5%nat) eqn:E5, (allocs 6%nat) eqn:E6,
    (allocs 7%nat) eqn:E7, (allocs 8%nat) eqn:E8;
    destruct ty; cbn [expected_creator]; rewrite ?E4, ?E5, ?E6, ?E7, ?E8; vm_compute; done.
Qed.

(** C37.  Connecting never leaks a descriptor: the transport's old socket is
    closed, a successful attempt leaves exactly one new descriptor, held by the
    transport, and a failed one leaves none; every other descriptor stays open
    and nothing is sent. *)
Theorem connect_keeps_descriptors {W} `{OsLaws W} (t : ssn_transport_t) (a : ssn_address_t)
    (timeout_ms : Z) (w : W) :
  conn_post (os_open w ∖ owned t) (os_tx w) (ssn_transport_connect t a timeout_ms w).
Proof. apply connect_spec. Qed.

(** Accepting never leaks a descriptor: a returned connection holds the
    one new descriptor (the socket its constructor made is gone), and every
    failure, including a failed allocation after [accept] succeeded, leaves the
    open descriptors as they were. *)
Theorem accept_keeps_descriptors {W} `{OsLaws W} (g : factory) (t : ssn_transport_t)
    (want_addr : bool) (timeout_ms : Z) (w : W) :
  accept_post w (ssn_transport_accept g t want_addr timeout_ms w).
Proof. apply accept_spec. Qed.

(** Life cycle: a transport made by the factory owns one fresh
    descriptor; disconnecting it any number of times and destroying it gives
    back exactly the descriptors open before, and a failed creation opens
    none. *)
Theorem create_destroy_descriptors {W} `{OsLaws W} (g : factory) (ty : ssn_transport_type_t)
    (cfg : option ssn_transport_config_t) (w : W) :
  match ssn_transport_create g ty cfg w with
  | (None, w1) => os_open w1 = os_open w
  | (Some t, w1) =>
      (sock_fd (impl t) ∈ os_open w1) /\ (sock_fd (impl t) ∉ os_open w) /\
      os_open (ssn_transport_destroy t w1) = os_open w /\
      let '(_, t2, w2) := ssn_transport_disconnect t w1 in
      os_open w2 = os_open w /\ ssn_transport_is_connected t2 = false /\
      let '(_, t3, w3) := ssn_transport_disconnect t2 w2 in
      os_open w3 = os_open w /\ os_open (ssn_transport_destroy t3 w3) = os_open w
  end.
Proof.
  pose proof (create_post_ok g ty cfg w) as Hc.
  destruct (ssn_transport_create g ty cfg w) as [[t|] w1]; [|apply Hc].
  destruct Hc as [(Hfd & Hn & Ho & _) _].
  assert (owned t = {[sock_fd (impl t)]}) as Hown.
  { unfold owned. by destruct (Z.geb_spec (sock_fd (impl t)) 0); [|lia]. }
  assert (forall t', sock_fd (impl t') < 0 -> owned t' = ∅) as Hneg.
  { intros t' ?. unfold owned. by destruct (Z.geb_spec (sock_fd (impl t')) 0); [lia|]. }
  split; [set_solver|]. split; [done|].
  split; [destruct (destroy_spec t w1) as [-> _]; rewrite Hown, Ho; set_solver|].
  pose proof (disconnect_spec t w1) as Hd. destruct (ssn_transport_disconnect t w1) as [[ok t2] w2].
  destruct Hd as (_ & Hneg2 & Ho2 & _). rewrite Hown, Ho in Ho2.
  assert (os_open w2 = os_open w) as E2 by (rewrite Ho2; set_solver).
  split; [done|]. split.
  { unfold ssn_transport_is_connected, unix_transport_is_connected, tcp_transport_is_connected,
      udp_transport_is_connected. by destruct (ops t2), (Z.geb_spec (sock_fd (impl t2)) 0); try lia. }
  pose proof (disconnect_spec t2 w2) as Hd. destruct (ssn_transport_disconnect t2 w2) as [[ok3 t3] w3].
  destruct Hd as (_ & Hneg3 & Ho3 & _). rewrite (Hneg t2 Hneg2), E2 in Ho3.
  split; [set_solver|]. destruct (destroy_spec t3 w3) as [-> _].
  rewrite (Hneg t3 Hneg3). set_solver.
Qed.

(** ** Witnesses *)

Definition demo_factory : factory :=
  match ssn_transport_factory_init (fun _ => true) None with
  | Some (Some g) => g
  | _ => mk_table [] 0 0
  end.

Definition demo_transport (fd : Z) : ssn_transport_t :=
  new_transport SSN_TRANSPORT_UNIX unix_transport_ops fd None false 0.

Lemma connect_keeps_descriptors_witness :
  exists t' w', ssn_transport_connect (demo_transport 3)
      (mk_address SSN_TRANSPORT_UNIX [1; 0; 47; 115]) 100 (mk_sim 0 4 {[3]} (fun _ => []) [] [])
    = (true, t', w') /\ sim_open w' = {[4]}.
Proof.
  pose proof (connect_keeps_descriptors (demo_transport 3)
    (mk_address SSN_TRANSPORT_UNIX [1; 0; 47; 115]) 100 (mk_sim 0 4 {[3]} (fun _ => []) [] [])) as Hc.
  destruct (ssn_transport_connect _ _ _ _) as [[ok t'] w'] eqn:E.
  vm_compute in E. injection E as <- <- <-. eexists _, _. split; [reflexivity|].
  vm_compute. reflexivity.
Defined.

Lemma accept_keeps_descriptors_witness :
  accept_post (mk_sim 0 4 {[3]} (fun _ => []) [] [])
    (ssn_transport_accept demo_factory (demo_transport 3) true 0
       (mk_sim 0 4 {[3]} (fun _ => []) [] [])).
Proof. exact (accept_keeps_descriptors demo_factory (demo_transport 3) true 0 _). Defined.

Lemma create_destroy_descriptors_witness :
  exists t w1, ssn_transport_create demo_factory SSN_TRANSPORT_TCP None (sim_init [] []) = (Some t, w1) /\
    os_open (ssn_transport_destroy t w1) = ∅.
Proof.
  pose proof (create_destroy_descriptors demo_factory SSN_TRANSPORT_TCP None (sim_init [] [])) as Hc.
  destruct (ssn_transport_create _ _ _ _) as [[t|] w1] eqn:E; [|vm_compute in E; discriminate].
  exists t, w1. split; [reflexivity|]. exact (proj1 (proj2 (proj2 Hc))).
Defined.
