(* ===== verification/Address.v ===== *)
(** * Addresses ([src/src/transports/ssn_transport.c], [get_address] of the adapters)

    Parsing and printing of [unix://], [tcp://], [udp://], [tcp6://] and
    [udp6://] addresses.  C strings are the bytes before their NUL.  [atoi] is
    the C library's: a [strtol] saturating at 64 bits, cut to [int]. *)
From Stdlib Require Import String Ascii.
From S2P Require Import Prelude FrameCodec Os Transport.

Definition str (s : string) : bytes := map (fun a => Z.of_nat (nat_of_ascii a)) (list_ascii_of_string s).

(** ** C string functions *)

(** [strstr]/[strchr]: the text before and after the first occurrence. *)
Fixpoint split_first (pat s : bytes) : option (bytes * bytes) :=
  if bool_decide (take (length pat) s = pat) then Some ([], drop (length pat) s)
  else match s with
  | [] => None
  | c :: s => match split_first pat s with Some (a, b) => Some (c :: a, b) | None => None end
  end.

Definition is_digit (c : Z) : bool := (48 <=? c) && (c <=? 57).
Definition is_space (c : Z) : bool := (c =? 32) || ((9 <=? c) && (c <=? 13)).
Fixpoint skip_space (s : bytes) : bytes :=
  match s with
  | [] => []
  | c :: s' => if is_space c then skip_space s' else s
  end.
Fixpoint digits (acc : Z) (s : bytes) : Z :=
  match s with
  | [] => acc
  | c :: s => if is_digit c then digits (acc * 10 + (c - 48)) s else acc
  end.
Definition clamp64 (x : Z) : Z := Z.max (- 2 ^ 63) (Z.min (2 ^ 63 - 1) x).
Definition atoi (s : bytes) : Z :=
  match skip_space s with
  | c :: s' =>
    if c =? 45 then i32 (clamp64 (- digits 0 s'))
    else if c =? 43 then i32 (clamp64 (digits 0 s'))
    else i32 (clamp64 (digits 0 (c :: s')))
  | [] => 0
  end.

(** [%d] of a non-negative [int]. *)
Fixpoint dec_loop (fuel : nat) (n : Z) (acc : bytes) : bytes :=
  match fuel with
  | O => acc
  | S fuel =>
    let acc := (48 + n mod 10) :: acc in
    if n / 10 =? 0 then acc else dec_loop fuel (n / 10) acc
  end.
Definition dec (n : Z) : bytes := dec_loop 10 n [].

(** ** Parsing *)

Definition SSN_TRANSPORT_MAX_ADDRESS_LEN : Z := 256.
Definition SUN_PATH_SIZE : Z := 108.

(** [struct sockaddr_un] (110 bytes), [sockaddr_in] (16), [sockaddr_in6] (28);
    families are little-endian, ports big-endian. *)
Definition pad (n : Z) (b : bytes) : bytes := b ++ repeat 0 (Z.to_nat (n - zlen b)).
Definition sockaddr_un (path : bytes) : bytes := pad 110 ([AF_UNIX; 0] ++ ztake (SUN_PATH_SIZE - 1) path).
Definition port_bytes (port : Z) : bytes := [port / 256; port mod 256].
Definition sockaddr_in (port : Z) (ip : bytes) : bytes := pad 16 ([AF_INET; 0] ++ port_bytes port ++ ip).
Definition sockaddr_in6 (port : Z) (ip : bytes) : bytes :=
  pad 28 ([AF_INET6; 0] ++ port_bytes port ++ [0; 0; 0; 0] ++ ip).

Definition port_ok (port : Z) : bool := negb ((port <=? 0) || (port >? 65535)).
Definition SCHEME_END : bytes := [58; 47; 47].
Definition COLON : Z := 58.
Definition UNIX_PREFIX : bytes := str "unix" ++ SCHEME_END.

Section parse.
Context {W : Type} `{OsOps W}.

(** Host name or dotted quad; [n] is the length of the printed address. *)
Definition parse_inet (ty : ssn_transport_type_t) (rest : bytes) (w : W) : option ssn_address_t * W :=
  match split_first [COLON] rest with
  | None => (None, w)
  | Some (host, port_str) =>
    if zlen host >=? 256 then (None, w)
    else
      let port := atoi port_str in
      if negb (port_ok port) then (None, w)
      else
        let finish ip w :=
          if 7 + zlen host + zlen (dec port) >=? SSN_TRANSPORT_MAX_ADDRESS_LEN then (None, w)
          else (Some (mk_address ty (sockaddr_in port ip)), w) in
        match os_inet_pton AF_INET host with
        | Some ip => finish ip w
        | None =>
          let '(r, w) := os_gethostbyname host w in
          match r with Some ip => finish ip w | None => (None, w) end
        end
  end.

(** [[host]:port] *)
Definition parse_inet6 (ty : ssn_transport_type_t) (rest : bytes) : option ssn_address_t :=
  match rest with
  | 91 :: rest =>
    match split_first [93] rest with
    | Some (host, 58 :: port_str) =>
      if (zlen host =? 0) || (zlen host >=? 256) then None
      else
        let port := atoi port_str in
        if negb (port_ok port) then None
        else match os_inet_pton AF_INET6 host with
        | None => None
        | Some ip =>
          if 10 + zlen host + zlen (dec port) >=? SSN_TRANSPORT_MAX_ADDRESS_LEN then None
          else Some (mk_address ty (sockaddr_in6 port ip))
        end
    | _ => None
    end
  | _ => None
  end.

Definition ssn_address_parse (address_str : bytes) (w : W) : option ssn_address_t * W :=
  match split_first SCHEME_END address_str with
  | None => (None, w)
  | Some (protocol, rest) =>
    if zlen protocol >=? 32 then (None, w)
    else if bool_decide (protocol = str "unix") then
      let path := ztake 255 rest in
      if 7 + zlen path >=? SSN_TRANSPORT_MAX_ADDRESS_LEN then (None, w)
      else (Some (mk_address SSN_TRANSPORT_UNIX (sockaddr_un path)), w)
    else if bool_decide (protocol = str "tcp") then parse_inet SSN_TRANSPORT_TCP rest w
    else if bool_decide (protocol = str "udp") then parse_inet SSN_TRANSPORT_UDP rest w
    else if bool_decide (protocol = str "tcp6") then (parse_inet6 SSN_TRANSPORT_TCP6 rest, w)
    else if bool_decide (protocol = str "udp6") then (parse_inet6 SSN_TRANSPORT_UDP6 rest, w)
    else (None, w)
  end.
End parse.

(** ** Printing *)

Section print.
(** [inet_ntop family address]: the printable form. *)
Context (inet_ntop : Z -> bytes -> bytes).

Definition sin_port (raw : bytes) : Z := nth 2 raw 0 * 256 + nth 3 raw 0.
Definition sin_addr (raw : bytes) : bytes := slice raw 4 4.
Definition sin6_addr (raw : bytes) : bytes := slice raw 8 16.

(** [snprintf] keeps [size - 1] characters. *)
Definition ssn_address_to_string (a : ssn_address_t) (size : Z) : option bytes :=
  if size =? 0 then None
  else
    let inet scheme := Some (ztake (size - 1) (str scheme ++ SCHEME_END
      ++ inet_ntop AF_INET (sin_addr (addr_raw a)) ++ [COLON] ++ dec (sin_port (addr_raw a)))) in
    let inet6 scheme := Some (ztake (size - 1) (str scheme ++ SCHEME_END ++ [91]
      ++ inet_ntop AF_INET6 (sin6_addr (addr_raw a)) ++ [93; COLON] ++ dec (sin_port (addr_raw a)))) in
    match addr_type a with
    | SSN_TRANSPORT_UNIX =>
        Some (ztake (size - 1) (str "unix" ++ SCHEME_END ++ cstr (zdrop 2 (addr_raw a))))
    | SSN_TRANSPORT_TCP => inet "tcp"%string
    | SSN_TRANSPORT_TCP6 => inet6 "tcp6"%string
    | SSN_TRANSPORT_UDP => inet "udp"%string
    | SSN_TRANSPORT_UDP6 => inet6 "udp6"%string
    | _ => None
    end.
End print.

Definition ssn_transport_type_to_string (ty : ssn_transport_type_t) : bytes :=
  match ty with
  | SSN_TRANSPORT_UNIX => str "unix" | SSN_TRANSPORT_TCP => str "tcp" | SSN_TRANSPORT_TCP6 => str "tcp6"
  | SSN_TRANSPORT_UDP => str "udp" | SSN_TRANSPORT_UDP6 => str "udp6" | SSN_TRANSPORT_TLS => str "tls"
  | SSN_TRANSPORT_DTLS => str "dtls"
  end.
Definition ssn_transport_type_from_string (s : option bytes) : ssn_transport_type_t :=
  match s with
  | None => SSN_TRANSPORT_UNIX
  | Some s =>
    if bool_decide (s = str "unix") then SSN_TRANSPORT_UNIX
    else if bool_decide (s = str "tcp") then SSN_TRANSPORT_TCP
    else if bool_decide (s = str "tcp6") then SSN_TRANSPORT_TCP6
    else if bool_decide (s = str "udp") then SSN_TRANSPORT_UDP
    else if bool_decide (s = str "udp6") then SSN_TRANSPORT_UDP6
    else if bool_decide (s = str "tls") then SSN_TRANSPORT_TLS
    else if bool_decide (s = str "dtls") then SSN_TRANSPORT_DTLS
    else SSN_TRANSPORT_UNIX
  end.

(** ** The address of a transport *)

Definition unix_transport_get_address (t : ssn_transport_t) : ssn_address_t :=
  mk_address SSN_TRANSPORT_UNIX (impl_addr (impl t)).
Definition tcp_transport_get_address (t : ssn_transport_t) : ssn_address_t :=
  if ipv6_enabled (impl t) then mk_address SSN_TRANSPORT_TCP6 (impl_addr6 (impl t))
  else mk_address SSN_TRANSPORT_TCP (impl_addr (impl t)).
Definition udp_transport_get_address (t : ssn_transport_t) : ssn_address_t :=
  if ipv6_enabled (impl t) then mk_address SSN_TRANSPORT_UDP6 (impl_addr6 (impl t))
  else mk_address SSN_TRANSPORT_UDP (impl_addr (impl t)).
Definition ssn_transport_get_address (t : ssn_transport_t) : ssn_address_t :=
  match ops t with
  | unix_transport_ops => unix_transport_get_address t
  | tcp_transport_ops => tcp_transport_get_address t
  | udp_transport_ops => udp_transport_get_address t
  end.

(** ** Decimal numbers *)

Lemma dec_loop_digits fuel n acc a :
  0 <= n < 10 ^ Z.of_nat fuel -> 0 <= a ->
  exists k, 0 <= k /\ digits a (dec_loop fuel n acc) = digits (a * 10 ^ k + n) acc.
Proof.
  revert n acc. induction fuel as [|fuel IH]; intros n acc Hn Ha.
  { exists 0. split; [done|]. cbn in *. f_equal. lia. }
  cbn [dec_loop]. pose proof (Z.mod_pos_bound n 10 ltac:(lia)) as Hm.
  pose proof (Z.div_mod n 10 ltac:(lia)) as Hd.
  assert (forall x, digits x ((48 + n mod 10) :: acc) = digits (x * 10 + n mod 10) acc) as Hstep.
  { intros x. cbn. unfold is_digit. rewrite !(proj2 (Z.leb_le _ _)) by lia. cbn. f_equal. lia. }
  destruct (Z.eqb_spec (n / 10) 0) as [Hz|Hz].
  - exists 1. split; [done|]. rewrite Hstep. f_equal. lia.
  - destruct (IH (n / 10) ((48 + n mod 10) :: acc)) as (k & Hk & E); [|done|].
    { split; [apply Z.div_pos; lia|]. apply Z.div_lt_upper_bound; [lia|].
      rewrite Nat2Z.inj_succ, Z.pow_succ_r in Hn by lia. lia. }
    exists (k + 1). split; [lia|]. rewrite E, Hstep. f_equal. rewrite Z.pow_add_r by lia. lia.
Qed.

Lemma dec_loop_all fuel n acc :
  0 <= n -> Forall (fun c => is_digit c = true) acc ->
  Forall (fun c => is_digit c = true) (dec_loop fuel n acc).
Proof.
  revert n acc. induction fuel as [|fuel IH]; intros n acc Hn Hacc; cbn [dec_loop]; [done|].
  assert (Forall (fun c => is_digit c = true) ((48 + n mod 10) :: acc)) as Hc.
  { constructor; [|done]. unfold is_digit. pose proof (Z.mod_pos_bound n 10 ltac:(lia)).
    rewrite !(proj2 (Z.leb_le _ _)) by lia. done. }
  destruct (_ =? _); [done|]. apply IH; [apply Z.div_pos; lia|done].
Qed.

Lemma dec_loop_length fuel n acc : (length acc <= length (dec_loop fuel n acc) <= length acc + fuel)%nat.
Proof.
  revert n acc. induction fuel as [|fuel IH]; intros n acc; cbn [dec_loop]; [lia|].
  destruct (_ =? _); cbn; [lia|]. specialize (IH (n / 10) ((48 + n mod 10) :: acc)). cbn in IH. lia.
Qed.

Lemma dec_loop_nonempty fuel n acc : dec_loop (S fuel) n acc <> [].
Proof.
  cbn [dec_loop]. destruct (_ =? 0); [done|].
  pose proof (dec_loop_length fuel (n / 10) ((48 + n mod 10) :: acc)) as Hl.
  intros E. rewrite E in Hl. cbn in Hl. lia.
Qed.
Lemma dec_nonempty n : dec n <> [].
Proof. apply dec_loop_nonempty. Qed.

(** Printing a port and reading it back. *)
Lemma atoi_dec n : 0 <= n < 2 ^ 31 -> atoi (dec n) = n.
Proof.
  intros Hn. pose proof (dec_loop_all 10 n [] ltac:(lia) (Forall_nil_2 _)) as Hall. fold (dec n) in Hall.
  destruct (dec_loop_digits 10 n [] 0) as (k & _ & E); [change (10 ^ Z.of_nat 10) with 10000000000; lia|lia|]. fold (dec n) in E. cbn [digits] in E.
  unfold atoi. pose proof (dec_nonempty n). destruct (dec n) as [|c s] eqn:Ed; [done|].
  apply Forall_cons in Hall as [Hc _]. unfold is_digit in Hc. apply andb_prop in Hc as [H1 H2].
  apply Z.leb_le in H1, H2. cbn [skip_space].
  assert (is_space c = false) as ->.
  { unfold is_space. destruct (Z.eqb_spec c 32), (Z.leb_spec 9 c), (Z.leb_spec c 13); cbn; lia. }
  destruct (Z.eqb_spec c 45); [lia|]. destruct (Z.eqb_spec c 43); [lia|].
  rewrite E. unfold clamp64. rewrite Z.min_r, Z.max_r by lia. rewrite i32_id; lia.
Qed.

(** ** Splitting *)

Lemma split_first_char c a b : (c ∉ a) -> split_first [c] (a ++ c :: b) = Some (a, b).
Proof.
  induction a as [|x a IH]; intros Hn; cbn.
  - by rewrite bool_decide_true.
  - rewrite not_elem_of_cons in Hn. destruct Hn as [? ?].
    rewrite bool_decide_false by (intros [= ->]; done). by rewrite IH.
Qed.

Lemma cstr_app_zero a b : (0 ∉ a) -> cstr (a ++ 0 :: b) = a.
Proof.
  induction a as [|x a IH]; intros Hn; cbn; [done|].
  rewrite not_elem_of_cons in Hn. destruct Hn as [? ?].
  destruct (Z.eqb_spec x 0); [congruence|]. by rewrite IH.
Qed.

Lemma dec_port_length p : zlen (dec p) <= 10.
Proof. unfold zlen, dec. pose proof (dec_loop_length 10 p []) as [_ Hl]. change (length []) with 0%nat in Hl. lia. Qed.

(** ** Printable addresses *)

(** Addresses with a faithful text: a Unix path that fits [sun_path], a port in
    range, and an IP address whose [inet_ntop] text [inet_pton] reads back. *)
Inductive address_ok {W} `{OsOps W} (inet_ntop : Z -> bytes -> bytes) : ssn_address_t -> Prop :=
  | ok_unix path : (0 ∉ path) -> zlen path <= SUN_PATH_SIZE - 1 ->
      address_ok inet_ntop (mk_address SSN_TRANSPORT_UNIX (sockaddr_un path))
  | ok_inet ty port ip : ty = SSN_TRANSPORT_TCP \/ ty = SSN_TRANSPORT_UDP ->
      0 < port <= 65535 -> zlen ip = 4 ->
      (COLON ∉ inet_ntop AF_INET ip) -> zlen (inet_ntop AF_INET ip) <= 15 ->
      os_inet_pton AF_INET (inet_ntop AF_INET ip) = Some ip ->
      address_ok inet_ntop (mk_address ty (sockaddr_in port ip))
  | ok_inet6 ty port ip : ty = SSN_TRANSPORT_TCP6 \/ ty = SSN_TRANSPORT_UDP6 ->
      0 < port <= 65535 -> zlen ip = 16 ->
      (93 ∉ inet_ntop AF_INET6 ip) -> 0 < zlen (inet_ntop AF_INET6 ip) <= 45 ->
      os_inet_pton AF_INET6 (inet_ntop AF_INET6 ip) = Some ip ->
      address_ok inet_ntop (mk_address ty (sockaddr_in6 port ip)).

Lemma sin_port_in port ip : 0 < port <= 65535 ->
  sin_port (sockaddr_in port ip) = port /\ sin_port (sockaddr_in6 port ip) = port.
Proof.
  intros Hp. unfold sin_port; cbn. rewrite Z.mul_comm. pose proof (Z.div_mod port 256 ltac:(lia)). lia.
Qed.

Lemma sin_addr_in port ip : zlen ip = 4 -> sin_addr (sockaddr_in port ip) = ip.
Proof.
  intros Hl. destruct ip as [|a [|b [|c [|d [|]]]]]; unfold zlen in Hl; cbn in Hl; try lia. done.
Qed.

Lemma sin6_addr_in port ip : zlen ip = 16 -> sin6_addr (sockaddr_in6 port ip) = ip.
Proof.
  intros Hl. unfold sin6_addr, sockaddr_in6, pad, slice.
  rewrite <- !app_assoc. change (zdrop 8 (?x ++ ?y ++ ?z ++ ?u ++ ?v)) with (zdrop 0 (u ++ v)).
  rewrite zdrop_0. rewrite <- Hl. apply ztake_app_exact.
Qed.

Section roundtrip.
Context {W : Type} `{OsOps W} (inet_ntop : Z -> bytes -> bytes).

Lemma parse_inet_text ty host port ip (w : W) :
  (COLON ∉ host) -> zlen host <= 15 -> 0 < port <= 65535 -> os_inet_pton AF_INET host = Some ip ->
  parse_inet ty (host ++ [COLON] ++ dec port) w = (Some (mk_address ty (sockaddr_in port ip)), w).
Proof.
  intros Hc Hl Hp Hip. unfold parse_inet. cbn [app]. rewrite split_first_char by done.
  destruct (Z.geb_spec (zlen host) 256); [lia|]. rewrite atoi_dec by lia.
  assert (port_ok port = true) as ->.
  { unfold port_ok. destruct (Z.leb_spec port 0), (Z.gtb_spec port 65535); lia || done. }
  cbn [negb]. rewrite Hip. pose proof (dec_port_length port). unfold SSN_TRANSPORT_MAX_ADDRESS_LEN.
  destruct (Z.geb_spec (7 + zlen host + zlen (dec port)) 256); [lia|done].
Qed.

Lemma parse_inet6_text ty host port ip :
  (93 ∉ host) -> 0 < zlen host <= 45 -> 0 < port <= 65535 -> os_inet_pton AF_INET6 host = Some ip ->
  parse_inet6 ty ([91] ++ host ++ [93; COLON] ++ dec port) = Some (mk_address ty (sockaddr_in6 port ip)).
Proof.
  intros Hc Hl Hp Hip. unfold parse_inet6. cbn [app]. rewrite split_first_char by done.
  change COLON with 58. cbv iota beta.
  destruct (Z.eqb_spec (zlen host) 0); [lia|]. destruct (Z.geb_spec (zlen host) 256); [lia|].
  cbn [orb]. rewrite atoi_dec by lia.
  assert (port_ok port = true) as ->.
  { unfold port_ok. destruct (Z.leb_spec port 0), (Z.gtb_spec port 65535); lia || done. }
  cbn [negb]. rewrite Hip. pose proof (dec_port_length port). unfold SSN_TRANSPORT_MAX_ADDRESS_LEN.
  destruct (Z.geb_spec (10 + zlen host + zlen (dec port)) 256); [lia|done].
Qed.

(** Scheme dispatch. *)
Lemma parse_unix rest (w : W) :
  zlen rest <= 248 ->
  ssn_address_parse (str "unix" ++ SCHEME_END ++ rest) w
  = (Some (mk_address SSN_TRANSPORT_UNIX (sockaddr_un rest)), w).
Proof.
  intros Hl. unfold ssn_address_parse.
  change (split_first SCHEME_END (str "unix" ++ SCHEME_END ++ rest)) with (Some (str "unix", rest)).
  cbv iota beta. change (zlen (str "unix") >=? 32) with false. cbv iota.
  rewrite bool_decide_true by done. cbv zeta. rewrite (ztake_ge 255) by lia.
  unfold SSN_TRANSPORT_MAX_ADDRESS_LEN. destruct (Z.geb_spec (7 + zlen rest) 256); [lia|done].
Qed.
Lemma parse_schemes rest (w : W) :
  ssn_address_parse (str "tcp" ++ SCHEME_END ++ rest) w = parse_inet SSN_TRANSPORT_TCP rest w /\
  ssn_address_parse (str "udp" ++ SCHEME_END ++ rest) w = parse_inet SSN_TRANSPORT_UDP rest w /\
  ssn_address_parse (str "tcp6" ++ SCHEME_END ++ rest) w = (parse_inet6 SSN_TRANSPORT_TCP6 rest, w) /\
  ssn_address_parse (str "udp6" ++ SCHEME_END ++ rest) w = (parse_inet6 SSN_TRANSPORT_UDP6 rest, w).
Proof. split_and!; reflexivity. Qed.
End roundtrip.

(** ** Claims *)

(** C39.  Round trip of addresses: printing any well-formed address into a buffer
    of the maximal size and parsing the text gives the same address back, for
    Unix paths that fit the socket address and for IPv4 and IPv6 endpoints whose
    textual form [inet_pton] reads back. *)
Theorem address_print_parse {W} `{OsOps W} (inet_ntop : Z -> bytes -> bytes) (a : ssn_address_t) (w : W) :
  address_ok inet_ntop a ->
  exists s, ssn_address_to_string inet_ntop a SSN_TRANSPORT_MAX_ADDRESS_LEN = Some s /\
    ssn_address_parse s w = (Some a, w).
Proof.
  intros Ha. unfold ssn_address_to_string. change (SSN_TRANSPORT_MAX_ADDRESS_LEN =? 0) with false. cbv iota.
  change (SSN_TRANSPORT_MAX_ADDRESS_LEN - 1) with 255.
  destruct Ha as [path Hz Hl|ty port ip Hty Hp Hip Hc Hl Hpt|ty port ip Hty Hp Hip Hc Hl Hpt];
    cbn [addr_type addr_raw].
  - unfold SUN_PATH_SIZE in Hl. eexists. split; [reflexivity|].
    assert (cstr (zdrop 2 (sockaddr_un path)) = path) as ->.
    { unfold sockaddr_un, pad, SUN_PATH_SIZE. rewrite ztake_ge by lia.
      rewrite <- app_assoc. change (zdrop 2 ([AF_UNIX; 0] ++ ?x)) with x.
      rewrite zlen_app. change (zlen [AF_UNIX; 0]) with 2.
      destruct (Z.to_nat (110 - (2 + zlen path))) as [|n] eqn:En; [lia|]. cbn [repeat].
      by apply cstr_app_zero. }
    rewrite ztake_ge; [apply parse_unix; lia|].
    rewrite !zlen_app. change (zlen (str "unix")) with 4. change (zlen SCHEME_END) with 3. lia.
  - destruct (sin_port_in port ip Hp) as [Hsp _]. pose proof (dec_port_length port).
    rewrite !Hsp, !sin_addr_in by done. pose proof (parse_inet_text ty _ port ip w Hc Hl Hp Hpt) as Hr.
    destruct (parse_schemes (inet_ntop AF_INET ip ++ [COLON] ++ dec port) w) as (Ht & Hu & _).
    destruct Hty as [-> | ->]; eexists; (split; [reflexivity|]); (rewrite ztake_ge;
      [congruence|rewrite !zlen_app; change (zlen SCHEME_END) with 3; change (zlen [COLON]) with 1]).
    + change (zlen (str "tcp")) with 3. lia.
    + change (zlen (str "udp")) with 3. lia.
  - destruct (sin_port_in port ip Hp) as [_ Hsp]. pose proof (dec_port_length port).
    rewrite !Hsp, !sin6_addr_in by done. pose proof (parse_inet6_text ty _ port ip Hc Hl Hp Hpt) as Hr.
    destruct (parse_schemes ([91] ++ inet_ntop AF_INET6 ip ++ [93; COLON] ++ dec port) w) as (_ & _ & Ht & Hu).
    destruct Hty as [-> | ->]; eexists; (split; [reflexivity|]); (rewrite ztake_ge;
      [congruence|rewrite !zlen_app; change (zlen SCHEME_END) with 3; change (zlen [93; COLON]) with 2;
       change (zlen [91]) with 1]).
    + change (zlen (str "tcp6")) with 4. lia.
    + change (zlen (str "udp6")) with 4. lia.
Qed.

(** Unix paths of more than 107 characters are accepted and cut without an
    error: two different paths that agree on their first 107 characters give the
    same socket address. *)
Theorem long_unix_paths_collide {W} `{OsOps W} (common p q : bytes) (w : W) :
  zlen common = 107 -> zlen p <= 141 -> zlen q <= 141 ->
  (ssn_address_parse (str "unix" ++ SCHEME_END ++ common ++ p) w).1
  = (ssn_address_parse (str "unix" ++ SCHEME_END ++ common ++ q) w).1 /\
  is_Some (ssn_address_parse (str "unix" ++ SCHEME_END ++ common ++ p) w).1.
Proof.
  intros Hc Hp Hq. rewrite !parse_unix by (rewrite zlen_app; lia).
  assert (forall x, sockaddr_un (common ++ x) = sockaddr_un common) as E.
  { intros x. unfold sockaddr_un, SUN_PATH_SIZE. by rewrite ztake_app_le, ztake_ge by lia. }
  cbn [fst]. rewrite !E. split; [done|eauto].
Qed.

(** ** Witnesses *)

(** The kernel of [Os] reads every IPv4 text as 127.127.127.127. *)
Lemma address_print_parse_witness :
  exists s, ssn_address_to_string (fun _ _ => str "127.127.127.127")
      (mk_address SSN_TRANSPORT_TCP (sockaddr_in 8080 [127; 127; 127; 127])) 256 = Some s /\
    ssn_address_parse s (sim_init [] []) =
      (Some (mk_address SSN_TRANSPORT_TCP (sockaddr_in 8080 [127; 127; 127; 127])), sim_init [] []).
Proof.
  apply (address_print_parse (fun _ _ => str "127.127.127.127")
    (mk_address SSN_TRANSPORT_TCP (sockaddr_in 8080 [127; 127; 127; 127])) (sim_init [] [])).
  apply ok_inet; [by left|lia|reflexivity| |vm_compute; discriminate|reflexivity].
  apply (bool_decide_unpack _). vm_compute. exact I.
Defined.

Lemma long_unix_paths_collide_witness :
  (ssn_address_parse (str "unix" ++ SCHEME_END ++ repeat 97 107 ++ [98]) (sim_init [] [])).1
  = (ssn_address_parse (str "unix" ++ SCHEME_END ++ repeat 97 107 ++ [99]) (sim_init [] [])).1.
Proof.
  apply (long_unix_paths_collide (repeat 97 107) [98] [99] (sim_init [] []));
    vm_compute; reflexivity || discriminate.
Defined.
