(* ===== verification/FrameSend.v ===== *)
(** * Sending a packet ([ssn_send_message] of [src/src/ssn_frame.c])

    Argument validation, header completion, assembly behind the header in the
    send buffer, and the write loop with its [poll]-bounded retry.  The loop is
    proved to return, to put exactly the packet on the wire when it answers
    true and a prefix of it otherwise; composed with the stream parser this
    gives end-to-end delivery. *)
From S2P Require Import Prelude FrameCodec Os Transport.

Section send.
Context {W : Type} `{OsOps W}.

(** [while (sent < pos)]: [deadline_ms] is what is left of the waiting budget.
    The outer [None] is lack of fuel. *)
Fixpoint send_loop (fuel : nat) (t : ssn_transport_t) (buffer : bytes) (sent deadline_ms : Z)
    (sock_fd : Z) (w : W) : option (bool * ssn_transport_t * W) :=
  match fuel with
  | O => None
  | S fuel =>
    if sent <? zlen buffer then
      let '(send_len, t, w) := ssn_transport_send t (zdrop sent buffer) w in
      if send_len >? 0 then send_loop fuel t buffer (sent + send_len) deadline_ms sock_fd w
      else if (send_len <? 0) && ((os_errno w =? EAGAIN) || (os_errno w =? EWOULDBLOCK)) then
        if (deadline_ms =? 0) || (sock_fd <? 0) then Some (false, t, w)
        else
          let wait_ms := if deadline_ms <? 100 then deadline_ms else 100 in
          let '(pr, _, w) := os_poll_out sock_fd wait_ms w in
          if (pr <? 0) && negb (os_errno w =? EINTR) then Some (false, t, w)
          else
            let deadline_ms := if deadline_ms <=? wait_ms then 0 else deadline_ms - wait_ms in
            send_loop fuel t buffer sent deadline_ms sock_fd w
      else Some (false, t, w)
    else Some (true, t, w)
  end.

(** Bytes a reference points to; a NULL pointer has none. *)
Definition ref_bytes (p : option bytes) (n : Z) : bytes := ztake n (default [] p).

(** [url] and [data] are [None] for NULL pointers to references.  The header
    lives in the caller's send buffer and keeps the lengths written here. *)
Definition url_rejected (url : option ssn_url_ref_t) : bool :=
  match url with
  | Some u => (url_len u >? 65535)
              || (bool_decide (FrameCodec.url u = None) && (url_len u >? 0))
  | None => false
  end.
Definition data_rejected (data : option ssn_data_ref_t) : bool :=
  match data with
  | Some d => (length_ d >? 4294967295)
              || (bool_decide (FrameCodec.data d = None) && (length_ d >? 0))
  | None => false
  end.
Definition url_size (url : option ssn_url_ref_t) : Z :=
  match url with Some u => url_len u | None => 0 end.
Definition data_size (data : option ssn_data_ref_t) : Z :=
  match data with Some d => length_ d | None => 0 end.
Definition complete_header (hdr : ssn_header_t) (url : option ssn_url_ref_t)
    (data : option ssn_data_ref_t) : ssn_header_t :=
  let hdr := match url with Some u => ssn_set_url_length hdr (u16 (url_len u)) | None => hdr end in
  match data with Some d => ssn_set_data_length hdr (u32 (length_ d)) | None => hdr end.
Definition send_buffer (hdr : ssn_header_t) (url : option ssn_url_ref_t)
    (data : option ssn_data_ref_t) : bytes :=
  bytes_of_header hdr
  ++ match url with Some u => ref_bytes (FrameCodec.url u) (url_len u) | None => [] end
  ++ match data with Some d => ref_bytes (FrameCodec.data d) (length_ d) | None => [] end.
Definition send_timeout (t : ssn_transport_t) : Z :=
  if send_timeout_ms (config t) >? 0 then send_timeout_ms (config t) else 5000.

(** Each iteration sends at least a byte or uses up 100 ms of the budget. *)
Definition send_fuel (buffer : bytes) (deadline_ms : Z) : nat :=
  (length buffer + Z.to_nat (deadline_ms / 100) + 3)%nat.

Definition ssn_send_message (t : ssn_transport_t) (hdr : ssn_header_t)
    (url : option ssn_url_ref_t) (data : option ssn_data_ref_t) (w : W)
  : option (bool * ssn_header_t * ssn_transport_t * W) :=
  if url_rejected url then Some (false, hdr, t, w)
  else if data_rejected data then Some (false, hdr, t, w)
  else
    let total_length := u64 (u64 (SSN_HEADER_SIZE + url_size url) + data_size data) in
    let hdr := complete_header hdr url data in
    if (total_length >? SSN_MAX_PACKET_SIZE) || (total_length <? SSN_HEADER_SIZE)
    then Some (false, hdr, t, w)
    else
      let buffer := send_buffer hdr url data in
      let deadline_ms := u64 (send_timeout t) in
      match send_loop (send_fuel buffer deadline_ms) t buffer 0 deadline_ms
              (ssn_transport_get_fd t) w with
      | None => None
      | Some (ok, t, w) => Some (ok, hdr, t, w)
      end.
End send.

(** ** The write loop *)

Section loop.
Context {W : Type} `{OsLaws W}.
Implicit Types (t : ssn_transport_t) (w : W).

(** What the loop leaves behind, relative to the bytes already on the wire. *)
Definition loop_post t (buffer : bytes) (sent : Z) w (out : bool * ssn_transport_t * W) : Prop :=
  let '(ok, t', w') := out in
  sock_fd (impl t') = sock_fd (impl t) /\ valid t' = valid t /\ ops t' = ops t /\
  config t' = config t /\ os_open w' = os_open w /\
  (forall x, x <> sock_fd (impl t) -> os_tx w' x = os_tx w x) /\
  exists n, sent <= n <= zlen buffer /\
    os_tx w' (sock_fd (impl t)) = os_tx w (sock_fd (impl t)) ++ slice buffer sent (n - sent) /\
    (ok = true <-> n = zlen buffer).

Lemma slice_0 {A} (l : list A) off : slice l off 0 = [].
Proof. reflexivity. Qed.

(** One more chunk in front of what the rest of the loop does. *)
Lemma loop_post_step t buffer sent n w t1 w1 out :
  0 <= sent -> 0 <= n <= zlen buffer - sent ->
  send_post t (zdrop sent buffer) w (n, t1, w1) ->
  loop_post t1 buffer (sent + n) w1 out ->
  loop_post t buffer sent w out.
Proof.
  intros Hs Hn (Hfd & Hv & Hops & Hcfg & Ho & _ & Htx & Hx). destruct out as [[ok t'] w'].
  intros (Hfd' & Hv' & Hops' & Hcfg' & Ho' & Hx' & m & Hm & Htx' & Hok).
  split_and!; try congruence.
  - intros x Hne. rewrite Hx', Hx by congruence. done.
  - exists m. split; [lia|]. split; [|done].
    rewrite Hfd in Htx'. rewrite Htx', Htx, <- app_assoc. f_equal.
    rewrite (slice_split buffer sent n (m - sent)) by lia.
    unfold slice at 2. f_equal. f_equal. lia.
Qed.

Lemma loop_post_quiet t buffer sent w w1 out :
  os_quiet os_open os_tx w w1 -> loop_post t buffer sent w1 out -> loop_post t buffer sent w out.
Proof.
  intros [Ho Ht]. destruct out as [[ok t'] w'].
  intros (? & ? & ? & ? & Ho' & Hx' & m & Hm & Htx & Hok). split_and!; try congruence.
  - intros x Hne. rewrite Hx' by done. apply Ht.
  - exists m. rewrite Htx, Ht. done.
Qed.

Lemma loop_post_stop t buffer sent w ok :
  0 <= sent <= zlen buffer -> (ok = true <-> sent = zlen buffer) ->
  loop_post t buffer sent w (ok, t, w).
Proof.
  intros Hs Hok. split_and!; try done. exists sent. split; [lia|].
  replace (sent - sent) with 0 by lia. by rewrite slice_0, app_nil_r.
Qed.

(** A failed [send] put nothing on the wire. *)
Lemma send_post_nothing t d w n t1 w1 :
  n <= 0 -> send_post t d w (n, t1, w1) -> send_post t d w (0, t1, w1).
Proof.
  intros Hn (? & ? & ? & ? & ? & _ & Htx & Hx). pose proof (zlen_nonneg d).
  split_and!; try done. rewrite Htx. f_equal.
  unfold ztake. by replace (Z.to_nat n) with 0%nat by lia.
Qed.

Lemma send_loop_spec fuel t buffer sent deadline fd w :
  0 <= sent <= zlen buffer -> zlen buffer < 2 ^ 31 -> 0 <= deadline ->
  zlen buffer - sent + (deadline + 99) / 100 + 1 < Z.of_nat fuel ->
  exists out, send_loop fuel t buffer sent deadline fd w = Some out /\
    loop_post t buffer sent w out.
Proof.
  revert t sent deadline w. induction fuel as [|fuel IH]; intros t sent deadline w Hs Hb Hd Hf.
  { pose proof (Z.div_pos (deadline + 99) 100). lia. }
  cbn [send_loop]. destruct (Z.ltb_spec sent (zlen buffer)) as [Hlt|Hge].
  2:{ eexists; split; [done|]. apply loop_post_stop; [lia|]. split; [lia|done]. }
  assert (zlen (zdrop sent buffer) = zlen buffer - sent) as Hz by (apply zlen_zdrop; lia).
  pose proof (send_spec t (zdrop sent buffer) w ltac:(lia)) as Hsend.
  destruct (ssn_transport_send t (zdrop sent buffer) w) as [[n t1] w1].
  pose proof Hsend as (_ & _ & _ & _ & _ & Hn & _). rewrite Hz in Hn.
  assert (forall out, n <= 0 -> loop_post t1 buffer sent w1 out -> loop_post t buffer sent w out) as Hzero.
  { intros out Hn0 Hp. apply (loop_post_step t buffer sent 0 w t1 w1 out); [lia|lia| |].
    - by eapply send_post_nothing.
    - by rewrite Z.add_0_r. }
  assert (forall w2, n <= 0 -> os_quiet os_open os_tx w1 w2 -> loop_post t buffer sent w (false, t1, w2))
    as Hfail.
  { intros w2 Hn0 Hq. apply Hzero; [done|]. eapply loop_post_quiet; [done|].
    apply loop_post_stop; [lia|]. split; [done|lia]. }
  destruct (Z.gtb_spec n 0) as [Hpos|Hnpos].
  { destruct (IH t1 (sent + n) deadline w1) as (out & -> & Hp); [lia..|].
    eexists; split; [done|]. eapply loop_post_step; [lia| |done|done]. lia. }
  destruct (_ && _); [|eexists; split; [done|by apply Hfail]].
  destruct (Z.eqb_spec deadline 0) as [|Hd0]; [eexists; split; [done|by apply Hfail]|].
  destruct (fd <? 0); [eexists; split; [done|by apply Hfail]|]. cbn [orb].
  set (wait := if deadline <? 100 then deadline else 100).
  assert (0 < wait <= deadline /\ (wait = 100 \/ wait = deadline /\ deadline < 100)) as Hwait.
  { subst wait. destruct (Z.ltb_spec deadline 100); lia. }
  pose proof (os_poll_out_quiet fd wait w1) as Hq.
  destruct (os_poll_out fd wait w1) as [[pr ev] w2]. cbn [snd] in Hq.
  destruct (_ && _); [eexists; split; [done|by apply Hfail]|].
  set (deadline' := if deadline <=? wait then 0 else deadline - wait).
  assert (0 <= deadline' /\ (deadline' + 99) / 100 < (deadline + 99) / 100) as [Hd' Hdec].
  { subst deadline'. destruct (Z.leb_spec deadline wait);
      split; try lia; Z.to_euclidean_division_equations; lia. }
  destruct (IH t1 sent deadline' w2) as (out & -> & Hp); [lia..|].
  eexists; split; [done|]. apply Hzero; [lia|]. by eapply loop_post_quiet.
Qed.
End loop.

(** ** Packets on the wire *)

Definition url_bytes (url : option ssn_url_ref_t) : bytes :=
  match url with Some u => ref_bytes (FrameCodec.url u) (url_len u) | None => [] end.
Definition data_bytes (data : option ssn_data_ref_t) : bytes :=
  match data with Some d => ref_bytes (FrameCodec.data d) (length_ d) | None => [] end.

(** The references point to memory of the length they declare, which is a
    [size_t]. *)
Definition refs_ok (url : option ssn_url_ref_t) (data : option ssn_data_ref_t) : Prop :=
  match url with
  | Some u => 0 <= url_len u < 2 ^ 63 /\
              match FrameCodec.url u with Some b => url_len u <= zlen b | None => True end
  | None => True
  end /\
  match data with
  | Some d => 0 <= length_ d < 2 ^ 63 /\
              match FrameCodec.data d with Some b => length_ d <= zlen b | None => True end
  | None => True
  end.

(** What [ssn_send_message] refuses before it touches the transport. *)
Definition refused (url : option ssn_url_ref_t) (data : option ssn_data_ref_t) : Prop :=
  url_size url > 65535 \/ url_size url + data_size data > SSN_MAX_PAYLOAD_SIZE \/
  (exists n, url = Some (mk_url_ref None n) /\ n > 0) \/
  (exists n, data = Some (mk_data_ref None n) /\ n > 0).

#[global] Instance refused_dec url data : Decision (refused url data).
Proof.
  unfold refused. repeat apply or_dec; [apply _..| |].
  - destruct url as [[[b|] n]|]; [by right; intros (? & ? & _)| |by right; intros (? & ? & _)].
    destruct (decide (n > 0)); [left; by exists n|right; by intros (? & [= <-] & ?)].
  - destruct data as [[[b|] n]|]; [by right; intros (? & ? & _)| |by right; intros (? & ? & _)].
    destruct (decide (n > 0)); [left; by exists n|right; by intros (? & [= <-] & ?)].
Defined.

Lemma zlen_ref_bytes p n :
  0 <= n -> (match p with Some b => n <= zlen b | None => n = 0 end) -> zlen (ref_bytes p n) = n.
Proof.
  intros Hn Hp. unfold ref_bytes. destruct p as [b|]; cbn.
  - by apply zlen_ztake.
  - subst n. reflexivity.
Qed.

Lemma url_accepted url data :
  refs_ok url data -> url_rejected url = false ->
  zlen (url_bytes url) = url_size url /\ url_size url <= 65535.
Proof.
  intros [Hu _]. destruct url as [[p n]|]; [|done]. cbn in *. destruct Hu as [Hn Hp].
  destruct (Z.gtb_spec n 65535); [done|]. cbn. destruct p as [b|]; cbn.
  - intros _. split; [|lia]. apply zlen_ref_bytes; [lia|done].
  - destruct (Z.gtb_spec n 0); [done|]. intros _. split; [|lia]. apply zlen_ref_bytes; lia.
Qed.

Lemma data_accepted url data :
  refs_ok url data -> data_rejected data = false ->
  zlen (data_bytes data) = data_size data /\ data_size data <= 4294967295.
Proof.
  intros [_ Hu]. destruct data as [[p n]|]; [|done]. cbn in *. destruct Hu as [Hn Hp].
  destruct (Z.gtb_spec n 4294967295); [done|]. cbn. destruct p as [b|]; cbn.
  - intros _. split; [|lia]. apply zlen_ref_bytes; [lia|done].
  - destruct (Z.gtb_spec n 0); [done|]. intros _. split; [|lia]. apply zlen_ref_bytes; lia.
Qed.

Lemma rejected_refused url data :
  refs_ok url data -> url_rejected url = true \/ data_rejected data = true -> refused url data.
Proof.
  intros [Hu Hd] [Hr|Hr].
  - destruct url as [[p n]|]; [|done]. cbn in *.
    destruct (Z.gtb_spec n 65535); [left; cbn; lia|]. cbn in Hr.
    destruct p; [done|]. cbn in Hr. destruct (Z.gtb_spec n 0); [|done].
    right; right; left. exists n. split; [done|lia].
  - destruct data as [[p n]|]; [|done]. cbn in *.
    destruct (Z.gtb_spec n 4294967295).
    { right; left. cbn. assert (0 <= url_size url) by (destruct url; cbn in *; lia).
      unfold SSN_MAX_PAYLOAD_SIZE, SSN_MAX_PACKET_SIZE, SSN_HEADER_SIZE. lia. }
    cbn in Hr. destruct p; [done|]. cbn in Hr. destruct (Z.gtb_spec n 0); [|done].
    right; right; right. exists n. split; [done|lia].
Qed.

Lemma accepted_not_refused url data :
  refs_ok url data -> url_rejected url = false -> data_rejected data = false ->
  url_size url + data_size data <= SSN_MAX_PAYLOAD_SIZE -> ~ refused url data.
Proof.
  intros Hr Hu Hd Hle [H|[H|[(n & -> & Hn)|(n & -> & Hn)]]].
  - destruct (url_accepted url data Hr Hu). lia.
  - lia.
  - cbn in Hu. destruct (Z.gtb_spec n 65535), (Z.gtb_spec n 0); done || lia.
  - cbn in Hd. destruct (Z.gtb_spec n 4294967295), (Z.gtb_spec n 0); done || lia.
Qed.

(** A completed fresh header and its payload are the frame of the packet. *)
Lemma send_buffer_frame ty st sq url data :
  zlen (url_bytes url) = url_size url -> url_size url <= 65535 ->
  zlen (data_bytes data) = data_size data -> data_size data <= 4294967295 ->
  send_buffer (complete_header (ssn_create_header ty st sq) url data) url data
  = frame ty st sq (url_bytes url) (data_bytes data).
Proof.
  intros Hu Hu' Hd Hd'. unfold send_buffer, frame. rewrite Hu, Hd.
  fold (url_bytes url). fold (data_bytes data).
  pose proof (zlen_nonneg (url_bytes url)). pose proof (zlen_nonneg (data_bytes data)).
  f_equal. f_equal. unfold complete_header.
  destruct url as [u|], data as [d|]; cbn [url_size data_size] in *;
    rewrite ?u16_id, ?u32_id by lia; reflexivity.
Qed.

Section outcome.
Context {W : Type} `{OsLaws W}.
Implicit Types (t : ssn_transport_t) (w : W).

Lemma zlen_send_buffer hdr url data :
  zlen (send_buffer hdr url data) = SSN_HEADER_SIZE + zlen (url_bytes url) + zlen (data_bytes data).
Proof. unfold send_buffer. rewrite !zlen_app, zlen_bytes_of_header. unfold url_bytes, data_bytes. lia. Qed.

Lemma send_message_spec t hdr url data w :
  refs_ok url data -> 0 <= send_timeout t < 2 ^ 31 ->
  exists ok hdr' t' w', ssn_send_message t hdr url data w = Some (ok, hdr', t', w') /\
    ((refused url data /\ ok = false /\ t' = t /\ w' = w) \/
     (~ refused url data /\ hdr' = complete_header hdr url data /\
      loop_post t (send_buffer hdr' url data) 0 w (ok, t', w'))).
Proof.
  intros Hr Ht. unfold ssn_send_message.
  destruct (url_rejected url) eqn:Hu.
  { eexists _, _, _, _. split; [done|]. left. split; [|done]. apply rejected_refused; auto. }
  destruct (data_rejected data) eqn:Hd.
  { eexists _, _, _, _. split; [done|]. left. split; [|done]. apply rejected_refused; auto. }
  destruct (url_accepted url data Hr Hu) as [Hzu Hu']. destruct (data_accepted url data Hr Hd) as [Hzd Hd'].
  pose proof (zlen_nonneg (url_bytes url)). pose proof (zlen_nonneg (data_bytes data)).
  unfold SSN_HEADER_SIZE. rewrite !u64_id by (rewrite ?u64_id; lia).
  destruct (Z.ltb_spec (15 + url_size url + data_size data) 15) as [|_]; [lia|].
  rewrite orb_false_r.
  destruct (Z.gtb_spec (15 + url_size url + data_size data) SSN_MAX_PACKET_SIZE) as [Hbig|Hfit].
  { eexists _, _, _, _. split; [done|]. left. split; [|done]. right; left.
    unfold SSN_MAX_PAYLOAD_SIZE, SSN_HEADER_SIZE. lia. }
  pose proof (zlen_send_buffer (complete_header hdr url data) url data) as Hlen.
  unfold SSN_MAX_PACKET_SIZE, SSN_HEADER_SIZE in Hfit, Hlen.
  destruct (send_loop_spec (send_fuel (send_buffer (complete_header hdr url data) url data) (send_timeout t))
    t (send_buffer (complete_header hdr url data) url data) 0 (send_timeout t)
    (ssn_transport_get_fd t) w) as ([[ok t'] w'] & -> & Hp); [lia..| |].
  { unfold send_fuel, zlen in *. pose proof (Z.div_pos (send_timeout t) 100).
    assert ((send_timeout t + 99) / 100 <= send_timeout t / 100 + 1)
      by (Z.to_euclidean_division_equations; lia). lia. }
  eexists _, _, _, _. split; [done|]. right. split; [|done].
  apply accepted_not_refused; try done.
  unfold SSN_MAX_PAYLOAD_SIZE, SSN_MAX_PACKET_SIZE, SSN_HEADER_SIZE. lia.
Qed.

(** Sending packets one after the other until one fails. *)
Fixpoint send_packets t (ps : list packet) w : option (bool * ssn_transport_t * W) :=
  match ps with
  | [] => Some (true, t, w)
  | p :: ps =>
    match ssn_send_message t (ssn_create_header (p_type p) (p_status p) (p_seqno p))
            (Some (mk_url_ref (Some (p_url p)) (zlen (p_url p))))
            (Some (mk_data_ref (Some (p_data p)) (zlen (p_data p)))) w with
    | Some (true, _, t, w) => send_packets t ps w
    | Some (false, _, t, w) => Some (false, t, w)
    | None => None
    end
  end.

Lemma ref_bytes_all b : ref_bytes (Some b) (zlen b) = b.
Proof. unfold ref_bytes; cbn. by apply ztake_ge. Qed.

Lemma send_packet_spec t p w :
  packet_ok p -> 0 <= send_timeout t < 2 ^ 31 ->
  exists ok hdr' t' w',
    ssn_send_message t (ssn_create_header (p_type p) (p_status p) (p_seqno p))
      (Some (mk_url_ref (Some (p_url p)) (zlen (p_url p))))
      (Some (mk_data_ref (Some (p_data p)) (zlen (p_data p)))) w = Some (ok, hdr', t', w') /\
    loop_post t (wire p) 0 w (ok, t', w').
Proof.
  intros (_ & _ & _ & Hu & Hd) Ht.
  pose proof (zlen_nonneg (p_url p)). pose proof (zlen_nonneg (p_data p)).
  unfold SSN_MAX_PAYLOAD_SIZE, SSN_MAX_PACKET_SIZE, SSN_HEADER_SIZE in Hd.
  edestruct send_message_spec as (ok & hdr' & t' & w' & Hrun & Hout); [|exact Ht|].
  2:{ exists ok, hdr', t', w'. split; [exact Hrun|].
      destruct Hout as [(Href & _)|(_ & -> & Hp)].
      - exfalso. destruct Href as [Hx|[Hx|[(n & [= ] & _)|(n & [= ] & _)]]]; cbn in Hx;
          unfold SSN_MAX_PAYLOAD_SIZE, SSN_MAX_PACKET_SIZE, SSN_HEADER_SIZE in *; lia.
      - rewrite send_buffer_frame in Hp; cbn in Hp; cbn; rewrite ?ref_bytes_all in *; done || lia. }
  split; cbn; lia.
Qed.

Lemma send_timeout_config t t' : config t' = config t -> send_timeout t' = send_timeout t.
Proof. unfold send_timeout. by intros ->. Qed.

Lemma send_packets_spec ps t w :
  Forall packet_ok ps -> 0 <= send_timeout t < 2 ^ 31 ->
  exists ok t' w', send_packets t ps w = Some (ok, t', w') /\
    sock_fd (impl t') = sock_fd (impl t) /\ os_open w' = os_open w /\
    (forall x, x <> sock_fd (impl t) -> os_tx w' x = os_tx w x) /\
    exists q rest, concat (map wire ps) = q ++ rest /\
      os_tx w' (sock_fd (impl t)) = os_tx w (sock_fd (impl t)) ++ q /\ (ok = true -> rest = []).
Proof.
  intros Hps. revert t w. induction Hps as [|p ps Hp _ IH]; intros t w Ht; cbn [send_packets map concat].
  { eexists _, _, _. split; [done|]. split_and!; try done. exists [], [].
    split_and!; [done|by rewrite app_nil_r|done]. }
  destruct (send_packet_spec t p w Hp Ht) as (ok & hdr' & t1 & w1 & -> & Hfd & _ & _ & Hcfg & Ho & Hx & Hn).
  destruct Hn as (n & Hn & Htx & Hok). rewrite Z.sub_0_r in Htx. unfold slice in Htx.
  rewrite zdrop_0 in Htx. destruct ok.
  - assert (n = zlen (wire p)) as -> by (by apply Hok). rewrite (ztake_ge (zlen (wire p))) in Htx by lia.
    destruct (IH t1 w1) as (ok & t' & w' & -> & Hfd' & Ho' & Hx' & q & rest & Hq & Htx' & Hrest).
    { by rewrite (send_timeout_config t). }
    rewrite Hfd in *. eexists _, _, _. split; [done|]. split_and!; try congruence.
    + intros x Hne. rewrite Hx', Hx by done. done.
    + exists (wire p ++ q), rest. rewrite Hq, Htx', Htx, <- !app_assoc. done.
  - eexists _, _, _. split; [done|]. split_and!; try congruence; try done.
    exists (ztake n (wire p)), (zdrop n (wire p) ++ concat (map wire ps)).
    rewrite app_assoc, ztake_zdrop. done.
Qed.
End outcome.

(** ** Sending, as the other components use it *)

(** Settings of a transport: the timeout is a 32-bit value. *)
Definition cfg_ok (t : ssn_transport_t) : Prop := send_timeout_ms (config t) < 2 ^ 31.

Lemma send_timeout_range t : cfg_ok t -> 0 <= send_timeout t < 2 ^ 31.
Proof. unfold cfg_ok, send_timeout. intros. destruct (Z.gtb_spec (send_timeout_ms (config t)) 0); lia. Qed.

Section total.
Context {W : Type} `{OsLaws W}.

Lemma send_total t hdr url data w :
  refs_ok url data -> cfg_ok t ->
  exists ok hdr' t' w', ssn_send_message t hdr url data w = Some (ok, hdr', t', w') /\
    config t' = config t.
Proof.
  intros Hr Hc. destruct (send_message_spec t hdr url data w Hr (send_timeout_range t Hc))
    as (ok & hdr' & t' & w' & Hrun & Hout).
  exists ok, hdr', t', w'. split; [done|].
  destruct Hout as [(_ & _ & -> & _)|(_ & _ & _ & _ & _ & ? & _)]; done.
Qed.
End total.

Lemma send_frame_spec {W} `{OsLaws W} (t : ssn_transport_t) (ty status seqno : Z)
    (url : option ssn_url_ref_t) (data : option ssn_data_ref_t) (w : W) :
  refs_ok url data -> 0 <= send_timeout t < 2 ^ 31 ->
  exists ok hdr' t' w',
    ssn_send_message t (ssn_create_header ty status seqno) url data w = Some (ok, hdr', t', w') /\
    ((refused url data /\ ok = false /\ t' = t /\ w' = w) \/
     (~ refused url data /\
      loop_post t (frame ty status seqno (url_bytes url) (data_bytes data)) 0 w (ok, t', w'))).
Proof.
  intros Hr Ht. destruct (send_message_spec t (ssn_create_header ty status seqno) url data w Hr Ht)
    as (ok & hdr' & t' & w' & Hrun & [Hout|(Hn & -> & Hp)]); exists ok; eexists _, t', w';
    (split; [exact Hrun|]); [by left|right]. split; [done|].
  destruct (url_rejected url) eqn:Hu; [by destruct Hn; apply rejected_refused; auto|].
  destruct (data_rejected data) eqn:Hd; [by destruct Hn; apply rejected_refused; auto|].
  destruct (url_accepted url data Hr Hu), (data_accepted url data Hr Hd).
  by rewrite <- send_buffer_frame.
Qed.

(** What is on the connection after a send, by its answer. *)
Lemma loop_post_bytes {W} `{OsLaws W} t buffer w ok t' w' :
  loop_post t buffer 0 w (ok, t', w') ->
  if ok then os_tx w' (sock_fd (impl t)) = os_tx w (sock_fd (impl t)) ++ buffer
  else exists k, 0 <= k < zlen buffer /\ os_tx w' (sock_fd (impl t)) = os_tx w (sock_fd (impl t)) ++ ztake k buffer.
Proof.
  intros (_ & _ & _ & _ & _ & _ & n & Hn & Htx & Hok). unfold slice in Htx. rewrite zdrop_0, Z.sub_0_r in Htx.
  destruct ok.
  - destruct Hok as [Hok _]. rewrite (Hok eq_refl), ztake_ge in Htx by lia. done.
  - exists n. split; [|done]. destruct (Z.eqb_spec n (zlen buffer)) as [E|]; [|lia].
    destruct Hok as [_ Hok]. by specialize (Hok E).
Qed.

(** ** Properties *)

(** C6.  [ssn_send_message] always returns.  Oversized or inconsistent
    arguments (URL over 65535 bytes, payload over the maximum, NULL with a
    positive length) are refused before anything is written.  Otherwise the
    bytes put on the connection are a prefix of header, URL and data in this
    order, with the lengths in the header; the answer is true exactly when the
    whole packet was written; no other connection and no descriptor changes. *)
Theorem send_message_writes_packet {W} `{OsLaws W} (t : ssn_transport_t) (ty status seqno : Z)
    (url : option ssn_url_ref_t) (data : option ssn_data_ref_t) (w : W) :
  refs_ok url data -> 0 <= send_timeout t < 2 ^ 31 ->
  exists ok hdr' t' w',
    ssn_send_message t (ssn_create_header ty status seqno) url data w = Some (ok, hdr', t', w') /\
    ((refused url data /\ ok = false /\ t' = t /\ w' = w) \/
     (~ refused url data /\
      loop_post t (frame ty status seqno (url_bytes url) (data_bytes data)) 0 w (ok, t', w'))).
Proof. apply send_frame_spec. Qed.

(** C5.  End-to-end delivery: well-formed packets sent one after the other on a
    fresh connection, with arbitrary short writes and EAGAIN retries; if all
    sends succeed, the peer that feeds the bytes it reads, cut in any way, to a
    fresh stream context gets exactly these packets in order. *)
Theorem packets_end_to_end {W} `{OsLaws W} (t : ssn_transport_t) (ps : list packet) (w : W)
    (t' : ssn_transport_t) (w' : W) (recv : ssn_stream_ctx_t) (chunks : list bytes) :
  Forall packet_ok ps -> 0 <= send_timeout t < 2 ^ 31 -> os_tx w (sock_fd (impl t)) = [] ->
  send_packets t ps w = Some (true, t', w') ->
  zlen (buffer recv) <= SSN_MAX_PACKET_SIZE ->
  concat chunks = os_tx w' (sock_fd (impl t)) ->
  exists recv', feed_chunks collect (ssn_stream_init recv) chunks []
                = Some (true, recv', map wire ps) /\ pending recv' = [].
Proof.
  intros Hps Ht Htx0 Hrun Hb Hc.
  destruct (send_packets_spec ps t w Hps Ht)
    as (ok & t1 & w1 & Hrun' & _ & _ & _ & q & rest & Hq & Htx & Hrest).
  rewrite Hrun in Hrun'. simplify_eq. rewrite (Hrest eq_refl), app_nil_r in Hq.
  rewrite Htx0, app_nil_l in Htx. rewrite Htx, <- Hq in Hc.
  pose proof (stream_inv_start recv Hb) as Hinv.
  pose proof (deframe_wires ps [] [] Hps) as Hd.
  rewrite app_nil_r, (deframe_stuck _ []) in Hd by apply stuck_nil.
  destruct (feed_chunks_spec collect chunks (ssn_stream_init recv) [] Hinv)
    as ([[ok' recv'] st'] & -> & Hm); rewrite pending_init, app_nil_l, Hc, Hd in *; [done|].
  destruct Hm as (? & -> & -> & ?). eauto.
Qed.

(** ** Witnesses *)

Lemma demo_timeout : 0 <= send_timeout (demo_transport 3) < 2 ^ 31.
Proof. split; vm_compute; [discriminate|reflexivity]. Qed.

Lemma send_message_writes_packet_witness :
  exists ok hdr' t' w',
    ssn_send_message (demo_transport 3) (ssn_create_header 1 0 7)
      (Some (mk_url_ref (Some [47; 97]) 2)) None (sim_init [3; 0; 4] []) = Some (ok, hdr', t', w') /\
    ((refused (Some (mk_url_ref (Some [47; 97]) 2)) None /\ ok = false /\ t' = demo_transport 3 /\
      w' = sim_init [3; 0; 4] []) \/
     (~ refused (Some (mk_url_ref (Some [47; 97]) 2)) None /\
      loop_post (demo_transport 3) (frame 1 0 7 [47; 97] []) 0 (sim_init [3; 0; 4] []) (ok, t', w'))).
Proof.
  apply (send_message_writes_packet (demo_transport 3) 1 0 7 (Some (mk_url_ref (Some [47; 97]) 2)) None
           (sim_init [3; 0; 4] [])).
  - repeat split; vm_compute; discriminate || reflexivity.
  - exact demo_timeout.
Defined.

Lemma packets_end_to_end_witness :
  exists t' w', send_packets (demo_transport 3) demo_packets (sim_init [3; 0; 4] []) = Some (true, t', w') /\
    exists recv', feed_chunks collect (ssn_stream_init demo_recv)
        [ztake 5 (sim_tx w' 3); zdrop 5 (sim_tx w' 3)] []
      = Some (true, recv', map wire demo_packets) /\ pending recv' = [].
Proof.
  destruct (send_packets (demo_transport 3) demo_packets (sim_init [3; 0; 4] [])) as [[[ok t'] w']|] eqn:E;
    [|vm_compute in E; discriminate].
  assert (ok = true) as -> by (vm_compute in E; congruence).
  exists t', w'. split; [reflexivity|].
  apply (packets_end_to_end (demo_transport 3) demo_packets (sim_init [3; 0; 4] []) t' w' demo_recv
           [ztake 5 (sim_tx w' 3); zdrop 5 (sim_tx w' 3)]).
  - exact demo_packets_ok.
  - exact demo_timeout.
  - reflexivity.
  - exact E.
  - vm_compute. discriminate.
  - cbn [concat]. rewrite app_nil_r. apply ztake_zdrop.
Defined.
