(* ===== verification/EventPair.v ===== *)
(** * Event pair ([src/src/vsi/ipc_event.c], Linux branch)

    An [eventfd] used as a level-triggered wake-up: a counter that [signal]
    raises and [drain] reads back to zero.  The counter is kept beside the
    descriptor. *)
From S2P Require Import Prelude Os Transport.

Record ipc_event_pair := mk_event { evt_fd : Z; evt_count : Z }.

Section event.
Context {W : Type} `{OsOps W}.

Definition ipc_event_pair_create (w : W) : option ipc_event_pair * W :=
  let '(ok, w) := os_calloc w in
  if negb ok then (None, w)
  else
    let '(fd, w) := os_eventfd w in
    if fd <? 0 then (None, w) else (Some (mk_event fd 0), w).

Definition ipc_event_pair_destroy (e : ipc_event_pair) (w : W) : W :=
  if evt_fd e >=? 0 then os_close (evt_fd e) w else w.
End event.

(** A non-blocking write of 1; it fails, leaving the counter, when the counter
    would reach its maximum. *)
Definition ipc_event_pair_signal (e : ipc_event_pair) : ipc_event_pair :=
  if evt_count e + 1 <? 2 ^ 64 - 1 then mk_event (evt_fd e) (evt_count e + 1) else e.

Definition ipc_event_pair_drain (e : ipc_event_pair) : ipc_event_pair :=
  mk_event (evt_fd e) 0.

Definition ipc_event_pair_get_read_fd (e : ipc_event_pair) : Z := evt_fd e.

Definition event_pending (e : ipc_event_pair) : bool := evt_count e >? 0.

Lemma signal_pending e : 0 <= evt_count e -> event_pending (ipc_event_pair_signal e) = true.
Proof.
  intros. unfold event_pending, ipc_event_pair_signal.
  destruct (Z.ltb_spec (evt_count e + 1) (2 ^ 64 - 1)); cbn; apply Z.gtb_lt; lia.
Qed.

Section event_fds.
Context {W : Type} `{OsLaws W}.

(** Creation and destruction are balanced on the descriptor table. *)
Lemma event_create_destroy (w : W) :
  match ipc_event_pair_create w with
  | (None, w1) => os_open w1 = os_open w
  | (Some e, w1) => 0 <= evt_fd e /\ (evt_fd e ∉ os_open w) /\
      os_open (ipc_event_pair_destroy e w1) = os_open w
  end.
Proof.
  unfold ipc_event_pair_create, ipc_event_pair_destroy.
  pose proof (os_calloc_quiet w) as [Ho _]. destruct (os_calloc w) as [ok w1]. cbn [snd] in Ho.
  destruct ok; [|done]. cbn [negb]. pose proof (os_eventfd_open w1) as He.
  destruct (os_eventfd w1) as [fd w2]. destruct He as [_ He]. rewrite Ho in He.
  destruct (Z.ltb_spec fd 0); destruct He as [[? E]|(? & ? & E)]; try lia; [done|].
  cbn. destruct (Z.geb_spec fd 0); [|lia]. destruct (os_close_open fd w2) as [-> _].
  rewrite E. split_and!; [done..|]. set_solver.
Qed.
End event_fds.
