(* ===== verification/Server.v ===== *)
(** * Server ([src/src/ssn_server.c])

    The connection table, the method table, subscriptions, handshake and idle
    timers, packet dispatch and the event loop, as functions on a server record
    and the kernel's world.

    - A peer connection is named by its id; the hash chains [clis] are lists of
      connections, the timer list [hst_h] a list of ids.
    - Locks are not modelled: every function is one critical section, and the
      timer thread's pass over one server is the step [ssn_server_timer_tick].
    - An application callback can act on the server only through the API.  It
      is a parameter [user] that, for the event and the state it sees, says
      which API calls it makes.  Nested polling from a callback is left out.
    - The result [None] is undefined behaviour of the C code (a freed node or a
      freed server is used, [FD_SET] past its array) or lack of fuel. *)
From S2P Require Import Prelude FrameCodec ErrorCode Os Transport Address FrameSend EventPair.

(** ** Constants *)

Definition IPC_CLI_HASH_SIZE : Z := 64.
Definition IPC_CLI_HASH_MASK : Z := IPC_CLI_HASH_SIZE - 1.
Definition SSN_SERVER_DEFAULT_MAX_CONNECTIONS : Z := 1020.
Definition IPC_CMD_HASH_SIZE : Z := 32.
Definition IPC_CMD_HASH_MASK : Z := IPC_CMD_HASH_SIZE - 1.
Definition SSN_TIMER_PERIOD : Z := 50.
Definition SSN_SERVER_BACKLOG : Z := 32.
Definition SSN_DEF_SEND_TIMEOUT : Z := 100.
Definition SSN_SERVER_DEF_HANDSHAKE_TIMEOUT : Z := 5000.
Definition SSN_SERVER_KEEPALIVE_TIMEOUT : Z := 10.
Definition SRV_NAME_LEN : Z := 64.
Definition FD_SETSIZE : Z := 1024.
Definition SLASH : Z := 47.

(** ** Data *)

(** [hst_alive]/[hst_linked] are the embedded handshake-timer node. *)
Record ssn_server_cli_t := mk_cli {
  cli_active : bool;
  cli_onconn : bool;
  cli_subscribed : list bytes;
  hst_alive : Z;
  hst_linked : bool;
  cli_recv : ssn_stream_ctx_t;
  cli_transport : ssn_transport_t;
  cli_id : Z;
}.

(** [cmd_node] is the node's address; [cmd_url] its [len] bytes of URL. *)
Record ssn_server_cmd_t := mk_cmd {
  cmd_node : nat;
  cmd_onrpc : Z;
  cmd_arg : Z;
  cmd_url : bytes;
}.

Record ssn_server := mk_server {
  srv_valid : bool;
  srv_freed : bool;                       (** the memory was released *)
  ref_count : Z;
  srv_name : bytes;
  ncid : Z;
  hst_h : list Z;
  clis : list (list ssn_server_cli_t);
  cmds : list (list ssn_server_cmd_t);
  def_cmd : option ssn_server_cmd_t;
  prefix_h : list ssn_server_cmd_t;
  prefix_t : option nat;
  next_node : nat;                        (** next fresh node address *)
  onmsg : option (Z * Z);                 (** handler and its argument *)
  oncli : option (Z * Z);
  srv_send_timeout : Z;
  handshake_timeout : Z;
  keepalive_timeout : Z;
  max_connections : Z;
  srv_transport : option ssn_transport_t;
  srv_evt : ipc_event_pair;
}.

(** Field updates. *)
Definition with_valid s b := mk_server b (srv_freed s) (ref_count s) (srv_name s) (ncid s) (hst_h s)
  (clis s) (cmds s) (def_cmd s) (prefix_h s) (prefix_t s) (next_node s) (onmsg s) (oncli s)
  (srv_send_timeout s) (handshake_timeout s) (keepalive_timeout s) (max_connections s)
  (srv_transport s) (srv_evt s).
Definition with_ref s r := mk_server (srv_valid s) (srv_freed s) r (srv_name s) (ncid s) (hst_h s)
  (clis s) (cmds s) (def_cmd s) (prefix_h s) (prefix_t s) (next_node s) (onmsg s) (oncli s)
  (srv_send_timeout s) (handshake_timeout s) (keepalive_timeout s) (max_connections s)
  (srv_transport s) (srv_evt s).
Definition with_ncid s n := mk_server (srv_valid s) (srv_freed s) (ref_count s) (srv_name s) n (hst_h s)
  (clis s) (cmds s) (def_cmd s) (prefix_h s) (prefix_t s) (next_node s) (onmsg s) (oncli s)
  (srv_send_timeout s) (handshake_timeout s) (keepalive_timeout s) (max_connections s)
  (srv_transport s) (srv_evt s).
Definition with_table s h c := mk_server (srv_valid s) (srv_freed s) (ref_count s) (srv_name s) (ncid s) h
  c (cmds s) (def_cmd s) (prefix_h s) (prefix_t s) (next_node s) (onmsg s) (oncli s)
  (srv_send_timeout s) (handshake_timeout s) (keepalive_timeout s) (max_connections s)
  (srv_transport s) (srv_evt s).
Definition with_methods s cs d ph pt nn := mk_server (srv_valid s) (srv_freed s) (ref_count s) (srv_name s)
  (ncid s) (hst_h s) (clis s) cs d ph pt nn (onmsg s) (oncli s)
  (srv_send_timeout s) (handshake_timeout s) (keepalive_timeout s) (max_connections s)
  (srv_transport s) (srv_evt s).
Definition with_handlers s m c := mk_server (srv_valid s) (srv_freed s) (ref_count s) (srv_name s) (ncid s)
  (hst_h s) (clis s) (cmds s) (def_cmd s) (prefix_h s) (prefix_t s) (next_node s) m c
  (srv_send_timeout s) (handshake_timeout s) (keepalive_timeout s) (max_connections s)
  (srv_transport s) (srv_evt s).
Definition with_transport s t := mk_server (srv_valid s) (srv_freed s) (ref_count s) (srv_name s) (ncid s)
  (hst_h s) (clis s) (cmds s) (def_cmd s) (prefix_h s) (prefix_t s) (next_node s) (onmsg s) (oncli s)
  (srv_send_timeout s) (handshake_timeout s) (keepalive_timeout s) (max_connections s) t (srv_evt s).
Definition with_evt s e := mk_server (srv_valid s) (srv_freed s) (ref_count s) (srv_name s) (ncid s)
  (hst_h s) (clis s) (cmds s) (def_cmd s) (prefix_h s) (prefix_t s) (next_node s) (onmsg s) (oncli s)
  (srv_send_timeout s) (handshake_timeout s) (keepalive_timeout s) (max_connections s)
  (srv_transport s) e.
(** Everything [ssn_server_free_resources] releases. *)
Definition with_freed s := mk_server (srv_valid s) true (ref_count s) (srv_name s) (ncid s)
  [] (replicate (Z.to_nat IPC_CLI_HASH_SIZE) []) (replicate (Z.to_nat IPC_CMD_HASH_SIZE) []) None [] None
  (next_node s) (onmsg s) (oncli s)
  (srv_send_timeout s) (handshake_timeout s) (keepalive_timeout s) (max_connections s) None (srv_evt s).

Definition cli_with_transport c t := mk_cli (cli_active c) (cli_onconn c) (cli_subscribed c) (hst_alive c)
  (hst_linked c) (cli_recv c) t (cli_id c).
Definition cli_with_hst c alive linked := mk_cli (cli_active c) (cli_onconn c) (cli_subscribed c) alive
  linked (cli_recv c) (cli_transport c) (cli_id c).
Definition cli_with_sub c l := mk_cli (cli_active c) (cli_onconn c) l (hst_alive c)
  (hst_linked c) (cli_recv c) (cli_transport c) (cli_id c).
Definition cli_with_active c := mk_cli true (cli_onconn c) (cli_subscribed c) (hst_alive c)
  (hst_linked c) (cli_recv c) (cli_transport c) (cli_id c).
Definition cli_with_onconn c b := mk_cli (cli_active c) b (cli_subscribed c) (hst_alive c)
  (hst_linked c) (cli_recv c) (cli_transport c) (cli_id c).
Definition cli_with_recv c r := mk_cli (cli_active c) (cli_onconn c) (cli_subscribed c) (hst_alive c)
  (hst_linked c) r (cli_transport c) (cli_id c).

(** ** Connection table *)

Definition ssn_server_cli_hash (id : Z) : nat := Z.to_nat (Z.land id IPC_CLI_HASH_MASK).

Fixpoint find_cli (l : list ssn_server_cli_t) (id : Z) : option ssn_server_cli_t :=
  match l with
  | [] => None
  | c :: l => if cli_id c =? id then Some c else find_cli l id
  end.
Definition cli_bucket (s : ssn_server) (h : nat) : list ssn_server_cli_t := nth h (clis s) [].
Definition ssn_server_cli_find (s : ssn_server) (id : Z) : option ssn_server_cli_t :=
  find_cli (cli_bucket s (ssn_server_cli_hash id)) id.

(** Writing through a connection pointer. *)
Definition cli_put (s : ssn_server) (c : ssn_server_cli_t) : ssn_server :=
  let h := ssn_server_cli_hash (cli_id c) in
  with_table s (hst_h s)
    (<[h := map (fun x => if cli_id x =? cli_id c then c else x) (cli_bucket s h)]> (clis s)).

(** The [do ... while] of id allocation; [fuel] bounds the ids tried. *)
Fixpoint newid_loop (fuel : nat) (s : ssn_server) (n : Z) : option (Z * Z) :=
  match fuel with
  | O => None
  | S fuel =>
    match ssn_server_cli_find s n with
    | Some _ => newid_loop fuel s (u32 (n + 1))
    | None => Some (n, u32 (n + 1))
    end
  end.
Definition cli_total (s : ssn_server) : Z := zlen (concat (clis s)).
Definition ssn_server_cli_newid (s : ssn_server) : option (Z * ssn_server) :=
  match newid_loop (S (length (concat (clis s)))) s (ncid s) with
  | Some (id, n) => Some (id, with_ncid s n)
  | None => None
  end.

(** [cli] comes without an id and gets one; it is linked into its chain and
    into the timer list. *)
Definition ssn_server_cli_init (s : ssn_server) (t : ssn_transport_t) (recv : ssn_stream_ctx_t)
  : option ssn_server :=
  match ssn_server_cli_newid s with
  | None => None
  | Some (id, s) =>
    let cli := mk_cli false false [] (handshake_timeout s) true recv t id in
    let h := ssn_server_cli_hash id in
    Some (with_table s (id :: hst_h s) (<[h := cli :: cli_bucket s h]> (clis s)))
  end.

Definition remove_cli (l : list ssn_server_cli_t) (id : Z) : list ssn_server_cli_t :=
  filter (fun c => cli_id c <> id) l.
Definition remove_hst (l : list Z) (id : Z) : list Z := filter (fun x => x <> id) l.

(** ** Methods *)

Fixpoint url_sum (fuel : nat) (u : bytes) : Z :=
  match fuel with
  | O => 0
  | S fuel =>
    match u with
    | [] => 0
    | [c] => (if c <? 128 then c else c - 256)
    | c :: _ :: u => (if c <? 128 then c else c - 256) + url_sum fuel u
    end
  end.
(** Sum of the characters at even positions, as signed characters. *)
Definition ssn_server_url_hash (u : bytes) : nat :=
  Z.to_nat (Z.land (url_sum (length u) u) IPC_CMD_HASH_MASK).

Definition cmd_bucket (s : ssn_server) (h : nat) : list ssn_server_cmd_t := nth h (cmds s) [].

(** [!url || !url->url || !url->url_len || url->url[0] != '/'] fails. *)
Definition checked_url (url : option ssn_url_ref_t) : option bytes :=
  match url with
  | Some (mk_url_ref (Some b) n) =>
      if n =? 0 then None
      else if nth 0 b 0 =? SLASH then Some (ztake n b) else None
  | _ => None
  end.

Definition is_default (u : bytes) : bool := zlen u =? 1.
Definition is_prefix (u : bytes) : bool :=
  negb (is_default u) && (nth (length u - 1) u 0 =? SLASH).
Definition path_of (u : bytes) : bytes := if is_prefix u then ztake (zlen u - 1) u else u.

(** [INSERT_TO_FIFO]: the old tail node is written to, so it must be live. *)
Definition insert_to_fifo (cmd : ssn_server_cmd_t) (h : list ssn_server_cmd_t) (t : option nat)
  : option (list ssn_server_cmd_t * option nat) :=
  match t with
  | None => Some (match h with [] => [cmd] | _ => h end, Some (cmd_node cmd))
  | Some n =>
    match last h with
    | Some l => if (cmd_node l =? n)%nat then Some (h ++ [cmd], Some (cmd_node cmd)) else None
    | None => None
    end
  end.

Definition ssn_server_add_method (calloc_ok : bool) (s : ssn_server) (url : option ssn_url_ref_t)
    (callback arg : Z) : option (bool * ssn_server) :=
  if negb (srv_valid s) then Some (false, s)
  else match checked_url url with
  | None => Some (false, s)
  | Some u =>
    if callback =? 0 then Some (false, s)
    else if negb calloc_ok then Some (false, s)
    else
      let cmd := mk_cmd (next_node s) callback arg (path_of u) in
      let nn := S (next_node s) in
      if is_default u
      then Some (true, with_methods s (cmds s) (Some cmd) (prefix_h s) (prefix_t s) nn)
      else if is_prefix u then
        match insert_to_fifo cmd (prefix_h s) (prefix_t s) with
        | None => None
        | Some (ph, pt) => Some (true, with_methods s (cmds s) (def_cmd s) ph pt nn)
        end
      else
        let h := ssn_server_url_hash u in
        Some (true, with_methods s (<[h := cmd :: cmd_bucket s h]> (cmds s)) (def_cmd s)
                      (prefix_h s) (prefix_t s) nn)
  end.

(** [LIST_FOREACH_SAFE ... DELETE_FROM_LIST; break]: the first node with this
    path. *)
Fixpoint remove_first_cmd (l : list ssn_server_cmd_t) (path : bytes) : list ssn_server_cmd_t :=
  match l with
  | [] => []
  | c :: l => if bool_decide (cmd_url c = path) then l else c :: remove_first_cmd l path
  end.

Definition ssn_server_remove_method (s : ssn_server) (url : option ssn_url_ref_t) : ssn_server :=
  if negb (srv_valid s) then s
  else match checked_url url with
  | None => s
  | Some u =>
    if is_default u
    then with_methods s (cmds s) None (prefix_h s) (prefix_t s) (next_node s)
    else if is_prefix u
    then with_methods s (cmds s) (def_cmd s) (remove_first_cmd (prefix_h s) (path_of u)) (prefix_t s)
           (next_node s)
    else
      let h := ssn_server_url_hash u in
      with_methods s (<[h := remove_first_cmd (cmd_bucket s h) (path_of u)]> (cmds s)) (def_cmd s)
        (prefix_h s) (prefix_t s) (next_node s)
  end.

Fixpoint find_exact (l : list ssn_server_cmd_t) (u : bytes) : option ssn_server_cmd_t :=
  match l with
  | [] => None
  | c :: l => if bool_decide (cmd_url c = u) then Some c else find_exact l u
  end.
(** [path] is [u] or a proper prefix of it ending before a slash. *)
Definition path_covers (path u : bytes) : bool :=
  (zlen path <=? zlen u) && bool_decide (ztake (zlen path) u = path)
  && ((zlen path =? zlen u) || (nth (length path) u 0 =? SLASH)).
Fixpoint find_prefix (l : list ssn_server_cmd_t) (u : bytes) : option ssn_server_cmd_t :=
  match l with
  | [] => None
  | c :: l => if path_covers (cmd_url c) u then Some c else find_prefix l u
  end.
Definition ssn_server_cmd_match (s : ssn_server) (u : bytes) : option ssn_server_cmd_t :=
  match find_exact (cmd_bucket s (ssn_server_url_hash u)) u with
  | Some c => Some c
  | None =>
    match find_prefix (prefix_h s) u with
    | Some c => Some c
    | None => def_cmd s
    end
  end.

(** ** Subscriptions *)

(** One subscription [sub] against a published URL. *)
Definition sub_covers (sub u : bytes) : bool :=
  (zlen sub =? 1)
  || bool_decide (sub = u)
  || ((nth (length sub - 1) sub 0 =? SLASH)
      && (zlen sub - 1 <=? zlen u)
      && bool_decide (ztake (zlen sub - 1) u = ztake (zlen sub - 1) sub)
      && ((zlen u =? zlen sub - 1) || (nth (length sub - 1) u 0 =? SLASH))).
Fixpoint sub_match (l : list bytes) (u : bytes) : bool :=
  match l with
  | [] => false
  | sub :: l => if sub_covers sub u then true else sub_match l u
  end.
Definition ssn_server_cli_sub_match (c : ssn_server_cli_t) (u : bytes) : bool :=
  sub_match (cli_subscribed c) u.

Definition ssn_server_peer_count (s : ssn_server) : Z :=
  if negb (srv_valid s) then 0
  else zlen (filter (fun c => cli_active c = true) (concat (clis s))).

Definition ssn_server_is_subscribed (s : ssn_server) (url : option ssn_url_ref_t) : bool :=
  if negb (srv_valid s) then false
  else match url with
  | Some (mk_url_ref (Some b) n) =>
      if n =? 0 then false
      else existsb (fun c => cli_active c && ssn_server_cli_sub_match c (ztake n b)) (concat (clis s))
  | _ => false
  end.

Definition ssn_server_peer_list (s : ssn_server) (max_cnt : Z) : list Z :=
  if negb (srv_valid s) || (max_cnt <=? 0) then []
  else ztake max_cnt (map cli_id (concat (clis s))).

Definition ssn_server_set_connect_handler (s : ssn_server) (h : option (Z * Z)) : ssn_server :=
  with_handlers s (onmsg s) h.
Definition ssn_server_set_message_handler (s : ssn_server) (h : option (Z * Z)) : ssn_server :=
  with_handlers s h (oncli s).

(** ** Timers *)

Definition tick_cli (c : ssn_server_cli_t) : ssn_server_cli_t :=
  if hst_alive c <=? SSN_TIMER_PERIOD then cli_with_hst c 0 (hst_linked c)
  else cli_with_hst c (hst_alive c - SSN_TIMER_PERIOD) (hst_linked c).
(** One pass of the timer thread over this server: every node of [hst_h]. *)
Fixpoint tick_nodes (s : ssn_server) (l : list Z) (emit : bool) : option (ssn_server * bool) :=
  match l with
  | [] => Some (s, emit)
  | id :: l =>
    match ssn_server_cli_find s id with
    | None => None
    | Some c => tick_nodes (cli_put s (tick_cli c)) l (emit || (hst_alive c <=? SSN_TIMER_PERIOD))
    end
  end.
Definition ssn_server_timer_tick (s : ssn_server) : option ssn_server :=
  match tick_nodes s (hst_h s) false with
  | None => None
  | Some (s, emit) => Some (if emit then with_evt s (ipc_event_pair_signal (srv_evt s)) else s)
  end.

(** ** Operations on the world *)

(** What a callback is told. *)
Inductive server_event :=
  | EvRpc (handler arg : Z) (id : Z) (hdr : ssn_header_t) (url : ssn_url_ref_t) (data : ssn_data_ref_t)
  | EvMessage (handler arg : Z) (id : Z) (url : ssn_url_ref_t) (data : ssn_data_ref_t)
  | EvConnect (handler arg : Z) (id : Z) (connected : bool).

(** What a callback can do. *)
Inductive api_call :=
  | CallPublish (url : option ssn_url_ref_t) (data : option ssn_data_ref_t)
  | CallResponse (id status seqno : Z) (data : option ssn_data_ref_t)
  | CallMessage (id : Z) (url : option ssn_url_ref_t) (data : option ssn_data_ref_t)
  | CallPeerClose (id : Z)
  | CallAddMethod (url : option ssn_url_ref_t) (callback arg : Z)
  | CallRemoveMethod (url : option ssn_url_ref_t)
  | CallSetConnect (h : option (Z * Z))
  | CallSetMessage (h : option (Z * Z))
  | CallDestroy.

Section world.
Context {W : Type} `{OsOps W}.
Implicit Types (s : ssn_server) (w : W).

(** *** Connections *)

Definition ssn_server_cli_destroy s (id : Z) w : option (ssn_server * W) :=
  match ssn_server_cli_find s id with
  | None => None
  | Some c =>
    let h := ssn_server_cli_hash id in
    let s := with_table s (if hst_linked c then remove_hst (hst_h s) id else hst_h s)
               (<[h := remove_cli (cli_bucket s h) id]> (clis s)) in
    Some (s, ssn_transport_destroy (cli_transport c) w)
  end.

Definition ssn_server_peer_close s (id : Z) w : bool * ssn_server * W :=
  if negb (srv_valid s) then (false, s, w)
  else match ssn_server_cli_find s id with
  | None => (false, s, w)
  | Some c =>
    let '(_, t, w) := ssn_transport_disconnect (cli_transport c) w in
    (true, cli_put s (cli_with_transport c t), w)
  end.

(** The connection is closed when the packet could not be sent whole.  The
    header lives in the server's send buffer and keeps the lengths written. *)
Definition ssn_server_cli_sendmsg s (id : Z) (hdr : ssn_header_t) (url : option ssn_url_ref_t)
    (data : option ssn_data_ref_t) w : option (bool * ssn_header_t * ssn_server * W) :=
  match ssn_server_cli_find s id with
  | None => None
  | Some c =>
    match ssn_send_message (cli_transport c) hdr url data w with
    | None => None
    | Some (true, hdr, t, w) => Some (true, hdr, cli_put s (cli_with_transport c t), w)
    | Some (false, hdr, t, w) =>
      let '(_, t, w) := ssn_transport_disconnect t w in
      Some (false, hdr, cli_put s (cli_with_transport c t), w)
    end
  end.

(** *** Publishing, responding, messages *)

Fixpoint publish_loop (ids : list Z) s (hdr : ssn_header_t) (u : bytes) (url : option ssn_url_ref_t)
    (data : option ssn_data_ref_t) w : option (ssn_server * W) :=
  match ids with
  | [] => Some (s, w)
  | id :: ids =>
    match ssn_server_cli_find s id with
    | None => None
    | Some c =>
      if cli_active c && ssn_server_cli_sub_match c u then
        match ssn_server_cli_sendmsg s id hdr url data w with
        | None => None
        | Some (_, hdr, s, w) => publish_loop ids s hdr u url data w
        end
      else publish_loop ids s hdr u url data w
    end
  end.
Definition ssn_server_publish s (url : option ssn_url_ref_t) (data : option ssn_data_ref_t) w
  : option (bool * ssn_server * W) :=
  if negb (srv_valid s) then Some (false, s, w)
  else match checked_url url with
  | None => Some (false, s, w)
  | Some u =>
    match publish_loop (map cli_id (concat (clis s))) s
            (ssn_create_header SSN_MSG_TYPE_PUBLISH 0 0) u url data w with
    | None => None
    | Some (s, w) => Some (true, s, w)
    end
  end.

Definition ssn_server_response s (id status seqno : Z) (data : option ssn_data_ref_t) w
  : option (bool * ssn_server * W) :=
  if negb (srv_valid s) then Some (false, s, w)
  else match ssn_server_cli_find s id with
  | None => Some (false, s, w)
  | Some _ =>
    match ssn_server_cli_sendmsg s id (ssn_create_header SSN_MSG_TYPE_RPC_REQUEST status seqno)
            None data w with
    | None => None
    | Some (ret, _, s, w) => Some (ret, s, w)
    end
  end.

Definition ssn_server_cli_do_message s (id : Z) (url : option ssn_url_ref_t)
    (data : option ssn_data_ref_t) w : option (bool * ssn_server * W) :=
  if negb (srv_valid s) then Some (false, s, w)
  else match checked_url url, data with
  | None, _ | _, None => Some (false, s, w)
  | Some _, Some _ =>
    match ssn_server_cli_find s id with
    | None => Some (false, s, w)
    | Some _ =>
      match ssn_server_cli_sendmsg s id (ssn_create_header SSN_MSG_TYPE_MESSAGE 0 0) url data w with
      | None => None
      | Some (ret, _, s, w) => Some (ret, s, w)
      end
    end
  end.

(** *** Life time *)

Fixpoint destroy_clis (ids : list Z) s w : option (ssn_server * W) :=
  match ids with
  | [] => Some (s, w)
  | id :: ids =>
    match ssn_server_cli_destroy s id w with
    | None => None
    | Some (s, w) => destroy_clis ids s w
    end
  end.
Definition ssn_server_free_resources s w : option (ssn_server * W) :=
  let '(s, w) := match srv_transport s with
                 | Some t => (with_transport s None, ssn_transport_destroy t w)
                 | None => (s, w)
                 end in
  let w := ipc_event_pair_destroy (srv_evt s) w in
  match destroy_clis (map cli_id (concat (clis s))) s w with
  | None => None
  | Some (s, w) => Some (with_freed s, os_unlink (srv_name s) w)
  end.

Definition ssn_server_ref s : ssn_server := with_ref s (ref_count s + 1).
Definition ssn_server_unref s w : option (ssn_server * W) :=
  if srv_freed s then None
  else if ref_count s >? 0 then
    let s := with_ref s (ref_count s - 1) in
    if (ref_count s =? 0) && negb (srv_valid s) then ssn_server_free_resources s w
    else Some (s, w)
  else Some (s, w).

(** The protocol-layer instances are destroyed here too; they hold no state of
    this record. *)
Definition ssn_server_destroy s w : option (ssn_server * W) :=
  if negb (srv_valid s) then Some (s, w) else ssn_server_unref (with_valid s false) w.

(** *** Callbacks *)

Definition run_call (c : api_call) s w : option (ssn_server * W) :=
  if srv_freed s then None
  else match c with
  | CallPublish url data =>
      match ssn_server_publish s url data w with Some (_, s, w) => Some (s, w) | None => None end
  | CallResponse id status seqno data =>
      match ssn_server_response s id status seqno data w with
      | Some (_, s, w) => Some (s, w) | None => None end
  | CallMessage id url data =>
      match ssn_server_cli_do_message s id url data w with
      | Some (_, s, w) => Some (s, w) | None => None end
  | CallPeerClose id => let '(_, s, w) := ssn_server_peer_close s id w in Some (s, w)
  | CallAddMethod url callback arg =>
      let '(ok, w) := os_calloc w in
      match ssn_server_add_method ok s url callback arg with
      | Some (_, s) => Some (s, w) | None => None end
  | CallRemoveMethod url => Some (ssn_server_remove_method s url, w)
  | CallSetConnect h => Some (ssn_server_set_connect_handler s h, w)
  | CallSetMessage h => Some (ssn_server_set_message_handler s h, w)
  | CallDestroy => ssn_server_destroy s w
  end.
Fixpoint run_calls (cs : list api_call) s w : option (ssn_server * W) :=
  match cs with
  | [] => Some (s, w)
  | c :: cs => match run_call c s w with Some (s, w) => run_calls cs s w | None => None end
  end.

Context (user : server_event -> ssn_server -> W -> list api_call).

Definition notify (e : server_event) s w : option (ssn_server * W) := run_calls (user e s w) s w.

(** [if (server->oncli) server->oncli(server, cli->id, connected, carg)] *)
Definition notify_connect (id : Z) (connected : bool) s w : option (ssn_server * W) :=
  match oncli s with
  | Some (h, arg) => notify (EvConnect h arg id connected) s w
  | None => Some (s, w)
  end.

(** *** Packet handlers *)

Definition ssn_server_handle_service_info s (id : Z) (hdr : ssn_header_t) (seqno : Z) w
  : option (ssn_server * W) :=
  match ssn_server_cli_find s id with
  | None => None
  | Some c =>
    let send_hdr := ssn_create_header (h_msg_type hdr) 0 seqno in
    let reply := mk_data_ref (Some (store32 (ssn_htonl id))) 4 in
    let s :=
      if keepalive_timeout s >? 0
      then cli_put s (cli_with_hst c (i32 (keepalive_timeout s * 1000)) (hst_linked c))
      else if hst_linked c
      then with_table (cli_put s (cli_with_hst c 0 false)) (remove_hst (hst_h s) id)
             (clis (cli_put s (cli_with_hst c 0 false)))
      else s in
    match ssn_server_cli_sendmsg s id send_hdr None (Some reply) w with
    | None => None
    | Some (_, _, s, w) =>
      match ssn_server_cli_find s id with
      | None => None
      | Some c =>
        if cli_onconn c then Some (s, w)
        else notify_connect id true (cli_put s (cli_with_onconn c true)) w
      end
    end
  end.

(** Send a reply without payload and go on. *)
Definition reply_status s (id type status seqno : Z) w : option (ssn_server * W) :=
  match ssn_server_cli_sendmsg s id (ssn_create_header type status seqno) None None w with
  | None => None
  | Some (_, _, s, w) => Some (s, w)
  end.

(** [url->url_len && url->url[0] == '/'] of a received packet. *)
Definition packet_url (url : ssn_url_ref_t) : option bytes :=
  match FrameCodec.url url with
  | Some b => if (url_len url =? 0) then None else if nth 0 b 0 =? SLASH then Some b else None
  | None => None
  end.

Definition ssn_server_handle_rpc_request s (id : Z) (hdr : ssn_header_t) (seqno : Z)
    (url : ssn_url_ref_t) (data : ssn_data_ref_t) w : option (ssn_server * W) :=
  match packet_url url with
  | Some u =>
    match ssn_server_cmd_match s u with
    | Some cmd => notify (EvRpc (cmd_onrpc cmd) (cmd_arg cmd) id hdr url data) s w
    | None => reply_status s id (h_msg_type hdr) SSN_ECODE_NOT_FOUND seqno w
    end
  | None => reply_status s id (h_msg_type hdr) SSN_ECODE_INVALID_ARGS seqno w
  end.

Definition ssn_server_handle_subscribe s (id : Z) (hdr : ssn_header_t) (seqno : Z)
    (url : ssn_url_ref_t) w : option (ssn_server * W) :=
  match ssn_server_cli_find s id with
  | None => None
  | Some c =>
    match packet_url url with
    | Some u =>
      if bool_decide (u ∈ cli_subscribed c) then reply_status s id (h_msg_type hdr) 0 seqno w
      else
        let '(ok, w) := os_calloc w in
        if ok
        then reply_status (cli_put s (cli_with_sub c (u :: cli_subscribed c))) id (h_msg_type hdr) 0 seqno w
        else reply_status s id (h_msg_type hdr) SSN_ECODE_OUT_OF_MEMORY seqno w
    | None => reply_status s id (h_msg_type hdr) SSN_ECODE_INVALID_ARGS seqno w
    end
  end.

Fixpoint remove_first_sub (l : list bytes) (u : bytes) : list bytes :=
  match l with
  | [] => []
  | x :: l => if bool_decide (x = u) then l else x :: remove_first_sub l u
  end.
Definition ssn_server_handle_unsubscribe s (id : Z) (hdr : ssn_header_t) (seqno : Z)
    (url : ssn_url_ref_t) w : option (ssn_server * W) :=
  match ssn_server_cli_find s id with
  | None => None
  | Some c =>
    let subs := match packet_url url with
                | Some u => remove_first_sub (cli_subscribed c) u
                | None => []
                end in
    reply_status (cli_put s (cli_with_sub c subs)) id (h_msg_type hdr) 0 seqno w
  end.

Definition ssn_server_handle_ping_echo s (id : Z) (hdr : ssn_header_t) (seqno : Z) w
  : option (ssn_server * W) :=
  reply_status s id (h_msg_type hdr) 0 seqno w.

(** Activity: the connection is active and its idle timer restarts. *)
Definition mark_active s (c : ssn_server_cli_t) : ssn_server :=
  let c := cli_with_active c in
  cli_put s (if (keepalive_timeout s >? 0) && negb (hst_alive c =? 0)
             then cli_with_hst c (i32 (keepalive_timeout s * 1000)) (hst_linked c) else c).

(** The packet callback of the stream parser: [pkt] are the bytes from the
    header on.  The result says whether to go on with the stream. *)
Definition ssn_server_input (id : Z) (pkt : bytes) s w : option (bool * ssn_server * W) :=
  match ssn_server_cli_find s id, ssn_get_url pkt, ssn_get_data pkt with
  | Some c, Some url, Some data =>
    let hdr := header_of_bytes pkt in
    let seqno := ssn_get_seqno hdr in
    let s := mark_active s c in
    let done r := match r with Some (s, w) => Some (srv_valid s, s, w) | None => None end in
    let ty := h_msg_type hdr in
    if ty =? SSN_MSG_TYPE_MESSAGE then
      done (match onmsg s with
            | Some (h, arg) => notify (EvMessage h arg id url data) s w
            | None => Some (s, w)
            end)
    else if ty =? SSN_MSG_TYPE_SERVICE_INFO then done (ssn_server_handle_service_info s id hdr seqno w)
    else if ty =? SSN_MSG_TYPE_RPC_REQUEST then done (ssn_server_handle_rpc_request s id hdr seqno url data w)
    else if ty =? SSN_MSG_TYPE_SUBSCRIBE then done (ssn_server_handle_subscribe s id hdr seqno url w)
    else if ty =? SSN_MSG_TYPE_UNSUBSCRIBE then done (ssn_server_handle_unsubscribe s id hdr seqno url w)
    else if ty =? SSN_MSG_TYPE_PING_ECHO then done (ssn_server_handle_ping_echo s id hdr seqno w)
    else done (Some (s, w))
  | _, _, _ => None
  end.

(** *** Event loop *)

(** The stream parser runs the packet callback on the state; [None] inside is
    an undefined callback. *)
Definition input_callback (id : Z) (pkt : bytes) (st : option (ssn_server * W))
  : bool * option (ssn_server * W) :=
  match st with
  | None => (false, None)
  | Some (s, w) =>
    match ssn_server_input id pkt s w with
    | Some (continue, s, w) => (continue, Some (s, w))
    | None => (false, None)
    end
  end.

(** The peer is gone: tell the application, then destroy the connection. *)
Definition drop_client s (c : ssn_server_cli_t) w : option (ssn_server * W) :=
  let id := cli_id c in
  match (if cli_onconn c then notify_connect id false (cli_put s (cli_with_onconn c false)) w
         else Some (s, w)) with
  | None => None
  | Some (s, w) => ssn_server_cli_destroy s id w
  end.

(** [rfds]: the descriptors [pselect] reported ready. *)
Definition ssn_server_handle_client_input s (id : Z) (rfds : list Z) w : option (ssn_server * W) :=
  match ssn_server_cli_find s id with
  | None => None
  | Some c =>
    let cli_fd := ssn_transport_get_fd (cli_transport c) in
    if (cli_fd >=? 0) && bool_decide (cli_fd ∈ rfds) then
      let '(num, b, t, w) := ssn_transport_recv (cli_transport c) SSN_MAX_PACKET_SIZE 0 w in
      let c := cli_with_transport c t in
      let s := cli_put s c in
      if num >? 0 then
        match ssn_stream_feed (input_callback id) (cli_recv c) (ztake num b) (Some (s, w)) with
        | Some (_, recv, Some (s, w)) =>
          match ssn_server_cli_find s id with
          | Some c => Some (cli_put s (cli_with_recv c recv), w)
          | None => None
          end
        | _ => None
        end
      else if num =? 0 then drop_client s c w
      else if negb (os_errno w =? EAGAIN) && negb (os_errno w =? EWOULDBLOCK) then drop_client s c w
      else Some (s, w)
    else Some (s, w)
  end.

Context (g : factory).

(** A fresh connection starts with an initialised, empty stream context. *)
Definition new_recv : ssn_stream_ctx_t := ssn_stream_init (mk_stream 0 0 0 []).

Definition ssn_server_handle_new_connection s (rfds : list Z) w : option (ssn_server * W) :=
  match srv_transport s with
  | None => Some (s, w)
  | Some t =>
    let server_fd := ssn_transport_get_fd t in
    if (server_fd >=? 0) && bool_decide (server_fd ∈ rfds) then
      let '(r, w) := ssn_transport_accept g t true 0 w in
      match r with
      | AcceptNone => Some (s, w)
      | AcceptSelf => None
      | AcceptNew ct _ =>
        if cli_total s >=? max_connections s then Some (s, ssn_transport_destroy ct w)
        else
          let '(ok, w) := os_calloc w in
          if ok then
            match ssn_server_cli_init s ct new_recv with
            | Some s => Some (s, w)
            | None => None
            end
          else Some (s, ssn_transport_destroy ct w)
      end
    else Some (s, w)
  end.

(** [LIST_FOREACH_SAFE(hst, hst_temp, server->hst_h)]: expired connections are
    disconnected and destroyed. *)
Fixpoint expire_nodes (ids : list Z) s w : option (ssn_server * W) :=
  match ids with
  | [] => Some (s, w)
  | id :: ids =>
    match ssn_server_cli_find s id with
    | None => None
    | Some c =>
      if hst_alive c =? 0 then
        let '(_, t, w) := ssn_transport_disconnect (cli_transport c) w in
        let c := cli_with_transport (cli_with_hst c (hst_alive c) false) t in
        let s := cli_put s c in
        let s := with_table s (remove_hst (hst_h s) id) (clis s) in
        match ssn_server_cli_destroy s id w with
        | None => None
        | Some (s, w) => expire_nodes ids s w
        end
      else expire_nodes ids s w
    end
  end.
Definition ssn_server_handle_event_input s (rfds : list Z) w : option (ssn_server * W) :=
  if bool_decide (ipc_event_pair_get_read_fd (srv_evt s) ∈ rfds)
  then expire_nodes (hst_h s) (with_evt s (ipc_event_pair_drain (srv_evt s))) w
  else Some (s, w).

(** One hash chain; the ids are read when the chain's turn comes. *)
Fixpoint input_chain (ids : list Z) s (rfds : list Z) w : option (ssn_server * W) :=
  match ids with
  | [] => Some (s, w)
  | id :: ids =>
    match ssn_server_handle_client_input s id rfds w with
    | None => None
    | Some (s, w) => input_chain ids s rfds w
    end
  end.
(** Chains [h], [h+1], ... ([n] of them). *)
Fixpoint input_chains (n h : nat) s (rfds : list Z) w : option (ssn_server * W) :=
  match n with
  | O => Some (s, w)
  | S n =>
    match input_chain (map cli_id (cli_bucket s h)) s rfds w with
    | None => None
    | Some (s, w) => input_chains n (S h) s rfds w
    end
  end.
Definition ssn_server_input_fds s (rfds : list Z) w : option (ssn_server * W) :=
  if negb (srv_valid s) then Some (s, w)
  else match input_chains (Z.to_nat IPC_CLI_HASH_SIZE) 0 s rfds w with
  | None => None
  | Some (s, w) =>
    match ssn_server_handle_new_connection s rfds w with
    | None => None
    | Some (s, w) => ssn_server_handle_event_input s rfds w
    end
  end.

(** The descriptors watched and their maximum; [None] if one of them does not
    fit an [fd_set]. *)
Definition ssn_server_fds s : option (list Z * Z) :=
  match (if srv_valid s then srv_transport s else None) with
  | None => Some ([], -1)
  | Some t =>
    let fds := filter (fun fd => 0 <= fd)
      (ssn_transport_get_fd t :: ipc_event_pair_get_read_fd (srv_evt s)
       :: map (fun c => ssn_transport_get_fd (cli_transport c)) (concat (clis s))) in
    if forallb (fun fd => fd <? FD_SETSIZE) fds then Some (fds, foldr Z.max (-1) fds) else None
  end.

(** [do cnt = pselect(...) while (cnt < 0 && errno == EINTR)]; signals may
    interrupt any number of times, so the bound is the caller's. *)
Fixpoint pselect_loop (fuel : nat) (fds : list Z) (timeout : option Z) w : option (Z * list Z * W) :=
  match fuel with
  | O => None
  | S fuel =>
    let '(cnt, ready, w) := os_pselect fds timeout w in
    if (cnt <? 0) && (os_errno w =? EINTR) then pselect_loop fuel fds timeout w
    else Some (cnt, ready, w)
  end.

Definition ssn_server_poll (signals : nat) s (timeout_ms : Z) w : option (Z * ssn_server * W) :=
  if srv_freed s then None
  else
    let s := ssn_server_ref s in
    match ssn_server_fds s with
    | None => None
    | Some (fds, _) =>
      match pselect_loop signals fds (if timeout_ms >=? 0 then Some timeout_ms else None) w with
      | None => None
      | Some (cnt, ready, w) =>
        if cnt >? 0 then
          match ssn_server_input_fds s ready w with
          | None => None
          | Some (s, w) =>
            match ssn_server_unref s w with Some (s, w) => Some (0, s, w) | None => None end
          end
        else
          match ssn_server_unref s w with Some (s, w) => Some (cnt, s, w) | None => None end
      end
    end.

(** The body of [ssn_server_run]'s loop, [rounds] times at most; it stops when
    the server was destroyed or has no usable transport. *)
Fixpoint run_loop (rounds signals : nat) s w : option (ssn_server * W) :=
  match rounds with
  | O => None
  | S rounds =>
    if negb (srv_valid s) then Some (s, w)
    else match ssn_server_fds s with
    | None => None
    | Some (fds, max_fd) =>
      if max_fd <? 0 then Some (s, w)
      else match pselect_loop signals fds None w with
      | None => None
      | Some (cnt, ready, w) =>
        if cnt >? 0 then
          match ssn_server_input_fds s ready w with
          | None => None
          | Some (s, w) => run_loop rounds signals s w
          end
        else run_loop rounds signals s w
      end
    end
  end.
Definition ssn_server_run (rounds signals : nat) s w : option (ssn_server * W) :=
  if srv_freed s then None
  else match run_loop rounds signals (ssn_server_ref s) w with
  | None => None
  | Some (s, w) => ssn_server_unref s w
  end.

(** ** Creation *)

Record server_options_t := mk_options {
  opt_send_timeout_ms : Z; opt_conn_timeout_ms : Z; opt_idle_timeout_sec : Z;
  opt_max_connections : Z;
}.

(** The interface name of the options is stored and never read. *)
Definition new_server (name : bytes) (opts : option server_options_t) (e : ipc_event_pair) : ssn_server :=
  let '(st, hs, ka, mc) :=
    match opts with
    | Some o =>
        (i32 (opt_send_timeout_ms o),
         (if opt_conn_timeout_ms o >? 0 then i32 (opt_conn_timeout_ms o)
          else SSN_SERVER_DEF_HANDSHAKE_TIMEOUT),
         i32 (opt_idle_timeout_sec o),
         (if opt_max_connections o >? 0 then opt_max_connections o
          else SSN_SERVER_DEFAULT_MAX_CONNECTIONS))
    | None => (SSN_DEF_SEND_TIMEOUT, SSN_SERVER_DEF_HANDSHAKE_TIMEOUT, SSN_SERVER_KEEPALIVE_TIMEOUT,
               SSN_SERVER_DEFAULT_MAX_CONNECTIONS)
    end in
  mk_server true false 1 (ztake (SRV_NAME_LEN - 1) name) 0 []
    (replicate (Z.to_nat IPC_CLI_HASH_SIZE) []) (replicate (Z.to_nat IPC_CMD_HASH_SIZE) [])
    None [] None 0 None None st hs ka mc None e.

(** [late_ok]: the send buffer and the three protocol-layer instances could be
    allocated; a failure releases the event pair. *)
Definition ssn_server_create_with_options (late_ok : bool) (name : bytes)
    (opts : option server_options_t) w : option ssn_server * W :=
  let '(ok, w) := os_calloc w in
  if negb ok then (None, w)
  else
    let '(e, w) := ipc_event_pair_create w in
    match e with
    | None => (None, w)
    | Some e =>
      if late_ok then (Some (new_server name opts e), w)
      else (None, ipc_event_pair_destroy e w)
    end.
Definition ssn_server_create (late_ok : bool) (name : bytes) w : option ssn_server * W :=
  ssn_server_create_with_options late_ok name None w.

(** ** Starting *)

Definition server_config (s : ssn_server) (ty : ssn_transport_type_t) : ssn_transport_config_t :=
  mk_config ty true (srv_send_timeout s) 1000 (handshake_timeout s) true (keepalive_timeout s) 10 3 false
    SSN_MAX_PACKET_SIZE SSN_MAX_PACKET_SIZE true.

(** A stale socket file is removed; any other file at the path is refused. *)
Definition clear_socket_file s (ty : ssn_transport_type_t) w : bool * W :=
  match ty with
  | SSN_TRANSPORT_UNIX =>
    let '(st, w) := os_stat (srv_name s) w in
    match st with
    | StatSock => (true, os_unlink (srv_name s) w)
    | StatOther => (false, w)
    | StatFail => (os_errno w =? ENOENT, w)
    end
  | _ => (true, w)
  end.

(** The protocol-layer instances are bound to the transport here too. *)
Definition ssn_server_start s w : bool * ssn_server * W :=
  if negb (srv_valid s) then (false, s, w)
  else
    let address_str :=
      match split_first SCHEME_END (srv_name s) with
      | Some _ => ztake 255 (srv_name s)
      | None => ztake 255 (UNIX_PREFIX ++ srv_name s)
      end in
    match ssn_address_parse address_str w with
    | (None, w) => (false, s, w)
    | (Some addr, w) =>
      let '(ok, w) := clear_socket_file s (addr_type addr) w in
      if negb ok then (false, s, w)
      else
        match ssn_transport_create g (addr_type addr) (Some (server_config s (addr_type addr))) w with
        | (None, w) => (false, with_transport s None, w)
        | (Some t, w) =>
          let '(bound, t) := ssn_transport_bind t addr in
          if negb bound then (false, with_transport s None, ssn_transport_destroy t w)
          else
            let '(listening, t, w) := ssn_transport_listen t SSN_SERVER_BACKLOG w in
            if listening then (true, with_transport s (Some t), w)
            else (false, with_transport s None, ssn_transport_destroy t w)
        end
    end.

(** The socket address and its length. *)
Definition ssn_server_address s : option (bytes * Z) :=
  match (if srv_valid s then srv_transport s else None) with
  | None => None
  | Some t =>
    let a := ssn_transport_get_address t in
    match addr_type a with
    | SSN_TRANSPORT_UNIX => Some (unix_addr a, 110)
    | SSN_TRANSPORT_TCP | SSN_TRANSPORT_UDP => Some (inet_addr a, 16)
    | SSN_TRANSPORT_TCP6 | SSN_TRANSPORT_UDP6 => Some (inet6_addr a, 28)
    | _ => None
    end
  end.
End world.
