(* ===== verification/ServerTable.v ===== *)
(** * Server connection table: representation invariant

    [ssn_server_cli_find] over the 64 hash chains behaves as a finite map from
    peer ids; the timer list [hst_h] holds exactly the ids of the connections
    whose timer node is linked.  The lemmas describe every primitive update of
    the table through [find]; the handlers of [Server] only use these. *)
From S2P Require Import Prelude FrameCodec Os Transport Address FrameSend EventPair Server.

(** ** Invariant *)

Definition cli_ok (h : nat) (c : ssn_server_cli_t) : Prop :=
  ssn_server_cli_hash (cli_id c) = h /\ 0 <= cli_id c < 2 ^ 32 /\
  stream_inv (cli_recv c) /\ cfg_ok (cli_transport c).

(** Placement and uniqueness in the chains. *)
Definition chains_ok (l : list (list ssn_server_cli_t)) : Prop :=
  length l = 64%nat /\
  forall h, Forall (cli_ok h) (nth h l []) /\ NoDup (map cli_id (nth h l [])).

(** The timer list against the table. *)
Definition timers_ok (s : ssn_server) : Prop :=
  NoDup (hst_h s) /\
  forall id, (id ∈ hst_h s) <-> exists c, ssn_server_cli_find s id = Some c /\ hst_linked c = true.

Definition table_wf (s : ssn_server) : Prop :=
  chains_ok (clis s) /\ timers_ok s /\ 0 <= ncid s < 2 ^ 32 /\ cli_total s <= max_connections s.

(** ** Hashing *)

Lemma cli_hash_lt id : (ssn_server_cli_hash id < 64)%nat.
Proof.
  unfold ssn_server_cli_hash. change IPC_CLI_HASH_MASK with (Z.ones 6).
  rewrite Z.land_ones by lia. pose proof (Z.mod_pos_bound id (2 ^ 6)). lia.
Qed.

Lemma nth_insert_eq {A} (l : list (list A)) i x :
  (i < length l)%nat -> nth i (<[i := x]> l) [] = x.
Proof. intros. by rewrite nth_lookup, list_lookup_insert_eq. Qed.
Lemma nth_insert_ne {A} (l : list (list A)) i j x :
  i <> j -> nth j (<[i := x]> l) [] = nth j l [].
Proof. intros. by rewrite !nth_lookup, list_lookup_insert_ne. Qed.

(** ** Searching a chain *)

Lemma find_cli_some l id c : find_cli l id = Some c -> c ∈ l /\ cli_id c = id.
Proof.
  induction l as [|x l IH]; [done|]. cbn. destruct (Z.eqb_spec (cli_id x) id).
  - intros [= ->]. split; [left|done].
  - intros [? ?]%IH. split; [by right|done].
Qed.

Lemma find_cli_none l id : find_cli l id = None <-> id ∉ map cli_id l.
Proof.
  induction l as [|x l IH]; cbn; [split; [intros _; apply not_elem_of_nil|done]|].
  rewrite not_elem_of_cons, <- IH. destruct (Z.eqb_spec (cli_id x) id); [|naive_solver].
  split; [done|]. by intros [? _].
Qed.

Lemma find_cli_in l c : NoDup (map cli_id l) -> c ∈ l -> find_cli l (cli_id c) = Some c.
Proof.
  induction l as [|x l IH]; intros Hnd Hin; [by apply elem_of_nil in Hin|]. cbn in *.
  apply NoDup_cons in Hnd as [Hx Hnd]. apply elem_of_cons in Hin as [->|Hin].
  - by rewrite Z.eqb_refl.
  - destruct (Z.eqb_spec (cli_id x) (cli_id c)) as [E|]; [|by apply IH].
    destruct Hx. rewrite E. by apply list_elem_of_fmap_2.
Qed.

Definition replace_cli (c : ssn_server_cli_t) (l : list ssn_server_cli_t) : list ssn_server_cli_t :=
  map (fun x => if cli_id x =? cli_id c then c else x) l.

Lemma replace_ids c l : map cli_id (replace_cli c l) = map cli_id l.
Proof.
  unfold replace_cli. rewrite map_map. apply map_ext. intros x.
  by destruct (Z.eqb_spec (cli_id x) (cli_id c)).
Qed.

Lemma find_replace c l id :
  find_cli (replace_cli c l) id
  = if decide (id = cli_id c) then (match find_cli l id with Some _ => Some c | None => None end)
    else find_cli l id.
Proof.
  induction l as [|x l IH]; cbn; [by destruct (decide _)|].
  destruct (Z.eqb_spec (cli_id x) (cli_id c)) as [E|E], (decide (id = cli_id c)) as [->|Hne].
  - by rewrite E, Z.eqb_refl.
  - destruct (Z.eqb_spec (cli_id c) id); [congruence|].
    destruct (Z.eqb_spec (cli_id x) id); [congruence|done].
  - destruct (Z.eqb_spec (cli_id x) (cli_id c)); [congruence|done].
  - destruct (Z.eqb_spec (cli_id x) id); [done|]. done.
Qed.

Lemma find_remove l id id' :
  find_cli (remove_cli l id) id' = if decide (id' = id) then None else find_cli l id'.
Proof.
  unfold remove_cli. induction l as [|x l IH]; [by cbn; destruct (decide _)|].
  rewrite filter_cons. destruct (decide (cli_id x <> id)) as [Hx|Hx]; cbn.
  - destruct (Z.eqb_spec (cli_id x) id'); [|done]. subst id'. by destruct (decide _).
  - rewrite IH. destruct (decide (id' = id)) as [|Hne]; [done|].
    destruct (Z.eqb_spec (cli_id x) id'); [|done]. destruct Hx. congruence.
Qed.

(** ** The table as a map *)

Section table.
Implicit Types (s : ssn_server) (c : ssn_server_cli_t).

(** Same chains, timer list, limit and id counter. *)
Definition same_table s s' : Prop :=
  clis s' = clis s /\ hst_h s' = hst_h s /\ max_connections s' = max_connections s /\ ncid s' = ncid s.

Lemma find_same_table s s' id :
  same_table s s' -> ssn_server_cli_find s' id = ssn_server_cli_find s id.
Proof. intros (Hc & _). unfold ssn_server_cli_find, cli_bucket. by rewrite Hc. Qed.

Lemma table_wf_same s s' : same_table s s' -> table_wf s -> table_wf s'.
Proof.
  intros Hs (Hch & [Hnd Ht] & Hn & Hm). pose proof Hs as (Hc & Hh & Hmax & Hncid).
  split; [|split; [split|split]].
  - by rewrite Hc.
  - by rewrite Hh.
  - intros id. rewrite Hh, Ht. by setoid_rewrite (find_same_table s s' id Hs).
  - by rewrite Hncid.
  - unfold cli_total in *. by rewrite Hc, Hmax.
Qed.

Lemma find_bucket s id c :
  chains_ok (clis s) -> ssn_server_cli_find s id = Some c ->
  cli_id c = id /\ cli_ok (ssn_server_cli_hash id) c.
Proof.
  intros [_ Hch] [Hin Hid]%find_cli_some. split; [done|].
  destruct (Hch (ssn_server_cli_hash id)) as [Hf _]. rewrite Forall_forall in Hf. by apply Hf.
Qed.

Lemma find_put s c id :
  chains_ok (clis s) ->
  ssn_server_cli_find (cli_put s c) id
  = if decide (id = cli_id c)
    then (match ssn_server_cli_find s id with Some _ => Some c | None => None end)
    else ssn_server_cli_find s id.
Proof.
  intros [Hlen _]. unfold ssn_server_cli_find, cli_put, cli_bucket; cbn [clis with_table].
  destruct (decide (ssn_server_cli_hash (cli_id c) = ssn_server_cli_hash id)) as [E|E].
  - rewrite E, nth_insert_eq by (rewrite Hlen; apply cli_hash_lt). apply find_replace.
  - rewrite nth_insert_ne by done. destruct (decide (id = cli_id c)); [congruence|done].
Qed.

Lemma chains_ok_insert l h b :
  chains_ok l -> Forall (cli_ok h) b -> NoDup (map cli_id b) -> chains_ok (<[h := b]> l).
Proof.
  intros [Hlen Hch] Hf Hnd. split; [by rewrite length_insert|]. intros h'.
  destruct (decide (h = h')) as [->|]; [|rewrite nth_insert_ne by done; apply Hch].
  destruct (decide (h' < length l)%nat); [by rewrite nth_insert_eq|].
  rewrite list_insert_ge by lia. apply Hch.
Qed.

Lemma chains_ok_put s c :
  chains_ok (clis s) -> cli_ok (ssn_server_cli_hash (cli_id c)) c -> chains_ok (clis (cli_put s c)).
Proof.
  intros Hch Hc. destruct Hch as [Hlen Hb] eqn:E. clear E. apply chains_ok_insert; [done| |].
  - destruct (Hb (ssn_server_cli_hash (cli_id c))) as [Hf _].
    apply Forall_fmap. eapply Forall_impl; [exact Hf|]. intros x Hx. cbn.
    by destruct (cli_id x =? cli_id c).
  - fold (replace_cli c (cli_bucket s (ssn_server_cli_hash (cli_id c)))). rewrite replace_ids. apply Hb.
Qed.

(** Sizes: [concat] over an updated list of chains. *)
Lemma zlen_concat_insert {A} (l : list (list A)) h b :
  (h < length l)%nat ->
  zlen (concat (<[h := b]> l)) = zlen (concat l) - zlen (nth h l []) + zlen b.
Proof.
  revert h. induction l as [|x l IH]; intros [|h] Hh; cbn in *; [lia..| |].
  - rewrite !zlen_app. lia.
  - rewrite !zlen_app, IH by lia. lia.
Qed.

Lemma cli_total_put s c : chains_ok (clis s) -> cli_total (cli_put s c) = cli_total s.
Proof.
  intros [Hlen _]. unfold cli_total, cli_put; cbn [clis with_table].
  rewrite zlen_concat_insert by (rewrite Hlen; apply cli_hash_lt).
  fold (replace_cli c (cli_bucket s (ssn_server_cli_hash (cli_id c)))).
  unfold replace_cli, zlen, cli_bucket. rewrite length_map. lia.
Qed.

(** Writing back a connection whose timer link did not change. *)
Lemma table_wf_put s c c0 :
  table_wf s -> ssn_server_cli_find s (cli_id c) = Some c0 -> hst_linked c = hst_linked c0 ->
  stream_inv (cli_recv c) -> cfg_ok (cli_transport c) ->
  table_wf (cli_put s c).
Proof.
  intros (Hch & [Hnd Ht] & Hn & Hm) Hf Hl Hr Hc.
  destruct (find_bucket s _ c0 Hch Hf) as [Hid0 (_ & Hrange & _)].
  split; [apply chains_ok_put; [done|]; split_and!; done || (rewrite <- Hid0; done) || lia|].
  split; [|split; [done|]; rewrite cli_total_put by done; done].
  split; [done|]. intros id. change (hst_h (cli_put s c)) with (hst_h s). rewrite Ht.
  setoid_rewrite (find_put s c id Hch). destruct (decide (id = cli_id c)) as [->|]; [|done].
  rewrite Hf. split; intros (c' & [= <-] & Hc'); eexists; (split; [done|]); congruence.
Qed.

Lemma in_remove_hst l id x : (x ∈ remove_hst l id) <-> (x ∈ l) /\ x <> id.
Proof. unfold remove_hst. rewrite list_elem_of_filter. naive_solver. Qed.

(** Unlinking a connection's timer node. *)
Lemma table_wf_unlink s c c0 :
  table_wf s -> ssn_server_cli_find s (cli_id c) = Some c0 -> hst_linked c = false ->
  stream_inv (cli_recv c) -> cfg_ok (cli_transport c) ->
  table_wf (with_table (cli_put s c) (remove_hst (hst_h s) (cli_id c)) (clis (cli_put s c))).
Proof.
  intros (Hch & [Hnd Ht] & Hn & Hm) Hf Hl Hr Hc.
  destruct (find_bucket s _ c0 Hch Hf) as [Hid0 (_ & Hrange & _)].
  split; [apply chains_ok_put; [done|]; split_and!; done || (rewrite <- Hid0; done) || lia|].
  split; [|split; [done|]; apply (cli_total_put s c) in Hch; unfold cli_total in *; cbn in *; lia].
  split; [by apply NoDup_filter|]. intros id. cbn [hst_h with_table].
  rewrite in_remove_hst, Ht.
  change (ssn_server_cli_find (with_table _ _ _) id) with (ssn_server_cli_find (cli_put s c) id).
  setoid_rewrite (find_put s c id Hch). destruct (decide (id = cli_id c)) as [->|Hne].
  - rewrite Hf. split; [by intros [_ ?]|]. intros (c' & [= <-] & ?). congruence.
  - naive_solver.
Qed.

Lemma remove_cli_ids l id : map cli_id (remove_cli l id) = filter (fun x => x <> id) (map cli_id l).
Proof.
  unfold remove_cli. induction l as [|x l IH]; [done|]. rewrite filter_cons. cbn [map].
  rewrite filter_cons. destruct (decide (cli_id x <> id)); cbn; by rewrite IH.
Qed.

Lemma zlen_remove_cli l id c :
  NoDup (map cli_id l) -> find_cli l id = Some c -> zlen (remove_cli l id) = zlen l - 1.
Proof.
  unfold remove_cli. induction l as [|x l IH]; [done|]. cbn [find_cli map].
  intros [Hx Hnd]%NoDup_cons. rewrite filter_cons.
  destruct (Z.eqb_spec (cli_id x) id) as [E|E]; intros Hf.
  - destruct (decide (cli_id x <> id)); [done|]. rewrite zlen_cons.
    enough (filter (fun c => cli_id c <> id) l = l) as -> by lia.
    apply filter_all. intros y Hy. intros Eq. destruct Hx. rewrite E, <- Eq.
    by apply list_elem_of_fmap_2.
  - destruct (decide (cli_id x <> id)); [|done]. rewrite !zlen_cons, IH by done. lia.
Qed.

(** The table after a connection was removed from its chain. *)
Definition drop_from_table s (h : list Z) (id : Z) : ssn_server :=
  with_table s h (<[ssn_server_cli_hash id := remove_cli (cli_bucket s (ssn_server_cli_hash id)) id]> (clis s)).

Lemma find_drop s h id id' :
  chains_ok (clis s) ->
  ssn_server_cli_find (drop_from_table s h id) id'
  = if decide (id' = id) then None else ssn_server_cli_find s id'.
Proof.
  intros [Hlen _]. unfold ssn_server_cli_find, drop_from_table, cli_bucket; cbn [clis with_table].
  destruct (decide (ssn_server_cli_hash id = ssn_server_cli_hash id')) as [E|E].
  - rewrite E, nth_insert_eq by (rewrite Hlen; apply cli_hash_lt). apply find_remove.
  - rewrite nth_insert_ne by done. destruct (decide (id' = id)); [congruence|done].
Qed.

Lemma table_wf_drop s id c :
  table_wf s -> ssn_server_cli_find s id = Some c ->
  table_wf (drop_from_table s (if hst_linked c then remove_hst (hst_h s) id else hst_h s) id) /\
  cli_total (drop_from_table s (if hst_linked c then remove_hst (hst_h s) id else hst_h s) id)
  = cli_total s - 1.
Proof.
  intros (Hch & [Hnd Ht] & Hn & Hm) Hf. pose proof Hch as [Hlen Hb].
  set (h := if hst_linked c then _ else _).
  assert (cli_total (drop_from_table s h id) = cli_total s - 1) as Htot.
  { unfold cli_total, drop_from_table; cbn [clis with_table].
    rewrite zlen_concat_insert by (rewrite Hlen; apply cli_hash_lt).
    unfold cli_bucket. rewrite (zlen_remove_cli _ id c); [lia|apply Hb|exact Hf]. }
  split; [|done]. split; [|split; [split|split; [done|rewrite Htot; change (max_connections _) with (max_connections s); lia]]].
  - destruct (Hb (ssn_server_cli_hash id)) as [Hfa Hnda]. apply chains_ok_insert; [done| |].
    + unfold remove_cli. by apply Forall_filter_sub.
    + unfold cli_bucket. rewrite remove_cli_ids. by apply NoDup_filter.
  - cbn. subst h. destruct (hst_linked c); [by apply NoDup_filter|done].
  - intros id'. setoid_rewrite (find_drop s h id id' Hch). cbn [hst_h drop_from_table with_table].
    destruct (decide (id' = id)) as [->|Hne].
    + split; [|by intros (? & ? & _)]. subst h. destruct (hst_linked c) eqn:El.
      * by intros [_ ?]%in_remove_hst.
      * intros (c' & Hc' & Hl')%Ht. congruence.
    + subst h. destruct (hst_linked c); [rewrite in_remove_hst|]; rewrite Ht; naive_solver.
Qed.

(** ** Fresh ids *)

Lemma find_in_table s id :
  chains_ok (clis s) -> ssn_server_cli_find s id <> None -> id ∈ map cli_id (concat (clis s)).
Proof.
  intros Hch Hf. destruct (ssn_server_cli_find s id) as [c|] eqn:E; [|done].
  apply find_cli_some in E as [Hin <-]. apply list_elem_of_fmap_2, elem_of_concat.
  unfold cli_bucket in Hin. rewrite nth_lookup in Hin.
  destruct (clis s !! _) as [b|] eqn:Eb; [|by apply elem_of_nil in Hin].
  exists b. split; [done|]. by eapply list_elem_of_lookup_2.
Qed.

Lemma newid_loop_none fuel s n :
  newid_loop fuel s n = None ->
  forall i, 0 <= i < Z.of_nat fuel -> ssn_server_cli_find s (if i =? 0 then n else u32 (n + i)) <> None.
Proof.
  revert n. induction fuel as [|fuel IH]; intros n; [lia|]. cbn [newid_loop].
  destruct (ssn_server_cli_find s n) eqn:E; [|done]. intros Hn i Hi.
  destruct (Z.eqb_spec i 0) as [->|Hi0]; [congruence|].
  specialize (IH (u32 (n + 1)) Hn (i - 1) ltac:(lia)).
  destruct (Z.eqb_spec (i - 1) 0); [by replace i with 1 by lia|].
  assert (u32 (u32 (n + 1) + (i - 1)) = u32 (n + i)) as <-; [|done].
  unfold u32. rewrite Zplus_mod_idemp_l. f_equal. lia.
Qed.

Lemma newid_loop_some fuel s n id n' :
  0 <= n < 2 ^ 32 -> newid_loop fuel s n = Some (id, n') ->
  ssn_server_cli_find s id = None /\ 0 <= id < 2 ^ 32 /\ 0 <= n' < 2 ^ 32.
Proof.
  revert n. induction fuel as [|fuel IH]; intros n Hn; [done|]. cbn [newid_loop].
  destruct (ssn_server_cli_find s n) eqn:E.
  - apply IH. apply u32_range.
  - intros ?; simplify_eq. split; [done|]. split; [done|]. apply u32_range.
Qed.

Lemma u32_shift_inj n i j :
  0 <= n < 2 ^ 32 -> 0 <= i < 2 ^ 32 -> 0 <= j < 2 ^ 32 -> u32 (n + i) = u32 (n + j) -> i = j.
Proof. unfold u32. intros. Z.to_euclidean_division_equations. lia. Qed.

(** Id allocation terminates: more than [cli_total] consecutive ids cannot all
    be taken. *)
Lemma newid_total s :
  chains_ok (clis s) -> 0 <= ncid s < 2 ^ 32 -> cli_total s < 2 ^ 32 - 1 ->
  exists id s', ssn_server_cli_newid s = Some (id, s') /\ ssn_server_cli_find s id = None /\
    0 <= id < 2 ^ 32 /\ exists n, s' = with_ncid s n /\ 0 <= n < 2 ^ 32.
Proof.
  intros Hch Hn Htot. unfold ssn_server_cli_newid.
  destruct (newid_loop _ s (ncid s)) as [[id n']|] eqn:E.
  { apply newid_loop_some in E as (? & ? & ?); [|done]. eexists _, _. split; [done|].
    split; [done|]. split; [done|]. eauto. }
  exfalso. pose proof (newid_loop_none _ _ _ E) as Hall.
  set (k := S (length (concat (clis s)))) in *.
  set (ids := map (fun i => u32 (ncid s + Z.of_nat i)) (seq 0 k)).
  assert (NoDup ids) as Hnd.
  { apply NoDup_fmap_2_strong; [|apply NoDup_seq]. intros i j Hi Hj Eij.
    apply elem_of_seq in Hi, Hj. apply u32_shift_inj in Eij; unfold cli_total, zlen in *; lia. }
  assert (length ids <= length (map cli_id (concat (clis s))))%nat as Hle.
  { apply NoDup_incl_length; [by apply NoDup_ListNoDup|]. intros x Hx%list_elem_of_In.
    apply list_elem_of_fmap in Hx as (i & -> & Hi%elem_of_seq). apply list_elem_of_In.
    apply find_in_table; [done|]. specialize (Hall (Z.of_nat i) ltac:(lia)).
    destruct (Z.eqb_spec (Z.of_nat i) 0) as [Ei|]; [|done].
    rewrite Ei, Z.add_0_r, u32_id by lia. done. }
  subst ids. rewrite !length_map, length_seq in Hle. lia.
Qed.

Lemma find_add s id c id' :
  chains_ok (clis s) -> cli_id c = id ->
  ssn_server_cli_find (with_table s (id :: hst_h s)
    (<[ssn_server_cli_hash id := c :: cli_bucket s (ssn_server_cli_hash id)]> (clis s))) id'
  = if decide (id' = id) then Some c else ssn_server_cli_find s id'.
Proof.
  intros [Hlen _] Hid. unfold ssn_server_cli_find, cli_bucket; cbn [clis with_table].
  destruct (decide (ssn_server_cli_hash id = ssn_server_cli_hash id')) as [E|E].
  - rewrite E, nth_insert_eq by (rewrite Hlen; apply cli_hash_lt). cbn. rewrite Hid.
    destruct (Z.eqb_spec id id'), (decide (id' = id)); congruence.
  - rewrite nth_insert_ne by done. destruct (decide (id' = id)); [congruence|done].
Qed.

(** A new connection: the limit was checked by the caller. *)
Lemma cli_init_spec s t recv :
  table_wf s -> cli_total s < max_connections s -> max_connections s < 2 ^ 32 ->
  stream_inv recv -> cfg_ok t ->
  exists id s', ssn_server_cli_init s t recv = Some s' /\ table_wf s' /\
    ssn_server_cli_find s id = None /\
    (forall id', ssn_server_cli_find s' id' =
       if decide (id' = id) then Some (mk_cli false false [] (handshake_timeout s) true recv t id)
       else ssn_server_cli_find s id') /\
    exists n h cs, s' = with_table (with_ncid s n) h cs.
Proof.
  intros (Hch & [Hnd Ht] & Hn & Hm) Hlt Hmax Hr Hc. unfold ssn_server_cli_init.
  destruct (newid_total s Hch Hn ltac:(lia)) as (id & s1 & -> & Hfresh & Hrange & n & -> & Hn').
  set (c := mk_cli false false [] (handshake_timeout (with_ncid s n)) true recv t id).
  pose proof (fun id' => find_add (with_ncid s n) id c id' Hch eq_refl) as Hfind.
  eexists id, _. split; [reflexivity|].
  assert (id ∉ hst_h s) as Hnot. { intros (c' & Hc' & _)%Ht. congruence. }
  split; [|split; [done|split; [exact Hfind|by eexists _, _, _]]].
  pose proof Hch as [Hlen Hb]. destruct (Hb (ssn_server_cli_hash id)) as [Hfa Hnda].
  split; [|split; [split|split; [done|]]].
  - apply chains_ok_insert; [done| |].
    + constructor; [|exact Hfa]. split; [done|]. split; [done|]. by split.
    + cbn. constructor; [|exact Hnda]. by apply find_cli_none.
  - cbn. by constructor.
  - intros id'. setoid_rewrite (Hfind id'). cbn [hst_h with_table].
    change (hst_h (with_ncid s n)) with (hst_h s). rewrite elem_of_cons, Ht.
    destruct (decide (id' = id)) as [->|Hne]; [|naive_solver].
    split; [intros _; by eexists|by left].
  - unfold cli_total in *; cbn [clis with_table max_connections].
    rewrite zlen_concat_insert by (cbn; rewrite Hlen; apply cli_hash_lt).
    unfold cli_bucket. rewrite zlen_cons. cbn. lia.
Qed.
End table.
