(* ===== verification/ServerProps.v ===== *)
(** * Server: safety of the event loop and behaviour of the operations

    The server invariant, its preservation by every operation and handler, and
    the theorem that a poll of a server in this state is defined: no handler
    ever follows a dangling connection pointer, whatever the peers send, the
    kernel answers and well-behaved application callbacks do.  Then timers,
    publishing and method dispatch. *)
From S2P Require Import Prelude FrameCodec ErrorCode Os Transport Address FrameSend EventPair Server ServerTable.

(** ** Invariant *)

(** The FIFO of prefix methods: the tail pointer is its last node.  Removing the
    newest prefix method breaks this, so it is not part of the invariant. *)
Definition tail_ok (s : ssn_server) : Prop :=
  match prefix_t s with
  | None => prefix_h s = []
  | Some n => exists c, last (prefix_h s) = Some c /\ cmd_node c = n
  end.

Definition methods_ok (s : ssn_server) : Prop :=
  length (cmds s) = 32%nat /\
  (forall h, Forall (fun c => ssn_server_url_hash (cmd_url c) = h) (cmd_bucket s h)).

(** The listening transport and the ones a start will make have a send timeout
    that fits an [int]. *)
Definition transport_ok (s : ssn_server) : Prop :=
  match srv_transport s with Some t => cfg_ok t | None => True end /\ srv_send_timeout s < 2 ^ 31.

(** [k] references are held by running loops besides the creator's. *)
Record server_inv (k : Z) (s : ssn_server) : Prop := {
  inv_table : table_wf s;
  inv_max : 0 <= max_connections s < 2 ^ 32;
  inv_methods : methods_ok s;
  inv_live : srv_freed s = false;
  inv_refs : (if srv_valid s then 1 else 0) + k <= ref_count s;
  inv_transport : transport_ok s;
}.

(** The same connections are in the table. *)
Definition same_ids (s s' : ssn_server) : Prop :=
  forall id, is_Some (ssn_server_cli_find s' id) <-> is_Some (ssn_server_cli_find s id).
(** The same connections, the one with this id aside. *)
Definition same_ids_but (id : Z) (s s' : ssn_server) : Prop :=
  forall id', id' <> id ->
    (is_Some (ssn_server_cli_find s' id') <-> is_Some (ssn_server_cli_find s id')).

#[global] Instance same_ids_preorder : PreOrder same_ids.
Proof. split; [by intros s id|]. intros s1 s2 s3 H1 H2 id. etrans; [apply H2|apply H1]. Qed.

Lemma same_ids_weaken id s s' : same_ids s s' -> same_ids_but id s s'.
Proof. intros Hs id' _. apply Hs. Qed.
Lemma same_ids_but_trans id s1 s2 s3 :
  same_ids_but id s1 s2 -> same_ids_but id s2 s3 -> same_ids_but id s1 s3.
Proof. intros H1 H2 id' Hne. etrans; [by apply H2|by apply H1]. Qed.

(** A directory method is registered only while the tail pointer is the last node
    of the list. *)
Definition add_safe (s : ssn_server) (url : option ssn_url_ref_t) : Prop :=
  match checked_url url with Some u => is_prefix u = true -> tail_ok s | None => True end.

(** API calls an application may make in a state: memory it passes is valid, and it
    registers no directory method once the tail pointer dangles. *)
Definition call_ok (c : api_call) (s : ssn_server) : Prop :=
  match c with
  | CallPublish u d => refs_ok u d
  | CallResponse _ _ _ d => refs_ok None d
  | CallMessage _ u d => refs_ok u d
  | CallAddMethod u _ _ => add_safe s u
  | _ => True
  end.
(** The same for calls one after the other, each in the state it is made in. *)
Fixpoint calls_ok {W} `{OsOps W} (cs : list api_call) (s : ssn_server) (w : W) : Prop :=
  match cs with
  | [] => True
  | c :: cs => call_ok c s /\ forall s' w', run_call c s w = Some (s', w') -> calls_ok cs s' w'
  end.

(** Result of a function that keeps the invariant and the set of connections. *)
Definition good {W : Type} (k : Z) (s : ssn_server) (r : option (ssn_server * W)) : Prop :=
  exists s' w', r = Some (s', w') /\ server_inv k s' /\ same_ids s s'.

Lemma good_trans {W} k s s1 (r : option (ssn_server * W)) :
  same_ids s s1 -> good k s1 r -> good k s r.
Proof. intros Hs (s' & w' & -> & Hi & Hs'). exists s', w'. split; [done|]. split; [done|]. by trans s1. Qed.

Lemma good_ret {W} k s (w : W) : server_inv k s -> good k s (Some (s, w)).
Proof. intros. by exists s, w. Qed.

(** ** Updates *)

Section updates.
Implicit Types (s : ssn_server) (c : ssn_server_cli_t).

Lemma same_ids_same_table s s' : same_table s s' -> same_ids s s'.
Proof. intros Ht id. by rewrite (find_same_table s s' id Ht). Qed.

Lemma put_ids s c : chains_ok (clis s) -> same_ids s (cli_put s c).
Proof.
  intros Hch id. rewrite find_put by done. destruct (decide _) as [->|]; [|done].
  by destruct (ssn_server_cli_find s (cli_id c)).
Qed.

Lemma put_inv k s c c0 :
  server_inv k s -> ssn_server_cli_find s (cli_id c) = Some c0 -> hst_linked c = hst_linked c0 ->
  stream_inv (cli_recv c) -> cfg_ok (cli_transport c) ->
  server_inv k (cli_put s c) /\ same_ids s (cli_put s c).
Proof.
  intros [Ht Hm Hme Hl Hr Htr] Hf Hlink Hrecv Hc. split.
  - split; [by eapply table_wf_put|done..].
  - apply put_ids, Ht.
Qed.

Lemma find_facts k s id c :
  server_inv k s -> ssn_server_cli_find s id = Some c ->
  cli_id c = id /\ stream_inv (cli_recv c) /\ cfg_ok (cli_transport c).
Proof.
  intros Hi Hf. destruct (find_bucket s id c) as [? (_ & _ & ? & ?)]; [apply Hi|done|done].
Qed.

Lemma find_put_eq k s c c0 :
  server_inv k s -> ssn_server_cli_find s (cli_id c) = Some c0 ->
  ssn_server_cli_find (cli_put s c) (cli_id c) = Some c.
Proof.
  intros Hi Hf. rewrite find_put by apply Hi. by destruct (decide _); [rewrite Hf|].
Qed.
End updates.

(** ** Sending keeps the invariant *)

Section sending.
Context {W : Type} `{OsLaws W}.
Implicit Types (s : ssn_server) (w : W).

(** Writing back a connection with another transport of the same settings. *)
Lemma put_transport_inv k s id c t :
  server_inv k s -> ssn_server_cli_find s id = Some c -> config t = config (cli_transport c) ->
  server_inv k (cli_put s (cli_with_transport c t)) /\
  same_ids s (cli_put s (cli_with_transport c t)) /\
  ssn_server_cli_find (cli_put s (cli_with_transport c t)) id = Some (cli_with_transport c t).
Proof.
  intros Hi Hf Hc. destruct (find_facts k s id c Hi Hf) as (<- & Hr & Hcfg).
  destruct (put_inv k s (cli_with_transport c t) c) as [? ?]; try done.
  { unfold cfg_ok in *. cbn. by rewrite Hc. }
  split; [done|]. split; [done|]. by apply (find_put_eq k s (cli_with_transport c t) c).
Qed.

Lemma sendmsg_good k s id hdr url data w :
  server_inv k s -> is_Some (ssn_server_cli_find s id) -> refs_ok url data ->
  exists ret hdr' s' w', ssn_server_cli_sendmsg s id hdr url data w = Some (ret, hdr', s', w') /\
    server_inv k s' /\ same_ids s s'.
Proof.
  intros Hi [c Hf] Hr. unfold ssn_server_cli_sendmsg. rewrite Hf.
  destruct (find_facts k s id c Hi Hf) as (Hid & Hrecv & Hcfg).
  destruct (send_total (cli_transport c) hdr url data w Hr Hcfg) as (ok & hdr' & t' & w' & -> & Hc').
  destruct ok.
  - destruct (put_transport_inv k s id c t' Hi Hf Hc') as (? & ? & _). by eexists _, _, _, _.
  - pose proof (disconnect_config t' w') as Hd.
    destruct (ssn_transport_disconnect t' w') as [[b t2] w2]. cbn in Hd.
    destruct (put_transport_inv k s id c t2 Hi Hf) as (? & ? & _); [congruence|]. by eexists _, _, _, _.
Qed.

Lemma reply_status_good k s id ty st sq w :
  server_inv k s -> is_Some (ssn_server_cli_find s id) -> good k s (reply_status s id ty st sq w).
Proof.
  intros Hi Hf. unfold reply_status.
  destruct (sendmsg_good k s id (ssn_create_header ty st sq) None None w Hi Hf)
    as (ret & hdr' & s' & w' & -> & ? & ?); [done|]. by exists s', w'.
Qed.

Lemma publish_loop_good k ids s hdr u url data w :
  server_inv k s -> Forall (fun id => is_Some (ssn_server_cli_find s id)) ids -> refs_ok url data ->
  good k s (publish_loop ids s hdr u url data w).
Proof.
  intros Hi Hids Hr. revert s hdr w Hi Hids. induction ids as [|id ids IH]; intros s hdr w Hi Hids; cbn.
  { by apply good_ret. }
  apply Forall_cons in Hids as [[c Hf] Hids]. rewrite Hf.
  destruct (cli_active c && ssn_server_cli_sub_match c u); [|by apply IH].
  destruct (sendmsg_good k s id hdr url data w Hi (ex_intro _ c Hf) Hr)
    as (ret & hdr' & s' & w' & -> & Hi' & Hs').
  apply (good_trans k s s'); [done|]. apply IH; [done|].
  eapply Forall_impl; [exact Hids|]. intros id' Hid'. by apply Hs'.
Qed.

Lemma all_found k s :
  server_inv k s -> Forall (fun id => is_Some (ssn_server_cli_find s id)) (map cli_id (concat (clis s))).
Proof.
  intros Hi. apply Forall_forall. intros id Hin. apply list_elem_of_fmap in Hin as (c & -> & Hin).
  apply elem_of_concat in Hin as (b & Hc & Hb). destruct (inv_table k s Hi) as [[Hlen Hch] _].
  apply list_elem_of_lookup in Hb as [h Hb].
  assert (nth h (clis s) [] = b) as Eb by (by rewrite nth_lookup, Hb).
  destruct (Hch h) as [Hfa Hnd]. rewrite Eb in Hfa, Hnd.
  rewrite Forall_forall in Hfa. destruct (Hfa c Hc) as (Hh & _).
  exists c. unfold ssn_server_cli_find, cli_bucket. rewrite Hh, Eb. by apply find_cli_in.
Qed.
End sending.

(** ** Methods *)

Lemma url_hash_lt u : (ssn_server_url_hash u < 32)%nat.
Proof.
  unfold ssn_server_url_hash. change IPC_CMD_HASH_MASK with (Z.ones 5).
  rewrite Z.land_ones by lia. pose proof (Z.mod_pos_bound (url_sum (length u) u) (2 ^ 5)). lia.
Qed.

Lemma insert_to_fifo_ok cmd h t :
  (match t with None => h = [] | Some n => exists c, last h = Some c /\ cmd_node c = n end) ->
  insert_to_fifo cmd h t = Some (h ++ [cmd], Some (cmd_node cmd)).
Proof.
  unfold insert_to_fifo. destruct t as [n|].
  - intros (c & -> & <-). by rewrite Nat.eqb_refl.
  - by intros ->.
Qed.

Section methods.
Implicit Types s : ssn_server.

Lemma same_ids_methods s cs d ph pt nn : same_ids s (with_methods s cs d ph pt nn).
Proof. by apply same_ids_same_table. Qed.

Lemma inv_with_methods k s cs d ph pt nn :
  server_inv k s -> methods_ok (with_methods s cs d ph pt nn) ->
  server_inv k (with_methods s cs d ph pt nn).
Proof. intros [Ht ? ? ? ? ?] Hm. by split. Qed.

Lemma cmd_bucket_insert s h l h' d ph pt nn :
  length (cmds s) = 32%nat -> (h < 32)%nat ->
  cmd_bucket (with_methods s (<[h := l]> (cmds s)) d ph pt nn) h'
  = if decide (h = h') then l else cmd_bucket s h'.
Proof.
  intros Hlen Hh. unfold cmd_bucket; cbn [cmds with_methods]. destruct (decide (h = h')) as [->|].
  - apply nth_insert_eq. lia.
  - by apply nth_insert_ne.
Qed.

Lemma add_method_inv k ok s url callback arg :
  server_inv k s -> add_safe s url ->
  exists r s', ssn_server_add_method ok s url callback arg = Some (r, s') /\
    server_inv k s' /\ same_ids s s'.
Proof.
  intros Hi Hsafe. unfold ssn_server_add_method, add_safe in *.
  destruct (srv_valid s); cbn [negb]; [|by eexists _, _].
  destruct (checked_url url) as [u|]; [|by eexists _, _].
  destruct (callback =? 0); [by eexists _, _|]. destruct ok; cbn [negb]; [|by eexists _, _].
  destruct (inv_methods k s Hi) as (Hlen & Hb).
  destruct (is_default u).
  { eexists _, _. split; [done|]. split; [|apply same_ids_methods].
    by apply inv_with_methods. }
  destruct (is_prefix u) eqn:Hp.
  { rewrite insert_to_fifo_ok by exact (Hsafe eq_refl). eexists _, _. split; [done|].
    split; [|apply same_ids_methods]. by apply inv_with_methods. }
  eexists _, _. split; [done|]. split; [|apply same_ids_methods].
  apply inv_with_methods; [done|]. split; [cbn; by rewrite length_insert|].
  intros h'. rewrite cmd_bucket_insert by (done || apply url_hash_lt).
  destruct (decide _) as [<-|]; [|apply Hb]. constructor; [|apply Hb].
  cbn. unfold path_of. by rewrite Hp.
Qed.

Lemma tail_add_safe s url : tail_ok s -> add_safe s url.
Proof. unfold add_safe. by destruct (checked_url url). Qed.
Lemma add_method_tail ok s url callback arg b s' :
  tail_ok s -> ssn_server_add_method ok s url callback arg = Some (b, s') -> tail_ok s'.
Proof.
  intros Ht. unfold ssn_server_add_method. destruct (negb _); [by intros; simplify_eq|].
  destruct (checked_url url) as [u|]; [|by intros; simplify_eq]. destruct (callback =? 0); [by intros; simplify_eq|].
  destruct (negb ok); [by intros; simplify_eq|]. destruct (is_default u); [by intros; simplify_eq|].
  destruct (is_prefix u); [|by intros; simplify_eq]. rewrite insert_to_fifo_ok by exact Ht. intros; simplify_eq.
  unfold tail_ok. cbn. eexists. split; [apply last_snoc|done].
Qed.

Lemma remove_first_cmd_sub l path : forall c, c ∈ remove_first_cmd l path -> c ∈ l.
Proof.
  induction l as [|x l IH]; intros c; cbn; [done|]. case_bool_decide.
  - intros. by right.
  - intros [->|?]%elem_of_cons; [left|right; auto].
Qed.

Lemma remove_method_inv k s url : server_inv k s -> server_inv k (ssn_server_remove_method s url).
Proof.
  intros Hi. unfold ssn_server_remove_method. destruct (srv_valid s); cbn [negb]; [|done].
  destruct (checked_url url) as [u|]; [|done]. destruct (inv_methods k s Hi) as (Hlen & Hb).
  destruct (is_default u); [by apply inv_with_methods|]. destruct (is_prefix u); [by apply inv_with_methods|].
  apply inv_with_methods; [done|]. split; [cbn; by rewrite length_insert|].
  intros h'. rewrite cmd_bucket_insert by (done || apply url_hash_lt).
  destruct (decide _) as [<-|]; [|apply Hb]. apply Forall_forall. intros c Hc%remove_first_cmd_sub.
  specialize (Hb (ssn_server_url_hash u)). rewrite Forall_forall in Hb. by apply Hb.
Qed.
Lemma remove_method_ids s url : same_ids s (ssn_server_remove_method s url).
Proof.
  unfold ssn_server_remove_method. destruct (negb _); [done|]. destruct (checked_url url) as [u|]; [|done].
  destruct (is_default u); [apply same_ids_methods|]. destruct (is_prefix u); apply same_ids_methods.
Qed.
End methods.

(** ** API calls *)

Section api.
Context {W : Type} `{OsLaws W}.
Implicit Types (s : ssn_server) (w : W).

Lemma publish_good k s url data w :
  server_inv k s -> refs_ok url data ->
  exists r s' w', ssn_server_publish s url data w = Some (r, s', w') /\ server_inv k s' /\ same_ids s s'.
Proof.
  intros Hi Hr. unfold ssn_server_publish. destruct (srv_valid s); cbn [negb]; [|by eexists _, _, _].
  destruct (checked_url url) as [u|]; [|by eexists _, _, _].
  destruct (publish_loop_good k (map cli_id (concat (clis s))) s
    (ssn_create_header SSN_MSG_TYPE_PUBLISH 0 0) u url data w Hi (all_found k s Hi) Hr)
    as (s' & w' & -> & ? & ?). by eexists _, _, _.
Qed.

Lemma response_good k s id status seqno data w :
  server_inv k s -> refs_ok None data ->
  exists r s' w', ssn_server_response s id status seqno data w = Some (r, s', w') /\
    server_inv k s' /\ same_ids s s'.
Proof.
  intros Hi Hr. unfold ssn_server_response. destruct (srv_valid s); cbn [negb]; [|by eexists _, _, _].
  destruct (ssn_server_cli_find s id) as [c|] eqn:Hf; [|by eexists _, _, _].
  destruct (sendmsg_good k s id (ssn_create_header SSN_MSG_TYPE_RPC_REQUEST status seqno) None data w Hi
    (ex_intro _ c Hf) Hr) as (ret & hdr' & s' & w' & -> & ? & ?). by eexists _, _, _.
Qed.

Lemma message_good k s id url data w :
  server_inv k s -> refs_ok url data ->
  exists r s' w', ssn_server_cli_do_message s id url data w = Some (r, s', w') /\
    server_inv k s' /\ same_ids s s'.
Proof.
  intros Hi Hr. unfold ssn_server_cli_do_message.
  destruct (srv_valid s); cbn [negb]; [|by eexists _, _, _].
  destruct (checked_url url) as [u|]; [|by eexists _, _, _].
  destruct data as [d|]; [|by eexists _, _, _].
  destruct (ssn_server_cli_find s id) as [c|] eqn:Hf; [|by eexists _, _, _].
  destruct (sendmsg_good k s id (ssn_create_header SSN_MSG_TYPE_MESSAGE 0 0) url (Some d) w Hi
    (ex_intro _ c Hf) Hr) as (ret & hdr' & s' & w' & -> & ? & ?). by eexists _, _, _.
Qed.

Lemma peer_close_good k s id w :
  server_inv k s ->
  let '(_, s', w') := ssn_server_peer_close s id w in server_inv k s' /\ same_ids s s'.
Proof.
  intros Hi. unfold ssn_server_peer_close. destruct (srv_valid s); cbn [negb]; [|done].
  destruct (ssn_server_cli_find s id) as [c|] eqn:Hf; [|done].
  pose proof (disconnect_config (cli_transport c) w) as Hd.
  destruct (ssn_transport_disconnect (cli_transport c) w) as [[b t] w']. cbn in Hd.
  destruct (put_transport_inv k s id c t Hi Hf Hd) as (? & ? & _). done.
Qed.

Lemma inv_same_table k s s' :
  same_table s s' -> methods_ok s' -> srv_freed s' = false ->
  (if srv_valid s' then 1 else 0) + k <= ref_count s' ->
  transport_ok s' ->
  server_inv k s -> server_inv k s'.
Proof.
  intros Ht Hm Hl Hr Htr [Hw ? _ _ _ _]. split; try done.
  - by apply (table_wf_same s).
  - by destruct Ht as (_ & _ & -> & _).
Qed.

(** Destroying the server from inside a poll only marks it. *)
Lemma destroy_good k s w :
  1 <= k -> server_inv k s -> good k s (ssn_server_destroy s w).
Proof.
  intros Hk Hi. unfold ssn_server_destroy. destruct (srv_valid s) eqn:Hv; cbn [negb]; [|by apply good_ret].
  pose proof (inv_refs k s Hi) as Hr. rewrite Hv in Hr. unfold ssn_server_unref; cbn.
  rewrite (inv_live k s Hi). destruct (Z.gtb_spec (ref_count s) 0); [|lia]. cbn.
  destruct (Z.eqb_spec (ref_count s - 1) 0); [lia|]. cbn.
  eexists _, _. split; [done|]. split; [|by apply same_ids_same_table].
  eapply inv_same_table; [..|exact Hi]; try done; try apply Hi. cbn. lia.
Qed.

Lemma run_call_good k c s w :
  1 <= k -> call_ok c s -> server_inv k s -> good k s (run_call c s w).
Proof.
  intros Hk Hc Hi. unfold run_call. rewrite (inv_live k s Hi). destruct c; cbn in Hc; try done.
  - destruct (publish_good k s url data w Hi Hc) as (r & s' & w' & -> & ? & ?). by exists s', w'.
  - destruct (response_good k s id status seqno data w Hi Hc) as (r & s' & w' & -> & ? & ?). by exists s', w'.
  - destruct (message_good k s id url data w Hi Hc) as (r & s' & w' & -> & ? & ?). by exists s', w'.
  - pose proof (peer_close_good k s id w Hi) as Hp.
    destruct (ssn_server_peer_close s id w) as [[b s'] w']. exists s', w'. split; [done|]. apply Hp.
  - destruct (os_calloc w) as [ok w'].
    destruct (add_method_inv k ok s url callback arg Hi Hc) as (r & s' & -> & ? & ?). by exists s', w'.
  - eexists _, _. split; [done|]. split; [by apply remove_method_inv|apply remove_method_ids].
  - eexists _, _. split; [done|]. split; [|by apply same_ids_same_table].
    eapply inv_same_table; [..|exact Hi]; try done; apply Hi.
  - eexists _, _. split; [done|]. split; [|by apply same_ids_same_table].
    eapply inv_same_table; [..|exact Hi]; try done; apply Hi.
  - by apply destroy_good.
Qed.

Lemma run_calls_good k cs s w :
  1 <= k -> calls_ok cs s w -> server_inv k s -> good k s (run_calls cs s w).
Proof.
  intros Hk. revert s w. induction cs as [|c cs IH]; intros s w Hcs Hi; cbn; [by apply good_ret|].
  destruct Hcs as [Hc Hcs]. destruct (run_call_good k c s w Hk Hc Hi) as (s' & w' & E & Hi' & Hs'). rewrite E.
  apply (good_trans k s s'); [done|]. apply IH; [by apply Hcs|done].
Qed.
End api.

(** ** Packet handlers *)

Section handlers.
Context {W : Type} `{OsLaws W}.
Context (user : server_event -> ssn_server -> W -> list api_call).
Hypothesis user_ok : forall e s w, calls_ok (user e s w) s w.
Context (k : Z) (Hk : 1 <= k).
Implicit Types (s : ssn_server) (w : W).

Lemma notify_good e s w : server_inv k s -> good k s (notify user e s w).
Proof. intros. by apply run_calls_good. Qed.

Lemma notify_connect_good id b s w : server_inv k s -> good k s (notify_connect user id b s w).
Proof.
  intros. unfold notify_connect. destruct (oncli s) as [[h arg]|]; [by apply notify_good|by apply good_ret].
Qed.

(** Writing back fields that matter neither to the timer link nor to sending. *)
Lemma put_plain s id c c' :
  server_inv k s -> ssn_server_cli_find s id = Some c ->
  cli_id c' = cli_id c -> hst_linked c' = hst_linked c -> cli_recv c' = cli_recv c ->
  cli_transport c' = cli_transport c ->
  server_inv k (cli_put s c') /\ same_ids s (cli_put s c') /\
  ssn_server_cli_find (cli_put s c') id = Some c'.
Proof.
  intros Hi Hf Eid El Er Et. destruct (find_facts k s id c Hi Hf) as (<- & Hr & Hc).
  rewrite <- Eid in Hf. destruct (put_inv k s c' c Hi Hf) as [? ?]; [congruence..|].
  split; [done|]. split; [done|]. rewrite <- Eid. by apply (find_put_eq k s c' c).
Qed.

Lemma unlink_inv s id c :
  server_inv k s -> ssn_server_cli_find s id = Some c ->
  let s' := with_table (cli_put s (cli_with_hst c 0 false)) (remove_hst (hst_h s) id)
              (clis (cli_put s (cli_with_hst c 0 false))) in
  server_inv k s' /\ same_ids s s'.
Proof.
  intros Hi Hf s'. destruct (find_facts k s id c Hi Hf) as (<- & Hr & Hc). split.
  - destruct Hi as [Ht ? ? ? ? ?]. split; try done.
    by apply (table_wf_unlink s (cli_with_hst c 0 false) c).
  - trans (cli_put s (cli_with_hst c 0 false)); [apply put_ids, Hi|]. by intros id.
Qed.

Lemma service_info_good s id hdr seqno w :
  server_inv k s -> is_Some (ssn_server_cli_find s id) ->
  good k s (ssn_server_handle_service_info user s id hdr seqno w).
Proof.
  intros Hi [c Hf]. unfold ssn_server_handle_service_info. rewrite Hf.
  set (s1 := if keepalive_timeout s >? 0 then _ else _).
  assert (server_inv k s1 /\ same_ids s s1) as [Hi1 Hs1].
  { subst s1. destruct (keepalive_timeout s >? 0).
    - destruct (put_plain s id c (cli_with_hst c (i32 (keepalive_timeout s * 1000)) (hst_linked c)))
        as (? & ? & _); done.
    - destruct (hst_linked c); [by apply unlink_inv|done]. }
  destruct (sendmsg_good k s1 id (ssn_create_header (h_msg_type hdr) 0 seqno) None
    (Some (mk_data_ref (Some (store32 (ssn_htonl id))) 4)) w Hi1)
    as (ret & hdr' & s2 & w2 & -> & Hi2 & Hs2).
  { apply Hs1. eauto. }
  { split; [done|]. split; [cbn; lia|]. apply Z.eq_le_incl. reflexivity. }
  assert (is_Some (ssn_server_cli_find s2 id)) as [c2 Hf2]. { apply Hs2, Hs1. eauto. }
  rewrite Hf2. apply (good_trans k s s2); [by trans s1|].
  destruct (cli_onconn c2); [by apply good_ret|].
  destruct (put_plain s2 id c2 (cli_with_onconn c2 true)) as (Hi3 & Hs3 & _); try done.
  eapply good_trans; [exact Hs3|]. by apply notify_connect_good.
Qed.

Lemma rpc_request_good s id hdr seqno url data w :
  server_inv k s -> is_Some (ssn_server_cli_find s id) ->
  good k s (ssn_server_handle_rpc_request user s id hdr seqno url data w).
Proof.
  intros Hi Hf. unfold ssn_server_handle_rpc_request.
  destruct (packet_url url) as [u|]; [|by apply reply_status_good].
  destruct (ssn_server_cmd_match s u); [by apply notify_good|by apply reply_status_good].
Qed.

(** A subscription list written back, then a reply. *)
Lemma put_sub_reply_good s id c subs ty st sq w :
  server_inv k s -> ssn_server_cli_find s id = Some c ->
  good k s (reply_status (cli_put s (cli_with_sub c subs)) id ty st sq w).
Proof.
  intros Hi Hf. destruct (put_plain s id c (cli_with_sub c subs)) as (Hi' & Hs' & Hf'); try done.
  eapply good_trans; [exact Hs'|]. apply reply_status_good; eauto.
Qed.

Lemma subscribe_good s id hdr seqno url w :
  server_inv k s -> is_Some (ssn_server_cli_find s id) ->
  good k s (ssn_server_handle_subscribe s id hdr seqno url w).
Proof.
  intros Hi [c Hf]. unfold ssn_server_handle_subscribe. rewrite Hf.
  destruct (packet_url url) as [u|]; [|apply reply_status_good; eauto].
  case_bool_decide; [apply reply_status_good; eauto|].
  destruct (os_calloc w) as [[] w']; [by apply put_sub_reply_good|apply reply_status_good; eauto].
Qed.

Lemma unsubscribe_good s id hdr seqno url w :
  server_inv k s -> is_Some (ssn_server_cli_find s id) ->
  good k s (ssn_server_handle_unsubscribe s id hdr seqno url w).
Proof.
  intros Hi [c Hf]. unfold ssn_server_handle_unsubscribe. rewrite Hf. by apply put_sub_reply_good.
Qed.

Lemma mark_active_good s id c :
  server_inv k s -> ssn_server_cli_find s id = Some c ->
  server_inv k (mark_active s c) /\ same_ids s (mark_active s c).
Proof.
  intros Hi Hf. unfold mark_active.
  destruct (_ && _).
  - destruct (put_plain s id c (cli_with_hst (cli_with_active c) (i32 (keepalive_timeout s * 1000))
      (hst_linked (cli_with_active c)))) as (? & ? & _); done.
  - destruct (put_plain s id c (cli_with_active c)) as (? & ? & _); done.
Qed.

(** A packet the stream parser delivers has a valid header, so its URL and data
    can be read. *)
Definition delivered (pkt : bytes) : Prop :=
  is_Some (ssn_get_url pkt) /\ is_Some (ssn_get_data pkt).

Lemma input_good id pkt s w :
  server_inv k s -> is_Some (ssn_server_cli_find s id) -> delivered pkt ->
  exists b s' w', ssn_server_input user id pkt s w = Some (b, s', w') /\
    server_inv k s' /\ same_ids s s'.
Proof.
  intros Hi [c Hf] [[url Hu] [data Hd]]. unfold ssn_server_input. rewrite Hf, Hu, Hd.
  destruct (mark_active_good s id c Hi Hf) as [Hi1 Hs1].
  assert (is_Some (ssn_server_cli_find (mark_active s c) id)) as Hf1. { apply Hs1. eauto. }
  generalize dependent (mark_active s c). intros s1 Hi1 Hs1 Hf1.
  assert (forall r, good k s1 r -> exists b s' w',
    match r with Some (s0, w0) => Some (srv_valid s0, s0, w0) | None => None end = Some (b, s', w') /\
    server_inv k s' /\ same_ids s s') as Hdone.
  { intros r (s' & w' & -> & ? & ?). eexists _, _, _. split; [done|]. split; [done|]. by trans s1. }
  repeat match goal with |- context [if ?b then _ else _] => destruct b end;
    first [apply Hdone | apply (Hdone (Some (s1, w)))].
  - destruct (onmsg s1) as [[h arg]|]; [by apply notify_good|by apply good_ret].
  - by apply service_info_good.
  - by apply rpc_request_good.
  - by apply subscribe_good.
  - by apply unsubscribe_good.
  - by apply reply_status_good.
  - by apply good_ret.
Qed.
End handlers.

(** ** Event loop *)

Lemma accept_not_self {W} `{OsOps W} g t ms (w : W) : (ssn_transport_accept g t true ms w).1 <> AcceptSelf.
Proof.
  unfold ssn_transport_accept, unix_transport_accept, tcp_transport_accept, udp_transport_accept, touch.
  destruct (ops t); (destruct (usable t); [|done]); cbn [negb]; [| |done].
  1,2: destruct (if ms >? 0 then _ else _) as [ready w1]; destruct (ready <=? 0); [done|];
    destruct (os_accept _ w1) as [[fd peer] w2]; destruct (fd <? 0); [done|];
    match goal with |- context [ssn_transport_create ?g ?ty ?cfg ?w3] =>
      destruct (ssn_transport_create g ty cfg w3) as [[ct|] w4] end; [|done];
    destruct (adopt_fd ct fd w4) as [ct1 w5]; by destruct (os_time w5).
Qed.

Section loop.
Context {W : Type} `{OsLaws W}.
Context (user : server_event -> ssn_server -> W -> list api_call).
Hypothesis user_ok : forall e s w, calls_ok (user e s w) s w.
Context (k : Z) (Hk : 1 <= k).
Implicit Types (s : ssn_server) (w : W).

(** Result of a step that may also remove the connection [id]. *)
Definition good_but (id : Z) s (r : option (ssn_server * W)) : Prop :=
  exists s' w', r = Some (s', w') /\ server_inv k s' /\ same_ids_but id s s'.

Lemma good_good_but id s r : good k s r -> good_but id s r.
Proof. intros (s' & w' & -> & ? & ?). exists s', w'. split; [done|]. split; [done|]. by apply same_ids_weaken. Qed.

Lemma good_but_trans id s s1 r : same_ids_but id s s1 -> good_but id s1 r -> good_but id s r.
Proof.
  intros Hs (s' & w' & -> & ? & ?). exists s', w'. split; [done|]. split; [done|].
  by eapply same_ids_but_trans.
Qed.

Lemma cli_destroy_good s id w :
  server_inv k s -> is_Some (ssn_server_cli_find s id) ->
  exists s' w', ssn_server_cli_destroy s id w = Some (s', w') /\ server_inv k s' /\
    same_ids_but id s s' /\ ssn_server_cli_find s' id = None.
Proof.
  intros Hi [c Hf]. unfold ssn_server_cli_destroy. rewrite Hf.
  destruct (table_wf_drop s id c (inv_table k s Hi) Hf) as [Ht _].
  pose proof (fun id' => find_drop s (if hst_linked c then remove_hst (hst_h s) id else hst_h s) id id'
    (proj1 (inv_table k s Hi))) as Hfind.
  eexists _, _. split; [reflexivity|]. split; [destruct Hi; by split|]. split.
  - intros id' Hne. fold (drop_from_table s (if hst_linked c then remove_hst (hst_h s) id else hst_h s) id).
    rewrite Hfind. by destruct (decide _).
  - fold (drop_from_table s (if hst_linked c then remove_hst (hst_h s) id else hst_h s) id).
    rewrite Hfind. by destruct (decide _).
Qed.

Lemma cli_destroy_find s id w s' w' :
  server_inv k s -> ssn_server_cli_destroy s id w = Some (s', w') ->
  srv_evt s' = srv_evt s /\
    forall id', ssn_server_cli_find s' id' = if decide (id' = id) then None else ssn_server_cli_find s id'.
Proof.
  intros Hi. unfold ssn_server_cli_destroy. destruct (ssn_server_cli_find s id) as [c|]; [|done].
  intros ?; simplify_eq. split; [done|]. intros id'.
  apply (find_drop s (if hst_linked c then remove_hst (hst_h s) id else hst_h s) id id'), Hi.
Qed.

Lemma drop_client_good s id c w :
  server_inv k s -> ssn_server_cli_find s id = Some c -> good_but id s (drop_client user s c w).
Proof.
  intros Hi Hf. unfold drop_client. destruct (find_facts k s id c Hi Hf) as (Hid & _). rewrite Hid.
  assert (good k s (if cli_onconn c
    then notify_connect user id false (cli_put s (cli_with_onconn c false)) w else Some (s, w)))
    as (s1 & w1 & -> & Hi1 & Hs1).
  { destruct (cli_onconn c); [|by apply good_ret].
    destruct (put_plain k s id c (cli_with_onconn c false)) as (? & Hs & _); try done.
    eapply good_trans; [exact Hs|]. by apply notify_connect_good. }
  destruct (cli_destroy_good s1 id w1 Hi1) as (s2 & w2 & -> & Hi2 & Hs2 & _). { apply Hs1. eauto. }
  exists s2, w2. split; [done|]. split; [done|].
  eapply same_ids_but_trans; [by apply same_ids_weaken|done].
Qed.

(** Feeding received bytes keeps the invariant and all connections. *)
Lemma feed_good s id recv b w :
  server_inv k s -> is_Some (ssn_server_cli_find s id) -> stream_inv recv ->
  exists ok recv' s' w', ssn_stream_feed (input_callback user id) recv b (Some (s, w))
      = Some (ok, recv', Some (s', w')) /\
    stream_inv recv' /\ server_inv k s' /\ same_ids s s'.
Proof.
  intros Hi Hf Hr.
  destruct (feed_invariant (input_callback user id)
    (fun st => exists s' w', st = Some (s', w') /\ server_inv k s' /\ same_ids s s')) with
    (recv := recv) (buf := b) (st := Some (s, w)) as (ok & recv' & st' & -> & Hr' & s' & w' & -> & ? & ?).
  - intros pkt st Hpkt (s1 & w1 & -> & Hi1 & Hs1). cbn.
    destruct (input_good user user_ok k Hk id pkt s1 w1 Hi1) as (b' & s2 & w2 & -> & ? & ?).
    { by apply Hs1. }
    { by apply whole_packet_fields. }
    cbn. exists s2, w2. split; [done|]. split; [done|]. by trans s1.
  - done.
  - by exists s, w.
  - by exists ok, recv', s', w'.
Qed.

Lemma client_input_good s id rfds w :
  server_inv k s -> is_Some (ssn_server_cli_find s id) ->
  good_but id s (ssn_server_handle_client_input user s id rfds w).
Proof.
  intros Hi [c Hf]. unfold ssn_server_handle_client_input. rewrite Hf.
  destruct (_ && _); [|by apply good_good_but, good_ret].
  pose proof (recv_config (cli_transport c) SSN_MAX_PACKET_SIZE 0 w) as Hc.
  destruct (ssn_transport_recv _ _ _ w) as [[[num b] t] w1]. cbn in Hc.
  destruct (put_transport_inv k s id c t Hi Hf Hc) as (Hi1 & Hs1 & Hf1).
  set (c1 := cli_with_transport c t) in *. set (s1 := cli_put s c1) in *.
  eapply good_but_trans; [by apply same_ids_weaken|].
  destruct (num >? 0).
  - destruct (find_facts k s1 id c1 Hi1 Hf1) as (_ & Hr & _).
    destruct (feed_good s1 id (cli_recv c1) (ztake num b) w1 Hi1 (ex_intro _ c1 Hf1) Hr)
      as (ok & recv' & s2 & w2 & -> & Hr' & Hi2 & Hs2).
    assert (is_Some (ssn_server_cli_find s2 id)) as [c2 Hf2]. { apply Hs2. eauto. }
    rewrite Hf2. destruct (find_facts k s2 id c2 Hi2 Hf2) as (Hid2 & _ & Hcfg2).
    destruct (put_inv k s2 (cli_with_recv c2 recv') c2) as [Hi3 Hs3]; try done.
    { cbn. by rewrite Hid2. }
    apply good_good_but. exists (cli_put s2 (cli_with_recv c2 recv')), w2. split; [done|].
    split; [done|]. by trans s2.
  - destruct (num =? 0); [by apply drop_client_good|].
    destruct (_ && _); [by apply drop_client_good|by apply good_good_but, good_ret].
Qed.

(** Adding an accepted connection below the limit. *)
Lemma cli_init_inv s ct :
  server_inv k s -> cli_total s < max_connections s -> cfg_ok ct ->
  exists id s', ssn_server_cli_init s ct new_recv = Some s' /\ server_inv k s' /\
    ssn_server_cli_find s' id = Some (mk_cli false false [] (handshake_timeout s) true new_recv ct id) /\
    srv_evt s' = srv_evt s.
Proof.
  intros Hi Hlt Hc.
  destruct (cli_init_spec s ct new_recv (inv_table k s Hi) Hlt) as (id & s' & -> & Hw & _ & Hf & n & h & cs & ->).
  { apply Hi. }
  { apply stream_inv_start. vm_compute. discriminate. }
  { done. }
  eexists id, _. split; [done|]. split; [destruct Hi; by split|]. split; [|done].
  rewrite Hf. by destruct (decide (id = id)).
Qed.

Lemma new_connection_good g s rfds w :
  server_inv k s ->
  exists s' w', ssn_server_handle_new_connection g s rfds w = Some (s', w') /\ server_inv k s'.
Proof.
  intros Hi. unfold ssn_server_handle_new_connection.
  destruct (srv_transport s) as [t|] eqn:Ht; [|by eexists _, _].
  destruct (_ && _); [|by eexists _, _].
  pose proof (accept_not_self g t 0 w) as Hns.
  destruct (ssn_transport_accept g t true 0 w) as [[|ct a|] w1] eqn:Ha; [by eexists _, _| |done].
  apply accept_config in Ha. pose proof (inv_transport k s Hi) as [Hcfg _]. rewrite Ht in Hcfg.
  destruct (Z.geb_spec (cli_total s) (max_connections s)) as [|Hlt]; [by eexists _, _|].
  destruct (os_calloc w1) as [[] w2]; [|by eexists _, _].
  destruct (cli_init_inv s ct Hi Hlt) as (id & s' & -> & ? & _).
  { unfold cfg_ok in *. by rewrite Ha. }
  by eexists _, _.
Qed.

(** What is left of a connection whose timer node was visited. *)
Definition unexpired (r : option ssn_server_cli_t) : option ssn_server_cli_t :=
  match r with Some c => if hst_alive c =? 0 then None else Some c | None => None end.

Lemma expire_good ids s w :
  server_inv k s -> NoDup ids -> Forall (fun id => is_Some (ssn_server_cli_find s id)) ids ->
  exists s' w', expire_nodes ids s w = Some (s', w') /\ server_inv k s' /\ srv_evt s' = srv_evt s /\
    forall id, ssn_server_cli_find s' id
      = if decide (id ∈ ids) then unexpired (ssn_server_cli_find s id) else ssn_server_cli_find s id.
Proof.
  intros Hi Hnd Hids. revert s w Hi Hids.
  induction Hnd as [|id ids Hid _ IH]; intros s w Hi Hids; cbn.
  { eexists _, _. split; [done|]. split; [done|]. split; [done|]. intros id.
    by destruct (decide (id ∈ [])) as [?%elem_of_nil|]. }
  apply Forall_cons in Hids as [[c Hf] Hids]. rewrite Hf.
  destruct (Z.eqb_spec (hst_alive c) 0) as [Hz|Hz].
  2:{ destruct (IH s w Hi Hids) as (s' & w' & -> & Hi' & He & Hfind).
      eexists _, _. split; [done|]. split; [done|]. split; [done|]. intros id'. rewrite Hfind.
      destruct (decide (id' = id)) as [->|Hne].
      - destruct (decide (id ∈ ids)); [done|]. destruct (decide (id ∈ id :: ids)); [|done].
        rewrite Hf. cbn. by destruct (Z.eqb_spec (hst_alive c) 0).
      - destruct (decide (id' ∈ ids)), (decide (id' ∈ id :: ids)) as [Hx|Hx]; try done.
        + by destruct Hx; right.
        + by apply elem_of_cons in Hx as [?|?]. }
  pose proof (disconnect_config (cli_transport c) w) as Hd.
  destruct (ssn_transport_disconnect (cli_transport c) w) as [[b t] w1]. cbn in Hd.
  destruct (find_facts k s id c Hi Hf) as (<- & Hr & Hcfg).
  set (c1 := cli_with_transport _ t). set (s1 := with_table _ _ _).
  assert (server_inv k s1) as Hi1.
  { destruct Hi as [Ht ? ? ? ? ?]. split; try done.
    apply (table_wf_unlink s c1 c); try done. unfold cfg_ok in *. cbn. by rewrite Hd. }
  assert (same_ids s s1) as Hs1 by (apply (put_ids s c1), Hi).
  assert (forall id', id' <> cli_id c -> ssn_server_cli_find s1 id' = ssn_server_cli_find s id') as Hfs1.
  { intros id' Hne. change (ssn_server_cli_find s1 id') with (ssn_server_cli_find (cli_put s c1) id').
    rewrite find_put by apply Hi. by destruct (decide (id' = cli_id c1)). }
  destruct (cli_destroy_good s1 (cli_id c) w1 Hi1) as (s2 & w2 & E & Hi2 & Hs2 & _).
  { apply Hs1. eauto. }
  rewrite E. destruct (cli_destroy_find s1 _ _ _ _ Hi1 E) as [He2 Hf2].
  destruct (IH s2 w2 Hi2) as (s' & w' & -> & Hi' & He & Hfind).
  { apply Forall_forall. intros id' Hin. rewrite Forall_forall in Hids.
    assert (id' <> cli_id c) by (intros ->; done). apply Hs2; [done|]. by apply Hs1, Hids. }
  eexists _, _. split; [done|]. split; [done|]. split; [by rewrite He, He2|]. intros id'.
  rewrite Hfind, Hf2. destruct (decide (id' = cli_id c)) as [->|Hne].
  - destruct (decide (cli_id c ∈ ids)); [done|]. destruct (decide (cli_id c ∈ cli_id c :: ids)) as [_|Hx].
    + rewrite Hf. cbn. by rewrite Hz.
    + by destruct Hx; left.
  - rewrite Hfs1 by done. destruct (decide (id' ∈ ids)), (decide (id' ∈ cli_id c :: ids)) as [Hx|Hx]; try done.
    + by destruct Hx; right.
    + by apply elem_of_cons in Hx as [?|?].
Qed.

Lemma event_input_good s rfds w :
  server_inv k s ->
  exists s' w', ssn_server_handle_event_input s rfds w = Some (s', w') /\ server_inv k s' /\
    (ipc_event_pair_get_read_fd (srv_evt s) ∈ rfds ->
     srv_evt s' = ipc_event_pair_drain (srv_evt s) /\
     forall id, ssn_server_cli_find s' id
       = if decide (id ∈ hst_h s) then unexpired (ssn_server_cli_find s id) else ssn_server_cli_find s id).
Proof.
  intros Hi. unfold ssn_server_handle_event_input. case_bool_decide; [|by eexists _, _].
  pose proof (inv_table k s Hi) as (_ & [Hnd Ht] & _).
  destruct (expire_good (hst_h s) (with_evt s (ipc_event_pair_drain (srv_evt s))) w)
    as (s' & w' & -> & ? & ? & ?); [destruct Hi; by split|done| |by eexists _, _].
  apply Forall_forall. intros id (c & Hc & _)%Ht. by exists c.
Qed.

Lemma input_chain_good ids s rfds w :
  server_inv k s -> NoDup ids -> Forall (fun id => is_Some (ssn_server_cli_find s id)) ids ->
  exists s' w', input_chain user ids s rfds w = Some (s', w') /\ server_inv k s'.
Proof.
  intros Hi Hnd Hids. revert s w Hi Hids.
  induction Hnd as [|id ids Hid _ IH]; intros s w Hi Hids; cbn; [by eexists _, _|].
  apply Forall_cons in Hids as [Hf Hids].
  destruct (client_input_good s id rfds w Hi Hf) as (s' & w' & -> & Hi' & Hs').
  apply IH; [done|]. apply Forall_forall. intros id' Hin. rewrite Forall_forall in Hids.
  apply Hs'; [|by apply Hids]. by intros ->.
Qed.

Lemma bucket_found s h :
  server_inv k s -> NoDup (map cli_id (cli_bucket s h)) /\
  Forall (fun id => is_Some (ssn_server_cli_find s id)) (map cli_id (cli_bucket s h)).
Proof.
  intros Hi. destruct (inv_table k s Hi) as [[Hlen Hch] _]. destruct (Hch h) as [Hfa Hnd].
  split; [done|]. apply Forall_forall. intros id (c & -> & Hin)%list_elem_of_fmap.
  rewrite Forall_forall in Hfa. destruct (Hfa c Hin) as (Hh & _).
  exists c. unfold ssn_server_cli_find. rewrite Hh. by apply find_cli_in.
Qed.

Lemma input_chains_good n h s rfds w :
  server_inv k s ->
  exists s' w', input_chains user n h s rfds w = Some (s', w') /\ server_inv k s'.
Proof.
  revert h s w. induction n as [|n IH]; intros h s w Hi; cbn; [by eexists _, _|].
  destruct (bucket_found s h Hi) as [Hnd Hids].
  destruct (input_chain_good (map cli_id (cli_bucket s h)) s rfds w Hi Hnd Hids) as (s' & w' & -> & Hi').
  by apply IH.
Qed.

Lemma input_fds_good g s rfds w :
  server_inv k s ->
  exists s' w', ssn_server_input_fds user g s rfds w = Some (s', w') /\ server_inv k s'.
Proof.
  intros Hi. unfold ssn_server_input_fds. destruct (srv_valid s); cbn [negb]; [|by eexists _, _].
  destruct (input_chains_good (Z.to_nat IPC_CLI_HASH_SIZE) 0 s rfds w Hi) as (s1 & w1 & -> & Hi1).
  destruct (new_connection_good g s1 rfds w1 Hi1) as (s2 & w2 & -> & Hi2).
  destruct (event_input_good s2 rfds w2 Hi2) as (s3 & w3 & -> & ? & _). by eexists _, _.
Qed.
End loop.

(** ** Releasing the server *)

Lemma concat_nodup (l : list (list ssn_server_cli_t)) (off : nat) :
  (forall h, Forall (fun c => ssn_server_cli_hash (cli_id c) = off + h)%nat (nth h l []) /\
     NoDup (map cli_id (nth h l []))) ->
  NoDup (map cli_id (concat l)).
Proof.
  revert off. induction l as [|b l IH]; intros off Hl; cbn; [constructor|].
  rewrite map_app. apply NoDup_app. split; [apply (Hl 0%nat)|]. split.
  - intros id (c & -> & Hc)%list_elem_of_fmap (c' & E & Hc')%list_elem_of_fmap.
    apply elem_of_concat in Hc' as (b' & Hc' & [h Hb']%list_elem_of_lookup).
    destruct (Hl 0%nat) as [H0 _]. destruct (Hl (S h)) as [Hh _]. cbn in H0, Hh.
    rewrite nth_lookup, Hb' in Hh. rewrite Forall_forall in H0, Hh.
    specialize (H0 c Hc). specialize (Hh c' Hc'). cbn in *. rewrite E in H0. lia.
  - apply (IH (S off)). intros h. specialize (Hl (S h)). cbn in Hl. split; [|apply Hl].
    eapply Forall_impl; [apply Hl|]. intros c Hc. cbn in *. lia.
Qed.

Lemma table_ids_nodup s : chains_ok (clis s) -> NoDup (map cli_id (concat (clis s))).
Proof.
  intros [_ Hch]. apply (concat_nodup (clis s) 0). intros h. split; [|apply Hch].
  eapply Forall_impl; [apply Hch|]. by intros c (Hh & _).
Qed.

(** What is left after the memory was released. *)
Definition released (s : ssn_server) : Prop :=
  srv_freed s = true /\ srv_valid s = false /\ concat (clis s) = [] /\ srv_transport s = None.

Section release.
Context {W : Type} `{OsLaws W}.
Implicit Types (s : ssn_server) (w : W).

Lemma destroy_clis_total k ids s w :
  server_inv k s -> NoDup ids -> Forall (fun id => is_Some (ssn_server_cli_find s id)) ids ->
  exists s' w', destroy_clis ids s w = Some (s', w') /\ srv_valid s' = srv_valid s.
Proof.
  intros Hi Hnd Hids. revert s w Hi Hids.
  induction Hnd as [|id ids Hid _ IH]; intros s w Hi Hids; cbn; [by eexists _, _|].
  apply Forall_cons in Hids as [Hf Hids].
  destruct (cli_destroy_good k s id w Hi Hf) as (s1 & w1 & E & Hi1 & Hs1 & _). rewrite E.
  destruct (IH s1 w1 Hi1) as (s2 & w2 & -> & Hv).
  { apply Forall_forall. intros id' Hin. rewrite Forall_forall in Hids.
    apply Hs1; [|by apply Hids]. by intros ->. }
  eexists _, _. split; [done|]. rewrite Hv. unfold ssn_server_cli_destroy in E.
  destruct (ssn_server_cli_find s id); [|done]. by simplify_eq.
Qed.

Lemma free_total k s w :
  server_inv k s -> srv_valid s = false ->
  exists s' w', ssn_server_free_resources s w = Some (s', w') /\ released s'.
Proof.
  intros Hi Hv. unfold ssn_server_free_resources.
  set (p := match srv_transport s with Some t => _ | None => _ end).
  assert (server_inv k p.1 /\ srv_valid p.1 = false /\ clis p.1 = clis s) as (Hi1 & Hv1 & Hc1).
  { subst p. destruct (srv_transport s); [|done]. cbn. split; [|done]. destruct Hi as [? ? ? ? ? [_ ?]]. by split. }
  destruct p as [s1 w1]. cbn in Hi1, Hv1, Hc1.
  destruct (destroy_clis_total k (map cli_id (concat (clis s1))) s1
    (ipc_event_pair_destroy (srv_evt s1) w1) Hi1) as (s2 & w2 & -> & Hv2).
  { apply table_ids_nodup, Hi1. }
  { by eapply all_found. }
  eexists _, _. split; [done|]. split; [done|]. split; [cbn; congruence|]. done.
Qed.

Lemma unref_total k s w :
  0 <= k -> server_inv (k + 1) s ->
  exists s' w', ssn_server_unref s w = Some (s', w') /\ (server_inv k s' \/ released s').
Proof.
  intros Hk Hi. unfold ssn_server_unref. rewrite (inv_live _ s Hi).
  pose proof (inv_refs _ s Hi) as Hr.
  assert (0 < ref_count s) by (destruct (srv_valid s); lia).
  destruct (Z.gtb_spec (ref_count s) 0); [|lia].
  assert (server_inv k (with_ref s (ref_count s - 1))) as Hi'.
  { destruct Hi as [? ? ? ? _ ?]. split; try done. cbn. destruct (srv_valid s); lia. }
  destruct (_ && _) eqn:Hz.
  - apply andb_prop in Hz as [_ Hv]. destruct (free_total k (with_ref s (ref_count s - 1)) w Hi')
      as (s' & w' & -> & ?); [by destruct (srv_valid (with_ref s (ref_count s - 1)))|].
    eexists _, _. split; [done|]. by right.
  - eexists _, _. split; [done|]. by left.
Qed.
End release.

(** ** Timers *)

Section timers.
Implicit Types s : ssn_server.

Lemma tick_nodes_good k ids s emit :
  server_inv k s -> NoDup ids -> Forall (fun id => is_Some (ssn_server_cli_find s id)) ids ->
  exists s' emit', tick_nodes s ids emit = Some (s', emit') /\ server_inv k s' /\ hst_h s' = hst_h s /\
    srv_evt s' = srv_evt s /\
    (forall id, ssn_server_cli_find s' id
       = if decide (id ∈ ids) then tick_cli <$> ssn_server_cli_find s id else ssn_server_cli_find s id) /\
    emit' = emit || existsb (fun id => match ssn_server_cli_find s id with
                                       | Some c => hst_alive c <=? SSN_TIMER_PERIOD
                                       | None => false end) ids.
Proof.
  intros Hi Hnd Hids. revert s emit Hi Hids.
  induction Hnd as [|id ids Hid Hnd IH]; intros s emit Hi Hids; cbn [tick_nodes existsb].
  { eexists _, _. split; [done|]. split; [done|]. split; [done|]. split; [done|].
    split; [|by rewrite orb_false_r]. intros id. by destruct (decide (id ∈ [])) as [?%elem_of_nil|]. }
  apply Forall_cons in Hids as [[c Hf] Hids]. rewrite Hf.
  destruct (put_plain k s id c (tick_cli c)) as (Hi1 & Hs1 & Hf1); try done;
    try (unfold tick_cli; by destruct (_ <=? _)).
  destruct (find_facts k s id c Hi Hf) as (Hcid & _).
  assert (cli_id (tick_cli c) = id) as Hcid' by (unfold tick_cli; by destruct (_ <=? _)).
  destruct (IH (cli_put s (tick_cli c)) (emit || (hst_alive c <=? SSN_TIMER_PERIOD)) Hi1)
    as (s' & emit' & -> & Hi' & Hh' & He' & Hfind & Hem).
  { eapply Forall_impl; [exact Hids|]. intros id' Hid'. by apply Hs1. }
  eexists _, _. split; [done|]. split; [done|]. split; [done|]. split; [done|]. split.
  - intros id'. rewrite Hfind, find_put, Hcid' by apply Hi.
    destruct (decide (id' = id)) as [->|Hne].
    + destruct (decide (id ∈ ids)); [done|]. destruct (decide (id ∈ id :: ids)) as [_|Hn].
      * by rewrite Hf.
      * destruct Hn. by left.
    + destruct (decide (id' ∈ ids)), (decide (id' ∈ id :: ids)) as [Hc|Hc]; try done.
      * destruct Hc. by right.
      * apply elem_of_cons in Hc as [?|?]; done.
  - rewrite Hem, <- orb_assoc. f_equal. f_equal. apply existsb_ext_elem. intros id' Hin.
    rewrite find_put, Hcid' by apply Hi. destruct (decide (id' = id)) as [->|]; [done|done].
Qed.

Lemma tick_good k s :
  server_inv k s ->
  exists s', ssn_server_timer_tick s = Some s' /\ server_inv k s' /\ hst_h s' = hst_h s /\
    (forall id, ssn_server_cli_find s' id
       = if decide (id ∈ hst_h s) then tick_cli <$> ssn_server_cli_find s id
         else ssn_server_cli_find s id) /\
    srv_evt s' = (if existsb (fun id => match ssn_server_cli_find s id with
                                        | Some c => hst_alive c <=? SSN_TIMER_PERIOD
                                        | None => false end) (hst_h s)
                  then ipc_event_pair_signal (srv_evt s) else srv_evt s).
Proof.
  intros Hi. unfold ssn_server_timer_tick.
  pose proof (inv_table k s Hi) as (_ & [Hnd Ht] & _).
  destruct (tick_nodes_good k (hst_h s) s false Hi Hnd) as (s' & emit & -> & Hi' & Hh & He & Hf & Hem).
  { apply Forall_forall. intros id (c & Hc & _)%Ht. by exists c. }
  eexists. split; [done|]. cbn in Hem. rewrite <- Hem.
  destruct emit; [|done]. split; [destruct Hi'; by split|]. split; [done|]. split; [exact Hf|].
  cbn. by rewrite He.
Qed.
End timers.
