(* ===== verification/ServerTheorems.v ===== *)
(** * Server: theorems

    Reachable states, safety of polling, consistency of the connection table and
    expiry, proved from the invariant of [ServerProps]. *)
From S2P Require Import Prelude FrameCodec ErrorCode Os Transport Address FrameSend EventPair Server ServerTable ServerProps.

(** ** Creation *)

Definition options_ok (o : option server_options_t) : Prop :=
  match o with Some o => 0 <= opt_max_connections o < 2 ^ 32 | None => True end.

Lemma nth_replicate_nil {A} n h : nth h (replicate n (@nil A)) [] = [].
Proof.
  rewrite nth_lookup. destruct (replicate n [] !! h) as [b|] eqn:Hb; [|done].
  by apply lookup_replicate in Hb as [-> _].
Qed.

Lemma new_server_inv name opts e : options_ok opts -> server_inv 0 (new_server name opts e).
Proof.
  intros Ho. unfold new_server. set (p := match opts with Some _ => _ | None => _ end).
  assert (0 <= p.2 < 2 ^ 32) as Hp.
  { subst p. destruct opts as [o|]; cbn in *; [|unfold SSN_SERVER_DEFAULT_MAX_CONNECTIONS; lia].
    destruct (_ >? 0); [lia|unfold SSN_SERVER_DEFAULT_MAX_CONNECTIONS; lia]. }
  assert (p.1.1.1 < 2 ^ 31) as Hst.
  { subst p. destruct opts as [o|]; [|done]. cbn. pose proof (i32_range (opt_send_timeout_ms o)). lia. }
  destruct p as [[[st hs] ka] mc]. cbn in Hp, Hst. split; cbn; try done.
  - split; [|split; [|split; [done|]]].
    + split; [reflexivity|]. intros h. cbn [clis]. rewrite nth_replicate_nil. split; constructor.
    + split; [constructor|]. intros id. split; [by intros ?%elem_of_nil|]. intros (c & Hc & _).
      unfold ssn_server_cli_find, cli_bucket in Hc. cbn [clis] in Hc. by rewrite nth_replicate_nil in Hc.
    + change (0 <= mc). lia.
  - split; [reflexivity|]. intros h. unfold cmd_bucket. cbn [cmds].
    rewrite nth_replicate_nil. constructor.
Qed.

(** ** Starting *)

Lemma listen_config {W} `{OsOps W} t backlog (w : W) :
  config (ssn_transport_listen t backlog w).1.2 = config t.
Proof.
  unfold ssn_transport_listen, unix_transport_listen, tcp_transport_listen, udp_transport_listen.
  destruct (ops t).
  - destruct (os_stat _ w) as [[] w1]; try done;
      (destruct (os_bind _ _ _) as [r w2]; destruct (r <? 0); [done|]);
      destruct (os_listen _ _ w2) as [r2 w3]; by destruct (r2 <? 0).
  - destruct (os_bind _ _ w) as [r w2]; destruct (r <? 0); [done|].
    destruct (os_listen _ _ w2) as [r2 w3]; by destruct (r2 <? 0).
  - destruct (os_bind _ _ w) as [r w2]; by destruct (r <? 0).
Qed.

Lemma bind_config t a : config (ssn_transport_bind t a).2 = config t.
Proof.
  unfold ssn_transport_bind, unix_transport_bind, tcp_transport_bind, udp_transport_bind.
  destruct (ops t); [done|by destruct (decide _)..].
Qed.

Lemma start_inv {W} `{OsOps W} k g s (w : W) :
  server_inv k s -> server_inv k (ssn_server_start g s w).1.2.
Proof.
  intros Hi. pose proof (inv_transport k s Hi) as [_ Hto].
  assert (forall t, match t with Some t => cfg_ok t | None => True end ->
    server_inv k (with_transport s t)) as Hset.
  { intros t Ht. destruct Hi. by split. }
  unfold ssn_server_start. destruct (srv_valid s); cbn [negb]; [|done]. cbv zeta.
  destruct (ssn_address_parse _ w) as [[a|] w1]; [|done].
  destruct (clear_socket_file s (addr_type a) w1) as [[] w2]; [|done]. cbn [negb].
  destruct (ssn_transport_create g _ _ w2) as [[t|] w3] eqn:Ec; [|by apply Hset].
  apply create_config in Ec. pose proof (bind_config t a) as Hb.
  destruct (ssn_transport_bind t a) as [[] t1]; cbn in Hb; [|by apply Hset]. cbn [negb].
  pose proof (listen_config t1 SSN_SERVER_BACKLOG w3) as Hl.
  destruct (ssn_transport_listen t1 _ w3) as [[[] t2] w4]; cbn in Hl; [|by apply Hset].
  apply Hset. unfold cfg_ok. rewrite Hl, Hb, Ec. done.
Qed.

(** ** Reachable states *)

Section reach.
Context {W : Type} `{OsLaws W}.
Context (user : server_event -> ssn_server -> W -> list api_call) (g : factory).
Hypothesis user_ok : forall e s w, calls_ok (user e s w) s w.

(** What can happen to a server between creation and release, in any order:
    listening starts, the environment acts, the timer thread passes, the
    application calls the API, the event loop polls. *)
Inductive server_reach : ssn_server -> W -> Prop :=
  | reach_init name opts e w : options_ok opts -> server_reach (new_server name opts e) w
  | reach_start s w b s' w' : server_reach s w -> srv_freed s = false ->
      ssn_server_start g s w = (b, s', w') -> server_reach s' w'
  | reach_world s w w' : server_reach s w -> server_reach s w'
  | reach_tick s w s' : server_reach s w -> srv_freed s = false ->
      ssn_server_timer_tick s = Some s' -> server_reach s' w
  | reach_call s w c s' w' : server_reach s w -> call_ok c s ->
      run_call c s w = Some (s', w') -> server_reach s' w'
  | reach_poll s w signals ms r s' w' : server_reach s w ->
      ssn_server_poll user g signals s ms w = Some (r, s', w') -> server_reach s' w'.

Lemma destroy_total s w :
  server_inv 0 s ->
  exists s' w', ssn_server_destroy s w = Some (s', w') /\ (server_inv 0 s' \/ released s').
Proof.
  intros Hi. unfold ssn_server_destroy. destruct (srv_valid s) eqn:Hv; cbn [negb].
  - apply (unref_total 0); [done|]. destruct Hi as [? ? ? ? Hr ?]. split; try done.
    rewrite Hv in Hr. cbn. lia.
  - eexists _, _. split; [done|]. by left.
Qed.

Lemma call_total c s w :
  server_inv 0 s -> call_ok c s ->
  exists s' w', run_call c s w = Some (s', w') /\ (server_inv 0 s' \/ released s').
Proof.
  intros Hi Hc. unfold run_call. rewrite (inv_live 0 s Hi).
  destruct c; cbn in Hc; try done.
  - destruct (publish_good 0 s url data w Hi Hc) as (r & s' & w' & -> & ? & ?). eauto.
  - destruct (response_good 0 s id status seqno data w Hi Hc) as (r & s' & w' & -> & ? & ?). eauto.
  - destruct (message_good 0 s id url data w Hi Hc) as (r & s' & w' & -> & ? & ?). eauto.
  - pose proof (peer_close_good 0 s id w Hi) as Hp.
    destruct (ssn_server_peer_close s id w) as [[b s'] w']. destruct Hp. eauto.
  - destruct (os_calloc w) as [ok w'].
    destruct (add_method_inv 0 ok s url callback arg Hi Hc) as (r & s' & -> & ? & ?). eauto.
  - eexists _, _. split; [done|]. left. by apply remove_method_inv.
  - eexists _, _. split; [done|]. left. destruct Hi. by split.
  - eexists _, _. split; [done|]. left. destruct Hi. by split.
  - by apply destroy_total.
Qed.

Lemma poll_total s signals ms w fds maxfd cnt ready w1 :
  server_inv 0 s ->
  ssn_server_fds s = Some (fds, maxfd) ->
  pselect_loop signals fds (if ms >=? 0 then Some ms else None) w = Some (cnt, ready, w1) ->
  exists r s' w', ssn_server_poll user g signals s ms w = Some (r, s', w') /\
    (server_inv 0 s' \/ released s') /\ r <= 0.
Proof.
  intros Hi Hfds Hsel. unfold ssn_server_poll. rewrite (inv_live 0 s Hi).
  change (ssn_server_fds (ssn_server_ref s)) with (ssn_server_fds s). rewrite Hfds, Hsel.
  assert (server_inv 1 (ssn_server_ref s)) as Hi1.
  { destruct Hi as [? ? ? ? Hr ?]. split; try done. cbn. lia. }
  destruct (Z.gtb_spec cnt 0).
  - destruct (input_fds_good user user_ok 1 ltac:(lia) g (ssn_server_ref s) ready w1 Hi1)
      as (s2 & w2 & -> & Hi2).
    destruct (unref_total 0 s2 w2 ltac:(lia) Hi2) as (s3 & w3 & -> & Hout).
    eexists _, _, _. split; [done|]. split; [done|lia].
  - destruct (unref_total 0 (ssn_server_ref s) w1 ltac:(lia) Hi1) as (s3 & w3 & -> & Hout).
    eexists _, _, _. split; [done|]. split; [done|lia].
Qed.

Lemma poll_defined s signals ms w r s' w' :
  server_inv 0 s -> ssn_server_poll user g signals s ms w = Some (r, s', w') ->
  server_inv 0 s' \/ released s'.
Proof.
  intros Hi Hrun. pose proof Hrun as Hrun'. unfold ssn_server_poll in Hrun'. rewrite (inv_live 0 s Hi) in Hrun'.
  change (ssn_server_fds (ssn_server_ref s)) with (ssn_server_fds s) in Hrun'.
  destruct (ssn_server_fds s) as [[fds mf]|] eqn:Hfds; [|done].
  destruct (pselect_loop signals fds _ w) as [[[cnt ready] w1]|] eqn:Hsel; [|done].
  destruct (poll_total s signals ms w fds mf cnt ready w1 Hi Hfds Hsel) as (r2 & s2 & w2 & E & Hout & _).
  rewrite Hrun in E. by simplify_eq.
Qed.

Lemma reach_inv s w : server_reach s w -> server_inv 0 s \/ released s.
Proof.
  induction 1 as [name opts e w Ho|s w b s' w' _ IH Hl Hs|s w w' _ IH|s w s' _ IH Hl Ht|s w c s' w' _ IH Hc Hr
    |s w signals ms r s' w' _ IH Hr].
  - left. by apply new_server_inv.
  - destruct IH as [Hi|[Hf _]]; [|congruence]. left. pose proof (start_inv 0 g s w Hi) as Hst.
    by rewrite Hs in Hst.
  - done.
  - destruct IH as [Hi|[Hf _]]; [|congruence]. left.
    destruct (tick_good 0 s Hi) as (s2 & E & ? & _). by simplify_eq.
  - destruct IH as [Hi|[Hf _]].
    + destruct (call_total c s w Hi Hc) as (s2 & w2 & E & ?). by simplify_eq.
    + unfold run_call in Hr. by rewrite Hf in Hr.
  - destruct IH as [Hi|[Hf _]]; [by eapply poll_defined|].
    unfold ssn_server_poll in Hr. by rewrite Hf in Hr.
Qed.
End reach.

(** ** Idle time *)

(** [n] passes of the timer thread. *)
Fixpoint ticks (n : nat) (s : ssn_server) : option ssn_server :=
  match n with
  | O => Some s
  | S n => match ssn_server_timer_tick s with Some s => ticks n s | None => None end
  end.

Lemma tick_alive c : 0 <= hst_alive c -> hst_alive (tick_cli c) = Z.max 0 (hst_alive c - SSN_TIMER_PERIOD).
Proof. unfold tick_cli, SSN_TIMER_PERIOD. intros. destruct (Z.leb_spec (hst_alive c) 50); cbn; lia. Qed.

Lemma tick_linked c : hst_linked (tick_cli c) = hst_linked c.
Proof. unfold tick_cli. by destruct (_ <=? _). Qed.

Lemma signal_count e :
  0 <= evt_count e ->
  0 < evt_count (ipc_event_pair_signal e) /\ evt_fd (ipc_event_pair_signal e) = evt_fd e.
Proof.
  intros He. pose proof (signal_pending e He) as Hp. unfold event_pending in Hp. apply Z.gtb_lt in Hp.
  split; [done|]. unfold ipc_event_pair_signal. by destruct (_ <? _).
Qed.

(** One tick, seen from one linked connection. *)
Lemma tick_one k s id c :
  server_inv k s -> ssn_server_cli_find s id = Some c -> hst_linked c = true ->
  0 <= evt_count (srv_evt s) ->
  exists s1, ssn_server_timer_tick s = Some s1 /\ server_inv k s1 /\ hst_h s1 = hst_h s /\
    ssn_server_cli_find s1 id = Some (tick_cli c) /\
    evt_fd (srv_evt s1) = evt_fd (srv_evt s) /\
    evt_count (srv_evt s) <= evt_count (srv_evt s1) /\
    (hst_alive c <= SSN_TIMER_PERIOD -> 0 < evt_count (srv_evt s1)).
Proof.
  intros Hi Hf Hl He. destruct (tick_good k s Hi) as (s1 & -> & Hi1 & Hh & Hfind & Hev).
  pose proof (inv_table k s Hi) as (_ & [_ Ht] & _).
  assert (id ∈ hst_h s) as Hin by (apply Ht; eauto).
  exists s1. split; [done|]. split; [done|]. split; [done|]. split.
  { rewrite Hfind, Hf. by destruct (decide _). }
  rewrite Hev. destruct (signal_count (srv_evt s) He) as [Hs1 Hs2].
  destruct (existsb _ (hst_h s)) eqn:Hex.
  - split; [done|]. split; [|lia]. unfold ipc_event_pair_signal. destruct (_ <? _); cbn; lia.
  - split; [done|]. split; [lia|]. intros Ha. exfalso.
    assert (existsb (fun id => match ssn_server_cli_find s id with
      | Some c => hst_alive c <=? SSN_TIMER_PERIOD | None => false end) (hst_h s) = true) as Hc; [|congruence].
    apply existsb_exists. exists id. split; [by apply list_elem_of_In|]. rewrite Hf. lia.
Qed.

Lemma ticks_one k n : forall s id c,
  server_inv k s -> ssn_server_cli_find s id = Some c -> hst_linked c = true -> 0 <= hst_alive c ->
  0 <= evt_count (srv_evt s) ->
  exists s1 c1, ticks n s = Some s1 /\ server_inv k s1 /\ hst_h s1 = hst_h s /\
    ssn_server_cli_find s1 id = Some c1 /\ hst_linked c1 = true /\
    hst_alive c1 = Z.max 0 (hst_alive c - SSN_TIMER_PERIOD * Z.of_nat n) /\
    evt_fd (srv_evt s1) = evt_fd (srv_evt s) /\
    evt_count (srv_evt s) <= evt_count (srv_evt s1) /\
    ((0 < n)%nat -> hst_alive c1 = 0 -> 0 < evt_count (srv_evt s1)).
Proof.
  unfold SSN_TIMER_PERIOD. induction n as [|n IH]; intros s id c Hi Hf Hl Ha He; cbn [ticks].
  { exists s, c. split_and!; try done; try lia. }
  destruct (tick_one k s id c Hi Hf Hl He) as (s1 & -> & Hi1 & Hh1 & Hf1 & Hfd1 & Hge & Hsig).
  pose proof (tick_alive c Ha) as Hta. unfold SSN_TIMER_PERIOD in *.
  destruct (IH s1 id (tick_cli c)) as (s2 & c2 & -> & Hi2 & Hh2 & Hf2 & Hl2 & Ha2 & Hfd2 & Hge2 & Hz2);
    [done|done|by rewrite tick_linked|lia|lia|].
  exists s2, c2. split_and!; try done; try congruence; try lia.
Qed.

(** A connection whose timer is off is untouched by ticks. *)
Lemma ticks_off k n : forall s id c,
  server_inv k s -> ssn_server_cli_find s id = Some c -> hst_linked c = false ->
  forall s1, ticks n s = Some s1 -> ssn_server_cli_find s1 id = Some c.
Proof.
  induction n as [|n IH]; intros s id c Hi Hf Hl s1; cbn [ticks]; [by intros ?; simplify_eq|].
  destruct (tick_good k s Hi) as (s' & -> & Hi' & _ & Hfind & _). intros Hr.
  eapply IH; [exact Hi'| |done|exact Hr]. rewrite Hfind. destruct (decide _) as [Hin|]; [|done].
  pose proof (inv_table k s Hi) as (_ & [_ Ht] & _). apply Ht in Hin as (c' & Hc' & Hl'). congruence.
Qed.

Lemma ticks_inv k n : forall s s', server_inv k s -> ticks n s = Some s' -> server_inv k s'.
Proof.
  induction n as [|n IH]; intros s s' Hi; cbn; [by intros ?; simplify_eq|].
  destruct (tick_good k s Hi) as (s1 & -> & Hi1 & _). by apply IH.
Qed.

(** ** Claims *)


(** C24.  Consistency of the connection table in every reachable state: the
    memory was released, or peer ids are unique 32-bit values, every listed
    connection is found under its id and in the right hash chain, the number of
    connections never exceeds the limit, and the timer list holds exactly the
    connections with a linked timer node, once each. *)
Theorem server_table_consistent {W} `{OsLaws W} (user : server_event -> ssn_server -> W -> list api_call)
    (g : factory) (s : ssn_server) (w : W) :
  (forall e s w, calls_ok (user e s w) s w) -> server_reach user g s w ->
  released s \/
  (NoDup (map cli_id (concat (clis s))) /\
   (forall id, is_Some (ssn_server_cli_find s id) <-> id ∈ map cli_id (concat (clis s))) /\
   (forall id c, ssn_server_cli_find s id = Some c -> cli_id c = id /\ 0 <= id < 2 ^ 32) /\
   cli_total s <= max_connections s /\
   NoDup (hst_h s) /\
   forall id, (id ∈ hst_h s) <-> exists c, ssn_server_cli_find s id = Some c /\ hst_linked c = true).
Proof.
  intros Hu Hr. destruct (reach_inv user g Hu s w Hr) as [Hi|?]; [right|by left].
  pose proof (inv_table 0 s Hi) as (Hch & [Hnd Ht] & _ & Hm).
  split; [by apply table_ids_nodup|]. split; [|split; [|done]].
  - intros id. split.
    + intros [c Hc]. apply find_in_table; [done|congruence].
    + intros Hin. pose proof (all_found 0 s Hi) as Hall. rewrite Forall_forall in Hall. by apply Hall.
  - intros id c Hf. by destruct (find_bucket s id c Hch Hf) as [<- (_ & ? & _)].
Qed.

(** C25.  Idle expiry: after [n] timer passes (50 ms each) without traffic, the
    next event input removes a connection exactly when its remaining time was at
    most [50 n] ms; from then on the wake-up event is pending, so the loop does
    run; connections whose timer is off stay. *)
Theorem idle_connections_expire {W} `{OsLaws W} (k : Z) (s : ssn_server) (n : nat) (id : Z)
    (c : ssn_server_cli_t) (rfds : list Z) (w : W) :
  server_inv k s -> ssn_server_cli_find s id = Some c -> hst_linked c = true -> 0 <= hst_alive c ->
  0 <= evt_count (srv_evt s) -> ipc_event_pair_get_read_fd (srv_evt s) ∈ rfds ->
  exists s1 s2 w2, ticks n s = Some s1 /\ ssn_server_handle_event_input s1 rfds w = Some (s2, w2) /\
    (is_Some (ssn_server_cli_find s2 id) <-> SSN_TIMER_PERIOD * Z.of_nat n < hst_alive c) /\
    ((0 < n)%nat -> hst_alive c <= SSN_TIMER_PERIOD * Z.of_nat n -> event_pending (srv_evt s1) = true) /\
    event_pending (srv_evt s2) = false /\
    (forall id' c', ssn_server_cli_find s id' = Some c' -> hst_linked c' = false ->
       ssn_server_cli_find s2 id' = Some c').
Proof.
  intros Hi Hf Hl Ha He Hfd.
  destruct (ticks_one k n s id c Hi Hf Hl Ha He)
    as (s1 & c1 & E1 & Hi1 & Hh1 & Hf1 & Hl1 & Ha1 & Hfd1 & Hge & Hz).
  destruct (event_input_good k s1 rfds w Hi1) as (s2 & w2 & E2 & Hi2 & Hev).
  destruct Hev as [Hd Hfind]; [unfold ipc_event_pair_get_read_fd in *; by rewrite Hfd1|].
  exists s1, s2, w2. split; [done|]. split; [done|].
  pose proof (inv_table k s1 Hi1) as (_ & [_ Ht] & _).
  assert (id ∈ hst_h s1) as Hin by (apply Ht; eauto).
  split; [|split; [|split]].
  - rewrite Hfind, Hf1. destruct (decide _); [|done]. cbn. destruct (Z.eqb_spec (hst_alive c1) 0).
    + split; [by intros [? ?]|lia].
    + split; [lia|eauto].
  - intros Hn Hle. apply Z.gtb_lt, Hz; [done|]. unfold SSN_TIMER_PERIOD in *. lia.
  - by rewrite Hd.
  - intros id' c' Hf' Hl'. pose proof (ticks_off k n s id' c' Hi Hf' Hl' s1 E1) as Hs1.
    rewrite Hfind, Hs1. destruct (decide _) as [Hin'|]; [|done].
    apply Ht in Hin' as (? & ? & ?). congruence.
Qed.

(** ** Witnesses *)

Definition demo_user : server_event -> ssn_server -> sim_world -> list api_call := fun _ _ _ => [].
Definition demo_server : ssn_server := new_server [47; 115] None (mk_event 9 0).
Definition demo_listening : ssn_server := Eval vm_compute in
  (ssn_server_start demo_factory demo_server (mk_sim ENOENT 3 ∅ (fun _ => []) [] [])).1.2.

Lemma demo_user_ok : forall e s w, calls_ok (demo_user e s w) s w.
Proof. done. Qed.
Lemma demo_reach w : server_reach demo_user demo_factory demo_listening w.
Proof.
  apply (reach_world demo_user demo_factory demo_listening (mk_sim ENOENT 4 {[3]} (fun _ => []) [] [])).
  apply (reach_start demo_user demo_factory demo_server (mk_sim ENOENT 3 ∅ (fun _ => []) [] []) true);
    [by apply reach_init|done|vm_compute; reflexivity].
Qed.
Lemma demo_listening_inv : server_inv 0 demo_listening.
Proof.
  pose proof (start_inv 0 demo_factory demo_server (mk_sim ENOENT 3 ∅ (fun _ => []) [] [])
    (new_server_inv [47; 115] None (mk_event 9 0) I)) as Hi. exact Hi.
Qed.


Lemma server_table_consistent_witness :
  exists s' w', ssn_server_poll demo_user demo_factory 1 demo_listening 0 (sim_init [] []) = Some (0, s', w') /\
    cli_total s' <= max_connections s'.
Proof.
  destruct (ssn_server_poll demo_user demo_factory 1 demo_listening 0 (sim_init [] []))
    as [[[r s'] w']|] eqn:E; [|vm_compute in E; discriminate].
  assert (r = 0) as -> by (vm_compute in E; congruence).
  exists s', w'. split; [reflexivity|].
  destruct (server_table_consistent demo_user demo_factory s' w' demo_user_ok) as [[Hf _]|Hc].
  - exact (reach_poll demo_user demo_factory demo_listening (sim_init [] []) 1 0 0 s' w' (demo_reach _) E).
  - vm_compute in E. injection E as <- <-. vm_compute in Hf. discriminate Hf.
  - exact (proj1 (proj2 (proj2 (proj2 Hc)))).
Defined.

Definition demo_one : ssn_server :=
  match ssn_server_cli_init demo_listening (demo_transport 5) new_recv with
  | Some s => s | None => demo_listening
  end.
Lemma demo_one_inv : server_inv 0 demo_one.
Proof.
  destruct (cli_init_inv 0 demo_listening (demo_transport 5) demo_listening_inv)
    as (id & s' & E & Hi & _); [done|done|]. unfold demo_one. by rewrite E.
Qed.

(** The handshake time of 5 s is over after 100 passes, not after 99. *)
Lemma idle_connections_expire_witness :
  (exists s1 s2 w2, ticks 100 demo_one = Some s1 /\
     ssn_server_handle_event_input s1 [9] (sim_init [] []) = Some (s2, w2) /\
     (is_Some (ssn_server_cli_find s2 0) <-> 5000 < 5000)) /\
  hst_alive (mk_cli false false [] 5000 true new_recv (demo_transport 5) 0) = 5000.
Proof.
  split; [|reflexivity].
  destruct (idle_connections_expire 0 demo_one 100 0
    (mk_cli false false [] 5000 true new_recv (demo_transport 5) 0) [9] (sim_init [] []))
    as (s1 & s2 & w2 & E1 & E2 & Hiff & _).
  - exact demo_one_inv.
  - vm_compute. reflexivity.
  - reflexivity.
  - vm_compute. discriminate.
  - vm_compute. discriminate.
  - left.
  - exists s1, s2, w2. split; [exact E1|]. split; [exact E2|exact Hiff].
Defined.
