(* ===== verification/ServerPubSub.v ===== *)
(** * Server: subscriptions, publishing and method dispatch

    Functional behaviour of the operations of [ssn_server.c] on top of the
    invariant of [ServerProps]: what a subscription covers, who receives a
    published frame, which method serves a URL. *)
From S2P Require Import Prelude FrameCodec ErrorCode Os Transport Address FrameSend EventPair Server ServerTable ServerProps ServerTheorems.

(** ** Covering *)

Lemma nth_slash_app (p u : bytes) :
  (nth (length p) (p ++ u) 0 =? SLASH) = true <-> exists rest, u = SLASH :: rest.
Proof.
  rewrite app_nth2, Nat.sub_diag by lia. rewrite Z.eqb_eq. destruct u as [|x u]; cbn.
  - split; [done|]. by intros [? ?].
  - split; [intros ->; eauto|]. by intros [? [= -> _]].
Qed.

(** A directory [dir] covers itself and what is below it. *)
Definition below (dir u : bytes) : Prop := u = dir \/ exists rest, u = dir ++ SLASH :: rest.

Lemma covers_below dir u :
  (zlen dir <=? zlen u) && bool_decide (ztake (zlen dir) u = dir)
  && ((zlen u =? zlen dir) || (nth (length dir) u 0 =? SLASH)) = true <-> below dir u.
Proof.
  unfold below. split.
  - intros [[Hle%Z.leb_le Ht%bool_decide_eq_true]%andb_prop Hor]%andb_prop.
    pose proof (ztake_zdrop (zlen dir) u) as Hu. rewrite Ht in Hu.
    apply orb_prop in Hor as [Hz|Hn].
    + left. apply Z.eqb_eq in Hz. rewrite <- Hu, zdrop_ge by lia. by rewrite app_nil_r.
    + right. rewrite <- Hu in Hn. apply nth_slash_app in Hn as [rest Hr]. exists rest. by rewrite <- Hu, Hr at 1.
  - intros [->|(rest & ->)].
    + rewrite Z.leb_refl, ztake_ge, bool_decide_true, Z.eqb_refl by (done || lia). done.
    + rewrite zlen_app, zlen_cons, ztake_app_exact, bool_decide_true by done.
      pose proof (zlen_nonneg rest). pose proof (zlen_nonneg dir).
      rewrite (proj2 (Z.leb_le _ _)) by lia. cbn [andb]. apply orb_true_iff. right.
      apply nth_slash_app. eauto.
Qed.

(** What a subscription stands for: everything (one character), one URL, or a
    directory. *)
Definition topic_matches (sub u : bytes) : Prop :=
  zlen sub = 1 \/ sub = u \/ exists dir, sub = dir ++ [SLASH] /\ below dir u.

Lemma nth_last_slash (sub : bytes) :
  (nth (length sub - 1) sub 0 =? SLASH) = true <-> exists dir, sub = dir ++ [SLASH].
Proof.
  rewrite Z.eqb_eq. destruct sub as [|x dir _] using rev_ind.
  - cbn. split; [done|]. by intros [[] ?].
  - rewrite length_app, app_nth2 by (cbn; lia). cbn [length].
    replace (length dir + 1 - 1 - length dir)%nat with 0%nat by lia. cbn.
    split; [intros ->; eauto|]. by intros (d & [_ ?]%app_inj_tail).
Qed.

Lemma sub_covers_spec sub u : sub_covers sub u = true <-> topic_matches sub u.
Proof.
  unfold sub_covers, topic_matches. rewrite !orb_true_iff, Z.eqb_eq, bool_decide_eq_true.
  rewrite Logic.or_assoc. apply or_iff_compat_l, or_iff_compat_l.
  rewrite <- !andb_assoc, andb_true_iff, nth_last_slash, !andb_assoc.
  split.
  - intros [(dir & ->) Hc]. exists dir. split; [done|]. apply covers_below.
    rewrite zlen_app, length_app in Hc. cbn [length] in Hc. change (zlen [SLASH]) with 1 in Hc.
    replace (zlen dir + 1 - 1) with (zlen dir) in Hc by lia.
    rewrite ztake_app_exact in Hc. by replace (length dir + 1 - 1)%nat with (length dir) in Hc by lia.
  - intros (dir & -> & Hb). split; [eauto|].
    rewrite zlen_app, length_app. cbn [length]. change (zlen [SLASH]) with 1.
    replace (zlen dir + 1 - 1) with (zlen dir) by lia.
    rewrite ztake_app_exact. replace (length dir + 1 - 1)%nat with (length dir) by lia.
    by apply covers_below.
Qed.

Lemma path_covers_spec path u : path_covers path u = true <-> below path u.
Proof. rewrite <- covers_below. unfold path_covers. by rewrite (Z.eqb_sym (zlen path)). Qed.

Lemma sub_match_spec l u : sub_match l u = true <-> exists sub, (sub ∈ l) /\ topic_matches sub u.
Proof.
  induction l as [|sub l IH]; cbn.
  - split; [done|]. by intros (? & ?%elem_of_nil & _).
  - setoid_rewrite elem_of_cons. destruct (sub_covers sub u) eqn:E.
    + split; [|done]. intros _. exists sub. split; [by left|]. by apply sub_covers_spec.
    + rewrite IH. split.
      * intros (x & ? & ?). eauto.
      * intros (x & [->|?] & Hm); [|eauto]. apply sub_covers_spec in Hm. congruence.
Qed.

(** ** Publishing *)

Section publish.
Context {W : Type} `{OsLaws W}.
Implicit Types (s : ssn_server) (w : W) (c : ssn_server_cli_t).

Definition fd_of c : Z := sock_fd (impl (cli_transport c)).
Definition receives (u : bytes) c : bool := cli_active c && ssn_server_cli_sub_match c u.

Lemma complete_header_idem hdr url data :
  complete_header (complete_header hdr url data) url data = complete_header hdr url data.
Proof. by destruct url, data. Qed.

(** What one send leaves behind: a prefix of the packet on the connection's
    descriptor; the connection survives exactly if all of it was written. *)
Definition sent_to (pkt : bytes) (id : Z) c w s' w' : Prop :=
  exists n c', 0 <= n <= zlen pkt /\ os_tx w' (fd_of c) = os_tx w (fd_of c) ++ ztake n pkt /\
    ssn_server_cli_find s' id = Some c' /\
    (n = zlen pkt -> fd_of c' = fd_of c) /\ (n < zlen pkt -> fd_of c' < 0).

Lemma sendmsg_spec k s id c hdr url data w :
  server_inv k s -> ssn_server_cli_find s id = Some c -> refs_ok url data -> ~ refused url data ->
  exists ret s' w', ssn_server_cli_sendmsg s id hdr url data w
      = Some (ret, complete_header hdr url data, s', w') /\ server_inv k s' /\
    (forall id', id' <> id -> ssn_server_cli_find s' id' = ssn_server_cli_find s id') /\
    (forall x, x <> fd_of c -> os_tx w' x = os_tx w x) /\
    sent_to (send_buffer (complete_header hdr url data) url data) id c w s' w'.
Proof.
  intros Hi Hf Hr Hnr. unfold ssn_server_cli_sendmsg. rewrite Hf.
  destruct (find_facts k s id c Hi Hf) as (Hid & Hrecv & Hcfg).
  destruct (send_message_spec (cli_transport c) hdr url data w Hr (send_timeout_range _ Hcfg))
    as (ok & hdr' & t' & w' & -> & [[? _]|(_ & -> & Hp)]); [done|].
  destruct Hp as (Hfd & _ & _ & Hc' & _ & Hx & n & Hn & Htx & Hok). rewrite Z.sub_0_r in Htx.
  change (slice ?b 0 n) with (ztake n b) in Htx.
  assert (forall t2, config t2 = config t' ->
    server_inv k (cli_put s (cli_with_transport c t2)) /\
    (forall id', id' <> id ->
       ssn_server_cli_find (cli_put s (cli_with_transport c t2)) id' = ssn_server_cli_find s id') /\
    ssn_server_cli_find (cli_put s (cli_with_transport c t2)) id = Some (cli_with_transport c t2)) as Hput.
  { intros t2 Ht2. destruct (put_transport_inv k s id c t2 Hi Hf) as (? & _ & ?); [congruence|].
    split; [done|]. split; [|done]. intros id' Hne. rewrite find_put by apply Hi. cbn. rewrite Hid.
    by destruct (decide (id' = id)). }
  destruct ok.
  - destruct (Hput t' eq_refl) as (? & ? & Hf'). eexists _, _, _. split; [done|].
    split; [done|]. split; [done|]. split; [done|]. exists n, (cli_with_transport c t').
    assert (n = zlen (send_buffer (complete_header hdr url data) url data)) by (by apply Hok).
    split; [done|]. split; [done|]. split; [done|]. split; [done|lia].
  - pose proof (disconnect_config t' w') as Hdc. pose proof (disconnect_spec t' w') as Hds.
    destruct (ssn_transport_disconnect t' w') as [[b t2] w2]. cbn in Hdc. destruct Hds as (_ & Hneg & _ & Htx2).
    destruct (Hput t2 Hdc) as (? & ? & Hf'). eexists _, _, _. split; [done|]. split; [done|].
    split; [done|]. split; [intros x Hxx; rewrite Htx2; by apply Hx|]. exists n, (cli_with_transport c t2).
    split; [done|]. split; [by rewrite Htx2|]. split; [done|]. split; [|done].
    intros En. apply Hok in En. done.
Qed.

(** The loop over the connections [ids]. *)
Record published (u pkt : bytes) (ids : list Z) s w s' w' : Prop := {
  pub_other : forall id, (id ∉ ids) -> ssn_server_cli_find s' id = ssn_server_cli_find s id;
  pub_skip : forall id c, ssn_server_cli_find s id = Some c -> receives u c = false ->
    ssn_server_cli_find s' id = Some c;
  pub_quiet : forall x,
    (forall id c, id ∈ ids -> ssn_server_cli_find s id = Some c -> receives u c = true -> fd_of c <> x) ->
    os_tx w' x = os_tx w x;
  pub_sent : forall id c, id ∈ ids -> ssn_server_cli_find s id = Some c -> receives u c = true ->
    (forall id' c', id' ∈ ids -> id' <> id -> ssn_server_cli_find s id' = Some c' ->
       receives u c' = true -> fd_of c' <> fd_of c) ->
    sent_to pkt id c w s' w';
}.

Lemma publish_loop_spec k u url data H0' ids : refs_ok url data -> ~ refused url data -> NoDup ids ->
  forall s hdr w, complete_header hdr url data = H0' ->
  server_inv k s -> Forall (fun id => is_Some (ssn_server_cli_find s id)) ids ->
  exists s' w', publish_loop ids s hdr u url data w = Some (s', w') /\ server_inv k s' /\
    published u (send_buffer H0' url data) ids s w s' w'.
Proof.
  intros Hr Hnr Hnd. induction Hnd as [|id ids Hid _ IH]; intros s hdr w Hh Hi Hids; cbn [publish_loop].
  { eexists _, _. split; [done|]. split; [done|]. split; try done. by intros ? ? ?%elem_of_nil. }
  apply Forall_cons in Hids as [[c Hf] Hids]. rewrite Hf. fold (receives u c).
  destruct (receives u c) eqn:Hrc.
  2:{ destruct (IH s hdr w Hh Hi Hids) as (s' & w' & -> & Hi' & [Ho Hs Hq Hse]).
      eexists _, _. split; [done|]. split; [done|]. split; try done.
      - intros id' Hn. apply Ho. set_solver.
      - intros x Hx. apply Hq. intros id' c' Hin. apply Hx. by right.
      - intros id' c' [->|Hin]%elem_of_cons Hf' Hrc' Hdis; [congruence|].
        apply Hse; try done. intros id2 c2 Hin2. apply Hdis. by right. }
  destruct (sendmsg_spec k s id c hdr url data w Hi Hf Hr Hnr)
    as (ret & s1 & w1 & -> & Hi1 & Ho1 & Hx1 & n & c1 & Hn & Htx1 & Hf1 & Hfd1). rewrite Hh in *.
  destruct (IH s1 H0' w1) as (s' & w' & -> & Hi' & [Ho Hs Hq Hse]).
  { rewrite <- Hh. apply complete_header_idem. } { done. }
  { apply Forall_forall. intros id' Hin. rewrite Forall_forall in Hids.
    rewrite Ho1 by (by intros ->). by apply Hids. }
  assert (forall id', id' ∈ ids -> ssn_server_cli_find s1 id' = ssn_server_cli_find s id') as Hsame.
  { intros id' Hin. apply Ho1. by intros ->. }
  eexists _, _. split; [done|]. split; [done|]. split.
  - intros id' Hn'. rewrite Ho, Ho1 by set_solver. done.
  - intros id' c' Hf' Hrc'. apply Hs; [|done]. rewrite Ho1; [done|]. intros ->. congruence.
  - intros x Hx. rewrite Hq.
    + apply Hx1. intros ->. by apply (Hx id c ltac:(left) Hf Hrc).
    + intros id' c' Hin Hf' Hrc'. rewrite Hsame in Hf' by done. apply (Hx id' c'); [by right|done|done].
  - intros id' c' [->|Hin]%elem_of_cons Hf' Hrc' Hdis.
    + rewrite Hf in Hf'. simplify_eq. exists n, c1. split; [done|]. split.
      * rewrite Hq; [done|]. intros id2 c2 Hin2 Hf2 Hrc2. rewrite Hsame in Hf2 by done.
        apply (Hdis id2 c2); [by right|by intros ->|done|done].
      * split; [|done]. by rewrite Ho.
    + assert (id' <> id) as Hne by (by intros ->).
      assert (fd_of c' <> fd_of c) as Hfdne.
      { intros E. by apply (Hdis id c ltac:(left) (not_eq_sym Hne) Hf Hrc). }
      destruct (Hse id' c') as (n' & c2 & Hn' & Htx' & Hrest); [done|by rewrite Hsame|done| |].
      { intros id2 c3 Hin2 Hne2 Hf2. rewrite Hsame in Hf2 by done. apply (Hdis id2 c3); [by right|done|done]. }
      exists n', c2. split; [done|]. split; [|done]. by rewrite Htx', Hx1.
Qed.
End publish.

(** ** The method registry *)

(** Reference: registrations in the order they count. *)
Record registry := mk_registry {
  r_exact : list (bytes * (Z * Z));
  r_prefix : list (bytes * (Z * Z));
  r_default : option (Z * Z);
}.

Inductive method_op :=
  | AddMethod (calloc_ok : bool) (url : option ssn_url_ref_t) (callback arg : Z)
  | RemoveMethod (url : option ssn_url_ref_t).

Fixpoint drop_key (k : bytes) (l : list (bytes * (Z * Z))) : list (bytes * (Z * Z)) :=
  match l with
  | [] => []
  | e :: l => if bool_decide (e.1 = k) then l else e :: drop_key k l
  end.

(** The newest exact registration wins, then the oldest covering directory,
    then the default. *)
Definition registry_lookup (r : registry) (u : bytes) : option (Z * Z) :=
  match find (fun e => bool_decide (e.1 = u)) (r_exact r) with
  | Some e => Some e.2
  | None =>
    match find (fun e => path_covers e.1 u) (r_prefix r) with
    | Some e => Some e.2
    | None => r_default r
    end
  end.

Definition registry_op (r : registry) (o : method_op) : registry :=
  match o with
  | AddMethod ok url cb arg =>
    match checked_url url with
    | Some u =>
      if (cb =? 0) || negb ok then r
      else if is_default u then mk_registry (r_exact r) (r_prefix r) (Some (cb, arg))
      else if is_prefix u then mk_registry (r_exact r) (r_prefix r ++ [(path_of u, (cb, arg))]) (r_default r)
      else mk_registry ((u, (cb, arg)) :: r_exact r) (r_prefix r) (r_default r)
    | None => r
    end
  | RemoveMethod url =>
    match checked_url url with
    | Some u =>
      if is_default u then mk_registry (r_exact r) (r_prefix r) None
      else if is_prefix u then mk_registry (r_exact r) (drop_key (path_of u) (r_prefix r)) (r_default r)
      else mk_registry (drop_key u (r_exact r)) (r_prefix r) (r_default r)
    | None => r
    end
  end.

(** The same operations on the server. *)
Definition method_step (s : ssn_server) (o : method_op) : option ssn_server :=
  match o with
  | AddMethod ok url cb arg =>
    match ssn_server_add_method ok s url cb arg with Some (_, s) => Some s | None => None end
  | RemoveMethod url => Some (ssn_server_remove_method s url)
  end.
Fixpoint method_steps (s : ssn_server) (ops : list method_op) : option ssn_server :=
  match ops with
  | [] => Some s
  | o :: ops => match method_step s o with Some s => method_steps s ops | None => None end
  end.

Definition handler_of (c : ssn_server_cmd_t) : Z * Z := (cmd_onrpc c, cmd_arg c).
Definition entry_of (c : ssn_server_cmd_t) : bytes * (Z * Z) := (cmd_url c, handler_of c).

(** Refinement relation: each URL's chain entries are the registrations of this
    URL in the same order. *)
Record registry_rep (s : ssn_server) (r : registry) : Prop := {
  rep_valid : srv_valid s = true;
  rep_len : length (cmds s) = 32%nat;
  rep_exact : forall u, filter (fun e => e.1 = u) (map entry_of (cmd_bucket s (ssn_server_url_hash u)))
                        = filter (fun e => e.1 = u) (r_exact r);
  rep_prefix : map entry_of (prefix_h s) = r_prefix r;
  rep_default : handler_of <$> def_cmd s = r_default r;
  rep_tail : prefix_t s = None -> prefix_h s = [];
}.

Lemma find_filter_head (u : bytes) (l : list (bytes * (Z * Z))) :
  find (fun e => bool_decide (e.1 = u)) l = hd_error (filter (fun e => e.1 = u) l).
Proof.
  induction l as [|e l IH]; [done|]. cbn [find]. rewrite filter_cons.
  destruct (decide (e.1 = u)); [by rewrite bool_decide_true|]. by rewrite bool_decide_false.
Qed.

Lemma find_exact_entry l u :
  handler_of <$> find_exact l u
  = snd <$> find (fun e => bool_decide (e.1 = u)) (map entry_of l).
Proof. induction l as [|c l IH]; [done|]. cbn. by case_bool_decide. Qed.

Lemma find_prefix_entry l u :
  handler_of <$> find_prefix l u = snd <$> find (fun e => path_covers e.1 u) (map entry_of l).
Proof. induction l as [|c l IH]; [done|]. cbn. by destruct (path_covers (cmd_url c) u). Qed.

Lemma lookup_rep s r u :
  registry_rep s r -> handler_of <$> ssn_server_cmd_match s u = registry_lookup r u.
Proof.
  intros [_ _ He Hp Hd _]. unfold ssn_server_cmd_match, registry_lookup.
  pose proof (find_exact_entry (cmd_bucket s (ssn_server_url_hash u)) u) as Hx.
  rewrite find_filter_head, He, <- find_filter_head in Hx.
  destruct (find_exact _ u) as [c|], (find _ (r_exact r)) as [e|]; cbn in Hx; try discriminate;
    [cbn; congruence|].
  pose proof (find_prefix_entry (prefix_h s) u) as Hy. rewrite Hp in Hy.
  destruct (find_prefix _ u) as [c|], (find _ (r_prefix r)) as [e|]; cbn in Hy; try discriminate;
    [cbn; congruence|done].
Qed.

Lemma remove_first_entry l k : map entry_of (remove_first_cmd l k) = drop_key k (map entry_of l).
Proof. induction l as [|c l IH]; [done|]. cbn. case_bool_decide; [done|]. cbn. by rewrite IH. Qed.

Lemma filter_drop_key u k l :
  filter (fun e => e.1 = u) (drop_key k l)
  = if decide (u = k) then tl (filter (fun e => e.1 = u) l) else filter (fun e => e.1 = u) l.
Proof.
  induction l as [|e l IH]; cbn [drop_key]; [by destruct (decide _)|].
  rewrite filter_cons. case_bool_decide as Hk.
  - destruct (decide (u = k)) as [->|].
    + by destruct (decide (e.1 = k)).
    + by destruct (decide (e.1 = u)); [congruence|].
  - rewrite filter_cons, IH. destruct (decide (u = k)) as [->|]; [|done].
    by destruct (decide (e.1 = k)).
Qed.

(** *** One operation *)

Lemma rep_with_exact s r l d ph pt nn u e :
  registry_rep s r ->
  (forall u', filter (fun x => x.1 = u') (map entry_of l)
     = (if decide (u' = u) then filter (fun x => x.1 = u') e
        else filter (fun x => x.1 = u') (map entry_of (cmd_bucket s (ssn_server_url_hash u))))) ->
  (forall u', u' <> u -> filter (fun x => x.1 = u') e = filter (fun x => x.1 = u') (r_exact r)) ->
  map entry_of ph = r_prefix r -> handler_of <$> d = r_default r -> (pt = None -> ph = []) ->
  registry_rep (with_methods s (<[ssn_server_url_hash u := l]> (cmds s)) d ph pt nn)
    (mk_registry e (r_prefix r) (r_default r)).
Proof.
  intros [Hv Hlen He Hp Hd Ht] Hl Hr Hph Hdd Hpt. split; try done; [cbn; by rewrite length_insert|].
  intros u'. cbn [r_exact]. rewrite cmd_bucket_insert by (done || apply url_hash_lt).
  destruct (decide (ssn_server_url_hash u = ssn_server_url_hash u')) as [E|E].
  - rewrite Hl. destruct (decide (u' = u)); [done|]. by rewrite E, He, Hr.
  - rewrite He, Hr; [done|]. congruence.
Qed.

Lemma add_method_rep s r ok url cb arg s' b :
  registry_rep s r -> ssn_server_add_method ok s url cb arg = Some (b, s') ->
  registry_rep s' (registry_op r (AddMethod ok url cb arg)).
Proof.
  intros Hrep. pose proof Hrep as [Hv Hlen He Hp Hd Ht]. unfold ssn_server_add_method. rewrite Hv.
  cbn [negb registry_op]. destruct (checked_url url) as [u|]; [|by intros ?; simplify_eq].
  destruct (cb =? 0); [by intros ?; simplify_eq|]. destruct ok; cbn [negb orb]; [|by intros ?; simplify_eq].
  destruct (is_default u); [by intros ?; simplify_eq|].
  destruct (is_prefix u) eqn:Hpre.
  - destruct (insert_to_fifo _ _ _) as [[ph pt]|] eqn:Hfifo; [|done]. intros ?; simplify_eq.
    assert (ph = prefix_h s ++ [mk_cmd (next_node s) cb arg (path_of u)] /\ pt <> None) as [-> Hpt].
    { unfold insert_to_fifo in Hfifo. destruct (prefix_t s) as [n|].
      - destruct (last (prefix_h s)) as [c|]; [|done]. destruct (_ =? _)%nat; by simplify_eq.
      - rewrite Ht in Hfifo by done. rewrite Ht by done. by simplify_eq. }
    split; try done. cbn. by rewrite map_app, <- Hp.
  - intros ?; simplify_eq. apply (rep_with_exact s r); try done.
    + intros u'. cbn [map]. rewrite !filter_cons. cbn. unfold path_of. rewrite Hpre.
      destruct (decide (u = u')) as [<-|].
      * destruct (decide (u = u)); [|done]. by rewrite He.
      * destruct (decide (u' = u)); [by subst|done].
    + intros u' Hne. rewrite filter_cons. cbn. by destruct (decide (u = u')); [subst|].
Qed.

Lemma remove_method_rep s r url :
  registry_rep s r -> registry_rep (ssn_server_remove_method s url) (registry_op r (RemoveMethod url)).
Proof.
  intros Hrep. pose proof Hrep as [Hv Hlen He Hp Hd Ht]. unfold ssn_server_remove_method. rewrite Hv.
  cbn [negb registry_op]. destruct (checked_url url) as [u|]; [|done].
  destruct (is_default u); [done|]. destruct (is_prefix u) eqn:Hpre.
  - split; try done; cbn.
    + by rewrite remove_first_entry, Hp.
    + intros Hn. by rewrite Ht.
  - unfold path_of. rewrite Hpre. apply (rep_with_exact s r); try done.
    + intros u'. rewrite remove_first_entry, !filter_drop_key. destruct (decide (u' = u)) as [->|]; [|done].
      by rewrite He.
    + intros u' Hne. rewrite filter_drop_key. by destruct (decide (u' = u)).
Qed.

Lemma method_steps_rep ops : forall s r s',
  registry_rep s r -> method_steps s ops = Some s' -> registry_rep s' (fold_left registry_op ops r).
Proof.
  induction ops as [|o ops IH]; intros s r s' Hrep; cbn; [by intros ?; simplify_eq|].
  destruct (method_step s o) as [s1|] eqn:E; [|done]. intros Hs. eapply IH; [|exact Hs].
  destruct o; cbn in E.
  - destruct (ssn_server_add_method _ _ _ _ _) as [[b s2]|] eqn:Ea; [|done]. simplify_eq.
    by eapply add_method_rep.
  - simplify_eq. by apply remove_method_rep.
Qed.

(** *** The tail pointer *)

Lemma prefix_not_default u : is_prefix u = true -> is_default u = false.
Proof. unfold is_prefix. by destruct (is_default u). Qed.

(** Is the first entry of this path the last of the list? *)
Fixpoint takes_newest (l : list (bytes * (Z * Z))) (p : bytes) : bool :=
  match l with
  | [] => false
  | e :: l => if bool_decide (e.1 = p) then (match l with [] => true | _ => false end) else takes_newest l p
  end.

(** [live]: the tail pointer of the list of directories is not dangling.  It dangles
    from the removal of the newest directory on, and a directory registered then
    writes to freed memory. *)
Definition op_defined (live : bool) (o : method_op) : bool :=
  match o with
  | AddMethod ok url cb _ =>
    match checked_url url with Some u => (cb =? 0) || negb ok || negb (is_prefix u) || live | None => true end
  | RemoveMethod _ => true
  end.
Definition live_after (live : bool) (r : registry) (o : method_op) : bool :=
  match o with
  | RemoveMethod url =>
    match checked_url url with Some u => live && negb (is_prefix u && takes_newest (r_prefix r) (path_of u)) | None => live end
  | AddMethod _ _ _ _ => live
  end.
Fixpoint ops_defined (live : bool) (r : registry) (ops : list method_op) : bool :=
  match ops with
  | [] => true
  | o :: ops => op_defined live o && ops_defined (live_after live r o) (registry_op r o) ops
  end.

Record tail_rep (s : ssn_server) (live : bool) : Prop := {
  tail_nodes : NoDup (map cmd_node (prefix_h s));
  tail_old : Forall (fun c => (cmd_node c < next_node s)%nat) (prefix_h s);
  tail_is : match prefix_t s with
            | None => live = true /\ prefix_h s = []
            | Some n => (n < next_node s)%nat /\
                if live then exists c, last (prefix_h s) = Some c /\ cmd_node c = n
                else n ∉ map cmd_node (prefix_h s)
            end;
}.

Lemma remove_newest l p :
  takes_newest (map entry_of l) p = true -> exists c, l = remove_first_cmd l p ++ [c].
Proof.
  induction l as [|c l IH]; [done|]. cbn. case_bool_decide.
  - destruct l; [|done]. intros _. by exists c.
  - intros [x E]%IH. exists x. cbn. by rewrite <- E.
Qed.
Lemma remove_older l p :
  takes_newest (map entry_of l) p = false -> last (remove_first_cmd l p) = last l.
Proof.
  induction l as [|c l IH]; [done|]. cbn. case_bool_decide.
  - by destruct l.
  - intros E%IH. cbn. destruct l as [|y l]; [done|]. cbn in E |- *. destruct (bool_decide _); [by destruct l|].
    exact E.
Qed.
Lemma remove_sublist l p : sublist (remove_first_cmd l p) l.
Proof. induction l as [|c l IH]; cbn; [done|]. case_bool_decide; [by constructor|by constructor]. Qed.

Lemma tail_rep_same s s' live :
  prefix_h s' = prefix_h s -> prefix_t s' = prefix_t s -> (next_node s <= next_node s')%nat ->
  tail_rep s live -> tail_rep s' live.
Proof.
  intros Eh Et Hn [Hnd Ho Hi]. split; rewrite ?Eh, ?Et; [done| |].
  - eapply Forall_impl; [exact Ho|]. cbn. lia.
  - destruct (prefix_t s) as [n|]; [|done]. destruct Hi. split; [lia|done].
Qed.

Lemma add_tail s live ok url cb arg :
  srv_valid s = true -> tail_rep s live ->
  if op_defined live (AddMethod ok url cb arg)
  then exists s', method_step s (AddMethod ok url cb arg) = Some s' /\ tail_rep s' live
  else method_step s (AddMethod ok url cb arg) = None.
Proof.
  intros Hv Ht. unfold method_step, ssn_server_add_method, op_defined. rewrite Hv. cbn [negb].
  destruct (checked_url url) as [u|]; [|by eexists]. destruct (cb =? 0); [by eexists|]. destruct ok; [|by eexists].
  cbn [negb orb]. destruct (is_prefix u) eqn:Hp; cbn [negb orb].
  2:{ destruct (is_default u); (eexists; split; [done|]); apply (tail_rep_same s); try done; cbn; lia. }
  rewrite (prefix_not_default u Hp).
  destruct Ht as [Hnd Ho Hi]. set (cmd := mk_cmd _ _ _ _).
  assert (cmd_node cmd ∉ map cmd_node (prefix_h s)) as Hnew.
  { intros (c & Hc & Hin)%list_elem_of_fmap. rewrite Forall_forall in Ho. apply Ho in Hin. cbn in Hc. lia. }
  destruct live.
  - rewrite insert_to_fifo_ok by (destruct (prefix_t s); [by destruct Hi|by destruct Hi]). eexists. split; [done|].
    split; cbn [prefix_h prefix_t next_node with_methods].
    + rewrite map_app. apply NoDup_app. split; [done|]. split; [|apply NoDup_singleton].
      intros x Hx ->%list_elem_of_singleton. done.
    + apply Forall_app. split; [eapply Forall_impl; [exact Ho|]; cbn; lia|]. repeat constructor.
    + split; [cbn; lia|]. exists cmd. by rewrite last_snoc.
  - unfold insert_to_fifo. destruct (prefix_t s) as [n|]; [|by destruct Hi]. destruct Hi as [_ Hout].
    destruct (last (prefix_h s)) as [l|] eqn:El; [|done]. destruct (Nat.eqb_spec (cmd_node l) n) as [<-|]; [|done].
    destruct Hout. apply list_elem_of_fmap_2. apply last_Some in El as [l' ->]. apply elem_of_app. right. left.
Qed.

Lemma remove_tail s r live url :
  srv_valid s = true -> map entry_of (prefix_h s) = r_prefix r -> tail_rep s live ->
  tail_rep (ssn_server_remove_method s url) (live_after live r (RemoveMethod url)).
Proof.
  intros Hv Hr Ht. unfold ssn_server_remove_method, live_after. rewrite Hv, <- Hr. cbn [negb].
  destruct (checked_url url) as [u|]; [|done]. destruct (is_prefix u) eqn:Hp; cbn [andb negb].
  2:{ rewrite andb_true_r. destruct (is_default u); by apply (tail_rep_same s). }
  rewrite (prefix_not_default u Hp).
  destruct Ht as [Hnd Ho Hi]. pose proof (remove_sublist (prefix_h s) (path_of u)) as Hsub.
  split; cbn [prefix_h prefix_t next_node with_methods].
  - eapply sublist_NoDup; [done|by apply (fmap_sublist cmd_node)].
  - rewrite Forall_forall in Ho |- *. intros c Hc. apply Ho. by eapply elem_of_sublist.
  - destruct (prefix_t s) as [n|]; [|destruct Hi as [-> ->]; done]. destruct Hi as [Hn Hi]. split; [done|].
    destruct (takes_newest _ _) eqn:Hnew; cbn [negb]; rewrite ?andb_false_r, ?andb_true_r.
    + apply remove_newest in Hnew as [c E]. destruct live.
      * destruct Hi as (c' & Hl & <-). rewrite E in Hl, Hnd. rewrite last_snoc in Hl. injection Hl as <-.
        rewrite map_app in Hnd. apply NoDup_app in Hnd as (_ & Hd & _). intros Hin. apply (Hd _ Hin). left.
      * intros Hin. apply Hi. eapply elem_of_sublist; [exact Hin|]. by apply (fmap_sublist cmd_node).
    + destruct live; [by rewrite remove_older|]. intros Hin. apply Hi. eapply elem_of_sublist; [exact Hin|]. by apply (fmap_sublist cmd_node).
Qed.

(** A sequence of operations is defined exactly when no directory is registered
    while the tail pointer dangles. *)
Lemma method_steps_defined ops : forall s r live,
  registry_rep s r -> tail_rep s live -> is_Some (method_steps s ops) <-> ops_defined live r ops = true.
Proof.
  induction ops as [|o ops IH]; intros s r live Hr Ht; cbn [method_steps ops_defined]; [done|].
  destruct o as [ok url cb arg|url].
  - pose proof (add_tail s live ok url cb arg (rep_valid s r Hr) Ht) as Ha. destruct (op_defined _ _); cbn [andb].
    + destruct Ha as (s' & E & Ht'). rewrite E. apply IH; [|done]. cbn in E.
      destruct (ssn_server_add_method _ _ _ _ _) as [[b s2]|] eqn:Ea; [|done]. simplify_eq. by eapply add_method_rep.
    + rewrite Ha. split; [by intros [? ?]|done].
  - cbn [op_defined andb method_step]. apply IH; [by apply remove_method_rep|].
    apply remove_tail; [apply Hr|apply Hr|done].
Qed.

Lemma new_server_tail name opts e : tail_rep (new_server name opts e) true.
Proof.
  unfold new_server. destruct (match opts with Some _ => _ | None => _ end) as [[[st hs] ka] mc]. by split; [constructor..|].
Qed.

Lemma new_server_rep name opts e :
  registry_rep (new_server name opts e) (mk_registry [] [] None).
Proof.
  unfold new_server. destruct (match opts with Some _ => _ | None => _ end) as [[[st hs] ka] mc].
  split; try done. intros u. unfold cmd_bucket. cbn [cmds]. by rewrite nth_replicate_nil.
Qed.

(** What a publication sends, and to whom. *)
Lemma publish_spec {W} `{OsLaws W} (k : Z) (s : ssn_server)
    (url : option ssn_url_ref_t) (data : option ssn_data_ref_t) (u : bytes) (w : W) :
  server_inv k s -> srv_valid s = true -> checked_url url = Some u ->
  refs_ok url data -> ~ refused url data ->
  exists s' w', ssn_server_publish s url data w = Some (true, s', w') /\ server_inv k s' /\
    (forall id c, ssn_server_cli_find s id = Some c ->
       cli_active c && ssn_server_cli_sub_match c u = true ->
       (forall id' c', id' <> id -> ssn_server_cli_find s id' = Some c' ->
          cli_active c' && ssn_server_cli_sub_match c' u = true -> fd_of c' <> fd_of c) ->
       sent_to (frame SSN_MSG_TYPE_PUBLISH 0 0 (url_bytes url) (data_bytes data)) id c w s' w') /\
    (forall id c, ssn_server_cli_find s id = Some c ->
       cli_active c && ssn_server_cli_sub_match c u = false -> ssn_server_cli_find s' id = Some c) /\
    (forall x, (forall id c, ssn_server_cli_find s id = Some c ->
       cli_active c && ssn_server_cli_sub_match c u = true -> fd_of c <> x) -> os_tx w' x = os_tx w x).
Proof.
  intros Hi Hv Hu Hr Hnr. unfold ssn_server_publish. rewrite Hv, Hu. cbn [negb].
  set (ids := map cli_id (concat (clis s))).
  assert (forall id c, ssn_server_cli_find s id = Some c -> id ∈ ids) as Hids.
  { intros id c Hf. apply find_in_table; [apply Hi|congruence]. }
  destruct (publish_loop_spec k u url data _ ids Hr Hnr (table_ids_nodup s (proj1 (inv_table k s Hi))) s
    (ssn_create_header SSN_MSG_TYPE_PUBLISH 0 0) w eq_refl Hi (all_found k s Hi))
    as (s' & w' & -> & Hi' & [_ Hskip Hq Hsent]).
  exists s', w'. split; [done|]. split; [done|].
  rewrite send_buffer_frame in Hsent.
  - split; [|split; [done|]]; [|intros x Hx; apply Hq; intros id c _; apply Hx].
    intros id c Hf Hrc Hdis. apply Hsent; [by eapply Hids|done|done|].
    intros id' c' _. apply Hdis.
  - destruct (url_rejected url) eqn:Hur; [by destruct Hnr; apply rejected_refused; auto|].
    by destruct (url_accepted url data Hr Hur).
  - destruct (url_rejected url) eqn:Hur; [by destruct Hnr; apply rejected_refused; auto|].
    by destruct (url_accepted url data Hr Hur).
  - destruct (data_rejected data) eqn:Hdr; [by destruct Hnr; apply rejected_refused; auto|].
    by destruct (data_accepted url data Hr Hdr).
  - destruct (data_rejected data) eqn:Hdr; [by destruct Hnr; apply rejected_refused; auto|].
    by destruct (data_accepted url data Hr Hdr).
Qed.

(** ** Claims *)

(** C27.  Subscription matching: a connection matches a published URL exactly
    when one of its subscriptions is a single character (everything), equals the
    URL, or is a directory [dir/] with the URL being [dir] itself or below it;
    [/ab] is not below [/a/]. *)
Theorem subscription_matching (c : ssn_server_cli_t) (u : bytes) :
  ssn_server_cli_sub_match c u = true <->
  exists sub, (sub ∈ cli_subscribed c) /\
    (zlen sub = 1 \/ sub = u \/
     exists dir, sub = dir ++ [SLASH] /\ (u = dir \/ exists rest, u = dir ++ SLASH :: rest)).
Proof. apply sub_match_spec. Qed.

(** C26.  Publishing: a valid publication succeeds and, whatever the kernel
    accepts, every active connection with a matching subscription (on a
    descriptor of its own) gets a prefix of the PUBLISH frame, all of it exactly
    if it stays connected, a failed one being disconnected; nobody else gets a
    byte, and the other connections are unchanged. *)
Theorem publish_reaches_subscribers {W} `{OsLaws W} (k : Z) (s : ssn_server)
    (url : option ssn_url_ref_t) (data : option ssn_data_ref_t) (u : bytes) (w : W) :
  server_inv k s -> srv_valid s = true -> checked_url url = Some u ->
  refs_ok url data -> ~ refused url data ->
  exists s' w', ssn_server_publish s url data w = Some (true, s', w') /\ server_inv k s' /\
    (forall id c, ssn_server_cli_find s id = Some c ->
       cli_active c && ssn_server_cli_sub_match c u = true ->
       (forall id' c', id' <> id -> ssn_server_cli_find s id' = Some c' ->
          cli_active c' && ssn_server_cli_sub_match c' u = true -> fd_of c' <> fd_of c) ->
       sent_to (frame SSN_MSG_TYPE_PUBLISH 0 0 (url_bytes url) (data_bytes data)) id c w s' w') /\
    (forall id c, ssn_server_cli_find s id = Some c ->
       cli_active c && ssn_server_cli_sub_match c u = false -> ssn_server_cli_find s' id = Some c) /\
    (forall x, (forall id c, ssn_server_cli_find s id = Some c ->
       cli_active c && ssn_server_cli_sub_match c u = true -> fd_of c <> x) -> os_tx w' x = os_tx w x).
Proof. apply publish_spec. Qed.

(** C28.  Method dispatch.  A sequence of registrations and removals on a new server
    is defined exactly when no directory method is registered after the newest one was
    removed (the tail pointer of their list then dangles, and the registration writes
    to freed memory).  After a defined sequence the method found for a URL is the one
    of the reference registry: the newest exact registration, else the oldest directory
    that covers the URL, else the default. *)
Theorem method_dispatch_refines (name : bytes) (opts : option server_options_t) (e : ipc_event_pair)
    (ops : list method_op) (u : bytes) :
  (is_Some (method_steps (new_server name opts e) ops) <-> ops_defined true (mk_registry [] [] None) ops = true) /\
  (forall s, method_steps (new_server name opts e) ops = Some s ->
     handler_of <$> ssn_server_cmd_match s u
     = registry_lookup (fold_left registry_op ops (mk_registry [] [] None)) u).
Proof.
  split.
  - apply method_steps_defined; [apply new_server_rep|apply new_server_tail].
  - intros s Hs. apply lookup_rep. eapply method_steps_rep; [|exact Hs]. apply new_server_rep.
Qed.

(** Removing the newest directory method leaves the tail pointer of the
    list on the freed node: every later successful registration of a directory
    method writes to freed memory. *)
Theorem prefix_removal_leaves_dangling_tail (k : Z) (s : ssn_server) (pre : list ssn_server_cmd_t)
    (c : ssn_server_cmd_t) (url url' : option ssn_url_ref_t) (u u' : bytes) (cb arg : Z) :
  server_inv k s -> tail_ok s -> srv_valid s = true ->
  prefix_h s = pre ++ [c] -> NoDup (map cmd_node (prefix_h s)) ->
  checked_url url = Some u -> is_prefix u = true ->
  cmd_url c = path_of u -> Forall (fun x => cmd_url x <> path_of u) pre ->
  checked_url url' = Some u' -> is_prefix u' = true -> cb <> 0 ->
  ssn_server_add_method true (ssn_server_remove_method s url) url' cb arg = None.
Proof.
  intros Hi Htail Hv Hh Hnd Hu Hp Hc Hpre Hu' Hp' Hcb. unfold tail_ok in Htail.
  assert (remove_first_cmd (prefix_h s) (path_of u) = pre) as Hrem.
  { rewrite Hh. clear - Hc Hpre. induction Hpre as [|x l Hx _ IH]; cbn.
    - by rewrite bool_decide_true.
    - by rewrite bool_decide_false, IH. }
  assert (is_default u = false /\ is_default u' = false) as [Hd Hd'].
  { unfold is_prefix in *. destruct (is_default u), (is_default u'); done. }
  unfold ssn_server_add_method, ssn_server_remove_method. rewrite Hv, Hu, Hd, Hp, Hrem. cbn [negb srv_valid with_methods].
  rewrite Hv, Hu', Hd', Hp'. cbn [negb]. destruct (Z.eqb_spec cb 0); [done|].
  unfold insert_to_fifo. cbn [prefix_h prefix_t with_methods].
  destruct (prefix_t s) as [m|]; [|by rewrite Hh in Htail; destruct pre].
  destruct Htail as (c' & Hl & <-). rewrite Hh, last_snoc in Hl. injection Hl as <-.
  destruct (last pre) as [l|] eqn:Hlast; [|done].
  destruct (Nat.eqb_spec (cmd_node l) (cmd_node c)) as [E|]; [|done].
  exfalso. rewrite Hh, map_app in Hnd. apply NoDup_app in Hnd as (_ & Hdis & _).
  apply (Hdis (cmd_node l)); [|rewrite E; left]. apply list_elem_of_fmap_2.
  apply last_Some in Hlast as [l' ->]. apply elem_of_app. right. left.
Qed.

(** With idle timers off, a peer the application closes stays in the
    connection table: its socket is gone, it still counts against the limit, and
    neither timer passes nor event inputs ever remove it. *)
Theorem closed_peer_stays_in_table {W} `{OsLaws W} (k : Z) (s : ssn_server) (id : Z)
    (c : ssn_server_cli_t) (n : nat) (rfds : list Z) (w w' : W) :
  server_inv k s -> srv_valid s = true -> ssn_server_cli_find s id = Some c -> hst_linked c = false ->
  exists s1 w1, ssn_server_peer_close s id w = (true, s1, w1) /\ cli_total s1 = cli_total s /\
    forall s2 s3 w3, ticks n s1 = Some s2 -> ssn_server_handle_event_input s2 rfds w' = Some (s3, w3) ->
      exists c3, ssn_server_cli_find s3 id = Some c3 /\ sock_fd (impl (cli_transport c3)) < 0.
Proof.
  intros Hi Hv Hf Hl. unfold ssn_server_peer_close. rewrite Hv, Hf. cbn [negb].
  pose proof (disconnect_config (cli_transport c) w) as Hd. pose proof (disconnect_spec (cli_transport c) w) as Hds.
  destruct (ssn_transport_disconnect (cli_transport c) w) as [[b t] w1]. cbn in Hd.
  destruct Hds as (_ & Hneg & _).
  destruct (put_transport_inv k s id c t Hi Hf Hd) as (Hi1 & _ & Hf1).
  set (s1 := cli_put s (cli_with_transport c t)) in *.
  exists s1, w1. split; [done|]. split; [apply cli_total_put, Hi|].
  intros s2 s3 w3 Ht He. exists (cli_with_transport c t). split; [|done].
  pose proof (ticks_inv k n s1 s2 Hi1 Ht) as Hi2.
  pose proof (ticks_off k n s1 id _ Hi1 Hf1 Hl s2 Ht) as Hf2.
  destruct (event_input_good k s2 rfds w' Hi2) as (s4 & w4 & E & _ & Hout). rewrite He in E. simplify_eq.
  unfold ssn_server_handle_event_input in He. case_bool_decide as Hin; [|by simplify_eq].
  destruct (Hout Hin) as [_ Hfind]. rewrite Hfind, Hf2. destruct (decide _) as [Hx|]; [|done].
  pose proof (inv_table k s2 Hi2) as (_ & [_ Htm] & _). apply Htm in Hx as (c5 & Hc5 & Hl5).
  rewrite Hf2 in Hc5. injection Hc5 as <-. cbn in Hl5. congruence.
Qed.

(** ** Witnesses *)

(** One active connection subscribed to [/a/]. *)
Definition demo_subscribed : ssn_server :=
  cli_put demo_one (mk_cli true false [[47; 97; 47]] 5000 true new_recv (demo_transport 5) 0).
Definition demo_url : option ssn_url_ref_t := Some (mk_url_ref (Some [47; 97; 47; 98]) 4).

Lemma demo_subscribed_inv : server_inv 0 demo_subscribed.
Proof.
  apply (put_plain 0 demo_one 0 (mk_cli false false [] 5000 true new_recv (demo_transport 5) 0));
    [exact demo_one_inv|reflexivity..].
Qed.

Lemma publish_reaches_subscribers_witness :
  exists s' w', ssn_server_publish demo_subscribed demo_url None (sim_init [] []) = Some (true, s', w') /\
    server_inv 0 s' /\
    sent_to (frame SSN_MSG_TYPE_PUBLISH 0 0 [47; 97; 47; 98] []) 0
      (mk_cli true false [[47; 97; 47]] 5000 true new_recv (demo_transport 5) 0) (sim_init [] []) s' w'.
Proof.
  destruct (publish_reaches_subscribers 0 demo_subscribed demo_url None [47; 97; 47; 98] (sim_init [] []))
    as (s' & w' & E & Hi & Hsent & _).
  - exact demo_subscribed_inv.
  - reflexivity.
  - reflexivity.
  - repeat split; vm_compute; discriminate || reflexivity.
  - intros [Hr|[Hr|[(n & Hr & _)|(n & Hr & _)]]]; [vm_compute in Hr; discriminate..| |]; discriminate Hr.
  - exists s', w'. split; [exact E|]. split; [exact Hi|]. apply Hsent; [reflexivity|reflexivity|].
    intros id' c' Hne Hf _. exfalso. apply Hne.
    assert (id' ∈ map cli_id (concat (clis demo_subscribed))) as Hin.
    { apply find_in_table; [apply demo_subscribed_inv|congruence]. }
    apply list_elem_of_singleton. exact Hin.
Defined.

(** [/a/] and [/a/b] registered, then [/a/b] removed: [/a/b] falls back to the
    directory. *)
Definition url_ref (b : bytes) : option ssn_url_ref_t := Some (mk_url_ref (Some b) (zlen b)).
Definition demo_ops : list method_op :=
  [AddMethod true (url_ref [47; 97; 47]) 1 10; AddMethod true (url_ref [47; 97; 47; 98]) 2 20;
   RemoveMethod (url_ref [47; 97; 47; 98])].

Lemma method_dispatch_refines_witness :
  exists s, method_steps demo_server demo_ops = Some s /\
    handler_of <$> ssn_server_cmd_match s [47; 97; 47; 98] = Some (1, 10).
Proof.
  destruct (method_dispatch_refines [47; 115] None (mk_event 9 0) demo_ops [47; 97; 47; 98]) as [Hd Hl].
  destruct (proj2 Hd) as [s Hs]; [vm_compute; reflexivity|].
  exists s. split; [exact Hs|]. rewrite (Hl s Hs). vm_compute. reflexivity.
Defined.

Definition demo_prefix : ssn_server :=
  match method_steps demo_server [AddMethod true (url_ref [47; 97; 47]) 1 10] with
  | Some s => s | None => demo_server
  end.

Lemma demo_prefix_inv : server_inv 0 demo_prefix.
Proof.
  destruct (add_method_inv 0 true demo_server (url_ref [47; 97; 47]) 1 10) as (b & s' & E & Hi & _).
  { by apply new_server_inv. } { done. }
  unfold demo_prefix, method_steps, method_step. by rewrite E.
Qed.

Lemma prefix_removal_leaves_dangling_tail_witness :
  ssn_server_add_method true (ssn_server_remove_method demo_prefix (url_ref [47; 97; 47]))
    (url_ref [47; 98; 47]) 3 30 = None.
Proof.
  apply (prefix_removal_leaves_dangling_tail 0 demo_prefix [] (mk_cmd 0 1 10 [47; 97])
           (url_ref [47; 97; 47]) (url_ref [47; 98; 47]) [47; 97; 47] [47; 98; 47] 3 30);
    [exact demo_prefix_inv|by eexists|reflexivity|reflexivity| |reflexivity|reflexivity|reflexivity|constructor
    |reflexivity|reflexivity|discriminate].
  cbn. constructor; [apply not_elem_of_nil|constructor].
Defined.

(** The connection after its timer was switched off. *)
Definition demo_untimed_cli : ssn_server_cli_t :=
  mk_cli true true [] 0 false new_recv (demo_transport 5) 0.
Definition demo_untimed : ssn_server :=
  with_table (cli_put demo_one demo_untimed_cli) (remove_hst (hst_h demo_one) 0)
    (clis (cli_put demo_one demo_untimed_cli)).

Lemma demo_untimed_inv : server_inv 0 demo_untimed.
Proof.
  destruct demo_one_inv as [Ht ? ? ? ? ?]. split; try done.
  apply (table_wf_unlink demo_one demo_untimed_cli
    (mk_cli false false [] 5000 true new_recv (demo_transport 5) 0)); try done.
  apply stream_inv_start. vm_compute. discriminate.
Qed.

Lemma closed_peer_stays_in_table_witness :
  exists s1 w1, ssn_server_peer_close demo_untimed 0 (sim_init [] []) = (true, s1, w1) /\
    exists s2 s3 w3, ticks 1000 s1 = Some s2 /\
      ssn_server_handle_event_input s2 [9] (sim_init [] []) = Some (s3, w3) /\
      exists c3, ssn_server_cli_find s3 0 = Some c3 /\ sock_fd (impl (cli_transport c3)) < 0.
Proof.
  destruct (closed_peer_stays_in_table 0 demo_untimed 0 demo_untimed_cli 1000 [9] (sim_init [] [])
    (sim_init [] [])) as (s1 & w1 & E & _ & Hstay);
    [exact demo_untimed_inv|reflexivity|vm_compute; reflexivity|reflexivity|].
  exists s1, w1. split; [exact E|].
  destruct (ticks 1000 s1) as [s2|] eqn:Et;
    [|vm_compute in E; injection E as <- <-; vm_compute in Et; discriminate].
  destruct (ssn_server_handle_event_input s2 [9] (sim_init [] [])) as [[s3 w3]|] eqn:Ee;
    [|vm_compute in E; injection E as <- <-; vm_compute in Et; injection Et as <-;
      vm_compute in Ee; discriminate].
  exists s2, s3, w3. split; [reflexivity|]. split; [exact Ee|].
  exact (Hstay s2 s3 w3 eq_refl Ee).
Defined.
