(* ===== verification/ClientPending.v ===== *)
(** * Client: the table of pending requests ([src/src/ssn_client.c])

    The 1024 request slots, their bitmap and the map from sequence numbers to
    slots, with allocation, lookup, release, timer pass and collection.  The
    invariant says that every mapped sequence number leads to an occupied slot
    holding that very number, so a reply can never reach a slot reused by
    another request.

    A callback is a code, 0 for a NULL pointer. *)
From S2P Require Import Prelude FrameCodec Os Transport FrameSend EventPair.

(** ** Data *)

Definition SSN_CLIENT_FTYPE_RPC : Z := 1.
Definition SSN_CLIENT_FTYPE_RES : Z := 2.
Definition SSN_CLIENT_MAX_PENDING : Z := 1024.
Definition SSN_CLIENT_MAX_PENDING_BITMAP : Z := SSN_CLIENT_MAX_PENDING / 32.
Definition NO_INDEX : Z := 65535.
Definition TIMER_PERIOD : Z := 50.

Record ssn_pending_request_t := mk_pending {
  pend_index : Z;
  pend_seqno : Z;
  pend_timeout_ms : Z;
  pend_ftype : Z;
  pend_callback : Z;
  pend_arg : Z;
}.
Definition pend_with_timeout (p : ssn_pending_request_t) (n : Z) : ssn_pending_request_t :=
  mk_pending (pend_index p) (pend_seqno p) n (pend_ftype p) (pend_callback p) (pend_arg p).
Definition zero_pending (i : Z) : ssn_pending_request_t := mk_pending i 0 0 0 0 0.

(** The three arrays.  [seqno_to_index] is a finite map; a number not in it has
    the initial value 0xFFFF. *)
Record pending_table := mk_pending_table {
  pending_pool : list ssn_pending_request_t;
  pending_bitmap : list Z;
  seqno_to_index : gmap Z Z;
}.

Definition init_pending : pending_table :=
  mk_pending_table (map (fun i => zero_pending (Z.of_nat i)) (seq 0 (Z.to_nat SSN_CLIENT_MAX_PENDING)))
    (replicate (Z.to_nat SSN_CLIENT_MAX_PENDING_BITMAP) 0) ∅.

Definition index_of (t : pending_table) (seqno : Z) : Z := default NO_INDEX (seqno_to_index t !! seqno).
Definition slot (t : pending_table) (i : Z) : ssn_pending_request_t :=
  nth (Z.to_nat i) (pending_pool t) (zero_pending i).
Definition set_slot (t : pending_table) (i : Z) (p : ssn_pending_request_t) : pending_table :=
  mk_pending_table (<[Z.to_nat i := p]> (pending_pool t)) (pending_bitmap t) (seqno_to_index t).

(** ** Operations *)

Definition bitmap_word (bm : list Z) (i : Z) : Z := nth (Z.to_nat (i / 32)) bm 0.
Definition is_bit_set (bm : list Z) (i : Z) : bool :=
  negb (Z.land (bitmap_word bm i) (Z.shiftl 1 (i mod 32)) =? 0).

(** [bitmap[w] &= ~(1U << b)] *)
Definition clear_bit (bm : list Z) (i : Z) : list Z :=
  <[Z.to_nat (i / 32) := Z.land (bitmap_word bm i) (u32 (Z.lnot (Z.shiftl 1 (i mod 32))))]> bm.

Definition get_pending_snapshot (t : pending_table) (seqno : Z) : option ssn_pending_request_t :=
  let index := index_of t seqno in
  if (index =? NO_INDEX) || (index >=? SSN_CLIENT_MAX_PENDING) then None
  else if negb (is_bit_set (pending_bitmap t) index) then None
  else Some (slot t index).

Definition free_pending_index (t : pending_table) (index : Z) : pending_table :=
  if index >=? SSN_CLIENT_MAX_PENDING then t
  else
    let slot_seqno := pend_seqno (slot t index) in
    let m := if index_of t slot_seqno =? index then <[slot_seqno := NO_INDEX]> (seqno_to_index t)
             else seqno_to_index t in
    mk_pending_table (pending_pool t) (clear_bit (pending_bitmap t) index) m.

(** The first zero bit of a word, with its mask. *)
Fixpoint first_zero (n : nat) (word mask b : Z) : option (Z * Z) :=
  match n with
  | O => None
  | S n => if Z.land word mask =? 0 then Some (b, mask)
           else first_zero n word (u32 (Z.shiftl mask 1)) (b + 1)
  end.
Fixpoint alloc_words (words : list Z) (w : Z) : option (Z * list Z) :=
  match words with
  | [] => None
  | word :: words =>
    match (if negb (word =? 4294967295) then first_zero 32 word 1 0 else None) with
    | Some (b, mask) => Some (w * 32 + b, Z.lor word mask :: words)
    | None =>
      match alloc_words words (w + 1) with
      | Some (idx, words) => Some (idx, word :: words)
      | None => None
      end
    end
  end.
Definition alloc_pending_index (t : pending_table) : option (Z * pending_table) :=
  match alloc_words (pending_bitmap t) 0 with
  | Some (idx, bm) => Some (idx, mk_pending_table (pending_pool t) bm (seqno_to_index t))
  | None => None
  end.

(** A request is entered: slot filled, number mapped. *)
Definition register (t : pending_table) (index seqno timeout_ms ftype callback arg : Z) : pending_table :=
  let p := mk_pending (pend_index (slot t index)) seqno (u32 timeout_ms) ftype callback arg in
  let t := set_slot t index p in
  mk_pending_table (pending_pool t) (pending_bitmap t) (<[seqno := index]> (seqno_to_index t)).

(** One pass of the timer thread over the slots [i], [i+1], ... ([n] of them);
    the flag says that some request ran out. *)
Fixpoint timer_slots (n : nat) (i : Z) (t : pending_table) (emit : bool) : pending_table * bool :=
  match n with
  | O => (t, emit)
  | S n =>
    if is_bit_set (pending_bitmap t) i then
      let p := slot t i in
      if pend_timeout_ms p >? TIMER_PERIOD
      then timer_slots n (i + 1) (set_slot t i (pend_with_timeout p (pend_timeout_ms p - TIMER_PERIOD))) emit
      else timer_slots n (i + 1) (set_slot t i (pend_with_timeout p 0)) true
    else timer_slots n (i + 1) t emit
  end.

(** Collection: the requests to be called back, in slot order; their slots are
    released. *)
Fixpoint collect_slots (n : nat) (i : Z) (only_timeout : bool) (t : pending_table)
    (items : list ssn_pending_request_t) : list ssn_pending_request_t * pending_table :=
  match n with
  | O => (items, t)
  | S n =>
    if is_bit_set (pending_bitmap t) i then
      let p := slot t i in
      if negb only_timeout || (pend_timeout_ms p =? 0)
      then collect_slots n (i + 1) only_timeout (free_pending_index t (pend_index p))
             (if zlen items <? SSN_CLIENT_MAX_PENDING then items ++ [p] else items)
      else collect_slots n (i + 1) only_timeout t items
    else collect_slots n (i + 1) only_timeout t items
  end.
Definition collect_pending (only_timeout : bool) (t : pending_table)
  : list ssn_pending_request_t * pending_table :=
  collect_slots (Z.to_nat SSN_CLIENT_MAX_PENDING) 0 only_timeout t [].

(** ** Bits *)

Lemma land_pow2_zero x b : 0 <= b -> negb (Z.land x (Z.shiftl 1 b) =? 0) = Z.testbit x b.
Proof.
  intros Hb. rewrite Z.shiftl_1_l. destruct (Z.testbit x b) eqn:Ex.
  - apply negb_true_iff, Z.eqb_neq. intros E.
    apply (f_equal (fun z => Z.testbit z b)) in E.
    rewrite Z.land_spec, Ex, Z.pow2_bits_eqb, Z.eqb_refl, Z.bits_0 in E by lia. done.
  - apply negb_false_iff, Z.eqb_eq, Z.bits_inj'. intros n Hn.
    rewrite Z.land_spec, Z.pow2_bits_eqb, Z.bits_0 by lia.
    destruct (Z.eqb_spec b n) as [<-|]; [by rewrite Ex|apply andb_false_r].
Qed.

Lemma is_bit_set_testbit bm i : is_bit_set bm i = Z.testbit (bitmap_word bm i) (i mod 32).
Proof. apply land_pow2_zero. apply Z.mod_pos_bound. lia. Qed.

Definition bits_ok (bm : list Z) : Prop := length bm = 32%nat /\ Forall (fun x => 0 <= x < 2 ^ 32) bm.

Lemma bitmap_word_range bm i : bits_ok bm -> 0 <= bitmap_word bm i < 2 ^ 32.
Proof.
  intros [_ Hf]. unfold bitmap_word. rewrite nth_lookup.
  destruct (bm !! _) as [x|] eqn:E; [|cbn; lia]. cbn. rewrite Forall_lookup in Hf. by eapply Hf.
Qed.

Lemma land_range x y : 0 <= x < 2 ^ 32 -> 0 <= y -> 0 <= Z.land x y < 2 ^ 32.
Proof.
  intros Hx Hy. split; [apply Z.land_nonneg; lia|].
  replace (Z.land x y) with (Z.land (Z.land x y) (Z.ones 32)).
  - rewrite Z.land_ones by lia. apply Z.mod_pos_bound. lia.
  - rewrite <- Z.land_assoc, (Z.land_comm y), Z.land_assoc, Z.land_ones, Z.mod_small by lia. done.
Qed.

Lemma lor_range x y : 0 <= x < 2 ^ 32 -> 0 <= y < 2 ^ 32 -> 0 <= Z.lor x y < 2 ^ 32.
Proof.
  intros Hx Hy. split; [apply Z.lor_nonneg; lia|].
  replace (Z.lor x y) with (Z.land (Z.lor x y) (Z.ones 32)).
  - rewrite Z.land_ones by lia. apply Z.mod_pos_bound. lia.
  - rewrite Z.land_lor_distr_l, !Z.land_ones, !Z.mod_small by lia. done.
Qed.

Lemma word_index i : 0 <= i < 1024 -> (Z.to_nat (i / 32) < 32)%nat.
Proof. intros. assert (i / 32 < 32) by (apply Z.div_lt_upper_bound; lia). lia. Qed.

(** Setting one word. *)
Lemma bitmap_word_insert bm i j x :
  length bm = 32%nat -> 0 <= i < 1024 -> 0 <= j ->
  bitmap_word (<[Z.to_nat (i / 32) := x]> bm) j = if i / 32 =? j / 32 then x else bitmap_word bm j.
Proof.
  intros Hl Hi Hj. unfold bitmap_word. rewrite !nth_lookup. pose proof (word_index i Hi).
  pose proof (Z.div_pos i 32). pose proof (Z.div_pos j 32). destruct (Z.eqb_spec (i / 32) (j / 32)) as [E|Hne].
  - by rewrite <- E, list_lookup_insert_eq by lia.
  - rewrite list_lookup_insert_ne by lia. done.
Qed.

Lemma same_word_bit i j : 0 <= i -> 0 <= j -> i / 32 = j / 32 -> (i mod 32 =? j mod 32) = (i =? j).
Proof.
  intros Hi Hj E. pose proof (Z.div_mod i 32). pose proof (Z.div_mod j 32).
  destruct (Z.eqb_spec (i mod 32) (j mod 32)), (Z.eqb_spec i j); lia || congruence || done.
Qed.

Lemma clear_bit_spec bm i j :
  bits_ok bm -> 0 <= i < 1024 -> 0 <= j < 1024 ->
  bits_ok (clear_bit bm i) /\ is_bit_set (clear_bit bm i) j = is_bit_set bm j && negb (i =? j).
Proof.
  intros Hb Hi Hj. pose proof (bitmap_word_range bm i Hb) as Hr. destruct Hb as [Hl Hf].
  pose proof (Z.mod_pos_bound i 32 ltac:(lia)). pose proof (Z.mod_pos_bound j 32 ltac:(lia)).
  split.
  - split; [unfold clear_bit; by rewrite length_insert|]. apply Forall_insert; [done|].
    apply land_range; [done|]. apply u32_range.
  - rewrite !is_bit_set_testbit. unfold clear_bit. rewrite bitmap_word_insert by lia.
    destruct (Z.eqb_spec (i / 32) (j / 32)) as [E|E].
    + rewrite Z.land_spec. unfold u32. rewrite Z.mod_pow2_bits_low, Z.lnot_spec by lia.
      rewrite Z.shiftl_1_l, Z.pow2_bits_eqb, same_word_bit by lia. f_equal. unfold bitmap_word. by rewrite E.
    + destruct (Z.eqb_spec i j); [congruence|]. by rewrite andb_true_r.
Qed.

Lemma first_zero_spec n word b :
  0 <= b -> b + Z.of_nat n <= 32 -> 0 <= word < 2 ^ 32 ->
  match first_zero n word (Z.shiftl 1 b) b with
  | Some (b', mask) => b <= b' < b + Z.of_nat n /\ mask = Z.shiftl 1 b' /\ Z.testbit word b' = false /\
      forall c, b <= c < b' -> Z.testbit word c = true
  | None => forall c, b <= c < b + Z.of_nat n -> Z.testbit word c = true
  end.
Proof.
  revert b. induction n as [|n IH]; intros b Hb Hn Hw; cbn [first_zero]; [intros c; lia|].
  pose proof (land_pow2_zero word b Hb) as Ht.
  destruct (Z.land word (Z.shiftl 1 b) =? 0); cbn in Ht.
  - split; [lia|]. split; [done|]. split; [done|]. intros c; lia.
  - destruct n as [|n].
    { cbn. intros c Hc. by replace c with b by lia. }
    assert (u32 (Z.shiftl (Z.shiftl 1 b) 1) = Z.shiftl 1 (b + 1)) as ->.
    { rewrite Z.shiftl_shiftl by lia. apply u32_id. rewrite Z.shiftl_1_l.
      split; [apply Z.pow_nonneg; lia|]. apply Z.pow_lt_mono_r; lia. }
    specialize (IH (b + 1) ltac:(lia) ltac:(lia) Hw).
    destruct (first_zero (S n) word (Z.shiftl 1 (b + 1)) (b + 1)) as [[b' mask]|].
    + destruct IH as (? & -> & ? & Hc). split; [lia|]. split; [done|]. split; [done|].
      intros c Hcc. destruct (decide (c = b)) as [->|]; [done|]. apply Hc. lia.
    + intros c Hcc. destruct (decide (c = b)) as [->|]; [done|]. apply IH. lia.
Qed.

Lemma all_ones_bits c : 0 <= c < 32 -> Z.testbit 4294967295 c = true.
Proof. intros. change 4294967295 with (Z.ones 32). apply Z.ones_spec_low. lia. Qed.

(** Words [k], [k+1], ... of the bitmap. *)
Lemma alloc_words_spec words k :
  0 <= k -> Forall (fun x => 0 <= x < 2 ^ 32) words ->
  match alloc_words words k with
  | Some (idx, words') =>
      k * 32 <= idx < (k + zlen words) * 32 /\
      length words' = length words /\ Forall (fun x => 0 <= x < 2 ^ 32) words' /\
      Z.testbit (nth (Z.to_nat (idx / 32 - k)) words 0) (idx mod 32) = false /\
      words' = <[Z.to_nat (idx / 32 - k) :=
                 Z.lor (nth (Z.to_nat (idx / 32 - k)) words 0) (Z.shiftl 1 (idx mod 32))]> words
  | None => forall j, k * 32 <= j < (k + zlen words) * 32 ->
      Z.testbit (nth (Z.to_nat (j / 32 - k)) words 0) (j mod 32) = true
  end.
Proof.
  revert k. induction words as [|word words IH]; intros k Hk Hf; cbn [alloc_words].
  { intros j. rewrite zlen_nil. lia. }
  apply Forall_cons in Hf as [Hw Hf]. rewrite zlen_cons. pose proof (zlen_nonneg words).
  specialize (IH (k + 1) ltac:(lia) Hf).
  pose proof (first_zero_spec 32 word 0 ltac:(lia) ltac:(lia) Hw) as Hz. change (Z.shiftl 1 0) with 1 in Hz.
  assert ((if negb (word =? 4294967295) then first_zero 32 word 1 0 else None) = None ->
    forall c, 0 <= c < 32 -> Z.testbit word c = true) as Hnone.
  { destruct (Z.eqb_spec word 4294967295) as [->|]; cbn [negb]; [intros _; apply all_ones_bits|].
    intros E. rewrite E in Hz. intros c Hc. apply Hz. lia. }
  destruct (if negb (word =? 4294967295) then _ else None) as [[b mask]|] eqn:E.
  - destruct (negb (word =? 4294967295)); [|done]. rewrite E in Hz. destruct Hz as (Hb & -> & Ht & _).
    assert ((k * 32 + b) / 32 = k) as Hd.
    { rewrite Z.add_comm, Z.div_add, Z.div_small by lia. lia. }
    assert ((k * 32 + b) mod 32 = b) as Hm.
    { rewrite Z.add_comm, Z_mod_plus_full, Z.mod_small by lia. done. }
    rewrite Hd, Hm, Z.sub_diag. cbn. split; [lia|]. split; [done|]. split; [|done].
    constructor; [|done]. apply lor_range; [done|]. rewrite Z.shiftl_1_l.
    split; [apply Z.pow_nonneg; lia|]. apply Z.pow_lt_mono_r; lia.
  - specialize (Hnone eq_refl). destruct (alloc_words words (k + 1)) as [[idx words']|].
    + destruct IH as (Hr & Hl & Hf' & Ht & Hw').
      assert (k + 1 <= idx / 32) by (apply Z.div_le_lower_bound; lia).
      replace (Z.to_nat (idx / 32 - k)) with (S (Z.to_nat (idx / 32 - (k + 1)))) by lia.
      cbn. split; [lia|]. split; [by rewrite Hl|]. split; [by constructor|]. split; [done|]. exact (f_equal (cons word) Hw').
    + intros j Hj. pose proof (Z.mod_pos_bound j 32 ltac:(lia)).
      destruct (decide (j < (k + 1) * 32)).
      * assert (j / 32 = k) as ->.
        { symmetry. apply (Z.div_unique _ _ _ (j - 32 * k)); lia. }
        rewrite Z.sub_diag. cbn. apply Hnone. lia.
      * assert (k + 1 <= j / 32) by (apply Z.div_le_lower_bound; lia).
        replace (Z.to_nat (j / 32 - k)) with (S (Z.to_nat (j / 32 - (k + 1)))) by lia. cbn. apply IH. lia.
Qed.

Lemma alloc_bitmap_spec bm :
  bits_ok bm ->
  match alloc_words bm 0 with
  | Some (idx, bm') => 0 <= idx < 1024 /\ bits_ok bm' /\ is_bit_set bm idx = false /\
      forall j, 0 <= j < 1024 -> is_bit_set bm' j = is_bit_set bm j || (idx =? j)
  | None => forall j, 0 <= j < 1024 -> is_bit_set bm j = true
  end.
Proof.
  intros Hb. pose proof Hb as [Hl Hf]. pose proof (alloc_words_spec bm 0 ltac:(lia) Hf) as Ha.
  assert (zlen bm = 32) as Hz by (unfold zlen; by rewrite Hl). rewrite Hz in Ha.
  destruct (alloc_words bm 0) as [[idx bm']|].
  - destruct Ha as (Hr & Hl' & Hf' & Ht & ->). rewrite Z.sub_0_r in *.
    split; [lia|]. split; [by split; [rewrite Hl'|]|]. split; [by rewrite is_bit_set_testbit|].
    intros j Hj. rewrite !is_bit_set_testbit. pose proof (Z.mod_pos_bound idx 32 ltac:(lia)).
    pose proof (Z.mod_pos_bound j 32 ltac:(lia)). rewrite bitmap_word_insert by lia.
    destruct (Z.eqb_spec (idx / 32) (j / 32)) as [E|E].
    + rewrite Z.lor_spec, Z.shiftl_1_l, Z.pow2_bits_eqb, same_word_bit by lia. f_equal.
      unfold bitmap_word. by rewrite E.
    + destruct (Z.eqb_spec idx j); [congruence|]. by rewrite orb_false_r.
  - intros j Hj. rewrite is_bit_set_testbit. unfold bitmap_word. rewrite <- (Z.sub_0_r (j / 32)). apply Ha. lia.
Qed.

(** ** Invariant *)

Definition occupied (t : pending_table) (i : Z) : bool := is_bit_set (pending_bitmap t) i.

Record pending_inv (t : pending_table) : Prop := {
  pi_len : length (pending_pool t) = 1024%nat;
  pi_index : forall i, 0 <= i < 1024 -> pend_index (slot t i) = i;
  pi_bits : bits_ok (pending_bitmap t);
  pi_map : forall s, index_of t s <> NO_INDEX ->
    0 <= index_of t s < 1024 /\ occupied t (index_of t s) = true /\
    pend_seqno (slot t (index_of t s)) = s;
}.

Lemma slot_set t i j p :
  length (pending_pool t) = 1024%nat -> 0 <= i < 1024 -> 0 <= j < 1024 ->
  slot (set_slot t i p) j = if i =? j then p else slot t j.
Proof.
  intros Hl Hi Hj. unfold slot, set_slot; cbn [pending_pool]. rewrite !nth_lookup.
  destruct (Z.eqb_spec i j) as [<-|].
  - by rewrite list_lookup_insert_eq by lia.
  - by rewrite list_lookup_insert_ne by lia.
Qed.

Lemma init_pending_inv : pending_inv init_pending /\ forall i, 0 <= i < 1024 -> occupied init_pending i = false.
Proof.
  assert (forall i, 0 <= i < 1024 -> bitmap_word (pending_bitmap init_pending) i = 0) as Hw.
  { intros i Hi. unfold bitmap_word, init_pending; cbn [pending_bitmap]. rewrite nth_lookup.
    rewrite lookup_replicate_2; [done|]. apply (word_index i Hi). }
  assert (forall i, 0 <= i < 1024 -> occupied init_pending i = false) as Ho.
  { intros i Hi. unfold occupied. rewrite is_bit_set_testbit, Hw by done. apply Z.bits_0. }
  split; [|done]. split.
  - unfold init_pending; cbn [pending_pool]. by rewrite length_map, length_seq.
  - intros i Hi. unfold slot, init_pending; cbn [pending_pool].
    rewrite nth_lookup, list_lookup_fmap, lookup_seq_lt by (unfold SSN_CLIENT_MAX_PENDING; lia).
    cbn [fmap option_fmap option_map default]. cbn. lia.
  - split; [done|]. unfold init_pending; cbn [pending_bitmap]. by apply Forall_replicate.
  - intros s Hs. unfold index_of, init_pending in Hs; cbn [seqno_to_index] in Hs. by rewrite lookup_empty in Hs.
Qed.

Lemma free_spec t i :
  pending_inv t -> 0 <= i < 1024 ->
  let t' := free_pending_index t i in
  pending_inv t' /\ pending_pool t' = pending_pool t /\
  (forall j, 0 <= j < 1024 -> occupied t' j = occupied t j && negb (i =? j)) /\
  (forall s, index_of t' s = if index_of t s =? i then NO_INDEX else index_of t s).
Proof.
  intros [Hl Hx Hb Hm] Hi. unfold free_pending_index, SSN_CLIENT_MAX_PENDING.
  destruct (Z.geb_spec i 1024); [lia|]. cbv zeta.
  set (t' := mk_pending_table _ _ _).
  assert (forall j, 0 <= j < 1024 -> occupied t' j = occupied t j && negb (i =? j)) as Hocc.
  { intros j Hj. by apply (clear_bit_spec (pending_bitmap t) i j). }
  assert (forall s, index_of t' s = if index_of t s =? i then NO_INDEX else index_of t s) as Hidx.
  { intros s. unfold index_of at 1; subst t'; cbn [seqno_to_index].
    destruct (Z.eqb_spec (index_of t s) i) as [E|E].
    - destruct (Hm s) as (_ & _ & Hs). { unfold NO_INDEX. lia. } rewrite E in Hs.
      rewrite Hs, E, Z.eqb_refl, lookup_insert_eq. done.
    - destruct (Z.eqb_spec (index_of t (pend_seqno (slot t i))) i) as [E'|]; [|done].
      rewrite lookup_insert_ne; [done|]. intros <-. done. }
  split; [|done]. split; try done.
  - by apply (clear_bit_spec (pending_bitmap t) i i).
  - intros s. rewrite Hidx. destruct (Z.eqb_spec (index_of t s) i); [done|]. intros Hs.
    destruct (Hm s Hs) as (? & Ho & ?). split; [done|]. split; [|done].
    rewrite Hocc, Ho by done. by destruct (Z.eqb_spec i (index_of t s)).
Qed.

Lemma alloc_register_spec t :
  pending_inv t ->
  match alloc_pending_index t with
  | Some (i, t1) => 0 <= i < 1024 /\ occupied t i = false /\
      forall seqno timeout ftype cb arg,
      let t2 := register t1 i seqno timeout ftype cb arg in
      pending_inv t2 /\
      (forall j, 0 <= j < 1024 -> occupied t2 j = occupied t j || (i =? j)) /\
      (forall j, 0 <= j < 1024 -> slot t2 j
         = if i =? j then mk_pending i seqno (u32 timeout) ftype cb arg else slot t j) /\
      (forall s, index_of t2 s = if s =? seqno then i else index_of t s)
  | None => forall j, 0 <= j < 1024 -> occupied t j = true
  end.
Proof.
  intros [Hl Hx Hb Hm]. unfold alloc_pending_index. pose proof (alloc_bitmap_spec _ Hb) as Ha.
  destruct (alloc_words (pending_bitmap t) 0) as [[i bm]|]; [|done].
  destruct Ha as (Hi & Hb' & Hfree & Hbits). split; [done|]. split; [done|].
  intros seqno timeout ftype cb arg. set (t1 := mk_pending_table (pending_pool t) bm (seqno_to_index t)).
  cbv zeta. set (t2 := register t1 i seqno timeout ftype cb arg).
  assert (forall j, 0 <= j < 1024 -> slot t2 j
    = if i =? j then mk_pending i seqno (u32 timeout) ftype cb arg else slot t j) as Hslot.
  { intros j Hj. change (slot t1 i) with (slot t i).
    transitivity (slot (set_slot t1 i (mk_pending (pend_index (slot t i)) seqno (u32 timeout) ftype cb arg)) j);
      [done|]. rewrite slot_set by done. by rewrite Hx. }
  assert (forall s, index_of t2 s = if s =? seqno then i else index_of t s) as Hidx.
  { intros s. unfold index_of at 1; subst t2; cbn [seqno_to_index register].
    destruct (Z.eqb_spec s seqno) as [->|]; [by rewrite lookup_insert_eq|by rewrite lookup_insert_ne]. }
  split; [|done]. split.
  - subst t2; cbn. by rewrite length_insert.
  - intros j Hj. rewrite Hslot by done. destruct (Z.eqb_spec i j); [done|by apply Hx].
  - done.
  - intros s. rewrite Hidx. destruct (Z.eqb_spec s seqno) as [->|]; intros Hs.
    + split; [done|]. split; [|by rewrite Hslot, Z.eqb_refl].
      unfold occupied; cbn. rewrite Hbits, Z.eqb_refl by done. apply orb_true_r.
    + destruct (Hm s Hs) as (? & Ho & ?). split; [done|].
      assert (i <> index_of t s) by (intros ->; unfold occupied in Ho; congruence). split.
      * unfold occupied; cbn. rewrite Hbits by done. unfold occupied in Ho. by rewrite Ho.
      * rewrite Hslot by done. by destruct (Z.eqb_spec i (index_of t s)).
Qed.

(** Looking a number up: the slot holds it. *)
Lemma snapshot_spec t s :
  pending_inv t ->
  match get_pending_snapshot t s with
  | Some p => 0 <= pend_index p < 1024 /\ occupied t (pend_index p) = true /\ p = slot t (pend_index p) /\
      pend_seqno p = s /\ index_of t s = pend_index p
  | None => index_of t s = NO_INDEX
  end.
Proof.
  intros [Hl Hx Hb Hm]. unfold get_pending_snapshot, SSN_CLIENT_MAX_PENDING.
  destruct (Z.eqb_spec (index_of t s) NO_INDEX) as [|Hn]; [done|].
  destruct (Hm s Hn) as (Hi & Ho & Hs). destruct (Z.geb_spec (index_of t s) 1024); [lia|]. cbn [orb].
  unfold occupied in Ho. rewrite Ho. cbn [negb]. rewrite Hx by done. done.
Qed.

(** ** Timer pass and collection *)

Definition tick_pending (p : ssn_pending_request_t) : ssn_pending_request_t :=
  pend_with_timeout p (if pend_timeout_ms p >? TIMER_PERIOD then pend_timeout_ms p - TIMER_PERIOD else 0).
Definition due (only_timeout : bool) (p : ssn_pending_request_t) : bool :=
  negb only_timeout || (pend_timeout_ms p =? 0).

Lemma seqZ_step i n : seqZ i (Z.of_nat (S n)) = i :: seqZ (i + 1) (Z.of_nat n).
Proof. rewrite seqZ_cons by lia. f_equal. f_equal; lia. Qed.

Lemma timer_slots_spec n i t emit :
  pending_inv t -> 0 <= i -> i + Z.of_nat n <= 1024 ->
  exists t', timer_slots n i t emit
      = (t', emit || existsb (fun j => occupied t j && (pend_timeout_ms (slot t j) <=? TIMER_PERIOD))
                       (seqZ i (Z.of_nat n))) /\
    pending_inv t' /\ pending_bitmap t' = pending_bitmap t /\ seqno_to_index t' = seqno_to_index t /\
    forall j, 0 <= j < 1024 -> slot t' j
      = if (i <=? j) && (j <? i + Z.of_nat n) && occupied t j then tick_pending (slot t j) else slot t j.
Proof.
  revert i t emit. induction n as [|n IH]; intros i t emit Hinv Hi Hn.
  { exists t. cbn [timer_slots]. rewrite orb_false_r. split; [done|]. split; [done|]. split; [done|].
    split; [done|]. intros j Hj. destruct (Z.leb_spec i j), (Z.ltb_spec j (i + Z.of_nat 0)); lia || done. }
  rewrite seqZ_step. cbn [timer_slots existsb].
  assert (0 <= i < 1024) as Hir by lia.
  change (is_bit_set (pending_bitmap t) i) with (occupied t i).
  destruct (occupied t i) eqn:Ho.
  2:{ destruct (IH (i + 1) t emit Hinv ltac:(lia) ltac:(lia)) as (t' & -> & Hi' & Hb & Hs & Hsl).
      exists t'. split; [done|]. split; [done|]. split; [done|]. split; [done|]. intros j Hj.
      rewrite Hsl by done. destruct (decide (j = i)) as [->|].
      - rewrite Ho, !andb_false_r. done.
      - f_equal. f_equal. destruct (Z.leb_spec (i + 1) j), (Z.leb_spec i j), (Z.ltb_spec j (i + 1 + Z.of_nat n)),
          (Z.ltb_spec j (i + Z.of_nat (S n))); done || lia. }
  set (p := tick_pending (slot t i)).
  assert (pending_inv (set_slot t i p)) as Hinv1.
  { destruct Hinv as [Hl Hx Hb Hm]. split; [cbn; by rewrite length_insert| |done|].
    - intros j Hj. rewrite slot_set by done. destruct (Z.eqb_spec i j) as [<-|]; [|by apply Hx].
      by apply Hx.
    - intros s Hs. destruct (Hm s Hs) as (? & ? & E). split; [done|]. split; [done|].
      change (index_of (set_slot t i p) s) with (index_of t s). rewrite slot_set by done.
      destruct (Z.eqb_spec i (index_of t s)) as [Ei|]; [|done]. rewrite <- E, <- Ei. done. }
  assert (forall j, 0 <= j < 1024 -> slot (set_slot t i p) j = if i =? j then p else slot t j) as Hset.
  { intros. apply slot_set; [apply Hinv|done|done]. }
  destruct (IH (i + 1) (set_slot t i p) (emit || (pend_timeout_ms (slot t i) <=? TIMER_PERIOD)) Hinv1
    ltac:(lia) ltac:(lia)) as (t' & E & Hi' & Hb & Hs & Hsl).
  exists t'. split; [|split; [done|split; [done|split; [done|]]]].
  - transitivity (timer_slots n (i + 1) (set_slot t i p) (emit || (pend_timeout_ms (slot t i) <=? TIMER_PERIOD))).
    { subst p. unfold tick_pending. destruct (Z.gtb_spec (pend_timeout_ms (slot t i)) TIMER_PERIOD),
        (Z.leb_spec (pend_timeout_ms (slot t i)) TIMER_PERIOD); try lia; by rewrite ?orb_false_r, ?orb_true_r. }
    rewrite E. f_equal. cbn [andb]. rewrite <- orb_assoc. f_equal. f_equal. apply existsb_ext_elem.
    intros j Hj%elem_of_seqZ. change (occupied (set_slot t i p) j) with (occupied t j).
    rewrite Hset by lia. destruct (Z.eqb_spec i j); [lia|done].
  - intros j Hj. rewrite Hsl by done. change (occupied (set_slot t i p) j) with (occupied t j).
    rewrite Hset by done. destruct (Z.eqb_spec i j) as [<-|].
    + rewrite Ho. destruct (Z.leb_spec (i + 1) i), (Z.leb_spec i i), (Z.ltb_spec i (i + Z.of_nat (S n)));
        done || lia.
    + destruct (Z.leb_spec (i + 1) j), (Z.leb_spec i j), (Z.ltb_spec j (i + 1 + Z.of_nat n)),
        (Z.ltb_spec j (i + Z.of_nat (S n))); done || lia.
Qed.

Lemma collect_slots_spec only n i t items :
  pending_inv t -> 0 <= i -> i + Z.of_nat n <= 1024 -> zlen items <= i ->
  exists t', collect_slots n i only t items
      = (items ++ map (slot t) (filter (fun j => occupied t j && due only (slot t j) = true)
                                  (seqZ i (Z.of_nat n))), t') /\
    pending_inv t' /\ pending_pool t' = pending_pool t /\
    (forall j, 0 <= j < 1024 -> occupied t' j
      = occupied t j && negb ((i <=? j) && (j <? i + Z.of_nat n) && due only (slot t j))) /\
    (forall s, index_of t' s = NO_INDEX \/ index_of t' s = index_of t s).
Proof.
  revert i t items. induction n as [|n IH]; intros i t items Hinv Hi Hn Hitems.
  { exists t. cbn [collect_slots]. rewrite app_nil_r. split; [done|]. split; [done|]. split; [done|].
    split; [|by right]. intros j Hj.
    destruct (Z.leb_spec i j), (Z.ltb_spec j (i + Z.of_nat 0)); try lia; by rewrite andb_true_r. }
  rewrite seqZ_step, filter_cons. cbn [collect_slots]. assert (0 <= i < 1024) as Hir by lia.
  change (is_bit_set (pending_bitmap t) i) with (occupied t i).
  change (negb only || (pend_timeout_ms (slot t i) =? 0)) with (due only (slot t i)).
  destruct (occupied t i && due only (slot t i)) eqn:Hcase.
  - apply andb_prop in Hcase as [Ho Hd]. rewrite Ho, Hd.
    rewrite (pi_index t Hinv i Hir). destruct (free_spec t i Hinv Hir) as (Hf1 & Hp1 & Ho1 & Hx1).
    set (t1 := free_pending_index t i) in *.
    assert (forall j, slot t1 j = slot t j) as Hsl by (intros; unfold slot; by rewrite Hp1).
    pose proof (zlen_nonneg items). unfold SSN_CLIENT_MAX_PENDING.
    destruct (Z.ltb_spec (zlen items) 1024); [|lia].
    destruct (IH (i + 1) t1 (items ++ [slot t i]) Hf1 ltac:(lia) ltac:(lia)) as (t' & -> & Hi' & Hp' & Ho' & Hx').
    { rewrite zlen_app, zlen_cons, zlen_nil. lia. }
    exists t'. split; [|split; [done|split; [congruence|split]]].
    + destruct (decide (true = true)); [|done]. f_equal. rewrite <- app_assoc. cbn. f_equal. f_equal.
      transitivity (map (slot t) (filter (fun j => occupied t1 j && due only (slot t1 j) = true)
        (seqZ (i + 1) (Z.of_nat n)))).
      { apply list_fmap_ext. intros ? j _. apply Hsl. }
      f_equal. apply filter_ext_elem. intros j Hj%elem_of_seqZ. rewrite Ho1, Hsl by lia.
      destruct (Z.eqb_spec i j); [lia|]. by rewrite andb_true_r.
    + intros j Hj. rewrite Ho', Ho1, Hsl by done. rewrite <- andb_assoc. f_equal.
      destruct (Z.eqb_spec i j) as [<-|].
      * rewrite Hd. destruct (Z.leb_spec i i), (Z.ltb_spec i (i + Z.of_nat (S n))); done || lia.
      * destruct (Z.leb_spec (i + 1) j), (Z.leb_spec i j), (Z.ltb_spec j (i + 1 + Z.of_nat n)),
          (Z.ltb_spec j (i + Z.of_nat (S n))); done || lia.
    + intros s. destruct (Hx' s) as [|E]; [by left|]. rewrite E, Hx1.
      destruct (_ =? _); [by left|by right].
  - destruct (IH (i + 1) t items Hinv ltac:(lia) ltac:(lia) ltac:(lia)) as (t' & E & Hi' & Hp' & Ho' & Hx').
    exists t'. split; [|split; [done|split; [done|split; [|done]]]].
    + destruct (decide (false = true)); [done|]. rewrite <- E. destruct (occupied t i); [|done].
      cbn in Hcase. by rewrite Hcase.
    + intros j Hj. rewrite Ho' by done. destruct (decide (j = i)) as [->|].
      * destruct (occupied t i); [|done]. cbn in Hcase. by rewrite Hcase, !andb_false_r.
      * f_equal. f_equal. f_equal. destruct (Z.leb_spec (i + 1) j), (Z.leb_spec i j),
          (Z.ltb_spec j (i + 1 + Z.of_nat n)), (Z.ltb_spec j (i + Z.of_nat (S n))); done || lia.
Qed.

(** ** The requests in flight *)

Definition live (t : pending_table) : list ssn_pending_request_t :=
  map (slot t) (filter (fun j => occupied t j = true) (seqZ 0 1024)).

Lemma live_init : live init_pending = [].
Proof.
  unfold live. destruct (filter _ (seqZ 0 1024)) as [|j l] eqn:E; [done|].
  assert (j ∈ filter (fun j => occupied init_pending j = true) (seqZ 0 1024)) as Hj by (rewrite E; left).
  apply list_elem_of_filter in Hj as [Ho Hj%elem_of_seqZ].
  destruct init_pending_inv as [_ Hn]. rewrite Hn in Ho by lia. done.
Qed.

Lemma live_same t t' :
  (forall j, 0 <= j < 1024 -> occupied t' j = occupied t j) ->
  live t' = map (slot t') (filter (fun j => occupied t j = true) (seqZ 0 1024)).
Proof.
  intros Ho. unfold live. f_equal. apply filter_ext_elem. intros j Hj%elem_of_seqZ. by rewrite Ho by lia.
Qed.

Lemma live_timer t n :
  pending_inv t -> n = 1024%nat ->
  live (timer_slots n 0 t false).1 = map tick_pending (live t).
Proof.
  intros Hi ->. destruct (timer_slots_spec 1024 0 t false Hi ltac:(lia) ltac:(lia)) as (t' & -> & _ & Hb & _ & Hs).
  cbn [fst]. rewrite (live_same t t') by (intros; unfold occupied; by rewrite Hb). unfold live. rewrite map_map.
  apply list_fmap_ext. intros k j Hj%list_elem_of_lookup_2.
  apply list_elem_of_filter in Hj as [Ho Hj%elem_of_seqZ]. rewrite Hs by lia. rewrite Ho.
  destruct (Z.leb_spec 0 j), (Z.ltb_spec j (0 + Z.of_nat 1024)); done || lia.
Qed.

Lemma live_collect only t :
  pending_inv t ->
  exists t', collect_pending only t = (filter (fun p => due only p = true) (live t), t') /\ pending_inv t' /\
    live t' = filter (fun p => due only p = false) (live t) /\
    (forall s, index_of t' s = NO_INDEX \/ index_of t' s = index_of t s).
Proof.
  intros Hi. unfold collect_pending.
  destruct (collect_slots_spec only (Z.to_nat SSN_CLIENT_MAX_PENDING) 0 t [] Hi) as (t' & -> & Hi' & Hp & Ho & Hx);
    [done|done|done|].
  exists t'. unfold live. rewrite !filter_map_comm, !list_filter_filter. split; [|split; [done|split; [|done]]].
  - f_equal. cbn [app]. f_equal. apply filter_ext_elem. intros j _. rewrite andb_true_iff. tauto.
  - transitivity (map (slot t) (filter (fun j => occupied t' j = true) (seqZ 0 1024))).
    { apply list_fmap_ext. intros ? j _. unfold slot. by rewrite Hp. }
    f_equal. apply filter_ext_elem. intros j Hj%elem_of_seqZ. rewrite Ho by lia.
    destruct (Z.leb_spec 0 j), (Z.ltb_spec j (0 + Z.of_nat (Z.to_nat SSN_CLIENT_MAX_PENDING)));
      unfold SSN_CLIENT_MAX_PENDING in *; try lia. cbn [andb].
    rewrite andb_true_iff, negb_true_iff. tauto.
Qed.

Lemma live_free t i :
  pending_inv t -> 0 <= i < 1024 -> occupied t i = true ->
  live t ≡ₚ slot t i :: live (free_pending_index t i).
Proof.
  intros Hi Hr Ho. destruct (free_spec t i Hi Hr) as (_ & Hp & Ho' & _).
  set (t' := free_pending_index t i) in *. unfold live.
  replace (map (slot t') (filter (fun j => occupied t' j = true) (seqZ 0 1024)))
    with (map (slot t) (filter (fun j => occupied t' j = true) (seqZ 0 1024))).
  2:{ apply list_fmap_ext. intros ? j _. unfold slot. by rewrite Hp. }
  change (slot t i :: map (slot t) ?l) with (map (slot t) (i :: l)).
  apply Permutation_map, filter_flip.
  - apply NoDup_seqZ.
  - apply elem_of_seqZ. lia.
  - done.
  - rewrite Ho', Z.eqb_refl, andb_false_r by done. done.
  - intros y Hy%elem_of_seqZ Hne. rewrite Ho' by lia. destruct (Z.eqb_spec i y); [congruence|].
    by rewrite andb_true_r.
Qed.

Lemma live_register t i t1 seqno timeout ftype cb arg :
  pending_inv t -> alloc_pending_index t = Some (i, t1) ->
  live (register t1 i seqno timeout ftype cb arg) ≡ₚ mk_pending i seqno (u32 timeout) ftype cb arg :: live t.
Proof.
  intros Hi Ha. pose proof (alloc_register_spec t Hi) as Hs. rewrite Ha in Hs.
  destruct Hs as (Hr & Ho & Hs). destruct (Hs seqno timeout ftype cb arg) as (_ & Ho' & Hsl & _).
  set (t2 := register _ _ _ _ _ _ _) in *.
  assert (slot t2 i = mk_pending i seqno (u32 timeout) ftype cb arg) as <-.
  { by rewrite Hsl, Z.eqb_refl by done. }
  unfold live. replace (map (slot t) (filter (fun j => occupied t j = true) (seqZ 0 1024)))
    with (map (slot t2) (filter (fun j => occupied t j = true) (seqZ 0 1024))).
  2:{ apply list_fmap_ext. intros ? j Hj%list_elem_of_lookup_2.
      apply list_elem_of_filter in Hj as [Hoj Hj%elem_of_seqZ]. rewrite Hsl by lia.
      destruct (Z.eqb_spec i j); [congruence|done]. }
  change (slot t2 i :: map (slot t2) ?l) with (map (slot t2) (i :: l)).
  apply Permutation_map, filter_flip.
  - apply NoDup_seqZ.
  - apply elem_of_seqZ. lia.
  - rewrite Ho', Z.eqb_refl, orb_true_r by done. done.
  - by rewrite Ho.
  - intros y Hy%elem_of_seqZ Hne. rewrite Ho' by lia. destruct (Z.eqb_spec i y); [congruence|].
    by rewrite orb_false_r.
Qed.
