(* ===== verification/Client.v ===== *)
(** * Client ([src/src/ssn_client.c])

    Connection handshake, requests and their replies, subscriptions, timeouts,
    polling and life time, as functions on a client record and the kernel's
    world.

    - [fire] runs one application callback.  A callback acts on the client only
      through the API: the parameter [user] says which calls it makes for the
      event and the state it sees.  Calls that disconnect make further
      callbacks, so [fire_at] is indexed by the nesting depth; connecting,
      pinging and polling from a callback is left out.
    - [fired] is a history variable: the callbacks made so far, oldest first.
    - [replied] is the stack variable of a running [ssn_client_ping].
    - Locks are not modelled; the timer thread's pass over one client is the
      step [ssn_client_timer_tick].  The client's protocol-layer instances are
      not part of the record.
    - The result [None] is undefined behaviour of the C code (a freed client or
      a NULL transport is used, [FD_SET] past its array) or lack of fuel. *)
From S2P Require Import Prelude FrameCodec ErrorCode Os Transport Address FrameSend EventPair Server ClientPending.

(** ** Data *)

Record ssn_sub_handler_t := mk_sub_handler { sh_callback : Z; sh_arg : Z; sh_url : bytes }.

(** What a callback is told; [None] for the NULL header of a request that
    failed. *)
Inductive client_event :=
  | EvReply (callback arg : Z) (reply : option (ssn_header_t * ssn_data_ref_t))
  | EvResult (callback arg : Z) (success : bool)
  | EvMsg (callback arg : Z) (url : ssn_url_ref_t) (data : ssn_data_ref_t).

(** [onsub]/[onmsg] pair a callback with its argument. *)
Record ssn_client := mk_client {
  cl_valid : bool;
  cl_freed : bool;
  connected : bool;
  pend : pending_table;
  cl_recv : ssn_stream_ctx_t;
  cid_valid : bool;
  cid : Z;
  cl_seqno : Z;
  next_non_pending_seqno : Z;
  cl_transport : option ssn_transport_t;
  cl_evt : ipc_event_pair;
  cl_send_timeout : Z;
  cl_ref : Z;
  cl_onsub : Z * Z;
  cl_onmsg : Z * Z;
  sub_handlers : list ssn_sub_handler_t;
  replied : bool;
  fired : list client_event;
}.

(** Field updates. *)
Definition cl_set_flags c v f n := mk_client v f n (pend c) (cl_recv c) (cid_valid c) (cid c) (cl_seqno c)
  (next_non_pending_seqno c) (cl_transport c) (cl_evt c) (cl_send_timeout c) (cl_ref c) (cl_onsub c)
  (cl_onmsg c) (sub_handlers c) (replied c) (fired c).
Definition cl_set_connected c b := cl_set_flags c (cl_valid c) (cl_freed c) b.
Definition cl_set_pend c p := mk_client (cl_valid c) (cl_freed c) (connected c) p (cl_recv c) (cid_valid c)
  (cid c) (cl_seqno c) (next_non_pending_seqno c) (cl_transport c) (cl_evt c) (cl_send_timeout c) (cl_ref c)
  (cl_onsub c) (cl_onmsg c) (sub_handlers c) (replied c) (fired c).
Definition cl_set_recv c r := mk_client (cl_valid c) (cl_freed c) (connected c) (pend c) r (cid_valid c)
  (cid c) (cl_seqno c) (next_non_pending_seqno c) (cl_transport c) (cl_evt c) (cl_send_timeout c) (cl_ref c)
  (cl_onsub c) (cl_onmsg c) (sub_handlers c) (replied c) (fired c).
Definition cl_set_cid c v i := mk_client (cl_valid c) (cl_freed c) (connected c) (pend c) (cl_recv c) v
  i (cl_seqno c) (next_non_pending_seqno c) (cl_transport c) (cl_evt c) (cl_send_timeout c) (cl_ref c)
  (cl_onsub c) (cl_onmsg c) (sub_handlers c) (replied c) (fired c).
Definition cl_set_seqnos c s n := mk_client (cl_valid c) (cl_freed c) (connected c) (pend c) (cl_recv c)
  (cid_valid c) (cid c) s n (cl_transport c) (cl_evt c) (cl_send_timeout c) (cl_ref c)
  (cl_onsub c) (cl_onmsg c) (sub_handlers c) (replied c) (fired c).
Definition cl_set_transport c t := mk_client (cl_valid c) (cl_freed c) (connected c) (pend c) (cl_recv c)
  (cid_valid c) (cid c) (cl_seqno c) (next_non_pending_seqno c) t (cl_evt c) (cl_send_timeout c) (cl_ref c)
  (cl_onsub c) (cl_onmsg c) (sub_handlers c) (replied c) (fired c).
Definition cl_set_evt c e := mk_client (cl_valid c) (cl_freed c) (connected c) (pend c) (cl_recv c)
  (cid_valid c) (cid c) (cl_seqno c) (next_non_pending_seqno c) (cl_transport c) e (cl_send_timeout c)
  (cl_ref c) (cl_onsub c) (cl_onmsg c) (sub_handlers c) (replied c) (fired c).
Definition cl_set_send_timeout c n := mk_client (cl_valid c) (cl_freed c) (connected c) (pend c) (cl_recv c)
  (cid_valid c) (cid c) (cl_seqno c) (next_non_pending_seqno c) (cl_transport c) (cl_evt c) n
  (cl_ref c) (cl_onsub c) (cl_onmsg c) (sub_handlers c) (replied c) (fired c).
Definition cl_set_ref c n := mk_client (cl_valid c) (cl_freed c) (connected c) (pend c) (cl_recv c)
  (cid_valid c) (cid c) (cl_seqno c) (next_non_pending_seqno c) (cl_transport c) (cl_evt c)
  (cl_send_timeout c) n (cl_onsub c) (cl_onmsg c) (sub_handlers c) (replied c) (fired c).
Definition cl_set_handlers c s m := mk_client (cl_valid c) (cl_freed c) (connected c) (pend c) (cl_recv c)
  (cid_valid c) (cid c) (cl_seqno c) (next_non_pending_seqno c) (cl_transport c) (cl_evt c)
  (cl_send_timeout c) (cl_ref c) s m (sub_handlers c) (replied c) (fired c).
Definition cl_set_subs c l := mk_client (cl_valid c) (cl_freed c) (connected c) (pend c) (cl_recv c)
  (cid_valid c) (cid c) (cl_seqno c) (next_non_pending_seqno c) (cl_transport c) (cl_evt c)
  (cl_send_timeout c) (cl_ref c) (cl_onsub c) (cl_onmsg c) l (replied c) (fired c).
Definition cl_set_history c r l := mk_client (cl_valid c) (cl_freed c) (connected c) (pend c) (cl_recv c)
  (cid_valid c) (cid c) (cl_seqno c) (next_non_pending_seqno c) (cl_transport c) (cl_evt c)
  (cl_send_timeout c) (cl_ref c) (cl_onsub c) (cl_onmsg c) (sub_handlers c) r l.

(** ** Timer *)

Definition ssn_client_timer_tick (c : ssn_client) : ssn_client :=
  let '(t, emit) := timer_slots (Z.to_nat SSN_CLIENT_MAX_PENDING) 0 (pend c) false in
  let c := cl_set_pend c t in
  if emit then cl_set_evt c (ipc_event_pair_signal (cl_evt c)) else c.

(** ** Sequence numbers of requests nobody waits for *)

Definition ssn_client_prepare_seqno (c : ssn_client) : Z * ssn_client :=
  if next_non_pending_seqno c =? 0 then (1, cl_set_seqnos c (cl_seqno c) 2)
  else (next_non_pending_seqno c, cl_set_seqnos c (cl_seqno c) (u16 (next_non_pending_seqno c + 1))).

Definition ssn_client_ref (c : ssn_client) : ssn_client := cl_set_ref c (cl_ref c + 1).
Definition ssn_client_is_connect (c : ssn_client) : bool := cl_valid c && connected c.

(** ** Handshake input *)

(** State of the handshake callback: packets seen and the id. *)
Record conn_input_arg := mk_conn { packet_cnt : Z; conn_cid_valid : bool; conn_cid : Z }.

Definition be32 (b : bytes) : Z :=
  u32 (Z.shiftl (nth 0 b 0) 24 + Z.shiftl (nth 1 b 0) 16 + Z.shiftl (nth 2 b 0) 8 + nth 3 b 0).

Definition ssn_client_conn_input (pkt : bytes) (a : conn_input_arg) : bool * conn_input_arg :=
  let hdr := header_of_bytes pkt in
  if negb (h_msg_type hdr =? SSN_MSG_TYPE_SERVICE_INFO) then (true, a)
  else if negb (ssn_get_status hdr =? 0) then (true, a)
  else match ssn_get_data pkt with
  | Some (mk_data_ref d n) =>
    if n =? 0 then (true, a)
    else if n >=? 4 then (true, mk_conn (packet_cnt a + 1) true (be32 (default [] d)))
    else (true, mk_conn (packet_cnt a + 1) (conn_cid_valid a) (conn_cid a))
  | None => (true, a)
  end.

(** ** Operations on the world *)

(** What a callback can do. *)
Inductive client_call :=
  | CcSubscribe (url : option ssn_url_ref_t) (callback arg timeout_ms : Z)
  | CcUnsubscribe (url : option ssn_url_ref_t) (timeout_ms : Z)
  | CcCall (url : option ssn_url_ref_t) (data : option ssn_data_ref_t) (callback arg timeout_ms : Z)
  | CcMessage (url : option ssn_url_ref_t) (data : option ssn_data_ref_t)
  | CcSetOnMessage (callback arg : Z)
  | CcSetOnPublish (callback arg : Z)
  | CcDisconnect
  | CcClose.

Definition PING_REPLY_CB : Z := -1.

Section world.
Context {W : Type} `{OsOps W}.
Implicit Types (c : ssn_client) (w : W).

(** *** Sending *)

(** The handshake's own write loop: it does not wait. *)
Fixpoint ssn_client_send (fuel : nat) (t : ssn_transport_t) (buffer : bytes) (total : Z) w
  : option (bool * ssn_transport_t * W) :=
  match fuel with
  | O => None
  | S fuel =>
    let '(num, t, w) := ssn_transport_send t (zdrop total buffer) w in
    if num >? 0 then
      let total := total + num in
      if total <? zlen buffer then ssn_client_send fuel t buffer total w
      else Some (total =? zlen buffer, t, w)
    else
      let '(_, t, w) := ssn_transport_disconnect t w in
      Some (total =? zlen buffer, t, w)
  end.

Definition ssn_client_sendmsg c (hdr : ssn_header_t) (url : option ssn_url_ref_t)
    (data : option ssn_data_ref_t) w : option (bool * ssn_client * W) :=
  match cl_transport c with
  | None => None
  | Some t =>
    match ssn_send_message t hdr url data w with
    | None => None
    | Some (true, _, t, w) => Some (true, cl_set_transport c (Some t), w)
    | Some (false, _, t, w) =>
      let '(_, t, w) := ssn_transport_disconnect t w in
      Some (false, cl_set_transport c (Some t), w)
    end
  end.

Context (fire : client_event -> ssn_client -> W -> option (ssn_client * W)).

(** *** Callbacks of failed requests *)

Definition failure_event (p : ssn_pending_request_t) : option client_event :=
  if pend_callback p =? 0 then None
  else if pend_ftype p =? SSN_CLIENT_FTYPE_RPC then Some (EvReply (pend_callback p) (pend_arg p) None)
  else if pend_ftype p =? SSN_CLIENT_FTYPE_RES then Some (EvResult (pend_callback p) (pend_arg p) false)
  else None.
Fixpoint fire_items (items : list ssn_pending_request_t) c w : option (ssn_client * W) :=
  match items with
  | [] => Some (c, w)
  | p :: items =>
    match failure_event p with
    | Some e => match fire e c w with Some (c, w) => fire_items items c w | None => None end
    | None => fire_items items c w
    end
  end.
Definition ssn_client_collect_and_call_pending c (only_timeout : bool) w : option (ssn_client * W) :=
  let '(items, t) := collect_pending only_timeout (pend c) in
  fire_items items (cl_set_pend c t) w.
Definition ssn_client_timeout_all c w : option (ssn_client * W) :=
  ssn_client_collect_and_call_pending c false w.

(** *** Life time *)

Definition destroy_transport c w : ssn_client * W :=
  match cl_transport c with
  | Some t => (cl_set_transport c None, ssn_transport_destroy t w)
  | None => (c, w)
  end.

Definition ssn_client_unref c w : option (ssn_client * W) :=
  if cl_freed c then None
  else if cl_ref c >? 0 then
    let c := cl_set_ref c (cl_ref c - 1) in
    if (cl_ref c =? 0) && negb (cl_valid c) then
      let c := cl_set_subs (cl_set_connected c false) [] in
      let '(c, w) := destroy_transport c w in
      let w := ipc_event_pair_destroy (cl_evt c) w in
      match ssn_client_collect_and_call_pending c false w with
      | None => None
      | Some (c, w) => Some (cl_set_flags c (cl_valid c) true (connected c), w)
      end
    else Some (c, w)
  else Some (c, w).

Definition ssn_client_close c w : option (ssn_client * W) :=
  if negb (cl_valid c) then Some (c, w)
  else ssn_client_unref (cl_set_flags c false (cl_freed c) (connected c)) w.

Definition ssn_client_disconnect c w : option (bool * ssn_client * W) :=
  if negb (cl_valid c) || negb (connected c) then Some (false, c, w)
  else
    let c := cl_set_connected (ssn_client_ref c) false in
    let '(c, w) := match cl_transport c with
                   | Some t => let '(_, t, w) := ssn_transport_disconnect t w in
                               (cl_set_transport c (Some t), w)
                   | None => (c, w)
                   end in
    match ssn_client_timeout_all c w with
    | None => None
    | Some (c, w) =>
      match ssn_client_unref c w with Some (c, w) => Some (true, c, w) | None => None end
    end.

(** *** Requests *)

(** Common to requests and calls: enter the request (or draw a number nobody
    waits for), send it, take it back when sending failed. *)
Definition send_request c (type : Z) (url : option ssn_url_ref_t) (data : option ssn_data_ref_t)
    (ftype callback arg timeout_ms : Z) w : option (bool * Z * ssn_client * W) :=
  let c := ssn_client_ref c in
  let finish (r : bool) seqno c w :=
    match ssn_client_unref c w with Some (c, w) => Some (r, seqno, c, w) | None => None end in
  if negb (callback =? 0) then
    match alloc_pending_index (pend c) with
    | None => finish false 0 c w
    | Some (index, t) =>
      let seqno := cl_seqno c in
      let c := cl_set_seqnos c (u16 (cl_seqno c + 1)) (next_non_pending_seqno c) in
      let c := cl_set_pend c (register t index seqno timeout_ms ftype callback arg) in
      match ssn_client_sendmsg c (ssn_create_header type 0 seqno) url data w with
      | None => None
      | Some (true, c, w) => finish true seqno c w
      | Some (false, c, w) =>
        finish false seqno (cl_set_pend c (free_pending_index (pend c) (pend_index (slot (pend c) index)))) w
      end
    end
  else
    let '(seqno, c) := ssn_client_prepare_seqno c in
    match ssn_client_sendmsg c (ssn_create_header type 0 seqno) url data w with
    | None => None
    | Some (r, c, w) => finish r seqno c w
    end.

Definition ssn_client_request_ex c (type : Z) (url : option ssn_url_ref_t) (data : option ssn_data_ref_t)
    (callback arg timeout_ms : Z) w : option (bool * Z * ssn_client * W) :=
  if negb (cl_valid c) || negb (connected c) then Some (false, 0, c, w)
  else send_request c type url data SSN_CLIENT_FTYPE_RES callback arg timeout_ms w.
Definition ssn_client_request c (type : Z) (url : option ssn_url_ref_t) (data : option ssn_data_ref_t)
    (callback arg timeout_ms : Z) w : option (bool * ssn_client * W) :=
  match ssn_client_request_ex c type url data callback arg timeout_ms w with
  | Some (r, _, c, w) => Some (r, c, w)
  | None => None
  end.

Definition ssn_client_call_ex c (url : option ssn_url_ref_t) (data : option ssn_data_ref_t)
    (callback arg timeout_ms : Z) w : option (Z * ssn_client * W) :=
  if negb (cl_valid c) || negb (connected c) then Some (-1, c, w)
  else match checked_url url with
  | None => Some (-1, c, w)
  | Some _ =>
    match send_request c SSN_MSG_TYPE_RPC_REQUEST url data SSN_CLIENT_FTYPE_RPC callback arg timeout_ms w with
    | Some (r, _, c, w) => Some (if r then 0 else -1, c, w)
    | None => None
    end
  end.
Definition ssn_client_call c (url : option ssn_url_ref_t) (data : option ssn_data_ref_t)
    (callback arg timeout_ms : Z) w : option (Z * ssn_client * W) :=
  ssn_client_call_ex c url data callback arg timeout_ms w.

Definition ssn_client_subscribe c (url : option ssn_url_ref_t) (callback arg timeout_ms : Z) w
  : option (bool * ssn_client * W) :=
  match checked_url url with
  | None => Some (false, c, w)
  | Some u =>
    if negb (cl_valid c) || negb (connected c) then Some (false, c, w)
    else
      let '(ok, w) := os_calloc w in
      if negb ok then Some (false, c, w)
      else ssn_client_request (cl_set_subs c (mk_sub_handler callback arg u :: sub_handlers c))
             SSN_MSG_TYPE_SUBSCRIBE url None 0 0 timeout_ms w
  end.

Fixpoint remove_first_handler (l : list ssn_sub_handler_t) (u : bytes) : list ssn_sub_handler_t :=
  match l with
  | [] => []
  | h :: l => if bool_decide (sh_url h = u) then l else h :: remove_first_handler l u
  end.
Definition ssn_client_unsubscribe c (url : option ssn_url_ref_t) (timeout_ms : Z) w
  : option (bool * ssn_client * W) :=
  if negb (cl_valid c) || negb (connected c) then Some (false, c, w)
  else match checked_url url with
  | None => Some (false, c, w)
  | Some u => ssn_client_request (cl_set_subs c (remove_first_handler (sub_handlers c) u))
                SSN_MSG_TYPE_UNSUBSCRIBE url None 0 0 timeout_ms w
  end.

Definition ssn_client_message c (url : option ssn_url_ref_t) (data : option ssn_data_ref_t) w
  : option (Z * ssn_client * W) :=
  if negb (cl_valid c) || negb (connected c) then Some (-1, c, w)
  else match checked_url url, data with
  | Some _, Some _ =>
    match ssn_client_sendmsg (ssn_client_ref c) (ssn_create_header SSN_MSG_TYPE_MESSAGE 0 0) url data w with
    | None => None
    | Some (r, c, w) =>
      match ssn_client_unref c w with Some (c, w) => Some (if r then 0 else -1, c, w) | None => None end
    end
  | _, _ => Some (-1, c, w)
  end.

Definition ssn_client_set_on_message c (callback arg : Z) w : option (ssn_client * W) :=
  if negb (cl_valid c) then Some (c, w)
  else ssn_client_unref (cl_set_handlers (ssn_client_ref c) (callback, arg) (callback, arg)) w.
Definition ssn_client_set_on_publish c (callback arg : Z) w : option (ssn_client * W) :=
  if negb (cl_valid c) then Some (c, w)
  else ssn_client_unref (cl_set_handlers (ssn_client_ref c) (callback, arg) (cl_onmsg c)) w.

(** *** Running a callback *)

Definition run_client_call (k : client_call) c w : option (ssn_client * W) :=
  if cl_freed c then None
  else match k with
  | CcSubscribe url cb arg ms =>
      match ssn_client_subscribe c url cb arg ms w with Some (_, c, w) => Some (c, w) | None => None end
  | CcUnsubscribe url ms =>
      match ssn_client_unsubscribe c url ms w with Some (_, c, w) => Some (c, w) | None => None end
  | CcCall url data cb arg ms =>
      match ssn_client_call c url data cb arg ms w with Some (_, c, w) => Some (c, w) | None => None end
  | CcMessage url data =>
      match ssn_client_message c url data w with Some (_, c, w) => Some (c, w) | None => None end
  | CcSetOnMessage cb arg => ssn_client_set_on_message c cb arg w
  | CcSetOnPublish cb arg => ssn_client_set_on_publish c cb arg w
  | CcDisconnect =>
      match ssn_client_disconnect c w with Some (_, c, w) => Some (c, w) | None => None end
  | CcClose => ssn_client_close c w
  end.
Fixpoint run_client_calls (ks : list client_call) c w : option (ssn_client * W) :=
  match ks with
  | [] => Some (c, w)
  | k :: ks => match run_client_call k c w with Some (c, w) => run_client_calls ks c w | None => None end
  end.

(** *** Input *)

Fixpoint find_handler (l : list ssn_sub_handler_t) (u : bytes) : option ssn_sub_handler_t :=
  match l with
  | [] => None
  | h :: l => if bool_decide (sh_url h = u) then Some h else find_handler l u
  end.
(** Who gets a published message: the first handler of this URL if it has a
    callback, else the publish callback, else the message callback. *)
Definition publish_target c (u : bytes) : option (Z * Z) :=
  let fallback :=
    if negb ((cl_onsub c).1 =? 0) then Some (cl_onsub c)
    else if negb ((cl_onmsg c).1 =? 0) then Some (cl_onmsg c) else None in
  match find_handler (sub_handlers c) u with
  | Some h => if negb (sh_callback h =? 0) then Some (sh_callback h, sh_arg h) else fallback
  | None => fallback
  end.

Definition ssn_client_handle_publish c (pkt : bytes) w : option (ssn_client * W) :=
  match ssn_get_url pkt, ssn_get_data pkt with
  | Some url, Some data =>
    match publish_target c (default [] (FrameCodec.url url)) with
    | Some (cb, arg) => fire (EvMsg cb arg url data) c w
    | None => Some (c, w)
    end
  | _, _ => None
  end.
Definition ssn_client_handle_message c (pkt : bytes) w : option (ssn_client * W) :=
  match ssn_get_url pkt, ssn_get_data pkt with
  | Some url, Some data =>
    if negb ((cl_onmsg c).1 =? 0) then fire (EvMsg (cl_onmsg c).1 (cl_onmsg c).2 url data) c w
    else Some (c, w)
  | _, _ => None
  end.

Definition ssn_client_handle_response c (pkt : bytes) (p : ssn_pending_request_t) w
  : option (ssn_client * W) :=
  if (pend_ftype p =? SSN_CLIENT_FTYPE_RES) && negb (pend_callback p =? 0)
  then fire (EvResult (pend_callback p) (pend_arg p) (ssn_get_status (header_of_bytes pkt) =? 0)) c w
  else Some (c, w).
Definition ssn_client_handle_rpc_response c (pkt : bytes) (p : ssn_pending_request_t) w
  : option (ssn_client * W) :=
  if (pend_ftype p =? SSN_CLIENT_FTYPE_RPC) && negb (pend_callback p =? 0)
  then match ssn_get_data pkt with
       | Some data => fire (EvReply (pend_callback p) (pend_arg p) (Some (header_of_bytes pkt, data))) c w
       | None => None
       end
  else Some (c, w).

Definition is_response (ty : Z) : bool :=
  (ty =? SSN_MSG_TYPE_SUBSCRIBE) || (ty =? SSN_MSG_TYPE_UNSUBSCRIBE) || (ty =? SSN_MSG_TYPE_PING_ECHO).

(** The packet callback; [pkt] are the bytes from the header on. *)
Definition ssn_client_input (pkt : bytes) c w : option (bool * ssn_client * W) :=
  let hdr := header_of_bytes pkt in
  let ty := h_msg_type hdr in
  let out r := match r with Some (c, w) => Some (cl_valid c, c, w) | None => None end in
  if ty =? SSN_MSG_TYPE_PUBLISH then out (ssn_client_handle_publish c pkt w)
  else if ty =? SSN_MSG_TYPE_MESSAGE then out (ssn_client_handle_message c pkt w)
  else match get_pending_snapshot (pend c) (ssn_get_seqno hdr) with
  | None => out (Some (c, w))
  | Some p =>
    match (if is_response ty then ssn_client_handle_response c pkt p w
           else if ty =? SSN_MSG_TYPE_RPC_REQUEST then ssn_client_handle_rpc_response c pkt p w
           else Some (c, w)) with
    | None => None
    | Some (c, w) => out (Some (cl_set_pend c (free_pending_index (pend c) (pend_index p)), w))
    end
  end.

Definition client_input_callback (pkt : bytes) (st : option (ssn_client * W))
  : bool * option (ssn_client * W) :=
  match st with
  | None => (false, None)
  | Some (c, w) =>
    match ssn_client_input pkt c w with
    | Some (continue, c, w) => (continue, Some (c, w))
    | None => (false, None)
    end
  end.

(** The connection is lost: all requests fail. *)
Definition connection_lost c w : option (bool * ssn_client * W) :=
  match ssn_client_timeout_all (cl_set_connected c false) w with
  | Some (c, w) => Some (false, c, w)
  | None => None
  end.

(** The wake-up event: requests whose time is over fail. *)
Definition process_timeouts c (rfds : list Z) w : option (bool * ssn_client * W) :=
  if bool_decide (ipc_event_pair_get_read_fd (cl_evt c) ∈ rfds) then
    match ssn_client_collect_and_call_pending (cl_set_evt c (ipc_event_pair_drain (cl_evt c))) true w with
    | Some (c, w) => Some (true, c, w)
    | None => None
    end
  else Some (true, c, w).

Definition ssn_client_process_events c (rfds : list Z) w : option (bool * ssn_client * W) :=
  if negb (cl_valid c) then Some (false, c, w)
  else if connected c then
    match cl_transport c with
    | Some t =>
      let sock_fd := ssn_transport_get_fd t in
      if (sock_fd >=? 0) && bool_decide (sock_fd ∈ rfds) then
        let '(num, b, t, w) := ssn_transport_recv t SSN_MAX_PACKET_SIZE 0 w in
        let c := cl_set_transport c (Some t) in
        if num >? 0 then
          match ssn_stream_feed client_input_callback (cl_recv c) (ztake num b) (Some (c, w)) with
          | Some (ok, recv, Some (c, w)) =>
            let c := cl_set_recv c recv in
            if ok then process_timeouts c rfds w else connection_lost c w
          | _ => None
          end
        else if num =? 0 then connection_lost c w
        else if negb (os_errno w =? EAGAIN) && negb (os_errno w =? EWOULDBLOCK) then connection_lost c w
        else process_timeouts c rfds w
      else process_timeouts c rfds w
    | None => process_timeouts c rfds w
    end
  else process_timeouts c rfds w.

(** *** Polling *)

(** The descriptors watched; [None] if one does not fit an [fd_set]. *)
Definition ssn_client_fds c : option (list Z * Z) :=
  if negb (cl_valid c) then Some ([], -1)
  else
    let evt_fd := ipc_event_pair_get_read_fd (cl_evt c) in
    let sock_fd := if connected c then match cl_transport c with
                                       | Some t => ssn_transport_get_fd t
                                       | None => -1
                                       end else -1 in
    let fds := if sock_fd >=? 0 then [sock_fd; evt_fd] else [evt_fd] in
    if forallb (fun fd => (0 <=? fd) && (fd <? FD_SETSIZE)) fds
    then Some (fds, Z.max evt_fd (if sock_fd >=? 0 then sock_fd else -1)) else None.

Definition ssn_client_poll c (timeout_ms : Z) w : option (Z * ssn_client * W) :=
  if cl_freed c then None
  else if negb (cl_valid c) then Some (-1, c, w)
  else
    let c := ssn_client_ref c in
    match ssn_client_fds c with
    | None => None
    | Some (fds, _) =>
      let '(cnt, ready, w) := os_pselect fds (Some timeout_ms) w in
      if cnt >? 0 then
        match ssn_client_process_events c ready w with
        | None => None
        | Some (ok, c, w) =>
          let '(c, w) := if ok then (c, w) else destroy_transport (cl_set_connected c false) w in
          match ssn_client_unref c w with Some (c, w) => Some (0, c, w) | None => None end
        end
      else match ssn_client_unref c w with Some (c, w) => Some (cnt, c, w) | None => None end
    end.

(** The loop of [ssn_client_run], [rounds] times at most. *)
Fixpoint client_run_loop (rounds : nat) c w : option (ssn_client * W) :=
  match rounds with
  | O => None
  | S rounds =>
    match ssn_client_fds c with
    | None => None
    | Some (fds, max_fd) =>
      if max_fd <? 0 then ssn_client_unref c w
      else
        let '(cnt, ready, w) := os_pselect fds None w in
        if cnt >? 0 then
          match ssn_client_process_events c ready w with
          | None => None
          | Some (true, c, w) => client_run_loop rounds c w
          | Some (false, c, w) =>
            match ssn_client_close c w with Some (c, w) => ssn_client_unref c w | None => None end
          end
        else client_run_loop rounds c w
    end
  end.
Definition ssn_client_run (rounds : nat) c w : option (ssn_client * W) :=
  if cl_freed c then None
  else if negb (cl_valid c) then Some (c, w)
  else client_run_loop rounds (ssn_client_ref c) w.

(** *** Ping *)

Fixpoint ping_wait (fuel : nat) (waited timeout_ms : Z) c w : option (ssn_client * W) :=
  if negb (replied c) && (waited <? timeout_ms) then
    match fuel with
    | O => None
    | S fuel =>
      match ssn_client_poll c 10 w with
      | Some (_, c, w) => ping_wait fuel (waited + 10) timeout_ms c w
      | None => None
      end
    end
  else Some (c, w).
Definition ssn_client_ping c (arg timeout_ms : Z) w : option (bool * ssn_client * W) :=
  if negb (cl_valid c) || negb (connected c) then Some (false, c, w)
  else match ssn_client_request_ex (cl_set_history c false (fired c)) SSN_MSG_TYPE_PING_ECHO None None
               PING_REPLY_CB arg timeout_ms w with
  | None => None
  | Some (false, _, c, w) => Some (false, c, w)
  | Some (true, ping_seqno, c, w) =>
    match ping_wait (Z.to_nat (timeout_ms / 10 + 1)) 0 timeout_ms c w with
    | None => None
    | Some (c, w) =>
      if replied c then Some (true, c, w)
      else if cl_freed c then None
      else
        let idx := index_of (pend c) ping_seqno in
        if negb (idx =? NO_INDEX) && is_bit_set (pending_bitmap (pend c)) idx
        then Some (false, cl_set_pend c (free_pending_index (pend c) idx), w)
        else Some (false, c, w)
    end
  end.

(** *** Connecting *)

Context (g : factory).

(** Receive until a SERVICE_INFO packet with data arrived; [retries] are left.
    The flag is false after an error, a closed connection or too many tries. *)
Fixpoint handshake_loop (retries : nat) c (t : ssn_transport_t) w
  : option (bool * ssn_client * ssn_transport_t * W) :=
  match retries with
  | O => Some (false, c, t, w)
  | S retries =>
    let '(num, b, t, w) := ssn_transport_recv t SSN_MAX_PACKET_SIZE 5000 w in
    let retry (num : Z) c :=
      if num =? 0 then Some (false, c, t, w)
      else if (num <? 0) && negb (os_errno w =? EAGAIN) && negb (os_errno w =? EWOULDBLOCK)
      then Some (false, c, t, w)
      else handshake_loop retries c t w in
    if num >? 0 then
      match ssn_stream_feed ssn_client_conn_input (cl_recv c) (ztake num b)
              (mk_conn 0 (cid_valid c) (cid c)) with
      | None => None
      | Some (ok, recv, a) =>
        let c := cl_set_cid (cl_set_recv c recv) (conn_cid_valid a) (conn_cid a) in
        if negb ok then retry (-1) c
        else if packet_cnt a >? 0 then Some (true, c, t, w)
        else retry num c
      end
    else retry num c
  end.

Definition client_config c (ty : ssn_transport_type_t) (connect_timeout_ms : Z) : ssn_transport_config_t :=
  mk_config ty true (cl_send_timeout c) 5000 connect_timeout_ms true 60 10 3 false
    SSN_MAX_PACKET_SIZE SSN_MAX_PACKET_SIZE true.
Definition max_retries (connect_timeout_ms : Z) : Z :=
  Z.max 5 (Z.min 60 (Z.quot connect_timeout_ms 100)).

(** Address, socket, connection, HELLO and its answer; every failure releases the
    new transport, which is published only afterwards. *)
Definition open_connection c (ipc_path : bytes) (ms : Z) w : option (option ssn_transport_t * ssn_client * W) :=
  match ssn_address_parse ipc_path w with
  | (None, w) => Some (None, c, w)
  | (Some addr, w) =>
    match ssn_transport_create g (addr_type addr) (Some (client_config c (addr_type addr) ms)) w with
    | (None, w) => Some (None, c, w)
    | (Some t, w) =>
      let '(ok, t, w) := ssn_transport_connect t addr ms w in
      if negb ok then Some (None, c, ssn_transport_destroy t w)
      else
        let hello := bytes_of_header (ssn_create_header SSN_MSG_TYPE_SERVICE_INFO 0 0) in
        match ssn_client_send (S (length hello)) t hello 0 w with
        | None => None
        | Some (false, t, w) => Some (None, c, ssn_transport_destroy t w)
        | Some (true, t, w) =>
          match handshake_loop (Z.to_nat (max_retries ms)) c t w with
          | None => None
          | Some (false, c, t, w) => Some (None, c, ssn_transport_destroy t w)
          | Some (true, c, t, w) => Some (Some t, c, w)
          end
        end
    end
  end.

(** [timeout]: seconds and nanoseconds. *)
Definition ssn_client_connect c (ipc_path : bytes) (timeout : option (Z * Z)) w
  : option (bool * ssn_client * W) :=
  if negb (cl_valid c) then Some (false, c, w)
  else
    let '(c, w) := destroy_transport (cl_set_connected (ssn_client_ref c) false) w in
    match ssn_client_timeout_all c w with
    | None => None
    | Some (c, w) =>
      let '(sec, nsec) := default (3, 0) timeout in
      match open_connection c ipc_path (i32 (sec * 1000 + nsec / 1000000)) w with
      | None => None
      | Some (None, c, w) =>
        match ssn_client_unref c w with Some (c, w) => Some (false, c, w) | None => None end
      | Some (Some t, c, w) =>
        let '(c, w) := destroy_transport c w in
        let c := cl_set_connected (cl_set_transport c (Some t)) true in
        match ssn_client_unref c w with Some (c, w) => Some (true, c, w) | None => None end
      end
    end.

(** A new transport with the new timeout replaces the old one when it connects
    to the same address. *)
Definition ssn_client_send_timeout c (timeout_ms : Z) w : option (bool * ssn_client * W) :=
  if negb (cl_valid c) then Some (false, c, w)
  else
    let c := cl_set_send_timeout (ssn_client_ref c)
               (if timeout_ms >? 0 then timeout_ms else SSN_DEF_SEND_TIMEOUT) in
    let done c w := match ssn_client_unref c w with Some (c, w) => Some (true, c, w) | None => None end in
    match (if connected c then cl_transport c else None) with
    | None => done c w
    | Some t =>
      let cfg := mk_config (cfg_type (config t)) (cfg_non_blocking (config t)) (cl_send_timeout c)
        (recv_timeout_ms (config t)) (connect_timeout_ms (config t)) (enable_keepalive (config t))
        (keepalive_idle_sec (config t)) (keepalive_interval_sec (config t)) (keepalive_count (config t))
        (enable_nagle (config t)) (send_buffer_size (config t)) (recv_buffer_size (config t))
        (reuse_address (config t)) in
      match ssn_transport_create g (type_ t) (Some cfg) w with
      | (None, w) => done c w
      | (Some t', w) =>
        let '(ok, t', w) := ssn_transport_connect t' (ssn_transport_get_address t) (connect_timeout_ms cfg) w in
        if ok then done (cl_set_transport c (Some t')) (ssn_transport_destroy t w)
        else done c (ssn_transport_destroy t' w)
      end
    end.
End world.

(** ** Callbacks *)

Section callbacks.
Context {W : Type} `{OsOps W}.
Context (user : client_event -> ssn_client -> W -> list client_call).

(** The ping callback writes the stack variable; the others are the
    application's. *)
Fixpoint fire_at (depth : nat) (e : client_event) (c : ssn_client) (w : W) : option (ssn_client * W) :=
  match depth with
  | O => None
  | S depth =>
    let c := cl_set_history c (replied c) (fired c ++ [e]) in
    match e with
    | EvResult cb _ success =>
        if cb =? PING_REPLY_CB then Some (cl_set_history c success (fired c), w)
        else run_client_calls (fire_at depth) (user e c w) c w
    | _ => run_client_calls (fire_at depth) (user e c w) c w
    end
  end.
End callbacks.

(** ** Creation *)

Definition new_client (e : ipc_event_pair) : ssn_client :=
  mk_client true false false init_pending (ssn_stream_init (mk_stream 0 0 0 [])) false 0 0 0 None e
    SSN_DEF_SEND_TIMEOUT 1 (0, 0) (0, 0) [] false [].

(** [late_ok]: the send buffer, the mutex and the three protocol-layer instances
    could be made; a failure releases the event pair. *)
Definition ssn_client_create {W : Type} `{OsOps W} (late_ok : bool) (w : W) : option ssn_client * W :=
  let '(ok, w) := os_calloc w in
  if negb ok then (None, w)
  else
    let '(e, w) := ipc_event_pair_create w in
    match e with
    | None => (None, w)
    | Some e => if late_ok then (Some (new_client e), w) else (None, ipc_event_pair_destroy e w)
    end.
