(* ===== verification/ClientProps.v ===== *)
(** * Client: invariant and safety of its operations

    The client invariant is kept by every operation, whatever the server sends,
    the kernel answers and the application's callbacks do.  Callbacks nest at
    most twice: on a disconnected client no API call makes further callbacks,
    and disconnecting is the only call that does. *)
From S2P Require Import Prelude FrameCodec ErrorCode Os Transport Address FrameSend EventPair Server ServerTable ServerProps ClientPending Client.

(** ** Invariant *)

(** [k] references are held by running operations besides the creator's. *)
Record client_inv (k : Z) (c : ssn_client) : Prop := {
  ci_pend : pending_inv (pend c);
  ci_recv : stream_inv (cl_recv c);
  ci_live : cl_freed c = false;
  ci_refs : (if cl_valid c then 1 else 0) + k <= cl_ref c;
  ci_conn : connected c = true -> is_Some (cl_transport c);
  ci_cfg : match cl_transport c with Some t => cfg_ok t | None => True end /\ cl_send_timeout c < 2 ^ 31;
}.

(** Memory the application passes is valid. *)
Definition ccall_ok (k : client_call) : Prop :=
  match k with
  | CcSubscribe u _ _ _ | CcUnsubscribe u _ => refs_ok u None
  | CcCall u d _ _ _ | CcMessage u d => refs_ok u d
  | _ => True
  end.

(** ** Field updates *)

Section updates.
Implicit Types c : ssn_client.

Lemma inv_set_pend k c t : client_inv k c -> pending_inv t -> client_inv k (cl_set_pend c t).
Proof. intros [] ?. by split. Qed.
Lemma inv_set_recv k c r : client_inv k c -> stream_inv r -> client_inv k (cl_set_recv c r).
Proof. intros [] ?. by split. Qed.
Lemma inv_set_history k c r l : client_inv k c -> client_inv k (cl_set_history c r l).
Proof. intros []. by split. Qed.
Lemma inv_set_subs k c l : client_inv k c -> client_inv k (cl_set_subs c l).
Proof. intros []. by split. Qed.
Lemma inv_set_handlers k c s m : client_inv k c -> client_inv k (cl_set_handlers c s m).
Proof. intros []. by split. Qed.
Lemma inv_set_evt k c e : client_inv k c -> client_inv k (cl_set_evt c e).
Proof. intros []. by split. Qed.
Lemma inv_set_seqnos k c s n : client_inv k c -> client_inv k (cl_set_seqnos c s n).
Proof. intros []. by split. Qed.
Lemma inv_set_cid k c v i : client_inv k c -> client_inv k (cl_set_cid c v i).
Proof. intros []. by split. Qed.
Lemma inv_disconnected k c : client_inv k c -> client_inv k (cl_set_connected c false).
Proof. intros []. by split. Qed.
Lemma inv_set_transport k c t : client_inv k c -> cfg_ok t -> client_inv k (cl_set_transport c (Some t)).
Proof. intros [? ? ? ? ? [_ ?]] ?. by split. Qed.
Lemma inv_ref k c : client_inv k c -> client_inv (k + 1) (ssn_client_ref c).
Proof. intros [? ? ? ? ? ?]. split; try done. cbn. lia. Qed.
Lemma inv_weaken k k' c : k' <= k -> client_inv k c -> client_inv k' c.
Proof. intros ? [? ? ? ? ? ?]. split; try done. lia. Qed.
End updates.
#[global] Hint Resolve inv_set_history inv_set_subs inv_set_handlers inv_set_evt inv_set_seqnos inv_set_cid
  inv_disconnected : ssn.

(** What is left of a closed client. *)
Definition client_released (c : ssn_client) : Prop :=
  cl_freed c = true /\ cl_valid c = false /\ cl_transport c = None /\ live (pend c) = [].

(** ** Transport settings *)

Section settings.
Context {W : Type} `{OsOps W}.

Lemma abort_config t (w : W) : config (abort_connect t w).1.2 = config t.
Proof. done. Qed.
Lemma touch_config t (w : W) : config (touch t w).1 = config t.
Proof. unfold touch. by destruct (os_time w). Qed.

Lemma connect_config t a ms (w : W) : config (ssn_transport_connect t a ms w).1.2 = config t.
Proof.
  unfold ssn_transport_connect. destruct (ops t).
  - unfold unix_transport_connect. pose proof (close_fd_config t w) as Hc.
    destruct (close_fd t w) as [t1 w1]. cbn in Hc. destruct (os_socket _ _ w1) as [fd w2].
    destruct (fd <? 0); [done|]. cbn zeta.
    repeat (case_match; try done; simplify_eq);
      match goal with H : touch ?x ?y = _ |- _ => pose proof (touch_config x y) as Ht; rewrite H in Ht end;
      cbn in *; congruence.
  - unfold tcp_transport_connect.
    set (t0 := set_impl t _). pose proof (close_fd_config t0 w) as Hc.
    destruct (close_fd t0 w) as [t1 w1]. cbn in Hc. destruct (os_socket _ _ w1) as [fd w2].
    destruct (fd <? 0); [done|]. cbn zeta.
    set (t2 := if ipv6_enabled _ then set_impl _ (set_addr6 _ _) else set_impl _ (set_addr _ _)). assert (config t2 = config t) as Ht2.
    { subst t2. by destruct (ipv6_enabled _). }
    repeat (case_match; try done; simplify_eq);
      match goal with H : touch ?x ?y = _ |- _ => pose proof (touch_config x y) as Ht; rewrite H in Ht end;
      cbn in *; congruence.
  - unfold udp_transport_connect.
    set (t0 := set_impl t _). pose proof (close_fd_config t0 w) as Hc.
    destruct (close_fd t0 w) as [t1 w1]. cbn in Hc. destruct (os_socket _ _ w1) as [fd w2].
    destruct (fd <? 0); [done|]. cbn zeta.
    match goal with |- context [touch ?x ?y] =>
      pose proof (touch_config x y) as Ht; destruct (touch x y) as [t3 w3] end.
    cbn in *. rewrite Ht. by destruct (ipv6_enabled _).
Qed.
End settings.

(** ** Calls on a disconnected client *)

(** Nothing but handlers, the valid flag and the reference count changed. *)
Definition unmoved (c c' : ssn_client) : Prop :=
  connected c' = connected c /\ pend c' = pend c /\ cl_transport c' = cl_transport c /\
  cl_recv c' = cl_recv c /\ cl_evt c' = cl_evt c /\ cl_send_timeout c' = cl_send_timeout c /\
  (cl_valid c = false -> cl_valid c' = false).
#[global] Instance unmoved_preorder : PreOrder unmoved.
Proof.
  split; [by intros c|]. intros c1 c2 c3 (? & ? & ? & ? & ? & ? & Hv1) (? & ? & ? & ? & ? & ? & Hv2).
  split_and!; try congruence. auto.
Qed.

Section quiet.
Context {W : Type} `{OsOps W}.
Context (fire : client_event -> ssn_client -> W -> option (ssn_client * W)).
Implicit Types (c : ssn_client) (w : W).

(** The count cannot drop to zero on a dead client. *)
Definition held (k : Z) c : Prop := 1 <= k \/ (0 <= k /\ cl_valid c = true).

Lemma unref_keep k c w :
  held k c -> client_inv (k + 1) c ->
  ssn_client_unref fire c w = Some (cl_set_ref c (cl_ref c - 1), w) /\
  client_inv k (cl_set_ref c (cl_ref c - 1)).
Proof.
  intros Hk [? ? Hl Hr ? ?]. unfold ssn_client_unref. rewrite Hl.
  assert (k + 1 <= cl_ref c /\ 2 <= cl_ref c) by (destruct Hk as [?|[? Hv]]; destruct (cl_valid c); done || lia).
  destruct (Z.gtb_spec (cl_ref c) 0); [|lia]. cbn [cl_ref cl_set_ref cl_valid].
  destruct (Z.eqb_spec (cl_ref c - 1) 0); [lia|]. split; [done|]. split; try done. cbn.
  destruct (cl_valid c); lia.
Qed.

(** On an invalid client every call returns at once. *)
Lemma invalid_calls ks c w :
  cl_valid c = false -> cl_freed c = false -> run_client_calls fire ks c w = Some (c, w).
Proof.
  intros Hv Hl. induction ks as [|k ks IH]; [done|]. cbn [run_client_calls].
  assert (run_client_call fire k c w = Some (c, w)) as ->; [|done].
  unfold run_client_call. rewrite Hl.
  destruct k; unfold ssn_client_subscribe, ssn_client_unsubscribe, ssn_client_call, ssn_client_call_ex,
    ssn_client_message, ssn_client_set_on_message, ssn_client_set_on_publish, ssn_client_disconnect,
    ssn_client_close; rewrite ?Hv; cbn [negb orb]; try done. by destruct (checked_url url).
Qed.

Lemma disconnected_call k q c w :
  1 <= k -> client_inv k c -> connected c = false ->
  exists c', run_client_call fire q c w = Some (c', w) /\ client_inv k c' /\ unmoved c c' /\
    fired c' = fired c.
Proof.
  intros Hk Hi Hn. unfold run_client_call. rewrite (ci_live k c Hi).
  assert (forall s m, exists c', ssn_client_unref fire (cl_set_handlers (ssn_client_ref c) s m) w = Some (c', w) /\
    client_inv k c' /\ unmoved c c' /\ fired c' = fired c) as Hset.
  { intros s m. destruct (unref_keep k (cl_set_handlers (ssn_client_ref c) s m) w (or_introl Hk)) as [-> ?].
    - auto using inv_ref with ssn.
    - eexists. split; [done|]. split; [done|]. by split_and!. }
  destruct q; unfold ssn_client_subscribe, ssn_client_unsubscribe, ssn_client_call, ssn_client_call_ex,
    ssn_client_message, ssn_client_set_on_message, ssn_client_set_on_publish, ssn_client_disconnect,
    ssn_client_close; rewrite ?Hn; cbn [negb]; rewrite ?orb_true_r; try (by eexists).
  - by destruct (checked_url url); eexists.
  - destruct (cl_valid c); [apply Hset|by eexists].
  - destruct (cl_valid c); [apply Hset|by eexists].
  - destruct (cl_valid c) eqn:Hv; cbn [negb]; [|by eexists].
    assert (client_inv (k + 1) (cl_set_flags c false (cl_freed c) false)) as Hi1.
    { destruct Hi as [? ? ? Hr ? ?]. rewrite Hv in Hr. split; try done. cbn. lia. }
    destruct (unref_keep k _ w (or_introl Hk) Hi1) as [-> ?].
    eexists. split; [done|]. split; [done|]. by split_and!.
Qed.

Lemma disconnected_calls k qs c w :
  1 <= k -> client_inv k c -> connected c = false ->
  exists c', run_client_calls fire qs c w = Some (c', w) /\ client_inv k c' /\ unmoved c c' /\
    fired c' = fired c.
Proof.
  intros Hk. revert c. induction qs as [|q qs IH]; intros c Hi Hn; cbn [run_client_calls]; [by eexists|].
  destruct (disconnected_call k q c w Hk Hi Hn) as (c1 & -> & Hi1 & Hu1 & Hf1).
  destruct (IH c1 Hi1) as (c2 & -> & Hi2 & Hu2 & Hf2). { destruct Hu1 as [-> _]. done. }
  exists c2. split; [done|]. split; [done|]. split; [by trans c1|congruence].
Qed.
End quiet.

(** ** Callbacks *)

Section callbacks.
Context {W : Type} `{OsOps W}.
Context (user : client_event -> ssn_client -> W -> list client_call).
Implicit Types (c : ssn_client) (w : W).

(** On a disconnected client, inside an operation that holds a reference. *)
Lemma fire_disconnected d k e c w :
  1 <= k -> client_inv k c -> connected c = false ->
  exists c', fire_at user (S d) e c w = Some (c', w) /\ client_inv k c' /\ unmoved c c' /\
    fired c' = fired c ++ [e].
Proof.
  intros Hk Hi Hn. cbn [fire_at].
  assert (client_inv k (cl_set_history c (replied c) (fired c ++ [e]))) as Hi1 by auto with ssn.
  pose proof (disconnected_calls (fire_at user d) k
    (user e (cl_set_history c (replied c) (fired c ++ [e])) w) _ w Hk Hi1 Hn) as (c' & E & Hi' & Hu & Hf).
  assert (unmoved c c' /\ fired c' = fired c ++ [e]) as [Hu' Hf'].
  { split; [|done]. destruct Hu as (? & ? & ? & ? & ? & ? & ?). by split_and!. }
  destruct e as [cb arg r|cb arg ok|cb arg u d0]; try (by exists c').
  destruct (cb =? PING_REPLY_CB); [|by exists c'].
  eexists. split; [done|]. split; [auto with ssn|]. split; [by split_and!|done].
Qed.

(** On a closed client whose memory is about to be released. *)
Lemma fire_invalid d e c w :
  cl_valid c = false -> cl_freed c = false ->
  exists c', fire_at user (S d) e c w = Some (c', w) /\ unmoved c c' /\ cl_freed c' = false.
Proof.
  intros Hv Hl. cbn [fire_at].
  pose proof (fun ks => invalid_calls (fire_at user d) ks (cl_set_history c (replied c) (fired c ++ [e])) w Hv Hl)
    as Hc.
  destruct e as [cb arg r|cb arg ok|cb arg u d0]; rewrite ?Hc; try (by eexists).
  destruct (cb =? PING_REPLY_CB); rewrite ?Hc; by eexists.
Qed.

Lemma items_disconnected d k items c w :
  1 <= k -> client_inv k c -> connected c = false ->
  exists c', fire_items (fire_at user (S d)) items c w = Some (c', w) /\ client_inv k c' /\ unmoved c c' /\
    fired c' = fired c ++ omap failure_event items.
Proof.
  intros Hk. revert c. induction items as [|p items IH]; intros c Hi Hn; cbn [fire_items].
  { exists c. split; [done|]. split; [done|]. split; [done|]. cbn. by rewrite app_nil_r. }
  cbn [omap list_omap]. destruct (failure_event p) as [e|]; [|by apply IH].
  destruct (fire_disconnected d k e c w Hk Hi Hn) as (c1 & -> & Hi1 & Hu1 & Hf1).
  destruct (IH c1 Hi1) as (c2 & -> & Hi2 & Hu2 & Hf2). { destruct Hu1 as [-> _]. done. }
  exists c2. split; [done|]. split; [done|]. split; [by trans c1|]. by rewrite Hf2, Hf1, <- app_assoc.
Qed.

Lemma items_invalid d items c w :
  cl_valid c = false -> cl_freed c = false ->
  exists c', fire_items (fire_at user (S d)) items c w = Some (c', w) /\ unmoved c c'.
Proof.
  revert c. induction items as [|p items IH]; intros c Hv Hl; cbn [fire_items]; [by eexists|].
  destruct (failure_event p) as [e|]; [|by apply IH].
  destruct (fire_invalid d e c w Hv Hl) as (c1 & -> & Hu1 & Hl1).
  destruct (IH c1) as (c2 & -> & Hu2); [by apply Hu1|done|]. exists c2. split; [done|]. by trans c1.
Qed.

(** All requests of a disconnected client fail, once each. *)
Lemma timeout_all_disconnected d k c w :
  1 <= k -> client_inv k c -> connected c = false ->
  exists c', ssn_client_timeout_all (fire_at user (S d)) c w = Some (c', w) /\ client_inv k c' /\
    connected c' = false /\ cl_transport c' = cl_transport c /\ cl_recv c' = cl_recv c /\
    live (pend c') = [] /\ fired c' = fired c ++ omap failure_event (live (pend c)).
Proof.
  intros Hk Hi Hn. unfold ssn_client_timeout_all, ssn_client_collect_and_call_pending.
  destruct (live_collect false (pend c) (ci_pend k c Hi)) as (t & -> & Ht & Hlive & _).
  destruct (items_disconnected d k (filter (fun p => due false p = true) (live (pend c))) (cl_set_pend c t) w Hk)
    as (c' & -> & Hi' & (Hc & Hp & Htr & Hrc & _) & Hf); [by apply inv_set_pend|done|].
  assert (forall l : list ssn_pending_request_t, filter (fun p => due false p = true) l = l) as Hall.
  { intros l. by apply filter_all. }
  exists c'. split; [done|]. split; [done|]. split; [by rewrite Hc|]. split; [done|]. split; [done|]. split.
  - rewrite Hp. cbn. rewrite Hlive. clear. induction (live (pend c)) as [|p l IH]; [done|].
    rewrite filter_cons. by destruct (decide (due false p = false)).
  - rewrite Hf. cbn. by rewrite Hall.
Qed.
End callbacks.

(** ** Requests *)

Section requests.
Context {W : Type} `{OsLaws W}.
Context (fire : client_event -> ssn_client -> W -> option (ssn_client * W)).
Implicit Types (c : ssn_client) (w : W).

Lemma client_sendmsg_good k c hdr url data w :
  client_inv k c -> connected c = true -> refs_ok url data ->
  exists r t w', ssn_client_sendmsg c hdr url data w = Some (r, cl_set_transport c (Some t), w') /\
    client_inv k (cl_set_transport c (Some t)).
Proof.
  intros Hi Hc Hr. destruct (ci_conn k c Hi Hc) as [t Ht]. unfold ssn_client_sendmsg. rewrite Ht.
  destruct (ci_cfg k c Hi) as [Hcfg _]. rewrite Ht in Hcfg.
  destruct (send_total t hdr url data w Hr Hcfg) as (ok & hdr' & t' & w' & -> & Hcc).
  assert (cfg_ok t') by (unfold cfg_ok in *; congruence).
  destruct ok; [eexists _, t', w'; split; [done|]; by apply inv_set_transport|].
  pose proof (disconnect_config t' w') as Hd. destruct (ssn_transport_disconnect t' w') as [[b t2] w2].
  cbn in Hd. eexists _, t2, w2. split; [done|]. apply inv_set_transport; [done|].
  unfold cfg_ok in *. congruence.
Qed.

(** What a request leaves in the table: itself if it was accepted, nothing
    otherwise. *)
Lemma finish_good k c (r : bool) (seqno : Z) c1 w1 :
  held k c -> client_inv (k + 1) c1 -> cl_valid c1 = cl_valid c -> fired c1 = fired c ->
  exists c', match ssn_client_unref fire c1 w1 with Some (c, w) => Some (r, seqno, c, w) | None => None end
    = Some (r, seqno, c', w1) /\ client_inv k c' /\ fired c' = fired c /\ pend c' = pend c1.
Proof.
  intros Hk Hi1 Hv1 Hf1. assert (held k c1) as Hk1 by (unfold held in *; by rewrite Hv1).
  destruct (unref_keep fire k c1 w1 Hk1 Hi1) as [-> ?]. by eexists.
Qed.

Lemma send_request_good k c type url data ftype cb arg ms w :
  held k c -> client_inv k c -> connected c = true -> refs_ok url data ->
  exists r seqno c' w', send_request fire c type url data ftype cb arg ms w = Some (r, seqno, c', w') /\
    client_inv k c' /\ fired c' = fired c /\
    (if r && negb (cb =? 0)
     then exists i, live (pend c') ≡ₚ mk_pending i seqno (u32 ms) ftype cb arg :: live (pend c) /\
                    index_of (pend c') seqno = i
     else live (pend c') ≡ₚ live (pend c)).
Proof.
  intros Hk Hi Hc Hr. unfold send_request. cbv zeta.
  pose proof (fun r seqno c1 w1 => finish_good k c r seqno c1 w1 Hk) as Hfin.
  pose proof (inv_ref k c Hi) as Hi0. destruct (Z.eqb_spec cb 0) as [->|Hcb]; cbn [negb].
  - destruct (ssn_client_prepare_seqno (ssn_client_ref c)) as [seqno c1] eqn:Ep.
    assert (client_inv (k + 1) c1 /\ connected c1 = true /\ fired c1 = fired c /\ pend c1 = pend c /\
      cl_valid c1 = cl_valid c) as (Hi1 & Hc1 & Hf1 & Hp1 & Hv1).
    { unfold ssn_client_prepare_seqno in Ep. destruct (_ =? 0); simplify_eq; auto 6 using inv_set_seqnos. }
    destruct (client_sendmsg_good (k + 1) c1 (ssn_create_header type 0 seqno) url data w Hi1 Hc1 Hr)
      as (r & t & w1 & -> & Hi2).
    destruct (Hfin r seqno _ w1 Hi2 Hv1 Hf1) as (c' & -> & Hi' & Hf' & Hp').
    eexists _, _, _, _. split; [done|]. split; [done|]. split; [done|]. rewrite andb_false_r, Hp'. cbn. by rewrite Hp1.
  - change (pend (ssn_client_ref c)) with (pend c). pose proof (alloc_register_spec (pend c) (ci_pend k c Hi)) as Ha.
    destruct (alloc_pending_index (pend c)) as [[i t]|] eqn:Ealloc.
    2:{ destruct (Hfin false 0 _ w Hi0 eq_refl eq_refl) as (c' & -> & Hi' & Hf' & Hp').
        eexists _, _, _, _. split; [done|]. split; [done|]. split; [done|]. cbn. by rewrite Hp'. }
    destruct Ha as (Hir & _ & Hreg). change (cl_seqno (ssn_client_ref c)) with (cl_seqno c).
    change (next_non_pending_seqno (ssn_client_ref c)) with (next_non_pending_seqno c).
    destruct (Hreg (cl_seqno c) ms ftype cb arg) as (Hinv2 & Hocc2 & Hslot2 & Hidx2).
    pose proof (live_register (pend c) i t (cl_seqno c) ms ftype cb arg (ci_pend k c Hi) Ealloc) as Hlive.
    set (t2 := register t i (cl_seqno c) ms ftype cb arg) in *.
    set (c2 := cl_set_pend (cl_set_seqnos (ssn_client_ref c) _ _) t2).
    assert (client_inv (k + 1) c2) as Hi2 by (apply inv_set_pend; auto with ssn).
    destruct (client_sendmsg_good (k + 1) c2 (ssn_create_header type 0 (cl_seqno c)) url data w Hi2 Hc Hr)
      as (r & t3 & w1 & -> & Hi3).
    assert (slot t2 i = mk_pending i (cl_seqno c) (u32 ms) ftype cb arg) as Hsi by (by rewrite Hslot2, Z.eqb_refl).
    destruct r.
    + destruct (Hfin true (cl_seqno c) _ w1 Hi3 eq_refl eq_refl) as (c' & -> & Hi' & Hf' & Hp').
      eexists _, _, _, _. split; [done|]. split; [done|]. split; [done|].
      destruct (Z.eqb_spec cb 0); [done|]. cbn [andb negb]. exists i. rewrite Hp'. split; [exact Hlive|].
      change (index_of t2 (cl_seqno c) = i). by rewrite Hidx2, Z.eqb_refl.
    + change (pend (cl_set_transport c2 (Some t3))) with t2. rewrite Hsi. cbn [pend_index].
      destruct (free_spec t2 i Hinv2 Hir) as (Hinv4 & _ & _ & _).
      destruct (Hfin false (cl_seqno c) (cl_set_pend (cl_set_transport c2 (Some t3)) (free_pending_index t2 i)) w1)
        as (c' & -> & Hi' & Hf' & Hp'); [by apply inv_set_pend|done|done|].
      eexists _, _, _, _. split; [done|]. split; [done|]. split; [done|]. cbn. rewrite Hp'. cbn.
      pose proof (live_free t2 i Hinv2 Hir) as Hfree. rewrite Hsi, Hlive in Hfree.
      apply Permutation_cons_inv with (a := mk_pending i (cl_seqno c) (u32 ms) ftype cb arg).
      symmetry. apply Hfree. rewrite Hocc2, Z.eqb_refl, orb_true_r by done. done.
Qed.
End requests.

(** ** Nested callbacks *)

Section nested.
Context {W : Type} `{OsLaws W}.
Context (user : client_event -> ssn_client -> W -> list client_call).
Hypothesis user_ok : forall e c w, Forall ccall_ok (user e c w).
Implicit Types (c : ssn_client) (w : W).

Definition cgood (k : Z) (r : option (ssn_client * W)) : Prop :=
  exists c' w', r = Some (c', w') /\ client_inv k c'.

Lemma disconnect_good d k c w :
  1 <= k -> client_inv k c ->
  exists b c' w', ssn_client_disconnect (fire_at user (S d)) c w = Some (b, c', w') /\ client_inv k c'.
Proof.
  intros Hk Hi. unfold ssn_client_disconnect. destruct (_ || _); [by eexists _, _, _|].
  set (p := match cl_transport _ with Some _ => _ | None => _ end).
  assert (client_inv (k + 1) p.1 /\ connected p.1 = false) as [Hi1 Hn1].
  { pose proof (inv_disconnected _ _ (inv_ref k c Hi)) as Hi0. pose proof (ci_cfg _ _ Hi0) as [Hcfg _].
    subst p. cbn [cl_transport cl_set_connected cl_set_flags ssn_client_ref cl_set_ref] in *.
    destruct (cl_transport c) as [t|]; [|done].
    pose proof (disconnect_config t w) as Hd. destruct (ssn_transport_disconnect t w) as [[b t2] w2].
    cbn in Hd. split; [|done]. apply inv_set_transport; [done|]. unfold cfg_ok in *. congruence. }
  destruct p as [c1 w1]. cbn in Hi1, Hn1.
  destruct (timeout_all_disconnected user d (k + 1) c1 w1 ltac:(lia) Hi1 Hn1) as (c2 & -> & Hi2 & _).
  destruct (unref_keep (fire_at user (S d)) k c2 w1 (or_introl Hk) Hi2) as [-> ?]. by eexists _, _, _.
Qed.

Lemma client_call_good d k q c w :
  1 <= k -> client_inv k c -> ccall_ok q -> cgood k (run_client_call (fire_at user (S d)) q c w).
Proof.
  intros Hk Hi Hq. destruct (connected c) eqn:Hc.
  2:{ destruct (disconnected_call (fire_at user (S d)) k q c w Hk Hi Hc) as (c' & -> & ? & _). by exists c', w. }
  assert (cgood k (Some (c, w))) as Hsame by (by exists c, w).
  unfold run_client_call. rewrite (ci_live k c Hi). destruct (cl_valid c) eqn:Hv.
  2:{ pose proof (invalid_calls (fire_at user (S d)) [q] c w Hv (ci_live k c Hi)) as Hinv.
      unfold run_client_calls, run_client_call in Hinv. rewrite (ci_live k c Hi) in Hinv.
      repeat case_match; simplify_eq; done. }
  destruct q; unfold ssn_client_subscribe, ssn_client_unsubscribe, ssn_client_call, ssn_client_call_ex,
    ssn_client_message, ssn_client_set_on_message, ssn_client_set_on_publish,
    ssn_client_close, ssn_client_request, ssn_client_request_ex; cbn [cl_valid connected cl_set_subs];
    rewrite ?Hv, ?Hc; cbn [negb orb]; cbn in Hq.
  - destruct (checked_url url) as [u|]; [|done].
    destruct (os_calloc w) as [[] w1]; cbn [negb]; [|by eexists _, _].
    destruct (send_request_good (fire_at user (S d)) k
      (cl_set_subs c (mk_sub_handler callback arg u :: sub_handlers c)) SSN_MSG_TYPE_SUBSCRIBE url None
      SSN_CLIENT_FTYPE_RES 0 0 timeout_ms w1 (or_introl Hk) (inv_set_subs _ _ _ Hi) Hc Hq) as (r & sq & c' & w' & -> & ? & _).
    by exists c', w'.
  - destruct (checked_url url) as [u|]; [|done].
    destruct (send_request_good (fire_at user (S d)) k
      (cl_set_subs c (remove_first_handler (sub_handlers c) u)) SSN_MSG_TYPE_UNSUBSCRIBE url None
      SSN_CLIENT_FTYPE_RES 0 0 timeout_ms w (or_introl Hk) (inv_set_subs _ _ _ Hi) Hc Hq) as (r & sq & c' & w' & -> & ? & _).
    by exists c', w'.
  - destruct (checked_url url); [|done].
    destruct (send_request_good (fire_at user (S d)) k c SSN_MSG_TYPE_RPC_REQUEST url data
      SSN_CLIENT_FTYPE_RPC callback arg timeout_ms w (or_introl Hk) Hi Hc Hq) as (r & sq & c' & w' & -> & ? & _).
    by exists c', w'.
  - destruct (checked_url url); [|done]. destruct data as [dd|]; [|done].
    destruct (client_sendmsg_good (k + 1) (ssn_client_ref c) (ssn_create_header SSN_MSG_TYPE_MESSAGE 0 0)
      url (Some dd) w (inv_ref k c Hi) Hc Hq) as (r & t & w1 & -> & Hi1).
    destruct (unref_keep (fire_at user (S d)) k _ w1 (or_introl Hk) Hi1) as [-> ?]. by eexists _, _.
  - destruct (unref_keep (fire_at user (S d)) k (cl_set_handlers (ssn_client_ref c) (callback, arg) (callback, arg))
      w (or_introl Hk)) as [-> ?]; [auto using inv_ref with ssn|]. by eexists _, _.
  - destruct (unref_keep (fire_at user (S d)) k (cl_set_handlers (ssn_client_ref c) (callback, arg) (cl_onmsg c))
      w (or_introl Hk)) as [-> ?]; [auto using inv_ref with ssn|]. by eexists _, _.
  - destruct (disconnect_good d k c w Hk Hi) as (b & c' & w' & -> & ?). by exists c', w'.
  - assert (client_inv (k + 1) (cl_set_flags c false (cl_freed c) true)) as Hi1.
    { destruct Hi as [? ? ? Hr Hcn ?]. rewrite Hv in Hr. split; try done; [cbn; lia|]. intros _. by apply Hcn. }
    destruct (unref_keep (fire_at user (S d)) k _ w (or_introl Hk) Hi1) as [-> ?]. by eexists _, _.
Qed.

Lemma client_calls_good d k qs c w :
  1 <= k -> client_inv k c -> Forall ccall_ok qs -> cgood k (run_client_calls (fire_at user (S d)) qs c w).
Proof.
  intros Hk Hi Hqs. revert c w Hi. induction Hqs as [|q qs Hq _ IH]; intros c w Hi; cbn [run_client_calls].
  { by exists c, w. }
  destruct (client_call_good d k q c w Hk Hi Hq) as (c1 & w1 & -> & Hi1). by apply IH.
Qed.

(** Depth two is enough for every callback. *)
Lemma fire_good d k e c w :
  1 <= k -> client_inv k c -> cgood k (fire_at user (S (S d)) e c w).
Proof.
  intros Hk Hi. cbn [fire_at]. fold (fire_at user (S d)).
  pose proof (inv_set_history k c (replied c) (fired c ++ [e]) Hi) as Hi1.
  set (c1 := cl_set_history c _ _) in *.
  pose proof (fun qs Hqs => client_calls_good d k qs c1 w Hk Hi1 Hqs) as Hcalls.
  destruct e as [cb arg r|cb arg ok|cb arg u dd]; try apply Hcalls, user_ok.
  destruct (cb =? PING_REPLY_CB); [|apply Hcalls, user_ok].
  eexists _, _. split; [done|]. by apply inv_set_history.
Qed.
End nested.

(** ** Input, polling and release *)

Section events.
Context {W : Type} `{OsLaws W}.
Context (user : client_event -> ssn_client -> W -> list client_call).
Hypothesis user_ok : forall e c w, Forall ccall_ok (user e c w).
Context (d : nat).
Implicit Types (c : ssn_client) (w : W).
Local Abbreviation fire := (fire_at user (S (S d))).

Lemma items_good k items c w :
  1 <= k -> client_inv k c -> cgood k (fire_items fire items c w).
Proof.
  intros Hk. revert c w. induction items as [|p items IH]; intros c w Hi; cbn [fire_items]; [by exists c, w|].
  destruct (failure_event p) as [e|]; [|by apply IH].
  destruct (fire_good user user_ok d k e c w Hk Hi) as (c1 & w1 & -> & Hi1). by apply IH.
Qed.

Lemma collect_good k only c w :
  1 <= k -> client_inv k c -> cgood k (ssn_client_collect_and_call_pending fire c only w).
Proof.
  intros Hk Hi. unfold ssn_client_collect_and_call_pending.
  destruct (live_collect only (pend c) (ci_pend k c Hi)) as (t & -> & Ht & _).
  apply items_good; [done|]. by apply inv_set_pend.
Qed.

Lemma reply_input_good k pkt c w :
  1 <= k -> client_inv k c -> delivered pkt ->
  exists b c' w', ssn_client_input fire pkt c w = Some (b, c', w') /\ client_inv k c'.
Proof.
  intros Hk Hi [[url Hu] [data Hd]]. unfold ssn_client_input.
  assert (forall r, cgood k r -> exists b c' w',
    match r with Some (c, w) => Some (cl_valid c, c, w) | None => None end = Some (b, c', w') /\ client_inv k c')
    as Hout.
  { intros r (c' & w' & -> & ?). by eexists _, _, _. }
  assert (forall e c w, client_inv k c -> cgood k (fire e c w)) as Hfire by (intros; by apply fire_good).
  assert (cgood k (Some (c, w))) as Hsame by (by exists c, w).
  destruct (_ =? SSN_MSG_TYPE_PUBLISH).
  { apply Hout. unfold ssn_client_handle_publish. rewrite Hu, Hd.
    destruct (publish_target c _) as [[cb arg]|]; auto. }
  destruct (_ =? SSN_MSG_TYPE_MESSAGE).
  { apply Hout. unfold ssn_client_handle_message. rewrite Hu, Hd. destruct (negb _); auto. }
  pose proof (snapshot_spec (pend c) (ssn_get_seqno (header_of_bytes pkt)) (ci_pend k c Hi)) as Hs.
  destruct (get_pending_snapshot _ _) as [p|]; [|by apply (Hout (Some (c, w)))]. destruct Hs as (Hr & _).
  set (r := if is_response _ then _ else _).
  assert (cgood k r) as (c1 & w1 & -> & Hi1).
  { subst r. destruct (is_response _); [|destruct (_ =? SSN_MSG_TYPE_RPC_REQUEST); [|done]].
    - unfold ssn_client_handle_response. destruct (_ && _); auto.
    - unfold ssn_client_handle_rpc_response. rewrite Hd. destruct (_ && _); auto. }
  apply (Hout (Some (_, w1))). eexists _, _. split; [done|]. apply inv_set_pend; [done|].
  apply (free_spec (pend c1) (pend_index p)); [apply (ci_pend k c1 Hi1)|done].
Qed.

Lemma client_feed_good k recv b c w :
  1 <= k -> client_inv k c -> stream_inv recv ->
  exists ok recv' c' w', ssn_stream_feed (client_input_callback fire) recv b (Some (c, w))
      = Some (ok, recv', Some (c', w')) /\ stream_inv recv' /\ client_inv k c'.
Proof.
  intros Hk Hi Hr.
  destruct (feed_invariant (client_input_callback fire)
    (fun st => exists c' w', st = Some (c', w') /\ client_inv k c')) with
    (recv := recv) (buf := b) (st := Some (c, w)) as (ok & recv' & st' & -> & Hr' & c' & w' & -> & ?).
  - intros pkt st Hpkt (c1 & w1 & -> & Hi1). unfold client_input_callback.
    destruct (reply_input_good k pkt c1 w1 Hk Hi1) as (b' & c2 & w2 & -> & ?); [by apply whole_packet_fields|].
    by exists c2, w2.
  - done.
  - by exists c, w.
  - by exists ok, recv', c', w'.
Qed.

Lemma lost_good k c w :
  1 <= k -> client_inv k c ->
  exists c' w', connection_lost fire c w = Some (false, c', w') /\ client_inv k c'.
Proof.
  intros Hk Hi. unfold connection_lost.
  destruct (timeout_all_disconnected user (S d) k (cl_set_connected c false) w Hk) as (c' & -> & ? & _);
    [auto with ssn|done|]. by exists c', w.
Qed.

Lemma timeouts_good k c rfds w :
  1 <= k -> client_inv k c ->
  exists c' w', process_timeouts fire c rfds w = Some (true, c', w') /\ client_inv k c'.
Proof.
  intros Hk Hi. unfold process_timeouts. case_bool_decide; [|by exists c, w].
  destruct (collect_good k true (cl_set_evt c (ipc_event_pair_drain (cl_evt c))) w Hk) as (c' & w' & -> & ?);
    [auto with ssn|]. by exists c', w'.
Qed.

Lemma process_events_good k c rfds w :
  1 <= k -> client_inv k c ->
  exists b c' w', ssn_client_process_events fire c rfds w = Some (b, c', w') /\ client_inv k c'.
Proof.
  intros Hk Hi. unfold ssn_client_process_events.
  assert (forall c w, client_inv k c -> exists b c' w', process_timeouts fire c rfds w = Some (b, c', w') /\
    client_inv k c') as Hpt.
  { intros c0 w0 Hi0. destruct (timeouts_good k c0 rfds w0 Hk Hi0) as (c' & w' & -> & ?). by eexists _, _, _. }
  assert (forall c w, client_inv k c -> exists b c' w', connection_lost fire c w = Some (b, c', w') /\
    client_inv k c') as Hlost.
  { intros c0 w0 Hi0. destruct (lost_good k c0 w0 Hk Hi0) as (c' & w' & -> & ?). by eexists _, _, _. }
  destruct (cl_valid c); cbn [negb]; [|by eexists _, _, _].
  destruct (connected c); [|by apply Hpt]. pose proof (ci_cfg k c Hi) as [Hcfg _].
  destruct (cl_transport c) as [t|]; [|by apply Hpt].
  destruct (_ && _); [|by apply Hpt].
  pose proof (recv_config t SSN_MAX_PACKET_SIZE 0 w) as Hrc.
  destruct (ssn_transport_recv t _ _ w) as [[[num b] t1] w1]. cbn in Hrc.
  assert (client_inv k (cl_set_transport c (Some t1))) as Hi1.
  { apply inv_set_transport; [done|]. unfold cfg_ok in *. congruence. }
  set (c1 := cl_set_transport c (Some t1)) in *.
  destruct (num >? 0).
  - destruct (client_feed_good k (cl_recv c1) (ztake num b) c1 w1 Hk Hi1 (ci_recv k c1 Hi1))
      as (ok & recv' & c2 & w2 & -> & Hr' & Hi2).
    destruct ok; [apply Hpt|apply Hlost]; by apply inv_set_recv.
  - destruct (num =? 0); [by apply Hlost|]. destruct (_ && _); [by apply Hlost|by apply Hpt].
Qed.

Lemma destroy_transport_inv k c w :
  client_inv k c -> connected c = false ->
  client_inv k (destroy_transport c w).1 /\ cl_transport (destroy_transport c w).1 = None /\
  pend (destroy_transport c w).1 = pend c /\ connected (destroy_transport c w).1 = false /\
  cl_evt (destroy_transport c w).1 = cl_evt c /\ cl_valid (destroy_transport c w).1 = cl_valid c.
Proof.
  intros Hi Hn. unfold destroy_transport. destruct (cl_transport c) as [t|] eqn:Ht; [|by split_and!].
  cbn. split; [|done]. destruct Hi as [? ? ? ? ? [_ ?]]. split; try done. cbn. congruence.
Qed.

(** Giving a reference back: the client stays, or is released completely. *)
Lemma client_unref_total k c w :
  0 <= k -> client_inv (k + 1) c ->
  exists c' w', ssn_client_unref fire c w = Some (c', w') /\ (client_inv k c' \/ client_released c').
Proof.
  intros Hk Hi. pose proof Hi as [? ? Hl Hr ? ?]. unfold ssn_client_unref. rewrite Hl.
  assert (0 < cl_ref c) by (destruct (cl_valid c); lia).
  destruct (Z.gtb_spec (cl_ref c) 0); [|lia].
  assert (client_inv k (cl_set_ref c (cl_ref c - 1))) as Hi'.
  { destruct Hi as [? ? ? Hr' ? ?]. split; try done. cbn. destruct (cl_valid c); lia. }
  destruct ((_ =? 0) && _) eqn:Hz; [|eexists _, _; split; [done|by left]].
  apply andb_prop in Hz as [_ Hv%negb_true_iff].
  set (c1 := cl_set_subs (cl_set_connected _ false) []).
  assert (client_inv k c1) as Hi1 by (apply inv_set_subs, inv_disconnected; done).
  destruct (destroy_transport_inv k c1 w Hi1 eq_refl) as (Hi2 & Ht2 & Hp2 & Hc2 & _ & Hv2).
  destruct (destroy_transport c1 w) as [c2 w2]. cbn in Hi2, Ht2, Hp2, Hc2, Hv2.
  unfold ssn_client_collect_and_call_pending.
  destruct (live_collect false (pend c2) (ci_pend k c2 Hi2)) as (t & -> & Htt & Hlive & _).
  destruct (items_invalid user (S d) (filter (fun p => due false p = true) (live (pend c2))) (cl_set_pend c2 t)
    (ipc_event_pair_destroy (cl_evt c2) w2)) as (c3 & -> & Hu3).
  { cbn. rewrite Hv2. exact Hv. } { apply (ci_live k c2 Hi2). }
  eexists _, _. split; [done|]. right. destruct Hu3 as (_ & Hp3 & Ht3 & _ & _ & _ & Hv3).
  split; [done|]. split; [cbn; apply Hv3; cbn; by rewrite Hv2|]. split; [cbn; by rewrite Ht3|].
  cbn. rewrite Hp3. cbn. rewrite Hlive. clear. induction (live (pend c2)) as [|p l IH]; [done|].
  rewrite filter_cons. by destruct (decide (due false p = false)).
Qed.
End events.
