(* ===== verification/ClientTheorems.v ===== *)
(** * Client: theorems

    The handshake, connecting, totality of every operation that is called from
    outside a callback, and the reachable states of a client. *)
From S2P Require Import Prelude FrameCodec ErrorCode Os Transport Address FrameSend EventPair Server ServerTable ServerProps ClientPending Client ClientProps.

(** ** The handshake *)

Section handshake.
Context {W : Type} `{OsLaws W}.
Implicit Types (c : ssn_client) (w : W).

(** The write loop of the handshake ends; it answers true exactly when all bytes
    are on the connection. *)
Lemma client_send_spec fuel t buffer total w :
  0 <= total < zlen buffer -> zlen buffer < 2 ^ 31 -> zlen buffer - total <= Z.of_nat fuel ->
  exists ok t' w', ssn_client_send fuel t buffer total w = Some (ok, t', w') /\ config t' = config t /\
    (forall x, x <> sock_fd (impl t) -> os_tx w' x = os_tx w x) /\
    (ok = true -> sock_fd (impl t') = sock_fd (impl t) /\ os_open w' = os_open w /\
       os_tx w' (sock_fd (impl t)) = os_tx w (sock_fd (impl t)) ++ zdrop total buffer) /\
    (ok = false -> sock_fd (impl t') < 0 /\ os_open w' = os_open w ∖ owned t).
Proof.
  revert t total w. induction fuel as [|fuel IH]; intros t total w Ht Hb Hf; [lia|]. cbn [ssn_client_send].
  assert (zlen (zdrop total buffer) = zlen buffer - total) as Hz by (apply zlen_zdrop; lia).
  pose proof (send_spec t (zdrop total buffer) w ltac:(lia)) as Hs.
  destruct (ssn_transport_send t (zdrop total buffer) w) as [[n t1] w1].
  destruct Hs as (Hfd & Hv & Hops & Hcfg & Ho & Hn & Htx & Hx). rewrite Hz in Hn.
  destruct (Z.gtb_spec n 0) as [Hpos|Hneg].
  - destruct (Z.ltb_spec (total + n) (zlen buffer)) as [Hlt|Hge].
    + destruct (IH t1 (total + n) w1) as (ok & t' & w' & -> & Hc' & Hx' & Hok & Hno); [lia..|].
      exists ok, t', w'. split; [done|]. split; [congruence|]. rewrite Hfd in *. split; [|split].
      * intros x Hne. by rewrite Hx', Hx.
      * intros E. destruct (Hok E) as (? & ? & E'). split; [congruence|]. split; [congruence|].
        rewrite E', Htx, <- app_assoc. f_equal. rewrite <- zdrop_zdrop by lia. apply ztake_zdrop.
      * intros E. destruct (Hno E) as [? E']. split; [done|]. rewrite E', Ho. unfold owned. by rewrite Hfd.
    + exists (total + n =? zlen buffer), t1, w1. assert (total + n = zlen buffer) as Heq by lia.
      rewrite Heq, Z.eqb_refl. split; [done|]. split; [done|]. split; [done|]. split; [|done].
      intros _. split; [done|]. split; [done|]. rewrite Htx, ztake_ge by lia. done.
  - pose proof (disconnect_config t1 w1) as Hd. pose proof (disconnect_spec t1 w1) as Hds.
    destruct (ssn_transport_disconnect t1 w1) as [[b t2] w2]. cbn in Hd. destruct Hds as (_ & Hneg2 & Ho2 & Htx2).
    exists (total =? zlen buffer), t2, w2. destruct (Z.eqb_spec total (zlen buffer)); [lia|].
    split; [done|]. split; [congruence|]. split; [intros x Hne; by rewrite Htx2, Hx|]. split; [done|].
    intros _. split; [done|]. rewrite Ho2, Ho. unfold owned. by rewrite Hfd.
Qed.

(** Receiving keeps descriptors and settings. *)
Lemma recv_keeps t size ms w :
  let '(_, _, t', w') := ssn_transport_recv t size ms w in
  config t' = config t /\ sock_fd (impl t') = sock_fd (impl t) /\ os_quiet os_open os_tx w w'.
Proof.
  pose proof (recv_config t size ms w) as Hc. destruct (ssn_transport_recv t size ms w) as [[[n b] t'] w'] eqn:E.
  cbn in Hc. split; [done|]. unfold ssn_transport_recv, unix_transport_recv, tcp_transport_recv,
    udp_transport_recv, stream_recv in E.
  assert (forall n0 b0 w0, os_quiet os_open os_tx w w0 -> finish_recv t n0 b0 w0 = (n, b, t', w') ->
    sock_fd (impl t') = sock_fd (impl t) /\ os_quiet os_open os_tx w w') as Hfin.
  { intros n0 b0 w0 Hq. unfold finish_recv, touch. destruct (n0 <? 0).
    - destruct (_ && _); intros ?; by simplify_eq.
    - destruct (n0 >? 0); [|intros ?; by simplify_eq].
      pose proof (os_time_quiet w0) as Hq2. destruct (os_time w0) as [now w2]. intros ?; simplify_eq.
      split; [done|]. by eapply os_quiet_trans. }
  destruct (ops t); (destruct (usable t); cbn [negb] in E; [|by simplify_eq]).
  1,2: pose proof (setsockopt_if_quiet (ms >? 0) (sock_fd (impl t)) (SO_RCVTIMEO ms) w) as Hq1;
    set (w0 := setsockopt_if _ _ _ w) in *; pose proof (os_recv_quiet (sock_fd (impl t)) size w0) as Hq2;
    destruct (os_recv _ _ w0) as [[n0 b0] w1]; eapply Hfin; [|exact E]; by eapply os_quiet_trans.
  pose proof (setsockopt_if_quiet (ms >? 0) (sock_fd (impl t)) (SO_RCVTIMEO ms) w) as Hq1.
  set (w0 := setsockopt_if _ _ _ w) in *. pose proof (os_recvfrom_quiet (sock_fd (impl t)) size w0) as Hq2.
  destruct (os_recvfrom _ _ w0) as [[n0 b0] w1]. eapply Hfin; [|exact E]. by eapply os_quiet_trans.
Qed.

Lemma handshake_spec k n c t w :
  client_inv k c ->
  exists ok c' t' w', handshake_loop n c t w = Some (ok, c', t', w') /\ client_inv k c' /\
    config t' = config t /\ sock_fd (impl t') = sock_fd (impl t) /\ os_quiet os_open os_tx w w' /\
    cl_valid c' = cl_valid c /\ cl_transport c' = cl_transport c /\ connected c' = connected c /\
    pend c' = pend c /\ fired c' = fired c.
Proof.
  revert c t w. induction n as [|n IH]; intros c t w Hi; cbn [handshake_loop].
  { eexists _, _, _, _. by split_and!. }
  pose proof (recv_keeps t SSN_MAX_PACKET_SIZE 5000 w) as Hr.
  destruct (ssn_transport_recv t SSN_MAX_PACKET_SIZE 5000 w) as [[[num b] t1] w1].
  destruct Hr as (Hc1 & Hfd1 & Hq1).
  assert (forall num0 c0, client_inv k c0 -> cl_valid c0 = cl_valid c -> cl_transport c0 = cl_transport c ->
    connected c0 = connected c -> pend c0 = pend c -> fired c0 = fired c ->
    exists ok c' t' w',
    (if num0 =? 0 then Some (false, c0, t1, w1)
     else if (num0 <? 0) && negb (os_errno w1 =? EAGAIN) && negb (os_errno w1 =? EWOULDBLOCK)
     then Some (false, c0, t1, w1) else handshake_loop n c0 t1 w1) = Some (ok, c', t', w') /\ client_inv k c' /\
    config t' = config t /\ sock_fd (impl t') = sock_fd (impl t) /\ os_quiet os_open os_tx w w' /\
    cl_valid c' = cl_valid c /\ cl_transport c' = cl_transport c /\ connected c' = connected c /\
    pend c' = pend c /\ fired c' = fired c) as Hretry.
  { intros num0 c0 Hi0 ? ? ? ? ?. destruct (num0 =? 0); [eexists _, _, _, _; by split_and!|].
    destruct (_ && _ && _); [eexists _, _, _, _; by split_and!|].
    destruct (IH c0 t1 w1 Hi0) as (ok & c' & t' & w' & -> & ? & ? & ? & ? & ? & ? & ? & ? & ?).
    eexists _, _, _, _. split; [done|]. split; [done|]. split; [congruence|]. split; [congruence|].
    split; [by eapply os_quiet_trans|]. split_and!; congruence. }
  destruct (num >? 0); [|by apply Hretry].
  destruct (feed_invariant ssn_client_conn_input (fun _ => True)) with (recv := cl_recv c) (buf := ztake num b)
    (st := mk_conn 0 (cid_valid c) (cid c)) as (ok & recv' & a & -> & Hr' & _); [done|apply (ci_recv k c Hi)|done|].
  assert (client_inv k (cl_set_cid (cl_set_recv c recv') (conn_cid_valid a) (conn_cid a))) as Hi1.
  { apply inv_set_cid. by apply inv_set_recv. }
  destruct ok; cbn [negb]; [|by apply Hretry]. destruct (packet_cnt a >? 0); [|by apply Hretry].
  eexists _, _, _, _. by split_and!.
Qed.
End handshake.

(** ** Connecting *)

Section connecting.
Context {W : Type} `{OsLaws W}.
Context (user : client_event -> ssn_client -> W -> list client_call).
Context (d : nat) (g : factory).
Implicit Types (c : ssn_client) (w : W).
Local Abbreviation fire := (fire_at user (S (S d))).

Lemma parse_quiet s w : os_quiet os_open os_tx w (ssn_address_parse s w).2.
Proof.
  assert (forall ty rest, os_quiet os_open os_tx w (parse_inet ty rest w).2) as Hin.
  { intros ty rest. unfold parse_inet. destruct (split_first _ rest) as [[host port]|]; [|done].
    destruct (_ >=? 256); [done|]. destruct (negb _); [done|].
    destruct (os_inet_pton _ _) as [ip|]; [by destruct (_ >=? _)|].
    pose proof (os_gethostbyname_quiet host w) as Hq. destruct (os_gethostbyname host w) as [[ip|] w1]; [|done].
    by destruct (_ >=? _). }
  unfold ssn_address_parse. destruct (split_first _ s) as [[proto rest]|]; [|done].
  repeat (case_match; try done; try apply Hin).
Qed.

(** The descriptors a client owns besides its event pair. *)
Definition client_owned c : gset Z :=
  match cl_transport c with Some t => owned t | None => ∅ end.

Lemma destroy_transport_os c w :
  os_open (destroy_transport c w).2 = os_open w ∖ client_owned c /\
  (forall x, os_tx (destroy_transport c w).2 x = os_tx w x).
Proof.
  unfold destroy_transport, client_owned. destruct (cl_transport c) as [t|]; cbn; [apply destroy_spec|].
  split; [set_solver|done].
Qed.

(** Giving the reference back: on a valid client nothing else happens. *)
Lemma unref_out c w :
  client_inv 1 c ->
  exists c' w', ssn_client_unref fire c w = Some (c', w') /\ (client_inv 0 c' \/ client_released c') /\
    (cl_valid c' = true -> c' = cl_set_ref c (cl_ref c - 1) /\ w' = w).
Proof.
  intros Hi. destruct (cl_valid c) eqn:Hv.
  - destruct (unref_keep fire 0 c w (or_intror (conj (Z.le_refl 0) Hv)) Hi) as [-> ?].
    eexists _, _. split; [done|]. split; [by left|done].
  - destruct (client_unref_total user d 0 c w ltac:(lia) Hi) as (c' & w' & E & Hout).
    exists c', w'. split; [done|]. split; [done|]. intros Hv'. exfalso.
    destruct Hout as [Hi'|(_ & ? & _)]; [|congruence].
    unfold ssn_client_unref in E. rewrite (ci_live 1 c Hi) in E.
    destruct (_ >? 0); [|simplify_eq; congruence]. cbn [cl_valid cl_set_ref] in E. rewrite Hv in E.
    destruct (_ && _); [|simplify_eq; cbn in Hv'; congruence].
    destruct (destroy_transport _ w) as [c1 w1].
    destruct (ssn_client_collect_and_call_pending _ _ _ _) as [[c2 w2]|]; [|done]. simplify_eq.
    pose proof (ci_live 0 _ Hi') as Hl. done.
Qed.

Definition HELLO : bytes := bytes_of_header (ssn_create_header SSN_MSG_TYPE_SERVICE_INFO 0 0).

(** What a connection attempt leaves behind. *)
Definition connect_post c w (b : bool) c' w' : Prop :=
  if b
  then connected c' = true /\ exists t, cl_transport c' = Some t /\ 0 <= sock_fd (impl t) /\
    (sock_fd (impl t) ∉ os_open w ∖ client_owned c) /\
    os_open w' = {[sock_fd (impl t)]} ∪ (os_open w ∖ client_owned c) /\
    os_tx w' (sock_fd (impl t)) = os_tx w (sock_fd (impl t)) ++ HELLO
  else connected c' = false /\ cl_transport c' = None /\ os_open w' = os_open w ∖ client_owned c.

Lemma owned_alt t fd : sock_fd (impl t) = fd -> 0 <= fd -> owned t = {[fd]}.
Proof. intros E Hfd. unfold owned. rewrite E. destruct (Z.geb_spec fd 0); [done|lia]. Qed.
Lemma owned_none t : sock_fd (impl t) < 0 -> owned t = ∅.
Proof. intros Hfd. unfold owned. destruct (Z.geb_spec (sock_fd (impl t)) 0); [lia|done]. Qed.

(** What the attempt leaves of the client: all but the receive state and the id. *)
Definition same_but_input c c' : Prop :=
  cl_valid c' = cl_valid c /\ cl_transport c' = cl_transport c /\ connected c' = connected c /\
  pend c' = pend c /\ fired c' = fired c.

Definition open_post w (r : option ssn_transport_t) w' : Prop :=
  match r with
  | None => os_open w' = os_open w
  | Some t => cfg_ok t /\ 0 <= sock_fd (impl t) /\ (sock_fd (impl t) ∉ os_open w) /\
      os_open w' = {[sock_fd (impl t)]} ∪ os_open w /\
      os_tx w' (sock_fd (impl t)) = os_tx w (sock_fd (impl t)) ++ HELLO
  end.

Lemma open_connection_spec k c path ms w :
  client_inv k c ->
  exists r c' w', open_connection g c path ms w = Some (r, c', w') /\ client_inv k c' /\
    same_but_input c c' /\ open_post w r w'.
Proof.
  intros Hi. unfold open_connection.
  assert (forall w3, os_open w3 = os_open w -> exists r c' w', Some (@None ssn_transport_t, c, w3) = Some (r, c', w') /\
    client_inv k c' /\ same_but_input c c' /\ open_post w r w') as Hfail.
  { intros w3 Ho. by exists None, c, w3. }
  pose proof (parse_quiet path w) as [Hop Htxp].
  destruct (ssn_address_parse path w) as [[addr|] w2]; cbn [snd] in *; [|by apply Hfail].
  pose proof (create_post_ok g (addr_type addr) (Some (client_config c (addr_type addr) ms)) w2) as Hcr.
  destruct (ssn_transport_create g _ _ w2) as [[t|] w3] eqn:Ec;
    [|destruct Hcr as [? ?]; apply Hfail; congruence].
  apply create_config in Ec. cbn [default] in Ec. destruct Hcr as ((Hfd3 & Hnew3 & Ho3 & Htx3) & Hown3).
  pose proof (connect_config t addr ms w3) as Hcc. pose proof (connect_spec t addr ms w3) as Hcs.
  destruct (ssn_transport_connect t addr ms w3) as [[ok t4] w4]. cbn [fst snd] in Hcc.
  assert (os_open w3 ∖ owned t = os_open w) as Hb3.
  { rewrite (owned_alt t (sock_fd (impl t)) eq_refl Hfd3), Ho3, Hop. rewrite Hop in Hnew3. set_solver. }
  rewrite Hb3 in Hcs. destruct Hcs as [Htx4 Hcs]. destruct ok; cbn [negb].
  2:{ destruct Hcs as [Hneg Ho4]. destruct (destroy_spec t4 w4) as [Hod _].
      apply Hfail. rewrite Hod, Ho4, owned_none by done. set_solver. }
  destruct Hcs as (Hfd4 & Hnew4 & Ho4). cbv zeta. fold HELLO.
  destruct (client_send_spec (S (length HELLO)) t4 HELLO 0 w4) as (ok & t5 & w5 & -> & Hc5 & _ & Hok5 & Hno5);
    [done|done|unfold zlen; lia|].
  destruct ok.
  2:{ destruct (Hno5 eq_refl) as [Hneg Ho5]. destruct (destroy_spec t5 w5) as [Hod _].
      apply Hfail. rewrite Hod, Ho5, Ho4, (owned_none t5), (owned_alt t4 _ eq_refl Hfd4) by done. set_solver. }
  destruct (Hok5 eq_refl) as (Hfd5 & Ho5 & Htx5). rewrite zdrop_0 in Htx5.
  destruct (handshake_spec k (Z.to_nat (max_retries ms)) c t5 w5 Hi)
    as (ok & c6 & t6 & w6 & -> & Hi6 & Hc6 & Hfd6 & [Ho6 Htx6] & Hsame).
  destruct ok; eexists _, c6, _; (split; [done|split; [done|split; [exact Hsame|]]]); cbn [open_post].
  - split; [unfold cfg_ok; rewrite Hc6, Hc5, Hcc, Ec; apply (ci_cfg k c Hi)|].
    rewrite Hfd6, Hfd5. split; [done|]. split; [done|]. split; [by rewrite Ho6, Ho5, Ho4|].
    by rewrite Htx6, Htx5, Htx4, Htx3, Htxp.
  - destruct (destroy_spec t6 w6) as [Hod _].
    rewrite Hod, Ho6, Ho5, Ho4, (owned_alt t6 (sock_fd (impl t4))) by congruence. set_solver.
Qed.

(** The old connection is given up first: its requests fail, once each. *)
Lemma connect_reset k c w :
  0 <= k -> client_inv k c ->
  let '(c1, w1) := destroy_transport (cl_set_connected (ssn_client_ref c) false) w in
  exists c2, ssn_client_timeout_all fire c1 w1 = Some (c2, w1) /\ client_inv (k + 1) c2 /\ connected c2 = false /\
    cl_transport c2 = None /\ live (pend c2) = [] /\ fired c2 = fired c ++ omap failure_event (live (pend c)) /\
    os_open w1 = os_open w ∖ client_owned c /\ forall x, os_tx w1 x = os_tx w x.
Proof.
  intros Hk Hi. pose proof (inv_disconnected _ _ (inv_ref k c Hi)) as Hi0.
  destruct (destroy_transport_inv (k + 1) _ w Hi0 eq_refl) as (Hi1 & Ht1 & Hp1 & Hn1 & _).
  destruct (destroy_transport_os (cl_set_connected (ssn_client_ref c) false) w) as [Ho1 Htx1].
  assert (fired (destroy_transport (cl_set_connected (ssn_client_ref c) false) w).1 = fired c) as Hf1.
  { unfold destroy_transport. cbn. by destruct (cl_transport c). }
  destruct (destroy_transport _ w) as [c1 w1]. cbn [fst snd] in *.
  destruct (timeout_all_disconnected user (S d) (k + 1) c1 w1 ltac:(lia) Hi1 Hn1)
    as (c2 & E & Hi2 & Hn2 & Ht2 & _ & Hlive2 & Hf2).
  exists c2. rewrite Hp1, Hf1 in Hf2. split_and!; try done. congruence.
Qed.

Lemma client_connect_spec c path timeout w :
  client_inv 0 c -> cl_valid c = true ->
  exists b c' w', ssn_client_connect fire g c path timeout w = Some (b, c', w') /\
    (client_inv 0 c' \/ client_released c') /\
    (cl_valid c' = true -> connect_post c w b c' w' /\ live (pend c') = [] /\
       fired c' = fired c ++ omap failure_event (live (pend c))).
Proof.
  intros Hi Hv. unfold ssn_client_connect. rewrite Hv. cbn [negb].
  pose proof (connect_reset 0 c w (Z.le_refl 0) Hi) as Hreset. destruct (destroy_transport _ w) as [c1 w1].
  destruct Hreset as (c2 & -> & Hi2 & Hn2 & Ht2 & Hl2 & Hf2 & Ho1 & Htx1).
  destruct (default (3, 0) timeout) as [sec nsec]. set (ms := i32 _).
  destruct (open_connection_spec 1 c2 path ms w1 Hi2) as (r & c3 & w3 & -> & Hi3 & (Hv3 & Ht3 & Hn3 & Hp3 & Hf3) & Hpost).
  destruct r as [t|]; cbn [open_post] in Hpost.
  - destruct Hpost as (Hcfg & Hfd & Hnew & Ho3 & Htx3). unfold destroy_transport. rewrite Ht3, Ht2.
    set (c4 := cl_set_connected (cl_set_transport c3 (Some t)) true).
    assert (client_inv 1 c4) as Hi4 by (by destruct Hi3 as [? ? ? ? ? [_ Hst]]; split).
    destruct (unref_out c4 w3 Hi4) as (c' & w' & -> & Hout & Hk).
    exists true, c', w'. split; [done|]. split; [done|]. intros Hv'. destruct (Hk Hv') as [-> ->].
    split; [|cbn; by rewrite Hp3, Hf3]. split; [done|]. exists t. split; [done|]. split; [done|].
    split; [by rewrite <- Ho1|]. split; [by rewrite Ho3, Ho1|]. by rewrite Htx3, Htx1.
  - destruct (unref_out c3 w3 Hi3) as (c' & w' & -> & Hout & Hk).
    exists false, c', w'. split; [done|]. split; [done|]. intros Hv'. destruct (Hk Hv') as [-> ->].
    split; [|cbn; by rewrite Hp3, Hf3]. split; [cbn; congruence|]. split; [cbn; congruence|congruence].
Qed.

(** Under a reference of the caller the client stays. *)
Lemma connect_held k c path timeout w :
  1 <= k -> client_inv k c ->
  exists b c' w', ssn_client_connect fire g c path timeout w = Some (b, c', w') /\ client_inv k c' /\
    (b = true -> connected c' = true).
Proof.
  intros Hk Hi. unfold ssn_client_connect. destruct (cl_valid c); cbn [negb]; [|by exists false, c, w].
  pose proof (connect_reset k c w ltac:(lia) Hi) as Hreset. destruct (destroy_transport _ w) as [c1 w1].
  destruct Hreset as (c2 & -> & Hi2 & _ & Ht2 & _). destruct (default (3, 0) timeout) as [sec nsec].
  destruct (open_connection_spec (k + 1) c2 path (i32 (sec * 1000 + nsec / 1000000)) w1 Hi2)
    as (r & c3 & w3 & -> & Hi3 & (_ & Ht3 & _) & Hpost).
  destruct r as [t|]; cbn [open_post] in Hpost.
  - unfold destroy_transport. rewrite Ht3, Ht2. set (c4 := cl_set_connected (cl_set_transport c3 (Some t)) true).
    assert (client_inv (k + 1) c4) as Hi4 by (destruct Hpost as [? _]; by destruct Hi3 as [? ? ? ? ? [_ Hst]]; split).
    destruct (unref_keep fire k c4 w3 (or_introl Hk) Hi4) as [-> ?]. by eexists _, _, _.
  - destruct (unref_keep fire k c3 w3 (or_introl Hk) Hi3) as [-> ?]. by eexists _, _, _.
Qed.
End connecting.

(** ** Top-level operations *)

Section toplevel.
Context {W : Type} `{OsLaws W}.
Context (user : client_event -> ssn_client -> W -> list client_call).
Hypothesis user_ok : forall e c w, Forall ccall_ok (user e c w).
Context (d : nat) (g : factory).
Implicit Types (c : ssn_client) (w : W).
Local Abbreviation fire := (fire_at user (S (S d))).

(** The operation is defined; the client is consistent or fully released. *)
Definition ctotal (r : option (ssn_client * W)) : Prop :=
  exists c' w', r = Some (c', w') /\ (client_inv 0 c' \/ client_released c').

Lemma keep_total c w : client_inv 0 c -> ctotal (Some (c, w)).
Proof. intros. exists c, w. auto. Qed.

Lemma close_total c w : client_inv 0 c -> ctotal (ssn_client_close fire c w).
Proof.
  intros Hi. unfold ssn_client_close. destruct (cl_valid c) eqn:Hv; cbn [negb]; [|by apply keep_total].
  apply (client_unref_total user d 0); [lia|]. destruct Hi as [? ? ? Hr ? ?]. rewrite Hv in Hr.
  by split.
Qed.

Lemma disconnect_total c w :
  client_inv 0 c ->
  ctotal (match ssn_client_disconnect fire c w with Some (_, c, w) => Some (c, w) | None => None end).
Proof.
  intros Hi. unfold ssn_client_disconnect. destruct (_ || _); [by apply keep_total|].
  set (p := match cl_transport _ with Some _ => _ | None => _ end).
  assert (client_inv 1 p.1 /\ connected p.1 = false) as [Hi1 Hn1].
  { pose proof (inv_disconnected _ _ (inv_ref 0 c Hi)) as Hi0. pose proof (ci_cfg _ _ Hi0) as [Hcfg _].
    subst p. cbn [cl_transport cl_set_connected cl_set_flags ssn_client_ref cl_set_ref] in *.
    destruct (cl_transport c) as [t|]; [|done].
    pose proof (disconnect_config t w) as Hd. destruct (ssn_transport_disconnect t w) as [[b t2] w2].
    cbn in Hd. split; [|done]. apply inv_set_transport; [done|]. unfold cfg_ok in *. congruence. }
  destruct p as [c1 w1]. cbn in Hi1, Hn1.
  destruct (timeout_all_disconnected user (S d) 1 c1 w1 ltac:(lia) Hi1 Hn1) as (c2 & -> & Hi2 & _).
  destruct (client_unref_total user d 0 c2 w1 ltac:(lia) Hi2) as (c3 & w3 & -> & ?). by exists c3, w3.
Qed.

Lemma api_total q c w :
  client_inv 0 c -> ccall_ok q -> ctotal (run_client_call fire q c w).
Proof.
  intros Hi Hq. pose proof (keep_total c w Hi) as Hkeep.
  destruct (cl_valid c) eqn:Hv.
  2:{ pose proof (invalid_calls fire [q] c w Hv (ci_live 0 c Hi)) as Hinv. cbn [run_client_calls] in Hinv.
      destruct (run_client_call fire q c w) as [[c' w']|]; [|done]. by simplify_eq. }
  unfold run_client_call. rewrite (ci_live 0 c Hi).
  assert (held 0 c) as Hheld by (right; done).
  assert (forall c1 w1, client_inv 1 c1 -> cl_valid c1 = true -> ctotal (ssn_client_unref fire c1 w1)) as Hun.
  { intros c1 w1 Hi1 Hv1. destruct (unref_keep fire 0 c1 w1 (or_intror (conj (Z.le_refl 0) Hv1)) Hi1) as [-> ?].
    eexists _, _. split; [done|]. by left. }
  assert (forall ty url data ft cb arg ms c1 w1, client_inv 0 c1 -> cl_valid c1 = true -> connected c1 = true ->
    refs_ok url data -> exists r sq c' w',
    send_request fire c1 ty url data ft cb arg ms w1 = Some (r, sq, c', w') /\ client_inv 0 c') as Hreq.
  { intros ty url data ft cb arg ms c1 w1 Hi1 Hv1 Hc1 Hr.
    destruct (send_request_good fire 0 c1 ty url data ft cb arg ms w1) as (r & sq & c' & w' & E & ? & _);
      try done; [by right|]. by exists r, sq, c', w'. }
  destruct q; unfold ssn_client_subscribe, ssn_client_unsubscribe, ssn_client_call, ssn_client_call_ex,
    ssn_client_message, ssn_client_set_on_message, ssn_client_set_on_publish,
    ssn_client_request, ssn_client_request_ex; cbn [cl_valid connected cl_set_subs];
    rewrite ?Hv; cbn [negb orb]; cbn in Hq;
    [destruct (connected c) eqn:Hc; cbn [negb orb] in *; [|try done; by destruct (checked_url url)]..| | | |].
  - destruct (checked_url url) as [u|]; [|done].
    destruct (os_calloc w) as [[] w1]; cbn [negb]; [|by apply keep_total].
    edestruct Hreq as (r & sq & c' & w' & -> & ?); [apply inv_set_subs; exact Hi|done..|by apply keep_total].
  - destruct (checked_url url) as [u|]; [|done].
    edestruct Hreq as (r & sq & c' & w' & -> & ?); [apply inv_set_subs; exact Hi|done..|by apply keep_total].
  - destruct (checked_url url); [|done].
    edestruct Hreq as (r & sq & c' & w' & -> & ?); [exact Hi|done..|by apply keep_total].
  - destruct (checked_url url); [|done]. destruct data as [dd|]; [|done].
    destruct (client_sendmsg_good 1 (ssn_client_ref c) (ssn_create_header SSN_MSG_TYPE_MESSAGE 0 0)
      url (Some dd) w (inv_ref 0 c Hi) Hc Hq) as (r & t & w1 & -> & Hi1).
    destruct (Hun _ w1 Hi1 Hv) as (c' & w' & -> & ?). by exists c', w'.
  - apply Hun; [|done]. apply inv_set_handlers. by apply (inv_ref 0).
  - apply Hun; [|done]. apply inv_set_handlers. by apply (inv_ref 0).
  - by apply disconnect_total.
  - by apply close_total.
Qed.

Lemma client_poll_total c ms w fds maxfd :
  client_inv 0 c -> ssn_client_fds c = Some (fds, maxfd) ->
  exists r c' w', ssn_client_poll fire c ms w = Some (r, c', w') /\ r <= 0 /\
    (client_inv 0 c' \/ client_released c').
Proof.
  intros Hi Hfds. unfold ssn_client_poll. rewrite (ci_live 0 c Hi).
  destruct (cl_valid c) eqn:Hv; cbn [negb].
  2:{ eexists _, _, _. split; [done|]. split; [lia|by left]. }
  change (ssn_client_fds (ssn_client_ref c)) with (ssn_client_fds c). rewrite Hfds.
  destruct (os_pselect fds (Some ms) w) as [[cnt ready] w1]. pose proof (inv_ref 0 c Hi) as Hi1.
  destruct (Z.gtb_spec cnt 0).
  - destruct (process_events_good user user_ok d 1 (ssn_client_ref c) ready w1 ltac:(lia) Hi1)
      as (ok & c2 & w2 & -> & Hi2).
    set (p := if ok then (c2, w2) else _).
    assert (client_inv 1 p.1) as Hi3.
    { subst p. destruct ok; [done|]. apply destroy_transport_inv; [by apply inv_disconnected|done]. }
    destruct p as [c3 w3]. cbn in Hi3.
    destruct (client_unref_total user d 0 c3 w3 ltac:(lia) Hi3) as (c4 & w4 & -> & ?).
    eexists _, _, _. split; [done|]. split; [lia|done].
  - destruct (client_unref_total user d 0 (ssn_client_ref c) w1 ltac:(lia) Hi1) as (c4 & w4 & -> & ?).
    eexists _, _, _. split; [done|]. split; [lia|done].
Qed.

Lemma client_poll_held k c ms w fds maxfd :
  1 <= k -> client_inv k c -> ssn_client_fds c = Some (fds, maxfd) ->
  exists r c' w', ssn_client_poll fire c ms w = Some (r, c', w') /\ r <= 0 /\ client_inv k c'.
Proof.
  intros Hk Hi Hfds. unfold ssn_client_poll. rewrite (ci_live k c Hi).
  destruct (cl_valid c) eqn:Hv; cbn [negb]; [|eexists _, _, _; split; [done|]; by split; [lia|]].
  change (ssn_client_fds (ssn_client_ref c)) with (ssn_client_fds c). rewrite Hfds.
  destruct (os_pselect fds (Some ms) w) as [[cnt ready] w1]. pose proof (inv_ref k c Hi) as Hi1.
  destruct (Z.gtb_spec cnt 0).
  - destruct (process_events_good user user_ok d (k + 1) (ssn_client_ref c) ready w1 ltac:(lia) Hi1)
      as (ok & c2 & w2 & -> & Hi2).
    set (p := if ok then (c2, w2) else _).
    assert (client_inv (k + 1) p.1) as Hi3.
    { subst p. destruct ok; [done|]. apply destroy_transport_inv; [by apply inv_disconnected|done]. }
    destruct p as [c3 w3]. cbn in Hi3. destruct (unref_keep fire k c3 w3 (or_introl Hk) Hi3) as [-> ?].
    eexists _, _, _. split; [done|]. by split; [lia|].
  - destruct (unref_keep fire k (ssn_client_ref c) w1 (or_introl Hk) Hi1) as [-> ?].
    eexists _, _, _. split; [done|]. by split; [lia|].
Qed.

Lemma client_tick_inv k c : client_inv k c -> client_inv k (ssn_client_timer_tick c).
Proof.
  intros Hi. unfold ssn_client_timer_tick.
  destruct (timer_slots_spec (Z.to_nat SSN_CLIENT_MAX_PENDING) 0 (pend c) false (ci_pend k c Hi))
    as (t & -> & Ht & _); [done|done|].
  destruct (_ || _); [apply inv_set_evt|]; by apply inv_set_pend.
Qed.

Lemma send_timeout_total c ms w :
  client_inv 0 c -> ms < 2 ^ 31 ->
  ctotal (match ssn_client_send_timeout fire g c ms w with Some (_, c, w) => Some (c, w) | None => None end).
Proof.
  intros Hi Hms. unfold ssn_client_send_timeout. destruct (cl_valid c) eqn:Hv; cbn [negb]; [|by apply keep_total].
  set (ms' := if ms >? 0 then ms else SSN_DEF_SEND_TIMEOUT).
  assert (ms' < 2 ^ 31) as Hms' by (subst ms'; destruct (ms >? 0); done || lia).
  set (c1 := cl_set_send_timeout (ssn_client_ref c) ms').
  assert (client_inv 1 c1) as Hi1.
  { destruct (inv_ref 0 c Hi) as [? ? ? ? ? [? _]]. by split. }
  assert (forall c2 w2, client_inv 1 c2 -> cl_valid c2 = true -> ctotal
    (match (match ssn_client_unref fire c2 w2 with Some (c, w) => Some (true, c, w) | None => None end) with
     | Some (_, c, w) => Some (c, w) | None => None end)) as Hdone.
  { intros c2 w2 Hi2 Hv2.
    destruct (unref_keep fire 0 c2 w2 (or_intror (conj (Z.le_refl 0) Hv2)) Hi2) as [-> ?].
    by apply keep_total. }
  destruct (if connected c1 then cl_transport c1 else None) as [t|] eqn:Et; [|by apply Hdone].
  destruct (ssn_transport_create g (type_ t) _ w) as [[t'|] w1] eqn:Ec; [|by apply Hdone].
  apply create_config in Ec. cbn [default] in Ec.
  match goal with |- context [ssn_transport_connect t' ?a ?m w1] =>
    pose proof (connect_config t' a m w1) as Hcc; destruct (ssn_transport_connect t' a m w1) as [[ok t2] w2] end.
  cbn in Hcc. destruct ok; apply Hdone; try done. apply inv_set_transport; [done|]. unfold cfg_ok.
  by rewrite Hcc, Ec.
Qed.

(** ** Reachable states *)

(** What can happen to a client between creation and release.  A ping polls without
    a reference on the client: it is a step when it is defined. *)
Inductive client_reach : ssn_client -> W -> Prop :=
  | creach_init e w : client_reach (new_client e) w
  | creach_world c w w' : client_reach c w -> client_reach c w'
  | creach_tick c w : client_reach c w -> cl_freed c = false -> client_reach (ssn_client_timer_tick c) w
  | creach_api c w q c' w' : client_reach c w -> ccall_ok q ->
      run_client_call fire q c w = Some (c', w') -> client_reach c' w'
  | creach_connect c w path timeout b c' w' : client_reach c w -> cl_freed c = false ->
      ssn_client_connect fire g c path timeout w = Some (b, c', w') -> client_reach c' w'
  | creach_send_timeout c w ms b c' w' : client_reach c w -> cl_freed c = false -> ms < 2 ^ 31 ->
      ssn_client_send_timeout fire g c ms w = Some (b, c', w') -> client_reach c' w'
  | creach_poll c w ms r c' w' : client_reach c w ->
      ssn_client_poll fire c ms w = Some (r, c', w') -> client_reach c' w'
  | creach_ping c w arg ms b c' w' : client_reach c w -> cl_freed c = false ->
      ssn_client_ping fire c arg ms w = Some (b, c', w') -> client_reach c' w'.

Lemma new_client_inv e : client_inv 0 (new_client e).
Proof.
  split; try done. { apply init_pending_inv. } apply stream_inv_start. vm_compute. discriminate.
Qed.

Lemma poll_keeps c ms w r c' w' :
  client_inv 0 c \/ client_released c -> ssn_client_poll fire c ms w = Some (r, c', w') ->
  client_inv 0 c' \/ client_released c'.
Proof.
  intros [Hi|[Hf _]] Hr; [|unfold ssn_client_poll in Hr; by rewrite Hf in Hr].
  destruct (ssn_client_fds c) as [[fds mf]|] eqn:Hfds.
  - destruct (client_poll_total c ms w fds mf Hi Hfds) as (r2 & c2 & w2 & E & _ & ?). by simplify_eq.
  - unfold ssn_client_poll in Hr. rewrite (ci_live 0 c Hi) in Hr.
    destruct (cl_valid c) eqn:Hv; cbn [negb] in Hr; [|by simplify_eq; left].
    change (ssn_client_fds (ssn_client_ref c)) with (ssn_client_fds c) in Hr. by rewrite Hfds in Hr.
Qed.
Lemma ping_wait_keeps fuel waited ms c w c' w' :
  client_inv 0 c \/ client_released c -> ping_wait fire fuel waited ms c w = Some (c', w') ->
  client_inv 0 c' \/ client_released c'.
Proof.
  revert waited c w. induction fuel as [|fuel IH]; intros waited c w Hc E; cbn [ping_wait] in E.
  - destruct (_ && _); [done|]. by simplify_eq.
  - destruct (_ && _); [|by simplify_eq]. destruct (ssn_client_poll fire c 10 w) as [[[r c1] w1]|] eqn:Ep; [|done].
    eapply IH, E. by eapply poll_keeps.
Qed.
Lemma ping_keeps c arg ms w b c' w' :
  client_inv 0 c -> ssn_client_ping fire c arg ms w = Some (b, c', w') -> client_inv 0 c' \/ client_released c'.
Proof.
  intros Hi. unfold ssn_client_ping. destruct (cl_valid c) eqn:Hv; cbn [negb orb]; [|intros ?; simplify_eq; by left].
  destruct (connected c) eqn:Hc; cbn [negb]; [|intros ?; simplify_eq; by left].
  unfold ssn_client_request_ex. set (c0 := cl_set_history c false (fired c)).
  assert (client_inv 0 c0) as Hi0 by (by apply inv_set_history).
  change (cl_valid c0) with (cl_valid c). change (connected c0) with (connected c). rewrite Hv, Hc. cbn [negb orb].
  destruct (send_request_good fire 0 c0 SSN_MSG_TYPE_PING_ECHO None None SSN_CLIENT_FTYPE_RES PING_REPLY_CB arg
    ms w (or_intror (conj (Z.le_refl 0) Hv)) Hi0 Hc) as (r & sq & c1 & w1 & -> & Hi1 & _); [done|].
  destruct r; [|intros ?; simplify_eq; by left].
  destruct (ping_wait fire _ 0 ms c1 w1) as [[c2 w2]|] eqn:Ew; [|done].
  apply ping_wait_keeps in Ew; [|by left]. destruct (replied c2); [intros ?; by simplify_eq|].
  destruct (cl_freed c2) eqn:Hf; [done|]. destruct Ew as [Hi2|[? _]]; [|congruence]. cbv zeta.
  destruct (Z.eqb_spec (index_of (pend c2) sq) NO_INDEX) as [|Hn]; cbn [negb andb]; [intros ?; simplify_eq; by left|].
  destruct (is_bit_set _ _); intros ?; simplify_eq; left; [|done].
  destruct (pi_map _ (ci_pend 0 c2 Hi2) sq Hn) as (Hr & _).
  apply inv_set_pend; [done|]. apply (free_spec (pend c2) _ (ci_pend 0 c2 Hi2) Hr).
Qed.

Lemma client_reach_inv c w : client_reach c w -> client_inv 0 c \/ client_released c.
Proof.
  induction 1 as [e w|c w w' _ IH|c w _ IH Hl|c w q c' w' _ IH Hq Hr|c w path to b c' w' _ IH Hl Hr
    |c w ms b c' w' _ IH Hl Hms Hr|c w ms r c' w' _ IH Hr|c w arg ms b c' w' _ IH Hl Hr].
  - left. apply new_client_inv.
  - done.
  - destruct IH as [Hi|[Hf _]]; [|congruence]. left. by apply client_tick_inv.
  - destruct IH as [Hi|[Hf _]].
    + destruct (api_total q c w Hi Hq) as (c2 & w2 & E & ?). by simplify_eq.
    + unfold run_client_call in Hr. by rewrite Hf in Hr.
  - destruct IH as [Hi|[Hf _]]; [|congruence]. destruct (cl_valid c) eqn:Hv.
    + destruct (client_connect_spec user d g c path to w Hi Hv) as (b2 & c2 & w2 & E & ? & _). by simplify_eq.
    + unfold ssn_client_connect in Hr. rewrite Hv in Hr. cbn [negb] in Hr. simplify_eq. by left.
  - destruct IH as [Hi|[Hf _]]; [|congruence]. destruct (send_timeout_total c ms w Hi Hms) as (c2 & w2 & E & ?).
    rewrite Hr in E. by simplify_eq.
  - by eapply poll_keeps.
  - destruct IH as [Hi|[Hf _]]; [|congruence]. by eapply ping_keeps.
Qed.
End toplevel.
