(* ===== verification/ClientClaims.v ===== *)
(** * Client: behaviour of requests

    Which callbacks are made for which requests: pairing of replies, failure
    callbacks, timeouts, and an account of every request over a poll.  The
    callbacks here make no API calls themselves, except where said. *)
From S2P Require Import Prelude FrameCodec ErrorCode Os Transport Address FrameSend EventPair Server ServerTable ServerProps ClientPending Client ClientProps ClientTheorems.

(** ** Completions *)

Definition completion (e : client_event) : bool := match e with EvMsg _ _ _ _ => false | _ => true end.

(** The event is the callback of this request. *)
Inductive completes : ssn_pending_request_t -> client_event -> Prop :=
  | completes_rpc p r : pend_ftype p = SSN_CLIENT_FTYPE_RPC ->
      completes p (EvReply (pend_callback p) (pend_arg p) r)
  | completes_res p ok : pend_ftype p = SSN_CLIENT_FTYPE_RES ->
      completes p (EvResult (pend_callback p) (pend_arg p) ok).

(** Between [c] and [c']: the requests that left the table were called back
    once each ([finished]) or dropped without a callback ([lost]); every
    completion belongs to one of them. *)
Definition accounted (c c' : ssn_client) : Prop :=
  exists finished lost es,
    live (pend c) ≡ₚ finished ++ lost ++ live (pend c') /\ fired c' = fired c ++ es /\
    Forall2 completes finished (filter (fun e => completion e = true) es).

#[global] Instance accounted_preorder : PreOrder accounted.
Proof.
  split.
  - intros c. exists [], [], []. by rewrite app_nil_r.
  - intros c1 c2 c3 (f1 & l1 & e1 & Hp1 & Hf1 & H1) (f2 & l2 & e2 & Hp2 & Hf2 & H2).
    exists (f1 ++ f2), (l1 ++ l2), (e1 ++ e2). split; [|split].
    + rewrite Hp1, Hp2. solve_Permutation.
    + by rewrite Hf2, Hf1, app_assoc.
    + rewrite filter_app. by apply Forall2_app.
Qed.

(** Same requests, and no new completion. *)
Lemma accounted_same c c' : pend c' = pend c -> fired c' = fired c -> accounted c c'.
Proof. intros Hp Hf. exists [], [], []. by rewrite Hp, Hf, app_nil_r. Qed.

Lemma failure_completes p e : failure_event p = Some e -> completes p e /\ completion e = true.
Proof.
  unfold failure_event. destruct (_ =? 0); [done|].
  destruct (Z.eqb_spec (pend_ftype p) SSN_CLIENT_FTYPE_RPC); [intros ?; simplify_eq; split; [by constructor|done]|].
  destruct (Z.eqb_spec (pend_ftype p) SSN_CLIENT_FTYPE_RES); [|done].
  intros ?; simplify_eq. split; [by constructor|done].
Qed.

Lemma items_split items :
  exists finished lost, items ≡ₚ finished ++ lost /\
    Forall2 completes finished (filter (fun e => completion e = true) (omap failure_event items)).
Proof.
  induction items as [|p items (f & l & Hp & Hc)]; [exists [], []; by constructor|].
  cbn [omap list_omap]. destruct (failure_event p) as [e|] eqn:E.
  - apply failure_completes in E as [He Hce]. exists (p :: f), l. split; [by rewrite Hp|].
    rewrite filter_cons_True by done. by constructor.
  - exists f, (p :: l). split; [by rewrite Hp, Permutation_middle|done].
Qed.

Lemma filter_split (f : ssn_pending_request_t -> bool) (l : list ssn_pending_request_t) :
  l ≡ₚ filter (fun p => f p = true) l ++ filter (fun p => f p = false) l.
Proof.
  induction l as [|p l IH]; [done|]. rewrite !filter_cons. destruct (f p) eqn:E.
  - destruct (decide (true = true)), (decide (true = false)); try done. cbn. by rewrite <- IH.
  - destruct (decide (false = true)), (decide (false = false)); try done. by rewrite <- Permutation_middle, <- IH.
Qed.

(** ** Callbacks without API calls *)

Section silent.
Context {W : Type} `{OsLaws W}.
Implicit Types (c : ssn_client) (w : W).

Definition silent_user : client_event -> ssn_client -> W -> list client_call := fun _ _ _ => [].
Local Abbreviation fire := (fire_at silent_user 2).

Lemma silent_ok e c w : Forall ccall_ok (silent_user e c w).
Proof. constructor. Qed.

(** Everything but the history is unchanged. *)
Definition history_only c c' : Prop :=
  exists r l, c' = cl_set_history c r l.

Lemma silent_fire e c w :
  exists r, fire e c w = Some (cl_set_history c r (fired c ++ [e]), w).
Proof.
  cbn. destruct e as [cb arg r|cb arg ok|cb arg u dd]; try (by eexists).
  destruct (cb =? PING_REPLY_CB); by eexists.
Qed.

Lemma silent_items items c w :
  exists r, fire_items fire items c w = Some (cl_set_history c r (fired c ++ omap failure_event items), w).
Proof.
  revert c. induction items as [|p items IH]; intros c; cbn [fire_items].
  { exists (replied c). cbn. rewrite app_nil_r. by destruct c. }
  cbn [omap list_omap]. destruct (failure_event p) as [e|]; [|apply IH].
  destruct (silent_fire e c w) as [r ->]. destruct (IH (cl_set_history c r (fired c ++ [e]))) as [r' ->].
  exists r'. cbn. by rewrite <- app_assoc.
Qed.

(** Collection calls back exactly the requests it takes out. *)
Lemma silent_collect only c w :
  pending_inv (pend c) ->
  exists t r, ssn_client_collect_and_call_pending fire c only w
      = Some (cl_set_history (cl_set_pend c t) r
                (fired c ++ omap failure_event (filter (fun p => due only p = true) (live (pend c)))), w) /\
    pending_inv t /\ live t = filter (fun p => due only p = false) (live (pend c)).
Proof.
  intros Hi. unfold ssn_client_collect_and_call_pending.
  destruct (live_collect only (pend c) Hi) as (t & -> & Ht & Hl & _).
  destruct (silent_items (filter (fun p => due only p = true) (live (pend c))) (cl_set_pend c t) w) as [r ->].
  by exists t, r.
Qed.

Lemma collect_accounted only c w c' w' :
  pending_inv (pend c) -> ssn_client_collect_and_call_pending fire c only w = Some (c', w') -> accounted c c'.
Proof.
  intros Hi E. destruct (silent_collect only c w Hi) as (t & r & E' & _ & Hl). rewrite E' in E. simplify_eq.
  destruct (items_split (filter (fun p => due only p = true) (live (pend c)))) as (f & l & Hp & Hc).
  exists f, l, (omap failure_event (filter (fun p => due only p = true) (live (pend c)))).
  split; [|done]. cbn. rewrite Hl, app_assoc, <- Hp. apply filter_split.
Qed.

(** ** Replies *)

(** The callbacks a reply makes for the request it finds. *)
Definition reply_events (pkt : bytes) (p : ssn_pending_request_t) : list client_event :=
  let hdr := header_of_bytes pkt in
  if pend_callback p =? 0 then []
  else if is_response (h_msg_type hdr) then
    if pend_ftype p =? SSN_CLIENT_FTYPE_RES
    then [EvResult (pend_callback p) (pend_arg p) (ssn_get_status hdr =? 0)] else []
  else if h_msg_type hdr =? SSN_MSG_TYPE_RPC_REQUEST then
    if pend_ftype p =? SSN_CLIENT_FTYPE_RPC
    then match ssn_get_data pkt with
         | Some data => [EvReply (pend_callback p) (pend_arg p) (Some (hdr, data))]
         | None => []
         end
    else []
  else [].

Definition is_reply (pkt : bytes) : Prop :=
  h_msg_type (header_of_bytes pkt) <> SSN_MSG_TYPE_PUBLISH /\
  h_msg_type (header_of_bytes pkt) <> SSN_MSG_TYPE_MESSAGE.

(** The reply is of the kind the request expects. *)
Definition of_kind (pkt : bytes) (p : ssn_pending_request_t) : Prop :=
  (is_response (h_msg_type (header_of_bytes pkt)) = true /\ pend_ftype p = SSN_CLIENT_FTYPE_RES) \/
  (h_msg_type (header_of_bytes pkt) = SSN_MSG_TYPE_RPC_REQUEST /\ pend_ftype p = SSN_CLIENT_FTYPE_RPC).
#[global] Instance of_kind_dec pkt p : Decision (of_kind pkt p).
Proof. apply _. Qed.
(** The function and the argument of the callback of a request. *)
Definition event_callback (e : client_event) : Z * Z :=
  match e with EvReply h a _ => (h, a) | EvResult h a _ => (h, a) | EvMsg h a _ _ => (h, a) end.
Lemma reply_kind pkt p :
  delivered pkt ->
  if bool_decide (pend_callback p <> 0 /\ of_kind pkt p)
  then exists e, reply_events pkt p = [e] /\ event_callback e = (pend_callback p, pend_arg p)
  else reply_events pkt p = [].
Proof.
  intros [_ [data Hd]]. unfold reply_events. rewrite Hd. case_bool_decide as Hk; unfold of_kind in Hk;
    (destruct (Z.eqb_spec (pend_callback p) 0); [by intuition idtac|]).
  - destruct Hk as [_ [[-> ->]|[-> ->]]]; cbn; by eexists.
  - destruct (is_response _); [destruct (Z.eqb_spec (pend_ftype p) SSN_CLIENT_FTYPE_RES); [tauto|done]|].
    destruct (Z.eqb_spec (h_msg_type (header_of_bytes pkt)) SSN_MSG_TYPE_RPC_REQUEST); [|done].
    destruct (Z.eqb_spec (pend_ftype p) SSN_CLIENT_FTYPE_RPC); [tauto|done].
Qed.
Lemma input_finds (fire : client_event -> ssn_client -> W -> option (ssn_client * W)) pkt c w p :
  delivered pkt -> is_reply pkt -> get_pending_snapshot (pend c) (ssn_get_seqno (header_of_bytes pkt)) = Some p ->
  ssn_client_input fire pkt c w
  = match (match reply_events pkt p with [e] => fire e c w | _ => Some (c, w) end) with
    | Some (c1, w1) => Some (cl_valid c1, cl_set_pend c1 (free_pending_index (pend c1) (pend_index p)), w1)
    | None => None
    end.
Proof.
  intros [_ [data Hd]] [Hnp Hnm] Hp. unfold ssn_client_input. apply Z.eqb_neq in Hnp, Hnm. cbv zeta. rewrite Hnp, Hnm, Hp.
  unfold reply_events, ssn_client_handle_response, ssn_client_handle_rpc_response. rewrite Hd.
  destruct (pend_callback p =? 0); cbn [negb]; rewrite ?andb_false_r, ?andb_true_r; by repeat case_match; simplify_eq.
Qed.
Lemma input_unknown (fire : client_event -> ssn_client -> W -> option (ssn_client * W)) pkt c w :
  is_reply pkt -> get_pending_snapshot (pend c) (ssn_get_seqno (header_of_bytes pkt)) = None ->
  ssn_client_input fire pkt c w = Some (cl_valid c, c, w).
Proof.
  intros [Hnp Hnm] Hp. unfold ssn_client_input. apply Z.eqb_neq in Hnp, Hnm. cbv zeta. by rewrite Hnp, Hnm, Hp.
Qed.
Lemma live_elem t i : 0 <= i < 1024 -> occupied t i = true -> slot t i ∈ live t.
Proof.
  intros Hi Ho. unfold live. apply list_elem_of_fmap. exists i. split; [done|].
  apply list_elem_of_filter. split; [done|]. apply elem_of_seqZ. lia.
Qed.

Lemma reply_spec k pkt c w :
  client_inv k c -> delivered pkt -> is_reply pkt ->
  exists c', ssn_client_input fire pkt c w = Some (cl_valid c, c', w) /\
    match get_pending_snapshot (pend c) (ssn_get_seqno (header_of_bytes pkt)) with
    | None => c' = c
    | Some p => live (pend c) ≡ₚ p :: live (pend c') /\ fired c' = fired c ++ reply_events pkt p
    end.
Proof.
  intros Hi [[url Hu] [data Hd]] [Hnp Hnm]. unfold ssn_client_input.
  destruct (Z.eqb_spec (h_msg_type (header_of_bytes pkt)) SSN_MSG_TYPE_PUBLISH); [done|].
  destruct (Z.eqb_spec (h_msg_type (header_of_bytes pkt)) SSN_MSG_TYPE_MESSAGE); [done|].
  pose proof (snapshot_spec (pend c) (ssn_get_seqno (header_of_bytes pkt)) (ci_pend k c Hi)) as Hs.
  destruct (get_pending_snapshot _ _) as [p|]; [|by eexists].
  destruct Hs as (Hr & Ho & Hp & _). set (r := if is_response _ then _ else _).
  assert (exists q, r = Some (cl_set_history c q (fired c ++ reply_events pkt p), w)) as [q ->].
  { subst r. unfold reply_events, ssn_client_handle_response, ssn_client_handle_rpc_response. rewrite Hd.
    assert (exists q, Some (c, w) = Some (cl_set_history c q (fired c ++ []), w)) as Hnone.
    { exists (replied c). rewrite app_nil_r. by destruct c. }
    destruct (pend_callback p =? 0); cbn [negb]; rewrite ?andb_false_r, ?andb_true_r.
    { by repeat case_match. }
    destruct (is_response _); [destruct (_ =? SSN_CLIENT_FTYPE_RES); [apply silent_fire|done]|].
    destruct (_ =? SSN_MSG_TYPE_RPC_REQUEST); [|done].
    destruct (_ =? SSN_CLIENT_FTYPE_RPC); [apply silent_fire|done]. }
  eexists. split; [done|]. cbn. split; [|done]. rewrite Hp at 1. by apply live_free, Ho; [apply (ci_pend k c Hi)|].
Qed.

Lemma reply_events_completes pkt p :
  reply_events pkt p = [] \/ exists e, reply_events pkt p = [e] /\ completes p e /\ completion e = true.
Proof.
  unfold reply_events. destruct (_ =? 0); [by left|].
  destruct (is_response _).
  - destruct (Z.eqb_spec (pend_ftype p) SSN_CLIENT_FTYPE_RES); [|by left].
    right. eexists. split; [done|]. split; [by constructor|done].
  - destruct (_ =? _); [|by left]. destruct (Z.eqb_spec (pend_ftype p) SSN_CLIENT_FTYPE_RPC); [|by left].
    destruct (ssn_get_data pkt); [|by left]. right. eexists. split; [done|]. split; [by constructor|done].
Qed.

(** ** The account of a poll *)

Lemma input_accounted k pkt c w b c' w' :
  client_inv k c -> delivered pkt -> ssn_client_input fire pkt c w = Some (b, c', w') -> accounted c c'.
Proof.
  intros Hi Hd E. pose proof Hd as [[url Hu] [data Hdd]].
  assert (forall cb arg r, accounted c (cl_set_history c r (fired c ++ [EvMsg cb arg url data]))) as Hmsg.
  { intros cb arg r. by exists [], [], [EvMsg cb arg url data]. }
  destruct (decide (is_reply pkt)) as [Hr|Hr].
  - destruct (reply_spec k pkt c w Hi Hd Hr) as (c1 & E1 & Hout). rewrite E in E1. simplify_eq.
    destruct (get_pending_snapshot _ _) as [p|]; [|by subst]. destruct Hout as [Hl Hf].
    destruct (reply_events_completes pkt p) as [En|(e & Ee & Hce & Hc)].
    + exists [], [p], []. rewrite Hf, En. by rewrite Hl.
    + exists [p], [], [e]. rewrite Hf, Ee. split; [by rewrite Hl|]. split; [done|].
      rewrite filter_cons_True by done. by repeat constructor.
  - unfold ssn_client_input in E. unfold is_reply in Hr.
    destruct (Z.eqb_spec (h_msg_type (header_of_bytes pkt)) SSN_MSG_TYPE_PUBLISH).
    + unfold ssn_client_handle_publish in E. rewrite Hu, Hdd in E.
      destruct (publish_target c _) as [[cb arg]|]; [|by simplify_eq].
      destruct (silent_fire (EvMsg cb arg url data) c w) as [r Er]. rewrite Er in E. simplify_eq. apply Hmsg.
    + destruct (Z.eqb_spec (h_msg_type (header_of_bytes pkt)) SSN_MSG_TYPE_MESSAGE); [|tauto].
      unfold ssn_client_handle_message in E. rewrite Hu, Hdd in E. destruct (negb _); [|by simplify_eq].
      destruct (silent_fire (EvMsg (cl_onmsg c).1 (cl_onmsg c).2 url data) c w) as [r Er].
      rewrite Er in E. simplify_eq. apply Hmsg.
Qed.

Lemma feed_accounted k recv b c w :
  1 <= k -> client_inv k c -> stream_inv recv ->
  exists ok recv' c' w', ssn_stream_feed (client_input_callback fire) recv b (Some (c, w))
      = Some (ok, recv', Some (c', w')) /\ stream_inv recv' /\ client_inv k c' /\ accounted c c'.
Proof.
  intros Hk Hi Hr.
  destruct (feed_invariant (client_input_callback fire)
    (fun st => exists c' w', st = Some (c', w') /\ client_inv k c' /\ accounted c c')) with
    (recv := recv) (buf := b) (st := Some (c, w)) as (ok & recv' & st' & -> & Hr' & c' & w' & -> & ? & ?).
  - intros pkt st Hpkt (c1 & w1 & -> & Hi1 & Ha1). unfold client_input_callback.
    pose proof (whole_packet_fields pkt Hpkt) as Hd.
    destruct (reply_input_good silent_user silent_ok 0 k pkt c1 w1 Hk Hi1 Hd) as (b' & c2 & w2 & E & ?).
    rewrite E. exists c2, w2. split; [done|]. split; [done|]. trans c1; [done|].
    by apply (input_accounted k pkt c1 w1 b' c2 w2).
  - done.
  - by exists c, w.
  - by exists ok, recv', c', w'.
Qed.

Lemma accounted_updates c c' c1 :
  pend c1 = pend c -> fired c1 = fired c -> accounted c1 c' -> accounted c c'.
Proof. intros Hp Hf Ha. trans c1; [by apply accounted_same|done]. Qed.

Lemma process_events_accounted k c rfds w b c' w' :
  1 <= k -> client_inv k c -> ssn_client_process_events fire c rfds w = Some (b, c', w') -> accounted c c'.
Proof.
  intros Hk Hi. unfold ssn_client_process_events.
  assert (forall c w, client_inv k c -> process_timeouts fire c rfds w = Some (b, c', w') -> accounted c c') as Hpt.
  { intros c0 w0 Hi0. unfold process_timeouts. case_bool_decide; [|by intros ?; simplify_eq].
    destruct (ssn_client_collect_and_call_pending _ _ _ _) as [[c2 w2]|] eqn:E; [|done].
    intros ?; simplify_eq. apply collect_accounted in E; [|apply (ci_pend k c0 Hi0)].
    by apply (accounted_updates _ _ (cl_set_evt c0 (ipc_event_pair_drain (cl_evt c0)))). }
  assert (forall c w, client_inv k c -> connection_lost fire c w = Some (b, c', w') -> accounted c c') as Hlost.
  { intros c0 w0 Hi0. unfold connection_lost, ssn_client_timeout_all.
    destruct (ssn_client_collect_and_call_pending _ _ _ _) as [[c2 w2]|] eqn:E; [|done].
    intros ?; simplify_eq. apply collect_accounted in E; [|apply (ci_pend k c0 Hi0)].
    by apply (accounted_updates _ _ (cl_set_connected c0 false)). }
  destruct (cl_valid c); cbn [negb]; [|by intros ?; simplify_eq].
  destruct (connected c); [|by apply Hpt]. pose proof (ci_cfg k c Hi) as [Hcfg _].
  destruct (cl_transport c) as [t|]; [|by apply Hpt].
  destruct (_ && _); [|by apply Hpt].
  pose proof (recv_config t SSN_MAX_PACKET_SIZE 0 w) as Hrc.
  destruct (ssn_transport_recv t _ _ w) as [[[num bs] t1] w1]. cbn in Hrc.
  assert (client_inv k (cl_set_transport c (Some t1))) as Hi1.
  { apply inv_set_transport; [done|]. unfold cfg_ok in *. congruence. }
  set (c1 := cl_set_transport c (Some t1)) in *. intros Hrun.
  apply (accounted_updates c c' c1); [done|done|].
  destruct (num >? 0).
  - destruct (feed_accounted k (cl_recv c1) (ztake num bs) c1 w1 Hk Hi1 (ci_recv k c1 Hi1))
      as (ok & recv' & c2 & w2 & E & Hr' & Hi2 & Ha2). rewrite E in Hrun.
    trans c2; [done|]. apply (accounted_updates c2 c' (cl_set_recv c2 recv')); [done|done|].
    destruct ok; [eapply Hpt|eapply Hlost]; try exact Hrun; by apply inv_set_recv.
  - destruct (num =? 0); [by eapply Hlost|]. destruct (_ && _); [by eapply Hlost|by eapply Hpt].
Qed.

Lemma unref_accounted k c w c' w' :
  client_inv k c -> ssn_client_unref fire c w = Some (c', w') -> accounted c c'.
Proof.
  intros Hi. unfold ssn_client_unref. rewrite (ci_live k c Hi).
  destruct (_ >? 0); [|by intros ?; simplify_eq].
  destruct (_ && _); [|intros ?; simplify_eq; by apply accounted_same].
  set (c1 := cl_set_subs _ []).
  assert (pend (destroy_transport c1 w).1 = pend c /\ fired (destroy_transport c1 w).1 = fired c) as [Hp Hf].
  { unfold destroy_transport. by destruct (cl_transport c1). }
  destruct (destroy_transport c1 w) as [c2 w2]. cbn in Hp, Hf.
  destruct (ssn_client_collect_and_call_pending _ _ _ _) as [[c3 w3]|] eqn:E; [|done]. intros ?; simplify_eq.
  apply collect_accounted in E; [|rewrite Hp; apply (ci_pend k c Hi)].
  trans c3; [|by apply accounted_same]. by apply (accounted_updates c c3 c2).
Qed.
End silent.

(** ** Timeouts *)

Definition client_ticks (n : nat) (c : ssn_client) : ssn_client := Nat.iter n ssn_client_timer_tick c.

Definition late (n : nat) (p : ssn_pending_request_t) : bool :=
  pend_timeout_ms p <=? TIMER_PERIOD * Z.of_nat n.

Lemma client_tick_spec k c :
  client_inv k c -> 0 <= evt_count (cl_evt c) ->
  let c' := ssn_client_timer_tick c in
  client_inv k c' /\ live (pend c') = map tick_pending (live (pend c)) /\ fired c' = fired c /\
  evt_fd (cl_evt c') = evt_fd (cl_evt c) /\ evt_count (cl_evt c) <= evt_count (cl_evt c') /\
  (existsb (late 1) (live (pend c)) = true -> 0 < evt_count (cl_evt c')).
Proof.
  intros Hi He. cbv zeta. split; [by apply client_tick_inv|].
  pose proof (live_timer (pend c) _ (ci_pend k c Hi) eq_refl) as Hlive. unfold ssn_client_timer_tick.
  change (Z.to_nat SSN_CLIENT_MAX_PENDING) with 1024%nat.
  destruct (timer_slots_spec 1024 0 (pend c) false (ci_pend k c Hi)) as (t & Et & _ & _ & _ & _); [done|done|].
  rewrite Et in *. cbn [fst] in Hlive. cbn [orb].
  set (emit := existsb (fun j => occupied (pend c) j && _) _).
  assert (existsb (late 1) (live (pend c)) = true -> emit = true) as Hem.
  { intros (p & Hp%list_elem_of_In & Hlate)%existsb_exists. unfold live in Hp.
    apply list_elem_of_fmap in Hp as (j & -> & [Ho Hj]%list_elem_of_filter).
    apply existsb_exists. exists j. split; [by apply list_elem_of_In|]. rewrite Ho. cbn [andb].
    unfold late in Hlate. by rewrite Z.mul_1_r in Hlate. }
  destruct emit; cbn [cl_evt cl_set_evt cl_set_pend pend fired].
  - pose proof (signal_pending (cl_evt c) He) as Hp. unfold event_pending in Hp. apply Z.gtb_lt in Hp.
    split; [done|]. split; [done|]. split; [unfold ipc_event_pair_signal; by destruct (_ <? _)|].
    split; [|done]. unfold ipc_event_pair_signal. destruct (_ <? _); cbn; lia.
  - split; [done|]. split; [done|]. split; [done|]. split; [lia|]. intros Hx. by apply Hem in Hx.
Qed.

(** [n] passes in one step. *)
Definition tick_many (n : nat) (p : ssn_pending_request_t) : ssn_pending_request_t := Nat.iter n tick_pending p.

Lemma tick_many_timeout n p :
  (0 < n)%nat -> pend_timeout_ms (tick_many n p) = Z.max 0 (pend_timeout_ms p - TIMER_PERIOD * Z.of_nat n).
Proof.
  intros Hn. destruct n as [|n]; [lia|]. clear Hn. unfold tick_many.
  induction n as [|n IH]; [|change (Nat.iter (S (S n)) tick_pending p) with (tick_pending (Nat.iter (S n) tick_pending p))].
  - cbn. unfold TIMER_PERIOD. destruct (Z.gtb_spec (pend_timeout_ms p) 50); lia.
  - cbn [tick_pending pend_timeout_ms pend_with_timeout]. rewrite IH. unfold TIMER_PERIOD.
    destruct (Z.gtb_spec (Z.max 0 (pend_timeout_ms p - 50 * Z.of_nat (S n))) 50); lia.
Qed.

Lemma tick_many_failure n p : failure_event (tick_many n p) = failure_event p.
Proof.
  unfold tick_many. induction n as [|n IH]; [done|]. rewrite <- IH. cbn. unfold failure_event. done.
Qed.

Lemma map_tick_zero l : map (tick_many 0) l = l.
Proof. induction l as [|p l IH]; [done|]. cbn [map]. by rewrite IH. Qed.

Lemma iter_zero {A} (f : A -> A) x : Nat.iter 0 f x = x.
Proof. done. Qed.

Lemma client_ticks_S n c : client_ticks (S n) c = client_ticks n (ssn_client_timer_tick c).
Proof. unfold client_ticks. apply Nat.iter_succ_r. Qed.

Lemma client_ticks_0 c : client_ticks 0 c = c.
Proof. unfold client_ticks. apply iter_zero. Qed.

Lemma client_ticks_spec k n : forall c,
  client_inv k c -> 0 <= evt_count (cl_evt c) ->
  client_inv k (client_ticks n c) /\
  live (pend (client_ticks n c)) = map (tick_many n) (live (pend c)) /\
  fired (client_ticks n c) = fired c /\ evt_fd (cl_evt (client_ticks n c)) = evt_fd (cl_evt c) /\
  evt_count (cl_evt c) <= evt_count (cl_evt (client_ticks n c)) /\
  ((0 < n)%nat -> existsb (late n) (live (pend c)) = true -> 0 < evt_count (cl_evt (client_ticks n c))).
Proof.
  induction n as [|n IH]; intros c Hi He; [rewrite client_ticks_0|rewrite client_ticks_S].
  { split; [done|]. split; [by rewrite map_tick_zero|]. split; [done|]. split; [done|]. split; [done|lia]. }
  destruct (client_tick_spec k c Hi He) as (Hi1 & Hl1 & Hf1 & Hfd1 & Hge1 & Hem1).
  generalize dependent (ssn_client_timer_tick c). intros c1 Hi1 Hl1 Hf1 Hfd1 Hge1 Hem1.
  destruct (IH c1 Hi1 ltac:(lia)) as (Hi2 & Hl2 & Hf2 & Hfd2 & Hge2 & Hem2).
  split; [done|]. split; [|split; [congruence|split; [congruence|split; [lia|]]]].
  - rewrite Hl2, Hl1, map_map. apply map_ext. intros p. unfold tick_many. by rewrite Nat.iter_succ_r.
  - intros _ (p & Hp & Hlate)%existsb_exists. destruct n as [|n].
    { enough (0 < evt_count (cl_evt c1)) by lia. apply Hem1. apply existsb_exists. by exists p. }
    apply Hem2; [lia|]. apply existsb_exists. exists (tick_pending p). rewrite Hl1. split; [by apply in_map|].
    unfold late in *. apply Z.leb_le in Hlate. apply Z.leb_le.
    pose proof (tick_many_timeout 1 p ltac:(lia)) as Ht. change (tick_many 1 p) with (tick_pending p) in Ht.
    rewrite Ht. unfold TIMER_PERIOD in *. lia.
Qed.

(** ** Disconnecting *)

(** Up to the point where the reference is given back. *)
Lemma disconnect_until_unref {W} `{OsLaws W} (user : client_event -> ssn_client -> W -> list client_call) d k c w :
  0 <= k -> client_inv k c -> cl_valid c = true -> connected c = true ->
  exists c2 w2, ssn_client_disconnect (fire_at user (S d)) c w
      = match ssn_client_unref (fire_at user (S d)) c2 w2 with Some (c, w) => Some (true, c, w) | None => None end /\
    client_inv (k + 1) c2 /\ connected c2 = false /\ os_open w2 = os_open w ∖ client_owned c /\
    live (pend c2) = [] /\ fired c2 = fired c ++ omap failure_event (live (pend c)).
Proof.
  intros Hk Hi Hv Hc. unfold ssn_client_disconnect. rewrite Hv, Hc. cbn [negb orb].
  pose proof (inv_disconnected _ _ (inv_ref k c Hi)) as Hi0. pose proof (ci_cfg _ _ Hi0) as [Hcfg _].
  pose proof (ci_conn k c Hi Hc) as [t Ht].
  cbn [cl_transport cl_set_connected cl_set_flags ssn_client_ref cl_set_ref] in *. unfold client_owned.
  rewrite Ht in *. pose proof (disconnect_config t w) as Hd. pose proof (disconnect_spec t w) as Hs.
  destruct (ssn_transport_disconnect t w) as [[b t2] w2]. cbn in Hd. destruct Hs as (_ & _ & Ho & _).
  set (c1 := cl_set_transport _ (Some t2)).
  assert (client_inv (k + 1) c1) as Hi1 by (apply inv_set_transport; [done|unfold cfg_ok in *; congruence]).
  destruct (timeout_all_disconnected user d (k + 1) c1 w2 ltac:(lia) Hi1 eq_refl)
    as (c2 & -> & Hi2 & Hn2 & _ & _ & Hl2 & Hf2).
  by exists c2, w2.
Qed.

(** ** Claims *)


(** C9.  Consistency of the pending table in every reachable state: the client
    was released, or every sequence number that is mapped leads to an occupied
    slot which holds exactly this number, so no two numbers share a slot and a
    late reply can never reach a request that reuses one; a slot knows its own
    index. *)
Theorem pending_table_consistent {W} `{OsLaws W} (user : client_event -> ssn_client -> W -> list client_call)
    (d : nat) (g : factory) (c : ssn_client) (w : W) :
  (forall e c w, Forall ccall_ok (user e c w)) -> client_reach user d g c w ->
  client_released c \/
  (forall s, index_of (pend c) s <> NO_INDEX ->
     0 <= index_of (pend c) s < SSN_CLIENT_MAX_PENDING /\
     is_bit_set (pending_bitmap (pend c)) (index_of (pend c) s) = true /\
     pend_seqno (slot (pend c) (index_of (pend c) s)) = s) /\
  (forall s1 s2, index_of (pend c) s1 <> NO_INDEX -> index_of (pend c) s1 = index_of (pend c) s2 -> s1 = s2) /\
  (forall i, 0 <= i < SSN_CLIENT_MAX_PENDING -> pend_index (slot (pend c) i) = i).
Proof.
  intros Hu Hr. destruct (client_reach_inv user Hu d g c w Hr) as [Hi|?]; [right|by left].
  destruct (ci_pend 0 c Hi) as [_ Hx _ Hm]. split; [exact Hm|]. split; [|exact Hx].
  intros s1 s2 H1 E. destruct (Hm s1 H1) as (_ & _ & Hs1).
  destruct (Hm s2) as (_ & _ & Hs2); congruence.
Qed.

(** C10.  Pairing of replies, whatever the callbacks do.  A reply whose number is
    not in the table of requests changes nothing and calls nobody.  Otherwise it
    finds one request, the one that carries this number, and what happens is: if
    the request has a callback and the reply is of the request's kind, this
    callback is made, once, with the reply's status (SUBSCRIBE, UNSUBSCRIBE, PING)
    or its header and data (RPC), on the client with the request still in the
    table; then the slot of the request is released.  If the reply is of the other
    kind, or of neither, the slot is released without any callback: the request is
    dropped, which the code does not intend.  Releasing the slot takes exactly this
    request out of the table (as the callback left it: a callback that closes the
    connection has its request called a second time, as failed, before it returns).
    With callbacks that call nothing, exactly this request leaves the table. *)
Theorem reply_finds_its_request {W} `{OsLaws W} (k : Z) (pkt : bytes) (c : ssn_client) :
  client_inv k c -> delivered pkt -> is_reply pkt ->
  match get_pending_snapshot (pend c) (ssn_get_seqno (header_of_bytes pkt)) with
  | None => forall fire (w : W), ssn_client_input fire pkt c w = Some (cl_valid c, c, w)
  | Some p =>
    pend_seqno p = ssn_get_seqno (header_of_bytes pkt) /\ p ∈ live (pend c) /\
    (forall fire (w : W), ssn_client_input fire pkt c w
       = match (match reply_events pkt p with [e] => fire e c w | _ => Some (c, w) end) with
         | Some (c1, w1) => Some (cl_valid c1, cl_set_pend c1 (free_pending_index (pend c1) (pend_index p)), w1)
         | None => None
         end) /\
    (if bool_decide (pend_callback p <> 0 /\ of_kind pkt p)
     then exists e, reply_events pkt p = [e] /\ event_callback e = (pend_callback p, pend_arg p)
     else reply_events pkt p = []) /\
    live (pend c) ≡ₚ p :: live (free_pending_index (pend c) (pend_index p)) /\
    (forall w : W, exists c', ssn_client_input (fire_at silent_user 2) pkt c w = Some (cl_valid c, c', w) /\
       live (pend c) ≡ₚ p :: live (pend c') /\ fired c' = fired c ++ reply_events pkt p)
  end.
Proof.
  intros Hi Hd Hr. pose proof (snapshot_spec (pend c) (ssn_get_seqno (header_of_bytes pkt)) (ci_pend k c Hi)) as Hs.
  pose proof (fun w => reply_spec k pkt c w Hi Hd Hr) as Hsil.
  destruct (get_pending_snapshot _ _) as [p|] eqn:Ep.
  - destruct Hs as (Hir & Ho & Hp & Hn & _). split; [done|]. split; [rewrite Hp; by apply live_elem|].
    split; [intros; by apply input_finds|]. split; [by apply reply_kind|]. split; [|done].
    rewrite Hp at 1. by apply live_free, Ho; [apply (ci_pend k c Hi)|].
  - intros fire' w. by apply input_unknown.
Qed.

(** Callbacks over a whole poll: the requests that leave the table are
    called back exactly once each or dropped by a reply of the wrong kind; every
    completion made is the callback of one of them, so no request is ever called
    back twice or after it was completed. *)
Theorem poll_accounts_for_requests {W} `{OsLaws W} (c : ssn_client) (ms : Z) (w : W) r c' w' :
  client_inv 0 c -> ssn_client_poll (fire_at silent_user 2) c ms w = Some (r, c', w') ->
  exists finished lost es,
    live (pend c) ≡ₚ finished ++ lost ++ live (pend c') /\ fired c' = fired c ++ es /\
    Forall2 completes finished (filter (fun e => completion e = true) es).
Proof.
  intros Hi. change (ssn_client_poll (fire_at silent_user 2) c ms w = Some (r, c', w') -> accounted c c').
  unfold ssn_client_poll. rewrite (ci_live 0 c Hi). destruct (cl_valid c); cbn [negb]; [|by intros ?; simplify_eq].
  destruct (ssn_client_fds _) as [[fds mf]|]; [|done].
  destruct (os_pselect fds (Some ms) w) as [[cnt ready] w1]. pose proof (inv_ref 0 c Hi) as Hi1.
  assert (accounted c (ssn_client_ref c)) as Ha by (by apply accounted_same).
  destruct (cnt >? 0).
  - destruct (process_events_good silent_user silent_ok 0 1 (ssn_client_ref c) ready w1 ltac:(lia) Hi1)
      as (ok & c2 & w2 & E & Hi2). rewrite E.
    apply process_events_accounted with (k := 1) in E; [|lia|done].
    destruct (if ok then _ else _) as [c3 w3] eqn:Ep.
    assert (client_inv 1 c3 /\ accounted c2 c3) as [Hi3 Ha3].
    { destruct ok; [by simplify_eq|].
      pose proof (destroy_transport_inv 1 (cl_set_connected c2 false) w2 (inv_disconnected _ _ Hi2) eq_refl) as Hd.
      rewrite Ep in Hd. cbn [fst] in Hd. destruct Hd as (? & _ & Hp & _). split; [done|]. apply accounted_same; [done|].
      unfold destroy_transport in Ep. by destruct (cl_transport _); simplify_eq. }
    destruct (ssn_client_unref _ c3 w3) as [[c4 w4]|] eqn:Eu; [|done]. intros ?; simplify_eq.
    apply (unref_accounted 1) in Eu; [|done].
    trans (ssn_client_ref c); [done|]. trans c2; [done|]. by trans c3.
  - destruct (ssn_client_unref _ _ w1) as [[c4 w4]|] eqn:Eu; [|done]. intros ?; simplify_eq.
    apply (unref_accounted 1) in Eu; [|done]. by trans (ssn_client_ref c).
Qed.

(** C23.  Timeouts: after [n > 0] timer passes (50 ms each) the wake-up fails
    exactly the requests whose time was at most [50 n] ms, each with one
    callback, and keeps the others; if there is one, the event is pending so the
    poll does wake up. *)
Theorem requests_time_out {W} `{OsLaws W} (k : Z) (n : nat) (c : ssn_client) (rfds : list Z) (w : W) :
  client_inv k c -> (0 < n)%nat -> 0 <= evt_count (cl_evt c) ->
  ipc_event_pair_get_read_fd (cl_evt c) ∈ rfds ->
  exists c', process_timeouts (fire_at silent_user 2) (client_ticks n c) rfds w = Some (true, c', w) /\
    fired c' = fired c ++ omap failure_event (filter (fun p => late n p = true) (live (pend c))) /\
    live (pend c') = map (tick_many n) (filter (fun p => late n p = false) (live (pend c))) /\
    (existsb (late n) (live (pend c)) = true -> event_pending (cl_evt (client_ticks n c)) = true) /\
    event_pending (cl_evt c') = false.
Proof.
  intros Hi Hn He Hfd.
  destruct (client_ticks_spec k n c Hi He) as (Hi1 & Hl1 & Hf1 & Hfd1 & Hge1 & Hem1).
  set (c1 := client_ticks n c) in *. unfold process_timeouts, ipc_event_pair_get_read_fd in *.
  rewrite bool_decide_true by (by rewrite Hfd1).
  destruct (silent_collect true (cl_set_evt c1 (ipc_event_pair_drain (cl_evt c1))) w (ci_pend k c1 Hi1))
    as (t & r & -> & _ & Ht).
  assert (forall p, due true (tick_many n p) = late n p) as Hdue.
  { intros p. unfold due, late. cbn [negb orb]. rewrite tick_many_timeout by done.
    destruct (Z.eqb_spec (Z.max 0 (pend_timeout_ms p - TIMER_PERIOD * Z.of_nat n)) 0),
      (Z.leb_spec (pend_timeout_ms p) (TIMER_PERIOD * Z.of_nat n)); done || lia. }
  eexists. split; [done|]. cbn [fired cl_set_history cl_set_pend pend cl_set_evt cl_evt] in *.
  rewrite Hl1 in *. rewrite !filter_map_comm in *. split; [|split; [|split]].
  - rewrite Hf1. f_equal. rewrite (filter_ext_elem _ (fun p => late n p = true)) by (intros; by rewrite Hdue).
    induction (filter (fun p => late n p = true) (live (pend c))) as [|p l IH]; [done|].
    cbn [map omap list_omap]. rewrite tick_many_failure. destruct (failure_event p); by rewrite IH.
  - rewrite Ht. f_equal. apply filter_ext_elem. intros p _. by rewrite Hdue.
  - intros Hx. apply Z.gtb_lt. by apply Hem1.
  - done.
Qed.

(** Connecting, whatever the callbacks do through the API: the attempt ends;
    every request of the old connection is failed once, in order of its slot, and
    none is left; when it succeeds the client owns exactly one new descriptor in
    place of its old one and the HELLO frame was written on it; when it fails, at
    any step, the client owns no descriptor and is not connected. *)
Theorem client_connect_outcome {W} `{OsLaws W} (user : client_event -> ssn_client -> W -> list client_call)
    (d : nat) (g : factory) (c : ssn_client) (path : bytes) (timeout : option (Z * Z)) (w : W) :
  client_inv 0 c -> cl_valid c = true ->
  exists b c' w', ssn_client_connect (fire_at user (S (S d))) g c path timeout w = Some (b, c', w') /\
    (client_inv 0 c' \/ client_released c') /\
    (cl_valid c' = true -> connect_post c w b c' w' /\ live (pend c') = [] /\
       fired c' = fired c ++ omap failure_event (live (pend c))).
Proof. apply client_connect_spec. Qed.

(** Disconnecting a connected client, whatever the callbacks do: the call
    returns; unless a callback closed the client, it is disconnected, its
    descriptor is closed, every pending request has been failed exactly once and
    none is left, also none that a callback tried to start meanwhile. *)
Theorem disconnect_fails_requests {W} `{OsLaws W} (user : client_event -> ssn_client -> W -> list client_call)
    (d : nat) (c : ssn_client) (w : W) :
  client_inv 0 c -> cl_valid c = true -> connected c = true ->
  exists c' w', ssn_client_disconnect (fire_at user (S (S d))) c w = Some (true, c', w') /\
    (client_inv 0 c' \/ client_released c') /\
    (cl_valid c' = true -> connected c' = false /\ os_open w' = os_open w ∖ client_owned c /\
       live (pend c') = [] /\ fired c' = fired c ++ omap failure_event (live (pend c))).
Proof.
  intros Hi Hv Hc.
  destruct (disconnect_until_unref user (S d) 0 c w (Z.le_refl 0) Hi Hv Hc) as (c2 & w2 & -> & Hi2 & Hn2 & Ho2 & Hl2 & Hf2).
  destruct (unref_out user d c2 w2 Hi2) as (c3 & w3 & -> & Hout & Hk).
  exists c3, w3. split; [done|]. split; [done|]. intros Hv3. by destruct (Hk Hv3) as [-> ->].
Qed.

(** ** Witnesses *)

(** A client that connects to [unix:///t], then sends two calls (callbacks 11 and
    12, 1 s and 100 ms) numbered 0 and 1. *)
Definition demo_path : bytes := [117; 110; 105; 120; 58; 47; 47; 47; 116].
Definition demo_hello : bytes := frame SSN_MSG_TYPE_SERVICE_INFO 0 0 [] [0; 0; 0; 7].
Definition demo_reply (seqno : Z) : bytes := frame SSN_MSG_TYPE_RPC_REQUEST 0 seqno [] [1; 2].
Definition demo_fresh : ssn_client := new_client (mk_event 9 0).
Definition demo_url_ref : option ssn_url_ref_t := Some (mk_url_ref (Some [47; 97]) 2).
Local Abbreviation fire := (fire_at (W := sim_world) silent_user 2).

Definition demo_connect : option (bool * ssn_client * sim_world) :=
  ssn_client_connect fire demo_factory demo_fresh demo_path None (sim_init [] [demo_hello]).
Definition demo_calls : option (ssn_client * sim_world) :=
  match demo_connect with
  | Some (_, c, w) =>
    run_client_calls fire [CcCall demo_url_ref None 11 1 1000; CcCall demo_url_ref None 12 2 100] c w
  | None => None
  end.
Definition demo_client : ssn_client := match demo_calls with Some (c, _) => c | None => demo_fresh end.
Definition demo_inbox (l : list bytes) : sim_world := sim_init [] l.

Lemma run_calls_reach {W} `{OsLaws W} user d g qs : forall c w c' w',
  Forall ccall_ok qs -> client_reach user d g c w ->
  run_client_calls (fire_at user (S (S d))) qs c w = Some (c', w') -> client_reach user d g c' w'.
Proof.
  induction qs as [|q qs IH]; intros c w c' w' Hq Hr; cbn [run_client_calls]; [by intros ?; simplify_eq|].
  inversion_clear Hq. destruct (run_client_call _ q c w) as [[c1 w1]|] eqn:E; [|done].
  intros E'. eapply IH; [done| |done]. by eapply creach_api.
Qed.

Lemma demo_client_reach w : client_reach silent_user 0 demo_factory demo_client w.
Proof.
  unfold demo_client, demo_calls, demo_connect.
  destruct (ssn_client_connect _ _ _ _ _ _) as [[[b c1] w1]|] eqn:E1; [|apply creach_init].
  destruct (run_client_calls _ _ c1 w1) as [[c2 w2]|] eqn:E2; [|apply creach_init].
  apply (creach_world _ _ _ _ w2). eapply run_calls_reach; [|
    eapply creach_connect; [apply (creach_init _ _ _ (mk_event 9 0) (sim_init [] [demo_hello]))|done|exact E1]|exact E2].
  by repeat constructor.
Qed.
Lemma demo_client_inv : client_inv 0 demo_client.
Proof.
  destruct (client_reach_inv silent_user silent_ok 0 demo_factory demo_client (sim_init [] []) (demo_client_reach _))
    as [Hi|[Hf _]]; [done|]. vm_compute in Hf. discriminate Hf.
Qed.


Lemma pending_table_consistent_witness :
  index_of (pend demo_client) 1 = 1 /\ pend_seqno (slot (pend demo_client) 1) = 1 /\
  is_bit_set (pending_bitmap (pend demo_client)) 1 = true.
Proof.
  assert (index_of (pend demo_client) 1 = 1) as E by (vm_compute; reflexivity). split; [exact E|].
  destruct (pending_table_consistent silent_user 0 demo_factory demo_client (demo_inbox []))
    as [[Hf _]|[Hm _]].
  - exact silent_ok.
  - apply demo_client_reach.
  - vm_compute in Hf. discriminate Hf.
  - destruct (Hm 1) as (_ & Hb & Hs); [rewrite E; discriminate|]. rewrite E in Hb, Hs. split; [exact Hs|exact Hb].
Defined.

Lemma reply_finds_its_request_witness :
  exists c', ssn_client_input fire (demo_reply 0) demo_client (demo_inbox []) = Some (true, c', demo_inbox []) /\
    map pend_seqno (live (pend demo_client)) = [0; 1] /\
    exists p, get_pending_snapshot (pend demo_client) 0 = Some p /\ pend_seqno p = 0 /\
      live (pend demo_client) ≡ₚ p :: live (pend c') /\
      fired c' = [EvReply 11 1 (Some (header_of_bytes (demo_reply 0), mk_data_ref (Some [1; 2]) 2))].
Proof.
  pose proof (reply_finds_its_request (W := sim_world) 0 (demo_reply 0) demo_client demo_client_inv) as Hout.
  change (ssn_get_seqno (header_of_bytes (demo_reply 0))) with 0 in Hout.
  destruct (get_pending_snapshot (pend demo_client) 0) as [p|] eqn:Ep; [|vm_compute in Ep; discriminate Ep].
  destruct Hout as (Hs & _ & _ & _ & _ & Hsil).
  - vm_compute. split; eexists; reflexivity.
  - split; vm_compute; discriminate.
  - destruct (Hsil (demo_inbox [])) as (c' & E & Hl & Hf). exists c'. split; [exact E|]. split; [vm_compute; reflexivity|].
    exists p. split; [reflexivity|]. split; [exact Hs|]. split; [exact Hl|].
    rewrite Hf. vm_compute in Ep. injection Ep as <-. vm_compute. reflexivity.
Defined.

Lemma poll_accounts_for_requests_witness :
  exists c' w', ssn_client_poll fire demo_client 10 (demo_inbox [demo_reply 0]) = Some (0, c', w') /\
    exists finished lost es, live (pend demo_client) ≡ₚ finished ++ lost ++ live (pend c') /\
      fired c' = fired demo_client ++ es /\ length (live (pend c')) = 1%nat /\
      Forall2 completes finished (filter (fun e => completion e = true) es) /\ length finished = 1%nat.
Proof.
  destruct (ssn_client_poll fire demo_client 10 (demo_inbox [demo_reply 0])) as [[[r c'] w']|] eqn:E;
    [|vm_compute in E; discriminate].
  destruct (poll_accounts_for_requests demo_client 10 (demo_inbox [demo_reply 0]) r c' w') as (f & l & es & Hp & Hf & Hc).
  - exact demo_client_inv.
  - exact E.
  - assert (r = 0 /\ length (fired c') = 1%nat /\ length (live (pend c')) = 1%nat /\
      forallb completion (fired c') = true) as (-> & Hn & Hl & Hall).
    { vm_compute in E. injection E as <- <- <-. vm_compute. auto. }
    assert (fired demo_client = []) as E0 by (vm_compute; reflexivity). rewrite E0 in Hf. cbn [app] in Hf.
    exists c', w'. split; [reflexivity|]. exists f, l, es. rewrite E0. split; [exact Hp|]. split; [exact Hf|].
    split; [exact Hl|]. split; [exact Hc|]. rewrite (Forall2_length _ _ _ Hc). subst es.
    rewrite filter_all; [exact Hn|]. intros e He%list_elem_of_In.
    exact (proj1 (forallb_forall _ _) Hall e He).
Defined.

(** Two passes: the request of 100 ms fails, the one of 1 s stays. *)
Lemma requests_time_out_witness :
  exists c', process_timeouts fire (client_ticks 2 demo_client) [9] (demo_inbox []) = Some (true, c', demo_inbox []) /\
    fired c' = [EvReply 12 2 None] /\ map pend_seqno (live (pend c')) = [0] /\
    event_pending (cl_evt (client_ticks 2 demo_client)) = true.
Proof.
  destruct (requests_time_out 0 2 demo_client [9] (demo_inbox [])) as (c' & E & Hf & Hl & Hev & _).
  - exact demo_client_inv.
  - apply Nat.lt_0_2.
  - vm_compute. discriminate.
  - vm_compute. left.
  - exists c'. split; [exact E|]. split; [rewrite Hf; vm_compute; reflexivity|].
    split; [rewrite Hl; vm_compute; reflexivity|]. apply Hev. vm_compute. reflexivity.
Defined.

(** Reconnecting fails the two calls and leaves one open descriptor. *)
Lemma client_connect_outcome_witness :
  exists c' w', ssn_client_connect fire demo_factory demo_client demo_path None
      (mk_sim 0 5 {[4]} (fun _ => []) [] [demo_hello]) = Some (true, c', w') /\
    fired c' = [EvReply 11 1 None; EvReply 12 2 None] /\ live (pend c') = [] /\
    exists t, cl_transport c' = Some t /\ sim_open w' = {[sock_fd (impl t)]} /\ sim_tx w' (sock_fd (impl t)) = HELLO.
Proof.
  destruct (client_connect_outcome silent_user 0 demo_factory demo_client demo_path None
    (mk_sim 0 5 {[4]} (fun _ => []) [] [demo_hello])) as (b & c' & w' & E & _ & Hpost).
  - exact demo_client_inv.
  - vm_compute. reflexivity.
  - assert (b = true /\ cl_valid c' = true) as [-> Hv].
    { pose proof E as E'. vm_compute in E'. injection E' as <- <- <-. split; vm_compute; reflexivity. }
    exists c', w'. split; [exact E|]. destruct (Hpost Hv) as ((_ & t & Ht & _ & _ & Ho & Htx) & Hl & Hf).
    split; [rewrite Hf; vm_compute; reflexivity|]. split; [exact Hl|]. exists t. split; [exact Ht|].
    split; [|exact Htx]. change (sim_open w' = {[sock_fd (impl t)]} ∪ ({[4]} ∖ client_owned demo_client)) in Ho.
    rewrite Ho. assert (client_owned demo_client = {[4]}) as -> by (vm_compute; reflexivity).
    rewrite difference_diag_L, union_empty_r_L. reflexivity.
Defined.

Lemma disconnect_fails_requests_witness :
  exists c' w', ssn_client_disconnect fire demo_client (demo_inbox []) = Some (true, c', w') /\
    connected c' = false /\ live (pend c') = [] /\ fired c' = [EvReply 11 1 None; EvReply 12 2 None].
Proof.
  destruct (disconnect_fails_requests silent_user 0 demo_client (demo_inbox [])) as (c' & w' & E & _ & Hpost).
  - exact demo_client_inv.
  - vm_compute. reflexivity.
  - vm_compute. reflexivity.
  - assert (cl_valid c' = true) as Hv.
    { pose proof E as E'. vm_compute in E'. injection E' as <- <-. vm_compute. reflexivity. }
    exists c', w'. split; [exact E|]. destruct (Hpost Hv) as (Hn & _ & Hl & Hf).
    split; [exact Hn|]. split; [exact Hl|]. rewrite Hf. vm_compute. reflexivity.
Defined.
