(* ===== verification/ClientDefects.v ===== *)
(** * Client: defects

    Behaviour of [src/src/ssn_client.c] that its comments do not intend: replies
    that meet a request of another kind, callbacks that disconnect, and bytes of
    an old connection. *)
From S2P Require Import Prelude FrameCodec ErrorCode Os Transport Address FrameSend EventPair Server ServerTable ServerProps ClientPending Client ClientProps ClientTheorems ClientClaims.

(** Replies are matched by number only: numbers of requests nobody waits for
    (SUBSCRIBE, UNSUBSCRIBE) come from a second counter over the same range, and
    a reply to one of them that meets a pending call of the same number takes the
    call out of the table without its callback; its reply will find nothing. *)
Theorem foreign_reply_drops_call {W} `{OsLaws W} (k : Z) (pkt : bytes) (c : ssn_client) (w : W)
    (p : ssn_pending_request_t) :
  client_inv k c -> delivered pkt -> is_response (h_msg_type (header_of_bytes pkt)) = true ->
  get_pending_snapshot (pend c) (ssn_get_seqno (header_of_bytes pkt)) = Some p ->
  pend_ftype p = SSN_CLIENT_FTYPE_RPC ->
  exists c', ssn_client_input (fire_at silent_user 2) pkt c w = Some (cl_valid c, c', w) /\
    live (pend c) ≡ₚ p :: live (pend c') /\ fired c' = fired c.
Proof.
  intros Hi Hd Hr Hp Hft.
  destruct (reply_spec k pkt c w Hi Hd) as (c' & E & Hout).
  { split; intros E; by rewrite E in Hr. }
  rewrite Hp in Hout. destruct Hout as [Hl Hf]. exists c'. split; [done|]. split; [done|].
  rewrite Hf. unfold reply_events. rewrite Hr, Hft. destruct (_ =? 0); apply app_nil_r.
Qed.

(** The slot of a reply is released only after its callback: when the
    callback disconnects, the request is still in the table and is called back a
    second time, as failed. *)
Theorem disconnecting_callback_called_twice {W} `{OsLaws W}
    (user : client_event -> ssn_client -> W -> list client_call) (k : Z) (pkt : bytes) (c : ssn_client) (w : W)
    (p : ssn_pending_request_t) (data : ssn_data_ref_t) :
  (forall cb arg r c w, user (EvReply cb arg (Some r)) c w = [CcDisconnect]) ->
  1 <= k -> client_inv k c -> cl_valid c = true -> connected c = true ->
  h_msg_type (header_of_bytes pkt) = SSN_MSG_TYPE_RPC_REQUEST -> ssn_get_data pkt = Some data ->
  get_pending_snapshot (pend c) (ssn_get_seqno (header_of_bytes pkt)) = Some p ->
  pend_ftype p = SSN_CLIENT_FTYPE_RPC -> pend_callback p <> 0 ->
  exists b c' w' l, ssn_client_input (fire_at user 2) pkt c w = Some (b, c', w') /\
    fired c' = fired c ++ EvReply (pend_callback p) (pend_arg p) (Some (header_of_bytes pkt, data)) :: l /\
    EvReply (pend_callback p) (pend_arg p) None ∈ l.
Proof.
  intros Hu Hk Hi Hv Hc Hty Hd Hp Hft Hcb. unfold ssn_client_input. rewrite Hty, Hp.
  change (SSN_MSG_TYPE_RPC_REQUEST =? SSN_MSG_TYPE_PUBLISH) with false.
  change (SSN_MSG_TYPE_RPC_REQUEST =? SSN_MSG_TYPE_MESSAGE) with false.
  change (is_response SSN_MSG_TYPE_RPC_REQUEST) with false.
  change (SSN_MSG_TYPE_RPC_REQUEST =? SSN_MSG_TYPE_RPC_REQUEST) with true. cbv iota beta zeta.
  unfold ssn_client_handle_rpc_response. rewrite Hft, Hd. rewrite (proj2 (Z.eqb_neq (pend_callback p) 0)) by done.
  cbn [negb andb]. change (SSN_CLIENT_FTYPE_RPC =? SSN_CLIENT_FTYPE_RPC) with true. cbv iota.
  set (e := EvReply _ _ (Some _)) in *. set (c1 := cl_set_history c (replied c) (fired c ++ [e])).
  assert (client_inv k c1) as Hi1 by (by destruct Hi; split).
  change (fire_at user 2 e c w) with (run_client_calls (fire_at user 1) (user e c1 w) c1 w).
  assert (user e c1 w = [CcDisconnect]) as -> by apply Hu. clearbody e. cbn [run_client_calls].
  unfold run_client_call. rewrite (ci_live k c1 Hi1).
  destruct (disconnect_until_unref user 0 k c1 w ltac:(lia) Hi1 Hv Hc) as (c2 & w2 & -> & Hi2 & _ & _ & _ & Hf2).
  destruct (unref_keep (fire_at user 1) k c2 w2 (or_introl Hk) Hi2) as [-> _].
  eexists _, _, _, (omap failure_event (live (pend c))). split; [done|]. cbn [fired cl_set_pend cl_set_ref].
  split; [by rewrite Hf2; cbn; rewrite <- app_assoc|].
  pose proof (snapshot_spec (pend c) (ssn_get_seqno (header_of_bytes pkt)) (ci_pend k c Hi)) as Hs.
  rewrite Hp in Hs. destruct Hs as (Hr & Ho & Es & _).
  apply list_elem_of_omap. exists p. split; [rewrite Es; by apply live_elem|].
  unfold failure_event. rewrite Hft. by rewrite (proj2 (Z.eqb_neq (pend_callback p) 0)).
Qed.

(** ** Witnesses *)

Local Abbreviation fire := (fire_at (W := sim_world) silent_user 2).

(** A subscription (number 1, from the second counter) and two calls (numbers 0
    and 1). *)
Definition demo_subscriber : option (ssn_client * sim_world) :=
  match demo_connect with
  | Some (_, c, w) =>
    run_client_calls fire [CcSubscribe demo_url_ref 5 5 1000; CcCall demo_url_ref None 11 1 1000;
      CcCall demo_url_ref None 12 2 1000] c w
  | None => None
  end.
Definition demo_both : ssn_client := match demo_subscriber with Some (c, _) => c | None => demo_fresh end.
Definition demo_subscribed_ack : bytes := frame SSN_MSG_TYPE_SUBSCRIBE 0 1 [] [].

Lemma demo_both_inv : client_inv 0 demo_both.
Proof.
  assert (client_reach silent_user 0 demo_factory demo_both (sim_init [] [])) as Hr.
  { unfold demo_both, demo_subscriber, demo_connect.
    destruct (ssn_client_connect _ _ _ _ _ _) as [[[b c1] w1]|] eqn:E1; [|apply creach_init].
    destruct (run_client_calls _ _ c1 w1) as [[c2 w2]|] eqn:E2; [|apply creach_init].
    apply (creach_world _ _ _ _ w2). eapply run_calls_reach; [|
      eapply creach_connect; [apply (creach_init _ _ _ (mk_event 9 0) (sim_init [] [demo_hello]))|done|exact E1]|exact E2].
    by repeat constructor. }
  destruct (client_reach_inv silent_user silent_ok 0 demo_factory demo_both (sim_init [] []) Hr)
    as [Hi|[Hf _]]; [done|]. vm_compute in Hf. discriminate Hf.
Qed.

(** The packets written were HELLO, SUBSCRIBE number 1, the calls 0 and 1; the
    acknowledgement of the subscription drops call 1. *)
Lemma foreign_reply_drops_call_witness :
  match demo_subscriber with
  | Some (_, w) => sim_tx w 4 = HELLO ++ frame SSN_MSG_TYPE_SUBSCRIBE 0 1 [47; 97] [] ++
      frame SSN_MSG_TYPE_RPC_REQUEST 0 0 [47; 97] [] ++ frame SSN_MSG_TYPE_RPC_REQUEST 0 1 [47; 97] []
  | None => False
  end /\
  exists c' p, ssn_client_input fire demo_subscribed_ack demo_both (sim_init [] []) = Some (true, c', sim_init [] []) /\
    pend_callback p = 12 /\ live (pend demo_both) ≡ₚ p :: live (pend c') /\ fired c' = [].
Proof.
  split; [vm_compute; reflexivity|].
  destruct (get_pending_snapshot (pend demo_both) 1) as [p|] eqn:Ep; [|vm_compute in Ep; discriminate Ep].
  destruct (foreign_reply_drops_call 0 demo_subscribed_ack demo_both (sim_init [] []) p) as (c' & E & Hl & Hf).
  - exact demo_both_inv.
  - vm_compute. split; eexists; reflexivity.
  - vm_compute. reflexivity.
  - exact Ep.
  - vm_compute in Ep. injection Ep as <-. vm_compute. reflexivity.
  - exists c', p. split; [exact E|]. split; [vm_compute in Ep; injection Ep as <-; vm_compute; reflexivity|].
    split; [exact Hl|]. rewrite Hf. vm_compute. reflexivity.
Defined.

Definition quitting_user : client_event -> ssn_client -> sim_world -> list client_call :=
  fun e _ _ => match e with EvReply _ _ (Some _) => [CcDisconnect] | _ => [] end.

Lemma disconnecting_callback_called_twice_witness :
  exists b c' w' l, ssn_client_input (fire_at quitting_user 2) (demo_reply 0) (ssn_client_ref demo_client) (sim_init [] [])
      = Some (b, c', w') /\
    fired c' = fired (ssn_client_ref demo_client) ++
      EvReply 11 1 (Some (header_of_bytes (demo_reply 0), mk_data_ref (Some [1; 2]) 2)) :: l /\
    EvReply 11 1 None ∈ l.
Proof.
  destruct (get_pending_snapshot (pend (ssn_client_ref demo_client)) 0) as [p|] eqn:Ep;
    [|vm_compute in Ep; discriminate Ep].
  assert (pend_callback p = 11 /\ pend_arg p = 1 /\ pend_ftype p = SSN_CLIENT_FTYPE_RPC) as (Hcb & Ha & Hft).
  { vm_compute in Ep. injection Ep as <-. auto. }
  destruct (disconnecting_callback_called_twice quitting_user 1 (demo_reply 0) (ssn_client_ref demo_client)
    (sim_init [] []) p (mk_data_ref (Some [1; 2]) 2)) as (b & c' & w' & l & E & Hf & Hin).
  - reflexivity.
  - lia.
  - apply (inv_ref 0). exact demo_client_inv.
  - vm_compute. reflexivity.
  - vm_compute. reflexivity.
  - vm_compute. reflexivity.
  - vm_compute. reflexivity.
  - exact Ep.
  - exact Hft.
  - rewrite Hcb. discriminate.
  - rewrite Hcb, Ha in Hf, Hin. exists b, c', w', l. split; [exact E|]. split; [exact Hf|exact Hin].
Defined.

(** ** Bytes of an old connection *)

(** A connected client that received the first five bytes of a reply before the
    connection broke. *)
Definition demo_broken : ssn_client :=
  match ssn_client_poll fire demo_client 10 (demo_inbox [ztake 5 (demo_reply 0)]) with
  | Some (_, c, w) =>
    match ssn_client_poll fire c 10 w with Some (_, c, _) => c | None => demo_fresh end
  | None => demo_fresh
  end.

(** The receive buffer is not emptied for a new connection: against the
    same server, which answers the handshake at once, a new client connects and
    one whose old connection broke inside a packet does not. *)
Theorem stale_bytes_break_reconnect :
  connected demo_broken = false /\ cl_transport demo_broken = None /\ cl_valid demo_broken = true /\
  match ssn_client_connect fire demo_factory demo_fresh demo_path None (sim_init [] [demo_hello]),
        ssn_client_connect fire demo_factory demo_broken demo_path None (sim_init [] [demo_hello]) with
  | Some (r1, _, _), Some (r2, _, _) => r1 = true /\ r2 = false
  | _, _ => False
  end.
Proof. vm_compute. auto. Qed.
