(* ===== verification/Rpc.v ===== *)
(** * RPC contexts of the protocol layer ([src/src/protocol/rpc/ssn_rpc.c])

    The requester with its pool of 256 pending entries and 16-bit sequence
    numbers, and the replier with its method table.

    - A pool entry is referred to by its index, as the pointers into the pool.
    - [clock_gettime] readings are arguments.
    - The reply callback acts on the requester only through [ssn_rpc_call]: the
      parameter [user] says which calls it makes.  [rq_fired] is a history
      variable, the callbacks made so far.
    - [rep_entries] counts the method entries allocated and not yet freed.
    - The result [None] is undefined behaviour or lack of fuel, as elsewhere. *)
From S2P Require Import Prelude FrameCodec HashTable ErrorCode Os Transport FrameSend.

(** ** Data *)

Definition RPC_MAX_PENDING : Z := 256.
Definition RPC_DEFAULT_TIMEOUT_MS : Z := 5000.

Record timespec := mk_ts { tv_sec : Z; tv_nsec : Z }.
Record rpc_pending_entry_t := mk_rpc_entry {
  rp_seqno : Z;
  rp_timeout_ms : Z;
  rp_callback : Z;
  rp_arg : Z;
  rp_expire : timespec;
  in_use : bool;
}.
Definition rpc_entry_zero : rpc_pending_entry_t := mk_rpc_entry 0 0 0 0 (mk_ts 0 0) false.
Definition rpc_entry_used (e : rpc_pending_entry_t) (b : bool) : rpc_pending_entry_t :=
  mk_rpc_entry (rp_seqno e) (rp_timeout_ms e) (rp_callback e) (rp_arg e) (rp_expire e) b.

(** A callback: its function and argument, number, status, and the payload. *)
Record rpc_event := mk_rpc_event {
  rev_callback : Z;
  rev_arg : Z;
  rev_seqno : Z;
  rev_status : Z;
  rev_data : ssn_data_ref_t;
}.

Record ssn_rpc_req_t := mk_rpc_req {
  rq_transport : option ssn_transport_t;
  rq_user_data : Z;
  on_reply : Z;
  next_seqno : Z;
  rpc_pool : list rpc_pending_entry_t;
  rq_fired : list rpc_event;
}.
Definition rq_set_transport q t := mk_rpc_req t (rq_user_data q) (on_reply q) (next_seqno q) (rpc_pool q) (rq_fired q).
Definition rq_set_pool q l := mk_rpc_req (rq_transport q) (rq_user_data q) (on_reply q) (next_seqno q) l (rq_fired q).
Definition rq_set_next q n := mk_rpc_req (rq_transport q) (rq_user_data q) (on_reply q) n (rpc_pool q) (rq_fired q).
Definition rq_set_fired q l := mk_rpc_req (rq_transport q) (rq_user_data q) (on_reply q) (next_seqno q) (rpc_pool q) l.

(** ** The pool *)

Definition pending_pool_find (q : ssn_rpc_req_t) (seqno : Z) : option nat :=
  fst <$> list_find (fun e => in_use e = true /\ rp_seqno e = seqno) (rpc_pool q).
Definition pending_pool_alloc (q : ssn_rpc_req_t) : option (nat * ssn_rpc_req_t) :=
  match list_find (fun e => in_use e = false) (rpc_pool q) with
  | Some (i, e) => Some (i, rq_set_pool q (<[i := rpc_entry_used e true]> (rpc_pool q)))
  | None => None
  end.
Definition pending_pool_free (q : ssn_rpc_req_t) (i : nat) : ssn_rpc_req_t :=
  rq_set_pool q (alter (fun e => rpc_entry_used e false) i (rpc_pool q)).

(** [calloc_ok]: of the context, of the pool. *)
Definition ssn_rpc_req_create (calloc_ok pool_ok : bool) (callback arg : Z) : option ssn_rpc_req_t :=
  if negb calloc_ok then None
  else if negb pool_ok then None
  else Some (mk_rpc_req None arg callback 1 (replicate (Z.to_nat RPC_MAX_PENDING) rpc_entry_zero) []).

Definition ssn_rpc_connect (q : ssn_rpc_req_t) (t : option ssn_transport_t) : Z * ssn_rpc_req_t :=
  match t with
  | None => (-1, q)
  | Some t => (0, rq_set_transport q (Some t))
  end.

(** The search for a number not in flight; [n] iterations are left, the last one
    gives up.  The number after the last drawn one is returned too. *)
Fixpoint seqno_loop (n : nat) (q : ssn_rpc_req_t) (seqno : Z) : option Z * ssn_rpc_req_t :=
  match n with
  | O => (Some seqno, q)
  | S n =>
    match pending_pool_find q seqno with
    | None => (Some seqno, q)
    | Some _ =>
      let seqno := next_seqno q in
      let q := rq_set_next q (u16 (next_seqno q + 1)) in
      match n with O => (None, q) | S _ => seqno_loop n q seqno end
    end
  end.

(** [now] plus the timeout, normalised. *)
Definition i64 (x : Z) : Z := (x + 2 ^ 63) mod 2 ^ 64 - 2 ^ 63.
Definition expire_at (now : timespec) (timeout_ms : Z) : timespec :=
  let sec := i64 (tv_sec now + timeout_ms / 1000) in
  let nsec := i64 (tv_nsec now + timeout_ms mod 1000 * 1000000) in
  if nsec >=? 1000000000 then mk_ts (i64 (sec + 1)) (nsec - 1000000000) else mk_ts sec nsec.

Definition rpc_expired (now : timespec) (e : rpc_pending_entry_t) : bool :=
  (tv_sec now >? tv_sec (rp_expire e)) ||
  ((tv_sec now =? tv_sec (rp_expire e)) && (tv_nsec now >=? tv_nsec (rp_expire e))).

(** What a reply callback can do. *)
Record rpc_call := mk_rpc_call {
  rc_method : option bytes;
  rc_data : option bytes;
  rc_len : Z;
  rc_timeout : Z;
  rc_now : timespec;
}.

Section requester.
Context {W : Type} `{OsOps W}.
Implicit Types (q : ssn_rpc_req_t) (w : W).

(** References of the request: the name's length is cut to 16 bits, the data's
    to 32. *)
Definition method_ref (name : bytes) : ssn_url_ref_t := mk_url_ref (Some name) (u16 (zlen name)).
Definition payload_ref (data : option bytes) (len : Z) : ssn_data_ref_t := mk_data_ref data (u32 len).

Definition ssn_rpc_call q (method_name data : option bytes) (data_len timeout_ms : Z) (now : timespec) w
  : option (Z * ssn_rpc_req_t * W) :=
  match method_name, rq_transport q with
  | Some name, Some t =>
    match pending_pool_alloc q with
    | None => Some (-1, q, w)
    | Some (i, q) =>
      let seqno := next_seqno q in
      let q := rq_set_next q (u16 (next_seqno q + 1)) in
      match seqno_loop (Z.to_nat (RPC_MAX_PENDING + 1)) q seqno with
      | (None, q) => Some (-1, pending_pool_free q i, w)
      | (Some seqno, q) =>
        let timeout := if timeout_ms =? 0 then RPC_DEFAULT_TIMEOUT_MS else timeout_ms in
        let e := mk_rpc_entry seqno timeout (on_reply q) (rq_user_data q) (expire_at now timeout) true in
        let q := rq_set_pool q (<[i := e]> (rpc_pool q)) in
        match ssn_send_message t (ssn_create_header SSN_MSG_TYPE_RPC_REQUEST 0 seqno)
                (Some (method_ref name)) (Some (payload_ref data data_len)) w with
        | None => None
        | Some (ok, _, t, w) =>
          let q := rq_set_transport q (Some t) in
          if ok then Some (0, q, w) else Some (-1, pending_pool_free q i, w)
        end
      end
    end
  | _, _ => Some (-1, q, w)
  end.

Fixpoint run_rpc_calls (cs : list rpc_call) q w : option (ssn_rpc_req_t * W) :=
  match cs with
  | [] => Some (q, w)
  | c :: cs =>
    match ssn_rpc_call q (rc_method c) (rc_data c) (rc_len c) (rc_timeout c) (rc_now c) w with
    | Some (_, q, w) => run_rpc_calls cs q w
    | None => None
    end
  end.

Context (user : rpc_event -> ssn_rpc_req_t -> W -> list rpc_call).

Definition fire_rpc (e : rpc_event) q w : option (ssn_rpc_req_t * W) :=
  let q := rq_set_fired q (rq_fired q ++ [e]) in run_rpc_calls (user e q w) q w.

Definition ssn_rpc_handle_reply q (pkt : bytes) w : option (Z * ssn_rpc_req_t * W) :=
  let hdr := header_of_bytes pkt in
  if negb (h_msg_type hdr =? SSN_MSG_TYPE_RPC_REQUEST) then Some (0, q, w)
  else
    let seqno := ssn_get_seqno hdr in
    match pending_pool_find q seqno with
    | None => Some (0, q, w)
    | Some i =>
      let e := nth i (rpc_pool q) rpc_entry_zero in
      if rp_callback e =? 0 then Some (1, pending_pool_free q i, w)
      else match ssn_get_data pkt with
      | None => None
      | Some data =>
        match fire_rpc (mk_rpc_event (rp_callback e) (rp_arg e) seqno (ssn_get_status hdr) data) q w with
        | Some (q, w) => Some (1, pending_pool_free q i, w)
        | None => None
        end
      end
    end.

Definition rpc_timeout_event (e : rpc_pending_entry_t) : rpc_event :=
  mk_rpc_event (rp_callback e) (rp_arg e) (rp_seqno e) SSN_ECODE_TIMEOUT (mk_data_ref None 0).

(** The sweep over the slots [i], [i+1], ... ([n] of them). *)
Fixpoint expire_slots (n i : nat) (now : timespec) q w : option (ssn_rpc_req_t * W) :=
  match n with
  | O => Some (q, w)
  | S n =>
    let e := nth i (rpc_pool q) rpc_entry_zero in
    if negb (in_use e) then expire_slots n (S i) now q w
    else if rpc_expired now e then
      match (if rp_callback e =? 0 then Some (q, w) else fire_rpc (rpc_timeout_event e) q w) with
      | Some (q, w) => expire_slots n (S i) now (pending_pool_free q i) w
      | None => None
      end
    else expire_slots n (S i) now q w
  end.

(** [ssn_rpc_poll] of a requester: expire, then at most one packet. *)
Definition ssn_rpc_poll_req q (timeout_ms : Z) (now : timespec) w : option (Z * ssn_rpc_req_t * W) :=
  match rq_transport q with
  | None => Some (-1, q, w)
  | Some _ =>
    match expire_slots (Z.to_nat RPC_MAX_PENDING) 0 now q w with
    | None => None
    | Some (q, w) =>
      match rq_transport q with
      | None => None
      | Some t =>
        let '(len, buf, t, w) := ssn_transport_recv t SSN_MAX_PACKET_SIZE timeout_ms w in
        let q := rq_set_transport q (Some t) in
        if len <=? 0 then Some (len, q, w)
        else match ssn_packet_input buf len with
        | None => Some (-1, q, w)
        | Some pkt =>
          if negb (h_msg_type (header_of_bytes pkt) =? SSN_MSG_TYPE_RPC_REQUEST) then Some (0, q, w)
          else match ssn_rpc_handle_reply q pkt w with
          | Some (_, q, w) => Some (1, q, w)
          | None => None
          end
        end
      end
    end
  end.
End requester.

(** ** The replier *)

Record rpc_method_entry_t := mk_method_entry { me_name : bytes; me_handler : Z; me_arg : Z }.

(** A request handed to [on_request]: the method is passed as a bare pointer into
    the packet, kept as the readable bytes from there on. *)
Record rpc_request := mk_rpc_request {
  rr_seqno : Z;
  rr_method : option bytes;
  rr_data : ssn_data_ref_t;
  rr_arg : Z;
}.

Record ssn_rpc_rep_t (T : Type) := mk_rpc_rep {
  rep_transport : option ssn_transport_t;
  rep_user_data : Z;
  on_request : Z;
  method_table : T;
  method_count : Z;
  rep_entries : Z;
  rep_requests : list rpc_request;
}.
Arguments mk_rpc_rep {T} _ _ _ _ _ _ _.
Arguments rep_transport {T} _.
Arguments rep_user_data {T} _.
Arguments on_request {T} _.
Arguments method_table {T} _.
Arguments method_count {T} _.
Arguments rep_entries {T} _.
Arguments rep_requests {T} _.

(** The pointer to the URL inside a packet, NULL for an empty one. *)
Definition url_pointer (pkt : bytes) : option bytes :=
  if ssn_get_url_length (header_of_bytes pkt) >? 0 then Some (zdrop SSN_HEADER_SIZE pkt) else None.

Section replier.
Context {T : Type} `{StrMap rpc_method_entry_t T}.
Implicit Types p : ssn_rpc_rep_t T.

Definition rep_set_transport p t := mk_rpc_rep t (rep_user_data p) (on_request p) (method_table p)
  (method_count p) (rep_entries p) (rep_requests p).
Definition rep_set_table p (t : T) c n := mk_rpc_rep (rep_transport p) (rep_user_data p) (on_request p) t c n
  (rep_requests p).
Definition rep_set_requests p l := mk_rpc_rep (rep_transport p) (rep_user_data p) (on_request p) (method_table p)
  (method_count p) (rep_entries p) l.

Definition ssn_rpc_bind p (t : option ssn_transport_t) : Z * ssn_rpc_rep_t T :=
  match t with None => (-1, p) | Some t => (0, rep_set_transport p (Some t)) end.

(** [entry_ok]: the entry could be allocated. *)
Definition ssn_rpc_register (entry_ok malloc_ok strdup_ok : bool) p (method_name : option bytes)
    (handler arg : Z) : option (Z * ssn_rpc_rep_t T) :=
  match method_name with
  | None => Some (-1, p)
  | Some name =>
    if handler =? 0 then Some (-1, p)
    else if negb entry_ok then Some (-1, p)
    else match sm_set malloc_ok strdup_ok (method_table p) name
                 (Some (mk_method_entry (ztake 63 name) handler arg)) with
    | None => None
    | Some (false, _) => Some (-1, p)
    | Some (true, t) => Some (0, rep_set_table p t (u64 (method_count p + 1)) (rep_entries p + 1))
    end
  end.

Definition ssn_rpc_unregister p (method_name : option bytes) : option (Z * ssn_rpc_rep_t T) :=
  match method_name with
  | None => Some (-1, p)
  | Some name =>
    match sm_get (method_table p) name with
    | None => None
    | Some None => Some (-1, p)
    | Some (Some _) =>
      match sm_remove (method_table p) name with
      | None => None
      | Some (_, t) => Some (0, rep_set_table p t (u64 (method_count p - 1)) (rep_entries p - 1))
      end
    end
  end.

Definition ssn_rpc_handle_request p (pkt : bytes) : option (Z * ssn_rpc_rep_t T) :=
  let hdr := header_of_bytes pkt in
  if negb (h_msg_type hdr =? SSN_MSG_TYPE_RPC_REQUEST) then Some (0, p)
  else if on_request p =? 0 then Some (0, p)
  else match ssn_get_url pkt, ssn_get_data pkt with
  | Some _, Some data =>
    Some (1, rep_set_requests p (rep_requests p ++
               [mk_rpc_request (ssn_get_seqno hdr) (url_pointer pkt) data (rep_user_data p)]))
  | _, _ => None
  end.
End replier.

Section replier_io.
Context {W T : Type} `{OsOps W} `{StrMap rpc_method_entry_t T}.
Implicit Types (p : ssn_rpc_rep_t T) (w : W).

Definition ssn_rpc_response p (seqno status : Z) (data : option bytes) (data_len : Z) w
  : option (Z * ssn_rpc_rep_t T * W) :=
  match rep_transport p with
  | None => Some (-1, p, w)
  | Some t =>
    match ssn_send_message t (ssn_create_header SSN_MSG_TYPE_RPC_REQUEST status seqno) None
            (Some (payload_ref data data_len)) w with
    | None => None
    | Some (ok, _, t, w) => Some (if ok then 0 else -1, rep_set_transport p (Some t), w)
    end
  end.

(** [ssn_rpc_poll] of a replier. *)
Definition ssn_rpc_poll_rep p (timeout_ms : Z) w : option (Z * ssn_rpc_rep_t T * W) :=
  match rep_transport p with
  | None => Some (-1, p, w)
  | Some t =>
    let '(len, buf, t, w) := ssn_transport_recv t SSN_MAX_PACKET_SIZE timeout_ms w in
    let p := rep_set_transport p (Some t) in
    if len <=? 0 then Some (len, p, w)
    else match ssn_packet_input buf len with
    | None => Some (-1, p, w)
    | Some pkt =>
      match ssn_rpc_handle_request p pkt with Some (_, p) => Some (1, p, w) | None => None end
    end
  end.
End replier_io.

(** The concrete replier, with the hash table. *)
Definition ssn_rpc_rep_create (calloc_ok malloc_ok buckets_ok : bool) (callback arg : Z)
  : option (option (ssn_rpc_rep_t (ssn_hash_table rpc_method_entry_t))) :=
  if negb calloc_ok then Some None
  else match ssn_hash_table_create malloc_ok buckets_ok 16 with
  | None => None
  | Some None => Some None
  | Some (Some t) => Some (Some (mk_rpc_rep None arg callback t 0 0 []))
  end.

(** Destroying frees the table's nodes and keys: the bytes are the freed keys. *)
Definition ssn_rpc_destroy_rep (p : ssn_rpc_rep_t (ssn_hash_table rpc_method_entry_t)) : option (list bytes) :=
  ssn_hash_table_destroy (method_table p).
