(* ===== verification/RpcProps.v ===== *)
(** * RPC contexts: pool invariant, calls, replies and expiry

    Numbers in flight are pairwise different, whatever the reply callbacks call;
    a call that is sent has a fresh number and always finds one when a slot is
    free; a reply ends exactly its own request. *)
From S2P Require Import Prelude FrameCodec HashTable ErrorCode Os Transport FrameSend Rpc.

(** ** Invariant *)

Definition in_flight (q : ssn_rpc_req_t) : list rpc_pending_entry_t :=
  filter (fun e => in_use e = true) (rpc_pool q).
Definition flight_numbers (q : ssn_rpc_req_t) : list Z := map rp_seqno (in_flight q).

Record rpc_inv (q : ssn_rpc_req_t) : Prop := {
  ri_len : zlen (rpc_pool q) = RPC_MAX_PENDING;
  ri_nodup : NoDup (flight_numbers q);
  ri_next : 0 <= next_seqno q < 2 ^ 16;
  ri_cfg : match rq_transport q with Some t => cfg_ok t | None => True end;
}.

(** Entries in use stay where they are, and a connected context connected. *)
Definition keeps (q q' : ssn_rpc_req_t) : Prop :=
  (forall i e, rpc_pool q !! i = Some e -> in_use e = true -> rpc_pool q' !! i = Some e) /\
  (is_Some (rq_transport q) -> is_Some (rq_transport q')).

#[global] Instance keeps_preorder : PreOrder keeps.
Proof. split; [done|]. intros q1 q2 q3 [H1 T1] [H2 T2]. split; auto. Qed.

(** ** The pool *)

Section pool.
Implicit Types q : ssn_rpc_req_t.

Lemma find_none q s : pending_pool_find q s = None <-> s ∉ flight_numbers q.
Proof.
  unfold pending_pool_find. rewrite fmap_None, list_find_None, Forall_forall. split.
  - intros Hall (e & -> & [Hu He]%list_elem_of_filter)%list_elem_of_fmap. by destruct (Hall e He).
  - intros Hn e He [Hu <-]. apply Hn, list_elem_of_fmap. exists e. split; [done|]. by apply list_elem_of_filter.
Qed.

Lemma find_some q s i :
  pending_pool_find q s = Some i ->
  exists e, rpc_pool q !! i = Some e /\ in_use e = true /\ rp_seqno e = s.
Proof.
  unfold pending_pool_find. intros ([j e] & Hf & ->)%fmap_Some.
  apply list_find_Some in Hf as (Hi & [? ?] & _). by exists e.
Qed.

Lemma nth_pool q i e : rpc_pool q !! i = Some e -> nth i (rpc_pool q) rpc_entry_zero = e.
Proof. intros Hi. by apply nth_lookup_Some with (d := rpc_entry_zero) in Hi. Qed.

Lemma free_pool q i e :
  rpc_pool q !! i = Some e -> rpc_pool (pending_pool_free q i) = <[i := rpc_entry_used e false]> (rpc_pool q).
Proof.
  intros Hi. cbn. rewrite list_insert_alter. apply list_alter_ext; [|done]. intros x Hx. congruence.
Qed.

(** Releasing an entry in use takes exactly it out. *)
Lemma free_in_flight q i e :
  rpc_pool q !! i = Some e -> in_use e = true ->
  in_flight q ≡ₚ e :: in_flight (pending_pool_free q i) /\ zlen (rpc_pool (pending_pool_free q i)) = zlen (rpc_pool q).
Proof.
  intros Hi He. unfold in_flight. rewrite (free_pool q i e Hi). split.
  - by apply filter_insert_gone.
  - unfold zlen. by rewrite length_insert.
Qed.

Lemma free_inv q i e :
  rpc_inv q -> rpc_pool q !! i = Some e -> in_use e = true -> rpc_inv (pending_pool_free q i).
Proof.
  intros [Hl Hn ? ?] Hi He. destruct (free_in_flight q i e Hi He) as [Hp Hz]. split; try done; [by rewrite Hz|].
  unfold flight_numbers in *. rewrite Hp in Hn. by inversion_clear Hn.
Qed.

(** ** Numbers *)

Lemma u16_shift_inj n i j :
  0 <= n < 2 ^ 16 -> 0 <= i < 2 ^ 16 -> 0 <= j < 2 ^ 16 -> u16 (n + i) = u16 (n + j) -> i = j.
Proof. unfold u16. intros. Z.to_euclidean_division_equations. lia. Qed.

(** A list cannot hold more consecutive numbers than it is long. *)
Lemma consecutive_fresh (l : list Z) s :
  0 <= s < 2 ^ 16 -> zlen l < 2 ^ 16 -> ~ (forall i, 0 <= i <= zlen l -> u16 (s + i) ∈ l).
Proof.
  intros Hs Hl Hall. set (ns := map (fun i => u16 (s + Z.of_nat i)) (seq 0 (S (length l)))).
  assert (NoDup ns) as Hnd.
  { apply NoDup_fmap_2_strong; [|apply NoDup_seq]. intros i j Hi Hj Eij. apply elem_of_seq in Hi, Hj.
    apply u16_shift_inj in Eij; unfold zlen in *; lia. }
  assert (length ns <= length l)%nat as Hle.
  { apply NoDup_incl_length; [by apply NoDup_ListNoDup|]. intros x Hx%list_elem_of_In. apply list_elem_of_In.
    apply list_elem_of_fmap in Hx as (i & -> & Hi%elem_of_seq). apply Hall. unfold zlen. lia. }
  subst ns. rewrite length_map, length_seq in Hle. lia.
Qed.

Lemma seqno_loop_some n q s s' q' :
  seqno_loop (S n) q s = (Some s', q') -> 0 <= next_seqno q < 2 ^ 16 ->
  pending_pool_find q s' = None /\ exists m, q' = rq_set_next q m /\ 0 <= m < 2 ^ 16.
Proof.
  revert q s. induction n as [|n IH]; intros q s E Hn.
  - cbn in E. destruct (pending_pool_find q s) eqn:Ef; simplify_eq. split; [done|].
    exists (next_seqno q'). split; [by destruct q'|done].
  - cbn [seqno_loop] in E. destruct (pending_pool_find q s) eqn:Ef.
    + apply IH in E as [Hf (m & -> & Hm)]; [|apply u16_range]. split; [exact Hf|]. by exists m.
    + simplify_eq. split; [done|]. exists (next_seqno q'). split; [by destruct q'|done].
Qed.

Lemma seqno_loop_none n q s q' :
  seqno_loop (S n) q s = (None, q') -> 0 <= s < 2 ^ 16 -> next_seqno q = u16 (s + 1) ->
  forall i, 0 <= i <= Z.of_nat n -> u16 (s + i) ∈ flight_numbers q.
Proof.
  assert (forall q s, pending_pool_find q s <> None -> s ∈ flight_numbers q) as Hin.
  { intros q0 s0 Hf. destruct (decide (s0 ∈ flight_numbers q0)) as [|Hx]; [done|]. by apply find_none in Hx. }
  revert q s. induction n as [|n IH]; intros q s E Hs Hn i Hi; cbn [seqno_loop] in E;
    (destruct (pending_pool_find q s) eqn:Ef; [|done]).
  - replace i with 0 by lia. rewrite Z.add_0_r, u16_id by lia. apply Hin. congruence.
  - destruct (Z.eqb_spec i 0) as [->|Hi0].
    { rewrite Z.add_0_r, u16_id by lia. apply Hin. congruence. }
    rewrite Hn in E. specialize (IH _ (u16 (s + 1)) E (u16_range _) eq_refl (i - 1) ltac:(lia)).
    assert (u16 (u16 (s + 1) + (i - 1)) = u16 (s + i)) as Eu; [|by rewrite Eu in IH].
    unfold u16. rewrite Zplus_mod_idemp_l. f_equal. lia.
Qed.

(** With 256 entries at most, 257 tries always find a free number. *)
Lemma seqno_found q s :
  0 <= s < 2 ^ 16 -> next_seqno q = u16 (s + 1) -> zlen (rpc_pool q) = RPC_MAX_PENDING ->
  exists s' m, seqno_loop (Z.to_nat (RPC_MAX_PENDING + 1)) q s = (Some s', rq_set_next q m) /\
    (s' ∉ flight_numbers q) /\ 0 <= m < 2 ^ 16.
Proof.
  intros Hs Hn Hl. change (Z.to_nat (RPC_MAX_PENDING + 1)) with (S 256).
  destruct (seqno_loop (S 256) q s) as [[s'|] q'] eqn:E.
  - apply seqno_loop_some in E as [Hf (m & -> & Hm)]; [|rewrite Hn; apply u16_range].
    exists s', m. split; [done|]. split; [by apply find_none|done].
  - exfalso. assert (zlen (flight_numbers q) <= 256) as Hle.
    { unfold flight_numbers, in_flight, zlen in *. rewrite length_map.
      pose proof (length_filter (fun e => in_use e = true) (rpc_pool q)). unfold RPC_MAX_PENDING in Hl. lia. }
    apply (consecutive_fresh (flight_numbers q) s Hs); [lia|]. intros i Hi.
    apply (seqno_loop_none 256 q s q' E Hs Hn i). lia.
Qed.
End pool.

(** ** Calls *)

Section calls.
Context {W : Type} `{OsLaws W}.
Implicit Types (q : ssn_rpc_req_t) (w : W).

Definition payload_ok (data : option bytes) (len : Z) : Prop :=
  match data with Some b => u32 len <= zlen b | None => True end.

(** The packet of a call. *)
Definition request_frame (seqno : Z) (name : bytes) (data : option bytes) (len : Z) : bytes :=
  frame SSN_MSG_TYPE_RPC_REQUEST 0 seqno (url_bytes (Some (method_ref name)))
    (data_bytes (Some (payload_ref data len))).

(** Why a call fails. *)
Definition call_failed q (name data : option bytes) (len : Z) w w' : Prop :=
  name = None \/ rq_transport q = None \/ zlen (in_flight q) = RPC_MAX_PENDING \/
  (exists n, name = Some n /\ refused (Some (method_ref n)) (Some (payload_ref data len)) /\ w' = w) \/
  exists t n seqno k, rq_transport q = Some t /\ name = Some n /\
    0 <= k < zlen (request_frame seqno n data len) /\
    os_tx w' (sock_fd (impl t)) = os_tx w (sock_fd (impl t)) ++ ztake k (request_frame seqno n data len).

(** What a call leaves behind. *)
Definition call_post q (name data : option bytes) (len : Z) w (r : Z) q' w' : Prop :=
  (r = -1 /\ in_flight q' = in_flight q /\ call_failed q name data len w w') \/
  (r = 0 /\ exists n t e, name = Some n /\ rq_transport q = Some t /\ in_flight q' ≡ₚ e :: in_flight q /\
     (rp_seqno e ∉ flight_numbers q) /\ rp_callback e = on_reply q /\ rp_arg e = rq_user_data q /\
     os_tx w' (sock_fd (impl t)) = os_tx w (sock_fd (impl t)) ++ request_frame (rp_seqno e) n data len).

Lemma method_refs_ok name data len :
  payload_ok data len -> refs_ok (Some (method_ref name)) (Some (payload_ref data len)).
Proof.
  intros Hd. pose proof (u16_range (zlen name)). pose proof (u32_range len). pose proof (zlen_nonneg name).
  split; cbn; (split; [lia|]).
  - unfold u16. apply Z.mod_le; lia.
  - exact Hd.
Qed.

(** No free entry: all are in flight. *)
Lemma alloc_full q : pending_pool_alloc q = None -> in_flight q = rpc_pool q.
Proof.
  unfold pending_pool_alloc, in_flight. destruct (list_find _ _) as [[i e]|] eqn:E; [done|]. intros _.
  apply filter_all. intros e He. apply list_find_None in E. rewrite Forall_forall in E.
  specialize (E e He). by destruct (in_use e).
Qed.

(** The entry taken was free, and is now in use with its old contents. *)
Lemma alloc_some q i q1 :
  pending_pool_alloc q = Some (i, q1) ->
  exists e, rpc_pool q !! i = Some e /\ in_use e = false /\ q1 = rq_set_pool q (<[i := rpc_entry_used e true]> (rpc_pool q)).
Proof.
  unfold pending_pool_alloc. destruct (list_find _ _) as [[j e]|] eqn:E; [|done]. intros ?; simplify_eq.
  apply list_find_Some in E as (Hi & Hf & _). by exists e.
Qed.

(** Filling the entry taken, and giving it back. *)
Lemma fill_pool q i e0 e :
  rpc_pool q !! i = Some e0 -> in_use e0 = false -> in_use e = true ->
  let pool := <[i := e]> (<[i := rpc_entry_used e0 true]> (rpc_pool q)) in
  filter (fun e => in_use e = true) pool ≡ₚ e :: in_flight q /\
  filter (fun e => in_use e = true) (alter (fun e => rpc_entry_used e false) i pool) = in_flight q /\
  zlen pool = zlen (rpc_pool q) /\
  (forall j x, rpc_pool q !! j = Some x -> in_use x = true -> j <> i).
Proof.
  intros Hi Hf He pool. subst pool. rewrite list_insert_insert_eq.
  pose proof (lookup_lt_Some _ _ _ Hi) as Hlt. split_and!.
  - apply filter_insert_new with (x := e0); [done|congruence|done].
  - rewrite list_insert_alter, list_alter_alter_eq.
    change (alter _ i (rpc_pool q)) with (alter (fun _ => rpc_entry_used e false) i (rpc_pool q)).
    rewrite <- list_insert_alter. apply filter_insert_same with (x := e0); [done|congruence|done].
  - unfold zlen. by rewrite length_insert.
  - intros j x Hj Hx ->. congruence.
Qed.

Lemma rpc_call_spec q name data len timeout now w :
  rpc_inv q -> payload_ok data len ->
  exists r q' w', ssn_rpc_call q name data len timeout now w = Some (r, q', w') /\ rpc_inv q' /\ keeps q q' /\
    rq_fired q' = rq_fired q /\ call_post q name data len w r q' w'.
Proof.
  intros Hi Hd. unfold ssn_rpc_call, call_post.
  destruct name as [name|]; [|exists (-1), q, w; split_and!; [done..|]; left; by repeat split; left].
  destruct (rq_transport q) as [t|] eqn:Et;
    [|exists (-1), q, w; split_and!; [done..|]; left; repeat split; right; by left].
  destruct (pending_pool_alloc q) as [[i q1]|] eqn:Ea.
  2:{ exists (-1), q, w. split_and!; [done..|]. left. repeat split. right; right; left.
      rewrite (alloc_full q Ea). apply (ri_len q Hi). }
  apply alloc_some in Ea as (e0 & Hi0 & Hf0 & ->). destruct Hi as [Hl Hnd Hn Hcfg]. rewrite Et in Hcfg.
  set (q1 := rq_set_next _ _).
  destruct (seqno_found q1 (next_seqno q) Hn eq_refl) as (s & m & Es & Hs & Hm).
  { cbn. unfold zlen in *. by rewrite length_insert. }
  cbn [next_seqno rq_set_pool]. rewrite Es. cbv zeta iota.
  set (e := mk_rpc_entry s _ _ _ _ true). set (url := Some (method_ref name)). set (dat := Some (payload_ref data len)).
  destruct (fill_pool q i e0 e Hi0 Hf0 eq_refl) as (Hin & Hback & Hlen & Hother).
  assert (s ∉ flight_numbers q) as Hfresh.
  { intros Hx. apply Hs. unfold flight_numbers, in_flight in *. cbn [rpc_pool rq_set_next rq_set_pool q1].
    rewrite (filter_insert_new _ _ i e0 (rpc_entry_used e0 true) Hi0) by (done || congruence). by right. }
  destruct (send_frame_spec t SSN_MSG_TYPE_RPC_REQUEST 0 s url dat w (method_refs_ok name data len Hd)
    (send_timeout_range t Hcfg)) as (ok & hdr & t' & w' & -> & Hout).
  assert (cfg_ok t') as Hcfg'.
  { destruct Hout as [(_ & _ & -> & _)|(_ & _ & _ & _ & Hc & _)]; [done|]. unfold cfg_ok. by rewrite Hc. }
  set (pool := <[i := e]> _) in *. set (q2 := rq_set_transport _ (Some t')).
  assert (keeps q q2 /\ keeps q (pending_pool_free q2 i)) as [Hk1 Hk2].
  { split; (split; [intros j x Hj Hx; pose proof (Hother j x Hj Hx) as Hne; cbn; subst pool;
      rewrite ?list_lookup_alter_ne, !list_lookup_insert_ne by done; done|by eexists]). }
  destruct ok.
  - destruct Hout as [(_ & ? & _)|(_ & Hp)]; [done|]. apply loop_post_bytes in Hp.
    exists 0, q2, w'. split; [done|]. split; [|split; [done|split; [done|right; split; [done|]]]].
    + split; cbn; try done; [congruence|]. unfold flight_numbers, in_flight. cbn.
      rewrite Hin. constructor; [done|exact Hnd].
    + by exists name, t, e.
  - exists (-1), (pending_pool_free q2 i), w'. split; [done|]. split; [|split; [done|split; [done|left]]].
    + split; cbn; try done; [unfold zlen in *; rewrite length_alter; congruence|].
      unfold flight_numbers, in_flight. cbn. rewrite Hback. exact Hnd.
    + split; [done|]. split; [exact Hback|]. right; right; right.
      destruct Hout as [(Hr & _ & _ & ->)|(_ & Hp)]; [left; by exists name|].
      apply loop_post_bytes in Hp as (k & Hk & Htx). right. by exists t, name, s, k.
Qed.
End calls.

(** ** Replies and expiry *)

Section replies.
Context {W : Type} `{OsLaws W}.
Context (user : rpc_event -> ssn_rpc_req_t -> W -> list rpc_call).
Hypothesis user_ok : forall e q w, Forall (fun c => payload_ok (rc_data c) (rc_len c)) (user e q w).
Implicit Types (q : ssn_rpc_req_t) (w : W).

(** Calls made by a callback only add entries. *)
Definition grows q q' : Prop :=
  rpc_inv q' /\ keeps q q' /\ exists new, in_flight q' ≡ₚ new ++ in_flight q.

Lemma grows_refl q : rpc_inv q -> grows q q.
Proof. intros Hi. split; [done|]. split; [done|]. by exists []. Qed.
Lemma grows_trans q1 q2 q3 : grows q1 q2 -> grows q2 q3 -> grows q1 q3.
Proof.
  intros (_ & Hk1 & n1 & Hp1) (Hi & Hk2 & n2 & Hp2). split; [done|]. split; [by trans q2|].
  exists (n2 ++ n1). by rewrite Hp2, Hp1, app_assoc.
Qed.

Lemma run_calls_spec cs q w :
  rpc_inv q -> Forall (fun c => payload_ok (rc_data c) (rc_len c)) cs ->
  exists q' w', run_rpc_calls cs q w = Some (q', w') /\ grows q q' /\ rq_fired q' = rq_fired q.
Proof.
  revert q w. induction cs as [|c cs IH]; intros q w Hi Hc; cbn [run_rpc_calls].
  { exists q, w. split; [done|]. split; [by apply grows_refl|done]. }
  inversion_clear Hc as [|? ? Hc1 Hcs].
  destruct (rpc_call_spec q (rc_method c) (rc_data c) (rc_len c) (rc_timeout c) (rc_now c) w Hi Hc1)
    as (r & q1 & w1 & -> & Hi1 & Hk1 & Hf1 & Hpost).
  destruct (IH q1 w1 Hi1 Hcs) as (q2 & w2 & -> & Hg2 & Hf2). exists q2, w2. split; [done|].
  split; [|congruence]. apply (grows_trans q q1); [|done]. split; [done|]. split; [done|].
  destruct Hpost as [(_ & E & _)|(_ & n & t & e & _ & _ & E & _)]; [exists []; by rewrite E|by exists [e]].
Qed.

Lemma fire_spec e q w :
  rpc_inv q -> exists q' w', fire_rpc user e q w = Some (q', w') /\ grows q q' /\ rq_fired q' = rq_fired q ++ [e].
Proof.
  intros Hi. unfold fire_rpc. set (q1 := rq_set_fired q _).
  assert (rpc_inv q1) as Hi1 by (by destruct Hi; split).
  destruct (run_calls_spec (user e q1 w) q1 w Hi1 (user_ok _ _ _)) as (q' & w' & -> & Hg & Hf).
  exists q', w'. split; [done|]. split; [exact Hg|by rewrite Hf].
Qed.

(** An entry that ends: its callback, then its release. *)
Lemma end_entry q q' w i e :
  rpc_pool q !! i = Some e -> in_use e = true -> grows q q' ->
  rpc_inv (pending_pool_free q' i) /\
  exists new, new ++ in_flight q ≡ₚ e :: in_flight (pending_pool_free q' i).
Proof.
  intros Hi He (Hinv & [Hk _] & new & Hp). pose proof (Hk i e Hi He) as Hi'.
  split; [by eapply free_inv|]. exists new. rewrite <- Hp. by apply free_in_flight.
Qed.

Lemma handle_reply_spec q pkt w :
  rpc_inv q -> is_Some (ssn_get_data pkt) ->
  exists r q' w', ssn_rpc_handle_reply user q pkt w = Some (r, q', w') /\ rpc_inv q' /\
    ((r = 0 /\ q' = q /\ w' = w /\ (h_msg_type (header_of_bytes pkt) <> SSN_MSG_TYPE_RPC_REQUEST \/
        ssn_get_seqno (header_of_bytes pkt) ∉ flight_numbers q)) \/
     (r = 1 /\ exists e new data, h_msg_type (header_of_bytes pkt) = SSN_MSG_TYPE_RPC_REQUEST /\
        rp_seqno e = ssn_get_seqno (header_of_bytes pkt) /\ ssn_get_data pkt = Some data /\
        new ++ in_flight q ≡ₚ e :: in_flight q' /\
        rq_fired q' = rq_fired q ++ (if rp_callback e =? 0 then [] else
          [mk_rpc_event (rp_callback e) (rp_arg e) (rp_seqno e) (ssn_get_status (header_of_bytes pkt)) data]))).
Proof.
  intros Hi [data Hd]. unfold ssn_rpc_handle_reply.
  destruct (Z.eqb_spec (h_msg_type (header_of_bytes pkt)) SSN_MSG_TYPE_RPC_REQUEST) as [Ht|Ht]; cbn [negb].
  2:{ exists 0, q, w. split; [done|]. split; [done|]. left. auto. }
  destruct (pending_pool_find q _) as [i|] eqn:Ef.
  2:{ exists 0, q, w. split; [done|]. split; [done|]. left. apply find_none in Ef. auto. }
  apply find_some in Ef as (e & Hpool & Hu & Hs). rewrite (nth_pool q i e Hpool), Hd, <- Hs.
  destruct (rp_callback e =? 0) eqn:Ecb.
  - destruct (end_entry q q w i e Hpool Hu (grows_refl q Hi)) as (Hi' & new & Hp).
    exists 1, (pending_pool_free q i), w. split; [done|]. split; [done|]. right. split; [done|].
    exists e, new, data. rewrite Ecb, app_nil_r. done.
  - destruct (fire_spec (mk_rpc_event (rp_callback e) (rp_arg e) (rp_seqno e)
      (ssn_get_status (header_of_bytes pkt)) data) q w Hi) as (q1 & w1 & -> & Hg & Hf).
    destruct (end_entry q q1 w i e Hpool Hu Hg) as (Hi' & new & Hp).
    exists 1, (pending_pool_free q1 i), w1. split; [done|]. split; [done|]. right. split; [done|].
    exists e, new, data. rewrite Ecb. done.
Qed.

(** The sweep is defined for every [user], and keeps the invariant. *)
Lemma expire_slots_inv n : forall i now q w,
  rpc_inv q -> exists q' w', expire_slots user n i now q w = Some (q', w') /\ rpc_inv q' /\
    (is_Some (rq_transport q) -> is_Some (rq_transport q')).
Proof.
  induction n as [|n IH]; intros i now q w Hi; cbn [expire_slots]; [by exists q, w|].
  destruct (rpc_pool q !! i) as [e|] eqn:Ei.
  2:{ assert (nth i (rpc_pool q) rpc_entry_zero = rpc_entry_zero) as ->.
      { apply nth_overflow. by apply lookup_ge_None. } by apply IH. }
  rewrite (nth_pool q i e Ei). destruct (in_use e) eqn:Eu; cbn [negb]; [|by apply IH].
  destruct (rpc_expired now e); [|by apply IH].
  assert (exists q1 w1, (if rp_callback e =? 0 then Some (q, w) else fire_rpc user (rpc_timeout_event e) q w)
    = Some (q1, w1) /\ grows q q1) as (q1 & w1 & -> & Hg).
  { destruct (_ =? 0); [exists q, w; split; [done|by apply grows_refl]|].
    destruct (fire_spec (rpc_timeout_event e) q w Hi) as (q1 & w1 & -> & ? & _). by exists q1, w1. }
  destruct (end_entry q q1 w i e Ei Eu Hg) as (Hi1 & _). destruct Hg as (_ & [_ Ht] & _).
  destruct (IH (S i) now (pending_pool_free q1 i) w1 Hi1) as (q' & w' & -> & ? & Ht'). exists q', w'. auto.
Qed.

Lemma poll_req_spec q ms now w :
  rpc_inv q -> exists r q' w', ssn_rpc_poll_req user q ms now w = Some (r, q', w') /\ rpc_inv q'.
Proof.
  intros Hi. unfold ssn_rpc_poll_req. destruct (rq_transport q) as [t|] eqn:Et; [|by eexists _, _, _].
  destruct (expire_slots_inv (Z.to_nat RPC_MAX_PENDING) 0 now q w Hi) as (q1 & w1 & -> & Hi1 & Ht1).
  destruct Ht1 as [t1 Et1]; [by rewrite Et|]. rewrite Et1.
  pose proof (recv_config t1 SSN_MAX_PACKET_SIZE ms w1) as Hc.
  destruct (ssn_transport_recv t1 SSN_MAX_PACKET_SIZE ms w1) as [[[len buf] t2] w2]. cbn in Hc.
  assert (rpc_inv (rq_set_transport q1 (Some t2))) as Hi2.
  { destruct Hi1 as [? ? ? Hcfg]. split; try done. cbn. rewrite Et1 in Hcfg. unfold cfg_ok in *. congruence. }
  destruct (len <=? 0); [by eexists _, _, _|].
  destruct (ssn_packet_input buf len) as [pkt|] eqn:Ep; [|by eexists _, _, _].
  destruct (negb _); [by eexists _, _, _|].
  apply packet_input_fields in Ep as (-> & _ & Hd).
  destruct (handle_reply_spec _ buf w2 Hi2 Hd) as (r & q3 & w3 & -> & Hi3 & _). by eexists _, _, _.
Qed.
End replies.

(** ** Exact expiry, for callbacks that make no calls *)

Definition no_calls {W} : rpc_event -> ssn_rpc_req_t -> W -> list rpc_call := fun _ _ _ => [].

(** One entry after the sweep, and the callback it makes. *)
Definition sweep (now : timespec) (e : rpc_pending_entry_t) : rpc_pending_entry_t :=
  if in_use e && rpc_expired now e then rpc_entry_used e false else e.
Definition sweep_event (now : timespec) (e : rpc_pending_entry_t) : option rpc_event :=
  if in_use e && rpc_expired now e && negb (rp_callback e =? 0) then Some (rpc_timeout_event e) else None.

Lemma expire_slots_exact {W} `{OsOps W} rest : forall pre now q (w : W),
  rpc_pool q = pre ++ rest ->
  expire_slots no_calls (length rest) (length pre) now q w
  = Some (rq_set_fired (rq_set_pool q (pre ++ map (sweep now) rest)) (rq_fired q ++ omap (sweep_event now) rest), w).
Proof.
  induction rest as [|e rest IH]; intros pre now q w Hq; cbn [length expire_slots].
  { rewrite app_nil_r in Hq. cbn. rewrite !app_nil_r, <- Hq. by destruct q. }
  rewrite Hq, nth_middle. cbn [map omap list_omap]. unfold sweep at 1, sweep_event at 1.
  assert (forall e' q', rpc_pool q' = pre ++ e' :: rest ->
    expire_slots no_calls (length rest) (S (length pre)) now q' w
    = Some (rq_set_fired (rq_set_pool q' (pre ++ e' :: map (sweep now) rest))
              (rq_fired q' ++ omap (sweep_event now) rest), w)) as Hnext.
  { intros e' q' Hq'. specialize (IH (pre ++ [e']) now q' w). rewrite <- !app_assoc, length_app, Nat.add_1_r in IH.
    by apply IH. }
  destruct (in_use e) eqn:Eu; cbn [negb andb]; [|by apply Hnext].
  destruct (rpc_expired now e); cbn [andb]; [|by apply Hnext].
  assert (forall q', rpc_pool q' = rpc_pool q -> rpc_pool (pending_pool_free q' (length pre)) = pre ++ rpc_entry_used e false :: rest)
    as Hfree.
  { intros q' Hq'. rewrite (free_pool q' (length pre) e) by (rewrite Hq', Hq; by apply list_lookup_middle).
    rewrite Hq', Hq. by rewrite insert_app_r_alt, Nat.sub_diag by done. }
  destruct (rp_callback e =? 0) eqn:Ecb; cbn [negb].
  - rewrite (Hnext (rpc_entry_used e false)) by (by apply Hfree). done.
  - cbn [fire_rpc no_calls run_rpc_calls]. rewrite (Hnext (rpc_entry_used e false)) by (by apply Hfree).
    cbn. by rewrite <- app_assoc.
Qed.

(** ** A new requester *)

Lemma none_in_flight n : filter (fun e => in_use e = true) (replicate n rpc_entry_zero) = [].
Proof. induction n as [|n IH]; [done|]. cbn [replicate]. by rewrite filter_cons_False. Qed.
Lemma new_req_inv n arg cb fired :
  n = Z.to_nat RPC_MAX_PENDING -> rpc_inv (mk_rpc_req None arg cb 1 (replicate n rpc_entry_zero) fired).
Proof.
  intros ->. split; cbn [rpc_pool next_seqno rq_transport]; [| |lia|done].
  - unfold zlen. rewrite length_replicate. apply Z2Nat.id. unfold RPC_MAX_PENDING. lia.
  - unfold flight_numbers, in_flight. cbn [rpc_pool]. rewrite none_in_flight. constructor.
Qed.
