(* ===== verification/RpcClaims.v ===== *)
(** * RPC contexts: claims

    Reachable requesters, calls, replies, expiry; the method registry of the
    replier against the interface of string maps. *)
From S2P Require Import Prelude FrameCodec HashTable ErrorCode Os Transport FrameSend Rpc RpcProps.

(** ** Reachable requesters *)

Section reach.
Context {W : Type} `{OsLaws W}.
Context (user : rpc_event -> ssn_rpc_req_t -> W -> list rpc_call).

Inductive rpc_reach : ssn_rpc_req_t -> Prop :=
  | rreach_init cb arg q : ssn_rpc_req_create true true cb arg = Some q -> rpc_reach q
  | rreach_connect q t : rpc_reach q -> cfg_ok t -> rpc_reach (ssn_rpc_connect q (Some t)).2
  | rreach_call q name data len timeout now w r q' w' : rpc_reach q -> payload_ok data len ->
      ssn_rpc_call q name data len timeout now w = Some (r, q', w') -> rpc_reach q'
  | rreach_reply q pkt w r q' w' : rpc_reach q -> is_Some (ssn_get_data pkt) ->
      ssn_rpc_handle_reply user q pkt w = Some (r, q', w') -> rpc_reach q'
  | rreach_poll q ms now w r q' w' : rpc_reach q ->
      ssn_rpc_poll_req user q ms now w = Some (r, q', w') -> rpc_reach q'.

Hypothesis user_ok : forall e q w, Forall (fun c => payload_ok (rc_data c) (rc_len c)) (user e q w).

Lemma rpc_reach_inv q : rpc_reach q -> rpc_inv q.
Proof.
  induction 1 as [cb arg q E|q t _ IH Ht|q name data len timeout now w r q' w' _ IH Hd E|q pkt w r q' w' _ IH Hd E
    |q ms now w r q' w' _ IH E].
  - unfold ssn_rpc_req_create in E. cbn [negb] in E. apply (inj Some) in E as <-. by apply new_req_inv.
  - destruct IH. by split.
  - destruct (rpc_call_spec q name data len timeout now w IH Hd) as (r2 & q2 & w2 & E2 & ? & _). by simplify_eq.
  - destruct (handle_reply_spec user user_ok q pkt w IH Hd) as (r2 & q2 & w2 & E2 & ? & _). by simplify_eq.
  - destruct (poll_req_spec user user_ok q ms now w IH) as (r2 & q2 & w2 & E2 & ?). by simplify_eq.
Qed.
End reach.

(** ** Claims *)

(** C40.  In every reachable requester, whatever the reply callbacks call, the
    sequence numbers in flight are pairwise different and at most 256, and a
    further poll is defined. *)
Theorem rpc_numbers_unique {W} `{OsLaws W} (user : rpc_event -> ssn_rpc_req_t -> W -> list rpc_call)
    (q : ssn_rpc_req_t) (ms : Z) (now : timespec) (w : W) :
  (forall e q w, Forall (fun c => payload_ok (rc_data c) (rc_len c)) (user e q w)) -> rpc_reach user q ->
  NoDup (flight_numbers q) /\ zlen (in_flight q) <= RPC_MAX_PENDING /\
  is_Some (ssn_rpc_poll_req user q ms now w).
Proof.
  intros Hu Hr. pose proof (rpc_reach_inv user Hu q Hr) as Hi. split; [apply (ri_nodup q Hi)|]. split.
  - pose proof (ri_len q Hi). unfold in_flight, zlen in *.
    pose proof (length_filter (fun e => in_use e = true) (rpc_pool q)). lia.
  - destruct (poll_req_spec user Hu q ms now w Hi) as (r & q' & w' & -> & _). by eexists.
Qed.

(** Calls: a call returns 0 or -1.  With 0 exactly one entry was added, under
    a number that was not in flight, and the whole request frame with this number
    was written.  With -1 the entries in flight are as before, and the reason is a
    NULL name, no connection, 256 requests in flight, refused arguments, or a
    connection that took only part of the frame; running out of numbers is never
    one. *)
Theorem rpc_call_outcome {W} `{OsLaws W} (q : ssn_rpc_req_t) (name data : option bytes) (len timeout : Z)
    (now : timespec) (w : W) :
  rpc_inv q -> payload_ok data len ->
  exists r q' w', ssn_rpc_call q name data len timeout now w = Some (r, q', w') /\ rpc_inv q' /\
    call_post q name data len w r q' w'.
Proof.
  intros Hi Hd. destruct (rpc_call_spec q name data len timeout now w Hi Hd)
    as (r & q' & w' & E & Hi' & _ & _ & Hpost). by exists r, q', w'.
Qed.

(** Replies: a reply whose number is in flight ends exactly the entry that
    carries it, with one callback that gets the reply's status and payload;
    entries the callback adds stay.  Any other packet changes nothing. *)
Theorem rpc_reply_ends_its_request {W} `{OsLaws W} (user : rpc_event -> ssn_rpc_req_t -> W -> list rpc_call)
    (q : ssn_rpc_req_t) (pkt : bytes) (data : ssn_data_ref_t) (w : W) :
  (forall e q w, Forall (fun c => payload_ok (rc_data c) (rc_len c)) (user e q w)) ->
  rpc_inv q -> ssn_get_data pkt = Some data ->
  exists r q' w', ssn_rpc_handle_reply user q pkt w = Some (r, q', w') /\ rpc_inv q' /\
    ((r = 0 /\ q' = q /\ w' = w /\ (h_msg_type (header_of_bytes pkt) <> SSN_MSG_TYPE_RPC_REQUEST \/
        ssn_get_seqno (header_of_bytes pkt) ∉ flight_numbers q)) \/
     (r = 1 /\ exists e new, rp_seqno e = ssn_get_seqno (header_of_bytes pkt) /\
        new ++ in_flight q ≡ₚ e :: in_flight q' /\
        rq_fired q' = rq_fired q ++ (if rp_callback e =? 0 then [] else
          [mk_rpc_event (rp_callback e) (rp_arg e) (rp_seqno e) (ssn_get_status (header_of_bytes pkt)) data]))).
Proof.
  intros Hu Hi Hd. destruct (handle_reply_spec user Hu q pkt w Hi) as (r & q' & w' & E & Hi' & Hout); [by rewrite Hd|].
  exists r, q', w'. split; [done|]. split; [done|].
  destruct Hout as [?|(-> & e & new & data' & _ & Hs & Hd' & Hp & Hf)]; [by left|]. simplify_eq.
  right. split; [done|]. by exists e, new.
Qed.

(** Expiry: a poll that receives nothing ends exactly the requests whose time
    is over, calling each of them back once with the timeout status, in the order
    of their slots, and keeps the others. *)
Theorem rpc_poll_expires {W} `{OsLaws W} (q : ssn_rpc_req_t) (t t' : ssn_transport_t) (ms : Z) (now : timespec)
    (w w' : W) (len : Z) (buf : bytes) :
  rpc_inv q -> rq_transport q = Some t ->
  ssn_transport_recv t SSN_MAX_PACKET_SIZE ms w = (len, buf, t', w') -> len <= 0 ->
  exists q', ssn_rpc_poll_req no_calls q ms now w = Some (len, q', w') /\
    in_flight q' = filter (fun e => rpc_expired now e = false) (in_flight q) /\
    rq_fired q' = rq_fired q ++ map rpc_timeout_event
      (filter (fun e => rpc_expired now e && negb (rp_callback e =? 0) = true) (in_flight q)).
Proof.
  intros Hi Ht Hr Hlen. unfold ssn_rpc_poll_req. rewrite Ht.
  assert (Z.to_nat RPC_MAX_PENDING = length (rpc_pool q)) as ->.
  { pose proof (ri_len q Hi). unfold zlen in *. lia. }
  rewrite (expire_slots_exact (rpc_pool q) [] now q w eq_refl). cbn [rq_transport rq_set_fired rq_set_pool].
  rewrite Ht, Hr. destruct (Z.leb_spec len 0); [|lia]. eexists. split; [done|].
  cbn [rq_fired rq_set_fired rq_set_pool rq_set_transport in_flight rpc_pool app]. unfold in_flight.
  cbn [rq_fired rq_set_fired rq_set_pool rq_set_transport in_flight rpc_pool app]. split.
  - clear. induction (rpc_pool q) as [|e l IH]; [done|]. cbn [map]. unfold sweep at 1.
    destruct (in_use e) eqn:Eu; cbn [andb].
    + rewrite (filter_cons_True _ e) by done. destruct (rpc_expired now e) eqn:Ee.
      * rewrite !filter_cons_False by (cbn; congruence). exact IH.
      * rewrite !filter_cons_True by done. by rewrite IH.
    + rewrite !(filter_cons_False _ e) by congruence. exact IH.
  - f_equal. clear. induction (rpc_pool q) as [|e l IH]; [done|]. cbn [omap list_omap]. unfold sweep_event at 1.
    destruct (in_use e) eqn:Eu; cbn [andb].
    + rewrite (filter_cons_True _ e) by done.
      destruct (rpc_expired now e && negb (rp_callback e =? 0)) eqn:Ee.
      * rewrite filter_cons_True by done. cbn [map]. by rewrite <- IH.
      * rewrite filter_cons_False by congruence. exact IH.
    + rewrite (filter_cons_False _ e) by congruence. exact IH.
Qed.

(** The method registry, for every table that implements a string map: a
    registration fails without a trace when memory runs out, and otherwise binds
    the name to the new handler; removing a name answers 0 and unbinds it exactly
    when it is bound.  [rep_entries] shows the memory: it grows with every
    registration, also with one that replaces an entry, whose memory is lost. *)
Theorem rpc_registry_refines {T} `{StrMapLaws rpc_method_entry_t T} (p : ssn_rpc_rep_t T)
    (m : gmap bytes rpc_method_entry_t) (name : bytes) :
  sm_repr (method_table p) (Some <$> m) ->
  (forall handler arg entry_ok malloc_ok strdup_ok, handler <> 0 ->
     exists r p', ssn_rpc_register entry_ok malloc_ok strdup_ok p (Some name) handler arg = Some (r, p') /\
       if negb entry_ok || bool_decide (m !! name = None) && negb (malloc_ok && strdup_ok)
       then r = -1 /\ p' = p
       else r = 0 /\ rep_entries p' = rep_entries p + 1 /\
         sm_repr (method_table p') (Some <$> <[name := mk_method_entry (ztake 63 name) handler arg]> m) /\
         sm_size (method_table p') =
           sm_size (method_table p) + (if bool_decide (m !! name = None) then 1 else 0)) /\
  (exists r p', ssn_rpc_unregister p (Some name) = Some (r, p') /\
     if bool_decide (m !! name = None) then r = -1 /\ p' = p
     else r = 0 /\ rep_entries p' = rep_entries p - 1 /\
       sm_repr (method_table p') (Some <$> delete name m) /\
       sm_size (method_table p') = sm_size (method_table p) - 1).
Proof.
  intros Hr. pose proof (sm_size_ok _ _ Hr) as Hsz. rewrite map_size_fmap in Hsz.
  assert (bool_decide ((Some <$> m : gmap _ (option rpc_method_entry_t)) !! name = None)
    = bool_decide (m !! name = None)) as Eb.
  { apply bool_decide_ext. by rewrite lookup_fmap, fmap_None. }
  split.
  - intros handler arg eo mo so Hh. cbn [ssn_rpc_register].
    destruct (Z.eqb_spec handler 0) as [|_]; [done|]. destruct eo; cbn [negb orb]; [|by eexists _, _].
    set (e := mk_method_entry _ _ _). pose proof (sm_set_ok _ _ name (Some e) mo so Hr) as Hset. rewrite Eb in Hset.
    destruct (bool_decide _ && _); [rewrite Hset; by eexists _, _|]. destruct Hset as (t' & -> & Hr').
    eexists _, _. split; [done|]. cbn. rewrite fmap_insert. split_and!; [done..|].
    rewrite (sm_size_ok _ _ Hr'), Hsz, <- fmap_insert, map_size_fmap, map_size_insert.
    clear -Hsz. destruct (m !! name); case_bool_decide; try done; cbn; lia.
  - cbn [ssn_rpc_unregister]. rewrite (sm_get_ok _ _ name Hr), lookup_fmap.
    pose proof (sm_remove_ok _ _ name Hr) as Hrm. rewrite Eb in Hrm.
    destruct (m !! name) as [e|] eqn:Em; cbn [fmap option_fmap option_map default].
    + rewrite bool_decide_false in * by done. destruct Hrm as (t' & -> & Hr'). eexists _, _. split; [done|]. cbn.
      rewrite fmap_delete. split_and!; [done..|].
      rewrite (sm_size_ok _ _ Hr'), Hsz, <- fmap_delete, map_size_fmap, map_size_delete, Em.
      assert (size m <> 0%nat) by (apply map_size_non_empty_iff; intros ->; done). lia.
    + rewrite bool_decide_true by done. by eexists _, _.
Qed.

(** The bytes a callback finds at the URL pointer of a packet. *)
Lemma url_pointer_wire (p : packet) :
  packet_ok p -> p_url p <> [] -> url_pointer (wire p) = Some (p_url p ++ p_data p).
Proof.
  intros (Ht & _ & _ & Hu & Hf) Hne. unfold url_pointer, wire, frame.
  rewrite header_of_bytes_of_header by (by apply frame_header_ok).
  pose proof (zlen_nonneg (p_url p)). unfold ssn_get_url_length. cbn [h_url_len ssn_set_data_length ssn_set_url_length].
  rewrite ntohs_htons by lia. destruct (Z.gtb_spec (zlen (p_url p)) 0) as [_|Hz].
  - done.
  - destruct (p_url p); [done|]. unfold zlen in Hz. cbn in Hz. lia.
Qed.
Lemma cstr_no_nul b : (0 ∉ b) -> cstr b = b.
Proof.
  induction b as [|c b IH]; [done|]. intros [Hc Hb]%not_elem_of_cons. cbn.
  destruct (Z.eqb_spec c 0); [congruence|]. by rewrite IH.
Qed.

(** A request callback gets the method name as a pointer into the packet,
    without its length and without a terminator: read as a C string, the name of a
    request is its name followed by its payload. *)
Theorem request_name_runs_into_payload {T} `{StrMap rpc_method_entry_t T} (p : ssn_rpc_rep_t T) (pkt : packet) :
  packet_ok pkt -> p_type pkt = SSN_MSG_TYPE_RPC_REQUEST -> on_request p <> 0 ->
  p_url pkt <> [] -> (0 ∉ p_url pkt) -> (0 ∉ p_data pkt) ->
  exists p' req data, ssn_rpc_handle_request p (wire pkt) = Some (1, p') /\
    rep_requests p' = rep_requests p ++ [mk_rpc_request (p_seqno pkt) (Some req) data (rep_user_data p)] /\
    cstr req = p_url pkt ++ p_data pkt.
Proof.
  intros Hp Ht Ho Hne Hu Hd. destruct (packet_fields pkt Hp) as (Hty & _ & Hs & EU & ED).
  unfold ssn_rpc_handle_request. unfold ssn_get_msg_type in Hty. rewrite Hty, Ht, Z.eqb_refl. cbn [negb].
  destruct (Z.eqb_spec (on_request p) 0) as [|_]; [done|]. rewrite EU, ED, Hs, url_pointer_wire by done.
  eexists _, _, _. split; [done|]. split; [done|]. apply cstr_no_nul. rewrite elem_of_app. tauto.
Qed.

(** ** Witnesses *)

(** A connected requester with nothing in flight, and one with one request. *)
Definition demo_req : ssn_rpc_req_t :=
  mk_rpc_req (Some (demo_transport 5)) 0 7 1 (replicate (Z.to_nat RPC_MAX_PENDING) rpc_entry_zero) [].
Definition demo_flying : ssn_rpc_req_t :=
  rq_set_pool demo_req (<[0%nat := mk_rpc_entry 258 1000 7 0 (mk_ts 1 0) true]> (rpc_pool demo_req)).

Lemma demo_req_inv : rpc_inv demo_req.
Proof.
  destruct (new_req_inv _ 0 7 [] eq_refl) as [Hl Hn Hx _]. split; [exact Hl|exact Hn|exact Hx|]. cbn. vm_compute. by split.
Qed.
Lemma demo_flying_inv : rpc_inv demo_flying.
Proof.
  destruct demo_req_inv as [Hl Hn Hx Hc]. split; [by vm_compute| |exact Hx|exact Hc].
  vm_compute. repeat constructor. by intros ?%elem_of_nil.
Qed.
Definition quiet_user : rpc_event -> ssn_rpc_req_t -> sim_world -> list rpc_call := no_calls.

Lemma rpc_numbers_unique_witness :
  exists q, rpc_reach quiet_user q /\ is_Some (rq_transport q) /\ NoDup (flight_numbers q).
Proof.
  assert (rpc_reach quiet_user demo_req) as Hr.
  { refine (rreach_connect quiet_user _ (demo_transport 5) (rreach_init quiet_user 7 0 _ eq_refl) _).
    vm_compute. by split. }
  exists demo_req. split; [exact Hr|]. split; [by eexists|].
  refine (proj1 (rpc_numbers_unique quiet_user demo_req 0 (mk_ts 0 0) (sim_init [] []) _ Hr)).
  intros. constructor.
Defined.

Lemma rpc_call_outcome_witness :
  exists r q' w',
    ssn_rpc_call demo_req (Some [97; 98]) (Some [1; 2; 3]) 3 0 (mk_ts 0 0) (sim_init [4; 0] []) = Some (r, q', w') /\
    rpc_inv q' /\ call_post demo_req (Some [97; 98]) (Some [1; 2; 3]) 3 (sim_init [4; 0] []) r q' w'.
Proof. apply (rpc_call_outcome demo_req); [exact demo_req_inv|]. vm_compute. discriminate. Defined.

(** A reply with number 258 ends the request. *)
Lemma rpc_reply_ends_its_request_witness :
  exists q' w', ssn_rpc_handle_reply quiet_user demo_flying (wire (mk_packet 1 9 258 [] [1; 2])) (sim_init [] [])
    = Some (1, q', w') /\ in_flight q' = [].
Proof.
  destruct (rpc_reply_ends_its_request quiet_user demo_flying (wire (mk_packet 1 9 258 [] [1; 2]))
    (mk_data_ref (Some [1; 2]) 2) (sim_init [] [])) as (r & q' & w' & E & Hi & Hout);
    [intros; constructor|exact demo_flying_inv|reflexivity|].
  destruct Hout as [(_ & _ & _ & [Ht|Hs])|(-> & e & new & Hs & Hp & Hf)].
  - exfalso. apply Ht. reflexivity.
  - exfalso. apply Hs. vm_compute. left.
  - exists q', w'. split; [exact E|]. vm_compute in E. apply (inj Some) in E. simplify_eq. reflexivity.
Defined.

(** At 2 s the request that expires at 1 s is failed. *)
Lemma rpc_poll_expires_witness :
  exists q', ssn_rpc_poll_req no_calls demo_flying 0 (mk_ts 2 0) (sim_init [] []) = Some (0, q', sim_init [] []) /\
    in_flight q' = [] /\ rq_fired q' = [mk_rpc_event 7 0 258 SSN_ECODE_TIMEOUT (mk_data_ref None 0)].
Proof.
  destruct (ssn_transport_recv (demo_transport 5) SSN_MAX_PACKET_SIZE 0 (sim_init [] [])) as [[[len buf] t'] w'] eqn:E.
  destruct (rpc_poll_expires demo_flying (demo_transport 5) t' 0 (mk_ts 2 0) (sim_init [] []) w' len buf
    demo_flying_inv eq_refl E) as (q' & Hp & Hin & Hf).
  - vm_compute in E. simplify_eq. discriminate.
  - exists q'. rewrite Hp, Hin, Hf. vm_compute in E. simplify_eq. split; [reflexivity|]. vm_compute. by split.
Defined.

(** A new replier. *)
Definition demo_rep : ssn_rpc_rep_t (ssn_hash_table rpc_method_entry_t) :=
  match ssn_rpc_rep_create true true true 7 0 with
  | Some (Some p) => p
  | _ => mk_rpc_rep None 0 0 (mk_table [] 0 0) 0 0 []
  end.
Lemma demo_rep_repr : sm_repr (method_table demo_rep) (Some <$> (∅ : gmap bytes rpc_method_entry_t)).
Proof. rewrite fmap_empty. apply (table_ok_empty skey sok str_hash_index 16). reflexivity. Qed.
Lemma rpc_registry_refines_witness :
  exists r p', ssn_rpc_register true true true demo_rep (Some [97]) 5 0 = Some (r, p') /\ r = 0.
Proof.
  destruct (rpc_registry_refines demo_rep ∅ [97] demo_rep_repr) as [Hreg _].
  destruct (Hreg 5 0 true true true ltac:(discriminate)) as (r & p' & E & Hout).
  exists r, p'. split; [exact E|]. apply Hout.
Defined.

Lemma request_name_runs_into_payload_witness :
  exists p' req data,
    ssn_rpc_handle_request demo_rep (wire (mk_packet 1 0 258 [97; 98] [49; 50])) = Some (1, p') /\
    rep_requests p' = rep_requests demo_rep ++ [mk_rpc_request 258 (Some req) data (rep_user_data demo_rep)] /\
    cstr req = [97; 98; 49; 50].
Proof.
  apply (request_name_runs_into_payload demo_rep (mk_packet 1 0 258 [97; 98] [49; 50]));
    [repeat split; vm_compute; discriminate || reflexivity|reflexivity|vm_compute; discriminate|discriminate|..];
    cbn; intros Hx; repeat (apply elem_of_cons in Hx as [Hx|Hx]; [discriminate Hx|]); by apply elem_of_nil in Hx.
Defined.
