(* ===== verification/ClientLive.v ===== *)
(** * Client: life time under gentle callbacks, and ping

    Callbacks that do not close the client leave it valid and its descriptors
    where they are.  On such a client [ssn_client_ping], which polls without a
    reference of its own, is defined and ends within its time. *)
From S2P Require Import Prelude FrameCodec ErrorCode Os Transport Address FrameSend EventPair Server ServerTable ServerProps ClientPending Client ClientProps ClientTheorems.

(** ** What no operation changes *)

(** The valid flag, the event's descriptor; the socket is the same or gone; a lost
    connection stays lost. *)
Definition socket_of (c : ssn_client) : Z :=
  match cl_transport c with Some t => sock_fd (impl t) | None => -1 end.
Definition steady (c c' : ssn_client) : Prop :=
  cl_valid c' = cl_valid c /\ evt_fd (cl_evt c') = evt_fd (cl_evt c) /\
  (socket_of c' = socket_of c \/ socket_of c' < 0) /\ (connected c = false -> connected c' = false).
#[global] Instance steady_preorder : PreOrder steady.
Proof.
  split; [intros c; unfold steady; auto|].
  intros c1 c2 c3 (? & ? & Hs1 & ?) (? & ? & Hs2 & ?). split_and!; [congruence..| |auto].
  destruct Hs2 as [->|?]; [|by right]. destruct Hs1 as [->|?]; auto.
Qed.

(** Equal in all that [steady] looks at. *)
Lemma steady_same c c' :
  cl_valid c' = cl_valid c -> cl_evt c' = cl_evt c -> cl_transport c' = cl_transport c ->
  connected c' = connected c -> steady c c'.
Proof. intros Hv He Ht Hc. unfold steady, socket_of. rewrite He, Ht, Hc. auto. Qed.

Section setters.
Implicit Types c : ssn_client.
Lemma steady_ref c : steady c (ssn_client_ref c).
Proof. by apply steady_same. Qed.
Lemma steady_pend c t : steady c (cl_set_pend c t).
Proof. by apply steady_same. Qed.
Lemma steady_seqnos c s n : steady c (cl_set_seqnos c s n).
Proof. by apply steady_same. Qed.
Lemma steady_subs c l : steady c (cl_set_subs c l).
Proof. by apply steady_same. Qed.
Lemma steady_connected c : steady c (cl_set_connected c false).
Proof. unfold steady, socket_of. cbn. auto. Qed.
Lemma steady_history c r l : steady c (cl_set_history c r l).
Proof. by apply steady_same. Qed.
Lemma steady_recv c r : steady c (cl_set_recv c r).
Proof. by apply steady_same. Qed.
End setters.
#[global] Hint Resolve steady_ref steady_pend steady_seqnos steady_subs steady_connected steady_history steady_recv : ssn.

Definition gentle (q : client_call) : Prop := match q with CcClose => False | _ => True end.

(** ** Operations *)

Section ops.
Context {W : Type} `{OsOps W}.
Implicit Types (c : ssn_client) (w : W).

Lemma send_fd t b w n t' w' : ssn_transport_send t b w = (n, t', w') -> sock_fd (impl t') = sock_fd (impl t).
Proof.
  unfold ssn_transport_send, unix_transport_send, tcp_transport_send, udp_transport_send, stream_send, touch.
  intros E. repeat case_match; simplify_eq; done.
Qed.
Lemma recv_fd t n ms w r b t' w' :
  ssn_transport_recv t n ms w = (r, b, t', w') -> sock_fd (impl t') = sock_fd (impl t).
Proof.
  unfold ssn_transport_recv, unix_transport_recv, tcp_transport_recv, udp_transport_recv, stream_recv, finish_recv, touch.
  intros E. repeat case_match; simplify_eq; done.
Qed.
Lemma disconnect_fd t w b t' w' : ssn_transport_disconnect t w = (b, t', w') -> sock_fd (impl t') < 0.
Proof.
  unfold ssn_transport_disconnect, unix_transport_disconnect, tcp_transport_disconnect, udp_transport_disconnect, close_fd.
  intros E. destruct (ops t), (Z.geb_spec (sock_fd (impl t)) 0); repeat case_match; simplify_eq; cbn; lia.
Qed.
Lemma send_loop_fd fuel t b sent dl fd w ok t' w' :
  send_loop fuel t b sent dl fd w = Some (ok, t', w') -> sock_fd (impl t') = sock_fd (impl t).
Proof.
  revert t sent dl w. induction fuel as [|fuel IH]; intros t sent dl w E; cbn [send_loop] in E; [done|].
  destruct (sent <? zlen b); [|by simplify_eq].
  destruct (ssn_transport_send t (zdrop sent b) w) as [[n t1] w1] eqn:Es. apply send_fd in Es.
  repeat case_match; simplify_eq; try done; apply IH in E; congruence.
Qed.
Lemma send_message_fd t h u d w ok h' t' w' :
  ssn_send_message t h u d w = Some (ok, h', t', w') -> sock_fd (impl t') = sock_fd (impl t).
Proof.
  unfold ssn_send_message. intros E. repeat case_match; simplify_eq; try done. by eapply send_loop_fd.
Qed.

Lemma steady_transport c t t' :
  cl_transport c = Some t -> (sock_fd (impl t') = sock_fd (impl t) \/ sock_fd (impl t') < 0) ->
  steady c (cl_set_transport c (Some t')).
Proof. intros Ht Hs. unfold steady, socket_of. cbn. by rewrite Ht. Qed.

Lemma sendmsg_steady c h u d w r c' w' : ssn_client_sendmsg c h u d w = Some (r, c', w') -> steady c c'.
Proof.
  unfold ssn_client_sendmsg. destruct (cl_transport c) as [t|] eqn:Ht; [|done].
  destruct (ssn_send_message t h u d w) as [[[[ok h'] t1] w1]|] eqn:Es; [|done]. apply send_message_fd in Es.
  destruct ok; [intros ?; simplify_eq; apply (steady_transport c t); auto|].
  destruct (ssn_transport_disconnect t1 w1) as [[b t2] w2] eqn:Ed. apply disconnect_fd in Ed.
  intros ?; simplify_eq. apply (steady_transport c t); auto.
Qed.

Lemma destroy_transport_steady c w : steady c (destroy_transport c w).1.
Proof. unfold destroy_transport. destruct (cl_transport c); [|done]. unfold steady, socket_of. cbn. auto with lia. Qed.
End ops.


(** ** Callbacks *)

(** Unfold this abbreviation before the table walk it stands for. *)
Local Strategy -10 [ssn_client_timeout_all].

Section callbacks.
Context {W : Type} `{OsOps W}.
Context (fire : client_event -> ssn_client -> W -> option (ssn_client * W)).
Hypothesis fire_steady : forall e c w c' w', fire e c w = Some (c', w') -> steady c c'.
Implicit Types (c : ssn_client) (w : W).

Lemma items_steady items c w c' w' : fire_items fire items c w = Some (c', w') -> steady c c'.
Proof.
  revert c w. induction items as [|p items IH]; intros c w E; cbn [fire_items] in E; [by simplify_eq|].
  destruct (failure_event p) as [e|]; [|by apply IH in E].
  destruct (fire e c w) as [[c1 w1]|] eqn:Ef; [|done]. trans c1; eauto.
Qed.
Lemma collect_steady c only w c' w' :
  ssn_client_collect_and_call_pending fire c only w = Some (c', w') -> steady c c'.
Proof.
  unfold ssn_client_collect_and_call_pending. destruct (collect_pending only (pend c)) as [items t].
  intros E%items_steady. trans (cl_set_pend c t); [by apply steady_same|done].
Qed.
Lemma unref_steady c w c' w' : ssn_client_unref fire c w = Some (c', w') -> steady c c'.
Proof.
  unfold ssn_client_unref. destruct (cl_freed c); [done|].
  destruct (_ >? 0); [|intros ?; by simplify_eq].
  destruct (_ && _); [|intros ?; simplify_eq; by apply steady_same].
  set (c1 := cl_set_subs _ []). assert (steady c c1) as Hs1 by (unfold steady, socket_of; cbn; auto). pose proof (destroy_transport_steady c1 w) as Hd.
  destruct (destroy_transport c1 w) as [c2 w2]. cbn in Hd.
  destruct (ssn_client_collect_and_call_pending _ _ _ _) as [[c3 w3]|] eqn:E; [|done].
  apply collect_steady in E. intros ?; simplify_eq. trans c1; [done|].
  trans c2; [done|]. trans c3; [done|]. by apply steady_same.
Qed.

(** A result carries a client that was only moved by steady steps. *)
Lemma finish_steady {A} (r : A) c c1 w c' w' (x : A) :
  steady c c1 -> match ssn_client_unref fire c1 w with Some (c, w) => Some (r, c, w) | None => None end
    = Some (x, c', w') -> steady c c'.
Proof.
  intros Hs E. destruct (ssn_client_unref fire c1 w) as [[c2 w2]|] eqn:Eu; [|done]. apply unref_steady in Eu.
  simplify_eq. by trans c1.
Qed.

Lemma timeout_finish_steady c c1 w b c' w' :
  steady c c1 ->
  match ssn_client_timeout_all fire c1 w with
  | None => None
  | Some (c, w) => match ssn_client_unref fire c w with Some (c, w) => Some (true, c, w) | None => None end
  end = Some (b, c', w') -> steady c c'.
Proof.
  intros Hs E. destruct (ssn_client_timeout_all fire c1 w) as [[c2 w2]|] eqn:Et; [|done].
  unfold ssn_client_timeout_all in Et. apply collect_steady in Et. eapply finish_steady; [|exact E]. by trans c1.
Qed.

Lemma disconnect_steady c w b c' w' : ssn_client_disconnect fire c w = Some (b, c', w') -> steady c c'.
Proof.
  unfold ssn_client_disconnect. destruct (_ || _); [intros ?; by simplify_eq|]. cbv zeta.
  assert (steady c (cl_set_connected (ssn_client_ref c) false)) as Hs.
  { etrans; [apply steady_ref|apply steady_connected]. }
  remember (cl_set_connected (ssn_client_ref c) false) as c1 eqn:E1. clear E1.
  destruct (cl_transport c1) as [t|] eqn:Ht; [|by apply timeout_finish_steady].
  destruct (ssn_transport_disconnect t w) as [[b1 t1] w1] eqn:Ed. apply disconnect_fd in Ed.
  apply timeout_finish_steady. etrans; [exact Hs|]. apply (steady_transport c1 t); auto.
Qed.

Lemma request_steady c ty u d ft cb arg ms w r s c' w' :
  send_request fire c ty u d ft cb arg ms w = Some (r, s, c', w') -> steady c c'.
Proof.
  unfold send_request. intros E.
  assert (forall (r0 : bool) s0 c1 w1, steady c c1 ->
    match ssn_client_unref fire c1 w1 with Some (c, w) => Some (r0, s0, c, w) | None => None end
      = Some (r, s, c', w') -> steady c c') as Hfin.
  { intros r0 s0 c1 w1 Hs E1. destruct (ssn_client_unref fire c1 w1) as [[c2 w2]|] eqn:Eu; [|done].
    apply unref_steady in Eu. simplify_eq. by trans c1. }
  destruct (negb (cb =? 0)).
  - destruct (alloc_pending_index _) as [[i t]|]; [|by eapply Hfin; [|exact E]; apply steady_ref].
    destruct (ssn_client_sendmsg _ _ u d w) as [[[r1 c1] w1]|] eqn:Es; [|done]. apply sendmsg_steady in Es.
    assert (steady c c1) as Hs.
    { etrans; [apply steady_ref|]. etrans; [apply steady_seqnos|]. etrans; [apply steady_pend|]. exact Es. }
    destruct r1; (eapply Hfin; [|exact E]); [done|]. etrans; [exact Hs|]. apply steady_pend.
  - destruct (ssn_client_prepare_seqno (ssn_client_ref c)) as [s1 c1] eqn:Ep.
    assert (steady c c1) as Hs1.
    { unfold ssn_client_prepare_seqno in Ep. destruct (_ =? 0); simplify_eq; (etrans; [apply steady_ref|apply steady_seqnos]). }
    destruct (ssn_client_sendmsg _ _ u d w) as [[[r1 c2] w1]|] eqn:Es; [|done]. apply sendmsg_steady in Es.
    eapply Hfin; [|exact E]. by trans c1.
Qed.

Lemma client_request_steady c ty u d cb arg ms w r c' w' :
  ssn_client_request fire c ty u d cb arg ms w = Some (r, c', w') -> steady c c'.
Proof.
  unfold ssn_client_request, ssn_client_request_ex. destruct (_ || _); [intros ?; by simplify_eq|].
  destruct (send_request _ _ _ _ _ _ _ _ _ _) as [[[[r1 s1] c1] w1]|] eqn:E; [|done]. apply request_steady in E.
  intros ?; by simplify_eq.
Qed.

Lemma subscribe_steady c u cb arg ms w r c' w' :
  ssn_client_subscribe fire c u cb arg ms w = Some (r, c', w') -> steady c c'.
Proof.
  unfold ssn_client_subscribe. destruct (checked_url u); [|intros ?; by simplify_eq].
  destruct (_ || _); [intros ?; by simplify_eq|]. destruct (os_calloc w) as [[] w1]; cbn [negb]; [|intros ?; by simplify_eq].
  intros E%client_request_steady. etrans; [apply steady_subs|exact E].
Qed.

Lemma call_steady q c w c' w' : gentle q -> run_client_call fire q c w = Some (c', w') -> steady c c'.
Proof.
  intros Hg. unfold run_client_call. destruct (cl_freed c); [done|]. destruct q; try done.
  - destruct (ssn_client_subscribe _ _ _ _ _ _ _) as [[[r c1] w1]|] eqn:E; [|done].
    apply subscribe_steady in E. intros ?; by simplify_eq.
  - unfold ssn_client_unsubscribe. destruct (_ || _); [intros ?; by simplify_eq|].
    destruct (checked_url url); [|intros ?; by simplify_eq].
    destruct (ssn_client_request _ _ _ _ _ _ _ _ _) as [[[r c1] w1]|] eqn:E; [|done].
    apply client_request_steady in E. intros ?; simplify_eq. etrans; [apply steady_subs|exact E].
  - unfold ssn_client_call, ssn_client_call_ex. destruct (_ || _); [intros ?; by simplify_eq|].
    destruct (checked_url url); [|intros ?; by simplify_eq].
    destruct (send_request _ _ _ _ _ _ _ _ _ _) as [[[[r1 s1] c1] w1]|] eqn:E; [|done]. apply request_steady in E.
    intros ?; by simplify_eq.
  - unfold ssn_client_message. destruct (_ || _); [intros ?; by simplify_eq|].
    destruct (checked_url url), data; try (intros ?; by simplify_eq).
    destruct (ssn_client_sendmsg _ _ _ _ _) as [[[r c1] w1]|] eqn:Es; [|done]. apply sendmsg_steady in Es.
    destruct (ssn_client_unref fire c1 w1) as [[c2 w2]|] eqn:Eu; [|done]. apply unref_steady in Eu.
    intros ?; simplify_eq. etrans; [apply steady_ref|]. by etrans.
  - unfold ssn_client_set_on_message. destruct (negb _); [intros ?; by simplify_eq|].
    intros E%unref_steady. etrans; [|exact E]. by apply steady_same.
  - unfold ssn_client_set_on_publish. destruct (negb _); [intros ?; by simplify_eq|].
    intros E%unref_steady. etrans; [|exact E]. by apply steady_same.
  - destruct (ssn_client_disconnect fire c w) as [[[b c1] w1]|] eqn:E; [|done]. apply disconnect_steady in E.
    intros ?; by simplify_eq.
Qed.
Lemma calls_steady qs c w c' w' :
  Forall gentle qs -> run_client_calls fire qs c w = Some (c', w') -> steady c c'.
Proof.
  intros Hq. revert c w. induction Hq as [|q qs Hg _ IH]; intros c w E; cbn [run_client_calls] in E; [by simplify_eq|].
  destruct (run_client_call fire q c w) as [[c1 w1]|] eqn:Ec; [|done]. apply call_steady in Ec; [|done].
  trans c1; eauto.
Qed.
End callbacks.

(** ** Polling *)

Section polling.
Context {W : Type} `{OsOps W}.
Context (user : client_event -> ssn_client -> W -> list client_call).
Hypothesis user_gentle : forall e c w, Forall gentle (user e c w).
Implicit Types (c : ssn_client) (w : W).

Lemma fire_steady d e c w c' w' : fire_at user d e c w = Some (c', w') -> steady c c'.
Proof.
  revert e c w c' w'. induction d as [|d IH]; intros e c w c' w' E; cbn [fire_at] in E; [done|].
  etrans; [apply steady_history|]. assert (forall qs, Forall gentle qs ->
    run_client_calls (fire_at user d) qs (cl_set_history c (replied c) (fired c ++ [e])) w = Some (c', w') ->
    steady (cl_set_history c (replied c) (fired c ++ [e])) c') as Hc by (intros; by eapply calls_steady).
  destruct e; [by eapply Hc| |by eapply Hc].
  destruct (_ =? PING_REPLY_CB); [|by eapply Hc]. simplify_eq. apply steady_history.
Qed.

Context (d : nat).
Local Abbreviation fire := (fire_at user d).
Local Definition fs := fire_steady d.

Lemma handle_steady c pkt p w c' w' :
  (if is_response (h_msg_type (header_of_bytes pkt)) then ssn_client_handle_response fire c pkt p w
   else if h_msg_type (header_of_bytes pkt) =? SSN_MSG_TYPE_RPC_REQUEST
   then ssn_client_handle_rpc_response fire c pkt p w else Some (c, w)) = Some (c', w') -> steady c c'.
Proof.
  unfold ssn_client_handle_response, ssn_client_handle_rpc_response.
  destruct (is_response _); [|destruct (_ =? SSN_MSG_TYPE_RPC_REQUEST); [|intros ?; by simplify_eq]];
    (destruct (_ && _); [|intros ?; by simplify_eq]); [apply fs|].
  destruct (ssn_get_data pkt); [apply fs|done].
Qed.

Lemma input_steady pkt c w b c' w' : ssn_client_input fire pkt c w = Some (b, c', w') -> steady c c'.
Proof.
  unfold ssn_client_input.
  assert (forall r, (forall c1 w1, r = Some (c1, w1) -> steady c c1) ->
    match r with Some (c, w) => Some (cl_valid c, c, w) | None => None end = Some (b, c', w') -> steady c c') as Hout.
  { intros [[c1 w1]|] Hr E; [|done]. simplify_eq. by eapply Hr. }
  destruct (_ =? SSN_MSG_TYPE_PUBLISH); [apply Hout|destruct (_ =? SSN_MSG_TYPE_MESSAGE); [apply Hout|]].
  - unfold ssn_client_handle_publish. intros c1 w1 E. destruct (ssn_get_url pkt), (ssn_get_data pkt); try done.
    destruct (publish_target c _) as [[cb arg]|]; [by eapply fs|by simplify_eq].
  - unfold ssn_client_handle_message. intros c1 w1 E. destruct (ssn_get_url pkt), (ssn_get_data pkt); try done.
    destruct (negb _); [by eapply fs|by simplify_eq].
  - destruct (get_pending_snapshot _ _) as [p|]; [|intros ?; by simplify_eq].
    destruct (if is_response _ then _ else _) as [[c1 w1]|] eqn:Eh; [|done]. apply handle_steady in Eh.
    intros ?; simplify_eq. etrans; [exact Eh|]. apply steady_pend.
Qed.

Lemma feed_steady recv b c w ok recv' c' w' :
  stream_inv recv ->
  ssn_stream_feed (client_input_callback fire) recv b (Some (c, w)) = Some (ok, recv', Some (c', w')) -> steady c c'.
Proof.
  intros Hr E.
  destruct (feed_invariant (client_input_callback fire)
    (fun st => match st with Some (c1, _) => steady c c1 | None => True end)) with
    (recv := recv) (buf := b) (st := Some (c, w)) as (ok1 & recv1 & st1 & E1 & _ & Hs); [|done|done|].
  - intros pkt st _ Hst. unfold client_input_callback. destruct st as [[c1 w1]|]; [|done].
    destruct (ssn_client_input fire pkt c1 w1) as [[[b1 c2] w2]|] eqn:Ei; [|done].
    apply input_steady in Ei. cbn. by trans c1.
  - rewrite E in E1. by simplify_eq.
Qed.

Lemma lost_steady c w b c' w' : connection_lost fire c w = Some (b, c', w') -> steady c c'.
Proof.
  unfold connection_lost. destruct (ssn_client_timeout_all _ _ _) as [[c1 w1]|] eqn:E; [|done].
  unfold ssn_client_timeout_all in E. apply (collect_steady _ fs) in E. intros ?; simplify_eq.
  etrans; [apply steady_connected|exact E].
Qed.
Lemma timeouts_steady c rfds w b c' w' : process_timeouts fire c rfds w = Some (b, c', w') -> steady c c'.
Proof.
  unfold process_timeouts. case_bool_decide; [|intros ?; by simplify_eq].
  destruct (ssn_client_collect_and_call_pending _ _ _ _) as [[c1 w1]|] eqn:E; [|done].
  apply (collect_steady _ fs) in E. intros ?; simplify_eq. etrans; [|exact E]. unfold steady, socket_of. cbn. auto.
Qed.

Lemma process_steady c rfds w b c' w' :
  stream_inv (cl_recv c) -> ssn_client_process_events fire c rfds w = Some (b, c', w') -> steady c c'.
Proof.
  intros Hr. unfold ssn_client_process_events. destruct (cl_valid c); cbn [negb]; [|intros ?; by simplify_eq].
  destruct (connected c); [|apply timeouts_steady]. destruct (cl_transport c) as [t|] eqn:Ht; [|apply timeouts_steady].
  destruct (_ && _); [|apply timeouts_steady].
  destruct (ssn_transport_recv t _ 0 w) as [[[num bs] t1] w1] eqn:Er. apply recv_fd in Er.
  assert (steady c (cl_set_transport c (Some t1))) as Hs by (apply (steady_transport c t); auto).
  cbv zeta. change (cl_recv (cl_set_transport c (Some t1))) with (cl_recv c).
  remember (cl_set_transport c (Some t1)) as c1 eqn:E1. clear E1.
  destruct (num >? 0).
  - destruct (ssn_stream_feed _ _ _ _) as [[[ok recv'] [[c2 w2]|]]|] eqn:Ef; try done. apply feed_steady in Ef; [|done].
    destruct ok; [intros E%timeouts_steady|intros E%lost_steady];
      (etrans; [exact Hs|]; etrans; [exact Ef|]; etrans; [apply steady_recv|exact E]).
  - destruct (num =? 0); [intros E%lost_steady; by etrans|].
    destruct (_ && _); [intros E%lost_steady|intros E%timeouts_steady]; by etrans.
Qed.

Lemma poll_steady c ms w r c' w' :
  stream_inv (cl_recv c) -> ssn_client_poll fire c ms w = Some (r, c', w') -> steady c c'.
Proof.
  intros Hr. unfold ssn_client_poll. destruct (cl_freed c); [done|].
  destruct (cl_valid c) eqn:Hv; cbn [negb]; [|intros ?; by simplify_eq].
  destruct (ssn_client_fds _) as [[fds mf]|]; [|done]. destruct (os_pselect fds _ w) as [[cnt ready] w1].
  destruct (cnt >? 0); [|apply (finish_steady _ fs); apply steady_ref].
  destruct (ssn_client_process_events _ _ _ _) as [[[ok c2] w2]|] eqn:E; [|done].
  apply process_steady in E; [|exact Hr].
  set (q := if ok then (c2, w2) else _). assert (steady c2 q.1) as Hq.
  { subst q. destruct ok; [done|]. etrans; [apply steady_connected|apply destroy_transport_steady]. }
  destruct q as [c3 w3]. cbn in Hq. apply (finish_steady _ fs). etrans; [apply steady_ref|]. by etrans.
Qed.
End polling.

(** ** Live clients *)

Definition fds_small (c : ssn_client) : Prop :=
  0 <= evt_fd (cl_evt c) < FD_SETSIZE /\ socket_of c < FD_SETSIZE.
Definition alive (c : ssn_client) : Prop := client_inv 0 c /\ cl_valid c = true.

Lemma steady_small c c' : steady c c' -> fds_small c -> fds_small c'.
Proof. intros (_ & He & Hs & _) [? ?]. split; [by rewrite He|]. unfold FD_SETSIZE in *. destruct Hs as [->|?]; lia. Qed.

Lemma get_fd_small t : ssn_transport_get_fd t = sock_fd (impl t) \/ ssn_transport_get_fd t = -1.
Proof.
  unfold ssn_transport_get_fd, ssn_transport_get_option. destruct (valid t); cbn [negb]; [|auto].
  destruct (ops t); cbn; repeat case_match; auto.
Qed.
Lemma small_fds c : fds_small c -> is_Some (ssn_client_fds c).
Proof.
  intros [[He1 He2] Hs]. unfold ssn_client_fds. destruct (cl_valid c); cbn [negb]; [|done].
  set (fd := if connected c then _ else _).
  assert (fd < FD_SETSIZE) as Hfd.
  { subst fd. unfold socket_of, FD_SETSIZE in *. destruct (connected c); [|lia]. destruct (cl_transport c) as [t|]; [|lia].
    destruct (get_fd_small t) as [->| ->]; lia. }
  cbv zeta. unfold ipc_event_pair_get_read_fd.
  assert (forall x, 0 <= x < FD_SETSIZE -> (0 <=? x) && (x <? FD_SETSIZE) = true) as Hx.
  { intros x ?. destruct (Z.leb_spec 0 x), (Z.ltb_spec x FD_SETSIZE); done || lia. }
  destruct (Z.geb_spec fd 0); cbn [forallb]; rewrite ?(Hx fd), (Hx (evt_fd _)) by lia; by eexists.
Qed.

Section alive.
Context {W : Type} `{OsLaws W}.
Context (user : client_event -> ssn_client -> W -> list client_call).
Hypothesis user_ok : forall e c w, Forall ccall_ok (user e c w).
Hypothesis user_gentle : forall e c w, Forall gentle (user e c w).
Context (d : nat) (g : factory).
Implicit Types (c : ssn_client) (w : W).
Local Abbreviation fire := (fire_at user (S (S d))).
Local Definition fst_ := fire_steady user user_gentle (S (S d)).

(** A valid client is not a released one. *)
Lemma alive_after c c' : alive c -> steady c c' -> client_inv 0 c' \/ client_released c' -> alive c'.
Proof.
  intros [_ Hv] (Hv' & _) [Hi|(_ & Hf & _)]; [|congruence]. split; [done|congruence].
Qed.

Lemma poll_alive c ms w :
  alive c -> fds_small c ->
  exists r c' w', ssn_client_poll fire c ms w = Some (r, c', w') /\ alive c' /\ steady c c'.
Proof.
  intros Ha Hs. pose proof Ha as [Hi Hv]. destruct (small_fds c Hs) as [[fds mf] Hf].
  destruct (client_poll_total user user_ok d c ms w fds mf Hi Hf) as (r & c' & w' & E & _ & Hout).
  pose proof (poll_steady user user_gentle _ _ _ _ _ _ _ (ci_recv 0 c Hi) E) as Hst.
  exists r, c', w'. split; [done|]. split; [by eapply alive_after|done].
Qed.

Lemma call_alive q c w :
  alive c -> ccall_ok q -> gentle q -> exists c' w', run_client_call fire q c w = Some (c', w') /\ alive c' /\ steady c c'.
Proof.
  intros Ha Hq Hg. pose proof Ha as [Hi Hv]. destruct (api_total user d q c w Hi Hq) as (c' & w' & E & Hout).
  pose proof (call_steady _ fst_ q c w c' w' Hg E) as Hst. exists c', w'. split; [done|].
  split; [by eapply alive_after|done].
Qed.
Lemma calls_alive qs c w :
  alive c -> Forall ccall_ok qs -> Forall gentle qs ->
  exists c' w', run_client_calls fire qs c w = Some (c', w') /\ alive c' /\ steady c c'.
Proof.
  intros Ha Hq. revert c w Ha. induction Hq as [|q qs Hok _ IH]; intros c w Ha Hg; cbn [run_client_calls].
  { by exists c, w. }
  inversion_clear Hg as [|? ? Hg1 Hg2]. destruct (call_alive q c w Ha Hok Hg1) as (c1 & w1 & -> & Ha1 & Hs1).
  destruct (IH c1 w1 Ha1 Hg2) as (c2 & w2 & -> & Ha2 & Hs2). exists c2, w2. split; [done|]. split; [done|]. by trans c1.
Qed.

(** Every round of the ping's wait uses up 10 ms. *)
Lemma ping_wait_alive fuel waited timeout_ms c w :
  alive c -> fds_small c -> timeout_ms - waited <= 10 * Z.of_nat fuel ->
  exists c' w', ping_wait fire fuel waited timeout_ms c w = Some (c', w') /\ alive c' /\ steady c c'.
Proof.
  revert waited c w. induction fuel as [|fuel IH]; intros waited c w Ha Hs Hf; cbn [ping_wait].
  - destruct (Z.ltb_spec waited timeout_ms); [lia|]. rewrite andb_false_r. by exists c, w.
  - destruct (_ && _); [|by exists c, w].
    destruct (poll_alive c 10 w Ha Hs) as (r & c1 & w1 & -> & Ha1 & Hs1).
    destruct (IH (waited + 10) c1 w1 Ha1 (steady_small _ _ Hs1 Hs) ltac:(lia)) as (c2 & w2 & -> & ? & ?).
    exists c2, w2. split; [done|]. split; [done|]. by trans c1.
Qed.

Lemma ping_alive c arg timeout_ms w :
  alive c -> fds_small c ->
  exists b c' w', ssn_client_ping fire c arg timeout_ms w = Some (b, c', w') /\ alive c' /\ steady c c'.
Proof.
  intros [Hi Hv] Hs. unfold ssn_client_ping. rewrite Hv. destruct (connected c) eqn:Hc; cbn [negb orb].
  2:{ exists false, c, w. done. }
  unfold ssn_client_request_ex. set (c0 := cl_set_history c false (fired c)).
  assert (client_inv 0 c0) as Hi0 by (by apply inv_set_history).
  change (cl_valid c0) with (cl_valid c). change (connected c0) with (connected c). rewrite Hv, Hc. cbn [negb orb].
  destruct (send_request_good fire 0 c0 SSN_MSG_TYPE_PING_ECHO None None SSN_CLIENT_FTYPE_RES PING_REPLY_CB arg
    timeout_ms w (or_intror (conj (Z.le_refl 0) Hv)) Hi0 Hc) as (r & sq & c1 & w1 & E & Hi1 & _); [done|].
  pose proof (request_steady _ fst_ _ _ _ _ _ _ _ _ _ _ _ _ _ E) as Hs1. rewrite E.
  assert (steady c c1) as Hs01 by (etrans; [apply steady_history|exact Hs1]).
  assert (alive c1) as Ha1. { split; [done|]. destruct Hs01 as (-> & _). done. }
  destruct r; [|by exists false, c1, w1].
  destruct (ping_wait_alive (Z.to_nat (timeout_ms / 10 + 1)) 0 timeout_ms c1 w1 Ha1 (steady_small _ _ Hs01 Hs))
    as (c2 & w2 & -> & Ha2 & Hs2).
  { pose proof (Z.div_mod timeout_ms 10). pose proof (Z.mod_pos_bound timeout_ms 10). lia. }
  assert (steady c c2) as Hs02 by (by trans c1).
  destruct (replied c2); [by exists true, c2, w2|]. rewrite (ci_live 0 c2 (proj1 Ha2)). cbv zeta.
  destruct (Z.eqb_spec (index_of (pend c2) sq) NO_INDEX) as [|Hn]; cbn [negb andb]; [by exists false, c2, w2|].
  destruct (is_bit_set _ _); [|by exists false, c2, w2].
  destruct Ha2 as [Hi2 Hv2]. destruct (pi_map _ (ci_pend 0 c2 Hi2) sq Hn) as (Hr & _).
  exists false, (cl_set_pend c2 (free_pending_index (pend c2) (index_of (pend c2) sq))), w2. split; [done|].
  split; [split; [|done]|etrans; [exact Hs02|apply steady_pend]].
  apply inv_set_pend; [done|]. apply (free_spec (pend c2) _ (ci_pend 0 c2 Hi2) Hr).
Qed.

(** Connecting keeps the client alive; the socket is a new one. *)
Lemma handshake_evt n c t w ok c' t' w' :
  handshake_loop n c t w = Some (ok, c', t', w') -> cl_evt c' = cl_evt c /\ cl_valid c' = cl_valid c.
Proof.
  revert c t w. induction n as [|n IH]; intros c t w E; cbn [handshake_loop] in E; [by simplify_eq|].
  destruct (ssn_transport_recv t _ _ w) as [[[num b] t1] w1]. cbv zeta in E.
  assert (forall num0 c0, cl_evt c0 = cl_evt c -> cl_valid c0 = cl_valid c ->
    (if num0 =? 0 then Some (false, c0, t1, w1)
     else if (num0 <? 0) && negb (os_errno w1 =? EAGAIN) && negb (os_errno w1 =? EWOULDBLOCK)
     then Some (false, c0, t1, w1) else handshake_loop n c0 t1 w1) = Some (ok, c', t', w') ->
    cl_evt c' = cl_evt c /\ cl_valid c' = cl_valid c) as Hretry.
  { intros num0 c0 He Hv E0. case_match; [by simplify_eq|]. case_match; [by simplify_eq|].
    apply IH in E0 as [-> ->]. done. }
  destruct (num >? 0); [|exact (Hretry num c eq_refl eq_refl E)].
  destruct (ssn_stream_feed _ _ _ _) as [[[fok recv] a]|]; [|done].
  destruct fok; cbn [negb] in E; [|exact (Hretry (-1) (cl_set_cid (cl_set_recv c recv) _ _) eq_refl eq_refl E)].
  destruct (packet_cnt a >? 0); [by simplify_eq|]. exact (Hretry num (cl_set_cid (cl_set_recv c recv) _ _) eq_refl eq_refl E).
Qed.
Lemma open_connection_evt c path ms w r c' w' :
  open_connection g c path ms w = Some (r, c', w') -> cl_evt c' = cl_evt c /\ cl_valid c' = cl_valid c.
Proof.
  unfold open_connection. destruct (ssn_address_parse path w) as [[addr|] w1]; [|intros ?; by simplify_eq].
  destruct (ssn_transport_create g _ _ w1) as [[t|] w2]; [|intros ?; by simplify_eq].
  destruct (ssn_transport_connect t addr ms w2) as [[[] t1] w3]; cbn [negb]; [|intros ?; by simplify_eq]. cbv zeta.
  destruct (ssn_client_send _ _ _ _ _) as [[[[] t2] w4]|]; [|intros ?; by simplify_eq|done].
  destruct (handshake_loop _ _ _ _) as [[[[ok c1] t3] w5]|] eqn:E; [|done]. apply handshake_evt in E.
  destruct ok; intros ?; by simplify_eq.
Qed.

Lemma connect_alive c path timeout w :
  alive c -> exists b c' w', ssn_client_connect fire g c path timeout w = Some (b, c', w') /\ alive c' /\
    evt_fd (cl_evt c') = evt_fd (cl_evt c) /\ connect_post c w b c' w'.
Proof.
  intros [Hi Hv]. destruct (client_connect_spec user d g c path timeout w Hi Hv) as (b & c' & w' & E & Hout & Hpost).
  exists b, c', w'. split; [done|].
  assert (cl_valid c' = cl_valid c /\ evt_fd (cl_evt c') = evt_fd (cl_evt c)) as [Hv' He'].
  { unfold ssn_client_connect in E. rewrite Hv in E. cbn [negb] in E.
    assert (steady c (cl_set_connected (ssn_client_ref c) false)) as Hs0.
    { etrans; [apply steady_ref|apply steady_connected]. }
    pose proof (destroy_transport_steady (cl_set_connected (ssn_client_ref c) false) w) as Hs1.
    destruct (destroy_transport _ w) as [c1 w1]. cbn in Hs1.
    destruct (ssn_client_timeout_all fire c1 w1) as [[c2 w2]|] eqn:Et; [|done].
    unfold ssn_client_timeout_all in Et. apply (collect_steady _ fst_) in Et.
    assert (steady c c2) as (Hv2 & He2 & _) by (by trans c1; [trans (cl_set_connected (ssn_client_ref c) false)|]).
    destruct (default (3, 0) timeout) as [sec nsec].
    destruct (open_connection g c2 _ _ w2) as [[[r c3] w3]|] eqn:Eo; [|done]. apply open_connection_evt in Eo as [He3 Hv3].
    assert (forall (r0 : bool) c4 w4, cl_evt c4 = cl_evt c3 -> cl_valid c4 = cl_valid c3 ->
      match ssn_client_unref fire c4 w4 with Some (c, w) => Some (r0, c, w) | None => None end = Some (b, c', w') ->
      cl_valid c' = cl_valid c /\ evt_fd (cl_evt c') = evt_fd (cl_evt c)) as Hfin.
    { intros r0 c4 w4 He4 Hv4 E4. apply (finish_steady _ fst_ r0 c4 c4) in E4 as (Hv5 & He5 & _); [|done].
      split; congruence. }
    destruct r as [t|]; [|by eapply Hfin; [..|exact E]].
    destruct (destroy_transport c3 w3) as [c4 w4] eqn:Ed. eapply Hfin; [..|exact E];
      unfold destroy_transport in Ed; destruct (cl_transport c3); by simplify_eq. }
  assert (cl_valid c' = true) as Hv2 by congruence. split; [|split; [done|by apply Hpost]].
  split; [|done]. destruct Hout as [?|(_ & ? & _)]; [done|congruence].
Qed.
End alive.
