(* ===== verification/CliAuto.v ===== *)
(** * Auto-reconnecting client ([src/src/ssn_cliauto.c])

    A thread around the client: it connects, subscribes to a list of URLs, pings
    to notice dead connections and reconnects.

    - The thread and the application share the record under a mutex.  A step of
      the thread is the code from one acquisition of the mutex up to the next one;
      [auto_pc] names the acquisition the thread stands before.  Sleeping has no
      effect on the state.
    - [ssn_client_auto_stop] gives the mutex back before it joins the thread, so
      it is two steps: [stop_signal] and, once the thread has exited, [stop_join].
    - [onconn] is the application's: [conn_user] says which calls on the client it
      makes.  The header forbids it, and every other callback, to change the
      state of the client or to call the functions of this file.
    - [au_conns] is a history variable, the connection callbacks made so far;
      [au_blocks] counts the heap blocks (address, URL array, URL copies) that are
      allocated and not freed.
    - [None] is undefined behaviour: a NULL client, memory past an array, joining
      a thread that was joined before or never started. *)
From S2P Require Import Prelude FrameCodec ErrorCode Os Transport Address FrameSend EventPair Server ClientPending Client.

(** ** Data *)

Definition SSN_CLIENT_AUTO_MAX_PING_LOST : Z := 3.

Inductive ssn_client_auto_state_t :=
  | SSN_CLIENT_AUTO_STATE_IDLE
  | SSN_CLIENT_AUTO_STATE_CONNECTING
  | SSN_CLIENT_AUTO_STATE_CONNECTED
  | SSN_CLIENT_AUTO_STATE_DISCONNECTED
  | SSN_CLIENT_AUTO_STATE_STOPPED.
#[global] Instance auto_state_eq_dec : EqDecision ssn_client_auto_state_t.
Proof. solve_decision. Defined.

(** Where the thread waits for the mutex. *)
Inductive auto_pc :=
  | PcLoop
  | PcConnected
  | PcPinged (ok : bool)
  | PcLost
  | PcGone
  | PcReconnect
  | PcWait
  | PcExited.
Inductive auto_thread := NoThread | Running (pc : auto_pc) | Joined.

Record ssn_client_auto := mk_auto {
  au_client : option ssn_client;
  au_onmsg : Z;
  au_onconn : Z;
  au_conn_arg : Z;
  au_server : option bytes;
  au_urls : option (list bytes);
  au_url_cnt : Z;
  au_keepalive : Z;
  au_conn_timeout : Z;
  au_reconn_delay : Z;
  au_state : ssn_client_auto_state_t;
  au_thread : auto_thread;
  au_running : bool;
  au_ping_lost : Z;
  au_conns : list bool;
  au_blocks : Z;
}.

(** Field updates. *)
Definition au_set_client a c := mk_auto c (au_onmsg a) (au_onconn a) (au_conn_arg a) (au_server a) (au_urls a)
  (au_url_cnt a) (au_keepalive a) (au_conn_timeout a) (au_reconn_delay a) (au_state a) (au_thread a)
  (au_running a) (au_ping_lost a) (au_conns a) (au_blocks a).
Definition au_set_onconn a f x := mk_auto (au_client a) (au_onmsg a) f x (au_server a) (au_urls a)
  (au_url_cnt a) (au_keepalive a) (au_conn_timeout a) (au_reconn_delay a) (au_state a) (au_thread a)
  (au_running a) (au_ping_lost a) (au_conns a) (au_blocks a).
Definition au_set_server a s n := mk_auto (au_client a) (au_onmsg a) (au_onconn a) (au_conn_arg a) s (au_urls a)
  (au_url_cnt a) (au_keepalive a) (au_conn_timeout a) (au_reconn_delay a) (au_state a) (au_thread a)
  (au_running a) (au_ping_lost a) (au_conns a) n.
Definition au_set_urls a l k n := mk_auto (au_client a) (au_onmsg a) (au_onconn a) (au_conn_arg a) (au_server a) l
  k (au_keepalive a) (au_conn_timeout a) (au_reconn_delay a) (au_state a) (au_thread a)
  (au_running a) (au_ping_lost a) (au_conns a) n.
Definition au_set_times a x y z := mk_auto (au_client a) (au_onmsg a) (au_onconn a) (au_conn_arg a) (au_server a)
  (au_urls a) (au_url_cnt a) x y z (au_state a) (au_thread a)
  (au_running a) (au_ping_lost a) (au_conns a) (au_blocks a).
Definition au_set_state a s := mk_auto (au_client a) (au_onmsg a) (au_onconn a) (au_conn_arg a) (au_server a)
  (au_urls a) (au_url_cnt a) (au_keepalive a) (au_conn_timeout a) (au_reconn_delay a) s (au_thread a)
  (au_running a) (au_ping_lost a) (au_conns a) (au_blocks a).
Definition au_set_thread a t := mk_auto (au_client a) (au_onmsg a) (au_onconn a) (au_conn_arg a) (au_server a)
  (au_urls a) (au_url_cnt a) (au_keepalive a) (au_conn_timeout a) (au_reconn_delay a) (au_state a) t
  (au_running a) (au_ping_lost a) (au_conns a) (au_blocks a).
Definition au_set_running a b := mk_auto (au_client a) (au_onmsg a) (au_onconn a) (au_conn_arg a) (au_server a)
  (au_urls a) (au_url_cnt a) (au_keepalive a) (au_conn_timeout a) (au_reconn_delay a) (au_state a) (au_thread a)
  b (au_ping_lost a) (au_conns a) (au_blocks a).
Definition au_set_lost a n := mk_auto (au_client a) (au_onmsg a) (au_onconn a) (au_conn_arg a) (au_server a)
  (au_urls a) (au_url_cnt a) (au_keepalive a) (au_conn_timeout a) (au_reconn_delay a) (au_state a) (au_thread a)
  (au_running a) n (au_conns a) (au_blocks a).
Definition au_set_conns a l := mk_auto (au_client a) (au_onmsg a) (au_onconn a) (au_conn_arg a) (au_server a)
  (au_urls a) (au_url_cnt a) (au_keepalive a) (au_conn_timeout a) (au_reconn_delay a) (au_state a) (au_thread a)
  (au_running a) (au_ping_lost a) l (au_blocks a).
Definition au_goto a pc := au_set_thread a (Running pc).

(** [malloc] and [memset]. *)
Definition ssn_client_auto_create (malloc_ok : bool) : option ssn_client_auto :=
  if negb malloc_ok then None
  else Some (mk_auto None 0 0 0 None None 0 0 0 0 SSN_CLIENT_AUTO_STATE_IDLE NoThread false 0 [] 0).
Definition ssn_client_auto_setup a (onconn arg : Z) : bool * ssn_client_auto := (true, au_set_onconn a onconn arg).
Definition ssn_client_auto_handle (a : ssn_client_auto) : option ssn_client := au_client a.

(** ** Memory *)

Definition free_server a : ssn_client_auto :=
  match au_server a with Some _ => au_set_server a None (au_blocks a - 1) | None => a end.
(** The copies are counted by [url_cnt]. *)
Definition free_urls a : option ssn_client_auto :=
  match au_urls a with
  | None => Some a
  | Some l => if au_url_cnt a >? zlen l then None
              else Some (au_set_urls a None (au_url_cnt a) (au_blocks a - Z.max 0 (au_url_cnt a) - 1))
  end.

Section world.
Context {W : Type} `{OsOps W}.
Context (user : client_event -> ssn_client -> W -> list client_call).
Context (conn_user : bool -> ssn_client -> W -> list client_call).
Context (d : nat) (g : factory).
Implicit Types (a : ssn_client_auto) (w : W).

(** The publish callback of the client routes to [onmsg]. *)
Definition AUTO_MSG_CB : Z := -2.
Definition ssn_client_auto_msg_cb a : client_event -> ssn_client -> W -> list client_call := fun e c w =>
  match e with
  | EvMsg cb arg url data =>
    if cb =? AUTO_MSG_CB then
      if negb (au_onmsg a =? 0) then user (EvMsg (au_onmsg a) arg url data) c w else []
    else user e c w
  | _ => user e c w
  end.
Definition auto_fire a := fire_at (ssn_client_auto_msg_cb a) (S (S d)).

(** *** Starting *)

(** Copies of the URLs, or a NULL entry or a failed copy. *)
Fixpoint copy_urls (urls : list (option bytes)) (acc : list bytes) w : option (list bytes) * W :=
  match urls with
  | [] => (Some acc, w)
  | None :: _ => (None, w)
  | Some u :: urls =>
    let '(ok, w) := os_calloc w in
    if negb ok then (None, w) else copy_urls urls (acc ++ [u]) w
  end.

Definition save_urls a (urls : option (list (option bytes))) (url_cnt : Z) w
  : option (bool * ssn_client_auto * W) :=
  match urls with
  | Some l =>
    if url_cnt >? 0 then
      if url_cnt >? zlen l then None
      else
        let '(ok, w) := os_calloc w in
        if negb ok then Some (false, free_server (au_set_urls a None (au_url_cnt a) (au_blocks a)), w)
        else match copy_urls (ztake url_cnt l) [] w with
        | (None, w) => Some (false, free_server (au_set_urls a None (au_url_cnt a) (au_blocks a)), w)
        | (Some us, w) => Some (true, au_set_urls a (Some us) url_cnt (au_blocks a + 1 + zlen us), w)
        end
    else Some (true, a, w)
  | None => Some (true, a, w)
  end.

(** A start that cannot go on gives back the copies. *)
Definition abandon a w : option (bool * ssn_client_auto * W) :=
  match free_urls a with Some a => Some (false, free_server a, w) | None => None end.

(** [late_ok]: inside [ssn_client_create]; [thread_ok]: [pthread_create]. *)
Definition ssn_client_auto_start (late_ok thread_ok : bool) a (server : option bytes)
    (urls : option (list (option bytes))) (url_cnt keepalive conn_timeout reconn_delay : Z) w
  : option (bool * ssn_client_auto * W) :=
  match server with
  | None => Some (false, a, w)
  | Some server =>
    if negb (bool_decide (au_state a = SSN_CLIENT_AUTO_STATE_IDLE)) &&
       negb (bool_decide (au_state a = SSN_CLIENT_AUTO_STATE_STOPPED)) then Some (false, a, w)
    else
      let '(ok, w) := os_calloc w in
      if negb ok then Some (false, au_set_server a None (au_blocks a), w)
      else match save_urls (au_set_server a (Some server) (au_blocks a + 1)) urls url_cnt w with
      | None => None
      | Some (false, a, w) => Some (false, a, w)
      | Some (true, a, w) =>
        let a := au_set_times a (if keepalive <? 50 then 50 else keepalive)
                   (if conn_timeout <? 20 then 20 else conn_timeout)
                   (if reconn_delay <? 20 then 20 else reconn_delay) in
        match ssn_client_create late_ok w with
        | (None, w) => abandon (au_set_client a None) w
        | (Some c, w) =>
          match ssn_client_set_on_publish (auto_fire a) c AUTO_MSG_CB 0 w with
          | None => None
          | Some (c, w) =>
            let a := au_set_state (au_set_running (au_set_client a (Some c)) true) SSN_CLIENT_AUTO_STATE_CONNECTING in
            if thread_ok then Some (true, au_goto a PcLoop, w)
            else
              let a := au_set_state (au_set_running a false) SSN_CLIENT_AUTO_STATE_STOPPED in
              match ssn_client_close (auto_fire a) c w with
              | None => None
              | Some (_, w) => abandon (au_set_client a None) w
              end
          end
        end
      end
  end.

(** *** Stopping *)

(** Up to the join. *)
Definition stop_signal a : bool * ssn_client_auto :=
  if bool_decide (au_state a = SSN_CLIENT_AUTO_STATE_IDLE) || bool_decide (au_state a = SSN_CLIENT_AUTO_STATE_STOPPED)
  then (false, a)
  else (true, au_set_state (au_set_running a false) SSN_CLIENT_AUTO_STATE_STOPPED).

Definition close_client a w : option (ssn_client_auto * W) :=
  match au_client a with
  | Some c => match ssn_client_close (auto_fire a) c w with
              | Some (_, w) => Some (au_set_client a None, w)
              | None => None
              end
  | None => Some (a, w)
  end.

(** The join and what follows; only for a thread that has exited. *)
Definition stop_join a w : option (ssn_client_auto * W) :=
  match au_thread a with
  | Running PcExited =>
    match close_client (au_set_thread a Joined) w with
    | None => None
    | Some (a, w) =>
      match free_urls (free_server a) with
      | None => None
      | Some a => Some (au_set_lost (au_set_urls a (au_urls a) 0 (au_blocks a)) 0, w)
      end
    end
  | _ => None
  end.

(** After the call of [ssn_client_auto_stop]: the URL array is freed, the copies in
    it are not. *)
Definition delete_rest a w : option (ssn_client_auto * W) :=
  match close_client a w with
  | None => None
  | Some (a, w) =>
    let a := free_server a in
    Some (match au_urls a with
          | Some _ => au_set_urls a None (au_url_cnt a) (au_blocks a - 1)
          | None => a
          end, w)
  end.

(** *** The thread *)

(** The callback of the application. *)
Definition call_onconn a (connect : bool) w : option (ssn_client_auto * W) :=
  if au_onconn a =? 0 then Some (a, w)
  else
    let a := au_set_conns a (au_conns a ++ [connect]) in
    match au_client a with
    | None => Some (a, w)
    | Some c => match run_client_calls (auto_fire a) (conn_user connect c w) c w with
                | Some (c, w) => Some (au_set_client a (Some c), w)
                | None => None
                end
    end.

Definition url_of (u : bytes) : option ssn_url_ref_t := Some (mk_url_ref (Some u) (zlen u)).
Fixpoint subscribe_urls a (urls : list bytes) (c : ssn_client) w : option (ssn_client * W) :=
  match urls with
  | [] => Some (c, w)
  | u :: urls =>
    match ssn_client_subscribe (auto_fire a) c (url_of u) 0 0 (au_conn_timeout a) w with
    | Some (_, c, w) => subscribe_urls a urls c w
    | None => None
    end
  end.

(** The poll at the end of a round, and whether the connection is gone. *)
Definition poll_client a w : option (ssn_client_auto * W) :=
  match au_client a with
  | None => None
  | Some c =>
    match ssn_client_poll (auto_fire a) c 10 w with
    | None => None
    | Some (_, c, w) =>
      Some (au_goto (au_set_client a (Some c)) (if negb (ssn_client_is_connect c) then PcGone else PcLoop), w)
    end
  end.

(** One step of the thread; a thread that has exited takes none. *)
Definition auto_step a w : option (ssn_client_auto * W) :=
  match au_thread a with
  | Running PcLoop =>
    if negb (au_running a) then Some (au_goto a PcExited, w)
    else match au_state a with
    | SSN_CLIENT_AUTO_STATE_CONNECTING =>
      match au_client a, au_server a with
      | Some c, Some server =>
        match ssn_client_connect (auto_fire a) g c server
                (Some (au_conn_timeout a / 1000, au_conn_timeout a mod 1000 * 1000000)) w with
        | None => None
        | Some (connected, c, w) =>
          Some (au_goto (au_set_client a (Some c)) (if connected then PcConnected else PcLoop), w)
        end
      | _, _ => None
      end
    | SSN_CLIENT_AUTO_STATE_CONNECTED =>
      match au_client a with
      | None => None
      | Some c =>
        match ssn_client_ping (auto_fire a) c 0 (au_keepalive a) w with
        | None => None
        | Some (ok, c, w) => Some (au_goto (au_set_client a (Some c)) (PcPinged ok), w)
        end
      end
    | SSN_CLIENT_AUTO_STATE_DISCONNECTED => Some (au_goto a PcReconnect, w)
    | SSN_CLIENT_AUTO_STATE_STOPPED => Some (au_goto a PcExited, w)
    | SSN_CLIENT_AUTO_STATE_IDLE => Some (au_goto a PcWait, w)
    end
  | Running PcConnected =>
    let a := au_set_lost (au_set_state a SSN_CLIENT_AUTO_STATE_CONNECTED) 0 in
    let subscribed :=
      match au_urls a with
      | Some l =>
        if au_url_cnt a >? 0 then
          if au_url_cnt a >? zlen l then None
          else match au_client a with
          | None => None
          | Some c => match subscribe_urls a (ztake (au_url_cnt a) l) c w with
                      | Some (c, w) => Some (au_set_client a (Some c), w)
                      | None => None
                      end
          end
        else Some (a, w)
      | None => Some (a, w)
      end in
    match subscribed with
    | None => None
    | Some (a, w) =>
      match call_onconn a true w with Some (a, w) => Some (au_goto a PcLoop, w) | None => None end
    end
  | Running (PcPinged true) => poll_client (au_set_lost a 0) w
  | Running (PcPinged false) =>
    let a := au_set_lost a (i32 (au_ping_lost a + 1)) in
    if au_ping_lost a >=? SSN_CLIENT_AUTO_MAX_PING_LOST then Some (au_goto a PcLost, w)
    else poll_client a w
  | Running PcLost =>
    match call_onconn (au_set_state a SSN_CLIENT_AUTO_STATE_DISCONNECTED) false w with
    | Some (a, w) => poll_client a w
    | None => None
    end
  | Running PcGone =>
    match call_onconn (au_set_state a SSN_CLIENT_AUTO_STATE_DISCONNECTED) false w with
    | Some (a, w) => Some (au_goto a PcLoop, w)
    | None => None
    end
  | Running PcReconnect => Some (au_goto (au_set_state a SSN_CLIENT_AUTO_STATE_CONNECTING) PcLoop, w)
  | Running PcWait => Some (au_goto a PcLoop, w)
  | Running PcExited | NoThread | Joined => Some (a, w)
  end.

(** [n] steps, with the places the thread passed. *)
Fixpoint auto_run (n : nat) a w : option (list auto_thread * ssn_client_auto * W) :=
  match n with
  | O => Some ([], a, w)
  | S n =>
    match auto_step a w with
    | None => None
    | Some (a, w) =>
      match auto_run n a w with
      | Some (tr, a', w) => Some (au_thread a :: tr, a', w)
      | None => None
      end
    end
  end.
End world.
