(* ===== verification/CliAutoProps.v ===== *)
(** * Auto-reconnecting client: thread and application

    The interleavings of the reconnect thread, the application, the timer thread
    and the kernel as a step relation; the invariant of its reachable states; what
    each step of the thread does. *)
From S2P Require Import Prelude FrameCodec ErrorCode Os Transport Address FrameSend EventPair Server ServerTable ServerProps ClientPending Client ClientProps ClientTheorems ClientLive CliAuto.

(** ** Thread and application together *)

(** The array of URLs has [url_cnt] entries, and they are C strings. *)
Definition url_ok (u : bytes) : Prop := zlen u < 2 ^ 63.
Definition urls_arg_ok (urls : option (list (option bytes))) (url_cnt : Z) : Prop :=
  match urls with
  | Some l => url_cnt <= zlen l /\ Forall (fun u => match u with Some u => url_ok u | None => True end) l
  | None => True
  end.

Section system.
Context {W : Type} `{OsOps W}.
Context (user : client_event -> ssn_client -> W -> list client_call).
Context (conn_user : bool -> ssn_client -> W -> list client_call).
Context (d : nat) (g : factory).

(** What the application's thread is doing. *)
Inductive app_pc := AppReady | AppStopping | AppDeleting | AppGone.

Inductive sys_step : ssn_client_auto * app_pc * W -> ssn_client_auto * app_pc * W -> Prop :=
  | sys_thread a p w a' w' :
      (forall c, au_client a = Some c -> fds_small c) ->
      auto_step user conn_user d g a w = Some (a', w') -> sys_step (a, p, w) (a', p, w')
  | sys_setup a w onconn arg :
      sys_step (a, AppReady, w) ((ssn_client_auto_setup a onconn arg).2, AppReady, w)
  | sys_start a w late_ok thread_ok server urls url_cnt keepalive conn_timeout reconn_delay b a' w' :
      urls_arg_ok urls url_cnt ->
      ssn_client_auto_start user d late_ok thread_ok a server urls url_cnt keepalive conn_timeout reconn_delay w
        = Some (b, a', w') ->
      sys_step (a, AppReady, w) (a', AppReady, w')
  | sys_stop a w b a' :
      stop_signal a = (b, a') -> sys_step (a, AppReady, w) (a', if b then AppStopping else AppReady, w)
  | sys_stop_join a w a' w' :
      stop_join user d a w = Some (a', w') -> sys_step (a, AppStopping, w) (a', AppReady, w')
  | sys_delete a w a1 : stop_signal a = (true, a1) -> sys_step (a, AppReady, w) (a1, AppDeleting, w)
  | sys_delete_idle a w a1 a' w' :
      stop_signal a = (false, a1) -> delete_rest user d a1 w = Some (a', w') ->
      sys_step (a, AppReady, w) (a', AppGone, w')
  | sys_delete_join a w a1 w1 a' w' :
      stop_join user d a w = Some (a1, w1) -> delete_rest user d a1 w1 = Some (a', w') ->
      sys_step (a, AppDeleting, w) (a', AppGone, w')
  | sys_timer a p w c :
      au_client a = Some c -> sys_step (a, p, w) (au_set_client a (Some (ssn_client_timer_tick c)), p, w)
  | sys_call a p w c q c' w' :
      ssn_client_auto_handle a = Some c -> ccall_ok q -> gentle q ->
      run_client_call (auto_fire user d a) q c w = Some (c', w') ->
      sys_step (a, p, w) (au_set_client a (Some c'), p, w')
  | sys_world a p w w' : sys_step (a, p, w) (a, p, w').
End system.

(** ** Invariant *)

(** What a running thread owns. *)
Record auto_owns (a : ssn_client_auto) (c : ssn_client) : Prop := {
  ao_client : au_client a = Some c;
  ao_alive : alive c;
  ao_server : is_Some (au_server a);
  ao_urls : match au_urls a with Some l => au_url_cnt a = zlen l /\ Forall url_ok l | None => True end;
  ao_blocks : au_blocks a = 1 + match au_urls a with Some l => 1 + zlen l | None => 0 end;
  ao_idle : au_state a <> SSN_CLIENT_AUTO_STATE_IDLE;
  ao_lost : 0 <= au_ping_lost a <= SSN_CLIENT_AUTO_MAX_PING_LOST;
  ao_times : 50 <= au_keepalive a /\ 20 <= au_conn_timeout a /\ 20 <= au_reconn_delay a;
}.

(** The count of lost pings where it matters; the idle branch is never taken. *)
Definition pc_ok (a : ssn_client_auto) (pc : auto_pc) : Prop :=
  match pc with
  | PcLoop => au_state a = SSN_CLIENT_AUTO_STATE_CONNECTED -> au_ping_lost a < SSN_CLIENT_AUTO_MAX_PING_LOST
  | PcPinged _ => au_ping_lost a < SSN_CLIENT_AUTO_MAX_PING_LOST
  | PcWait => False
  | _ => True
  end /\ (au_running a = true -> au_state a <> SSN_CLIENT_AUTO_STATE_STOPPED).

Definition auto_empty (a : ssn_client_auto) : Prop :=
  au_client a = None /\ au_server a = None /\ au_urls a = None /\ au_blocks a = 0 /\ au_ping_lost a = 0.

Definition auto_inv (a : ssn_client_auto) : Prop :=
  match au_thread a with
  | Running pc => (exists c, auto_owns a c) /\ pc_ok a pc
  | _ => auto_empty a
  end.

(** ** Steps of the thread *)

(** Callbacks pass valid memory and do not close the client. *)
Class well_behaved {W : Type} (user : client_event -> ssn_client -> W -> list client_call)
    (conn_user : bool -> ssn_client -> W -> list client_call) : Prop := {
  wb_user_ok e c w : Forall ccall_ok (user e c w);
  wb_user_gentle e c w : Forall gentle (user e c w);
  wb_conn_ok b c w : Forall ccall_ok (conn_user b c w);
  wb_conn_gentle b c w : Forall gentle (conn_user b c w);
}.

Section thread.
Context {W : Type} `{OsLaws W}.
Context (user : client_event -> ssn_client -> W -> list client_call).
Context (conn_user : bool -> ssn_client -> W -> list client_call).
Context {WB : well_behaved user conn_user}.
Context (d : nat) (g : factory).
Implicit Types (a : ssn_client_auto) (c : ssn_client) (w : W).

Lemma msg_cb_ok a e c w : Forall ccall_ok (ssn_client_auto_msg_cb user a e c w).
Proof. unfold ssn_client_auto_msg_cb. destruct e; repeat case_match; apply WB || constructor. Qed.
Lemma msg_cb_gentle a e c w : Forall gentle (ssn_client_auto_msg_cb user a e c w).
Proof. unfold ssn_client_auto_msg_cb. destruct e; repeat case_match; apply WB || constructor. Qed.
Local Abbreviation poll_ok a := (poll_alive (ssn_client_auto_msg_cb user a) (msg_cb_ok a) (msg_cb_gentle a) d).

(** Only the client, and where the thread stands, may change. *)
Lemma owns_client a c c' : auto_owns a c -> alive c' -> auto_owns (au_set_client a (Some c')) c'.
Proof. intros []. by split. Qed.
Lemma owns_goto a c pc : auto_owns a c -> auto_owns (au_goto a pc) c.
Proof. intros []. by split. Qed.
Lemma owns_state a c s : auto_owns a c -> s <> SSN_CLIENT_AUTO_STATE_IDLE -> auto_owns (au_set_state a s) c.
Proof. intros [] ?. by split. Qed.
Lemma owns_lost a c n : auto_owns a c -> 0 <= n <= SSN_CLIENT_AUTO_MAX_PING_LOST -> auto_owns (au_set_lost a n) c.
Proof. intros [] ?. by split. Qed.
Lemma owns_conns a c l : auto_owns a c -> auto_owns (au_set_conns a l) c.
Proof. intros []. by split. Qed.

Lemma onconn_spec a c b w :
  auto_owns a c ->
  exists c' w', call_onconn user conn_user d a b w = Some (au_set_conns (au_set_client a (Some c'))
      (au_conns a ++ if au_onconn a =? 0 then [] else [b]), w') /\ alive c' /\ steady c c'.
Proof.
  intros Ho. pose proof (ao_client a c Ho) as Hc. unfold call_onconn.
  destruct (au_onconn a =? 0).
  { exists c, w. rewrite app_nil_r. split; [|split; [apply Ho|done]]. destruct a. cbn in *. by subst. }
  cbn [au_client au_set_conns]. rewrite Hc. unfold auto_fire.
  destruct (calls_alive (ssn_client_auto_msg_cb user (au_set_conns a (au_conns a ++ [b])))
    (msg_cb_gentle _) d (conn_user b c w) c w (ao_alive a c Ho) (wb_conn_ok b c w) (wb_conn_gentle b c w))
    as (c' & w' & -> & ? & ?). by exists c', w'.
Qed.

Lemma subscribe_urls_spec a l c w :
  alive c -> Forall url_ok l -> exists c' w', subscribe_urls user d a l c w = Some (c', w') /\ alive c' /\ steady c c'.
Proof.
  intros Ha Hl. revert c w Ha. induction Hl as [|u l Hu _ IH]; intros c w Ha; cbn [subscribe_urls]; [by exists c, w|].
  assert (ccall_ok (CcSubscribe (url_of u) 0 0 (au_conn_timeout a))) as Hq.
  { split; [|done]. cbn. pose proof (zlen_nonneg u). unfold url_ok in Hu. lia. }
  destruct (call_alive (ssn_client_auto_msg_cb user a) (msg_cb_gentle a) d _ c w Ha Hq I) as (c1 & w1 & E & Ha1 & Hs1).
  unfold run_client_call in E. rewrite (ci_live 0 c (proj1 Ha)) in E. unfold auto_fire.
  destruct (ssn_client_subscribe _ _ _ _ _ _ _) as [[[r c2] w2]|]; [|done]. simplify_eq.
  destruct (IH c1 w1 Ha1) as (c' & w' & -> & ? & ?). exists c', w'. split; [done|]. split; [done|]. by trans c1.
Qed.

Lemma poll_client_spec a c w :
  auto_owns a c -> fds_small c ->
  exists c' w', poll_client user d a w = Some (au_goto (au_set_client a (Some c'))
      (if connected c' then PcLoop else PcGone), w') /\ alive c' /\ steady c c'.
Proof.
  intros Ho Hs. unfold poll_client. rewrite (ao_client a c Ho).
  destruct (poll_ok a c 10 w (ao_alive a c Ho) Hs) as (r & c' & w' & E & Ha & Hst). unfold auto_fire. rewrite E.
  exists c', w'. split; [|done]. unfold ssn_client_is_connect. rewrite (proj2 Ha). by destruct (connected c').
Qed.

(** *** What each step does *)

Section steps.
Context (a : ssn_client_auto) (c : ssn_client) (w : W).
Hypothesis owns : auto_owns a c.
Local Abbreviation step := (auto_step user conn_user d g a w).

Lemma step_stop : au_thread a = Running PcLoop -> au_running a = false -> step = Some (au_goto a PcExited, w).
Proof. intros Ht Hr. unfold auto_step. by rewrite Ht, Hr. Qed.

Lemma step_connect :
  au_thread a = Running PcLoop -> au_running a = true -> au_state a = SSN_CLIENT_AUTO_STATE_CONNECTING ->
  exists (b : bool) c' w', step = Some (au_goto (au_set_client a (Some c')) (if b then PcConnected else PcLoop), w') /\
    alive c' /\ evt_fd (cl_evt c') = evt_fd (cl_evt c) /\ connect_post c w b c' w'.
Proof.
  intros Ht Hr Hs. unfold auto_step. rewrite Ht, Hr, Hs, (ao_client a c owns). cbn [negb].
  destruct (ao_server a c owns) as [srv ->].
  destruct (connect_alive (ssn_client_auto_msg_cb user a) (msg_cb_gentle a) d g c srv
    (Some (au_conn_timeout a / 1000, au_conn_timeout a mod 1000 * 1000000)) w (ao_alive a c owns))
    as (b & c' & w' & E & ? & ? & ?). unfold auto_fire. rewrite E. by exists b, c', w'.
Qed.

Lemma step_ping :
  au_thread a = Running PcLoop -> au_running a = true -> au_state a = SSN_CLIENT_AUTO_STATE_CONNECTED -> fds_small c ->
  exists ok c' w', step = Some (au_goto (au_set_client a (Some c')) (PcPinged ok), w') /\ alive c' /\ steady c c'.
Proof.
  intros Ht Hr Hs Hf. unfold auto_step. rewrite Ht, Hr, Hs, (ao_client a c owns). cbn [negb].
  destruct (ping_alive (ssn_client_auto_msg_cb user a) (msg_cb_ok a) (msg_cb_gentle a) d c 0 (au_keepalive a) w
    (ao_alive a c owns) Hf) as (ok & c' & w' & E & ? & ?). unfold auto_fire. rewrite E. by exists ok, c', w'.
Qed.

Lemma step_wait_reconnect :
  au_thread a = Running PcLoop -> au_running a = true -> au_state a = SSN_CLIENT_AUTO_STATE_DISCONNECTED ->
  step = Some (au_goto a PcReconnect, w).
Proof. intros Ht Hr Hs. unfold auto_step. by rewrite Ht, Hr, Hs. Qed.

Lemma step_reconnect :
  au_thread a = Running PcReconnect ->
  step = Some (au_goto (au_set_state a SSN_CLIENT_AUTO_STATE_CONNECTING) PcLoop, w).
Proof. intros Ht. unfold auto_step. by rewrite Ht. Qed.

Lemma step_connected :
  au_thread a = Running PcConnected ->
  exists c' w', step = Some (au_goto (au_set_conns (au_set_client
      (au_set_lost (au_set_state a SSN_CLIENT_AUTO_STATE_CONNECTED) 0) (Some c'))
      (au_conns a ++ if au_onconn a =? 0 then [] else [true])) PcLoop, w') /\ alive c' /\ steady c c'.
Proof.
  intros Ht. unfold auto_step. rewrite Ht. cbv zeta.
  set (a1 := au_set_lost (au_set_state a SSN_CLIENT_AUTO_STATE_CONNECTED) 0).
  assert (auto_owns a1 c) as Ho1 by (apply owns_lost; [by apply owns_state|done]).
  assert (exists c1 w1, alive c1 /\ steady c c1 /\
    match au_urls a1 with
    | Some l => if au_url_cnt a1 >? 0 then if au_url_cnt a1 >? zlen l then None else
        match au_client a1 with
        | None => None
        | Some c => match subscribe_urls user d a1 (ztake (au_url_cnt a1) l) c w with
                    | Some (c, w) => Some (au_set_client a1 (Some c), w) | None => None end
        end else Some (a1, w)
    | None => Some (a1, w)
    end = Some (au_set_client a1 (Some c1), w1)) as (c1 & w1 & Ha1 & Hs1 & ->).
  { assert (a1 = au_set_client a1 (Some c)) as Hsame.
    { pose proof (ao_client a1 c Ho1) as Hc1. destruct a1. cbn in *. by subst. }
    pose proof (ao_urls a1 c Ho1) as Hu. destruct (au_urls a1) as [l|];
      [|exists c, w; split; [apply Ho1|split; [done|by rewrite <- Hsame]]].
    destruct Hu as [Hn Hl]. destruct (Z.gtb_spec (au_url_cnt a1) 0);
      [|exists c, w; split; [apply Ho1|split; [done|by rewrite <- Hsame]]].
    destruct (Z.gtb_spec (au_url_cnt a1) (zlen l)); [lia|]. rewrite (ao_client a1 c Ho1).
    destruct (subscribe_urls_spec a1 (ztake (au_url_cnt a1) l) c w (ao_alive a1 c Ho1)) as (c1 & w1 & -> & ? & ?);
      [by apply Forall_take|]. by exists c1, w1. }
  destruct (onconn_spec (au_set_client a1 (Some c1)) c1 true w1) as (c2 & w2 & -> & Ha2 & Hs2);
    [by eapply owns_client|]. exists c2, w2. split; [done|]. split; [done|]. by trans c1.
Qed.

Lemma step_pinged ok :
  au_thread a = Running (PcPinged ok) -> au_ping_lost a < SSN_CLIENT_AUTO_MAX_PING_LOST -> fds_small c ->
  let n := if ok then 0 else au_ping_lost a + 1 in
  if n >=? SSN_CLIENT_AUTO_MAX_PING_LOST then step = Some (au_goto (au_set_lost a n) PcLost, w)
  else exists c' w', step = Some (au_goto (au_set_client (au_set_lost a n) (Some c'))
      (if connected c' then PcLoop else PcGone), w') /\ alive c' /\ steady c c'.
Proof.
  intros Ht Hl Hf. unfold auto_step. rewrite Ht. pose proof (ao_lost a c owns) as Hb.
  unfold SSN_CLIENT_AUTO_MAX_PING_LOST in *. destruct ok; cbv zeta.
  - apply poll_client_spec; [|done]. by apply owns_lost.
  - assert (i32 (au_ping_lost a + 1) = au_ping_lost a + 1) as ->.
    { unfold i32. rewrite Z.mod_small by lia. lia. }
    change (au_ping_lost (au_set_lost a (au_ping_lost a + 1))) with (au_ping_lost a + 1).
    destruct (_ >=? 3); [done|]. apply poll_client_spec; [|done]. apply owns_lost; [done|].
    unfold SSN_CLIENT_AUTO_MAX_PING_LOST. lia.
Qed.

Definition lost_conns : list bool := au_conns a ++ (if au_onconn a =? 0 then [] else [false]).
Lemma step_lost :
  au_thread a = Running PcLost -> fds_small c ->
  exists c' w', step = Some (au_goto (au_set_client (au_set_conns
      (au_set_state a SSN_CLIENT_AUTO_STATE_DISCONNECTED) lost_conns) (Some c'))
      (if connected c' then PcLoop else PcGone), w') /\ alive c' /\ steady c c'.
Proof.
  intros Ht Hf. unfold auto_step. rewrite Ht.
  assert (auto_owns (au_set_state a SSN_CLIENT_AUTO_STATE_DISCONNECTED) c) as Ho1 by (by apply owns_state).
  destruct (onconn_spec _ c false w Ho1) as (c1 & w1 & -> & Ha1 & Hs1). fold lost_conns.
  destruct (poll_client_spec (au_set_conns (au_set_client (au_set_state a SSN_CLIENT_AUTO_STATE_DISCONNECTED) (Some c1))
    lost_conns) c1 w1) as (c2 & w2 & E & Ha2 & Hs2); [|by eapply steady_small|].
  { apply owns_conns. by eapply owns_client. }
  exists c2, w2. split; [exact E|]. split; [done|]. by trans c1.
Qed.

Lemma step_gone :
  au_thread a = Running PcGone ->
  exists c' w', step = Some (au_goto (au_set_client (au_set_conns
      (au_set_state a SSN_CLIENT_AUTO_STATE_DISCONNECTED) lost_conns) (Some c')) PcLoop, w') /\ alive c' /\ steady c c'.
Proof.
  intros Ht. unfold auto_step. rewrite Ht.
  assert (auto_owns (au_set_state a SSN_CLIENT_AUTO_STATE_DISCONNECTED) c) as Ho1 by (by apply owns_state).
  destruct (onconn_spec _ c false w Ho1) as (c1 & w1 & -> & Ha1 & Hs1). by exists c1, w1.
Qed.
End steps.

(** *** The invariant is kept *)

Lemma step_inv a w :
  auto_inv a -> (forall c, au_client a = Some c -> fds_small c) ->
  exists a' w', auto_step user conn_user d g a w = Some (a', w') /\ auto_inv a'.
Proof.
  unfold auto_inv. intros Hi Hf. destruct (au_thread a) as [|pc|] eqn:Ht.
  1,3: exists a, w; unfold auto_step; rewrite Ht; done.
  destruct Hi as [[c Ho] [Hpc Hrun]]. specialize (Hf c (ao_client a c Ho)).
  assert (forall a1 c1 pc1 w1, auto_step user conn_user d g a w = Some (au_goto a1 pc1, w1) -> auto_owns a1 c1 ->
    pc_ok a1 pc1 -> exists a' w', auto_step user conn_user d g a w = Some (a', w') /\
    match au_thread a' with Running pc => (exists c, auto_owns a' c) /\ pc_ok a' pc | _ => auto_empty a' end) as Hout.
  { intros a1 c1 pc1 w1 E Ho1 Hp1. eexists _, _. split; [exact E|]. cbn. split; [|done].
    exists c1. by apply owns_goto. }
  assert (au_state a <> SSN_CLIENT_AUTO_STATE_IDLE) as Hni by apply Ho.
  destruct pc; cbn [pc_ok] in Hpc.
  - destruct (au_running a) eqn:Hr; [|eapply Hout; [by eapply step_stop|done|by split; [|congruence]]].
    destruct (au_state a) eqn:Hs; try done.
    + destruct (step_connect a c w Ho Ht Hr Hs) as (b & c' & w' & E & Ha & _).
      eapply Hout; [exact E|by eapply owns_client|]. split; [|cbn; congruence]. destruct b; [done|]. cbn. congruence.
    + destruct (step_ping a c w Ho Ht Hr Hs Hf) as (ok & c' & w' & E & Ha & _).
      eapply Hout; [exact E|by eapply owns_client|]. split; [|cbn; congruence]. cbn. by apply Hpc.
    + eapply Hout; [by eapply step_wait_reconnect|done|]. split; [done|congruence].
    + by destruct (Hrun eq_refl).
  - destruct (step_connected a c w Ho Ht) as (c' & w' & E & Ha & _).
    eapply Hout; [exact E|apply owns_conns; eapply owns_client; [apply owns_lost; [by apply owns_state|done]|done]|].
    by split.
  - pose proof (step_pinged a c w Ho ok Ht Hpc Hf) as Hst. cbv zeta in Hst. pose proof (ao_lost a c Ho).
    set (n := if ok then 0 else au_ping_lost a + 1) in *.
    assert (0 <= n <= SSN_CLIENT_AUTO_MAX_PING_LOST) as Hn.
    { subst n. unfold SSN_CLIENT_AUTO_MAX_PING_LOST in *. destruct ok; lia. }
    destruct (Z.geb_spec n SSN_CLIENT_AUTO_MAX_PING_LOST).
    + eapply Hout; [exact Hst|by apply owns_lost|by split].
    + destruct Hst as (c' & w' & E & Ha & _). eapply Hout; [exact E|eapply owns_client; [by apply owns_lost|done]|].
      split; [|done]. by destruct (connected c').
  - destruct (step_lost a c w Ho Ht Hf) as (c' & w' & E & Ha & _).
    eapply Hout; [exact E|eapply owns_client; [apply owns_conns; by apply owns_state|done]|].
    split; [|done]. by destruct (connected c').
  - destruct (step_gone a c w Ho Ht) as (c' & w' & E & Ha & _).
    eapply Hout; [exact E|eapply owns_client; [apply owns_conns; by apply owns_state|done]|]. by split.
  - eapply Hout; [by eapply step_reconnect|by apply owns_state|by split].
  - done.
  - exists a, w. split; [unfold auto_step; by rewrite Ht|]. rewrite Ht. split; [by exists c|by split].
Qed.

(** *** Starting *)

Lemma copy_urls_spec l acc w :
  Forall (fun u => match u with Some u => url_ok u | None => True end) l -> Forall url_ok acc ->
  match copy_urls l acc w with
  | (Some us, _) => zlen us = zlen acc + zlen l /\ Forall url_ok us
  | (None, _) => True
  end.
Proof.
  intros Hl. revert acc w. induction Hl as [|[u|] l Hu _ IH]; intros acc w Hacc; cbn [copy_urls]; [|..|done].
  - split; [unfold zlen; cbn; lia|done].
  - destruct (os_calloc w) as [[] w1]; cbn [negb]; [|done].
    specialize (IH (acc ++ [u]) w1). destruct (copy_urls l (acc ++ [u]) w1) as [[us|] w2]; [|done].
    destruct IH as [Hn Hus]; [apply Forall_app; by repeat constructor|]. split; [|done]. rewrite Hn, zlen_app. unfold zlen. cbn. lia.
Qed.

(** Nothing is held: as after creation or a completed stop. *)
Definition no_thread a : Prop := match au_thread a with Running _ => False | _ => True end.
#[global] Instance no_thread_dec a : Decision (no_thread a).
Proof. unfold no_thread. destruct (au_thread a); apply _. Defined.

(** The parameters of a start are in place, the client is not. *)
Definition prepared a : Prop :=
  no_thread a /\ is_Some (au_server a) /\
  match au_urls a with Some l => au_url_cnt a = zlen l /\ Forall url_ok l | None => True end /\
  au_blocks a = 1 + match au_urls a with Some l => 1 + zlen l | None => 0 end.

Lemma save_urls_spec a server urls url_cnt w :
  no_thread a -> auto_empty a -> urls_arg_ok urls url_cnt ->
  exists b a' w', save_urls (au_set_server a (Some server) (au_blocks a + 1)) urls url_cnt w = Some (b, a', w') /\
    au_thread a' = au_thread a /\ au_state a' = au_state a /\ au_ping_lost a' = au_ping_lost a /\
    (if b then prepared a' else auto_empty a').
Proof.
  intros Ht (Hc & Hs & Hu & Hb & Hp0) Harg. unfold save_urls.
  assert (prepared (au_set_server a (Some server) (au_blocks a + 1))) as Hp.
  { split; [exact Ht|]. cbn. rewrite Hu, Hb. split_and!; [by eexists|done|done]. }
  destruct urls as [l|]; [|by eexists _, _, _]. destruct Harg as [Hn Hl].
  destruct (Z.gtb_spec url_cnt 0) as [Hpos|]; [|by eexists _, _, _].
  destruct (Z.gtb_spec url_cnt (zlen l)); [lia|].
  destruct (os_calloc w) as [[] w1]; cbn [negb].
  2:{ eexists _, _, _. split; [done|]. cbn. split_and!; try done. unfold auto_empty. cbn. split_and!; try done. lia. }
  pose proof (copy_urls_spec (ztake url_cnt l) [] w1 (Forall_take _ _ _ Hl) (Forall_nil_2 _)) as Hcp.
  destruct (copy_urls (ztake url_cnt l) [] w1) as [[us|] w2]; (eexists _, _, _; split; [done|]); cbn.
  - destruct Hcp as [Hz Hus]. rewrite zlen_ztake in Hz by lia. do 3 (split; [done|]). split; [exact Ht|]. cbn.
    split_and!; [by eexists|rewrite Hz; unfold zlen; cbn; lia|done|]. rewrite Hb. unfold zlen in *. lia.
  - split_and!; try done. unfold auto_empty. cbn. split_and!; try done. lia.
Qed.

Lemma abandon_spec a w :
  prepared a -> au_client a = None -> au_ping_lost a = 0 ->
  exists a', abandon a w = Some (false, a', w) /\ auto_empty a' /\ au_thread a' = au_thread a /\ au_state a' = au_state a.
Proof.
  intros (_ & [s Hs] & Hu & Hb) Hc Hp0. unfold abandon, free_urls, auto_empty.
  destruct (au_urls a) as [l|] eqn:El.
  - destruct Hu as [Hn _]. destruct (Z.gtb_spec (au_url_cnt a) (zlen l)); [lia|]. unfold free_server. cbn. rewrite Hs.
    eexists. split; [done|]. cbn. pose proof (zlen_nonneg l). split_and!; try done. lia.
  - unfold free_server. rewrite Hs. eexists. split; [done|]. cbn. split_and!; try done. lia.
Qed.

(** A start is refused, fails without a trace, or leaves a thread that connects. *)
Lemma start_spec late_ok thread_ok a server urls url_cnt keepalive conn_timeout reconn_delay w :
  auto_inv a -> (match au_thread a with Running _ => au_running a = true | _ => True end) -> urls_arg_ok urls url_cnt ->
  exists b a' w',
    ssn_client_auto_start user d late_ok thread_ok a server urls url_cnt keepalive conn_timeout reconn_delay w
      = Some (b, a', w') /\
    if b then (exists c, auto_owns a' c) /\ au_thread a' = Running PcLoop /\
      au_running a' = true /\ au_state a' = SSN_CLIENT_AUTO_STATE_CONNECTING
    else a' = a \/ (no_thread a /\ au_thread a' = au_thread a /\ auto_empty a').
Proof.
  intros Hi Hr Harg. unfold ssn_client_auto_start. destruct server as [server|]; [|eexists _, _, _; split; [done|by left]].
  destruct (_ && _) eqn:Est; [eexists _, _, _; split; [done|by left]|].
  assert (no_thread a /\ auto_empty a) as [Ht He].
  { unfold auto_inv, no_thread in *. destruct (au_thread a) as [|pc|] eqn:Eth; try done. exfalso.
    destruct Hi as [[c Ho] [_ Hrun]]. apply andb_false_iff in Est. rewrite !negb_false_iff, !bool_decide_eq_true in Est.
    destruct Est as [Est|Est]; [exact (ao_idle a c Ho Est)|exact (Hrun Hr Est)]. }
  pose proof He as (Hc0 & Hs0 & Hu0 & Hb0 & Hp0).
  destruct (os_calloc w) as [[] w1]; cbn [negb].
  2:{ eexists _, _, _. split; [done|]. right. by split_and!. }
  destruct (save_urls_spec a server urls url_cnt w1 Ht He Harg) as (b & a1 & w2 & -> & Ht1 & Hs1 & Hp1 & Hout).
  destruct b; [|eexists _, _, _; split; [done|by right]]. cbv zeta.
  set (a2 := au_set_times a1 _ _ _).
  assert (prepared a2 /\ au_thread a2 = au_thread a /\ au_ping_lost a2 = 0) as (Hp2 & Ht2 & Hl2).
  { split; [exact Hout|]. split; [done|]. cbn. congruence. }
  assert (50 <= au_keepalive a2 /\ 20 <= au_conn_timeout a2 /\ 20 <= au_reconn_delay a2) as Htimes.
  { cbn. destruct (Z.ltb_spec keepalive 50), (Z.ltb_spec conn_timeout 20), (Z.ltb_spec reconn_delay 20); lia. }
  clearbody a2. unfold ssn_client_create.
  assert (forall a3 w3, prepared a3 -> au_client a3 = None -> au_ping_lost a3 = 0 -> au_thread a3 = au_thread a ->
    exists b a' w', abandon a3 w3 = Some (b, a', w') /\
    if b then (exists c, auto_owns a' c) /\ au_thread a' = Running PcLoop /\
      au_running a' = true /\ au_state a' = SSN_CLIENT_AUTO_STATE_CONNECTING
    else a' = a \/ (no_thread a /\ au_thread a' = au_thread a /\ auto_empty a')) as Hab.
  { intros a3 w3 Hp3 Hc3 Hl3 Ht3. destruct (abandon_spec a3 w3 Hp3 Hc3 Hl3) as (a' & -> & He' & Ht' & _).
    eexists _, _, _. split; [done|]. right. split_and!; [done|congruence|done]. }
  destruct (os_calloc w2) as [[] w3]; cbn [negb]; [|by apply Hab].
  destruct (ipc_event_pair_create w3) as [[e|] w4]; [|by apply Hab].
  destruct late_ok; [|by apply Hab].
  assert (alive (new_client e)) as Ha0 by (split; [apply new_client_inv|done]).
  destruct (call_alive (ssn_client_auto_msg_cb user a2) (msg_cb_gentle a2) d (CcSetOnPublish AUTO_MSG_CB 0) (new_client e) w4
    Ha0 I I) as (c1 & w5 & E1 & Ha1 & _).
  unfold run_client_call in E1. change (cl_freed (new_client e)) with false in E1. cbn iota in E1.
  unfold auto_fire at 1. rewrite E1. destruct thread_ok.
  - eexists _, _, _. split; [done|]. split; [|done]. exists c1.
    destruct Hp2 as (_ & ? & ? & ?). split; try done. cbn. rewrite Hl2. done.
  - set (a3 := au_set_state (au_set_running _ false) _).
    destruct (close_total (ssn_client_auto_msg_cb user a3) d c1 w5 (proj1 Ha1)) as (c2 & w6 & E2 & _).
    unfold auto_fire. rewrite E2. by apply Hab.
Qed.

(** *** Stopping *)

Lemma close_client_spec a c w :
  au_client a = Some c -> alive c ->
  exists w', close_client user d a w = Some (au_set_client a None, w').
Proof.
  intros Hc [Hi _]. unfold close_client. rewrite Hc.
  destruct (close_total (ssn_client_auto_msg_cb user a) d c w Hi) as (c2 & w6 & E2 & _).
  unfold auto_fire. rewrite E2. by eexists.
Qed.

Lemma stop_join_spec a c w :
  auto_owns a c -> au_thread a = Running PcExited ->
  exists a' w', stop_join user d a w = Some (a', w') /\ auto_empty a' /\ au_thread a' = Joined /\
    au_state a' = au_state a /\ au_running a' = au_running a.
Proof.
  intros Ho Ht. unfold stop_join. rewrite Ht.
  destruct (close_client_spec (au_set_thread a Joined) c w) as (w' & ->); [apply Ho|apply Ho|].
  pose proof (ao_urls a c Ho) as Hu. pose proof (ao_blocks a c Ho) as Hb. destruct (ao_server a c Ho) as [s Hs].
  unfold free_server. cbn [au_server au_set_client au_set_thread]. rewrite Hs. unfold free_urls, auto_empty.
  cbn [au_urls au_set_client au_set_thread au_set_server au_url_cnt au_blocks].
  destruct (au_urls a) as [l|] eqn:El.
  - destruct Hu as [Hn _]. destruct (Z.gtb_spec (au_url_cnt a) (zlen l)); [lia|]. eexists _, _. split; [done|].
    cbn. pose proof (zlen_nonneg l). split_and!; try done. lia.
  - eexists _, _. split; [done|]. cbn. rewrite El. split_and!; try done. lia.
Qed.

Lemma delete_rest_spec a w : auto_empty a -> delete_rest user d a w = Some (a, w).
Proof.
  intros (Hc & Hs & Hu & Hb & Hl). unfold delete_rest, close_client. rewrite Hc. unfold free_server. rewrite Hs.
  by rewrite Hu.
Qed.

(** ** Reachable states *)

Definition sys_inv (s : ssn_client_auto * app_pc * W) : Prop :=
  let '(a, p, _) := s in
  auto_inv a /\
  match p with
  | AppReady => match au_thread a with Running _ => au_running a = true | _ => True end
  | AppStopping | AppDeleting => au_running a = false
  | AppGone => no_thread a
  end.

Lemma poll_client_keeps a w a' w' :
  poll_client user d a w = Some (a', w') -> au_running a' = au_running a /\ exists pc, au_thread a' = Running pc.
Proof.
  unfold poll_client. destruct (au_client a); [|done]. destruct (ssn_client_poll _ _ _ _) as [[[r c'] w1]|]; [|done].
  intros ?; simplify_eq. split; [done|by eexists].
Qed.
Lemma call_onconn_keeps a b w a' w' :
  call_onconn user conn_user d a b w = Some (a', w') -> au_running a' = au_running a /\ au_thread a' = au_thread a.
Proof.
  unfold call_onconn. destruct (_ =? 0); [intros ?; by simplify_eq|]. cbn [au_client au_set_conns].
  destruct (au_client a); [|intros ?; by simplify_eq]. destruct (run_client_calls _ _ _ _) as [[c' w1]|]; [|done].
  intros ?; by simplify_eq.
Qed.
Lemma thread_keeps a w a' w' :
  auto_step user conn_user d g a w = Some (a', w') ->
  au_running a' = au_running a /\ (no_thread a -> a' = a).
Proof.
  unfold auto_step, no_thread. intros E. destruct (au_thread a) as [|pc|] eqn:Ht; [by simplify_eq| |by simplify_eq].
  split; [|done]. destruct pc as [| |ok| | | | |]; try (simplify_eq; done).
  - destruct (negb _); [by simplify_eq|]. repeat (case_match; try done); by simplify_eq.
  - cbv zeta in E. match type of E with context [match ?s with None => None | Some _ => _ end] => set (sub := s) in E end.
    destruct sub as [[a1 w1]|] eqn:Es; [|done]. assert (au_running a1 = au_running a) as Hr1.
    { subst sub. repeat (case_match; try done); by simplify_eq. }
    destruct (call_onconn _ _ _ _ _ _) as [[a2 w2]|] eqn:Ec; [|done]. apply call_onconn_keeps in Ec as [Hr2 _].
    simplify_eq. cbn. congruence.
  - destruct ok; [by apply poll_client_keeps in E as [-> _]|]. cbv zeta in E.
    destruct (_ >=? _); [by simplify_eq|]. by apply poll_client_keeps in E as [-> _].
  - destruct (call_onconn _ _ _ _ _ _) as [[a2 w2]|] eqn:Ec; [|done]. apply call_onconn_keeps in Ec as [Hr2 _].
    apply poll_client_keeps in E as [-> _]. by rewrite Hr2.
  - destruct (call_onconn _ _ _ _ _ _) as [[a2 w2]|] eqn:Ec; [|done]. apply call_onconn_keeps in Ec as [Hr2 _].
    simplify_eq. exact Hr2.
Qed.

(** The client alone may change between the thread's steps. *)
Lemma inv_client a c c' : auto_inv a -> au_client a = Some c -> (alive c -> alive c') -> auto_inv (au_set_client a (Some c')).
Proof.
  unfold auto_inv. cbn [au_thread au_set_client]. intros Hi Hc Ha.
  destruct (au_thread a) as [|pc|]; [destruct Hi as (? & _); congruence| |destruct Hi as (? & _); congruence].
  destruct Hi as [[c0 Ho] Hp]. pose proof (ao_client a c0 Ho) as E. rewrite Hc in E. simplify_eq. split; [|exact Hp].
  exists c'. apply owns_client with c0; [done|]. apply Ha, Ho.
Qed.

Lemma stop_signal_spec a b a' :
  auto_inv a -> stop_signal a = (b, a') ->
  auto_inv a' /\ au_thread a' = au_thread a /\ (if b then au_running a' = false else a' = a).
Proof.
  intros Hi. unfold stop_signal. destruct (_ || _); intros ?; simplify_eq; [done|]. split; [|done].
  unfold auto_inv in *. cbn [au_thread au_set_state au_set_running]. destruct (au_thread a) as [|pc|]; [exact Hi| |exact Hi].
  destruct Hi as [[c Ho] [Hp _]]. split; [exists c; destruct Ho; by split|]. split; [|done].
  destruct pc; try done.
Qed.

Lemma sys_step_inv s s' : sys_inv s -> sys_step user conn_user d g s s' -> sys_inv s'.
Proof.
  intros Hs Hstep.
  destruct Hstep as [a p w a' w' Hf E|a w f x|a w lo tho srv urls n ka ct rd b a' w' Harg E|a w b a' E|a w a' w' E
    |a w a1 E|a w a1 a' w' E1 E2|a w a1 w1 a' w' E1 E2|a p w c E|a p w c q c' w' Ec Hq Hg E|a p w w']; destruct Hs as [Hi Hp].
  - destruct (step_inv a w Hi Hf) as (a2 & w2 & E2 & Hi2). rewrite E in E2. simplify_eq. split; [done|].
    apply thread_keeps in E as [Hr Hn]. destruct p; [|by rewrite Hr..|by rewrite Hn].
    destruct (au_thread a) eqn:Ht; [|rewrite Hr; by destruct (au_thread a2)|].
    1,2: rewrite Hn by (unfold no_thread; by rewrite Ht); by rewrite Ht.
  - split; [|exact Hp]. unfold auto_inv in *. cbn [ssn_client_auto_setup snd au_thread au_set_onconn].
    destruct (au_thread a) as [|pc|]; [exact Hi| |exact Hi]. destruct Hi as [[c Ho] Hpc].
    split; [exists c; destruct Ho; by split|exact Hpc].
  - destruct (start_spec lo tho a srv urls n ka ct rd w Hi Hp Harg) as (b2 & a2 & w2 & E2 & Hout).
    rewrite E in E2. simplify_eq. destruct b2.
    + destruct Hout as ([c Ho] & Ht & Hr & Hst). split; [|by rewrite Ht]. unfold auto_inv. rewrite Ht.
      split; [by exists c|]. split; [|by rewrite Hst]. cbn. by rewrite Hst.
    + destruct Hout as [->|(Hn & Ht & He)]; [by split|]. unfold no_thread in Hn. split.
      * unfold auto_inv. rewrite Ht. by destruct (au_thread a).
      * rewrite Ht. by destruct (au_thread a).
  - destruct (stop_signal_spec a b a' Hi E) as (Hi' & Ht & Hb). split; [done|]. destruct b; [done|]. by subst a'.
  - unfold auto_inv in Hi. assert (exists c, auto_owns a c /\ au_thread a = Running PcExited) as (c & Ho & Ht).
    { unfold stop_join in E. destruct (au_thread a) as [|[]|]; try done. destruct Hi as [[c Ho] _]. by exists c. }
    destruct (stop_join_spec a c w Ho Ht) as (a2 & w2 & E2 & He & Ht2 & _). rewrite E in E2. simplify_eq.
    split; [unfold auto_inv|]; by rewrite Ht2.
  - destruct (stop_signal_spec a true a1 Hi E) as (Hi' & Ht & Hb). by split.
  - destruct (stop_signal_spec a false a1 Hi E1) as (_ & _ & ->).
    assert (no_thread a) as Hn.
    { unfold no_thread. unfold auto_inv in Hi. destruct (au_thread a) as [|pc|]; try done.
      destruct Hi as [[c Ho] [_ Hrun]]. unfold stop_signal in E1. destruct (_ || _) eqn:Eb; [|done].
      apply orb_prop in Eb. rewrite !bool_decide_eq_true in Eb.
      destruct Eb as [Eb|Eb]; [exact (ao_idle a c Ho Eb)|exact (Hrun Hp Eb)]. }
    assert (auto_empty a) as He by (unfold auto_inv, no_thread in *; by destruct (au_thread a)).
    rewrite delete_rest_spec in E2 by done. simplify_eq. by split.
  - unfold auto_inv in Hi. assert (exists c, auto_owns a c /\ au_thread a = Running PcExited) as (c & Ho & Ht).
    { unfold stop_join in E1. destruct (au_thread a) as [|[]|]; try done. destruct Hi as [[c Ho] _]. by exists c. }
    destruct (stop_join_spec a c w Ho Ht) as (a2 & w2 & E3 & He & Ht2 & _). rewrite E1 in E3. simplify_eq.
    rewrite delete_rest_spec in E2 by done. simplify_eq. split; [unfold auto_inv|unfold no_thread]; by rewrite Ht2.
  - split; [|exact Hp]. eapply inv_client; [done|exact E|]. intros [Hc Hv]. split; [by apply client_tick_inv|].
    unfold ssn_client_timer_tick. destruct (timer_slots _ _ _ _) as [t []]; done.
  - split; [|exact Hp]. eapply inv_client; [done|exact Ec|]. intros Ha. unfold auto_fire in E.
    destruct (call_alive (ssn_client_auto_msg_cb user a) (msg_cb_gentle a) d q c w Ha Hq Hg) as (c2 & w2 & E2 & ? & _).
    by simplify_eq.
  - done.
Qed.

Inductive sys_reach : ssn_client_auto * app_pc * W -> Prop :=
  | sreach_init a w : ssn_client_auto_create true = Some a -> sys_reach (a, AppReady, w)
  | sreach_step s s' : sys_reach s -> sys_step user conn_user d g s s' -> sys_reach s'.

Lemma sys_reach_inv s : sys_reach s -> sys_inv s.
Proof.
  induction 1 as [a w E|s s' _ IH Hst]; [|by eapply sys_step_inv]. cbn in E. simplify_eq. done.
Qed.
End thread.
