(* ===== verification/CliAutoClaims.v ===== *)
(** * Auto-reconnecting client: claims

    Safety of the thread and of the memory it shares with the application, the
    end of a stop, recovery from a dead connection, and two behaviours the code
    does not intend. *)
From S2P Require Import Prelude FrameCodec ErrorCode Os Transport Address FrameSend EventPair Server ServerTable ServerProps ClientPending Client ClientProps ClientTheorems ClientLive CliAuto CliAutoProps.

(** ** Runs of the thread *)

Section runs.
Context {W : Type} `{OsLaws W}.
Context (user : client_event -> ssn_client -> W -> list client_call).
Context (conn_user : bool -> ssn_client -> W -> list client_call).
Context {WB : well_behaved user conn_user}.
Context (d : nat) (g : factory).
Implicit Types (a : ssn_client_auto) (c : ssn_client) (w : W).

(** Within [n] steps of the thread a state with [P] is passed. *)
Inductive auto_eventually (P : ssn_client_auto -> W -> Prop) : nat -> ssn_client_auto -> W -> Prop :=
  | ev_now n a w : P a w -> auto_eventually P n a w
  | ev_step n a w a' w' :
      auto_step user conn_user d g a w = Some (a', w') -> auto_eventually P n a' w' -> auto_eventually P (S n) a w.

Lemma ev_weaken P n m a w : (n <= m)%nat -> auto_eventually P n a w -> auto_eventually P m a w.
Proof.
  intros Hle Hev. revert m Hle. induction Hev as [n a w HP|n a w a' w' E _ IH]; intros m Hle; [by apply ev_now|].
  destruct m as [|m]; [lia|]. eapply ev_step; [exact E|]. apply IH. lia.
Qed.

(** *** Stopping *)

Definition exited a w : Prop :=
  au_thread a = Running PcExited /\ au_running a = false /\ exists c, auto_owns a c.

Lemma exit_loop a c w :
  auto_owns a c -> au_thread a = Running PcLoop -> au_running a = false -> auto_eventually exited 1 a w.
Proof.
  intros Ho Ht Hr. eapply ev_step; [by apply step_stop|]. apply ev_now. split; [done|]. split; [done|].
  exists c. by apply owns_goto.
Qed.
Lemma exit_gone a c w :
  auto_owns a c -> au_thread a = Running PcGone -> au_running a = false -> auto_eventually exited 2 a w.
Proof.
  intros Ho Ht Hr. destruct (step_gone user conn_user d g a c w Ho Ht)
    as (c' & w' & E & Ha & _). eapply ev_step; [exact E|]. apply (exit_loop _ c'); [|done|done].
  apply owns_goto, (owns_client _ c); [|done]. apply owns_conns. by apply owns_state.
Qed.
Lemma exit_polled a c w :
  auto_owns a c -> au_thread a = Running (if connected c then PcLoop else PcGone) -> au_running a = false ->
  auto_eventually exited 2 a w.
Proof.
  intros Ho Ht Hr. destruct (connected c); [|by apply (exit_gone a c)].
  apply (ev_weaken _ 1); [lia|]. by apply (exit_loop a c).
Qed.

Lemma exit_lost a c w :
  auto_owns a c -> au_thread a = Running PcLost -> au_running a = false -> fds_small c -> auto_eventually exited 3 a w.
Proof.
  intros Ho Ht Hr Hf. destruct (step_lost user conn_user d g a c w Ho Ht Hf) as (c' & w' & E & Ha & _).
  eapply ev_step; [exact E|]. apply (exit_polled _ c'); [|done|done].
  apply owns_goto, (owns_client _ c); [|done]. apply owns_conns. by apply owns_state.
Qed.

(** Whatever the thread is doing, it exits within four steps. *)
Lemma exit_any a w :
  auto_inv a -> (forall c, au_client a = Some c -> fds_small c) -> au_running a = false ->
  (exists pc, au_thread a = Running pc) -> auto_eventually exited 4 a w.
Proof.
  unfold auto_inv. intros Hi Hf Hr [pc Ht]. rewrite Ht in Hi. destruct Hi as [[c Ho] [Hpc _]].
  specialize (Hf c (ao_client a c Ho)). destruct pc as [| |ok| | | | |]; cbn [pc_ok] in Hpc; try done.
  - apply (ev_weaken _ 1); [lia|]. by apply (exit_loop a c).
  - destruct (step_connected user conn_user d g a c w Ho Ht) as (c' & w' & E & Ha & _).
    eapply ev_step; [exact E|]. apply (ev_weaken _ 1); [lia|]. apply (exit_loop _ c'); [|done|done].
    apply owns_goto, owns_conns, (owns_client _ c); [|done]. apply owns_lost; [by apply owns_state|done].
  - pose proof (step_pinged user conn_user d g a c w Ho ok Ht Hpc Hf) as Hst. cbv zeta in Hst.
    pose proof (ao_lost a c Ho) as Hl. set (n := if ok then 0 else au_ping_lost a + 1) in *.
    assert (0 <= n <= SSN_CLIENT_AUTO_MAX_PING_LOST) as Hn.
    { subst n. unfold SSN_CLIENT_AUTO_MAX_PING_LOST in *. destruct ok; lia. }
    destruct (n >=? _).
    + eapply ev_step; [exact Hst|]. apply (exit_lost _ c); [|done|done|done]. apply owns_goto. by apply owns_lost.
    + destruct Hst as (c' & w' & E & Ha & _). eapply ev_step; [exact E|]. apply (ev_weaken _ 2); [lia|].
      apply (exit_polled _ c'); [|done|done]. apply owns_goto, (owns_client _ c); [|done]. by apply owns_lost.
  - apply (ev_weaken _ 3); [lia|]. by apply (exit_lost a c).
  - apply (ev_weaken _ 2); [lia|]. by apply (exit_gone a c).
  - eapply ev_step; [by apply step_reconnect|]. apply (ev_weaken _ 1); [lia|].
    apply (exit_loop _ c); [|done|done]. apply owns_goto. by apply owns_state.
  - apply ev_now. split; [done|]. split; [done|]. by exists c.
Qed.

(** *** Recovery *)

(** A new attempt to connect begins; [n] disconnections were reported since
    [a0]. *)
Definition reconnecting a0 (n : nat) a : Prop :=
  au_thread a = Running PcLoop /\ au_running a = true /\ au_state a = SSN_CLIENT_AUTO_STATE_CONNECTING /\
  au_conns a = au_conns a0 ++ (if au_onconn a0 =? 0 then [] else replicate n false).
(** The ping was answered, or the connection is given up and made anew. *)
Definition settled a0 a w : Prop :=
  au_thread a = Running (PcPinged true) \/ reconnecting a0 1 a \/ reconnecting a0 2 a.

Lemma settle_disconnected a0 n a c w :
  (n = 1 \/ n = 2)%nat -> auto_owns a c -> au_thread a = Running PcLoop -> au_running a = true ->
  au_state a = SSN_CLIENT_AUTO_STATE_DISCONNECTED ->
  au_conns a = au_conns a0 ++ (if au_onconn a0 =? 0 then [] else replicate n false) ->
  auto_eventually (settled a0) 2 a w.
Proof.
  intros Hn Ho Ht Hr Hs Hc. eapply ev_step; [by apply step_wait_reconnect|].
  eapply ev_step; [by apply step_reconnect|]. apply ev_now. right.
  destruct Hn as [-> | ->]; [left|right]; by split_and!.
Qed.
Lemma settle_gone a0 n a c w :
  (n = 0 \/ n = 1)%nat -> auto_owns a c -> au_thread a = Running PcGone -> au_running a = true ->
  au_onconn a = au_onconn a0 ->
  au_conns a = au_conns a0 ++ (if au_onconn a0 =? 0 then [] else replicate n false) ->
  auto_eventually (settled a0) 3 a w.
Proof.
  intros Hn Ho Ht Hr Hoc Hc. destruct (step_gone user conn_user d g a c w Ho Ht) as (c' & w' & E & Ha & _).
  eapply ev_step; [exact E|]. apply (settle_disconnected a0 (S n) _ c'); try done; [lia| |].
  - apply owns_goto, (owns_client _ c); [|done]. apply owns_conns. by apply owns_state.
  - cbn. unfold lost_conns. rewrite Hc, Hoc. destruct (_ =? 0); [by rewrite app_nil_r|].
    rewrite <- app_assoc. f_equal. destruct Hn as [-> | ->]; done.
Qed.
Lemma settle_lost a0 a c w :
  auto_owns a c -> au_thread a = Running PcLost -> au_running a = true -> fds_small c ->
  au_onconn a = au_onconn a0 -> au_conns a = au_conns a0 -> auto_eventually (settled a0) 4 a w.
Proof.
  intros Ho Ht Hr Hf Hoc Hc. destruct (step_lost user conn_user d g a c w Ho Ht Hf) as (c' & w' & E & Ha & _).
  eapply ev_step; [exact E|]. set (a1 := au_set_client _ _).
  assert (auto_owns a1 c') as Ho1.
  { apply (owns_client _ c); [|done]. apply owns_conns. by apply owns_state. }
  assert (au_conns a1 = au_conns a0 ++ (if au_onconn a0 =? 0 then [] else replicate 1 false)) as Hc1.
  { cbn. unfold lost_conns. by rewrite Hc, Hoc. }
  destruct (connected c').
  - apply (ev_weaken _ 2); [lia|]. by apply (settle_disconnected a0 1 _ c'); auto using owns_goto.
  - by apply (settle_gone a0 1 _ c'); auto using owns_goto.
Qed.

(** Each unanswered ping brings the thread closer to giving up. *)
Lemma settle_connected m : forall a0 a c w,
  auto_owns a c -> au_thread a = Running PcLoop -> au_running a = true ->
  au_state a = SSN_CLIENT_AUTO_STATE_CONNECTED -> fds_small c ->
  au_onconn a = au_onconn a0 -> au_conns a = au_conns a0 ->
  au_ping_lost a < SSN_CLIENT_AUTO_MAX_PING_LOST -> SSN_CLIENT_AUTO_MAX_PING_LOST - au_ping_lost a <= Z.of_nat m ->
  auto_eventually (settled a0) (2 * m + 4) a w.
Proof.
  induction m as [|m IH]; intros a0 a c w Ho Ht Hr Hs Hf Hoc Hc Hl Hm; [lia|].
  destruct (step_ping user conn_user d g a c w Ho Ht Hr Hs Hf) as (ok & c1 & w1 & E & Ha1 & Hs1).
  replace (2 * S m + 4)%nat with (S (S (2 * m + 4))) by lia. eapply ev_step; [exact E|].
  destruct ok; [apply ev_now; by left|]. set (a1 := au_goto _ _).
  assert (auto_owns a1 c1) as Ho1 by (by apply owns_goto, (owns_client a c)).
  pose proof (steady_small _ _ Hs1 Hf) as Hf1.
  pose proof (step_pinged user conn_user d g a1 c1 w1 Ho1 false eq_refl Hl Hf1) as Hst. cbv zeta iota in Hst.
  change (au_ping_lost a1) with (au_ping_lost a) in Hst. pose proof (ao_lost a c Ho) as Hb.
  destruct (Z.geb_spec (au_ping_lost a + 1) SSN_CLIENT_AUTO_MAX_PING_LOST) as [Hge|Hlt].
  - eapply ev_step; [exact Hst|]. apply (ev_weaken _ 4); [lia|]. apply (settle_lost a0 _ c1); try done.
    apply owns_goto. apply owns_lost; [done|]. lia.
  - destruct Hst as (c2 & w2 & E2 & Ha2 & Hs2). eapply ev_step; [exact E2|]. set (a2 := au_set_client _ _).
    assert (auto_owns a2 c2) as Ho2 by (apply (owns_client _ c1); [|done]; apply owns_lost; [done|lia]).
    destruct (connected c2).
    + apply (IH a0 _ c2); try done; [by apply owns_goto|by eapply steady_small|]. cbn. lia.
    + apply (ev_weaken _ 3); [lia|]. apply (settle_gone a0 0 _ c2); try done; [by left|by apply owns_goto|].
      cbn. rewrite Hc. destruct (_ =? 0); by rewrite app_nil_r.
Qed.
End runs.

(** ** Claims *)

(** C29.  Thread and application: in every reachable state, whatever the kernel,
    the server and the callbacks do (callbacks and the application use the handle only
    to communicate, and take it anew from [ssn_client_auto_handle] for each use), the
    next step of the thread is defined (the client it uses exists and is alive), as
    long as the descriptors fit an [fd_set]; a start is defined; the count of lost
    pings stays within its limit.  The handle is a live client exactly from a start
    to the join of the thread: before, after a stop and after a deletion it is NULL,
    and no client and no heap block is left. *)
Theorem auto_thread_safe {W} `{OsLaws W} (user : client_event -> ssn_client -> W -> list client_call)
    (conn_user : bool -> ssn_client -> W -> list client_call) (d : nat) (g : factory)
    (a : ssn_client_auto) (p : app_pc) (w : W) :
  well_behaved user conn_user -> sys_reach user conn_user d g (a, p, w) ->
  ((forall c, au_client a = Some c -> fds_small c) ->
     exists a' w', auto_step user conn_user d g a w = Some (a', w') /\ sys_reach user conn_user d g (a', p, w')) /\
  (p = AppReady -> forall late_ok thread_ok server urls url_cnt keepalive conn_timeout reconn_delay,
     urls_arg_ok urls url_cnt ->
     is_Some (ssn_client_auto_start user d late_ok thread_ok a server urls url_cnt keepalive conn_timeout reconn_delay w)) /\
  0 <= au_ping_lost a <= SSN_CLIENT_AUTO_MAX_PING_LOST /\
  (if bool_decide (no_thread a)
   then ssn_client_auto_handle a = None /\ au_blocks a = 0
   else exists c, ssn_client_auto_handle a = Some c /\ alive c) /\
  (p = AppGone -> no_thread a).
Proof.
  intros WB Hr. destruct (sys_reach_inv user conn_user d g _ Hr) as [Hi Hp]. split; [|split; [|split; [|split]]].
  - intros Hf. destruct (step_inv user conn_user d g a w Hi Hf) as (a' & w' & E & _). exists a', w'.
    split; [done|]. eapply sreach_step; [exact Hr|]. by apply sys_thread.
  - intros -> lo tho srv urls n ka ct rd Harg.
    destruct (start_spec user conn_user d lo tho a srv urls n ka ct rd w Hi Hp Harg) as (b & a' & w' & -> & _). by eexists.
  - unfold auto_inv in Hi. destruct (au_thread a) as [|pc|].
    + destruct Hi as (_ & _ & _ & _ & ->). done.
    + destruct Hi as [[c Ho] _]. apply Ho.
    + destruct Hi as (_ & _ & _ & _ & ->). done.
  - unfold auto_inv in Hi. case_bool_decide as Hn; unfold no_thread in Hn.
    + destruct (au_thread a); [|done|]; by destruct Hi as (? & _ & _ & ? & _).
    + destruct (au_thread a); [by destruct Hn| |by destruct Hn]. destruct Hi as [[c Ho] _]. exists c.
      split; [apply (ao_client _ _ Ho)|apply (ao_alive _ _ Ho)].
  - by intros ->.
Qed.

(** Stopping ends: once [ssn_client_auto_stop] (or the deletion) has cleared
    [running], the thread exits within four of its steps wherever it was, and the
    rest of the stop then returns and has given back client, address, URLs and
    every heap block. *)
Theorem auto_stop_ends {W} `{OsLaws W} (user : client_event -> ssn_client -> W -> list client_call)
    (conn_user : bool -> ssn_client -> W -> list client_call) (d : nat) (g : factory)
    (a : ssn_client_auto) (p : app_pc) (w : W) (pc : auto_pc) :
  well_behaved user conn_user -> sys_reach user conn_user d g (a, p, w) -> p = AppStopping \/ p = AppDeleting ->
  au_thread a = Running pc -> (forall c, au_client a = Some c -> fds_small c) ->
  auto_eventually user conn_user d g (fun a' w' => au_thread a' = Running PcExited /\
    exists a2 w2, stop_join user d a' w' = Some (a2, w2) /\ au_thread a2 = Joined /\ auto_empty a2) 4 a w.
Proof.
  intros WB Hr Hp Ht Hf. destruct (sys_reach_inv user conn_user d g _ Hr) as [Hi Hpr].
  assert (au_running a = false) as Hrun by (by destruct Hp as [-> | ->]).
  pose proof (exit_any user conn_user d g a w Hi Hf Hrun (ex_intro _ pc Ht)) as Hev. clear -Hev.
  induction Hev as [n a w (Ht & _ & c & Ho)|n a w a' w' E _ IH]; [|by eapply ev_step].
  apply ev_now. split; [done|].
  destruct (stop_join_spec user d a c w Ho Ht) as (a2 & w2 & E & ? & ? & _). by exists a2, w2.
Qed.

(** C30.  Recovery: from a connected state the thread, left to run, within ten of
    its steps either has a ping answered or has given the connection up, reported
    it (once or twice) and begins to connect again; a disconnected thread begins
    to connect within two steps; and a connecting thread tries to connect in its
    next step and, when that succeeds, is connected one step later, with no ping
    counted as lost and the connection reported. *)
Theorem auto_recovers {W} `{OsLaws W} (user : client_event -> ssn_client -> W -> list client_call)
    (conn_user : bool -> ssn_client -> W -> list client_call) (d : nat) (g : factory)
    (a : ssn_client_auto) (p : app_pc) (w : W) (c : ssn_client) :
  well_behaved user conn_user -> sys_reach user conn_user d g (a, p, w) ->
  au_thread a = Running PcLoop -> au_running a = true -> au_client a = Some c -> fds_small c ->
  match au_state a with
  | SSN_CLIENT_AUTO_STATE_CONNECTED => auto_eventually user conn_user d g (settled a) 10 a w
  | SSN_CLIENT_AUTO_STATE_DISCONNECTED => auto_eventually user conn_user d g (fun a' _ => reconnecting a 0 a') 2 a w
  | SSN_CLIENT_AUTO_STATE_CONNECTING =>
      exists (b : bool) a1 c1 w1, auto_step user conn_user d g a w = Some (a1, w1) /\
        au_client a1 = Some c1 /\ connect_post c w b c1 w1 /\
        if b
        then exists a2 w2, auto_step user conn_user d g a1 w1 = Some (a2, w2) /\ au_thread a2 = Running PcLoop /\
               au_state a2 = SSN_CLIENT_AUTO_STATE_CONNECTED /\ au_ping_lost a2 = 0 /\
               au_conns a2 = au_conns a ++ (if au_onconn a =? 0 then [] else [true])
        else reconnecting a 0 a1
  | _ => False
  end.
Proof.
  intros WB Hre Ht Hr Hc Hf. destruct (sys_reach_inv user conn_user d g _ Hre) as [Hi _].
  unfold auto_inv in Hi. rewrite Ht in Hi. destruct Hi as [[c0 Ho] [Hpc Hrun]].
  pose proof (ao_client a c0 Ho) as Hc0. rewrite Hc in Hc0. simplify_eq.
  assert (au_conns a = au_conns a ++ (if au_onconn a =? 0 then [] else replicate 0 false)) as Hnil.
  { destruct (_ =? 0); by rewrite app_nil_r. }
  destruct (au_state a) eqn:Hs; [by destruct (ao_idle a c0 Ho)| | | |by destruct (Hrun Hr)].
  - destruct (step_connect user conn_user d g a c0 w Ho Ht Hr Hs) as (b & c1 & w1 & E & Ha1 & _ & Hpost).
    exists b, (au_goto (au_set_client a (Some c1)) (if b then PcConnected else PcLoop)), c1, w1.
    split; [done|]. split; [done|]. split; [done|]. destruct b; [|by split_and!].
    destruct (step_connected user conn_user d g (au_goto (au_set_client a (Some c1)) PcConnected) c1 w1)
      as (c2 & w2 & -> & _); [by apply owns_goto, (owns_client a c0)|done|]. by eexists _, _.
  - apply (settle_connected user conn_user d g 3 a a c0 w); try done; [by apply Hpc|].
    pose proof (ao_lost a c0 Ho). unfold SSN_CLIENT_AUTO_MAX_PING_LOST. lia.
  - eapply ev_step; [by apply step_wait_reconnect|]. eapply ev_step; [by apply step_reconnect|].
    apply ev_now. by split_and!.
Qed.

(** A stop can be overwritten: when the application stops while the thread
    is about to leave its pause before reconnecting, the stop returns, but the
    thread has written CONNECTING over the stopped state on its way out.  From then
    on every start is refused, and another stop joins the joined thread, which is
    undefined. *)
Theorem stop_is_overwritten {W} `{OsLaws W} (user : client_event -> ssn_client -> W -> list client_call)
    (conn_user : bool -> ssn_client -> W -> list client_call) (d : nat) (g : factory)
    (a : ssn_client_auto) (w : W) :
  well_behaved user conn_user -> sys_reach user conn_user d g (a, AppReady, w) ->
  au_thread a = Running PcReconnect -> (forall c, au_client a = Some c -> fds_small c) ->
  exists a1 tr a2 w2 a3 w3 a4,
    stop_signal a = (true, a1) /\ auto_run user conn_user d g 2 a1 w = Some (tr, a2, w2) /\
    stop_join user d a2 w2 = Some (a3, w3) /\
    sys_reach user conn_user d g (a3, AppReady, w3) /\ au_state a3 = SSN_CLIENT_AUTO_STATE_CONNECTING /\
    (forall late_ok thread_ok server urls url_cnt keepalive conn_timeout reconn_delay,
       ssn_client_auto_start user d late_ok thread_ok a3 server urls url_cnt keepalive conn_timeout reconn_delay w3
         = Some (false, a3, w3)) /\
    stop_signal a3 = (true, a4) /\ stop_join user d a4 w3 = None.
Proof.
  intros WB Hr Ht Hf. destruct (sys_reach_inv user conn_user d g _ Hr) as [Hi Hp].
  unfold auto_inv in Hi. rewrite Ht in Hi, Hp. destruct Hi as [[c Ho] [_ Hrun]].
  set (a1 := au_set_state (au_set_running a false) SSN_CLIENT_AUTO_STATE_STOPPED).
  assert (stop_signal a = (true, a1)) as E1.
  { unfold stop_signal. rewrite !bool_decide_eq_false_2; [done|by apply Hrun|apply Ho]. }
  set (a2 := au_goto (au_set_state a1 SSN_CLIENT_AUTO_STATE_CONNECTING) PcExited).
  assert (auto_owns a2 c) as Ho2 by (destruct Ho; by split).
  destruct (stop_join_spec user d a2 c w Ho2 eq_refl) as (a3 & w3 & E3 & He3 & Ht3 & Hs3 & Hr3).
  assert (auto_step user conn_user d g a1 w = Some (au_goto (au_set_state a1 SSN_CLIENT_AUTO_STATE_CONNECTING) PcLoop, w)) as S1.
  { by apply step_reconnect. }
  assert (auto_step user conn_user d g (au_goto (au_set_state a1 SSN_CLIENT_AUTO_STATE_CONNECTING) PcLoop) w = Some (a2, w)) as S2.
  { by apply step_stop. }
  exists a1, [Running PcLoop; Running PcExited], a2, w, a3, w3,
    (au_set_state (au_set_running a3 false) SSN_CLIENT_AUTO_STATE_STOPPED).
  split; [done|]. split; [cbn [auto_run]; by rewrite S1, S2|]. split; [done|]. split; [|split; [done|split; [|split]]].
  - eapply sreach_step; [|by apply sys_stop_join; exact E3]. eapply sreach_step; [|apply sys_thread; [|exact S2]; exact Hf].
    eapply sreach_step; [|apply sys_thread; [|exact S1]; exact Hf]. eapply sreach_step; [exact Hr|]. by apply (sys_stop _ _ _ _ a w true).
  - intros. unfold ssn_client_auto_start. destruct server; [|done]. by rewrite Hs3.
  - unfold stop_signal. by rewrite Hs3.
  - unfold stop_join. cbn. by rewrite Ht3.
Qed.

(** A lost connection is reported twice: when the third ping in a row fails
    on a connection that the client already knows to be gone, the thread reports
    the disconnection for the ping and again for the poll of the same round. *)
Theorem lost_connection_reported_twice {W} `{OsLaws W} (user : client_event -> ssn_client -> W -> list client_call)
    (conn_user : bool -> ssn_client -> W -> list client_call) (d : nat) (g : factory)
    (a : ssn_client_auto) (p : app_pc) (w : W) (c : ssn_client) :
  well_behaved user conn_user -> sys_reach user conn_user d g (a, p, w) ->
  au_thread a = Running (PcPinged false) -> au_ping_lost a = 2 -> au_onconn a <> 0 ->
  au_client a = Some c -> fds_small c -> connected c = false ->
  exists tr a' w', auto_run user conn_user d g 3 a w = Some (tr, a', w') /\ au_thread a' = Running PcLoop /\
    au_state a' = SSN_CLIENT_AUTO_STATE_DISCONNECTED /\ au_conns a' = au_conns a ++ [false; false].
Proof.
  intros WB Hr Ht Hl Hoc Hc Hf Hn. destruct (sys_reach_inv user conn_user d g _ Hr) as [Hi _].
  unfold auto_inv in Hi. rewrite Ht in Hi. destruct Hi as [[c0 Ho] [Hpc _]].
  pose proof (ao_client a c0 Ho) as Hc0. rewrite Hc in Hc0. simplify_eq.
  pose proof (step_pinged user conn_user d g a c0 w Ho false Ht Hpc Hf) as S1. rewrite Hl in S1. cbv zeta in S1.
  change (2 + 1 >=? SSN_CLIENT_AUTO_MAX_PING_LOST) with true in S1. cbv iota in S1. change (2 + 1) with 3 in S1.
  set (a1 := au_goto (au_set_lost a 3) PcLost) in *.
  assert (auto_owns a1 c0) as Ho1 by (by apply owns_goto, owns_lost).
  destruct (step_lost user conn_user d g a1 c0 w Ho1 eq_refl Hf) as (c2 & w2 & S2 & Ha2 & _ & _ & _ & Hn2).
  rewrite (Hn2 Hn) in S2. set (a2 := au_goto _ PcGone) in S2.
  assert (auto_owns a2 c2) as Ho2.
  { apply owns_goto, (owns_client _ c0); [|done]. apply owns_conns. by apply owns_state. }
  destruct (step_gone user conn_user d g a2 c2 w2 Ho2 eq_refl) as (c3 & w3 & S3 & _).
  eexists _, _, _. cbn [auto_run]. rewrite S1, S2, S3. split; [done|]. split; [done|]. split; [done|].
  cbn. unfold lost_conns. cbn. destruct (Z.eqb_spec (au_onconn a) 0); [done|]. by rewrite <- app_assoc.
Qed.

(** ** Witnesses *)

Definition fds_smallb (a : ssn_client_auto) : bool :=
  match au_client a with
  | Some c => (0 <=? evt_fd (cl_evt c)) && (evt_fd (cl_evt c) <? FD_SETSIZE) && (socket_of c <? FD_SETSIZE)
  | None => true
  end.
Lemma fds_smallb_ok a : fds_smallb a = true -> forall c, au_client a = Some c -> fds_small c.
Proof.
  unfold fds_smallb, fds_small. intros Hb c Hc. rewrite Hc in Hb. apply andb_prop in Hb as [Hb1 Hb2].
  apply andb_prop in Hb1 as [Hb0 Hb1]. lia.
Qed.

(** The state after [n] steps with small descriptors. *)
Fixpoint run_small {W} `{OsOps W} user conn_user d g (n : nat) a (w : W) : option (ssn_client_auto * W) :=
  match n with
  | O => if fds_smallb a then Some (a, w) else None
  | S n => if fds_smallb a then
             match auto_step user conn_user d g a w with
             | Some (a, w) => run_small user conn_user d g n a w
             | None => None
             end
           else None
  end.
Lemma run_small_reach {W} `{OsOps W} user conn_user d g n p : forall a (w : W) a' w',
  run_small user conn_user d g n a w = Some (a', w') -> sys_reach user conn_user d g (a, p, w) ->
  sys_reach user conn_user d g (a', p, w') /\ forall c, au_client a' = Some c -> fds_small c.
Proof.
  induction n as [|n IH]; intros a w a' w' E Hr; cbn [run_small] in E; destruct (fds_smallb a) eqn:Ef; try done.
  - simplify_eq. split; [done|by apply fds_smallb_ok].
  - destruct (auto_step user conn_user d g a w) as [[a1 w1]|] eqn:Es; [|done]. apply (IH _ _ _ _ E).
    eapply sreach_step; [exact Hr|]. apply sys_thread; [by apply fds_smallb_ok|done].
Qed.

Definition calm_user : client_event -> ssn_client -> sim_world -> list client_call := fun _ _ _ => [].
Definition calm_conn : bool -> ssn_client -> sim_world -> list client_call := fun _ _ _ => [].
Lemma calm : well_behaved calm_user calm_conn.
Proof. split; intros; constructor. Qed.

(** "unix:///t" and "/a"; the server's HELLO, packets nobody waits for, and the end. *)
Definition auto_path : bytes := [117; 110; 105; 120; 58; 47; 47; 47; 116].
Definition auto_hello : bytes := frame SSN_MSG_TYPE_SERVICE_INFO 0 0 [] [0; 0; 0; 7].
Definition auto_noise : bytes := frame SSN_MSG_TYPE_PUBLISH 0 0 [47; 98] [].
Definition auto_world (noise : nat) : sim_world := sim_init [] (auto_hello :: replicate noise auto_noise).
Definition auto_fresh : ssn_client_auto := default (mk_auto None 0 0 0 None None 0 0 0 0 SSN_CLIENT_AUTO_STATE_IDLE NoThread false 0 [] 0)
  (ssn_client_auto_create true).
Definition auto_ready : ssn_client_auto := (ssn_client_auto_setup auto_fresh 1 0).2.
Definition auto_started (noise : nat) : option (bool * ssn_client_auto * sim_world) :=
  ssn_client_auto_start calm_user 0 true true auto_ready (Some auto_path) (Some [Some [47; 97]]) 1 10 10 10 (auto_world noise).
Definition auto_at (noise n : nat) : option (ssn_client_auto * sim_world) :=
  match auto_started noise with
  | Some (_, a, w) => run_small calm_user calm_conn 0 demo_factory n a w
  | None => None
  end.

Lemma auto_at_reach noise n a w :
  auto_at noise n = Some (a, w) ->
  sys_reach calm_user calm_conn 0 demo_factory (a, AppReady, w) /\ forall c, au_client a = Some c -> fds_small c.
Proof.
  unfold auto_at. destruct (auto_started noise) as [[[b a0] w0]|] eqn:E; [|done]. intros Hrun.
  eapply run_small_reach; [exact Hrun|]. eapply sreach_step.
  - eapply sreach_step; [apply (sreach_init _ _ _ _ auto_fresh (auto_world noise)); reflexivity|].
    apply sys_setup with (onconn := 1) (arg := 0).
  - eapply sys_start; [|exact E]. split; [discriminate|]. repeat constructor.
Qed.

(** What the witnesses need of a state. *)
Definition auto_view (x : option (ssn_client_auto * sim_world)) :=
  match x with
  | Some (a, _) => Some (au_thread a, au_state a, au_running a, (au_ping_lost a, au_onconn a),
      connected <$> au_client a)
  | None => None
  end.
Lemma auto_at_view noise n th st r pl oc cn :
  auto_view (auto_at noise n) = Some (th, st, r, (pl, oc), Some cn) ->
  exists a w c, sys_reach calm_user calm_conn 0 demo_factory (a, AppReady, w) /\
    (forall c, au_client a = Some c -> fds_small c) /\ au_thread a = th /\ au_state a = st /\ au_running a = r /\
    au_ping_lost a = pl /\ au_onconn a = oc /\ au_client a = Some c /\ connected c = cn.
Proof.
  intros Hv. destruct (auto_at noise n) as [[a w]|] eqn:E; [|done]. cbn in Hv.
  destruct (auto_at_reach noise n a w E) as [Hr Hf]. destruct (au_client a) as [c|] eqn:Ec; [|done]. cbn in Hv.
  simplify_eq. exists a, w, c. split_and!; try done. by rewrite Ec.
Qed.

Lemma auto_thread_safe_witness :
  exists a w a' w', au_thread a = Running PcReconnect /\
    auto_step calm_user calm_conn 0 demo_factory a w = Some (a', w').
Proof.
  destruct (auto_at_view 0 6 (Running PcReconnect) SSN_CLIENT_AUTO_STATE_DISCONNECTED true 1 1 false)
    as (a & w & c & Hr & Hf & Ht & _); [vm_compute; reflexivity|].
  destruct (auto_thread_safe calm_user calm_conn 0 demo_factory a AppReady w calm Hr) as [Hstep _].
  destruct (Hstep Hf) as (a' & w' & E & _). exists a, w, a', w'. by split.
Defined.

Lemma auto_stop_ends_witness :
  exists a w, au_thread a = Running (PcPinged false) /\
    auto_eventually calm_user calm_conn 0 demo_factory (fun a' w' => au_thread a' = Running PcExited /\
      exists a2 w2, stop_join calm_user 0 a' w' = Some (a2, w2) /\ au_thread a2 = Joined /\ auto_empty a2) 4 a w.
Proof.
  destruct (auto_at_view 0 3 (Running (PcPinged false)) SSN_CLIENT_AUTO_STATE_CONNECTED true 0 1 false)
    as (a & w & c & Hr & Hf & Ht & Hs & _); [vm_compute; reflexivity|].
  destruct (stop_signal a) as [b a1] eqn:E.
  assert (b = true /\ a1 = au_set_state (au_set_running a false) SSN_CLIENT_AUTO_STATE_STOPPED) as [-> ->].
  { unfold stop_signal in E. rewrite Hs, !bool_decide_eq_false_2 in E by done. by injection E. }
  exists (au_set_state (au_set_running a false) SSN_CLIENT_AUTO_STATE_STOPPED), w. split; [done|].
  apply (auto_stop_ends calm_user calm_conn 0 demo_factory _ AppStopping w (PcPinged false) calm);
    [|by left|exact Ht|exact Hf].
  eapply sreach_step; [exact Hr|]. by apply (sys_stop _ _ _ _ a w true).
Defined.

Lemma auto_recovers_witness :
  exists a w, au_state a = SSN_CLIENT_AUTO_STATE_CONNECTED /\
    auto_eventually calm_user calm_conn 0 demo_factory (settled a) 10 a w.
Proof.
  destruct (auto_at_view 0 2 (Running PcLoop) SSN_CLIENT_AUTO_STATE_CONNECTED true 0 1 true)
    as (a & w & c & Hr & Hf & Ht & Hs & Hrun & _ & _ & Hc & _); [vm_compute; reflexivity|].
  exists a, w. split; [done|].
  pose proof (auto_recovers calm_user calm_conn 0 demo_factory a AppReady w c calm Hr Ht Hrun Hc (Hf c Hc)) as Hrec.
  by rewrite Hs in Hrec.
Defined.

Lemma stop_is_overwritten_witness :
  exists a (w : sim_world) a3 w3, au_thread a = Running PcReconnect /\ au_state a3 = SSN_CLIENT_AUTO_STATE_CONNECTING /\
    sys_reach calm_user calm_conn 0 demo_factory (a3, AppReady, w3).
Proof.
  destruct (auto_at_view 0 6 (Running PcReconnect) SSN_CLIENT_AUTO_STATE_DISCONNECTED true 1 1 false)
    as (a & w & c & Hr & Hf & Ht & _); [vm_compute; reflexivity|].
  destruct (stop_is_overwritten calm_user calm_conn 0 demo_factory a w calm Hr Ht Hf)
    as (a1 & tr & a2 & w2 & a3 & w3 & a4 & _ & _ & _ & Hr3 & Hs3 & _).
  by exists a, w, a3, w3.
Defined.

Lemma lost_connection_reported_twice_witness :
  exists a w tr a' w', auto_run calm_user calm_conn 0 demo_factory 3 a w = Some (tr, a', w') /\
    au_conns a' = au_conns a ++ [false; false].
Proof.
  destruct (auto_at_view 12 7 (Running (PcPinged false)) SSN_CLIENT_AUTO_STATE_CONNECTED true 2 1 false)
    as (a & w & c & Hr & Hf & Ht & _ & _ & Hl & Hoc & Hc & Hn); [vm_compute; reflexivity|].
  destruct (lost_connection_reported_twice calm_user calm_conn 0 demo_factory a AppReady w c calm Hr Ht Hl)
    as (tr & a' & w' & E & _ & _ & Hcn); [by rewrite Hoc|exact Hc|exact (Hf c Hc)|exact Hn|].
  by exists a, w, tr, a', w'.
Defined.
