(* ===== verification/Protocol.v ===== *)
(** * Publish/subscribe and message contexts, and the dispatch over all contexts

    [src/src/protocol/pubsub/ssn_pubsub.c], [protocol/msg/ssn_msg.c] and
    [protocol/ssn_protocol.c].

    - A context is its base, with the stored type, role and destroy function, and
      the object it was allocated as; the functions dispatch on the stored fields, and
      using a context as another object is undefined.  The transport and the user data
      of the base are kept in the object.
    - [on_message] callbacks are history variables.  The handlers do nothing after
      the callback, so operations a callback performs on its context are the same
      as performing them after the handler.
    - [sub_entries] counts the subscription entries allocated and not freed.
    - [None] is undefined behaviour or lack of fuel, as elsewhere. *)
From S2P Require Import Prelude FrameCodec HashTable ErrorCode Os Transport FrameSend Rpc.

(** ** Publish/subscribe *)

Record pubsub_sub_entry_t := mk_sub_entry { se_topic : bytes; se_subscribed : bool }.

Record ssn_pubsub_pub_t (T : Type) := mk_pub {
  pub_transport : option ssn_transport_t;
  subscriber_table : T;
  subscriber_count : Z;
}.
Arguments mk_pub {T} _ _ _.
Arguments pub_transport {T} _.
Arguments subscriber_table {T} _.
Arguments subscriber_count {T} _.

(** A callback: the pointer to the topic, kept as the readable bytes from there
    on, the payload and the argument. *)
Record topic_message := mk_topic_message { tm_topic : option bytes; tm_data : ssn_data_ref_t; tm_arg : Z }.

Record ssn_pubsub_sub_t (T : Type) := mk_sub {
  sub_transport : option ssn_transport_t;
  topic_table : T;
  topic_count : Z;
  sub_on_message : Z;
  sub_user_arg : Z;
  sub_entries : Z;
  sub_messages : list topic_message;
}.
Arguments mk_sub {T} _ _ _ _ _ _ _.
Arguments sub_transport {T} _.
Arguments topic_table {T} _.
Arguments topic_count {T} _.
Arguments sub_on_message {T} _.
Arguments sub_user_arg {T} _.
Arguments sub_entries {T} _.
Arguments sub_messages {T} _.

(** References with the casts of the source. *)
Definition topic_ref (topic : bytes) : option ssn_url_ref_t := Some (mk_url_ref (Some topic) (u16 (zlen topic))).

Section pubsub.
Context {W T : Type} `{OsOps W} `{StrMap pubsub_sub_entry_t T}.
Implicit Types (p : ssn_pubsub_pub_t T) (s : ssn_pubsub_sub_t T) (w : W).

Definition pub_set_transport p t := mk_pub t (subscriber_table p) (subscriber_count p).
Definition sub_set_transport s t := mk_sub t (topic_table s) (topic_count s) (sub_on_message s) (sub_user_arg s)
  (sub_entries s) (sub_messages s).
Definition sub_set_table s (t : T) c n := mk_sub (sub_transport s) t c (sub_on_message s) (sub_user_arg s) n
  (sub_messages s).
Definition sub_set_messages s l := mk_sub (sub_transport s) (topic_table s) (topic_count s) (sub_on_message s)
  (sub_user_arg s) (sub_entries s) l.

Definition ssn_pubsub_pub_bind p (t : option ssn_transport_t) : Z * ssn_pubsub_pub_t T :=
  match t with None => (-1, p) | Some t => (0, pub_set_transport p (Some t)) end.
Definition ssn_pubsub_sub_connect s (t : option ssn_transport_t) : Z * ssn_pubsub_sub_t T :=
  match t with None => (-1, s) | Some t => (0, sub_set_transport s (Some t)) end.

(** [entry_ok], [malloc_ok], [strdup_ok]: allocation of the entry, of the table's
    node, of its key. *)
Definition ssn_pubsub_sub_subscribe (entry_ok malloc_ok strdup_ok : bool) s (topic : option bytes) w
  : option (Z * ssn_pubsub_sub_t T * W) :=
  match topic, sub_transport s with
  | Some topic, Some t =>
    if negb entry_ok then Some (-1, s, w)
    else match sm_set malloc_ok strdup_ok (topic_table s) topic (Some (mk_sub_entry (ztake 63 topic) true)) with
    | None => None
    | Some (false, _) => Some (-1, s, w)
    | Some (true, tb) =>
      let s := sub_set_table s tb (u64 (topic_count s + 1)) (sub_entries s + 1) in
      match ssn_send_message t (ssn_create_header SSN_MSG_TYPE_SUBSCRIBE 0 0) (topic_ref topic) None w with
      | None => None
      | Some (true, _, t, w) => Some (0, sub_set_transport s (Some t), w)
      | Some (false, _, t, w) =>
        match sm_remove (topic_table s) topic with
        | None => None
        | Some (_, tb) =>
          Some (-1, sub_set_transport (sub_set_table s tb (u64 (topic_count s - 1)) (sub_entries s - 1)) (Some t), w)
        end
      end
    end
  | _, _ => Some (-1, s, w)
  end.

Definition ssn_pubsub_sub_unsubscribe s (topic : option bytes) w : option (Z * ssn_pubsub_sub_t T * W) :=
  match topic with
  | None => Some (-1, s, w)
  | Some topic =>
    match sm_get (topic_table s) topic with
    | None => None
    | Some None => Some (-1, s, w)
    | Some (Some _) =>
      let sent :=
        match sub_transport s with
        | None => Some (s, w)
        | Some t =>
          match ssn_send_message t (ssn_create_header SSN_MSG_TYPE_UNSUBSCRIBE 0 0) (topic_ref topic) None w with
          | None => None
          | Some (_, _, t, w) => Some (sub_set_transport s (Some t), w)
          end
        end in
      match sent with
      | None => None
      | Some (s, w) =>
        match sm_remove (topic_table s) topic with
        | None => None
        | Some (_, tb) => Some (0, sub_set_table s tb (u64 (topic_count s - 1)) (sub_entries s - 1), w)
        end
      end
    end
  end.

Definition ssn_pubsub_pub_publish p (topic data : option bytes) (data_len : Z) w
  : option (Z * ssn_pubsub_pub_t T * W) :=
  match topic, pub_transport p with
  | Some topic, Some t =>
    match ssn_send_message t (ssn_create_header SSN_MSG_TYPE_PUBLISH 0 0) (topic_ref topic)
            (Some (payload_ref data data_len)) w with
    | None => None
    | Some (ok, _, t, w) => Some (if ok then 0 else -1, pub_set_transport p (Some t), w)
    end
  | _, _ => Some (-1, p, w)
  end.

Definition ssn_pubsub_handle_message s (pkt : bytes) : option (Z * ssn_pubsub_sub_t T) :=
  if negb (h_msg_type (header_of_bytes pkt) =? SSN_MSG_TYPE_PUBLISH) then Some (0, s)
  else if sub_on_message s =? 0 then Some (0, s)
  else match ssn_get_url pkt, ssn_get_data pkt with
  | Some _, Some data =>
    Some (1, sub_set_messages s (sub_messages s ++ [mk_topic_message (url_pointer pkt) data (sub_user_arg s)]))
  | _, _ => None
  end.

(** [ssn_pubsub_poll] of a subscriber. *)
Definition ssn_pubsub_poll_sub s (timeout_ms : Z) w : option (Z * ssn_pubsub_sub_t T * W) :=
  match sub_transport s with
  | None => Some (-1, s, w)
  | Some t =>
    let '(len, buf, t, w) := ssn_transport_recv t SSN_MAX_PACKET_SIZE timeout_ms w in
    let s := sub_set_transport s (Some t) in
    if len <=? 0 then Some (len, s, w)
    else match ssn_packet_input buf len with
    | None => Some (-1, s, w)
    | Some pkt => match ssn_pubsub_handle_message s pkt with Some (_, s) => Some (1, s, w) | None => None end
    end
  end.
End pubsub.

(** The concrete contexts, with the hash table; the publisher's holds nothing. *)
Definition pub_ctx : Type := ssn_pubsub_pub_t (ssn_hash_table Z).
Definition sub_ctx : Type := ssn_pubsub_sub_t (ssn_hash_table pubsub_sub_entry_t).
Definition ssn_pubsub_pub_create (calloc_ok malloc_ok buckets_ok : bool) : option (option pub_ctx) :=
  if negb calloc_ok then Some None
  else match ssn_hash_table_create malloc_ok buckets_ok 16 with
  | None => None
  | Some None => Some None
  | Some (Some t) => Some (Some (mk_pub None t 0))
  end.
Definition ssn_pubsub_sub_create (calloc_ok malloc_ok buckets_ok : bool) (on_message arg : Z) : option (option sub_ctx) :=
  if negb calloc_ok then Some None
  else match ssn_hash_table_create malloc_ok buckets_ok 16 with
  | None => None
  | Some None => Some None
  | Some (Some t) => Some (Some (mk_sub None t 0 on_message arg 0 []))
  end.
(** Destroying frees the table with its keys, returned here. *)
Definition ssn_pubsub_destroy_table (c : pub_ctx + sub_ctx) : option (list bytes) :=
  match c with
  | inl p => ssn_hash_table_destroy (subscriber_table p)
  | inr s => ssn_hash_table_destroy (topic_table s)
  end.

Definition ssn_pubsub_is_connected (c : pub_ctx + sub_ctx) : bool :=
  match (match c with inl p => pub_transport p | inr s => sub_transport s end) with
  | Some t => ssn_transport_is_connected t
  | None => false
  end.

(** ** Messages *)

Record ssn_msg_send_t := mk_msg_send { ms_transport : option ssn_transport_t; ms_next_seqno : Z }.
Record ssn_msg_recv_t := mk_msg_recv {
  mr_transport : option ssn_transport_t;
  mr_on_message : Z;
  mr_user_arg : Z;
  mr_messages : list (ssn_data_ref_t * Z);
}.

Definition ssn_msg_send_create (calloc_ok : bool) : option ssn_msg_send_t :=
  if negb calloc_ok then None else Some (mk_msg_send None 1).
Definition ssn_msg_recv_create (calloc_ok : bool) (on_message arg : Z) : option ssn_msg_recv_t :=
  if negb calloc_ok then None else Some (mk_msg_recv None on_message arg []).
Definition ssn_msg_send_connect (s : ssn_msg_send_t) (t : option ssn_transport_t) : Z * ssn_msg_send_t :=
  match t with None => (-1, s) | Some t => (0, mk_msg_send (Some t) (ms_next_seqno s)) end.
Definition mr_set_transport r t := mk_msg_recv t (mr_on_message r) (mr_user_arg r) (mr_messages r).
Definition ssn_msg_recv_bind (r : ssn_msg_recv_t) (t : option ssn_transport_t) : Z * ssn_msg_recv_t :=
  match t with None => (-1, r) | Some t => (0, mr_set_transport r (Some t)) end.

Definition ssn_msg_is_connected (c : ssn_msg_send_t + ssn_msg_recv_t) : bool :=
  match (match c with inl s => ms_transport s | inr r => mr_transport r end) with
  | Some t => ssn_transport_is_connected t
  | None => false
  end.

Definition ssn_msg_handle_data (r : ssn_msg_recv_t) (pkt : bytes) : option (Z * ssn_msg_recv_t) :=
  if negb (h_msg_type (header_of_bytes pkt) =? SSN_MSG_TYPE_MESSAGE) then Some (0, r)
  else if mr_on_message r =? 0 then Some (0, r)
  else match ssn_get_data pkt with
  | Some data => Some (1, mk_msg_recv (mr_transport r) (mr_on_message r) (mr_user_arg r)
                            (mr_messages r ++ [(data, mr_user_arg r)]))
  | None => None
  end.

Section msg.
Context {W : Type} `{OsOps W}.

Definition ssn_msg_send (s : ssn_msg_send_t) (data : option bytes) (data_len : Z) (w : W)
  : option (Z * ssn_msg_send_t * W) :=
  match ms_transport s with
  | None => Some (-1, s, w)
  | Some t =>
    match ssn_send_message t (ssn_create_header SSN_MSG_TYPE_MESSAGE 0 (ms_next_seqno s)) None
            (Some (payload_ref data data_len)) w with
    | None => None
    | Some (ok, _, t, w) => Some (if ok then 0 else -1, mk_msg_send (Some t) (u16 (ms_next_seqno s + 1)), w)
    end
  end.

(** [ssn_msg_poll] of a receiver. *)
Definition ssn_msg_poll_recv (r : ssn_msg_recv_t) (timeout_ms : Z) (w : W) : option (Z * ssn_msg_recv_t * W) :=
  match mr_transport r with
  | None => Some (-1, r, w)
  | Some t =>
    let '(len, buf, t, w) := ssn_transport_recv t SSN_MAX_PACKET_SIZE timeout_ms w in
    let r := mr_set_transport r (Some t) in
    if len <=? 0 then Some (len, r, w)
    else match ssn_packet_input buf len with
    | None => Some (-1, r, w)
    | Some pkt => match ssn_msg_handle_data r pkt with Some (_, r) => Some (1, r, w) | None => None end
    end
  end.
End msg.

(** ** Dispatch *)

Inductive ssn_protocol_type_t := SSN_PROTOCOL_RPC | SSN_PROTOCOL_PUBSUB | SSN_PROTOCOL_MSG.
Inductive ssn_role_t := SSN_ROLE_REQ | SSN_ROLE_REP | SSN_ROLE_SEND | SSN_ROLE_RECV | SSN_ROLE_PUB | SSN_ROLE_SUB.

#[global] Instance protocol_type_dec : EqDecision ssn_protocol_type_t.
Proof. solve_decision. Defined.
#[global] Instance role_dec : EqDecision ssn_role_t.
Proof. solve_decision. Defined.

(** The object a context is allocated as. *)
Inductive ctx_object :=
  | ObjReq (q : ssn_rpc_req_t)
  | ObjRep (p : ssn_rpc_rep_t (ssn_hash_table rpc_method_entry_t))
  | ObjSend (s : ssn_msg_send_t)
  | ObjRecv (r : ssn_msg_recv_t)
  | ObjPub (p : pub_ctx)
  | ObjSub (s : sub_ctx).

(** The base structure with its stored fields, which the functions dispatch on; the
    destroy function is that of one of the protocols.  Using a context as an object it
    was not allocated as is undefined. *)
Record ssn_protocol_ctx := mk_ctx {
  ctx_type : ssn_protocol_type_t;
  ctx_role : ssn_role_t;
  ctx_destroy : option ssn_protocol_type_t;
  ctx_obj : ctx_object;
}.
Definition ctx_set_obj (c : ssn_protocol_ctx) (o : ctx_object) : ssn_protocol_ctx :=
  mk_ctx (ctx_type c) (ctx_role c) (ctx_destroy c) o.

(** A NULL context counts as an RPC requester. *)
Definition ssn_protocol_get_type (c : option ssn_protocol_ctx) : ssn_protocol_type_t :=
  match c with None => SSN_PROTOCOL_RPC | Some c => ctx_type c end.
Definition ssn_protocol_get_role (c : option ssn_protocol_ctx) : ssn_role_t :=
  match c with None => SSN_ROLE_REQ | Some c => ctx_role c end.

(** What each create function stores in the base of its object. *)
Definition req_base (q : ssn_rpc_req_t) := mk_ctx SSN_PROTOCOL_RPC SSN_ROLE_REQ (Some SSN_PROTOCOL_RPC) (ObjReq q).
Definition rep_base p := mk_ctx SSN_PROTOCOL_RPC SSN_ROLE_REP (Some SSN_PROTOCOL_RPC) (ObjRep p).
Definition send_base s := mk_ctx SSN_PROTOCOL_MSG SSN_ROLE_SEND (Some SSN_PROTOCOL_MSG) (ObjSend s).
Definition recv_base r := mk_ctx SSN_PROTOCOL_MSG SSN_ROLE_RECV (Some SSN_PROTOCOL_MSG) (ObjRecv r).
Definition pub_base p := mk_ctx SSN_PROTOCOL_PUBSUB SSN_ROLE_PUB (Some SSN_PROTOCOL_PUBSUB) (ObjPub p).
Definition sub_base s := mk_ctx SSN_PROTOCOL_PUBSUB SSN_ROLE_SUB (Some SSN_PROTOCOL_PUBSUB) (ObjSub s).

Definition as_ctx {A} (f : A -> ssn_protocol_ctx) (x : option (option A)) : option (option ssn_protocol_ctx) :=
  match x with None => None | Some None => Some None | Some (Some x) => Some (Some (f x)) end.

(** [ok1], [ok2], [ok3]: the context, its pool or table, the table's buckets. *)
Definition ssn_protocol_create (ok1 ok2 ok3 : bool) (role : ssn_role_t) (callback arg : Z)
  : option (option ssn_protocol_ctx) :=
  match role with
  | SSN_ROLE_REQ => as_ctx req_base (Some (ssn_rpc_req_create ok1 ok2 callback arg))
  | SSN_ROLE_REP => as_ctx rep_base (ssn_rpc_rep_create ok1 ok2 ok3 callback arg)
  | SSN_ROLE_SEND => as_ctx send_base (Some (ssn_msg_send_create ok1))
  | SSN_ROLE_RECV => as_ctx recv_base (Some (ssn_msg_recv_create ok1 callback arg))
  | SSN_ROLE_PUB => as_ctx pub_base (ssn_pubsub_pub_create ok1 ok2 ok3)
  | SSN_ROLE_SUB => as_ctx sub_base (ssn_pubsub_sub_create ok1 ok2 ok3 callback arg)
  end.

(** The keys freed with the context's table. *)
Definition ssn_rpc_destroy (c : ssn_protocol_ctx) : option (list bytes) :=
  if decide (ctx_type c = SSN_PROTOCOL_RPC) then
    match ctx_role c, ctx_obj c with
    | SSN_ROLE_REQ, ObjReq _ => Some []
    | SSN_ROLE_REP, ObjRep p => ssn_rpc_destroy_rep p
    | SSN_ROLE_REQ, _ | SSN_ROLE_REP, _ => None
    | _, _ => Some []
    end
  else Some [].
Definition ssn_pubsub_destroy (c : ssn_protocol_ctx) : option (list bytes) :=
  if decide (ctx_type c = SSN_PROTOCOL_PUBSUB) then
    match ctx_role c, ctx_obj c with
    | SSN_ROLE_PUB, ObjPub p => ssn_pubsub_destroy_table (inl p)
    | SSN_ROLE_SUB, ObjSub s => ssn_pubsub_destroy_table (inr s)
    | SSN_ROLE_PUB, _ | SSN_ROLE_SUB, _ => None
    | _, _ => Some []
    end
  else Some [].
Definition ssn_msg_destroy (c : ssn_protocol_ctx) : option (list bytes) := Some [].
Definition destroy_of (ty : ssn_protocol_type_t) : ssn_protocol_ctx -> option (list bytes) :=
  match ty with
  | SSN_PROTOCOL_RPC => ssn_rpc_destroy
  | SSN_PROTOCOL_PUBSUB => ssn_pubsub_destroy
  | SSN_PROTOCOL_MSG => ssn_msg_destroy
  end.
Definition ssn_protocol_destroy (c : option ssn_protocol_ctx) : option (list bytes) :=
  match c with
  | None => Some []
  | Some c => match ctx_destroy c with Some f => destroy_of f c | None => destroy_of (ctx_type c) c end
  end.

Definition ctx_transport (c : ssn_protocol_ctx) : option ssn_transport_t :=
  match ctx_obj c with
  | ObjReq q => rq_transport q
  | ObjRep p => rep_transport p
  | ObjSend s => ms_transport s
  | ObjRecv r => mr_transport r
  | ObjPub p => pub_transport p
  | ObjSub s => sub_transport s
  end.
Definition ctx_set_transport (c : ssn_protocol_ctx) (t : ssn_transport_t) : ssn_protocol_ctx :=
  ctx_set_obj c
    match ctx_obj c with
    | ObjReq q => ObjReq (rq_set_transport q (Some t))
    | ObjRep p => ObjRep (rep_set_transport p (Some t))
    | ObjSend s => ObjSend (mk_msg_send (Some t) (ms_next_seqno s))
    | ObjRecv r => ObjRecv (mr_set_transport r (Some t))
    | ObjPub p => ObjPub (pub_set_transport p (Some t))
    | ObjSub s => ObjSub (sub_set_transport s (Some t))
    end.
Definition ssn_protocol_bind (c : ssn_protocol_ctx) (t : option ssn_transport_t) : Z * ssn_protocol_ctx :=
  match t with None => (-1, c) | Some t => (0, ctx_set_transport c t) end.
Definition ssn_protocol_connect (c : ssn_protocol_ctx) (t : option ssn_transport_t) : Z * ssn_protocol_ctx :=
  match t with None => (-1, c) | Some t => (0, ctx_set_transport c t) end.
Definition ssn_protocol_is_connected (c : option ssn_protocol_ctx) : bool :=
  match c with
  | Some c => match ctx_transport c with Some t => ssn_transport_is_connected t | None => false end
  | None => false
  end.

Section dispatch.
Context {W : Type} `{OsOps W}.
Context (user : rpc_event -> ssn_rpc_req_t -> W -> list rpc_call).
(** The clock as a function of the world. *)
Context (clock : W -> timespec).

Definition poll_out {A} (c : ssn_protocol_ctx) (f : A -> ctx_object) (r : option (Z * A * W))
  : option (Z * ssn_protocol_ctx * W) :=
  match r with Some (n, x, w) => Some (n, ctx_set_obj c (f x), w) | None => None end.

(** The poll of a role that handles nothing: the packet is received, checked and
    dropped. *)
Definition poll_drop (c : ssn_protocol_ctx) (timeout_ms : Z) (w : W) : option (Z * ssn_protocol_ctx * W) :=
  match ctx_transport c with
  | None => Some (-1, c, w)
  | Some t =>
    let '(len, buf, t, w) := ssn_transport_recv t SSN_MAX_PACKET_SIZE timeout_ms w in
    let c := ctx_set_transport c t in
    if len <=? 0 then Some (len, c, w)
    else match ssn_packet_input buf len with
    | None => Some (-1, c, w)
    | Some _ => Some (1, c, w)
    end
  end.
Definition ssn_rpc_poll (c : ssn_protocol_ctx) (timeout_ms : Z) (w : W) : option (Z * ssn_protocol_ctx * W) :=
  match ctx_role c, ctx_obj c with
  | SSN_ROLE_REQ, ObjReq q => poll_out c ObjReq (ssn_rpc_poll_req user q timeout_ms (clock w) w)
  | SSN_ROLE_REP, ObjRep p => poll_out c ObjRep (ssn_rpc_poll_rep p timeout_ms w)
  | SSN_ROLE_REQ, _ | SSN_ROLE_REP, _ => None
  | _, _ => poll_drop c timeout_ms w
  end.
Definition ssn_pubsub_poll (c : ssn_protocol_ctx) (timeout_ms : Z) (w : W) : option (Z * ssn_protocol_ctx * W) :=
  match ctx_role c, ctx_obj c with
  | SSN_ROLE_SUB, ObjSub s => poll_out c ObjSub (ssn_pubsub_poll_sub s timeout_ms w)
  | SSN_ROLE_SUB, _ => None
  | _, _ => poll_drop c timeout_ms w
  end.
Definition ssn_msg_poll (c : ssn_protocol_ctx) (timeout_ms : Z) (w : W) : option (Z * ssn_protocol_ctx * W) :=
  match ctx_role c, ctx_obj c with
  | SSN_ROLE_RECV, ObjRecv r => poll_out c ObjRecv (ssn_msg_poll_recv r timeout_ms w)
  | SSN_ROLE_RECV, _ => None
  | _, _ => poll_drop c timeout_ms w
  end.
Definition ssn_protocol_poll (c : option ssn_protocol_ctx) (timeout_ms : Z) (w : W)
  : option (Z * option ssn_protocol_ctx * W) :=
  match c with
  | None => Some (-1, None, w)
  | Some c =>
    match ctx_transport c with
    | None => Some (-1, Some c, w)
    | Some _ =>
      match (match ctx_type c with
             | SSN_PROTOCOL_RPC => ssn_rpc_poll c timeout_ms w
             | SSN_PROTOCOL_PUBSUB => ssn_pubsub_poll c timeout_ms w
             | SSN_PROTOCOL_MSG => ssn_msg_poll c timeout_ms w
             end) with
      | Some (r, c, w) => Some (r, Some c, w)
      | None => None
      end
    end
  end.

(** [rounds] bounds the loop, which runs as long as the transport is connected. *)
Fixpoint ssn_protocol_run (rounds : nat) (c : option ssn_protocol_ctx) (w : W) : option (option ssn_protocol_ctx * W) :=
  if ssn_protocol_is_connected c then
    match rounds with
    | O => None
    | S rounds =>
      match ssn_protocol_poll c 100 w with
      | None => None
      | Some (ret, c, w) =>
        if (ret <? 0) && negb (os_errno w =? EAGAIN) && negb (os_errno w =? EWOULDBLOCK) then Some (c, w)
        else ssn_protocol_run rounds c w
      end
    end
  else Some (c, w).
End dispatch.
