(* ===== verification/ProtocolClaims.v ===== *)
(** * Publish/subscribe and message contexts: claims

    The subscriptions of a subscriber against the interface of string maps, with
    the frames put on the wire; messages from the sender's call to the receiver's
    callback; every poll of every context is defined. *)
From S2P Require Import Prelude FrameCodec HashTable ErrorCode Os Transport FrameSend Rpc RpcProps Protocol.

(** ** Packets followed by further bytes *)

Lemma header_wire_rest p rest : packet_ok p -> header_of_bytes (wire p ++ rest) = header_of_bytes (wire p).
Proof.
  intros Hp. apply header_of_bytes_ext. apply ztake_app_le. by apply zlen_wire.
Qed.
Lemma data_wire_rest p rest : packet_ok p -> ssn_get_data (wire p ++ rest) = ssn_get_data (wire p).
Proof.
  intros Hp. unfold ssn_get_data. rewrite header_wire_rest by done. destruct (_ || _); [done|].
  cbv zeta. do 2 f_equal. destruct (_ =? 0); [done|]. f_equal. apply slice_app_l.
  - pose proof (ntohs_range (h_url_len (header_of_bytes (wire p)))). unfold ssn_get_url_length, SSN_HEADER_SIZE. lia.
  - pose proof (ntohl_range (h_data_len (header_of_bytes (wire p)))). unfold ssn_get_data_length. lia.
  - destruct (packet_fields p Hp) as (_ & _ & _ & EU & ED). unfold ssn_get_url, ssn_get_data in EU, ED.
    destruct (_ || _); [done|]. injection EU as _ EU. injection ED as _ ED. rewrite EU, ED.
    unfold wire. rewrite zlen_frame. lia.
Qed.
Lemma input_wire_rest p rest n :
  packet_ok p -> zlen (wire p) <= n -> ssn_packet_input (wire p ++ rest) n = Some (wire p ++ rest).
Proof.
  intros Hp Hn. pose proof (zlen_wire p Hp) as Hw. unfold ssn_packet_input.
  destruct (Z.eqb_spec n 0); [unfold SSN_HEADER_SIZE in *; lia|].
  rewrite validate_wire by (done || lia). destruct (Z.gtb_spec (zlen (wire p)) n); [lia|done].
Qed.

(** The packet an accepted send puts on the wire. *)
Lemma accepted_fits url data :
  refs_ok url data -> ~ refused url data -> fits (url_bytes url) (data_bytes data).
Proof.
  intros Hr Hn.
  destruct (url_rejected url) eqn:Hu; [by destruct Hn; apply rejected_refused; auto|].
  destruct (data_rejected data) eqn:Hd; [by destruct Hn; apply rejected_refused; auto|].
  destruct (url_accepted url data Hr Hu) as [Eu ?], (data_accepted url data Hr Hd) as [Ed ?].
  unfold fits. rewrite Eu, Ed. split; [done|]. apply Z.nlt_ge. intros Hlt. apply Hn. right; left. lia.
Qed.

(** ** Subscriptions *)

Lemma topic_refs_ok topic : refs_ok (topic_ref topic) None.
Proof.
  pose proof (u16_range (zlen topic)). pose proof (zlen_nonneg topic). split; cbn; [|done]. split; [lia|].
  unfold u16. apply Z.mod_le; lia.
Qed.
Definition topic_frame (ty : Z) (topic : bytes) : bytes := frame ty 0 0 (url_bytes (topic_ref topic)) [].

Lemma send_topic {W} `{OsLaws W} t ty topic (w : W) :
  cfg_ok t ->
  exists ok hdr t' w',
    ssn_send_message t (ssn_create_header ty 0 0) (topic_ref topic) None w = Some (ok, hdr, t', w') /\
    config t' = config t /\ exists n, 0 <= n <= zlen (topic_frame ty topic) /\
      (ok = true <-> n = zlen (topic_frame ty topic)) /\
      os_tx w' (sock_fd (impl t)) = os_tx w (sock_fd (impl t)) ++ ztake n (topic_frame ty topic).
Proof.
  intros Hc. destruct (send_frame_spec t ty 0 0 (topic_ref topic) None w (topic_refs_ok topic) (send_timeout_range t Hc))
    as (ok & hdr & t' & w' & E & Hout). exists ok, hdr, t', w'. split; [done|].
  assert (0 < zlen (topic_frame ty topic)) as Hpos.
  { unfold topic_frame. rewrite zlen_frame. pose proof (zlen_nonneg (url_bytes (topic_ref topic))).
    pose proof (zlen_nonneg ([] : bytes)). unfold SSN_HEADER_SIZE. lia. }
  destruct Hout as [(_ & -> & -> & ->)|(_ & Hl)].
  - split; [done|]. exists 0. split; [lia|]. split; [split; [done|lia]|]. by rewrite app_nil_r.
  - pose proof (loop_post_bytes _ _ _ _ _ _ Hl) as Hb. destruct Hl as (_ & _ & _ & Hcfg & _).
    split; [done|]. destruct ok.
    + exists (zlen (topic_frame ty topic)). split; [lia|]. split; [done|]. by rewrite ztake_ge by done.
    + destruct Hb as (k & Hk & Hb). exists k. unfold topic_frame. split; [cbn in *; lia|]. split; [|done].
      split; [done|]. intros ->. cbn in *. lia.
Qed.

Section subscriptions.
Context {W T : Type} `{OsLaws W} `{StrMapLaws pubsub_sub_entry_t T}.
Implicit Types (s : ssn_pubsub_sub_t T) (m : gmap bytes pubsub_sub_entry_t).

Definition sub_repr s m : Prop := sm_repr (topic_table s) (Some <$> m).

Lemma remove_entry s m topic :
  sub_repr s m -> is_Some (m !! topic) ->
  exists tb, sm_remove (topic_table s) topic = Some (true, tb) /\ sm_repr tb (Some <$> delete topic m).
Proof.
  intros Hr [e He]. pose proof (sm_remove_ok _ _ topic Hr) as Hrm.
  rewrite bool_decide_false in Hrm by (by rewrite lookup_fmap, He). destruct Hrm as (tb & ? & Hr').
  exists tb. by rewrite fmap_delete.
Qed.

(** What [ssn_pubsub_sub_subscribe] leaves behind once its allocations are done. *)
Definition subscribe_post s m (t : ssn_transport_t) (topic : bytes) (w : W) (r : Z) s' (w' : W) : Prop :=
  exists n, 0 <= n <= zlen (topic_frame SSN_MSG_TYPE_SUBSCRIBE topic) /\
    os_tx w' (sock_fd (impl t)) = os_tx w (sock_fd (impl t)) ++ ztake n (topic_frame SSN_MSG_TYPE_SUBSCRIBE topic) /\
    if n =? zlen (topic_frame SSN_MSG_TYPE_SUBSCRIBE topic)
    then r = 0 /\ sub_repr s' (<[topic := mk_sub_entry (ztake 63 topic) true]> m) /\
         sub_entries s' = sub_entries s + 1 /\ topic_count s' = u64 (topic_count s + 1)
    else r = -1 /\ sub_repr s' (delete topic m) /\ sub_entries s' = sub_entries s.

Lemma lookup_some_none m topic :
  bool_decide ((Some <$> m : gmap _ (option pubsub_sub_entry_t)) !! topic = None) = bool_decide (m !! topic = None).
Proof. apply bool_decide_ext. by rewrite lookup_fmap, fmap_None. Qed.

Lemma subscribe_spec s m t topic entry_ok malloc_ok strdup_ok (w : W) :
  sub_repr s m -> sub_transport s = Some t -> cfg_ok t ->
  exists r s' w', ssn_pubsub_sub_subscribe entry_ok malloc_ok strdup_ok s (Some topic) w = Some (r, s', w') /\
    if negb entry_ok || bool_decide (m !! topic = None) && negb (malloc_ok && strdup_ok)
    then r = -1 /\ s' = s /\ w' = w else subscribe_post s m t topic w r s' w'.
Proof.
  intros Hr Ht Hc. cbn [ssn_pubsub_sub_subscribe]. rewrite Ht.
  destruct entry_ok; cbn [negb orb]; [|by eexists _, _, _].
  set (e := mk_sub_entry _ _). pose proof (sm_set_ok _ _ topic (Some e) malloc_ok strdup_ok Hr) as Hset.
  rewrite lookup_some_none in Hset. destruct (_ && _); [rewrite Hset; by eexists _, _, _|].
  destruct Hset as (tb & -> & Hr'). rewrite <- fmap_insert in Hr'.
  destruct (send_topic t SSN_MSG_TYPE_SUBSCRIBE topic w Hc) as (ok & hdr & t' & w' & -> & _ & n & Hn & Hok & Htx).
  destruct ok.
  - eexists _, _, _. split; [done|]. exists n. split_and!; [lia..|done|]. apply proj1 in Hok. rewrite Hok by done.
    by rewrite Z.eqb_refl.
  - set (s1 := sub_set_table _ _ _ _). destruct (remove_entry s1 (<[topic:=e]> m) topic Hr') as (tb' & -> & Hd).
    { by rewrite lookup_insert_eq. }
    rewrite delete_insert_eq in Hd.
    eexists _, _, _. split; [done|]. exists n. split_and!; [lia..|done|].
    destruct (Z.eqb_spec n (zlen (topic_frame SSN_MSG_TYPE_SUBSCRIBE topic))) as [E|]; [by apply Hok in E|].
    split_and!; [done|done|]. cbn. lia.
Qed.

Lemma unsubscribe_spec s m t topic (w : W) :
  sub_repr s m -> sub_transport s = Some t -> cfg_ok t ->
  exists r s' w', ssn_pubsub_sub_unsubscribe s (Some topic) w = Some (r, s', w') /\
    if bool_decide (m !! topic = None) then r = -1 /\ s' = s /\ w' = w
    else r = 0 /\ sub_repr s' (delete topic m) /\ sub_entries s' = sub_entries s - 1 /\
      exists n, 0 <= n <= zlen (topic_frame SSN_MSG_TYPE_UNSUBSCRIBE topic) /\
        os_tx w' (sock_fd (impl t)) =
          os_tx w (sock_fd (impl t)) ++ ztake n (topic_frame SSN_MSG_TYPE_UNSUBSCRIBE topic).
Proof.
  intros Hr Ht Hc. cbn [ssn_pubsub_sub_unsubscribe]. rewrite (sm_get_ok _ _ topic Hr), lookup_fmap.
  destruct (m !! topic) as [e|] eqn:Em; cbn [fmap option_fmap option_map default].
  - rewrite bool_decide_false by done. rewrite Ht.
    destruct (send_topic t SSN_MSG_TYPE_UNSUBSCRIBE topic w Hc) as (ok & hdr & t' & w' & -> & _ & n & Hn & _ & Htx).
    destruct (remove_entry (sub_set_transport s (Some t')) m topic Hr) as (tb & -> & Hd); [by rewrite Em|].
    eexists _, _, _. split; [done|]. split_and!; [done..|]. by exists n.
  - rewrite bool_decide_true by done. by eexists _, _, _.
Qed.
End subscriptions.

(** ** Messages *)

Definition msg_packet (seqno : Z) (data : option bytes) (len : Z) : packet :=
  mk_packet SSN_MSG_TYPE_MESSAGE 0 seqno [] (data_bytes (Some (payload_ref data len))).

Lemma msg_refs_ok data len : payload_ok data len -> refs_ok None (Some (payload_ref data len)).
Proof. intros Hd. pose proof (u32_range len). split; cbn; [done|]. split; [lia|exact Hd]. Qed.
Lemma msg_packet_ok seqno data len :
  payload_ok data len -> 0 <= seqno < 2 ^ 16 -> ~ refused None (Some (payload_ref data len)) ->
  packet_ok (msg_packet seqno data len).
Proof.
  intros Hd Hs Hn. split; [by vm_compute|]. split; [by vm_compute|]. split; [exact Hs|].
  exact (accepted_fits None _ (msg_refs_ok data len Hd) Hn).
Qed.

Lemma msg_send_spec {W} `{OsLaws W} s t data len (w : W) :
  ms_transport s = Some t -> cfg_ok t -> payload_ok data len ->
  exists r s' w', ssn_msg_send s data len w = Some (r, s', w') /\
    ms_next_seqno s' = u16 (ms_next_seqno s + 1) /\
    ((r = -1 /\ refused None (Some (payload_ref data len)) /\ w' = w) \/
     (~ refused None (Some (payload_ref data len)) /\
      (r = 0 /\ os_tx w' (sock_fd (impl t)) =
         os_tx w (sock_fd (impl t)) ++ wire (msg_packet (ms_next_seqno s) data len) \/
       r = -1 /\ exists k, 0 <= k < zlen (wire (msg_packet (ms_next_seqno s) data len)) /\
         os_tx w' (sock_fd (impl t)) =
           os_tx w (sock_fd (impl t)) ++ ztake k (wire (msg_packet (ms_next_seqno s) data len))))).
Proof.
  intros Ht Hc Hd. unfold ssn_msg_send. rewrite Ht.
  destruct (send_frame_spec t SSN_MSG_TYPE_MESSAGE 0 (ms_next_seqno s) None (Some (payload_ref data len)) w
    (msg_refs_ok data len Hd) (send_timeout_range t Hc)) as (ok & hdr & t' & w' & -> & Hout).
  eexists _, _, _. split; [done|]. split; [done|].
  destruct Hout as [(? & -> & _ & ->)|(? & Hl)]; [by left|right]. split; [done|].
  pose proof (loop_post_bytes _ _ _ _ _ _ Hl) as Hb. destruct ok; [by left|by right].
Qed.

Lemma msg_poll_frame {W} `{OsOps W} r t t' p rest ms (w w' : W) :
  mr_transport r = Some t -> mr_on_message r <> 0 -> packet_ok p -> p_type p = SSN_MSG_TYPE_MESSAGE ->
  ssn_transport_recv t SSN_MAX_PACKET_SIZE ms w = (zlen (wire p ++ rest), wire p ++ rest, t', w') ->
  ssn_msg_poll_recv r ms w = Some (1, mk_msg_recv (Some t') (mr_on_message r) (mr_user_arg r)
    (mr_messages r ++ [(mk_data_ref (if zlen (p_data p) =? 0 then None else Some (p_data p)) (zlen (p_data p)),
                        mr_user_arg r)]), w').
Proof.
  intros Ht Hm Hp Hty Hr. unfold ssn_msg_poll_recv. rewrite Ht, Hr. pose proof (zlen_wire p Hp) as Hlen.
  pose proof (zlen_nonneg rest). rewrite zlen_app.
  destruct (Z.leb_spec (zlen (wire p) + zlen rest) 0); [unfold SSN_HEADER_SIZE in *; lia|].
  rewrite input_wire_rest by (done || lia). unfold ssn_msg_handle_data. rewrite header_wire_rest, data_wire_rest by done.
  destruct (packet_fields p Hp) as (Et & _ & _ & _ & ED). unfold ssn_get_msg_type in Et.
  rewrite Et, Hty, Z.eqb_refl. cbn [negb mr_on_message mr_set_transport].
  destruct (Z.eqb_spec (mr_on_message r) 0); [done|]. by rewrite ED.
Qed.

(** ** Dispatch *)

Definition role_type (r : ssn_role_t) : ssn_protocol_type_t :=
  match r with
  | SSN_ROLE_REQ | SSN_ROLE_REP => SSN_PROTOCOL_RPC
  | SSN_ROLE_SEND | SSN_ROLE_RECV => SSN_PROTOCOL_MSG
  | SSN_ROLE_PUB | SSN_ROLE_SUB => SSN_PROTOCOL_PUBSUB
  end.
Definition object_role (o : ctx_object) : ssn_role_t :=
  match o with
  | ObjReq _ => SSN_ROLE_REQ | ObjRep _ => SSN_ROLE_REP | ObjSend _ => SSN_ROLE_SEND
  | ObjRecv _ => SSN_ROLE_RECV | ObjPub _ => SSN_ROLE_PUB | ObjSub _ => SSN_ROLE_SUB
  end.
(** The stored fields fit the object. *)
Definition typed (c : ssn_protocol_ctx) : Prop :=
  ctx_role c = object_role (ctx_obj c) /\ ctx_type c = role_type (ctx_role c) /\ ctx_destroy c = Some (ctx_type c).
Definition object_ok (o : ctx_object) : Prop := match o with ObjReq q => rpc_inv q | _ => True end.
Definition ctx_ok (c : ssn_protocol_ctx) : Prop := typed c /\ object_ok (ctx_obj c).

Lemma set_obj_ok c o : typed c -> object_role o = object_role (ctx_obj c) -> object_ok o -> ctx_ok (ctx_set_obj c o).
Proof. intros (E1 & E2 & E3) Eo Ho. split; [|done]. unfold typed. cbn. by rewrite Eo. Qed.
Lemma set_transport_ok c t : ctx_ok c -> ctx_role c <> SSN_ROLE_REQ \/ cfg_ok t -> ctx_ok (ctx_set_transport c t).
Proof.
  intros [Ht Ho] Hor. apply set_obj_ok; [done|by destruct (ctx_obj c)|]. destruct Ht as [Er _].
  destruct (ctx_obj c); try done. destruct Hor; [done|]. by destruct Ho; split.
Qed.

(** What belongs to the object, whatever is stored. *)
Definition own_destroy (o : ctx_object) : option (list bytes) :=
  match o with
  | ObjRep p => ssn_hash_table_destroy (method_table p)
  | ObjPub p => ssn_hash_table_destroy (subscriber_table p)
  | ObjSub s => ssn_hash_table_destroy (topic_table s)
  | ObjReq _ | ObjSend _ | ObjRecv _ => Some []
  end.
Lemma destroy_own c : typed c -> ssn_protocol_destroy (Some c) = own_destroy (ctx_obj c).
Proof.
  intros (E1 & E2 & E3). unfold ssn_protocol_destroy. rewrite E3.
  destruct c as [ty role d []]; cbn in *; subst; reflexivity.
Qed.

Section dispatch.
Context {W : Type} `{OsLaws W}.
Context (user : rpc_event -> ssn_rpc_req_t -> W -> list rpc_call) (clock : W -> timespec).
Hypothesis user_ok : forall e q w, Forall (fun c => payload_ok (rc_data c) (rc_len c)) (user e q w).

(** A receive: nothing to handle, an invalid packet, or a packet with its fields. *)
Lemma poll_input t ms (w : W) :
  exists len buf t' w', ssn_transport_recv t SSN_MAX_PACKET_SIZE ms w = (len, buf, t', w') /\
    (len <= 0 \/ 0 < len /\ (ssn_packet_input buf len = None \/
       exists pkt u d, ssn_packet_input buf len = Some pkt /\ ssn_get_url pkt = Some u /\ ssn_get_data pkt = Some d)).
Proof.
  destruct (ssn_transport_recv _ _ _ _) as [[[len buf] t'] w']. exists len, buf, t', w'. split; [done|].
  destruct (Z.leb_spec len 0); [by left|right]. split; [done|]. destruct (ssn_packet_input buf len) as [pkt|] eqn:Ei; [|by left].
  right. apply packet_input_fields in Ei as (_ & [u Eu] & [d Ed]). by exists pkt, u, d.
Qed.
Ltac polled := eexists _, _, _; split_and!; [done|try done|try done|lia].
Ltac poll_cases t ms w :=
  let E := fresh "E" in let Hl := fresh "Hl" in let Ei := fresh "Ei" in
  destruct (poll_input t ms w) as (? & ? & ? & ? & E & [Hl|(Hl & [Ei|(? & ? & ? & Ei & Eu & Ed)])]);
  rewrite E; [rewrite (proj2 (Z.leb_le _ _) Hl); polled|rewrite (proj2 (Z.leb_gt _ _) Hl), Ei; polled|
    rewrite (proj2 (Z.leb_gt _ _) Hl), Ei].

Lemma poll_req_le q ms now w r q' w' : ssn_rpc_poll_req user q ms now w = Some (r, q', w') -> r <= 1.
Proof.
  unfold ssn_rpc_poll_req. destruct (rq_transport q); [|intros [= <- _ _]; lia].
  destruct (expire_slots _ _ _ _ _ _) as [[q1 w1]|]; [|done].
  destruct (rq_transport q1) as [t1|]; [|done].
  destruct (ssn_transport_recv _ _ _ _) as [[[len buf] t'] w2]. destruct (Z.leb_spec len 0); [intros [= <- _ _]; lia|].
  destruct (ssn_packet_input _ _); [|intros [= <- _ _]; lia]. destruct (negb _); [intros [= <- _ _]; lia|].
  destruct (ssn_rpc_handle_reply _ _ _ _) as [[[? ?] ?]|]; [intros [= <- _ _]; lia|done].
Qed.

Definition own_poll (c : ssn_protocol_ctx) (ms : Z) (w : W) : option (Z * ssn_protocol_ctx * W) :=
  match ctx_obj c with
  | ObjReq q => poll_out c ObjReq (ssn_rpc_poll_req user q ms (clock w) w)
  | ObjRep p => poll_out c ObjRep (ssn_rpc_poll_rep p ms w)
  | ObjRecv r => poll_out c ObjRecv (ssn_msg_poll_recv r ms w)
  | ObjSub s => poll_out c ObjSub (ssn_pubsub_poll_sub s ms w)
  | ObjSend _ | ObjPub _ => poll_drop c ms w
  end.
Lemma poll_own c ms w :
  typed c ->
  ssn_protocol_poll user clock (Some c) ms w
  = match own_poll c ms w with Some (r, c, w) => Some (r, Some c, w) | None => None end.
Proof.
  intros (E1 & E2 & E3). unfold ssn_protocol_poll, own_poll.
  destruct c as [ty role d [q|p|s|r|p|s]]; cbn in E1, E2 |- *; subst; cbn;
    unfold ssn_rpc_poll_req, ssn_rpc_poll_rep, ssn_msg_poll_recv, ssn_pubsub_poll_sub, poll_drop, ctx_transport; cbn [ctx_obj];
    by case_match.
Qed.
Lemma drop_spec c ms w :
  ctx_ok c -> ctx_role c <> SSN_ROLE_REQ -> exists r c' w', poll_drop c ms w = Some (r, c', w') /\ ctx_ok c' /\ ctx_role c' = ctx_role c /\ r <= 1.
Proof.
  intros Hc Hn. unfold poll_drop. destruct (ctx_transport c) as [t|]; [|polled].
  destruct (poll_input t ms w) as (x & ? & t' & ? & -> & Hin). pose proof (set_transport_ok c t' Hc (or_introl Hn)) as Hc'.
  destruct (Z.leb_spec x 0); [polled|]. destruct (ssn_packet_input _ _); polled.
Qed.
Lemma own_poll_spec c ms w :
  ctx_ok c ->
  exists r c' w', own_poll c ms w = Some (r, c', w') /\ ctx_ok c' /\ ctx_role c' = ctx_role c /\ r <= 1.
Proof.
  intros Hc. pose proof Hc as [Ht Ho]. unfold own_poll. destruct (ctx_obj c) as [q|p|s|r|p|s] eqn:Eo.
  - destruct (poll_req_spec user user_ok q ms (clock w) w Ho) as (r & q' & w' & E & Hi). rewrite E.
    eexists _, _, _. split_and!; [done|apply set_obj_ok; by rewrite ?Eo|done|]. by eapply poll_req_le.
  - assert (forall p', ctx_ok (ctx_set_obj c (ObjRep p'))) as Hset by (intros; apply set_obj_ok; by rewrite ?Eo).
    unfold ssn_rpc_poll_rep. destruct (rep_transport p) as [t|]; [|polled].
    poll_cases t ms w. unfold ssn_rpc_handle_request.
    destruct (negb _); [polled|].
    destruct (_ =? 0); [polled|]. rewrite Eu, Ed. polled.
  - apply drop_spec; [done|]. destruct Ht as [-> _]. by rewrite Eo.
  - assert (forall r', ctx_ok (ctx_set_obj c (ObjRecv r'))) as Hset by (intros; apply set_obj_ok; by rewrite ?Eo).
    unfold ssn_msg_poll_recv. destruct (mr_transport r) as [t|]; [|polled].
    poll_cases t ms w. unfold ssn_msg_handle_data.
    destruct (negb _); [polled|].
    destruct (_ =? 0); [polled|]. rewrite Ed. polled.
  - apply drop_spec; [done|]. destruct Ht as [-> _]. by rewrite Eo.
  - assert (forall s', ctx_ok (ctx_set_obj c (ObjSub s'))) as Hset by (intros; apply set_obj_ok; by rewrite ?Eo).
    unfold ssn_pubsub_poll_sub. destruct (sub_transport s) as [t|]; [|polled].
    poll_cases t ms w. unfold ssn_pubsub_handle_message.
    destruct (negb _); [polled|].
    destruct (_ =? 0); [polled|]. rewrite Eu, Ed. polled.
Qed.
End dispatch.

(** Which allocations a context of a role needs. *)
Definition role_allocs (r : ssn_role_t) (ok1 ok2 ok3 : bool) : bool :=
  match r with
  | SSN_ROLE_SEND | SSN_ROLE_RECV => ok1
  | SSN_ROLE_REQ => ok1 && ok2
  | SSN_ROLE_REP | SSN_ROLE_PUB | SSN_ROLE_SUB => ok1 && ok2 && ok3
  end.
Lemma small_create {V} (a b : bool) :
  @ssn_hash_table_create V a b 16 = Some (if a && b then Some (mk_table (replicate 16 []) 16 0) else None).
Proof. by destruct a, b. Qed.
Lemma new_ctx_ok role callback arg ok1 ok2 ok3 :
  exists c, ssn_protocol_create ok1 ok2 ok3 role callback arg = Some c /\
    match c with
    | None => role_allocs role ok1 ok2 ok3 = false
    | Some c => role_allocs role ok1 ok2 ok3 = true /\ ctx_role c = role /\ ctx_ok c /\ ctx_transport c = None
    end.
Proof.
  unfold ssn_protocol_create, ssn_rpc_req_create, ssn_rpc_rep_create, ssn_msg_send_create, ssn_msg_recv_create,
    ssn_pubsub_pub_create, ssn_pubsub_sub_create. destruct role; rewrite ?small_create;
    destruct ok1, ok2, ok3; cbn [negb andb as_ctx role_allocs]; eexists;
    (split; [reflexivity|]); first [reflexivity|split_and!; [reflexivity|reflexivity| |reflexivity]; split; [done|]; first [done|by apply new_req_inv]].
Qed.

(** ** Claims *)

(** C34.  Subscriptions, for every table that implements a string map and every
    kernel: without memory a call changes nothing.  Otherwise the subscribe frame
    is written, and the topic is bound exactly when all of it was written; after a
    partial write the topic is unbound, also when it was bound before the call (the
    entry it had is then lost: the number of allocated entries is as before).
    Unsubscribing answers 0 and unbinds the topic exactly when it is bound, whether
    or not the frame could be sent. *)
Theorem subscriptions_refine {W T} `{OsLaws W} `{StrMapLaws pubsub_sub_entry_t T} (s : ssn_pubsub_sub_t T)
    (m : gmap bytes pubsub_sub_entry_t) (t : ssn_transport_t) (topic : bytes) (w : W) :
  sub_repr s m -> sub_transport s = Some t -> cfg_ok t ->
  (forall entry_ok malloc_ok strdup_ok,
     exists r s' w', ssn_pubsub_sub_subscribe entry_ok malloc_ok strdup_ok s (Some topic) w = Some (r, s', w') /\
       if negb entry_ok || bool_decide (m !! topic = None) && negb (malloc_ok && strdup_ok)
       then r = -1 /\ s' = s /\ w' = w else subscribe_post s m t topic w r s' w') /\
  (exists r s' w', ssn_pubsub_sub_unsubscribe s (Some topic) w = Some (r, s', w') /\
     if bool_decide (m !! topic = None) then r = -1 /\ s' = s /\ w' = w
     else r = 0 /\ sub_repr s' (delete topic m) /\ sub_entries s' = sub_entries s - 1 /\
       exists n, 0 <= n <= zlen (topic_frame SSN_MSG_TYPE_UNSUBSCRIBE topic) /\
         os_tx w' (sock_fd (impl t)) =
           os_tx w (sock_fd (impl t)) ++ ztake n (topic_frame SSN_MSG_TYPE_UNSUBSCRIBE topic)).
Proof.
  intros Hr Ht Hc. split; [|by apply unsubscribe_spec]. intros eo mo so. by apply subscribe_spec.
Qed.

(** Messages from call to callback: a send that answers 0 has written the
    whole packet with the sender's number, and the number advances modulo 2^16; a
    receiver whose receive returns this packet calls back once with exactly the
    bytes that were sent.  Bytes that arrived behind the packet in the same receive
    ([rest]) are dropped, so packets the connection coalesces are lost. *)
Theorem message_end_to_end {W} `{OsLaws W} (s s' : ssn_msg_send_t) (t : ssn_transport_t) (data : bytes) (len : Z)
    (w w' : W) :
  ms_transport s = Some t -> cfg_ok t -> 0 <= ms_next_seqno s < 2 ^ 16 -> 0 <= len <= zlen data -> len < 2 ^ 32 ->
  ssn_msg_send s (Some data) len w = Some (0, s', w') ->
  ms_next_seqno s' = u16 (ms_next_seqno s + 1) /\
  exists p, os_tx w' (sock_fd (impl t)) = os_tx w (sock_fd (impl t)) ++ wire p /\
    forall (W2 : Type) (O2 : OsOps W2) r rt rt' rest ms (w2 w2' : W2),
      mr_transport r = Some rt -> mr_on_message r <> 0 ->
      ssn_transport_recv rt SSN_MAX_PACKET_SIZE ms w2 = (zlen (wire p ++ rest), wire p ++ rest, rt', w2') ->
      exists r', ssn_msg_poll_recv r ms w2 = Some (1, r', w2') /\
        mr_messages r' = mr_messages r ++
          [(mk_data_ref (if len =? 0 then None else Some (ztake len data)) len, mr_user_arg r)].
Proof.
  intros Ht Hc Hs Hl Hl32 Hrun. assert (payload_ok (Some data) len) as Hd by (cbn; rewrite u32_id by lia; lia).
  destruct (msg_send_spec s t (Some data) len w Ht Hc Hd) as (r & s1 & w1 & E & Hn & Hout).
  rewrite E in Hrun. simplify_eq. split; [done|].
  destruct Hout as [(? & _)|(Hacc & [(_ & Htx)|(? & _)])]; [done| |done].
  exists (msg_packet (ms_next_seqno s) (Some data) len). split; [done|].
  intros W2 O2 r rt rt' rest ms w2 w2' Hrt Hm Hrecv.
  pose proof (msg_packet_ok (ms_next_seqno s) (Some data) len Hd Hs Hacc) as Hp.
  eexists. split; [exact (msg_poll_frame r rt rt' _ rest ms w2 w2' Hrt Hm Hp eq_refl Hrecv)|]. cbn [mr_messages].
  assert (p_data (msg_packet (ms_next_seqno s) (Some data) len) = ztake len data) as ->.
  { unfold msg_packet. cbn [p_data data_bytes FrameCodec.data length_ payload_ref]. unfold ref_bytes.
    by rewrite u32_id by lia. }
  by rewrite zlen_ztake by lia.
Qed.


(** ** Witnesses *)

Definition demo_sub : sub_ctx := mk_sub (Some (demo_transport 5)) (mk_table (replicate 16 []) 16 0) 0 7 0 0 [].
Lemma demo_sub_repr : sub_repr demo_sub ∅.
Proof. unfold sub_repr. rewrite fmap_empty. apply (table_ok_empty skey sok str_hash_index 16). reflexivity. Qed.
Lemma demo_cfg fd : cfg_ok (demo_transport fd).
Proof. by vm_compute. Qed.

(** The kernel takes 5 bytes and then the rest. *)
Lemma subscriptions_refine_witness :
  exists s' w', ssn_pubsub_sub_subscribe true true true demo_sub (Some [97]) (sim_init [5; 100] []) = Some (0, s', w') /\
    sub_repr s' {[ [97] := mk_sub_entry [97] true ]}.
Proof.
  destruct (subscriptions_refine demo_sub ∅ (demo_transport 5) [97] (sim_init [5; 100] []) demo_sub_repr eq_refl
    (demo_cfg 5)) as [Hsub _]. destruct (Hsub true true true) as (r & s' & w' & E & Hout).
  cbn [negb andb orb] in Hout. rewrite andb_false_r in Hout. destruct Hout as (n & _ & _ & Hout).
  destruct (n =? _); destruct Hout as (-> & Hr & _).
  - exists s', w'. split; [exact E|exact Hr].
  - exfalso. vm_compute in E. discriminate E.
Defined.

Definition demo_msg_send : ssn_msg_send_t := mk_msg_send (Some (demo_transport 5)) 1.
Lemma message_end_to_end_witness :
  exists s' w', ssn_msg_send demo_msg_send (Some [1; 2; 3]) 2 (sim_init [100] []) = Some (0, s', w') /\
    ms_next_seqno s' = 2.
Proof.
  destruct (ssn_msg_send demo_msg_send (Some [1; 2; 3]) 2 (sim_init [100] [])) as [[[r s'] w']|] eqn:E;
    [|exfalso; vm_compute in E; discriminate E].
  assert (r = 0) as -> by (vm_compute in E; simplify_eq; reflexivity).
  exists s', w'. split; [reflexivity|].
  exact (proj1 (message_end_to_end demo_msg_send s' (demo_transport 5) [1; 2; 3] 2 (sim_init [100] []) w'
    eq_refl (demo_cfg 5) ltac:(cbn; lia) ltac:(vm_compute; split; discriminate) ltac:(lia) E)).
Defined.

Definition demo_user : rpc_event -> ssn_rpc_req_t -> sim_world -> list rpc_call := fun _ _ _ => [].
