(* ===== verification/Node.v ===== *)
(** * Nodes ([src/src/node/ssn_node.c], [ssn_node_comm.c], [ssn_node.h])

    A node owns at most one server, made by [ssn_node_start], and at most one
    client, made on demand.

    - The character arrays are the C strings they hold: bytes without the
      terminator.  [snprintf] into an array of [n] bytes keeps [n - 1] of them.
    - Calls on a node are atomic: the mutex is held, or only the client is used,
      which the call keeps alive by a reference.
    - A server or client that its own callbacks destroyed leaves a dangling
      pointer in the node; using it is undefined: the result is [None], as is lack
      of fuel in the loops below.
    - Callbacks act on the server through [user], on the client through [fire].
    - [gethostname] and [gettimeofday] readings are arguments; so is the value
      that an uninitialised local variable happens to have. *)
From S2P Require Import Prelude FrameCodec HashTable ErrorCode Os Transport Address FrameSend EventPair Server ClientPending Client.

(** ** Data *)

Inductive ssn_node_state_t := SSN_NODE_STATE_STOPPED | SSN_NODE_STATE_ACTIVE | SSN_NODE_STATE_ERROR.
#[global] Instance node_state_dec : EqDecision ssn_node_state_t.
Proof. solve_decision. Defined.

Definition SSN_NODE_CAP_RPC : Z := 1.
Definition SSN_NODE_CAP_PUBSUB : Z := 2.
Definition SSN_NODE_CAP_SERVER : Z := 4.
Definition SSN_NODE_CAP_CLIENT : Z := 8.

(** Buffer sizes the configuration has besides these are never read. *)
Record ssn_node_config_t := mk_node_config {
  nc_node_id : bytes;
  nc_node_type : bytes;
  nc_node_name : bytes;
  listen_address : bytes;
  listen_port : Z;
  nc_capabilities : Z;
  nc_max_connections : Z;
  nc_send_timeout_ms : Z;
  nc_conn_timeout_ms : Z;
  nc_idle_timeout_sec : Z;
}.

Record ssn_node := mk_node {
  node_id : bytes;
  node_type : bytes;
  node_name : bytes;
  nd_valid : bool;
  nd_freed : bool;
  nd_state : ssn_node_state_t;
  nd_ref_count : Z;
  start_time : Z;
  last_activity : Z;
  capabilities : Z;
  nd_client : option ssn_client;
  nd_server : option ssn_server;
  peer_address : bytes;
  nd_config : ssn_node_config_t;
}.

Definition nd_set_life n v f r := mk_node (node_id n) (node_type n) (node_name n) v f (nd_state n) r (start_time n)
  (last_activity n) (capabilities n) (nd_client n) (nd_server n) (peer_address n) (nd_config n).
Definition nd_set_state n s := mk_node (node_id n) (node_type n) (node_name n) (nd_valid n) (nd_freed n) s (nd_ref_count n)
  (start_time n) (last_activity n) (capabilities n) (nd_client n) (nd_server n) (peer_address n) (nd_config n).
Definition nd_set_times n t a := mk_node (node_id n) (node_type n) (node_name n) (nd_valid n) (nd_freed n) (nd_state n)
  (nd_ref_count n) t a (capabilities n) (nd_client n) (nd_server n) (peer_address n) (nd_config n).
Definition nd_set_client n c := mk_node (node_id n) (node_type n) (node_name n) (nd_valid n) (nd_freed n) (nd_state n)
  (nd_ref_count n) (start_time n) (last_activity n) (capabilities n) c (nd_server n) (peer_address n) (nd_config n).
Definition nd_set_server n s := mk_node (node_id n) (node_type n) (node_name n) (nd_valid n) (nd_freed n) (nd_state n)
  (nd_ref_count n) (start_time n) (last_activity n) (capabilities n) (nd_client n) s (peer_address n) (nd_config n).
Definition nd_set_peer n p := mk_node (node_id n) (node_type n) (node_name n) (nd_valid n) (nd_freed n) (nd_state n)
  (nd_ref_count n) (start_time n) (last_activity n) (capabilities n) (nd_client n) (nd_server n) p (nd_config n).

(** ** Texts *)

Definition UNDERSCORE : Z := 95.
Definition TXT_unknown : bytes := [117; 110; 107; 110; 111; 119; 110].
Definition TXT_node : bytes := [110; 111; 100; 101].
Definition TXT_localhost : bytes := [108; 111; 99; 97; 108; 104; 111; 115; 116].
Definition TXT_tcp : bytes := [116; 99; 112; 58; 47; 47].
Definition TXT_unix : bytes := [117; 110; 105; 120; 58; 47; 47].
Definition TXT_any : bytes := [48; 46; 48; 46; 48; 46; 48].
Definition TXT_default_path : bytes :=
  [47; 116; 109; 112; 47; 105; 112; 99; 95; 110; 111; 100; 101; 46; 115; 111; 99; 107].

(** [%ld] *)
Definition dec_long (n : Z) : bytes := if n <? 0 then 45 :: dec_loop 19 (- n) [] else dec_loop 19 n [].
(** [s[0] ? s : d] *)
Definition text_or (s d : bytes) : bytes := match s with [] => d | _ => s end.

Definition generate_node_id (hostname : option bytes) (tv_sec tv_usec : Z) (type name : bytes) : bytes :=
  ztake 63 (type ++ [UNDERSCORE] ++ name ++ [UNDERSCORE] ++ default TXT_localhost hostname ++ [UNDERSCORE]
            ++ dec_long tv_sec ++ [UNDERSCORE] ++ dec_long tv_usec).

Definition create_server_address (cfg : ssn_node_config_t) : bytes :=
  ztake 511 (if listen_port cfg >? 0
             then TXT_tcp ++ text_or (listen_address cfg) TXT_any ++ [COLON] ++ dec (listen_port cfg)
             else TXT_unix ++ text_or (listen_address cfg) TXT_default_path).

(** [max_connections] of the options is not assigned: [junk]. *)
Definition get_server_options (cfg : ssn_node_config_t) (junk : Z) : server_options_t :=
  mk_options (if nc_send_timeout_ms cfg >? 0 then nc_send_timeout_ms cfg else 5000)
    (if nc_conn_timeout_ms cfg >? 0 then nc_conn_timeout_ms cfg else 3000)
    (if nc_idle_timeout_sec cfg >? 0 then nc_idle_timeout_sec cfg else 60) junk.

Definition has_cap (n : ssn_node) (cap : Z) : bool := negb (Z.land (capabilities n) cap =? 0).

(** ** Creation *)

Definition ssn_node_create (calloc_ok mutex_ok : bool) (hostname : option bytes) (tv_sec tv_usec : Z)
    (config : option ssn_node_config_t) : option ssn_node :=
  match config with
  | None => None
  | Some cfg =>
    if negb calloc_ok then None
    else if negb mutex_ok then None
    else
      let type := text_or (nc_node_type cfg) TXT_unknown in
      let name := text_or (nc_node_name cfg) TXT_node in
      let id := match nc_node_id cfg with
                | [] => generate_node_id hostname tv_sec tv_usec type name
                | id => ztake 63 id
                end in
      let caps := if nc_capabilities cfg =? 0
                  then Z.lor (Z.lor SSN_NODE_CAP_RPC SSN_NODE_CAP_PUBSUB)
                             (Z.lor SSN_NODE_CAP_SERVER SSN_NODE_CAP_CLIENT)
                  else nc_capabilities cfg in
      Some (mk_node id (ztake 31 type) (ztake 63 name) true false SSN_NODE_STATE_STOPPED 1 0 0 caps None None [] cfg)
  end.

Definition ssn_node_get_state (n : option ssn_node) : ssn_node_state_t :=
  match n with None => SSN_NODE_STATE_ERROR | Some n => nd_state n end.
Definition ssn_node_get_capabilities (n : option ssn_node) : Z :=
  match n with None => 0 | Some n => capabilities n end.
Definition ssn_node_get_server (n : ssn_node) : option ssn_server := nd_server n.

Definition peer_address_of (n : ssn_node) : option bytes :=
  match nd_client n with
  | None => None
  | Some _ => match peer_address n with [] => None | p => Some p end
  end.

Section world.
Context {W : Type} `{OsOps W}.
Context (user : server_event -> ssn_server -> W -> list api_call).
Context (fire : client_event -> ssn_client -> W -> option (ssn_client * W)).
Context (g : factory).
Implicit Types (n : ssn_node) (w : W).

(** A use of the node's server or client, where it has one. *)
Definition on_server {A} n (none : option A) (f : ssn_server -> option A) : option A :=
  match nd_server n with None => none | Some s => if srv_freed s then None else f s end.
Definition on_client {A} n (none : option A) (f : ssn_client -> option A) : option A :=
  match nd_client n with None => none | Some c => if cl_freed c then None else f c end.

(** ** Life cycle *)

(** [late_ok]: allocations of the server; [junk]: see [get_server_options]. *)
Definition ssn_node_start (late_ok : bool) (junk : Z) n w : option (bool * ssn_node * W) :=
  match nd_state n with
  | SSN_NODE_STATE_ACTIVE => Some (true, n, w)
  | SSN_NODE_STATE_ERROR => Some (false, n, w)
  | SSN_NODE_STATE_STOPPED =>
    let activate n w :=
      let '(now, w) := os_time w in
      Some (true, nd_set_times (nd_set_state n SSN_NODE_STATE_ACTIVE) now now, w) in
    if has_cap n SSN_NODE_CAP_SERVER then
      match ssn_server_create_with_options late_ok (create_server_address (nd_config n))
              (Some (get_server_options (nd_config n) junk)) w with
      | (None, w) => Some (false, nd_set_state (nd_set_server n None) SSN_NODE_STATE_ERROR, w)
      | (Some s, w) =>
        let '(ok, s, w) := ssn_server_start g s w in
        if ok then activate (nd_set_server n (Some s)) w
        else match ssn_server_destroy s w with
        | None => None
        | Some (_, w) => Some (false, nd_set_state (nd_set_server n None) SSN_NODE_STATE_ERROR, w)
        end
      end
    else activate n w
  end.

Definition ssn_node_stop n w : option (bool * ssn_node * W) :=
  match nd_state n with
  | SSN_NODE_STATE_STOPPED => Some (true, n, w)
  | _ =>
    match on_server n (Some (n, w)) (fun s =>
            match ssn_server_destroy s w with Some (_, w) => Some (nd_set_server n None, w) | None => None end) with
    | None => None
    | Some (n, w) =>
      match on_client n (Some (n, w)) (fun c =>
              match ssn_client_close fire c w with Some (_, w) => Some (nd_set_client n None, w) | None => None end) with
      | None => None
      | Some (n, w) =>
        let '(now, w) := os_time w in
        Some (true, nd_set_times (nd_set_state n SSN_NODE_STATE_STOPPED) (start_time n) now, w)
      end
    end
  end.

Definition ssn_node_destroy n w : option (ssn_node * W) :=
  if nd_freed n then None
  else if negb (nd_valid n) then Some (n, w)
  else
    let n := nd_set_life n false false (nd_ref_count n - 1) in
    if nd_ref_count n >? 0 then Some (n, w)
    else
      let stopped := match nd_state n with
                     | SSN_NODE_STATE_ACTIVE =>
                       match ssn_node_stop n w with Some (_, n, w) => Some (n, w) | None => None end
                     | _ => Some (n, w)
                     end in
      match stopped with
      | None => None
      | Some (n, w) => Some (nd_set_life n (nd_valid n) true (nd_ref_count n), w)
      end.

(** ** Handles and handlers *)

(** [late_ok]: allocations of the client. *)
Definition ssn_node_get_client (late_ok : bool) n w : option ssn_client * ssn_node * W :=
  match nd_client n with
  | Some c => (Some c, n, w)
  | None =>
    if has_cap n SSN_NODE_CAP_CLIENT then
      match ssn_client_create late_ok w with
      | (None, w) => (None, n, w)
      | (Some c, w) => (Some c, nd_set_client n (Some c), w)
      end
    else (None, n, w)
  end.

Definition ssn_node_set_connect_handler n (h : option (Z * Z)) : option ssn_node :=
  on_server n (Some n) (fun s => Some (nd_set_server n (Some (ssn_server_set_connect_handler s h)))).
Definition ssn_node_set_message_handler n (h : option (Z * Z)) : option ssn_node :=
  on_server n (Some n) (fun s => Some (nd_set_server n (Some (ssn_server_set_message_handler s h)))).
Definition ssn_node_set_client_message_handler n (callback arg : Z) w : option (ssn_node * W) :=
  on_client n (Some (n, w)) (fun c =>
    match ssn_client_set_on_message fire c callback arg w with
    | Some (c, w) => Some (nd_set_client n (Some c), w)
    | None => None
    end).

Definition ssn_node_add_rpc_method (calloc_ok : bool) n (url : option ssn_url_ref_t) (callback arg : Z)
  : option (bool * ssn_node) :=
  match url with
  | None => Some (false, n)
  | Some _ =>
    if callback =? 0 then Some (false, n)
    else on_server n (Some (false, n)) (fun s =>
      match ssn_server_add_method calloc_ok s url callback arg with
      | Some (r, s) => Some (r, nd_set_server n (Some s))
      | None => None
      end)
  end.
Definition ssn_node_remove_rpc_method n (url : option ssn_url_ref_t) : option ssn_node :=
  match url with
  | None => Some n
  | Some _ => on_server n (Some n) (fun s => Some (nd_set_server n (Some (ssn_server_remove_method s url))))
  end.

(** ** Events *)

(** The server's timeout is an [int]; a client's error covers the server's result. *)
Definition ssn_node_poll (signals : nat) n (timeout_ms : Z) w : option (Z * ssn_node * W) :=
  let n := match nd_client n with Some c => nd_set_client n (Some (ssn_client_ref c)) | None => n end in
  match on_server n (Some (0, n, w)) (fun s =>
          match ssn_server_poll user g signals s (i32 timeout_ms) w with
          | Some (r, s, w) => Some (r, nd_set_server n (Some s), w)
          | None => None
          end) with
  | None => None
  | Some (result, n, w) =>
    on_client n (Some (result, n, w)) (fun c =>
      match ssn_client_poll fire c timeout_ms w with
      | None => None
      | Some (r, c, w) =>
        match ssn_client_unref fire c w with
        | None => None
        | Some (c, w) => Some (if r <? 0 then r else result, nd_set_client n (Some c), w)
        end
      end)
  end.

(** What is stored through the two pointers, [None] for NULL. *)
Definition ssn_node_get_stats n (connections messages : bool) : option (bool * option Z * option Z) :=
  on_server n (Some (true, if connections then Some 0 else None, if messages then Some 0 else None)) (fun s =>
    Some (true, if connections then Some (ssn_server_peer_count s) else None, if messages then Some 0 else None)).

(** ** Communication *)

(** On success the client has one more reference. *)
Definition connect_to_peer (late_ok : bool) n (peer : bytes) w : option (bool * ssn_node * W) :=
  let '(c, n, w) := ssn_node_get_client late_ok n w in
  match c with
  | None => Some (false, n, w)
  | Some c =>
    let use := Some (true, nd_set_client n (Some (ssn_client_ref c)), w) in
    if cl_freed c then None
    else if ssn_client_is_connect c then
      match peer_address_of n with
      | Some cur => if bool_decide (cur = peer) then use else Some (false, n, w)
      | None => use
      end
    else use
  end.

Definition node_ensure_connected n (peer : bytes) w : option (bool * ssn_node * W) :=
  on_client n None (fun c =>
    if ssn_client_is_connect c then Some (true, n, w)
    else match ssn_client_connect fire g c peer (Some (3, 0)) w with
    | None => None
    | Some (false, c, w) => Some (false, nd_set_client n (Some c), w)
    | Some (true, c, w) => Some (true, nd_set_peer (nd_set_client n (Some c)) (ztake 127 peer), w)
    end).

Definition unref_node_client n w : option (ssn_node * W) :=
  on_client n None (fun c =>
    match ssn_client_unref fire c w with Some (c, w) => Some (nd_set_client n (Some c), w) | None => None end).

(** The frame the three operations on a peer share: [op] uses the connected client. *)
Definition with_peer (late_ok : bool) n (peer : bytes) (op : ssn_client -> W -> option (bool * ssn_client * W)) w
  : option (bool * ssn_node * W) :=
  let finish (r : bool) n w := match unref_node_client n w with Some (n, w) => Some (r, n, w) | None => None end in
  match connect_to_peer late_ok n peer w with
  | None => None
  | Some (false, n, w) => Some (false, n, w)
  | Some (true, n, w) =>
    match node_ensure_connected n peer w with
    | None => None
    | Some (false, n, w) => finish false n w
    | Some (true, n, w) =>
      match on_client n None (fun c => op c w) with
      | None => None
      | Some (false, c, w) => finish false (nd_set_client n (Some c)) w
      | Some (true, c, w) =>
        let '(now, w) := os_time w in
        finish true (nd_set_times (nd_set_client n (Some c)) (start_time n) now) w
      end
    end
  end.

(** [int] results that are tested for being negative. *)
Definition nonneg_result (r : option (Z * ssn_client * W)) : option (bool * ssn_client * W) :=
  match r with Some (r, c, w) => Some (negb (r <? 0), c, w) | None => None end.

Definition ssn_node_send_to_peer (late_ok : bool) n (peer : option bytes) (url : option ssn_url_ref_t)
    (data : option ssn_data_ref_t) w : option (bool * ssn_node * W) :=
  match peer, url with
  | Some peer, Some _ => with_peer late_ok n peer (fun c w => nonneg_result (ssn_client_message fire c url data w)) w
  | _, _ => Some (false, n, w)
  end.

Definition ssn_node_subscribe (late_ok : bool) n (peer : option bytes) (url : option ssn_url_ref_t)
    (callback arg timeout_ms : Z) w : option (bool * ssn_node * W) :=
  match peer, url with
  | Some peer, Some _ =>
    if callback =? 0 then Some (false, n, w)
    else with_peer late_ok n peer (fun c w => ssn_client_subscribe fire c url callback arg timeout_ms w) w
  | _, _ => Some (false, n, w)
  end.

Definition ssn_node_rpc_call (late_ok : bool) n (peer : option bytes) (url : option ssn_url_ref_t)
    (data : option ssn_data_ref_t) (callback arg timeout_ms : Z) w : option (Z * ssn_node * W) :=
  match peer, url with
  | Some peer, Some _ =>
    match with_peer late_ok n peer
            (fun c w => nonneg_result (ssn_client_call fire c url data callback arg timeout_ms w)) w with
    | Some (r, n, w) => Some (if r then 0 else -1, n, w)
    | None => None
    end
  | _, _ => Some (-1, n, w)
  end.

(** [int result = ssn_server_publish(...)]: a bool, 1 or 0. *)
Definition ssn_node_publish n (url : option ssn_url_ref_t) (data : option ssn_data_ref_t) w
  : option (bool * ssn_node * W) :=
  match url with
  | None => Some (false, n, w)
  | Some _ =>
    on_server n (Some (false, n, w)) (fun s =>
      match ssn_server_publish s url data w with
      | None => None
      | Some (ok, s, w) =>
        let n := nd_set_server n (Some s) in
        let result := Z.b2z ok in
        if result <? 0 then Some (false, n, w)
        else
          let '(now, w) := os_time w in
          Some (true, nd_set_times n (start_time n) now, w)
      end)
  end.

Definition ssn_node_unsubscribe n (url : option ssn_url_ref_t) (timeout_ms : Z) w : option (bool * ssn_node * W) :=
  match url with
  | None => Some (false, n, w)
  | Some _ =>
    on_client n (Some (false, n, w)) (fun c =>
      match ssn_client_unsubscribe fire c url timeout_ms w with
      | None => None
      | Some (false, c, w) => Some (false, nd_set_client n (Some c), w)
      | Some (true, c, w) =>
        let '(now, w) := os_time w in
        Some (true, nd_set_times (nd_set_client n (Some c)) (start_time n) now, w)
      end)
  end.
End world.
