(* ===== verification/NodeProps.v ===== *)
(** * Nodes: invariant and operations

    What the node keeps true of itself, of its server and of its client, for every
    operation and whatever the callbacks do. *)
From S2P Require Import Prelude FrameCodec HashTable ErrorCode Os Transport Address FrameSend EventPair Server ServerTable ServerProps ServerTheorems ClientPending Client ClientProps ClientTheorems Node.

(** ** Invariant *)

Definition texts_ok (n : ssn_node) : Prop :=
  zlen (node_id n) < 64 /\ zlen (node_type n) < 32 /\ zlen (node_name n) < 64 /\ zlen (peer_address n) < 128.
Definition server_ok (n : ssn_node) : Prop :=
  match nd_server n with
  | Some s => nd_state n = SSN_NODE_STATE_ACTIVE /\ has_cap n SSN_NODE_CAP_SERVER = true /\ (server_inv 0 s \/ released s)
  | None => nd_state n = SSN_NODE_STATE_ACTIVE -> has_cap n SSN_NODE_CAP_SERVER = false
  end.
Definition client_ok (n : ssn_node) : Prop :=
  match nd_client n with
  | Some c => has_cap n SSN_NODE_CAP_CLIENT = true /\ (client_inv 0 c \/ client_released c)
  | None => True
  end.
Record node_inv (n : ssn_node) : Prop := {
  ni_live : nd_valid n = true /\ nd_freed n = false /\ nd_ref_count n = 1;
  ni_texts : texts_ok n;
  ni_server : server_ok n;
  ni_client : client_ok n;
}.

(** Neither component was destroyed behind the node's back. *)
Definition live (n : ssn_node) : Prop :=
  match nd_server n with Some s => srv_freed s = false | None => True end /\
  match nd_client n with Some c => cl_freed c = false | None => True end.

Lemma server_live n s : node_inv n -> live n -> nd_server n = Some s -> server_inv 0 s.
Proof.
  intros Hi [Hl _] E. pose proof (ni_server n Hi) as Hs. unfold server_ok in Hs. rewrite E in *.
  destruct Hs as (_ & _ & [?|[? _]]); [done|congruence].
Qed.
Lemma client_live n c : node_inv n -> live n -> nd_client n = Some c -> client_inv 0 c.
Proof.
  intros Hi [_ Hl] E. pose proof (ni_client n Hi) as Hs. unfold client_ok in Hs. rewrite E in *.
  destruct Hs as (_ & [?|[? _]]); [done|congruence].
Qed.

Lemma ztake_short {A} k (l : list A) : 0 <= k -> zlen (ztake k l) <= k.
Proof. intros Hk. unfold zlen, ztake. rewrite length_take. lia. Qed.

(** ** Field updates *)

Section updates.
Implicit Types n : ssn_node.
Lemma inv_times n t a : node_inv n -> node_inv (nd_set_times n t a).
Proof. intros []. by split. Qed.
Lemma inv_node_client n c :
  node_inv n -> has_cap n SSN_NODE_CAP_CLIENT = true -> client_inv 0 c \/ client_released c ->
  node_inv (nd_set_client n (Some c)).
Proof. intros [] Hc Hi. by split. Qed.
Lemma inv_no_client n : node_inv n -> node_inv (nd_set_client n None).
Proof. intros []. by split. Qed.
Lemma inv_server n s s' :
  node_inv n -> nd_server n = Some s -> server_inv 0 s' \/ released s' -> node_inv (nd_set_server n (Some s')).
Proof. intros [Hl Ht Hs Hc] E Hi. split; try done. unfold server_ok in *. rewrite E in Hs. cbn. by destruct Hs as (? & ? & _). Qed.
Lemma inv_peer n p : node_inv n -> zlen p < 128 -> node_inv (nd_set_peer n p).
Proof. intros [Hl (? & ? & ? & _) Hs Hc] Hp. by split. Qed.
Lemma no_server n : nd_server n = None -> nd_set_server n None = n.
Proof. destruct n. cbn. by intros ->. Qed.
Lemma no_client n : nd_client n = None -> nd_set_client n None = n.
Proof. destruct n. cbn. by intros ->. Qed.
Lemma cap_of_client n c : node_inv n -> nd_client n = Some c -> has_cap n SSN_NODE_CAP_CLIENT = true.
Proof. intros [_ _ _ Hc] E. unfold client_ok in Hc. rewrite E in Hc. by destruct Hc. Qed.
End updates.

Lemma new_node_inv co mo host sec usec cfg n :
  ssn_node_create co mo host sec usec cfg = Some n -> node_inv n /\ live n /\ nd_state n = SSN_NODE_STATE_STOPPED.
Proof.
  unfold ssn_node_create. destruct cfg as [cfg|]; [|done]. destruct co, mo; try done. cbn [negb]. intros [= <-].
  split; [|done]. split; try done. split_and!; cbn -[ztake generate_node_id]; try done.
  - destruct (nc_node_id cfg); unfold generate_node_id;
      match goal with |- zlen (ztake 63 ?l) < _ => pose proof (ztake_short 63 l ltac:(lia)) end; lia.
  - match goal with |- zlen (ztake 31 ?l) < _ => pose proof (ztake_short 31 l ltac:(lia)) end; lia.
  - match goal with |- zlen (ztake 63 ?l) < _ => pose proof (ztake_short 63 l ltac:(lia)) end; lia.
Qed.

(** ** Operations *)

Section ops.
Context {W : Type} `{OsLaws W}.
Context (user : server_event -> ssn_server -> W -> list api_call).
Hypothesis user_ok : forall e s w, calls_ok (user e s w) s w.
Context (cuser : client_event -> ssn_client -> W -> list client_call).
Hypothesis cuser_ok : forall e c w, Forall ccall_ok (cuser e c w).
Context (d : nat) (g : factory).
Implicit Types (n : ssn_node) (w : W).
Local Abbreviation fire := (fire_at cuser (S (S d))).

Definition good_node (r : option (ssn_node * W)) : Prop := exists n' w', r = Some (n', w') /\ node_inv n'.

(** *** Start and stop *)

Lemma options_in_range cfg junk : 0 <= junk < 2 ^ 32 -> options_ok (Some (get_server_options cfg junk)).
Proof. done. Qed.

Lemma create_server_live late name opts w s w' :
  options_ok opts -> ssn_server_create_with_options late name opts w = (Some s, w') -> server_inv 0 s /\ srv_valid s = true.
Proof.
  intros Ho. unfold ssn_server_create_with_options. destruct (os_calloc w) as [[] w1]; [|done]. cbn [negb].
  destruct (ipc_event_pair_create w1) as [[e|] w2]; [|done]. destruct late; [|done]. intros [= <- _].
  split; [by apply new_server_inv|]. unfold new_server. by destruct (match opts with Some _ => _ | None => _ end) as [[[? ?] ?] ?].
Qed.

Lemma start_good late junk n w :
  node_inv n -> live n -> 0 <= junk < 2 ^ 32 ->
  exists b n' w', ssn_node_start g late junk n w = Some (b, n', w') /\ node_inv n' /\ live n' /\
    (if b then nd_state n' = SSN_NODE_STATE_ACTIVE else nd_state n' = SSN_NODE_STATE_ERROR /\ nd_server n' = None) /\
    nd_client n' = nd_client n.
Proof.
  intros Hi Hl Hj. unfold ssn_node_start. pose proof (ni_server n Hi) as Hs. unfold server_ok in Hs.
  destruct (nd_state n) eqn:Est.
  - assert (nd_server n = None) as Ens by (destruct (nd_server n); [by destruct Hs|done]).
    destruct Hi as [Hlive Htx _ Hcl]. destruct Hl as [_ Hlc].
    destruct (has_cap n SSN_NODE_CAP_SERVER) eqn:Ecap.
    2:{ destruct (os_time w) as [now w1]. eexists _, _, _. split; [done|]. split; [split; try done; unfold server_ok; cbn; by rewrite Ens|].
        split; [split; cbn; [by rewrite Ens|done]|done]. }
    assert (node_inv (nd_set_state (nd_set_server n None) SSN_NODE_STATE_ERROR)) as Herr by (by split).
    destruct (ssn_server_create_with_options _ _ _ w) as [[s|] w1] eqn:Ec; [|by eexists _, _, _].
    destruct (create_server_live _ _ _ _ _ _ (options_in_range _ junk Hj) Ec) as [Hsi Hsv].
    pose proof (start_inv 0 g s w1 Hsi) as Hst. destruct (ssn_server_start g s w1) as [[ok s2] w2]. cbn in Hst.
    destruct ok.
    + destruct (os_time w2) as [now w3]. eexists _, _, _. split; [done|].
      split; [split; try done; split_and!; [done..|by left]|]. by split; [split; [apply (inv_live 0 s2 Hst)|]|].
    + destruct (destroy_total s2 w2 Hst) as (s3 & w3 & -> & _). by eexists _, _, _.
  - by eexists _, _, _.
  - assert (nd_server n = None) as Ens by (destruct (nd_server n); [by destruct Hs|done]). by eexists _, _, _.
Qed.

Lemma stop_good n w :
  node_inv n -> live n ->
  exists n' w', ssn_node_stop fire n w = Some (true, n', w') /\ node_inv n' /\ live n' /\
    nd_state n' = SSN_NODE_STATE_STOPPED /\ nd_server n' = None /\
    (nd_state n <> SSN_NODE_STATE_STOPPED -> nd_client n' = None).
Proof.
  intros Hi Hl. unfold ssn_node_stop. pose proof (ni_server n Hi) as Hs. unfold server_ok in Hs.
  destruct (decide (nd_state n = SSN_NODE_STATE_STOPPED)) as [E|Hne].
  { rewrite E. eexists _, _. split; [done|]. split_and!; [done..| |done].
    destruct (nd_server n); [|done]. destruct Hs; congruence. }
  assert (forall (A : Type) (x y : A), (match nd_state n with SSN_NODE_STATE_STOPPED => x | _ => y end) = y) as Hcase
    by (intros; by destruct (nd_state n)).
  rewrite Hcase. unfold on_server.
  assert (exists w1, (match nd_server n with None => Some (n, w) | Some s => if srv_freed s then None else
     match ssn_server_destroy s w with Some (_, w) => Some (nd_set_server n None, w) | None => None end end)
     = Some (nd_set_server n None, w1)) as [w1 E1].
  { destruct (nd_server n) as [s|] eqn:Es.
    - pose proof (server_live n s Hi Hl Es) as Hsi. rewrite (inv_live 0 s Hsi).
      destruct (destroy_total s w Hsi) as (s' & w1 & -> & _). by eexists.
    - exists w. by rewrite no_server. }
  rewrite E1. unfold on_client. cbn [nd_client nd_set_server].
  assert (exists w2, (match nd_client n with None => Some (nd_set_server n None, w1) | Some c => if cl_freed c then None else
     match ssn_client_close fire c w1 with Some (_, w) => Some (nd_set_client (nd_set_server n None) None, w) | None => None end end)
     = Some (nd_set_client (nd_set_server n None) None, w2)) as [w2 E2].
  { destruct (nd_client n) as [c|] eqn:Ec.
    - pose proof (client_live n c Hi Hl Ec) as Hci. rewrite (ci_live 0 c Hci).
      destruct (close_total cuser d c w1 Hci) as (c' & w2 & -> & _). by eexists.
    - exists w1. by rewrite no_client. }
  rewrite E2. destruct (os_time w2) as [now w3]. eexists _, _. split; [done|].
  destruct Hi as [? ? ? ?]. by split.
Qed.

(** *** Handles and handlers *)

Lemma create_client_live late w c w' : ssn_client_create late w = (Some c, w') -> client_inv 0 c /\ connected c = false.
Proof.
  unfold ssn_client_create. destruct (os_calloc w) as [[] w1]; [|done]. cbn [negb].
  destruct (ipc_event_pair_create w1) as [[e|] w2]; [|done]. destruct late; [|done]. intros [= <- _].
  split; [apply new_client_inv|done].
Qed.

Lemma get_client_good late n w :
  node_inv n -> live n ->
  let '(c, n', w') := ssn_node_get_client late n w in
  node_inv n' /\ live n' /\ nd_client n' = c /\ peer_address n' = peer_address n.
Proof.
  intros Hi Hl. unfold ssn_node_get_client. destruct (nd_client n) as [c|] eqn:Ec; [done|].
  destruct (has_cap n SSN_NODE_CAP_CLIENT) eqn:Ecap; [|done].
  destruct (ssn_client_create late w) as [[c|] w1] eqn:E; [|done].
  apply create_client_live in E as [Hci _]. split; [by apply inv_node_client; [..|left]|]. split; [|done].
  split; [apply Hl|apply (ci_live 0 c Hci)].
Qed.

Lemma set_handlers_good n f :
  node_inv n -> live n -> (forall s, server_inv 0 s -> server_inv 0 (f s)) ->
  exists n', on_server n (Some n) (fun s => Some (nd_set_server n (Some (f s)))) = Some n' /\ node_inv n'.
Proof.
  intros Hi Hl Hf. unfold on_server. destruct (nd_server n) as [s|] eqn:Es; [|by exists n].
  pose proof (server_live n s Hi Hl Es) as Hs. rewrite (inv_live 0 s Hs). eexists. split; [done|].
  eapply inv_server; [done..|left]. by apply Hf.
Qed.

(** A client call of the node's own, without a further reference. *)
Lemma client_call_node n q w c :
  node_inv n -> live n -> nd_client n = Some c -> ccall_ok q ->
  exists c' w', run_client_call fire q c w = Some (c', w') /\ node_inv (nd_set_client n (Some c')).
Proof.
  intros Hi Hl Ec Hq. pose proof (client_live n c Hi Hl Ec) as Hc.
  destruct (api_total cuser d q c w Hc Hq) as (c' & w' & E & Hout). exists c', w'. split; [done|].
  apply inv_node_client; [done|by eapply cap_of_client|done].
Qed.

(** *** Peers *)

(** The node's client carries a reference of the running call. *)
Definition held_node n : Prop := node_inv n /\ live n /\ exists c, nd_client n = Some c /\ client_inv 1 c.

Lemma hold_client n c : node_inv n -> live n -> has_cap n SSN_NODE_CAP_CLIENT = true -> client_inv 1 c ->
  held_node (nd_set_client n (Some c)).
Proof.
  intros Hi Hl Hcap Hc. pose proof (inv_weaken 1 0 c ltac:(lia) Hc) as Hc0.
  split; [apply inv_node_client; [done..|by left]|]. split; [split; [apply Hl|apply (ci_live 0 c Hc0)]|]. by exists c.
Qed.
Lemma held_cap n : held_node n -> has_cap n SSN_NODE_CAP_CLIENT = true.
Proof. intros (Hi & _ & c & Ec & _). by eapply cap_of_client. Qed.
Lemma hold_again n c : held_node n -> client_inv 1 c -> held_node (nd_set_client n (Some c)).
Proof. intros Hh Hc. apply hold_client; [apply Hh..|by apply held_cap|done]. Qed.

Lemma connect_to_peer_good late n peer w :
  node_inv n -> live n ->
  exists b n' w', connect_to_peer late n peer w = Some (b, n', w') /\ (if b then held_node n' else node_inv n').
Proof.
  intros Hi Hl. unfold connect_to_peer. pose proof (get_client_good late n w Hi Hl) as Hg.
  destruct (ssn_node_get_client late n w) as [[c n1] w1]. destruct Hg as (Hi1 & Hl1 & Ec & _).
  destruct c as [c|]; [|by eexists _, _, _]. pose proof (client_live n1 c Hi1 Hl1 Ec) as Hc.
  assert (held_node (nd_set_client n1 (Some (ssn_client_ref c)))) as Hh.
  { apply hold_client; [done..|by eapply cap_of_client|by apply (inv_ref 0)]. }
  rewrite (ci_live 0 c Hc). destruct (ssn_client_is_connect c); [|by eexists true, _, _].
  destruct (peer_address_of n1) as [cur|]; [|by eexists true, _, _].
  case_bool_decide; [by eexists true, _, _|by eexists false, _, _].
Qed.

Lemma ensure_good n peer w :
  held_node n ->
  exists b n' w', node_ensure_connected fire g n peer w = Some (b, n', w') /\ held_node n'.
Proof.
  intros Hh. pose proof Hh as (Hi & Hl & c & Ec & Hc). unfold node_ensure_connected, on_client. rewrite Ec, (ci_live 1 c Hc).
  destruct (ssn_client_is_connect c); [by eexists _, _, _|].
  destruct (connect_held cuser d g 1 c peer (Some (3, 0)) w ltac:(lia) Hc) as (b & c' & w' & -> & Hc' & _).
  pose proof (hold_again n c' Hh Hc') as Hh'. destruct b; [|by eexists _, _, _].
  eexists _, _, _. split; [done|]. destruct Hh' as (? & ? & c2 & ? & ?). split; [|by split; [|by exists c2]].
  apply inv_peer; [done|]. pose proof (ztake_short 127 peer ltac:(lia)). lia.
Qed.

Lemma unref_node_good n w :
  held_node n -> exists n' w', unref_node_client fire n w = Some (n', w') /\ node_inv n'.
Proof.
  intros Hh. pose proof Hh as (Hi & Hl & c & Ec & Hc). unfold unref_node_client, on_client. rewrite Ec, (ci_live 1 c Hc).
  destruct (client_unref_total cuser d 0 c w ltac:(lia) Hc) as (c' & w' & -> & Hout).
  eexists _, _. split; [done|]. apply inv_node_client; [done|by apply held_cap|done].
Qed.

(** What is asked of an operation on the connected client. *)
Definition op_good (op : ssn_client -> W -> option (bool * ssn_client * W)) : Prop :=
  forall c w, client_inv 1 c -> exists r c' w', op c w = Some (r, c', w') /\ client_inv 1 c'.

Lemma with_peer_good late n peer op w :
  node_inv n -> live n -> op_good op ->
  exists r n' w', with_peer fire g late n peer op w = Some (r, n', w') /\ node_inv n'.
Proof.
  intros Hi Hl Hop. unfold with_peer.
  assert (forall (r : bool) n w, held_node n -> exists r' n' w',
    match unref_node_client fire n w with Some (n, w) => Some (r, n, w) | None => None end = Some (r', n', w') /\ node_inv n')
    as Hfin.
  { intros r n0 w0 Hh. destruct (unref_node_good n0 w0 Hh) as (n' & w' & -> & ?). by eexists _, _, _. }
  destruct (connect_to_peer_good late n peer w Hi Hl) as (b & n1 & w1 & -> & H1). destruct b; [|by eexists _, _, _].
  destruct (ensure_good n1 peer w1 H1) as (b & n2 & w2 & -> & H2). destruct b; [|by apply Hfin].
  pose proof H2 as (_ & _ & c & Ec & Hc). unfold on_client. rewrite Ec, (ci_live 1 c Hc).
  destruct (Hop c w2 Hc) as (r & c' & w3 & -> & Hc'). pose proof (hold_again n2 c' H2 Hc') as H3.
  destruct r; [|by apply Hfin]. destruct (os_time w3) as [now w4]. apply Hfin.
  destruct H3 as (? & ? & c3 & ? & ?). split; [by apply inv_times|]. split; [done|by exists c3].
Qed.

(** The three operations are client calls. *)
Local Ltac from_call q :=
  intros c w Hc; destruct (client_call_good cuser (S d) 1 q c w ltac:(lia) Hc) as (c' & w' & E & Hc'); [done|];
  unfold run_client_call in E; rewrite (ci_live 1 c Hc) in E.
Lemma message_op url data : refs_ok url data -> op_good (fun c w => nonneg_result (ssn_client_message fire c url data w)).
Proof.
  intros Hr. from_call (CcMessage url data).
  destruct (ssn_client_message fire c url data w) as [[[r c1] w1]|]; [|done]. simplify_eq. by eexists _, _, _.
Qed.
Lemma subscribe_op url cb arg ms :
  refs_ok url None -> op_good (fun c w => ssn_client_subscribe fire c url cb arg ms w).
Proof.
  intros Hr. from_call (CcSubscribe url cb arg ms).
  destruct (ssn_client_subscribe fire c url cb arg ms w) as [[[r c1] w1]|]; [|done]. simplify_eq. by eexists _, _, _.
Qed.
Lemma call_op url data cb arg ms :
  refs_ok url data -> op_good (fun c w => nonneg_result (ssn_client_call fire c url data cb arg ms w)).
Proof.
  intros Hr. from_call (CcCall url data cb arg ms).
  destruct (ssn_client_call fire c url data cb arg ms w) as [[[r c1] w1]|]; [|done]. simplify_eq. by eexists _, _, _.
Qed.

(** *** Events *)

Definition poll_ready n (signals : nat) (ms : Z) w : Prop :=
  match nd_server n with
  | Some s => exists fds mf out, ssn_server_fds s = Some (fds, mf) /\
      pselect_loop signals fds (if i32 ms >=? 0 then Some (i32 ms) else None) w = Some out
  | None => True
  end /\
  match nd_client n with Some c => is_Some (ssn_client_fds c) | None => True end.

Lemma node_poll_good signals n ms w :
  node_inv n -> live n -> poll_ready n signals ms w ->
  exists r n' w', ssn_node_poll user fire g signals n ms w = Some (r, n', w') /\ node_inv n' /\ r <= 0.
Proof.
  intros Hi Hl [Hsr Hcr]. unfold ssn_node_poll.
  set (n1 := match nd_client n with Some c => _ | None => n end).
  assert (nd_server n1 = nd_server n /\ (match nd_client n with Some _ => held_node n1 | None => n1 = n end) /\ live n1) as (Es1 & H1 & Hl1).
  { subst n1. destruct (nd_client n) as [c|] eqn:Ec; [|done]. split; [done|].
    assert (held_node (nd_set_client n (Some (ssn_client_ref c)))) as Hh.
    { apply hold_client; [done..|by eapply cap_of_client|]. apply (inv_ref 0). by eapply client_live. }
    split; [done|apply Hh]. }
  assert (node_inv n1) as Hi1 by (destruct (nd_client n); [apply H1|by rewrite H1]).
  assert (exists r n2 w2, on_server n1 (Some (0, n1, w)) (fun s => match ssn_server_poll user g signals s (i32 ms) w with
      | Some (r, s, w) => Some (r, nd_set_server n1 (Some s), w) | None => None end) = Some (r, n2, w2) /\ r <= 0 /\
      node_inv n2 /\ nd_client n2 = nd_client n1) as (r & n2 & w2 & -> & Hr & Hi2 & Ec2).
  { unfold on_server. rewrite Es1. destruct (nd_server n) as [s|] eqn:Es; [|by exists 0, n1, w].
    pose proof (server_live n s Hi Hl Es) as Hs. rewrite (inv_live 0 s Hs).
    destruct Hsr as (fds & mf & [[cnt ready] w1] & Hf & Hp).
    destruct (poll_total user g user_ok s signals (i32 ms) w fds mf cnt ready w1 Hs Hf Hp) as (r & s' & w' & -> & Hout & Hle).
    eexists _, _, _. split; [done|]. split; [done|]. split; [by eapply inv_server|done]. }
  unfold on_client. rewrite Ec2. destruct (nd_client n) as [c|] eqn:Ec.
  2:{ rewrite H1, Ec. by exists r, n2, w2. }
  destruct H1 as (_ & _ & c1 & Ec1 & Hc1). rewrite Ec1, (ci_live 1 c1 Hc1).
  assert (is_Some (ssn_client_fds c1)) as [[fds mf] Hf] by (subst n1; cbn in Ec1; by simplify_eq).
  destruct (client_poll_held cuser cuser_ok d 1 c1 ms w2 fds mf ltac:(lia) Hc1 Hf) as (r2 & c2 & w3 & -> & Hle & Hc2).
  destruct (client_unref_total cuser d 0 c2 w3 ltac:(lia) Hc2) as (c3 & w4 & -> & Hout).
  eexists _, _, _. split; [done|]. split; [|destruct (r2 <? 0); lia].
  apply inv_node_client; [done| |done]. by eapply cap_of_client; [|rewrite Ec2].
Qed.
End ops.
