(* ===== verification/NodeClaims.v ===== *)
(** * Nodes: claims

    Every operation on a reachable node; descriptors over start and stop; the single
    peer of the node's client; what publishing answers; what destroying leaves. *)
From S2P Require Import Prelude FrameCodec HashTable ErrorCode Os Transport Address FrameSend EventPair Server ServerTable ServerProps ServerTheorems ClientPending Client ClientProps ClientTheorems Node NodeProps.

(** ** Descriptors of a server that has accepted nobody *)

Section descriptors.
Context {W : Type} `{OsLaws W}.
Implicit Types (w : W) (s : ssn_server).

Lemma listen_quiet t b w :
  sock_fd (impl (ssn_transport_listen t b w).1.2) = sock_fd (impl t) /\
  os_quiet os_open os_tx w (ssn_transport_listen t b w).2.
Proof.
  assert (forall (fd : Z) (a : bytes) w0 (r : Z) w2, os_quiet os_open os_tx w w0 -> os_bind fd a w0 = (r, w2) ->
    os_quiet os_open os_tx w w2) as Hbind.
  { intros fd a w0 r w2 H1 E. pose proof (os_bind_quiet fd a w0) as H2. rewrite E in H2. by eapply os_quiet_trans. }
  assert (forall (fd n : Z) w0 (r : Z) w2, os_quiet os_open os_tx w w0 -> os_listen fd n w0 = (r, w2) ->
    os_quiet os_open os_tx w w2) as Hlisten.
  { intros fd n w0 r w2 H1 E. pose proof (os_listen_quiet fd n w0) as H2. rewrite E in H2. by eapply os_quiet_trans. }
  assert (os_quiet os_open os_tx w w) as Hrefl by done.
  unfold ssn_transport_listen, unix_transport_listen, tcp_transport_listen, udp_transport_listen. destruct (ops t).
  - pose proof (os_stat_quiet (socket_path (impl t)) w) as Hs. destruct (os_stat _ w) as [st w1]. cbn [snd] in Hs.
    pose proof (os_quiet_trans _ _ _ Hs (os_unlink_quiet (socket_path (impl t)) w1)) as Hu.
    destruct st; try done; destruct (os_bind _ _ _) as [r w2] eqn:Eb; apply Hbind in Eb; try done;
      (destruct (r <? 0); [done|]); destruct (os_listen _ _ _) as [r2 w3] eqn:El; apply Hlisten in El; try done;
      by destruct (r2 <? 0).
  - destruct (os_bind _ _ _) as [r w2] eqn:Eb. apply Hbind in Eb; [|done]. destruct (r <? 0); [done|].
    destruct (os_listen _ _ _) as [r2 w3] eqn:El. apply Hlisten in El; [|done]. by destruct (r2 <? 0).
  - destruct (os_bind _ _ _) as [r w2] eqn:Eb. apply Hbind in Eb; [|done]. by destruct (r <? 0).
Qed.
Lemma bind_fd t a : sock_fd (impl (ssn_transport_bind t a).2) = sock_fd (impl t).
Proof.
  unfold ssn_transport_bind, unix_transport_bind, tcp_transport_bind, udp_transport_bind.
  destruct (ops t); [done|by destruct (decide _)..].
Qed.

Lemma clear_socket_quiet s ty w : os_quiet os_open os_tx w (clear_socket_file s ty w).2.
Proof.
  unfold clear_socket_file. destruct ty; try done.
  pose proof (os_stat_quiet (srv_name s) w) as Hs. destruct (os_stat (srv_name s) w) as [st w1]. cbn [snd] in Hs.
  destruct st; try done. eapply os_quiet_trans; [exact Hs|apply os_unlink_quiet].
Qed.

(** Starting opens the listening socket, or leaves everything closed. *)
Definition opened s : gset Z := match srv_transport s with Some t => owned t | None => ∅ end.
Lemma start_descriptors g s w :
  srv_transport s = None ->
  let '(ok, s', w') := ssn_server_start g s w in
  exists t, s' = with_transport s t /\ (ok = false -> t = None) /\
    os_open w' = opened s' ∪ os_open w /\ opened s' ## os_open w.
Proof.
  intros Hnone.
  assert (forall w', os_quiet os_open os_tx w w' -> os_open w' = opened s ∪ os_open w /\ opened s ## os_open w) as Hq.
  { intros w' [-> _]. unfold opened. rewrite Hnone. set_solver. }
  assert (s = with_transport s None) as Hs by (destruct s; cbn in *; by subst).
  assert (forall w', os_quiet os_open os_tx w w' -> exists t, s = with_transport s t /\ (false = false -> t = None) /\
    os_open w' = opened s ∪ os_open w /\ opened s ## os_open w) as Hsame.
  { intros w' Hw. exists None. split; [done|]. split; [done|]. by apply Hq. }
  assert (forall w', os_open w' = os_open w -> exists t, with_transport s None = with_transport s t /\
    (false = false -> t = None) /\ os_open w' = opened (with_transport s None) ∪ os_open w /\
    opened (with_transport s None) ## os_open w) as Hfail.
  { intros w' Hw. exists None. do 2 (split; [done|]). unfold opened. cbn. set_solver. }
  unfold ssn_server_start. destruct (srv_valid s); cbn [negb]; [|by apply Hsame]. cbv zeta.
  match goal with |- context [ssn_address_parse ?a w] => pose proof (parse_quiet a w) as Hp;
    destruct (ssn_address_parse a w) as [[a0|] w1] end; cbn [snd] in Hp; [|by apply Hsame].
  pose proof (clear_socket_quiet s (addr_type a0) w1) as Hc. destruct (clear_socket_file _ _ w1) as [ok w2]. cbn [snd] in Hc.
  pose proof (os_quiet_trans _ _ _ Hp Hc) as H2. destruct ok; cbn [negb]; [|by apply Hsame].
  pose proof (create_post_ok g (addr_type a0) (Some (server_config s (addr_type a0))) w2) as Hcr.
  destruct (ssn_transport_create g _ _ w2) as [[t|] w3].
  2:{ apply Hfail. destruct H2, Hcr. congruence. }
  destruct Hcr as [(Hfd & Hnew & Ho3 & _) _]. destruct H2 as [H2 _]. rewrite H2 in *.
  pose proof (bind_fd t a0) as Hb. destruct (ssn_transport_bind t a0) as [bound t1]. cbn [snd] in Hb.
  assert (forall t' w', sock_fd (impl t') = sock_fd (impl t) -> os_open w' = os_open w3 ->
    os_open (ssn_transport_destroy t' w') = os_open w) as Hdes.
  { intros t' w' Ef Eo. destruct (destroy_spec t' w') as [-> _]. rewrite Eo, Ho3, (owned_alt t' _ Ef Hfd). set_solver. }
  destruct bound; cbn [negb]; [|apply Hfail; by apply Hdes].
  destruct (listen_quiet t1 SSN_SERVER_BACKLOG w3) as [Hlf [Hlo _]].
  destruct (ssn_transport_listen t1 _ w3) as [[listening t2] w4]. cbn [fst snd] in *.
  destruct listening; [|apply Hfail; apply Hdes; congruence].
  exists (Some t2). split; [done|]. split; [done|]. unfold opened. cbn.
  rewrite (owned_alt t2 (sock_fd (impl t))) by congruence. rewrite Hlo, Ho3. set_solver.
Qed.

(** A server that is destroyed before it served anybody closes what it has. *)
Lemma destroy_fresh s w :
  server_inv 0 s -> srv_valid s = true -> ref_count s = 1 -> concat (clis s) = [] -> 0 <= evt_fd (srv_evt s) ->
  exists s' w', ssn_server_destroy s w = Some (s', w') /\ os_open w' = os_open w ∖ opened s ∖ {[evt_fd (srv_evt s)]}.
Proof.
  intros Hi Hv Hr Hc He. unfold ssn_server_destroy. rewrite Hv. cbn [negb]. unfold ssn_server_unref.
  cbn [srv_freed with_valid ref_count with_ref]. rewrite (inv_live 0 s Hi), Hr. cbn [Z.gtb Z.compare Z.sub].
  unfold ssn_server_free_resources. cbn [srv_transport with_ref with_valid].
  assert (forall s1 w1, clis s1 = clis s -> srv_evt s1 = srv_evt s ->
    exists s' w', match destroy_clis (map cli_id (concat (clis s1))) s1 (ipc_event_pair_destroy (srv_evt s1) w1) with
      | None => None | Some (s, w) => Some (with_freed s, os_unlink (srv_name s) w) end = Some (s', w') /\
      os_open w' = os_open w1 ∖ {[evt_fd (srv_evt s)]}) as Hrest.
  { intros s1 w1 Hc1 He1. rewrite Hc1, Hc, He1. cbn [map destroy_clis]. eexists _, _. split; [done|].
    destruct (os_unlink_quiet (srv_name s1) (ipc_event_pair_destroy (srv_evt s) w1)) as [-> _].
    unfold ipc_event_pair_destroy. destruct (Z.geb_spec (evt_fd (srv_evt s)) 0); [|lia].
    by destruct (os_close_open (evt_fd (srv_evt s)) w1) as [-> _]. }
  unfold opened. destruct (srv_transport s) as [t|].
  - cbn [andb negb Z.eqb srv_valid with_ref with_valid]. destruct (Hrest (with_transport (with_ref (with_valid s false) 0) None) (ssn_transport_destroy t w) eq_refl eq_refl)
      as (s' & w' & E & Ho). exists s', w'. split; [exact E|]. rewrite Ho. by destruct (destroy_spec t w) as [-> _].
  - cbn [andb negb Z.eqb srv_valid with_ref with_valid]. destruct (Hrest (with_ref (with_valid s false) 0) w eq_refl eq_refl) as (s' & w' & E & Ho).
    exists s', w'. split; [exact E|]. rewrite Ho. set_solver.
Qed.
End descriptors.

(** ** Start *)

Lemma new_server_facts name opts e :
  srv_evt (new_server name opts e) = e /\ ref_count (new_server name opts e) = 1 /\
  concat (clis (new_server name opts e)) = [] /\ srv_transport (new_server name opts e) = None /\
  srv_valid (new_server name opts e) = true.
Proof. unfold new_server. by destruct (match opts with Some _ => _ | None => _ end) as [[[? ?] ?] ?]. Qed.

Section start.
Context {W : Type} `{OsLaws W}.
Implicit Types (n : ssn_node) (w : W).

(** A fresh server: its event's descriptor is new, and destroying closes it. *)
Lemma create_descriptors late name opts w :
  options_ok opts ->
  match ssn_server_create_with_options late name opts w with
  | (None, w') => os_open w' = os_open w
  | (Some s, w') => s = new_server name opts (srv_evt s) /\ 0 <= evt_fd (srv_evt s) /\
      (evt_fd (srv_evt s) ∉ os_open w) /\ os_open w' = {[evt_fd (srv_evt s)]} ∪ os_open w
  end.
Proof.
  intros Ho. unfold ssn_server_create_with_options. pose proof (os_calloc_quiet w) as [Hc _].
  destruct (os_calloc w) as [[] w1]; cbn [snd negb] in *; [|done].
  pose proof (event_create_destroy w1) as He. unfold ipc_event_pair_create in *.
  pose proof (os_calloc_quiet w1) as [Hc1 _]. destruct (os_calloc w1) as [[] w2]; cbn [snd negb] in *; [|congruence].
  pose proof (os_eventfd_open w2) as Hf. destruct (os_eventfd w2) as [fd w3]. destruct Hf as [_ Hf].
  destruct (Z.ltb_spec fd 0); destruct Hf as [[? Hf]|(? & Hnew & Hf)]; try lia; [congruence|].
  destruct He as (_ & _ & Hd). destruct late; [|congruence].
  destruct (new_server_facts name opts (mk_event fd 0)) as (-> & _). cbn. rewrite Hf, Hc1, Hc.
  rewrite Hc1, Hc in Hnew. done.
Qed.

(** What starting opens. *)
Lemma start_opens g late junk n w :
  node_inv n -> nd_state n = SSN_NODE_STATE_STOPPED -> nd_client n = None -> 0 <= junk < 2 ^ 32 ->
  exists b n1 w1, ssn_node_start g late junk n w = Some (b, n1, w1) /\ nd_client n1 = None /\
    if b then match nd_server n1 with
              | None => os_open w1 = os_open w
              | Some s => server_inv 0 s /\ srv_valid s = true /\ ref_count s = 1 /\ concat (clis s) = [] /\
                  0 <= evt_fd (srv_evt s) /\ os_open w1 ∖ opened s ∖ {[evt_fd (srv_evt s)]} = os_open w
              end
    else os_open w1 = os_open w.
Proof.
  intros Hi Est Hcl Hj. unfold ssn_node_start. rewrite Est. pose proof (ni_server n Hi) as Hs. unfold server_ok in Hs.
  assert (nd_server n = None) as Ens by (destruct (nd_server n); [destruct Hs; congruence|done]).
  destruct (has_cap n SSN_NODE_CAP_SERVER).
  2:{ pose proof (os_time_quiet w) as [Ht _]. destruct (os_time w) as [now w1]. eexists _, _, _. split; [done|].
      split; [done|]. cbn. by rewrite Ens. }
  set (opts := Some _). assert (options_ok opts) as Ho by done.
  pose proof (create_descriptors late (create_server_address (nd_config n)) opts w Ho) as Hc.
  destruct (ssn_server_create_with_options _ _ _ w) as [[s|] w1] eqn:Ec; [|by eexists _, _, _].
  destruct (create_server_live _ _ _ _ _ _ Ho Ec) as [Hsi Hsv]. destruct Hc as (Es & He & Hnew & Ho1).
  destruct (new_server_facts (create_server_address (nd_config n)) opts (srv_evt s)) as (_ & Hr & Hcc & Ht & _).
  rewrite <- Es in Hr, Hcc, Ht. pose proof (start_inv 0 g s w1 Hsi) as Hst.
  pose proof (start_descriptors g s w1 Ht) as Hd. destruct (ssn_server_start g s w1) as [[ok s2] w2]. cbn in Hst.
  destruct Hd as (t & -> & Hno & Ho2 & Hdis). destruct ok.
  - pose proof (os_time_quiet w2) as [Htm _]. destruct (os_time w2) as [now w3]. cbn [snd] in Htm.
    eexists _, _, _. split; [done|]. split; [done|]. cbn. split_and!; try done.
    unfold opened in *. cbn in *. rewrite Htm, Ho2, Ho1. rewrite Ho1 in Hdis. set_solver.
  - rewrite (Hno eq_refl) in *.
    destruct (destroy_fresh (with_transport s None) w2 Hst Hsv Hr Hcc He) as (s3 & w3 & -> & Ho3).
    eexists _, _, _. split; [done|]. split; [done|]. rewrite Ho3, Ho2, Ho1. unfold opened in *. cbn in *. set_solver.
Qed.

Lemma stop_closes fire n w s :
  nd_state n = SSN_NODE_STATE_ACTIVE -> nd_client n = None -> nd_server n = Some s ->
  server_inv 0 s -> srv_valid s = true -> ref_count s = 1 -> concat (clis s) = [] -> 0 <= evt_fd (srv_evt s) ->
  exists n2 w2, ssn_node_stop fire n w = Some (true, n2, w2) /\ nd_state n2 = SSN_NODE_STATE_STOPPED /\
    os_open w2 = os_open w ∖ opened s ∖ {[evt_fd (srv_evt s)]}.
Proof.
  intros Est Ecl Es Hi Hv Hr Hc He. unfold ssn_node_stop, on_server, on_client. rewrite Est, Es, (inv_live 0 s Hi).
  destruct (destroy_fresh s w Hi Hv Hr Hc He) as (s' & w' & -> & Ho). cbn [nd_client nd_set_server]. rewrite Ecl.
  pose proof (os_time_quiet w') as [Ht _]. destruct (os_time w') as [now w2]. cbn [snd] in Ht.
  eexists _, _. split; [done|]. split; [done|congruence].
Qed.
End start.

(** ** Operations *)

Inductive node_op :=
  | NStart (late_ok : bool) (junk : Z)
  | NStop
  | NDestroy
  | NGetClient (late_ok : bool)
  | NSetConnect (h : option (Z * Z))
  | NSetMessage (h : option (Z * Z))
  | NSetClientMessage (callback arg : Z)
  | NAddMethod (calloc_ok : bool) (url : option ssn_url_ref_t) (callback arg : Z)
  | NRemoveMethod (url : option ssn_url_ref_t)
  | NPoll (signals : nat) (timeout_ms : Z)
  | NSend (late_ok : bool) (peer : option bytes) (url : option ssn_url_ref_t) (data : option ssn_data_ref_t)
  | NSubscribe (late_ok : bool) (peer : option bytes) (url : option ssn_url_ref_t) (callback arg timeout_ms : Z)
  | NUnsubscribe (url : option ssn_url_ref_t) (timeout_ms : Z)
  | NCall (late_ok : bool) (peer : option bytes) (url : option ssn_url_ref_t) (data : option ssn_data_ref_t)
      (callback arg timeout_ms : Z)
  | NPublish (url : option ssn_url_ref_t) (data : option ssn_data_ref_t)
  | NServerTick
  | NClientTick.

#[global] Instance node_op_destroys (o : node_op) : Decision (o = NDestroy).
Proof. destruct o; (by left) || (by right). Defined.

Section node_ops.
Context {W : Type} `{OsLaws W}.
Context (user : server_event -> ssn_server -> W -> list api_call).
Context (cuser : client_event -> ssn_client -> W -> list client_call).
Context (d : nat) (g : factory).
Implicit Types (n : ssn_node) (w : W).
Local Abbreviation fire := (fire_at cuser (S (S d))).

Definition drop_result {A} (r : option (A * ssn_node * W)) : option (ssn_node * W) :=
  match r with Some (_, n, w) => Some (n, w) | None => None end.

(** The two last are the timer thread's passes over the node's components. *)
Definition run_op (o : node_op) n w : option (ssn_node * W) :=
  match o with
  | NStart late junk => drop_result (ssn_node_start g late junk n w)
  | NStop => drop_result (ssn_node_stop fire n w)
  | NDestroy => ssn_node_destroy fire n w
  | NGetClient late => let '(_, n, w) := ssn_node_get_client late n w in Some (n, w)
  | NSetConnect h => (.,w) <$> ssn_node_set_connect_handler n h
  | NSetMessage h => (.,w) <$> ssn_node_set_message_handler n h
  | NSetClientMessage callback arg => ssn_node_set_client_message_handler fire n callback arg w
  | NAddMethod ok url callback arg => (fun r => (r.2, w)) <$> ssn_node_add_rpc_method ok n url callback arg
  | NRemoveMethod url => (.,w) <$> ssn_node_remove_rpc_method n url
  | NPoll signals ms => drop_result (ssn_node_poll user fire g signals n ms w)
  | NSend late peer url data => drop_result (ssn_node_send_to_peer fire g late n peer url data w)
  | NSubscribe late peer url callback arg ms => drop_result (ssn_node_subscribe fire g late n peer url callback arg ms w)
  | NUnsubscribe url ms => drop_result (ssn_node_unsubscribe fire n url ms w)
  | NCall late peer url data callback arg ms =>
      drop_result (ssn_node_rpc_call fire g late n peer url data callback arg ms w)
  | NPublish url data => drop_result (ssn_node_publish n url data w)
  | NServerTick => on_server n (Some (n, w)) (fun s =>
      match ssn_server_timer_tick s with Some s => Some (nd_set_server n (Some s), w) | None => None end)
  | NClientTick => on_client n (Some (n, w)) (fun c => Some (nd_set_client n (Some (ssn_client_timer_tick c)), w))
  end.

(** Memory passed in is valid; no directory method is registered once the tail
    pointer of their list dangles; a poll's descriptors fit and its [pselect] returns;
    [junk], which the server takes for [max_connections], has 32 bits. *)
Definition op_ok (o : node_op) n w : Prop :=
  match o with
  | NStart _ junk => 0 <= junk < 2 ^ 32
  | NAddMethod _ url _ _ => match nd_server n with Some s => add_safe s url | None => True end
  | NPoll signals ms => poll_ready n signals ms w
  | NSend _ _ url data | NCall _ _ url data _ _ _ | NPublish url data => refs_ok url data
  | NSubscribe _ _ url _ _ _ | NUnsubscribe url _ => refs_ok url None
  | _ => True
  end.

Inductive node_reach : ssn_node -> W -> Prop :=
  | nreach_create co mo host sec usec cfg n w : ssn_node_create co mo host sec usec cfg = Some n -> node_reach n w
  | nreach_world n w w' : node_reach n w -> node_reach n w'
  | nreach_op o n w n' w' : node_reach n w -> nd_freed n = false -> live n -> op_ok o n w -> run_op o n w = Some (n', w') -> node_reach n' w'.

Hypothesis user_ok : forall e s w, calls_ok (user e s w) s w.
Hypothesis cuser_ok : forall e c w, Forall ccall_ok (cuser e c w).

Lemma with_peer_op late n peer op w :
  node_inv n -> live n -> op_good op -> good_node (drop_result (with_peer fire g late n peer op w)).
Proof.
  intros Hi Hl Ho. destruct (with_peer_good cuser d g late n peer op w Hi Hl Ho) as (r & n' & w' & -> & ?). by exists n', w'.
Qed.

Lemma add_method_op ok n url cb arg w :
  node_inv n -> live n -> op_ok (NAddMethod ok url cb arg) n w -> good_node (run_op (NAddMethod ok url cb arg) n w).
Proof.
  intros Hi Hl Ho. assert (good_node (Some (n, w))) as Hsame by (by exists n, w). cbn [run_op].
  unfold ssn_node_add_rpc_method. destruct url as [u|]; [|done]. destruct (cb =? 0); [done|].
  cbn [op_ok] in Ho. unfold on_server. destruct (nd_server n) as [s|] eqn:Es; [|done].
  pose proof (server_live n s Hi Hl Es) as Hs. rewrite (inv_live 0 s Hs).
  destruct (add_method_inv 0 ok s (Some u) cb arg Hs Ho) as (r & s' & -> & ? & _).
  eexists _, _. split; [done|]. eapply inv_server; [done..|by left].
Qed.
Lemma unsubscribe_op n url timeout_ms w :
  node_inv n -> live n -> refs_ok url None -> good_node (run_op (NUnsubscribe url timeout_ms) n w).
Proof.
  intros Hi Hl Ho. assert (good_node (Some (n, w))) as Hsame by (by exists n, w). cbn [run_op].
  unfold ssn_node_unsubscribe. destruct url as [u|]; [|done]. unfold on_client.
  destruct (nd_client n) as [c|] eqn:Ec; [|done]. pose proof (client_live n c Hi Hl Ec) as Hc.
  destruct (client_call_node cuser d n (CcUnsubscribe (Some u) timeout_ms) w c Hi Hl Ec Ho) as (c' & w' & E & Hn).
  unfold run_client_call in E. rewrite (ci_live 0 c Hc) in *.
  destruct (ssn_client_unsubscribe _ c (Some u) timeout_ms w) as [[[r c1] w1]|]; [|done]. simplify_eq.
  destruct r; [destruct (os_time w') as [now w2]|]; eexists _, _; (split; [done|]); [by apply inv_times|done].
Qed.
Lemma publish_op n url data w :
  node_inv n -> live n -> refs_ok url data -> good_node (run_op (NPublish url data) n w).
Proof.
  intros Hi Hl Ho. assert (good_node (Some (n, w))) as Hsame by (by exists n, w). cbn [run_op].
  unfold ssn_node_publish. destruct url as [u|]; [|done]. unfold on_server.
  destruct (nd_server n) as [s|] eqn:Es; [|done]. pose proof (server_live n s Hi Hl Es) as Hs. rewrite (inv_live 0 s Hs).
  destruct (publish_good 0 s (Some u) data w Hs Ho) as (r & s' & w' & -> & Hs' & _).
  assert (node_inv (nd_set_server n (Some s'))) as Hn by (eapply inv_server; [done..|by left]).
  destruct (Z.b2z r <? 0); [by eexists _, _|]. destruct (os_time w') as [now w2]. eexists _, _. split; [done|].
  by apply inv_times.
Qed.

Lemma stop_with_life n v f r w :
  ssn_node_stop fire (nd_set_life n v f r) w
  = (fun x => (x.1.1, nd_set_life x.1.2 v f r, x.2)) <$> ssn_node_stop fire n w.
Proof.
  unfold ssn_node_stop, on_server, on_client. cbn [nd_state nd_server nd_set_life].
  destruct (nd_state n); [done|..].
  all: destruct (nd_server n) as [s|]; [destruct (srv_freed s); [done|]; destruct (ssn_server_destroy s w) as [[? w1]|]; [|done]|].
  all: cbn [nd_client nd_set_server nd_set_life]; destruct (nd_client n) as [c|]; [destruct (cl_freed c); [done|]|].
  all: try (destruct (ssn_client_close fire c _) as [[? w2]|]; [|done]).
  all: by destruct (os_time _) as [now w3].
Qed.

(** Destroying a node releases it. *)
Lemma destroy_op n w :
  node_inv n -> live n -> exists n' w', run_op NDestroy n w = Some (n', w') /\ nd_freed n' = true.
Proof.
  intros Hi Hl. destruct (ni_live n Hi) as (Hv & Hf & Hr). cbn [run_op]. unfold ssn_node_destroy. rewrite Hf, Hv, Hr.
  cbn [negb nd_ref_count nd_set_life nd_state Z.sub Z.gtb Z.compare Z.add Z.opp Z.pos_sub]. destruct (nd_state n); [by eexists _, _| |by eexists _, _].
  rewrite stop_with_life. destruct (stop_good cuser d n w Hi Hl) as (n' & w' & -> & _). by eexists _, _.
Qed.

Lemma op_total o n w : node_inv n -> live n -> op_ok o n w -> o <> NDestroy -> good_node (run_op o n w).
Proof.
  intros Hi Hl Ho Hd. assert (good_node (Some (n, w))) as Hsame by (by exists n, w).
  assert (forall f, (forall s, server_inv 0 s -> server_inv 0 (f s)) ->
    good_node ((.,w) <$> on_server n (Some n) (fun s => Some (nd_set_server n (Some (f s)))))) as Hset.
  { intros f Hf. destruct (set_handlers_good n f Hi Hl Hf) as (n' & -> & ?). by exists n', w. }
  destruct o; cbn [run_op op_ok] in *.
  - destruct (start_good g late_ok junk n w Hi Hl Ho) as (b & n' & w' & -> & ? & _). by exists n', w'.
  - destruct (stop_good cuser d n w Hi Hl) as (n' & w' & -> & ? & _). by exists n', w'.
  - done.
  - pose proof (get_client_good late_ok n w Hi Hl) as Hg. destruct (ssn_node_get_client _ n w) as [[c n'] w'].
    destruct Hg. by exists n', w'.
  - apply (Hset (fun s => ssn_server_set_connect_handler s h)). intros s []. by split.
  - apply (Hset (fun s => ssn_server_set_message_handler s h)). intros s []. by split.
  - unfold ssn_node_set_client_message_handler, on_client. destruct (nd_client n) as [c|] eqn:Ec; [|done].
    destruct (client_call_node cuser d n (CcSetOnMessage callback arg) w c Hi Hl Ec I) as (c' & w' & E & ?).
    unfold run_client_call in E. pose proof (client_live n c Hi Hl Ec) as Hc. rewrite (ci_live 0 c Hc) in *. rewrite E.
    by eexists _, _.
  - by apply add_method_op.
  - unfold ssn_node_remove_rpc_method. destruct url as [u|]; [|done]. unfold on_server.
    destruct (nd_server n) as [s|] eqn:Es; [|done].
    pose proof (server_live n s Hi Hl Es) as Hs. rewrite (inv_live 0 s Hs). eexists _, _. split; [done|].
    eapply inv_server; [done..|left]. by apply remove_method_inv.
  - destruct (node_poll_good user user_ok cuser cuser_ok d g signals n timeout_ms w Hi Hl Ho) as (r & n' & w' & -> & ? & _).
    by exists n', w'.
  - destruct peer as [p|]; [|done]. destruct url as [u|]; [|done]. apply with_peer_op; [done..|]. by apply message_op.
  - destruct peer as [p|]; [|done]. destruct url as [u|]; [|done]. cbn [ssn_node_subscribe].
    destruct (callback =? 0); [done|]. apply with_peer_op; [done..|]. by apply subscribe_op.
  - by apply unsubscribe_op.
  - destruct peer as [p|]; [|done]. destruct url as [u|]; [|done]. cbn [ssn_node_rpc_call].
    destruct (with_peer_op late_ok n p _ w Hi Hl (call_op cuser d (Some u) data callback arg timeout_ms Ho)) as (n' & w' & E & ?).
    unfold drop_result in E. destruct (with_peer _ _ _ _ _ _ _) as [[[r n1] w1]|]; [|done]. simplify_eq. by exists n', w'.
  - by apply publish_op.
  - unfold on_server. destruct (nd_server n) as [s|] eqn:Es; [|done].
    pose proof (server_live n s Hi Hl Es) as Hs. rewrite (inv_live 0 s Hs).
    destruct (tick_good 0 s Hs) as (s' & -> & ? & _). eexists _, _. split; [done|]. eapply inv_server; [done..|by left].
  - unfold on_client. destruct (nd_client n) as [c|] eqn:Ec; [|done]. pose proof (client_live n c Hi Hl Ec) as Hc.
    rewrite (ci_live 0 c Hc). eexists _, _. split; [done|].
    apply inv_node_client; [done|by eapply cap_of_client|left]. by apply client_tick_inv.
Qed.

Lemma node_reach_inv n w : node_reach n w -> nd_freed n = false -> node_inv n.
Proof.
  induction 1 as [co mo host sec usec cfg n w E|n w w' _ IH|o n w n' w' _ IH Hf Hl Ho E]; intros Hf'; [by eapply new_node_inv|by apply IH|].
  destruct (decide (o = NDestroy)) as [->|Hd].
  - destruct (destroy_op n w (IH Hf) Hl) as (n2 & w2 & E2 & ?). congruence.
  - destruct (op_total o n w (IH Hf) Hl Ho Hd) as (n2 & w2 & E2 & ?). congruence.
Qed.
End node_ops.

(** ** Peers *)

Section peers.
Context {W : Type} `{OsOps W}.
Context (fire : client_event -> ssn_client -> W -> option (ssn_client * W)) (g : factory).
Implicit Types (n : ssn_node) (w : W).

Definition node_connected n : bool :=
  match nd_client n with Some c => ssn_client_is_connect c | None => false end.

Lemma with_peer_refused late n c cur peer op w :
  nd_client n = Some c -> cl_freed c = false -> ssn_client_is_connect c = true ->
  peer_address n = cur -> cur <> [] -> peer <> cur -> with_peer fire g late n peer op w = Some (false, n, w).
Proof.
  intros Ec Hf Hconn Hp Hne Hd. unfold with_peer, connect_to_peer, ssn_node_get_client. rewrite Ec, Hf, Hconn.
  unfold peer_address_of. rewrite Ec, Hp. destruct cur; [done|]. by rewrite bool_decide_false by congruence.
Qed.

Lemma unref_keeps_peer n w n' w' : unref_node_client fire n w = Some (n', w') -> peer_address n' = peer_address n.
Proof.
  unfold unref_node_client, on_client. destruct (nd_client n) as [c|]; [|done]. destruct (cl_freed c); [done|].
  destruct (ssn_client_unref fire c w) as [[c' w1]|]; [|done]. by intros [= <- _].
Qed.
Lemma with_peer_records late n peer op w n' w' :
  node_connected n = false -> with_peer fire g late n peer op w = Some (true, n', w') -> peer_address n' = ztake 127 peer.
Proof.
  intros Hn. unfold with_peer. destruct (connect_to_peer late n peer w) as [[[[] n1] w1]|] eqn:E1; [|done..].
  assert (exists c, nd_client n1 = Some c /\ cl_freed c = false /\ ssn_client_is_connect c = false) as (c & Ec & Hf & Hc).
  { unfold connect_to_peer, ssn_node_get_client in E1. unfold node_connected in Hn.
    destruct (nd_client n) as [c|] eqn:Ec.
    - rewrite Hn in E1. destruct (cl_freed c) eqn:Hf; [done|]. simplify_eq. by exists (ssn_client_ref c).
    - destruct (has_cap _ _); [|done]. destruct (ssn_client_create late w) as [[c|] w0] eqn:E; [|done].
      unfold ssn_client_create in E. destruct (os_calloc w) as [[] ?]; [|done].
      destruct (ipc_event_pair_create _) as [[e|] ?]; [|done]. destruct late; [|done]. injection E as <- <-.
      cbn in E1. injection E1 as <- <-. by eexists. }
  unfold node_ensure_connected, on_client. rewrite Ec, Hf, Hc.
  destruct (ssn_client_connect _ _ c peer _ w1) as [[[[] c2] w2]|]; [| |done].
  2:{ destruct (unref_node_client _ _ _) as [[? ?]|]; done. }
  cbn [nd_client nd_set_peer nd_set_client]. destruct (cl_freed c2); [done|].
  destruct (op c2 w2) as [[[[] c3] w3]|]; [| |done].
  2:{ destruct (unref_node_client _ _ _) as [[? ?]|]; done. }
  destruct (os_time w3) as [now w4]. destruct (unref_node_client _ _ w4) as [[n5 w5]|] eqn:Eu; [|done].
  intros [= <- _]. by apply unref_keeps_peer in Eu.
Qed.
End peers.

(** ** Claims *)


(** Starting a stopped node without a client always returns.  When it
    answers true the node is active, and stopping it at once closes every
    descriptor that starting had opened.  When it answers false everything is
    closed again and the node is in the error state, where every further start is
    refused until a stop, which returns it to the stopped state. *)
Theorem node_start_balanced {W} `{OsLaws W} (cuser : client_event -> ssn_client -> W -> list client_call) (d : nat)
    (g : factory) (late_ok : bool) (junk : Z) (n : ssn_node) (w : W) :
  node_inv n -> nd_state n = SSN_NODE_STATE_STOPPED -> nd_client n = None -> 0 <= junk < 2 ^ 32 ->
  exists b n1 w1, ssn_node_start g late_ok junk n w = Some (b, n1, w1) /\
    exists n2 w2, ssn_node_stop (fire_at cuser (S (S d))) n1 w1 = Some (true, n2, w2) /\
      nd_state n2 = SSN_NODE_STATE_STOPPED /\
      if b then nd_state n1 = SSN_NODE_STATE_ACTIVE /\ os_open w2 = os_open w
      else nd_state n1 = SSN_NODE_STATE_ERROR /\ os_open w1 = os_open w /\
        forall late_ok' junk' w', ssn_node_start g late_ok' junk' n1 w' = Some (false, n1, w').
Proof.
  intros Hi Est Hcl Hj.
  assert (live n) as Hl.
  { pose proof (ni_server n Hi) as Hs. unfold server_ok in Hs. unfold live. rewrite Hcl.
    destruct (nd_server n); [destruct Hs; congruence|done]. }
  destruct (start_good g late_ok junk n w Hi Hl Hj) as (b & n1 & w1 & E & Hi1 & Hl1 & Hst & _).
  destruct (start_opens g late_ok junk n w Hi Est Hcl Hj) as (b' & n1' & w1' & E' & Hc1 & Ho). simplify_eq.
  exists b, n1, w1. split; [done|]. destruct (stop_good cuser d n1 w1 Hi1 Hl1) as (n2 & w2 & E2 & _ & _ & Hst2 & _).
  exists n2, w2. split; [done|]. split; [done|]. destruct b.
  - split; [done|]. destruct (nd_server n1) as [s|] eqn:Es.
    + destruct Ho as (Hsi & Hsv & Hr & Hcc & He & Ho).
      destruct (stop_closes (fire_at cuser (S (S d))) n1 w1 s Hst Hc1 Es Hsi Hsv Hr Hcc He) as (n3 & w3 & E3 & _ & Ho3).
      simplify_eq. by rewrite Ho3.
    + unfold ssn_node_stop, on_server, on_client in E2. rewrite Hst, Es, Hc1 in E2.
      pose proof (os_time_quiet w1) as [Ht _]. destruct (os_time w1) as [now w3]. cbn [snd] in Ht. simplify_eq. congruence.
  - destruct Hst as [Hst _]. split; [done|]. split; [done|]. intros late' junk' w'. unfold ssn_node_start. by rewrite Hst.
Qed.

(** One peer at a time: while the node's client is connected, messages,
    subscriptions and calls to an address other than the recorded one are refused
    and change nothing; the address recorded is the one of the call that
    connected, cut to the 127 bytes its buffer holds. *)
Theorem node_single_peer {W} `{OsOps W} (fire : client_event -> ssn_client -> W -> option (ssn_client * W)) (g : factory)
    (n : ssn_node) (late_ok : bool) (peer : bytes) (url : ssn_url_ref_t) (data : option ssn_data_ref_t)
    (callback arg ms : Z) (w : W) :
  (forall c, nd_client n = Some c -> cl_freed c = false -> ssn_client_is_connect c = true ->
     peer_address n <> [] -> peer <> peer_address n ->
     ssn_node_send_to_peer fire g late_ok n (Some peer) (Some url) data w = Some (false, n, w) /\
     ssn_node_subscribe fire g late_ok n (Some peer) (Some url) callback arg ms w = Some (false, n, w) /\
     ssn_node_rpc_call fire g late_ok n (Some peer) (Some url) data callback arg ms w = Some (-1, n, w)) /\
  (forall n' w', node_connected n = false ->
     ssn_node_send_to_peer fire g late_ok n (Some peer) (Some url) data w = Some (true, n', w') \/
     ssn_node_subscribe fire g late_ok n (Some peer) (Some url) callback arg ms w = Some (true, n', w') \/
     ssn_node_rpc_call fire g late_ok n (Some peer) (Some url) data callback arg ms w = Some (0, n', w') ->
     peer_address n' = ztake 127 peer).
Proof.
  split.
  - intros c Ec Hf Hconn Hne Hp. cbn [ssn_node_send_to_peer ssn_node_subscribe ssn_node_rpc_call].
    rewrite !(with_peer_refused fire g late_ok n c (peer_address n)) by done. by destruct (callback =? 0).
  - intros n' w' Hn. cbn [ssn_node_send_to_peer ssn_node_subscribe ssn_node_rpc_call]. intros [E|[E|E]].
    + by eapply with_peer_records.
    + destruct (callback =? 0); [done|]. by eapply with_peer_records.
    + destruct (with_peer _ _ _ _ _ _ _) as [[[[] n1] w1]|] eqn:E1; simplify_eq; by eapply with_peer_records.
Qed.

(** A peer whose address has 128 bytes or more can be used once: the call that
    connects records a shortened address, and the next call with the same address
    is refused as one to a different peer. *)
Theorem long_peer_address_refused {W} `{OsOps W} (fire : client_event -> ssn_client -> W -> option (ssn_client * W))
    (g : factory) (n n1 : ssn_node) (late_ok : bool) (peer : bytes) (url : ssn_url_ref_t)
    (data : option ssn_data_ref_t) (c : ssn_client) (w w1 : W) :
  128 <= zlen peer -> node_connected n = false ->
  ssn_node_send_to_peer fire g late_ok n (Some peer) (Some url) data w = Some (true, n1, w1) ->
  nd_client n1 = Some c -> cl_freed c = false -> ssn_client_is_connect c = true ->
  ssn_node_send_to_peer fire g late_ok n1 (Some peer) (Some url) data w1 = Some (false, n1, w1).
Proof.
  intros Hlen Hn E Ec Hf Hconn. cbn [ssn_node_send_to_peer] in *. apply with_peer_records in E as Hp; [|done].
  assert (zlen (ztake 127 peer) = 127) as H127 by (apply zlen_ztake; lia).
  apply (with_peer_refused fire g late_ok n1 c (ztake 127 peer)); [done..| |].
  - intros E0. rewrite E0 in H127. done.
  - intros E0. rewrite <- E0 in H127. lia.
Qed.

(** Publishing on a node with a server answers true whatever is published:
    also for a topic that the server refuses, when nothing is sent. *)
Theorem node_publish_hides_refusal {W} `{OsLaws W} (n : ssn_node) (s : ssn_server) (url : ssn_url_ref_t)
    (data : option ssn_data_ref_t) (w : W) :
  nd_server n = Some s -> server_inv 0 s -> refs_ok (Some url) data ->
  exists n' w', ssn_node_publish n (Some url) data w = Some (true, n', w') /\
    (checked_url (Some url) = None -> w' = (os_time w).2 /\
       ssn_server_publish s (Some url) data w = Some (false, s, w)).
Proof.
  intros Es Hi Hr. unfold ssn_node_publish, on_server. rewrite Es, (inv_live 0 s Hi).
  destruct (publish_good 0 s (Some url) data w Hi Hr) as (r & s' & w' & E & _). rewrite E.
  destruct (Z.ltb_spec (Z.b2z r) 0); [destruct r; cbn in *; lia|]. destruct (os_time w') as [now w2] eqn:Et.
  eexists _, _. split; [done|]. intros Hc. assert (Some (r, s', w') = Some (false, s, w)) as [= -> -> ->].
  { rewrite <- E. unfold ssn_server_publish. rewrite Hc. by destruct (srv_valid s). }
  rewrite Et. by split.
Qed.

(** Destroying a node that is not active does not close its client: the
    descriptor that a client made on demand opened stays open. *)
Theorem node_destroy_leaks_client {W} `{OsLaws W} (fire : client_event -> ssn_client -> W -> option (ssn_client * W))
    (late_ok : bool) (n n1 : ssn_node) (c : ssn_client) (w w1 : W) :
  node_inv n -> nd_state n <> SSN_NODE_STATE_ACTIVE -> nd_client n = None ->
  ssn_node_get_client late_ok n w = (Some c, n1, w1) ->
  exists n2, ssn_node_destroy fire n1 w1 = Some (n2, w1) /\ nd_freed n2 = true /\
    os_open w1 = {[evt_fd (cl_evt c)]} ∪ os_open w /\ (evt_fd (cl_evt c) ∉ os_open w).
Proof.
  intros Hi Hst Hcl E. unfold ssn_node_get_client in E. rewrite Hcl in E.
  destruct (has_cap n SSN_NODE_CAP_CLIENT); [|done]. unfold ssn_client_create in E.
  pose proof (os_calloc_quiet w) as [Hc _]. destruct (os_calloc w) as [[] w2]; cbn [snd negb] in *; [|done].
  unfold ipc_event_pair_create in E. pose proof (os_calloc_quiet w2) as [Hc2 _].
  destruct (os_calloc w2) as [[] w3]; cbn [snd negb] in *; [|done].
  pose proof (os_eventfd_open w3) as Hf. destruct (os_eventfd w3) as [fd w4]. destruct Hf as [_ Hf].
  destruct (Z.ltb_spec fd 0); destruct Hf as [[? Hf]|(? & Hnew & Hf)]; try lia; [done|]. destruct late_ok; [|done].
  injection E as <- <- <-. pose proof (ni_live n Hi) as (Hv & Hfr & Href). cbn [evt_fd cl_evt new_client].
  unfold ssn_node_destroy. cbn [nd_freed nd_valid nd_set_client nd_ref_count nd_set_life nd_state].
  rewrite Hv, Hfr, Href. cbn [negb Z.sub Z.gtb Z.compare].
  destruct (nd_state n) eqn:Es; [|done|]; (eexists; split; [done|]); rewrite Hf, Hc2, Hc; rewrite Hc2, Hc in Hnew; done.
Qed.

(** C36.  Where a node listens: the name its server got is the first 63 bytes of the
    address made from the configuration, so of a Unix path only the first 56 bytes
    count: two nodes whose paths agree there listen at the same place. *)
Theorem node_listen_address_bounds {W} `{OsLaws W} (g : factory) (late_ok : bool) (junk : Z) (n n1 : ssn_node)
    (s : ssn_server) (w w1 : W) :
  nd_state n = SSN_NODE_STATE_STOPPED -> nd_server n = None -> 0 <= junk < 2 ^ 32 ->
  ssn_node_start g late_ok junk n w = Some (true, n1, w1) -> nd_server n1 = Some s ->
  srv_name s = ztake 63 (create_server_address (nd_config n)) /\ zlen (srv_name s) <= 63 /\
  (listen_port (nd_config n) = 0 ->
     srv_name s = TXT_unix ++ ztake 56 (text_or (listen_address (nd_config n)) TXT_default_path)).
Proof.
  intros Est Ens Hj E Es.
  assert (srv_name s = ztake 63 (create_server_address (nd_config n))) as Hn.
  { unfold ssn_node_start in E. rewrite Est in E. destruct (has_cap n SSN_NODE_CAP_SERVER).
    2:{ destruct (os_time w). simplify_eq. cbn in Es. congruence. }
    set (opts := Some _) in E. assert (options_ok opts) as Ho by done.
    pose proof (create_descriptors late_ok (create_server_address (nd_config n)) opts w Ho) as Hc.
    destruct (ssn_server_create_with_options _ _ _ w) as [[s0|] w2]; [|done]. destruct Hc as (Es0 & _).
    destruct (new_server_facts (create_server_address (nd_config n)) opts (srv_evt s0)) as (_ & _ & _ & Ht & _).
    rewrite <- Es0 in Ht. pose proof (start_descriptors g s0 w2 Ht) as Hd.
    destruct (ssn_server_start g s0 w2) as [[ok s2] w3]. destruct Hd as (t & -> & _). destruct ok.
    - destruct (os_time w3). simplify_eq. cbn in Es. simplify_eq. cbn. rewrite Es0. unfold new_server.
      by destruct (match opts with Some _ => _ | None => _ end) as [[[? ?] ?] ?].
    - destruct (ssn_server_destroy _ w3) as [[? ?]|]; simplify_eq. }
  split; [done|]. split; [rewrite Hn; by apply ztake_short|]. intros Hport. rewrite Hn. unfold create_server_address.
  rewrite Hport. cbn [Z.gtb Z.compare]. rewrite ztake_ztake by lia. set (path := text_or _ _). rewrite ztake_app_ge by (vm_compute; discriminate).
  done.
Qed.

(** ** Witnesses *)

Definition demo_config : ssn_node_config_t := mk_node_config [] [] [] [47; 116] 0 0 0 0 0 0.
Definition demo_node : ssn_node :=
  match ssn_node_create true true None 1 2 (Some demo_config) with
  | Some n => n
  | None => mk_node [] [] [] false true SSN_NODE_STATE_ERROR 0 0 0 0 None None [] demo_config
  end.
Lemma demo_node_inv : node_inv demo_node.
Proof. by eapply (new_node_inv true true None 1 2 (Some demo_config)). Qed.
Definition quiet_server : server_event -> ssn_server -> sim_world -> list api_call := fun _ _ _ => [].
Definition quiet_client : client_event -> ssn_client -> sim_world -> list client_call := fun _ _ _ => [].
Local Abbreviation fire := (fire_at quiet_client 2).

Definition fresh_world : sim_world := mk_sim ENOENT 3 ∅ (fun _ => []) [] [].


Lemma node_listen_address_bounds_witness :
  exists n1 w1 s, ssn_node_start demo_factory true 0 demo_node fresh_world = Some (true, n1, w1) /\
    nd_server n1 = Some s /\ srv_name s = TXT_unix ++ [47; 116].
Proof.
  destruct (ssn_node_start demo_factory true 0 demo_node fresh_world) as [[[b n1] w1]|] eqn:E;
    [|exfalso; vm_compute in E; discriminate E].
  assert ((fun r => (r.1.1, bool_decide (is_Some (nd_server r.1.2)))) <$> ssn_node_start demo_factory true 0 demo_node fresh_world
    = Some (true, true)) as Hx by (vm_compute; reflexivity).
  rewrite E in Hx. cbn in Hx. injection Hx as -> Hs. apply bool_decide_eq_true in Hs. destruct (nd_server n1) as [s|] eqn:Es;
    [|by destruct Hs].
  exists n1, w1, s. split; [reflexivity|]. split; [exact Es|].
  exact (proj2 (proj2 (node_listen_address_bounds demo_factory true 0 demo_node n1 s fresh_world w1 eq_refl eq_refl
    ltac:(lia) E Es)) eq_refl).
Defined.

Lemma node_start_balanced_witness :
  exists n1 w1 n2 w2, ssn_node_start demo_factory true 0 demo_node fresh_world = Some (true, n1, w1) /\
    ssn_node_stop fire n1 w1 = Some (true, n2, w2) /\ sim_open w2 = ∅.
Proof.
  destruct (node_start_balanced quiet_client 0 demo_factory true 0 demo_node fresh_world demo_node_inv eq_refl eq_refl
    ltac:(lia)) as (b & n1 & w1 & E & n2 & w2 & E2 & _ & Hb).
  assert ((fun r => r.1.1) <$> ssn_node_start demo_factory true 0 demo_node fresh_world = Some true) as Hx
    by (vm_compute; reflexivity).
  rewrite E in Hx. injection Hx as ->. exists n1, w1, n2, w2. split; [exact E|]. split; [exact E2|apply Hb].
Defined.

(** A connected node: a message to a peer whose address has 128 bytes. *)
Definition long_peer : bytes := TXT_unix ++ repeat 47 121.
Definition demo_url : ssn_url_ref_t := mk_url_ref (Some [47; 97]) 2.
Definition demo_data : option ssn_data_ref_t := Some (mk_data_ref (Some [1]) 1).
Definition node_hello : bytes := frame SSN_MSG_TYPE_SERVICE_INFO 0 0 [] [0; 0; 0; 7].
Definition demo_sent : option (bool * ssn_node * sim_world) :=
  ssn_node_send_to_peer fire demo_factory true demo_node (Some long_peer) (Some demo_url) demo_data
    (sim_init [100; 100; 100] [node_hello]).

Lemma long_peer_address_refused_witness :
  exists n1 w1, demo_sent = Some (true, n1, w1) /\
    ssn_node_send_to_peer fire demo_factory true n1 (Some long_peer) (Some demo_url) demo_data w1 = Some (false, n1, w1).
Proof.
  assert ((fun r => (r.1.1, node_connected r.1.2, cl_freed <$> nd_client r.1.2)) <$> demo_sent = Some (true, true, Some false)) as Hx
    by (vm_compute; reflexivity).
  destruct demo_sent as [[[b n1] w1]|] eqn:E; [|discriminate Hx]. cbn in Hx. unfold node_connected in Hx.
  destruct (nd_client n1) as [c|] eqn:Ec; [|discriminate Hx]. injection Hx as -> Hconn Hf.
  exists n1, w1. split; [reflexivity|].
  apply (long_peer_address_refused fire demo_factory demo_node n1 true long_peer demo_url demo_data c
    (sim_init [100; 100; 100] [node_hello]) w1); [vm_compute; discriminate|reflexivity|exact E|exact Ec|exact Hf|exact Hconn].
Defined.

(** A connected node refuses a second peer. *)
Lemma node_single_peer_witness :
  exists n1 w1, demo_sent = Some (true, n1, w1) /\ peer_address n1 = ztake 127 long_peer /\
    ssn_node_rpc_call fire demo_factory true n1 (Some [47]) (Some demo_url) demo_data 0 0 0 w1 = Some (-1, n1, w1).
Proof.
  assert ((fun r => (r.1.1, node_connected r.1.2, cl_freed <$> nd_client r.1.2)) <$> demo_sent = Some (true, true, Some false)) as Hx
    by (vm_compute; reflexivity).
  destruct demo_sent as [[[b n1] w1]|] eqn:E; [|discriminate Hx]. cbn in Hx. unfold node_connected in Hx.
  destruct (nd_client n1) as [c|] eqn:Ec; [|discriminate Hx]. injection Hx as -> Hconn Hf.
  exists n1, w1. split; [reflexivity|].
  assert (peer_address n1 = ztake 127 long_peer) as Hp.
  { refine (proj2 (node_single_peer fire demo_factory demo_node true long_peer demo_url demo_data 0 0 0
      (sim_init [100; 100; 100] [node_hello])) n1 w1 eq_refl (or_introl E)). }
  split; [exact Hp|].
  refine (proj2 (proj2 (proj1 (node_single_peer fire demo_factory n1 true [47] demo_url demo_data 0 0 0 w1) c Ec Hf Hconn _ _)));
    rewrite Hp; vm_compute; discriminate.
Defined.

Lemma node_publish_hides_refusal_witness :
  exists n1 n' w', nd_server n1 = Some demo_listening /\
    ssn_node_publish n1 (Some (mk_url_ref (Some [97]) 1)) None (sim_init [] []) = Some (true, n', w') /\
    ssn_server_publish demo_listening (Some (mk_url_ref (Some [97]) 1)) None (sim_init [] []) = Some (false, demo_listening, sim_init [] []).
Proof.
  destruct (node_publish_hides_refusal (nd_set_server demo_node (Some demo_listening)) demo_listening
    (mk_url_ref (Some [97]) 1) None (sim_init [] []) eq_refl demo_listening_inv) as (n' & w' & E & Hr).
  - split; [split; [cbn; lia|vm_compute; discriminate]|done].
  - exists (nd_set_server demo_node (Some demo_listening)), n', w'. split; [reflexivity|]. split; [exact E|]. apply Hr. reflexivity.
Defined.

Lemma node_destroy_leaks_client_witness :
  exists c n1 w1 n2, ssn_node_get_client true demo_node (sim_init [] []) = (Some c, n1, w1) /\
    ssn_node_destroy fire n1 w1 = Some (n2, w1) /\ os_open w1 = {[evt_fd (cl_evt c)]} ∪ ∅.
Proof.
  destruct (ssn_node_get_client true demo_node (sim_init [] [])) as [[[c|] n1] w1] eqn:E;
    [|exfalso; vm_compute in E; discriminate E].
  destruct (node_destroy_leaks_client fire true demo_node n1 c (sim_init [] []) w1 demo_node_inv ltac:(discriminate)
    eq_refl E) as (n2 & E2 & _ & Ho & _).
  exists c, n1, w1, n2. split; [reflexivity|]. split; [exact E2|exact Ho].
Defined.
