(* ===== verification/Global.v ===== *)
(** * Global resources and timer threads

    [src/src/ssn_global.c] with the primitives of [vsi/ipc_mutex.c],
    [vsi/ipc_thread.c] and [vsi/ipc_platform.c] (Linux branches) it uses, and the
    two timer threads, [ssn_client_timer_handle] of [ssn_client.c] and
    [ssn_server_timer_handle] of [ssn_server.c].

    - Pointers to mutexes and threads are true when they are not NULL.
    - A step of the main thread runs to the next [pthread_join], which waits for
      the thread to end; a step of a timer thread runs to the end of its sleep, to
      its reading of the exit flag, or through one pass under the global lock.
    - [g_fault] records that a timer thread used a NULL or destroyed mutex, or memory
      that is not there; [None] is the same for a call of the application. *)
From S2P Require Import Prelude FrameCodec HashTable ErrorCode Os Transport Address FrameSend EventPair Server ServerTable ServerProps ServerTheorems ClientPending Client ClientProps ClientTheorems ClientClaims.

(** ** Primitives *)

(** [malloc_ok], [init_ok]: allocation, [pthread_mutex_init]. *)
Definition ipc_mutex_init (malloc_ok init_ok : bool) (out : bool) : Z * bool :=
  if negb malloc_ok then (-1, out) else if negb init_ok then (-1, out) else (0, true).
Definition ipc_mutex_destroy (mutex : bool) : Z := if negb mutex then -1 else 0.

(** A thread that was created, by what it does next; [Ended]: it has returned. *)
Inductive thread_state := Absent | Sleeping | Checking | Passing | Ended.
#[global] Instance thread_state_dec : EqDecision thread_state.
Proof. solve_decision. Defined.

Definition ipc_thread_create (malloc_ok create_ok : bool) (out : bool) (t : thread_state) : Z * bool * thread_state :=
  if negb malloc_ok then (-1, out, t) else if negb create_ok then (-1, out, t) else (0, true, Sleeping).
Definition ipc_platform_init : Z := 0.

(** ** State *)

Record global := mk_global {
  g_initialized : bool;
  g_ssn_client_timer_exit : bool;
  g_ssn_server_timer_exit : bool;
  g_ssn_client_lock : bool;
  g_ssn_server_lock : bool;
  g_ssn_client_timer : bool;
  g_ssn_server_timer : bool;
  client_thread : thread_state;
  server_thread : thread_state;
  g_ssn_client_list : list ssn_client;
  g_ssn_server_list : list ssn_server;
  g_fault : bool;
}.
Definition global_start : global := mk_global false false false false false false false Absent Absent [] [] false.

Definition g_set_init g b := mk_global b (g_ssn_client_timer_exit g) (g_ssn_server_timer_exit g) (g_ssn_client_lock g)
  (g_ssn_server_lock g) (g_ssn_client_timer g) (g_ssn_server_timer g) (client_thread g) (server_thread g)
  (g_ssn_client_list g) (g_ssn_server_list g) (g_fault g).
Definition g_set_exits g c s := mk_global (g_initialized g) c s (g_ssn_client_lock g)
  (g_ssn_server_lock g) (g_ssn_client_timer g) (g_ssn_server_timer g) (client_thread g) (server_thread g)
  (g_ssn_client_list g) (g_ssn_server_list g) (g_fault g).
Definition g_set_locks g c s := mk_global (g_initialized g) (g_ssn_client_timer_exit g) (g_ssn_server_timer_exit g) c s
  (g_ssn_client_timer g) (g_ssn_server_timer g) (client_thread g) (server_thread g)
  (g_ssn_client_list g) (g_ssn_server_list g) (g_fault g).
Definition g_set_client_timer g p t := mk_global (g_initialized g) (g_ssn_client_timer_exit g) (g_ssn_server_timer_exit g)
  (g_ssn_client_lock g) (g_ssn_server_lock g) p (g_ssn_server_timer g) t (server_thread g)
  (g_ssn_client_list g) (g_ssn_server_list g) (g_fault g).
Definition g_set_server_timer g p t := mk_global (g_initialized g) (g_ssn_client_timer_exit g) (g_ssn_server_timer_exit g)
  (g_ssn_client_lock g) (g_ssn_server_lock g) (g_ssn_client_timer g) p (client_thread g) t
  (g_ssn_client_list g) (g_ssn_server_list g) (g_fault g).
Definition g_set_lists g c s f := mk_global (g_initialized g) (g_ssn_client_timer_exit g) (g_ssn_server_timer_exit g)
  (g_ssn_client_lock g) (g_ssn_server_lock g) (g_ssn_client_timer g) (g_ssn_server_timer g) (client_thread g)
  (server_thread g) c s f.

(** ** Initialisation and cleanup *)

(** Which of the calls succeed. *)
Record init_oracle := mk_oracle {
  o_client_lock : bool * bool;
  o_client_timer : bool * bool;
  o_server_lock : bool * bool;
  o_server_timer : bool * bool;
}.

(** A call returns, or waits for a thread to end. *)
Inductive waiting := Returns (result : Z) | JoinsRollback | JoinsClient | JoinsServer.

(** The labels [fail_client_timer] and [fail]. *)
Definition init_fail (g : global) : waiting * global := (Returns (-1), g_set_init g false).
Definition init_fail_client_timer (g : global) : waiting * global :=
  init_fail (g_set_locks g false (g_ssn_server_lock g)).

Definition ssn_global_init (o : init_oracle) (g : global) : waiting * global :=
  if g_initialized g then (Returns 0, g)
  else
    let g := g_set_exits (g_set_init g true) false false in
    if negb (ipc_platform_init =? 0) then (Returns (-1), g_set_init g false)
    else
      let '(r, lock) := ipc_mutex_init (o_client_lock o).1 (o_client_lock o).2 (g_ssn_client_lock g) in
      let g := g_set_locks g lock (g_ssn_server_lock g) in
      if negb (r =? 0) then init_fail g
      else
        let '(r, timer, t) := ipc_thread_create (o_client_timer o).1 (o_client_timer o).2 (g_ssn_client_timer g)
                                (client_thread g) in
        let g := g_set_client_timer g timer t in
        if negb (r =? 0) then init_fail_client_timer g
        else
          let '(r, lock) := ipc_mutex_init (o_server_lock o).1 (o_server_lock o).2 (g_ssn_server_lock g) in
          let g := g_set_locks g (g_ssn_client_lock g) lock in
          if negb (r =? 0) then (JoinsRollback, g)
          else
            let '(r, timer, t) := ipc_thread_create (o_server_timer o).1 (o_server_timer o).2 (g_ssn_server_timer g)
                                    (server_thread g) in
            let g := g_set_server_timer g timer t in
            if negb (r =? 0) then (JoinsRollback, g_set_locks g (g_ssn_client_lock g) false)
            else (Returns 0, g).

(** After the join of the rollback. *)
Definition init_rollback (g : global) : waiting * global :=
  init_fail_client_timer (g_set_client_timer g false Absent).

Definition cleanup_locks (g : global) : waiting * global := (Returns 0, g_set_locks g false false).
Definition cleanup_server (g : global) : waiting * global :=
  let g := g_set_exits g (g_ssn_client_timer_exit g) true in
  if g_ssn_server_timer g then (JoinsServer, g) else cleanup_locks g.
Definition ssn_global_cleanup (g : global) : waiting * global :=
  if negb (g_initialized g) then (Returns 0, g)
  else
    let g := g_set_exits (g_set_init g false) true (g_ssn_server_timer_exit g) in
    if g_ssn_client_timer g then (JoinsClient, g) else cleanup_server g.

(** [ipc_thread_join] returns once the thread has ended, and releases it. *)
Definition join_returns (k : waiting) (g : global) : option (waiting * global) :=
  match k with
  | Returns _ => None
  | JoinsRollback => if decide (client_thread g = Ended) then Some (init_rollback g) else None
  | JoinsClient =>
      if decide (client_thread g = Ended) then Some (cleanup_server (g_set_client_timer g false Absent)) else None
  | JoinsServer =>
      if decide (server_thread g = Ended) then Some (cleanup_locks (g_set_server_timer g false Absent)) else None
  end.

(** ** Timer threads *)

Definition client_timer_pass (l : list ssn_client) : list ssn_client := map ssn_client_timer_tick l.
(** Servers without timer nodes are skipped. *)
Fixpoint server_timer_pass (l : list ssn_server) : option (list ssn_server) :=
  match l with
  | [] => Some []
  | s :: l =>
    match (match hst_h s with [] => Some s | _ => ssn_server_timer_tick s end), server_timer_pass l with
    | Some s, Some l => Some (s :: l)
    | _, _ => None
    end
  end.

Definition ssn_client_timer_handle (g : global) : option global :=
  match client_thread g with
  | Sleeping => Some (g_set_client_timer g (g_ssn_client_timer g) Checking)
  | Checking => Some (g_set_client_timer g (g_ssn_client_timer g) (if g_ssn_client_timer_exit g then Ended else Passing))
  | Passing =>
      Some (g_set_client_timer
        (if g_ssn_client_lock g
         then g_set_lists g (client_timer_pass (g_ssn_client_list g)) (g_ssn_server_list g) (g_fault g)
         else g_set_lists g (g_ssn_client_list g) (g_ssn_server_list g) true) (g_ssn_client_timer g) Sleeping)
  | Absent | Ended => None
  end.
Definition ssn_server_timer_handle (g : global) : option global :=
  match server_thread g with
  | Sleeping => Some (g_set_server_timer g (g_ssn_server_timer g) Checking)
  | Checking => Some (g_set_server_timer g (g_ssn_server_timer g) (if g_ssn_server_timer_exit g then Ended else Passing))
  | Passing =>
      Some (g_set_server_timer
        (match (if g_ssn_server_lock g then server_timer_pass (g_ssn_server_list g) else None) with
         | Some l => g_set_lists g (g_ssn_client_list g) l (g_fault g)
         | None => g_set_lists g (g_ssn_client_list g) (g_ssn_server_list g) true
         end) (g_ssn_server_timer g) Sleeping)
  | Absent | Ended => None
  end.

(** ** The application *)

(** Entering an object in its list and taking it out, under the lock of the list: the
    parts of [ssn_client_create], [ssn_client_close], [ssn_server_create] and
    [ssn_server_destroy] that touch what is global.  Locking NULL is undefined. *)
Definition register_client (c : ssn_client) (g : global) : option global :=
  if g_ssn_client_lock g then Some (g_set_lists g (c :: g_ssn_client_list g) (g_ssn_server_list g) (g_fault g)) else None.
Definition unregister_client (i : nat) (g : global) : option global :=
  if g_ssn_client_lock g then Some (g_set_lists g (delete i (g_ssn_client_list g)) (g_ssn_server_list g) (g_fault g)) else None.
Definition register_server (s : ssn_server) (g : global) : option global :=
  if g_ssn_server_lock g then Some (g_set_lists g (g_ssn_client_list g) (s :: g_ssn_server_list g) (g_fault g)) else None.
Definition unregister_server (i : nat) (g : global) : option global :=
  if g_ssn_server_lock g then Some (g_set_lists g (g_ssn_client_list g) (delete i (g_ssn_server_list g)) (g_fault g)) else None.

Inductive list_call :=
  | CreateClient (e : ipc_event_pair) | CloseClient (i : nat)
  | CreateServer (name : bytes) (opts : option server_options_t) (e : ipc_event_pair) | DestroyServer (i : nat).
Definition run_list_call (a : list_call) (g : global) : option global :=
  match a with
  | CreateClient e => register_client (new_client e) g
  | CloseClient i => unregister_client i g
  | CreateServer name opts e => register_server (new_server name opts e) g
  | DestroyServer i => unregister_server i g
  end.
Definition list_call_ok (a : list_call) : Prop := match a with CreateServer _ opts _ => options_ok opts | _ => True end.

(** The callbacks of the application, which pass valid memory to the functions they
    call, and the kernel under it all. *)
Record callbacks (W : Type) `{OsLaws W} := mk_callbacks {
  cb_client : client_event -> ssn_client -> W -> list client_call;
  cb_server : server_event -> ssn_server -> W -> list api_call;
  cb_depth : nat;
  cb_factory : factory;
  cb_client_ok : forall e c w, Forall ccall_ok (cb_client e c w);
  cb_server_ok : forall e s w, calls_ok (cb_server e s w) s w;
}.
Arguments mk_callbacks {W _ _}. Arguments cb_client {W _ _}. Arguments cb_server {W _ _}. Arguments cb_depth {W _ _}.
Arguments cb_factory {W _ _}. Arguments cb_client_ok {W _ _}. Arguments cb_server_ok {W _ _}.

(** ** Interleavings *)

Section interleavings.
Context {W : Type} `{OsLaws W} (cb : callbacks W).

(** What its own operations make of a client or server that is not released. *)
Definition in_use_client (c : ssn_client) : Prop :=
  cl_freed c = false /\ exists w, client_reach (cb_client cb) (cb_depth cb) (cb_factory cb) c w.
Definition in_use_server (s : ssn_server) : Prop :=
  srv_freed s = false /\ exists w, server_reach (cb_server cb) (cb_factory cb) s w.

(** The main thread calls and waits; the timer threads run; the application enters
    clients and servers, takes them out and, in between, does with them what their
    operations can do. *)
Inductive gstep : waiting * global -> waiting * global -> Prop :=
  | gs_init o r g : gstep (Returns r, g) (ssn_global_init o g)
  | gs_cleanup r g : gstep (Returns r, g) (ssn_global_cleanup g)
  | gs_join k g k' g' : join_returns k g = Some (k', g') -> gstep (k, g) (k', g')
  | gs_client_timer k g g' : ssn_client_timer_handle g = Some g' -> gstep (k, g) (k, g')
  | gs_server_timer k g g' : ssn_server_timer_handle g = Some g' -> gstep (k, g) (k, g')
  | gs_list k g a (w : W) g' : list_call_ok a -> run_list_call a g = Some g' -> gstep (k, g) (k, g')
  | gs_use_client k g i c : in_use_client c ->
      gstep (k, g) (k, g_set_lists g (<[i := c]> (g_ssn_client_list g)) (g_ssn_server_list g) (g_fault g))
  | gs_use_server k g i s : in_use_server s ->
      gstep (k, g) (k, g_set_lists g (g_ssn_client_list g) (<[i := s]> (g_ssn_server_list g)) (g_fault g)).
Definition greach (s : waiting * global) : Prop := rtc gstep (Returns 0, global_start) s.

(** ** Invariant *)

(** Pointers, locks and threads by where the main thread is. *)
Definition running (t : thread_state) (exit : bool) : Prop :=
  match t with Absent => False | Ended => exit = true | _ => True end.
Definition client_side (k : waiting) (g : global) : Prop :=
  match k with
  | Returns _ =>
      if g_initialized g
      then g_ssn_client_lock g = true /\ g_ssn_client_timer g = true /\ g_ssn_client_timer_exit g = false /\
           running (client_thread g) false
      else g_ssn_client_lock g = false /\ g_ssn_client_timer g = false /\ client_thread g = Absent
  | JoinsRollback => g_initialized g = true /\ g_ssn_client_lock g = true /\ g_ssn_client_timer_exit g = false /\
      running (client_thread g) false
  | JoinsClient => g_initialized g = false /\ g_ssn_client_lock g = true /\ g_ssn_client_timer_exit g = true /\
      running (client_thread g) true
  | JoinsServer => g_initialized g = false /\ g_ssn_client_lock g = true /\ g_ssn_client_timer g = false /\
      client_thread g = Absent
  end.
Definition server_side (k : waiting) (g : global) : Prop :=
  match k with
  | Returns _ =>
      if g_initialized g
      then g_ssn_server_lock g = true /\ g_ssn_server_timer g = true /\ g_ssn_server_timer_exit g = false /\
           running (server_thread g) false
      else g_ssn_server_lock g = false /\ g_ssn_server_timer g = false /\ server_thread g = Absent
  | JoinsRollback => g_ssn_server_lock g = false /\ g_ssn_server_timer g = false /\ server_thread g = Absent
  | JoinsClient => g_ssn_server_lock g = true /\ g_ssn_server_timer g = true /\ g_ssn_server_timer_exit g = false /\
      running (server_thread g) false
  | JoinsServer => g_ssn_server_lock g = true /\ g_ssn_server_timer g = true /\ g_ssn_server_timer_exit g = true /\
      running (server_thread g) true
  end.
Record global_inv (s : waiting * global) : Prop := {
  gi_client : client_side s.1 s.2;
  gi_server : server_side s.1 s.2;
  gi_fault : g_fault s.2 = false;
  gi_lists : Forall in_use_client (g_ssn_client_list s.2) /\ Forall in_use_server (g_ssn_server_list s.2);
}.

Lemma client_use_inv c : in_use_client c -> client_inv 0 c.
Proof. intros (Hl & w & Hr). destruct (client_reach_inv _ (cb_client_ok cb) _ _ _ _ Hr) as [?|[? _]]; [done|congruence]. Qed.
Lemma server_use_inv s : in_use_server s -> server_inv 0 s.
Proof. intros (Hl & w & Hr). destruct (reach_inv _ _ (cb_server_ok cb) _ _ Hr) as [?|[? _]]; [done|congruence]. Qed.

Lemma client_pass_inv l : Forall in_use_client l -> Forall in_use_client (client_timer_pass l).
Proof.
  intros Hl. apply Forall_map. eapply Forall_impl; [exact Hl|]. intros c (Hf & w & Hr). split.
  - unfold ssn_client_timer_tick. by repeat case_match.
  - exists w. by apply creach_tick.
Qed.
Lemma server_pass_inv l :
  Forall in_use_server l -> exists l', server_timer_pass l = Some l' /\ Forall in_use_server l' /\ length l' = length l.
Proof.
  induction 1 as [|s l Hs _ (l' & E & Hl' & Hlen)]; [by exists []|]. cbn [server_timer_pass]. rewrite E.
  assert (exists s', (match hst_h s with [] => Some s | _ => ssn_server_timer_tick s end) = Some s' /\ in_use_server s')
    as (s' & -> & Hs').
  { destruct (hst_h s); [by exists s|]. pose proof Hs as (Hf & w & Hr).
    destruct (tick_good 0 s (server_use_inv s Hs)) as (s' & E' & Hi' & _). exists s'. split; [done|].
    split; [apply (inv_live 0 s' Hi')|]. exists w. by eapply reach_tick. }
  exists (s' :: l'). split; [done|]. split; [by constructor|]. cbn. by rewrite Hlen.
Qed.

Lemma init_inv o r g : global_inv (Returns r, g) -> global_inv (ssn_global_init o g).
Proof.
  intros [Hc Hs Hf Hl]. cbn in *. unfold ssn_global_init. destruct (g_initialized g) eqn:Ei.
  { split; cbn; rewrite ?Ei; done. }
  destruct Hc as (Hcl & Hct & Hcth), Hs as (Hsl & Hst & Hsth). cbn [negb ipc_platform_init Z.eqb].
  destruct o as [[a1 b1] [a2 b2] [a3 b3] [a4 b4]]. unfold ipc_mutex_init, ipc_thread_create.
  destruct a1, b1; cbn [negb fst snd Z.eqb o_client_lock]; try (by split).
  destruct a2, b2; cbn [negb fst snd Z.eqb o_client_timer]; try (by split).
  destruct a3, b3; cbn [negb fst snd Z.eqb o_server_lock]; try (by split).
  destruct a4, b4; cbn [negb fst snd Z.eqb o_server_timer]; by split.
Qed.

Lemma cleanup_inv r g : global_inv (Returns r, g) -> global_inv (ssn_global_cleanup g).
Proof.
  intros [Hc Hs Hf Hl]. cbn in *. unfold ssn_global_cleanup. destruct (g_initialized g) eqn:Ei; cbn [negb].
  2:{ split; cbn; rewrite ?Ei; done. }
  destruct Hc as (? & Hct & ? & ?), Hs as (? & ? & ? & ?). cbn [g_ssn_client_timer g_set_exits g_set_init].
  rewrite Hct. split; cbn; try done. split_and!; try done. by destruct (client_thread g).
Qed.

Lemma join_inv k g k' g' : global_inv (k, g) -> join_returns k g = Some (k', g') -> global_inv (k', g').
Proof.
  intros [Hc Hs Hf Hl] E. destruct k; cbn in *; [done|..]; destruct (decide _) as [Et|]; try done;
    apply (inj Some) in E.
  - destruct Hc as (_ & _ & _ & Hc). rewrite Et in Hc. done.
  - destruct Hs as (? & Hst & ? & ?), Hc as (? & ? & ? & ?). unfold cleanup_server in E. cbn in E. rewrite Hst in E.
    injection E as <- <-. split; cbn; try done. split_and!; try done. by destruct (server_thread g).
  - destruct Hs as (? & Hst & ? & ?), Hc as (Hi & ? & ? & ?). injection E as <- <-. split; cbn; rewrite ?Hi; done.
Qed.

(** A timer thread changes its own state and the lists; it holds its side. *)
Lemma client_side_next k g g' :
  client_side k g -> client_thread g <> Absent -> (running (client_thread g) (g_ssn_client_timer_exit g) ->
  running (client_thread g') (g_ssn_client_timer_exit g)) ->
  g_initialized g' = g_initialized g -> g_ssn_client_lock g' = g_ssn_client_lock g ->
  g_ssn_client_timer g' = g_ssn_client_timer g -> g_ssn_client_timer_exit g' = g_ssn_client_timer_exit g ->
  client_side k g'.
Proof.
  intros Hc Ht Hrun Ei El Et Ee. destruct k; cbn in *; rewrite ?Ei, ?El, ?Et, ?Ee.
  - destruct (g_initialized g); [|by destruct Hc as (_ & _ & ?)]. destruct Hc as (? & ? & He & ?). rewrite He in Hrun. auto.
  - destruct Hc as (? & ? & He & ?). rewrite He in Hrun. auto.
  - destruct Hc as (? & ? & He & ?). rewrite He in Hrun. auto.
  - by destruct Hc as (_ & _ & _ & ?).
Qed.
Lemma server_side_next k g g' :
  server_side k g -> server_thread g <> Absent -> (running (server_thread g) (g_ssn_server_timer_exit g) ->
  running (server_thread g') (g_ssn_server_timer_exit g)) ->
  g_initialized g' = g_initialized g -> g_ssn_server_lock g' = g_ssn_server_lock g ->
  g_ssn_server_timer g' = g_ssn_server_timer g -> g_ssn_server_timer_exit g' = g_ssn_server_timer_exit g ->
  server_side k g'.
Proof.
  intros Hc Ht Hrun Ei El Et Ee. destruct k; cbn in *; rewrite ?Ei, ?El, ?Et, ?Ee.
  - destruct (g_initialized g); [|by destruct Hc as (_ & _ & ?)]. destruct Hc as (? & ? & He & ?). rewrite He in Hrun. auto.
  - by destruct Hc as (_ & _ & ?).
  - destruct Hc as (? & ? & He & ?). rewrite He in Hrun. auto.
  - destruct Hc as (? & ? & He & ?). rewrite He in Hrun. auto.
Qed.
(** A thread that exists finds its lock. *)
Lemma client_lock_there k g : client_side k g -> client_thread g <> Absent -> g_ssn_client_lock g = true.
Proof. intros Hc Ht. destruct k; cbn in *; [destruct (g_initialized g)|..]; by destruct_and? Hc. Qed.
Lemma server_lock_there k g : server_side k g -> server_thread g <> Absent -> g_ssn_server_lock g = true.
Proof. intros Hc Ht. destruct k; cbn in *; [destruct (g_initialized g)|..]; by destruct_and? Hc. Qed.

Lemma list_call_defined k g a :
  client_side k g -> server_side k g ->
  is_Some (run_list_call a g) <->
    match k, a with
    | Returns _, _ => g_initialized g = true
    | JoinsRollback, CreateServer _ _ _ | JoinsRollback, DestroyServer _ => False
    | _, _ => True
    end.
Proof.
  intros Hc Hs. assert (forall b (x : global), is_Some (if b : bool then Some x else None) <-> b = true) as Hif
    by (intros [] x; split; [done|by eexists|by intros [? ?]|done]).
  destruct a; cbn; unfold register_client, unregister_client, register_server, unregister_server; rewrite Hif;
    destruct k; cbn in Hc, Hs; try (destruct (g_initialized g)); destruct_and?; intuition congruence.
Qed.

Lemma client_timer_inv k g g' : global_inv (k, g) -> ssn_client_timer_handle g = Some g' -> global_inv (k, g').
Proof.
  intros [Hc Hs Hf [Hcl Hsl]] E. cbn [fst snd] in *.
  assert (client_thread g <> Absent) as Ht by (intros Et; unfold ssn_client_timer_handle in E; by rewrite Et in E).
  pose proof (client_lock_there k g Hc Ht) as Elock. unfold ssn_client_timer_handle in E.
  assert (Forall in_use_client (client_timer_pass (g_ssn_client_list g))) by (by apply client_pass_inv).
  destruct (client_thread g) eqn:Et; try done; rewrite ?Elock in E; apply (inj Some) in E as <-;
    (split; [|by destruct k|done|done]); (apply (client_side_next k g); [done|congruence| |done..]); cbn; try done.
  by destruct (g_ssn_client_timer_exit g).
Qed.

Lemma server_timer_inv k g g' : global_inv (k, g) -> ssn_server_timer_handle g = Some g' -> global_inv (k, g').
Proof.
  intros [Hc Hs Hf [Hcl Hsl]] E. cbn [fst snd] in *.
  assert (server_thread g <> Absent) as Ht by (intros Et; unfold ssn_server_timer_handle in E; by rewrite Et in E).
  pose proof (server_lock_there k g Hs Ht) as Elock. unfold ssn_server_timer_handle in E.
  destruct (server_pass_inv _ Hsl) as (l' & Epass & Hl' & _).
  destruct (server_thread g) eqn:Et; try done; rewrite ?Elock, ?Epass in E; apply (inj Some) in E as <-;
    (split; [by destruct k| |done|done]); (apply (server_side_next k g); [done|congruence| |done..]); cbn; try done.
  by destruct (g_ssn_server_timer_exit g).
Qed.

Lemma lists_inv k g cl sl :
  global_inv (k, g) -> Forall in_use_client cl -> Forall in_use_server sl -> global_inv (k, g_set_lists g cl sl (g_fault g)).
Proof. intros [Hc Hs Hf _] Hcl Hsl. split; [by destruct k..|done|done]. Qed.
Lemma list_call_inv k g a (w : W) g' :
  global_inv (k, g) -> list_call_ok a -> run_list_call a g = Some g' -> global_inv (k, g').
Proof.
  intros Hi Hok E. destruct (gi_lists _ Hi) as [Hcl Hsl]. cbn in Hcl, Hsl.
  destruct a as [e|i|name opts e|i]; cbn in E; unfold register_client, unregister_client, register_server, unregister_server in E;
    case_match; simplify_eq; apply lists_inv; try done; try (by apply Forall_delete).
  - constructor; [|done]. split; [done|]. exists w. apply creach_init.
  - constructor; [|done]. split; [by apply (inv_live 0), new_server_inv|]. exists w. by apply reach_init.
Qed.
Lemma gstep_inv s s' : gstep s s' -> global_inv s -> global_inv s'.
Proof.
  destruct 1 as [o r g|r g|k g k' g' E|k g g' E|k g g' E|k g a w g' Ha E|k g i c Hc|k g i s Hs]; intros Hi.
  - by eapply init_inv.
  - by eapply cleanup_inv.
  - by eapply join_inv.
  - by eapply client_timer_inv.
  - by eapply server_timer_inv.
  - by eapply list_call_inv.
  - destruct (gi_lists _ Hi). apply lists_inv; [done|by apply Forall_insert|done].
  - destruct (gi_lists _ Hi). apply lists_inv; [done|done|by apply Forall_insert].
Qed.
Lemma greach_inv s : greach s -> global_inv s.
Proof.
  intros Hr. unfold greach in Hr. remember (Returns 0, global_start) as s0 eqn:E0.
  assert (global_inv s0) as Hi by (rewrite E0; by split). clear E0.
  induction Hr as [|s1 s2 s3 H1 _ IH]; [done|]. apply IH. by eapply gstep_inv.
Qed.

(** ** Waiting *)

Definition rank (t : thread_state) : nat :=
  match t with Passing => 3 | Sleeping => 2 | Checking => 1 | Absent | Ended => 0 end.
(** Steps of the awaited threads and of the main thread until the cleanup returns. *)
Definition remaining (s : waiting * global) : nat :=
  match s.1 with
  | JoinsClient => 1 + rank (client_thread s.2) + 4
  | JoinsServer => 1 + rank (server_thread s.2)
  | _ => 0
  end.

Lemma cleanup_less k g k' g' :
  global_inv (k, g) -> join_returns k g = Some (k', g') -> k <> JoinsRollback -> (remaining (k', g') < remaining (k, g))%nat.
Proof.
  intros [Hc Hs _ _] E Hk. destruct k; cbn in *; [done|done|..]; destruct (decide _) as [Et|]; try done;
    apply (inj Some) in E.
  - destruct Hs as (_ & Hst & _). unfold cleanup_server in E. cbn in E. rewrite Hst in E. injection E as <- <-.
    unfold remaining. cbn. rewrite Et. destruct (server_thread g); cbn; lia.
  - injection E as <- <-. unfold remaining. cbn. lia.
Qed.

(** No step takes the cleanup back, and one of them brings it forward. *)
Lemma cleanup_step_le k g s' :
  global_inv (k, g) -> k = JoinsClient \/ k = JoinsServer -> gstep (k, g) s' ->
  (remaining s' <= remaining (k, g))%nat.
Proof.
  intros Hi Hk Hst. inversion Hst as [| |k0 g0 k' g' E|k0 g0 g' E|k0 g0 g' E|k0 g0 a w g' _ E| |]; simplify_eq; try by destruct Hk.
  - apply Nat.lt_le_incl. eapply cleanup_less; [done..|by destruct Hk; subst].
  - destruct Hi as [Hc _ _ _]. unfold ssn_client_timer_handle in E. destruct Hk as [-> | ->]; cbn in *.
    + destruct Hc as (_ & _ & He & _). rewrite He in E.
      destruct (client_thread g) eqn:Et; try done; apply (inj Some) in E as <-; unfold remaining; cbn; rewrite ?Et; cbn; lia.
    + destruct (client_thread g); try done; apply (inj Some) in E as <-; unfold remaining; cbn; try lia;
        by destruct (g_ssn_client_lock g).
  - destruct Hi as [_ Hs _ _]. unfold ssn_server_timer_handle in E. destruct Hk as [-> | ->]; cbn in *.
    + destruct (server_thread g); try done; apply (inj Some) in E as <-; unfold remaining; cbn; try lia;
        by destruct (if g_ssn_server_lock g then _ else _).
    + destruct Hs as (_ & _ & He & _). rewrite He in E.
      destruct (server_thread g) eqn:Et; try done; apply (inj Some) in E as <-; unfold remaining; cbn; rewrite ?Et; cbn; try lia.
  - destruct a; cbn in E; unfold register_client, unregister_client, register_server, unregister_server in E; case_match; by simplify_eq.
Qed.

Lemma cleanup_step k g :
  global_inv (k, g) -> k = JoinsClient \/ k = JoinsServer ->
  exists s', gstep (k, g) s' /\ (remaining s' < remaining (k, g))%nat /\ (s'.1 = JoinsClient \/ s'.1 = JoinsServer \/ s'.1 = Returns 0 /\ g_initialized s'.2 = false).
Proof.
  intros Hi Hk. pose proof Hi as [Hc Hs _ _]. destruct Hk as [-> | ->]; cbn in Hc, Hs.
  - destruct Hc as (Hini & Hlock & He & Hrun).
    assert (forall g', ssn_client_timer_handle g = Some g' -> (rank (client_thread g') < rank (client_thread g))%nat ->
      exists s', gstep (JoinsClient, g) s' /\ (remaining s' < remaining (JoinsClient, g))%nat /\
        (s'.1 = JoinsClient \/ s'.1 = JoinsServer \/ s'.1 = Returns 0 /\ g_initialized s'.2 = false)) as Hstep.
    { intros g' E Hlt. exists (JoinsClient, g'). split; [by apply gs_client_timer|]. split; [|by left].
      unfold remaining. cbn. lia. }
    unfold ssn_client_timer_handle in Hstep. destruct (client_thread g) eqn:Et; [done|..].
    + eapply Hstep; [done|]. cbn. lia.
    + eapply Hstep; [done|]. rewrite He. cbn. lia.
    + eapply Hstep; [done|]. rewrite Hlock. cbn. lia.
    + destruct (join_returns JoinsClient g) as [[k' g']|] eqn:Ej; [|cbn in Ej; by rewrite decide_True in Ej].
      exists (k', g'). split; [by apply gs_join|]. split; [by eapply cleanup_less|].
      cbn in Ej. rewrite decide_True in Ej by done. apply (inj Some) in Ej. unfold cleanup_server in Ej. cbn in Ej.
      destruct (g_ssn_server_timer g); injection Ej as <- <-; cbn; auto.
  - destruct Hs as (Hlock & Htm & He & Hrun), Hc as (Hini & _).
    assert (forall g', ssn_server_timer_handle g = Some g' -> (rank (server_thread g') < rank (server_thread g))%nat ->
      exists s', gstep (JoinsServer, g) s' /\ (remaining s' < remaining (JoinsServer, g))%nat /\
        (s'.1 = JoinsClient \/ s'.1 = JoinsServer \/ s'.1 = Returns 0 /\ g_initialized s'.2 = false)) as Hstep.
    { intros g' E Hlt. exists (JoinsServer, g'). split; [by apply gs_server_timer|]. split; [|by auto].
      unfold remaining. cbn. lia. }
    destruct (gi_lists _ Hi) as [_ Hsl]. cbn in Hsl. destruct (server_pass_inv _ Hsl) as (l' & Epass & _).
    unfold ssn_server_timer_handle in Hstep. destruct (server_thread g) eqn:Et; [done|..].
    + eapply Hstep; [done|]. cbn. lia.
    + eapply Hstep; [done|]. rewrite He. cbn. lia.
    + eapply Hstep; [done|]. rewrite Hlock, Epass. cbn. lia.
    + destruct (join_returns JoinsServer g) as [[k' g']|] eqn:Ej; [|cbn in Ej; by rewrite decide_True in Ej].
      exists (k', g'). split; [by apply gs_join|]. split; [by eapply cleanup_less|].
      cbn in Ej. rewrite decide_True in Ej by done. injection Ej as <- <-. cbn. auto.
Qed.

Lemma cleanup_reaches m : forall k g, (remaining (k, g) <= m)%nat -> global_inv (k, g) -> k = JoinsClient \/ k = JoinsServer ->
  exists j g', (j <= m)%nat /\ nsteps gstep j (k, g) (Returns 0, g') /\ g_initialized g' = false.
Proof.
  induction m as [|m IH]; intros k g Hm Hi Hk.
  { destruct Hk as [-> | ->]; unfold remaining in Hm; cbn in Hm; lia. }
  destruct (cleanup_step k g Hi Hk) as ([k' g'] & Hst & Hlt & Hk'). cbn in Hk'.
  pose proof (gstep_inv _ _ Hst Hi) as Hi'.
  assert (k' = JoinsClient \/ k' = JoinsServer -> exists j g2, (j <= S m)%nat /\
    nsteps gstep j (k, g) (Returns 0, g2) /\ g_initialized g2 = false) as Hmore.
  { intros Hk2. destruct (IH k' g' ltac:(lia) Hi' Hk2) as (j & g2 & Hj & Hn & Hini). exists (S j), g2. split; [lia|].
    split; [by econstructor|done]. }
  destruct Hk' as [E|[E|[-> Hini]]]; [by apply Hmore; left|by apply Hmore; right|].
  exists 1%nat, g'. split; [lia|]. split; [by econstructor; [|constructor]|done].
Qed.

Lemma nsteps_greach j s s' : greach s -> nsteps gstep j s s' -> greach s'.
Proof. intros Hr Hn. unfold greach in *. etrans; [exact Hr|]. apply rtc_nsteps. by exists j. Qed.

(** No step ends the wait of a rollback: nobody sets the exit flag. *)
Lemma rollback_stays s s' : global_inv s -> s.1 = JoinsRollback -> gstep s s' -> s'.1 = JoinsRollback.
Proof.
  intros Hi Hk Hst. destruct Hst as [| |k g k' g' E| | | | |]; cbn in *; subst; try done.
  destruct Hi as [(_ & _ & _ & Hrun) _ _ _]. cbn in *. destruct (decide _) as [Et|]; [|done]. by rewrite Et in Hrun.
Qed.

End interleavings.

(** ** Claims *)


(** C33.  A cleanup returns: from any point of its waiting, no step of any thread
    or of the application increases the number of steps that remain, at most 8,
    and there always is a run that returns within this number, after which the
    library holds nothing. *)
Theorem cleanup_terminates {W} `{OsLaws W} (cb : callbacks W) (k : waiting) (g : global) :
  greach cb (k, g) -> k = JoinsClient \/ k = JoinsServer ->
  (remaining (k, g) <= 8)%nat /\
  (forall s', gstep cb (k, g) s' -> (remaining s' <= remaining (k, g))%nat) /\
  (exists s', gstep cb (k, g) s' /\ (remaining s' < remaining (k, g))%nat) /\
  exists j g', (j <= remaining (k, g))%nat /\ nsteps (gstep cb) j (k, g) (Returns 0, g') /\
    g_initialized g' = false /\ g_ssn_client_lock g' = false /\ g_ssn_server_lock g' = false /\
    client_thread g' = Absent /\ server_thread g' = Absent.
Proof.
  intros Hr Hk. pose proof (greach_inv cb _ Hr) as Hi. split.
  { destruct Hk as [-> | ->]; unfold remaining; cbn; [destruct (client_thread g)|destruct (server_thread g)]; cbn; lia. }
  split; [intros s' Hst; by eapply cleanup_step_le|]. split.
  { destruct (cleanup_step cb k g Hi Hk) as (s' & ? & ? & _). by exists s'. }
  destruct (cleanup_reaches cb (remaining (k, g)) k g (le_n _) Hi Hk) as (j & g' & Hj & Hn & Hini).
  exists j, g'. split; [done|]. split; [done|].
  destruct (greach_inv cb _ (nsteps_greach cb j _ _ Hr Hn)) as [Hc Hs _ _]. cbn in Hc, Hs. rewrite Hini in *.
  by destruct Hc as (? & _ & ?), Hs as (? & _ & ?).
Qed.

(** When the server's lock or thread cannot be made, the rollback of
    [ssn_global_init] waits for the client timer thread without having set its exit
    flag: whatever happens from there, the call never returns. *)
Theorem init_rollback_never_returns {W} `{OsLaws W} (cb : callbacks W) (o : init_oracle) (r : Z) (g : global) :
  greach cb (Returns r, g) -> g_initialized g = false ->
  (o_client_lock o).1 && (o_client_lock o).2 && (o_client_timer o).1 && (o_client_timer o).2 = true ->
  (o_server_lock o).1 && (o_server_lock o).2 && (o_server_timer o).1 && (o_server_timer o).2 = false ->
  (ssn_global_init o g).1 = JoinsRollback /\
  forall s, rtc (gstep cb) (ssn_global_init o g) s -> s.1 = JoinsRollback.
Proof.
  intros Hr Hini Hok Hbad.
  assert ((ssn_global_init o g).1 = JoinsRollback) as Hk.
  { unfold ssn_global_init. rewrite Hini. unfold ipc_mutex_init, ipc_thread_create.
    destruct o as [[a1 b1] [a2 b2] [a3 b3] [a4 b4]]. cbn in Hok, Hbad |- *.
    by destruct a1, b1, a2, b2, a3, b3, a4, b4. }
  split; [done|]. intros s Hs. assert (global_inv cb (ssn_global_init o g)) as Hi by (eapply init_inv; by apply greach_inv).
  induction Hs as [|s1 s2 s3 H1 _ IH]; [done|]. apply IH; [by eapply rollback_stays|by eapply gstep_inv].
Qed.

(** ** Witnesses *)

Definition all_ok : init_oracle := mk_oracle (true, true) (true, true) (true, true) (true, true).
Definition no_server_thread : init_oracle := mk_oracle (true, true) (true, true) (true, true) (true, false).
Definition demo_global : global := (ssn_global_init all_ok global_start).2.
Definition demo_cleaning : global := (ssn_global_cleanup demo_global).2.

Definition demo_callbacks : callbacks sim_world :=
  mk_callbacks silent_user (fun _ _ _ => []) 0 demo_factory silent_ok (fun _ _ _ => I).
Local Abbreviation cb := demo_callbacks.
Lemma demo_global_reach : greach cb (Returns 0, demo_global).
Proof. apply rtc_once. exact (gs_init cb all_ok 0 global_start). Qed.
Lemma demo_cleaning_reach : greach cb (JoinsClient, demo_cleaning).
Proof. eapply rtc_r; [exact demo_global_reach|]. exact (gs_cleanup cb 0 demo_global). Qed.

Lemma cleanup_terminates_witness :
  exists j g', (j <= 8)%nat /\ nsteps (gstep cb) j (JoinsClient, demo_cleaning) (Returns 0, g') /\ g_ssn_client_lock g' = false.
Proof.
  destruct (cleanup_terminates cb JoinsClient demo_cleaning demo_cleaning_reach (or_introl eq_refl))
    as (Hm & _ & _ & j & g' & Hj & Hn & _ & Hl & _).
  exists j, g'. split; [exact (Nat.le_trans _ _ _ Hj Hm)|]. split; [exact Hn|exact Hl].
Defined.
Lemma init_rollback_never_returns_witness :
  (ssn_global_init no_server_thread global_start).1 = JoinsRollback /\
  forall s, rtc (gstep cb) (ssn_global_init no_server_thread global_start) s -> s.1 = JoinsRollback.
Proof.
  apply (init_rollback_never_returns cb no_server_thread 0 global_start); [constructor|reflexivity..].
Defined.
