(* ===== verification/EndToEnd.v ===== *)
(** * Calls from client to server and back

    The client, the server and the framing composed: the bytes an accepted call
    puts on the client's connection, what a server makes of them when they have
    arrived, and what the client makes of the answer.  Between the two ends the
    bytes may be cut in any way: the theorems speak of the receive that completes
    a packet whose first part may have arrived before. *)
From S2P Require Import Prelude FrameCodec ErrorCode Os Transport Address FrameSend EventPair Server ServerTable ServerProps ServerTheorems ServerPubSub ClientPending Client ClientProps ClientTheorems ClientClaims.

(** ** The receive that completes a packet *)

Section one_packet.
Context {St : Type} (callback : bytes -> St -> bool * St).

Lemma deframe_wire p st st' :
  packet_ok p -> callback (wire p) st = (true, st') -> deframe callback (wire p) st = DfMore [] st'.
Proof.
  intros Hp E. pose proof (zlen_wire p Hp) as Hlen.
  rewrite <- (app_nil_r (wire p)) at 1. rewrite deframe_unfold, validate_wire, app_nil_r
    by (rewrite ?zlen_app; cbn; done || lia).
  destruct (Z.ltb_spec (zlen (wire p)) SSN_HEADER_SIZE); [lia|]. rewrite Z.ltb_irrefl, ztake_ge by lia.
  rewrite E. rewrite zdrop_ge by lia. by rewrite deframe_stuck by apply stuck_nil.
Qed.

Lemma feed_wire recv buf p st st' :
  stream_inv recv -> packet_ok p -> pending recv ++ buf = wire p -> callback (wire p) st = (true, st') ->
  exists recv', ssn_stream_feed callback recv buf st = Some (true, recv', st') /\
    stream_inv recv' /\ pending recv' = [].
Proof.
  intros Hr Hp Hb E. destruct (stream_feed_spec callback recv buf st Hr) as ([[ok recv'] st1] & -> & Hr' & Hm).
  rewrite Hb, (deframe_wire p st st' Hp E) in Hm. destruct Hm as (-> & -> & ?). by exists recv'.
Qed.
End one_packet.

(** What the accessors give for the parts of a packet. *)
Definition url_part (u : bytes) : ssn_url_ref_t := mk_url_ref (if zlen u =? 0 then None else Some u) (zlen u).
Definition data_part (d : bytes) : ssn_data_ref_t := mk_data_ref (if zlen d =? 0 then None else Some d) (zlen d).

(** ** The server answers *)

Section serve.
Context {W : Type} `{OsLaws W}.
Context (user : server_event -> ssn_server -> W -> list api_call).
Implicit Types (s : ssn_server) (w : W) (c : ssn_server_cli_t).

Lemma sendmsg_valid s id hdr url data w b h s' w' :
  ssn_server_cli_sendmsg s id hdr url data w = Some (b, h, s', w') -> srv_valid s' = srv_valid s.
Proof.
  unfold ssn_server_cli_sendmsg. destruct (ssn_server_cli_find s id); [|done].
  destruct (ssn_send_message _ _ _ _ _) as [[[[[] h1] t] w1]|]; [by intros; simplify_eq| |done].
  destruct (ssn_transport_disconnect t w1) as [[? ?] ?]. by intros; simplify_eq.
Qed.

(** A response goes to the connection as one frame, whole or cut off. *)
Lemma response_frame k s id c status seqno data w :
  server_inv k s -> srv_valid s = true -> ssn_server_cli_find s id = Some c ->
  refs_ok None data -> ~ refused None data ->
  exists b s' w', ssn_server_response s id status seqno data w = Some (b, s', w') /\
    server_inv k s' /\ srv_valid s' = true /\
    sent_to (frame SSN_MSG_TYPE_RPC_REQUEST status seqno [] (data_bytes data)) id c w s' w'.
Proof.
  intros Hi Hv Hf Hr Hn. unfold ssn_server_response. rewrite Hv, Hf. cbn [negb].
  destruct (sendmsg_spec k s id c (ssn_create_header SSN_MSG_TYPE_RPC_REQUEST status seqno) None data w Hi Hf Hr Hn)
    as (b & s' & w' & E & Hi' & _ & _ & Hs). rewrite E. pose proof (sendmsg_valid _ _ _ _ _ _ _ _ _ _ E) as Hv'.
  eexists _, _, _. split; [done|]. split; [done|]. split; [congruence|].
  destruct (data_rejected data) eqn:Hd; [by destruct Hn; apply rejected_refused; auto|].
  destruct (data_accepted None data Hr Hd). by rewrite send_buffer_frame in Hs.
Qed.

Lemma mark_active_spec k s id c :
  server_inv k s -> ssn_server_cli_find s id = Some c ->
  server_inv k (mark_active s c) /\ srv_valid (mark_active s c) = srv_valid s /\
  (forall u, ssn_server_cmd_match (mark_active s c) u = ssn_server_cmd_match s u) /\
  exists c', ssn_server_cli_find (mark_active s c) id = Some c' /\ cli_transport c' = cli_transport c.
Proof.
  intros Hi Hf. unfold mark_active.
  match goal with |- context [cli_put s ?x] => set (c' := x) end. destruct (put_plain k s id c c') as (? & _ & ?); try done; try (subst c'; by destruct (_ && _)).
  split; [done|]. split; [done|]. split; [done|]. exists c'. split; [done|]. subst c'. by destruct (_ && _).
Qed.

(** A response that is refused closes the connection: nothing is sent. *)
Definition dropped (id : Z) c w s' w' : Prop :=
  (forall x, os_tx w' x = os_tx w x) /\ exists c', ssn_server_cli_find s' id = Some c' /\ fd_of c' < 0.
Lemma response_dropped k s id c status seqno data w :
  server_inv k s -> srv_valid s = true -> ssn_server_cli_find s id = Some c ->
  refs_ok None data -> refused None data ->
  exists s' w', ssn_server_response s id status seqno data w = Some (false, s', w') /\
    server_inv k s' /\ srv_valid s' = true /\ dropped id c w s' w'.
Proof.
  intros Hi Hv Hf Hr Hn. unfold ssn_server_response, ssn_server_cli_sendmsg. rewrite Hv, Hf. cbn [negb].
  destruct (find_facts k s id c Hi Hf) as (_ & _ & Hcfg).
  destruct (send_frame_spec (cli_transport c) SSN_MSG_TYPE_RPC_REQUEST status seqno None data w Hr (send_timeout_range _ Hcfg))
    as (ok & h & t & w1 & -> & [(_ & -> & -> & ->)|[Hno _]]); [|done].
  pose proof (disconnect_config (cli_transport c) w) as Hd. pose proof (disconnect_spec (cli_transport c) w) as Hds.
  destruct (ssn_transport_disconnect (cli_transport c) w) as [[b t2] w2]. cbn in Hd. destruct Hds as (_ & Hneg & _ & Htx).
  destruct (put_transport_inv k s id c t2 Hi Hf Hd) as (Hi' & _ & Hf').
  eexists _, _. split; [done|]. split; [done|]. split; [done|]. split; [done|]. by eexists.
Qed.

(** The handler registered for the request runs in the world of the receive. *)
Definition replies_with (p : packet) (id : Z) cmd (status : Z) (data : option ssn_data_ref_t) w : Prop :=
  forall s, user (EvRpc (cmd_onrpc cmd) (cmd_arg cmd) id (header_of_bytes (wire p)) (url_part (p_url p))
                   (data_part (p_data p))) s w = [CallResponse id status (p_seqno p) data].
Lemma input_response k s id c p cmd status data w :
  server_inv k s -> ssn_server_cli_find s id = Some c ->
  packet_ok p -> p_type p = SSN_MSG_TYPE_RPC_REQUEST -> p_url p !! 0%nat = Some SLASH ->
  ssn_server_cmd_match s (p_url p) = Some cmd -> replies_with p id cmd status data w ->
  ssn_server_input user id (wire p) s w
  = match ssn_server_response (mark_active s c) id status (p_seqno p) data w with
    | Some (_, s, w) => Some (srv_valid s, s, w)
    | None => None
    end.
Proof.
  intros Hi Hf Hp Ht Hu Hm Huser. unfold ssn_server_input. rewrite Hf.
  destruct (packet_fields p Hp) as (Et & _ & Es & -> & ->). unfold ssn_get_msg_type in Et. cbv zeta.
  rewrite Et, Ht. cbn [Z.eqb SSN_MSG_TYPE_RPC_REQUEST SSN_MSG_TYPE_MESSAGE SSN_MSG_TYPE_SERVICE_INFO Pos.eqb].
  destruct (mark_active_spec k s id c Hi Hf) as (Hi1 & _ & Hm1 & _).
  unfold ssn_server_handle_rpc_request. fold (url_part (p_url p)) (data_part (p_data p)).
  assert (packet_url (url_part (p_url p)) = Some (p_url p)) as ->.
  { unfold packet_url, url_part. cbn [FrameCodec.url url_len]. destruct (p_url p) as [|x u]; [done|]. cbn in Hu. simplify_eq.
    rewrite (proj2 (Z.eqb_neq _ _)) by (unfold zlen; cbn; lia). done. }
  rewrite Hm1, Hm. unfold notify. rewrite Huser. cbn [run_calls]. unfold run_call. rewrite (inv_live k _ Hi1).
  by destruct (ssn_server_response _ _ _ _ _ _) as [[[? ?] ?]|].
Qed.

(** What comes of the response. *)
Definition answered (status seqno : Z) (data : option ssn_data_ref_t) (id : Z) c w s' w' : Prop :=
  (~ refused None data -> sent_to (frame SSN_MSG_TYPE_RPC_REQUEST status seqno [] (data_bytes data)) id c w s' w') /\
  (refused None data -> dropped id c w s' w').

(** The handler registered for the request answers it. *)
Lemma input_answers k s id c p cmd status data w :
  server_inv k s -> srv_valid s = true -> ssn_server_cli_find s id = Some c ->
  packet_ok p -> p_type p = SSN_MSG_TYPE_RPC_REQUEST -> p_url p !! 0%nat = Some SLASH ->
  ssn_server_cmd_match s (p_url p) = Some cmd -> replies_with p id cmd status data w ->
  refs_ok None data ->
  exists s' w', ssn_server_input user id (wire p) s w = Some (true, s', w') /\ server_inv k s' /\
    is_Some (ssn_server_cli_find s' id) /\ answered status (p_seqno p) data id c w s' w'.
Proof.
  intros Hi Hv Hf Hp Ht Hu Hm Huser Hr. rewrite (input_response k s id c p cmd status data w) by done.
  destruct (mark_active_spec k s id c Hi Hf) as (Hi1 & Hv1 & _ & c1 & Hf1 & Ht1).
  destruct (decide (refused None data)) as [Hn|Hn].
  - destruct (response_dropped k (mark_active s c) id c1 status (p_seqno p) data w) as (s' & w' & -> & Hi' & Hv' & Htx & c' & Hf' & Hneg);
      [done|congruence|done..|]. rewrite Hv'. eexists _, _. split; [done|]. split; [done|]. split; [by eexists|].
    split; [done|]. intros _. split; [done|by eexists].
  - destruct (response_frame k (mark_active s c) id c1 status (p_seqno p) data w) as (b & s' & w' & -> & Hi' & Hv' & Hs);
      [done|congruence|done..|]. rewrite Hv'. eexists _, _. split; [done|]. split; [done|].
    split; [destruct Hs as (? & ? & _ & _ & ? & _); by eexists|].
    split; [|done]. intros _. unfold sent_to, fd_of in *. by rewrite Ht1 in Hs.
Qed.

(** The connection [id] is ready and the coming receive completes the packet. *)
Definition server_gets s (id : Z) c (pkt : bytes) (rfds : list Z) w : Prop :=
  ssn_server_cli_find s id = Some c /\ 0 <= ssn_transport_get_fd (cli_transport c) /\
  ssn_transport_get_fd (cli_transport c) ∈ rfds /\
  exists b t w1, ssn_transport_recv (cli_transport c) SSN_MAX_PACKET_SIZE 0 w = (zlen b, b, t, w1) /\
    0 < zlen b /\ pending (cli_recv c) ++ b = pkt.

(** The receive that completes a packet hands it to the handlers. *)
Lemma receive_completes k s id c p rfds w (Post : ssn_server -> W -> Prop) :
  server_inv k s -> packet_ok p -> server_gets s id c (wire p) rfds w ->
  (forall n b t w1, ssn_transport_recv (cli_transport c) SSN_MAX_PACKET_SIZE 0 w = (n, b, t, w1) ->
     sock_fd (impl t) = fd_of c -> (forall x, os_tx w1 x = os_tx w x) ->
     server_inv k (cli_put s (cli_with_transport c t)) ->
     ssn_server_cli_find (cli_put s (cli_with_transport c t)) id = Some (cli_with_transport c t) ->
     exists s2 w2, ssn_server_input user id (wire p) (cli_put s (cli_with_transport c t)) w1 = Some (true, s2, w2) /\
       server_inv k s2 /\ is_Some (ssn_server_cli_find s2 id) /\ Post s2 w2) ->
  exists s2 w2 c2 recv', Post s2 w2 /\ ssn_server_cli_find s2 id = Some c2 /\
    ssn_server_handle_client_input user s id rfds w = Some (cli_put s2 (cli_with_recv c2 recv'), w2) /\
    server_inv k (cli_put s2 (cli_with_recv c2 recv')) /\
    ssn_server_cli_find (cli_put s2 (cli_with_recv c2 recv')) id = Some (cli_with_recv c2 recv') /\ pending recv' = [].
Proof.
  intros Hi Hp (Hf & Hfd & Hin & b & t & w1 & Hrecv & Hb & Hpend) Hinput.
  unfold ssn_server_handle_client_input. rewrite Hf. rewrite bool_decide_true by done.
  destruct (Z.geb_spec (ssn_transport_get_fd (cli_transport c)) 0); [|lia]. cbn [andb]. rewrite Hrecv.
  pose proof (recv_keeps (cli_transport c) SSN_MAX_PACKET_SIZE 0 w) as Hk. rewrite Hrecv in Hk.
  destruct Hk as (Hcfg & Hfd' & _ & Htx).
  destruct (put_transport_inv k s id c t Hi Hf Hcfg) as (Hi1 & _ & Hf1). set (c1 := cli_with_transport c t) in *.
  destruct (Z.gtb_spec (zlen b) 0); [|lia]. rewrite ztake_ge by lia.
  destruct (Hinput _ _ _ _ Hrecv Hfd' ltac:(intros x; by rewrite Htx) Hi1 Hf1) as (s2 & w2 & E & Hi2 & [c2 Hf2] & HP). fold c1 in E.
  destruct (find_facts k s id c Hi Hf) as (Hid & Hri & _).
  destruct (feed_wire (input_callback user id) (cli_recv c1) b p (Some (cli_put s c1, w1)) (Some (s2, w2)))
    as (recv' & -> & Hri' & Hp'); try done. { unfold input_callback. by rewrite E. }
  rewrite Hf2. destruct (find_facts k s2 id c2 Hi2 Hf2) as (Hid2 & _ & Hcfg2).
  assert (ssn_server_cli_find s2 (cli_id (cli_with_recv c2 recv')) = Some c2) as Hf3 by (cbn; by rewrite Hid2).
  destruct (put_inv k s2 (cli_with_recv c2 recv') c2) as [Hi3 _]; try done.
  pose proof (find_put_eq k s2 (cli_with_recv c2 recv') c2 Hi2 Hf3) as Hf4. cbn [cli_id cli_with_recv] in Hf4. rewrite Hid2 in Hf4.
  by exists s2, w2, c2, recv'.
Qed.

(** The same for the receive that completes the request. *)
Lemma receive_responds k s id c p cmd status data rfds w :
  server_inv k s -> srv_valid s = true ->
  packet_ok p -> p_type p = SSN_MSG_TYPE_RPC_REQUEST -> p_url p !! 0%nat = Some SLASH ->
  ssn_server_cmd_match s (p_url p) = Some cmd ->
  replies_with p id cmd status data (ssn_transport_recv (cli_transport c) SSN_MAX_PACKET_SIZE 0 w).2 ->
  refs_ok None data -> server_gets s id c (wire p) rfds w ->
  exists s' w', ssn_server_handle_client_input user s id rfds w = Some (s', w') /\ server_inv k s' /\
    answered status (p_seqno p) data id c w s' w' /\
    exists c', ssn_server_cli_find s' id = Some c' /\ pending (cli_recv c') = [].
Proof.
  intros Hi Hv Hp Ht Hu Hm Huser Hr Hgets.
  destruct (receive_completes k s id c p rfds w (answered status (p_seqno p) data id c w))
    as (s2 & w2 & c2 & recv' & Hs2 & Hf2 & E & Hi3 & Hf3 & Hp'); [done..| |].
  { intros n b t w1 Hrecv Hfd Htx Hi1 Hf1. rewrite Hrecv in Huser. cbn [snd] in Huser.
    destruct (input_answers k (cli_put s (cli_with_transport c t)) id (cli_with_transport c t) p cmd status data w1)
      as (s2 & w2 & E & Hi2 & Hf2 & Hs2); try done.
    exists s2, w2. split; [done|]. split; [done|]. split; [done|]. destruct Hs2 as [Hs Hd].
    split; [intros Hn; specialize (Hs Hn)|intros Hn; specialize (Hd Hn)].
    - unfold sent_to, fd_of in Hs |- *. cbn [cli_transport cli_with_transport] in Hs. by rewrite Hfd, Htx in Hs.
    - destruct Hd as [Hd Hc]. split; [|done]. intros x. by rewrite Hd, Htx. }
  eexists _, _. split; [done|]. split; [done|]. split; [|by eexists].
  destruct Hs2 as [Hs Hd]. split; [intros Hn; specialize (Hs Hn)|intros Hn; specialize (Hd Hn)].
  - destruct Hs as (n & c2' & Hn2 & Htx2 & Hf2' & Hfull & Hcut). simplify_eq.
    exists n, (cli_with_recv c2' recv'). split_and!; done || lia.
  - destruct Hd as [Hd (c2' & Hf2' & Hneg)]. simplify_eq. split; [done|]. by eexists.
Qed.

Lemma receive_answers k s id c p cmd status data rfds w :
  server_inv k s -> srv_valid s = true ->
  packet_ok p -> p_type p = SSN_MSG_TYPE_RPC_REQUEST -> p_url p !! 0%nat = Some SLASH ->
  ssn_server_cmd_match s (p_url p) = Some cmd -> (forall w, replies_with p id cmd status data w) ->
  refs_ok None data -> ~ refused None data -> server_gets s id c (wire p) rfds w ->
  exists s' w', ssn_server_handle_client_input user s id rfds w = Some (s', w') /\ server_inv k s' /\
    sent_to (frame SSN_MSG_TYPE_RPC_REQUEST status (p_seqno p) [] (data_bytes data)) id c w s' w' /\
    exists c', ssn_server_cli_find s' id = Some c' /\ pending (cli_recv c') = [].
Proof.
  intros Hi Hv Hp Ht Hu Hm Huser Hr Hn Hgets.
  destruct (receive_responds k s id c p cmd status data rfds w) as (s' & w' & E & Hi' & [Hs _] & Hc); [done..|].
  exists s', w'. split_and!; auto.
Qed.
End serve.

(** ** The client asks *)

Section call.
Context {W : Type} `{OsLaws W}.
Context (fire : client_event -> ssn_client -> W -> option (ssn_client * W)).
Implicit Types (c : ssn_client) (w : W).

(** The descriptor of the client's connection. *)
Definition conn_fd c : Z := match cl_transport c with Some t => sock_fd (impl t) | None => -1 end.

Lemma client_sendmsg_frame k c ty st sq url data w c' w' :
  client_inv k c -> refs_ok url data ->
  ssn_client_sendmsg c (ssn_create_header ty st sq) url data w = Some (true, c', w') ->
  ~ refused url data /\ os_tx w' (conn_fd c) = os_tx w (conn_fd c) ++ frame ty st sq (url_bytes url) (data_bytes data) /\
  exists t, c' = cl_set_transport c (Some t) /\ conn_fd c' = conn_fd c.
Proof.
  intros Hi Hr. unfold ssn_client_sendmsg, conn_fd. destruct (ci_cfg k c Hi) as [Hcfg _].
  destruct (cl_transport c) as [t|]; [|done].
  destruct (send_frame_spec t ty st sq url data w Hr (send_timeout_range t Hcfg))
    as (ok & h & t' & w1 & -> & [(_ & -> & _)|(Hn & Hp)]).
  { by destruct (ssn_transport_disconnect _ _) as [[? ?] ?]. }
  destruct ok; [|by destruct (ssn_transport_disconnect _ _) as [[? ?] ?]]. intros ?; simplify_eq.
  pose proof (loop_post_bytes t _ w true t' w' Hp) as Htx. split; [done|]. split; [done|]. exists t'. split; [done|]. apply Hp.
Qed.

(** An accepted call: the request is on the connection, under its number in the
    table, and nothing else of the client that matters changed. *)
Record called c (url : option ssn_url_ref_t) (data : option ssn_data_ref_t) (cb arg ms : Z) w c' w' : Prop := {
  called_sent : ~ refused url data /\
    os_tx w' (conn_fd c) = os_tx w (conn_fd c) ++
      frame SSN_MSG_TYPE_RPC_REQUEST 0 (cl_seqno c) (url_bytes url) (data_bytes data);
  called_pending : exists i, get_pending_snapshot (pend c') (cl_seqno c)
    = Some (mk_pending i (cl_seqno c) (u32 ms) SSN_CLIENT_FTYPE_RPC cb arg) /\
    live (pend c') ≡ₚ mk_pending i (cl_seqno c) (u32 ms) SSN_CLIENT_FTYPE_RPC cb arg :: live (pend c);
  called_rest : cl_valid c' = true /\ connected c' = true /\ cl_recv c' = cl_recv c /\ fired c' = fired c /\
    conn_fd c' = conn_fd c /\ cl_seqno c' = u16 (cl_seqno c + 1);
}.

Lemma call_accepted k c url data cb arg ms w c' w' :
  0 <= k -> client_inv k c -> refs_ok url data -> cb <> 0 ->
  ssn_client_call fire c url data cb arg ms w = Some (0, c', w') ->
  client_inv k c' /\ called c url data cb arg ms w c' w'.
Proof.
  intros Hk Hi Hr Hcb. unfold ssn_client_call, ssn_client_call_ex.
  destruct (cl_valid c) eqn:Hv; [|done]. destruct (connected c) eqn:Hc; [|done]. cbn [negb orb].
  destruct (checked_url url); [|done]. unfold send_request. cbv zeta.
  rewrite (proj2 (Z.eqb_neq cb 0) Hcb). cbn [negb].
  change (pend (ssn_client_ref c)) with (pend c). change (cl_seqno (ssn_client_ref c)) with (cl_seqno c).
  change (next_non_pending_seqno (ssn_client_ref c)) with (next_non_pending_seqno c).
  pose proof (alloc_register_spec (pend c) (ci_pend k c Hi)) as Ha.
  destruct (alloc_pending_index (pend c)) as [[i t]|] eqn:Ealloc; [|by destruct (ssn_client_unref _ _ _) as [[? ?]|]].
  destruct Ha as (Hir & _ & Hreg).
  destruct (Hreg (cl_seqno c) ms SSN_CLIENT_FTYPE_RPC cb arg) as (Hinv2 & Hocc2 & Hslot2 & Hidx2).
  pose proof (live_register (pend c) i t (cl_seqno c) ms SSN_CLIENT_FTYPE_RPC cb arg (ci_pend k c Hi) Ealloc) as Hlive.
  set (t2 := register t i (cl_seqno c) ms SSN_CLIENT_FTYPE_RPC cb arg) in *.
  set (c2 := cl_set_pend (cl_set_seqnos (ssn_client_ref c) _ _) t2).
  assert (client_inv (k + 1) c2) as Hi2 by (apply inv_set_pend; auto using inv_ref with ssn).
  destruct (client_sendmsg_good (k + 1) c2 (ssn_create_header SSN_MSG_TYPE_RPC_REQUEST 0 (cl_seqno c)) url data w Hi2 Hc Hr)
    as (r & t3 & w1 & E & Hi3). rewrite E.
  destruct r; [|by destruct (ssn_client_unref _ _ _) as [[? ?]|]].
  apply (client_sendmsg_frame (k + 1)) in E as (Hn & Htx & t4 & Et & Hfd); [|done..].
  destruct (unref_keep fire k (cl_set_transport c2 (Some t3)) w1) as [-> Hi']; [right; split; [done|by cbn]|done|].
  intros ?; simplify_eq. split; [done|]. split.
  - done.
  - exists i. split; [|exact Hlive]. cbn [pend cl_set_ref cl_set_transport]. change (pend c2) with t2.
    pose proof (snapshot_spec t2 (cl_seqno c) Hinv2) as Hs. destruct (get_pending_snapshot t2 (cl_seqno c)) as [p|].
    + destruct Hs as (_ & _ & Hp & _ & Hx). rewrite Hidx2, Z.eqb_refl in Hx. rewrite Hp, <- Hx. by rewrite Hslot2, Z.eqb_refl.
    + rewrite Hidx2, Z.eqb_refl in Hs. unfold NO_INDEX in Hs. lia.
  - by split_and!.
Qed.
End call.

(** ** The client gets the answer *)

Section answer.
Context {W : Type} `{OsLaws W}.
Implicit Types (c : ssn_client) (w : W).
Local Abbreviation fire := (fire_at (W := W) silent_user 2).

(** Handling a packet touches neither the wake-up event nor the stream, and keeps
    the table consistent. *)
Lemma silent_input_keeps pkt c w b c' w' :
  pending_inv (pend c) -> ssn_client_input fire pkt c w = Some (b, c', w') ->
  cl_evt c' = cl_evt c /\ cl_recv c' = cl_recv c /\ pending_inv (pend c').
Proof.
  set (keeps c' := cl_evt c' = cl_evt c /\ cl_recv c' = cl_recv c /\ pend c' = pend c).
  assert (forall e c1 w w1, fire e c w = Some (c1, w1) -> keeps c1) as Hfire.
  { intros e c1 w0 w1 E. destruct (silent_fire e c w0) as [q Eq]. rewrite Eq in E. by simplify_eq. }
  intros Hi. unfold ssn_client_input, ssn_client_handle_publish, ssn_client_handle_message.
  pose proof (snapshot_spec (pend c) (ssn_get_seqno (header_of_bytes pkt)) Hi) as Hs.
  assert (forall r, (forall c1 w1, r = Some (c1, w1) -> keeps c1) ->
    match r with Some (c, w) => Some (cl_valid c, c, w) | None => None end = Some (b, c', w') ->
    cl_evt c' = cl_evt c /\ cl_recv c' = cl_recv c /\ pending_inv (pend c')) as Hout.
  { intros [[c1 w1]|] Hr E; [|done]. destruct (Hr _ _ eq_refl) as (? & ? & Ep). simplify_eq. by rewrite Ep. }
  destruct (_ =? SSN_MSG_TYPE_PUBLISH); [apply Hout; intros c1 w1 E; repeat case_match; simplify_eq; by eauto|].
  destruct (_ =? SSN_MSG_TYPE_MESSAGE); [apply Hout; intros c1 w1 E; repeat case_match; simplify_eq; by eauto|].
  destruct (get_pending_snapshot _ _) as [p|]; [|intros ?; by simplify_eq]. destruct Hs as (Hr & _).
  destruct (if is_response _ then _ else _) as [[c1 w1]|] eqn:E; [|done].
  assert (keeps c1) as (? & ? & Ep).
  { unfold ssn_client_handle_response, ssn_client_handle_rpc_response in E. repeat case_match; simplify_eq; by eauto. }
  intros ?; simplify_eq. cbn. rewrite Ep. split; [done|]. split; [done|]. by apply free_spec.
Qed.

(** The connection is ready, nothing else is to be done, as the wake-up event is
    not ready or no request is due, and the coming receive completes the packet. *)
Definition client_gets c (pkt : bytes) (rfds : list Z) w : Prop :=
  cl_valid c = true /\ connected c = true /\
  (ipc_event_pair_get_read_fd (cl_evt c) ∉ rfds \/ Forall (fun p => due true p = false) (live (pend c))) /\
  exists t b t' w1, cl_transport c = Some t /\ 0 <= ssn_transport_get_fd t /\ ssn_transport_get_fd t ∈ rfds /\
    ssn_transport_recv t SSN_MAX_PACKET_SIZE 0 w = (zlen b, b, t', w1) /\ 0 < zlen b /\
    pending (cl_recv c) ++ b = pkt.

(** With nothing due the wake-up changes nothing that is looked at. *)
Lemma nothing_due c rfds w :
  pending_inv (pend c) ->
  (ipc_event_pair_get_read_fd (cl_evt c) ∉ rfds \/ Forall (fun p => due true p = false) (live (pend c))) ->
  exists c', process_timeouts fire c rfds w = Some (true, c', w) /\ live (pend c') = live (pend c) /\
    fired c' = fired c /\ cl_recv c' = cl_recv c.
Proof.
  intros Hi Hd. unfold process_timeouts. case_bool_decide as Hin; [|by exists c]. destruct Hd as [?|Hd]; [done|].
  destruct (silent_collect true (cl_set_evt c (ipc_event_pair_drain (cl_evt c))) w Hi) as (t & r & -> & _ & Hl).
  cbn [pend cl_set_evt] in *. eexists. split; [done|]. cbn [pend fired cl_recv cl_set_history cl_set_pend cl_set_evt].
  rewrite Hl. split; [by apply filter_all; intros p Hp; eapply Forall_forall in Hd|].
  split; [|done]. replace (filter _ (live (pend c))) with (@nil ssn_pending_request_t); [apply app_nil_r|].
  symmetry. clear Hl. induction Hd as [|p l Hp _ IH]; [done|]. cbn beta in Hp.
  rewrite filter_cons, decide_False; [done|congruence].
Qed.

(** The receive that completes a packet hands it to the handlers. *)
Lemma client_receive_completes k c p rfds w (Post : ssn_client -> Prop) :
  client_inv k c -> packet_ok p -> client_gets c (wire p) rfds w ->
  (forall t' w1, client_inv k (cl_set_transport c (Some t')) ->
     exists c2, ssn_client_input fire (wire p) (cl_set_transport c (Some t')) w1 = Some (cl_valid c, c2, w1) /\
       (forall P : ssn_pending_request_t -> Prop, Forall P (live (pend c)) -> Forall P (live (pend c2))) /\ Post c2) ->
  exists c2 c' w', Post c2 /\ ssn_client_process_events fire c rfds w = Some (true, c', w') /\
    live (pend c') = live (pend c2) /\ fired c' = fired c2 /\ pending (cl_recv c') = [].
Proof.
  intros Hi Hp (Hv & Hc & Hevt & t & b & t' & w1 & Ht & Hfd & Hin & Hrecv & Hb & Hpend) Hinput.
  unfold ssn_client_process_events. rewrite Hv, Hc, Ht. cbn [negb]. rewrite bool_decide_true by done.
  destruct (Z.geb_spec (ssn_transport_get_fd t) 0); [|lia]. cbn [andb]. rewrite Hrecv.
  pose proof (recv_keeps t SSN_MAX_PACKET_SIZE 0 w) as Hk. rewrite Hrecv in Hk. destruct Hk as (Hcfg & _).
  destruct (Z.gtb_spec (zlen b) 0); [|lia]. rewrite ztake_ge by lia.
  assert (client_inv k (cl_set_transport c (Some t'))) as Hi1.
  { apply inv_set_transport; [done|]. destruct (ci_cfg k c Hi) as [Hcc _]. rewrite Ht in Hcc. unfold cfg_ok in *. congruence. }
  destruct (Hinput t' w1 Hi1) as (c2 & E & Hlive & HP).
  pose proof (silent_input_keeps (wire p) (cl_set_transport c (Some t')) w1 (cl_valid c) c2 w1 (ci_pend k _ Hi1) E) as (Hevt2 & Hrecv2 & Hpi2).
  destruct (feed_wire (client_input_callback fire) (cl_recv (cl_set_transport c (Some t'))) b p (Some (cl_set_transport c (Some t'), w1)) (Some (c2, w1)))
    as (recv' & -> & Hri' & Hp'); [apply Hi|done..| |].
  { unfold client_input_callback. rewrite E. cbn. by rewrite Hv. }
  destruct (nothing_due (cl_set_recv c2 recv') rfds w1) as (c3 & -> & Hl3 & Hf3 & Hr3).
  { done. }
  { cbn [cl_evt cl_set_recv pend]. rewrite Hevt2. destruct Hevt as [?|Hd]; [by left|right]. by apply Hlive. }
  exists c2, c3, w1. by rewrite Hl3, Hr3, Hf3.
Qed.

Lemma wire_delivered p : packet_ok p -> delivered (wire p).
Proof.
  intros Hp. apply whole_packet_fields. unfold whole_packet. rewrite <- (app_nil_r (wire p)) at 1. apply validate_wire; [done|].
  by apply zlen_wire.
Qed.
(** The receive that completes the reply to a pending call. *)
Lemma receive_reply k c p r rfds w :
  client_inv k c -> packet_ok p -> p_type p = SSN_MSG_TYPE_RPC_REQUEST ->
  get_pending_snapshot (pend c) (p_seqno p) = Some r ->
  pend_ftype r = SSN_CLIENT_FTYPE_RPC -> pend_callback r <> 0 -> client_gets c (wire p) rfds w ->
  exists c' w', ssn_client_process_events fire c rfds w = Some (true, c', w') /\
    live (pend c) ≡ₚ r :: live (pend c') /\ pending (cl_recv c') = [] /\
    fired c' = fired c ++ [EvReply (pend_callback r) (pend_arg r) (Some (header_of_bytes (wire p), data_part (p_data p)))].
Proof.
  intros Hi Hp Hty Hs Hft Hcb Hgets. destruct (packet_fields p Hp) as (Et & _ & Es & _ & Ed). unfold ssn_get_msg_type in Et.
  destruct (client_receive_completes k c p rfds w (fun c2 => live (pend c) ≡ₚ r :: live (pend c2) /\
    fired c2 = fired c ++ reply_events (wire p) r)) as (c2 & c' & w' & [Hl Hf] & E & El & Ef & Ep); [done..| |].
  { intros t' w1 Hi1. destruct (reply_spec k (wire p) (cl_set_transport c (Some t')) w1) as (c2 & E & Hout);
      [done|by apply wire_delivered|unfold is_reply; by rewrite Et, Hty|].
    rewrite Es in Hout. cbn [pend cl_set_transport] in Hout. rewrite Hs in Hout. destruct Hout as [Hl Hf].
    exists c2. split; [done|]. split; [|done]. intros P HP. rewrite Hl in HP. by inversion HP. }
  eexists _, _. split; [done|]. rewrite El, Ef. split; [done|]. split; [done|].
  rewrite Hf. f_equal. unfold reply_events. rewrite (proj2 (Z.eqb_neq _ 0) Hcb), Et, Hty, Hft, Ed. done.
Qed.

(** The receive that completes a publication. *)
Lemma receive_publication k c p cb arg rfds w :
  client_inv k c -> packet_ok p -> p_type p = SSN_MSG_TYPE_PUBLISH ->
  publish_target c (p_url p) = Some (cb, arg) -> client_gets c (wire p) rfds w ->
  exists c' w', ssn_client_process_events fire c rfds w = Some (true, c', w') /\
    live (pend c') = live (pend c) /\ pending (cl_recv c') = [] /\
    fired c' = fired c ++ [EvMsg cb arg (url_part (p_url p)) (data_part (p_data p))].
Proof.
  intros Hi Hp Hty Ht Hgets. destruct (packet_fields p Hp) as (Et & _ & _ & Eu & Ed). unfold ssn_get_msg_type in Et.
  fold (url_part (p_url p)) in Eu. fold (data_part (p_data p)) in Ed.
  destruct (client_receive_completes k c p rfds w (fun c2 => live (pend c2) = live (pend c) /\
    fired c2 = fired c ++ [EvMsg cb arg (url_part (p_url p)) (data_part (p_data p))])) as (c2 & c' & w' & [Hl Hf] & E & El & Ef & Ep); [done..| |].
  { intros t' w1 _. unfold ssn_client_input. rewrite Et, Hty, Z.eqb_refl. unfold ssn_client_handle_publish. rewrite Eu, Ed.
    replace (default [] (FrameCodec.url (url_part (p_url p)))) with (p_url p); [|unfold url_part; cbn; by destruct (p_url p)].
    change (publish_target (cl_set_transport c (Some t')) (p_url p)) with (publish_target c (p_url p)). rewrite Ht.
    destruct (silent_fire (EvMsg cb arg (url_part (p_url p)) (data_part (p_data p))) (cl_set_transport c (Some t')) w1) as [q ->].
    eexists. split; [done|]. cbn [pend fired cl_set_history cl_set_transport]. by split. }
  eexists _, _. split; [done|]. by rewrite El, Ef, Hl, Hf.
Qed.
End answer.

(** ** Calls and answers that fit *)

Lemma fits_refs url data : refs_ok url data -> ~ refused url data -> fits (url_bytes url) (data_bytes data).
Proof.
  intros Hr Hn. destruct (url_rejected url) eqn:Hu; [by destruct Hn; apply rejected_refused; auto|].
  destruct (data_rejected data) eqn:Hd; [by destruct Hn; apply rejected_refused; auto|].
  destruct (url_accepted url data Hr Hu), (data_accepted url data Hr Hd). unfold fits, refused in *. split; [lia|].
  destruct (decide (url_size url + data_size data > SSN_MAX_PAYLOAD_SIZE)); [tauto|lia].
Qed.

Lemma rpc_packet_ok status seqno u d :
  0 <= status < 2 ^ 32 -> 0 <= seqno < 2 ^ 16 -> fits u d -> packet_ok (mk_packet SSN_MSG_TYPE_RPC_REQUEST status seqno u d).
Proof. intros. split; [by vm_compute|]. split; [done|]. by split. Qed.

Lemma checked_url_bytes url u :
  refs_ok url None -> checked_url url = Some u -> u = url_bytes url /\ u !! 0%nat = Some SLASH.
Proof.
  intros [Hr _]. unfold checked_url, url_bytes, ref_bytes. destruct url as [[[b|] n]|]; [|done..]. cbn in Hr |- *.
  destruct (Z.eqb_spec n 0); [done|]. destruct b as [|x b]; [done|]. cbn [nth default].
  destruct (Z.eqb_spec x SLASH) as [->|]; [|done]. intros ?; simplify_eq. split; [done|].
  unfold ztake. by rewrite lookup_take_lt by lia.
Qed.

(** ** Claims *)

Definition request_packet (c : ssn_client) (url : option ssn_url_ref_t) (data : option ssn_data_ref_t) : packet :=
  mk_packet SSN_MSG_TYPE_RPC_REQUEST 0 (cl_seqno c) (url_bytes url) (data_bytes data).
Definition answer_packet (status seqno : Z) (data : option ssn_data_ref_t) : packet :=
  mk_packet SSN_MSG_TYPE_RPC_REQUEST status seqno [] (data_bytes data).


(** ** Witness *)

(** A server with the method [/a], which echoes. *)
Definition demo_echo : server_event -> ssn_server -> sim_world -> list api_call := fun e _ _ =>
  match e with
  | EvRpc _ _ id hdr _ data => [CallResponse id 0 (ssn_get_seqno hdr) (Some data)]
  | _ => []
  end.
Definition demo_cli : ssn_server_cli_t := mk_cli false false [] 5000 true new_recv (demo_transport 5) 0.
Definition demo_echo_server : ssn_server :=
  match ssn_server_add_method true demo_one (url_ref [47; 97]) 5 6 with Some (_, s) => s | None => demo_one end.
Definition demo_payload : option ssn_data_ref_t := Some (mk_data_ref (Some [1; 2; 3]) 3).
Definition demo_ask : option (Z * ssn_client * sim_world) :=
  ssn_client_call (fire_at silent_user 2) demo_client demo_url_ref demo_payload 13 3 1000 (demo_inbox []).
Definition demo_asking : ssn_client := match demo_ask with Some (_, c, _) => c | None => demo_client end.

Lemma demo_echo_server_inv : server_inv 0 demo_echo_server.
Proof.
  destruct (add_method_inv 0 true demo_one (url_ref [47; 97]) 5 6 demo_one_inv ltac:(done)) as (b & s & E & Hi & _).
  unfold demo_echo_server. by rewrite E.
Qed.
Lemma demo_refs_ok : refs_ok demo_url_ref demo_payload /\ refs_ok None demo_payload /\ ~ refused None demo_payload.
Proof.
  split; [|split]; [repeat split; vm_compute; discriminate || reflexivity..|].
  intros [Hr|[Hr|[(n & Hr & _)|(n & Hr & _)]]]; [vm_compute in Hr; discriminate Hr..| |]; discriminate Hr.
Qed.
Lemma demo_asking_inv w1 : demo_ask = Some (0, demo_asking, w1) -> client_inv 0 demo_asking.
Proof.
  intros E. apply (call_accepted (fire_at silent_user 2) 0 demo_client demo_url_ref demo_payload 13 3 1000 (demo_inbox []) demo_asking w1);
    [done|exact demo_client_inv|apply demo_refs_ok|done|exact E].
Qed.

