(* ===== verification/Service.v ===== *)
(** * Service life cycle, thread pool and run loop

    [src/src/framework/ServiceBase.cpp], [ServiceTask.cpp], [ServiceManager.cpp]
    with their headers in [src/include/ssn/framework].

    - A member function that can throw is a function from the object to [Ret] or
      [Throw] and the object; what was assigned before the throw stays assigned.
    - The virtual members of [ServiceBase] are a record of functions on the derived
      object [D].
    - A thread of [ServiceTask] runs [svc()], of which only its contract is known: it
      may return or throw at any time, and does so once it sees [running_] cleared.
      Joining waits for the thread to end.
    - [ServiceManager::Run] acts on the signal state of its thread.  [env] says what
      happens outside between its steps: signals that arrive for the thread, and
      stop requests of others.  The number of 100 ms rounds it waits for a stop is
      the only fuel; the theorem on its end says how many are enough. *)
From S2P Require Import Prelude.

(** ** Exceptions *)

Inductive exc (A : Type) := Ret (a : A) | Throw.
Arguments Ret {A} a.
Arguments Throw {A}.
#[global] Instance exc_eq_dec {A} `{EqDecision A} : EqDecision (exc A).
Proof. solve_decision. Defined.

(** Functions on an object that may throw. *)
Definition obj (D A : Type) : Type := D -> exc A * D.
#[global] Instance obj_ret {D} : MRet (obj D) := fun A a d => (Ret a, d).
#[global] Instance obj_bind {D} : MBind (obj D) := fun A B f m d =>
  match m d with (Ret a, d) => f a d | (Throw, d) => (Throw, d) end.

(** ** [ServiceBase] *)

Inductive ServiceState := Created | Initialized | Started | Stopped.
#[global] Instance service_state_dec : EqDecision ServiceState.
Proof. solve_decision. Defined.

Record virtuals (D : Type) := mk_virtuals {
  OnInit : obj D bool;
  OnShutdown : obj D unit;
  startImpl : obj D bool;
  stopImpl : obj D unit;
}.
Arguments OnInit {D}. Arguments OnShutdown {D}. Arguments startImpl {D}. Arguments stopImpl {D}.
Arguments mk_virtuals {D}.

(** The virtual members of [ServiceBase] itself. *)
Definition base_virtuals (D : Type) : virtuals D :=
  mk_virtuals (mret true) (mret tt) (mret true) (mret tt).

Record ServiceBase (D : Type) := mk_service { state_ : ServiceState; object : D }.
Arguments state_ {D}. Arguments object {D}. Arguments mk_service {D}.

Section base.
Context {D : Type} (v : virtuals D).

Definition member {A} (m : obj D A) : obj (ServiceBase D) A := fun s =>
  let '(r, d) := m (object s) in (r, mk_service (state_ s) d).
Definition get_state : obj (ServiceBase D) ServiceState := fun s => (Ret (state_ s), s).
Definition set_state (st : ServiceState) : obj (ServiceBase D) unit := fun s => (Ret tt, mk_service st (object s)).

Definition initialize : obj (ServiceBase D) bool :=
  st ← get_state;
  if decide (st = Created) then
    ok ← member (OnInit v);
    if (ok : bool) then _ ← set_state Initialized; mret true else mret false
  else mret false.
Definition start : obj (ServiceBase D) bool :=
  st ← get_state;
  if decide (st = Initialized) then
    ok ← member (startImpl v);
    if (ok : bool) then _ ← set_state Started; mret true else mret false
  else mret false.
Definition stop : obj (ServiceBase D) unit :=
  st ← get_state;
  if decide (st = Started) then
    _ ← member (OnShutdown v);
    _ ← member (stopImpl v);
    set_state Stopped
  else mret tt.
Definition destroy : obj (ServiceBase D) unit :=
  st ← get_state;
  _ ← (if decide (st = Started) then stop else mret tt);
  set_state Created.
End base.

(** ** [ServiceTask] *)

(** A thread of the pool: its [svc()] has ended or not. *)
Inductive svc_thread := Working | Ended.
#[global] Instance svc_thread_dec : EqDecision svc_thread.
Proof. solve_decision. Defined.

Record ServiceTask := mk_task { running_ : bool; failed_ : bool; threads_ : list svc_thread }.

Definition new_task : ServiceTask := mk_task false false [].
Definition isRunning (t : ServiceTask) : bool := running_ t.
Definition failed (t : ServiceTask) : bool := failed_ t.
Definition threadCount (t : ServiceTask) : Z := zlen (threads_ t).
Definition requestShutdown (t : ServiceTask) : ServiceTask := mk_task false (failed_ t) (threads_ t).
(** What [wait] does once every thread has ended. *)
Definition all_ended (t : ServiceTask) : bool := forallb (fun th => bool_decide (th = Ended)) (threads_ t).
Definition joined (t : ServiceTask) : ServiceTask := mk_task (running_ t) (failed_ t) [].

(** [activate] up to its [return] or up to the [wait] of its error path;
    [creatable] threads can be created before one fails.  The second component
    says whether it goes on to [wait] and then returns false. *)
Definition activate (num_threads : Z) (creatable : nat) (t : ServiceTask) : (bool * bool) * ServiceTask :=
  if num_threads <=? 0 then ((false, false), t)
  else if running_ t then ((false, false), t)
  else
    let n := Z.to_nat num_threads in
    if (n <=? creatable)%nat
    then ((true, false), mk_task true false (threads_ t ++ replicate n Working))
    else ((false, true), mk_task false false (threads_ t ++ replicate creatable Working)).

(** Where the owner of the pool stands: between calls, waiting for the threads
    ([after] says whether the object is destroyed next), or gone. *)
Inductive owner_pc := OwnIdle | OwnWaiting (after : bool) | OwnGone.

(** One call of the owner, or the end of its waiting. *)
Inductive owner_step : ServiceTask * owner_pc -> ServiceTask * owner_pc -> Prop :=
  | own_activate n creatable t r (waits : bool) t' : activate n creatable t = ((r, waits), t') ->
      owner_step (t, OwnIdle) (t', if waits then OwnWaiting false else OwnIdle)
  | own_shutdown t : owner_step (t, OwnIdle) (requestShutdown t, OwnIdle)
  | own_wait t : owner_step (t, OwnIdle) (t, OwnWaiting false)
  | own_stopImpl t : owner_step (t, OwnIdle) (requestShutdown t, OwnWaiting false)
  | own_destructor t : owner_step (t, OwnIdle) (requestShutdown t, OwnWaiting true)
  | own_joined t (after : bool) : all_ended t = true ->
      owner_step (t, OwnWaiting after) (joined t, if after then OwnGone else OwnIdle).

(** A thread's [svc()] ends, by returning or by an exception. *)
Definition end_thread (i : nat) (throws : bool) (t : ServiceTask) : ServiceTask :=
  mk_task (running_ t) (failed_ t || throws) (<[i := Ended]> (threads_ t)).
Inductive thread_step : ServiceTask -> ServiceTask -> Prop :=
  | thread_ends i throws t : threads_ t !! i = Some Working -> thread_step t (end_thread i throws t).

Inductive task_reach : ServiceTask * owner_pc -> Prop :=
  | treach_new : task_reach (new_task, OwnIdle)
  | treach_owner st st' : task_reach st -> owner_step st st' -> task_reach st'
  | treach_thread t t' pc : task_reach (t, pc) -> thread_step t t' -> task_reach (t', pc).

(** ** [ServiceManager] *)

Inductive signal := SIGINT | SIGTERM.
#[global] Instance signal_dec : EqDecision signal.
Proof. solve_decision. Defined.

(** [SigStop] is the handler [Run] installs. *)
Inductive disposition := SigDefault | SigUser (h : Z) | SigStop.

(** Signal state of the thread that calls [Run], and the stop flag. *)
Record process := mk_process {
  blocked : signal -> bool;
  handler : signal -> disposition;
  waiting : list signal;                 (** arrived while blocked *)
  s_stop_requested_ : bool;
  handled : list (Z * signal);           (** calls of the application's handlers *)
  killed : bool;
}.
Definition with_blocked p b := mk_process b (handler p) (waiting p) (s_stop_requested_ p) (handled p) (killed p).
Definition with_handler p h := mk_process (blocked p) h (waiting p) (s_stop_requested_ p) (handled p) (killed p).
Definition with_waiting p l := mk_process (blocked p) (handler p) l (s_stop_requested_ p) (handled p) (killed p).
Definition with_stop p b := mk_process (blocked p) (handler p) (waiting p) b (handled p) (killed p).
Definition with_handled p l k := mk_process (blocked p) (handler p) (waiting p) (s_stop_requested_ p) l k.

Definition requestStop (p : process) : process := with_stop p true.
Definition stopRequested (p : process) : bool := s_stop_requested_ p.

(** What the kernel does with a signal. *)
Definition deliver (p : process) (sg : signal) : process :=
  match handler p sg with
  | SigDefault => with_handled p (handled p) true
  | SigUser h => with_handled p (handled p ++ [(h, sg)]) (killed p)
  | SigStop => requestStop p
  end.
Definition arrive (sg : signal) (p : process) : process :=
  if blocked p sg
  then if bool_decide (sg ∈ waiting p) then p else with_waiting p (waiting p ++ [sg])
  else deliver p sg.
(** A new mask: what it lets through is delivered. *)
Definition set_mask (b : signal -> bool) (p : process) : process :=
  foldl deliver (with_waiting (with_blocked p b) (filter (fun sg => b sg = true) (waiting p)))
    (filter (fun sg => b sg = false) (waiting p)).
Definition sigaction (sg : signal) (h : disposition) (p : process) : process :=
  with_handler p (fun x => if decide (x = sg) then h else handler p x).

Inductive outside := Arrives (sg : signal) | RequestsStop.
Definition happens (e : outside) (p : process) : process :=
  match e with Arrives sg => arrive sg p | RequestsStop => requestStop p end.
Definition happen (es : list outside) (p : process) : process := foldl (fun p e => happens e p) p es.

Record SignalState := mk_sigstate {
  old_mask : signal -> bool;
  old_int : disposition;
  old_term : disposition;
  mask_ok : bool; int_ok : bool; term_ok : bool;
}.

(** Which of the system calls succeed: blocking the signals, installing the two
    handlers, putting the mask and the two handlers back. *)
Record sig_calls := mk_calls {
  block_ok : bool; sigint_ok : bool; sigterm_ok : bool;
  unblock_ok : bool; old_int_ok : bool; old_term_ok : bool;
}.

Section run.
Context (env : nat -> list outside) (k : sig_calls).

Definition installSignalHandlers (p : process) : SignalState * process :=
  let mask := blocked p in
  let p := if block_ok k then set_mask (fun _ => true) p else p in
  let p := happen (env 1) p in
  let hint := handler p SIGINT in
  let p := if sigint_ok k then sigaction SIGINT SigStop p else p in
  let p := happen (env 2) p in
  let hterm := handler p SIGTERM in
  let p := if sigterm_ok k then sigaction SIGTERM SigStop p else p in
  (mk_sigstate mask hint hterm (block_ok k) (sigint_ok k) (sigterm_ok k), p).

(** The results of these calls are not looked at. *)
Definition restoreSignalHandlers (st : SignalState) (p : process) : process :=
  let p := if mask_ok st then (if unblock_ok k then set_mask (old_mask st) p else p) else p in
  let p := happen (env 3) p in
  let p := if int_ok st then (if old_int_ok k then sigaction SIGINT (old_int st) p else p) else p in
  let p := happen (env 4) p in
  if term_ok st then (if old_term_ok k then sigaction SIGTERM (old_term st) p else p) else p.

(** [while (!s_stop_requested_) if (sigtimedwait(...) > 0) requestStop();] *)
Fixpoint wait_stop (rounds i : nat) (p : process) : option process :=
  match rounds with
  | O => None
  | S rounds =>
    if s_stop_requested_ p then Some p
    else
      let p := happen (env i) p in
      match waiting p with
      | _ :: rest => wait_stop rounds (S i) (requestStop (with_waiting p rest))
      | [] => wait_stop rounds (S i) p
      end
  end.

(** [Run<ServiceT>]: [v] are the members of the service, [d] the freshly made
    object; the object's destructor runs when [Run] leaves the block. *)
Definition Run {D} (rounds : nat) (v : virtuals D) (dtor : ServiceBase D -> D) (d : D)
    (p : process) : option (Z * process * D) :=
  let p := with_stop p false in
  let p := happen (env 0) p in
  let '(sig, p) := installSignalHandlers p in
  let finish p := restoreSignalHandlers sig p in
  let caught s p := Some (1, with_stop (finish p) false, dtor s) in
  let svc := mk_service Created d in
  match initialize v svc with
  | (Throw, svc) => caught svc (happen (env 5) p)
  | (Ret false, svc) => Some (1, finish (happen (env 5) p), dtor svc)
  | (Ret true, svc) =>
    match start v svc with
    | (Throw, svc) => caught svc (happen (env 5) p)
    | (Ret false, svc) => Some (1, finish (happen (env 5) p), dtor svc)
    | (Ret true, svc) =>
      match wait_stop rounds 10 (happen (env 5) p) with
      | None => None
      | Some p =>
        match stop v svc with
        | (Throw, svc) => caught svc (happen (env 6) p)
        | (Ret _, svc) =>
          match destroy v svc with
          | (Throw, svc) => caught svc (happen (env 6) p)
          | (Ret _, svc) => Some (0, with_stop (finish (happen (env 6) p)) false, dtor svc)
          end
        end
      end
    end
  end.
End run.
