(* ===== verification/ServiceClaims.v ===== *)
(** * Service life cycle, thread pool and run loop: claims

    Pairing of the hooks over any sequence of calls, the end of waiting for the
    pool, and what [Run] does to the signal state of its caller. *)
From S2P Require Import Prelude Service.

(** ** Hooks *)

Inductive hook :=
  | HInit (r : exc bool) | HStart (r : exc bool) | HShutdown (r : exc unit) | HStop (r : exc unit).

(** The members of a service, with a record of their calls. *)
Definition noting {D A} (h : exc A -> hook) (m : obj D A) : obj (D * list hook) A := fun '(d, l) =>
  let '(r, d) := m d in (r, (d, l ++ [h r])).
Definition logged {D} (v : virtuals D) : virtuals (D * list hook) :=
  mk_virtuals (noting HInit (OnInit v)) (noting HShutdown (OnShutdown v)) (noting HStart (startImpl v))
    (noting HStop (stopImpl v)).

Inductive service_call := SInitialize | SStart | SStop | SDestroy.
Definition run_service {D} (v : virtuals D) (s : ServiceBase D) (c : service_call) : ServiceBase D :=
  match c with
  | SInitialize => (initialize v s).2
  | SStart => (start v s).2
  | SStop => (stop v s).2
  | SDestroy => (destroy v s).2
  end.

(** The orders of hooks a service may see, with the state they lead to. *)
Inductive lifecycle : list hook -> ServiceState -> Prop :=
  | lc_new : lifecycle [] Created
  | lc_init l : lifecycle l Created -> lifecycle (l ++ [HInit (Ret true)]) Initialized
  | lc_init_failed l r : lifecycle l Created -> r <> Ret true -> lifecycle (l ++ [HInit r]) Created
  | lc_start l : lifecycle l Initialized -> lifecycle (l ++ [HStart (Ret true)]) Started
  | lc_start_failed l r : lifecycle l Initialized -> r <> Ret true -> lifecycle (l ++ [HStart r]) Initialized
  | lc_stop l : lifecycle l Started -> lifecycle (l ++ [HShutdown (Ret tt); HStop (Ret tt)]) Stopped
  | lc_shutdown_throws l : lifecycle l Started -> lifecycle (l ++ [HShutdown Throw]) Started
  | lc_stop_throws l : lifecycle l Started -> lifecycle (l ++ [HShutdown (Ret tt); HStop Throw]) Started
  | lc_destroy l st : lifecycle l st -> st <> Started -> lifecycle l Created.

Definition count (f : hook -> bool) (l : list hook) : nat := foldr (fun h n => if f h then S n else n) O l.
Definition is_init (h : hook) : bool := match h with HInit (Ret true) => true | _ => false end.
Definition is_start (h : hook) : bool := match h with HStart (Ret true) => true | _ => false end.
Definition is_stop (h : hook) : bool := match h with HStop (Ret _) => true | _ => false end.

Lemma count_app f l l' : count f (l ++ l') = (count f l + count f l')%nat.
Proof. unfold count. induction l as [|h l IH]; cbn; [done|]. destruct (f h); lia. Qed.

Lemma lifecycle_counts l st :
  lifecycle l st ->
  count is_start l = (count is_stop l + (if decide (st = Started) then 1 else 0))%nat /\
  (count is_start l + (if decide (st = Initialized) then 1 else 0) <= count is_init l)%nat.
Proof.
  induction 1 as [|l _ IH|l r _ IH Hr|l _ IH|l r _ IH Hr|l _ IH|l _ IH|l _ IH|l st _ IH Hst];
    rewrite ?count_app; try (destruct r as [[]|]; try done); repeat case_decide; simplify_eq; cbn in *; lia.
Qed.

Section lifecycle.
Context {D : Type} (v : virtuals D).
Implicit Types s : ServiceBase (D * list hook).

Definition alright s : Prop := lifecycle (object s).2 (state_ s).

Lemma stop_alright s : alright s -> state_ s = Started ->
  match stop (logged v) s with (r, s') => alright s' /\ state_ s' = (if decide (r = Ret tt) then Stopped else Started) end.
Proof.
  unfold alright. destruct s as [st [d l]]. cbn. intros Hl ->. unfold stop, get_state, mbind, obj_bind. cbn [state_].
  destruct (decide (Started = Started)); [|done]. unfold member. cbn.
  destruct (OnShutdown v d) as [[[]|] d1]; [|split; [by constructor|done]]. cbn.
  destruct (stopImpl v d1) as [[[]|] d2]; cbn; rewrite <- app_assoc; (split; [by constructor|done]).
Qed.

Lemma call_alright s c : alright s -> alright (run_service (logged v) s c).
Proof.
  intros Hs. destruct c; cbn [run_service].
  - unfold alright in *. destruct s as [st [d l]]. unfold initialize, get_state, mbind, obj_bind. cbn in *.
    destruct (decide (st = Created)) as [->|]; [|done]. unfold member. cbn.
    destruct (OnInit v d) as [[[]|] d1]; cbn; by constructor.
  - unfold alright in *. destruct s as [st [d l]]. unfold start, get_state, mbind, obj_bind. cbn in *.
    destruct (decide (st = Initialized)) as [->|]; [|done]. unfold member. cbn.
    destruct (startImpl v d) as [[[]|] d1]; cbn; by constructor.
  - destruct (decide (state_ s = Started)) as [E|Hn].
    + pose proof (stop_alright s Hs E) as H. destruct (stop (logged v) s). apply H.
    + unfold stop, get_state, mbind, obj_bind. by destruct (decide (state_ s = Started)).
  - unfold destroy, get_state, mbind, obj_bind. cbn -[decide stop]. destruct (decide (state_ s = Started)) as [E|Hn].
    + pose proof (stop_alright s Hs E) as H. destruct (stop (logged v) s) as [r s']. destruct H as [H1 H2].
      destruct r as [[]|]; [|done]. unfold alright in *. cbn. cbn in H2. rewrite H2 in H1. by apply (lc_destroy _ Stopped).
    + unfold alright in *. cbn. by apply (lc_destroy _ (state_ s)).
Qed.

Lemma calls_alright cs s : alright s -> alright (foldl (run_service (logged v)) s cs).
Proof. revert s. induction cs as [|c cs IH]; intros s Hs; cbn; [done|]. by apply IH, call_alright. Qed.
End lifecycle.

(** ** Thread pool *)

Definition busy (l : list svc_thread) : nat := foldr (fun th n => match th with Working => S n | Ended => n end) O l.
Definition working (t : ServiceTask) : nat := busy (threads_ t).

(** [n] threads end, in any order. *)
Inductive thread_steps : nat -> ServiceTask -> ServiceTask -> Prop :=
  | ts_none t : thread_steps 0 t t
  | ts_one n t t1 t2 : thread_step t t1 -> thread_steps n t1 t2 -> thread_steps (S n) t t2.

Lemma end_working l i : l !! i = Some Working -> busy l = S (busy (<[i := Ended]> l)).
Proof.
  revert i. induction l as [|x l IH]; intros i Hi; [done|]. destruct i as [|i]; cbn in Hi; [by simplify_eq|].
  change (<[S i := Ended]> (x :: l)) with (x :: <[i := Ended]> l). cbn. fold (busy l) (busy (<[i := Ended]> l)).
  rewrite (IH i Hi). by destruct x.
Qed.
Lemma step_working t t' : thread_step t t' -> working t = S (working t').
Proof. intros [i throws t0 Hi]. by apply end_working. Qed.
Lemma none_working t : working t = O <-> all_ended t = true.
Proof. unfold working, all_ended. induction (threads_ t) as [|[] l IH]; done. Qed.
Lemma some_working t : working t <> O -> exists t', thread_step t t'.
Proof.
  unfold working. intros Hn. assert (exists i, threads_ t !! i = Some Working) as [i Hi].
  { induction (threads_ t) as [|[] l IH]; [done|by exists O|]. destruct (IH Hn) as [i Hi]. by exists (S i). }
  exists (end_thread i false t). by constructor.
Qed.
Lemma steps_working n t t' : thread_steps n t t' -> working t = (n + working t')%nat.
Proof. induction 1 as [|n t t1 t2 H1 _ IH]; [done|]. rewrite (step_working t t1 H1), IH. lia. Qed.
Lemma steps_length n t t' : thread_steps n t t' -> length (threads_ t') = length (threads_ t).
Proof.
  induction 1 as [|n t t1 t2 H1 _ IH]; [done|]. rewrite IH. inversion H1; subst. cbn. by rewrite length_insert.
Qed.

(** Between calls a pool that runs has all its threads, one that has gone none. *)
Definition task_inv (st : ServiceTask * owner_pc) : Prop :=
  match st.2 with OwnGone => threads_ st.1 = [] /\ running_ st.1 = false | _ => True end /\
  match st.2 with OwnWaiting true => running_ st.1 = false | _ => True end.
Lemma task_reach_inv st : task_reach st -> task_inv st.
Proof.
  induction 1 as [|st st' _ IH Hs|t t' pc _ IH Hs]; [done| |].
  - inversion Hs; subst; cbn in *; try done; [by destruct waits|]. destruct after; [|done]. by destruct IH.
  - inversion Hs; subst. unfold task_inv in *. cbn in *. destruct pc; try done. by destruct IH as [[E _] _]; rewrite E in *.
Qed.

(** ** Signals *)

Definition same_signals (p p' : process) : Prop :=
  (forall sg, blocked p' sg = blocked p sg) /\ (forall sg, handler p' sg = handler p sg).
#[global] Instance same_signals_preorder : PreOrder same_signals.
Proof.
  split; [done|]. intros p1 p2 p3 [H1 H2] [H3 H4]. split; intros sg; [by rewrite H3, H1|by rewrite H4, H2].
Qed.

Lemma deliver_same p sg : same_signals p (deliver p sg).
Proof. unfold deliver. by destruct (handler p sg). Qed.
Lemma deliver_all_same l p : same_signals p (foldl deliver p l).
Proof. revert p. induction l as [|sg l IH]; intros p; cbn; [done|]. etrans; [apply deliver_same|apply IH]. Qed.
Lemma happen_same es p : same_signals p (happen es p).
Proof.
  revert p. induction es as [|e es IH]; intros p; cbn; [done|]. etrans; [|apply IH].
  destruct e as [sg|]; cbn; [|done]. unfold arrive. destruct (blocked p sg); [by case_bool_decide|apply deliver_same].
Qed.
Lemma wait_same env rounds i p p' : wait_stop env rounds i p = Some p' -> same_signals p p'.
Proof.
  revert i p. induction rounds as [|rounds IH]; intros i p; cbn; [done|].
  destruct (s_stop_requested_ p); [by intros; simplify_eq|]. pose proof (happen_same (env i) p) as Hh.
  destruct (waiting (happen (env i) p)); intros E%IH; (etrans; [exact Hh|done]).
Qed.
Lemma set_mask_spec b p :
  (forall sg, blocked (set_mask b p) sg = b sg) /\ (forall sg, handler (set_mask b p) sg = handler p sg).
Proof. unfold set_mask. match goal with |- context [foldl deliver ?q ?l] => by destruct (deliver_all_same l q) end. Qed.

(** What a call that does not put back what was installed leaves. *)
Definition left_blocked (k : sig_calls) (b : bool) : bool := if block_ok k && negb (unblock_ok k) then true else b.
Definition left_handler (k : sig_calls) (sg : signal) (h : disposition) : disposition :=
  match sg with
  | SIGINT => if sigint_ok k && negb (old_int_ok k) then SigStop else h
  | SIGTERM => if sigterm_ok k && negb (old_term_ok k) then SigStop else h
  end.
Definition signals_left k (p p' : process) : Prop :=
  (forall sg, blocked p' sg = left_blocked k (blocked p sg)) /\ (forall sg, handler p' sg = left_handler k sg (handler p sg)).

(** What is installed, and what putting it back leaves. *)
Lemma install_spec env k p :
  let '(st, p1) := installSignalHandlers env k p in
  (forall sg, blocked p1 sg = block_ok k || blocked p sg) /\
  handler p1 SIGINT = (if sigint_ok k then SigStop else handler p SIGINT) /\
  handler p1 SIGTERM = (if sigterm_ok k then SigStop else handler p SIGTERM) /\
  st = mk_sigstate (blocked p) (handler p SIGINT) (handler p SIGTERM) (block_ok k) (sigint_ok k) (sigterm_ok k).
Proof.
  unfold installSignalHandlers. set (pm := if block_ok k then set_mask _ p else p). set (p1 := happen (env 1%nat) pm).
  set (pi := if sigint_ok k then sigaction SIGINT SigStop p1 else p1). set (p3 := happen (env 2%nat) pi).
  assert (forall sg, handler pm sg = handler p sg) as Hm by (subst pm; destruct (block_ok k); [apply set_mask_spec|done]).
  assert (forall sg, blocked pm sg = block_ok k || blocked p sg) as Hmb
    by (subst pm; destruct (block_ok k); [apply set_mask_spec|done]).
  destruct (happen_same (env 1%nat) pm) as [Hb1 Hh1]. fold p1 in Hb1, Hh1.
  destruct (happen_same (env 2%nat) pi) as [Hb3 Hh3]. fold p3 in Hb3, Hh3.
  assert (handler p3 SIGTERM = handler p SIGTERM) as Et.
  { rewrite Hh3. transitivity (handler p1 SIGTERM); [by subst pi; destruct (sigint_ok k)|]. by rewrite Hh1, Hm. }
  split_and!.
  - intros sg. transitivity (blocked p3 sg); [by destruct (sigterm_ok k)|]. rewrite Hb3.
    transitivity (blocked p1 sg); [by subst pi; destruct (sigint_ok k)|]. by rewrite Hb1, Hmb.
  - transitivity (handler p3 SIGINT); [by destruct (sigterm_ok k)|]. rewrite Hh3. subst pi.
    destruct (sigint_ok k); [done|]. by rewrite Hh1, Hm.
  - by destruct (sigterm_ok k).
  - by rewrite Et, Hh1, Hm.
Qed.
Lemma install_restore env k p p2 :
  let '(st, p1) := installSignalHandlers env k p in
  same_signals p1 p2 -> signals_left k p (restoreSignalHandlers env k st p2).
Proof.
  pose proof (install_spec env k p) as Hspec. destruct (installSignalHandlers env k p) as [st p1].
  destruct Hspec as (Hb1 & Hi1 & Ht1 & ->). intros [Hb Hh]. unfold restoreSignalHandlers.
  cbn [mask_ok int_ok term_ok old_mask old_int old_term].
  set (r1 := if block_ok k then _ else p2). destruct (happen_same (env 3%nat) r1) as [Hb4 Hh4].
  set (r2 := happen (env 3%nat) r1) in *. set (r3 := if sigint_ok k then _ else r2).
  destruct (happen_same (env 4%nat) r3) as [Hb5 Hh5]. set (r4 := happen (env 4%nat) r3) in *.
  assert (forall sg, blocked r1 sg = if block_ok k && unblock_ok k then blocked p sg else blocked p2 sg) as Hr1
    by (subst r1; destruct (block_ok k), (unblock_ok k); [apply set_mask_spec|done..]).
  assert (forall sg, handler r1 sg = handler p2 sg) as Hr1h
    by (subst r1; destruct (block_ok k), (unblock_ok k); [apply set_mask_spec|done..]).
  split; [|intros []].
  - intros sg. transitivity (blocked r4 sg); [by destruct (sigterm_ok k), (old_term_ok k)|]. rewrite Hb5.
    transitivity (blocked r2 sg); [by subst r3; destruct (sigint_ok k), (old_int_ok k)|].
    rewrite Hb4, Hr1. unfold left_blocked. rewrite Hb, Hb1. by destruct (block_ok k), (unblock_ok k).
  - transitivity (handler r4 SIGINT); [by destruct (sigterm_ok k), (old_term_ok k)|]. rewrite Hh5. unfold left_handler.
    subst r3. destruct (sigint_ok k), (old_int_ok k); try done; by rewrite Hh4, Hr1h, Hh, Hi1.
  - unfold left_handler. assert (handler r4 SIGTERM = handler p1 SIGTERM) as E4.
    { rewrite Hh5. transitivity (handler r2 SIGTERM); [by subst r3; destruct (sigint_ok k), (old_int_ok k)|]. by rewrite Hh4, Hr1h, Hh. }
    destruct (sigterm_ok k), (old_term_ok k); try done; by rewrite E4, Ht1.
Qed.

Lemma left_nothing k p p' :
  signals_left k p p' -> unblock_ok k && old_int_ok k && old_term_ok k = true -> same_signals p p'.
Proof.
  unfold signals_left, left_blocked, left_handler. rewrite !andb_true_iff. intros [Hb Hh] [[E1 E2] E3].
  rewrite E1 in Hb. rewrite E2, E3 in Hh. cbn [negb] in *. rewrite !andb_false_r in *.
  split; intros sg; [apply Hb|]. rewrite Hh. by destruct sg.
Qed.

(** No signal can reach the application's handlers or end the process. *)
Definition covered (p : process) : Prop := forall sg, blocked p sg = true \/ handler p sg = SigStop.
Definition unharmed (p p' : process) : Prop := killed p' = killed p /\ handled p' = handled p.
#[global] Instance unharmed_preorder : PreOrder unharmed.
Proof. split; [done|]. intros p1 p2 p3 [H1 H2] [H3 H4]. split; congruence. Qed.

Lemma covered_same p p' : same_signals p p' -> covered p -> covered p'.
Proof. intros [Hb Hh] Hc sg. by rewrite Hb, Hh. Qed.
Lemma happen_unharmed es p : covered p -> unharmed p (happen es p).
Proof.
  revert p. induction es as [|e es IH]; intros p Hc; cbn; [done|].
  etrans; [|apply IH; eapply covered_same; [apply (happen_same [e])|done]].
  destruct e as [sg|]; cbn; [|done]. unfold arrive. destruct (blocked p sg) eqn:E; [by case_bool_decide|].
  destruct (Hc sg) as [?|Hh]; [congruence|]. unfold deliver. by rewrite Hh.
Qed.
Lemma deliver_all_unharmed l p : (forall sg, handler p sg = SigStop) -> unharmed p (foldl deliver p l).
Proof.
  revert p. induction l as [|sg l IH]; intros p Hh; cbn; [done|]. etrans; [|apply IH].
  - unfold deliver. by rewrite Hh.
  - intros sg'. by destruct (deliver_same p sg) as [_ ->].
Qed.
Lemma set_mask_unharmed b p : (forall sg, handler p sg = SigStop) \/ (forall sg, b sg = true) -> unharmed p (set_mask b p).
Proof.
  unfold set_mask. intros [Hh|Hb].
  - match goal with |- context [foldl deliver ?q ?l] => by destruct (deliver_all_unharmed l q Hh) end.
  - assert (forall l, filter (fun sg => b sg = false) l = []) as Hf; [|by rewrite Hf].
    induction l as [|sg l IH]; [done|]. rewrite filter_cons, Hb. by case_decide.
Qed.
Lemma wait_unharmed env rounds i p p' : covered p -> wait_stop env rounds i p = Some p' -> unharmed p p'.
Proof.
  revert i p. induction rounds as [|rounds IH]; intros i p Hc; cbn; [done|].
  destruct (s_stop_requested_ p); [by intros; simplify_eq|].
  pose proof (happen_unharmed (env i) p Hc) as Hh. pose proof (covered_same _ _ (happen_same (env i) p) Hc) as Hc'.
  destruct (waiting (happen (env i) p)); intros E%IH; try done; (etrans; [exact Hh|done]).
Qed.

Definition all_installed (k : sig_calls) : bool := block_ok k && sigint_ok k && sigterm_ok k.
Lemma install_covers env k p :
  all_installed k = true ->
  let '(st, p1) := installSignalHandlers env k p in unharmed p p1 /\ (forall sg, handler p1 sg = SigStop).
Proof.
  unfold all_installed. rewrite !andb_true_iff. intros [[Em Ei] Et]. pose proof (install_spec env k p) as Hspec.
  unfold installSignalHandlers in *. rewrite Em, Ei, Et in *. destruct Hspec as (_ & Hi & Ht & _).
  destruct (set_mask_spec (fun _ => true) p) as [Hb _].
  pose proof (set_mask_unharmed (fun _ => true) p ltac:(by right)) as H0. set (pm := set_mask _ p) in *.
  assert (covered pm) as Hc0 by (intros sg; left; apply Hb).
  pose proof (happen_unharmed (env 1%nat) pm Hc0) as H1. destruct (happen_same (env 1%nat) pm) as [Hb1 _].
  set (p1 := happen (env 1%nat) pm) in *. set (pi := sigaction SIGINT SigStop p1) in *.
  assert (covered pi) as Hc2 by (intros sg; left; unfold pi; cbn; by rewrite Hb1).
  pose proof (happen_unharmed (env 2%nat) pi Hc2) as H2. set (p3 := happen (env 2%nat) pi) in *. split.
  - trans pm; [done|]. trans p1; [done|]. trans p3; [exact H2|done].
  - by intros [].
Qed.

Lemma restore_unharmed env k st p :
  env 4%nat = [] -> (forall sg, handler p sg = SigStop) -> unharmed p (restoreSignalHandlers env k st p).
Proof.
  intros He Hh. unfold restoreSignalHandlers. rewrite He. cbn [happen foldl].
  set (p1 := if mask_ok st then _ else p).
  assert (unharmed p p1) as H1 by (subst p1; destruct (mask_ok st), (unblock_ok k); [by apply set_mask_unharmed; left|done..]).
  assert (covered p1) as Hc.
  { intros sg. right. subst p1. destruct (mask_ok st), (unblock_ok k); [|done..]. by rewrite (proj2 (set_mask_spec _ _)). }
  pose proof (happen_unharmed (env 3%nat) p1 Hc) as H2. trans p1; [done|]. etrans; [exact H2|].
  by destruct (int_ok st), (term_ok st), (old_int_ok k), (old_term_ok k).
Qed.

Section run.
Context {D : Type} (v : virtuals D) (dtor : ServiceBase D -> D) (d : D) (env : nat -> list outside).

(** Everything between installing and putting back. *)
Definition run_mid (rounds : nat) (p p' : process) : Prop :=
  same_signals p p' /\ (covered p -> unharmed p p').
Lemma happen_mid rounds es p : run_mid rounds p (happen es p).
Proof. split; [apply happen_same|]. apply happen_unharmed. Qed.
Lemma wait_mid rounds i es es' p p' :
  wait_stop env rounds i (happen es p) = Some p' -> run_mid rounds p (happen es' p').
Proof.
  intros E. pose proof (wait_same _ _ _ _ _ E) as Hs. split.
  - etrans; [apply (happen_same es)|]. etrans; [exact Hs|]. apply happen_same.
  - intros Hc. pose proof (covered_same _ _ (happen_same es p) Hc) as Hc1. etrans; [by apply happen_unharmed|].
    etrans; [by eapply wait_unharmed|]. apply happen_unharmed. by eapply covered_same.
Qed.

(** The shape of every end of [Run]. *)
Lemma run_shape k rounds p r p' d' :
  Run env k rounds v dtor d p = Some (r, p', d') ->
  let '(st, p1) := installSignalHandlers env k (happen (env 0%nat) (with_stop p false)) in
  exists p2 stop, run_mid rounds p1 p2 /\ p' = with_stop (restoreSignalHandlers env k st p2) stop /\ (r = 0 \/ r = 1) /\
    (r = 0 -> stop = false).
Proof.
  unfold Run. destruct (installSignalHandlers _ _ _) as [st p1]. cbv zeta.
  assert (forall q, with_stop q (s_stop_requested_ q) = q) as Hst by (by intros []).
  destruct (initialize v _) as [[[]|] s1].
  - destruct (start v s1) as [[[]|] s2].
    + destruct (wait_stop env rounds 10 _) as [p2|] eqn:Ew; [|done]. pose proof (wait_mid rounds 10 (env 5%nat) (env 6%nat) p1 p2 Ew) as Hm.
      destruct (stop v s2) as [[[]|] s3]; [destruct (destroy v s3) as [[[]|] s4]|]; intros ?; simplify_eq;
        (exists (happen (env 6%nat) p2), false; split; [done|]; split; [done|]; auto).
    + intros ?; simplify_eq. eexists (happen (env 5%nat) p1), _. split; [apply happen_mid|]. split; [symmetry; apply Hst|]. split; [auto|done].
    + intros ?; simplify_eq. exists (happen (env 5%nat) p1), false. split; [apply happen_mid|]. auto.
  - intros ?; simplify_eq. eexists (happen (env 5%nat) p1), _. split; [apply happen_mid|]. split; [symmetry; apply Hst|]. split; [auto|done].
  - intros ?; simplify_eq. exists (happen (env 5%nat) p1), false. split; [apply happen_mid|]. auto.
Qed.
End run.

Lemma happen_stops es p :
  covered p -> s_stop_requested_ p = true \/ waiting p <> [] \/ es <> [] ->
  s_stop_requested_ (happen es p) = true \/ waiting (happen es p) <> [].
Proof.
  revert p. induction es as [|e es IH]; intros p Hc Hor; cbn; [tauto|].
  apply IH; [eapply covered_same; [apply (happen_same [e])|done]|].
  destruct e as [sg|]; cbn; [|by left]. unfold arrive. destruct (blocked p sg) eqn:E.
  - case_bool_decide as Hin; [destruct Hor as [?|[?|_]]; [tauto..|]|cbn].
    + right; left. intros Hw. rewrite Hw in Hin. set_solver.
    + right; left. by destruct (waiting p).
  - destruct (Hc sg) as [?|Hh]; [congruence|]. unfold deliver. rewrite Hh. by left.
Qed.

Lemma wait_ends env n : forall rounds i p,
  covered p -> env (i + n)%nat <> [] -> (n + 2 <= rounds)%nat -> is_Some (wait_stop env rounds i p).
Proof.
  induction n as [|n IH]; intros rounds i p Hc He Hr; (destruct rounds as [|rounds]; [lia|]); cbn;
    (destruct (s_stop_requested_ p); [eauto|]).
  - rewrite Nat.add_0_r in He. destruct (happen_stops (env i) p Hc ltac:(auto)) as [Hs|Hw].
    + destruct rounds as [|rounds]; [lia|]. destruct (waiting _); cbn; [rewrite Hs|]; eauto.
    + destruct (waiting _); [done|]. destruct rounds as [|rounds]; [lia|]. cbn. eauto.
  - pose proof (covered_same _ _ (happen_same (env i) p) Hc) as Hc'.
    destruct (waiting _); (apply IH; [done| |lia]); by rewrite Nat.add_succ_comm.
Qed.

(** The service did all it should: it was initialised and started, and nothing
    threw on the way down. *)
Definition run_succeeds {D} (v : virtuals D) (d : D) : bool :=
  match initialize v (mk_service Created d) with
  | (Ret true, s) =>
    match start v s with
    | (Ret true, s) =>
      match stop v s with
      | (Ret _, s) => match destroy v s with (Ret _, _) => true | _ => false end
      | _ => false
      end
    | _ => false
    end
  | _ => false
  end.
Lemma run_result {D} (v : virtuals D) dtor d env k rounds p r p' d' :
  Run env k rounds v dtor d p = Some (r, p', d') -> r = if run_succeeds v d then 0 else 1.
Proof.
  unfold Run, run_succeeds. destruct (installSignalHandlers _ _ _) as [st p1]. cbv zeta.
  destruct (initialize v _) as [[[]|] s1]; [|by intros; simplify_eq..].
  destruct (start v s1) as [[[]|] s2]; [|by intros; simplify_eq..]. destruct (wait_stop _ _ _ _); [|done].
  destruct (stop v s2) as [[[]|] s3]; [|by intros; simplify_eq].
  destruct (destroy v s3) as [[[]|] s4]; by intros; simplify_eq.
Qed.

(** ** Claims *)

(** C18.  Hooks are paired: whatever sequence of calls an application makes on a
    new service and whatever its hooks answer or throw, the hooks were called in an
    order the life cycle allows; there are as many completed stops as successful
    starts, but for the one of a service that is started, and no more starts than
    successful initialisations. *)
Theorem service_hooks_paired {D} (v : virtuals D) (d : D) (cs : list service_call) :
  let s := foldl (run_service (logged v)) (mk_service Created (d, [])) cs in
  lifecycle (object s).2 (state_ s) /\
  count is_start (object s).2 = (count is_stop (object s).2 + (if decide (state_ s = Started) then 1 else 0))%nat /\
  (count is_start (object s).2 + (if decide (state_ s = Initialized) then 1 else 0) <= count is_init (object s).2)%nat.
Proof.
  cbv zeta. pose proof (calls_alright v cs (mk_service Created (d, [])) lc_new) as Hl. split; [done|].
  by apply lifecycle_counts.
Qed.

(** Waiting for the pool ends, and only then are the threads given up.  From
    any state, however the threads are scheduled, each of them ends at most once;
    as long as one works the next end is possible, and when the last has ended the
    waiting owner goes on with an empty pool.  A destroyed pool has no thread left. *)
Theorem pool_wait_ends (t : ServiceTask) (pc : owner_pc) :
  task_reach (t, pc) ->
  (forall n t', thread_steps n t t' ->
     (n + working t' = working t)%nat /\ length (threads_ t') = length (threads_ t) /\
     (working t' <> O -> exists t'', thread_step t' t'') /\
     (working t' = O -> forall after, exists pc', owner_step (t', OwnWaiting after) (joined t', pc') /\
                                           threadCount (joined t') = 0)) /\
  (pc = OwnGone -> threads_ t = []).
Proof.
  intros Hr. split.
  - intros n t' Hs. rewrite (steps_working n t t' Hs), (steps_length n t t' Hs). split; [done|]. split; [done|].
    split; [apply some_working|]. intros Hw after. eexists. split; [by apply own_joined, none_working|done].
  - intros ->. pose proof (task_reach_inv _ Hr) as [[? _] _]. done.
Qed.


(** [Run] ends: with its handlers installed, a signal or a stop request that
    comes in the [n]-th round of waiting, or any time before, lets [Run] return
    after at most two more rounds. *)
Theorem run_ends {D} (env : nat -> list outside) (k : sig_calls) (n rounds : nat) (v : virtuals D) (dtor : ServiceBase D -> D) (d : D)
    (p : process) :
  all_installed k = true -> env (10 + n)%nat <> [] -> (n + 2 <= rounds)%nat -> is_Some (Run env k rounds v dtor d p).
Proof.
  intros Hk He Hr. unfold Run. pose proof (install_covers env k (happen (env 0%nat) (with_stop p false)) Hk) as Hc.
  destruct (installSignalHandlers _ _ _) as [st p1]. destruct Hc as (_ & Hall). cbv zeta.
  assert (covered (happen (env 5%nat) p1)) as Hcov.
  { eapply covered_same; [apply happen_same|]. intros sg. right. apply Hall. }
  destruct (wait_ends env n rounds 10 _ Hcov He Hr) as [p2 Ew].
  destruct (initialize v _) as [[[]|] s1]; [|eauto..]. destruct (start v s1) as [[[]|] s2]; [|eauto..].
  rewrite Ew. destruct (stop v s2) as [[[]|] s3]; [|eauto]. destruct (destroy v s3) as [[[]|] s4]; eauto.
Qed.

(** [activate] tests only [running_]: after [requestShutdown] without [wait] it
    answers true although the threads of the last run are still there, and they go
    on working beside the new ones. *)
Theorem reactivation_keeps_old_threads (t : ServiceTask) (creatable : nat) :
  running_ t = true -> (1 <= creatable)%nat ->
  exists t', activate 1 creatable (requestShutdown t) = ((true, false), t') /\
    threadCount t' = threadCount t + 1 /\ working t' = S (working t) /\ isRunning t' = true.
Proof.
  intros Hr Hc. unfold activate. cbn [Z.leb Z.compare running_ requestShutdown].
  change (Z.to_nat 1) with 1%nat. rewrite (proj2 (Nat.leb_le 1 creatable) Hc). eexists. split; [done|].
  unfold threadCount, working. cbn. rewrite zlen_app. split; [done|]. split; [|done].
  induction (threads_ t) as [|[] l IH]; cbn in *; [done|by f_equal|done].
Qed.

(** ** Witnesses *)

Lemma pool_wait_ends_witness :
  let t := mk_task true false [Working; Working] in
  task_reach (t, OwnIdle) /\ (exists t', thread_steps 2 t t' /\ working t' = O).
Proof.
  intros t. assert (task_reach (t, OwnIdle)) as Hr.
  { eapply treach_owner; [apply treach_new|]. apply (own_activate 2 2 new_task true false). reflexivity. }
  split; [exact Hr|]. destruct (pool_wait_ends t OwnIdle Hr) as [Hw _].
  destruct (Hw 0%nat t (ts_none t)) as (_ & _ & Hgo & _).
  assert (thread_steps 2 t (end_thread 1 true (end_thread 0 false t))) as Hs.
  { apply (ts_one _ _ (end_thread 0 false t)); [by constructor|].
    apply (ts_one _ _ (end_thread 1 true (end_thread 0 false t))); [by constructor|]. apply ts_none. }
  exists (end_thread 1 true (end_thread 0 false t)). split; [exact Hs|]. destruct (Hw _ _ Hs) as [E _]. reflexivity.
Defined.

(** A process with the default handlers; SIGTERM arrives in the second round. *)
Definition demo_process : process := mk_process (fun _ => false) (fun _ => SigDefault) [] false [] false.
Definition demo_env : nat -> list outside := fun i => if (i =? 11)%nat then [Arrives SIGTERM] else [].

Definition demo_calls : sig_calls := mk_calls true true true true true true.


Lemma run_ends_witness : is_Some (Run demo_env demo_calls 4 (base_virtuals unit) object tt demo_process).
Proof. apply (run_ends demo_env demo_calls 1 4); [reflexivity|discriminate|lia]. Defined.

Lemma reactivation_keeps_old_threads_witness :
  exists t', activate 1 1 (requestShutdown (mk_task true false [Working])) = ((true, false), t') /\ threadCount t' = 2.
Proof.
  destruct (reactivation_keeps_old_threads (mk_task true false [Working]) 1 eq_refl ltac:(lia)) as (t' & E & Ht & _).
  exists t'. split; [exact E|exact Ht].
Defined.
