(* ===== verification/Json.v ===== *)
(** * The JSON library's interface

    The framework uses the third-party class [nlohmann::json].  [Json] names the
    operations it calls; [JsonLaws] states what is documented of them and relied on;
    [TreeJson] is a small instance, not JSON text, that shows the laws can hold. *)
From S2P Require Import Prelude.
From stdpp Require Import countable.
#[local] Open Scope Z_scope.

(** ** UTF-8 *)

Definition cont_byte (c : Z) : bool := (128 <=? c) && (c <=? 191).
(** The second byte after the leading byte [c] of a longer sequence. *)
Definition second_byte (c x : Z) : bool :=
  (if c =? 224 then 160 <=? x else if c =? 240 then 144 <=? x else 128 <=? x) &&
  (if c =? 237 then x <=? 159 else if c =? 244 then x <=? 143 else x <=? 191).
Fixpoint utf8 (b : bytes) : bool :=
  match b with
  | [] => true
  | c :: b =>
    if (0 <=? c) && (c <=? 127) then utf8 b
    else if (194 <=? c) && (c <=? 223) then match b with c1 :: b => cont_byte c1 && utf8 b | _ => false end
    else if (224 <=? c) && (c <=? 239) then
      match b with c1 :: c2 :: b => second_byte c c1 && cont_byte c2 && utf8 b | _ => false end
    else if (240 <=? c) && (c <=? 244) then
      match b with c1 :: c2 :: c3 :: b => second_byte c c1 && cont_byte c2 && cont_byte c3 && utf8 b | _ => false end
    else false
  end.

(** ** Operations *)

Class Json (J : Type) := {
  dump : J -> option bytes;                (** None: throws, a string is not UTF-8 *)
  parse : bytes -> option J;               (** None: throws *)
  jobject : list (bytes * J) -> J;
  jarray : list J -> J;
  jstring : bytes -> J;
  jnumber : Z -> J;
  jfield : bytes -> J -> option J;         (** is_object, contains and operator[] *)
  jget_string : J -> option bytes;         (** get<std::string>, None: throws *)
}.

(** [clean]: no string that is not UTF-8, no number that is not finite. *)
Class JsonLaws (J : Type) `{Json J} := {
  clean : J -> Prop;
  dump_parse j : clean j -> exists b, dump j = Some b /\ b <> [] /\ parse b = Some j;
  clean_string s : utf8 s = true -> clean (jstring s);
  clean_number n : clean (jnumber n);
  clean_array l : Forall clean l -> clean (jarray l);
  clean_object l : Forall (fun kv => utf8 kv.1 = true /\ clean kv.2) l -> NoDup l.*1 -> clean (jobject l);
  jfield_object k l : jfield k (jobject l) = snd <$> find (fun kv => bool_decide (kv.1 = k)) l;
  jget_string_string s : jget_string (jstring s) = Some s;
  jget_string_number n : jget_string (jnumber n) = None;
}.

(** ** An instance *)

(** Leaves are strings and numbers; node 0 is an array, node 1 an object with keys
    and values in turn. *)
Definition tree : Type := gen_tree (bytes + Z).

Fixpoint bits (p : positive) : bytes :=
  match p with xH => [2] | xO p => 0 :: bits p | xI p => 1 :: bits p end.
Fixpoint of_bits (b : bytes) : option positive :=
  match b with
  | [] => None
  | x :: b => if x =? 2 then Some xH
              else if x =? 0 then xO <$> of_bits b else if x =? 1 then xI <$> of_bits b else None
  end.
Fixpoint tree_field (k : bytes) (l : list tree) : option tree :=
  match l with
  | GenLeaf (inl x) :: v :: l => if bool_decide (x = k) then Some v else tree_field k l
  | _ => None
  end.
Fixpoint tree_clean (t : tree) : bool :=
  match t with
  | GenLeaf (inl s) => utf8 s
  | GenLeaf (inr _) => true
  | GenNode _ l => forallb tree_clean l
  end.

#[global] Instance TreeJson : Json tree := {|
  dump t := if tree_clean t then Some (bits (encode t)) else None;
  parse b := of_bits b ≫= decode;
  jobject l := GenNode 1 (concat (map (fun kv => [GenLeaf (inl kv.1); kv.2]) l));
  jarray l := GenNode 0 l;
  jstring s := GenLeaf (inl s);
  jnumber n := GenLeaf (inr n);
  jfield k t := match t with GenNode 1 l => tree_field k l | _ => None end;
  jget_string t := match t with GenLeaf (inl s) => Some s | _ => None end;
|}.

Lemma of_bits_bits p : of_bits (bits p) = Some p.
Proof. induction p as [p IH|p IH|]; cbn; [by rewrite IH|by rewrite IH|done]. Qed.

#[global] Instance TreeLaws : JsonLaws tree.
Proof.
  refine {| clean t := tree_clean t = true |}.
  - intros t Ht. exists (bits (encode t)). cbn. rewrite Ht. split; [done|]. split; [by destruct (encode t)|].
    rewrite of_bits_bits. cbn. apply decode_encode.
  - done.
  - done.
  - intros l Hl. cbn. apply forallb_forall. intros x Hx. rewrite Forall_forall in Hl. by apply Hl.
  - intros l Hl _. cbn. apply forallb_forall. intros x (y & Hy & Hx)%in_concat.
    apply in_map_iff in Hy as (kv & <- & Hkv). rewrite Forall_forall in Hl. destruct (Hl _ Hkv) as [Hk Hv].
    by destruct Hx as [<-|[<-|[]]].
  - intros k l. cbn. induction l as [|[k' v] l IH]; [done|]. cbn. by case_bool_decide.
  - done.
  - done.
Defined.
