(* ===== verification/SsnService.v ===== *)
(** * JSON service ([src/src/framework/SsnService.cpp], [SsnService.hpp])

    A service that owns a node with a server, registers its methods with it and
    answers requests with JSON.

    - [methods_] is a finite map; [std::map] walks it in the order of the keys.
    - A [JsonHandler] is one of the three built-in ones or a function of the
      application, given by [app]: it answers, throws a [std::exception] or throws
      something else.
    - [handleRpc] runs inside a poll of the node.  The calls it makes on the server
      are its result, as for every callback of [Server]; [Throw] means that an
      exception leaves it.
    - [OnShutdown] joins the thread of the service; its definition is what happens
      once the thread has ended.
    - [None] is undefined behaviour of the node below. *)
From Stdlib Require Import String.
From stdpp Require Import sorting.
From S2P Require Import Prelude FrameCodec HashTable ErrorCode Os Transport Address FrameSend EventPair Server ClientPending Client Node Service Json.
#[local] Open Scope Z_scope.

(** ** Version ([src/src/version]) *)

Definition SSN_VERSION_MAJOR : Z := 2.
Definition SSN_VERSION_MINOR : Z := 6.
Definition SSN_VERSION_PATCH : Z := 0.
Definition SSN_VERSION : Z :=
  Z.lor (Z.lor (Z.shiftl SSN_VERSION_MAJOR 16) (Z.shiftl SSN_VERSION_MINOR 8)) SSN_VERSION_PATCH.
Definition ssn_version_get_string : bytes := str "2.6.0".
Definition ssn_version_get_major : Z := SSN_VERSION_MAJOR.
Definition ssn_version_get_minor : Z := SSN_VERSION_MINOR.
Definition ssn_version_get_patch : Z := SSN_VERSION_PATCH.
Definition ssn_version_is_compatible (major minor : Z) : bool :=
  (major =? SSN_VERSION_MAJOR) && (minor <=? SSN_VERSION_MINOR).

(** ** Data *)

Definition kErrMethodNotFound : Z := 1001.
Definition kErrJsonParse : Z := 1002.
Definition kErrHandlerException : Z := 1003.
Definition kStatusOk : Z := 0.
Definition kStatusFail : Z := 1.
Definition kBuiltinUrls : bytes := str "/urls".
Definition kBuiltinHealth : bytes := str "/health".
Definition kBuiltinVersion : bytes := str "/version".
Definition kCatchAllUrl : bytes := str "/".

(** The node's callbacks and their argument, which is the service. *)
Definition RPC_CB : Z := 1.
Definition CONNECT_CB : Z := 2.
Definition SELF : Z := 1.

Inductive JsonHandler := HUrls | HHealth | HVersion | HUser (f : Z).

Record SsnService := mk_svc {
  node_ : option ssn_node;
  name_ : bytes;
  listen_host_ : bytes;
  listen_port_ : Z;
  methods_ : gmap bytes JsonHandler;
  connections_ : Z;
  messages_ : Z;
  task_ : ServiceTask;
}.

Definition svc_set_node s n := mk_svc n (name_ s) (listen_host_ s) (listen_port_ s) (methods_ s) (connections_ s)
  (messages_ s) (task_ s).
Definition svc_set_methods s m := mk_svc (node_ s) (name_ s) (listen_host_ s) (listen_port_ s) m (connections_ s)
  (messages_ s) (task_ s).
Definition svc_set_counts s c m := mk_svc (node_ s) (name_ s) (listen_host_ s) (listen_port_ s) (methods_ s) c m (task_ s).
Definition svc_set_task s t := mk_svc (node_ s) (name_ s) (listen_host_ s) (listen_port_ s) (methods_ s) (connections_ s)
  (messages_ s) t.

Definition new_service : SsnService := mk_svc None [] (str "127.0.0.1") 18888 ∅ 0 0 new_task.
Definition listenTcp (s : SsnService) (host : bytes) (port : Z) : SsnService :=
  mk_svc (node_ s) (name_ s) host port (methods_ s) (connections_ s) (messages_ s) (task_ s).
Definition setName (s : SsnService) (name : bytes) : SsnService :=
  mk_svc (node_ s) name (listen_host_ s) (listen_port_ s) (methods_ s) (connections_ s) (messages_ s) (task_ s).

(** Order of [std::string]: by unsigned bytes. *)
Fixpoint bytes_leb (a b : bytes) : bool :=
  match a, b with
  | [], _ => true
  | _ :: _, [] => false
  | x :: a, y :: b => if x <? y then true else if x =? y then bytes_leb a b else false
  end.
Definition bytes_le (a b : bytes) : Prop := bytes_leb a b = true.
#[global] Instance bytes_le_dec : RelDecision bytes_le.
Proof. intros a b. unfold bytes_le. apply _. Defined.
Definition collect_urls (m : gmap bytes JsonHandler) : list bytes :=
  merge_sort bytes_le (map_to_list m).*1.

(** ** Registration *)

Definition trailing_slash (url : bytes) : bool := (zlen url >? 1) && (nth (length url - 1) url 0 =? SLASH).
Definition reserved (url : bytes) : bool :=
  bool_decide (url = kCatchAllUrl) || bool_decide (url = kBuiltinUrls) || bool_decide (url = kBuiltinHealth)
  || bool_decide (url = kBuiltinVersion).

(** [f] is 0 for an empty function. *)
Definition registerJson (s : SsnService) (url : bytes) (f : Z) : bool * SsnService :=
  if negb (nth 0 url 0 =? SLASH) || (f =? 0) then (false, s)
  else if trailing_slash url then (false, s)
  else if reserved url then (false, s)
  else match methods_ s !! url with
  | Some _ => (false, s)
  | None => (true, svc_set_methods s (<[url := HUser f]> (methods_ s)))
  end.
Definition unregister (s : SsnService) (url : bytes) : bool * SsnService :=
  if trailing_slash url then (false, s)
  else (bool_decide (is_Some (methods_ s !! url)), svc_set_methods s (delete url (methods_ s))).

(** [++connections_] and [--connections_] on an [int]. *)
Definition onConnectCb (s : SsnService) (connect : bool) : SsnService :=
  if connect then svc_set_counts s (i32 (connections_ s + 1)) (messages_ s)
  else if connections_ s >? 0 then svc_set_counts s (i32 (connections_ s - 1)) (messages_ s)
  else s.

Section json.
Context {J : Type} `{Json J}.

Inductive handler_result := Answer (j : J) | StdException | OtherException.

(** ** Answers *)

Definition make_error (code : Z) (message : bytes) : J :=
  jobject [(str "error", jobject [(str "code", jnumber code); (str "message", jstring message)])].
Definition MSG_NOT_FOUND : bytes := str "方法不存在".
Definition MSG_PARSE : bytes := str "请求 JSON 解析失败".
Definition MSG_EXCEPTION : bytes := str "handler 抛出异常".
Definition MSG_UNKNOWN : bytes := str "handler 抛出未知异常".

Definition builtinUrls (s : SsnService) : J :=
  jobject [(str "urls", jarray (map jstring (collect_urls (methods_ s))))].
Definition builtinHealth (s : SsnService) : J :=
  match node_ s with
  | None => jobject [(str "status", jstring (str "error")); (str "connections", jnumber 0); (str "messages", jnumber 0)]
  | Some _ =>
    jobject [(str "status", jstring (if failed (task_ s) then str "degraded" else str "ok"));
             (str "connections", jnumber (connections_ s)); (str "messages", jnumber (messages_ s))]
  end.
Definition builtinVersion : J := jobject [(str "version", jstring ssn_version_get_string)].

Context {W : Type} `{OsOps W}.
Context (app : Z -> J -> W -> handler_result).
Implicit Types (s : SsnService) (w : W).

Definition call_handler s (h : JsonHandler) (req : J) w : handler_result :=
  match h with
  | HUrls => Answer (builtinUrls s)
  | HHealth => Answer (builtinHealth s)
  | HVersion => Answer builtinVersion
  | HUser f => app f req w
  end.

(** The text of a reference, as [std::string] takes it over; none when it is NULL
    or empty. *)
Definition ref_text (p : option bytes) (n : Z) : bytes := if n =? 0 then [] else ref_bytes p n.

(** [server_response] with a body, from which nothing but [dump] can throw. *)
Definition respond (id status seqno : Z) (body : J) : exc (list api_call) :=
  match dump body with
  | Some b => Ret [CallResponse id status seqno (Some (mk_data_ref (Some b) (zlen b)))]
  | None => Throw
  end.
Definition reply_error (id seqno code : Z) (message : bytes) : exc (list api_call) :=
  respond id kStatusFail seqno (make_error code message).

Definition handleRpc s (id : Z) (hdr : option ssn_header_t) (url : option ssn_url_ref_t)
    (data : option ssn_data_ref_t) w : exc (list api_call) * SsnService :=
  match hdr, url with
  | Some hdr, Some url =>
    let s := svc_set_counts s (connections_ s) (u64 (messages_ s + 1)) in
    let seqno := ssn_get_seqno hdr in
    let key := ref_text (FrameCodec.url url) (url_len url) in
    match methods_ s !! key with
    | None => (reply_error id seqno kErrMethodNotFound MSG_NOT_FOUND, s)
    | Some handler =>
      let text := match data with Some d => ref_text (FrameCodec.data d) (length_ d) | None => [] end in
      match (match text with [] => Some (jobject []) | _ => parse text end) with
      | None => (reply_error id seqno kErrJsonParse MSG_PARSE, s)
      | Some req =>
        match call_handler s handler req w with
        | StdException => (reply_error id seqno kErrHandlerException MSG_EXCEPTION, s)
        | OtherException => (reply_error id seqno kErrHandlerException MSG_UNKNOWN, s)
        | Answer result => (respond id kStatusOk seqno result, s)
        end
      end
    end
  | _, _ => (Ret [], s)
  end.

(** The callbacks of a service's node; [memory w] is the service as it is when the
    callback runs. *)
Definition service_user (memory : W -> SsnService) : server_event -> ssn_server -> W -> list api_call := fun e _ w =>
  match e with
  | EvRpc h _ id hdr url data =>
    if h =? RPC_CB
    then match handleRpc (memory w) id (Some hdr) (Some url) (Some data) w with (Ret cs, _) => cs | (Throw, _) => [] end
    else []
  | _ => []
  end.

(** ** Publishing *)

Definition publish s (topic : bytes) (data : J) w : option (exc bool * SsnService * W) :=
  match node_ s with
  | None => Some (Ret false, s, w)
  | Some n =>
    match dump data with
    | None => Some (Throw, s, w)
    | Some body =>
      match ssn_node_publish n (Some (mk_url_ref (Some topic) (zlen topic)))
              (Some (mk_data_ref (Some body) (zlen body))) w with
      | None => None
      | Some (ok, n, w) => Some (Ret ok, svc_set_node s (Some n), w)
      end
    end
  end.

(** ** Life cycle *)

Context (fire : client_event -> ssn_client -> W -> option (ssn_client * W)).
Context (g : factory).

(** The bytes of a string up to its first NUL. *)
Fixpoint c_str (b : bytes) : bytes :=
  match b with [] => [] | c :: b => if c =? 0 then [] else c :: c_str b end.

Definition service_config s : ssn_node_config_t :=
  mk_node_config [] (str "server")
    (ztake 63 (c_str (match name_ s with [] => str "SsnService" | name => name end)))
    (ztake 255 (c_str (listen_host_ s))) (listen_port_ s)
    (Z.lor (Z.lor SSN_NODE_CAP_SERVER SSN_NODE_CAP_RPC) SSN_NODE_CAP_PUBSUB) 0 0 0 0.

Definition stop_destroy (n : ssn_node) w : option W :=
  match ssn_node_stop fire n w with
  | None => None
  | Some (_, n, w) => match ssn_node_destroy fire n w with Some (_, w) => Some w | None => None end
  end.

(** Registers one URL after the other; false at the first that fails. *)
Fixpoint add_methods (alloc : bytes -> bool) (urls : list bytes) (n : ssn_node) : option (bool * ssn_node) :=
  match urls with
  | [] => Some (true, n)
  | u :: urls =>
    match ssn_node_add_rpc_method (alloc u) n (Some (mk_url_ref (Some u) (zlen u))) RPC_CB SELF with
    | Some (true, n) => add_methods alloc urls n
    | Some (false, n) => Some (false, n)
    | None => None
    end
  end.

Definition with_builtins (m : gmap bytes JsonHandler) : gmap bytes JsonHandler :=
  <[kBuiltinVersion := HVersion]> (<[kBuiltinHealth := HHealth]> (<[kBuiltinUrls := HUrls]> m)).

(** Readings the node's creation and start take: allocations, host name, time,
    an uninitialised value; [alloc]: whether the method for a URL can be
    allocated. *)
Record init_env := mk_init_env {
  ie_calloc : bool; ie_mutex : bool; ie_host : option bytes; ie_sec : Z; ie_usec : Z;
  ie_late : bool; ie_junk : Z; ie_alloc : bytes -> bool;
}.

Definition SsnService_OnInit (e : init_env) s w : option (bool * SsnService * W) :=
  match (match node_ s with
         | None => Some w
         | Some n => match ssn_node_destroy fire n w with Some (_, w) => Some w | None => None end
         end) with
  | None => None
  | Some w =>
    let s := svc_set_node s None in
    match ssn_node_create (ie_calloc e) (ie_mutex e) (ie_host e) (ie_sec e) (ie_usec e) (Some (service_config s)) with
    | None => Some (false, s, w)
    | Some n =>
      match ssn_node_start g (ie_late e) (ie_junk e) n w with
      | None => None
      | Some (false, n, w) =>
        match ssn_node_destroy fire n w with Some (_, w) => Some (false, s, w) | None => None end
      | Some (true, n, w) =>
        match ssn_node_set_connect_handler n (Some (CONNECT_CB, SELF)) with
        | None => None
        | Some n =>
          let s := svc_set_methods s (with_builtins (methods_ s)) in
          match add_methods (ie_alloc e) (collect_urls (methods_ s) ++ [kCatchAllUrl]) n with
          | None => None
          | Some (true, n) => Some (true, svc_set_node s (Some n), w)
          | Some (false, n) => match stop_destroy n w with Some w => Some (false, s, w) | None => None end
          end
        end
      end
    end
  end.

Fixpoint remove_methods (urls : list bytes) (n : ssn_node) : option ssn_node :=
  match urls with
  | [] => Some n
  | u :: urls =>
    match ssn_node_remove_rpc_method n (Some (mk_url_ref (Some u) (zlen u))) with
    | Some n => remove_methods urls n
    | None => None
    end
  end.

Definition SsnService_OnShutdown s w : option (SsnService * W) :=
  match node_ s with
  | None => Some (s, w)
  | Some n =>
    let s := svc_set_task s (joined (requestShutdown (task_ s))) in
    match remove_methods (collect_urls (methods_ s) ++ [kCatchAllUrl]) n with
    | None => None
    | Some n => match stop_destroy n w with Some w => Some (svc_set_node s None, w) | None => None end
    end
  end.

(** The destructor, after [destroy()]. *)
Definition SsnService_dtor s w : option (SsnService * W) :=
  match node_ s with
  | None => Some (s, w)
  | Some n => match stop_destroy n w with Some w => Some (svc_set_node s None, w) | None => None end
  end.

Context (user : server_event -> ssn_server -> W -> list api_call).

(** The event loop; [runs] are the coming readings of [isRunning()]. *)
Fixpoint SsnService_svc (signals : nat) (runs : list bool) s w : option (Z * SsnService * W) :=
  match runs with
  | true :: runs =>
    match node_ s with
    | None => Some (0, s, w)
    | Some n =>
      match ssn_node_poll user fire g signals n 100 w with
      | Some (_, n, w) => SsnService_svc signals runs (svc_set_node s (Some n)) w
      | None => None
      end
    end
  | _ => Some (0, s, w)
  end.

(** The service as the object of a [ServiceBase]: [e] are the readings of the
    coming initialisation, [creatable] whether its thread can be made. *)
Definition in_world {A} (f : SsnService -> W -> option (A * SsnService * W)) (dflt : A)
  : obj (option (SsnService * W)) A := fun d =>
  match d with
  | Some (s, w) => match f s w with Some (a, s, w) => (Ret a, Some (s, w)) | None => (Ret dflt, None) end
  | None => (Ret dflt, None)
  end.
Definition service_virtuals (e : init_env) (creatable : nat) : virtuals (option (SsnService * W)) :=
  mk_virtuals
    (in_world (SsnService_OnInit e) false)
    (in_world (fun s w => match SsnService_OnShutdown s w with Some (s, w) => Some (tt, s, w) | None => None end) tt)
    (in_world (fun s w => let '((ok, waits), t) := activate 1 creatable (task_ s) in
                          Some (ok, svc_set_task s (if waits then joined t else t), w)) false)
    (in_world (fun s w => Some (tt, svc_set_task s (joined (requestShutdown (task_ s))), w)) tt).
End json.
