(* ===== verification/SsnServiceClaims.v ===== *)
(** * JSON service: claims

    What an initialisation leaves behind on every path, and what becomes of each
    request: answered, dropped with its connection, or lost in an exception. *)
From Stdlib Require Import String.
From stdpp Require Import sorting.
From S2P Require Import Prelude FrameCodec HashTable ErrorCode Os Transport Address FrameSend EventPair Server ServerTable ServerProps ServerTheorems ServerPubSub ClientPending Client ClientProps ClientTheorems ClientClaims EndToEnd Node NodeProps NodeClaims Service Json SsnService.
#[local] Open Scope Z_scope.

(** ** Methods of the server below *)

Definition only_methods (s s' : ssn_server) : Prop :=
  exists cs d ph pt nn, s' = with_methods s cs d ph pt nn.
#[global] Instance only_methods_preorder : PreOrder only_methods.
Proof.
  split.
  - intros s. exists (cmds s), (def_cmd s), (prefix_h s), (prefix_t s), (next_node s). by destruct s.
  - intros s1 s2 s3 (a & b & c & d & e & ->) (a' & b' & c' & d' & e' & ->). by exists a', b', c', d', e'.
Qed.

(** Every method is the service's callback. *)
Definition is_rpc (c : ssn_server_cmd_t) : Prop := cmd_onrpc c = RPC_CB.
Definition rpc_only (s : ssn_server) : Prop :=
  (forall h, Forall is_rpc (cmd_bucket s h)) /\ Forall is_rpc (prefix_h s) /\
  match def_cmd s with Some c => is_rpc c | None => True end.

Lemma find_exact_in l u c : find_exact l u = Some c -> c ∈ l.
Proof. induction l as [|x l IH]; cbn; [done|]. case_bool_decide; intros E; [simplify_eq; left|right; auto]. Qed.
Lemma find_prefix_in l u c : find_prefix l u = Some c -> c ∈ l.
Proof. induction l as [|x l IH]; cbn; [done|]. destruct (path_covers _ _); intros E; [simplify_eq; left|right; auto]. Qed.

Lemma match_rpc s u : rpc_only s -> is_Some (def_cmd s) -> exists c, ssn_server_cmd_match s u = Some c /\ is_rpc c.
Proof.
  intros (Hb & Hp & Hd) [c Hc]. unfold ssn_server_cmd_match.
  destruct (find_exact _ u) as [x|] eqn:E1.
  { exists x. split; [done|]. specialize (Hb (ssn_server_url_hash u)). rewrite Forall_forall in Hb. by eapply Hb, find_exact_in. }
  destruct (find_prefix _ u) as [x|] eqn:E2.
  { exists x. split; [done|]. rewrite Forall_forall in Hp. by eapply Hp, find_prefix_in. }
  rewrite Hc in *. by exists c.
Qed.

Lemma add_rpc k ok s url arg :
  server_inv k s -> add_safe s url -> rpc_only s ->
  exists b s', ssn_server_add_method ok s url RPC_CB arg = Some (b, s') /\ server_inv k s' /\ only_methods s s' /\
    rpc_only s' /\ (is_Some (def_cmd s) -> is_Some (def_cmd s')) /\
    (b = true -> checked_url url = Some kCatchAllUrl -> is_Some (def_cmd s')).
Proof.
  intros Hi Hsafe Hr. destruct (add_method_inv k ok s url RPC_CB arg Hi Hsafe) as (b & s' & E & Hi' & _). exists b, s'. split; [done|].
  split; [done|]. revert E. unfold ssn_server_add_method, add_safe in *. destruct Hr as (Hb & Hp & Hd).
  destruct (srv_valid s); cbn [negb]; [|by intros; simplify_eq].
  destruct (checked_url url) as [u|]; [|by intros; simplify_eq]. cbn [RPC_CB Z.eqb].
  destruct ok; cbn [negb]; [|by intros; simplify_eq].
  destruct (is_default u) eqn:Edef.
  { intros; simplify_eq. split; [by do 5 eexists|]. split; [done|]. cbn. eauto. }
  assert (u <> kCatchAllUrl) as Hne by (intros ->; done).
  destruct (is_prefix u).
  { rewrite insert_to_fifo_ok by exact (Hsafe eq_refl). intros; simplify_eq.
    split; [by do 5 eexists|]. split; [|by split; [|intros _ [=]]]. split; [done|]. split; [|done]. cbn. apply Forall_app.
    by split; [|repeat constructor]. }
  intros; simplify_eq. split; [by do 5 eexists|]. split; [|by split; [|intros _ [=]]]. split; [|done].
  intros h. destruct (inv_methods k s Hi) as (Hlen & _). rewrite cmd_bucket_insert by (done || apply url_hash_lt).
  destruct (decide _); [|done]. constructor; [done|apply Hb].
Qed.

(** The texts of the C layer's methods. *)
Definition as_ref (u : bytes) : option ssn_url_ref_t := Some (mk_url_ref (Some u) (zlen u)).
Lemma checked_as_ref u : checked_url (as_ref u) = if (zlen u =? 0) then None else if nth 0 u 0 =? SLASH then Some u else None.
Proof. cbn. by rewrite ztake_ge by lia. Qed.

(** URLs that can be registered: none of them is a directory. *)
Definition plain_url (u : bytes) : Prop := nth 0 u 0 = SLASH /\ trailing_slash u = false.
Definition registered (m : gmap bytes JsonHandler) : Prop := forall u h, m !! u = Some h -> plain_url u.

Lemma plain_not_prefix u : plain_url u -> is_prefix u = false.
Proof.
  intros [Hs Ht]. unfold is_prefix, is_default, trailing_slash in *. destruct u as [|x u]; [done|].
  destruct (Z.eqb_spec (zlen (x :: u)) 1); [done|]. cbn [negb andb].
  destruct (Z.gtb_spec (zlen (x :: u)) 1) as [|Hle]; [by cbn [andb] in Ht|]. unfold zlen in *. cbn [length] in *. lia.
Qed.

Lemma add_methods_spec alloc urls : forall n s,
  node_inv n -> live n -> nd_server n = Some s -> tail_ok s -> rpc_only s ->
  exists b n' s', add_methods alloc urls n = Some (b, n') /\ n' = nd_set_server n (Some s') /\ server_inv 0 s' /\
    only_methods s s' /\ rpc_only s' /\ (is_Some (def_cmd s) -> is_Some (def_cmd s')) /\
    (b = true -> kCatchAllUrl ∈ urls -> is_Some (def_cmd s')).
Proof.
  induction urls as [|u urls IH]; intros n s Hn Hl Es Ht Hr; cbn [add_methods].
  { exists true, n, s. split; [done|]. split; [destruct n; cbn in *; by rewrite Es|].
    split; [by eapply server_live|]. do 3 (split; [done|]). by intros _ ?%elem_of_nil. }
  pose proof (server_live n s Hn Hl Es) as Hs.
  destruct (add_rpc 0 (alloc u) s (as_ref u) SELF Hs (tail_add_safe s _ Ht) Hr) as (b & s1 & E & Hs1 & Ho1 & Hr1 & Hd1 & Hc1).
  pose proof (add_method_tail _ _ _ _ _ _ _ Ht E) as Ht1.
  unfold ssn_node_add_rpc_method, on_server. cbn [RPC_CB Z.eqb]. rewrite Es, (inv_live 0 s Hs).
  fold (as_ref u). rewrite E. destruct b.
  2:{ eexists _, _, s1. split; [done|]. split; [done|]. by split_and!. }
  destruct (IH (nd_set_server n (Some s1)) s1) as (b & n' & s' & -> & -> & Hs' & Ho' & Hr' & Hd' & Hc'); [|by split; [apply Hs1|apply Hl]|done|done|done|].
  { eapply inv_server; [done..|by left]. }
  exists b, (nd_set_server n (Some s')), s'. split; [done|]. split; [done|]. split; [done|]. split; [by trans s1|]. split; [done|].
  split; [auto|]. intros -> [<-|Hin]%elem_of_cons; [|by apply Hc']. apply Hd', Hc1; [done|]. by rewrite checked_as_ref.
Qed.

Lemma remove_only_methods s url : only_methods s (ssn_server_remove_method s url).
Proof.
  unfold ssn_server_remove_method. destruct (negb _); [done|]. destruct (checked_url url) as [u|]; [|done].
  destruct (is_default u); [by do 5 eexists|]. destruct (is_prefix u); by do 5 eexists.
Qed.

Lemma remove_methods_spec urls : forall n s,
  node_inv n -> live n -> nd_server n = Some s -> Forall plain_url urls ->
  exists n' s', remove_methods urls n = Some n' /\ n' = nd_set_server n (Some s') /\ server_inv 0 s' /\ only_methods s s'.
Proof.
  induction urls as [|u urls IH]; intros n s Hn Hl Es Hu; cbn [remove_methods].
  { exists n, s. split; [done|]. split; [destruct n; cbn in *; by rewrite Es|]. by split; [eapply server_live|]. }
  apply Forall_cons in Hu as [Hu Hus]. pose proof (server_live n s Hn Hl Es) as Hs.
  unfold ssn_node_remove_rpc_method, on_server. rewrite Es, (inv_live 0 s Hs). fold (as_ref u).
  assert (server_inv 0 (ssn_server_remove_method s (as_ref u))) as Hs1.
  { by apply remove_method_inv. }
  destruct (IH (nd_set_server n (Some (ssn_server_remove_method s (as_ref u)))) (ssn_server_remove_method s (as_ref u)))
    as (n' & s' & -> & -> & Hs' & Ho); [eapply inv_server; [done..|by left]|by split; [apply Hs1|apply Hl]|done|done|].
  exists (nd_set_server n (Some s')), s'. split; [done|]. split; [done|]. split; [done|].
  trans (ssn_server_remove_method s (as_ref u)); [apply remove_only_methods|done].
Qed.

Lemma urls_plain m : registered m -> Forall plain_url (collect_urls m ++ [kCatchAllUrl]).
Proof.
  intros Hm. apply Forall_app. split; [|by repeat constructor]. apply Forall_forall. intros u Hu.
  unfold collect_urls in Hu. rewrite merge_sort_Permutation in Hu. apply list_elem_of_fmap in Hu as ([u' h] & -> & Hin).
  apply elem_of_map_to_list in Hin. by eapply Hm.
Qed.
Lemma builtins_registered m : registered m -> registered (with_builtins m).
Proof.
  intros Hm u h. unfold with_builtins. rewrite !lookup_insert_Some.
  intros [[<- _]|[_ [[<- _]|[_ [[<- _]|[_ Hl]]]]]]; [by split..|by eapply Hm].
Qed.

(** ** Start and stop of the node below *)

Section node.
Context {W : Type} `{OsLaws W}.
Context (fire : client_event -> ssn_client -> W -> option (ssn_client * W)).
Implicit Types (n : ssn_node) (w : W).

(** A server just started has no methods. *)
Lemma started_bare g late junk n w n1 w1 :
  nd_state n = SSN_NODE_STATE_STOPPED -> has_cap n SSN_NODE_CAP_SERVER = true -> 0 <= junk < 2 ^ 32 ->
  ssn_node_start g late junk n w = Some (true, n1, w1) ->
  exists s, nd_server n1 = Some s /\ rpc_only s /\ tail_ok s /\ nd_state n1 = SSN_NODE_STATE_ACTIVE.
Proof.
  intros Est Hcap Hj. unfold ssn_node_start. rewrite Est, Hcap.
  set (opts := Some _). pose proof (create_descriptors late (create_server_address (nd_config n)) opts w Hj) as Hc.
  destruct (ssn_server_create_with_options _ _ _ w) as [[s|] w2]; [|done]. destruct Hc as (Es & _).
  destruct (new_server_facts (create_server_address (nd_config n)) opts (srv_evt s)) as (_ & _ & _ & Ht & _).
  rewrite <- Es in Ht. pose proof (start_descriptors g s w2 Ht) as Hd. destruct (ssn_server_start g s w2) as [[ok s2] w3].
  destruct Hd as (t & -> & _). destruct ok; [|by destruct (ssn_server_destroy _ _) as [[? ?]|]].
  destruct (os_time w3) as [now w4]. intros; simplify_eq. eexists. split; [done|].
  rewrite Es. unfold new_server. destruct (match opts with Some _ => _ | None => _ end) as [[[st hs] ka] mc].
  split; [|done]. split; [|done]. intros h. unfold cmd_bucket. cbn [cmds with_transport]. by rewrite nth_replicate_nil.
Qed.

Lemma stop_life n w b n' w' :
  ssn_node_stop fire n w = Some (b, n', w') ->
  nd_valid n' = nd_valid n /\ nd_freed n' = nd_freed n /\ nd_ref_count n' = nd_ref_count n.
Proof.
  unfold ssn_node_stop, on_server, on_client. intros E. repeat case_match; simplify_eq; done.
Qed.

(** Destroying a node that is not active touches nothing. *)
Lemma destroy_quiet n w :
  nd_freed n = false -> nd_valid n = true -> nd_ref_count n = 1 -> nd_state n <> SSN_NODE_STATE_ACTIVE ->
  exists n', ssn_node_destroy fire n w = Some (n', w).
Proof.
  intros Hf Hv Hr Hs. unfold ssn_node_destroy. rewrite Hf, Hv, Hr. cbn [negb nd_ref_count nd_set_life Z.sub Z.gtb Z.compare nd_state].
  destruct (nd_state n); [|done|]; by eexists.
Qed.

(** Giving up a node whose server has accepted nobody. *)
Lemma stop_destroy_closes n w s :
  node_inv n -> nd_state n = SSN_NODE_STATE_ACTIVE -> nd_client n = None -> nd_server n = Some s ->
  server_inv 0 s -> srv_valid s = true -> ref_count s = 1 -> concat (clis s) = [] -> 0 <= evt_fd (srv_evt s) ->
  exists w', stop_destroy fire n w = Some w' /\ os_open w' = os_open w ∖ opened s ∖ {[evt_fd (srv_evt s)]}.
Proof.
  intros Hn Est Ecl Es Hi Hv Hr Hc He. unfold stop_destroy.
  destruct (stop_closes fire n w s Est Ecl Es Hi Hv Hr Hc He) as (n2 & w2 & E & Est2 & Ho). rewrite E.
  destruct (stop_life n w true n2 w2 E) as (Hv2 & Hf2 & Hr2). destruct (ni_live n Hn) as (? & ? & ?).
  destruct (destroy_quiet n2 w2) as [n3 ->]; [congruence..|]. by exists w2.
Qed.
End node.

(** ** Initialisation *)

(** The server behind the service: it has accepted nobody and every request
    reaches the service. *)
Definition fresh_server (s : ssn_server) : Prop :=
  server_inv 0 s /\ srv_valid s = true /\ ref_count s = 1 /\ concat (clis s) = [] /\ 0 <= evt_fd (srv_evt s).
Lemma fresh_methods s s' : fresh_server s -> only_methods s s' -> server_inv 0 s' ->
  fresh_server s' /\ opened s' = opened s /\ srv_evt s' = srv_evt s.
Proof. intros (_ & ? & ? & ? & ?) (cs & d & ph & pt & nn & ->) Hi. by split_and!. Qed.

Definition serves (s : SsnService) (n : ssn_node) (sv : ssn_server) : Prop :=
  node_ s = Some n /\ node_inv n /\ live n /\ nd_state n = SSN_NODE_STATE_ACTIVE /\ nd_client n = None /\
  nd_server n = Some sv /\ fresh_server sv /\ rpc_only sv /\ is_Some (def_cmd sv).

Section init.
Context {J : Type} `{Json J} {W : Type} `{OsLaws W}.
Context (fire : client_event -> ssn_client -> W -> option (ssn_client * W)) (g : factory).
Implicit Types (s : SsnService) (w : W).

Lemma service_node e cfg n :
  ssn_node_create (ie_calloc e) (ie_mutex e) (ie_host e) (ie_sec e) (ie_usec e) (Some cfg) = Some n ->
  nc_capabilities cfg = 7 -> nd_client n = None /\ has_cap n SSN_NODE_CAP_SERVER = true.
Proof.
  unfold ssn_node_create. destruct (ie_calloc e), (ie_mutex e); try done. cbn [negb]. intros [= <-] Hc.
  split; [done|]. unfold has_cap. cbn [capabilities]. by rewrite Hc.
Qed.

Lemma set_node_same s : node_ s = None -> svc_set_node s None = s.
Proof. destruct s. cbn. by intros ->. Qed.

Lemma init_spec e s w :
  node_ s = None -> 0 <= ie_junk e < 2 ^ 32 ->
  exists b s' w', SsnService_OnInit fire g e s w = Some (b, s', w') /\
    if b then methods_ s' = with_builtins (methods_ s) /\ task_ s' = task_ s /\
              exists n sv, serves s' n sv /\ os_open w' ∖ opened sv ∖ {[evt_fd (srv_evt sv)]} = os_open w
    else node_ s' = None /\ os_open w' = os_open w.
Proof.
  intros Hnone Hj. unfold SsnService_OnInit. rewrite Hnone, set_node_same by done.
  destruct (ssn_node_create _ _ _ _ _ _) as [n|] eqn:Ec; [|by eexists false, _, _].
  destruct (new_node_inv _ _ _ _ _ _ _ Ec) as (Hn & Hl & Est). destruct (service_node e _ n Ec eq_refl) as [Ecl Hcap].
  destruct (start_good g (ie_late e) (ie_junk e) n w Hn Hl Hj) as (b & n1 & w1 & E & Hn1 & Hl1 & Hb & _).
  destruct (start_opens g (ie_late e) (ie_junk e) n w Hn Est Ecl Hj) as (b' & n1' & w1' & E' & Ecl1 & Hopen).
  rewrite E in E'. simplify_eq. rewrite E. destruct b'.
  2:{ destruct Hb as [Est1 _]. destruct (ni_live n1' Hn1) as (Hv & Hf & Hr).
      destruct (destroy_quiet fire n1' w1' Hf Hv Hr) as [n2 ->]; [congruence|]. by eexists false, _, _. }
  destruct (started_bare g _ _ n w n1' w1' Est Hcap Hj E) as (sv & Es & Hrpc & Htail & Est1). rewrite Es in Hopen.
  destruct Hopen as (Hsi & Hsv & Hsr & Hsc & Hse & Ho).
  unfold ssn_node_set_connect_handler, on_server. rewrite Es, (inv_live 0 sv Hsi).
  set (sv1 := ssn_server_set_connect_handler sv (Some (CONNECT_CB, SELF))).
  assert (server_inv 0 sv1) as Hsi1 by (destruct Hsi; by split).
  set (n2 := nd_set_server n1' (Some sv1)).
  assert (node_inv n2) as Hn2 by (eapply inv_server; [done|exact Es|by left]).
  assert (live n2) as Hl2 by (split; [apply Hsi1|apply Hl1]).
  set (urls := collect_urls _ ++ _).
  destruct (add_methods_spec (ie_alloc e) urls n2 sv1 Hn2 Hl2 eq_refl Htail Hrpc)
    as (b & n3 & sv2 & -> & -> & Hsi2 & Hom & Hrpc2 & _ & Hdef).
  destruct (fresh_methods sv1 sv2) as (Hfr & Hop & Hev); [by split_and!|done|done|].
  assert (node_inv (nd_set_server n2 (Some sv2))) as Hn3 by (eapply inv_server; [done|done|by left]).
  assert (opened sv1 = opened sv /\ srv_evt sv1 = srv_evt sv) as [Ho1 He1] by done.
  destruct b.
  - eexists true, _, _. split; [done|]. split; [done|]. split; [done|]. exists (nd_set_server n2 (Some sv2)), sv2.
    split; [|by rewrite Hop, Hev, Ho1, He1]. split; [done|]. split; [done|].
    split; [by split; [apply Hsi2|apply Hl1]|]. do 4 (split; [done|]). split; [done|]. apply Hdef; [done|].
    unfold urls. set_solver.
  - destruct Hfr as (? & ? & ? & ? & ?).
    destruct (stop_destroy_closes fire (nd_set_server n2 (Some sv2)) w1' sv2) as (w2 & -> & Hw2); try done.
    eexists false, _, _. split; [done|]. split; [done|]. by rewrite Hw2, Hop, Hev, Ho1, He1.
Qed.

Lemma shutdown_spec s n sv w :
  serves s n sv -> registered (methods_ s) ->
  exists s' w', SsnService_OnShutdown fire s w = Some (s', w') /\ node_ s' = None /\ threads_ (task_ s') = [] /\
    running_ (task_ s') = false /\ os_open w' = os_open w ∖ opened sv ∖ {[evt_fd (srv_evt sv)]}.
Proof.
  intros (En & Hn & Hl & Est & Ecl & Es & Hf & _) Hreg. unfold SsnService_OnShutdown. rewrite En. cbn [methods_ svc_set_task].
  destruct (remove_methods_spec _ n sv Hn Hl Es (urls_plain _ Hreg)) as (n' & sv' & -> & -> & Hi' & Hom).
  destruct (fresh_methods sv sv' Hf Hom Hi') as ((? & ? & ? & ? & ?) & Hop & Hev).
  destruct (stop_destroy_closes fire (nd_set_server n (Some sv')) w sv') as (w2 & -> & Hw2); try done.
  { eapply inv_server; [done|done|by left]. }
  eexists _, _. split; [done|]. split; [done|]. split; [done|]. split; [done|]. by rewrite Hw2, Hop, Hev.
Qed.
End init.

(** ** Registration *)

Inductive register_op := RegisterJson (url : bytes) (f : Z) | Unregister (url : bytes).
Definition register_step (s : SsnService) (o : register_op) : SsnService :=
  match o with RegisterJson url f => (registerJson s url f).2 | Unregister url => (unregister s url).2 end.

Lemma register_plain s o : registered (methods_ s) -> registered (methods_ (register_step s o)).
Proof.
  intros Hr. destruct o as [url f|url]; cbn.
  - unfold registerJson. destruct (Z.eqb_spec (nth 0 url 0) SLASH); [|done]. destruct (f =? 0); [done|]. cbn [negb orb].
    destruct (trailing_slash url) eqn:Et; [done|]. destruct (reserved url); [done|].
    destruct (methods_ s !! url); [done|]. cbn. intros u h [[<- _]|[_ Hl]]%lookup_insert_Some; [by split|by eapply Hr].
  - unfold unregister. destruct (trailing_slash url); [done|]. cbn. intros u h [_ Hl]%lookup_delete_Some. by eapply Hr.
Qed.
Lemma registers_plain ops s : registered (methods_ s) -> registered (methods_ (foldl register_step s ops)).
Proof. revert s. induction ops as [|o ops IH]; intros s Hs; cbn; [done|]. by apply IH, register_plain. Qed.
Lemma register_node s o : node_ (register_step s o) = node_ s.
Proof.
  destruct o as [url f|url]; cbn; unfold registerJson, unregister; repeat case_match; done.
Qed.
Lemma registers_node ops s : node_ (foldl register_step s ops) = node_ s.
Proof. revert s. induction ops as [|o ops IH]; intros s; cbn; [done|]. by rewrite IH, register_node. Qed.

(** ** Answers *)

Section answers.
Context {J : Type} `{Json J} {W : Type} `{OsLaws W}.
Context (app : Z -> J -> W -> handler_result (J := J)).
Implicit Types (s : SsnService) (w : W).

(** What a request for [u] with the payload [d] is answered: status and body. *)
Definition answer_of s (u d : bytes) w : Z * J :=
  match methods_ s !! u with
  | None => (kStatusFail, make_error kErrMethodNotFound MSG_NOT_FOUND)
  | Some h =>
    match (match d with [] => Some (jobject []) | _ => parse d end) with
    | None => (kStatusFail, make_error kErrJsonParse MSG_PARSE)
    | Some req =>
      match call_handler app s h req w with
      | Answer j => (kStatusOk, j)
      | StdException => (kStatusFail, make_error kErrHandlerException MSG_EXCEPTION)
      | OtherException => (kStatusFail, make_error kErrHandlerException MSG_UNKNOWN)
      end
    end
  end.

Definition counted s : SsnService := svc_set_counts s (connections_ s) (u64 (messages_ s + 1)).

Lemma url_part_text u : ref_text (FrameCodec.url (url_part u)) (url_len (url_part u)) = u.
Proof.
  unfold ref_text, url_part. cbn. destruct u as [|x u]; [done|]. rewrite (proj2 (Z.eqb_neq _ _)) by (unfold zlen; cbn; lia).
  apply ref_bytes_all.
Qed.
Lemma data_part_text d : ref_text (FrameCodec.data (data_part d)) (length_ (data_part d)) = d.
Proof. apply url_part_text. Qed.

Lemma handle_answers s id hdr u d w :
  handleRpc app s id (Some hdr) (Some (url_part u)) (Some (data_part d)) w
  = (respond id (answer_of (counted s) u d w).1 (ssn_get_seqno hdr) (answer_of (counted s) u d w).2, counted s).
Proof.
  unfold handleRpc. rewrite url_part_text, data_part_text. fold (counted s). unfold answer_of.
  destruct (methods_ (counted s) !! u) as [h|]; [|done]. destruct (match d with [] => _ | _ => _ end); [|done].
  by destruct (call_handler _ _ _ _).
Qed.

Definition same_methods (sv sv' : ssn_server) : Prop :=
  cmds sv' = cmds sv /\ prefix_h sv' = prefix_h sv /\ def_cmd sv' = def_cmd sv.
Lemma same_methods_rpc sv sv' :
  same_methods sv sv' -> rpc_only sv -> is_Some (def_cmd sv) -> rpc_only sv' /\ is_Some (def_cmd sv').
Proof. intros (E1 & E2 & E3). unfold rpc_only, cmd_bucket. by rewrite E1, E2, E3. Qed.

(** The world in which the callback of a request runs: that after the receive. *)
Definition after_receive (cli : ssn_server_cli_t) w : W :=
  (ssn_transport_recv (cli_transport cli) SSN_MAX_PACKET_SIZE 0 w).2.
Definition body_ref (body : bytes) : option ssn_data_ref_t := Some (mk_data_ref (Some body) (zlen body)).
Lemma body_refused body : refused None (body_ref body) <-> SSN_MAX_PAYLOAD_SIZE < zlen body.
Proof.
  unfold refused, body_ref. cbn. pose proof (zlen_nonneg body). unfold SSN_MAX_PAYLOAD_SIZE, SSN_MAX_PACKET_SIZE, SSN_HEADER_SIZE.
  split; [|lia]. intros [?|[?|[(? & ? & _)|(? & ? & _)]]]; done || lia.
Qed.

(** The server hands a request to the service, and its answer back. *)
Lemma serve_response memory k sv id cli p st j body rfds w :
  server_inv k sv -> srv_valid sv = true -> rpc_only sv -> is_Some (def_cmd sv) ->
  packet_ok p -> p_type p = SSN_MSG_TYPE_RPC_REQUEST -> p_url p !! 0%nat = Some SLASH ->
  answer_of (counted (memory (after_receive cli w))) (p_url p) (p_data p) (after_receive cli w) = (st, j) ->
  dump j = Some body -> zlen body < 2 ^ 63 -> server_gets sv id cli (wire p) rfds w ->
  exists sv' w', ssn_server_handle_client_input (service_user app memory) sv id rfds w = Some (sv', w') /\
    server_inv k sv' /\
    (zlen body <= SSN_MAX_PAYLOAD_SIZE -> sent_to (frame SSN_MSG_TYPE_RPC_REQUEST st (p_seqno p) [] body) id cli w sv' w') /\
    (SSN_MAX_PAYLOAD_SIZE < zlen body -> dropped id cli w sv' w').
Proof.
  intros Hi Hv Hr Hd Hp Ht Hu Hans Hb Hlen Hg. destruct (match_rpc sv (p_url p) Hr Hd) as (cmd & Hm & Hrpc).
  pose proof (zlen_nonneg body). assert (refs_ok None (body_ref body)) by (split; [done|cbn; lia]).
  destruct (receive_responds (service_user app memory) k sv id cli p cmd st (body_ref body) rfds w)
    as (sv' & w' & E & Hi' & [Hs Hdr] & _); try done.
  - intros s1. unfold service_user. rewrite Hrpc, Z.eqb_refl, handle_answers. unfold after_receive in Hans. rewrite Hans.
    unfold respond. cbn [fst snd]. rewrite Hb. by destruct (packet_fields p Hp) as (_ & _ & -> & _).
  - exists sv', w'. split; [done|]. split; [done|]. change (data_bytes (body_ref body)) with (ref_bytes (Some body) (zlen body)) in Hs.
    rewrite body_refused in Hs, Hdr. rewrite ref_bytes_all in Hs. split; [|done]. intros ?. apply Hs. lia.
Qed.
Lemma serve_json memory k sv id cli p st j body rfds w :
  server_inv k sv -> srv_valid sv = true -> rpc_only sv -> is_Some (def_cmd sv) ->
  packet_ok p -> p_type p = SSN_MSG_TYPE_RPC_REQUEST -> p_url p !! 0%nat = Some SLASH ->
  (forall w, answer_of (counted (memory w)) (p_url p) (p_data p) w = (st, j)) -> dump j = Some body ->
  zlen body <= SSN_MAX_PAYLOAD_SIZE -> server_gets sv id cli (wire p) rfds w ->
  exists sv' w', ssn_server_handle_client_input (service_user app memory) sv id rfds w = Some (sv', w') /\
    server_inv k sv' /\ sent_to (frame SSN_MSG_TYPE_RPC_REQUEST st (p_seqno p) [] body) id cli w sv' w'.
Proof.
  intros Hi Hv Hr Hd Hp Ht Hu Hans Hb Hlen Hg.
  destruct (serve_response memory k sv id cli p st j body rfds w) as (sv' & w' & E & Hi' & Hs & _); try done.
  { unfold SSN_MAX_PAYLOAD_SIZE, SSN_MAX_PACKET_SIZE, SSN_HEADER_SIZE in Hlen. lia. }
  exists sv', w'. split_and!; auto.
Qed.

(** The message in an error answer can be read back from its text. *)
Context `{!JsonLaws J}.
Lemma error_clean code msg : utf8 msg = true -> clean (make_error code msg).
Proof.
  intros Hm. apply clean_object; [|apply NoDup_singleton]. apply Forall_singleton. split; [done|]. apply clean_object.
  - apply Forall_cons. split; [split; [done|apply clean_number]|]. apply Forall_singleton. split; [done|by apply clean_string].
  - apply NoDup_cons. split; [|apply NoDup_singleton]. by rewrite list_elem_of_singleton.
Qed.
Lemma error_fields code msg :
  jfield (str "error") (make_error (J := J) code msg) ≫= jfield (str "message") = Some (jstring msg).
Proof.
  unfold make_error. rewrite jfield_object. cbn [find fst]. rewrite bool_decide_true by done. cbn [fmap option_fmap option_map snd mbind option_bind].
  rewrite jfield_object. cbn [find fst]. by rewrite bool_decide_false, bool_decide_true.
Qed.
End answers.

(** ** Claims *)

(** C16.  Initialisation is all or nothing.  After any registrations on a new
    service, whatever fails on the way (memory, sockets, a method that cannot be
    registered), [OnInit] answers; when it fails no node is left and the open
    descriptors are those of before; when it succeeds the service has an active
    node whose server hands every request to the service, and a shutdown, then or with
    whatever threads the service was given since (the join waits for their end),
    leaves no thread, drops the node and closes what was opened. *)
Theorem service_init_all_or_nothing {W} `{OsLaws W} (fire : client_event -> ssn_client -> W -> option (ssn_client * W))
    (g : factory) (host : bytes) (port : Z) (ops : list register_op) (e : init_env) (w : W) :
  0 <= ie_junk e < 2 ^ 32 ->
  let s := foldl register_step (listenTcp new_service host port) ops in
  exists b s' w', SsnService_OnInit fire g e s w = Some (b, s', w') /\
    if b
    then methods_ s' = with_builtins (methods_ s) /\ (exists n sv, serves s' n sv) /\
         forall t, exists s2 w2, SsnService_OnShutdown fire (svc_set_task s' t) w' = Some (s2, w2) /\ node_ s2 = None /\
           threads_ (task_ s2) = [] /\ os_open w2 = os_open w
    else node_ s' = None /\ os_open w' = os_open w.
Proof.
  intros Hj s. assert (node_ s = None) as Hn by (unfold s; by rewrite registers_node).
  assert (registered (methods_ s)) as Hreg by (apply registers_plain; intros u h Hl; by cbn in Hl).
  destruct (init_spec fire g e s w Hn Hj) as (b & s' & w' & E & Hout). exists b, s', w'. split; [done|].
  destruct b; [|done]. destruct Hout as (Hm & _ & n & sv & Hs & Ho). split; [done|]. split; [by exists n, sv|].
  intros t. destruct (shutdown_spec fire (svc_set_task s' t) n sv w' Hs) as (s2 & w2 & E2 & ? & ? & _ & Ho2).
  { cbn. rewrite Hm. by apply builtins_registered. }
  exists s2, w2. split; [done|]. split; [done|]. split; [done|]. by rewrite Ho2.
Qed.

(** C17.  What becomes of every request.  On the server of an initialised service,
    with its methods untouched, take the receive that completes a request whose URL
    starts with a slash, and the answer of the service in the world of that moment:
    status 0 and the method's result, or status 1 and the error 1001 for a URL that
    is not in the table, 1002 for a payload that is not JSON, 1003 for a method that
    throws.  Exactly one of three things happens.  The answer has a text of at most
    [SSN_MAX_PAYLOAD_SIZE] bytes: one answer with the request's number and this text
    is written to the request's connection (as far as the kernel takes it; what it
    does not take closes the connection).  The text is longer: nothing is written
    and the connection is closed.  The answer has no text ([dump] throws): the
    exception leaves the callback and no answer is made. *)
Theorem service_answers_requests {J} `{Json J} {W} `{OsLaws W} (app : Z -> J -> W -> handler_result (J := J))
    (fire : client_event -> ssn_client -> W -> option (ssn_client * W)) (g : factory) (e : init_env)
    (s s' : SsnService) (w0 w1 : W) (n : ssn_node) (sv0 sv : ssn_server) (memory : W -> SsnService) (k id : Z)
    (cli : ssn_server_cli_t) (p : packet) (rfds : list Z) (w : W) :
  node_ s = None -> 0 <= ie_junk e < 2 ^ 32 -> SsnService_OnInit fire g e s w0 = Some (true, s', w1) ->
  node_ s' = Some n -> nd_server n = Some sv0 ->
  server_inv k sv -> srv_valid sv = true -> same_methods sv0 sv ->
  packet_ok p -> p_type p = SSN_MSG_TYPE_RPC_REQUEST -> p_url p !! 0%nat = Some SLASH ->
  server_gets sv id cli (wire p) rfds w ->
  let wc := after_receive cli w in
  let answer := answer_of app (counted (memory wc)) (p_url p) (p_data p) wc in
  match dump answer.2 with
  | Some body =>
    zlen body < 2 ^ 63 ->
    exists sv' w', ssn_server_handle_client_input (service_user app memory) sv id rfds w = Some (sv', w') /\
      server_inv k sv' /\
      (zlen body <= SSN_MAX_PAYLOAD_SIZE ->
         sent_to (frame SSN_MSG_TYPE_RPC_REQUEST answer.1 (p_seqno p) [] body) id cli w sv' w') /\
      (SSN_MAX_PAYLOAD_SIZE < zlen body -> dropped id cli w sv' w')
  | None =>
    (handleRpc app (memory wc) id (Some (header_of_bytes (wire p))) (Some (url_part (p_url p)))
       (Some (data_part (p_data p))) wc).1 = Throw
  end.
Proof.
  intros Hn Hj E En Es Hi Hv Hsame Hp Ht Hu Hg wc answer.
  destruct (init_spec fire g e s w0 Hn Hj) as (b & s2 & w2 & E2 & Hout).
  rewrite E in E2. simplify_eq. destruct Hout as (_ & _ & n' & sv' & (En' & _ & _ & _ & _ & Es' & _ & Hr & Hd) & _).
  simplify_eq. destruct (same_methods_rpc sv0 sv Hsame Hr Hd). destruct (dump answer.2) as [body|] eqn:Hb.
  - intros Hlen. eapply serve_response; try done. apply surjective_pairing.
  - rewrite handle_answers. fold wc answer. cbn [fst]. unfold respond. by rewrite Hb.
Qed.

(** [dump] is called outside the [try] of the handler: an answer that is not UTF-8
    makes it throw, and the exception leaves the callback through the C layer
    instead of being answered with 1003. *)
Theorem undumpable_answer_escapes {J} `{Json J} {W} `{OsLaws W} (app : Z -> J -> W -> handler_result (J := J))
    (s : SsnService) (id f : Z) (hdr : ssn_header_t) (u : bytes) (w : W) (j : J) :
  methods_ s !! u = Some (HUser f) -> app f (jobject []) w = Answer j -> dump j = None ->
  handleRpc app s id (Some hdr) (Some (url_part u)) (Some (data_part [])) w = (Throw, counted s).
Proof.
  intros Hm Ha Hd. rewrite handle_answers. unfold answer_of. cbn [methods_ counted svc_set_counts]. rewrite Hm.
  cbn [call_handler]. rewrite Ha. cbn [fst snd]. unfold respond. by rewrite Hd.
Qed.

(** ** Witnesses *)

(** A service with the method [/a], which echoes what it is asked. *)
Local Abbreviation fire := (fire_at (W := sim_world) silent_user 2).
Definition demo_app : Z -> tree -> sim_world -> handler_result (J := tree) := fun _ req _ => Answer req.
Definition demo_init_env : init_env := mk_init_env true true None 0 0 true 0 (fun _ => true).
Definition demo_service : SsnService := foldl register_step (listenTcp new_service (str "127.0.0.1") 18888) [RegisterJson (str "/a") 7].
Definition demo_initialised : option (bool * SsnService * sim_world) :=
  SsnService_OnInit fire demo_factory demo_init_env demo_service (sim_init [] []).
Definition demo_running : SsnService := match demo_initialised with Some (_, s, _) => s | None => demo_service end.
Definition demo_node_server : ssn_server :=
  match node_ demo_running with Some n => default demo_server (nd_server n) | None => demo_server end.
Definition demo_busy_server : ssn_server :=
  match ssn_server_cli_init demo_node_server (demo_transport 5) new_recv with Some s => s | None => demo_node_server end.
Definition demo_busy_cli : ssn_server_cli_t := mk_cli false false [] 3000 true new_recv (demo_transport 5) 0.
Definition demo_json : tree := jstring (str "x").
Definition demo_body : bytes := default [] (dump demo_json).
Definition demo_request : packet := mk_packet SSN_MSG_TYPE_RPC_REQUEST 0 3 (str "/a") demo_body.

Lemma service_init_all_or_nothing_witness :
  exists s' w', SsnService_OnInit fire demo_factory demo_init_env demo_service (sim_init [] []) = Some (true, s', w') /\
    exists s2 w2, SsnService_OnShutdown fire (svc_set_task s' (mk_task true false [Ended])) w' = Some (s2, w2) /\
      node_ s2 = None /\ sim_open w2 = ∅.
Proof.
  destruct (service_init_all_or_nothing fire demo_factory (str "127.0.0.1") 18888 [RegisterJson (str "/a") 7] demo_init_env
    (sim_init [] []) ltac:(cbn; lia)) as (b & s' & w' & E & Hout).
  assert (b = true) as ->.
  { assert ((fun r => r.1.1) <$> demo_initialised = Some true) as E2 by (vm_compute; reflexivity).
    unfold demo_initialised, demo_service in E2. rewrite E in E2. injection E2 as E2. exact E2. }
  exists s', w'. split; [exact E|]. destruct Hout as (_ & _ & Hshut). destruct (Hshut (mk_task true false [Ended])) as (s2 & w2 & E2 & Hn & _ & Ho). exists s2, w2. by split_and!.
Defined.

Lemma demo_running_init : exists w, demo_initialised = Some (true, demo_running, w).
Proof.
  assert ((fun r => r.1.1) <$> demo_initialised = Some true) as E by (vm_compute; reflexivity).
  unfold demo_running. destruct demo_initialised as [[[b s] w]|]; [|discriminate E]. cbn in E. injection E as ->. by exists w.
Qed.
Lemma demo_running_serves : exists n, node_ demo_running = Some n /\
  exists sv, demo_node_server = sv /\ nd_server n = Some sv /\ server_inv 0 sv /\ rpc_only sv /\ is_Some (def_cmd sv).
Proof.
  destruct demo_running_init as [w E].
  destruct (init_spec fire demo_factory demo_init_env demo_service (sim_init [] []) eq_refl ltac:(cbn; lia))
    as (b & s' & w' & E2 & Hout). unfold demo_initialised in E. rewrite E in E2. unfold demo_node_server.
  generalize dependent demo_running. intros r E E2. injection E2 as <- <- <-.
  destruct Hout as (_ & _ & n & sv & (En & _ & _ & _ & _ & Es & (Hi & _) & Hr & Hd) & _). exists n. split; [exact En|].
  exists sv. split; [by rewrite En, Es|]. by split_and!.
Qed.
Lemma demo_busy_inv : server_inv 0 demo_busy_server.
Proof.
  destruct demo_running_serves as (n & En & sv & Esv & Es & Hi & _). rewrite <- Esv in Hi.
  destruct (cli_init_inv 0 demo_node_server (demo_transport 5) Hi) as (id & s2 & E2 & Hi2 & _);
    [vm_compute; reflexivity|vm_compute; reflexivity|]. unfold demo_busy_server. by rewrite E2.
Qed.

Lemma service_answers_requests_witness :
  exists sv' w', ssn_server_handle_client_input (service_user demo_app (fun _ => demo_running)) demo_busy_server 0 [5]
                   (demo_inbox [wire demo_request]) = Some (sv', w') /\
    sent_to (frame SSN_MSG_TYPE_RPC_REQUEST 0 3 [] demo_body) 0 demo_busy_cli (demo_inbox [wire demo_request]) sv' w'.
Proof.
  destruct demo_running_init as [w1 Einit]. destruct demo_running_serves as (n & En & sv & Esv & Es & _).
  pose proof (service_answers_requests demo_app fire demo_factory demo_init_env demo_service demo_running (sim_init [] []) w1 n
    demo_node_server demo_busy_server (fun _ => demo_running) 0 0 demo_busy_cli demo_request [5]
    (demo_inbox [wire demo_request])) as Hall. cbv beta zeta in Hall.
  assert (answer_of demo_app (counted demo_running) (p_url demo_request) (p_data demo_request)
            (after_receive demo_busy_cli (demo_inbox [wire demo_request])) = (0, demo_json)) as Ea by (vm_compute; reflexivity).
  assert (dump demo_json = Some demo_body) as Eb by (vm_compute; reflexivity).
  rewrite Ea in Hall. cbn [fst snd] in Hall. rewrite Eb in Hall. destruct Hall as (sv' & w' & E & _ & Hs & _).
  - reflexivity.
  - cbn. lia.
  - exact Einit.
  - exact En.
  - rewrite Esv. exact Es.
  - exact demo_busy_inv.
  - vm_compute. reflexivity.
  - vm_compute. split; [reflexivity|]. split; reflexivity.
  - apply rpc_packet_ok; [lia|lia|]. vm_compute. split; discriminate.
  - reflexivity.
  - reflexivity.
  - split; [vm_compute; reflexivity|]. split; [vm_compute; discriminate|]. split; [vm_compute; by left|].
    eexists (wire demo_request), _, _. split; [vm_compute; reflexivity|]. split; vm_compute; reflexivity.
  - vm_compute. reflexivity.
  - exists sv', w'. split; [exact E|]. apply Hs. vm_compute. discriminate.
Defined.

Lemma undumpable_answer_escapes_witness :
  handleRpc (J := tree) (fun _ _ (_ : sim_world) => Answer (jstring [255])) demo_running 0 (Some (ssn_create_header 1 0 3))
    (Some (url_part (str "/a"))) (Some (data_part [])) (sim_init [] []) = (Throw, counted demo_running).
Proof.
  apply (undumpable_answer_escapes (fun _ _ (_ : sim_world) => Answer (jstring [255])) demo_running 0 7
    (ssn_create_header 1 0 3) (str "/a") (sim_init [] []) (jstring [255])); vm_compute; reflexivity.
Defined.
