(* ===== verification/SsnClient.v ===== *)
(** * JSON client ([src/src/framework/SsnClient.cpp], [SsnClient.hpp])

    A client with a node and a thread of its own that polls it.

    - [state_mutex_], [reply_mutex_] and [subs_mutex_] are held for single accesses;
      [call_mutex_] serialises the application's calls, so there is one caller.  A
      step of the polling thread is its look at [connected_] or one poll; the
      application's calls that block ([callJson] for the answer, [disconnect] for
      the thread) are two steps.  [SsnClientLife] has any number of callers and cuts
      the functions wherever another thread can get in between; what the functions of
      one node do to each other while they run side by side is the subject of [Locks],
      [LockOrder] and [Races].
    - The callbacks run inside operations of the node and, as the header demands,
      call nothing of it.  They are worked off after the operation from the history
      [fired] of its client, in their order; those made while the node is torn
      down, which nobody waits for any more, are left out.
    - [sc_messages] is a history variable: the handlers called, with topic and
      payload.
    - [None] is undefined behaviour: a node that is gone is used, or a running
      thread object is overwritten. *)
From Stdlib Require Import String.
From S2P Require Import Prelude FrameCodec HashTable ErrorCode Os Transport Address FrameSend EventPair Server ClientPending Client ClientClaims Node Service Json SsnService.
#[local] Open Scope Z_scope.

(** The callbacks given to the node. *)
Definition REPLY_CB : Z := 11.
Definition MSG_CB : Z := 12.

(** Where the polling thread stands; [ThExited] is not joined yet. *)
Inductive poll_thread := ThNone | ThHead | ThPoll | ThExited.
#[global] Instance poll_thread_dec : EqDecision poll_thread.
Proof. solve_decision. Defined.

Record SsnClient (J : Type) := mk_sc {
  sc_node : option ssn_node;
  peer_ : bytes;
  connected_ : bool;
  reply_pending_ : bool;
  reply_data_ : J;
  subs_ : gmap bytes Z;
  poll_thread_ : poll_thread;
  sc_messages : list (Z * bytes * J);
}.
Arguments mk_sc {J}. Arguments sc_node {J}. Arguments peer_ {J}. Arguments connected_ {J}. Arguments reply_pending_ {J}.
Arguments reply_data_ {J}. Arguments subs_ {J}. Arguments poll_thread_ {J}. Arguments sc_messages {J}.

Section updates.
Context {J : Type}.
Implicit Types c : SsnClient J.
Definition sc_set_node c n := mk_sc n (peer_ c) (connected_ c) (reply_pending_ c) (reply_data_ c) (subs_ c)
  (poll_thread_ c) (sc_messages c).
Definition sc_set_conn c p b := mk_sc (sc_node c) p b (reply_pending_ c) (reply_data_ c) (subs_ c)
  (poll_thread_ c) (sc_messages c).
Definition sc_set_reply c b d := mk_sc (sc_node c) (peer_ c) (connected_ c) b d (subs_ c) (poll_thread_ c) (sc_messages c).
Definition sc_set_subs c m := mk_sc (sc_node c) (peer_ c) (connected_ c) (reply_pending_ c) (reply_data_ c) m
  (poll_thread_ c) (sc_messages c).
Definition sc_set_thread c t := mk_sc (sc_node c) (peer_ c) (connected_ c) (reply_pending_ c) (reply_data_ c) (subs_ c) t
  (sc_messages c).
Definition sc_add_message c m := mk_sc (sc_node c) (peer_ c) (connected_ c) (reply_pending_ c) (reply_data_ c) (subs_ c)
  (poll_thread_ c) (sc_messages c ++ [m]).
End updates.

Section json.
Context {J : Type} `{Json J}.
Implicit Types c : SsnClient J.

(** [null]: the value of a [json] that was not assigned. *)
Definition new_client_object (null : J) : SsnClient J := mk_sc None [] false false null ∅ ThNone [].

(** ** Callbacks *)

(** The payload of a reference; what cannot be parsed is the empty object. *)
Definition payload_of (d : ssn_data_ref_t) : J :=
  match ref_text (FrameCodec.data d) (length_ d) with
  | [] => jobject []
  | text => default (jobject []) (parse text)
  end.

Definition handleReply c (reply : option (ssn_header_t * ssn_data_ref_t)) : SsnClient J :=
  match reply with
  | None => sc_set_reply c false (reply_data_ c)
  | Some (_, d) => sc_set_reply c true (payload_of d)
  end.

Definition handleMsg c (url : ssn_url_ref_t) (d : ssn_data_ref_t) : SsnClient J :=
  match ref_text (FrameCodec.url url) (url_len url) with
  | [] => c
  | topic =>
    match subs_ c !! topic with
    | None => c
    | Some h => sc_add_message c (h, topic, payload_of d)
    end
  end.

Definition handle_event c (e : client_event) : SsnClient J :=
  match e with
  | EvReply cb _ r => if cb =? REPLY_CB then handleReply c r else c
  | EvMsg cb _ u d => if cb =? MSG_CB then handleMsg c u d else c
  | EvResult _ _ _ => c
  end.

(** The events between two states of the node. *)
Definition events_of (n : ssn_node) : list client_event :=
  match nd_client n with Some cl => fired cl | None => [] end.
Definition new_events (n n' : ssn_node) : list client_event := drop (length (events_of n)) (events_of n').
Definition after_node c (n n' : ssn_node) : SsnClient J := foldl handle_event (sc_set_node c (Some n')) (new_events n n').

(** The error message of an answer, empty if there is none; [Throw] when the
    field is not a string. *)
Definition error_message_of (resp : J) : exc bytes :=
  match jfield (str "error") resp ≫= jfield (str "message") with
  | Some m => match jget_string m with Some t => Ret t | None => Throw end
  | None => Ret []
  end.

Context {W : Type} `{OsOps W}.
Context (g : factory).
Implicit Types w : W.
Local Abbreviation fire := (fire_at (W := W) silent_user 2).
(** The node of a client has no server. *)
Definition no_user : server_event -> ssn_server -> W -> list api_call := fun _ _ _ => [].

(** ** Connecting *)

Definition client_node_config : ssn_node_config_t :=
  mk_node_config [] (str "client") (str "SsnClient") [] 0
    (Z.lor (Z.lor SSN_NODE_CAP_CLIENT SSN_NODE_CAP_RPC) SSN_NODE_CAP_PUBSUB) 0 0 0 0.

(** [thread_ok]: the thread can be made. *)
Definition connect (e : init_env) (thread_ok : bool) c (peer_address : bytes) w : option (bool * SsnClient J * W) :=
  if connected_ c then Some (false, c, w)
  else
    match ssn_node_create (ie_calloc e) (ie_mutex e) (ie_host e) (ie_sec e) (ie_usec e) (Some client_node_config) with
    | None => Some (false, c, w)
    | Some n =>
      match ssn_node_start g (ie_late e) (ie_junk e) n w with
      | None => None
      | Some (false, n, w) =>
        match ssn_node_destroy fire n w with Some (_, w) => Some (false, c, w) | None => None end
      | Some (true, n, w) =>
        let c := sc_set_conn (sc_set_node c (Some n)) peer_address true in
        if thread_ok
        then if decide (poll_thread_ c = ThNone) then Some (true, sc_set_thread c ThHead, w) else None
        else match stop_destroy fire n w with
        | None => None
        | Some w => Some (false, sc_set_conn (sc_set_node c None) [] false, w)
        end
      end
    end.

(** [disconnect] up to the join, and after it.  The first answers whether there
    is anything to wait for. *)
Definition disconnect_begin c : bool * SsnClient J :=
  if connected_ c then (true, sc_set_conn c (peer_ c) false) else (false, c).
Definition disconnect_end c w : option (SsnClient J * W) :=
  let n := sc_node c in
  let c := sc_set_node (sc_set_thread c ThNone) None in
  match n with
  | None => Some (c, w)
  | Some n => match stop_destroy fire n w with Some w => Some (c, w) | None => None end
  end.

(** ** Calling *)

(** [callJson] up to the wait; [Ret true]: the request is on its way. *)
Definition callJson_begin (late_ok : bool) c (url : bytes) (req : J) (timeout_ms : Z) w
  : option (exc bool * SsnClient J * W) :=
  if negb (connected_ c) then Some (Ret false, c, w)
  else match sc_node c with
  | None => Some (Ret false, c, w)
  | Some n =>
    match dump req with
    | None => Some (Throw, c, w)
    | Some body =>
      let c := sc_set_reply c false (reply_data_ c) in
      match ssn_node_rpc_call fire g late_ok n (Some (c_str (peer_ c))) (Some (mk_url_ref (Some url) (zlen url)))
              (Some (mk_data_ref (Some body) (zlen body))) REPLY_CB SELF timeout_ms w with
      | None => None
      | Some (r, n', w) => Some (Ret (r =? 0), after_node c n n', w)
      end
    end
  end.
(** The end of the wait: an answer is there, or the time is over. *)
Definition callJson_end c : exc bool * option J :=
  if reply_pending_ c then
    match error_message_of (reply_data_ c) with
    | Throw => (Throw, Some (reply_data_ c))
    | Ret [] => (Ret true, Some (reply_data_ c))
    | Ret _ => (Ret false, Some (reply_data_ c))
    end
  else (Ret false, None).

(** ** Subscriptions *)

(** [handler] is 0 for an empty function. *)
Definition subscribe (late_ok : bool) c (topic : bytes) (handler timeout_ms : Z) w : option (bool * SsnClient J * W) :=
  if negb (nth 0 topic 0 =? SLASH) || (handler =? 0) then Some (false, c, w)
  else if negb (connected_ c) then Some (false, c, w)
  else match sc_node c with
  | None => Some (false, c, w)
  | Some n =>
    let c := sc_set_subs c (<[topic := handler]> (subs_ c)) in
    match ssn_node_subscribe fire g late_ok n (Some (c_str (peer_ c))) (Some (mk_url_ref (Some topic) (zlen topic)))
            MSG_CB SELF timeout_ms w with
    | None => None
    | Some (ok, n', w) =>
      let c := after_node c n n' in
      Some (ok, if ok then c else sc_set_subs c (delete topic (subs_ c)), w)
    end
  end.
Definition unsubscribe c (topic : bytes) w : option (bool * SsnClient J * W) :=
  let c := sc_set_subs c (delete topic (subs_ c)) in
  match sc_node c with
  | None => Some (false, c, w)
  | Some n =>
    match ssn_node_unsubscribe fire n (Some (mk_url_ref (Some topic) (zlen topic))) 5000 w with
    | None => None
    | Some (ok, n', w) => Some (ok, after_node c n n', w)
    end
  end.

(** ** The polling thread *)

Definition pollLoop_step (signals : nat) c w : option (SsnClient J * W) :=
  match poll_thread_ c with
  | ThHead => Some (sc_set_thread c (if connected_ c then ThPoll else ThExited), w)
  | ThPoll =>
    match sc_node c with
    | None => None
    | Some n =>
      match ssn_node_poll no_user fire g signals n 100 w with
      | None => None
      | Some (_, n', w) => Some (sc_set_thread (after_node c n n') ThHead, w)
      end
    end
  | _ => Some (c, w)
  end.
End json.
