(* ===== verification/SsnClientClaims.v ===== *)
(** * JSON client: theorems

    The application's calls, the polling thread, the timer thread and the world as
    one system of steps, in which a poll and a call of the node are one step each; what
    a call makes of the answers of a service. *)
From Stdlib Require Import String.
From S2P Require Import Prelude FrameCodec HashTable ErrorCode Os Transport Address FrameSend EventPair Server ServerTable ServerProps ServerTheorems ClientPending Client ClientProps ClientTheorems ClientClaims ClientLive Node NodeProps NodeClaims EndToEnd Service Json SsnService SsnServiceClaims SsnClient.
#[local] Open Scope Z_scope.

(** ** The node under callbacks that call nothing *)

Definition client_stands (n : ssn_node) : Prop :=
  match nd_client n with Some c => cl_valid c = true | None => True end.
(** What no operation but start, stop and destroy changes. *)
Definition stays (n n' : ssn_node) : Prop :=
  nd_server n' = nd_server n /\ nd_state n' = nd_state n /\ capabilities n' = capabilities n /\
  (client_stands n -> client_stands n').
#[global] Instance stays_preorder : PreOrder stays.
Proof.
  split; [by intros n|]. intros n1 n2 n3 (? & ? & ? & ?) (? & ? & ? & ?). unfold stays. split_and!; [congruence..|auto].
Qed.

Lemma stays_client n c c' : nd_client n = Some c -> cl_valid c' = cl_valid c -> stays n (nd_set_client n (Some c')).
Proof. intros E Hv. unfold stays, client_stands. rewrite E. cbn. split_and!; [done..|congruence]. Qed.
Lemma stays_times n t a : stays n (nd_set_times n t a).
Proof. done. Qed.
Lemma stays_peer n p : stays n (nd_set_peer n p).
Proof. done. Qed.

Lemma standing_live n : node_inv n -> nd_server n = None -> client_stands n -> NodeProps.live n.
Proof.
  intros Hi Hs Hc. unfold NodeProps.live. rewrite Hs. split; [done|]. unfold client_stands in Hc.
  pose proof (ni_client n Hi) as Hk. unfold client_ok in Hk. destruct (nd_client n) as [c|]; [|done].
  destruct Hk as (_ & [Hk|(_ & ? & _)]); [apply (ci_live 0 c Hk)|congruence].
Qed.

Section node.
Context {W : Type} `{OsLaws W}.
Context (g : factory).
Implicit Types (n : ssn_node) (w : W).
Local Abbreviation fire := (fire_at (W := W) silent_user 2).

Lemma silent_gentle e c w : Forall gentle (silent_user (W := W) e c w).
Proof. constructor. Qed.
Local Definition fsteady := fire_steady (W := W) silent_user silent_gentle 2.

Lemma connect_to_peer_stays late n peer w b n' w' :
  connect_to_peer late n peer w = Some (b, n', w') -> stays n n'.
Proof.
  unfold connect_to_peer. assert (forall c, ssn_client_create late w = c -> match c.1 with Some c => cl_valid c = true | None => True end) as Hnew.
  { unfold ssn_client_create. intros c <-. destruct (os_calloc w) as [[] w1]; [|done]. cbn [negb].
    destruct (ipc_event_pair_create w1) as [[e|] w2]; [|done]. by destruct late. }
  unfold ssn_node_get_client. destruct (nd_client n) as [c|] eqn:Ec.
  - destruct (cl_freed c); [done|]. pose proof (stays_client n c (ssn_client_ref c) Ec eq_refl) as Hs.
    repeat case_match; intros ?; by simplify_eq.
  - destruct (has_cap n SSN_NODE_CAP_CLIENT); [|intros ?; by simplify_eq].
    specialize (Hnew _ eq_refl). destruct (ssn_client_create late w) as [[c|] w1]; [|intros ?; by simplify_eq]. cbn in Hnew.
    destruct (cl_freed c); [done|]. repeat case_match; intros ?; by simplify_eq.
Qed.

Lemma ensure_stays n peer w b n' w' :
  held_node n -> client_stands n -> node_ensure_connected fire g n peer w = Some (b, n', w') -> stays n n'.
Proof.
  intros (_ & _ & c & Ec & Hc) Hv. unfold client_stands in Hv. unfold node_ensure_connected, on_client. rewrite Ec in *.
  rewrite (ci_live 1 c Hc). destruct (ssn_client_is_connect c); [intros ?; by simplify_eq|].
  pose proof (inv_weaken 1 0 c ltac:(lia) Hc) as Hc0.
  destruct (connect_alive silent_user silent_gentle 0 g c peer (Some (3, 0)) w (conj Hc0 Hv)) as (b1 & c1 & w1 & -> & [_ Hv1] & _).
  pose proof (stays_client n c c1 Ec ltac:(congruence)) as Hs.
  destruct b1; intros ?; simplify_eq; [|done]. by etrans; [|apply stays_peer].
Qed.

Lemma unref_stays n w n' w' : unref_node_client fire n w = Some (n', w') -> stays n n'.
Proof.
  unfold unref_node_client, on_client. destruct (nd_client n) as [c|] eqn:Ec; [|done]. destruct (cl_freed c); [done|].
  destruct (ssn_client_unref fire c w) as [[c1 w1]|] eqn:E; [|done]. apply (unref_steady _ fsteady) in E as [Hv _].
  intros ?; simplify_eq. by eapply stays_client.
Qed.

Lemma with_peer_stays late n peer op w r n' w' :
  node_inv n -> NodeProps.live n -> client_stands n ->
  (forall c w r c' w', op c w = Some (r, c', w') -> cl_valid c' = cl_valid c) ->
  with_peer fire g late n peer op w = Some (r, n', w') -> stays n n'.
Proof.
  intros Hi Hl Hv Hop. unfold with_peer.
  assert (forall (b : bool) n1 w1, stays n n1 ->
    match unref_node_client fire n1 w1 with Some (n, w) => Some (b, n, w) | None => None end = Some (r, n', w') -> stays n n') as Hfin.
  { intros b n1 w1 Hs E. destruct (unref_node_client fire n1 w1) as [[n2 w2]|] eqn:Eu; [|done]. apply unref_stays in Eu.
    simplify_eq. by etrans. }
  destruct (connect_to_peer_good late n peer w Hi Hl) as (b & n1 & w1 & E1 & H1). rewrite E1.
  apply connect_to_peer_stays in E1. destruct b; [|intros ?; by simplify_eq].
  destruct (ensure_good silent_user 0 g n1 peer w1 H1) as (b & n2 & w2 & E2 & H2). rewrite E2.
  apply ensure_stays in E2; [|done|by apply E1]. assert (stays n n2) as Hs2 by (by etrans).
  destruct b; [|by apply Hfin]. pose proof H2 as (_ & _ & c & Ec & Hc). unfold on_client. rewrite Ec, (ci_live 1 c Hc).
  destruct (op c w2) as [[[r1 c1] w3]|] eqn:Eo; [|done]. apply Hop in Eo.
  assert (stays n (nd_set_client n2 (Some c1))) as Hs3 by (etrans; [exact Hs2|by eapply stays_client]).
  destruct r1; [|by apply Hfin]. destruct (os_time w3) as [now w4]. apply Hfin. by etrans; [|apply stays_times].
Qed.

(** Operations that neither start nor stop the node nor replace its client. *)
Definition gentle_op (o : node_op) : Prop :=
  match o with NPoll _ _ | NSubscribe _ _ _ _ _ _ | NUnsubscribe _ _ | NCall _ _ _ _ _ _ _ | NClientTick => True | _ => False end.

Lemma op_stays o n w n' w' :
  node_inv n -> nd_server n = None -> client_stands n -> gentle_op o ->
  run_op no_user silent_user 0 g o n w = Some (n', w') -> stays n n'.
Proof.
  intros Hi Hsv Hv Hg. pose proof (standing_live n Hi Hsv Hv) as Hl.
  destruct o; try done; cbn [run_op]; unfold drop_result.
  - unfold ssn_node_poll, on_server. destruct (nd_client n) as [c|] eqn:Ec; cbn [nd_server nd_set_client nd_client];
      rewrite Hsv; unfold on_client; cbn [nd_client nd_set_client]; [|rewrite Ec; intros ?; by simplify_eq].
    pose proof (client_live n c Hi Hl Ec) as Hc. cbn [cl_freed ssn_client_ref cl_set_ref]. destruct (cl_freed c); [done|].
    destruct (ssn_client_poll fire _ timeout_ms w) as [[[r c1] w1]|] eqn:E1; [|done].
    apply (poll_steady _ silent_gentle 2) in E1 as [Hv1 _]; [|apply (ci_recv 0 c Hc)].
    destruct (ssn_client_unref fire c1 w1) as [[c2 w2]|] eqn:E2; [|done]. apply (unref_steady _ fsteady) in E2 as [Hv2 _].
    intros ?; simplify_eq. apply (stays_client n c); [done|]. by rewrite Hv2, Hv1.
  - destruct peer as [p|]; [|by intros [= <- <-]]. destruct url as [u|]; [|by intros [= <- <-]].
    cbn [ssn_node_subscribe]. destruct (callback =? 0); [intros ?; by simplify_eq|].
    destruct (with_peer _ _ _ _ _ _ _) as [[[r n1] w1]|] eqn:E; [|done]. intros ?; simplify_eq.
    eapply with_peer_stays; [..|exact E]; try done. intros c w0 r0 c0 w0' E0.
    by apply (subscribe_steady _ fsteady) in E0 as [? _].
  - unfold ssn_node_unsubscribe. destruct url as [u|]; [|intros ?; by simplify_eq]. unfold on_client.
    destruct (nd_client n) as [c|] eqn:Ec; [|intros ?; by simplify_eq]. destruct (cl_freed c) eqn:Hf; [done|].
    destruct (ssn_client_unsubscribe fire c (Some u) timeout_ms w) as [[[r c1] w1]|] eqn:E; [|done].
    assert (stays n (nd_set_client n (Some c1))) as Hs.
    { apply (stays_client n c); [done|]. apply (call_steady _ fsteady (CcUnsubscribe (Some u) timeout_ms) c w c1 w1 I).
      unfold run_client_call. by rewrite Hf, E. }
    destruct r; [destruct (os_time w1)|]; intros ?; by simplify_eq.
  - destruct peer as [p|]; [|by intros [= <- <-]]. destruct url as [u|]; [|by intros [= <- <-]].
    cbn [ssn_node_rpc_call]. destruct (with_peer _ _ _ _ _ _ _) as [[[r n1] w1]|] eqn:E; [|done]. intros ?; simplify_eq.
    eapply with_peer_stays; [..|exact E]; try done. intros c w0 r0 c0 w0' E0. unfold nonneg_result in E0.
    destruct (ssn_client_call fire c (Some u) data callback arg timeout_ms w0) as [[[r1 c1] w2]|] eqn:E1; [|done]. simplify_eq.
    unfold ssn_client_call, ssn_client_call_ex in E1. destruct (_ || _); [by simplify_eq|].
    destruct (checked_url _); [|by simplify_eq].
    destruct (send_request _ _ _ _ _ _ _ _ _ _) as [[[[r2 s2] c2] w2]|] eqn:E2; [|done].
    apply (request_steady _ fsteady) in E2 as [? _]. by simplify_eq.
  - unfold on_client. destruct (nd_client n) as [c|] eqn:Ec; [|intros ?; by simplify_eq]. destruct (cl_freed c); [done|].
    intros ?; simplify_eq. apply (stays_client n c); [done|]. unfold ssn_client_timer_tick. by repeat case_match.
Qed.

(** The node of a connected client. *)
Record client_node n : Prop := {
  cn_inv : node_inv n;
  cn_server : nd_server n = None;
  cn_state : nd_state n = SSN_NODE_STATE_ACTIVE;
  cn_client : client_stands n;
}.

Lemma gentle_op_total o n w :
  client_node n -> gentle_op o -> op_ok o n w ->
  exists n' w', run_op no_user silent_user 0 g o n w = Some (n', w') /\ client_node n'.
Proof.
  intros [Hi Hs Hst Hc] Hg Ho. pose proof (standing_live n Hi Hs Hc) as Hl.
  destruct (op_total no_user silent_user 0 g (fun _ _ _ => I) silent_ok o n w Hi Hl Ho ltac:(by intros ->)) as (n' & w' & E & Hi').
  exists n', w'. split; [done|]. destruct (op_stays o n w n' w') as (E1 & E2 & _ & E3); try done.
  split; [done|congruence..|auto].
Qed.

Lemma stop_destroy_total n w : client_node n -> exists w', stop_destroy fire n w = Some w'.
Proof.
  intros [Hi Hs Hst Hc]. pose proof (standing_live n Hi Hs Hc) as Hl. unfold stop_destroy.
  destruct (stop_good silent_user 0 n w Hi Hl) as (n1 & w1 & -> & Hi1 & _ & Hst1 & _).
  destruct (ni_live n1 Hi1) as (? & ? & ?). destruct (destroy_quiet fire n1 w1) as [n2 ->]; [done..|congruence|by exists w1].
Qed.
End node.

(** ** The system *)

(** Where the application's one call stands: none is running, an answer is waited
    for, the thread is waited for. *)
Inductive client_pc := CIdle | CWaiting | CJoining.
Record client_sys (J W : Type) := mk_sys { sys_client : SsnClient J; sys_pc : client_pc; sys_world : W }.
Arguments mk_sys {J W}. Arguments sys_client {J W}. Arguments sys_pc {J W}. Arguments sys_world {J W}.

Inductive client_act (J W : Type) :=
  | DoConnect (e : init_env) (thread_ok : bool) (peer : bytes)
  | DoDisconnect
  | DoJoin
  | DoCall (late_ok : bool) (url : bytes) (req : J) (timeout_ms : Z)
  | DoCallEnd
  | DoSubscribe (late_ok : bool) (topic : bytes) (handler timeout_ms : Z)
  | DoUnsubscribe (topic : bytes)
  | DoPoll (signals : nat)
  | DoTick
  | DoWorld (w : W).
Arguments DoConnect {J W}. Arguments DoDisconnect {J W}. Arguments DoJoin {J W}. Arguments DoCall {J W}.
Arguments DoCallEnd {J W}. Arguments DoSubscribe {J W}. Arguments DoUnsubscribe {J W}. Arguments DoPoll {J W}.
Arguments DoTick {J W}. Arguments DoWorld {J W}.

Definition running (t : poll_thread) : Prop := t = ThHead \/ t = ThPoll.

Section system.
Context {J : Type} `{Json J} {W : Type} `{OsLaws W}.
Context (g : factory).
Implicit Types (c : SsnClient J) (w : W) (s : client_sys J W) (a : client_act J W).

(** [call_mutex_] lets one call of the application run at a time; a join waits
    for the thread's end. *)
Definition enabled a s : Prop :=
  match a with
  | DoConnect _ _ _ | DoDisconnect | DoCall _ _ _ _ | DoSubscribe _ _ _ _ | DoUnsubscribe _ => sys_pc s = CIdle
  | DoJoin => sys_pc s = CJoining /\ ~ running (poll_thread_ (sys_client s))
  | DoCallEnd => sys_pc s = CWaiting
  | DoPoll _ => running (poll_thread_ (sys_client s))
  | DoTick | DoWorld _ => True
  end.

(** Strings have a length that is a [size_t]; descriptors fit into an [fd_set]. *)
Definition client_fits c : Prop :=
  match sc_node c with
  | Some n => match nd_client n with Some cl => fds_small cl | None => True end
  | None => True
  end.
Definition sensible a s : Prop :=
  match a with
  | DoConnect e _ _ => 0 <= ie_junk e < 2 ^ 32
  | DoCall _ url req _ => zlen url < 2 ^ 63 /\ (forall b, dump req = Some b -> zlen b < 2 ^ 63)
  | DoSubscribe _ topic _ _ | DoUnsubscribe topic => zlen topic < 2 ^ 63
  | DoPoll _ => client_fits (sys_client s)
  | _ => True
  end.

Definition timer_step c w : option (SsnClient J * W) :=
  match sc_node c with
  | None => Some (c, w)
  | Some n => match run_op no_user silent_user 0 g NClientTick n w with
              | Some (n', w) => Some (sc_set_node c (Some n'), w)
              | None => None
              end
  end.

Definition run_act a s : option (client_sys J W) :=
  let c := sys_client s in
  let w := sys_world s in
  match a with
  | DoConnect e ok peer =>
    match connect g e ok c peer w with Some (_, c, w) => Some (mk_sys c CIdle w) | None => None end
  | DoDisconnect => let '(wait, c) := disconnect_begin c in Some (mk_sys c (if wait then CJoining else CIdle) w)
  | DoJoin => match disconnect_end c w with Some (c, w) => Some (mk_sys c CIdle w) | None => None end
  | DoCall late url req ms =>
    match callJson_begin g late c url req ms w with
    | Some (Ret true, c, w) => Some (mk_sys c CWaiting w)
    | Some (_, c, w) => Some (mk_sys c CIdle w)
    | None => None
    end
  | DoCallEnd => Some (mk_sys c CIdle w)
  | DoSubscribe late topic h ms =>
    match subscribe g late c topic h ms w with Some (_, c, w) => Some (mk_sys c CIdle w) | None => None end
  | DoUnsubscribe topic =>
    match unsubscribe c topic w with Some (_, c, w) => Some (mk_sys c CIdle w) | None => None end
  | DoPoll signals => match pollLoop_step g signals c w with Some (c, w) => Some (mk_sys c (sys_pc s) w) | None => None end
  | DoTick => match timer_step c w with Some (c, w) => Some (mk_sys c (sys_pc s) w) | None => None end
  | DoWorld w => Some (mk_sys c (sys_pc s) w)
  end.

Inductive sys_reach : client_sys J W -> Prop :=
  | reach_new null w : sys_reach (mk_sys (new_client_object null) CIdle w)
  | reach_act a s s' : sys_reach s -> enabled a s -> sensible a s -> run_act a s = Some s' -> sys_reach s'.

(** *** Invariant *)

Definition node_up c : Prop := exists n, sc_node c = Some n /\ client_node n.
Definition up c : Prop := connected_ c = true /\ node_up c /\ running (poll_thread_ c).
Definition down c : Prop := connected_ c = false /\ sc_node c = None /\ poll_thread_ c = ThNone.
Definition leaving c : Prop := connected_ c = false /\ node_up c /\ poll_thread_ c <> ThNone.
Definition sys_inv s : Prop :=
  match sys_pc s with
  | CIdle => up (sys_client s) \/ down (sys_client s)
  | CWaiting => up (sys_client s)
  | CJoining => leaving (sys_client s)
  end.

Lemma event_keeps c e :
  sc_node (handle_event c e) = sc_node c /\ connected_ (handle_event c e) = connected_ c /\
  poll_thread_ (handle_event c e) = poll_thread_ c.
Proof. unfold handle_event, handleReply, handleMsg. by repeat case_match. Qed.
Lemma events_keep es : forall c,
  sc_node (foldl handle_event c es) = sc_node c /\ connected_ (foldl handle_event c es) = connected_ c /\
  poll_thread_ (foldl handle_event c es) = poll_thread_ c.
Proof.
  induction es as [|e es IH]; intros c; [done|]. cbn [foldl]. destruct (IH (handle_event c e)) as (-> & -> & ->). apply event_keeps.
Qed.
Lemma after_node_keeps c n n' :
  client_node n' -> node_up (after_node c n n') /\ connected_ (after_node c n n') = connected_ c /\
  poll_thread_ (after_node c n n') = poll_thread_ c.
Proof.
  intros Hn. unfold after_node. destruct (events_keep (new_events n n') (sc_set_node c (Some n'))) as (E & -> & ->).
  split; [|done]. by exists n'.
Qed.

Lemma text_refs u : zlen u < 2 ^ 63 -> refs_ok (as_ref u) None.
Proof. intros Hu. pose proof (zlen_nonneg u). split; [|done]. cbn. lia. Qed.
Lemma body_refs u b : zlen u < 2 ^ 63 -> zlen b < 2 ^ 63 -> refs_ok (as_ref u) (Some (mk_data_ref (Some b) (zlen b))).
Proof. intros Hu Hb. pose proof (zlen_nonneg u). pose proof (zlen_nonneg b). split; cbn; lia. Qed.

Lemma connect_total e ok c peer w :
  up c \/ down c -> 0 <= ie_junk e < 2 ^ 32 ->
  exists b c' w', connect g e ok c peer w = Some (b, c', w') /\ (up c' \/ down c') /\
    (b = true -> down c /\ up c' /\ peer_ c' = peer).
Proof.
  intros Hc Hj. unfold connect. destruct Hc as [Hu|(Hn & Hno & Ht)].
  { destruct Hu as [Hcon Hu]. rewrite Hcon. eexists _, _, _. split; [done|]. split; [by left|done]. }
  rewrite Hn. destruct (ssn_node_create _ _ _ _ _ _) as [n|] eqn:En; [|eexists _, _, _; split; [done|]; split; [by right|done]].
  destruct (new_node_inv _ _ _ _ _ _ n En) as (Hi & _ & Hst).
  assert (has_cap n SSN_NODE_CAP_SERVER = false /\ nd_client n = None /\ nd_server n = None) as (Hcap & Hcl & Hsv).
  { unfold ssn_node_create in En. destruct (ie_calloc e), (ie_mutex e); try done. by injection En as <-. }
  unfold ssn_node_start. rewrite Hst, Hcap. destruct (os_time w) as [now w1]. cbn [poll_thread_ sc_set_conn sc_set_node].
  assert (client_node (nd_set_times (nd_set_state n SSN_NODE_STATE_ACTIVE) now now)) as Hcn.
  { split; [|done|done|]; [|unfold client_stands; cbn; by rewrite Hcl]. destruct Hi as [? ? ? ?]. split; try done.
    unfold server_ok. cbn. by rewrite Hsv. }
  destruct ok.
  - rewrite Ht. destruct (decide (ThNone = ThNone)); [|done]. eexists _, _, _. split; [done|].
    assert (up (sc_set_thread (sc_set_conn (sc_set_node c (Some (nd_set_times (nd_set_state n SSN_NODE_STATE_ACTIVE) now now))) peer true) ThHead)) as Hup.
    { split; [done|]. split; [by eexists|by left]. }
    split; [by left|done].
  - destruct (stop_destroy_total _ w1 Hcn) as [w2 ->]. eexists _, _, _. split; [done|]. split; [by right|done].
Qed.

Lemma json_call_total late c url req ms w :
  up c \/ down c -> zlen url < 2 ^ 63 -> (forall b, dump req = Some b -> zlen b < 2 ^ 63) ->
  exists r c' w', callJson_begin g late c url req ms w = Some (r, c', w') /\ (up c' \/ down c') /\ (r = Ret true -> up c').
Proof.
  intros Hc Hu Hb. unfold callJson_begin. destruct Hc as [(Hcon & (n & En & Hn) & Ht)|Hd].
  2:{ pose proof Hd as (Hcon & _). rewrite Hcon. eexists _, _, _. split; [done|]. split; [by right|done]. }
  rewrite Hcon, En. cbn [negb]. assert (up c) as Hup by (split; [done|split; [by exists n|done]]).
  destruct (dump req) as [b|]; [|eexists _, _, _; split; [done|]; split; [by left|done]].
  destruct (gentle_op_total g (NCall late (Some (c_str (peer_ c))) (as_ref url) (Some (mk_data_ref (Some b) (zlen b))) REPLY_CB SELF ms)
    n w Hn I (body_refs url b Hu (Hb b eq_refl))) as (n' & w' & E & Hn').
  cbn [run_op] in E. unfold drop_result in E. cbn [peer_ sc_set_reply]. unfold as_ref in E.
  destruct (ssn_node_rpc_call _ _ _ _ _ _ _ _ _ _ _) as [[[r n1] w1]|]; [|done]. injection E as -> ->.
  destruct (after_node_keeps (sc_set_reply c false (reply_data_ c)) n n' Hn') as (? & Econ & Eth).
  assert (up (after_node (sc_set_reply c false (reply_data_ c)) n n')) as Hup'.
  { split; [by rewrite Econ|]. split; [done|]. by rewrite Eth. }
  eexists _, _, _. split; [done|]. split; [by left|done].
Qed.

Lemma subscribe_total late c topic h ms w :
  up c \/ down c -> zlen topic < 2 ^ 63 ->
  exists r c' w', subscribe g late c topic h ms w = Some (r, c', w') /\ (up c' \/ down c').
Proof.
  intros Hc Hu. unfold subscribe. destruct (_ || _); [by eexists _, _, _|].
  destruct Hc as [(Hcon & (n & En & Hn) & Ht)|Hd].
  2:{ pose proof Hd as (Hcon & _). rewrite Hcon. eexists _, _, _. split; [done|]. by right. }
  rewrite Hcon, En. cbn [negb peer_ sc_set_subs].
  destruct (gentle_op_total g (NSubscribe late (Some (c_str (peer_ c))) (as_ref topic) MSG_CB SELF ms) n w Hn I (text_refs topic Hu))
    as (n' & w' & E & Hn').
  cbn [run_op] in E. unfold drop_result in E. unfold as_ref in E.
  destruct (ssn_node_subscribe _ _ _ _ _ _ _ _ _ _) as [[[r n1] w1]|]; [|done]. injection E as -> ->.
  eexists _, _, _. split; [done|]. left. set (c0 := SsnClient.sc_set_subs c _).
  destruct (after_node_keeps c0 n n' Hn') as (Hup & Econ & Eth).
  destruct r; (split; [by cbn; rewrite Econ|split; [done|by cbn; rewrite Eth]]).
Qed.

Lemma unsubscribe_total c topic w :
  up c \/ down c -> zlen topic < 2 ^ 63 ->
  exists r c' w', unsubscribe c topic w = Some (r, c', w') /\ (up c' \/ down c').
Proof.
  intros Hc Hu. unfold unsubscribe. cbn [sc_node SsnClient.sc_set_subs].
  destruct Hc as [(Hcon & (n & En & Hn) & Ht)|Hd].
  2:{ pose proof Hd as (_ & -> & _). eexists _, _, _. split; [done|]. by right. }
  rewrite En.
  destruct (gentle_op_total g (NUnsubscribe (as_ref topic) 5000) n w Hn I (text_refs topic Hu)) as (n' & w' & E & Hn').
  cbn [run_op] in E. unfold drop_result in E. unfold as_ref in E.
  destruct (ssn_node_unsubscribe _ _ _ _ _) as [[[r n1] w1]|]; [|done]. injection E as -> ->.
  eexists _, _, _. split; [done|]. left. set (c0 := SsnClient.sc_set_subs c _).
  destruct (after_node_keeps c0 n n' Hn') as (Hup & Econ & Eth). split; [by rewrite Econ|]. split; [done|by rewrite Eth].
Qed.

(** The polling thread: after a poll it looks at [connected_] again. *)
Definition thread_next c : poll_thread :=
  match poll_thread_ c with
  | ThHead => if connected_ c then ThPoll else ThExited
  | ThPoll => ThHead
  | t => t
  end.
Lemma poll_step_total signals c w :
  node_up c -> client_fits c ->
  exists c' w', pollLoop_step g signals c w = Some (c', w') /\ node_up c' /\ connected_ c' = connected_ c /\
    poll_thread_ c' = thread_next c.
Proof.
  intros (n & En & Hn) Hf. unfold pollLoop_step, thread_next, client_fits in *. rewrite En in *.
  assert (node_up c) as Hup by (by exists n).
  destruct (poll_thread_ c) eqn:Et; try (eexists _, _; by split_and!).
  assert (poll_ready n signals 100 w) as Hr.
  { unfold poll_ready. rewrite (cn_server n Hn). split; [done|]. destruct (nd_client n) as [cl|]; [by apply small_fds|done]. }
  destruct (gentle_op_total g (NPoll signals 100) n w Hn I Hr) as (n' & w' & E & Hn').
  cbn [run_op] in E. unfold drop_result in E.
  destruct (ssn_node_poll _ _ _ _ _ _ _) as [[[r n1] w1]|]; [|done]. injection E as -> ->.
  eexists _, _. split; [done|]. destruct (after_node_keeps c n n' Hn') as (Hu & Ec & _). by split_and!.
Qed.

Lemma timer_total c w :
  up c \/ down c \/ leaving c ->
  exists c' w', timer_step c w = Some (c', w') /\ (sc_node c = None -> c' = c) /\ (node_up c -> node_up c') /\
    connected_ c' = connected_ c /\ poll_thread_ c' = poll_thread_ c.
Proof.
  intros Hc. unfold timer_step. destruct (sc_node c) as [n|] eqn:En; [|by eexists _, _; split_and!].
  assert (client_node n) as Hn.
  { destruct Hc as [(_ & (m & Em & ?) & _)|[(_ & ? & _)|(_ & (m & Em & ?) & _)]]; congruence. }
  destruct (gentle_op_total g NClientTick n w Hn I I) as (n' & w' & -> & Hn').
  eexists _, _. split; [done|]. split; [done|]. split; [|done]. intros _. by exists n'.
Qed.

Lemma act_total a s :
  sys_inv s -> enabled a s -> sensible a s -> exists s', run_act a s = Some s' /\ sys_inv s'.
Proof.
  intros Hi He Hs. destruct s as [c pc w]. unfold run_act. cbn [sys_client sys_world sys_pc] in *.
  destruct a; cbn [enabled sensible sys_pc sys_client] in *.
  - subst pc. destruct (connect_total e thread_ok c peer w Hi Hs) as (b & c' & w' & -> & Hc & _). by eexists.
  - subst pc. unfold disconnect_begin.
    destruct Hi as [(Hcon & Hn & Ht)|(Hcon & Hd)]; cbn in *; rewrite Hcon; eexists.
    + split; [done|]. split; [done|]. split; [done|]. cbn. by destruct Ht as [->| ->].
    + split; [done|]. by right.
  - destruct He as [-> Ht]. destruct Hi as (Hcon & (n & En & Hn) & _). unfold disconnect_end. cbn [sys_client] in *. rewrite En.
    destruct (stop_destroy_total n w Hn) as [w' ->]. eexists. split; [done|]. by right.
  - subst pc. destruct Hs as [Hu Hb]. destruct (json_call_total late_ok c url req timeout_ms w Hi Hu Hb) as (r & c' & w' & -> & Hc & Hup).
    destruct r as [[]|]; eexists; (split; [done|]); [by apply Hup|done..].
  - subst pc. eexists. split; [done|]. by left.
  - subst pc. destruct (subscribe_total late_ok c topic handler timeout_ms w Hi Hs) as (r & c' & w' & -> & Hc). by eexists.
  - subst pc. destruct (unsubscribe_total c topic w Hi Hs) as (r & c' & w' & -> & Hc). by eexists.
  - assert (node_up c) as Hn.
    { destruct pc; cbn in Hi; [destruct Hi as [(_ & ? & _)|(_ & _ & Ht)]; [done|]|by destruct Hi as (_ & ? & _)..].
      destruct He; congruence. }
    destruct (poll_step_total signals c w Hn Hs) as (c' & w' & -> & Hn' & Ec & Et). eexists. split; [done|].
    assert (forall b : bool, connected_ c = b -> running (poll_thread_ c) -> if b then running (poll_thread_ c') else poll_thread_ c' <> ThNone) as Hth.
    { intros b Eb [E|E]; rewrite Et; unfold thread_next; rewrite E; destruct b; rewrite ?Eb; first [done | by left | by right]. }
    destruct pc; cbn in Hi |- *.
    + destruct Hi as [(Hcon & _)|(_ & _ & Ht)]; [|destruct He; congruence]. left. split; [congruence|]. split; [done|].
      by apply (Hth true).
    + destruct Hi as (Hcon & _). split; [congruence|]. split; [done|]. by apply (Hth true).
    + destruct Hi as (Hcon & _). split; [congruence|]. split; [done|]. by apply (Hth false).
  - destruct (timer_total c w) as (c' & w' & -> & Hno & Hn & Ec & Et).
    { destruct pc; cbn in Hi; tauto. }
    eexists. split; [done|]. unfold sys_inv, up, down, leaving in *. cbn in *. rewrite Ec, Et.
    destruct pc; [destruct Hi as [(? & ? & ?)|(? & E & ?)]; [left|right; rewrite (Hno E)]|..]; intuition.
  - by eexists.
Qed.

Lemma json_reach_inv s : sys_reach s -> sys_inv s.
Proof.
  induction 1 as [null w|a s s' _ IH He Hs E]; [by right|]. destruct (act_total a s IH He Hs) as (s2 & E2 & ?). congruence.
Qed.

(** *** Schedules *)

(** One allowed and defined step after the other. *)
Inductive schedule : list (client_act J W) -> client_sys J W -> client_sys J W -> Prop :=
  | schedule_nil s : schedule [] s s
  | schedule_cons a l s s1 s2 :
      enabled a s -> sensible a s -> run_act a s = Some s1 -> schedule l s1 s2 -> schedule (a :: l) s s2.

(** Steps the polling thread still makes once [connected_] is false. *)
Definition rounds (t : poll_thread) : nat := match t with ThPoll => 2 | ThHead => 1 | _ => 0 end.
Definition is_poll a : bool := match a with DoPoll _ => true | _ => false end.
Definition is_join a : bool := match a with DoJoin => true | _ => false end.

Lemma leaving_step a s s' :
  sys_inv s -> sys_pc s = CJoining -> enabled a s -> sensible a s -> is_join a = false -> run_act a s = Some s' ->
  sys_inv s' /\ sys_pc s' = CJoining /\
  rounds (poll_thread_ (sys_client s)) = ((if is_poll a then 1 else 0) + rounds (poll_thread_ (sys_client s')))%nat.
Proof.
  intros Hi Hpc He Hs Hj E. destruct (act_total a s Hi He Hs) as (s2 & E2 & Hi'). rewrite E in E2. injection E2 as <-.
  split; [done|]. destruct s as [c pc w]. cbn in Hpc. subst pc. cbn in Hi. pose proof Hi as (Hcon & Hn & _).
  destruct a; try done; unfold run_act in E; cbn [sys_client sys_world sys_pc is_poll] in *.
  - destruct (poll_step_total signals c w Hn Hs) as (c' & w' & Ep & _ & _ & Et). rewrite Ep in E. injection E as <-.
    split; [done|]. cbn [sys_client]. rewrite Et. unfold thread_next. rewrite Hcon.
    cbn in He. by destruct He as [E| E]; rewrite E.
  - destruct (timer_total c w) as (c' & w' & Ep & _ & _ & _ & Et); [tauto|]. rewrite Ep in E. injection E as <-.
    split; [done|]. cbn [sys_client]. by rewrite Et.
  - injection E as <-. done.
Qed.

Lemma leaving_schedule l s s' :
  schedule l s s' -> sys_inv s -> sys_pc s = CJoining -> forallb (fun a => negb (is_join a)) l = true ->
  sys_inv s' /\ sys_pc s' = CJoining /\
  rounds (poll_thread_ (sys_client s)) = (length (filter is_poll l) + rounds (poll_thread_ (sys_client s')))%nat.
Proof.
  induction 1 as [s|a l s s1 s2 He Hs E _ IH]; intros Hi Hpc Hj; [done|]. cbn [forallb] in Hj.
  apply andb_true_iff in Hj as [Hj Hl]. apply negb_true_iff in Hj.
  destruct (leaving_step a s s1 Hi Hpc He Hs Hj E) as (Hi1 & Hpc1 & Hr). destruct (IH Hi1 Hpc1 Hl) as (Hi2 & Hpc2 & Hr2).
  split; [done|]. split; [done|]. rewrite Hr, Hr2, filter_cons. by destruct (is_poll a).
Qed.
End system.

(** ** Claims *)

(** The JSON client's calls and its polling thread, node operation by node operation.
    In every state that calls of the application, steps of the polling thread, timer
    ticks and changes of the world can lead to, whatever the network delivers, the
    next step is defined: no node is used after it was destroyed and no running
    thread object is overwritten.  A connected client has its node and its running
    thread; one that is not connected, outside of a running [disconnect], has
    neither.  (One operation of the node is one step here; [SsnClientLife] cuts the
    client's own code finer, and [Races] shows where two operations of the C layer
    disturb each other.) *)
Theorem json_client_safe {J} `{Json J} {W} `{OsLaws W} (g : factory) (s : client_sys J W) (a : client_act J W) :
  sys_reach g s -> enabled a s -> sensible a s ->
  exists s', run_act g a s = Some s' /\ sys_reach g s' /\
    let c := sys_client s' in
    if connected_ c
    then (exists n, sc_node c = Some n /\ nd_state n = SSN_NODE_STATE_ACTIVE /\ nd_freed n = false) /\
         (poll_thread_ c = ThHead \/ poll_thread_ c = ThPoll)
    else sys_pc s' = CJoining \/ (sc_node c = None /\ poll_thread_ c = ThNone).
Proof.
  intros Hr He Hs. destruct (act_total g a s (json_reach_inv g s Hr) He Hs) as (s' & E & Hi). exists s'. split; [done|].
  split; [by eapply reach_act|]. cbv zeta.
  assert (up (sys_client s') \/ down (sys_client s') \/ (sys_pc s' = CJoining /\ leaving (sys_client s'))) as Hc.
  { unfold sys_inv in Hi. destruct (sys_pc s'); tauto. }
  destruct Hc as [(-> & (n & En & Hn) & Ht)|[(-> & ? & ?)|(Hpc & -> & _)]]; [|by right|by left].
  split; [|done]. exists n. split; [done|]. split; [apply (cn_state n Hn)|apply (ni_live n (cn_inv n Hn))].
Qed.

(** C15.  [disconnect] ends.  While it waits for the polling thread, whatever else
    happens, that thread makes at most two more steps: the poll it is in and the
    look at [connected_].  As long as it runs its next step is possible; when it
    has ended the join is, after which the client has neither node nor thread and
    can be connected again. *)
Theorem disconnect_ends {J} `{Json J} {W} `{OsLaws W} (g : factory) (s s' : client_sys J W)
    (l : list (client_act J W)) :
  sys_reach g s -> sys_pc s = CJoining -> schedule g l s s' -> forallb (fun a => negb (is_join a)) l = true ->
  (length (filter is_poll l) + rounds (poll_thread_ (sys_client s')) <= 2)%nat /\
  (rounds (poll_thread_ (sys_client s')) <> 0%nat -> forall k, enabled (DoPoll k) s') /\
  (rounds (poll_thread_ (sys_client s')) = 0%nat ->
     enabled DoJoin s' /\ exists s2, run_act g DoJoin s' = Some s2 /\ sys_pc s2 = CIdle /\
       connected_ (sys_client s2) = false /\ sc_node (sys_client s2) = None /\ poll_thread_ (sys_client s2) = ThNone).
Proof.
  intros Hr Hpc Hsch Hl. destruct (leaving_schedule g l s s' Hsch (json_reach_inv g s Hr) Hpc Hl) as (Hi' & Hpc' & Hn).
  split; [rewrite <- Hn; destruct (poll_thread_ _); cbn; lia|]. split.
  - intros Hz k. revert Hz. unfold enabled, running. destruct (poll_thread_ (sys_client s')); cbn; [done|by left|by right|done].
  - intros Hz. assert (enabled DoJoin s') as He.
    { split; [done|]. revert Hz. unfold running. destruct (poll_thread_ (sys_client s')); [|done..|]; intros _; by intros [?|?]. }
    split; [done|]. destruct (act_total g DoJoin s' Hi' He I) as (s2 & E & Hi2). exists s2. split; [done|].
    unfold run_act, disconnect_end in E. unfold sys_inv in Hi'. rewrite Hpc' in Hi'. destruct Hi' as (Hcon & _).
    destruct (sc_node (sys_client s')); [destruct (stop_destroy _ _ _)|]; simplify_eq; done.
Qed.

(** A repeated [subscribe] that fails rolls back to nothing: the handler of the
    earlier, successful subscription of the topic is gone too. *)
Theorem failed_resubscribe_drops_handler {J} `{Json J} {W} `{OsLaws W} (g : factory) (late_ok : bool) (c c' : SsnClient J)
    (topic : bytes) (h ms : Z) (w w' : W) :
  nth 0 topic 0 = SLASH -> h <> 0 -> connected_ c = true -> is_Some (sc_node c) ->
  subscribe g late_ok c topic h ms w = Some (false, c', w') -> subs_ c' !! topic = None.
Proof.
  intros Ht Hh Hc [n En]. unfold subscribe. rewrite Ht, Z.eqb_refl, (proj2 (Z.eqb_neq h 0) Hh), Hc, En. cbn [negb orb].
  destruct (ssn_node_subscribe _ _ _ _ _ _ _ _ _ _) as [[[[] n'] w1]|]; [done| |done]. intros ?; simplify_eq.
  apply lookup_delete_eq.
Qed.

(** ** Witnesses *)

Definition demo_step (a : client_act tree sim_world) (s : client_sys tree sim_world) : client_sys tree sim_world :=
  default s (run_act demo_factory a s).
Definition demo_off : client_sys tree sim_world := mk_sys (new_client_object (jobject [])) CIdle fresh_world.
Definition demo_on : client_sys tree sim_world := demo_step (DoConnect demo_init_env true demo_path) demo_off.
Definition demo_polling : client_sys tree sim_world := demo_step (DoPoll 0) demo_on.
Definition demo_leaving : client_sys tree sim_world := demo_step DoDisconnect demo_polling.

Lemma demo_step_reach a s :
  sys_reach demo_factory s -> enabled a s -> sensible a s -> sys_reach demo_factory (demo_step a s).
Proof.
  intros Hr He Hs. destruct (act_total demo_factory a s (json_reach_inv _ s Hr) He Hs) as (s' & E & _). unfold demo_step. rewrite E.
  by eapply reach_act.
Qed.
Lemma demo_on_reach : sys_reach demo_factory demo_on.
Proof. apply demo_step_reach; [apply reach_new|reflexivity|cbn; lia]. Qed.
Lemma demo_leaving_reach : sys_reach demo_factory demo_leaving.
Proof.
  apply demo_step_reach; [|reflexivity|done]. apply demo_step_reach; [apply demo_on_reach|by left|done].
Qed.

Lemma json_client_safe_witness :
  exists s', run_act demo_factory (DoConnect demo_init_env true demo_path) demo_off = Some s' /\
    connected_ (sys_client s') = true /\ is_Some (sc_node (sys_client s')) /\ poll_thread_ (sys_client s') = ThHead.
Proof.
  destruct (json_client_safe demo_factory demo_off (DoConnect demo_init_env true demo_path)) as (s' & E & _ & Hc).
  - apply reach_new.
  - reflexivity.
  - cbn. lia.
  - exists s'. split; [exact E|].
    assert ((fun s => (connected_ (sys_client s), poll_thread_ (sys_client s))) <$> run_act demo_factory
      (DoConnect demo_init_env true demo_path) demo_off = Some (true, ThHead)) as Hx by (vm_compute; reflexivity).
    rewrite E in Hx. cbn in Hx. injection Hx as Hcon Ht. cbv zeta in Hc. rewrite Hcon in Hc. destruct Hc as [(n & En & _) _].
    split; [exact Hcon|]. split; [by exists n|exact Ht].
Defined.

Lemma disconnect_ends_witness :
  let s' := demo_step (DoPoll 0) (demo_step DoTick (demo_step (DoPoll 0) demo_leaving)) in
  sys_pc demo_leaving = CJoining /\ poll_thread_ (sys_client demo_leaving) = ThPoll /\
  exists s2, run_act demo_factory DoJoin s' = Some s2 /\ sc_node (sys_client s2) = None /\ poll_thread_ (sys_client s2) = ThNone.
Proof.
  intros s'. split; [vm_compute; reflexivity|]. split; [vm_compute; reflexivity|].
  destruct (disconnect_ends demo_factory demo_leaving s' [DoPoll 0; DoTick; DoPoll 0]) as (_ & _ & Hend).
  - exact demo_leaving_reach.
  - vm_compute. reflexivity.
  - apply (schedule_cons _ _ _ _ (demo_step (DoPoll 0) demo_leaving)); [by right|exact I|vm_compute; reflexivity|].
    apply (schedule_cons _ _ _ _ (demo_step DoTick (demo_step (DoPoll 0) demo_leaving))); [exact I|exact I|vm_compute; reflexivity|].
    apply (schedule_cons _ _ _ _ s'); [left; vm_compute; reflexivity|exact I|vm_compute; reflexivity|]. apply schedule_nil.
  - reflexivity.
  - destruct Hend as (_ & s2 & E & _ & _ & En & Et); [vm_compute; reflexivity|]. exists s2. split; [exact E|]. split; assumption.
Defined.

(** The client is connected, but its peer cannot be reached. *)
Lemma failed_resubscribe_drops_handler_witness :
  let c := SsnClient.sc_set_subs (sys_client demo_on) {[ str "/t" := 5 ]} in
  exists c' w', subscribe demo_factory true c (str "/t") 6 1000 (sys_world demo_on) = Some (false, c', w') /\
    subs_ c !! str "/t" = Some 5 /\ subs_ c' !! str "/t" = None.
Proof.
  intros c. destruct (subscribe demo_factory true c (str "/t") 6 1000 (sys_world demo_on)) as [[[b c'] w']|] eqn:E;
    [|vm_compute in E; discriminate E].
  assert ((fun r => r.1.1) <$> subscribe demo_factory true c (str "/t") 6 1000 (sys_world demo_on) = Some false) as Hb
    by (vm_compute; reflexivity).
  rewrite E in Hb. injection Hb as ->. exists c', w'. split; [reflexivity|]. split; [vm_compute; reflexivity|].
  apply (failed_resubscribe_drops_handler demo_factory true c c' (str "/t") 6 1000 (sys_world demo_on) w'); try reflexivity.
  - discriminate.
  - eexists. vm_compute. reflexivity.
  - exact E.
Defined.
