(* ===== verification/SsnClientLife.v ===== *)
(** * JSON client: threads and the life of the node

    [src/src/framework/SsnClient.cpp] once more, now with any number of application
    threads and cut at every point where another thread can get in between: what
    [SsnClient] does with [connected_], [node_], [poll_thread_] and the two mutexes, with
    the data of calls and answers left out ([SsnClient] has them).

    - A section under [state_mutex_] is one step, since nobody waits in it.
      [call_mutex_] has an owner, and whoever wants it meanwhile waits.
    - A node is a number; [l_live] are those that were created and not destroyed.  A
      function of a node takes at least two steps, one that enters it with the pointer
      and one that leaves it; leaving it with a node that was destroyed in between is
      undefined, as is destroying a node that is not live, and starting a thread over
      one that was not joined ([std::terminate]).
    - What a function of the node or the system answers is a choice.
    - The handlers of messages and answers run in the polling thread and call nothing
      of the client, as the header of the class demands. *)
From S2P Require Import Prelude.
#[local] Open Scope nat_scope.

(** ** State *)

(** The polling thread: not there, at the head of its loop, in [ssn_node_poll] with the
    pointer it read, returned. *)
Inductive poll_at := PollNone | PollHead | PollIn (node : option nat) | PollEnded.
#[global] Instance poll_at_dec : EqDecision poll_at.
Proof. solve_decision. Defined.

Record life := mk_life {
  l_connected : bool;
  l_node : option nat;
  l_joinable : bool;               (** [poll_thread_] has a thread *)
  l_poll : poll_at;
  l_owner : option nat;            (** who has [call_mutex_] *)
  l_live : gset nat;
  l_next : nat;
}.
Definition new_life : life := mk_life false None false PollNone None ∅ 0.
Definition set_conn s b n := mk_life b n (l_joinable s) (l_poll s) (l_owner s) (l_live s) (l_next s).
Definition set_poll s j p := mk_life (l_connected s) (l_node s) j p (l_owner s) (l_live s) (l_next s).
Definition set_owner s o := mk_life (l_connected s) (l_node s) (l_joinable s) (l_poll s) o (l_live s) (l_next s).
Definition set_live s l n := mk_life (l_connected s) (l_node s) (l_joinable s) (l_poll s) (l_owner s) l n.

Inductive client_op := OpConnect | OpDisconnect | OpCall | OpSubscribe | OpUnsubscribe.
(** Where a thread of the application stands in one of the calls. *)
Inductive app_pc :=
  | Idle
  | Enter (o : client_op)          (** wants [call_mutex_] *)
  | Leave                          (** releases it *)
  | ConnTest | ConnCreate | ConnStart (n : nat) | ConnAbandon (n : nat) | ConnPublish (n : nat) | ConnThread
  | ConnUnflag | ConnStop | ConnDestroy | ConnClear
  | DiscTest | DiscJoin | DiscTake | DiscStop (n : nat) | DiscDestroy (n : nat)
  | CallTest | CallNode (n : nat) | CallWait
  | SubTest | SubNode (n : nat)
  | UnsubTake | UnsubNode (n : nat).

Inductive outcome (A : Type) := Undefined | Blocks | Goes (x : A).
Arguments Undefined {A}. Arguments Blocks {A}. Arguments Goes {A}.

(** ** Steps *)

(** Leaving a function of node [n]; a NULL node is refused by each of them. *)
Definition used {A} (n : nat) (s : life) (x : A) : outcome A := if decide (n ∈ l_live s) then Goes x else Undefined.
Definition destroyed (n : nat) (pc : app_pc) (s : life) : outcome (app_pc * life) :=
  if decide (n ∈ l_live s) then Goes (pc, set_live s (l_live s ∖ {[n]}) (l_next s)) else Undefined.

(** [connect]; [b]: the next call of the node or the system succeeds. *)
Definition connect_step (b : bool) (pc : app_pc) (s : life) : outcome (app_pc * life) :=
  match pc with
  | ConnTest => Goes (if l_connected s then Leave else ConnCreate, s)
  | ConnCreate =>
    if b then Goes (ConnStart (l_next s), set_live s (l_live s ∪ {[l_next s]}) (S (l_next s))) else Goes (Leave, s)
  | ConnStart n => used n s (if b then ConnPublish n else ConnAbandon n, s)
  | ConnAbandon n => destroyed n Leave s
  | ConnPublish n => Goes (ConnThread, set_conn s true (Some n))
  | ConnThread =>
    if b then if l_joinable s then Undefined else Goes (Leave, set_poll s true PollHead) else Goes (ConnUnflag, s)
  | ConnUnflag => Goes (ConnStop, set_conn s false (l_node s))
  | ConnStop => match l_node s with Some n => used n s (ConnDestroy, s) | None => Goes (ConnDestroy, s) end
  | ConnDestroy => match l_node s with Some n => destroyed n ConnClear s | None => Goes (ConnClear, s) end
  | ConnClear => Goes (Leave, set_conn s (l_connected s) None)
  | _ => Blocks
  end.
Definition disconnect_step (pc : app_pc) (s : life) : outcome (app_pc * life) :=
  match pc with
  | DiscTest => if l_connected s then Goes (DiscJoin, set_conn s false (l_node s)) else Goes (Leave, s)
  | DiscJoin =>
    if l_joinable s
    then if decide (l_poll s = PollEnded) then Goes (DiscTake, set_poll s false PollNone) else Blocks
    else Goes (DiscTake, s)
  | DiscTake => Goes (match l_node s with Some n => DiscStop n | None => Leave end, set_conn s (l_connected s) None)
  | DiscStop n => used n s (DiscDestroy n, s)
  | DiscDestroy n => destroyed n Leave s
  | _ => Blocks
  end.
(** A call that needs a connection goes to the node, or returns. *)
Definition take_node (next : nat -> app_pc) (s : life) : app_pc :=
  if l_connected s then match l_node s with Some n => next n | None => Leave end else Leave.
Definition callJson_step (b : bool) (pc : app_pc) (s : life) : outcome (app_pc * life) :=
  match pc with
  | CallTest => Goes (take_node CallNode s, s)
  | CallNode n => used n s (if b then CallWait else Leave, s)
  | CallWait => Goes (Leave, s)
  | _ => Blocks
  end.
Definition subscribe_step (b : bool) (pc : app_pc) (s : life) : outcome (app_pc * life) :=
  match pc with
  | SubTest => Goes (if b then take_node SubNode s else Leave, s)
  | SubNode n => used n s (Leave, s)
  | _ => Blocks
  end.
Definition unsubscribe_step (pc : app_pc) (s : life) : outcome (app_pc * life) :=
  match pc with
  | UnsubTake => Goes (match l_node s with Some n => UnsubNode n | None => Leave end, s)
  | UnsubNode n => used n s (Leave, s)
  | _ => Blocks
  end.

Definition first_of (o : client_op) : app_pc :=
  match o with
  | OpConnect => ConnTest | OpDisconnect => DiscTest | OpCall => CallTest | OpSubscribe => SubTest | OpUnsubscribe => UnsubTake
  end.
(** [std::lock_guard] at the beginning and at every return. *)
Definition guard_step (i : nat) (pc : app_pc) (s : life) : outcome (app_pc * life) :=
  match pc with
  | Enter o => match l_owner s with None => Goes (first_of o, set_owner s (Some i)) | Some _ => Blocks end
  | Leave => Goes (Idle, set_owner s None)
  | _ => Blocks
  end.
Definition app_step (i : nat) (b : bool) (pc : app_pc) (s : life) : outcome (app_pc * life) :=
  match pc with
  | Idle => Blocks
  | Enter _ | Leave => guard_step i pc s
  | CallTest | CallNode _ | CallWait => callJson_step b pc s
  | SubTest | SubNode _ => subscribe_step b pc s
  | UnsubTake | UnsubNode _ => unsubscribe_step pc s
  | DiscTest | DiscJoin | DiscTake | DiscStop _ | DiscDestroy _ => disconnect_step pc s
  | _ => connect_step b pc s
  end.

Definition pollLoop_life (s : life) : outcome life :=
  match l_poll s with
  | PollHead => Goes (set_poll s (l_joinable s) (if l_connected s then PollIn (l_node s) else PollEnded))
  | PollIn None => Goes (set_poll s (l_joinable s) PollHead)
  | PollIn (Some n) => used n s (set_poll s (l_joinable s) PollHead)
  | PollNone | PollEnded => Blocks
  end.

(** Any thread moves next: one of the application begins a call or goes on in it, or
    the polling thread goes on. *)
Record threads := mk_threads { th_app : list app_pc; th_life : life }.
Inductive life_act := Begin (i : nat) (o : client_op) | App (i : nat) (b : bool) | PollThread.
Definition life_step (a : life_act) (t : threads) : outcome threads :=
  match a with
  | Begin i o =>
    match th_app t !! i with Some Idle => Goes (mk_threads (<[i := Enter o]> (th_app t)) (th_life t)) | _ => Blocks end
  | App i b =>
    match th_app t !! i with
    | None => Blocks
    | Some pc =>
      match app_step i b pc (th_life t) with
      | Undefined => Undefined
      | Blocks => Blocks
      | Goes (pc, s) => Goes (mk_threads (<[i := pc]> (th_app t)) s)
      end
    end
  | PollThread =>
    match pollLoop_life (th_life t) with
    | Undefined => Undefined
    | Blocks => Blocks
    | Goes s => Goes (mk_threads (th_app t) s)
    end
  end.
Inductive life_reach (k : nat) : threads -> Prop :=
  | life_new : life_reach k (mk_threads (replicate k Idle) new_life)
  | life_next a t t' : life_reach k t -> life_step a t = Goes t' -> life_reach k t'.

(** ** Invariant *)

Definition inside (pc : app_pc) : bool := match pc with Idle | Enter _ => false | _ => true end.
(** The node whose function a thread is in. *)
Definition node_in (pc : app_pc) (s : life) : option nat :=
  match pc with
  | ConnStart n | ConnAbandon n | DiscStop n | DiscDestroy n | CallNode n | SubNode n | UnsubNode n => Some n
  | ConnStop | ConnDestroy => l_node s
  | _ => None
  end.
Definition destroys (pc : app_pc) : bool := match pc with ConnAbandon _ | ConnDestroy | DiscDestroy _ => true | _ => false end.

(** Flag, pointer, thread and nodes. *)
Definition shape (c : bool) (n : option nat) (j : bool) (l : gset nat) (s : life) : Prop :=
  l_connected s = c /\ l_node s = n /\ l_joinable s = j /\ l_live s = l.
Definition polling (n : nat) (s : life) : Prop := l_poll s = PollHead \/ l_poll s = PollIn (Some n).
Definition down (s : life) : Prop := shape false None false ∅ s /\ l_poll s = PollNone.
Definition up (n : nat) (s : life) : Prop := shape true (Some n) true {[n]} s /\ polling n s.
Definition rest (s : life) : Prop := down s \/ exists n, up n s.

(** What holds while the thread that has the mutex stands at [pc]. *)
Definition phase (pc : app_pc) (s : life) : Prop :=
  match pc with
  | Idle | Enter _ => False
  | Leave | ConnTest | DiscTest | CallTest | CallWait | SubTest | UnsubTake => rest s
  | ConnCreate => down s
  | ConnStart n | ConnAbandon n | ConnPublish n | DiscStop n | DiscDestroy n => shape false None false {[n]} s /\ l_poll s = PollNone
  | ConnThread | ConnUnflag => (exists n, shape true (Some n) false {[n]} s) /\ l_poll s = PollNone
  | ConnStop | ConnDestroy | DiscTake => (exists n, shape false (Some n) false {[n]} s) /\ l_poll s = PollNone
  | ConnClear => (exists n, shape false (Some n) false ∅ s) /\ l_poll s = PollNone
  | DiscJoin => exists n, shape false (Some n) true {[n]} s /\ (polling n s \/ l_poll s = PollEnded)
  | CallNode n | SubNode n | UnsubNode n => up n s
  end.

Record life_inv (t : threads) : Prop := {
  li_owner : forall i pc, th_app t !! i = Some pc -> inside pc = true -> l_owner (th_life t) = Some i;
  li_state : match l_owner (th_life t) with
             | None => rest (th_life t)
             | Some i => exists pc, th_app t !! i = Some pc /\ inside pc = true /\ phase pc (th_life t)
             end;
}.

Lemma used_in {A} n s (x : A) : l_live s = {[n]} -> used n s x = Goes x.
Proof. intros E. unfold used. rewrite E. by rewrite decide_True by set_solver. Qed.
Lemma destroyed_in n pc s :
  l_live s = {[n]} -> destroyed n pc s = Goes (pc, set_live s ∅ (l_next s)).
Proof.
  intros E. unfold destroyed. rewrite E. rewrite decide_True by set_solver. do 2 f_equal.
  f_equal. set_solver.
Qed.
Lemma take_node_rest s f : rest s -> take_node f s = Leave \/ exists n, take_node f s = f n /\ up n s.
Proof.
  unfold take_node. intros [[(-> & _) _]|[n Hu]]; [by left|]. pose proof Hu as [(-> & -> & _) _]. right. by exists n.
Qed.

Lemma connect_inv b pc s :
  phase pc s -> match connect_step b pc s with
                | Undefined => False | Blocks => True | Goes (pc', s') => phase pc' s' /\ l_owner s' = l_owner s end.
Proof.
  intros Hp. destruct pc; cbn [connect_step phase] in *; try done.
  - destruct Hp as [Hd|[n Hu]].
    + pose proof Hd as [(-> & _) _]. done.
    + pose proof Hu as [(-> & _) _]. split; [|done]. right. by exists n.
  - destruct b; cbn; [|by split; [left|]]. split; [|done]. destruct Hp as [(E1 & E2 & E3 & E4) E5].
    split; [|done]. unfold shape. cbn. rewrite E4. split_and!; try done. set_solver.
  - pose proof Hp as [(_ & _ & _ & El) _]. rewrite used_in by done. by destruct b.
  - pose proof Hp as [(E1 & E2 & E3 & El) E5]. rewrite destroyed_in by done. split; [|done]. by left.
  - destruct Hp as [(E1 & E2 & E3 & El) E5]. split; [|done]. split; [by exists n|done].
  - destruct Hp as [[n (E1 & E2 & E3 & El)] E5]. rewrite E3. destruct b; cbn; split; try done.
    + right. exists n. split; [done|by left].
    + split; [by exists n|done].
  - destruct Hp as [[n (E1 & E2 & E3 & El)] E5]. split; [|done]. split; [by exists n|done].
  - destruct Hp as [[n (E1 & E2 & E3 & El)] E5]. rewrite E2, used_in by done. split; [|done]. split; [by exists n|done].
  - destruct Hp as [[n (E1 & E2 & E3 & El)] E5]. rewrite E2, destroyed_in by done. split; [|done]. split; [by exists n|done].
  - destruct Hp as [[n (E1 & E2 & E3 & El)] E5]. split; [|done]. by left.
Qed.
Lemma disconnect_inv pc s :
  phase pc s -> match disconnect_step pc s with
                | Undefined => False | Blocks => True | Goes (pc', s') => phase pc' s' /\ l_owner s' = l_owner s end.
Proof.
  intros Hp. destruct pc; cbn [disconnect_step phase] in *; try done.
  - destruct Hp as [Hd|[n Hu]].
    + pose proof Hd as [(-> & _) _]. split; [by left|done].
    + pose proof Hu as [(-> & E2 & E3 & El) Hp]. split; [|done]. exists n. split; [done|by left].
  - destruct Hp as (n & (E1 & E2 & E3 & El) & Hp). rewrite E3. case_decide; [|done]. split; [|done]. split; [by exists n|done].
  - destruct Hp as [[n (E1 & E2 & E3 & El)] E5]. rewrite E1, E2. done.
  - pose proof Hp as [(_ & _ & _ & El) _]. by rewrite used_in.
  - pose proof Hp as [(E1 & E2 & E3 & El) E5]. rewrite destroyed_in by done. split; [|done]. by left.
Qed.
Lemma app_inv i b pc s :
  phase pc s -> match app_step i b pc s with
                | Undefined => False
                | Blocks => True
                | Goes (pc', s') => (phase pc' s' /\ l_owner s' = l_owner s) \/ (pc' = Idle /\ s' = set_owner s None /\ rest s)
                end.
Proof.
  intros Hp.
  assert (forall r : outcome (app_pc * life), match r with
            | Undefined => False | Blocks => True | Goes (pc', s') => phase pc' s' /\ l_owner s' = l_owner s end ->
          match r with
          | Undefined => False
          | Blocks => True
          | Goes (pc', s') => (phase pc' s' /\ l_owner s' = l_owner s) \/ (pc' = Idle /\ s' = set_owner s None /\ rest s) end) as Hl
    by (intros [| |[]]; tauto).
  destruct pc; cbn [app_step]; try (by apply Hl, connect_inv); try (by apply Hl, disconnect_inv); cbn in Hp |- *; try done.
  - right. done.
  - left. split; [|done]. destruct (take_node_rest s CallNode Hp) as [->|(n & -> & ?)]; done.
  - pose proof Hp as [(_ & _ & _ & El) _]. rewrite used_in by done. left. split; [|done]. destruct b; right; by exists n.
  - left. by split.
  - left. split; [|done]. destruct b; [|done]. destruct (take_node_rest s SubNode Hp) as [->|(n & -> & ?)]; done.
  - pose proof Hp as [(_ & _ & _ & El) _]. rewrite used_in by done. left. split; [|done]. right. by exists n.
  - left. split; [|done]. destruct Hp as [Hd|[n Hu]].
    + pose proof Hd as [(_ & -> & _) _]. by left.
    + pose proof Hu as [(_ & -> & _) _]. done.
  - pose proof Hp as [(_ & _ & _ & El) _]. rewrite used_in by done. left. split; [|done]. right. by exists n.
Qed.

(** The polling thread uses the node of a client that is up, or of one whose
    [disconnect] waits for it. *)
Lemma poll_up n c s :
  shape c (Some n) true {[n]} s -> polling n s ->
  exists s', pollLoop_life s = Goes s' /\ l_owner s' = l_owner s /\ shape c (Some n) true {[n]} s' /\
    (polling n s' \/ c = false /\ l_poll s' = PollEnded).
Proof.
  intros (E1 & E2 & E3 & El) [Ep|Ep]; unfold pollLoop_life; rewrite Ep.
  - rewrite E1, E2, E3. eexists. split; [done|]. split; [done|]. split; [done|]. destruct c; [left; by right|by right].
  - rewrite used_in by done. rewrite E3. eexists. split; [done|]. split; [done|]. split; [done|]. left. by left.
Qed.
Lemma poll_rest s :
  rest s -> match pollLoop_life s with Undefined => False | Blocks => True | Goes s' => rest s' /\ l_owner s' = l_owner s end.
Proof.
  intros [[Hd Hp]|(n & Hs & Hp)]; [unfold pollLoop_life; by rewrite Hp|].
  destruct (poll_up n true s Hs Hp) as (s' & -> & Ho & Hs' & [Hp'|[? _]]); [|done]. split; [|done]. right. by exists n.
Qed.
Lemma poll_phase pc s :
  phase pc s -> match pollLoop_life s with Undefined => False | Blocks => True | Goes s' => phase pc s' /\ l_owner s' = l_owner s end.
Proof.
  intros Hp. assert (l_poll s = PollNone -> pollLoop_life s = Blocks) as Hnone by (intros E; unfold pollLoop_life; by rewrite E).
  destruct pc; cbn [phase] in *; try done; try (by apply poll_rest); try (rewrite Hnone; [done|by apply Hp]).
  - destruct Hp as (n & Hs & [Hp|Hp]); [|unfold pollLoop_life; by rewrite Hp].
    destruct (poll_up n false s Hs Hp) as (s' & -> & Ho & Hs' & Hp'). split; [|done]. exists n. split; [done|tauto].
  - destruct Hp as [Hs Hp]. destruct (poll_up n true s Hs Hp) as (s' & -> & Ho & Hs' & [Hp'|[? _]]); done.
  - destruct Hp as [Hs Hp]. destruct (poll_up n true s Hs Hp) as (s' & -> & Ho & Hs' & [Hp'|[? _]]); done.
  - destruct Hp as [Hs Hp]. destruct (poll_up n true s Hs Hp) as (s' & -> & Ho & Hs' & [Hp'|[? _]]); done.
Qed.

Lemma phase_inside pc s : phase pc s -> inside pc = true.
Proof. by destruct pc. Qed.
Lemma app_put_inv t i pc pc' s' :
  life_inv t -> th_app t !! i = Some pc -> l_owner (th_life t) = Some i -> phase pc' s' -> l_owner s' = Some i ->
  life_inv (mk_threads (<[i := pc']> (th_app t)) s').
Proof.
  intros [Ho _] Ei Hi Hp Ho'. pose proof (lookup_lt_Some _ _ _ Ei) as Hlt. split; cbn.
  - intros j pcj Ej Hj. destruct (decide (j = i)) as [->|Hne]; [done|]. rewrite list_lookup_insert_ne in Ej by done.
    specialize (Ho j pcj Ej Hj). congruence.
  - rewrite Ho'. exists pc'. rewrite list_lookup_insert_eq by done. split; [done|]. split; [by eapply phase_inside|done].
Qed.
(** A thread without the mutex moves to a place without it. *)
Lemma outside_inv t i pc' s' :
  life_inv t -> (forall pc, th_app t !! i = Some pc -> inside pc = false \/ l_owner s' = None) -> inside pc' = false ->
  (l_owner s' = l_owner (th_life t) /\ s' = th_life t) \/ (l_owner (th_life t) = Some i /\ l_owner s' = None /\ rest s') ->
  life_inv (mk_threads (<[i := pc']> (th_app t)) s').
Proof.
  intros [Ho Hst] Hi Hpc Hs. split; cbn.
  - intros j pcj Ej Hj. destruct (decide (j = i)) as [->|Hne].
    { apply list_lookup_insert_Some in Ej as [(_ & <- & _)|(? & _)]; [congruence|done]. }
    rewrite list_lookup_insert_ne in Ej by done. specialize (Ho j pcj Ej Hj).
    destruct Hs as [[_ ->]|(E & _)]; [done|congruence].
  - destruct Hs as [[_ ->]|(_ & -> & ?)]; [|done]. destruct (l_owner (th_life t)) as [j|] eqn:Eo; [|done].
    destruct Hst as (pcj & Ej & Hj & Hp). exists pcj. split; [|done]. rewrite list_lookup_insert_ne; [done|].
    intros <-. destruct (Hi pcj Ej); congruence.
Qed.

Lemma life_step_inv a t :
  life_inv t -> match life_step a t with Undefined => False | Blocks => True | Goes t' => life_inv t' end.
Proof.
  intros Hi. pose proof Hi as [Ho Hst]. destruct a as [i o|i b|]; cbn [life_step].
  - destruct (th_app t !! i) as [pc|] eqn:Ei; [|done]. destruct pc; try done.
    apply outside_inv; [done| |done|by left]. intros pc E. rewrite Ei in E. simplify_eq. by left.
  - destruct (th_app t !! i) as [pc|] eqn:Ei; [|done]. destruct (inside pc) eqn:Hin.
    + pose proof (Ho i pc Ei Hin) as Eo. rewrite Eo in Hst. destruct Hst as (pc0 & E0 & _ & Hp). rewrite Ei in E0. injection E0 as <-.
      pose proof (app_inv i b pc (th_life t) Hp) as Ha. destruct (app_step i b pc (th_life t)) as [| |[pc' s']]; [done..|].
      destruct Ha as [[Hp' Ho']|(-> & -> & Hr)].
      * eapply app_put_inv; [done..|]. congruence.
      * apply outside_inv; [done|by right|done|right]. by split_and!.
    + destruct pc; try done. cbn. destruct (l_owner (th_life t)) as [j|] eqn:Eo; [done|].
      split; cbn.
      * intros j pcj Ej Hj. destruct (decide (j = i)) as [->|Hne]; [done|]. rewrite list_lookup_insert_ne in Ej by done.
        specialize (Ho j pcj Ej Hj). congruence.
      * exists (first_of o). rewrite list_lookup_insert_eq by (by eapply lookup_lt_Some). split; [done|].
        split; [by destruct o|]. by destruct o.
  - destruct (l_owner (th_life t)) as [i|] eqn:Eo.
    + destruct Hst as (pc & Ei & Hin & Hp). pose proof (poll_phase pc (th_life t) Hp) as Ha.
      destruct (pollLoop_life (th_life t)) as [| |s']; [done..|]. destruct Ha as [Hp' Ho']. split; cbn.
      * intros j pcj Ej Hj. rewrite Ho'. rewrite Eo. specialize (Ho j pcj Ej Hj). congruence.
      * rewrite Ho', Eo. by exists pc.
    + pose proof (poll_rest (th_life t) Hst) as Ha. destruct (pollLoop_life (th_life t)) as [| |s']; [done..|].
      destruct Ha as [Hp' Ho']. split; cbn; rewrite Ho', Eo; [|done]. intros j pcj Ej Hj. specialize (Ho j pcj Ej Hj). congruence.
Qed.
Lemma life_reach_inv k t : life_reach k t -> life_inv t.
Proof.
  induction 1 as [|a t t' _ IH E].
  - split; cbn; [|by left]. intros i pc Ei Hin. apply lookup_replicate in Ei as [-> _]. done.
  - pose proof (life_step_inv a t IH) as Hs. by rewrite E in Hs.
Qed.

(** Whoever is in a function of a node has the mutex, or is the polling thread. *)
Lemma node_in_live pc s n : phase pc s -> node_in pc s = Some n -> n ∈ l_live s.
Proof.
  destruct pc; cbn; try done; intros Hp Hn; simplify_eq;
    try (destruct Hp as [(_ & _ & _ & ->) _]; set_solver);
    destruct Hp as [(m & _ & Em & _ & ->) _]; rewrite Em in Hn; simplify_eq; set_solver.
Qed.
Lemma node_in_inside pc s n : node_in pc s = Some n -> inside pc = true.
Proof. by destruct pc. Qed.
Lemma poll_in_live t n : life_inv t -> l_poll (th_life t) = PollIn (Some n) -> n ∈ l_live (th_life t).
Proof.
  intros [_ Hst] E. assert (forall s, rest s -> l_poll s = PollIn (Some n) -> n ∈ l_live s) as Hrest.
  { intros s [[_ Hp]|(m & (_ & _ & _ & ->) & [Hp|Hp])] Es; rewrite Es in Hp; simplify_eq; set_solver. }
  destruct (l_owner (th_life t)) as [i|]; [|by apply Hrest]. destruct Hst as (pc & _ & _ & Hp).
  destruct pc; cbn in Hp; try done; try (by apply Hrest); try (destruct Hp as [_ Hp]; rewrite E in Hp; by destruct Hp as [|[=<-]] || done).
  all: try (apply Hrest; [right; by eexists|done]).
  destruct Hp as (m & (_ & _ & _ & ->) & [[Hp|Hp]|Hp]); rewrite E in Hp; simplify_eq; set_solver.
Qed.

Lemma rest_live s : rest s -> exists n, l_live s ⊆ {[n]}.
Proof. intros [[(_ & _ & _ & ->) _]|(n & (_ & _ & _ & ->) & _)]; [by exists 0|by exists n]. Qed.
Lemma phase_live pc s : phase pc s -> exists n, l_live s ⊆ {[n]}.
Proof.
  assert (forall c n j m s, shape c n j {[m]} s -> exists n, l_live s ⊆ {[n]}) as H1 by (intros c n j m ? (_ & _ & _ & ->); by exists m).
  destruct pc; cbn; try done; try apply rest_live; try (intros [? _]; by eapply H1); try (intros [[? ?] _]; by eapply H1).
  - intros [(_ & _ & _ & ->) _]. exists 0. set_solver.
  - intros [(m & _ & _ & _ & ->) _]. exists 0. set_solver.
  - intros (m & ? & _). by eapply H1.
Qed.

(** ** Claims *)

(** C14.  The life of the node of a JSON client, with any number of threads that call
    [connect], [disconnect], [callJson], [subscribe] and [unsubscribe] and the polling
    thread beside them, interleaved at every point where the mutexes let another
    thread in, whatever the node and the system answer (handlers call nothing of the
    client): no step is undefined, so no node is used or destroyed after it was
    destroyed and no thread object that was not joined is overwritten.  One thread at a
    time is inside the client; every function of a node that is under way, the poll
    of the polling thread included, has a live node; who destroys a node is alone with
    it, and the polling thread is gone.  At most one node is live; while nobody is
    inside, a connected client has its node and its polling thread, and one that is
    not connected has no node, no thread, and has leaked none.  (What the functions
    of the node do to each other while they run side by side is not part of this.) *)
Theorem json_client_lifetime (k : nat) (t : threads) :
  life_reach k t ->
  let s := th_life t in
  (forall a, life_step a t <> Undefined) /\
  (forall i j pc pc', th_app t !! i = Some pc -> th_app t !! j = Some pc' -> inside pc = true -> inside pc' = true -> i = j) /\
  (forall i pc n, th_app t !! i = Some pc -> node_in pc s = Some n -> n ∈ l_live s) /\
  (forall n, l_poll s = PollIn (Some n) -> n ∈ l_live s) /\
  (forall i pc, th_app t !! i = Some pc -> destroys pc = true -> l_poll s = PollNone) /\
  (exists n, l_live s ⊆ {[n]}) /\
  (l_owner s = None ->
    if l_connected s
    then exists n, l_node s = Some n /\ l_live s = {[n]} /\ l_joinable s = true /\ (l_poll s = PollHead \/ l_poll s = PollIn (Some n))
    else l_node s = None /\ l_live s = ∅ /\ l_joinable s = false /\ l_poll s = PollNone).
Proof.
  intros Hr s. pose proof (life_reach_inv k t Hr) as Hi. pose proof Hi as [Ho Hst].
  assert (forall i pc, th_app t !! i = Some pc -> inside pc = true -> phase pc s) as Hph.
  { intros i pc Ei Hin. rewrite (Ho i pc Ei Hin) in Hst. destruct Hst as (pc0 & E0 & _ & Hp). rewrite Ei in E0. by injection E0 as <-. }
  split_and!.
  - intros a E. pose proof (life_step_inv a t Hi) as Hs. by rewrite E in Hs.
  - intros i j pc pc' Ei Ej Hin Hjn. pose proof (Ho i pc Ei Hin). pose proof (Ho j pc' Ej Hjn). congruence.
  - intros i pc n Ei Hn. eapply node_in_live; [|exact Hn]. eapply Hph; [exact Ei|]. by eapply node_in_inside.
  - intros n. by apply poll_in_live.
  - intros i pc Ei Hd. assert (phase pc s) as Hp by (eapply Hph; [exact Ei|by destruct pc]).
    destruct pc; try done; by destruct Hp.
  - destruct (l_owner (th_life t)) as [i|].
    + destruct Hst as (pc & _ & _ & Hp). by eapply phase_live.
    + by apply rest_live.
  - intros E. unfold s in *. rewrite E in Hst. destruct Hst as [[(-> & -> & -> & ->) ->]|(n & (-> & -> & -> & ->) & Hp)]; [done|].
    by exists n.
Qed.

(** ** Witness *)

Fixpoint run_life (l : list life_act) (t : threads) : option threads :=
  match l with [] => Some t | a :: l => match life_step a t with Goes t => run_life l t | _ => None end end.
Lemma run_life_reach k l t t' : life_reach k t -> run_life l t = Some t' -> life_reach k t'.
Proof.
  revert t. induction l as [|a l IH]; intros t Hr E; cbn in E; [by simplify_eq|].
  destruct (life_step a t) as [| |t1] eqn:Ea; try done. eapply IH; [|exact E]. by eapply life_next.
Qed.
(** One thread connects and calls, another wants to disconnect, the third polls. *)
Definition demo_acts : list life_act :=
  [Begin 0 OpConnect] ++ replicate 7 (App 0 true) ++ [Begin 0 OpCall; App 0 true; App 0 true; Begin 1 OpDisconnect; PollThread].
Definition demo_threads : threads := default (mk_threads [] new_life) (run_life demo_acts (mk_threads (replicate 2 Idle) new_life)).
Lemma json_client_lifetime_witness :
  th_app demo_threads = [CallNode 0; Enter OpDisconnect] /\ l_poll (th_life demo_threads) = PollIn (Some 0) /\
  0 ∈ l_live (th_life demo_threads) /\ life_step (App 1 true) demo_threads = Blocks /\
  forall a, life_step a demo_threads <> Undefined.
Proof.
  assert (life_reach 2 demo_threads) as Hr.
  { apply (run_life_reach 2 demo_acts (mk_threads (replicate 2 Idle) new_life)); [apply life_new|]. vm_compute. reflexivity. }
  destruct (json_client_lifetime 2 demo_threads Hr) as (Hu & _ & _ & Hp & _).
  split; [vm_compute; reflexivity|]. split; [vm_compute; reflexivity|]. split; [apply Hp; vm_compute; reflexivity|].
  split; [vm_compute; reflexivity|exact Hu].
Defined.
