(* ===== verification/JsonCall.v ===== *)
(** * A JSON call, end to end

    [SsnClient::callJson] against an [SsnService]: the request through the node, the
    client and the wire to the method, and its answer back to the caller. *)
From Stdlib Require Import String.
From S2P Require Import Prelude FrameCodec HashTable ErrorCode Os Transport Address FrameSend EventPair Server ServerTable ServerProps ServerTheorems ServerPubSub ClientPending Client ClientProps ClientTheorems ClientClaims ClientLive Node NodeProps NodeClaims EndToEnd Service Json SsnService SsnServiceClaims SsnClient SsnClientClaims.
#[local] Open Scope Z_scope.

Section call.
Context {J : Type} `{JsonLaws J} {W : Type} `{OsLaws W}.
Context (g : factory).
Implicit Types (c : SsnClient J) (w : W) (n : ssn_node) (cl : ssn_client).
Local Abbreviation fire := (fire_at (W := W) silent_user 2).

(** The JSON client [c] works on the node [n] and its C client [cl]. *)
Definition works_on c n cl : Prop := sc_node c = Some n /\ client_node n /\ nd_client n = Some cl.
Definition json_ref (b : bytes) : option ssn_data_ref_t := Some (mk_data_ref (Some b) (zlen b)).
Definition json_request (seqno : Z) (url body : bytes) : packet := mk_packet SSN_MSG_TYPE_RPC_REQUEST 0 seqno url body.
Definition json_answer (status seqno : Z) (body : bytes) : packet := mk_packet SSN_MSG_TYPE_RPC_REQUEST status seqno [] body.

Lemma works_inv c n cl : works_on c n cl -> client_inv 0 cl /\ cl_valid cl = true.
Proof.
  intros (_ & [Hi Hs _ Hst] & Ec). split; [by eapply client_live, Ec; [|apply standing_live]|].
  unfold client_stands in Hst. by rewrite Ec in Hst.
Qed.

(** ** Asking *)

(** A call on a connected node is a call on its client. *)
Lemma node_call_sends late n cl peer url data cb arg ms w n' w' :
  client_inv 0 cl -> nd_client n = Some cl -> ssn_client_is_connect cl = true -> refs_ok (Some url) data -> cb <> 0 ->
  ssn_node_rpc_call fire g late n (Some peer) (Some url) data cb arg ms w = Some (0, n', w') ->
  exists cl' w1, nd_client n' = Some cl' /\ (forall fd, os_tx w' fd = os_tx w1 fd) /\ is_Some (checked_url (Some url)) /\
    called cl (Some url) data cb arg ms w cl' w1.
Proof.
  intros Hi Ec Hcon Hr Hcb. cbn [ssn_node_rpc_call]. unfold with_peer, connect_to_peer, ssn_node_get_client.
  rewrite Ec, (ci_live 0 cl Hi), Hcon. assert (cl_valid cl = true) as Hv by (unfold ssn_client_is_connect in Hcon; by destruct (cl_valid cl)).
  assert (forall (b : bool) (n0 : ssn_node) (w0 : W), Some (if b then 0 else -1, n0, w0) = Some (0, n', w') -> b = true /\ n0 = n' /\ w0 = w') as Hb.
  { intros [] n0 w0 E; by simplify_eq. }
  destruct (match peer_address_of n with Some cur => _ | None => _ end) as [[[[] n1] w1]|] eqn:Ep; [|done|done].
  assert (n1 = nd_set_client n (Some (ssn_client_ref cl)) /\ w1 = w) as [-> ->].
  { destruct (peer_address_of n); [case_bool_decide|]; by simplify_eq. }
  clear Ep. unfold node_ensure_connected, on_client. cbn [nd_client nd_set_client cl_freed ssn_client_ref cl_set_ref].
  rewrite (ci_live 0 cl Hi). change (ssn_client_is_connect (ssn_client_ref cl)) with (ssn_client_is_connect cl). rewrite Hcon.
  cbn [nd_client nd_set_client]. cbn [cl_freed ssn_client_ref cl_set_ref]. rewrite (ci_live 0 cl Hi). unfold nonneg_result.
  change (cl_set_ref cl (cl_ref cl + 1)) with (ssn_client_ref cl).
  destruct (ssn_client_call fire (ssn_client_ref cl) (Some url) data cb arg ms w) as [[[r c1] w1]|] eqn:E; [|done].
  assert (r = 0 \/ r < 0) as Hr0.
  { unfold ssn_client_call, ssn_client_call_ex in E. repeat case_match; simplify_eq; lia. }
  destruct Hr0 as [->|Hneg].
  2:{ destruct (Z.ltb_spec r 0); [|lia]. cbn [negb].
      destruct (unref_node_client _ _ _) as [[? ?]|]; [done|done]. }
  assert (is_Some (checked_url (Some url))) as Hch.
  { unfold ssn_client_call, ssn_client_call_ex in E. destruct (_ || _); [done|]. by destruct (checked_url (Some url)). }
  cbn [Z.ltb Z.compare negb].
  destruct (call_accepted fire 1 (ssn_client_ref cl) (Some url) data cb arg ms w c1 w1) as [Hi1 Hcalled];
    [lia|by apply (inv_ref 0)|done..|].
  destruct (os_time w1) as [now w2] eqn:Et. pose proof (os_time_quiet w1) as [_ Hq]. rewrite Et in Hq. cbn [snd] in Hq.
  unfold unref_node_client, on_client. cbn [nd_client nd_set_client nd_set_times]. rewrite (ci_live 1 c1 Hi1).
  destruct Hcalled as [Hs Hp Hrest]. pose proof Hrest as (Hv1 & _).
  destruct (unref_keep fire 0 c1 w2) as [-> _]; [by right|done|]. intros (_ & <- & <-)%(Hb true).
  exists (cl_set_ref c1 (cl_ref c1 - 1)), w1. split; [done|]. split; [exact Hq|]. split; [done|]. by split.
Qed.

Lemma json_call_sends late c c1 n cl url req ms w w1 :
  works_on c n cl -> ssn_client_is_connect cl = true -> zlen url < 2 ^ 63 ->
  (forall b, dump req = Some b -> zlen b < 2 ^ 63) ->
  callJson_begin g late c url req ms w = Some (Ret true, c1, w1) ->
  exists body n1 cl1, dump req = Some body /\ ~ refused (as_ref url) (json_ref body) /\ url !! 0%nat = Some SLASH /\
    os_tx w1 (conn_fd cl) = os_tx w (conn_fd cl) ++ wire (json_request (cl_seqno cl) url body) /\
    sc_node c1 = Some n1 /\ nd_client n1 = Some cl1 /\
    exists i, get_pending_snapshot (pend cl1) (cl_seqno cl) = Some (mk_pending i (cl_seqno cl) (u32 ms) SSN_CLIENT_FTYPE_RPC REPLY_CB SELF).
Proof.
  intros Hw Hcon Hu Hb. destruct (works_inv c n cl Hw) as [Hi _]. destruct Hw as (En & Hn & Ec).
  unfold callJson_begin. destruct (connected_ c); [|done]. cbn [negb]. rewrite En. destruct (dump req) as [body|] eqn:Ed; [|done].
  destruct (ssn_node_rpc_call _ _ _ _ _ _ _ _ _ _ _) as [[[r n1] w2]|] eqn:E; [|done]. intros [= Hr <- <-].
  apply Z.eqb_eq in Hr as ->. pose proof (body_refs url body Hu (Hb body eq_refl)) as Hrefs.
  destruct (node_call_sends late n cl _ _ _ _ _ _ _ _ _ Hi Ec Hcon Hrefs (ltac:(done) : REPLY_CB <> 0) E)
    as (cl1 & w1 & Ecl1 & Htx & [u Hch] & [[Hn' Hs] (i & Hp & _) _]).
  destruct (checked_url_bytes (as_ref url) u) as [Eu Hslash]; [by destruct Hrefs|exact Hch|].
  assert (url_bytes (as_ref url) = url) as Eurl by apply ref_bytes_all.
  assert (data_bytes (json_ref body) = body) as Ebody by apply ref_bytes_all.
  unfold as_ref, json_ref in *. rewrite Eurl in *. rewrite Ebody in Hs. subst u.
  exists body, n1, cl1. rewrite Htx. split_and!; try done; [|by exists i].
  unfold after_node. destruct (events_keep (new_events n n1) (sc_set_node (sc_set_reply c false (reply_data_ c)) (Some n1))) as (-> & _).
  done.
Qed.

(** ** Getting the answer *)

(** The polling thread is about to poll, [pselect] reports [ready] and the coming
    receive completes the packet [pkt]. *)
Definition poll_gets c cl (pkt : bytes) w : Prop :=
  poll_thread_ c = ThPoll /\
  exists fds mf cnt ready w', ssn_client_fds cl = Some (fds, mf) /\ os_pselect fds (Some 100) w = (cnt, ready, w') /\
    0 < cnt /\ client_gets cl pkt ready w'.

Lemma poll_takes_answer signals c n cl p r w :
  works_on c n cl -> packet_ok p -> p_type p = SSN_MSG_TYPE_RPC_REQUEST ->
  get_pending_snapshot (pend cl) (p_seqno p) = Some r -> pend_ftype r = SSN_CLIENT_FTYPE_RPC ->
  pend_callback r = REPLY_CB -> poll_gets c cl (wire p) w ->
  exists c' w' cl', pollLoop_step g signals c w = Some (c', w') /\ reply_pending_ c' = true /\
    reply_data_ c' = payload_of (data_part (p_data p)) /\ (sc_node c' ≫= nd_client) = Some cl' /\
    ClientPending.live (pend cl) ≡ₚ r :: ClientPending.live (pend cl').
Proof.
  intros Hw Hp Hty Hs Hft Hcb (Ht & fds & mf & cnt & ready & w1 & Hfds & Hsel & Hcnt & Hgets).
  destruct (works_inv c n cl Hw) as [Hi Hv]. destruct Hw as (En & Hn & Ec).
  set (cl1 := ssn_client_ref cl). assert (client_inv (1 + 1) (ssn_client_ref cl1)) as Hi2 by (by apply (inv_ref 1), (inv_ref 0)).
  destruct (receive_reply (1 + 1) (ssn_client_ref cl1) p r ready w1) as (cl2 & w2 & E & Hl & _ & Hf); try done; [by rewrite Hcb|].
  assert (client_inv (1 + 1) cl2) as Hi3.
  { destruct (process_events_good silent_user silent_ok 0 (1 + 1) (ssn_client_ref cl1) ready w1 ltac:(lia) Hi2) as (b & c3 & w3 & E3 & ?).
    rewrite E in E3. by simplify_eq. }
  pose proof (process_steady silent_user silent_gentle 2 (ssn_client_ref cl1) ready w1 true cl2 w2 (ci_recv _ _ Hi2) E) as [Hv2 _].
  unfold pollLoop_step. rewrite Ht, En. unfold ssn_node_poll. rewrite Ec. unfold on_server. cbn [nd_server nd_set_client].
  rewrite (cn_server n Hn). unfold on_client. cbn [nd_client nd_set_client]. fold cl1.
  change (cl_freed cl1) with (cl_freed cl). rewrite (ci_live 0 cl Hi). unfold ssn_client_poll.
  change (cl_freed cl1) with (cl_freed cl). change (cl_valid cl1) with (cl_valid cl).
  rewrite (ci_live 0 cl Hi), Hv. cbn [negb]. change (ssn_client_fds (ssn_client_ref cl1)) with (ssn_client_fds cl).
  rewrite Hfds, Hsel. destruct (Z.gtb_spec cnt 0); [|lia]. rewrite E.
  destruct (unref_keep fire 1 cl2 w2) as [-> Hi4]; [left; lia|done|].
  destruct (unref_keep fire 0 (cl_set_ref cl2 (cl_ref cl2 - 1)) w2) as [-> Hi5].
  { right. split; [lia|]. cbn. by rewrite Hv2. }
  { done. }
  cbn [Z.ltb Z.compare]. set (cl3 := cl_set_ref (cl_set_ref cl2 _) _). set (n' := nd_set_client _ (Some cl3)).
  assert (new_events n n' = [EvReply (pend_callback r) (pend_arg r) (Some (header_of_bytes (wire p), data_part (p_data p)))]) as Hev.
  { unfold new_events, events_of. rewrite Ec. cbn [nd_client nd_set_client n' fired cl_set_ref cl3]. rewrite Hf.
    change (fired (ssn_client_ref cl1)) with (fired cl). by rewrite drop_app_length. }
  eexists _, _, cl3. split; [done|]. unfold after_node. rewrite Hev. cbn [foldl handle_event]. rewrite Hcb. by split_and!.
Qed.

Lemma callJson_end_of j c : reply_pending_ c = true -> reply_data_ c = j -> 
  callJson_end c = (match error_message_of j with Throw => Throw | Ret [] => Ret true | Ret _ => Ret false end, Some j).
Proof. intros Hp Hd. unfold callJson_end. rewrite Hp, Hd. by repeat case_match. Qed.

(** The text of a value is read back. *)
Lemma payload_dump (j : J) body : clean j -> dump j = Some body -> payload_of (data_part body) = j.
Proof.
  intros Hc Hd. destruct (dump_parse j Hc) as (b & Hb & Hne & Hp). simplify_eq. unfold payload_of. rewrite data_part_text.
  destruct body; [done|]. by rewrite Hp.
Qed.

(** Error answers are recognised as such. *)
Context (app : Z -> J -> W -> handler_result (J := J)).
Lemma answer_kinds s u d w st j :
  answer_of app s u d w = (st, j) ->
  0 <= st < 2 ^ 32 /\ (st = kStatusOk \/ (st = kStatusFail /\ clean j /\ exists x m, error_message_of j = Ret (x :: m))).
Proof.
  assert (forall code x m, utf8 (x :: m) = true -> clean (make_error (J := J) code (x :: m)) /\
    exists y m', error_message_of (make_error (J := J) code (x :: m)) = Ret (y :: m')) as Herr.
  { intros code x m Hm. split; [by apply error_clean|]. exists x, m. unfold error_message_of. by rewrite error_fields, jget_string_string. }
  unfold answer_of, kStatusOk, kStatusFail. intros E. repeat case_match; simplify_eq; (split; [lia|]); auto; right;
    (split; [done|by apply Herr]).
Qed.
End call.

(** The whole call. *)
Lemma json_call_spec {J} `{JsonLaws J} {W} `{OsLaws W} (g : factory) (app : Z -> J -> W -> handler_result (J := J))
    (memory : W -> SsnService) (late_ok : bool) (url : bytes) (req : J) (ms : Z) (c c1 c2 : SsnClient J)
    (n n1 n2 : ssn_node) (cl cl1 cl2 : ssn_client) (w w1 w2 ws : W) (k id : Z) (sv : ssn_server)
    (scli : ssn_server_cli_t) (st : Z) (j : J) (body answer : bytes) (rfds : list Z) (signals : nat) :
  works_on c n cl -> ssn_client_is_connect cl = true -> 0 <= cl_seqno cl < 2 ^ 16 ->
  zlen url < 2 ^ 63 -> dump req = Some body -> zlen body < 2 ^ 63 ->
  callJson_begin g late_ok c url req ms w = Some (Ret true, c1, w1) -> sc_node c1 = Some n1 -> nd_client n1 = Some cl1 ->
  server_inv k sv -> srv_valid sv = true -> rpc_only sv -> is_Some (def_cmd sv) ->
  (forall w, answer_of app (counted (memory w)) url body w = (st, j)) -> (st = kStatusOk -> clean j) ->
  dump j = Some answer -> zlen answer <= SSN_MAX_PAYLOAD_SIZE ->
  server_gets sv id scli (wire (json_request (cl_seqno cl) url body)) rfds ws ->
  works_on c2 n2 cl2 -> get_pending_snapshot (pend cl2) (cl_seqno cl) = get_pending_snapshot (pend cl1) (cl_seqno cl) ->
  poll_gets c2 cl2 (wire (json_answer st (cl_seqno cl) answer)) w2 ->
  os_tx w1 (conn_fd cl) = os_tx w (conn_fd cl) ++ wire (json_request (cl_seqno cl) url body) /\
  (exists sv' ws', ssn_server_handle_client_input (service_user app memory) sv id rfds ws = Some (sv', ws') /\
     server_inv k sv' /\ sent_to (wire (json_answer st (cl_seqno cl) answer)) id scli ws sv' ws') /\
  (exists c3 w3, pollLoop_step g signals c2 w2 = Some (c3, w3) /\
     (st = kStatusOk -> error_message_of j = Ret [] -> callJson_end c3 = (Ret true, Some j)) /\
     (st <> kStatusOk -> callJson_end c3 = (Ret false, Some j))).
Proof.
  intros Hw Hcon Hseq Hu Hd Hbody Hcall En1 Ecl1 Hi Hv Hr Hdef Hans Hclean Hdj Hlen Hsg Hw2 Hsame Hpg.
  destruct (json_call_sends g late_ok c c1 n cl url req ms w w1) as (b & m & x & Ed & Hnr & Hslash & Htx & En & Ex & i & Hp);
    [done..|intros b Eb; by simplify_eq|done|]. simplify_eq.
  assert (packet_ok (json_request (cl_seqno cl) url body)) as Hrok.
  { apply rpc_packet_ok; [lia|done|]. pose proof (fits_refs (as_ref url) (json_ref body) (body_refs url body Hu Hbody) Hnr) as Hf.
    unfold as_ref, json_ref, url_bytes, data_bytes in Hf. cbn in Hf. by rewrite !ref_bytes_all in Hf. }
  destruct (answer_kinds app _ _ _ _ _ _ (Hans ws)) as [Hst Hkind].
  assert (packet_ok (json_answer st (cl_seqno cl) answer)) as Haok.
  { apply rpc_packet_ok; [done..|]. split; [done|]. change (zlen []) with 0. pose proof (zlen_nonneg answer). lia. }
  split; [done|]. split.
  - destruct (serve_json app memory k sv id scli (json_request (cl_seqno cl) url body) st j answer rfds ws) as (sv' & ws' & ? & ? & ?);
      try done. by exists sv', ws'.
  - destruct (poll_takes_answer g signals c2 n2 cl2 (json_answer st (cl_seqno cl) answer)
      (mk_pending i (cl_seqno cl) (u32 ms) SSN_CLIENT_FTYPE_RPC REPLY_CB SELF) w2) as (c3 & w3 & cl3 & E & Hrp & Hrd & _);
      try done. { cbn [p_seqno json_answer]. by rewrite Hsame. }
    assert (clean j) as Hcj by (destruct Hkind as [?|(_ & ? & _)]; [by apply Hclean|done]).
    cbn [p_data json_answer] in Hrd. rewrite (payload_dump j answer Hcj Hdj) in Hrd.
    exists c3, w3. split; [done|]. rewrite (callJson_end_of j c3 Hrp Hrd). split; [by intros _ ->|]. intros Hne.
    destruct Hkind as [?|(_ & _ & y & m & ->)]; [done|]. done.
Qed.

(** ** Claims *)


(** The callback does not look at the number of the answer.  A call that follows
    one whose wait was over takes that one's late answer for its own, while its own
    request is still pending. *)
Theorem late_answer_taken_by_next_call {J} `{JsonLaws J} {W} `{OsLaws W} (g : factory) (signals : nat) (c : SsnClient J)
    (n : ssn_node) (cl : ssn_client) (early next : ssn_pending_request_t) (st : Z) (j : J) (answer : bytes) (w : W) :
  works_on c n cl -> get_pending_snapshot (pend cl) (pend_seqno early) = Some early ->
  pend_ftype early = SSN_CLIENT_FTYPE_RPC -> pend_callback early = REPLY_CB ->
  next ∈ ClientPending.live (pend cl) -> next <> early ->
  packet_ok (json_answer st (pend_seqno early) answer) -> clean j -> dump j = Some answer -> error_message_of j = Ret [] ->
  poll_gets c cl (wire (json_answer st (pend_seqno early) answer)) w ->
  exists c' w' cl', pollLoop_step g signals c w = Some (c', w') /\ callJson_end c' = (Ret true, Some j) /\
    (sc_node c' ≫= nd_client) = Some cl' /\ next ∈ ClientPending.live (pend cl').
Proof.
  intros Hw Hs Hft Hcb Hin Hne Hok Hc Hd Hem Hpg.
  destruct (poll_takes_answer g signals c n cl (json_answer st (pend_seqno early) answer) early w)
    as (c' & w' & cl' & E & Hrp & Hrd & Ecl & Hl); try done.
  exists c', w', cl'. split; [done|]. cbn [p_data json_answer] in Hrd. rewrite (payload_dump j answer Hc Hd) in Hrd.
  rewrite (callJson_end_of j c' Hrp Hrd), Hem. split; [done|]. split; [done|]. rewrite Hl in Hin.
  apply elem_of_cons in Hin as [?|?]; [done|done].
Qed.

(** ** Witnesses *)

(** A JSON client whose node is connected, with the client of [ClientClaims]. *)
Definition demo_json_node : ssn_node :=
  match sc_node (sys_client demo_on) with Some n => nd_set_client n (Some demo_client) | None => demo_node end.
Definition demo_json_client (n : ssn_node) : SsnClient tree := sc_set_thread (sc_set_node (sys_client demo_on) (Some n)) ThPoll.
Definition demo_caller : SsnClient tree := demo_json_client demo_json_node.
Definition demo_begun : option (exc bool * SsnClient tree * sim_world) :=
  callJson_begin demo_factory true demo_caller (str "/a") demo_json 1000 (demo_inbox []).
Definition demo_called : SsnClient tree := match demo_begun with Some (_, c, _) => c | None => demo_caller end.

Lemma demo_works_on n cl :
  client_inv 0 cl -> cl_valid cl = true -> n = nd_set_client demo_json_node (Some cl) ->
  works_on (demo_json_client n) n cl.
Proof.
  intros Hi Hv ->. split; [reflexivity|]. split; [|reflexivity].
  destruct (json_reach_inv demo_factory demo_on demo_on_reach) as [(_ & (n & En & [Hn Hs Hst _]) & _)|(Hno & _)];
    [|vm_compute in Hno; discriminate Hno].
  unfold demo_json_node. rewrite En. split; [|exact Hs|exact Hst|exact Hv].
  apply (inv_node_client (nd_set_client n (Some demo_client))); [|..|by left].
  - apply inv_node_client; [exact Hn| |left; exact demo_client_inv].
    assert ((fun n => has_cap n SSN_NODE_CAP_CLIENT) <$> sc_node (sys_client demo_on) = Some true) as Hc by (vm_compute; reflexivity).
    rewrite En in Hc. by injection Hc.
  - assert ((fun n => has_cap n SSN_NODE_CAP_CLIENT) <$> sc_node (sys_client demo_on) = Some true) as Hc by (vm_compute; reflexivity).
    rewrite En in Hc. by injection Hc.
Qed.
Lemma demo_caller_works : works_on demo_caller demo_json_node demo_client.
Proof.
  assert (demo_json_node = nd_set_client demo_json_node (Some demo_client)) as E by (vm_compute; reflexivity).
  unfold demo_caller. apply demo_works_on; [exact demo_client_inv|vm_compute; reflexivity|exact E].
Qed.

Lemma demo_client_idle : Forall (fun p => due true p = false) (ClientPending.live (pend demo_client)).
Proof.
  assert (forallb (fun p => negb (due true p)) (ClientPending.live (pend demo_client)) = true) as E by (vm_compute; reflexivity).
  apply Forall_forall. intros p Hp%list_elem_of_In. apply negb_true_iff. exact (proj1 (forallb_forall _ _) E p Hp).
Qed.

Lemma late_answer_taken_by_next_call_witness :
  let a := wire (json_answer 0 0 demo_body) in
  exists c' w', pollLoop_step demo_factory 0 demo_caller (demo_inbox [a]) = Some (c', w') /\
    callJson_end c' = (Ret true, Some demo_json).
Proof.
  intros a. destruct (get_pending_snapshot (pend demo_client) 0) as [early|] eqn:E0; [|vm_compute in E0; discriminate E0].
  destruct (get_pending_snapshot (pend demo_client) 1) as [next|] eqn:E1; [|vm_compute in E1; discriminate E1].
  assert (pend_seqno early = 0) as Es by (vm_compute in E0; injection E0 as <-; reflexivity).
  destruct (late_answer_taken_by_next_call demo_factory 0 demo_caller demo_json_node demo_client early next 0 demo_json demo_body
    (demo_inbox [a])) as (c' & w' & cl' & E & Hend & _).
  - exact demo_caller_works.
  - rewrite Es. exact E0.
  - vm_compute in E0. injection E0 as <-. reflexivity.
  - vm_compute in E0. injection E0 as <-. reflexivity.
  - vm_compute in E1. injection E1 as <-. apply list_elem_of_In. vm_compute. right. left. reflexivity.
  - vm_compute in E0, E1. injection E0 as <-. injection E1 as <-. discriminate.
  - rewrite Es. apply rpc_packet_ok; [lia|lia|]. vm_compute. split; discriminate.
  - reflexivity.
  - vm_compute. reflexivity.
  - vm_compute. reflexivity.
  - rewrite Es. split; [reflexivity|]. exists [4; 9], 9, 2, [4; 9], (demo_inbox [a]).
    split; [vm_compute; reflexivity|]. split; [reflexivity|]. split; [lia|].
    split; [vm_compute; reflexivity|]. split; [vm_compute; reflexivity|]. split; [right; exact demo_client_idle|].
    eexists _, a, _, _. split; [vm_compute; reflexivity|]. split; [vm_compute; discriminate|]. split; [vm_compute; by left|].
    split; [vm_compute; reflexivity|]. split; vm_compute; reflexivity.
  - exists c', w'. split; [exact E|exact Hend].
Defined.

(** The same client after the call, when its answer comes. *)
Definition demo_waiting : ssn_client :=
  match ssn_client_call (fire_at silent_user 2) demo_client (as_ref (str "/a")) (json_ref demo_body) REPLY_CB SELF 1000 (demo_inbox []) with
  | Some (_, c, _) => c
  | None => demo_client
  end.
Lemma demo_waiting_inv : client_inv 0 demo_waiting.
Proof.
  destruct (ssn_client_call (fire_at silent_user 2) demo_client (as_ref (str "/a")) (json_ref demo_body) REPLY_CB SELF 1000 (demo_inbox []))
    as [[[r c] w]|] eqn:E; [|vm_compute in E; discriminate E].
  assert (r = 0) as -> by (vm_compute in E; injection E as <- _ _; reflexivity).
  assert (demo_waiting = c) as -> by (unfold demo_waiting; by rewrite E).
  apply (call_accepted (fire_at silent_user 2) 0 demo_client (as_ref (str "/a")) (json_ref demo_body) REPLY_CB SELF 1000 (demo_inbox []) c w);
    [lia|exact demo_client_inv| |discriminate|exact E].
  apply body_refs; vm_compute; reflexivity.
Qed.
Lemma demo_waiting_idle : Forall (fun p => due true p = false) (ClientPending.live (pend demo_waiting)).
Proof.
  assert (forallb (fun p => negb (due true p)) (ClientPending.live (pend demo_waiting)) = true) as E by (vm_compute; reflexivity).
  apply Forall_forall. intros p Hp%list_elem_of_In. apply negb_true_iff. exact (proj1 (forallb_forall _ _) E p Hp).
Qed.

Lemma demo_waiting_gets :
  let a := wire (json_answer 0 2 demo_body) in
  poll_gets (demo_json_client (nd_set_client demo_json_node (Some demo_waiting))) demo_waiting a (demo_inbox [a]).
Proof.
  intros a. split; [reflexivity|]. exists [4; 9], 9, 2, [4; 9], (demo_inbox [a]).
  split; [vm_compute; reflexivity|]. split; [reflexivity|]. split; [lia|].
  split; [vm_compute; reflexivity|]. split; [vm_compute; reflexivity|]. split; [right; exact demo_waiting_idle|].
  eexists _, a, _, _. split; [vm_compute; reflexivity|]. split; [vm_compute; discriminate|]. split; [vm_compute; by left|].
  split; [vm_compute; reflexivity|]. split; vm_compute; reflexivity.
Qed.

Lemma demo_same_pending cl :
  (sc_node demo_called ≫= nd_client) = Some cl -> get_pending_snapshot (pend cl) 2 = get_pending_snapshot (pend demo_waiting) 2.
Proof.
  intros E. assert ((fun c => get_pending_snapshot (pend c) 2) <$> (sc_node demo_called ≫= nd_client)
    = Some (get_pending_snapshot (pend demo_waiting) 2)) as Hx by (vm_compute; reflexivity).
  rewrite E in Hx. exact (Some_inj _ _ Hx).
Qed.

Lemma demo_busy_rpc : rpc_only demo_busy_server /\ is_Some (def_cmd demo_busy_server).
Proof.
  destruct demo_running_serves as (n & _ & sv & Esv & _ & _ & Hr & Hd).
  apply (same_methods_rpc sv); [|exact Hr|exact Hd]. rewrite <- Esv. vm_compute. split; [reflexivity|]. split; reflexivity.
Qed.

