(* ===== verification/IntrusiveList.v ===== *)
(** * Intrusive lists ([src/src/ssn_list.h])

    The macros on the level of pointers: memory maps an address to the two links of
    the node there, 0 is NULL, and following a pointer to no node gives [None].
    The other files keep these lists as values; the theorems here show that the
    macros do to the memory what is done there to the values. *)
From S2P Require Import Prelude.
#[local] Open Scope Z_scope.

(** ** Memory *)

Record link := mk_link { next : Z; prev : Z }.
Abbreviation memory := (gmap Z link).

Definition set_next (m : memory) (p v : Z) : option memory :=
  match m !! p with Some l => Some (<[p := mk_link v (prev l)]> m) | None => None end.
Definition set_prev (m : memory) (p v : Z) : option memory :=
  match m !! p with Some l => Some (<[p := mk_link (next l) v]> m) | None => None end.
(** [if (p) p->next = v] and the like. *)
Definition if_set_next m p v := if p =? 0 then Some m else set_next m p v.
Definition if_set_prev m p v := if p =? 0 then Some m else set_prev m p v.

(** ** Macros *)

Definition INIT_LIST (node : Z) (m : memory) : option memory := set_prev m node 0 ≫= fun m => set_next m node 0.

(** Memory and header after the macro. *)
Definition INSERT_TO_HEADER (node header : Z) (m : memory) : option (memory * Z) :=
  set_next m node header ≫= fun m => set_prev m node 0 ≫= fun m =>
  if_set_prev m header node ≫= fun m => Some (m, node).

Definition DELETE_FROM_LIST (node header : Z) (m : memory) : option (memory * Z) :=
  m !! node ≫= fun l => if_set_prev m (next l) (prev l) ≫= fun m =>
  m !! node ≫= fun l =>
  (if prev l =? 0 then Some (m, next l) else set_next m (prev l) (next l) ≫= fun m => Some (m, header)) ≫= fun '(m, header) =>
  set_prev m node 0 ≫= fun m => set_next m node 0 ≫= fun m => Some (m, header).

(** The loop of [CONCAT_TO_HEADER]; [fuel] steps at most. *)
Fixpoint last_node (fuel : nat) (tail : Z) (m : memory) : option Z :=
  match fuel with
  | O => None
  | S fuel => m !! tail ≫= fun l => if next l =? 0 then Some tail else last_node fuel (next l) m
  end.
Definition CONCAT_WITH_TAIL (header_d tail_d header_s : Z) (m : memory) : option (memory * Z) :=
  if tail_d =? 0 then Some (m, header_s)
  else set_next m tail_d header_s ≫= fun m => if_set_prev m header_s tail_d ≫= fun m => Some (m, header_d).
Definition CONCAT_TO_HEADER (fuel : nat) (header_d header_s : Z) (m : memory) : option (memory * Z) :=
  if header_d =? 0 then Some (m, header_s)
  else last_node fuel header_d m ≫= fun tail =>
    set_next m tail header_s ≫= fun m => if_set_prev m header_s tail ≫= fun m => Some (m, header_d).

(** Memory, header and tail after the macro. *)
Definition INSERT_TO_FIFO (node header tail : Z) (m : memory) : option (memory * Z * Z) :=
  set_next m node 0 ≫= fun m => set_prev m node tail ≫= fun m => if_set_next m tail node ≫= fun m =>
  Some (m, if header =? 0 then node else header, node).
Definition DELETE_FROM_FIFO (node header tail : Z) (m : memory) : option (memory * Z * Z) :=
  m !! node ≫= fun l =>
  (if next l =? 0 then Some (m, prev l) else set_prev m (next l) (prev l) ≫= fun m => Some (m, tail)) ≫= fun '(m, tail) =>
  m !! node ≫= fun l =>
  (if prev l =? 0 then Some (m, next l) else set_next m (prev l) (next l) ≫= fun m => Some (m, header)) ≫= fun '(m, header) =>
  Some (m, header, tail).

(** The nodes a [LIST_FOREACH] visits. *)
Fixpoint LIST_FOREACH (fuel : nat) (node : Z) (m : memory) : option (list Z) :=
  match fuel with
  | O => None
  | S fuel => if node =? 0 then Some [] else m !! node ≫= fun l => cons node <$> LIST_FOREACH fuel (next l) m
  end.

(** [LIST_FOREACH_SAFE] with a body that acts on the memory and the header. *)
Definition next_of (cur : Z) (m : memory) : option Z := if cur =? 0 then Some 0 else next <$> m !! cur.
Fixpoint foreach_safe (fuel : nat) (body : Z -> memory * Z -> option (memory * Z)) (cur tmp : Z) (st : memory * Z)
  : option (memory * Z) :=
  match fuel with
  | O => None
  | S fuel =>
    if cur =? 0 then Some st
    else body cur st ≫= fun st => next_of tmp st.1 ≫= fun tmp' => foreach_safe fuel body tmp tmp' st
  end.
Definition LIST_FOREACH_SAFE (fuel : nat) (body : Z -> memory * Z -> option (memory * Z)) (head : Z) (st : memory * Z)
  : option (memory * Z) :=
  next_of head st.1 ≫= fun tmp => foreach_safe fuel body head tmp st.

(** The body of the loops over a server's lists: a node that [f] chooses is
    taken out and freed. *)
Definition remove_body (f : Z -> bool) (cur : Z) (st : memory * Z) : option (memory * Z) :=
  if f cur then DELETE_FROM_LIST cur st.2 st.1 ≫= fun '(m, header) => Some (delete cur m, header) else Some st.

(** ** Representation *)

(** [l] from [hd] on: the first node points back to [p], the last on to [n]. *)
Fixpoint seg (m : memory) (p hd : Z) (l : list Z) (n : Z) : Prop :=
  match l with
  | [] => hd = n
  | x :: l => hd = x /\ x <> 0 /\ exists nx, m !! x = Some (mk_link nx p) /\ seg m x nx l n
  end.
Definition is_list (m : memory) (hd : Z) (l : list Z) : Prop := seg m 0 hd l 0 /\ NoDup l.
Definition last_of (p : Z) (l : list Z) : Z := default p (last l).
Definition is_fifo (m : memory) (hd tl : Z) (l : list Z) : Prop := is_list m hd l /\ tl = last_of 0 l.
(** Memory outside of [l] is the same. *)
Definition outside (l : list Z) (m m' : memory) : Prop := forall x, x ∉ l -> m' !! x = m !! x.

Section segments.
Implicit Types (m : memory) (l : list Z).

Lemma seg_frame m m' p hd l n : (forall x, x ∈ l -> m' !! x = m !! x) -> seg m p hd l n -> seg m' p hd l n.
Proof.
  revert p hd. induction l as [|x l IH]; intros p hd Hm; [done|]. intros (-> & Hx & nx & E & Hs).
  split; [done|]. split; [done|]. exists nx. rewrite Hm by set_solver. split; [done|]. apply IH; [|done]. set_solver.
Qed.

Lemma last_of_cons p x l : last_of p (x :: l) = last_of x l.
Proof. unfold last_of. destruct l as [|y l]; [done|]. by rewrite last_cons_cons; destruct (last (y :: l)) eqn:E; [|apply last_None in E]. Qed.

Lemma seg_app m p hd l1 l2 n :
  seg m p hd (l1 ++ l2) n <-> exists y, seg m p hd l1 y /\ seg m (last_of p l1) y l2 n.
Proof.
  revert p hd. induction l1 as [|x l1 IH]; intros p hd; cbn [app seg].
  - split; [by exists hd|]. by intros (y & -> & ?).
  - setoid_rewrite IH. setoid_rewrite last_of_cons. naive_solver.
Qed.

Lemma seg_head m p hd l n : seg m p hd l n -> hd = default n (head l).
Proof. destruct l; [done|]. by intros (-> & _). Qed.
Lemma seg_nonzero m p hd l n x : seg m p hd l n -> x ∈ l -> x <> 0.
Proof.
  revert p hd. induction l as [|y l IH]; intros p hd; [set_solver|]. intros (_ & Hy & nx & _ & Hs). rewrite elem_of_cons.
  intros [->|?]; [done|by eapply IH].
Qed.
Lemma seg_mapped m p hd l n x : seg m p hd l n -> x ∈ l -> is_Some (m !! x).
Proof.
  revert p hd. induction l as [|y l IH]; intros p hd; [set_solver|]. intros (_ & _ & nx & E & Hs). rewrite elem_of_cons.
  intros [->|?]; [by eexists|by eapply IH].
Qed.
Lemma last_of_in p l : l <> [] -> last_of p l ∈ l.
Proof. intros Hl. unfold last_of. destruct (last l) as [y|] eqn:E; [by apply last_Some_elem_of|by apply last_None in E]. Qed.
Lemma last_of_zero m p hd l n : seg m p hd l n -> p = 0 -> (last_of p l = 0 <-> l = []).
Proof.
  intros Hs ->. split; [|by intros ->]. destruct l as [|x l]; [done|]. intros E.
  exfalso. eapply seg_nonzero; [done| |exact E]. by apply last_of_in.
Qed.

(** Relinking the two ends. *)
Lemma relink_head m p p' hd l n :
  seg m p hd l n -> NoDup l -> hd <> n -> exists m', set_prev m hd p' = Some m' /\ seg m' p' hd l n /\ outside [hd] m m'.
Proof.
  destruct l as [|x l]; [done|]. intros (-> & Hx & nx & E & Hs) [Hnx _]%NoDup_cons _. unfold set_prev. rewrite E.
  eexists. split; [done|]. split.
  - split; [done|]. split; [done|]. exists nx. rewrite lookup_insert_eq. split; [done|]. eapply seg_frame, Hs.
    intros y Hy. rewrite lookup_insert_ne; [done|set_solver].
  - intros y Hy. rewrite lookup_insert_ne; [done|set_solver].
Qed.
Lemma relink_last m p hd l x n n' :
  seg m p hd (l ++ [x]) n -> NoDup (l ++ [x]) ->
  exists m', set_next m x n' = Some m' /\ seg m' p hd (l ++ [x]) n' /\ outside [x] m m'.
Proof.
  rewrite seg_app. intros (y & Hs & -> & Hx & nx & E & _) Hd. apply NoDup_app in Hd as (_ & Hd & _).
  unfold set_next. rewrite E. eexists. split; [done|]. split.
  - rewrite seg_app. exists x. split.
    + eapply seg_frame, Hs. intros z Hz. rewrite lookup_insert_ne; [done|]. intros ->. by eapply Hd; [|apply list_elem_of_singleton].
    + split; [done|]. split; [done|]. exists n'. by rewrite lookup_insert_eq.
  - intros z Hz. rewrite lookup_insert_ne; [done|set_solver].
Qed.
End segments.

(** ** Operations *)

Section operations.
Implicit Types (m : memory) (l : list Z).

Lemma outside_mono l l' m m' : l ⊆ l' -> outside l m m' -> outside l' m m'.
Proof. intros Hl Ho x Hx. apply Ho. set_solver. Qed.
Lemma outside_trans l m1 m2 m3 : outside l m1 m2 -> outside l m2 m3 -> outside l m1 m3.
Proof. intros H1 H2 x Hx. by rewrite H2, H1. Qed.
Lemma outside_frame l0 m m' p hd l n : l ## l0 -> outside l0 m m' -> seg m p hd l n -> seg m' p hd l n.
Proof. intros Hd Ho. apply seg_frame. intros x Hx. apply Ho. set_solver. Qed.
Lemma node_disjoint l1 x l2 : NoDup (l1 ++ x :: l2) -> NoDup (l1 ++ l2) /\ (x ∉ l1) /\ (x ∉ l2) /\ l1 ## l2.
Proof.
  intros (H1 & Hd & [Hx H2]%NoDup_cons)%NoDup_app. split_and!; [|set_solver..]. apply NoDup_app. set_solver.
Qed.

(** A node's links, set one after the other. *)
Lemma set_next_prev {A} m x a b (k : memory -> option A) : is_Some (m !! x) ->
  (set_next m x a ≫= fun m => set_prev m x b ≫= k) = k (<[x := mk_link a b]> m).
Proof.
  intros [l E]. unfold set_next. rewrite E. cbn [mbind option_bind]. unfold set_prev. rewrite lookup_insert_eq.
  cbn [mbind option_bind next]. by rewrite insert_insert_eq.
Qed.
Lemma set_prev_next {A} m x a b (k : memory -> option A) : is_Some (m !! x) ->
  (set_prev m x b ≫= fun m => set_next m x a ≫= k) = k (<[x := mk_link a b]> m).
Proof.
  intros [l E]. unfold set_prev. rewrite E. cbn [mbind option_bind]. unfold set_next. rewrite lookup_insert_eq.
  cbn [mbind option_bind prev]. by rewrite insert_insert_eq.
Qed.
Lemma outside_insert x v m : outside [x] m (<[x := v]> m).
Proof. intros y Hy. rewrite lookup_insert_ne; [done|set_solver]. Qed.

Lemma if_relink_head m p p' hd l :
  seg m p hd l 0 -> NoDup l -> exists m', if_set_prev m hd p' = Some m' /\ seg m' p' hd l 0 /\ outside l m m'.
Proof.
  intros Hs Hd. unfold if_set_prev. pose proof (seg_head m p hd l 0 Hs) as Hh. destruct (Z.eqb_spec hd 0) as [->|Hne].
  - exists m. split; [done|]. split; [|done]. destruct l as [|x l]; [done|]. by destruct Hs as (<- & ? & _).
  - destruct (relink_head m p p' hd l 0 Hs Hd Hne) as (m' & -> & Hs' & Ho). exists m'. split; [done|]. split; [done|].
    eapply outside_mono, Ho. destruct l as [|x l]; [done|]. cbn in Hh. set_solver.
Qed.

Lemma insert_header_spec m hd l x :
  is_list m hd l -> is_Some (m !! x) -> x <> 0 -> x ∉ l ->
  exists m', INSERT_TO_HEADER x hd m = Some (m', x) /\ is_list m' x (x :: l) /\ outside (x :: l) m m'.
Proof.
  intros [Hs Hd] Hx Hx0 Hxl. unfold INSERT_TO_HEADER. rewrite set_next_prev by done.
  pose proof (outside_insert x (mk_link hd 0) m) as Ho1. set (m1 := <[x := mk_link hd 0]> m) in *.
  destruct (if_relink_head m1 0 x hd l) as (m2 & -> & Hs2 & Ho2); [eapply (outside_frame [x]); [set_solver|exact Ho1|exact Hs]|done|].
  exists m2. split; [done|]. split.
  - split; [|by apply NoDup_cons]. split; [done|]. split; [done|]. exists hd. rewrite Ho2 by done.
    split; [apply lookup_insert_eq|done].
  - eapply outside_trans; eapply outside_mono; [|exact Ho1| |exact Ho2]; set_solver.
Qed.

(** Taking a node out: first its successor is relinked, then its predecessor. *)
Lemma unlink_next m hd l1 x l2 :
  seg m 0 hd (l1 ++ x :: l2) 0 -> NoDup (l1 ++ x :: l2) ->
  exists nx m1, m !! x = Some (mk_link nx (last_of 0 l1)) /\ nx = default 0 (head l2) /\
    if_set_prev m nx (last_of 0 l1) = Some m1 /\ m1 !! x = m !! x /\ seg m1 0 hd l1 x /\
    seg m1 (last_of 0 l1) nx l2 0 /\ outside l2 m m1.
Proof.
  rewrite seg_app. intros (y & Hs1 & -> & Hx0 & nx & E & Hs2) Hd. destruct (node_disjoint l1 x l2 Hd) as (Hd' & Hx1 & Hx2 & H12).
  apply NoDup_app in Hd' as (_ & _ & Hd2). destruct (if_relink_head m x (last_of 0 l1) nx l2 Hs2 Hd2) as (m1 & Em & Hs2' & Ho).
  exists nx, m1. split_and!; try done; [by eapply seg_head|by apply Ho|]. by eapply outside_frame.
Qed.
Lemma unlink_prev m hd l1 x l2 nx :
  seg m 0 hd l1 x -> seg m (last_of 0 l1) nx l2 0 -> NoDup (l1 ++ x :: l2) ->
  exists m' hd', (if last_of 0 l1 =? 0 then Some (m, nx) else set_next m (last_of 0 l1) nx ≫= fun m => Some (m, hd)) = Some (m', hd') /\
    seg m' 0 hd' (l1 ++ l2) 0 /\ m' !! x = m !! x /\ outside l1 m m'.
Proof.
  intros Hs1 Hs2 Hd. destruct (node_disjoint l1 x l2 Hd) as (Hd' & Hx1 & Hx2 & H12).
  pose proof (last_of_zero m 0 hd l1 x Hs1 eq_refl) as Hz. destruct (Z.eqb_spec (last_of 0 l1) 0) as [E|Hne].
  { apply Hz in E as ->. by exists m, nx. }
  destruct (decide (l1 = [])) as [->|Hl1]; [by cbn in Hne|]. destruct (exists_last Hl1) as (l & y & ->).
  assert (last_of 0 (l ++ [y]) = y) as El by (unfold last_of; by rewrite last_snoc). rewrite El in *. apply NoDup_app in Hd' as (Hd1 & _ & _).
  destruct (relink_last m 0 hd l y x nx Hs1 Hd1) as (m' & -> & Hs1' & Ho). exists m', hd. split; [done|]. split.
  - rewrite seg_app. exists nx. split; [done|]. rewrite El. eapply outside_frame; [|done|done]. set_solver.
  - split; [apply Ho; set_solver|]. eapply outside_mono, Ho. set_solver.
Qed.

Lemma delete_spec m hd l1 x l2 :
  is_list m hd (l1 ++ x :: l2) ->
  exists m' hd', DELETE_FROM_LIST x hd m = Some (m', hd') /\ is_list m' hd' (l1 ++ l2) /\
    m' !! x = Some (mk_link 0 0) /\ outside (l1 ++ x :: l2) m m'.
Proof.
  intros [Hs Hd]. destruct (unlink_next m hd l1 x l2 Hs Hd) as (nx & m1 & E & Enx & Em1 & Ex1 & Hs1 & Hs2 & Ho1).
  destruct (unlink_prev m1 hd l1 x l2 nx Hs1 Hs2 Hd) as (m2 & hd2 & Em2 & Hs' & Ex2 & Ho2).
  destruct (node_disjoint l1 x l2 Hd) as (Hd' & Hx1 & Hx2 & _).
  unfold DELETE_FROM_LIST. rewrite E. cbn [mbind option_bind next prev]. rewrite Em1. cbn [mbind option_bind].
  rewrite Ex1, E. cbn [mbind option_bind next prev]. cbn [mbind option_bind] in Em2. rewrite Em2. cbn [mbind option_bind].
  rewrite (set_prev_next m2 x 0 0) by (rewrite Ex2, Ex1, E; by eexists). eexists _, hd2. split; [done|].
  pose proof (outside_insert x (mk_link 0 0) m2) as Ho3. split; [|split; [apply lookup_insert_eq|]].
  - split; [|done]. eapply outside_frame, Hs'; [|done]. set_solver.
  - eapply outside_trans; [eapply outside_mono, Ho1; set_solver|]. eapply outside_trans; [eapply outside_mono, Ho2; set_solver|].
    eapply outside_mono, Ho3. set_solver.
Qed.

(** *** Concatenation *)

Lemma last_node_spec m p hd l fuel :
  seg m p hd l 0 -> l <> [] -> (length l <= fuel)%nat -> last_node fuel hd m = Some (last_of p l).
Proof.
  revert p hd fuel. induction l as [|x l IH]; intros p hd fuel; [done|]. intros (-> & _ & nx & E & Hs) _ Hf.
  destruct fuel as [|fuel]; [cbn in Hf; lia|]. cbn [last_node]. rewrite E. cbn [mbind option_bind next]. rewrite last_of_cons.
  destruct l as [|y l]; [cbn in Hs; by subst nx|]. destruct (Z.eqb_spec nx 0) as [->|]; [by destruct Hs as (<- & ? & _)|].
  apply IH; [done..|]. cbn in *. lia.
Qed.

Lemma append_spec m a b l y l2 :
  seg m 0 a (l ++ [y]) 0 -> seg m 0 b l2 0 -> NoDup ((l ++ [y]) ++ l2) ->
  exists m', (set_next m y b ≫= fun m => if_set_prev m b y ≫= fun m => Some (m, a)) = Some (m', a) /\
    is_list m' a ((l ++ [y]) ++ l2) /\ outside ((l ++ [y]) ++ l2) m m'.
Proof.
  intros Hs1 Hs2 Hd. pose proof Hd as (Hd1 & H12 & Hd2)%NoDup_app. destruct (relink_last m 0 a l y 0 b Hs1 Hd1) as (m1 & -> & Hs1' & Ho1).
  cbn [mbind option_bind]. destruct (if_relink_head m1 0 y b l2) as (m2 & -> & Hs2' & Ho2);
    [eapply (outside_frame [y]); [set_solver|done|done]|done|].
  exists m2. split; [done|]. split; [split; [|done]|].
  - rewrite seg_app. exists b. split; [eapply (outside_frame l2); [set_solver|done|done]|].
    assert (last_of 0 (l ++ [y]) = y) as -> by (unfold last_of; by rewrite last_snoc). done.
  - eapply outside_trans; eapply outside_mono; [|exact Ho1| |exact Ho2]; set_solver.
Qed.

Lemma concat_spec m a b l1 l2 fuel :
  is_list m a l1 -> is_list m b l2 -> l1 ## l2 -> (length l1 <= fuel)%nat ->
  exists m' hd', CONCAT_TO_HEADER fuel a b m = Some (m', hd') /\ CONCAT_WITH_TAIL a (last_of 0 l1) b m = Some (m', hd') /\
    is_list m' hd' (l1 ++ l2) /\ outside (l1 ++ l2) m m'.
Proof.
  intros [Hs1 Hd1] [Hs2 Hd2] H12 Hf. unfold CONCAT_TO_HEADER, CONCAT_WITH_TAIL.
  destruct (decide (l1 = [])) as [->|Hl1]; [cbn in Hs1; subst a; by exists m, b|].
  assert (NoDup (l1 ++ l2)) as Hd by (apply NoDup_app; set_solver).
  pose proof (last_of_zero m 0 a l1 0 Hs1 eq_refl) as Hz. destruct (Z.eqb_spec (last_of 0 l1) 0) as [E|_]; [by apply Hz in E|].
  assert (a <> 0) as Ha by (destruct l1; [done|]; by destruct Hs1 as (-> & ? & _)). destruct (Z.eqb_spec a 0); [done|].
  rewrite (last_node_spec m 0 a l1 fuel) by done. cbn [mbind option_bind].
  destruct (exists_last Hl1) as (l & y & ->). assert (last_of 0 (l ++ [y]) = y) as -> by (unfold last_of; by rewrite last_snoc).
  destruct (append_spec m a b l y l2 Hs1 Hs2 Hd) as (m' & E & Hl & Ho). cbn [mbind option_bind] in E. by exists m', a.
Qed.

(** *** Queues *)

Lemma insert_fifo_spec m hd tl l x :
  is_fifo m hd tl l -> is_Some (m !! x) -> x <> 0 -> x ∉ l ->
  exists m' hd', INSERT_TO_FIFO x hd tl m = Some (m', hd', x) /\ is_fifo m' hd' x (l ++ [x]) /\ outside (l ++ [x]) m m'.
Proof.
  intros [[Hs Hd] ->] Hx Hx0 Hxl. unfold INSERT_TO_FIFO. rewrite set_next_prev by done.
  pose proof (outside_insert x (mk_link 0 (last_of 0 l)) m) as Ho1. set (m1 := <[x := mk_link 0 (last_of 0 l)]> m) in *.
  assert (NoDup (l ++ [x])) as Hd' by (apply NoDup_app; split; [done|]; split; [set_solver|apply NoDup_singleton]).
  assert (last_of 0 (l ++ [x]) = x) as Elast by (unfold last_of; by rewrite last_snoc).
  assert (seg m1 0 hd l 0) as Hs1 by (eapply (outside_frame [x]); [set_solver|done|done]).
  pose proof (last_of_zero m 0 hd l 0 Hs eq_refl) as Hz. unfold if_set_next.
  destruct (decide (l = [])) as [->|Hl].
  { cbn in Hs. subst hd. exists m1, x. split; [done|]. split; [|by eapply outside_mono, Ho1]. split; [|done]. split; [|done].
    split; [done|]. split; [done|]. exists 0. split; [apply lookup_insert_eq|done]. }
  destruct (Z.eqb_spec (last_of 0 l) 0) as [E|_]; [by apply Hz in E|].
  assert (hd <> 0) as Ha by (destruct l; [done|]; by destruct Hs as (-> & ? & _)). destruct (Z.eqb_spec hd 0); [done|].
  destruct (exists_last Hl) as (k & y & ->). assert (last_of 0 (k ++ [y]) = y) as Ey by (unfold last_of; by rewrite last_snoc).
  rewrite Ey in *. destruct (relink_last m1 0 hd k y 0 x Hs1 Hd) as (m2 & -> & Hs2 & Ho2). exists m2, hd. split; [done|]. split.
  - split; [|by rewrite Elast]. split; [|done]. rewrite seg_app. exists x. split; [done|]. rewrite Ey. split; [done|].
    split; [done|]. exists 0. split; [|done]. rewrite Ho2 by set_solver. unfold m1. by rewrite Ey, lookup_insert_eq.
  - eapply outside_trans; eapply outside_mono; [|exact Ho1| |exact Ho2]; set_solver.
Qed.

Lemma last_of_app l1 l2 : last_of 0 (l1 ++ l2) = match l2 with [] => last_of 0 l1 | _ => last_of 0 l2 end.
Proof.
  destruct l2 as [|x l2]; [by rewrite app_nil_r|]. unfold last_of. rewrite last_app.
  by destruct (last (x :: l2)) eqn:E; [|apply last_None in E].
Qed.

Lemma delete_fifo_spec m hd tl l1 x l2 :
  is_fifo m hd tl (l1 ++ x :: l2) ->
  exists m' hd' tl', DELETE_FROM_FIFO x hd tl m = Some (m', hd', tl') /\ is_fifo m' hd' tl' (l1 ++ l2) /\
    outside (l1 ++ x :: l2) m m'.
Proof.
  intros [[Hs Hd] ->]. destruct (unlink_next m hd l1 x l2 Hs Hd) as (nx & m1 & E & Enx & Em1 & Ex1 & Hs1 & Hs2 & Ho1).
  destruct (unlink_prev m1 hd l1 x l2 nx Hs1 Hs2 Hd) as (m2 & hd2 & Em2 & Hs' & _ & Ho2).
  destruct (node_disjoint l1 x l2 Hd) as (Hd' & _).
  assert ((if nx =? 0 then Some (m, last_of 0 l1)
           else set_prev m nx (last_of 0 l1) ≫= fun m => Some (m, last_of 0 (l1 ++ x :: l2)))
          = Some (m1, last_of 0 (l1 ++ l2))) as Hfirst.
  { unfold if_set_prev in Em1. rewrite !last_of_app. destruct (Z.eqb_spec nx 0) as [Hz|Hne].
    - destruct l2 as [|y l2]; [congruence|]. cbn in Enx. destruct Hs2 as (_ & Hy & _). congruence.
    - rewrite Em1. cbn [mbind option_bind]. destruct l2 as [|y l2]; [done|]. by rewrite !last_of_cons. }
  unfold DELETE_FROM_FIFO. rewrite E. cbn [mbind option_bind next prev] in *. rewrite Hfirst. cbn [mbind option_bind].
  rewrite Ex1, E. cbn [mbind option_bind next prev]. rewrite Em2. cbn [mbind option_bind].
  eexists m2, hd2, _. split; [done|]. split; [by split|].
  eapply outside_trans; eapply outside_mono; [|exact Ho1| |exact Ho2]; set_solver.
Qed.

(** *** Walks *)

Lemma foreach_spec m p hd l fuel : seg m p hd l 0 -> (length l < fuel)%nat -> LIST_FOREACH fuel hd m = Some l.
Proof.
  revert p hd fuel. induction l as [|x l IH]; intros p hd [|fuel] Hs Hf; [cbn in Hf; lia|by cbn in Hs; subst hd|cbn in Hf; lia|].
  destruct Hs as (-> & Hx & nx & E & Hs). cbn [LIST_FOREACH]. destruct (Z.eqb_spec x 0); [done|]. rewrite E. cbn [mbind option_bind next].
  rewrite (IH x nx fuel); [done..|]. cbn in Hf. lia.
Qed.

(** The pointer a walk saves is the rest of the list. *)
Lemma next_of_spec m hd k l : seg m 0 hd (k ++ l) 0 -> next_of (default 0 (head l)) m = Some (default 0 (head (tail l))).
Proof.
  rewrite seg_app. intros (y & _ & Hs). unfold next_of. destruct l as [|x l]; [done|]. destruct Hs as (-> & Hx & nx & E & Hs).
  cbn. destruct (Z.eqb_spec x 0); [done|]. rewrite E. cbn. f_equal. by eapply seg_head.
Qed.

Lemma foreach_safe_spec f l : forall k m hd fuel,
  is_list m hd (k ++ l) -> (length l < fuel)%nat ->
  exists m' hd', foreach_safe fuel (remove_body f) (default 0 (head l)) (default 0 (head (tail l))) (m, hd) = Some (m', hd') /\
    is_list m' hd' (k ++ filter (fun x => f x = false) l) /\
    (forall x, x ∈ l -> f x = true -> m' !! x = None) /\ outside (k ++ l) m m'.
Proof.
  induction l as [|x l IH]; intros k m hd [|fuel] Hl Hf; [cbn in Hf; lia| |cbn in Hf; lia|].
  { exists m, hd. split; [done|]. split; [done|]. split; [set_solver|done]. }
  cbn [length] in Hf. cbn [head tail from_option id]. assert (x <> 0) as Hx by (eapply seg_nonzero; [apply Hl|set_solver]).
  cbn [foreach_safe]. change (id x) with x. destruct (Z.eqb_spec x 0); [done|]. rewrite filter_cons.
  assert (remove_body f x (m, hd) = if f x then DELETE_FROM_LIST x hd m ≫= fun '(m, header) => Some (delete x m, header)
    else Some (m, hd)) as -> by done. destruct (f x) eqn:Ef.
  - destruct (delete_spec m hd k x l Hl) as (m1 & hd1 & -> & [Hs1 Hd1] & Ex & Ho1). cbn [mbind option_bind].
    destruct (node_disjoint k x l (proj2 Hl)) as (_ & Hxk & Hxl & _).
    assert (outside [x] m1 (delete x m1)) as Ho2 by (intros y Hy; rewrite lookup_delete_ne; [done|set_solver]).
    assert (is_list (delete x m1) hd1 (k ++ l)) as Hl1 by (split; [eapply (outside_frame [x]); [set_solver|done|done]|done]).
    cbn [fst]. rewrite (next_of_spec _ hd1 k l (proj1 Hl1)). cbn [mbind option_bind].
    destruct (IH k (delete x m1) hd1 fuel Hl1) as (m' & hd' & E & Hl' & Hfree & Ho'); [lia|].
    exists m', hd'. split; [exact E|]. rewrite decide_False by congruence. split; [done|]. split.
    + intros y [->|Hy]%elem_of_cons Hfy; [|by apply Hfree]. rewrite Ho' by set_solver. apply lookup_delete_eq.
    + eapply outside_trans; [exact Ho1|]. eapply outside_trans; [eapply outside_mono, Ho2; set_solver|].
      eapply outside_mono, Ho'. set_solver.
  - rewrite cons_middle, app_assoc in Hl. cbn [mbind option_bind fst]. rewrite (next_of_spec m hd (k ++ [x]) l (proj1 Hl)).
    cbn [mbind option_bind]. destruct (IH (k ++ [x]) m hd fuel Hl) as (m' & hd' & E & Hl' & Hfree & Ho'); [lia|].
    exists m', hd'. split; [exact E|]. rewrite decide_True by done. rewrite <- app_assoc in Hl'. split; [done|]. split.
    + intros y [->|Hy]%elem_of_cons Hfy; [congruence|by apply Hfree].
    + eapply outside_mono, Ho'. set_solver.
Qed.
End operations.

(** ** Claims *)

(** C22.  The list macros do to the memory what the list operations do to a value.
    Inserting puts the node in front, deleting takes out exactly that node and
    clears its links, both forms of concatenation append; in a queue inserting
    appends and deleting keeps the tail right.  No macro follows a pointer to
    no node, and memory outside of the list is untouched. *)
Theorem list_macros_refine (m : memory) (hd tl x : Z) (l l1 l2 : list Z) (fuel : nat) :
  (is_list m hd l -> is_Some (m !! x) -> x <> 0 -> x ∉ l ->
     exists m', INSERT_TO_HEADER x hd m = Some (m', x) /\ is_list m' x (x :: l) /\ outside (x :: l) m m') /\
  (is_list m hd (l1 ++ x :: l2) ->
     exists m' hd', DELETE_FROM_LIST x hd m = Some (m', hd') /\ is_list m' hd' (l1 ++ l2) /\
       m' !! x = Some (mk_link 0 0) /\ outside (l1 ++ x :: l2) m m') /\
  (is_list m hd l1 -> is_list m x l2 -> l1 ## l2 -> (length l1 <= fuel)%nat ->
     exists m' hd', CONCAT_TO_HEADER fuel hd x m = Some (m', hd') /\ CONCAT_WITH_TAIL hd (last_of 0 l1) x m = Some (m', hd') /\
       is_list m' hd' (l1 ++ l2) /\ outside (l1 ++ l2) m m') /\
  (is_fifo m hd tl l -> is_Some (m !! x) -> x <> 0 -> x ∉ l ->
     exists m' hd', INSERT_TO_FIFO x hd tl m = Some (m', hd', x) /\ is_fifo m' hd' x (l ++ [x]) /\ outside (l ++ [x]) m m') /\
  (is_fifo m hd tl (l1 ++ x :: l2) ->
     exists m' hd' tl', DELETE_FROM_FIFO x hd tl m = Some (m', hd', tl') /\ is_fifo m' hd' tl' (l1 ++ l2) /\
       outside (l1 ++ x :: l2) m m').
Proof.
  split_and!; [apply insert_header_spec|apply delete_spec|apply concat_spec|apply insert_fifo_spec|apply delete_fifo_spec].
Qed.

(** Walking while freeing.  [LIST_FOREACH] visits the nodes of a list in order
    and ends; [LIST_FOREACH_SAFE] with a body that takes out and frees the nodes it
    chooses never follows a freed node, ends, and leaves the others in order. *)
Theorem safe_walk_filters (m : memory) (hd : Z) (l : list Z) (f : Z -> bool) (fuel : nat) :
  is_list m hd l -> (length l < fuel)%nat ->
  LIST_FOREACH fuel hd m = Some l /\
  exists m' hd', LIST_FOREACH_SAFE fuel (remove_body f) hd (m, hd) = Some (m', hd') /\
    is_list m' hd' (filter (fun x => f x = false) l) /\ (forall x, x ∈ l -> f x = true -> m' !! x = None) /\ outside l m m'.
Proof.
  intros Hl Hf. split; [by eapply foreach_spec; [apply Hl|]|]. unfold LIST_FOREACH_SAFE. cbn [fst].
  pose proof (seg_head m 0 hd l 0 (proj1 Hl)) as Hh. pose proof (next_of_spec m hd [] l (proj1 Hl)) as Hn. rewrite <- Hh in Hn.
  rewrite Hn. cbn [mbind option_bind].
  destruct (foreach_safe_spec f l [] m hd fuel Hl Hf) as (m' & hd' & E & H'). rewrite <- Hh in E. by exists m', hd'.
Qed.

(** [DELETE_FROM_LIST] does not know the tail of a queue: after it took out the last
    node and the node was freed, the next [INSERT_TO_FIFO] writes through the
    stale tail. *)
Theorem stale_tail_followed (m : memory) (hd tl x y : Z) (l : list Z) :
  is_fifo m hd tl (l ++ [x]) -> y <> x ->
  exists m' hd', DELETE_FROM_LIST x hd m = Some (m', hd') /\ is_list m' hd' l /\
    INSERT_TO_FIFO y hd' tl (delete x m') = None.
Proof.
  intros [Hl ->] Hy. destruct (delete_spec m hd l x [] Hl) as (m' & hd' & E & Hl' & _). rewrite app_nil_r in Hl'.
  exists m', hd'. split; [done|]. split; [done|].
  assert (x <> 0) as Hx by (eapply seg_nonzero; [apply Hl|set_solver]).
  assert (last_of 0 (l ++ [x]) = x) as -> by (unfold last_of; by rewrite last_snoc).
  unfold INSERT_TO_FIFO. destruct (delete x m' !! y) as [ly|] eqn:Ey.
  - rewrite set_next_prev by (by rewrite Ey). unfold if_set_next. destruct (Z.eqb_spec x 0); [done|]. unfold set_next.
    by rewrite lookup_insert_ne, lookup_delete_eq by done.
  - unfold set_next. by rewrite Ey.
Qed.

(** ** Witnesses *)

(** Two nodes in a list, one more to put in. *)
Definition demo_memory : memory := {[ 10 := mk_link 20 0; 20 := mk_link 0 10; 30 := mk_link 7 7 ]}.
Lemma demo_is_list : is_list demo_memory 10 [10; 20].
Proof.
  split; [|apply NoDup_ListNoDup; repeat constructor; cbn; lia].
  split; [reflexivity|]. split; [lia|]. exists 20. split; [vm_compute; reflexivity|].
  split; [reflexivity|]. split; [lia|]. exists 0. split; [vm_compute; reflexivity|reflexivity].
Qed.

Lemma list_macros_refine_witness :
  (exists m', INSERT_TO_HEADER 30 10 demo_memory = Some (m', 30) /\ is_list m' 30 [30; 10; 20]) /\
  (exists m' hd', DELETE_FROM_LIST 10 10 demo_memory = Some (m', hd') /\ is_list m' hd' [20]).
Proof.
  split.
  - destruct (list_macros_refine demo_memory 10 20 30 [10; 20] [] [20] 3) as (Hins & _).
    destruct Hins as (m' & E & Hl & _); [exact demo_is_list|by eexists|lia|by rewrite !not_elem_of_cons, elem_of_nil; lia|].
    exists m'. split; [exact E|exact Hl].
  - destruct (list_macros_refine demo_memory 10 20 10 [10; 20] [] [20] 3) as (_ & Hdel & _).
    destruct Hdel as (m' & hd' & E & Hl & _); [exact demo_is_list|]. exists m', hd'. split; [exact E|exact Hl].
Defined.

Lemma safe_walk_filters_witness :
  LIST_FOREACH 3 10 demo_memory = Some [10; 20] /\
  exists m' hd', LIST_FOREACH_SAFE 3 (remove_body (Z.eqb 10)) 10 (demo_memory, 10) = Some (m', hd') /\
    is_list m' hd' [20] /\ m' !! 10 = None.
Proof.
  destruct (safe_walk_filters demo_memory 10 [10; 20] (Z.eqb 10) 3) as (Hw & m' & hd' & E & Hl & Hf & _).
  - exact demo_is_list.
  - cbn. lia.
  - split; [exact Hw|]. exists m', hd'. split; [exact E|]. split; [exact Hl|]. apply Hf; [by left|reflexivity].
Defined.

Lemma stale_tail_followed_witness :
  exists m' hd', DELETE_FROM_LIST 20 10 demo_memory = Some (m', hd') /\ INSERT_TO_FIFO 30 hd' 20 (delete 20 m') = None.
Proof.
  destruct (stale_tail_followed demo_memory 10 20 20 30 [10]) as (m' & hd' & E & _ & Hi).
  - split; [exact demo_is_list|reflexivity].
  - lia.
  - exists m', hd'. split; [exact E|exact Hi].
Defined.
