(* ===== verification/Locks.v ===== *)
(** * Locks ([src/src/vsi/ipc_mutex.c], [src/src/util/ssn_mutex.c])

    Spin locks and the mutex wrapper, and the one critical section that a spin lock
    guards: [ssn_client_prepare_seqno], run by any number of threads.  [Client] has
    that function as one step; here its accesses to the shared number are steps of
    their own, and the result is the same. *)
From S2P Require Import Prelude FrameCodec HashTable ErrorCode Os Transport Address FrameSend EventPair Server ClientPending Client.
#[local] Open Scope Z_scope.

(** ** Operations *)

(** A lock and the thread that holds it; a pointer to one, [None] for NULL. *)
Record lock_t := mk_lock { holder_of : option nat }.
(** What a thread gets out of an operation: undefined behaviour, a wait, or the
    lock afterwards. *)
Inductive lock_result := LockUndefined | LockBlocks | LockGoes (l : option lock_t).

(** [out] is what the output parameter points to before. *)
Definition ipc_spinlock_init (malloc_ok init_ok : bool) (out : option lock_t) : Z * option lock_t :=
  if negb malloc_ok then (-1, out) else if negb init_ok then (-1, out) else (0, Some (mk_lock None)).
Definition ipc_spinlock_destroy (spinlock : option lock_t) : Z := match spinlock with None => -1 | Some _ => 0 end.
Definition ipc_spinlock_lock (me : nat) (spinlock : option lock_t) : lock_result :=
  match spinlock with
  | None => LockUndefined
  | Some l => match holder_of l with Some _ => LockBlocks | None => LockGoes (Some (mk_lock (Some me))) end
  end.
(** Unlocking what another thread holds is undefined. *)
Definition ipc_spinlock_unlock (me : nat) (spinlock : option lock_t) : lock_result :=
  match spinlock with
  | None => LockUndefined
  | Some l => if decide (holder_of l = Some me) then LockGoes (Some (mk_lock None)) else LockUndefined
  end.

(** The wrapper: [initialized] and the mutex. *)
Record ssn_mutex_t := mk_mutex { mtx_initialized : bool; mtx : lock_t }.
Definition ssn_mutex_create (malloc_ok init_ok : bool) : option ssn_mutex_t :=
  if negb malloc_ok then None else if negb init_ok then None else Some (mk_mutex true (mk_lock None)).
(** Destroying a mutex that is held is undefined, as is unlocking one of another
    thread.  A missing mutex is taken at once. *)
Inductive mutex_result := MtxUndefined | MtxWaits | MtxGoes (m : option ssn_mutex_t).
Definition ssn_mutex_destroy (mutex : option ssn_mutex_t) : mutex_result :=
  match mutex with
  | None => MtxGoes None
  | Some m => if mtx_initialized m && bool_decide (holder_of (mtx m) <> None) then MtxUndefined else MtxGoes None
  end.
Definition ssn_mutex_lock (me : nat) (mutex : option ssn_mutex_t) : mutex_result :=
  match mutex with
  | None => MtxGoes None
  | Some m =>
    if negb (mtx_initialized m) then MtxGoes (Some m)
    else match holder_of (mtx m) with
         | Some _ => MtxWaits
         | None => MtxGoes (Some (mk_mutex true (mk_lock (Some me))))
         end
  end.
Definition ssn_mutex_unlock (me : nat) (mutex : option ssn_mutex_t) : mutex_result :=
  match mutex with
  | None => MtxGoes None
  | Some m =>
    if negb (mtx_initialized m) then MtxGoes (Some m)
    else if decide (holder_of (mtx m) = Some me) then MtxGoes (Some (mk_mutex true (mk_lock None))) else MtxUndefined
  end.
Definition ssn_mutex_try_lock (me : nat) (mutex : option ssn_mutex_t) : bool * option ssn_mutex_t :=
  match mutex with
  | None => (false, None)
  | Some m =>
    if negb (mtx_initialized m) then (false, Some m)
    else match holder_of (mtx m) with
         | Some _ => (false, Some m)
         | None => (true, Some (mk_mutex true (mk_lock (Some me))))
         end
  end.

(** ** [ssn_client_prepare_seqno], access by access *)

Inductive seq_pc :=
  | SpOut                    (** not in the function *)
  | SpWait                   (** at the lock *)
  | SpTest                   (** reads the number for the test *)
  | SpZero                   (** it was 0 *)
  | SpRead                   (** it was not *)
  | SpInc (seqno : Z)        (** [next_non_pending_seqno++] reads *)
  | SpStore (seqno v : Z)    (** and writes *)
  | SpDone (seqno : Z).      (** at the unlock *)

(** [given]: the numbers returned, in the order of the unlocks. *)
Record seq_state := mk_seq { sq_client : ssn_client; sq_spin : option lock_t; sq_pcs : list seq_pc; given : list Z }.
Inductive seq_result := SeqUndefined | SeqBlocks | SeqGoes (s : seq_state).

Definition set_number (c : ssn_client) (n : Z) : ssn_client := cl_set_seqnos c (cl_seqno c) n.
Definition seq_step (i : nat) (s : seq_state) : seq_result :=
  let go c pc := SeqGoes (mk_seq c (sq_spin s) (<[i := pc]> (sq_pcs s)) (given s)) in
  let c := sq_client s in
  match sq_pcs s !! i with
  | None => SeqBlocks
  | Some SpOut => go c SpWait
  | Some SpWait =>
    match ipc_spinlock_lock i (sq_spin s) with
    | LockUndefined => SeqUndefined
    | LockBlocks => SeqBlocks
    | LockGoes l => SeqGoes (mk_seq c l (<[i := SpTest]> (sq_pcs s)) (given s))
    end
  | Some SpTest => go c (if next_non_pending_seqno c =? 0 then SpZero else SpRead)
  | Some SpZero => go (set_number c 2) (SpDone 1)
  | Some SpRead => go c (SpInc (next_non_pending_seqno c))
  | Some (SpInc n) => go c (SpStore n (next_non_pending_seqno c))
  | Some (SpStore n v) => go (set_number c (u16 (v + 1))) (SpDone n)
  | Some (SpDone n) =>
    match ipc_spinlock_unlock i (sq_spin s) with
    | LockUndefined => SeqUndefined
    | LockBlocks => SeqBlocks
    | LockGoes l => SeqGoes (mk_seq c l (<[i := SpOut]> (sq_pcs s)) (given s ++ [n]))
    end
  end.

(** Any thread may move next. *)
Inductive seq_reach (c : ssn_client) (threads : nat) : seq_state -> Prop :=
  | seq_start : seq_reach c threads (mk_seq c (Some (mk_lock None)) (replicate threads SpOut) [])
  | seq_next i s s' : seq_reach c threads s -> seq_step i s = SeqGoes s' -> seq_reach c threads s'.

(** The same calls one after the other. *)
Fixpoint prepare_many (k : nat) (c : ssn_client) : list Z * ssn_client :=
  match k with
  | O => ([], c)
  | S k => let '(l, c) := prepare_many k c in let '(n, c) := ssn_client_prepare_seqno c in (l ++ [n], c)
  end.

(** Trying is locking without the wait, except for a missing mutex: there locking
    goes on without one and trying fails. *)
Lemma try_lock_agrees (me : nat) (mutex : option ssn_mutex_t) :
  match ssn_mutex_try_lock me mutex with
  | (true, m) => ssn_mutex_lock me mutex = MtxGoes m /\ ssn_mutex_unlock me m = MtxGoes mutex
  | (false, m) => m = mutex /\ (ssn_mutex_lock me mutex = MtxWaits \/
      (ssn_mutex_lock me mutex = MtxGoes mutex /\ (mutex = None \/ mtx_initialized <$> mutex = Some false)))
  end.
Proof.
  destruct mutex as [[[] [[h|]]]|]; cbn; auto 6. by rewrite decide_True.
Qed.

(** ** Invariant *)

Definition inside (pc : seq_pc) : bool := match pc with SpOut | SpWait => false | _ => true end.
(** How far the thread in the section has got; [b] is the client when it came. *)
Definition progress (pc : seq_pc) (c b : ssn_client) : Prop :=
  match pc with
  | SpOut | SpWait => False
  | SpTest => c = b
  | SpZero => c = b /\ next_non_pending_seqno b = 0
  | SpRead => c = b /\ next_non_pending_seqno b <> 0
  | SpInc n => c = b /\ next_non_pending_seqno b <> 0 /\ n = next_non_pending_seqno b
  | SpStore n v => c = b /\ next_non_pending_seqno b <> 0 /\ n = next_non_pending_seqno b /\ v = next_non_pending_seqno b
  | SpDone n => ssn_client_prepare_seqno b = (n, c)
  end.
Record seq_inv (c0 : ssn_client) (threads : nat) (h : option nat) (b : ssn_client) (s : seq_state) : Prop := {
  sv_spin : sq_spin s = Some (mk_lock h);
  sv_threads : length (sq_pcs s) = threads;
  sv_alone : forall i pc, sq_pcs s !! i = Some pc -> inside pc = true -> h = Some i;
  sv_base : prepare_many (length (given s)) c0 = (given s, b);
  sv_progress : match h with
                | None => sq_client s = b
                | Some i => exists pc, sq_pcs s !! i = Some pc /\ progress pc (sq_client s) b
                end;
}.

Section steps.
Context (c0 : ssn_client) (threads : nat).
Implicit Types (s : seq_state).

(** The thread in the section moves on inside it. *)
Lemma stay_inside i pc pc' c h b s :
  seq_inv c0 threads h b s -> sq_pcs s !! i = Some pc -> inside pc = true -> progress pc' c b ->
  seq_inv c0 threads h b (mk_seq c (sq_spin s) (<[i := pc']> (sq_pcs s)) (given s)).
Proof.
  intros [Hs Hl Ha Hb Hp] Ei Hin Hp'. pose proof (Ha i pc Ei Hin) as ->. pose proof (lookup_lt_Some _ _ _ Ei) as Hlt.
  split; cbn; [done|by rewrite length_insert| |done|].
  - intros j q Ej Hq. destruct (decide (j = i)) as [->|Hne]; [done|]. rewrite list_lookup_insert_ne in Ej by done. by eapply Ha.
  - exists pc'. by rewrite list_lookup_insert_eq.
Qed.
Lemma own_progress i pc h b s :
  seq_inv c0 threads h b s -> sq_pcs s !! i = Some pc -> inside pc = true -> h = Some i /\ progress pc (sq_client s) b.
Proof.
  intros [_ _ Ha _ Hp] Ei Hin. pose proof (Ha i pc Ei Hin) as ->. split; [done|]. destruct Hp as (q & Eq & Hq). by simplify_eq.
Qed.

Lemma seq_step_inv i h b s :
  seq_inv c0 threads h b s ->
  match seq_step i s with
  | SeqUndefined => False
  | SeqBlocks => sq_pcs s !! i = None \/ (sq_pcs s !! i = Some SpWait /\ h <> None)
  | SeqGoes s' => exists h' b', seq_inv c0 threads h' b' s'
  end.
Proof.
  intros Hi. pose proof Hi as [Hs Hl Ha Hb Hp]. unfold seq_step. destruct (sq_pcs s !! i) as [pc|] eqn:Ei; [|by left].
  assert (forall pc' c, inside pc = true -> progress pc' c b ->
    exists h' b', seq_inv c0 threads h' b' (mk_seq c (sq_spin s) (<[i := pc']> (sq_pcs s)) (given s))) as Hstay.
  { intros pc' c Hin Hp'. exists h, b. by eapply stay_inside. }
  pose proof (own_progress i pc h b s Hi Ei) as Hown. pose proof (lookup_lt_Some _ _ _ Ei) as Hlt. destruct pc.
  - exists h, b. split; cbn; [done|by rewrite length_insert| |done|].
    + intros j q Ej Hq. destruct (decide (j = i)) as [->|Hne]; [rewrite list_lookup_insert_eq in Ej by done; by simplify_eq|].
      rewrite list_lookup_insert_ne in Ej by done. by eapply Ha.
    + destruct h as [k|]; [|done]. destruct Hp as (q & Eq & Hq). exists q. split; [|done].
      rewrite list_lookup_insert_ne; [done|]. intros ->. by simplify_eq.
  - rewrite Hs. cbn. destruct h as [k|]; [by right|]. exists (Some i), b. split; cbn; [done|by rewrite length_insert| |done|].
    + intros j q Ej Hq. destruct (decide (j = i)) as [->|Hne]; [done|]. rewrite list_lookup_insert_ne in Ej by done.
      by apply Ha in Ej.
    + exists SpTest. by rewrite list_lookup_insert_eq.
  - destruct Hown as [_ Hpr]; [done|]. cbn in Hpr. apply Hstay; [done|]. rewrite Hpr. destruct (Z.eqb_spec (next_non_pending_seqno b) 0); by cbn.
  - destruct Hown as [_ [Hpr Hz]]; [done|]. apply Hstay; [done|]. cbn. unfold ssn_client_prepare_seqno. by rewrite Hz, Hpr.
  - destruct Hown as [_ [Hpr Hz]]; [done|]. apply Hstay; [done|]. cbn. by rewrite Hpr.
  - destruct Hown as [_ (Hpr & Hz & ->)]; [done|]. apply Hstay; [done|]. cbn. by rewrite Hpr.
  - destruct Hown as [_ (Hpr & Hz & -> & ->)]; [done|]. apply Hstay; [done|]. cbn. unfold ssn_client_prepare_seqno.
    rewrite (proj2 (Z.eqb_neq _ _) Hz). by rewrite Hpr.
  - destruct Hown as [-> Hpr]; [done|]. rewrite Hs. cbn. rewrite decide_True by done. exists None, (sq_client s).
    cbn in Hpr. split; cbn; [done|by rewrite length_insert| | |done].
    + intros j q Ej Hq. destruct (decide (j = i)) as [->|Hne]; [rewrite list_lookup_insert_eq in Ej by done; by simplify_eq|].
      rewrite list_lookup_insert_ne in Ej by done. apply Ha in Ej; [congruence|done].
    + rewrite length_app, Nat.add_1_r. cbn [prepare_many]. by rewrite Hb, Hpr.
Qed.

Lemma seq_reach_inv s : seq_reach c0 threads s -> exists h b, seq_inv c0 threads h b s.
Proof.
  induction 1 as [|i s s' _ (h & b & Hi) E].
  - exists None, c0. split; cbn; [done|apply length_replicate| |done|done].
    intros i pc [-> _]%lookup_replicate. done.
  - pose proof (seq_step_inv i h b s Hi) as Hs. by rewrite E in Hs.
Qed.

(** Somebody can move. *)
Lemma seq_progress h b s : seq_inv c0 threads h b s -> threads <> O -> exists i s', seq_step i s = SeqGoes s'.
Proof.
  intros Hi Ht. pose proof (sv_threads _ _ _ _ _ Hi) as Hl. pose proof (sv_progress _ _ _ _ _ Hi) as Hp.
  assert (exists i pc, sq_pcs s !! i = Some pc /\ (pc = SpWait -> h = None)) as (i & pc & Ei & Hw).
  { destruct h as [i|].
    - destruct Hp as (pc & Ei & Hpr). exists i, pc. split; [done|]. by intros ->.
    - destruct (lookup_lt_is_Some_2 (sq_pcs s) 0) as [pc Ei]; [lia|]. by exists O, pc. }
  pose proof (seq_step_inv i h b s Hi) as Hst. exists i. destruct (seq_step i s) as [| |s'] eqn:E; [done| |by exists s'].
  destruct Hst as [?|[? Hh]]; [congruence|]. simplify_eq. by destruct Hh; apply Hw.
Qed.
End steps.

(** ** Numbers *)

Definition rank (n : Z) : Z := if n =? 0 then 0 else n - 1.
Lemma rank_next n : 0 <= n < 2 ^ 16 -> rank (if n =? 0 then 2 else u16 (n + 1)) = (rank n + 1) mod 65535.
Proof.
  intros Hn. unfold rank, u16. destruct (Z.eqb_spec n 0) as [->|Hz]; [done|]. destruct (decide (n = 65535)) as [->|Hne]; [done|].
  change (2 ^ 16) with 65536 in *. rewrite (Z.mod_small (n + 1) 65536) by lia. destruct (Z.eqb_spec (n + 1) 0); [lia|].
  rewrite Z.mod_small; lia.
Qed.

Lemma prepare_many_numbers k c :
  0 <= next_non_pending_seqno c < 2 ^ 16 ->
  let '(l, c') := prepare_many k c in
  l = map (fun j => (rank (next_non_pending_seqno c) + j) mod 65535 + 1) (seqZ 0 (Z.of_nat k)) /\
  0 <= next_non_pending_seqno c' < 2 ^ 16 /\
  rank (next_non_pending_seqno c') = (rank (next_non_pending_seqno c) + Z.of_nat k) mod 65535.
Proof.
  intros Hc. set (n0 := next_non_pending_seqno c) in *.
  assert (0 <= rank n0 < 65535) as Hr by (unfold rank; destruct (Z.eqb_spec n0 0); lia).
  induction k as [|k IH]; cbn [prepare_many].
  { split; [done|]. split; [done|]. rewrite Z.add_0_r, Z.mod_small; done. }
  destruct (prepare_many k c) as [l c1]. destruct IH as (-> & Hc1 & Hr1). unfold ssn_client_prepare_seqno.
  pose proof (rank_next (next_non_pending_seqno c1) Hc1) as Hnext. set (n1 := next_non_pending_seqno c1) in *.
  assert ((rank n1 + 1) mod 65535 = (rank n0 + Z.of_nat (S k)) mod 65535) as Hm.
  { rewrite Hr1, Zplus_mod_idemp_l. f_equal. lia. }
  assert (forall x, map (fun j => (rank n0 + j) mod 65535 + 1) (seqZ 0 (Z.of_nat k)) ++ [x]
    = map (fun j => (rank n0 + j) mod 65535 + 1) (seqZ 0 (Z.of_nat (S k))) <-> x = rank n1 + 1) as Hsnoc.
  { intros x. rewrite Nat2Z.inj_succ, <- Z.add_1_r, seqZ_app by lia. rewrite map_app, Z.add_0_l, Hr1.
    assert (seqZ (Z.of_nat k) 1 = [Z.of_nat k]) as -> by done. cbn [map].
    split; [intros E%app_inv_head; by injection E|by intros ->]. }
  destruct (Z.eqb_spec n1 0) as [Hz|Hz]; cbn [next_non_pending_seqno cl_set_seqnos].
  - split; [apply Hsnoc; by rewrite Hz|]. split; [lia|congruence].
  - split; [apply Hsnoc; unfold rank; destruct (Z.eqb_spec n1 0); lia|]. split; [apply u16_range|congruence].
Qed.

Lemma prepare_many_distinct k c :
  0 <= next_non_pending_seqno c < 2 ^ 16 -> (k <= Z.to_nat 65535)%nat -> NoDup (prepare_many k c).1.
Proof.
  intros Hc Hk. pose proof (prepare_many_numbers k c Hc) as Hn. destruct (prepare_many k c) as [l c']. destruct Hn as [-> _].
  apply NoDup_fmap_2_strong; [|apply NoDup_seqZ]. intros x y Hx%elem_of_seqZ Hy%elem_of_seqZ E.
  assert ((rank (next_non_pending_seqno c) + x) mod 65535 = (rank (next_non_pending_seqno c) + y) mod 65535) as Em by lia.
  pose proof (Z.div_mod (rank (next_non_pending_seqno c) + x) 65535). pose proof (Z.div_mod (rank (next_non_pending_seqno c) + y) 65535). nia.
Qed.

(** ** Claims *)

(** C21.  Numbers under the spin lock.  However the accesses of the threads that fetch a
    number interleave, the numbers handed out are those that as many calls one
    after the other give, so that 65535 in a row are pairwise different; whenever
    nobody is in the section the client is that after those calls.  At most one
    thread is inside, no step is undefined, and some thread can move. *)
Theorem concurrent_numbers_sequential (c : ssn_client) (threads : nat) (s : seq_state) :
  0 <= next_non_pending_seqno c < 2 ^ 16 -> threads <> O -> seq_reach c threads s ->
  given s = (prepare_many (length (given s)) c).1 /\
  ((length (given s) <= Z.to_nat 65535)%nat -> NoDup (given s)) /\
  (Forall (fun pc => inside pc = false) (sq_pcs s) -> sq_client s = (prepare_many (length (given s)) c).2) /\
  (forall i j pc pc', sq_pcs s !! i = Some pc -> sq_pcs s !! j = Some pc' -> inside pc = true -> inside pc' = true -> i = j) /\
  (forall i, seq_step i s <> SeqUndefined) /\ (exists i s', seq_step i s = SeqGoes s').
Proof.
  intros Hc Ht Hr. destruct (seq_reach_inv c threads s Hr) as (h & b & Hi). pose proof Hi as [Hs Hl Ha Hb Hp]. rewrite Hb.
  split_and!; [done| | | | |by eapply seq_progress].
  - intros Hk. pose proof (prepare_many_distinct (length (given s)) c Hc Hk) as Hd. by rewrite Hb in Hd.
  - intros Hout. destruct h as [i|]; [|done]. destruct Hp as (pc & Ei & Hpr). eapply Forall_lookup_1 in Hout; [|done].
    by destruct pc.
  - intros i j pc pc' Ei Ej Hin Hin'. apply (Ha i) in Ei; [|done]. apply (Ha j) in Ej; [|done]. congruence.
  - intros i E. pose proof (seq_step_inv c threads i h b s Hi) as Hst. by rewrite E in Hst.
Qed.

(** The result of the lock's creation is not looked at: a client whose spin lock
    could not be made fetches a number through a NULL pointer. *)
Theorem missing_spin_lock_followed (c : ssn_client) (malloc_ok init_ok : bool) (threads i : nat) :
  malloc_ok && init_ok = false -> (i < threads)%nat ->
  let s := mk_seq c (ipc_spinlock_init malloc_ok init_ok None).2 (replicate threads SpOut) [] in
  exists s', seq_step i s = SeqGoes s' /\ seq_step i s' = SeqUndefined.
Proof.
  intros Hok Hi s. assert (sq_pcs s !! i = Some SpOut) as Ei by (by apply lookup_replicate_2).
  assert (sq_spin s = None) as Es by (by destruct malloc_ok, init_ok).
  eexists. split; [unfold seq_step; by rewrite Ei|]. unfold seq_step. cbn [sq_pcs sq_spin].
  rewrite list_lookup_insert_eq by (by apply lookup_lt_Some in Ei). by rewrite Es.
Qed.

(** ** Witnesses *)

Definition demo_seq_client : ssn_client := new_client (mk_event 9 0).
Definition seq_go (i : nat) (s : seq_state) : seq_state := match seq_step i s with SeqGoes s' => s' | _ => s end.
(** Two threads: the second waits while the first is inside, and goes after it. *)
Definition demo_seq : seq_state :=
  foldl (fun s i => seq_go i s) (mk_seq demo_seq_client (Some (mk_lock None)) (replicate 2 SpOut) [])
    [0; 1; 0; 0; 1; 0; 1; 0; 1; 0; 1; 1; 1; 1; 1; 1; 1; 1]%nat.
Lemma demo_seq_reach : seq_reach demo_seq_client 2 demo_seq.
Proof.
  unfold demo_seq. generalize [0; 1; 0; 0; 1; 0; 1; 0; 1; 0; 1; 1; 1; 1; 1; 1; 1; 1]%nat as l.
  generalize (seq_start demo_seq_client 2). generalize (mk_seq demo_seq_client (Some (mk_lock None)) (replicate 2 SpOut) []).
  intros s Hs l. revert s Hs. induction l as [|i l IH]; intros s Hs; [done|]. apply IH. unfold seq_go.
  destruct (seq_step i s) eqn:E; [done..|by eapply seq_next].
Qed.
Lemma concurrent_numbers_sequential_witness :
  length (given demo_seq) = 2%nat /\ NoDup (given demo_seq) /\ given demo_seq = (prepare_many 2 demo_seq_client).1.
Proof.
  destruct (concurrent_numbers_sequential demo_seq_client 2 demo_seq) as (Hg & Hd & _).
  - vm_compute. split; [discriminate|reflexivity].
  - discriminate.
  - exact demo_seq_reach.
  - assert (length (given demo_seq) = 2%nat) as Hl by (vm_compute; reflexivity). split; [exact Hl|]. rewrite Hl in Hg, Hd.
    split; [apply Hd; lia|exact Hg].
Defined.
Lemma missing_spin_lock_followed_witness :
  exists s', seq_step 0 (mk_seq demo_seq_client (ipc_spinlock_init false true None).2 (replicate 1 SpOut) []) = SeqGoes s' /\
    seq_step 0 s' = SeqUndefined.
Proof. apply (missing_spin_lock_followed demo_seq_client false true 1 0); [reflexivity|lia]. Defined.
