(* ===== verification/LockOrder.v ===== *)
(** * Lock order: a language of lock skeletons and what its threads can do

    The components' mutexes ([ipc_mutex_t], [pthread_mutex_t], [std::mutex]) are not
    recursive.  A skeleton is a function with its data left out: what it locks,
    unlocks, waits for, joins, starts and calls back, tests being choices.  This file
    has the skeletons' semantics on a pool of threads, an executable check of one
    skeleton, and the proof that a program of checked skeletons has no deadlock.
    [LockPrograms] has the skeletons of the code. *)
From S2P Require Import Prelude.
#[local] Open Scope nat_scope.

(** ** The mutexes and threads of the program *)

Inductive mutex :=
  | CallMutex (c : nat)      (** [call_mutex_] of a JSON client *)
  | StateMutex (c : nat)     (** its [state_mutex_] *)
  | AutoMutex (a : nat)      (** [mutex] of a reconnecting client *)
  | NodeLock (n : nat)
  | ServerList               (** [g_ssn_server_lock] *)
  | ClientList               (** [g_ssn_client_lock] *)
  | ServerLock (s : nat)
  | ClientLock (c : nat)
  | SpinLock (c : nat)       (** [spin] of a client *)
  | ReplyMutex (c : nat)     (** [reply_mutex_] *)
  | SubsMutex (c : nat)      (** [subs_mutex_] *)
  | MethodsMutex (v : nat).  (** [methods_mutex_] of a JSON service *)
#[export] Instance mutex_eq_dec : EqDecision mutex.
Proof. solve_decision. Defined.

Definition mutex_eqb (m m' : mutex) : bool :=
  match m, m' with
  | CallMutex i, CallMutex j | StateMutex i, StateMutex j | AutoMutex i, AutoMutex j | NodeLock i, NodeLock j
  | ServerLock i, ServerLock j | ClientLock i, ClientLock j | SpinLock i, SpinLock j | ReplyMutex i, ReplyMutex j
  | SubsMutex i, SubsMutex j | MethodsMutex i, MethodsMutex j => i =? j
  | ServerList, ServerList | ClientList, ClientList => true
  | _, _ => false
  end.

(** A thread may take a mutex only if those it holds have smaller ranks. *)
Definition rank (m : mutex) : nat :=
  match m with
  | CallMutex _ => 0
  | StateMutex _ | AutoMutex _ => 1
  | NodeLock _ => 2
  | ServerList | ClientList => 3
  | ServerLock _ | ClientLock _ => 4
  | SpinLock _ | ReplyMutex _ | SubsMutex _ | MethodsMutex _ => 5
  end.
(** From here on: the mutexes of servers and clients and inside callbacks. *)
Definition inner_rank : nat := 3.

Inductive tid :=
  | App (i : nat)            (** a thread of the application *)
  | AutoThread (a : nat) | PollThread (c : nat) | SvcThread (v : nat) | ClientTimer | ServerTimer.
#[export] Instance tid_eq_dec : EqDecision tid.
Proof. solve_decision. Defined.
(** The smallest rank of the mutexes a thread takes. *)
Definition floor (t : tid) : nat :=
  match t with App _ => 0 | AutoThread _ | PollThread _ => 1 | SvcThread _ => 2 | ClientTimer | ServerTimer => 3 end.

(** Data shared by threads, and the mutex that guards it. *)
Inductive datum :=
  | ServerRegistry           (** the list of servers *)
  | ClientRegistry
  | ServerMethods (s : nat)  (** [cmds], [prefix_h], [def_cmd] *)
  | ServerSubs (s : nat)     (** the subscriptions of the connections *)
  | ServerRefs (s : nat)     (** [ref_count] *)
  | ClientPendings (c : nat) (** [pending_pool], [pending_bitmap] *)
  | ClientHandlers (c : nat) (** [sub_handlers] *)
  | ClientSeqno (c : nat)    (** [seqno] *)
  | ClientNumbers (c : nat)  (** [next_non_pending_seqno] *)
  | ClientRefs (c : nat)
  | NodeState (n : nat)      (** [state], [last_activity] and the address of the peer *)
  | AutoState (a : nat)      (** [state], [running] *)
  | CallerFlag (c : nat)     (** [connected_] of a JSON client *)
  | CallerReply (c : nat)    (** [reply_data_], [reply_pending_] *)
  | CallerSubs (c : nat)     (** [subs_] *)
  | ServiceMethods (v : nat). (** [methods_] *)
Definition guard (d : datum) : mutex :=
  match d with
  | ServerRegistry => ServerList
  | ClientRegistry => ClientList
  | ServerMethods s | ServerSubs s | ServerRefs s => ServerLock s
  | ClientPendings c | ClientHandlers c | ClientSeqno c | ClientRefs c => ClientLock c
  | ClientNumbers c => SpinLock c
  | NodeState n => NodeLock n
  | AutoState a => AutoMutex a
  | CallerFlag c => StateMutex c
  | CallerReply c => ReplyMutex c
  | CallerSubs c => SubsMutex c
  | ServiceMethods v => MethodsMutex v
  end.

(** ** Skeletons *)

(** Whose functions are called: those a callback may call, or any. *)
Inductive level := Inner | Outer.

Inductive prog :=
  | Skip
  | Return                       (** leaves the function *)
  | Lock (m : mutex)
  | Unlock (m : mutex)
  | Access (d : datum)
  | Wait                         (** sleeps, or waits for an event *)
  | Io                           (** sends, receives or connects: may wait for the peer, as long as the timeouts allow *)
  | Calls (l : level)            (** any number of calls of functions of the level *)
  | Join (t : tid)
  | Spawn (t : tid)
  | Seq (p q : prog)
  | Either (p q : prog)
  | Repeat (p : prog)            (** any number of times *)
  | Fn (p : prog).               (** the body of a function that is called *)
(** A callback of the application. *)
Definition Callback : prog := Calls Inner.

Declare Scope prog_scope.
Delimit Scope prog_scope with prog.
Notation "p ;; q" := (Seq p q) (at level 100, q at level 200, right associativity) : prog_scope.
Definition When (p : prog) : prog := Either p Skip.

Inductive kont := KSeq (p : prog) | KFn.
(** How a choice is made; [Run l q] calls [q]. *)
Inductive pick := First | Second | Run (l : level) (q : prog).
Inductive act := ATau | ALock (m : mutex) | AUnlock (m : mutex) | AJoin (t : tid) | ASpawn (t : tid).

Definition level_eqb (l l' : level) : bool := match l, l' with Inner, Inner | Outer, Outer => true | _, _ => false end.

(** One step of a thread; [None]: it has ended, or the choice does not fit. *)
Definition local (c : pick) (p : prog) (k : list kont) : option (act * prog * list kont) :=
  match p with
  | Skip => match k with [] => None | KSeq q :: k => Some (ATau, q, k) | KFn :: k => Some (ATau, Skip, k) end
  | Return => match k with [] => None | KSeq _ :: k => Some (ATau, Return, k) | KFn :: k => Some (ATau, Skip, k) end
  | Lock m => Some (ALock m, Skip, k)
  | Unlock m => Some (AUnlock m, Skip, k)
  | Access _ | Wait | Io => Some (ATau, Skip, k)
  | Join t => Some (AJoin t, Skip, k)
  | Spawn t => Some (ASpawn t, Skip, k)
  | Seq p q => Some (ATau, p, KSeq q :: k)
  | Fn p => Some (ATau, p, KFn :: k)
  | Either p q => match c with First => Some (ATau, p, k) | Second => Some (ATau, q, k) | Run _ _ => None end
  | Repeat p => match c with First => Some (ATau, p, KSeq (Repeat p) :: k) | Second => Some (ATau, Skip, k) | Run _ _ => None end
  | Calls l =>
    match c with
    | First => None
    | Second => Some (ATau, Skip, k)
    | Run l' q => if level_eqb l l' then Some (ATau, Fn q, KSeq (Calls l) :: k) else None
    end
  end.

Record thread := mk_thread { th_id : tid; th_prog : prog; th_cont : list kont; th_held : list mutex }.
Definition ended (u : thread) : bool :=
  match th_prog u, th_cont u with Skip, [] | Return, [] => true | _, _ => false end.

(** What a step does: undefined behaviour (unlocking what is not held), a wait, or
    the pool afterwards. *)
Inductive outcome := Undefined | Blocks | Goes (ts : list thread).

Definition holds (m : mutex) (u : thread) : bool := bool_decide (m ∈ th_held u).
Definition named (t : tid) (u : thread) : bool := bool_decide (th_id u = t).

Section pool.
(** [body]: what a started thread runs. *)
Context (body : tid -> prog).

Definition move (i : nat) (c : pick) (ts : list thread) : outcome :=
  match ts !! i with
  | None => Blocks
  | Some u =>
    match local c (th_prog u) (th_cont u) with
    | None => Blocks
    | Some (a, p, k) =>
      let put h := <[i := mk_thread (th_id u) p k h]> ts in
      match a with
      | ATau => Goes (put (th_held u))
      | ALock m => if existsb (holds m) ts then Blocks else Goes (put (m :: th_held u))
      | AUnlock m => if holds m u then Goes (put (filter (fun m' => m' <> m) (th_held u))) else Undefined
      | AJoin t => if existsb (fun v => named t v && negb (ended v)) ts then Blocks else Goes (put (th_held u))
      | ASpawn t => Goes (put (th_held u) ++ [mk_thread t (body t) [] []])
      end
    end
  end.

(** [api l q]: [q] is a function of level [l]. *)
Context (api : level -> prog -> Prop).
Definition pick_ok (c : pick) : Prop := match c with Run l q => api l q | _ => True end.

(** Any thread moves next. *)
Inductive reach (start : list thread) : list thread -> Prop :=
  | reach_start : reach start start
  | reach_move i c ts ts' : reach start ts -> pick_ok c -> move i c ts = Goes ts' -> reach start ts'.

Definition can_move (i : nat) (ts : list thread) : Prop := exists c ts', pick_ok c /\ move i c ts = Goes ts'.
(** Thread [i] waits for a mutex that [j] holds, or for the end of [j]. *)
Definition waits_for (ts : list thread) (i j : nat) : Prop :=
  exists u v, ts !! i = Some u /\ ts !! j = Some v /\
    match th_prog u with
    | Lock m => m ∈ th_held v
    | Join t => th_id v = t /\ ended v = false
    | _ => False
    end.
End pool.

(** ** The check *)

(** The mutexes held at the two exits of a skeleton, the innermost first; [None] for
    an exit that is not reached. *)
Definition exits : Type := option (list mutex) * option (list mutex).

Fixpoint held_eqb (h h' : list mutex) : bool :=
  match h, h' with [], [] => true | m :: h, m' :: h' => mutex_eqb m m' && held_eqb h h' | _, _ => false end.
(** Where paths meet they hold the same. *)
Definition meet (a b : option (list mutex)) : option (option (list mutex)) :=
  match a, b with
  | None, x | x, None => Some x
  | Some h, Some h' => if held_eqb h h' then Some (Some h) else None
  end.
(** What may be held while the peer is waited for: not the list of servers or
    clients, nor what is taken under the lock of one of them. *)
Definition io_held (m : mutex) : bool := (rank m <? inner_rank) || (rank m =? 4).
Definition below (r : nat) (h : list mutex) : bool := forallb (fun m => rank m <? r) h.
Definition through (b : bool) (h : list mutex) : option exits := if b then Some (Some h, None) else None.

Fixpoint check (f : nat) (p : prog) (h : list mutex) : option exits :=
  match p with
  | Skip => through true h
  | Return => Some (None, Some h)
  | Lock m => if (f <=? rank m) && below (rank m) h then Some (Some (m :: h), None) else None
  | Unlock m => match h with [] => None | m' :: h => through (mutex_eqb m m') h end
  | Access d => through (existsb (mutex_eqb (guard d)) h) h
  | Wait => through (below inner_rank h) h
  | Io => through (forallb io_held h) h
  | Calls Inner => through ((f <=? inner_rank) && below inner_rank h) h
  | Calls Outer => through ((f =? 0) && held_eqb h []) h
  | Join t => through ((f <? floor t) && below (floor t) h) h
  | Spawn _ => through true h
  | Seq p q =>
    match check f p h with
    | None => None
    | Some (None, r) => Some (None, r)
    | Some (Some h', r) =>
      match check f q h' with
      | None => None
      | Some (n, r') => match meet r r' with None => None | Some r => Some (n, r) end
      end
    end
  | Either p q =>
    match check f p h, check f q h with
    | Some (n, r), Some (n', r') =>
      match meet n n', meet r r' with Some n, Some r => Some (n, r) | _, _ => None end
    | _, _ => None
    end
  | Repeat p =>
    match check f p h with
    | None => None
    | Some (n, r) => match meet n (Some h) with None => None | Some _ => Some (Some h, r) end
    end
  | Fn p =>
    match check f p h with
    | None => None
    | Some (n, r) => match meet n r with None => None | Some n => Some (n, None) end
    end
  end.

(** A function that a callback may call; any function; a thread. *)
Definition inner_ok (p : prog) : Prop := check inner_rank (Fn p) [] = Some (Some [], None).
Definition outer_ok (p : prog) : Prop := check 0 (Fn p) [] = Some (Some [], None).
Definition thread_body_ok (t : tid) (p : prog) : Prop := exists n r, check (floor t) p [] = Some (n, r) /\
  (forall h, n = Some h -> h = []) /\ (forall h, r = Some h -> h = []).

(** ** The check is sound *)

Lemma mutex_eqb_eq m m' : mutex_eqb m m' = true <-> m = m'.
Proof. destruct m, m'; cbn; rewrite ?Nat.eqb_eq; split; (congruence || done). Qed.
Lemma mutex_eqb_refl m : mutex_eqb m m = true.
Proof. by apply mutex_eqb_eq. Qed.
Lemma held_eqb_eq h h' : held_eqb h h' = true <-> h = h'.
Proof.
  revert h'. induction h as [|m h IH]; intros [|m' h']; cbn; try (split; (congruence || done)).
  rewrite andb_true_iff, mutex_eqb_eq, IH. split; [by intros [-> ->]|by intros [= -> ->]].
Qed.
Lemma held_eqb_refl h : held_eqb h h = true.
Proof. by apply held_eqb_eq. Qed.
Lemma meet_elim a b c (P : list mutex -> Prop) :
  meet a b = Some c -> (forall h, c = Some h -> P h) -> (forall h, a = Some h -> P h) /\ (forall h, b = Some h -> P h).
Proof.
  destruct a as [h|], b as [h'|]; cbn; [destruct (held_eqb h h') eqn:E; [apply held_eqb_eq in E as ->|done]|..];
    intros [= <-] HP; split; intros h0 [= <-]; by apply HP.
Qed.
Lemma through_Some b h e : through b h = Some e -> b = true /\ e = (Some h, None).
Proof. destruct b; by intros [= <-]. Qed.
Lemma below_app r h g : below r (h ++ g) = below r h && below r g.
Proof. apply forallb_app. Qed.
Lemma below_le r r' h : r <= r' -> below r h = true -> below r' h = true.
Proof. intros Hr. unfold below. rewrite !forallb_forall. intros H m Hm. specialize (H m Hm). apply Nat.ltb_lt in H. apply Nat.ltb_lt. lia. Qed.
Lemma below_elem r h m : below r h = true -> m ∈ h -> rank m < r.
Proof. unfold below. rewrite forallb_forall. intros H Hm. apply Nat.ltb_lt, H. by apply list_elem_of_In. Qed.

(** What is checked with nothing held may run under outer mutexes. *)
Definition under (g : list mutex) (a : option (list mutex)) : option (list mutex) := (fun h => h ++ g) <$> a.
Lemma meet_under g a b c : meet a b = Some c -> meet (under g a) (under g b) = Some (under g c).
Proof.
  destruct a as [h|], b as [h'|]; cbn; try (by intros [= <-]).
  destruct (held_eqb h h') eqn:E; [|done]. apply held_eqb_eq in E as ->. intros [= <-]. cbn. by rewrite held_eqb_refl.
Qed.
Lemma below_io h : below inner_rank h = true -> forallb io_held h = true.
Proof. unfold below. rewrite !forallb_forall. intros H m Hm. unfold io_held. by rewrite (H m Hm). Qed.
Lemma check_under f g p h n r :
  f <= inner_rank -> below inner_rank g = true ->
  check inner_rank p h = Some (n, r) -> check f p (h ++ g) = Some (under g n, under g r).
Proof.
  intros Hf Hg. revert h n r. induction p as [| |m|m|d| | |l|t|t|p IHp q IHq|p IHp q IHq|p IHp|p IHp]; intros h n r; cbn [check].
  - by intros [= <- <-].
  - by intros [= <- <-].
  - destruct (_ && _) eqn:E; [|done]. apply andb_true_iff in E as [E1 E2]. intros [= <- <-].
    apply Nat.leb_le in E1. rewrite below_app, E2, (below_le _ (rank m) g E1 Hg), (proj2 (Nat.leb_le _ _)) by lia. done.
  - destruct h as [|m' h]; [done|]. intros [E [= -> ->]]%through_Some. cbn. by rewrite E.
  - intros [E [= -> ->]]%through_Some. by rewrite existsb_app, E.
  - intros [E [= -> ->]]%through_Some. by rewrite below_app, E, Hg.
  - intros [E [= -> ->]]%through_Some. by rewrite forallb_app, E, (below_io g Hg).
  - destruct l; intros [E [= -> ->]]%through_Some; [|done]. apply andb_true_iff in E as [_ E].
    by rewrite below_app, E, Hg, (proj2 (Nat.leb_le _ _)).
  - intros [E [= -> ->]]%through_Some. apply andb_true_iff in E as [E1 E2]. apply Nat.ltb_lt in E1.
    by rewrite below_app, E2, (below_le inner_rank _ g), (proj2 (Nat.ltb_lt _ _)) by (done || lia).
  - by intros [= <- <-].
  - destruct (check inner_rank p h) as [[[h'|] r1]|] eqn:Ep; [|intros [= <- <-]; by rewrite (IHp _ _ _ Ep)|done].
    destruct (check inner_rank q h') as [[n2 r2]|] eqn:Eq; [|done]. destruct (meet r1 r2) eqn:Em; [|done].
    intros [= <- <-]. rewrite (IHp _ _ _ Ep). change (under g (Some h')) with (Some (h' ++ g)). cbn iota.
    by rewrite (IHq _ _ _ Eq), (meet_under _ _ _ _ Em).
  - destruct (check inner_rank p h) as [[n1 r1]|] eqn:Ep; [|done].
    destruct (check inner_rank q h) as [[n2 r2]|] eqn:Eq; [|done].
    destruct (meet n1 n2) eqn:En; [|done]. destruct (meet r1 r2) eqn:Em; [|done]. intros [= <- <-].
    by rewrite (IHp _ _ _ Ep), (IHq _ _ _ Eq), (meet_under _ _ _ _ En), (meet_under _ _ _ _ Em).
  - destruct (check inner_rank p h) as [[n1 r1]|] eqn:Ep; [|done]. destruct (meet n1 (Some h)) eqn:Em; [|done].
    intros [= <- <-]. rewrite (IHp _ _ _ Ep). apply (meet_under g) in Em. cbn [under fmap option_fmap option_map] in Em. by rewrite Em.
  - destruct (check inner_rank p h) as [[n1 r1]|] eqn:Ep; [|done]. destruct (meet n1 r1) eqn:Em; [|done].
    intros [= <- <-]. by rewrite (IHp _ _ _ Ep), (meet_under _ _ _ _ Em).
Qed.

(** *** Renaming

    Which object a mutex belongs to does not matter: a skeleton is checked for one
    choice of objects, and holds for every other. *)
Section rename.
Context (f : nat -> nat).
Definition mutex_map (m : mutex) : mutex :=
  match m with
  | CallMutex i => CallMutex (f i) | StateMutex i => StateMutex (f i) | AutoMutex i => AutoMutex (f i)
  | NodeLock i => NodeLock (f i) | ServerList => ServerList | ClientList => ClientList
  | ServerLock i => ServerLock (f i) | ClientLock i => ClientLock (f i) | SpinLock i => SpinLock (f i)
  | ReplyMutex i => ReplyMutex (f i) | SubsMutex i => SubsMutex (f i) | MethodsMutex i => MethodsMutex (f i)
  end.
Definition datum_map (d : datum) : datum :=
  match d with
  | ServerRegistry => ServerRegistry | ClientRegistry => ClientRegistry
  | ServerMethods i => ServerMethods (f i) | ServerSubs i => ServerSubs (f i) | ServerRefs i => ServerRefs (f i)
  | ClientPendings i => ClientPendings (f i) | ClientHandlers i => ClientHandlers (f i)
  | ClientSeqno i => ClientSeqno (f i) | ClientNumbers i => ClientNumbers (f i) | ClientRefs i => ClientRefs (f i)
  | NodeState i => NodeState (f i) | AutoState i => AutoState (f i) | CallerFlag i => CallerFlag (f i)
  | CallerReply i => CallerReply (f i) | CallerSubs i => CallerSubs (f i) | ServiceMethods i => ServiceMethods (f i)
  end.
Definition tid_map (t : tid) : tid :=
  match t with
  | App i => App (f i) | AutoThread i => AutoThread (f i) | PollThread i => PollThread (f i) | SvcThread i => SvcThread (f i)
  | ClientTimer => ClientTimer | ServerTimer => ServerTimer
  end.
Fixpoint prog_map (p : prog) : prog :=
  match p with
  | Skip => Skip | Return => Return | Wait => Wait | Io => Io | Calls l => Calls l
  | Lock m => Lock (mutex_map m) | Unlock m => Unlock (mutex_map m) | Access d => Access (datum_map d)
  | Join t => Join (tid_map t) | Spawn t => Spawn (tid_map t)
  | Seq p q => Seq (prog_map p) (prog_map q) | Either p q => Either (prog_map p) (prog_map q)
  | Repeat p => Repeat (prog_map p) | Fn p => Fn (prog_map p)
  end.
Definition exit_map (a : option (list mutex)) : option (list mutex) := map mutex_map <$> a.

Lemma rank_map m : rank (mutex_map m) = rank m.
Proof. by destruct m. Qed.
Lemma floor_map t : floor (tid_map t) = floor t.
Proof. by destruct t. Qed.
Lemma guard_map d : guard (datum_map d) = mutex_map (guard d).
Proof. by destruct d. Qed.
Lemma below_map r h : below r (map mutex_map h) = below r h.
Proof. unfold below. induction h as [|m h IH]; [done|]. cbn [map forallb]. by rewrite rank_map, IH. Qed.
Lemma io_map h : forallb io_held (map mutex_map h) = forallb io_held h.
Proof. induction h as [|m h IH]; [done|]. cbn [map forallb]. unfold io_held at 1 3. by rewrite rank_map, IH. Qed.
Lemma mutex_eqb_map m m' : mutex_eqb m m' = true -> mutex_eqb (mutex_map m) (mutex_map m') = true.
Proof. intros ->%mutex_eqb_eq. apply mutex_eqb_refl. Qed.
Lemma meet_map a b c : meet a b = Some c -> meet (exit_map a) (exit_map b) = Some (exit_map c).
Proof.
  destruct a as [h|], b as [h'|]; cbn; try (by intros [= <-]).
  destruct (held_eqb h h') eqn:E; [|done]. apply held_eqb_eq in E as ->. intros [= <-]. cbn. by rewrite held_eqb_refl.
Qed.
Lemma check_map r p h n e :
  check r p h = Some (n, e) -> check r (prog_map p) (map mutex_map h) = Some (exit_map n, exit_map e).
Proof.
  revert h n e. induction p as [| |m|m|d| | |l|t|t|p IHp q IHq|p IHp q IHq|p IHp|p IHp]; intros h n e; cbn [check prog_map].
  - by intros [= <- <-].
  - by intros [= <- <-].
  - rewrite rank_map, below_map. destruct (_ && _); [|done]. by intros [= <- <-].
  - destruct h as [|m' h]; [done|]. intros [E [= -> ->]]%through_Some. cbn. by rewrite mutex_eqb_map.
  - intros [E [= -> ->]]%through_Some. apply existsb_exists in E as (m & Hm & Em). rewrite guard_map.
    rewrite (proj2 (existsb_exists _ _)); [done|]. exists (mutex_map m). split; [by apply in_map|by apply mutex_eqb_map].
  - rewrite below_map. by intros [-> [= -> ->]]%through_Some.
  - rewrite io_map. by intros [-> [= -> ->]]%through_Some.
  - destruct l; intros [E [= -> ->]]%through_Some; [rewrite below_map|]; apply andb_true_iff in E as [-> E]; [by rewrite E|].
    by apply held_eqb_eq in E as ->.
  - rewrite floor_map, below_map. by intros [-> [= -> ->]]%through_Some.
  - by intros [= <- <-].
  - destruct (check r p h) as [[[h'|] r1]|] eqn:Ep; [|intros [= <- <-]; by rewrite (IHp _ _ _ Ep)|done].
    destruct (check r q h') as [[n2 r2]|] eqn:Eq; [|done]. destruct (meet r1 r2) eqn:Em; [|done].
    intros [= <- <-]. rewrite (IHp _ _ _ Ep). change (exit_map (Some h')) with (Some (map mutex_map h')). cbn iota.
    by rewrite (IHq _ _ _ Eq), (meet_map _ _ _ Em).
  - destruct (check r p h) as [[n1 r1]|] eqn:Ep; [|done]. destruct (check r q h) as [[n2 r2]|] eqn:Eq; [|done].
    destruct (meet n1 n2) eqn:En; [|done]. destruct (meet r1 r2) eqn:Em; [|done]. intros [= <- <-].
    by rewrite (IHp _ _ _ Ep), (IHq _ _ _ Eq), (meet_map _ _ _ En), (meet_map _ _ _ Em).
  - destruct (check r p h) as [[n1 r1]|] eqn:Ep; [|done]. destruct (meet n1 (Some h)) eqn:Em; [|done].
    intros [= <- <-]. rewrite (IHp _ _ _ Ep). apply meet_map in Em. cbn [exit_map fmap option_fmap option_map] in Em. by rewrite Em.
  - destruct (check r p h) as [[n1 r1]|] eqn:Ep; [|done]. destruct (meet n1 r1) eqn:Em; [|done].
    intros [= <- <-]. by rewrite (IHp _ _ _ Ep), (meet_map _ _ _ Em).
Qed.
Lemma inner_ok_map p : inner_ok p -> inner_ok (prog_map p).
Proof. intros H. by apply check_map in H. Qed.
Lemma outer_ok_map p : outer_ok p -> outer_ok (prog_map p).
Proof. intros H. by apply check_map in H. Qed.
End rename.

(** The rest of a thread runs from [h] on and ends with nothing held; [ret]: a
    return is on its way to the end of its function. *)
Fixpoint cont_ok (f : nat) (k : list kont) (ret : bool) (h : list mutex) : Prop :=
  match k with
  | [] => h = []
  | KSeq q :: k =>
    if ret then cont_ok f k true h
    else match check f q h with
         | None => False
         | Some (n, r) => (forall h', n = Some h' -> cont_ok f k false h') /\ (forall h', r = Some h' -> cont_ok f k true h')
         end
  | KFn :: k => cont_ok f k false h
  end.
Fixpoint stacked (h : list mutex) : Prop := match h with [] => True | m :: h => below (rank m) h = true /\ stacked h end.

Record thread_ok (u : thread) : Prop := {
  to_cont : cont_ok (floor (th_id u)) (KSeq (th_prog u) :: th_cont u) false (th_held u);
  to_stacked : stacked (th_held u);
}.

Lemma cont_ok_cons f p k h n r :
  check f p h = Some (n, r) -> (forall h', n = Some h' -> cont_ok f k false h') ->
  (forall h', r = Some h' -> cont_ok f k true h') -> cont_ok f (KSeq p :: k) false h.
Proof. intros E Hn Hr. cbn. by rewrite E. Qed.
Lemma cont_ok_skip f k h : cont_ok f k false h -> cont_ok f (KSeq Skip :: k) false h.
Proof. intros Hk. eapply cont_ok_cons; [done|by intros ? [= <-]|done]. Qed.

Lemma pop_held m h : stacked (m :: h) -> filter (fun m' => m' <> m) (m :: h) = h.
Proof.
  intros [Hb _]. rewrite filter_cons_False by tauto. apply filter_all. intros m' Hm' ->.
  pose proof (below_elem _ _ _ Hb Hm'). lia.
Qed.

Section sound.
Context (body : tid -> prog) (api : level -> prog -> Prop).
Context (Hinner : forall q, api Inner q -> inner_ok q) (Houter : forall q, api Outer q -> outer_ok q).
Context (Hbody : forall t, thread_body_ok t (body t)).

Lemma run_check f l q h n r :
  api l q -> check f (Calls l) h = Some (n, r) -> check f (Fn q) h = Some (Some h, None).
Proof.
  intros Ha. destruct l; cbn [check]; intros [E _]%through_Some; apply andb_true_iff in E as [E1 E2].
  - apply Hinner in Ha. apply Nat.leb_le in E1. apply (check_under f h _ [] _ _ E1 E2 Ha).
  - apply Nat.eqb_eq in E1 as ->. apply held_eqb_eq in E2 as ->. by apply Houter.
Qed.

(** A step from a checked position leads to one. *)
Lemma local_ok f c p k h a p' k' :
  cont_ok f (KSeq p :: k) false h -> pick_ok api c -> local c p k = Some (a, p', k') ->
  match a with
  | ATau | ASpawn _ => cont_ok f (KSeq p' :: k') false h
  | ALock m => f <= rank m /\ below (rank m) h = true /\ cont_ok f (KSeq p' :: k') false (m :: h)
  | AUnlock m => exists h', h = m :: h' /\ cont_ok f (KSeq p' :: k') false h'
  | AJoin t => f < floor t /\ below (floor t) h = true /\ cont_ok f (KSeq p' :: k') false h
  end.
Proof.
  intros Hk Hc El. destruct p as [| |m|m|d| | |l|t|t|p q|p q|p|p]; cbn [local] in El.
  - destruct k as [|[q|] k]; simplify_eq; cbn in Hk; destruct Hk as [Hk _].
    + by apply (Hk h).
    + apply cont_ok_skip. by apply (Hk h).
  - destruct k as [|[q|] k]; simplify_eq; cbn in Hk; destruct Hk as [_ Hk]; specialize (Hk h eq_refl).
    + by eapply cont_ok_cons; [done|done|intros ? [= <-]].
    + by apply cont_ok_skip.
  - simplify_eq. cbn in Hk. destruct (_ && _) eqn:E; [|done]. apply andb_true_iff in E as [E1%Nat.leb_le E2].
    split_and!; [done|done|]. apply cont_ok_skip. by apply Hk.
  - simplify_eq. cbn in Hk. destruct h as [|m' h]; [done|]. destruct (mutex_eqb m m') eqn:E; [|done].
    apply mutex_eqb_eq in E as <-. exists h. split; [done|]. apply cont_ok_skip. by apply Hk.
  - simplify_eq. apply cont_ok_skip. cbn in Hk. destruct (existsb _ h); [|done]. by apply Hk.
  - simplify_eq. apply cont_ok_skip. cbn in Hk. destruct (below inner_rank h); [|done]. by apply Hk.
  - simplify_eq. apply cont_ok_skip. cbn in Hk. destruct (forallb io_held h); [|done]. by apply Hk.
  - destruct (check f (Calls l) h) as [[n r]|] eqn:E; [|cbn [cont_ok] in Hk; by rewrite E in Hk].
    assert (cont_ok f k false h) as Hk'.
    { cbn [cont_ok] in Hk. rewrite E in Hk. destruct l; cbn in E; apply through_Some in E as [_ [= -> ->]]; by apply Hk. }
    destruct c as [| |l' q]; [done|simplify_eq; by apply cont_ok_skip|].
    destruct (level_eqb l l') eqn:El'; [|done]. assert (l' = l) as -> by (by destruct l, l'). simplify_eq.
    eapply cont_ok_cons; [by eapply run_check|intros ? [= <-]; exact Hk|done].
  - simplify_eq. cbn in Hk. destruct (_ && _) eqn:E; [|done]. apply andb_true_iff in E as [E1%Nat.ltb_lt E2].
    split_and!; [done|done|]. apply cont_ok_skip. by apply Hk.
  - simplify_eq. apply cont_ok_skip. by apply Hk.
  - injection El as <- <- <-. cbn [cont_ok check] in Hk. destruct (check f p h) as [[n r]|] eqn:Ep; [|done].
    eapply cont_ok_cons; [done| |].
    + intros h' ->. cbn [cont_ok]. destruct (check f q h') as [[n2 r2]|] eqn:Eq; [|done].
      destruct (meet r r2) as [r'|] eqn:Em; [|done]. destruct Hk as [Hn Hr]. split; [done|].
      by destruct (meet_elim _ _ _ _ Em Hr).
    + destruct n as [h'|]; [|by destruct Hk]. destruct (check f q h') as [[n2 r2]|] eqn:Eq; [|done].
      destruct (meet r r2) as [r'|] eqn:Em; [|done]. destruct Hk as [Hn Hr]. by destruct (meet_elim _ _ _ _ Em Hr).
  - cbn [cont_ok check] in Hk. destruct (check f p h) as [[n r]|] eqn:Ep; [|done].
    destruct (check f q h) as [[n2 r2]|] eqn:Eq; [|done]. destruct (meet n n2) as [n'|] eqn:En; [|done].
    destruct (meet r r2) as [r'|] eqn:Er; [|done]. destruct Hk as [Hn Hr].
    destruct (meet_elim _ _ _ _ En Hn), (meet_elim _ _ _ _ Er Hr). destruct c; simplify_eq; by eapply cont_ok_cons.
  - pose proof Hk as Hk0. cbn [cont_ok check] in Hk. destruct (check f p h) as [[n r]|] eqn:Ep; [|done].
    destruct (meet n (Some h)) as [n'|] eqn:En; [|done]. destruct Hk as [Hn Hr].
    destruct c; simplify_eq; [|by apply cont_ok_skip, Hn]. eapply cont_ok_cons; [done| |done].
    intros h' ->. cbn in En. destruct (held_eqb h' h) eqn:E; [|done]. apply held_eqb_eq in E as ->. exact Hk0.
  - injection El as <- <- <-. cbn [cont_ok check] in Hk. destruct (check f p h) as [[n r]|] eqn:Ep; [|done].
    destruct (meet n r) as [n'|] eqn:En; [|done]. destruct Hk as [Hn _]. destruct (meet_elim _ _ _ _ En Hn) as [Hn1 Hr1].
    by eapply cont_ok_cons.
Qed.

(** *** Pools *)

Record pool_ok (ts : list thread) : Prop := {
  po_threads : forall u, u ∈ ts -> thread_ok u;
  po_excl : forall i j u v m, ts !! i = Some u -> ts !! j = Some v -> m ∈ th_held u -> m ∈ th_held v -> i = j;
}.
Lemma po_lookup ts i u : pool_ok ts -> ts !! i = Some u -> thread_ok u.
Proof. intros [Ht _] Ei. apply Ht. by apply list_elem_of_lookup_2 in Ei. Qed.

Lemma pool_put ts i u u' :
  pool_ok ts -> ts !! i = Some u -> thread_ok u' ->
  (forall m, m ∈ th_held u' -> m ∈ th_held u \/ forall v, v ∈ ts -> m ∉ th_held v) -> pool_ok (<[i := u']> ts).
Proof.
  intros [Ht He] Ei Hu Hm. pose proof (lookup_lt_Some _ _ _ Ei) as Hlt.
  assert (forall j v m, j <> i -> ts !! j = Some v -> m ∈ th_held u' -> m ∉ th_held v) as Hother.
  { intros j v m Hne Ej Hin Hv. destruct (Hm m Hin) as [Hu'|Hfree]; [by apply Hne; eapply He|].
    apply (Hfree v); [|done]. by apply list_elem_of_lookup_2 in Ej. }
  split.
  - intros v [j Ej]%list_elem_of_lookup_1. destruct (decide (j = i)) as [->|Hne].
    + rewrite list_lookup_insert_eq in Ej by done. by simplify_eq.
    + rewrite list_lookup_insert_ne in Ej by done. apply Ht. by apply list_elem_of_lookup_2 in Ej.
  - intros a b v w m Ea Eb Hv Hw. destruct (decide (a = i)) as [->|Ha], (decide (b = i)) as [->|Hb]; [done|..];
      try (rewrite list_lookup_insert_eq in Ea by done); try (rewrite list_lookup_insert_eq in Eb by done);
      try (rewrite list_lookup_insert_ne in Ea by done); try (rewrite list_lookup_insert_ne in Eb by done); simplify_eq;
      [by destruct (Hother b w m)|by destruct (Hother a v m)|by eapply He].
Qed.
Lemma pool_add ts u : pool_ok ts -> thread_ok u -> th_held u = [] -> pool_ok (ts ++ [u]).
Proof.
  intros [Ht He] Hu Hh. split.
  - intros v [Hv|Hv]%elem_of_app; [by apply Ht|]. apply list_elem_of_singleton in Hv as ->. done.
  - intros i j v w m Ei Ej Hv Hw. apply lookup_snoc_Some in Ei as [[_ Ei]|[_ ->]], Ej as [[_ Ej]|[_ ->]];
      [by eapply He|rewrite Hh in Hw; by apply elem_of_nil in Hw|rewrite Hh in Hv; by apply elem_of_nil in Hv..].
Qed.
Lemma started_ok t : thread_ok (mk_thread t (body t) [] []).
Proof.
  split; [|done]. destruct (Hbody t) as (n & r & E & Hn & Hr). eapply cont_ok_cons; [exact E|..]; cbn.
  - intros h E'. by apply Hn.
  - intros h E'. by apply Hr.
Qed.
Lemma existsb_false {A} (f : A -> bool) l x : existsb f l = false -> x ∈ l -> f x = false.
Proof. intros Hf Hx. destruct (f x) eqn:E; [|done]. rewrite <- Hf. symmetry. apply existsb_exists. exists x. split; [by apply list_elem_of_In|done]. Qed.

Lemma move_ok i c ts :
  pool_ok ts -> pick_ok api c ->
  match move body i c ts with Undefined => False | Blocks => True | Goes ts' => pool_ok ts' end.
Proof.
  intros Hp Hc. unfold move. destruct (ts !! i) as [u|] eqn:Ei; [|done]. pose proof (po_lookup _ _ _ Hp Ei) as [Hk Hs].
  destruct (local c (th_prog u) (th_cont u)) as [[[a p] k]|] eqn:El; [|done].
  pose proof (local_ok _ _ _ _ _ _ _ _ Hk Hc El) as Ha. destruct a as [|m|m|t|t].
  - eapply pool_put; [done..|by split|by left].
  - destruct (existsb (holds m) ts) eqn:E; [done|]. destruct Ha as (_ & Hb & Ha).
    eapply pool_put; [done..|by split|]. intros m' [->|?]%elem_of_cons; [right|by left].
    intros v Hv Hm. pose proof (existsb_false _ _ v E Hv) as Hf. unfold holds in Hf. by apply bool_decide_eq_false in Hf.
  - destruct Ha as (h & Hh & Ha). unfold holds. rewrite bool_decide_true by (rewrite Hh; left).
    rewrite Hh, pop_held by (by rewrite <- Hh). rewrite Hh in Hs.
    eapply pool_put; [done..|by split; [|apply Hs]|]. intros m' Hm'. left. rewrite Hh. by right.
  - destruct (existsb _ ts); [done|]. destruct Ha as (_ & _ & Ha). eapply pool_put; [done..|by split|by left].
  - apply pool_add; [|apply started_ok|done]. eapply pool_put; [done..|by split|by left].
Qed.
Lemma reach_ok start ts : pool_ok start -> reach body api start ts -> pool_ok ts.
Proof.
  intros H0. induction 1 as [|i c ts ts' _ IH Hc E]; [done|]. pose proof (move_ok i c ts IH Hc) as Hm. by rewrite E in Hm.
Qed.

(** *** Where a checked thread is *)

Lemma ended_holds_nothing u : thread_ok u -> ended u = true -> th_held u = [].
Proof.
  intros [Hk _]. destruct u as [t p k h]. unfold ended. cbn in *. destruct p; try done; destruct k; try done; intros _; destruct Hk as [Hn Hr];
    [by apply (Hn h)|by apply (Hr h)].
Qed.
Lemma at_check u : thread_ok u -> exists n r, check (floor (th_id u)) (th_prog u) (th_held u) = Some (n, r).
Proof. intros [Hk _]. cbn in Hk. destruct (check _ _ _) as [[n r]|]; [by eauto|done]. Qed.
Lemma at_lock u m : thread_ok u -> th_prog u = Lock m -> floor (th_id u) <= rank m /\ below (rank m) (th_held u) = true.
Proof.
  intros (n & r & E)%at_check Ep. rewrite Ep in E. cbn in E. destruct (_ && _) eqn:Eb; [|done].
  by apply andb_true_iff in Eb as [?%Nat.leb_le ?].
Qed.
Lemma at_join u t : thread_ok u -> th_prog u = Join t -> floor (th_id u) < floor t /\ below (floor t) (th_held u) = true.
Proof.
  intros (n & r & E)%at_check Ep. rewrite Ep in E. apply through_Some in E as [Eb _].
  by apply andb_true_iff in Eb as [?%Nat.ltb_lt ?].
Qed.
Lemma at_access u d : thread_ok u -> th_prog u = Access d -> guard d ∈ th_held u.
Proof.
  intros (n & r & E)%at_check Ep. rewrite Ep in E. apply through_Some in E as [Eb _].
  apply existsb_exists in Eb as (m & Hm & ->%mutex_eqb_eq). by apply list_elem_of_In.
Qed.
Lemma at_rest u : thread_ok u -> th_prog u = Wait \/ th_prog u = Callback -> below inner_rank (th_held u) = true.
Proof.
  intros (n & r & E)%at_check [Ep|Ep]; rewrite Ep in E; apply through_Some in E as [Eb _]; [done|].
  by apply andb_true_iff in Eb as [_ ?].
Qed.

Lemma at_io u m : thread_ok u -> th_prog u = Io -> m ∈ th_held u -> rank m < inner_rank \/ rank m = 4.
Proof.
  intros (n & r & E)%at_check Ep Hm. rewrite Ep in E. apply through_Some in E as [Eb _].
  rewrite forallb_forall in Eb. apply list_elem_of_In, Eb, orb_true_iff in Hm as [?%Nat.ltb_lt|?%Nat.eqb_eq]; auto.
Qed.

(** *** Progress *)

Definition go (c : pick) (u : thread) : bool := match local c (th_prog u) (th_cont u) with Some _ => true | None => false end.
Lemma unended_goes u : ended u = false -> go First u || go Second u = true.
Proof. destruct u as [t p k h]. unfold ended, go. cbn. destruct p as [| |m|m|d| | |[]|t'|t'|p q|p q|p|p]; try done; by destruct k as [|[]]. Qed.

Lemma moves_or_waits ts i u :
  pool_ok ts -> ts !! i = Some u -> ended u = false ->
  can_move body api i ts \/ exists j, waits_for ts i j /\ ((exists m, th_prog u = Lock m) \/ exists t, th_prog u = Join t).
Proof.
  intros Hp Ei He. pose proof (po_lookup _ _ _ Hp Ei) as Hu. pose proof (to_cont _ Hu) as Hk.
  assert (exists c a p k, pick_ok api c /\ local c (th_prog u) (th_cont u) = Some (a, p, k)) as (c & a & p & k & Hc & El).
  { apply unended_goes, orb_true_iff in He. unfold go in He.
    destruct He as [He|He]; [exists First|exists Second]; destruct (local _ _ _) as [[[a p] k]|]; [by exists a, p, k|done|by exists a, p, k|done]. }
  pose proof (local_ok _ _ _ _ _ _ _ _ Hk Hc El) as Ha.
  assert (forall ts', move body i c ts = Goes ts' -> can_move body api i ts) as Hgo by (by intros ts' E; exists c, ts').
  unfold move in Hgo. rewrite Ei, El in Hgo. destruct a as [|m|m|t|t].
  - left. by eapply Hgo.
  - destruct (existsb (holds m) ts) eqn:E; [right|left; by eapply Hgo].
    apply existsb_exists in E as (v & Hv & Hm). apply list_elem_of_In, list_elem_of_lookup_1 in Hv as [j Ej].
    assert (th_prog u = Lock m) as Ep by (destruct (th_prog u) as [| | | | | | |[]| | | | | |]; cbn in El; repeat case_match; by simplify_eq).
    exists j. split; [|by left; exists m]. exists u, v. rewrite Ep. unfold holds in Hm. by apply bool_decide_eq_true in Hm.
  - left. destruct Ha as (h & Hh & _). unfold holds in Hgo. rewrite bool_decide_true in Hgo by (rewrite Hh; left). by eapply Hgo.
  - destruct (existsb _ ts) eqn:E; [right|left; by eapply Hgo].
    apply existsb_exists in E as (v & Hv & Hm). apply list_elem_of_In, list_elem_of_lookup_1 in Hv as [j Ej].
    apply andb_true_iff in Hm as [Hm He']. apply negb_true_iff in He'. unfold named in Hm. apply bool_decide_eq_true in Hm.
    assert (th_prog u = Join t) as Ep by (destruct (th_prog u) as [| | | | | | |[]| | | | | |]; cbn in El; repeat case_match; by simplify_eq).
    exists j. split; [|by right; exists t]. exists u, v. by rewrite Ep.
  - left. by eapply Hgo.
Qed.

(** Along a chain of waiting threads the ranks grow. *)
Definition height (u : thread) : nat :=
  match th_prog u with Lock m => 2 * rank m + 1 | Join t => 2 * floor t | _ => 12 end.
Lemma waits_higher ts i j u v :
  pool_ok ts -> waits_for ts i j -> ts !! i = Some u -> ts !! j = Some v -> ended v = false /\ height u < height v.
Proof.
  intros Hp (u' & v' & Ei' & Ej' & Hw) Ei Ej. rewrite Ei in Ei'. rewrite Ej in Ej'. injection Ei' as <-. injection Ej' as <-.
  pose proof (po_lookup _ _ _ Hp Ei) as Hu. pose proof (po_lookup _ _ _ Hp Ej) as Hv.
  unfold height. destruct (th_prog u) as [| |m| | | | | |t| | | | | ] eqn:Ep; try done.
  - split.
    + destruct (ended v) eqn:E; [|done]. apply (ended_holds_nothing _ Hv) in E. rewrite E in Hw. by apply elem_of_nil in Hw.
    + assert (rank m <= 5) by (destruct m; cbn; lia). destruct (th_prog v) as [| |m'| | | | | |t'| | | | | ] eqn:Ev; try lia.
      * pose proof (below_elem _ _ _ (proj2 (at_lock _ _ Hv Ev)) Hw). lia.
      * pose proof (below_elem _ _ _ (proj2 (at_join _ _ Hv Ev)) Hw). lia.
  - destruct Hw as [<- He]. split; [done|]. assert (floor (th_id v) <= 3) by (destruct (th_id v); cbn; lia).
    destruct (th_prog v) as [| |m'| | | | | |t'| | | | | ] eqn:Ev; try lia.
    + pose proof (proj1 (at_lock _ _ Hv Ev)). lia.
    + pose proof (proj1 (at_join _ _ Hv Ev)). lia.
Qed.
Lemma waits_end ts i u :
  pool_ok ts -> ts !! i = Some u -> ended u = false -> exists j, rtc (waits_for ts) i j /\ can_move body api j ts.
Proof.
  intros Hp. remember (12 - height u) as d eqn:Ed. revert i u Ed. induction d as [d IH] using lt_wf_ind. intros i u -> Ei He.
  destruct (moves_or_waits _ _ _ Hp Ei He) as [Hm|(j & Hw & Hat)]; [exists i; split; [apply rtc_refl|done]|].
  pose proof Hw as (u' & v & _ & Ej & _). destruct (waits_higher _ _ _ _ _ Hp Hw Ei Ej) as [Hv Hlt].
  assert (height u < 12) by (unfold height; destruct Hat as [[m Ep]|[t Ep]]; rewrite Ep; [destruct m|destruct t]; cbn; lia).
  destruct (IH (12 - height v) ltac:(lia) j v eq_refl Ej Hv) as (l & Hr & Hl). exists l. split; [by eapply rtc_l|done].
Qed.
End sound.

(** ** Deadlocks *)

(** Threads that wait for each other never move again. *)
Definition deadlocked (ts : list thread) (ids : list nat) : Prop :=
  forall i, i ∈ ids -> exists j, j ∈ ids /\ waits_for ts i j.

Section deadlocks.
Context (body : tid -> prog) (api : level -> prog -> Prop).

Lemma waiting_blocks ts i j c : waits_for ts i j -> move body i c ts = Blocks.
Proof.
  intros (u & v & Ei & Ej & Hw). unfold move. rewrite Ei. destruct (th_prog u) as [| |m| | | | | |t| | | | | ]; try done; cbn.
  - rewrite (proj2 (existsb_exists _ _)); [done|]. exists v. split; [by apply list_elem_of_In; apply list_elem_of_lookup_2 in Ej|].
    unfold holds. by apply bool_decide_true.
  - rewrite (proj2 (existsb_exists _ _)); [done|]. exists v. split; [by apply list_elem_of_In; apply list_elem_of_lookup_2 in Ej|].
    destruct Hw as [<- ->]. unfold named. by rewrite bool_decide_true.
Qed.
(** A step changes the thread that makes it and may add one at the end. *)
Lemma move_others i c ts ts' l u :
  move body i c ts = Goes ts' -> l <> i -> ts !! l = Some u -> ts' !! l = Some u.
Proof.
  unfold move. intros E Hne El. repeat case_match; simplify_eq; try (by rewrite list_lookup_insert_ne).
  rewrite lookup_app_l by (rewrite length_insert; by eapply lookup_lt_Some). by rewrite list_lookup_insert_ne.
Qed.
Lemma deadlocked_forever ts ids ts' i :
  deadlocked ts ids -> reach body api ts ts' -> i ∈ ids -> ts' !! i = ts !! i.
Proof.
  intros Hd Hr. assert (forall i, i ∈ ids -> exists u, ts !! i = Some u) as Hex.
  { intros l Hl. destruct (Hd l Hl) as (? & _ & u & ? & ? & _). by exists u. }
  revert i. induction Hr as [|l c ts1 ts2 _ IH _ E]; intros i Hi; [done|]. destruct (Hex i Hi) as [u Eu]. rewrite Eu.
  eapply move_others; [exact E| |by rewrite IH]. intros ->. destruct (Hd l Hi) as (j & Hj & v & w & El & Ej & Hw).
  assert (waits_for ts1 l j) as Hw1 by (exists v, w; by rewrite !IH).
  rewrite (waiting_blocks _ _ _ c Hw1) in E. done.
Qed.

(** *** Executions *)

Definition is_choice (p : prog) : bool := match p with Either _ _ | Repeat _ | Calls _ => true | _ => false end.
(** Thread [i] runs as far as the choices say. *)
Fixpoint steer (i : nat) (cs : list pick) (fuel : nat) (ts : list thread) : list thread :=
  match fuel with
  | O => ts
  | S fuel =>
    let step c cs := match move body i c ts with Goes ts' => steer i cs fuel ts' | _ => ts end in
    match ts !! i with
    | None => ts
    | Some u => if is_choice (th_prog u) then match cs with [] => ts | c :: cs => step c cs end else step First cs
    end
  end.
Lemma steer_reach start i cs fuel ts :
  Forall (pick_ok api) cs -> reach body api start ts -> reach body api start (steer i cs fuel ts).
Proof.
  revert cs ts. induction fuel as [|fuel IH]; intros cs ts Hcs Hr; [done|]. cbn. destruct (ts !! i) as [u|]; [|done].
  destruct (is_choice (th_prog u)).
  - destruct cs as [|c cs]; [done|]. inversion_clear Hcs as [|? ? Hc Hcs']. destruct (move body i c ts) eqn:E; [done..|].
    apply IH; [done|]. by eapply reach_move.
  - destruct (move body i First ts) as [| |ts1] eqn:E; [done..|]. apply IH; [done|]. exact (reach_move _ _ _ i First _ _ Hr I E).
Qed.
End deadlocks.
