(* ===== verification/LockPrograms.v ===== *)
(** * Lock skeletons of the code

    For each function that takes a mutex, waits, starts or joins a thread or makes a
    callback: its skeleton, in the language of [LockOrder].  A test that is not about
    mutexes is a choice, a loop runs any number of times, so every path of the code is
    one of the skeleton.  Sending, receiving and connecting on a connection is [Io];
    most of it happens with the lock of the server or client held.  Functions that do
    none of this (the transports, the protocol contexts, releasing an object after its
    last reference) do not appear.  A callback of the application is [Callback]: any
    number of calls of the functions of servers and clients. *)
From S2P Require Import Prelude LockOrder.
#[local] Open Scope prog_scope.
#[local] Open Scope nat_scope.

(** ** Servers ([src/src/ssn_server.c]) *)

Section server.
Context (s : nat).
#[local] Abbreviation lock := (Lock (ServerLock s)).
#[local] Abbreviation unlock := (Unlock (ServerLock s)).

Definition ssn_server_peer_close_locks : prog := When Return ;; lock ;; unlock.
Definition ssn_server_ref_locks : prog := When Return ;; lock ;; Access (ServerRefs s) ;; unlock.
Definition ssn_server_unref_locks : prog := When Return ;; lock ;; Access (ServerRefs s) ;; unlock.
Definition ssn_server_create_locks : prog :=
  When Return ;; Lock ServerList ;; Access ServerRegistry ;; Unlock ServerList.
Definition ssn_server_destroy_locks : prog :=
  When Return ;; Lock ServerList ;; Access ServerRegistry ;; Unlock ServerList ;; lock ;; unlock ;; Fn ssn_server_unref_locks.
Definition ssn_server_peer_count_locks : prog := When Return ;; lock ;; unlock.
Definition ssn_server_is_subscribed_locks : prog :=
  When Return ;; When Return ;; lock ;; Repeat (When (Access (ServerSubs s) ;; When (unlock ;; Return))) ;; unlock.
Definition ssn_server_do_publish_locks : prog :=
  When Return ;; When Return ;; lock ;; Repeat (When (Access (ServerSubs s) ;; When Io)) ;; unlock.
Definition ssn_server_add_method_locks : prog :=
  When Return ;; When Return ;; When Return ;; lock ;; Access (ServerMethods s) ;; unlock.
Definition ssn_server_remove_method_locks : prog :=
  When Return ;; When Return ;; lock ;; Access (ServerMethods s) ;; unlock.
Definition ssn_server_response_locks : prog := When Return ;; lock ;; When (unlock ;; Return) ;; Io ;; unlock.
Definition ssn_server_peer_list_locks : prog := When Return ;; lock ;; unlock.
Definition ssn_server_cli_do_message_locks : prog :=
  When Return ;; When Return ;; When Return ;; lock ;; When (unlock ;; Return) ;; Io ;; unlock.
Definition ssn_server_fds_locks : prog := When Return ;; lock ;; unlock.

(** The handlers are entered with the lock and release it. *)
Definition ssn_server_handle_service_info_locks : prog := unlock ;; Io ;; When Callback.
Definition ssn_server_handle_rpc_request_locks : prog :=
  Either (Access (ServerMethods s) ;; Either (unlock ;; Callback) (Io ;; unlock)) (Io ;; unlock).
Definition ssn_server_handle_subscribe_locks : prog := When (Access (ServerSubs s)) ;; Io ;; unlock.
Definition ssn_server_handle_unsubscribe_locks : prog := Access (ServerSubs s) ;; Io ;; unlock.
Definition ssn_server_handle_ping_echo_locks : prog := Io ;; unlock.
Definition ssn_server_input_locks : prog :=
  When (lock ;; unlock) ;; When (When Callback ;; Return) ;; lock ;;
  Either (Fn ssn_server_handle_service_info_locks)
    (Either (Fn ssn_server_handle_rpc_request_locks)
      (Either (Fn ssn_server_handle_subscribe_locks)
        (Either (Fn ssn_server_handle_unsubscribe_locks) (Either (Fn ssn_server_handle_ping_echo_locks) unlock)))).
(** A connection that ended: the callback, then the connection goes. *)
Definition cli_gone_locks : prog := When Callback ;; lock ;; Access (ServerSubs s) ;; unlock.
Definition ssn_server_handle_client_input_locks : prog :=
  When (Io ;; Repeat (Fn ssn_server_input_locks) ;; Either cli_gone_locks (Either cli_gone_locks Skip)).
Definition ssn_server_handle_new_connection_locks : prog :=
  When (Io ;; When (lock ;; unlock ;; When Return ;; When (lock ;; unlock))).
Definition ssn_server_handle_event_input_locks : prog := When (lock ;; Repeat (When (Access (ServerSubs s))) ;; unlock).
Definition ssn_server_input_fds_locks : prog :=
  When Return ;; Repeat (Fn ssn_server_handle_client_input_locks) ;;
  Fn ssn_server_handle_new_connection_locks ;; Fn ssn_server_handle_event_input_locks.
Definition ssn_server_poll_locks : prog :=
  When Return ;; Fn ssn_server_ref_locks ;; Fn ssn_server_fds_locks ;; Wait ;; Repeat Wait ;;
  When (Fn ssn_server_input_fds_locks ;; Fn ssn_server_unref_locks ;; Return) ;; Fn ssn_server_unref_locks.
Definition ssn_server_run_locks : prog :=
  When Return ;; Fn ssn_server_ref_locks ;;
  Repeat (Fn ssn_server_fds_locks ;; When (Wait ;; Repeat Wait ;; When (Fn ssn_server_input_fds_locks))) ;;
  Fn ssn_server_unref_locks.

Definition server_api : list prog :=
  [ssn_server_peer_close_locks; ssn_server_create_locks; ssn_server_destroy_locks; ssn_server_peer_count_locks;
   ssn_server_is_subscribed_locks; ssn_server_do_publish_locks; ssn_server_add_method_locks; ssn_server_remove_method_locks;
   ssn_server_response_locks; ssn_server_peer_list_locks; ssn_server_cli_do_message_locks; ssn_server_poll_locks;
   ssn_server_run_locks].
End server.

(** One of the objects of a list. *)
Definition some_of (ids : list nat) (f : nat -> prog) : prog := foldr (fun i p => Either (f i) p) Skip ids.

Definition ssn_server_timer_handle_locks (servers : list nat) : prog :=
  Fn (Repeat (Wait ;; When Return ;; Lock ServerList ;; Access ServerRegistry ;;
    Either (Unlock ServerList)
      (Repeat (some_of servers (fun s => Lock (ServerLock s) ;; Unlock (ServerLock s))) ;; Unlock ServerList))).

(** ** Clients ([src/src/ssn_client.c]) *)

Section client.
Context (c : nat).
#[local] Abbreviation lock := (Lock (ClientLock c)).
#[local] Abbreviation unlock := (Unlock (ClientLock c)).
#[local] Abbreviation pend := (Access (ClientPendings c)).

Definition ssn_client_ref_locks : prog := When Return ;; lock ;; Access (ClientRefs c) ;; unlock.
Definition ssn_client_collect_and_call_pending_locks : prog := lock ;; pend ;; unlock ;; Repeat Callback.
(** Releasing the last reference calls the requests back that are left. *)
Definition ssn_client_unref_locks : prog :=
  When Return ;; lock ;; Access (ClientRefs c) ;; unlock ;; When (Fn ssn_client_collect_and_call_pending_locks).
Definition get_pending_snapshot_locks : prog := When Return ;; lock ;; pend ;; When (unlock ;; Return) ;; unlock.
Definition ssn_client_create_locks : prog :=
  When Return ;; Lock ClientList ;; Access ClientRegistry ;; Unlock ClientList.
Definition ssn_client_close_locks : prog :=
  When Return ;; lock ;; When (unlock ;; Return) ;; unlock ;;
  Lock ClientList ;; Access ClientRegistry ;; Unlock ClientList ;; Fn ssn_client_unref_locks.
Definition ssn_client_timeout_all_locks : prog := Fn ssn_client_collect_and_call_pending_locks.
Definition unref_return : prog := Fn ssn_client_unref_locks ;; Return.
Definition ssn_client_connect_locks : prog :=
  When Return ;; Fn ssn_client_ref_locks ;; lock ;; unlock ;; Fn ssn_client_timeout_all_locks ;;
  When unref_return ;; When unref_return ;; Io ;; When unref_return ;; Io ;; When unref_return ;;
  Repeat (Io ;; When unref_return ;; When unref_return ;; Wait) ;; When unref_return ;;
  lock ;; unlock ;; Fn ssn_client_unref_locks.
Definition ssn_client_disconnect_locks : prog :=
  When Return ;; Fn ssn_client_ref_locks ;; lock ;; unlock ;; Fn ssn_client_timeout_all_locks ;; Fn ssn_client_unref_locks.
Definition ssn_client_send_timeout_locks : prog :=
  When Return ;; Fn ssn_client_ref_locks ;; lock ;; When Io ;; unlock ;; Fn ssn_client_unref_locks.
Definition ssn_client_fds_locks : prog := When Return ;; When Return ;; lock ;; unlock.
Definition ssn_client_handle_publish_locks : prog :=
  lock ;; Access (ClientHandlers c) ;; unlock ;; When (Callback ;; Return) ;; When (Callback ;; Return) ;; When Callback.
Definition ssn_client_input_locks : prog :=
  When (Fn ssn_client_handle_publish_locks ;; Return) ;; When (When Callback ;; Return) ;;
  Fn get_pending_snapshot_locks ;; When Return ;; When Callback ;; lock ;; pend ;; unlock.
Definition ssn_client_process_events_locks : prog :=
  When Return ;;
  When (lock ;; When Io ;; unlock ;; When (Repeat (Fn ssn_client_input_locks)) ;;
    When (Fn ssn_client_timeout_all_locks ;; Return) ;; When (Fn ssn_client_timeout_all_locks ;; Return)) ;;
  When (Fn ssn_client_collect_and_call_pending_locks).
Definition ssn_client_prepare_seqno_locks : prog :=
  Lock (SpinLock c) ;; Access (ClientNumbers c) ;; Unlock (SpinLock c).
(** The part that [ssn_client_request_ex] and [ssn_client_call_ex] share. *)
Definition send_request_locks : prog :=
  Fn ssn_client_ref_locks ;; lock ;;
  Either (pend ;; When (unlock ;; unref_return) ;; pend ;; Access (ClientSeqno c)) (Fn ssn_client_prepare_seqno_locks) ;;
  Io ;; When (When pend ;; unlock ;; unref_return) ;; unlock ;; Fn ssn_client_unref_locks.
Definition ssn_client_request_ex_locks : prog := When Return ;; send_request_locks.
Definition ssn_client_call_ex_locks : prog := When Return ;; When Return ;; send_request_locks.
Definition ssn_client_subscribe_locks : prog :=
  When Return ;; When Return ;; When Return ;; lock ;; Access (ClientHandlers c) ;; unlock ;; Fn ssn_client_request_ex_locks.
Definition ssn_client_unsubscribe_locks : prog :=
  When Return ;; When Return ;; lock ;; Access (ClientHandlers c) ;; unlock ;; Fn ssn_client_request_ex_locks.
Definition ssn_client_message_locks : prog :=
  When Return ;; When Return ;; When Return ;; Fn ssn_client_ref_locks ;; lock ;; Io ;; unlock ;;
  Either unref_return unref_return.
Definition ssn_client_set_handler_locks : prog := When Return ;; Fn ssn_client_ref_locks ;; Fn ssn_client_unref_locks.
Definition ssn_client_poll_locks : prog :=
  When Return ;; Fn ssn_client_ref_locks ;; Fn ssn_client_fds_locks ;; Wait ;;
  When (Fn ssn_client_process_events_locks ;; When (lock ;; unlock)) ;; Fn ssn_client_unref_locks.
Definition ssn_client_ping_locks : prog :=
  When Return ;; Fn ssn_client_request_ex_locks ;; When Return ;; Repeat (Fn ssn_client_poll_locks) ;;
  When (lock ;; pend ;; unlock).
Definition ssn_client_run_locks : prog :=
  When Return ;; Fn ssn_client_ref_locks ;;
  Repeat (Fn ssn_client_fds_locks ;;
    When (Wait ;; When (Fn ssn_client_process_events_locks ;; When (Fn ssn_client_close_locks ;; unref_return)))) ;;
  Fn ssn_client_unref_locks.

Definition client_api : list prog :=
  [ssn_client_ref_locks; ssn_client_unref_locks; ssn_client_create_locks; ssn_client_close_locks; ssn_client_connect_locks;
   ssn_client_disconnect_locks; ssn_client_send_timeout_locks; ssn_client_fds_locks; ssn_client_call_ex_locks;
   ssn_client_subscribe_locks; ssn_client_unsubscribe_locks; ssn_client_message_locks; ssn_client_set_handler_locks;
   ssn_client_poll_locks; ssn_client_ping_locks; ssn_client_run_locks].
End client.

Definition ssn_client_timer_handle_locks (clients : list nat) : prog :=
  Fn (Repeat (Wait ;; When Return ;; Lock ClientList ;; Access ClientRegistry ;;
    Either (Unlock ClientList)
      (Repeat (some_of clients (fun c => Lock (ClientLock c) ;; Access (ClientPendings c) ;; Unlock (ClientLock c))) ;;
       Unlock ClientList))).

(** ** Initialisation ([src/src/ssn_global.c]) *)

Definition ssn_global_init_locks : prog :=
  When Return ;; When Return ;; When Return ;; When Return ;; Spawn ClientTimer ;;
  When (Join ClientTimer ;; Return) ;; Either (Join ClientTimer ;; Return) (Spawn ServerTimer).
Definition ssn_global_cleanup_locks : prog := When Return ;; When (Join ClientTimer) ;; When (Join ServerTimer).

(** ** Reconnecting clients ([src/src/ssn_cliauto.c]) *)

Section auto.
(** The object and its client. *)
Context (a c : nat).
#[local] Abbreviation lock := (Lock (AutoMutex a)).
#[local] Abbreviation unlock := (Unlock (AutoMutex a)).
#[local] Abbreviation state := (Access (AutoState a)).

Definition ssn_client_auto_start_locks : prog :=
  When Return ;; lock ;; state ;; When (unlock ;; Return) ;; When (unlock ;; Return) ;;
  When (When (unlock ;; Return) ;; Repeat (When (unlock ;; Return))) ;;
  Fn (ssn_client_create_locks) ;; When (Fn (ssn_client_set_handler_locks c)) ;; When (unlock ;; Return) ;;
  state ;; Either (Spawn (AutoThread a)) (state ;; Fn (ssn_client_close_locks c) ;; unlock ;; Return) ;; unlock.
Definition ssn_client_auto_stop_locks : prog :=
  When Return ;; lock ;; state ;; When (unlock ;; Return) ;; state ;; unlock ;; Join (AutoThread a) ;;
  When (Fn (ssn_client_close_locks c)).
Definition ssn_client_auto_delete_locks : prog :=
  When Return ;; Fn ssn_client_auto_stop_locks ;; When (Fn (ssn_client_close_locks c)).
Definition set_state_locks : prog := lock ;; state ;; unlock.
Definition ssn_client_auto_thread_locks : prog :=
  Fn (Repeat (lock ;; state ;; When (unlock ;; Return) ;; state ;; unlock ;;
    Either (Fn (ssn_client_connect_locks c) ;;
        Either (set_state_locks ;; Repeat (Fn (ssn_client_subscribe_locks c)) ;; When Callback) Wait)
      (Either (Fn (ssn_client_ping_locks c) ;;
          Either (lock ;; unlock) (lock ;; unlock ;; When (set_state_locks ;; When Callback)) ;;
          Fn (ssn_client_poll_locks c) ;; When (set_state_locks ;; When Callback) ;; When Wait)
        (Either (Wait ;; set_state_locks)
          (Either Return (lock ;; (unlock ;; Wait ;; lock) ;; unlock)))))).

Definition auto_api : list prog := [ssn_client_auto_start_locks; ssn_client_auto_stop_locks; ssn_client_auto_delete_locks].
End auto.

(** ** Nodes ([src/src/node]) *)

Section node.
(** The node, its server and its client. *)
Context (n s c : nat).
#[local] Abbreviation lock := (Lock (NodeLock n)).
#[local] Abbreviation unlock := (Unlock (NodeLock n)).
#[local] Abbreviation state := (Access (NodeState n)).

Definition ssn_node_start_locks : prog :=
  When Return ;; lock ;; state ;; When (unlock ;; Return) ;; When (unlock ;; Return) ;;
  When (When (state ;; unlock ;; Return) ;; Fn ssn_server_create_locks ;; When (state ;; unlock ;; Return) ;;
    When (Fn (ssn_server_destroy_locks s) ;; state ;; unlock ;; Return)) ;;
  state ;; unlock.
Definition ssn_node_stop_locks : prog :=
  When Return ;; lock ;; state ;; When (unlock ;; Return) ;; When (Fn (ssn_server_destroy_locks s)) ;;
  When (Fn (ssn_client_close_locks c)) ;; state ;; unlock.
Definition ssn_node_destroy_locks : prog :=
  When Return ;; lock ;; When (unlock ;; Return) ;; When (unlock ;; Return) ;; state ;;
  When (unlock ;; Fn ssn_node_stop_locks ;; lock) ;; unlock.
Definition ssn_node_get_state_locks : prog := When Return ;; lock ;; state ;; unlock.
Definition ssn_node_get_capabilities_locks : prog := When Return ;; lock ;; unlock.
Definition ssn_node_get_client_locks : prog := When Return ;; When (Fn ssn_client_create_locks ;; When Return).
Definition ssn_node_set_connect_handler_locks : prog := When Return ;; lock ;; unlock.
Definition ssn_node_set_message_handler_locks : prog := When Return ;; lock ;; unlock.
Definition ssn_node_set_client_message_handler_locks : prog :=
  When Return ;; lock ;; When (Fn (ssn_client_set_handler_locks c)) ;; unlock.
Definition ssn_node_add_rpc_method_locks : prog :=
  When Return ;; lock ;; When (unlock ;; Return) ;; Fn (ssn_server_add_method_locks s) ;; unlock.
Definition ssn_node_remove_rpc_method_locks : prog :=
  When Return ;; lock ;; When (Fn (ssn_server_remove_method_locks s)) ;; unlock.
Definition ssn_node_poll_locks : prog :=
  When Return ;; lock ;; When (Fn (ssn_client_ref_locks c)) ;; unlock ;; When (Fn (ssn_server_poll_locks s)) ;;
  When (Fn (ssn_client_poll_locks c) ;; Fn (ssn_client_unref_locks c)).
Definition ssn_node_get_stats_locks : prog :=
  When Return ;; lock ;; When (Fn (ssn_server_peer_count_locks s)) ;; unlock.

(** Entered with the lock, and left with it. *)
Definition connect_to_peer_locks : prog :=
  When Return ;; Fn ssn_node_get_client_locks ;; When Return ;;
  When (state ;; When Return ;; Fn (ssn_client_ref_locks c) ;; Return) ;; Fn (ssn_client_ref_locks c).
Definition node_ensure_connected_locks : prog :=
  When (Fn (ssn_client_connect_locks c) ;; When Return ;; lock ;; state ;; unlock).
Definition with_peer_locks (work : prog) : prog :=
  When Return ;; lock ;; Fn connect_to_peer_locks ;; When (unlock ;; Return) ;; unlock ;;
  Fn node_ensure_connected_locks ;; When (Fn (ssn_client_unref_locks c) ;; Return) ;;
  Fn work ;; When (Fn (ssn_client_unref_locks c) ;; Return) ;; lock ;; state ;; unlock ;; Fn (ssn_client_unref_locks c).
Definition ssn_node_send_to_peer_locks : prog := with_peer_locks (ssn_client_message_locks c).
Definition ssn_node_subscribe_locks : prog := with_peer_locks (ssn_client_subscribe_locks c).
Definition ssn_node_rpc_call_locks : prog := with_peer_locks (ssn_client_call_ex_locks c).
Definition ssn_node_publish_locks : prog :=
  When Return ;; lock ;; When (unlock ;; Return) ;; Fn (ssn_server_do_publish_locks s) ;; When (unlock ;; Return) ;;
  state ;; unlock.
Definition ssn_node_unsubscribe_locks : prog :=
  When Return ;; lock ;; When (unlock ;; Return) ;; Fn (ssn_client_unsubscribe_locks c) ;; When (unlock ;; Return) ;;
  state ;; unlock.

Definition node_api : list prog :=
  [ssn_node_start_locks; ssn_node_stop_locks; ssn_node_destroy_locks; ssn_node_get_state_locks;
   ssn_node_get_capabilities_locks; ssn_node_get_client_locks; ssn_node_set_connect_handler_locks;
   ssn_node_set_message_handler_locks; ssn_node_set_client_message_handler_locks; ssn_node_add_rpc_method_locks;
   ssn_node_remove_rpc_method_locks; ssn_node_poll_locks; ssn_node_get_stats_locks; ssn_node_send_to_peer_locks;
   ssn_node_subscribe_locks; ssn_node_rpc_call_locks; ssn_node_publish_locks; ssn_node_unsubscribe_locks].
End node.

(** ** JSON clients ([src/src/framework/SsnClient.cpp]) *)

Section caller.
(** The client and its node with the node's server and client. *)
Context (j n s c : nat).
#[local] Abbreviation call := (Lock (CallMutex j)).
#[local] Abbreviation uncall := (Unlock (CallMutex j)).
#[local] Abbreviation flag := (Access (CallerFlag j)).

Definition SsnClient_connect_locks : prog :=
  call ;; Lock (StateMutex j) ;; flag ;; When (Unlock (StateMutex j) ;; uncall ;; Return) ;; Unlock (StateMutex j) ;;
  When (uncall ;; Return) ;; Fn (ssn_node_start_locks n s) ;; When (Fn (ssn_node_destroy_locks n s c) ;; uncall ;; Return) ;;
  Lock (StateMutex j) ;; flag ;; Unlock (StateMutex j) ;;
  Either (Spawn (PollThread j))
    (Lock (StateMutex j) ;; flag ;; Unlock (StateMutex j) ;; Fn (ssn_node_stop_locks n s c) ;;
     Fn (ssn_node_destroy_locks n s c) ;; uncall ;; Return) ;;
  uncall.
Definition SsnClient_disconnect_locks : prog :=
  call ;; Lock (StateMutex j) ;; flag ;; When (Unlock (StateMutex j) ;; uncall ;; Return) ;; flag ;; Unlock (StateMutex j) ;;
  When (Join (PollThread j)) ;; Lock (StateMutex j) ;; Unlock (StateMutex j) ;;
  When (Fn (ssn_node_stop_locks n s c) ;; Fn (ssn_node_destroy_locks n s c)) ;; uncall.
Definition SsnClient_connected_locks : prog := Lock (StateMutex j) ;; flag ;; Unlock (StateMutex j).
(** Waiting for the condition gives the mutex back meanwhile. *)
Definition callJson_locks : prog :=
  call ;; Lock (StateMutex j) ;; flag ;; When (Unlock (StateMutex j) ;; uncall ;; Return) ;; Unlock (StateMutex j) ;;
  Lock (ReplyMutex j) ;; Access (CallerReply j) ;; Unlock (ReplyMutex j) ;;
  Fn (ssn_node_rpc_call_locks n c) ;; When (uncall ;; Return) ;;
  Lock (ReplyMutex j) ;; Repeat (Access (CallerReply j) ;; Unlock (ReplyMutex j) ;; Wait ;; Lock (ReplyMutex j)) ;;
  Access (CallerReply j) ;; When (Unlock (ReplyMutex j) ;; uncall ;; Return) ;;
  Access (CallerReply j) ;; Unlock (ReplyMutex j) ;; uncall.
Definition SsnClient_subscribe_locks : prog :=
  call ;; When (uncall ;; Return) ;;
  Lock (StateMutex j) ;; flag ;; When (Unlock (StateMutex j) ;; uncall ;; Return) ;; Unlock (StateMutex j) ;;
  Lock (SubsMutex j) ;; Access (CallerSubs j) ;; Unlock (SubsMutex j) ;; Fn (ssn_node_subscribe_locks n c) ;;
  When (Lock (SubsMutex j) ;; Access (CallerSubs j) ;; Unlock (SubsMutex j) ;; uncall ;; Return) ;; uncall.
Definition SsnClient_unsubscribe_locks : prog :=
  call ;; Lock (StateMutex j) ;; Unlock (StateMutex j) ;;
  Lock (SubsMutex j) ;; Access (CallerSubs j) ;; Unlock (SubsMutex j) ;; When (uncall ;; Return) ;;
  Fn (ssn_node_unsubscribe_locks n c) ;; uncall.
Definition SsnClient_node_locks : prog := Lock (StateMutex j) ;; Unlock (StateMutex j).
Definition pollLoop_locks : prog :=
  Fn (Repeat (Lock (StateMutex j) ;; flag ;; When (Unlock (StateMutex j) ;; Return) ;; Unlock (StateMutex j) ;;
    Fn (ssn_node_poll_locks n s c) ;; Wait)).
(** Callbacks that the client gives to the C layer. *)
Definition handleReply_locks : prog :=
  When (Lock (ReplyMutex j) ;; Access (CallerReply j) ;; Unlock (ReplyMutex j) ;; Return) ;;
  Lock (ReplyMutex j) ;; Access (CallerReply j) ;; Unlock (ReplyMutex j).
Definition handleMsg_locks : prog :=
  When Return ;; Lock (SubsMutex j) ;; Access (CallerSubs j) ;; When (Unlock (SubsMutex j) ;; Return) ;;
  Unlock (SubsMutex j) ;; Callback.

Definition caller_api : list prog :=
  [SsnClient_connect_locks; SsnClient_disconnect_locks; SsnClient_connected_locks; callJson_locks;
   SsnClient_subscribe_locks; SsnClient_unsubscribe_locks; SsnClient_node_locks].
End caller.

(** ** JSON services ([src/src/framework/SsnService.cpp], [ServiceTask.cpp]) *)

Section service.
Context (v n s c : nat).
#[local] Abbreviation methods := (Lock (MethodsMutex v) ;; Access (ServiceMethods v) ;; Unlock (MethodsMutex v)).

Definition registerJson_locks : prog :=
  When Return ;; When Return ;; When Return ;; Lock (MethodsMutex v) ;; Access (ServiceMethods v) ;;
  When (Unlock (MethodsMutex v) ;; Return) ;; Access (ServiceMethods v) ;; Unlock (MethodsMutex v).
Definition unregister_locks : prog := When Return ;; methods.
Definition SsnService_publish_locks : prog := When Return ;; Fn (ssn_node_publish_locks n s).
Definition builtinUrls_locks : prog := methods.
Definition SsnService_OnInit_locks : prog :=
  When (Fn (ssn_node_destroy_locks n s c)) ;; When Return ;; Fn (ssn_node_start_locks n s) ;;
  When (Fn (ssn_node_destroy_locks n s c) ;; Return) ;; Fn (ssn_node_set_connect_handler_locks n) ;; methods ;; methods ;;
  Repeat (Fn (ssn_node_add_rpc_method_locks n s) ;;
    When (Fn (ssn_node_stop_locks n s c) ;; Fn (ssn_node_destroy_locks n s c) ;; Return)).
Definition ServiceTask_activate_locks : prog :=
  When Return ;; When Return ;; Repeat (Spawn (SvcThread v)) ;; When (Join (SvcThread v) ;; Return).
Definition ServiceTask_wait_locks : prog := Repeat (When (Join (SvcThread v))).
Definition SsnService_OnShutdown_locks : prog :=
  When Return ;; Fn ServiceTask_wait_locks ;; methods ;; Repeat (Fn (ssn_node_remove_rpc_method_locks n s)) ;;
  Fn (ssn_node_stop_locks n s c) ;; Fn (ssn_node_destroy_locks n s c).
Definition SsnService_svc_locks : prog := Fn (Repeat (When Return ;; Fn (ssn_node_poll_locks n s c) ;; Wait)).
(** The callback for requests: looks the method up, calls it, answers. *)
Definition handleRpc_locks : prog :=
  When Return ;; methods ;; When (Fn (ssn_server_response_locks s) ;; Return) ;;
  When (Fn (ssn_server_response_locks s) ;; Return) ;; Callback ;;
  When (Fn (ssn_server_response_locks s) ;; Return) ;; Fn (ssn_server_response_locks s).

Definition service_api : list prog :=
  [registerJson_locks; unregister_locks; SsnService_publish_locks; builtinUrls_locks; SsnService_OnInit_locks;
   ServiceTask_activate_locks; ServiceTask_wait_locks; SsnService_OnShutdown_locks].
End service.
