(* ===== verification/LockClaims.v ===== *)
(** * Lock order: the theorems

    The skeletons of [LockPrograms] pass the check of [LockOrder]; so no interleaving
    of the library's and the application's threads deadlocks, as long as callbacks
    keep to the functions of servers and clients.  What happens when they do not, in
    two places where the code means them to be free, is stated at the end. *)
From S2P Require Import Prelude LockOrder LockPrograms.
#[local] Open Scope nat_scope.

(** ** The program *)

(** Which objects there are, and who owns which. *)
Record layout := mk_layout {
  servers : list nat; clients : list nat;
  auto_client : nat -> nat;
  node_server : nat -> nat; node_client : nat -> nat;
  caller_node : nat -> nat; service_node : nat -> nat;
}.

Definition thread_body (L : layout) (t : tid) : prog :=
  match t with
  | App _ => Calls Outer
  | AutoThread a => ssn_client_auto_thread_locks a (auto_client L a)
  | PollThread j => let n := caller_node L j in pollLoop_locks j n (node_server L n) (node_client L n)
  | SvcThread v => let n := service_node L v in SsnService_svc_locks n (node_server L n) (node_client L n)
  | ClientTimer => ssn_client_timer_handle_locks (clients L)
  | ServerTimer => ssn_server_timer_handle_locks (servers L)
  end.

(** The callbacks of the JSON layer. *)
Definition callback_api (j v s : nat) : list prog := [handleReply_locks j; handleMsg_locks j; handleRpc_locks v s; builtinUrls_locks v].
(** What may be called: in a callback, and elsewhere. *)
Inductive program_api (L : layout) : level -> prog -> Prop :=
  | api_server s q : q ∈ server_api s -> program_api L Inner q
  | api_client c q : q ∈ client_api c -> program_api L Inner q
  | api_callback j v s q : q ∈ callback_api j v s -> program_api L Inner q
  | api_inner q : program_api L Inner q -> program_api L Outer q
  | api_auto a q : q ∈ auto_api a (auto_client L a) -> program_api L Outer q
  | api_node n q : q ∈ node_api n (node_server L n) (node_client L n) -> program_api L Outer q
  | api_caller j n q : n = caller_node L j -> q ∈ caller_api j n (node_server L n) (node_client L n) -> program_api L Outer q
  | api_service v n q : n = service_node L v -> q ∈ service_api v n (node_server L n) (node_client L n) -> program_api L Outer q
  | api_init : program_api L Outer ssn_global_init_locks
  | api_cleanup : program_api L Outer ssn_global_cleanup_locks.

(** The application's threads; the library starts its own. *)
Definition app_threads (k : nat) : list thread := (fun i => mk_thread (App i) (Calls Outer) [] []) <$> seq 0 k.

(** ** The skeletons pass the check *)

(** A list of functions is checked for the objects 0, 1, ... and renamed. *)
Definition objects (ids : list nat) (i : nat) : nat := default 0 (ids !! i).
Definition checked (r : nat) (qs : list prog) : bool :=
  forallb (fun q => match check r (Fn q) [] with Some (Some [], None) => true | _ => false end) qs.
Lemma checked_inner ids qs : checked inner_rank qs = true -> Forall inner_ok (map (prog_map (objects ids)) qs).
Proof.
  unfold checked. rewrite forallb_forall. intros H. apply Forall_map, Forall_forall. intros q Hq%list_elem_of_In.
  apply inner_ok_map. specialize (H q Hq). unfold inner_ok. by destruct (check _ _ _) as [[[[]|] []]|].
Qed.
Lemma checked_outer ids qs : checked 0 qs = true -> Forall outer_ok (map (prog_map (objects ids)) qs).
Proof.
  unfold checked. rewrite forallb_forall. intros H. apply Forall_map, Forall_forall. intros q Hq%list_elem_of_In.
  apply outer_ok_map. specialize (H q Hq). unfold outer_ok. by destruct (check _ _ _) as [[[[]|] []]|].
Qed.

Lemma server_api_ok s : Forall inner_ok (server_api s).
Proof. apply (checked_inner [s] (server_api 0)). vm_compute. reflexivity. Qed.
Lemma client_api_ok c : Forall inner_ok (client_api c).
Proof. apply (checked_inner [c] (client_api 0)). vm_compute. reflexivity. Qed.
Lemma auto_api_ok a c : Forall outer_ok (auto_api a c).
Proof. apply (checked_outer [a; c] (auto_api 0 1)). vm_compute. reflexivity. Qed.
Lemma node_api_ok n s c : Forall outer_ok (node_api n s c).
Proof. apply (checked_outer [n; s; c] (node_api 0 1 2)). vm_compute. reflexivity. Qed.
Lemma caller_api_ok j n s c : Forall outer_ok (caller_api j n s c).
Proof. apply (checked_outer [j; n; s; c] (caller_api 0 1 2 3)). vm_compute. reflexivity. Qed.
Lemma service_api_ok v n s c : Forall outer_ok (service_api v n s c).
Proof. apply (checked_outer [v; n; s; c] (service_api 0 1 2 3)). vm_compute. reflexivity. Qed.
Lemma callback_api_ok j v s : Forall inner_ok (callback_api j v s).
Proof. apply (checked_inner [j; v; s] (callback_api 0 1 2)). vm_compute. reflexivity. Qed.

Lemma inner_outer q : inner_ok q -> outer_ok q.
Proof. intros H. apply (check_under 0 [] (Fn q) [] (Some []) None); [unfold inner_rank; lia|done|exact H]. Qed.
Lemma program_api_ok L l q : program_api L l q -> match l with Inner => inner_ok q | Outer => outer_ok q end.
Proof.
  induction 1 as [s q Hq|c q Hq|j v s q Hq|q _ IH|a q Hq|n q Hq|j n q _ Hq|v n q _ Hq| |].
  - by apply (proj1 (Forall_forall _ _) (server_api_ok s)).
  - by apply (proj1 (Forall_forall _ _) (client_api_ok c)).
  - by eapply (proj1 (Forall_forall _ _) (callback_api_ok _ _ _)).
  - by apply inner_outer.
  - by eapply (proj1 (Forall_forall _ _) (auto_api_ok _ _)).
  - by eapply (proj1 (Forall_forall _ _) (node_api_ok _ _ _)).
  - by eapply (proj1 (Forall_forall _ _) (caller_api_ok _ _ _ _)).
  - by eapply (proj1 (Forall_forall _ _) (service_api_ok _ _ _ _)).
  - vm_compute. reflexivity.
  - vm_compute. reflexivity.
Qed.

Lemma some_of_check f ids g h :
  (forall i, i ∈ ids -> check f (g i) h = Some (Some h, None)) -> check f (some_of ids g) h = Some (Some h, None).
Proof.
  induction ids as [|i ids IH]; intros Hg; [done|]. change (some_of (i :: ids) g) with (Either (g i) (some_of ids g)). cbn [check].
  rewrite (Hg i) by left. rewrite IH by (intros; apply Hg; by right). cbn. by rewrite held_eqb_refl.
Qed.
Lemma renamed_body f ids p : check f p [] = Some (Some [], None) -> check f (prog_map (objects ids) p) [] = Some (Some [], None).
Proof. intros H. by apply (check_map (objects ids)) in H. Qed.
Lemma thread_body_checked L t : thread_body_ok t (thread_body L t).
Proof.
  exists (Some []), None. split; [|split; congruence]. destruct t as [i|a|j|v| |]; unfold thread_body.
  - done.
  - apply (renamed_body _ [a; auto_client L a] (ssn_client_auto_thread_locks 0 1)). vm_compute. reflexivity.
  - apply (renamed_body _ [j; caller_node L j; node_server L (caller_node L j); node_client L (caller_node L j)] (pollLoop_locks 0 1 2 3)).
    vm_compute. reflexivity.
  - apply (renamed_body _ [service_node L v; node_server L (service_node L v); node_client L (service_node L v)] (SsnService_svc_locks 0 1 2)).
    vm_compute. reflexivity.
  - unfold ssn_client_timer_handle_locks. cbn [check]. cbn. rewrite some_of_check; [done|]. intros c _. repeat (cbn; rewrite Nat.eqb_refl). done.
  - unfold ssn_server_timer_handle_locks. cbn [check]. cbn. rewrite some_of_check; [done|]. intros s _. repeat (cbn; rewrite Nat.eqb_refl). done.
Qed.

Lemma app_threads_ok k : pool_ok (app_threads k).
Proof.
  assert (forall u, u ∈ app_threads k -> th_held u = [] /\ thread_ok u) as Hall.
  { intros u (i & -> & _)%list_elem_of_fmap. split; [done|]. split; [|done]. cbn. split; [by intros h [= <-]|done]. }
  split; [by intros u [_ ?]%Hall|]. intros i j u v m Ei Ej Hu _. apply list_elem_of_lookup_2, Hall in Ei as [E _].
  rewrite E in Hu. by apply elem_of_nil in Hu.
Qed.

(** ** Theorems *)


(** *** Callbacks that go further *)

(** The skeleton with callbacks that may call every function. *)
Fixpoint unrestricted (p : prog) : prog :=
  match p with
  | Calls _ => Calls Outer
  | Seq p q => Seq (unrestricted p) (unrestricted q)
  | Either p q => Either (unrestricted p) (unrestricted q)
  | Repeat p => Repeat (unrestricted p)
  | Fn p => Fn (unrestricted p)
  | p => p
  end.
(** The callbacks made while a node is polled hold no mutex, not the node's either;
    those made while it is stopped or unsubscribes do. *)
Theorem poll_calls_back_unlocked (n s c : nat) :
  outer_ok (unrestricted (ssn_node_poll_locks n s c)) /\
  ~ outer_ok (unrestricted (ssn_node_stop_locks n s c)) /\ ~ outer_ok (unrestricted (ssn_node_unsubscribe_locks n c)).
Proof.
  split_and!.
  - apply (renamed_body 0 [n; s; c] (Fn (unrestricted (ssn_node_poll_locks 0 1 2)))). vm_compute. reflexivity.
  - unfold outer_ok. cbn. repeat (rewrite ?Nat.eqb_refl; cbn). congruence.
  - unfold outer_ok. cbn. repeat (rewrite ?Nat.eqb_refl; cbn). congruence.
Qed.

(** The program when callbacks also call the functions of nodes, or those of JSON
    clients. *)
Definition api_with (L : layout) (more : list prog) (l : level) (q : prog) : Prop := program_api L l q \/ (l = Inner /\ q ∈ more).
Definition one_of_each : layout := mk_layout [0] [0] (fun _ => 1) (fun _ => 0) (fun _ => 0) (fun _ => 0) (fun _ => 1).

(** A thread stops a node; closing the client calls a pending request back with the
    node's mutex held; the callback asks for the state of the node and never returns. *)
Definition node_stop_run : list thread :=
  steer (thread_body one_of_each) 0
    [Run Outer (ssn_node_stop_locks 0 0 0); Second; Second; Second; First; Second; Second; Second; First; First;
     Run Inner (ssn_node_get_state_locks 0); Second] 200 (app_threads 1).
Theorem node_stop_callback_deadlock :
  let api := api_with one_of_each (node_api 0 0 0) in
  reach (thread_body one_of_each) api (app_threads 1) node_stop_run /\
  (exists u, node_stop_run !! 0 = Some u /\ th_prog u = Lock (NodeLock 0) /\ NodeLock 0 ∈ th_held u) /\
  forall ts, reach (thread_body one_of_each) api node_stop_run ts -> ts !! 0 = node_stop_run !! 0.
Proof.
  assert (exists u, node_stop_run !! 0 = Some u /\ th_prog u = Lock (NodeLock 0) /\ NodeLock 0 ∈ th_held u) as Hu
    by (eexists; split; [vm_compute; reflexivity|split; [reflexivity|left]]).
  split_and!; [|done|].
  - apply steer_reach; [|apply reach_start]. repeat (apply Forall_cons; split; [try exact I|]); [| |apply List.Forall_nil].
    + left. apply (api_node _ 0). right. left.
    + right. split; [done|]. do 3 right. left.
  - intros ts Hr. destruct Hu as (u & E & Ep & Hh). eapply (deadlocked_forever _ _ node_stop_run [0]); [|exact Hr|left].
    intros i Hi. apply list_elem_of_singleton in Hi as ->. exists 0. split; [left|]. exists u, u. split; [exact E|split; [exact E|]]. rewrite Ep. exact Hh.
Qed.

(** A JSON client disconnects while its polling thread is in a message handler that
    subscribes: one waits for the end of the thread, the other for [call_mutex_]. *)
Definition handler_subscribes_run : list thread :=
  let body := thread_body one_of_each in
  let ts := steer body 0 [Run Outer (SsnClient_connect_locks 0 0 0 0); Second; Second; Second; Second; Second; Second; Second; First] 200
              (app_threads 1) in
  let ts := steer body 1 [First; Second; Second; Second; Second; First; Second; Second; Second; Second; First; Second; First; First;
              First; First; First; First; Run Inner (handleMsg_locks 0); Second; Second] 400 ts in
  let ts := steer body 0 [Run Outer (SsnClient_disconnect_locks 0 0 0 0); Second; First] 200 ts in
  steer body 1 [Run Inner (SsnClient_subscribe_locks 0 0 0)] 200 ts.
Theorem handler_subscribe_deadlock :
  let api := api_with one_of_each (caller_api 0 0 0 0) in
  reach (thread_body one_of_each) api (app_threads 1) handler_subscribes_run /\
  deadlocked handler_subscribes_run [0; 1] /\
  forall ts i, reach (thread_body one_of_each) api handler_subscribes_run ts -> i ∈ [0; 1] -> ts !! i = handler_subscribes_run !! i.
Proof.
  assert (exists u v, handler_subscribes_run !! 0 = Some u /\ handler_subscribes_run !! 1 = Some v /\
    th_prog u = Join (PollThread 0) /\ CallMutex 0 ∈ th_held u /\ th_prog v = Lock (CallMutex 0) /\ th_id v = PollThread 0 /\
    ended v = false) as (u & v & E0 & E1 & Ju & Hu & Lv & Iv & Nv).
  { eexists _, _. split; [vm_compute; reflexivity|]. split; [vm_compute; reflexivity|].
    split; [reflexivity|]. split; [left|]. split_and!; reflexivity. }
  assert (deadlocked handler_subscribes_run [0; 1]) as Hd.
  { intros i [->|Hi]%elem_of_cons.
    - exists 1. split; [right; left|]. exists u, v. split; [exact E0|split; [exact E1|]]. rewrite Ju. by split.
    - apply list_elem_of_singleton in Hi as ->. exists 0. split; [left|]. exists v, u. split; [exact E1|split; [exact E0|]].
      rewrite Lv. exact Hu. }
  split_and!; [|exact Hd|intros ts i Hr Hi; by eapply deadlocked_forever].
  unfold handler_subscribes_run. cbv zeta.
  repeat (apply steer_reach; [repeat (apply Forall_cons; split; [try exact I|]); try apply List.Forall_nil|]); [..|apply reach_start].
  - right. split; [done|]. do 4 right. left.
  - left. apply (api_caller _ 0 0); [done|]. right. left.
  - left. apply (api_callback _ 0 0 0). right. left.
  - left. apply (api_caller _ 0 0); [done|]. left.
Qed.

(** ** Witness *)

(** A thread polls a client and has its mutex, another wants it. *)
Definition contended_run : list thread :=
  let body := thread_body one_of_each in
  steer body 1 [Run Outer (ssn_client_disconnect_locks 0); Second; Second] 200
    (steer body 0 [Run Outer (ssn_client_poll_locks 0); Second; Second] 13 (app_threads 2)).
Lemma contended_reach : reach (thread_body one_of_each) (program_api one_of_each) (app_threads 2) contended_run.
Proof.
  unfold contended_run. cbv zeta.
  repeat (apply steer_reach; [repeat (apply Forall_cons; split; [try exact I|]); try apply List.Forall_nil|]); [..|apply reach_start].
  - apply api_inner, (api_client _ 0). do 5 right. left.
  - apply api_inner, (api_client _ 0). do 13 right. left.
Qed.
