(* ===== verification/Races.v ===== *)
(** * Races: accesses to shared data outside the mutex

    [LockOrder] lists the data whose every access the mutexes order.  Four accesses
    are not among them: [ssn_client_call_ex] and its like test [connected] before they
    lock, [get_pending_snapshot] of [src/src/ssn_client.c] reads
    [seqno_to_index] before it locks, [ssn_server_handle_service_info] of
    [src/src/ssn_server.c] sends from the server's buffer after it unlocked, and
    [ssn_node_poll] of [src/src/node/ssn_node.c] uses its server after it unlocked,
    without a reference to it.  Here the functions are cut at these points, and what
    another thread can do in between is shown to matter. *)
From S2P Require Import Prelude FrameCodec ErrorCode Os Transport Address FrameSend EventPair Server ServerTable ServerProps ServerTheorems ClientPending Client ClientProps ClientTheorems ClientClaims.

(** ** A slot that was given away *)

(** [get_pending_snapshot] before and after it has the mutex. *)
Definition snapshot_index (t : pending_table) (seqno : Z) : option Z :=
  let index := index_of t seqno in
  if (index =? NO_INDEX) || (index >=? SSN_CLIENT_MAX_PENDING) then None else Some index.
Definition snapshot_copy (t : pending_table) (index : Z) : option ssn_pending_request_t :=
  if negb (is_bit_set (pending_bitmap t) index) then None else Some (slot t index).

Section input.
Context {W : Type} `{OsOps W} (user : client_event -> ssn_client -> W -> list client_call).

(** [ssn_client_input] for a reply, from the moment it locks on. *)
Definition ssn_client_input_at (index : Z) (pkt : bytes) (c : ssn_client) (w : W) : option (bool * ssn_client * W) :=
  let ty := h_msg_type (header_of_bytes pkt) in
  match snapshot_copy (pend c) index with
  | None => Some (cl_valid c, c, w)
  | Some p =>
    match (if is_response ty then ssn_client_handle_response (fire_at user 2) c pkt p w
           else if ty =? SSN_MSG_TYPE_RPC_REQUEST then ssn_client_handle_rpc_response (fire_at user 2) c pkt p w
           else Some (c, w)) with
    | None => None
    | Some (c, w) =>
      let c := cl_set_pend c (free_pending_index (pend c) (pend_index p)) in Some (cl_valid c, c, w)
    end
  end.

(** The two halves with nothing in between are the function. *)
Lemma input_halves pkt c w :
  is_reply pkt ->
  ssn_client_input (fire_at user 2) pkt c w
  = match snapshot_index (pend c) (ssn_get_seqno (header_of_bytes pkt)) with
    | None => Some (cl_valid c, c, w)
    | Some i => ssn_client_input_at i pkt c w
    end.
Proof.
  intros [Hp Hm]. unfold ssn_client_input, ssn_client_input_at, snapshot_index, snapshot_copy, get_pending_snapshot.
  destruct (Z.eqb_spec (h_msg_type (header_of_bytes pkt)) SSN_MSG_TYPE_PUBLISH); [done|].
  destruct (Z.eqb_spec (h_msg_type (header_of_bytes pkt)) SSN_MSG_TYPE_MESSAGE); [done|].
  destruct (_ || _); [done|]. by destruct (negb _).
Qed.
End input.

(** A polling thread has the reply to call [s] and has read its slot.  Before it
    locks, another thread takes call [s] out of the table (its time was up) and
    makes a call, which gets the free slot.  The first thread then finds the slot
    occupied: the new call's callback gets the reply to call [s], and the new call is
    out of the table, so its own reply will find nobody. *)
Theorem stale_slot_answers_other_call {W} `{OsLaws W} (k i ms cb arg s' : Z) (pkt : bytes) (data : ssn_data_ref_t)
    (c c' : ssn_client) (t : pending_table) (w : W) :
  let s := ssn_get_seqno (header_of_bytes pkt) in
  client_inv k c -> h_msg_type (header_of_bytes pkt) = SSN_MSG_TYPE_RPC_REQUEST -> ssn_get_data pkt = Some data ->
  snapshot_index (pend c) s = Some i ->
  alloc_pending_index (free_pending_index (pend c) i) = Some (i, t) -> s' <> s -> cb <> 0 ->
  c' = cl_set_pend c (register t i s' ms SSN_CLIENT_FTYPE_RPC cb arg) ->
  get_pending_snapshot (pend c') s = None /\
  exists c'', ssn_client_input_at silent_user i pkt c' w = Some (cl_valid c, c'', w) /\
    fired c'' = fired c ++ [EvReply cb arg (Some (header_of_bytes pkt, data))] /\
    get_pending_snapshot (pend c'') s' = None.
Proof.
  intros s Hi Hty Hd Hidx Ha Hne Hcb ->. pose proof (ci_pend k c Hi) as Hp.
  unfold snapshot_index in Hidx. destruct (_ || _) eqn:Eb; [done|]. injection Hidx as Eidx.
  apply orb_false_iff in Eb as [Eb1 _]. apply Z.eqb_neq in Eb1.
  pose proof (snapshot_spec (pend c) s Hp) as Hs0.
  destruct (get_pending_snapshot (pend c) s) as [p0|] eqn:E0; [|done]. destruct Hs0 as (Hr & _ & _ & _ & Ep0).
  assert (0 <= i < 1024) as Hri by lia. clear p0 E0 Hr Ep0.
  destruct (free_spec (pend c) i Hp Hri) as (Hp1 & _ & Ho1 & Hx1). cbv zeta in *.
  pose proof (alloc_register_spec _ Hp1) as Hal. rewrite Ha in Hal. destruct Hal as (_ & _ & Hreg).
  destruct (Hreg s' ms SSN_CLIENT_FTYPE_RPC cb arg) as (Hp2 & Ho2 & Hsl & Hx2). cbv zeta in *.
  set (t2 := register _ _ _ _ _ _ _) in *. set (q := mk_pending i s' (u32 ms) SSN_CLIENT_FTYPE_RPC cb arg) in *.
  assert (slot t2 i = q) as Eq by (by rewrite Hsl, Z.eqb_refl).
  assert (is_bit_set (pending_bitmap t2) i = true) as Eo by (specialize (Ho2 i Hri); unfold occupied in Ho2; by rewrite Ho2, Z.eqb_refl, orb_true_r).
  assert (index_of t2 s = NO_INDEX) as Exs.
  { rewrite Hx2, (proj2 (Z.eqb_neq s s')) by done. rewrite Hx1. by rewrite Eidx, Z.eqb_refl. }
  split.
  { cbn. unfold get_pending_snapshot. by rewrite Exs. }
  unfold ssn_client_input_at, snapshot_copy. cbn [pend cl_set_pend]. change (pend (cl_set_pend c t2)) with t2.
  rewrite Eo, Eq, Hty. cbn [negb]. change (is_response SSN_MSG_TYPE_RPC_REQUEST) with false. rewrite Z.eqb_refl.
  unfold ssn_client_handle_rpc_response. rewrite Hd. cbn [pend_ftype pend_callback pend_arg q].
  rewrite (proj2 (Z.eqb_neq cb 0)) by done. cbn [negb andb]. rewrite Z.eqb_refl. cbn [negb andb].
  destruct (silent_fire (EvReply cb arg (Some (header_of_bytes pkt, data))) (cl_set_pend c t2) w) as [r Er]. rewrite Er.
  eexists. split; [done|]. cbn. split; [done|].
  destruct (free_spec t2 i Hp2 Hri) as (Hp3 & _ & _ & Hx3). cbv zeta in *.
  unfold get_pending_snapshot. by rewrite Hx3, Hx2, !Z.eqb_refl.
Qed.

(** ** An answer sent from a buffer in use *)

(** [ssn_server_handle_service_info] makes the header of its answer in the server's
    send buffer and unlocks; [sent_from] is the rest of it up to the callback: what is
    sent is what the buffer holds by then. *)
Definition hello_reply (id : Z) : ssn_data_ref_t := mk_data_ref (Some (store32 (ssn_htonl id))) 4.
Definition sent_from {W} `{OsOps W} (sendbuf : ssn_header_t) (id : Z) (t : ssn_transport_t) (w : W)
  : option (bool * ssn_header_t * ssn_transport_t * W) :=
  ssn_send_message t sendbuf None (Some (hello_reply id)) w.

(** In between another thread publishes [u]: its header, with the length of the URL,
    is in the buffer.  The answer has this header, but no URL: whoever reads it takes
    it for the beginning of a longer packet and waits. *)
Lemma overwritten_answer_stuck (id : Z) (u : bytes) (data : option ssn_data_ref_t) :
  0 < zlen u <= 65535 ->
  zlen u + 4 <= SSN_MAX_PAYLOAD_SIZE ->
  stuck (send_buffer
    (complete_header (complete_header (ssn_create_header SSN_MSG_TYPE_PUBLISH 0 0) (Some (mk_url_ref (Some u) (zlen u))) data)
       None (Some (hello_reply id))) None (Some (hello_reply id))).
Proof.
  intros Hu Hfit. set (d := store32 (ssn_htonl id)). set (h := complete_header _ None _).
  assert (h = ssn_set_data_length (ssn_set_url_length (ssn_create_header SSN_MSG_TYPE_PUBLISH 0 0) (zlen u)) (zlen d)) as Eh.
  { subst h. unfold complete_header. cbn [url_len length_ hello_reply]. rewrite u16_id by lia. by destruct data. }
  assert (send_buffer h None (Some (hello_reply id)) = bytes_of_header h ++ d) as Eb by reflexivity.
  assert (zlen d = 4) as Ed by reflexivity.
  right. exists (zlen (frame SSN_MSG_TYPE_PUBLISH 0 0 u d)). rewrite Eb. split.
  - rewrite <- (validate_frame SSN_MSG_TYPE_PUBLISH 0 0 u d [] SSN_HEADER_SIZE); [|by vm_compute| |lia].
    + apply validate_ext; [|rewrite zlen_app, zlen_bytes_of_header; lia|lia].
      unfold frame. rewrite <- Eh, <- app_assoc.
      rewrite !ztake_app_le by (rewrite zlen_bytes_of_header; lia). done.
    + split; lia.
  - rewrite zlen_app, zlen_bytes_of_header, zlen_frame. lia.
Qed.

(** The answer to a handshake is sent after the server's mutex was released, from
    the buffer that every sender of the server uses.  If another thread has
    published to a subscriber by then, the client that connects gets bytes that
    contain no packet, and goes on waiting inside one. *)
Theorem hello_answer_overwritten {W} `{OsLaws W} (id : Z) (u : bytes) (data : option ssn_data_ref_t)
    (tp tp' tc : ssn_transport_t) (sendbuf : ssn_header_t) (w w1 : W) :
  let url := Some (mk_url_ref (Some u) (zlen u)) in
  0 < zlen u <= 65535 -> zlen u + 4 <= SSN_MAX_PAYLOAD_SIZE -> refs_ok url data ->
  0 <= send_timeout tp < 2 ^ 31 -> 0 <= send_timeout tc < 2 ^ 31 ->
  ssn_send_message tp (ssn_create_header SSN_MSG_TYPE_PUBLISH 0 0) url data w = Some (true, sendbuf, tp', w1) ->
  exists ok h tc' w2 sent, sent_from sendbuf id tc w1 = Some (ok, h, tc', w2) /\
    os_tx w2 (sock_fd (impl tc)) = os_tx w1 (sock_fd (impl tc)) ++ sent /\
    forall St (callback : bytes -> St -> bool * St) (st : St), ok = true -> deframe callback sent st = DfMore sent st.
Proof.
  intros url Hu Hfit Hrefs Htp Htc Es.
  destruct (send_message_spec tp (ssn_create_header SSN_MSG_TYPE_PUBLISH 0 0) url data w Hrefs Htp)
    as (ok1 & h1 & t1 & v1 & E1 & Hcase). rewrite Es in E1. injection E1 as <- <- <- <-.
  destruct Hcase as [(_ & ? & _)|(_ & -> & _)]; [done|]. unfold sent_from.
  destruct (send_message_spec tc (complete_header (ssn_create_header SSN_MSG_TYPE_PUBLISH 0 0) url data) None
    (Some (hello_reply id)) w1) as (ok & h & tc' & w2 & E2 & Hcase); [|done|].
  { split; [done|]. cbn. split; [lia|]. vm_compute. congruence. }
  exists ok, h, tc', w2. rewrite E2. destruct Hcase as [(Hr & _ & _ & _)|(_ & -> & Hpost)].
  - exfalso. unfold refused, SSN_MAX_PAYLOAD_SIZE, SSN_MAX_PACKET_SIZE, SSN_HEADER_SIZE in Hr. cbn in Hr.
    destruct Hr as [?|[?|[(n & ? & _)|(n & ? & _)]]]; [lia|lia|done|done].
  - destruct Hpost as (_ & _ & _ & _ & _ & _ & n & Hn & Htx & Hok). eexists. split; [done|]. split; [exact Htx|].
    intros St callback st Ht. apply Hok in Ht as ->. rewrite Z.sub_0_r, slice_all.
    apply deframe_stuck. by apply overwritten_answer_stuck.
Qed.

(** ** A server polled after the node was stopped *)

(** [ssn_node_poll] copies the pointer to the server with the node's mutex and polls
    without it and without a reference (the client gets one).  A stop in between
    releases the server. *)
Theorem poll_of_stopped_server {W} `{OsLaws W} (user : server_event -> ssn_server -> W -> list api_call) (g : factory)
    (s s' : ssn_server) (w w' : W) :
  srv_valid s = true -> ref_count s = 1 -> ssn_server_destroy s w = Some (s', w') ->
  forall signals ms w2, ssn_server_poll user g signals s' ms w2 = None.
Proof.
  intros Hv Hr E signals ms w2. unfold ssn_server_poll. assert (srv_freed s' = true) as ->; [|done].
  unfold ssn_server_destroy in E. rewrite Hv in E. cbn [negb] in E. unfold ssn_server_unref in E. cbn in E. rewrite Hr in E. cbn in E.
  destruct (srv_freed s); [done|]. unfold ssn_server_free_resources in E. repeat case_match; by simplify_eq.
Qed.

(** ** A request on a connection that was lost *)

(** [ssn_client_call_ex] tests [connected] and takes the mutex afterwards, and does not
    look at the transport again.  If in between the polling thread finds that the peer
    has closed the connection, it destroys the transport and stores NULL; the request
    then sends on NULL, although a call that came a moment later would be refused. *)
Theorem call_on_lost_connection {W} `{OsOps W} (fire : client_event -> ssn_client -> W -> option (ssn_client * W))
    (c c' : ssn_client) (url : option ssn_url_ref_t) (data : option ssn_data_ref_t) (callback arg ms timeout_ms r : Z) (w w' w2 : W) :
  cl_valid c = true -> connected c = true -> is_Some (checked_url url) ->
  ssn_client_poll fire c timeout_ms w = Some (r, c', w') -> connected c' = false -> cl_transport c' = None ->
  is_Some (alloc_pending_index (pend c')) ->
  ssn_client_call_ex fire c url data callback arg ms w2
    = match send_request fire c SSN_MSG_TYPE_RPC_REQUEST url data SSN_CLIENT_FTYPE_RPC callback arg ms w2 with
      | Some (r, _, c, w) => Some (if r then 0 else -1, c, w)
      | None => None
      end /\
  send_request fire c' SSN_MSG_TYPE_RPC_REQUEST url data SSN_CLIENT_FTYPE_RPC callback arg ms w2 = None /\
  ssn_client_call_ex fire c' url data callback arg ms w2 = Some (-1, c', w2).
Proof.
  intros Hv Hc [u Hu] _ Hc' Ht [[i t] Ha]. unfold ssn_client_call_ex. rewrite Hv, Hc, Hc', Hu. cbn [negb orb].
  split; [done|]. split; [|by rewrite orb_true_r]. unfold send_request, ssn_client_sendmsg. cbn [ssn_client_ref pend cl_set_ref].
  destruct (callback =? 0); cbn [negb].
  - unfold ssn_client_prepare_seqno. by destruct (_ =? 0); cbn; rewrite Ht.
  - change (pend (ssn_client_ref c')) with (pend c'). rewrite Ha. cbn. by rewrite Ht.
Qed.

(** ** Witnesses *)

Lemma call_on_lost_connection_witness :
  exists c' w', ssn_client_poll (fire_at silent_user 2) demo_client 10 (demo_inbox [[]]) = Some (0, c', w') /\
    send_request (fire_at silent_user 2) c' SSN_MSG_TYPE_RPC_REQUEST demo_url_ref None SSN_CLIENT_FTYPE_RPC 11 1 1000 w' = None.
Proof.
  destruct (ssn_client_poll (fire_at silent_user 2) demo_client 10 (demo_inbox [[]])) as [[[r c'] w']|] eqn:E;
    [|vm_compute in E; discriminate E].
  assert (match ssn_client_poll (fire_at silent_user 2) demo_client 10 (demo_inbox [[]]) with
          | Some (r, c, _) => Some (r, connected c, cl_transport c, fst <$> alloc_pending_index (pend c)) | None => None end
          = Some (0, false, None, Some 0)) as Ev by (vm_compute; reflexivity).
  rewrite E in Ev. injection Ev as -> Ec Et Ea. exists c', w'. split; [reflexivity|].
  destruct (call_on_lost_connection (fire_at silent_user 2) demo_client c' demo_url_ref None 11 1 1000 10 0
    (demo_inbox [[]]) w' w') as (_ & En & _).
  - vm_compute. reflexivity.
  - vm_compute. reflexivity.
  - vm_compute. eexists. reflexivity.
  - exact E.
  - exact Ec.
  - exact Et.
  - destruct (alloc_pending_index (pend c')); [by eexists|discriminate Ea].
  - exact En.
Defined.

(** Call 0 of the example client ran out of time; call 2 has its slot. *)
Definition demo_taken : pending_table :=
  match alloc_pending_index (free_pending_index (pend demo_client) 0) with Some (_, t) => t | None => init_pending end.
Definition demo_reused : ssn_client := cl_set_pend demo_client (register demo_taken 0 2 1000 SSN_CLIENT_FTYPE_RPC 99 7).
Lemma stale_slot_answers_other_call_witness :
  exists c'', ssn_client_input_at silent_user 0 (demo_reply 0) demo_reused (sim_init [] []) = Some (cl_valid demo_client, c'', sim_init [] []) /\
    fired c'' = [EvReply 99 7 (Some (header_of_bytes (demo_reply 0), mk_data_ref (Some [1; 2]) 2))] /\
    get_pending_snapshot (pend c'') 2 = None.
Proof.
  destruct (stale_slot_answers_other_call 0 0 1000 99 7 2 (demo_reply 0) (mk_data_ref (Some [1; 2]) 2) demo_client demo_reused
    demo_taken (sim_init [] [])) as (_ & c'' & E & Hf & Hn).
  - exact demo_client_inv.
  - vm_compute. reflexivity.
  - vm_compute. reflexivity.
  - vm_compute. reflexivity.
  - vm_compute. reflexivity.
  - vm_compute. discriminate.
  - discriminate.
  - reflexivity.
  - exists c''. split; [exact E|]. split; [|exact Hn]. rewrite Hf. vm_compute. reflexivity.
Defined.

Lemma hello_answer_overwritten_witness :
  exists sendbuf t1 w1 ok h t2 w2 sent,
    ssn_send_message (demo_transport 3) (ssn_create_header SSN_MSG_TYPE_PUBLISH 0 0) (Some (mk_url_ref (Some [47; 97]) 2)) None
      (sim_init [] []) = Some (true, sendbuf, t1, w1) /\
    sent_from sendbuf 5 (demo_transport 4) w1 = Some (ok, h, t2, w2) /\ sent = sim_tx w2 4 /\
    deframe collect sent [] = DfMore sent [].
Proof.
  destruct (ssn_send_message (demo_transport 3) (ssn_create_header SSN_MSG_TYPE_PUBLISH 0 0) (Some (mk_url_ref (Some [47; 97]) 2)) None
    (sim_init [] [])) as [[[[ok1 sendbuf] t1] w1]|] eqn:E1; [|vm_compute in E1; discriminate E1].
  assert (ok1 = true) as -> by (vm_compute in E1; congruence).
  destruct (hello_answer_overwritten 5 [47; 97] None (demo_transport 3) t1 (demo_transport 4) sendbuf (sim_init [] []) w1)
    as (ok & h & t2 & w2 & sent & E2 & Htx & Hd).
  - vm_compute. split; [reflexivity|discriminate].
  - vm_compute. discriminate.
  - repeat split; vm_compute; discriminate || reflexivity.
  - exact demo_timeout.
  - split; vm_compute; [discriminate|reflexivity].
  - exact E1.
  - exists sendbuf, t1, w1, ok, h, t2, w2, sent. split; [reflexivity|]. split; [exact E2|].
    vm_compute in E1. injection E1 as <- <- <-. vm_compute in E2. injection E2 as <- <- <- <-.
    split; [vm_compute in Htx; rewrite <- Htx; vm_compute; reflexivity|]. by apply Hd.
Defined.

Lemma poll_of_stopped_server_witness :
  exists s' w', ssn_server_destroy demo_server (sim_init [] []) = Some (s', w') /\
    ssn_server_poll demo_user demo_factory 0 s' 0 w' = None.
Proof.
  destruct (ssn_server_destroy demo_server (sim_init [] [])) as [[s' w']|] eqn:E; [|vm_compute in E; discriminate E].
  exists s', w'. split; [reflexivity|].
  apply (poll_of_stopped_server demo_user demo_factory demo_server s' (sim_init [] []) w'); [reflexivity|reflexivity|exact E].
Defined.
