(* ===== verification/PubSubEndToEnd.v ===== *)
(** * A publication from server to subscriber

    The client's subscription, the server's handling of it, a publication and its
    delivery to the handler, composed as in [EndToEnd]. *)
From S2P Require Import Prelude FrameCodec ErrorCode Os Transport Address FrameSend EventPair Server ServerTable ServerProps ServerTheorems ServerPubSub ClientPending Client ClientProps ClientTheorems ClientClaims EndToEnd.

(** ** The server notes the subscription *)

Section subscribe.
Context {W : Type} `{OsLaws W}.
Context (user : server_event -> ssn_server -> W -> list api_call).
Implicit Types (s : ssn_server) (w : W) (c : ssn_server_cli_t).

(** Sending changes nothing of the connection but its transport. *)
Lemma sendmsg_keeps_cli k s id c hdr url data w b h s' w' :
  server_inv k s -> ssn_server_cli_find s id = Some c ->
  ssn_server_cli_sendmsg s id hdr url data w = Some (b, h, s', w') ->
  exists t, ssn_server_cli_find s' id = Some (cli_with_transport c t).
Proof.
  intros Hi Hf. destruct (find_facts k s id c Hi Hf) as (Hid & _). unfold ssn_server_cli_sendmsg. rewrite Hf.
  assert (forall t, ssn_server_cli_find (cli_put s (cli_with_transport c t)) id = Some (cli_with_transport c t)) as Hput.
  { intros t. rewrite <- Hid at 1. apply (find_put_eq k s (cli_with_transport c t) c); [done|]. cbn. by rewrite Hid. }
  destruct (ssn_send_message _ _ _ _ _) as [[[[[] h1] t] w1]|]; [intros ?; simplify_eq; eauto| |done].
  destruct (ssn_transport_disconnect t w1) as [[? t2] ?]. intros ?; simplify_eq; eauto.
Qed.

(** A reply without payload. *)
Lemma reply_status_frame k s id c type status seqno w :
  server_inv k s -> ssn_server_cli_find s id = Some c ->
  exists s' w', reply_status s id type status seqno w = Some (s', w') /\ server_inv k s' /\ srv_valid s' = srv_valid s /\
    sent_to (frame type status seqno [] []) id c w s' w' /\
    exists t, ssn_server_cli_find s' id = Some (cli_with_transport c t).
Proof.
  intros Hi Hf. unfold reply_status.
  assert (~ refused None None) as Hn by (intros [Hr|[Hr|[(n & Hr & _)|(n & Hr & _)]]]; [vm_compute in Hr; discriminate Hr..| |]; discriminate Hr).
  destruct (sendmsg_spec k s id c (ssn_create_header type status seqno) None None w Hi Hf ltac:(done) Hn)
    as (b & s' & w' & E & Hi' & _ & _ & Hs). rewrite E. eexists _, _. split; [done|]. split; [done|].
  split; [by eapply sendmsg_valid|]. split; [rewrite send_buffer_frame in Hs; [exact Hs|reflexivity || discriminate..]|]. exact (sendmsg_keeps_cli _ _ _ _ _ _ _ _ _ _ _ _ Hi Hf E).
Qed.

(** The connection is active and what is published under [u] goes to it. *)
Definition listens (u : bytes) c : Prop := cli_active c = true /\ ssn_server_cli_sub_match c u = true.
Lemma sub_matches_itself (l : list bytes) u : u ∈ l -> sub_match l u = true.
Proof. intros Hu. apply sub_match_spec. exists u. split; [done|]. right. by left. Qed.

Lemma input_subscribes k s id c p w :
  server_inv k s -> srv_valid s = true -> ssn_server_cli_find s id = Some c ->
  packet_ok p -> p_type p = SSN_MSG_TYPE_SUBSCRIBE -> p_url p !! 0%nat = Some SLASH ->
  (os_calloc w).1 = true ->
  exists s' w', ssn_server_input user id (wire p) s w = Some (true, s', w') /\ server_inv k s' /\ srv_valid s' = true /\
    sent_to (frame SSN_MSG_TYPE_SUBSCRIBE 0 (p_seqno p) [] []) id c w s' w' /\
    exists c', ssn_server_cli_find s' id = Some c' /\ listens (p_url p) c'.
Proof.
  intros Hi Hv Hf Hp Ht Hu Hok. unfold ssn_server_input. rewrite Hf.
  destruct (packet_fields p Hp) as (Et & _ & Es & -> & ->). unfold ssn_get_msg_type in Et. cbv zeta. rewrite Et, Ht.
  cbn [Z.eqb SSN_MSG_TYPE_SUBSCRIBE SSN_MSG_TYPE_RPC_REQUEST SSN_MSG_TYPE_MESSAGE SSN_MSG_TYPE_SERVICE_INFO Pos.eqb].
  destruct (mark_active_spec k s id c Hi Hf) as (Hi1 & Hv1 & _ & c1 & Hf1 & Ht1).
  assert (cli_active c1 = true) as Hact.
  { unfold mark_active in Hf1. set (x := if _ && _ then _ else _) in Hf1.
    pose proof (find_put_eq k s x c Hi) as Hfx. destruct (find_facts k s id c Hi Hf) as (Hid & _).
    assert (cli_id x = id) as Ex by (subst x; destruct (_ && _); exact Hid). rewrite Ex in Hfx. rewrite (Hfx Hf) in Hf1.
    injection Hf1 as <-. subst x. by destruct (_ && _). }
  unfold ssn_server_handle_subscribe. rewrite Hf1, Es, Et, Ht. fold (url_part (p_url p)).
  assert (packet_url (url_part (p_url p)) = Some (p_url p)) as ->.
  { unfold packet_url, url_part. cbn [FrameCodec.url url_len]. destruct (p_url p) as [|x u]; [done|]. cbn in Hu. simplify_eq.
    rewrite (proj2 (Z.eqb_neq _ _)) by (unfold zlen; cbn; lia). done. }
  assert (forall s2 c2 w2, server_inv k s2 -> srv_valid s2 = true -> ssn_server_cli_find s2 id = Some c2 -> cli_active c2 = true ->
    p_url p ∈ cli_subscribed c2 -> fd_of c2 = fd_of c -> (forall x, os_tx w2 x = os_tx w x) ->
    exists s' w', match reply_status s2 id SSN_MSG_TYPE_SUBSCRIBE 0 (p_seqno p) w2 with
      | Some (s, w) => Some (srv_valid s, s, w) | None => None end = Some (true, s', w') /\
      server_inv k s' /\ srv_valid s' = true /\ sent_to (frame SSN_MSG_TYPE_SUBSCRIBE 0 (p_seqno p) [] []) id c w s' w' /\
      exists c', ssn_server_cli_find s' id = Some c' /\ listens (p_url p) c') as Hreply.
  { intros s2 c2 w2 Hi2 Hv2 Hf2 Ha2 Hin Hfd Htx.
    destruct (reply_status_frame k s2 id c2 SSN_MSG_TYPE_SUBSCRIBE 0 (p_seqno p) w2 Hi2 Hf2) as (s' & w' & -> & Hi' & Hv' & Hs & t & Hft).
    eexists _, _. rewrite Hv', Hv2. split; [done|]. split; [done|]. split; [congruence|]. unfold sent_to in *. rewrite Hfd, Htx in Hs.
    split; [done|]. eexists. split; [done|]. split; [done|]. by apply sub_matches_itself. }
  case_bool_decide as Hin; [by apply (Hreply _ c1); [..|congruence|done|done|unfold fd_of; by rewrite Ht1|]|].
  pose proof (os_calloc_quiet w) as Hq. destruct (os_calloc w) as [ok w2]. cbn in Hok, Hq. subst ok.
  destruct (put_plain k (mark_active s c) id c1 (cli_with_sub c1 (p_url p :: cli_subscribed c1))) as (Hi2 & _ & Hf2); try done.
  apply (Hreply _ (cli_with_sub c1 (p_url p :: cli_subscribed c1))); [done|by rewrite <- Hv, <- Hv1|done|done|left| |].
  - unfold fd_of. cbn. by rewrite Ht1.
  - intros x. apply Hq.
Qed.

(** The receive that completes the subscription. *)
Lemma receive_subscribes k s id c p rfds w :
  server_inv k s -> srv_valid s = true ->
  packet_ok p -> p_type p = SSN_MSG_TYPE_SUBSCRIBE -> p_url p !! 0%nat = Some SLASH ->
  server_gets s id c (wire p) rfds w ->
  (forall n b t w1, ssn_transport_recv (cli_transport c) SSN_MAX_PACKET_SIZE 0 w = (n, b, t, w1) -> (os_calloc w1).1 = true) ->
  exists s' w', ssn_server_handle_client_input user s id rfds w = Some (s', w') /\ server_inv k s' /\ srv_valid s' = true /\
    sent_to (frame SSN_MSG_TYPE_SUBSCRIBE 0 (p_seqno p) [] []) id c w s' w' /\
    exists c', ssn_server_cli_find s' id = Some c' /\ listens (p_url p) c'.
Proof.
  intros Hi Hv Hp Ht Hu Hgets Hok.
  destruct (receive_completes user k s id c p rfds w (fun s2 w2 => srv_valid s2 = true /\
    sent_to (frame SSN_MSG_TYPE_SUBSCRIBE 0 (p_seqno p) [] []) id c w s2 w2 /\
    exists c', ssn_server_cli_find s2 id = Some c' /\ listens (p_url p) c'))
    as (s2 & w2 & c2 & recv' & (Hv2 & Hs2 & c2' & Hf2' & Hl) & Hf2 & E & Hi3 & Hf3 & _); [done..| |].
  { intros n b t w1 Hrecv Hfd Htx Hi1 Hf1.
    destruct (input_subscribes k (cli_put s (cli_with_transport c t)) id (cli_with_transport c t) p w1)
      as (s2 & w2 & E & Hi2 & Hv2 & Hs2 & c' & Hf2 & Hl); try done. { by eapply Hok. }
    unfold sent_to, fd_of in Hs2 |- *. cbn [cli_transport cli_with_transport] in Hs2. rewrite Hfd, Htx in Hs2.
    exists s2, w2. split_and!; eauto. }
  rewrite Hf2' in Hf2. injection Hf2 as <-. eexists _, _. split; [done|]. split; [done|]. split; [done|]. split; [|by eexists].
  destruct Hs2 as (n & c3 & Hn2 & Htx2 & Hf3' & Hfull & Hcut). rewrite Hf2' in Hf3'. injection Hf3' as <-.
  exists n, (cli_with_recv c2' recv'). split_and!; done || lia.
Qed.
End subscribe.

(** ** The client subscribes *)

Section ask.
Context {W : Type} `{OsLaws W}.
Context (fire : client_event -> ssn_client -> W -> option (ssn_client * W)).
Implicit Types (c : ssn_client) (w : W).

Definition subscribe_packet c (url : option ssn_url_ref_t) : packet :=
  mk_packet SSN_MSG_TYPE_SUBSCRIBE 0 (ssn_client_prepare_seqno c).1 (url_bytes url) [].

(** An accepted subscription: its packet is on the connection, and publications
    under the URL go to its handler. *)
Lemma subscribe_accepted k c url cb arg ms w c' w' :
  0 <= k -> client_inv k c -> refs_ok url None -> cb <> 0 ->
  ssn_client_subscribe fire c url cb arg ms w = Some (true, c', w') ->
  client_inv k c' /\ ~ refused url None /\ url_bytes url !! 0%nat = Some SLASH /\
  os_tx w' (conn_fd c) = os_tx w (conn_fd c) ++ wire (subscribe_packet c url) /\
  publish_target c' (url_bytes url) = Some (cb, arg).
Proof.
  intros Hk Hi Hr Hcb. unfold ssn_client_subscribe.
  destruct (checked_url url) as [u|] eqn:Hu; [|done]. destruct (checked_url_bytes url u Hr Hu) as [-> Hslash].
  destruct (cl_valid c) eqn:Hv; [|done]. destruct (connected c) eqn:Hc; [|done]. cbn [negb orb].
  pose proof (os_calloc_quiet w) as [_ Htx0]. destruct (os_calloc w) as [[] w0]; [|done]. cbn [negb snd] in *.
  set (c0 := cl_set_subs c _). unfold ssn_client_request, ssn_client_request_ex. subst c0. cbn [cl_valid connected cl_set_subs].
  rewrite Hv, Hc. cbn [negb orb]. unfold send_request. cbn [negb Z.eqb].
  set (c0 := ssn_client_ref (cl_set_subs c _)).
  assert ((ssn_client_prepare_seqno c0).1 = (ssn_client_prepare_seqno c).1) as Hsq.
  { unfold ssn_client_prepare_seqno. cbn. by destruct (_ =? 0). }
  assert (client_inv (k + 1) (ssn_client_prepare_seqno c0).2 /\ connected (ssn_client_prepare_seqno c0).2 = true /\
    cl_valid (ssn_client_prepare_seqno c0).2 = true /\ conn_fd (ssn_client_prepare_seqno c0).2 = conn_fd c /\
    sub_handlers (ssn_client_prepare_seqno c0).2 = mk_sub_handler cb arg (url_bytes url) :: sub_handlers c) as (Hi1 & Hc1 & Hv1 & Hfd1 & Hsub1).
  { assert (client_inv (k + 1) c0) by (apply inv_ref; auto with ssn).
    unfold ssn_client_prepare_seqno. destruct (_ =? 0); (split; [by apply inv_set_seqnos|by split_and!]). }
  destruct (ssn_client_prepare_seqno c0) as [sq c1]. cbn [fst snd] in *. subst sq.
  destruct (client_sendmsg_good (k + 1) c1 (ssn_create_header SSN_MSG_TYPE_SUBSCRIBE 0 (ssn_client_prepare_seqno c).1) url None w0 Hi1 Hc1 Hr)
    as (r & t3 & w1 & E & Hi3). rewrite E.
  destruct r; [|by destruct (ssn_client_unref _ _ _) as [[? ?]|]].
  apply (client_sendmsg_frame (k + 1)) in E as (Hn & Htx & t4 & Et & Hfd); [|done..].
  destruct (unref_keep fire k (cl_set_transport c1 (Some t3)) w1) as [-> Hi']; [right; split; [done|by cbn]|done|].
  intros ?; simplify_eq. split; [done|]. split; [done|]. split; [done|]. split.
  - rewrite Hfd1, Htx0 in Htx. exact Htx.
  - unfold publish_target. cbn [sub_handlers cl_set_ref cl_set_transport]. rewrite Hsub1. cbn [find_handler sh_url].
    rewrite bool_decide_true by done. cbn. by rewrite (proj2 (Z.eqb_neq cb 0) Hcb).
Qed.
End ask.

(** ** Claims *)

Definition publish_packet (url : option ssn_url_ref_t) (data : option ssn_data_ref_t) : packet :=
  mk_packet SSN_MSG_TYPE_PUBLISH 0 0 (url_bytes url) (data_bytes data).

Lemma subscribe_packet_ok c url :
  0 <= next_non_pending_seqno c < 2 ^ 16 -> refs_ok url None -> ~ refused url None -> packet_ok (subscribe_packet c url).
Proof.
  intros Hs Hr Hn. split; [by vm_compute|]. split; [done|]. split; [|by apply (fits_refs url None)].
  cbn. unfold ssn_client_prepare_seqno. destruct (_ =? 0); cbn; lia.
Qed.
Lemma publish_packet_ok url data : refs_ok url data -> ~ refused url data -> packet_ok (publish_packet url data).
Proof. intros Hr Hn. split; [by vm_compute|]. split; [done|]. split; [done|by apply fits_refs]. Qed.

(** C13.  A publication, end to end.  A subscription the client accepts puts the
    SUBSCRIBE packet on its connection.  A server that receives the last part of
    these bytes on an idle connection acknowledges them there and from then on
    has a connection that listens to the URL.  As long as it listens, on a
    descriptor of its own, a publication under the URL goes to it, all of it or,
    when the connection breaks, a part of it.  A client that still has the
    handler and receives the last part of the publication makes exactly one
    callback, the one given with the subscription, with the URL and the payload
    that were published. *)
Theorem pubsub_end_to_end {W} `{OsLaws W} fire (c c1 c2 : ssn_client) url cb arg ms (w w1 w2 ws wp : W)
    (user : server_event -> ssn_server -> W -> list api_call) k k' (s sp : ssn_server) id cli clip data rfds rfds2 :
  client_inv 0 c -> 0 <= next_non_pending_seqno c < 2 ^ 16 -> refs_ok url None -> cb <> 0 ->
  ssn_client_subscribe fire c url cb arg ms w = Some (true, c1, w1) ->
  server_inv k s -> srv_valid s = true -> server_gets s id cli (wire (subscribe_packet c url)) rfds ws ->
  (forall n b t w', ssn_transport_recv (cli_transport cli) SSN_MAX_PACKET_SIZE 0 ws = (n, b, t, w') -> (os_calloc w').1 = true) ->
  server_inv k' sp -> srv_valid sp = true -> ssn_server_cli_find sp id = Some clip -> listens (url_bytes url) clip ->
  (forall id' c', id' <> id -> ssn_server_cli_find sp id' = Some c' -> fd_of c' <> fd_of clip) ->
  refs_ok url data -> ~ refused url data ->
  client_inv 0 c2 -> publish_target c2 (url_bytes url) = publish_target c1 (url_bytes url) ->
  client_gets c2 (wire (publish_packet url data)) rfds2 w2 ->
  os_tx w1 (conn_fd c) = os_tx w (conn_fd c) ++ wire (subscribe_packet c url) /\
  (exists s' ws', ssn_server_handle_client_input user s id rfds ws = Some (s', ws') /\ server_inv k s' /\
     srv_valid s' = true /\
     sent_to (frame SSN_MSG_TYPE_SUBSCRIBE 0 (p_seqno (subscribe_packet c url)) [] []) id cli ws s' ws' /\
     exists cli', ssn_server_cli_find s' id = Some cli' /\ listens (url_bytes url) cli') /\
  (exists s' wp', ssn_server_publish sp url data wp = Some (true, s', wp') /\ server_inv k' s' /\
     sent_to (wire (publish_packet url data)) id clip wp s' wp') /\
  (exists c3 w3, ssn_client_process_events (fire_at silent_user 2) c2 rfds2 w2 = Some (true, c3, w3) /\
     live (pend c3) = live (pend c2) /\
     fired c3 = fired c2 ++ [EvMsg cb arg (url_part (url_bytes url)) (data_part (data_bytes data))]).
Proof.
  intros Hi Hseq Hr Hcb Hsub His Hvs Hgot Hok Hip Hvp Hfp [Hact Hmatch] Hdis Hrd Hnd Hi2 Hsame Hgot2.
  assert (exists u, checked_url url = Some u) as [u Hu].
  { unfold ssn_client_subscribe in Hsub. destruct (checked_url url); eauto. done. }
  destruct (checked_url_bytes url u Hr Hu) as [-> Hslash].
  destruct (subscribe_accepted fire 0 c url cb arg ms w c1 w1) as (_ & Hn & _ & Htx & Htgt); [done..|].
  split; [done|]. split; [|split].
  - by apply (receive_subscribes user k s id cli (subscribe_packet c url)); try (apply subscribe_packet_ok).
  - destruct (publish_spec k' sp url data (url_bytes url) wp) as (s' & wp' & E & Hi' & Hsent & _); [done..|].
    exists s', wp'. split; [done|]. split; [done|]. apply Hsent; [done|by rewrite Hact, Hmatch|eauto].
  - destruct (receive_publication 0 c2 (publish_packet url data) cb arg rfds2 w2) as (c3 & w3 & E & Hl & _ & Hf);
      [done|by apply publish_packet_ok|done|by rewrite <- Htgt|done|]. by exists c3, w3.
Qed.

(** ** Witness *)

Definition demo_subscribing : option (bool * ssn_client * sim_world) :=
  ssn_client_subscribe (fire_at silent_user 2) demo_client demo_url_ref 13 3 1000 (demo_inbox []).
Definition demo_told : ssn_client := match demo_subscribing with Some (_, c, _) => c | None => demo_client end.
(** The server after it took the subscription. *)
Definition demo_listener : ssn_server_cli_t := mk_cli true false [[47; 97]] 5000 true new_recv (demo_transport 5) 0.
Definition demo_publisher : ssn_server := cli_put demo_one demo_listener.

Lemma demo_publisher_inv : server_inv 0 demo_publisher.
Proof. by apply (put_plain 0 demo_one 0 demo_cli); [exact demo_one_inv|..]. Qed.
Lemma demo_publisher_one id c : ssn_server_cli_find demo_publisher id = Some c -> id = 0.
Proof.
  intros Hf. assert (id ∈ map cli_id (concat (clis demo_publisher))) as Hin.
  { apply find_in_table; [apply demo_publisher_inv|congruence]. }
  apply list_elem_of_singleton. exact Hin.
Qed.
Lemma demo_sub_refs : refs_ok demo_url_ref None /\ refs_ok demo_url_ref demo_payload /\ ~ refused demo_url_ref demo_payload.
Proof.
  split; [|split]; [repeat split; vm_compute; discriminate || reflexivity..|].
  intros [Hr|[Hr|[(n & Hr & _)|(n & Hr & _)]]]; [vm_compute in Hr; discriminate Hr..| |]; discriminate Hr.
Qed.
Lemma demo_told_inv w1 : demo_subscribing = Some (true, demo_told, w1) -> client_inv 0 demo_told.
Proof.
  intros E. apply (subscribe_accepted (fire_at silent_user 2) 0 demo_client demo_url_ref 13 3 1000 (demo_inbox []) demo_told w1);
    [done|exact demo_client_inv|apply demo_sub_refs|done|exact E].
Qed.

Lemma pubsub_end_to_end_witness :
  let q := wire (subscribe_packet demo_client demo_url_ref) in
  let p := frame SSN_MSG_TYPE_PUBLISH 0 0 [47; 97] [1; 2; 3] in
  exists w1, demo_subscribing = Some (true, demo_told, w1) /\ sim_tx w1 4 = q /\
    (exists s' ws' cli', ssn_server_handle_client_input demo_echo demo_one 0 [5] (demo_inbox [q]) = Some (s', ws') /\
       ssn_server_cli_find s' 0 = Some cli' /\ listens [47; 97] cli') /\
    (exists s' wp', ssn_server_publish demo_publisher demo_url_ref demo_payload (demo_inbox []) = Some (true, s', wp') /\
       sent_to p 0 demo_listener (demo_inbox []) s' wp') /\
    (exists c3 w3, ssn_client_process_events (fire_at silent_user 2) demo_told [4] (demo_inbox [p]) = Some (true, c3, w3) /\
       fired c3 = [EvMsg 13 3 (mk_url_ref (Some [47; 97]) 2) (mk_data_ref (Some [1; 2; 3]) 3)]).
Proof.
  intros q p. destruct demo_subscribing as [[[r c1] w1]|] eqn:E; [|vm_compute in E; discriminate E].
  assert (demo_subscribing = Some (true, demo_told, w1)) as E2.
  { unfold demo_told. rewrite E. f_equal. f_equal. f_equal. vm_compute in E. injection E as <- _ _. reflexivity. }
  assert (wire (publish_packet demo_url_ref demo_payload) = p) as Ep by (vm_compute; reflexivity).
  exists w1. split; [rewrite <- E2, E; reflexivity|].
  destruct (pubsub_end_to_end (fire_at silent_user 2) demo_client demo_told demo_told demo_url_ref 13 3 1000
    (demo_inbox []) w1 (demo_inbox [p]) (demo_inbox [q]) (demo_inbox []) demo_echo 0 0 demo_one demo_publisher 0 demo_cli
    demo_listener demo_payload [5] [4]) as (Htx & (s1 & ws1 & Es & _ & _ & _ & cli' & Hf & Hl) & (s2 & wp & Epub & _ & Hsent) & (c3 & w3 & Ec & _ & Hfired)).
  - exact demo_client_inv.
  - vm_compute. split; [discriminate|reflexivity].
  - apply demo_sub_refs.
  - discriminate.
  - exact E2.
  - exact demo_one_inv.
  - vm_compute. reflexivity.
  - split; [vm_compute; reflexivity|]. split; [vm_compute; discriminate|]. split; [vm_compute; by left|].
    eexists q, _, _. split; [vm_compute; reflexivity|]. split; vm_compute; reflexivity.
  - intros n b t w' Hrecv. vm_compute in Hrecv. injection Hrecv as _ _ _ <-. reflexivity.
  - exact demo_publisher_inv.
  - reflexivity.
  - vm_compute. reflexivity.
  - split; vm_compute; reflexivity.
  - intros id' c' Hne Hf'. destruct (Hne (demo_publisher_one id' c' Hf')).
  - apply demo_sub_refs.
  - apply demo_sub_refs.
  - exact (demo_told_inv w1 E2).
  - reflexivity.
  - rewrite Ep. split; [vm_compute; reflexivity|]. split; [vm_compute; reflexivity|]. split.
    + left. rewrite list_elem_of_singleton. vm_compute. discriminate.
    + eexists _, p, _, _. split; [vm_compute; reflexivity|]. split; [vm_compute; discriminate|]. split; [vm_compute; by left|].
      split; [vm_compute; reflexivity|]. split; vm_compute; reflexivity.
  - rewrite Ep in Hsent. split; [|split; [|split]].
    + change (os_tx (demo_inbox []) (conn_fd demo_client)) with (@nil Z) in Htx.
      assert (conn_fd demo_client = 4) as Efd by (vm_compute; reflexivity). rewrite Efd in Htx. exact Htx.
    + exists s1, ws1, cli'. split; [exact Es|]. split; [exact Hf|exact Hl].
    + exists s2, wp. split; [exact Epub|exact Hsent].
    + exists c3, w3. split; [exact Ec|]. rewrite Hfired. vm_compute. reflexivity.
Defined.
