(* ===== verification/Typed.v ===== *)
(** * Typed calls

    The templates of the headers, [SsnClient::Call] and
    [SsnService::RegisterMethod]: conversions around the JSON layer.  The
    conversions of a type are its own, [to_json] and [from_json], and form the
    interface [Dto]. *)
From Stdlib Require Import String.
From S2P Require Import Prelude FrameCodec HashTable ErrorCode Os Transport Address FrameSend EventPair Server ServerTable ServerProps ServerTheorems ServerPubSub ClientPending Client ClientProps ClientTheorems ClientClaims ClientLive Node NodeProps NodeClaims EndToEnd Service Json SsnService SsnServiceClaims SsnClient SsnClientClaims JsonCall.
#[local] Open Scope Z_scope.

(** [from_json] answers [None] when [get] throws. *)
Class Dto (T J : Type) := { to_json : T -> J; from_json : J -> option T }.

(** What a typed function does: give a value, or throw. *)
Inductive method_outcome (T : Type) := Value (x : T) | ThrowStd | ThrowOther.
Arguments Value {T} _.
Arguments ThrowStd {T}.
Arguments ThrowOther {T}.

Section typed.
Context {J : Type} `{Json J} {W : Type} `{OsOps W}.

(** ** Service side *)

Section method.
Context {Req Resp : Type} `{Dto Req J} `{Dto Resp J} (fn : Req -> W -> method_outcome Resp).

(** The request as the method sees it, and what comes of it. *)
Definition typed_result (jreq : J) (w : W) : method_outcome Resp :=
  match from_json jreq with Some req => fn req w | None => ThrowStd end.
(** The function the template registers. *)
Definition typed_handler (jreq : J) (w : W) : handler_result (J := J) :=
  match typed_result jreq w with
  | Value resp => Answer (to_json resp)
  | ThrowStd => StdException
  | ThrowOther => OtherException
  end.
End method.

(** [f] names the function object the template makes; [wraps app f fn] says which
    one that is. *)
Definition RegisterMethod (s : SsnService) (url : bytes) (f : Z) : bool * SsnService := registerJson s url f.
Definition wraps {Req Resp} `{Dto Req J} `{Dto Resp J} (app : Z -> J -> W -> handler_result (J := J)) (f : Z)
    (fn : Req -> W -> method_outcome Resp) : Prop :=
  forall j w, app f j w = typed_handler fn j w.

(** ** Client side *)

Section call.
Context {Req Resp : Type} `{Dto Req J} `{Dto Resp J} (g : factory).

Definition Call_begin (late_ok : bool) (c : SsnClient J) (url : bytes) (req : Req) (timeout_ms : Z) (w : W)
  : option (exc bool * SsnClient J * W) :=
  callJson_begin g late_ok c url (to_json req) timeout_ms w.
(** The result and the caller's [resp] afterwards. *)
Definition Call_end (c : SsnClient J) (resp : Resp) : exc bool * Resp :=
  match callJson_end c with
  | (Ret true, Some jresp) => match from_json jresp with Some x => (Ret true, x) | None => (Throw, resp) end
  | (Ret _, _) => (Ret false, resp)
  | (Throw, _) => (Throw, resp)
  end.
End call.
End typed.

(** ** What a registered method answers *)

Section answers.
Context {J : Type} `{JsonLaws J} {W : Type} `{OsOps W}.
Context (app : Z -> J -> W -> handler_result (J := J)).
Context {Req Resp : Type} `{Dto Req J} `{Dto Resp J} (fn : Req -> W -> method_outcome Resp).

Definition typed_answer (r : method_outcome Resp) : Z * J :=
  match r with
  | Value x => (kStatusOk, to_json x)
  | ThrowStd => (kStatusFail, make_error kErrHandlerException MSG_EXCEPTION)
  | ThrowOther => (kStatusFail, make_error kErrHandlerException MSG_UNKNOWN)
  end.

(** A method that was registered is found under its URL. *)
Lemma register_found s s' url f : RegisterMethod s url f = (true, s') -> methods_ s' !! url = Some (HUser f).
Proof.
  unfold RegisterMethod, registerJson. intros Hreg.
  destruct (_ || _); [done|]. destruct (trailing_slash url); [done|]. destruct (reserved url); [done|].
  destruct (methods_ s !! url); [done|]. injection Hreg as <-. apply lookup_insert_eq.
Qed.

(** It answers with its function. *)
Lemma method_answers s url f j body w :
  methods_ s !! url = Some (HUser f) -> wraps app f fn -> clean j -> dump j = Some body ->
  answer_of app (counted s) url body w = typed_answer (typed_result fn j w).
Proof.
  intros Hm Hw Hc Hd. destruct (dump_parse j Hc) as (b & Hb & Hne & Hp). simplify_eq.
  unfold answer_of. cbn [counted methods_ svc_set_counts]. rewrite Hm. destruct body; [done|].
  rewrite Hp. cbn [call_handler]. rewrite (Hw j w). unfold typed_handler. by destruct (typed_result fn j w).
Qed.
End answers.

(** A typed call, end to end: the request goes out as the text of [req], a service
    in which the URL has a method made by [RegisterMethod] writes one answer, and
    when the client's thread has completed it [Call] returns true with the value of
    the method as the client's type reads it, throws when it cannot read it, and
    returns false with [resp] untouched when the method threw or could not read
    the request. *)
Theorem typed_call_end_to_end {J} `{JsonLaws J} {W} `{OsLaws W} {Req Resp Req' Resp' : Type}
    `{Dto Req J} `{Dto Resp J} `{Dto Req' J} `{Dto Resp' J} (g : factory) (app : Z -> J -> W -> handler_result (J := J))
    (memory : W -> SsnService) (fn : Req' -> W -> method_outcome Resp') (f : Z) (r : method_outcome Resp')
    (late_ok : bool) (url : bytes) (req : Req) (resp : Resp) (ms : Z) (c c1 c2 : SsnClient J)
    (n n1 n2 : ssn_node) (cl cl1 cl2 : ssn_client) (w w1 w2 ws : W) (k id : Z) (sv : ssn_server)
    (scli : ssn_server_cli_t) (body answer : bytes) (rfds : list Z) (signals : nat) :
  works_on c n cl -> ssn_client_is_connect cl = true -> 0 <= cl_seqno cl < 2 ^ 16 ->
  zlen url < 2 ^ 63 -> clean (to_json req) -> dump (to_json req) = Some body -> zlen body < 2 ^ 63 ->
  Call_begin g late_ok c url req ms w = Some (Ret true, c1, w1) -> sc_node c1 = Some n1 -> nd_client n1 = Some cl1 ->
  server_inv k sv -> srv_valid sv = true -> rpc_only sv -> is_Some (def_cmd sv) ->
  (forall w, methods_ (memory w) !! url = Some (HUser f)) -> wraps app f fn ->
  (forall w, typed_result fn (to_json req) w = r) ->
  (forall x, r = Value x -> clean (to_json x) /\ error_message_of (to_json x) = Ret []) ->
  dump (typed_answer r).2 = Some answer -> zlen answer <= SSN_MAX_PAYLOAD_SIZE ->
  server_gets sv id scli (wire (json_request (cl_seqno cl) url body)) rfds ws ->
  works_on c2 n2 cl2 -> get_pending_snapshot (pend cl2) (cl_seqno cl) = get_pending_snapshot (pend cl1) (cl_seqno cl) ->
  poll_gets c2 cl2 (wire (json_answer (typed_answer r).1 (cl_seqno cl) answer)) w2 ->
  os_tx w1 (conn_fd cl) = os_tx w (conn_fd cl) ++ wire (json_request (cl_seqno cl) url body) /\
  (exists sv' ws', ssn_server_handle_client_input (service_user app memory) sv id rfds ws = Some (sv', ws') /\
     server_inv k sv' /\ sent_to (wire (json_answer (typed_answer r).1 (cl_seqno cl) answer)) id scli ws sv' ws') /\
  (exists c3 w3, pollLoop_step g signals c2 w2 = Some (c3, w3) /\
     Call_end c3 resp = match r with
                        | Value x => match from_json (to_json x) with Some y => (Ret true, y) | None => (Throw, resp) end
                        | _ => (Ret false, resp)
                        end).
Proof.
  intros Hw Hcon Hseq Hu Hcr Hd Hbody Hcall En1 Ecl1 Hi Hv Hr Hdef Hm Hwrap Hrun Hval Hdj Hlen Hsg Hw2 Hsame Hpg.
  destruct (json_call_spec g app memory late_ok url (to_json req) ms c c1 c2 n n1 n2 cl cl1 cl2 w w1 w2 ws k id sv scli
    (typed_answer r).1 (typed_answer r).2 body answer rfds signals) as (Htx & Hs & c3 & w3 & E & Hok & Hfail); try done.
  { intros w0. rewrite (method_answers app fn _ _ f _ body) by done. rewrite Hrun. apply surjective_pairing. }
  { destruct r as [x| |]; [|done..]. intros _. by apply (Hval x). }
  split; [done|]. split; [done|]. exists c3, w3. split; [done|]. unfold Call_end. destruct r as [x| |].
  - rewrite Hok; [done..|by apply (Hval x)].
  - by rewrite Hfail.
  - by rewrite Hfail.
Qed.

(** ** Witness *)

(** Texts as JSON strings, and the method that gives its argument back. *)
#[local] Instance text_dto : Dto bytes tree := { to_json s := jstring s; from_json := jget_string }.
Definition demo_echo_fn : bytes -> sim_world -> method_outcome bytes := fun x _ => Value x.
Definition demo_typed_app : Z -> tree -> sim_world -> handler_result (J := tree) := fun _ => typed_handler demo_echo_fn.

Lemma typed_call_end_to_end_witness :
  let q := wire (json_request 2 (str "/a") demo_body) in
  let a := wire (json_answer 0 2 demo_body) in
  let c2 := demo_json_client (nd_set_client demo_json_node (Some demo_waiting)) in
  (exists sv' ws', ssn_server_handle_client_input (service_user demo_typed_app (fun _ => demo_running)) demo_busy_server 0 [5] (demo_inbox [q])
     = Some (sv', ws') /\ sent_to a 0 demo_busy_cli (demo_inbox [q]) sv' ws') /\
  (exists c3 w3, pollLoop_step demo_factory 0 c2 (demo_inbox [a]) = Some (c3, w3) /\ Call_end c3 [] = (Ret true, str "x")).
Proof.
  intros q a c2. assert (cl_seqno demo_client = 2) as En by (vm_compute; reflexivity).
  assert ((fun r => r.1.1) <$> demo_begun = Some (Ret true)) as Hb by (vm_compute; reflexivity).
  destruct demo_begun as [[[r c1] w1]|] eqn:E; [|discriminate Hb]. cbn in Hb. injection Hb as ->.
  assert (demo_called = c1) as Ec1 by (unfold demo_called; by rewrite E).
  destruct (sc_node c1) as [n1|] eqn:En1; [|exfalso; rewrite <- Ec1 in En1; vm_compute in En1; discriminate En1].
  destruct (nd_client n1) as [cl1|] eqn:Ecl1.
  2:{ exfalso. assert ((sc_node demo_called ≫= nd_client) = None) as Hx by (rewrite Ec1, En1; exact Ecl1). vm_compute in Hx. discriminate Hx. }
  destruct (typed_call_end_to_end demo_factory demo_typed_app (fun _ => demo_running) demo_echo_fn 7 (Value (str "x")) true
    (str "/a") (str "x") [] 1000 demo_caller c1 c2
    demo_json_node n1 (nd_set_client demo_json_node (Some demo_waiting)) demo_client cl1 demo_waiting
    (demo_inbox []) w1 (demo_inbox [a]) (demo_inbox [q]) 0 0 demo_busy_server demo_busy_cli demo_body demo_body [5] 0)
    as (_ & Hs & Hc).
  - exact demo_caller_works.
  - vm_compute. reflexivity.
  - rewrite En. lia.
  - vm_compute. reflexivity.
  - vm_compute. reflexivity.
  - vm_compute. reflexivity.
  - vm_compute. reflexivity.
  - exact E.
  - exact En1.
  - exact Ecl1.
  - exact demo_busy_inv.
  - vm_compute. reflexivity.
  - apply demo_busy_rpc.
  - apply demo_busy_rpc.
  - intros w. vm_compute. reflexivity.
  - intros j w. reflexivity.
  - intros w. vm_compute. reflexivity.
  - intros x Hx. injection Hx as <-. split; vm_compute; reflexivity.
  - vm_compute. reflexivity.
  - vm_compute. discriminate.
  - rewrite En. fold q. split; [vm_compute; reflexivity|]. split; [vm_compute; discriminate|]. split; [vm_compute; by left|].
    eexists q, _, _. split; [vm_compute; reflexivity|]. split; vm_compute; reflexivity.
  - apply demo_works_on; [exact demo_waiting_inv|vm_compute; reflexivity|reflexivity].
  - rewrite En. symmetry. apply demo_same_pending. rewrite Ec1, En1. exact Ecl1.
  - rewrite En. change (wire (json_answer _ 2 demo_body)) with a. exact demo_waiting_gets.
  - split.
    + destruct Hs as (sv' & ws' & Es & _ & Hsent). exists sv', ws'. split; [exact Es|]. rewrite En in Hsent. exact Hsent.
    + destruct Hc as (c3 & w3 & Ep & Hend). exists c3, w3. split; [exact Ep|]. rewrite Hend. vm_compute. reflexivity.
Defined.
