(* ===== verification/Platform.v ===== *)
(** * Logging and the rest of the platform layer ([src/src/util/ssn_log.c],
    [src/src/vsi/ipc_mutex.c], [ipc_socket.c], [ipc_thread.c])

    The log's level and stream, the line [ssn_log_write] makes and how the lines of
    several threads share a stream; mutexes, socket wrappers and sleeping on
    Linux. *)
From Stdlib Require Import String.
From S2P Require Import Prelude FrameCodec HashTable ErrorCode Os Transport Address FrameSend EventPair Server ClientPending Client Locks.
#[local] Open Scope Z_scope.

(** ** Logging *)

Definition SSN_LOG_LEVEL_DEBUG : Z := 0.
Definition SSN_LOG_LEVEL_INFO : Z := 1.
Definition SSN_LOG_LEVEL_WARN : Z := 2.
Definition SSN_LOG_LEVEL_ERROR : Z := 3.
Definition SSN_LOG_LEVEL_FATAL : Z := 4.
Definition g_log_level_strings : list bytes := [str "DEBUG"; str "INFO"; str "WARN"; str "ERROR"; str "FATAL"].

(** Streams are numbers; [None] is the null pointer. *)
Definition STDERR : Z := 2.
Record log_state := mk_log { g_log_level : Z; g_log_file : option Z }.
Definition log_start : log_state := mk_log SSN_LOG_LEVEL_ERROR None.
Definition ssn_log_set_level (l : log_state) (level : Z) : log_state := mk_log level (g_log_file l).
Definition ssn_log_get_level (l : log_state) : Z := g_log_level l.
Definition ssn_log_set_file (l : log_state) (file : option Z) : log_state := mk_log (g_log_level l) file.
Definition ssn_log_get_file (l : log_state) : Z := default STDERR (g_log_file l).

(** [%lx] of an [unsigned long]. *)
Definition hex_digit (d : Z) : Z := if d <? 10 then 48 + d else 87 + d.
Fixpoint hex_loop (fuel : nat) (n : Z) (acc : bytes) : bytes :=
  match fuel with
  | O => acc
  | S fuel =>
    let acc := hex_digit (n mod 16) :: acc in
    if n / 16 =? 0 then acc else hex_loop fuel (n / 16) acc
  end.
Definition hex (n : Z) : bytes := hex_loop 16 n [].

(** A call: its arguments, the formatted text, and the time and thread it finds. *)
Record log_call := mk_call {
  lc_level : Z; lc_file : bytes; lc_line : Z; lc_func : bytes; lc_text : bytes; lc_time : bytes; lc_thread : Z;
}.
Definition log_prefix (name : bytes) (c : log_call) : bytes :=
  str "[" ++ lc_time c ++ str "] [" ++ name ++ str "] [" ++ hex (lc_thread c) ++ str "] [" ++ lc_file c ++ str ":" ++
  dec (lc_line c) ++ str "] " ++ lc_func c ++ str "(): ".

(** The stream and the texts it is given, one per stdio call; [None] when the table
    of names is read outside its bounds. *)
Definition ssn_log_write (l : log_state) (c : log_call) : option (list (Z * bytes)) :=
  if lc_level c <? g_log_level l then Some []
  else if lc_level c <? 0 then None
  else match g_log_level_strings !! Z.to_nat (lc_level c) with
  | None => None
  | Some name =>
    let output := ssn_log_get_file l in
    Some [(output, log_prefix name c); (output, lc_text c); (output, [10])]
  end.

(** What a stream holds after some calls of stdio. *)
Definition stream_text (f : Z) (out : list (Z * bytes)) : bytes :=
  List.concat (map snd (filter (fun x => x.1 = f) out)).

Lemma stream_text_app f l k : stream_text f (l ++ k) = stream_text f l ++ stream_text f k.
Proof. unfold stream_text. by rewrite filter_app, map_app, concat_app. Qed.

(** A message below the level leaves every stream alone.  One at the level or above
    adds a single line, with its name, to the chosen stream and nothing to others. *)
Theorem log_level_filters (l : log_state) (c : log_call) (f : Z) :
  0 <= lc_level c <= SSN_LOG_LEVEL_FATAL ->
  exists out name, ssn_log_write l c = Some out /\ g_log_level_strings !! Z.to_nat (lc_level c) = Some name /\
    stream_text f out =
      if (ssn_log_get_level l <=? lc_level c) && (f =? ssn_log_get_file l)
      then log_prefix name c ++ lc_text c ++ [10] else [].
Proof.
  unfold SSN_LOG_LEVEL_FATAL. intros Hl.
  destruct (lookup_lt_is_Some_2 g_log_level_strings (Z.to_nat (lc_level c))) as [name Hn]; [cbn; lia|].
  unfold ssn_log_write, ssn_log_get_level. rewrite Hn. rewrite (proj2 (Z.ltb_ge (lc_level c) 0)) by lia.
  destruct (Z.ltb_spec (lc_level c) (g_log_level l)) as [Hlt|Hge].
  - exists [], name. rewrite (proj2 (Z.leb_gt _ _)) by lia. by split_and!.
  - eexists _, name. split; [done|]. split; [done|]. rewrite (proj2 (Z.leb_le _ _)) by lia. cbn [andb].
    unfold stream_text. rewrite !filter_cons. cbn [fst]. destruct (Z.eqb_spec f (ssn_log_get_file l)) as [->|Hf].
    + by rewrite !decide_True.
    + by rewrite !decide_False by congruence.
Qed.

(** A level past the last one is written with a name read past the table. *)
Theorem log_level_past_table l c :
  SSN_LOG_LEVEL_FATAL < lc_level c -> g_log_level l <= lc_level c -> ssn_log_write l c = None.
Proof.
  unfold SSN_LOG_LEVEL_FATAL. intros Hc Hl. unfold ssn_log_write.
  rewrite (proj2 (Z.ltb_ge _ _)) by lia. rewrite (proj2 (Z.ltb_ge _ 0)) by lia.
  by rewrite lookup_ge_None_2 by (cbn; lia).
Qed.

(** *** Threads that log at the same time *)

(** Each thread has the stdio calls left that it is going to make; a call is
    atomic, as stdio locks the stream, and is noted with its thread. *)
Definition log_threads : Type := list (list (Z * bytes)) * list (nat * (Z * bytes)).
Definition log_step (i : nat) (s : log_threads) : log_threads :=
  match s.1 !! i with
  | Some (x :: rest) => (<[i := rest]> s.1, s.2 ++ [(i, x)])
  | _ => s
  end.
Definition log_run (sched : list nat) (s : log_threads) : log_threads := fold_left (fun s i => log_step i s) sched s.
Definition of_thread (i : nat) (out : list (nat * (Z * bytes))) : list (Z * bytes) :=
  map snd (filter (fun x => x.1 = i) out).

Lemma log_step_keeps i j s :
  of_thread j (log_step i s).2 ++ default [] ((log_step i s).1 !! j) = of_thread j s.2 ++ default [] (s.1 !! j).
Proof.
  unfold log_step. destruct (s.1 !! i) as [[|x rest]|] eqn:E; try done. cbn [fst snd].
  unfold of_thread. rewrite filter_app, map_app, filter_cons, filter_nil. cbn [fst].
  destruct (decide (i = j)) as [->|Hne].
  - rewrite E, list_lookup_insert_eq by (by eapply lookup_lt_Some). cbn. by rewrite <- app_assoc.
  - rewrite list_lookup_insert_ne by done. cbn. by rewrite app_nil_r.
Qed.

(** Under every schedule a thread's calls come out in its order: what it has written
    followed by what it has left is what it set out to write.  Nothing is lost or
    doubled. *)
Theorem log_keeps_thread_order (progs : list (list (Z * bytes))) (sched : list nat) (j : nat) :
  let s := log_run sched (progs, []) in
  of_thread j s.2 ++ default [] (s.1 !! j) = default [] (progs !! j).
Proof.
  intros s. subst s. change (default [] (progs !! j)) with (of_thread j (progs, @nil (nat * (Z * bytes))).2 ++ default [] ((progs, @nil (nat * (Z * bytes))).1 !! j)).
  generalize (progs, @nil (nat * (Z * bytes))). induction sched as [|i sched IH]; intros s; [done|].
  cbn [log_run fold_left]. fold (log_run sched (log_step i s)). by rewrite IH, log_step_keeps.
Qed.

(** The lines themselves may mix: a line is three calls. *)
Definition demo_log (t : bytes) : log_call := mk_call SSN_LOG_LEVEL_ERROR (str "f.c") 7 (str "f") t (str "now") 1.
Theorem log_lines_mix :
  exists p q sched, ssn_log_write log_start (demo_log (str "a")) = Some p /\
    ssn_log_write log_start (demo_log (str "b")) = Some q /\
    let s := log_run sched ([p; q], []) in
    s.1 = [[]; []] /\
    stream_text STDERR (map snd s.2) <> stream_text STDERR (p ++ q) /\
    stream_text STDERR (map snd s.2) <> stream_text STDERR (q ++ p).
Proof.
  eexists _, _, [0; 1; 0; 1; 0; 1]%nat. split; [vm_compute; reflexivity|]. split; [vm_compute; reflexivity|].
  vm_compute. split; [reflexivity|]. split; discriminate.
Qed.

(** ** Mutexes *)

(** A NULL mutex is followed.  A mutex that is held makes its taker wait, also the
    thread that holds it. *)
Definition ipc_mutex_lock (me : nat) (mutex : option lock_t) : lock_result :=
  match mutex with
  | None => LockUndefined
  | Some l => match holder_of l with Some _ => LockBlocks | None => LockGoes (Some (mk_lock (Some me))) end
  end.
Definition ipc_mutex_unlock (me : nat) (mutex : option lock_t) : lock_result :=
  match mutex with
  | None => LockUndefined
  | Some l => if decide (holder_of l = Some me) then LockGoes (Some (mk_lock None)) else LockUndefined
  end.

(** The thread that holds a mutex waits for itself when it takes it again, and what
    it took it gives back free. *)
Theorem mutex_not_recursive (me : nat) (m m' : option lock_t) :
  ipc_mutex_lock me m = LockGoes m' ->
  ipc_mutex_lock me m' = LockBlocks /\ ipc_mutex_unlock me m' = LockGoes m /\
  (forall other, other <> me -> ipc_mutex_lock other m' = LockBlocks /\ ipc_mutex_unlock other m' = LockUndefined).
Proof.
  destruct m as [[[h|]]|]; cbn; try done. intros [= <-]. cbn. split; [done|]. split; [by rewrite decide_True|].
  intros other Hne. split; [done|]. by rewrite decide_False by congruence.
Qed.

(** ** Sockets and sleeping *)

Definition SOCK_CLOEXEC : Z := 524288.
Definition SOCK_NONBLOCK : Z := 2048.
Section sockets.
Context {W : Type} `{OsOps W}.
Definition ipc_socket_create (family type : Z) (nonblocking : bool) (w : W) : Z * W :=
  let flags := if nonblocking then Z.lor SOCK_CLOEXEC SOCK_NONBLOCK else SOCK_CLOEXEC in
  os_socket family (Z.lor type flags) w.
Definition ipc_socket_close (sock : Z) (w : W) : W := os_close sock w.
End sockets.

(** A socket that was created and closed leaves no descriptor. *)
Theorem socket_create_close {W} `{OsLaws W} family type nonblocking (w w' : W) sock :
  ipc_socket_create family type nonblocking w = (sock, w') -> 0 <= sock ->
  sock ∈ os_open w' /\ os_open (ipc_socket_close sock w') = os_open w.
Proof.
  unfold ipc_socket_create, ipc_socket_close. set (ty := Z.lor type _). intros E Hs.
  pose proof (os_socket_open family ty w) as Ho. rewrite E in Ho. destruct (os_close_open sock w') as [-> _].
  destruct Ho as (_ & [[? _]|(_ & Hnew & ->)]); [lia|]. split; [set_solver|]. set_solver.
Qed.

(** The argument of [usleep]: an [unsigned int] product. *)
Definition ipc_thread_msleep (ms : Z) : Z := u32 (ms * 1000).
(** Up to 4294967 ms the sleep is as long as asked; longer ones wrap around. *)
Theorem msleep_bounds (ms : Z) : 0 <= ms < 2 ^ 32 -> ipc_thread_msleep ms = ms * 1000 <-> ms <= 4294967.
Proof.
  intros Hms. unfold ipc_thread_msleep, u32. split; intros Hx.
  - pose proof (Z.mod_pos_bound (ms * 1000) (2 ^ 32) ltac:(lia)). lia.
  - apply Z.mod_small. lia.
Qed.
